(* ===== verification/_CoqProject ===== *)
-Q . S2P
Prelude.v
Text.v
Json.v
TaskSettings.v
TaskDomain.v
TaskStore.v
TaskStoreInv.v
TaskClaims.v
TaskProposals.v
TaskListing.v
Dispatcher.v
TaskWorld.v
RunService.v
RunProps.v
TaskService.v
ServiceProps.v
TaskRecords.v
InformationFlow.v
FlowProps.v
Scrubber.v
Budget.v
BudgetProps.v
DelegationDomain.v
DelegationPolicy.v
DelegationStore.v
DelegationInv.v
DelegationProps.v
DelegationLedger.v
DelegationRun.v
DelegationDrive.v
DelegationLive.v
DelegationGather.v
DelegationFinish.v
DelegationService.v
DelegateProps.v
AgentRuns.v
AgentRunProps.v
GatewayStore.v
Schedules.v
ScheduleProps.v
ScheduleClaims.v
Repr.v
ScheduleDelivery.v
Unicode.v
SessionStore.v
SessionService.v
SessionProps.v
SessionCopies.v
ScheduleRun.v
ScheduleRunProps.v
ScheduleService.v
ScheduleServiceProps.v
ToolGrants.v
GatewayCommands.v
GatewayChat.v
GatewayHistory.v
GatewayRegistry.v
ArtifactDomain.v
ArtifactStore.v
ArtifactHistory.v
ArtifactContent.v
ArtifactFiles.v
ArtifactService.v
ArtifactFlows.v
ArtifactProps.v
ArtifactCalls.v
ArtifactIntact.v
ArtifactEdits.v
Effects.v
ToolService.v
ToolProps.v
TurnPolicy.v
ContextHistory.v
ContextCompressor.v
AgentState.v
ContextService.v
AgentGraph.v
AgentGraphProps.v
ContextProps.v
