(* ===== verification/Prelude.v ===== *)
(** N-Agent: its tasks, delegations, runs, schedules, sessions, chat gateway and artifacts,
    verified.

    N-Agent (src/app/) is a Python agent runtime.  A user's request becomes a
    _task_, which a dispatcher claims and hands to a worker; a worker runs an agent,
    may call tools and models within a _budget_, and may _delegate_ parts of its
    work to child agents whose results are joined.  Conversations are _sessions_ of
    messages; a message comes from the dashboard, from a chat platform through the
    _gateway_, or from a _schedule_ whose runner claims what is due, runs the agent and
    delivers the answer.  Every run of an agent is entered in a ledger.  Everything durable is in
    SQLite tables reached through registries whose every method is one
    transaction; the services above them are asyncio code on one event loop.  This
    library models the registries, the aggregates and the services of these
    parts, and proves what makes them correct when several workers, services and
    restarts share them.

    * The parts, and the files that model them

    All paths are under src/app/.  A definition keeps the name of the function
    it translates; a [*_sync] name is a method of a registry.

    - Prelude.v (this file): what all share.  Record update, exceptions as values
      ([result]), Python's string functions, JSON values, [int()] on text,
      sorting, lists; [PolicyOutcome] (domain/policy.py).
    - Text.v: lemmas on texts (cutting, joining, searching, replacing).  Json.v:
      [json.dumps] and its injectivity.

    Tasks.
    - TaskSettings.v: domain/task_config.py,
      infrastructure/registry/sqlite_task_config_store.py,
      application/task_config_service.py.
    - TaskDomain.v: domain/task.py, domain/task_policy.py.
    - TaskStore.v (the operations), TaskStoreInv.v (the invariant of their
      histories), TaskClaims.v, TaskProposals.v, TaskListing.v (theorems):
      infrastructure/registry/sqlite_task_registry.py.  [db] is the record of its
      tables.
    - Dispatcher.v: application/task_runner.py, the table of running workers.
      A type class states what the run service needs of a dispatcher; TaskRunner
      is its instance.
    - TaskWorld.v: the state shared by the services (tables, dispatcher, messages
      sent) and the monad of their methods.
    - RunService.v, RunProps.v: application/task_run_service.py.
    - TaskService.v, ServiceProps.v, TaskRecords.v: application/task_service.py.

    Budgets.
    - Budget.v, BudgetProps.v: domain/budget.py, domain/budget_policy.py,
      application/budget_service.py.

    Information flow.
    - InformationFlow.v, FlowProps.v: domain/information_flow.py,
      domain/information_flow_policy.py, application/information_flow_service.py.
    - Scrubber.v: utils/memory_scrubber.py, and how application/agent_graph.py
      ([_split_content_for_streaming], the delta loop of [stream_events]) streams
      an answer through it and through the stream guard.

    Delegations.
    - DelegationDomain.v: domain/delegation.py.
    - DelegationPolicy.v: domain/delegation_policy.py, with an independent
      statement of what an admissible request is.
    - DelegationStore.v (operations), DelegationInv.v (histories and their
      invariant), DelegationProps.v, DelegationLedger.v (theorems):
      infrastructure/registry/sqlite_delegation_registry.py.
    - DelegationRun.v: application/delegation_run_service.py and
      [_drive_to_terminal] of application/delegation_service.py.  A pass starts a
      coroutine per member; a coroutine is a process that runs from one [await]
      to the next, and a schedule interleaves the processes with one another,
      with other clients of the registry and with the kill switch.
    - DelegationDrive.v, DelegationLive.v, DelegationGather.v,
      DelegationFinish.v: theorems about it.
    - DelegationService.v, DelegateProps.v: application/delegation_service.py, with
      the parser of application/delegation_request_parser.py.

    Runs, schedules, sessions, gateway.
    - AgentRuns.v, AgentRunProps.v: domain/agent_run.py,
      infrastructure/registry/sqlite_agent_run_registry.py,
      application/agent_run_service.py, application/agent_run_retry_policy.py.
    - Schedules.v (operations), ScheduleProps.v, ScheduleClaims.v (theorems):
      domain/schedule.py, domain/schedule_policy.py,
      infrastructure/registry/sqlite_schedule_registry.py.
    - Repr.v: [repr] and [str] of JSON values, which some messages show.
      Unicode.v: texts as code points, where lengths matter, their encoding as UTF-8 and
      its decoding.
    - GatewayStore.v, GatewayRegistry.v: domain/gateway.py, domain/platform.py,
      domain/gateway_policy.py, infrastructure/registry/sqlite_gateway_registry.py.
    - SessionStore.v (operations), SessionProps.v, SessionCopies.v (theorems): infrastructure/memory/sqlite_store.py.  [database]
      is the record of all tables the deletion of a session touches, those of the
      runs, schedules, tasks and the gateway among them.
    - SessionService.v: application/session_service.py.
    - ScheduleDelivery.v: application/schedule_delivery_service.py,
      infrastructure/schedule/outbound.py, infrastructure/schedule/prompt_safety.py.
    - ScheduleRun.v, ScheduleRunProps.v: application/schedule_run_service.py,
      application/scheduled_agent_executor.py.
    - ScheduleService.v, ScheduleServiceProps.v: application/schedule_service.py.
    - ToolGrants.v: application/gateway_tool_approval_service.py.
    - GatewayCommands.v, GatewayChat.v (operations), GatewayHistory.v (theorems):
      application/gateway_service.py, application/platform_service.py.

    Artifacts (what agents and users keep: documents with revisions, and public snapshots).
    - ArtifactDomain.v: domain/artifact.py, domain/artifact_policy.py.
    - ArtifactStore.v (operations), ArtifactHistory.v (histories and theorems):
      infrastructure/registry/sqlite_artifact_registry.py.
    - ArtifactContent.v (operations), ArtifactFiles.v (theorems):
      infrastructure/artifact/content_store.py on a finite map from paths to directories,
      files and symbolic links.
    - ArtifactService.v, ArtifactFlows.v (operations), ArtifactProps.v, ArtifactCalls.v,
      ArtifactIntact.v, ArtifactEdits.v (theorems): application/artifact_service.py on the
      tables and the disk together.

    The agent loop (what a worker, a schedule and a conversation run).
    - Effects.v: calls that read and change a shared state and return or raise; rules for
      what they leave and what they keep.
    - ToolService.v, ToolProps.v: domain/tool.py, domain/tool_policy.py,
      application/tool_service.py, application/host_terminal_capability.py,
      infrastructure/tools/composite.py.  Definitions and requests are objects with an
      identity, which the service compares.
    - TurnPolicy.v: domain/turn_policy.py, domain/llm_policy.py, utils/content_utils.py.
    - ContextHistory.v, ContextCompressor.v, ContextService.v (operations), ContextProps.v
      (theorems): domain/context_policy.py, application/policy_projections.py,
      application/context_service.py, infrastructure/context/context_compressor.py.
    - AgentState.v, AgentGraph.v, AgentGraphProps.v: domain/agent.py and the nodes, the
      routing and the turn of application/agent_graph.py.  [Runtime] is the interface to
      the memory, the model, the hooks and the tools.

    * How they interact

    TaskService and TaskRunService act on [world] (TaskWorld.v), whose registry
    component only changes through TaskStore.v; that every service call is a
    sequence of registry operations is proved (ServiceProps.services_keep_registry),
    so every invariant of TaskStoreInv.v holds of the running program.  In the same
    way a scheduler pass is a sequence of operations of DelegationStore.v whatever
    else runs (DelegationDrive.passes_refine_registry).  [delegate] composes the
    parser, the admission policy, the budget service, the registry, the scheduler
    and the information flow service.  The policies are pure functions the
    services ask before they act.  The run of a schedule composes the registry, the
    policy on claims, the agent, the information flow service, the policy on outbound
    messages and the sending; the gateway composes its registry, the session service,
    the schedule service and the tool grants.  A turn of the agent composes the context
    service, the compressor, the model and turn policies, the tool service, the budget and
    the information flow; it is written against the interface [Runtime], so its theorems
    hold for every memory, model and set of tools.  What other coroutines do at an [await]
    is an argument, a function on the database, or a step of a history.

    * What the theorems show

    - Registry histories: a RUNNING task and its one live run are paired, a claim
      excludes all others, an ended run stays ended, a proposal is decided once, no
      update is lost, a bulk update is all or nothing (TaskClaims, TaskProposals).
    - Reading: keyset pagination lists each task once, the dispatch queue is exact
      (TaskListing); the schema migration maps every row to a legal status.
    - The run service: targets are legal in the transition table, the circuit
      breaker trips, the concurrency limit holds, recovery takes exactly the stale
      executions (RunProps).
    - The task service: approval, cancellation, attachments, idempotency, deletion
      by session (ServiceProps, TaskRecords).
    - Settings: edits are atomic under compare-and-swap, overrides survive being
      stored (TaskSettings).
    - Budgets: a request is allowed exactly when it fits, wall time among the limits;
      counters are exact and limits hold under any use (BudgetProps).
    - Delegations: admission is equivalent to its declarative statement; statuses
      follow the tables; a late worker is fenced off; the ledger is conserved while each
      reservation is settled or released once and within its amount; joins
      reflect the members; starting order is fair; a pass refines the registry; and
      under a fair schedule every delegation ends and its driver returns.
    - Delegating: a child gets no more than its parent may give; a call that fails
      before its delegation exists leaves nothing behind; what comes back carries no
      known secret; the fingerprint is the identity of a request (DelegateProps).
    - Information flow: when a release is allowed and what it hands out; structured
      redaction; a streamed answer is the scrubbed and redacted answer however it
      is cut (FlowProps, Scrubber).

    - Agent runs: rows only move along the life cycle, an ended row is final, a session
      has one unfinished foreground run, a run goes only with its session (SessionProps);
      who lost a lease writes nothing more and an end once decided is stored in the end
      (AgentRunProps).
    - Schedules: exactly the due and free tasks are claimed, in the order they are due and
      as many as asked for at most, a claim excludes all others,
      a superseded one has no effect, recovery takes exactly the stale executions; a
      claimed run comes to an end; a message leaves only for a held claim, to a trusted
      address and without a secret; tasks stay valid under the service; imports do not
      disturb a run (ScheduleProps, ScheduleClaims, ScheduleRunProps, ScheduleServiceProps).
    - Sessions: rows belong to stored sessions and to runs of the same session, deleting
      a session leaves nothing of it in the tables of the store, runs, links and tasks
      (schedules and delegations keep its name, for their handlers), a copy is faithful, the migration of ids takes every
      reference along (SessionProps, SessionCopies).
    - Gateway: rows of the registry fit together, an event is accepted once, a destructive
      command waits for its confirmation, which its author alone can give and only once;
      tool grants survive a restart (GatewayRegistry, GatewayHistory,
      ToolGrants).
    - Artifacts: the revisions of an artifact are a chain and the current one its end, an
      edit prepared on an old revision is refused, one snapshot is public at most
      (ArtifactHistory); a reference leads to files of its scheme only, the store writes
      and removes only its own files, what is written is read back (ArtifactFiles); every
      stored revision and snapshot can be read and has its checksum after any calls of the
      service, except the revisions whose file an edit of the artifact's own content has
      removed (ArtifactIntact); a rollback restores its target, an edit that lost a race
      leaves no trace, what becomes public was released (ArtifactEdits).

    - Tools: a registration never leaves a name without a definition or takes a static
      tool for good, one approval covers one call, only an authorized, current and
      released call reaches an executor, and it is charged once (ToolProps).
    - The agent loop: a turn ends within three nodes for each iteration, leaves a status, a
      reason, a message and a closed account, asks the model and runs tools that need
      confirmation only through their gates (AgentGraphProps).
    - The history: every call the model is shown has its answers, a compression leaves one
      summary and loses nothing else, a stored compression is read back (ContextProps).

    * Conventions and bounds

    - The agent loop: [json.loads], [urlsplit], the system prompt, the projection of
      browser arguments and the hooks are arguments.  [graph_run] executes at most the
      number of nodes it is given; 3 * limit + 1 are enough for every turn
      (AgentGraphProps.turn_terminates), while the code gives max(3 * limit, 25).
    - Time: task timestamps and delegation timestamps are integers, clock readings
      and fresh identifiers are arguments.  A theorem that needs identifiers to be
      fresh says so.
    - Text: a [string] is a list of code points below 256.  Exceptions carry
      their class, not their message.
    - Where the code counts characters (titles, prompts, messages of the gateway), a text
      is a list of Unicode code points, or its UTF-8 bytes as a [string] (Unicode.v).
    - The cron calculator is an argument, an expression, a base time and a zone to the
      next time or an exception.  Foreign keys are not enforced on the connections of
      the session, schedule and gateway stores, so deletions and orphans are as the
      code's own SQL leaves them.  [order_by] is a stable sort, as SQLite's with the
      code's tie-breaks.
    - JSON columns hold the value, not its text.  [output_schema] of a
      delegation is known by the length of its [repr], the one thing the code asks.
    - Secrets are assumed _apart_ from the marker "[REDACTED]": no secret has a
      piece of it.  A secret inside the marker is put back by each replacement.
    - [sha256] and [json.loads] are arguments; where identity of fingerprints
      matters, the hash is assumed not to collide on the two texts at hand.
      A [timedelta] counts microseconds, rounded half to even.
    - Artifacts: a text is its UTF-8 bytes; SHA-256 and the names drawn at random are
      arguments, the latter new where a theorem says so; [during] is what others do while
      a call waits for the disk.
    - Floats in Budget.v are IEEE binary64 ([SpecFloat]); Decimals are rationals.
    - Fuel: [drive_to_terminal] runs at most [MAX_TICKS] = 200 passes, as the code
      does; [round_robin] takes as fuel the number of members, one of which it
      places at each step; a member's coroutine ends within six turns
      (DelegationGather.v), which is the fairness a schedule must offer.  Listings
      keep the limits of the code (50, 100).
    - What is outside src/ or left open is an argument: the agent that executes a
      task or a member, what the event loop does to a worker, notification sinks.
      Its documented behaviour is a named hypothesis ([executor_ends],
      [executor_replies], DelegationDrive.v and DelegationGather.v) with a witness that satisfies it.

    * Not modelled

    - The queues of [stream_events], the registration of a turn as an agent run, the nudges
      to other services after a turn; chat_service.py; the wording of prompts; model
      providers and the tools themselves: calls to models and processes.
    - Browser, host terminal, sandboxes, plugins, chat platform adapters: device and
      network I/O.  Knowledge bases and external memory: retrieval by services.
    - The timer loops of the task and schedule runners.
    - Telemetry and audit, whose failures the code swallows.
    - HTTP and command-line front ends, wiring (main.py).
    - Row codecs and connection set-up of the registries; comparing revisions and exporting
      artifacts (difflib and renderers).
    

    * Next

    The tool executor of delegations; the memory facade as an instance of [Runtime]; skill
    files (parse and print). *)
From stdpp Require Export base gmap strings list sorting pretty.
From Stdlib Require Export ZArith Lia.
From Stdlib Require Import Ascii.

Declare Scope agent_scope.
Delimit Scope agent_scope with agent.
Open Scope agent_scope.
Open Scope Z_scope.

(** * Record update, for [dataclasses.replace] and for SQL [UPDATE]

    [r <| f := v |>] is [r] with its field [f] set to [v].  A record type
    gives its [Rebuild] instance (the record rebuilt from its projections);
    the setter of a projection is derived from it by abstracting that
    projection. *)

Class Rebuild (R : Type) := rebuild : R -> R.
Class FieldOf {R F : Type} (proj : R -> F) := over : (F -> F) -> R -> R.
Arguments over {R F} proj {_} _ _ : assert.

Ltac derive_field :=
  match goal with
  | |- @FieldOf ?R ?F ?proj =>
      let inst := constr:(_ : Rebuild R) in
      let whole := eval hnf in inst in
      let split_off := eval pattern proj in whole in
      match split_off with
      | ?body _ =>
          let setter := eval cbv beta in
            (fun (upd : F -> F) (r : R) => body (fun x => upd (proj x)) r) in
          exact setter
      end
  end.

#[export] Hint Extern 0 (FieldOf _) => derive_field : typeclass_instances.

Notation "r '<|' p ':=' v '|>'" := (over p (fun _ => v) r)
  (at level 1, left associativity, p at level 11, v at level 99) : agent_scope.

(** * Exceptions as values

    One constructor for each exception class the modelled code raises;
    messages are not modelled. *)

Inductive py_exc : Type :=
  | TaskNotFoundError
  | TaskValidationError
  | TaskClaimError
  | TaskStateError
  | TaskConflictError
  | TaskConfigValidationError
  | TaskConfigConflictError
  | TaskConfigStoreError
  | DelegationStateError
  | DelegationConflictError
  | IntegrityError
  | OperationalError
  | ValueError
  | TypeError
  | OverflowError
  | RuntimeError
  | AssertionError
  | InformationFlowError
  | ScheduledTaskNotFoundError
  | ScheduleValidationError
  | ScheduleDeliveryContextError
  | ScheduledTaskNotRunnableError
  | ScheduledTaskLeaseHeldError
  | ScheduleServiceError
  | ScheduleDeliveryError (code : string)
  | SessionNotFoundError
  | SessionValidationError
  | SessionBusyError
  | RunOwnershipLost
  | RunAdmissionConflict
  | RunCancelledError
  | ScheduleCalculationError
  | ProgrammingError
  | KeyError
  | PermissionError
  | PlatformInvalidError
  | PlatformNotFoundError
  | SessionScopeMismatchError
  | SkillFormatError
  | ToolNotFoundError
  | ToolDefinitionChangedError
  | ArtifactConflictError
  | ArtifactContentUnavailableError
  | ArtifactMigrationIncompleteError
  | ArtifactRevisionValidationError
  | ArtifactExportError
  | ArtifactExportUnsupportedError
  | ArtifactExportTooLargeError
  | OSError
  | UnicodeDecodeError
  | ArtifactNotFoundError
  | ArtifactRevisionConflictError
  | ArtifactRevisionNotFoundError
  | ArtifactValidationError
  | ArtifactTooLargeError
  | PublishBlockedError
  | PublishedArtifactNotFoundError
  | MemoryAccessDeniedError
  | CancelledError
  | AttributeError
  | GraphRecursionError.

#[export] Instance py_exc_eq_dec : EqDecision py_exc.
Proof. solve_decision. Defined.

(** The outcome of a call: it returns or it raises. *)
Inductive result (A : Type) : Type :=
  | Return (a : A)
  | Raise (e : py_exc).
Arguments Return {A} _.
Arguments Raise {A} _.

Definition bind_result {A B} (r : result A) (k : A -> result B) : result B :=
  match r with Return a => k a | Raise e => Raise e end.

Notation "'let?' x ':=' c 'in' k" := (bind_result c (fun x => k))
  (at level 10, x pattern, c at level 200, k at level 200) : agent_scope.

Definition returns {A} (r : result A) : bool :=
  match r with Return _ => true | Raise _ => false end.

(** * Python truth values *)

Definition truthy_str (s : string) : bool := negb (bool_decide (s = "")).
Definition truthy_opt_str (o : option string) : bool :=
  match o with Some s => truthy_str s | None => false end.

(** [x or y] on strings that may be [None]. *)
Definition str_or (o : option string) (d : string) : string :=
  match o with Some s => if truthy_str s then s else d | None => d end.

(** * Python strings

    A [str] is a [string] whose characters are its code points; the model
    reads them as Latin-1, so the definitions below agree with Python on
    every text of code points below 256. *)

Fixpoint chars (s : string) : list Ascii.ascii :=
  match s with EmptyString => [] | String c s => c :: chars s end.

Definition len (s : string) : Z := Z.of_nat (String.length s).

(** [str.isspace] on one character. *)
Definition is_space (c : Ascii.ascii) : bool :=
  let n := Ascii.nat_of_ascii c in
  ((9 <=? n) && (n <=? 13))%nat || ((28 <=? n) && (n <=? 32))%nat
  || (n =? 133)%nat || (n =? 160)%nat.

Fixpoint lstrip (s : string) : string :=
  match s with
  | EmptyString => EmptyString
  | String c s' => if is_space c then lstrip s' else s
  end.

Fixpoint rstrip (s : string) : string :=
  match s with
  | EmptyString => EmptyString
  | String c s' =>
      match rstrip s' with
      | EmptyString => if is_space c then EmptyString else String c EmptyString
      | r => String c r
      end
  end.

Definition strip (s : string) : string := rstrip (lstrip s).

(** [str.lower] on one character. *)
Definition lower_char (c : Ascii.ascii) : Ascii.ascii :=
  let n := Ascii.nat_of_ascii c in
  if (((65 <=? n) && (n <=? 90)) || ((192 <=? n) && (n <=? 222) && negb (n =? 215)))%nat
  then Ascii.ascii_of_nat (n + 32) else c.

Fixpoint lower (s : string) : string :=
  match s with EmptyString => EmptyString | String c s => String (lower_char c) (lower s) end.

(** [p] is a prefix of [s] ([s.startswith(p)]). *)
Fixpoint starts_with (p s : string) : bool :=
  match p, s with
  | EmptyString, _ => true
  | String _ _, EmptyString => false
  | String a p', String b s' => bool_decide (a = b) && starts_with p' s'
  end.

(** [sub in s]. *)
Fixpoint contains (sub s : string) : bool :=
  starts_with sub s ||
  match s with EmptyString => false | String _ s' => contains sub s' end.

(** [s.replace(old, new)] for a non-empty [old]: left to right, without
    overlaps; [skip] characters of a match already replaced are dropped. *)
Fixpoint replace_from (old new : string) (skip : nat) (s : string) : string :=
  match s with
  | EmptyString => EmptyString
  | String c s' =>
      match skip with
      | S k => replace_from old new k s'
      | O => if starts_with old s
             then (new +:+ replace_from old new (String.length old - 1) s')%string
             else String c (replace_from old new O s')
      end
  end.

Definition replace_all (old new s : string) : string := replace_from old new O s.

(** * JSON values, as [json.loads] gives them (finite numbers) *)

#[local] Set Warnings "-register-all".
Inductive json : Type :=
  | JNull
  | JBool (b : bool)
  | JInt (n : Z)
  | JStr (s : string)
  | JArr (l : list json)
  | JObj (kvs : list (string * json)).

(** [d.get(k)] on the pairs of an object, keys being distinct. *)
Fixpoint obj_get (k : string) (kvs : list (string * json)) : option json :=
  match kvs with
  | [] => None
  | (k', v) :: rest => if bool_decide (k = k') then Some v else obj_get k rest
  end.

(** A JSON object read as a Python dict. *)
Notation dict := (list (string * json)).

(** [d.get(k)] *)
Definition dict_get (d : dict) (k : string) : json := default JNull (obj_get k d).
(** [d[k] = v] *)
Fixpoint dict_set (k : string) (v : json) (d : dict) : dict :=
  match d with
  | [] => [(k, v)]
  | (k', v') :: d => if bool_decide (k = k') then (k, v) :: d else (k', v') :: dict_set k v d
  end.
(** [d.pop(k)] *)
Definition dict_pop (k : string) (d : dict) : dict := List.filter (fun p => negb (bool_decide (p.1 = k))) d.

(** [int(s)] on a string: surrounding white space, a sign, and decimal digits
    with single underscores between them; [None] where Python raises
    [ValueError]. *)
Definition digit_of (c : Ascii.ascii) : option Z :=
  let n := Z.of_nat (Ascii.nat_of_ascii c) in
  if (48 <=? n) && (n <=? 57) then Some (n - 48) else None.

Fixpoint digits_value (acc : Z) (after_digit : bool) (s : string) : option Z :=
  match s with
  | EmptyString => if after_digit then Some acc else None
  | String c s' =>
      match digit_of c with
      | Some d => digits_value (10 * acc + d) true s'
      | None => if bool_decide (c = "_"%char) && after_digit then digits_value acc false s' else None
      end
  end.

Definition int_of_string (s : string) : option Z :=
  match strip s with
  | String c s' =>
      if bool_decide (c = "-"%char) then Z.opp <$> digits_value 0 false s'
      else if bool_decide (c = "+"%char) then digits_value 0 false s'
      else digits_value 0 false (String c s')
  | EmptyString => None
  end.

(** [int(v)] on a JSON value. *)
Definition int_of_json (v : json) : result Z :=
  match v with
  | JInt n => Return n
  | JBool b => Return (if b then 1 else 0)
  | JStr s => match int_of_string s with Some n => Return n | None => Raise ValueError end
  | _ => Raise TypeError
  end.

(** A JSON value that is a string or [None]. *)
Definition json_opt_str (o : option string) : json :=
  match o with Some s => JStr s | None => JNull end.

(** [datetime] values are microseconds since the epoch in UTC, [timedelta]
    values microseconds. *)
Definition seconds (n : Z) : Z := n * 1000000.

(** * Policy decisions (app/domain/policy.py) *)

Module PolicyOutcome.
Inductive t : Type := ALLOW | DENY | REQUIRE_APPROVAL.
#[global] Instance eq_dec : EqDecision t.
Proof. solve_decision. Defined.
End PolicyOutcome.

(** * Automation *)

Create HintDb agent.

(** Evaluates the decisions of a goal that are about closed terms. *)
Ltac eval_decides :=
  repeat match goal with
  | |- context [bool_decide ?P] =>
      let b := eval vm_compute in (bool_decide P) in
      match b with true => idtac | false => idtac end;
      change (bool_decide P) with b
  end.

Ltac cases := repeat (case_match; simplify_eq/=); try done.

(** * Lists *)

Lemma StronglySorted_app_one {A} (R : A -> A -> Prop) l x :
  StronglySorted R l -> Forall (fun y => R y x) l -> StronglySorted R (l ++ [x]).
Proof.
  induction 1 as [|y l Hl IH Hy]; simpl; intros HF; [repeat constructor|].
  inversion HF; subst. constructor; [auto|]. apply Forall_app; auto.
Qed.

Lemma List_filter_elem {A} (f : A -> bool) l x :
  x ∈ List.filter f l <-> x ∈ l /\ f x = true.
Proof. rewrite !list_elem_of_In. apply filter_In. Qed.

Lemma Forall_List_filter {A} (P : A -> Prop) (f : A -> bool) l :
  Forall P l -> Forall P (List.filter f l).
Proof.
  rewrite !Forall_forall. intros H x [Hx _]%List_filter_elem. auto.
Qed.

Lemma StronglySorted_map_filter {A B} (R : B -> B -> Prop) (g : A -> B) (f : A -> bool) l :
  StronglySorted R (map g l) -> StronglySorted R (map g (List.filter f l)).
Proof.
  induction l as [|x l IH]; simpl; [done|]. intros Hs. inversion Hs as [|? ? Hl Hx]; subst.
  case_match; simpl; [|auto]. constructor; [auto|].
  rewrite Forall_forall in Hx |- *. intros y Hy. apply Hx.
  apply list_elem_of_fmap in Hy as (z & -> & [Hz _]%List_filter_elem).
  by apply list_elem_of_fmap_2.
Qed.

Lemma List_filter_perm {A} (f : A -> bool) l l' : l ≡ₚ l' -> List.filter f l ≡ₚ List.filter f l'.
Proof.
  induction 1 as [|x l l' _ IH|x y l|l1 l2 l3 _ IH1 _ IH2]; simpl; [done| | |by etransitivity].
  - case_match; by rewrite IH.
  - repeat case_match; try apply perm_swap; done.
Qed.

Lemma List_filter_and {A} (f g : A -> bool) l :
  List.filter (fun x => f x && g x) l = List.filter g (List.filter f l).
Proof. induction l as [|x l IH]; simpl; [done|]. destruct (f x); simpl; by rewrite IH. Qed.

Lemma List_filter_all {A} (f : A -> bool) l : Forall (fun x => f x = true) l -> List.filter f l = l.
Proof. induction 1 as [|x l Hx _ IH]; simpl; [done|]. by rewrite Hx, IH. Qed.

Lemma List_filter_none {A} (f : A -> bool) l : Forall (fun x => f x = false) l -> List.filter f l = [].
Proof. induction 1 as [|x l Hx _ IH]; simpl; [done|]. by rewrite Hx. Qed.

Lemma NoDup_List_filter {A} (f : A -> bool) (l : list A) : NoDup l -> NoDup (List.filter f l).
Proof.
  induction 1 as [|x l Hx _ IH]; simpl; [constructor|]. case_match; [|done].
  constructor; [|done]. by intros [? _]%List_filter_elem.
Qed.

Lemma map_map_id {A B} (g : A -> A) (key : A -> B) l :
  (forall x, x ∈ l -> key (g x) = key x) -> map key (map g l) = map key l.
Proof.
  induction l as [|x l IH]; simpl; intros H; [done|].
  f_equal; [apply H; by left|]. apply IH. intros y Hy. apply H. by right.
Qed.

Lemma NoDup_map_filter {A B} (key : A -> B) (p : A -> bool) l :
  NoDup (map key l) -> NoDup (map key (List.filter p l)).
Proof.
  intros H. eapply sublist_NoDup; [exact H|]. apply (fmap_sublist key).
  clear. induction l as [|x l IH]; simpl; [constructor|]. destruct (p x); by constructor.
Qed.

Lemma NoDup_map_inj {A B} (key : A -> B) l x y :
  NoDup (map key l) -> x ∈ l -> y ∈ l -> key x = key y -> x = y.
Proof.
  induction l as [|z l IH]; simpl; [by intros _ ?%elem_of_nil|].
  intros [Hz Hnd]%NoDup_cons [->|Hx]%elem_of_cons [->|Hy]%elem_of_cons Heq; auto.
  - exfalso. apply Hz. rewrite Heq. by apply list_elem_of_fmap_2.
  - exfalso. apply Hz. rewrite <- Heq. by apply list_elem_of_fmap_2.
Qed.

Lemma existsb_false {A} (f : A -> bool) l : existsb f l = false <-> forall x, x ∈ l -> f x = false.
Proof.
  induction l as [|y l IH]; simpl; [split; [by intros _ ? ?%elem_of_nil|done]|].
  rewrite orb_false_iff, IH. split.
  - intros [Hy Hl] x [->|Hx]%elem_of_cons; auto.
  - intros H. split; [apply H; by left|]. intros x Hx. apply H. by right.
Qed.

Lemma find_app {A} (p : A -> bool) l x :
  List.find p l = None -> p x = true -> List.find p (l ++ [x]) = Some x.
Proof. induction l as [|y l IH]; simpl; [by intros _ ->|]. destruct (p y); [done|auto]. Qed.

Lemma forallb_true {A} (f : A -> bool) l : forallb f l = true <-> forall x, x ∈ l -> f x = true.
Proof. rewrite List.forallb_forall. split; intros H x Hx; apply H; by apply list_elem_of_In. Qed.

(** * Python dicts *)

Lemma obj_get_dict_set k k' v (d : dict) :
  obj_get k' (dict_set k v d) = if bool_decide (k = k') then Some v else obj_get k' d.
Proof.
  induction d as [|[k0 v0] d IH]; cbn [dict_set].
  - cbn. by repeat case_bool_decide; subst.
  - destruct (decide (k = k0)) as [->|Hk].
    + rewrite (bool_decide_eq_true_2 (k0 = k0)) by done. cbn. by repeat case_bool_decide; subst.
    + rewrite (bool_decide_eq_false_2 (k = k0)) by done. cbn.
      destruct (decide (k' = k0)) as [->|Hk']; [by rewrite (bool_decide_eq_true_2 (k0 = k0)), bool_decide_eq_false_2|].
      by rewrite (bool_decide_eq_false_2 (k' = k0)).
Qed.

Lemma dict_get_set k k' v (d : dict) : dict_get (dict_set k v d) k' = if bool_decide (k = k') then v else dict_get d k'.
Proof. unfold dict_get. rewrite obj_get_dict_set. by case_bool_decide. Qed.

(** * [ORDER BY] *)

(** Rows in the order of a comparison, equal ones in the order they had: [sorted] of
    Python, and [ORDER BY] of rows read in rowid order. *)
Fixpoint insert_by {A} (leb : A -> A -> bool) (x : A) (l : list A) : list A :=
  match l with
  | [] => [x]
  | y :: l' => if leb x y then x :: l else y :: insert_by leb x l'
  end.
Definition order_by {A} (leb : A -> A -> bool) (l : list A) : list A := foldr (insert_by leb) [] l.

Lemma insert_by_perm {A} (leb : A -> A -> bool) x l : insert_by leb x l ≡ₚ x :: l.
Proof. induction l as [|y l IH]; simpl; [done|]. case_match; [done|]. rewrite IH. apply Permutation_swap. Qed.

Lemma order_by_perm {A} (leb : A -> A -> bool) l : order_by leb l ≡ₚ l.
Proof. induction l as [|x l IH]; simpl; [done|]. by rewrite insert_by_perm, IH. Qed.

(** Sorting what is sorted changes nothing. *)
Lemma order_by_sorted_id {A} (leb : A -> A -> bool) l :
  StronglySorted (fun a b => leb a b = true) l -> order_by leb l = l.
Proof.
  induction 1 as [|x l _ IH Hx]; simpl; [done|]. rewrite IH. destruct l as [|y l]; [done|]. simpl.
  apply Forall_cons in Hx as [Hy _]. by rewrite Hy.
Qed.

(** Sorting by a total transitive comparison. *)
Section order_by.
Context {A : Type} (leb : A -> A -> bool).
Context (leb_total : forall a b, leb a b = true \/ leb b a = true).
Context (leb_trans : forall a b c, leb a b = true -> leb b c = true -> leb a c = true).

Lemma insert_by_sorted x l :
  StronglySorted (fun a b => leb a b = true) l -> StronglySorted (fun a b => leb a b = true) (insert_by leb x l).
Proof.
  induction 1 as [|y l Hl IH Hy]; simpl; [by repeat constructor|]. destruct (leb x y) eqn:Hxy.
  - constructor; [by constructor|]. constructor; [done|]. eapply Forall_impl; [exact Hy|]. intros z. by apply leb_trans.
  - constructor; [done|]. rewrite insert_by_perm. constructor; [|done]. by destruct (leb_total x y); [congruence|].
Qed.

Lemma order_by_sorted l : StronglySorted (fun a b => leb a b = true) (order_by leb l).
Proof. induction l as [|x l IH]; simpl; [constructor|]. by apply insert_by_sorted. Qed.
End order_by.

Lemma sorted_perm_unique {A} (R : A -> A -> Prop) l l' :
  (forall a b, R a b -> R b a -> a = b) ->
  StronglySorted R l -> StronglySorted R l' -> l ≡ₚ l' -> l = l'.
Proof.
  intros Ha Hl. revert l'. induction Hl as [|x l Hl IH Hx]; intros l' Hl' Hp.
  { by apply Permutation_nil_l in Hp. }
  destruct Hl' as [|y l' Hl' Hy]; [by apply Permutation_nil_r in Hp|].
  assert (x = y) as ->.
  { assert (x ∈ y :: l') as Hin by (rewrite <- Hp; by left).
    assert (y ∈ x :: l) as Hin' by (rewrite Hp; by left).
    rewrite Forall_forall in Hx, Hy. apply elem_of_cons in Hin as [?|Hin], Hin' as [?|Hin']; auto. }
  f_equal. apply IH; [done|]. by apply (Permutation_cons_inv (a := y)).
Qed.

(** Python's order on [str]; [sorted] of a list of strings. *)
Definition str_leb (a b : string) : bool := String.leb a b.
Definition sorted_strs (l : list string) : list string := order_by str_leb l.

Lemma str_leb_le a b : str_leb a b = true <-> String.le a b.
Proof. unfold str_leb, String.le. by rewrite Is_true_true. Qed.

Lemma str_leb_total a b : str_leb a b = true \/ str_leb b a = true.
Proof. rewrite !str_leb_le. apply (total String.le). Qed.

Lemma str_leb_trans a b c : str_leb a b = true -> str_leb b c = true -> str_leb a c = true.
Proof. rewrite !str_leb_le. apply (transitivity (R := String.le)). Qed.

Lemma str_leb_antisym a b : str_leb a b = true -> str_leb b a = true -> a = b.
Proof. rewrite !str_leb_le. apply (anti_symm String.le). Qed.

Lemma str_leb_refl a : str_leb a a = true.
Proof. by destruct (str_leb_total a a). Qed.

(** Two lists sort to the same one exactly when they hold the same strings. *)
Lemma sorted_strs_eq l l' : sorted_strs l = sorted_strs l' <-> l ≡ₚ l'.
Proof.
  split.
  - intros H. rewrite <- (order_by_perm str_leb l), <- (order_by_perm str_leb l'). unfold sorted_strs in H.
    by rewrite H.
  - intros H. apply (sorted_perm_unique (fun a b => str_leb a b = true)); [apply str_leb_antisym|..].
    1, 2: apply order_by_sorted; [apply str_leb_total|apply str_leb_trans].
    unfold sorted_strs. by rewrite !order_by_perm.
Qed.
