(* ===== verification/Text.v ===== *)
(** Searching, slicing and replacing in strings: what [in], [startswith], [replace]
    and slices promise, for the files that filter text. *)
From S2P Require Import Prelude.
From Stdlib Require Import Ascii.
Open Scope Z_scope.

(** [s[:n]] and [s[n:]] for a non-negative [n]. *)
Fixpoint take_str (n : nat) (s : string) : string :=
  match n, s with
  | O, _ | _, EmptyString => EmptyString
  | S n, String c s => String c (take_str n s)
  end.

Fixpoint drop_str (n : nat) (s : string) : string :=
  match n, s with
  | O, _ => s
  | S _, EmptyString => EmptyString
  | S n, String c s => drop_str n s
  end.

(** [''.join(l)] *)
Fixpoint join_str (l : list string) : string :=
  match l with [] => "" | s :: l => s +:+ join_str l end.

(** * Appending *)

Lemma app_str_cons x (a b : string) : String x a +:+ b = String x (a +:+ b).
Proof. done. Qed.

Lemma app_str_nil (b : string) : "" +:+ b = b.
Proof. done. Qed.

(** [cbn] with the equations of [+:+]. *)
Ltac str := repeat (progress cbn || rewrite app_str_cons || rewrite app_str_nil).
Ltac str_in H := repeat (progress cbn in H || rewrite app_str_cons in H || rewrite app_str_nil in H).

Lemma app_str_assoc (a b c : string) : (a +:+ b) +:+ c = a +:+ (b +:+ c).
Proof. induction a as [|x a IH]; [done|]. str. by rewrite IH. Qed.

Lemma app_str_nil_r (a : string) : a +:+ "" = a.
Proof. induction a as [|x a IH]; [done|]. str. by rewrite IH. Qed.

Lemma length_app_str (a b : string) : String.length (a +:+ b) = (String.length a + String.length b)%nat.
Proof. induction a as [|x a IH]; [done|]. str. by rewrite IH. Qed.

Lemma join_str_app l l' : join_str (l ++ l') = join_str l +:+ join_str l'.
Proof. induction l as [|x l IH]; [done|]. str. by rewrite IH, app_str_assoc. Qed.

Lemma take_drop_str n s : take_str n s +:+ drop_str n s = s.
Proof. revert n. induction s as [|c s IH]; intros [|n]; [done..|]. str. by rewrite IH. Qed.

Lemma length_drop_str n s : String.length (drop_str n s) = (String.length s - n)%nat.
Proof. revert n. induction s as [|c s IH]; intros [|n]; [done..|]. cbn. apply IH. Qed.

Lemma drop_app_str a b : drop_str (String.length a) (a +:+ b) = b.
Proof. induction a as [|c a IH]; [done|]. exact IH. Qed.

(** Two splits of a string: one first part extends the other. *)
Lemma app_str_split (a b c d : string) :
  a +:+ b = c +:+ d -> (exists k, c = a +:+ k /\ b = k +:+ d) \/ (exists k, a = c +:+ k /\ d = k +:+ b).
Proof.
  revert c. induction a as [|x a IH]; intros [|y c]; str; intros H.
  - left. by exists "".
  - left. exists (String y c). by subst.
  - right. exists (String x a). by subst.
  - injection H as <- H. destruct (IH _ H) as [(k & -> & ->)|(k & -> & ->)]; [left|right]; by exists k.
Qed.

(** * Prefixes and occurrences *)

Lemma starts_with_spec p s : starts_with p s = true <-> exists b, s = p +:+ b.
Proof.
  revert s. induction p as [|a p IH]; intros s; [split; [by exists s|done]|].
  destruct s as [|c s]; cbn [starts_with]; [split; [done|by intros [b Hb]]|].
  rewrite andb_true_iff, bool_decide_eq_true, IH. split.
  - intros [-> [b ->]]. by exists b.
  - intros [b Hb]. str_in Hb. injection Hb as -> ->. eauto.
Qed.

Lemma starts_with_prefix p b : starts_with p (p +:+ b) = true.
Proof. apply starts_with_spec. by exists b. Qed.

Lemma starts_with_length p s : starts_with p s = true -> (String.length p <= String.length s)%nat.
Proof. intros [b ->]%starts_with_spec. rewrite length_app_str. lia. Qed.

Lemma starts_with_app_long p a b :
  (String.length p <= String.length a)%nat -> starts_with p (a +:+ b) = starts_with p a.
Proof.
  revert a. induction p as [|x p IH]; intros [|y a]; str; intros H; try done; [lia|].
  f_equal. apply IH. lia.
Qed.

Lemma starts_with_app_l p a b : starts_with p a = true -> starts_with p (a +:+ b) = true.
Proof. intros [c ->]%starts_with_spec. rewrite app_str_assoc. apply starts_with_prefix. Qed.

Lemma contains_spec sub s : contains sub s = true <-> exists a b, s = a +:+ (sub +:+ b).
Proof.
  induction s as [|c s IH]; cbn [contains]; rewrite orb_true_iff, starts_with_spec.
  - split; [|intros (a & b & Hs)].
    + intros [[b ->]|?]; [|done]. by exists "", b.
    + left. destruct a; [by exists b|done].
  - rewrite IH. split.
    + intros [[b ->]|(a & b & ->)]; [by exists "", b|by exists (String c a), b].
    + intros ([|x a] & b & Hs); [left; by exists b|]. str_in Hs. injection Hs as -> ->. right. eauto.
Qed.

Lemma contains_false sub s : contains sub s = false <-> ~ exists a b, s = a +:+ (sub +:+ b).
Proof. by rewrite <- contains_spec, not_true_iff_false. Qed.

Lemma contains_app_l sub a b : contains sub a = true -> contains sub (a +:+ b) = true.
Proof.
  rewrite !contains_spec. intros (x & y & ->). exists x, (y +:+ b). by rewrite !app_str_assoc.
Qed.

Lemma contains_app_r sub a b : contains sub b = true -> contains sub (a +:+ b) = true.
Proof. rewrite !contains_spec. intros (x & y & ->). exists (a +:+ x), y. by rewrite !app_str_assoc. Qed.

Lemma contains_length sub s : contains sub s = true -> (String.length sub <= String.length s)%nat.
Proof. intros (a & b & ->)%contains_spec. rewrite !length_app_str. lia. Qed.

(** A string without the character [c] occurs on one side of it. *)
Definition lacks (c : ascii) (t : string) : Prop := c ∉ chars t.

Lemma chars_app a b : chars (a +:+ b) = chars a ++ chars b.
Proof. induction a as [|x a IH]; [done|]. str. by rewrite IH. Qed.

Lemma lacks_starts c t a b : lacks c t -> starts_with t (a +:+ String c b) = true -> starts_with t a = true.
Proof.
  intros Hl [d Hd]%starts_with_spec. apply app_str_split in Hd as [(k & -> & Hk)|(k & -> & Hk)].
  - destruct k as [|x k]; [rewrite app_str_nil_r; apply starts_with_spec; exists ""; by rewrite app_str_nil_r|].
    str_in Hk. injection Hk as <- _. destruct Hl. rewrite chars_app. str. set_solver.
  - apply starts_with_prefix.
Qed.

Lemma contains_around c t a b :
  lacks c t -> contains t (a +:+ String c b) = contains t a || contains t b.
Proof.
  intros Hl. apply eq_bool_prop_intro. rewrite !Is_true_true, orb_true_iff. split.
  - induction a as [|x a IH]; rewrite ?app_str_cons, ?app_str_nil; cbn [contains].
    + rewrite orb_true_iff. intros [Hs|Hs]; [|by right]. left.
      by apply (lacks_starts c t "" b) in Hs as ->.
    + rewrite !orb_true_iff. intros [Hs|Hs].
      * left. left. by apply (lacks_starts c t (String x a) b).
      * destruct (IH Hs); tauto.
  - intros [H|H]; [by apply contains_app_l|]. apply contains_app_r. cbn [contains]. rewrite H. apply orb_true_r.
Qed.

(** * Replacing *)

Lemma replace_skip old new k s : replace_from old new k s = replace_all old new (drop_str k s).
Proof.
  revert k. induction s as [|c s IH]; intros [|k]; [done..|]. cbn. apply IH.
Qed.

Section replace.
Context (old new : string) (Hold : old <> "").

Lemma replace_hit s : replace_all old new (old +:+ s) = new +:+ replace_all old new s.
Proof.
  unfold replace_all. destruct old as [|c o] eqn:Ho; [done|].
  rewrite app_str_cons. cbn [replace_from]. rewrite <- app_str_cons, starts_with_prefix.
  rewrite replace_skip. cbn [String.length]. by rewrite Nat.sub_1_r, Nat.pred_succ, drop_app_str.
Qed.

Lemma replace_miss c s :
  starts_with old (String c s) = false -> replace_all old new (String c s) = String c (replace_all old new s).
Proof. unfold replace_all. cbn [replace_from]. by intros ->. Qed.

(** Induction along the scan: at a match, or at a character that starts none. *)
Lemma replace_ind (P : string -> string -> Prop) :
  P "" "" ->
  (forall s, P s (replace_all old new s) -> P (old +:+ s) (new +:+ replace_all old new s)) ->
  (forall c s, starts_with old (String c s) = false -> P s (replace_all old new s) ->
     P (String c s) (String c (replace_all old new s))) ->
  forall s, P s (replace_all old new s).
Proof.
  intros H0 H1 H2 s. remember (String.length s) as n eqn:Hn. revert s Hn.
  induction (lt_wf n) as [n _ IH]. intros [|c s] Hn; [exact H0|].
  destruct (starts_with old (String c s)) eqn:Hs.
  - apply starts_with_spec in Hs as [b Hb]. rewrite Hb, replace_hit. apply H1.
    apply (IH (String.length b)); [|done]. subst n. rewrite Hb, length_app_str.
    destruct old; [done|]. cbn. lia.
  - rewrite replace_miss by done. apply H2; [done|]. apply (IH (String.length s)); [|done].
    subst n. cbn. lia.
Qed.

Lemma replace_absent s : contains old s = false -> replace_all old new s = s.
Proof.
  induction s as [|c s IH]; [done|]. cbn [contains]. intros [Hs Hc]%orb_false_iff.
  rewrite replace_miss by done. by rewrite IH.
Qed.
End replace.
