(* ===== verification/Json.v ===== *)
(** Printing JSON as [json.dumps] does with [ensure_ascii=False]: the text of a value
    determines the value, so a digest of the text identifies it. *)
From S2P Require Import Prelude Text.
From Stdlib Require Import Ascii.
Open Scope Z_scope.

(** Equality of JSON values, by their constructors. *)
#[global] Instance json_eq_dec : EqDecision json.
Proof.
  unfold EqDecision, RelDecision. fix go 1. intros x y. unfold Decision in *.
  destruct x, y; try (right; congruence).
  - by left.
  - destruct (decide (b = b0)); [left; by f_equal|right; congruence].
  - destruct (decide (n = n0)); [left; by f_equal|right; congruence].
  - destruct (decide (s = s0)); [left; by f_equal|right; congruence].
  - destruct (List.list_eq_dec go l l0); [left; by f_equal|right; congruence].
  - destruct (List.list_eq_dec (fun p q : string * json => match p, q with (k, v), (k', v') =>
      match decide (k = k'), go v v' with
      | left e, left e' => left (f_equal2 pair e e')
      | right n, _ => right (fun E : (k, v) = (k', v') => n (f_equal fst E))
      | _, right n => right (fun E : (k, v) = (k', v') => n (f_equal snd E))
      end end) kvs kvs0); [left; by f_equal|right; congruence].
Defined.

(** Induction on a JSON value, through its arrays and objects. *)
Fixpoint json_nested_ind (P : json -> Prop) (Hnull : P JNull) (Hbool : forall b, P (JBool b))
    (Hint : forall n, P (JInt n)) (Hstr : forall s, P (JStr s))
    (Harr : forall l, Forall P l -> P (JArr l))
    (Hobj : forall kvs, Forall (fun kv => P kv.2) kvs -> P (JObj kvs)) (v : json) : P v :=
  let rec := json_nested_ind P Hnull Hbool Hint Hstr Harr Hobj in
  match v with
  | JNull => Hnull
  | JBool b => Hbool b
  | JInt n => Hint n
  | JStr s => Hstr s
  | JArr l => Harr l ((fix go l := match l return Forall P l with
                                   | [] => Forall_nil_2 P
                                   | v :: l => Forall_cons_2 P v l (rec v) (go l)
                                   end) l)
  | JObj kvs => Hobj kvs ((fix go l := match l return Forall (fun kv => P kv.2) l with
                                       | [] => Forall_nil_2 _
                                       | kv :: l => Forall_cons_2 _ kv l (rec kv.2) (go l)
                                       end) kvs)
  end.

(** * Printing *)

Definition hex_digit (n : nat) : ascii := Ascii.ascii_of_nat (if (n <? 10)%nat then 48 + n else 87 + n).

(** One character of a string literal. *)
Definition escape_char (c : ascii) : string :=
  let n := Ascii.nat_of_ascii c in
  if (n =? 34)%nat then "\" +:+ String c ""
  else if (n =? 92)%nat then "\\"
  else if (n =? 10)%nat then "\n"
  else if (n =? 13)%nat then "\r"
  else if (n =? 9)%nat then "\t"
  else if (n =? 12)%nat then "\f"
  else if (n =? 8)%nat then "\b"
  else if (n <? 32)%nat then "\u00" +:+ String (hex_digit (n / 16)) (String (hex_digit (n mod 16)) "")
  else String c "".

Definition QUOTE : ascii := "034".

Fixpoint escape (s : string) : string :=
  match s with EmptyString => EmptyString | String c s => escape_char c +:+ escape s end.
Definition quote (s : string) : string := String QUOTE (escape s +:+ String QUOTE "").

Section dumps.
Context (comma colon : string).

Fixpoint dumps (v : json) : string :=
  match v with
  | JNull => "null"
  | JBool b => if b then "true" else "false"
  | JInt n => pretty n
  | JStr s => quote s
  | JArr [] => "[]"
  | JArr (v :: l) =>
      "[" +:+ (dumps v +:+ (fix rest l := match l with
                                           | [] => "]"
                                           | v :: l => comma +:+ (dumps v +:+ rest l)
                                           end) l)
  | JObj [] => "{}"
  | JObj ((k, v) :: kvs) =>
      "{" +:+ (quote k +:+ (colon +:+ (dumps v +:+
        (fix rest l := match l with
                       | [] => "}"
                       | (k, v) :: l => comma +:+ (quote k +:+ (colon +:+ (dumps v +:+ rest l)))
                       end) kvs)))
  end.
End dumps.

(** [sort_keys=True] *)
Fixpoint sort_keys (v : json) : json :=
  match v with
  | JArr l => JArr (map sort_keys l)
  | JObj kvs => JObj (order_by (fun a b => str_leb a.1 b.1)
                        ((fix go l := match l with [] => [] | (k, v) :: l => (k, sort_keys v) :: go l end) kvs))
  | v => v
  end.

(** [json.dumps(v, sort_keys=True, ensure_ascii=False)] *)
Definition dumps_sorted (v : json) : string := dumps ", " ": " (sort_keys v).

(** * Reading back a literal *)

Definition unescape_char (s : string) : option (ascii * string) :=
  match s with
  | String "\" (String "u" (String _ (String _ (String a (String b s))))) =>
      let value c := let n := Ascii.nat_of_ascii c in if (n <? 58)%nat then (n - 48)%nat else (n - 87)%nat in
      Some (Ascii.ascii_of_nat (16 * value a + value b), s)
  | String "\" (String c s) =>
      Some (match c with "n" => "010" | "r" => "013" | "t" => "009" | "f" => "012" | "b" => "008" | c => c end%char, s)
  | String c s => Some (c, s)
  | "" => None
  end.

Lemma unescape_escape c s : unescape_char (escape_char c +:+ s) = Some (c, s).
Proof. destruct c as [[] [] [] [] [] [] [] []]; reflexivity. Qed.

Lemma escape_char_head c : exists d s, escape_char c = String d s /\ d <> QUOTE.
Proof. destruct c as [[] [] [] [] [] [] [] []]; eexists _, _; (split; [reflexivity|unfold QUOTE; discriminate]). Qed.

Lemma escape_inj s s' x x' :
  escape s +:+ String QUOTE x = escape s' +:+ String QUOTE x' -> s = s' /\ x = x'.
Proof.
  revert s'. induction s as [|c s IH]; intros [|c' s']; cbn [escape]; rewrite ?app_str_assoc.
  - by intros [= ->].
  - destruct (escape_char_head c') as (d & t & -> & Hd). rewrite app_str_nil, app_str_cons. intros [= Hq _]; congruence.
  - destruct (escape_char_head c) as (d & t & -> & Hd). rewrite app_str_nil, app_str_cons. intros [= Hq _]; congruence.
  - intros H. pose proof (f_equal unescape_char H) as Hu. rewrite !unescape_escape in Hu. injection Hu as -> Hu.
    by destruct (IH _ Hu) as [-> ->].
Qed.

Lemma quote_inj s s' x x' : quote s +:+ x = quote s' +:+ x' -> s = s' /\ x = x'.
Proof.
  unfold quote. rewrite !app_str_cons, !app_str_assoc, !app_str_cons, !app_str_nil. intros [= H].
  by apply escape_inj in H.
Qed.

(** * Numbers *)

Definition numeric (c : ascii) : bool :=
  bool_decide (c = "-"%char) || bool_decide (is_Some (Ascii.is_nat c)).

Lemma pretty_char_numeric n : (n < 10)%N -> numeric (pretty_N_char n) = true.
Proof.
  intros Hn. assert (Hc : forall k, (k < 10)%nat -> numeric (pretty_N_char (N.of_nat k)) = true).
  { intros k Hk. do 10 (destruct k as [|k]; [reflexivity|]). lia. }
  specialize (Hc (N.to_nat n) ltac:(lia)). by rewrite N2Nat.id in Hc.
Qed.

Lemma pretty_N_go_numeric n s :
  Forall (fun c => numeric c = true) (chars s) -> Forall (fun c => numeric c = true) (chars (pretty_N_go n s)).
Proof.
  revert s. induction (N.lt_wf_0 n) as [n _ IH]. intros s Hs. destruct (decide (0 < n)%N) as [Hn|Hn].
  - rewrite pretty_N_go_step by done. apply IH; [apply N.div_lt; lia|]. constructor; [|done].
    apply pretty_char_numeric. apply N.mod_lt. done.
  - assert (n = 0)%N as -> by lia. by rewrite pretty_N_go_0.
Qed.

Lemma pretty_numeric (n : Z) : Forall (fun c => numeric c = true) (chars (pretty n)).
Proof.
  assert (Hp : forall p, Forall (fun c => numeric c = true) (chars (pretty (N.pos p)))).
  { intros p. unfold pretty, pretty_N. case_decide; [repeat constructor|]. apply pretty_N_go_numeric. constructor. }
  destruct n as [|p|p]; unfold pretty, pretty_Z.
  - repeat constructor.
  - apply Hp.
  - change (chars (String "-" (pretty (N.pos p)))) with ("-"%char :: chars (pretty (N.pos p))).
    constructor; [done|apply Hp].
Qed.

Lemma pretty_N_go_suffix n s : exists p, pretty_N_go n s = p +:+ s.
Proof.
  revert s. induction (N.lt_wf_0 n) as [n _ IH]. intros s. destruct (decide (0 < n)%N) as [Hn|Hn].
  - rewrite pretty_N_go_step by done. destruct (IH (n / 10)%N (N.div_lt n 10 Hn eq_refl)
      (String (pretty_N_char (n mod 10)) s)) as [p ->].
    exists (p +:+ String (pretty_N_char (n mod 10)) ""). by rewrite app_str_assoc.
  - assert (n = 0)%N as -> by lia. rewrite pretty_N_go_0. by exists "".
Qed.

Lemma pretty_nonempty (n : Z) : pretty n <> "".
Proof.
  assert (Hp : forall p, pretty (N.pos p) <> "").
  { intros p. unfold pretty, pretty_N. case_decide; [done|]. rewrite pretty_N_go_step by lia.
    destruct (pretty_N_go_suffix (N.pos p / 10) (String (pretty_N_char (N.pos p mod 10)) "")) as [q ->].
    by destruct q. }
  destruct n as [|p|p]; unfold pretty, pretty_Z; [done|apply Hp|done].
Qed.

(** * A text determines its value *)

(** What may follow a value: nothing, or a separator or closing bracket. *)
Definition value_end (x : string) : Prop :=
  match x with "" => True | String c _ => c ∈ [","; "]"; "}"]%char end.

Lemma value_end_numeric c x : value_end (String c x) -> numeric c = false.
Proof.
  cbn. rewrite !elem_of_cons. intros [->|[->|[->|[]%elem_of_nil]]]; reflexivity.
Qed.

Lemma int_inj (n m : Z) x x' :
  value_end x -> value_end x' -> pretty n +:+ x = pretty m +:+ x' -> n = m /\ x = x'.
Proof.
  intros Hx Hx' H.
  assert (Hcut : forall (a b : Z) k y, pretty b = pretty a +:+ k -> value_end (k +:+ y) -> k = "").
  { intros a b [|c k] y Hk Hy; [done|]. rewrite app_str_cons in Hy. apply value_end_numeric in Hy.
    pose proof (pretty_numeric b) as Hb. rewrite Hk, chars_app in Hb. apply Forall_app in Hb as [_ Hb].
    cbn in Hb. apply Forall_cons in Hb as [Hb _]. congruence. }
  apply app_str_split in H as [(k & Hk & ->)|(k & Hk & ->)].
  - pose proof (Hcut n m k x' Hk Hx) as ->. rewrite app_str_nil_r in Hk. apply (inj pretty) in Hk. done.
  - pose proof (Hcut m n k x Hk Hx') as ->. rewrite app_str_nil_r in Hk. apply (inj pretty) in Hk. done.
Qed.

(** No number begins like another value. *)
Lemma int_other (n : Z) x c y :
  value_end x -> numeric c = false -> c ∉ [","; "]"; "}"]%char -> pretty n +:+ x <> String c y.
Proof.
  intros Hx Hc Hn. pose proof (pretty_numeric n) as Hp. destruct (pretty n) as [|d t].
  - intros H. change (x = String c y) in H. by subst x.
  - intros H. change (String d (t +:+ x) = String c y) in H. injection H as -> _. cbn in Hp. apply Forall_cons in Hp as [Hd _]. congruence.
Qed.

Section injective.
Context (comma colon : string).
Hypothesis comma_begins : exists t, comma = String "," t.

Notation dumps := (dumps comma colon).

(** What follows the first element of an array or the first field of an object. *)
Definition array_rest : list json -> string :=
  fix rest l := match l with [] => "]" | v :: l => comma +:+ (dumps v +:+ rest l) end.
Definition object_rest : list (string * json) -> string :=
  fix rest l := match l with
                | [] => "}"
                | (k, v) :: l => comma +:+ (quote k +:+ (colon +:+ (dumps v +:+ rest l)))
                end.

Lemma array_rest_end l x : value_end (array_rest l +:+ x).
Proof. destruct comma_begins as [t Ht], l; cbn [array_rest]; rewrite ?Ht; cbn; set_solver. Qed.

Lemma object_rest_end l x : value_end (object_rest l +:+ x).
Proof. destruct comma_begins as [t Ht], l as [|[k v] l]; cbn [object_rest]; rewrite ?Ht; cbn; set_solver. Qed.

Lemma app_str_inv (p a b : string) : p +:+ a = p +:+ b -> a = b.
Proof. induction p as [|c p IH]; [done|]. rewrite !app_str_cons. by intros [= ?%IH]. Qed.

Definition determines (v : json) : Prop :=
  forall v' x x', value_end x -> value_end x' -> dumps v +:+ x = dumps v' +:+ x' -> v = v' /\ x = x'.

Lemma array_rest_inj l l' x x' :
  Forall determines l -> value_end x -> value_end x' ->
  array_rest l +:+ x = array_rest l' +:+ x' -> l = l' /\ x = x'.
Proof.
  intros Hl. revert l'. destruct comma_begins as [t Ht].
  induction Hl as [|v l Hv _ IH]; intros [|v' l'] Hx Hx'; cbn [array_rest].
  - by intros ->%app_str_inv.
  - intros H. by rewrite Ht in H.
  - intros H. by rewrite Ht in H.
  - rewrite !app_str_assoc. intros H%app_str_inv.
    apply Hv in H as [-> H]; [|apply array_rest_end..]. by destruct (IH l' Hx Hx' H) as [-> ->].
Qed.

Lemma object_rest_inj l l' x x' :
  Forall (fun kv => determines kv.2) l -> value_end x -> value_end x' ->
  object_rest l +:+ x = object_rest l' +:+ x' -> l = l' /\ x = x'.
Proof.
  intros Hl. revert l'. destruct comma_begins as [t Ht].
  induction Hl as [|[k v] l Hv _ IH]; intros [|[k' v'] l'] Hx Hx'; cbn [object_rest].
  - by intros ->%app_str_inv.
  - intros H. by rewrite Ht in H.
  - intros H. by rewrite Ht in H.
  - rewrite !app_str_assoc. intros H%app_str_inv. apply quote_inj in H as [-> H%app_str_inv].
    cbn [snd] in Hv. apply Hv in H as [-> H]; [|apply object_rest_end..]. by destruct (IH l' Hx Hx' H) as [-> ->].
Qed.

Lemma dumps_array v l : dumps (JArr (v :: l)) = "[" +:+ (dumps v +:+ array_rest l).
Proof. done. Qed.

Lemma dumps_object k v l :
  dumps (JObj ((k, v) :: l)) = "{" +:+ (quote k +:+ (colon +:+ (dumps v +:+ object_rest l))).
Proof. done. Qed.

(** The first character tells the kind of value. *)
Definition kind_of (v : json) : option ascii :=
  match v with
  | JNull => Some "n"%char
  | JBool true => Some "t"%char
  | JBool false => Some "f"%char
  | JInt _ => None
  | JStr _ => Some QUOTE
  | JArr _ => Some "["%char
  | JObj _ => Some "{"%char
  end.

Lemma dumps_head v c : kind_of v = Some c -> exists t, dumps v = String c t.
Proof.
  destruct v as [|[]|n|s|[|v l]|[|[k v] l]]; cbn; intros [= <-]; eexists; reflexivity.
Qed.

Lemma kind_not_end v c : kind_of v = Some c -> numeric c = false /\ c ∉ [","; "]"; "}"]%char.
Proof.
  destruct v as [|[]|n|s|l|l]; cbn; intros [= <-]; split; try reflexivity; apply (bool_decide_eq_true_1 _); reflexivity.
Qed.

Lemma same_kind v v' x x' :
  value_end x -> value_end x' -> dumps v +:+ x = dumps v' +:+ x' -> kind_of v = kind_of v'.
Proof.
  intros Hx Hx' H. destruct (kind_of v) as [c|] eqn:Hv, (kind_of v') as [c'|] eqn:Hv'; [..|done].
  - apply dumps_head in Hv as [t Ht], Hv' as [t' Ht']. rewrite Ht, Ht' in H. by injection H as ->.
  - destruct v' as [|[]|n|?|?|?]; try done. destruct (kind_not_end _ _ Hv) as [Hn He].
    apply dumps_head in Hv as [t Ht]. rewrite Ht in H. symmetry in H. by apply (int_other n x' c (t +:+ x) Hx' Hn He) in H.
  - destruct v as [|[]|n|?|?|?]; try done. destruct (kind_not_end _ _ Hv') as [Hn He].
    apply dumps_head in Hv' as [t Ht]. rewrite Ht in H. by apply (int_other n x c' (t +:+ x') Hx Hn He) in H.
Qed.

(** No value begins like the end of one. *)
Lemma dumps_begins v y c z : c ∈ [","; "]"; "}"]%char -> dumps v +:+ y <> String c z.
Proof.
  intros Hc H. destruct (kind_of v) as [d|] eqn:Hv.
  - destruct (kind_not_end _ _ Hv) as [_ He]. apply dumps_head in Hv as [t Ht]. rewrite Ht in H.
    change (String d (t +:+ y) = String c z) in H. injection H as -> _. done.
  - destruct v as [|[]|n|?|?|?]; try done. cbn in H. pose proof (pretty_numeric n) as Hp.
    pose proof (pretty_nonempty n). destruct (pretty n) as [|d t]; [done|].
    change (String d (t +:+ y) = String c z) in H. injection H as -> _. cbn in Hp. apply Forall_cons in Hp as [Hp _].
    rewrite (value_end_numeric c "") in Hp; done.
Qed.

Lemma dumps_determines v : determines v.
Proof.
  induction v as [|b|n|s|l IH|kvs IH] using json_nested_ind; intros v' x x' Hx Hx' H;
    pose proof (same_kind _ _ _ _ Hx Hx' H) as Hk.
  - destruct v' as [|[]|?|?|?|?]; try done. split; [done|]. by apply app_str_inv in H.
  - destruct b, v' as [|[]|?|?|?|?]; try done; (split; [done|]); by apply app_str_inv in H.
  - destruct v' as [|[]|m|?|?|?]; try done. apply int_inj in H as [-> ->]; done.
  - destruct v' as [|[]|?|s'|?|?]; try done. apply quote_inj in H as [-> ->]; done.
  - destruct v' as [|[]|?|?|l'|?]; try done. destruct l as [|v l], l' as [|v' l']; rewrite ?dumps_array in H.
    + split; [done|]. by apply app_str_inv in H.
    + rewrite !app_str_assoc in H. change (dumps (JArr [])) with ("[" +:+ "]") in H. rewrite app_str_assoc in H.
      apply app_str_inv in H. symmetry in H. by apply dumps_begins in H; [|set_solver].
    + rewrite !app_str_assoc in H. change (dumps (JArr [])) with ("[" +:+ "]") in H. rewrite app_str_assoc in H.
      apply app_str_inv in H. by apply dumps_begins in H; [|set_solver].
    + rewrite !app_str_assoc in H. apply app_str_inv in H. apply Forall_cons in IH as [Hv IH].
      apply Hv in H as [-> H]; [|apply array_rest_end..].
      by destruct (array_rest_inj _ _ _ _ IH Hx Hx' H) as [-> ->].
  - destruct v' as [|[]|?|?|?|l']; try done. destruct kvs as [|[k v] l], l' as [|[k' v'] l'];
      rewrite ?dumps_object in H.
    + split; [done|]. by apply app_str_inv in H.
    + done.
    + done.
    + rewrite !app_str_assoc in H. apply app_str_inv, quote_inj in H as [-> H%app_str_inv].
      apply Forall_cons in IH as [Hv IH]. cbn [snd] in Hv. apply Hv in H as [-> H]; [|apply object_rest_end..].
      by destruct (object_rest_inj _ _ _ _ IH Hx Hx' H) as [-> ->].
Qed.

Lemma dumps_inj v v' : dumps v = dumps v' -> v = v'.
Proof.
  intros H. destruct (dumps_determines v v' "" "" I I) as [? _]; [by rewrite !app_str_nil_r|done].
Qed.
End injective.
