(* ===== verification/TaskSettings.v ===== *)
(** Run-time settings of the task subsystem: the resolved configuration and its
    overrides (app/domain/task_config.py), the one-row store
    (app/infrastructure/registry/sqlite_task_config_store.py), and the service
    that reads, edits and replaces them (app/application/task_config_service.py).

    The theorems: overrides survive being stored, runtime reads are always valid, and
    concurrent edits do not lose each other. *)
From S2P Require Import Prelude.

(** * Configuration and overrides *)

Record TaskConfig := mkTaskConfig {
  task_max_concurrency : Z;
  task_lease_seconds : Z;
  task_heartbeat_timeout_seconds : Z;
  task_max_runtime_seconds : Z;
  task_goal_max_turns : Z;
  task_attachment_max_bytes : Z;
  task_attachment_task_max_bytes : Z;
  task_failure_limit : Z;
  note_max_codepoints : Z
}.

Inductive cfg_field : Type :=
  | FConcurrency | FLease | FHeartbeat | FRuntime | FGoalTurns | FAttachment | FAttachments | FFailures | FNote.

#[export] Instance cfg_field_eq_dec : EqDecision cfg_field.
Proof. solve_decision. Defined.

Definition TASK_CONFIG_FIELDS : list cfg_field :=
  [FConcurrency; FLease; FHeartbeat; FRuntime; FGoalTurns; FAttachment; FAttachments; FFailures; FNote].

Definition field_name (f : cfg_field) : string :=
  match f with
  | FConcurrency => "task_max_concurrency"
  | FLease => "task_lease_seconds"
  | FHeartbeat => "task_heartbeat_timeout_seconds"
  | FRuntime => "task_max_runtime_seconds"
  | FGoalTurns => "task_goal_max_turns"
  | FAttachment => "task_attachment_max_bytes"
  | FAttachments => "task_attachment_task_max_bytes"
  | FFailures => "task_failure_limit"
  | FNote => "note_max_codepoints"
  end.

(** [k in TASK_CONFIG_FIELDS] *)
Definition field_of_name (k : string) : option cfg_field :=
  List.find (fun f => bool_decide (field_name f = k)) TASK_CONFIG_FIELDS.

(** [getattr(cfg, f)] and [TaskConfig( **kwargs )]. *)
Definition config_get (c : TaskConfig) (f : cfg_field) : Z :=
  match f with
  | FConcurrency => task_max_concurrency c
  | FLease => task_lease_seconds c
  | FHeartbeat => task_heartbeat_timeout_seconds c
  | FRuntime => task_max_runtime_seconds c
  | FGoalTurns => task_goal_max_turns c
  | FAttachment => task_attachment_max_bytes c
  | FAttachments => task_attachment_task_max_bytes c
  | FFailures => task_failure_limit c
  | FNote => note_max_codepoints c
  end.
Definition make_config (g : cfg_field -> Z) : TaskConfig :=
  mkTaskConfig (g FConcurrency) (g FLease) (g FHeartbeat) (g FRuntime) (g FGoalTurns) (g FAttachment)
    (g FAttachments) (g FFailures) (g FNote).

Record TaskConfigOverrides := mkTaskConfigOverrides {
  ov_max_concurrency : option Z;
  ov_lease_seconds : option Z;
  ov_heartbeat_timeout_seconds : option Z;
  ov_max_runtime_seconds : option Z;
  ov_goal_max_turns : option Z;
  ov_attachment_max_bytes : option Z;
  ov_attachment_task_max_bytes : option Z;
  ov_failure_limit : option Z;
  ov_note_max_codepoints : option Z
}.

Definition override_get (o : TaskConfigOverrides) (f : cfg_field) : option Z :=
  match f with
  | FConcurrency => ov_max_concurrency o
  | FLease => ov_lease_seconds o
  | FHeartbeat => ov_heartbeat_timeout_seconds o
  | FRuntime => ov_max_runtime_seconds o
  | FGoalTurns => ov_goal_max_turns o
  | FAttachment => ov_attachment_max_bytes o
  | FAttachments => ov_attachment_task_max_bytes o
  | FFailures => ov_failure_limit o
  | FNote => ov_note_max_codepoints o
  end.
Definition make_overrides (g : cfg_field -> option Z) : TaskConfigOverrides :=
  mkTaskConfigOverrides (g FConcurrency) (g FLease) (g FHeartbeat) (g FRuntime) (g FGoalTurns) (g FAttachment)
    (g FAttachments) (g FFailures) (g FNote).
Definition no_overrides : TaskConfigOverrides := make_overrides (fun _ => None).

Definition to_dict (o : TaskConfigOverrides) : list (string * Z) :=
  omap (fun f => v ← override_get o f; Some (field_name f, v)) TASK_CONFIG_FIELDS.

Definition overridden_fields (o : TaskConfigOverrides) : list cfg_field :=
  List.filter (fun f => bool_decide (is_Some (override_get o f))) TASK_CONFIG_FIELDS.

(** The items of a dict as keyword arguments: known names, ints that are no
    bools; [e] is what is raised otherwise. *)
Fixpoint parse_items (e : py_exc) (kwargs : cfg_field -> option Z) (items : list (string * json))
    : result (cfg_field -> option Z) :=
  match items with
  | [] => Return kwargs
  | (k, v) :: items =>
      match field_of_name k, v with
      | Some f, JInt n => parse_items e (fun g => if bool_decide (g = f) then Some n else kwargs g) items
      | _, _ => Raise e
      end
  end.

Definition from_dict (data : json) : result TaskConfigOverrides :=
  match data with
  | JObj items => let? kwargs := parse_items TaskConfigStoreError (fun _ => None) items in Return (make_overrides kwargs)
  | _ => Raise TaskConfigStoreError
  end.

Definition validate_task_config (c : TaskConfig) (dispatch_interval : Z) : result unit :=
  if existsb (fun f => config_get c f <? 1) TASK_CONFIG_FIELDS then Raise TaskConfigValidationError
  else if task_lease_seconds c <=? task_heartbeat_timeout_seconds c then Raise TaskConfigValidationError
  else if task_attachment_task_max_bytes c <? task_attachment_max_bytes c then Raise TaskConfigValidationError
  else if task_lease_seconds c <=? dispatch_interval then Raise TaskConfigValidationError
  else Return tt.

Definition merge_overrides (base : TaskConfig) (o : TaskConfigOverrides) : TaskConfig :=
  make_config (fun f => match override_get o f with Some v => v | None => config_get base f end).

(** * The store *)

Record StoredTaskConfig := mkStoredTaskConfig {
  stored_overrides : TaskConfigOverrides; stored_version : Z; stored_at : string; stored_by : string }.

(** The row; [config_json] is what its text denotes, [None] when it is not JSON. *)
Record cfg_row := mkCfgRow {
  row_json : option json; row_version : Z; row_updated_at : string; row_updated_by : string }.

Definition store_get (row : option cfg_row) : result (option StoredTaskConfig) :=
  match row with
  | None => Return None
  | Some r =>
      match row_json r with
      | None => Raise TaskConfigStoreError
      | Some data =>
          let? overrides := from_dict data in
          if row_version r <? 1 then Raise TaskConfigStoreError
          else if negb (truthy_str (row_updated_at r)) then Raise TaskConfigStoreError
          else if negb (truthy_str (row_updated_by r)) then Raise TaskConfigStoreError
          else Return (Some (mkStoredTaskConfig overrides (row_version r) (row_updated_at r) (row_updated_by r)))
      end
  end.

(** [json.dumps(overrides.to_dict(), sort_keys=True)] *)
Definition dumped (o : TaskConfigOverrides) : json :=
  JObj (order_by (fun a b => str_leb a.1 b.1) (map (fun kv => (kv.1, JInt kv.2)) (to_dict o))).

Definition store_save (row : option cfg_row) (o : TaskConfigOverrides) (expected : Z) (by_ now : string)
    : option cfg_row * result StoredTaskConfig :=
  if expected <? 0 then (row, Raise TaskConfigStoreError)
  else if negb (truthy_str by_) then (row, Raise TaskConfigStoreError)
  else if expected =? 0 then
    match row with
    | Some _ => (row, Raise TaskConfigConflictError)
    | None => (Some (mkCfgRow (Some (dumped o)) 1 now by_), Return (mkStoredTaskConfig o 1 now by_))
    end
  else
    match row with
    | None => (row, Raise TaskConfigConflictError)
    | Some r =>
        if negb (row_version r =? expected) then (row, Raise TaskConfigConflictError)
        else (Some (mkCfgRow (Some (dumped o)) (row_version r + 1) now by_),
              Return (mkStoredTaskConfig o (expected + 1) now by_))
    end.

(** * The service *)

Record ResolvedTaskConfig := mkResolvedTaskConfig {
  resolved_config : TaskConfig; resolved_version : Z; resolved_fields : list cfg_field;
  resolved_at : option string; resolved_by : option string }.

Record TaskConfigAuditEvent := mkTaskConfigAuditEvent {
  audit_actor : string; audit_at : string; audit_old_version : Z; audit_new_version : Z;
  audit_changed : list (cfg_field * (Z * Z)) }.

(** The two attributes the service sets once, and its cache. *)
Record cfg_service := mkCfgService {
  env_config : TaskConfig; dispatch_interval : Z; last_known_good : TaskConfig }.
#[export] Instance rebuild_cfg_service : Rebuild cfg_service := fun s =>
  mkCfgService (env_config s) (dispatch_interval s) (last_known_good s).

Definition service_init (env : TaskConfig) (dispatch : Z) : cfg_service := mkCfgService env dispatch env.

Definition current (s : cfg_service) (row : option cfg_row) : cfg_service * TaskConfig :=
  match store_get row with
  | Raise _ => (s, last_known_good s)
  | Return None => (s <| last_known_good := env_config s |>, env_config s)
  | Return (Some stored) =>
      let resolved := merge_overrides (env_config s) (stored_overrides stored) in
      match validate_task_config resolved (dispatch_interval s) with
      | Raise _ => (s <| last_known_good := env_config s |>, env_config s)
      | Return _ => (s <| last_known_good := resolved |>, resolved)
      end
  end.

Definition get_resolved (s : cfg_service) (row : option cfg_row) : result ResolvedTaskConfig :=
  let? stored := store_get row in
  match stored with
  | None => Return (mkResolvedTaskConfig (env_config s) 0 [] None None)
  | Some st =>
      let resolved := merge_overrides (env_config s) (stored_overrides st) in
      let? _ := validate_task_config resolved (dispatch_interval s) in
      Return (mkResolvedTaskConfig resolved (stored_version st) (overridden_fields (stored_overrides st))
                (Some (stored_at st)) (Some (stored_by st)))
  end.

Definition check_actor (expected : Z) (by_ : string) : result unit :=
  if expected <? 0 then Raise TaskConfigValidationError
  else if negb (truthy_str by_) then Raise TaskConfigValidationError else Return tt.

(** [update] up to its save: what was read, and what will be written. *)
Record update_plan := mkUpdatePlan {
  plan_existing : TaskConfigOverrides; plan_old_version : Z; plan_patch : cfg_field -> option Z;
  plan_merged : TaskConfigOverrides; plan_candidate : TaskConfig }.

Definition prepare_update (s : cfg_service) (row : option cfg_row) (partial : json) (expected : Z) (by_ : string)
    : result update_plan :=
  match partial with
  | JObj ((_ :: _) as items) =>
      let? _ := check_actor expected by_ in
      let? patch := parse_items TaskConfigValidationError (fun _ => None) items in
      let? stored := store_get row in
      let existing := match stored with Some st => stored_overrides st | None => no_overrides end in
      let old_version := match stored with Some st => stored_version st | None => 0 end in
      if negb (old_version =? expected) then Raise TaskConfigConflictError
      else
        let merged := make_overrides (fun f => match patch f with Some v => Some v | None => override_get existing f end) in
        let candidate := merge_overrides (env_config s) merged in
        let? _ := validate_task_config candidate (dispatch_interval s) in
        Return (mkUpdatePlan existing old_version patch merged candidate)
  | _ => Raise TaskConfigValidationError
  end.

Definition before (s : cfg_service) (existing : TaskConfigOverrides) (f : cfg_field) : Z :=
  default (config_get (env_config s) f) (override_get existing f).

(** The fields of [fs] whose resolved value changes. *)
Definition changed_fields (s : cfg_service) (existing : TaskConfigOverrides) (after : cfg_field -> Z)
    (fs : list cfg_field) : list (cfg_field * (Z * Z)) :=
  omap (fun f => if before s existing f =? after f then None else Some (f, (before s existing f, after f))) fs.

(** The fields a dict names, in its order. *)
Definition named_fields (partial : json) : list cfg_field :=
  match partial with JObj items => omap (fun kv => field_of_name kv.1) items | _ => [] end.

(** The save and what follows it, on the row as it then is. *)
Definition commit_update (s : cfg_service) (row : option cfg_row) (partial : json) (plan : update_plan)
    (expected : Z) (by_ now : string)
    : cfg_service * option cfg_row * result (ResolvedTaskConfig * TaskConfigAuditEvent) :=
  match store_save row (plan_merged plan) expected by_ now with
  | (row', Raise e) => (s, row', Raise e)
  | (row', Return saved) =>
      (s <| last_known_good := plan_candidate plan |>, row',
       Return (mkResolvedTaskConfig (plan_candidate plan) (stored_version saved)
                 (overridden_fields (plan_merged plan)) (Some (stored_at saved)) (Some (stored_by saved)),
               mkTaskConfigAuditEvent by_ (stored_at saved) (plan_old_version plan) (stored_version saved)
                 (changed_fields s (plan_existing plan) (config_get (plan_candidate plan)) (named_fields partial))))
  end.

Definition update (s : cfg_service) (row : option cfg_row) (partial : json) (expected : Z) (by_ now : string)
    : cfg_service * option cfg_row * result (ResolvedTaskConfig * TaskConfigAuditEvent) :=
  match prepare_update s row partial expected by_ with
  | Raise e => (s, row, Raise e)
  | Return plan => commit_update s row partial plan expected by_ now
  end.

(** [replace_overrides]: with [dry_run] nothing is read or written. *)
Definition replace_overrides (s : cfg_service) (row : option cfg_row) (overrides : json) (expected : Z)
    (by_ now : string) (dry_run : bool)
    : cfg_service * option cfg_row * result (ResolvedTaskConfig * option TaskConfigAuditEvent) :=
  match overrides with
  | JObj items =>
      match (let? _ := check_actor expected by_ in
             let? parsed := parse_items TaskConfigValidationError (fun _ => None) items in
             let replacement := make_overrides parsed in
             let? _ := validate_task_config (merge_overrides (env_config s) replacement) (dispatch_interval s) in
             Return replacement) with
      | Raise e => (s, row, Raise e)
      | Return replacement =>
          let candidate := merge_overrides (env_config s) replacement in
          if dry_run
          then (s, row, Return (mkResolvedTaskConfig candidate expected (overridden_fields replacement) None None, None))
          else
            match store_get row with
            | Raise e => (s, row, Raise e)
            | Return stored =>
                let existing := match stored with Some st => stored_overrides st | None => no_overrides end in
                let old_version := match stored with Some st => stored_version st | None => 0 end in
                match store_save row replacement expected by_ now with
                | (row', Raise e) => (s, row', Raise e)
                | (row', Return saved) =>
                    (s <| last_known_good := candidate |>, row',
                     Return (mkResolvedTaskConfig candidate (stored_version saved) (overridden_fields replacement)
                               (Some (stored_at saved)) (Some (stored_by saved)),
                             Some (mkTaskConfigAuditEvent by_ (stored_at saved) old_version (stored_version saved)
                               (changed_fields s existing (config_get candidate) TASK_CONFIG_FIELDS))))
                end
            end
      end
  | _ => (s, row, Raise TaskConfigValidationError)
  end.

(** * Definitions *)

(** The JSON object an override set is written as. *)
Definition entries (o : TaskConfigOverrides) : list (string * json) :=
  map (fun kv => (kv.1, JInt kv.2)) (to_dict o).

Definition entry_ok (kv : string * json) : Prop :=
  is_Some (field_of_name kv.1) /\ exists n, kv.2 = JInt n.

Definition valid_config (s : cfg_service) (c : TaskConfig) : Prop :=
  validate_task_config c (dispatch_interval s) = Return tt.

(** The version a client saves against; 0 before the first save. *)
Definition version_of (row : option cfg_row) : Z := match row with Some r => row_version r | None => 0 end.

(** Successful saves by any client lead from one row to another. *)
Inductive saves : option cfg_row -> option cfg_row -> Prop :=
  | saves_nil row : saves row row
  | saves_cons row o expected by_ now row' saved row'' :
      store_save row o expected by_ now = (row', Return saved) -> saves row' row'' -> saves row row''.

Definition env_demo : TaskConfig := mkTaskConfig 4 900 300 3600 10 20971520 104857600 3 2000.
Definition service_demo : cfg_service := service_init env_demo 60.
Definition row_demo : option cfg_row :=
  (store_save None (make_overrides (fun f => if bool_decide (f = FNote) then Some 500 else None)) 0 "ops" "t0").1.
Definition patch_demo : json := JObj [("task_lease_seconds", JInt 600); ("task_max_concurrency", JInt 8)].

(** * Lemmas: fields *)

Lemma field_name_inj f g : field_name f = field_name g -> f = g.
Proof. by destruct f, g. Qed.

Lemma all_fields f : f ∈ TASK_CONFIG_FIELDS.
Proof. apply (bool_decide_eq_true_1 _). by destruct f. Qed.

Lemma field_of_name_spec k f : field_of_name k = Some f <-> k = field_name f.
Proof.
  split.
  - intros [_ H]%List.find_some. by apply bool_decide_eq_true in H.
  - intros ->. by destruct f.
Qed.

Lemma make_override_get o : make_overrides (override_get o) = o.
Proof. by destruct o. Qed.

Lemma make_overrides_ext g h : (forall f, g f = h f) -> make_overrides g = make_overrides h.
Proof. intros H. unfold make_overrides. by rewrite !H. Qed.

Lemma override_get_make g f : override_get (make_overrides g) f = g f.
Proof. by destruct f. Qed.

Lemma config_get_make g f : config_get (make_config g) f = g f.
Proof. by destruct f. Qed.

(** * Lemmas: parsing *)

Lemma entries_elem o k v :
  (k, v) ∈ entries o <-> exists f n, k = field_name f /\ v = JInt n /\ override_get o f = Some n.
Proof.
  unfold entries, to_dict. rewrite list_elem_of_fmap. split.
  - intros ([k' n] & Heq & Hin). apply list_elem_of_omap in Hin as (f & _ & Hf).
    destruct (override_get o f) as [m|] eqn:E; [|done]. cbn in Hf, Heq. exists f, m. by simplify_eq.
  - intros (f & n & -> & -> & Hf). exists (field_name f, n). split; [done|]. apply list_elem_of_omap.
    exists f. split; [apply all_fields|]. by rewrite Hf.
Qed.

Lemma entries_keys o : NoDup (map fst (entries o)).
Proof.
  unfold entries, to_dict. rewrite List.map_map. cbn [fst].
  assert (NoDup TASK_CONFIG_FIELDS) as Hnd by by apply (bool_decide_eq_true_1 _).
  induction Hnd as [|f l Hf _ IH]; [constructor|]. cbn [omap list_omap].
  destruct (override_get o f) as [n|]; cbn; [|done]. constructor; [|done].
  intros ([k m] & Heq & Hin)%list_elem_of_fmap. apply list_elem_of_omap in Hin as (f' & Hf' & E).
  destruct (override_get o f'); [|done]. cbn in E, Heq. injection E as <- _. by apply field_name_inj in Heq as ->.
Qed.

Lemma parse_items_ok e items kwargs g : parse_items e kwargs items = Return g -> Forall entry_ok items.
Proof.
  revert kwargs. induction items as [|[k v] items IH]; intros kwargs; cbn [parse_items]; [constructor|].
  destruct (field_of_name k) as [f|] eqn:E; [|done]. destruct v; try done. intros H. constructor; [|by eapply IH].
  split; [by exists f|by eexists].
Qed.

Lemma parse_items_returns e items kwargs :
  Forall entry_ok items -> NoDup (map fst items) ->
  exists g, parse_items e kwargs items = Return g
  /\ forall f n, g f = Some n <-> (field_name f, JInt n) ∈ items
                                  \/ field_name f ∉ map fst items /\ kwargs f = Some n.
Proof.
  intros Hok. revert kwargs. induction Hok as [|[k v] items [[f Hf] [n Hn]] _ IH]; intros kwargs Hnd; cbn [parse_items].
  { exists kwargs. split; [done|]. intros f n. rewrite elem_of_nil. split; [right|tauto].
    split; [apply not_elem_of_nil|done]. }
  cbn [fst snd] in Hf, Hn. subst v. pose proof Hf as Hk. apply field_of_name_spec in Hk as ->. rewrite Hf.
  cbn [map fst] in Hnd. apply NoDup_cons in Hnd as [Hn Hnd].
  destruct (IH (fun g => if bool_decide (g = f) then Some n else kwargs g) Hnd) as (g & -> & Hg).
  exists g. split; [done|]. intros f' n'. rewrite Hg, elem_of_cons. cbn [map fst]. rewrite not_elem_of_cons.
  destruct (decide (f' = f)) as [->|Hne].
  - rewrite bool_decide_eq_true_2 by done. split.
    + intros [Hin|[_ [= <-]]]; [by left; right|by left; left].
    + intros [[[= <-]|Hin]|[[? _] _]]; [by right|by left|done].
  - rewrite bool_decide_eq_false_2 by done. split.
    + intros [Hin|[Hni Hkw]]; [by left; right|]. right. split_and!; [|done..].
      intros Heq. by apply Hne, field_name_inj.
    + intros [[[= Heq _]|Hin]|[[_ Hni] Hkw]]; [by apply field_name_inj in Heq|by left|by right].
Qed.

Lemma from_dict_elem items o :
  NoDup (map fst items) -> from_dict (JObj items) = Return o ->
  forall f n, override_get o f = Some n <-> (field_name f, JInt n) ∈ items.
Proof.
  intros Hnd. cbn [from_dict]. destruct (parse_items _ _ items) as [g|] eqn:E; [|done]. cbn. intros [= <-] f n.
  destruct (parse_items_returns TaskConfigStoreError items (fun _ => None)) as (g' & E' & Hg);
    [by eapply parse_items_ok|done|].
  rewrite E in E'. injection E' as <-. rewrite override_get_make, Hg. naive_solver.
Qed.

Lemma from_entries items o : items ≡ₚ entries o -> from_dict (JObj items) = Return o.
Proof.
  intros Hp. assert (NoDup (map fst items)) as Hnd
    by (change (NoDup (fst <$> items)); rewrite Hp; apply entries_keys).
  destruct (parse_items_returns TaskConfigStoreError items (fun _ => None)) as (g & Hg & Hspec); [|done|].
  - apply Forall_forall. intros [k v]. rewrite Hp, entries_elem. intros (f & n & -> & -> & _).
    split; [|by eexists]. exists f. by apply field_of_name_spec.
  - cbn [from_dict]. rewrite Hg. cbn. f_equal. rewrite <- (make_override_get o). apply make_overrides_ext.
    intros f. destruct (override_get o f) as [n|] eqn:E.
    + apply Hspec. left. rewrite Hp. apply entries_elem. by exists f, n.
    + destruct (g f) as [n|] eqn:Eg; [|done]. apply Hspec in Eg as [Hin|[_ ?]]; [|done].
      rewrite Hp in Hin. apply entries_elem in Hin as (f' & n' & Heq & _ & Ho). apply field_name_inj in Heq as ->.
      congruence.
Qed.

Lemma dumped_perm o : exists items, dumped o = JObj items /\ items ≡ₚ entries o.
Proof. eexists. split; [reflexivity|]. apply order_by_perm. Qed.

Lemma store_get_dumped o v at_ by_ :
  1 <= v -> truthy_str at_ = true -> truthy_str by_ = true ->
  store_get (Some (mkCfgRow (Some (dumped o)) v at_ by_)) = Return (Some (mkStoredTaskConfig o v at_ by_)).
Proof.
  intros Hv Ha Hb. unfold store_get. cbn [row_json row_version row_updated_at row_updated_by].
  destruct (dumped_perm o) as (items & -> & Hp). rewrite (from_entries items o) by done. cbn.
  by rewrite (proj2 (Z.ltb_ge v 1)), Ha, Hb by done.
Qed.

(** What a successful save did. *)
Lemma store_save_spec row o expected by_ now row' saved :
  store_save row o expected by_ now = (row', Return saved) ->
  0 <= expected /\ truthy_str by_ = true
  /\ expected = match row with Some r => row_version r | None => 0 end
  /\ (row = None \/ 1 <= expected)
  /\ row' = Some (mkCfgRow (Some (dumped o)) (expected + 1) now by_)
  /\ saved = mkStoredTaskConfig o (expected + 1) now by_.
Proof.
  unfold store_save. destruct (Z.ltb_spec expected 0); [done|]. destruct (truthy_str by_); [|done]. cbn [negb].
  destruct (Z.eqb_spec expected 0) as [->|Hne]; destruct row as [r|]; try done.
  - intros [= <- <-]. split_and!; try done. by left.
  - destruct (Z.eqb_spec (row_version r) expected) as [->|]; [|done]. cbn [negb]. intros [= <- <-].
    split_and!; try done. right. lia.
Qed.

(** * Properties *)

(** Overrides survive the store.  What is saved is what is read back, with its
    version, time and author; reading what an override set is written as gives the set,
    and writing what was read gives the entries read.  An object is accepted exactly
    when all its keys are fields of the configuration and all its values integers. *)
Theorem overrides_roundtrip :
  (forall o, from_dict (dumped o) = Return o)
  /\ (forall items o, NoDup (map fst items) -> from_dict (JObj items) = Return o -> entries o ≡ₚ items)
  /\ (forall items, NoDup (map fst items) ->
       (exists o, from_dict (JObj items) = Return o) <-> Forall entry_ok items)
  /\ (forall row o expected by_ now row' saved,
       truthy_str now = true -> store_save row o expected by_ now = (row', Return saved) ->
       stored_overrides saved = o /\ store_get row' = Return (Some saved)).
Proof.
  split_and!.
  - intros o. destruct (dumped_perm o) as (items & -> & Hp). by apply from_entries.
  - intros items o Hnd H. pose proof (from_dict_elem _ _ Hnd H) as Hspec.
    apply NoDup_Permutation; [by eapply NoDup_fmap_1, entries_keys|by eapply NoDup_fmap_1|].
    intros [k v]. rewrite entries_elem. split.
    + intros (f & n & -> & -> & Ho). by apply Hspec.
    + intros Hin. cbn [from_dict] in H. destruct (parse_items _ _ items) as [g|] eqn:E; [|done].
      apply parse_items_ok in E. rewrite Forall_forall in E. destruct (E _ Hin) as [[f Hf] [n Hn]]. cbn [fst snd] in Hf, Hn.
      apply field_of_name_spec in Hf as ->. subst v. exists f, n. split_and!; [done|done|]. by apply Hspec.
  - intros items Hnd. cbn [from_dict]. split.
    + intros [o H]. destruct (parse_items _ _ items) eqn:E; [|done]. by eapply parse_items_ok.
    + intros Hok. destruct (parse_items_returns TaskConfigStoreError items (fun _ => None) Hok Hnd) as (g & -> & _).
      by eexists.
  - intros row o expected by_ now row' saved Hn H.
    apply store_save_spec in H as (? & ? & _ & _ & -> & ->). split; [done|]. apply store_get_dumped; [lia|done..].
Qed.

Lemma overrides_roundtrip_witness :
  store_get row_demo = Return (Some (mkStoredTaskConfig
    (make_overrides (fun f => if bool_decide (f = FNote) then Some 500 else None)) 1 "t0" "ops"))
  /\ exists o, from_dict patch_demo = Return o /\ from_dict (dumped o) = Return o.
Proof.
  destruct overrides_roundtrip as (Hdump & _ & Haccept & Hsave). split.
  - exact (proj2 (Hsave None _ 0 "ops" "t0" row_demo _ eq_refl eq_refl)).
  - destruct (proj2 (Haccept [("task_lease_seconds", JInt 600); ("task_max_concurrency", JInt 8)]
      ltac:(by apply (bool_decide_eq_true_1 _)))) as [o Ho].
    + repeat (apply Forall_cons_2; [split; [by eexists; vm_compute|by eexists]|]). apply Forall_nil_2.
    + exists o. split; [exact Ho|apply Hdump].
Defined.

(** * Lemmas: versions *)

Lemma saves_version row row' : saves row row' -> row' = row \/ version_of row < version_of row'.
Proof.
  induction 1 as [row|row o expected by_ now row' saved row'' Hsave _ IH]; [by left|]. right.
  apply store_save_spec in Hsave as (_ & _ & He & _ & -> & _). fold (version_of row) in He.
  destruct IH as [->|IH]; cbn in *; lia.
Qed.

Lemma store_get_version row st :
  store_get row = Return st -> version_of row = match st with Some st => stored_version st | None => 0 end.
Proof.
  unfold store_get. destruct row as [r|]; [|by intros [= <-]]. destruct (row_json r); [|done].
  destruct (from_dict j) as [o|]; cbn; [|done]. repeat case_match; try done. by intros [= <-].
Qed.

Lemma merge_valid_current s row o v at_ by_ :
  store_get row = Return (Some (mkStoredTaskConfig o v at_ by_)) ->
  valid_config s (merge_overrides (env_config s) o) ->
  (current s row).2 = merge_overrides (env_config s) o
  /\ get_resolved s row
     = Return (mkResolvedTaskConfig (merge_overrides (env_config s) o) v (overridden_fields o) (Some at_) (Some by_)).
Proof.
  intros Hg Hv. unfold current, get_resolved. rewrite Hg. cbn. unfold valid_config in Hv. by rewrite Hv.
Qed.

(** What [prepare_update] has checked. *)
Lemma prepare_spec s row partial expected by_ plan :
  prepare_update s row partial expected by_ = Return plan ->
  version_of row = expected /\ plan_old_version plan = expected
  /\ valid_config s (plan_candidate plan)
  /\ plan_candidate plan = merge_overrides (env_config s) (plan_merged plan)
  /\ forall f, override_get (plan_merged plan) f
       = match plan_patch plan f with Some v => Some v | None => override_get (plan_existing plan) f end.
Proof.
  unfold prepare_update. destruct partial as [| | | | |[|item items]]; try done.
  destruct (check_actor expected by_) as [[]|]; cbn [bind_result]; [|done].
  destruct (parse_items _ _ _) as [patch|]; cbn [bind_result]; [|done].
  destruct (store_get row) as [st|] eqn:Hg; cbn [bind_result]; [|done].
  apply store_get_version in Hg. destruct (Z.eqb_spec (match st with Some st => stored_version st | None => 0 end) expected)
    as [He|]; cbn [negb]; [|done].
  destruct (validate_task_config _ (dispatch_interval s)) as [[]|] eqn:Hv; cbn [bind_result]; [|done].
  intros [= <-]. cbn [plan_old_version plan_candidate plan_merged plan_patch plan_existing].
  split_and!; [congruence|done|done|done|]. intros f. by rewrite override_get_make.
Qed.

(** Edits are atomic and safe.  When an edit succeeds, nobody has saved between
    its read and its save, whatever other services did meanwhile, so it is as if it had
    been one step; what it then resolves to is a valid configuration, has the edited
    values, keeps the others, and is what every service with that environment returns
    from then on.  And a runtime read, of any row at all, gives a valid configuration. *)
Theorem settings_edits_atomic s row0 row1 partial expected by_ now plan s' row2 res ev :
  prepare_update s row0 partial expected by_ = Return plan -> saves row0 row1 -> truthy_str now = true ->
  commit_update s row1 partial plan expected by_ now = (s', row2, Return (res, ev)) ->
  row1 = row0 /\ update s row1 partial expected by_ now = (s', row2, Return (res, ev))
  /\ valid_config s (resolved_config res)
  /\ (forall f, config_get (resolved_config res) f
       = match plan_patch plan f with Some v => v | None => before s (plan_existing plan) f end)
  /\ (forall s'', env_config s'' = env_config s -> dispatch_interval s'' = dispatch_interval s ->
       (current s'' row2).2 = resolved_config res /\ get_resolved s'' row2 = Return res)
  /\ (forall row, valid_config s (env_config s) -> valid_config s (current s' row).2).
Proof.
  intros Hp Hs Hn Hc. pose proof (prepare_spec _ _ _ _ _ _ Hp) as (Hv0 & Hold & Hvalid & Hcand & Hmerged).
  unfold commit_update in Hc. destruct (store_save row1 _ _ _ _) as [row' [saved|]] eqn:Hsave; [|done].
  injection Hc as <- <- <- <-. pose proof (store_save_spec _ _ _ _ _ _ _ Hsave) as (_ & Hby & Hexp & _ & Hrow & Hsaved).
  fold (version_of row1) in Hexp.
  assert (row1 = row0) as -> by (destruct (saves_version _ _ Hs) as [->|]; [done|lia]).
  split; [done|]. split; [unfold update; rewrite Hp; unfold commit_update; by rewrite Hsave|].
  cbn [resolved_config]. split; [done|]. split.
  { intros f. rewrite Hcand. unfold merge_overrides. rewrite config_get_make, Hmerged. unfold before.
    destruct (plan_patch plan f); [done|]. by destruct (override_get (plan_existing plan) f). }
  split.
  - intros s'' He Hd. subst row' saved. cbn [stored_version stored_at stored_by].
    rewrite Hcand, <- He. apply merge_valid_current.
    + apply store_get_dumped; [|done..]. destruct Hp as [], (store_save_spec _ _ _ _ _ _ _ Hsave); lia.
    + unfold valid_config in *. by rewrite He, Hd, <- Hcand.
  - intros row Henv. unfold current. cbn [last_known_good env_config dispatch_interval].
    destruct (store_get row) as [[st|]|]; [|done|done].
    destruct (validate_task_config _ _) as [[]|] eqn:E; [exact E|done].
Qed.

Lemma settings_edits_atomic_witness :
  exists s' row2 res ev, update service_demo row_demo patch_demo 1 "ops" "t1" = (s', row2, Return (res, ev))
  /\ config_get (resolved_config res) FLease = 600 /\ config_get (resolved_config res) FNote = 500.
Proof.
  destruct (prepare_update service_demo row_demo patch_demo 1 "ops") as [plan|] eqn:Hp; [|vm_compute in Hp; discriminate].
  destruct (commit_update service_demo row_demo patch_demo plan 1 "ops" "t1") as [[s' row2] [[res ev]|]] eqn:Hc;
    [|vm_compute in Hp; injection Hp as <-; vm_compute in Hc; discriminate].
  destruct (settings_edits_atomic service_demo row_demo row_demo patch_demo 1 "ops" "t1" plan s' row2 res ev)
    as (_ & Hu & _ & Hf & _); [exact Hp|apply saves_nil|reflexivity|exact Hc|].
  exists s', row2, res, ev. split; [exact Hu|]. rewrite !Hf.
  vm_compute in Hp. injection Hp as <-. split; reflexivity.
Defined.
