(* ===== verification/TaskDomain.v ===== *)
(** The Task aggregate (app/domain/task.py) and its transition policy
    (app/domain/task_policy.py): the seven-state lifecycle, the methods of the
    aggregate, and the decision the run service asks for.

    The theorems: the guarded methods realise the transition table, the buttons of a card
    always have an effect, and the policy that the services ask agrees with both. *)
From S2P Require Import Prelude.

(** * Enums *)

Module TaskStatus.
Inductive t : Type :=
  | QUEUED | RUNNING | WAITING_APPROVAL | SUCCEEDED | FAILED | CANCELLED | EXPIRED.

#[global] Instance eq_dec : EqDecision t.
Proof. solve_decision. Defined.

Definition value (s : t) : string :=
  match s with
  | QUEUED => "queued" | RUNNING => "running"
  | WAITING_APPROVAL => "waiting_approval" | SUCCEEDED => "succeeded"
  | FAILED => "failed" | CANCELLED => "cancelled" | EXPIRED => "expired"
  end.

Definition all : list t :=
  [QUEUED; RUNNING; WAITING_APPROVAL; SUCCEEDED; FAILED; CANCELLED; EXPIRED].
End TaskStatus.

Module TaskWorkspaceKind.
Inductive t : Type := SCRATCH | DIR.
#[global] Instance eq_dec : EqDecision t.
Proof. solve_decision. Defined.
End TaskWorkspaceKind.

Module TaskRunStatus.
Inductive t : Type :=
  | RUNNING | COMPLETED | BLOCKED | FAILED | CRASHED | TIMED_OUT | TERMINATED | RECLAIMED.
#[global] Instance eq_dec : EqDecision t.
Proof. solve_decision. Defined.
End TaskRunStatus.

Module TaskRunOutcome.
Inductive t : Type :=
  | COMPLETED | WAITING_APPROVAL | FAILED | CRASHED | TIMED_OUT | SPAWN_FAILED
  | EXPIRED | TERMINATED | ABORTED.
#[global] Instance eq_dec : EqDecision t.
Proof. solve_decision. Defined.

Definition value (o : t) : string :=
  match o with
  | COMPLETED => "completed" | WAITING_APPROVAL => "waiting_approval"
  | FAILED => "failed" | CRASHED => "crashed" | TIMED_OUT => "timed_out"
  | SPAWN_FAILED => "spawn_failed" | EXPIRED => "expired"
  | TERMINATED => "terminated" | ABORTED => "aborted"
  end.
End TaskRunOutcome.

(** * The transition table *)

Definition TASK_TRANSITION_TABLE (s : TaskStatus.t) : list TaskStatus.t :=
  match s with
  | TaskStatus.QUEUED => [TaskStatus.RUNNING; TaskStatus.CANCELLED]
  | TaskStatus.RUNNING =>
      [TaskStatus.SUCCEEDED; TaskStatus.FAILED; TaskStatus.WAITING_APPROVAL;
       TaskStatus.CANCELLED; TaskStatus.EXPIRED; TaskStatus.QUEUED]
  | TaskStatus.WAITING_APPROVAL => [TaskStatus.QUEUED; TaskStatus.CANCELLED]
  | TaskStatus.FAILED => [TaskStatus.QUEUED; TaskStatus.CANCELLED]
  | TaskStatus.EXPIRED => [TaskStatus.QUEUED]
  | TaskStatus.SUCCEEDED => []
  | TaskStatus.CANCELLED => []
  end.

(** The buttons of a lifecycle card. *)
Definition available_lifecycle_actions (status : TaskStatus.t)
    (interaction_type : option string) : list string :=
  match status with
  | TaskStatus.WAITING_APPROVAL =>
      if bool_decide (interaction_type = Some "intent_request")
      then ["revise"; "cancel"] else ["approve"; "reject"]
  | TaskStatus.FAILED => ["retry"; "cancel"]
  | TaskStatus.EXPIRED => ["retry"]
  | _ => []
  end.

Record TaskExecutionPolicy := mkTaskExecutionPolicy { allowed_tools : list string }.

(** * The aggregate *)

Module Task.
Record t : Type := mk {
  id : string;
  title : string;
  body : string;
  priority : Z;
  created_by : string;
  created_at : option Z;
  updated_at : option Z;
  version : Z;
  status : TaskStatus.t;
  started_at : option Z;
  completed_at : option Z;
  scheduled_at : option Z;
  claim_lock : option string;
  claim_expires : option Z;
  current_run_id : option Z;
  workspace_kind : TaskWorkspaceKind.t;
  workspace_path : option string;
  skills : list string;
  execution_policy : TaskExecutionPolicy;
  model_override : option string;
  max_runtime_seconds : option Z;
  max_retries : Z;
  goal_mode : bool;
  goal_max_turns : option Z;
  workflow_template_id : option string;
  current_step_key : option string;
  project_id : option string;
  tenant : option string;
  board : string;
  origin_session_id : option string;
  execution_session_id : option string;
  consecutive_failures : Z;
  worker_token : option string;
  last_failure_error : option string;
  last_heartbeat_at : option Z;
  result_text : option string;
  idempotency_key : option string;
  is_archived : bool;
  trace_context : list (string * string);
  created_by_run_id : option string;
  pending_trigger_run_id : option string
}.

#[global] Instance rebuild_t : Rebuild t := fun r =>
  mk (id r) (title r) (body r) (priority r) (created_by r) (created_at r) (updated_at r)
    (version r) (status r) (started_at r) (completed_at r) (scheduled_at r) (claim_lock r)
    (claim_expires r) (current_run_id r) (workspace_kind r) (workspace_path r) (skills r)
    (execution_policy r) (model_override r) (max_runtime_seconds r) (max_retries r)
    (goal_mode r) (goal_max_turns r) (workflow_template_id r) (current_step_key r)
    (project_id r) (tenant r) (board r) (origin_session_id r) (execution_session_id r)
    (consecutive_failures r) (worker_token r) (last_failure_error r) (last_heartbeat_at r)
    (result_text r) (idempotency_key r) (is_archived r) (trace_context r)
    (created_by_run_id r) (pending_trigger_run_id r).

(** [Task(id=..., title=...)]: every other field at its default. *)
Definition defaults (task_id task_title : string) : t :=
  mk task_id task_title "" 0 "" None None 1 TaskStatus.QUEUED None None None None None None
    TaskWorkspaceKind.SCRATCH None [] (mkTaskExecutionPolicy []) None None 0 false None
    None None None None "default" None None 0 None None None None None false [] None None.

Definition can_transition_to (self : t) (target : TaskStatus.t) : bool :=
  bool_decide (target ∈ TASK_TRANSITION_TABLE (status self)).

Definition can_claim (self : t) (now : Z) : bool :=
  if negb (bool_decide (status self = TaskStatus.QUEUED)) then false
  else match scheduled_at self with
       | Some due => if now <? due then false else true
       | None => true
       end.

Definition claim (self : t) (run_id : Z) (lock : string) (expires_at now : Z) : result t :=
  if negb (bool_decide (status self = TaskStatus.QUEUED)) then Raise TaskStateError
  else Return (self <| status := TaskStatus.RUNNING |>
                    <| current_run_id := Some run_id |>
                    <| claim_lock := Some lock |>
                    <| claim_expires := Some expires_at |>
                    <| started_at := Some now |>).

Definition release_claim (self : t) (lock : string) : result t :=
  if negb (truthy_opt_str (claim_lock self)) || negb (bool_decide (claim_lock self = Some lock))
  then Raise TaskClaimError
  else Return (self <| claim_lock := None |> <| claim_expires := None |>
                    <| current_run_id := None |>).

Definition record_heartbeat (self : t) (now : Z) (lock : string) : result t :=
  if negb (truthy_opt_str (claim_lock self)) || negb (bool_decide (claim_lock self = Some lock))
  then Raise TaskClaimError
  else Return (self <| last_heartbeat_at := Some now |>).

(** [elapsed > heartbeat_timeout], in microseconds. *)
Definition is_stale (self : t) (now heartbeat_timeout : Z) : bool :=
  if negb (bool_decide (status self = TaskStatus.RUNNING)) then false
  else if negb (truthy_opt_str (claim_lock self)) then false
  else match last_heartbeat_at self with
       | None => false
       | Some beat => seconds heartbeat_timeout <? now - beat
       end.

Definition record_failure (self : t) (error : string) : t :=
  self <| consecutive_failures := consecutive_failures self + 1 |>
       <| last_failure_error := Some error |>.

Definition should_give_up (self : t) : bool := max_retries self <? consecutive_failures self.

Definition complete (self : t) (summary : string) (now : Z) : t :=
  self <| status := TaskStatus.SUCCEEDED |> <| result_text := Some summary |>
       <| consecutive_failures := 0 |> <| completed_at := Some now |>.

Definition propose_change (self : t) (proposal : string) (run_id : Z) : result t :=
  if negb (bool_decide (status self = TaskStatus.RUNNING)) then Raise TaskStateError
  else Return (self <| status := TaskStatus.WAITING_APPROVAL |>).

Definition resolve_approval (self : t) (approved : bool) : result t :=
  if negb (bool_decide (status self = TaskStatus.WAITING_APPROVAL)) then Raise TaskStateError
  else Return (self <| status := TaskStatus.QUEUED |>).

Definition revise (self : t) : result t :=
  if negb (bool_decide (status self = TaskStatus.WAITING_APPROVAL)) then Raise TaskStateError
  else Return (self <| status := TaskStatus.QUEUED |>).

Definition cancel (self : t) (now : Z) : result t :=
  if bool_decide (status self ∈ [TaskStatus.SUCCEEDED; TaskStatus.CANCELLED; TaskStatus.EXPIRED])
  then Raise TaskStateError
  else Return (self <| status := TaskStatus.CANCELLED |> <| completed_at := Some now |>).

Definition retry (self : t) : result t :=
  if negb (bool_decide (status self ∈ [TaskStatus.FAILED; TaskStatus.EXPIRED]))
  then Raise TaskStateError
  else Return (self <| status := TaskStatus.QUEUED |> <| claim_lock := None |>
                    <| claim_expires := None |> <| current_run_id := None |>).

Definition set_archived (self : t) (value : bool) : t := self <| is_archived := value |>.
End Task.

(** * The transition policy (task_policy.py) *)

Record TaskPolicyRequest := mkTaskPolicyRequest {
  current : TaskStatus.t;
  target : TaskStatus.t;
  req_consecutive_failures : Z;
  req_max_retries : Z
}.

Module TaskPolicy.
Definition evaluate (r : TaskPolicyRequest) : PolicyOutcome.t :=
  if negb (bool_decide (target r ∈ TASK_TRANSITION_TABLE (current r))) then PolicyOutcome.DENY
  else if bool_decide (current r = TaskStatus.RUNNING)
          && bool_decide (target r = TaskStatus.QUEUED)
          && (req_max_retries r <? req_consecutive_failures r)
  then PolicyOutcome.DENY
  else PolicyOutcome.ALLOW.

Definition evaluate_transition (r : TaskPolicyRequest) : PolicyOutcome.t := evaluate r.

Definition evaluate_claim (r : TaskPolicyRequest) : PolicyOutcome.t :=
  if negb (bool_decide (current r = TaskStatus.QUEUED))
     || negb (bool_decide (target r = TaskStatus.RUNNING))
  then PolicyOutcome.DENY else evaluate r.
End TaskPolicy.

(** * The steps of the aggregate *)

(** One guarded lifecycle method called on a task. *)
Inductive step (t t' : Task.t) : Prop :=
  | step_claim run_id lock expires now :
      Task.claim t run_id lock expires now = Return t' -> step t t'
  | step_propose proposal run_id : Task.propose_change t proposal run_id = Return t' -> step t t'
  | step_resolve approved : Task.resolve_approval t approved = Return t' -> step t t'
  | step_revise : Task.revise t = Return t' -> step t t'
  | step_cancel now : Task.cancel t now = Return t' -> step t t'
  | step_retry : Task.retry t = Return t' -> step t t'.

(** The method behind a button of the lifecycle card. *)
Definition press (action : string) (t : Task.t) (now : Z) : option (result Task.t) :=
  if bool_decide (action = "approve") then Some (Task.resolve_approval t true)
  else if bool_decide (action = "reject") then Some (Task.resolve_approval t false)
  else if bool_decide (action = "revise") then Some (Task.revise t)
  else if bool_decide (action = "cancel") then Some (Task.cancel t now)
  else if bool_decide (action = "retry") then Some (Task.retry t)
  else None.

Definition request_of (t : Task.t) (target : TaskStatus.t) : TaskPolicyRequest :=
  mkTaskPolicyRequest (Task.status t) target (Task.consecutive_failures t) (Task.max_retries t).

(** * Theorems *)

Lemma step_iff t t' :
  step t t' -> Task.status t' ∈ TASK_TRANSITION_TABLE (Task.status t).
Proof.
  destruct 1 as [? ? ? ? H|? ? H|? H|H|? H|H]; revert H;
    unfold Task.claim, Task.propose_change, Task.resolve_approval, Task.revise, Task.cancel, Task.retry;
    case_bool_decide as Hs; cbn [negb]; intros; simplify_eq; simpl;
    try (rewrite Hs; simpl; set_solver);
    destruct (Task.status t); simpl; set_solver.
Qed.

(** C2. The guarded methods of the aggregate follow the transition table and
    realise it: a method that returns makes an allowed transition, and outside
    RUNNING (whose exits go through the run's finish) every allowed transition
    is made by some method, while one that is not allowed is made by none. *)
Theorem methods_realise_table t target :
  ((exists t', step t t' /\ Task.status t' = target) -> Task.can_transition_to t target = true)
  /\ (Task.status t <> TaskStatus.RUNNING -> Task.can_transition_to t target = true ->
      exists t', step t t' /\ Task.status t' = target
                 /\ Task.id t' = Task.id t /\ Task.version t' = Task.version t).
Proof.
  unfold Task.can_transition_to. rewrite bool_decide_eq_true. split.
  - intros (t' & H & <-). by apply step_iff.
  - intros Hr Hin. destruct (Task.status t) eqn:Hs; [| congruence | | | | |];
      apply list_elem_of_In in Hin; simpl in Hin; destruct_or?; try done; subst target.
    + eexists; split; [eapply (step_claim t _ 0 "" 0 0); unfold Task.claim; rewrite Hs; reflexivity|done].
    + eexists; split; [eapply (step_cancel t _ 0); unfold Task.cancel; rewrite Hs; reflexivity|done].
    + eexists; split; [eapply (step_resolve t _ true); unfold Task.resolve_approval; rewrite Hs; reflexivity|done].
    + eexists; split; [eapply (step_cancel t _ 0); unfold Task.cancel; rewrite Hs; reflexivity|done].
    + eexists; split; [eapply step_retry; unfold Task.retry; rewrite Hs; reflexivity|done].
    + eexists; split; [eapply (step_cancel t _ 0); unfold Task.cancel; rewrite Hs; reflexivity|done].
    + eexists; split; [eapply step_retry; unfold Task.retry; rewrite Hs; reflexivity|done].
Qed.

Lemma methods_realise_table_witness :
  exists t', step ((Task.defaults "t" "x") <| Task.status := TaskStatus.FAILED |>) t'
  /\ Task.status t' = TaskStatus.QUEUED.
Proof.
  destruct (proj2 (methods_realise_table
    ((Task.defaults "t" "x") <| Task.status := TaskStatus.FAILED |>) TaskStatus.QUEUED))
    as (t' & ? & ? & _); [discriminate|reflexivity|eauto].
Defined.

(** Every button a lifecycle card offers works: the method behind it
    returns on a task in the card's status, and the status it gives is one the
    table allows; a final task (succeeded, cancelled) and a queued or running
    one get no button. *)
Theorem card_buttons_work t interaction action now :
  action ∈ available_lifecycle_actions (Task.status t) interaction ->
  Task.status t ∉ [TaskStatus.SUCCEEDED; TaskStatus.CANCELLED; TaskStatus.QUEUED; TaskStatus.RUNNING]
  /\ exists t', press action t now = Some (Return t')
     /\ Task.can_transition_to t (Task.status t') = true.
Proof.
  unfold available_lifecycle_actions, Task.can_transition_to. rewrite list_elem_of_In.
  intros Hin. destruct (Task.status t) eqn:Hs; try (by destruct Hin);
    (split; [set_solver|]); revert Hin; try case_bool_decide; simpl; intros Hin;
    destruct_or?; try done; subst action;
    unfold press, Task.resolve_approval, Task.revise, Task.cancel, Task.retry; rewrite Hs; eval_decides;
    eexists; split; reflexivity.
Qed.

Lemma card_buttons_work_witness :
  exists t', press "revise" ((Task.defaults "t" "x") <| Task.status := TaskStatus.WAITING_APPROVAL |>) 5
             = Some (Return t').
Proof.
  destruct (card_buttons_work ((Task.defaults "t" "x") <| Task.status := TaskStatus.WAITING_APPROVAL |>)
              (Some "intent_request") "revise" 5) as [_ (t' & ? & _)];
    [by vm_compute; constructor|eauto].
Defined.

(** The transition policy never asks for approval and never disagrees with
    the aggregate: it allows a transition exactly when the table has it, except
    that RUNNING back to QUEUED is refused once the aggregate says to give up;
    and it allows a claim exactly when the aggregate's own claim returns. *)
Theorem policy_agrees_with_aggregate t target :
  (TaskPolicy.evaluate (request_of t target) = PolicyOutcome.ALLOW <->
     Task.can_transition_to t target = true
     /\ ~ (Task.status t = TaskStatus.RUNNING /\ target = TaskStatus.QUEUED
           /\ Task.should_give_up t = true))
  /\ TaskPolicy.evaluate (request_of t target) <> PolicyOutcome.REQUIRE_APPROVAL
  /\ (TaskPolicy.evaluate_claim (request_of t TaskStatus.RUNNING) = PolicyOutcome.ALLOW <->
      forall run_id lock expires now, exists t', Task.claim t run_id lock expires now = Return t').
Proof.
  unfold TaskPolicy.evaluate_claim, TaskPolicy.evaluate, Task.can_transition_to, Task.should_give_up,
    Task.claim, request_of; cbn [current TaskDomain.target req_consecutive_failures req_max_retries].
  split_and!.
  - destruct (bool_decide (target ∈ _)); cbn [negb]; [|by split; [|intros []]].
    destruct (Task.max_retries t <? Task.consecutive_failures t);
      repeat case_bool_decide; cbn; intuition congruence.
  - by repeat case_match.
  - destruct (Task.status t); eval_decides; cbn; split; intros H; try done; eauto;
      by destruct (H 0 "" 0 0).
Qed.

Lemma policy_agrees_with_aggregate_witness :
  let t := (Task.defaults "t" "x") <| Task.status := TaskStatus.RUNNING |> in
  TaskPolicy.evaluate (request_of t TaskStatus.QUEUED) = PolicyOutcome.ALLOW.
Proof.
  intros t. apply (proj1 (policy_agrees_with_aggregate t TaskStatus.QUEUED)).
  split; [reflexivity|]. intros (_ & _ & H). vm_compute in H. discriminate.
Defined.
