(* ===== verification/TaskStore.v ===== *)
(** The SQLite task registry (app/infrastructure/registry/sqlite_task_registry.py).

    [db] holds the tables the registry owns; each [*_sync] method is one
    transaction, so it is one function from the tables and the arguments (the
    clock and the fresh identifiers among them) to the tables and an outcome.
    A rollback returns the tables unchanged; a commit before a [raise] (the
    late-finish audit) keeps what was written. *)
From S2P Require Import Prelude TaskDomain.

(** * Rows *)

Module TaskRun.
Record t : Type := mk {
  id : Z;
  task_id : string;
  profile : string;
  status : TaskRunStatus.t;
  claim_lock : option string;
  claim_expires : option Z;
  worker_token : option string;
  max_runtime_seconds : option Z;
  lease_seconds : option Z;
  last_heartbeat_at : option Z;
  started_at : option Z;
  ended_at : option Z;
  outcome : option TaskRunOutcome.t;
  summary : option string;
  metadata : list (string * json);
  error : option string;
  trigger_run_id : option string
}.

#[global] Instance rebuild_t : Rebuild t := fun r =>
  mk (id r) (task_id r) (profile r) (status r) (claim_lock r) (claim_expires r)
    (worker_token r) (max_runtime_seconds r) (lease_seconds r) (last_heartbeat_at r)
    (started_at r) (ended_at r) (outcome r) (summary r) (metadata r) (error r)
    (trigger_run_id r).
End TaskRun.

Module TaskEvent.
Record t : Type := mk {
  id : Z;
  task_id : string;
  kind : string;
  payload : list (string * json);
  run_id : option Z;
  created_at : option Z
}.
End TaskEvent.

Module TaskComment.
Record t : Type := mk {
  id : string; task_id : string; author : string; body : string; created_at : option Z
}.
End TaskComment.

Module TaskAttachment.
Record t : Type := mk {
  id : string; task_id : string; filename : string; stored_name : string;
  content_type : string; size : Z; checksum : string; uploaded_by : string;
  created_at : option Z
}.
End TaskAttachment.

(** A row of task_notify_subs; (platform, chat_id, thread_id) is its key
    within the task, a missing thread being the empty string. *)
Module NotifySub.
Record t : Type := mk {
  task_id : string; platform : string; chat_id : string; thread_id : string;
  last_terminal_event_id : Z; created_at : Z; updated_at : Z
}.
#[global] Instance rebuild_t : Rebuild t := fun r =>
  mk (task_id r) (platform r) (chat_id r) (thread_id r) (last_terminal_event_id r)
    (created_at r) (updated_at r).
End NotifySub.

Record TaskListCursor := mkTaskListCursor {
  cursor_created_at : option Z; cursor_task_id : string }.
Record TaskListPage := mkTaskListPage {
  items : list Task.t; next_cursor : option TaskListCursor }.
Record ClaimResult := mkClaimResult { claimed_task : Task.t; claimed_run : TaskRun.t }.
Record FinishRunResult := mkFinishRunResult {
  finished_task : Task.t; finished_run : TaskRun.t; terminal_event : TaskEvent.t }.

Record FinishRunCommand := mkFinishRunCommand {
  fin_task_id : string;
  fin_run_id : Z;
  fin_claim_lock : string;
  fin_outcome : TaskRunOutcome.t;
  fin_summary : option string;
  fin_metadata : list (string * json);
  fin_target_task_status : option TaskStatus.t;
  fin_error : option string
}.

Record RecoverRunCommand := mkRecoverRunCommand {
  rec_task_id : string;
  rec_run_id : Z;
  rec_claim_lock : string;
  rec_outcome : TaskRunOutcome.t;
  rec_error : option string
}.

Record ProposalResolutionCommand := mkProposalResolutionCommand {
  res_task_id : string;
  res_expected_version : Z;
  res_decision : string;
  res_event_kind : string;
  res_note : option string
}.

Record ProposalResolutionResult := mkProposalResolutionResult {
  proposal_event_id : Z;
  resolved_task : Task.t;
  decision_event : TaskEvent.t
}.

(** The columns of the agent-run registry's tables that a task delete writes. *)
Record agent_run_row := mkAgentRunRow {
  ar_task_run_id : option Z; ar_business_owner_deleted_at : option Z }.
Record trace_link_row := mkTraceLinkRow {
  tl_biz_type : string; tl_biz_id : string; tl_trace_id : string }.

(** * The tables

    [run_seq] and [event_seq] are the AUTOINCREMENT counters; [task_events]
    is in insertion order, which is id order. *)
Record db := mkDb {
  tasks : gmap string Task.t;
  task_runs : gmap Z TaskRun.t;
  run_seq : Z;
  task_events : list TaskEvent.t;
  event_seq : Z;
  task_comments : list TaskComment.t;
  task_attachments : list TaskAttachment.t;
  task_notify_subs : list NotifySub.t;
  agent_runs : option (list agent_run_row);
  trace_links : option (list trace_link_row)
}.

#[global] Instance rebuild_db : Rebuild db := fun d =>
  mkDb (tasks d) (task_runs d) (run_seq d) (task_events d) (event_seq d) (task_comments d)
    (task_attachments d) (task_notify_subs d) (agent_runs d) (trace_links d).

(** The schema of a new file. *)
Definition empty_db : db := mkDb ∅ ∅ 0 [] 0 [] [] [] None None.

Definition put_task (d : db) (t : Task.t) : db := d <| tasks := <[Task.id t := t]> (tasks d) |>.
Definition put_run (d : db) (r : TaskRun.t) : db :=
  d <| task_runs := <[TaskRun.id r := r]> (task_runs d) |>.

(** [INSERT INTO task_events]: the next id, at the end of the log. *)
Definition insert_event (d : db) (task_id : string) (run_id : option Z) (kind : string)
    (payload : list (string * json)) (now : Z) : db * TaskEvent.t :=
  let ev := TaskEvent.mk (event_seq d + 1) task_id kind payload run_id (Some now) in
  (d <| task_events := task_events d ++ [ev] |> <| event_seq := event_seq d + 1 |>, ev).

(** * Proposal resolution constants *)

Definition DECISION_TO_EVENT_KIND (decision : string) : option string :=
  if bool_decide (decision = "approved") then Some "change_approved"
  else if bool_decide (decision = "rejected") then Some "change_rejected"
  else if bool_decide (decision = "revised") then Some "change_revised"
  else None.

Definition RESOLUTION_MARKER_KINDS : list string :=
  ["change_approved"; "change_rejected"; "change_revised"].

Definition PROPOSAL_KIND : string := "change_proposed".

(** * CRUD *)

(** The partial unique index on (board, created_by, idempotency_key). *)
Definition idempotency_clash (d : db) (t : Task.t) : bool :=
  match Task.idempotency_key t with
  | None => false
  | Some k =>
      bool_decide (Exists (fun kv : string * Task.t =>
        Task.id kv.2 <> Task.id t
        /\ Task.board kv.2 = Task.board t
        /\ Task.created_by kv.2 = Task.created_by t
        /\ Task.idempotency_key kv.2 = Some k) (map_to_list (tasks d)))
  end.

Definition create_task_sync (d : db) (task : Task.t) (now : Z) : db * result Task.t :=
  let resolved := task <| Task.created_at := Some (default now (Task.created_at task)) |>
                       <| Task.updated_at := Some (default now (Task.updated_at task)) |> in
  if bool_decide (is_Some (tasks d !! Task.id task)) || idempotency_clash d resolved
  then (d, Raise TaskConflictError)
  else (put_task d resolved, Return resolved).

Definition get_task_sync (d : db) (task_id : string) : option Task.t := tasks d !! task_id.

(** [created_at ASC, id ASC]; the column is never NULL in a stored row. *)
Definition created_key (t : Task.t) : Z := default 0 (Task.created_at t).

Definition page_leb (a b : Task.t) : bool :=
  (created_key a <? created_key b)
  || ((created_key a =? created_key b) && str_leb (Task.id a) (Task.id b)).

(** [created_at > ? OR (created_at = ? AND id > ?)]; a NULL cursor time
    compares with nothing. *)
Definition after_cursor (c : TaskListCursor) (t : Task.t) : bool :=
  match cursor_created_at c with
  | None => false
  | Some at_ =>
      (at_ <? created_key t)
      || ((at_ =? created_key t) && negb (str_leb (Task.id t) (cursor_task_id c)))
  end.

Definition all_tasks (d : db) : list Task.t := (map_to_list (tasks d)).*2.

Definition clamp_limit (limit : Z) : nat := Z.to_nat (Z.max 1 (Z.min limit 500)).

Definition listed (board : string) (include_archived : bool) (t : Task.t) : bool :=
  bool_decide (Task.board t = board) && (include_archived || negb (Task.is_archived t)).

Definition list_tasks_sync (d : db) (board : string) (cursor : option TaskListCursor)
    (limit : Z) (include_archived : bool) : TaskListPage :=
  let limit := clamp_limit limit in
  let in_range := fun t => match cursor with Some c => after_cursor c t | None => true end in
  let rows := take (limit + 1)
    (order_by page_leb
       (List.filter (fun t => listed board include_archived t && in_range t) (all_tasks d))) in
  let page := take limit rows in
  mkTaskListPage page
    (if (limit <? length rows)%nat
     then match last page with
          | Some t => Some (mkTaskListCursor (Task.created_at t) (Task.id t))
          | None => None
          end
     else None).

(** One entry of the [fields] mapping of an update, with the type its column
    takes; a key that names no column is [UnknownColumn]. *)
Inductive task_field : Type :=
  | FImmutable
  | FTitle (v : string) | FBody (v : string) | FPriority (v : Z) | FCreatedBy (v : string)
  | FUpdatedAt (v : option Z) | FVersion (v : Z) | FStatus (v : TaskStatus.t)
  | FStartedAt (v : option Z) | FCompletedAt (v : option Z) | FScheduledAt (v : option Z)
  | FClaimLock (v : option string) | FClaimExpires (v : option Z) | FCurrentRunId (v : option Z)
  | FWorkspaceKind (v : TaskWorkspaceKind.t) | FWorkspacePath (v : option string)
  | FSkills (v : list string) | FExecutionPolicy (v : TaskExecutionPolicy)
  | FModelOverride (v : option string) | FMaxRuntimeSeconds (v : option Z)
  | FMaxRetries (v : Z) | FGoalMode (v : bool) | FGoalMaxTurns (v : option Z)
  | FWorkflowTemplateId (v : option string) | FCurrentStepKey (v : option string)
  | FProjectId (v : option string) | FTenant (v : option string) | FBoard (v : string)
  | FOriginSessionId (v : option string) | FExecutionSessionId (v : option string)
  | FConsecutiveFailures (v : Z) | FWorkerToken (v : option string)
  | FLastFailureError (v : option string) | FLastHeartbeatAt (v : option Z)
  | FResult (v : option string) | FIdempotencyKey (v : option string) | FIsArchived (v : bool)
  | FTraceContext (v : list (string * string)) | FPendingTriggerRunId (v : option string)
  | UnknownColumn.

(** One [column = ?] of the SET clause; [id], [created_at] and
    [created_by_run_id] ([FImmutable]) are skipped, and [version] and
    [updated_at] are overridden by the assignments that follow them. *)
Definition assign (t : Task.t) (f : task_field) : Task.t :=
  match f with
  | FImmutable | FUpdatedAt _ | FVersion _ | UnknownColumn => t
  | FTitle v => t <| Task.title := v |>
  | FBody v => t <| Task.body := v |>
  | FPriority v => t <| Task.priority := v |>
  | FCreatedBy v => t <| Task.created_by := v |>
  | FStatus v => t <| Task.status := v |>
  | FStartedAt v => t <| Task.started_at := v |>
  | FCompletedAt v => t <| Task.completed_at := v |>
  | FScheduledAt v => t <| Task.scheduled_at := v |>
  | FClaimLock v => t <| Task.claim_lock := v |>
  | FClaimExpires v => t <| Task.claim_expires := v |>
  | FCurrentRunId v => t <| Task.current_run_id := v |>
  | FWorkspaceKind v => t <| Task.workspace_kind := v |>
  | FWorkspacePath v => t <| Task.workspace_path := v |>
  | FSkills v => t <| Task.skills := v |>
  | FExecutionPolicy v => t <| Task.execution_policy := v |>
  | FModelOverride v => t <| Task.model_override := v |>
  | FMaxRuntimeSeconds v => t <| Task.max_runtime_seconds := v |>
  | FMaxRetries v => t <| Task.max_retries := v |>
  | FGoalMode v => t <| Task.goal_mode := v |>
  | FGoalMaxTurns v => t <| Task.goal_max_turns := v |>
  | FWorkflowTemplateId v => t <| Task.workflow_template_id := v |>
  | FCurrentStepKey v => t <| Task.current_step_key := v |>
  | FProjectId v => t <| Task.project_id := v |>
  | FTenant v => t <| Task.tenant := v |>
  | FBoard v => t <| Task.board := v |>
  | FOriginSessionId v => t <| Task.origin_session_id := v |>
  | FExecutionSessionId v => t <| Task.execution_session_id := v |>
  | FConsecutiveFailures v => t <| Task.consecutive_failures := v |>
  | FWorkerToken v => t <| Task.worker_token := v |>
  | FLastFailureError v => t <| Task.last_failure_error := v |>
  | FLastHeartbeatAt v => t <| Task.last_heartbeat_at := v |>
  | FResult v => t <| Task.result_text := v |>
  | FIdempotencyKey v => t <| Task.idempotency_key := v |>
  | FIsArchived v => t <| Task.is_archived := v |>
  | FTraceContext v => t <| Task.trace_context := v |>
  | FPendingTriggerRunId v => t <| Task.pending_trigger_run_id := v |>
  end.

Definition apply_fields (t : Task.t) (fields : list task_field) (now : Z) : Task.t :=
  (foldl assign t fields) <| Task.version := Task.version t + 1 |> <| Task.updated_at := Some now |>.

(** The UPDATE statement of an update: unknown columns and the unique index
    raise, otherwise the row is rewritten. *)
Definition update_row (d : db) (t : Task.t) (fields : list task_field) (now : Z)
    : db * result Task.t :=
  let t' := apply_fields t fields now in
  if existsb (fun f => match f with UnknownColumn => true | _ => false end) fields
  then (d, Raise OperationalError)
  else if idempotency_clash d t' then (d, Raise IntegrityError)
  else (put_task d t', Return t').

Definition update_task_sync (d : db) (task_id : string) (fields : list task_field)
    (expected_version now : Z) : db * result Task.t :=
  match tasks d !! task_id with
  | None => (d, Raise TaskNotFoundError)
  | Some row =>
      if negb (Task.version row =? expected_version) then (d, Raise TaskConflictError)
      else update_row d row fields now
  end.

Record BulkUpdateItem := mkBulkUpdateItem {
  bulk_task_id : string; bulk_fields : list task_field; bulk_expected_version : Z }.

(** The loop of a bulk update, before its commit. *)
Fixpoint bulk_update_loop (d : db) (its : list BulkUpdateItem) (now : Z) : db * result unit :=
  match its with
  | [] => (d, Return tt)
  | it :: rest =>
      match update_task_sync d (bulk_task_id it) (bulk_fields it) (bulk_expected_version it) now with
      | (d', Return _) => bulk_update_loop d' rest now
      | (d', Raise e) => (d', Raise e)
      end
  end.

(** All or nothing: an exception rolls the transaction back. *)
Definition bulk_update_sync (d : db) (its : list BulkUpdateItem) (now : Z)
    : db * result (list Task.t) :=
  match bulk_update_loop d its now with
  | (d', Return _) => (d', Return (omap (fun it => tasks d' !! bulk_task_id it) its))
  | (_, Raise e) => (d, Raise e)
  end.

Definition run_of_task (task_id : string) (kv : Z * TaskRun.t) : bool :=
  bool_decide (TaskRun.task_id kv.2 = task_id).

(** Deletes the task; ON DELETE CASCADE takes its rows in the other tables. *)
Definition delete_task_sync (d : db) (task_id : string) (now : Z) : db * bool :=
  let run_ids := (List.filter (run_of_task task_id) (map_to_list (task_runs d))).*1 in
  let stamp r :=
    match ar_task_run_id r with
    | Some rid => if bool_decide (rid ∈ run_ids)
                  then mkAgentRunRow (Some rid) (Some now) else r
    | None => r
    end in
  let keep_link l :=
    negb (bool_decide (tl_biz_type l = "task_run")
          && bool_decide (tl_biz_id l ∈ (pretty <$> run_ids))) in
  let d1 := d <| agent_runs := map stamp <$> agent_runs d |>
              <| trace_links := List.filter keep_link <$> trace_links d |> in
  match tasks d !! task_id with
  | None => (d1, false)
  | Some _ =>
      (d1 <| tasks := delete task_id (tasks d) |>
          <| task_runs := filter (fun kv => TaskRun.task_id kv.2 <> task_id) (task_runs d) |>
          <| task_events :=
               List.filter (fun e => negb (bool_decide (TaskEvent.task_id e = task_id)))
                 (task_events d) |>
          <| task_comments :=
               List.filter (fun c => negb (bool_decide (TaskComment.task_id c = task_id)))
                 (task_comments d) |>
          <| task_attachments :=
               List.filter (fun a => negb (bool_decide (TaskAttachment.task_id a = task_id)))
                 (task_attachments d) |>
          <| task_notify_subs :=
               List.filter (fun s => negb (bool_decide (NotifySub.task_id s = task_id)))
                 (task_notify_subs d) |>, true)
  end.

(** * Claim, heartbeat, finish, recover *)

Definition claim_task_sync (d : db) (task_id lock worker_token : string)
    (lease_seconds now : Z) : db * option ClaimResult :=
  let expires := now + seconds lease_seconds in
  match tasks d !! task_id with
  | None => (d, None)
  | Some task =>
      if bool_decide (Task.status task = TaskStatus.QUEUED)
         && negb (Task.is_archived task)
         && match Task.scheduled_at task with None => true | Some due => due <=? now end
         && match Task.claim_expires task with None => true | Some e => e <? now end
      then
        let run_id := run_seq d + 1 in
        let run := TaskRun.mk run_id task_id "default" TaskRunStatus.RUNNING (Some lock)
          (Some expires) (Some worker_token) (Task.max_runtime_seconds task) (Some lease_seconds)
          None (Some now) None None None [] None (Task.pending_trigger_run_id task) in
        let task' := task <| Task.status := TaskStatus.RUNNING |>
          <| Task.claim_lock := Some lock |> <| Task.claim_expires := Some expires |>
          <| Task.current_run_id := Some run_id |> <| Task.worker_token := Some worker_token |>
          <| Task.pending_trigger_run_id := None |>
          <| Task.started_at := Some (default now (Task.started_at task)) |>
          <| Task.last_heartbeat_at := Some now |>
          <| Task.version := Task.version task + 1 |> <| Task.updated_at := Some now |> in
        let d1 := put_run (d <| run_seq := run_id |>) run in
        let d2 := put_task d1 task' in
        let '(d3, _) := insert_event d2 task_id (Some run_id) "claimed"
                          [("claim_lock", JStr lock)] now in
        (d3, Some (mkClaimResult task' run))
      else (d, None)
  end.

(** [WHERE id = ? AND claim_lock = ? AND current_run_id = ?] *)
Definition holds_claim (task : Task.t) (lock : string) (run_id : Z) : bool :=
  bool_decide (Task.claim_lock task = Some lock)
  && bool_decide (Task.current_run_id task = Some run_id).

Definition record_heartbeat_sync (d : db) (task_id : string) (run_id : Z) (lock : string)
    (now : Z) : db * result Task.t :=
  match tasks d !! task_id with
  | None => (d, Raise TaskClaimError)
  | Some task =>
      if negb (holds_claim task lock run_id) then (d, Raise TaskClaimError)
      else
        let run_row := match task_runs d !! run_id with
                       | Some r => if bool_decide (TaskRun.task_id r = task_id) then Some r else None
                       | None => None
                       end in
        let lease := default 900 (r ← run_row; TaskRun.lease_seconds r) in
        let expires := now + seconds lease in
        let task' := task <| Task.last_heartbeat_at := Some now |>
          <| Task.claim_expires := Some expires |>
          <| Task.version := Task.version task + 1 |> <| Task.updated_at := Some now |> in
        let d1 := put_task d task' in
        let d2 := match run_row with
                  | Some r => put_run d1 (r <| TaskRun.last_heartbeat_at := Some now |>
                                            <| TaskRun.claim_expires := Some expires |>)
                  | None => d1
                  end in
        (d2, Return task')
  end.

Definition outcome_to_task_status (outcome : TaskRunOutcome.t)
    (new_consecutive_failures max_retries : Z) : TaskStatus.t :=
  match outcome with
  | TaskRunOutcome.COMPLETED => TaskStatus.SUCCEEDED
  | TaskRunOutcome.WAITING_APPROVAL => TaskStatus.WAITING_APPROVAL
  | TaskRunOutcome.EXPIRED => TaskStatus.EXPIRED
  | TaskRunOutcome.CRASHED | TaskRunOutcome.TIMED_OUT => TaskStatus.EXPIRED
  | TaskRunOutcome.TERMINATED => TaskStatus.CANCELLED
  | _ => if max_retries <? new_consecutive_failures then TaskStatus.FAILED else TaskStatus.QUEUED
  end.

Definition outcome_to_run_status (outcome : TaskRunOutcome.t) : TaskRunStatus.t :=
  match outcome with
  | TaskRunOutcome.COMPLETED => TaskRunStatus.COMPLETED
  | TaskRunOutcome.WAITING_APPROVAL => TaskRunStatus.COMPLETED
  | TaskRunOutcome.FAILED => TaskRunStatus.FAILED
  | TaskRunOutcome.CRASHED => TaskRunStatus.CRASHED
  | TaskRunOutcome.TIMED_OUT => TaskRunStatus.TIMED_OUT
  | TaskRunOutcome.TERMINATED => TaskRunStatus.TERMINATED
  | TaskRunOutcome.SPAWN_FAILED => TaskRunStatus.FAILED
  | TaskRunOutcome.EXPIRED => TaskRunStatus.TIMED_OUT
  | TaskRunOutcome.ABORTED => TaskRunStatus.FAILED
  end.

Definition increments_failures (outcome : TaskRunOutcome.t) : bool :=
  bool_decide (outcome ∈ [TaskRunOutcome.FAILED; TaskRunOutcome.SPAWN_FAILED]).

Definition finalize_run (d : db) (task_id : string) (run_id : Z) (lock : string)
    (outcome : TaskRunOutcome.t) (summary : option string) (metadata : list (string * json))
    (error : option string) (is_recover : bool) (target_task_status : option TaskStatus.t)
    (now : Z) : db * result FinishRunResult :=
  match task_runs d !! run_id with
  | None => (d, Raise TaskNotFoundError)
  | Some run =>
    if negb (bool_decide (TaskRun.task_id run = task_id)) then (d, Raise TaskNotFoundError)
    else if negb (bool_decide (TaskRun.status run = TaskRunStatus.RUNNING)) then
      (* late or duplicate finish: audited when the token is the run's own *)
      if bool_decide (TaskRun.claim_lock run = Some lock)
      then ((insert_event d task_id (Some run_id) "late_finish_attempt"
               [("outcome", JStr (TaskRunOutcome.value outcome));
                ("summary", json_opt_str summary); ("is_recover", JBool is_recover)] now).1,
            Raise TaskConflictError)
      else (d, Raise TaskConflictError)
    else
      match tasks d !! task_id with
      | None => (d, Raise TaskConflictError)
      | Some task =>
        if negb (holds_claim task lock run_id) then (d, Raise TaskConflictError)
        else
          let increment := increments_failures outcome in
          let new_consecutive :=
            if increment then Task.consecutive_failures task + 1
            else Task.consecutive_failures task in
          let new_status := match target_task_status with
            | Some s => s
            | None => outcome_to_task_status outcome new_consecutive (Task.max_retries task)
            end in
          let run' := run <| TaskRun.status := outcome_to_run_status outcome |>
            <| TaskRun.ended_at := Some now |> <| TaskRun.outcome := Some outcome |>
            <| TaskRun.summary := summary |> <| TaskRun.metadata := metadata |>
            <| TaskRun.error := error |> in
          let released := task <| Task.status := new_status |> <| Task.claim_lock := None |>
            <| Task.claim_expires := None |> <| Task.current_run_id := None |>
            <| Task.worker_token := None |> <| Task.version := Task.version task + 1 |>
            <| Task.updated_at := Some now |> in
          let task' :=
            if bool_decide (outcome = TaskRunOutcome.COMPLETED) then
              released <| Task.completed_at := Some now |>
                <| Task.result_text := Some (str_or summary "") |>
                <| Task.consecutive_failures := 0 |>
            else if increment then
              released <| Task.consecutive_failures := new_consecutive |>
                <| Task.last_failure_error :=
                     Some (str_or error (str_or summary (TaskRunOutcome.value outcome))) |>
            else released in
          let '(d', ev) := insert_event (put_task (put_run d run') task') task_id (Some run_id)
            (if is_recover then "recovered" else "finished")
            [("outcome", JStr (TaskRunOutcome.value outcome)); ("summary", json_opt_str summary);
             ("is_recover", JBool is_recover); ("error", json_opt_str error)] now in
          (d', Return (mkFinishRunResult task' run' ev))
      end
  end.

Definition finish_run_sync (d : db) (c : FinishRunCommand) (now : Z)
    : db * result FinishRunResult :=
  finalize_run d (fin_task_id c) (fin_run_id c) (fin_claim_lock c) (fin_outcome c)
    (fin_summary c) (fin_metadata c) (fin_error c) false (fin_target_task_status c) now.

Definition recover_run_sync (d : db) (c : RecoverRunCommand) (now : Z)
    : db * result FinishRunResult :=
  finalize_run d (rec_task_id c) (rec_run_id c) (rec_claim_lock c) (rec_outcome c)
    None [] (rec_error c) true None now.

(** * Dispatch queries *)

(** [priority DESC, created_at ASC, id ASC] *)
Definition dispatch_leb (a b : Task.t) : bool :=
  (Task.priority b <? Task.priority a)
  || ((Task.priority a =? Task.priority b) && page_leb a b).

Definition due_for_dispatch (board : string) (now : Z) (t : Task.t) : bool :=
  bool_decide (Task.board t = board)
  && bool_decide (Task.status t = TaskStatus.QUEUED)
  && negb (Task.is_archived t)
  && match Task.scheduled_at t with None => true | Some due => due <=? now end.

Definition list_queued_due_sync (d : db) (now limit : Z) (board : string) : list Task.t :=
  take (clamp_limit limit)
    (order_by dispatch_leb (List.filter (due_for_dispatch board now) (all_tasks d))).

(** [started_at ASC, id ASC], NULL first. *)
Definition started_leb (a b : Task.t) : bool :=
  match Task.started_at a, Task.started_at b with
  | None, None => str_leb (Task.id a) (Task.id b)
  | None, Some _ => true
  | Some _, None => false
  | Some x, Some y => (x <? y) || ((x =? y) && str_leb (Task.id a) (Task.id b))
  end.

Definition list_running_sync (d : db) (board : string) : list Task.t :=
  order_by started_leb
    (List.filter (fun t => bool_decide (Task.board t = board)
                           && bool_decide (Task.status t = TaskStatus.RUNNING)) (all_tasks d)).

(** * Comments, events, runs *)

Definition task_exists (d : db) (task_id : string) : bool :=
  bool_decide (is_Some (tasks d !! task_id)).

Definition add_comment_sync (d : db) (task_id author body hex : string) (now : Z)
    : db * result TaskComment.t :=
  if negb (task_exists d task_id) then (d, Raise TaskNotFoundError)
  else
    let c := TaskComment.mk ("tc_" +:+ hex) task_id author body (Some now) in
    if existsb (fun c' => bool_decide (TaskComment.id c' = TaskComment.id c)) (task_comments d)
    then (d, Raise IntegrityError)
    else (d <| task_comments := task_comments d ++ [c] |>, Return c).

(** [created_at ASC, id ASC] *)
Definition list_comments_sync (d : db) (task_id : string) : list TaskComment.t :=
  order_by (fun a b =>
      ((default 0 (TaskComment.created_at a) <? default 0 (TaskComment.created_at b))
       || ((default 0 (TaskComment.created_at a) =? default 0 (TaskComment.created_at b))
           && str_leb (TaskComment.id a) (TaskComment.id b))))
    (List.filter (fun c => bool_decide (TaskComment.task_id c = task_id)) (task_comments d)).

Definition append_event_sync (d : db) (task_id kind : string) (payload : list (string * json))
    (run_id : option Z) (now : Z) : db * result TaskEvent.t :=
  if negb (task_exists d task_id) then (d, Raise TaskNotFoundError)
  else let '(d', ev) := insert_event d task_id run_id kind payload now in (d', Return ev).

Definition events_of (d : db) (task_id : string) : list TaskEvent.t :=
  List.filter (fun e => bool_decide (TaskEvent.task_id e = task_id)) (task_events d).

Definition list_events_sync (d : db) (task_id : string) (since limit : Z) : list TaskEvent.t :=
  take (clamp_limit limit) (List.filter (fun e => since <? TaskEvent.id e) (events_of d task_id)).

Definition list_runs_sync (d : db) (task_id : string) (limit : Z) : list TaskRun.t :=
  take (clamp_limit limit)
    (order_by (fun a b => (TaskRun.id b <=? TaskRun.id a))
       (List.filter (run_of_task task_id) (map_to_list (task_runs d))).*2).

(** * Proposal resolution *)

Definition validate_resolution_command (c : ProposalResolutionCommand) : result unit :=
  if negb (truthy_str (res_task_id c)) then Raise TaskValidationError
  else match DECISION_TO_EVENT_KIND (res_decision c) with
       | None => Raise TaskValidationError
       | Some expected_kind =>
           if negb (bool_decide (res_event_kind c = expected_kind)) then Raise TaskValidationError
           else if bool_decide (res_decision c = "revised")
                   && negb (match res_note c with
                            | Some n => truthy_str n && truthy_str (strip n)
                            | None => false
                            end)
           then Raise TaskValidationError
           else Return tt
       end.

(** The [proposal_event_id]s named by the resolution markers of a history. *)
Fixpoint resolved_ids (events : list TaskEvent.t) : result (list Z) :=
  match events with
  | [] => Return []
  | ev :: rest =>
      if bool_decide (TaskEvent.kind ev ∈ RESOLUTION_MARKER_KINDS) then
        match obj_get "proposal_event_id" (TaskEvent.payload ev) with
        | None | Some JNull => resolved_ids rest
        | Some pid =>
            let? n := int_of_json pid in
            let? ns := resolved_ids rest in
            Return (n :: ns)
        end
      else resolved_ids rest
  end.

Definition is_pending (resolved : list Z) (ev : TaskEvent.t) : bool :=
  bool_decide (TaskEvent.kind ev = PROPOSAL_KIND)
  && negb (bool_decide (TaskEvent.id ev ∈ resolved)).

Definition latest_pending (events : list TaskEvent.t) (resolved : list Z) : option TaskEvent.t :=
  List.find (is_pending resolved) (rev events).

Definition resolve_proposal_sync (d : db) (c : ProposalResolutionCommand) (now : Z)
    : db * result ProposalResolutionResult :=
  match validate_resolution_command c with
  | Raise e => (d, Raise e)
  | Return _ =>
    let task_id := res_task_id c in
    match tasks d !! task_id with
    | None => (d, Raise TaskNotFoundError)
    | Some task =>
      if negb (Task.version task =? res_expected_version c) then (d, Raise TaskConflictError)
      else if Task.is_archived task then (d, Raise TaskStateError)
      else if negb (bool_decide (Task.status task = TaskStatus.WAITING_APPROVAL))
      then (d, Raise TaskStateError)
      else
        let events := events_of d task_id in
        match resolved_ids events with
        | Raise e => (d, Raise e)
        | Return resolved =>
          match latest_pending events resolved with
          | None => (d, Raise TaskStateError)
          | Some proposal =>
            let pid := TaskEvent.id proposal in
            let '(d1, ev) := insert_event d task_id None (res_event_kind c)
              [("decision", JStr (res_decision c)); ("note", json_opt_str (res_note c));
               ("proposal_event_id", JInt pid)] now in
            let task' := task <| Task.status := TaskStatus.QUEUED |>
              <| Task.version := Task.version task + 1 |> <| Task.updated_at := Some now |> in
            (put_task d1 task', Return (mkProposalResolutionResult pid task' ev))
          end
        end
    end
  end.

(** [created_at DESC, id DESC LIMIT 1] *)
Definition latest_waiting_approval_in_session_sync (d : db) (session_id : string)
    : result (option Task.t) :=
  if negb (truthy_str session_id) then Raise TaskValidationError
  else Return (head (order_by (fun a b => page_leb b a)
    (List.filter (fun t => bool_decide (Task.origin_session_id t = Some session_id)
        && bool_decide (Task.status t = TaskStatus.WAITING_APPROVAL)
        && negb (Task.is_archived t)) (all_tasks d)))).

(** * Attachments *)

Definition add_attachment_sync (d : db) (task_id filename stored_name content_type : string)
    (size : Z) (checksum uploaded_by hex : string) (now : Z) : db * result TaskAttachment.t :=
  if negb (task_exists d task_id) then (d, Raise TaskNotFoundError)
  else
    let a := TaskAttachment.mk ("ta_" +:+ hex) task_id filename stored_name content_type size
               checksum uploaded_by (Some now) in
    if existsb (fun a' => bool_decide (TaskAttachment.id a' = TaskAttachment.id a))
         (task_attachments d)
    then (d, Raise IntegrityError)
    else (d <| task_attachments := task_attachments d ++ [a] |>, Return a).

(** [created_at ASC, id ASC] *)
Definition list_attachments_sync (d : db) (task_id : string) : list TaskAttachment.t :=
  order_by (fun a b =>
      ((default 0 (TaskAttachment.created_at a) <? default 0 (TaskAttachment.created_at b))
       || ((default 0 (TaskAttachment.created_at a) =? default 0 (TaskAttachment.created_at b))
           && str_leb (TaskAttachment.id a) (TaskAttachment.id b))))
    (List.filter (fun a => bool_decide (TaskAttachment.task_id a = task_id)) (task_attachments d)).

Definition get_attachment_sync (d : db) (attachment_id : string) : option TaskAttachment.t :=
  List.find (fun a => bool_decide (TaskAttachment.id a = attachment_id)) (task_attachments d).

Definition delete_attachment_sync (d : db) (attachment_id : string) : db * bool :=
  (d <| task_attachments :=
       List.filter (fun a => negb (bool_decide (TaskAttachment.id a = attachment_id)))
         (task_attachments d) |>,
   existsb (fun a => bool_decide (TaskAttachment.id a = attachment_id)) (task_attachments d)).

(** * Notification subscriptions *)

(** The key of a subscription; a missing or empty thread is [""]. *)
Definition sub_matches (task_id platform chat_id : string) (thread_id : option string)
    (s : NotifySub.t) : bool :=
  bool_decide (NotifySub.task_id s = task_id)
  && bool_decide (NotifySub.platform s = platform)
  && bool_decide (NotifySub.chat_id s = chat_id)
  && bool_decide (NotifySub.thread_id s = str_or thread_id "").

Definition subscribe_notify_sync (d : db) (task_id platform chat_id : string)
    (thread_id : option string) (now : Z) : db * result bool :=
  if negb (task_exists d task_id) then (d, Raise TaskNotFoundError)
  else
    let subs := task_notify_subs d in
    let here := sub_matches task_id platform chat_id thread_id in
    (d <| task_notify_subs :=
         if existsb here subs
         then map (fun s => if here s then s <| NotifySub.updated_at := now |> else s) subs
         else subs ++ [NotifySub.mk task_id platform chat_id (str_or thread_id "") 0 now now] |>,
     Return true).

(** [created_at ASC]; rows of the same time come in insertion order.  A row
    whose thread is empty is shown without one. *)
Definition list_notify_subs_sync (d : db) (task_id : string)
    : list (string * string * string * option string * Z) :=
  map (fun s => (NotifySub.task_id s, NotifySub.platform s, NotifySub.chat_id s,
                 if truthy_str (NotifySub.thread_id s) then Some (NotifySub.thread_id s) else None,
                 NotifySub.last_terminal_event_id s))
    (order_by (fun a b => (NotifySub.created_at a <=? NotifySub.created_at b))
       (List.filter (fun s => bool_decide (NotifySub.task_id s = task_id)) (task_notify_subs d))).

Definition unsubscribe_notify_sync (d : db) (task_id platform chat_id : string)
    (thread_id : option string) : db * bool :=
  let here := sub_matches task_id platform chat_id thread_id in
  (d <| task_notify_subs := List.filter (fun s => negb (here s)) (task_notify_subs d) |>,
   existsb here (task_notify_subs d)).

Definition update_notify_sub_last_event_sync (d : db) (task_id platform chat_id : string)
    (thread_id : option string) (event_id now : Z) : db * bool :=
  let hit := fun s => sub_matches task_id platform chat_id thread_id s
                      && (NotifySub.last_terminal_event_id s <? event_id) in
  (d <| task_notify_subs :=
       map (fun s => if hit s then s <| NotifySub.last_terminal_event_id := event_id |>
                                      <| NotifySub.updated_at := now |> else s)
         (task_notify_subs d) |>,
   existsb hit (task_notify_subs d)).

(** * The one-time status migration

    A legacy file is its [user_version] and the (status, is_archived) columns
    of its task rows. *)

Definition LEGACY_STATUS_MAP : list (string * string * Z) :=
  [("triage", "queued", 0); ("todo", "queued", 0); ("scheduled", "queued", 0);
   ("ready", "queued", 0); ("running", "expired", 0); ("review", "waiting_approval", 0);
   ("done", "succeeded", 0); ("blocked", "failed", 0); ("archived", "cancelled", 1)].

(** [UPDATE tasks SET status = ?, is_archived = ? WHERE status = ?] on a row. *)
Definition map_status (row : string * Z) (entry : string * string * Z) : string * Z :=
  let '(legacy_st, new_st, is_archived) := entry in
  if bool_decide (row.1 = legacy_st) then (new_st, is_archived) else row.

Definition ensure_schema (user_version : Z) (rows : list (string * Z)) : Z * list (string * Z) :=
  if user_version <? 1
  then (1, map (fun row => foldl map_status row LEGACY_STATUS_MAP) rows)
  else (user_version, rows).
