(* ===== verification/TaskStoreInv.v ===== *)
(** What the task registry guarantees over every sequence of its operations:
    claims and live runs stay paired, a run is finished at most once, a
    proposal is decided at most once, versions only grow. *)
From S2P Require Import Prelude TaskDomain TaskStore.

(** * Operations as data

    [op] is a call of a registry method that can change the tables; [exec]
    runs it.  [op_ok] is how the application layer calls them: tasks are
    created idle, a lifecycle field is only written on a task that is not
    running and never to make it run, and the markers of a decision are only
    written by [resolve_proposal]. *)

Inductive op : Type :=
  | OCreate (task : Task.t) (now : Z)
  | OUpdate (task_id : string) (fields : list task_field) (version now : Z)
  | OClaim (task_id lock token : string) (lease now : Z)
  | OHeartbeat (task_id : string) (run_id : Z) (lock : string) (now : Z)
  | OFinish (c : FinishRunCommand) (now : Z)
  | ORecover (c : RecoverRunCommand) (now : Z)
  | OResolve (c : ProposalResolutionCommand) (now : Z)
  | OAppendEvent (task_id kind : string) (payload : list (string * json)) (run_id : option Z) (now : Z)
  | OAddComment (task_id author body hex : string) (now : Z)
  | OAddAttachment (task_id filename stored content : string) (size : Z) (sum by_ hex : string) (now : Z)
  | ODeleteAttachment (attachment_id : string)
  | OSubscribe (task_id platform chat : string) (thread : option string) (now : Z)
  | OUnsubscribe (task_id platform chat : string) (thread : option string)
  | OAdvanceSub (task_id platform chat : string) (thread : option string) (event_id now : Z)
  | ODelete (task_id : string) (now : Z).

Definition exec (d : db) (o : op) : db :=
  match o with
  | OCreate task now => (create_task_sync d task now).1
  | OUpdate id f v now => (update_task_sync d id f v now).1
  | OClaim id lock token lease now => (claim_task_sync d id lock token lease now).1
  | OHeartbeat id run lock now => (record_heartbeat_sync d id run lock now).1
  | OFinish c now => (finish_run_sync d c now).1
  | ORecover c now => (recover_run_sync d c now).1
  | OResolve c now => (resolve_proposal_sync d c now).1
  | OAppendEvent id k p r now => (append_event_sync d id k p r now).1
  | OAddComment id a b h now => (add_comment_sync d id a b h now).1
  | OAddAttachment id f s c n x y h now => (add_attachment_sync d id f s c n x y h now).1
  | ODeleteAttachment a => (delete_attachment_sync d a).1
  | OSubscribe id p c t now => (subscribe_notify_sync d id p c t now).1
  | OUnsubscribe id p c t => (unsubscribe_notify_sync d id p c t).1
  | OAdvanceSub id p c t e now => (update_notify_sub_last_event_sync d id p c t e now).1
  | ODelete id now => (delete_task_sync d id now).1
  end.

Definition deletes (id : string) (o : op) : bool :=
  match o with ODelete id' _ => bool_decide (id' = id) | _ => false end.

Definition unclaimed (t : Task.t) : Prop :=
  Task.claim_lock t = None /\ Task.claim_expires t = None /\ Task.current_run_id t = None.

(** A field write that leaves the lifecycle columns alone. *)
Definition plain_field (f : task_field) : bool :=
  match f with
  | FStatus _ | FClaimLock _ | FClaimExpires _ | FCurrentRunId _ => false
  | _ => true
  end.

(** A field write that may move an idle task between idle states. *)
Definition idle_field (f : task_field) : bool :=
  match f with
  | FStatus s => negb (bool_decide (s = TaskStatus.RUNNING))
  | FClaimLock o => bool_decide (o = None)
  | FClaimExpires o => bool_decide (o = None)
  | FCurrentRunId o => bool_decide (o = None)
  | _ => true
  end.

Definition op_ok (d : db) (o : op) : Prop :=
  match o with
  | OCreate task _ => Task.status task <> TaskStatus.RUNNING /\ unclaimed task
  | OUpdate id fields _ _ =>
      match tasks d !! id with
      | Some row =>
          if bool_decide (Task.status row = TaskStatus.RUNNING)
          then forallb plain_field fields = true else forallb idle_field fields = true
      | None => True
      end
  | OFinish c _ => fin_target_task_status c <> Some TaskStatus.RUNNING
  | OAppendEvent _ kind _ _ _ => kind ∉ RESOLUTION_MARKER_KINDS
  | _ => True
  end.

(** [d] evolves to [d'] by the operations [ops]. *)
Inductive history : db -> list op -> db -> Prop :=
  | history_nil d : history d [] d
  | history_cons d o ops d' :
      op_ok d o -> history (exec d o) ops d' -> history d (o :: ops) d'.

Fixpoint ops_ok (d : db) (ops : list op) : Prop :=
  match ops with [] => True | o :: ops => op_ok d o /\ ops_ok (exec d o) ops end.

Definition reachable (d : db) : Prop := exists ops, history empty_db ops d.

(** * The invariant *)

Definition linked (d : db) (t : Task.t) : Prop :=
  if bool_decide (Task.status t = TaskStatus.RUNNING) then
    exists lock rid r,
      Task.claim_lock t = Some lock /\ Task.current_run_id t = Some rid
      /\ task_runs d !! rid = Some r /\ TaskRun.task_id r = Task.id t
      /\ TaskRun.status r = TaskRunStatus.RUNNING /\ TaskRun.claim_lock r = Some lock
  else unclaimed t.

Definition attached (d : db) (rid : Z) (r : TaskRun.t) : Prop :=
  exists t, tasks d !! TaskRun.task_id r = Some t
    /\ (TaskRun.status r = TaskRunStatus.RUNNING ->
        Task.status t = TaskStatus.RUNNING /\ Task.current_run_id t = Some rid).

Record db_ok (d : db) : Prop := {
  ok_task_id : forall id t, tasks d !! id = Some t -> Task.id t = id;
  ok_linked : forall id t, tasks d !! id = Some t -> linked d t;
  ok_run_id : forall rid r, task_runs d !! rid = Some r -> TaskRun.id r = rid /\ 0 < rid <= run_seq d;
  ok_attached : forall rid r, task_runs d !! rid = Some r -> attached d rid r;
  ok_run_seq : 0 <= run_seq d;
  ok_events_sorted : StronglySorted Z.lt (map TaskEvent.id (task_events d));
  ok_event_seq : Forall (fun e => 0 < TaskEvent.id e <= event_seq d) (task_events d);
  ok_event_seq_nonneg : 0 <= event_seq d
}.

(** * Preservation lemmas *)

Lemma empty_db_ok : db_ok empty_db.
Proof.
  split; simpl; intros *; rewrite ?lookup_empty; try done; try constructor; lia.
Qed.

(** An operation that leaves tasks and runs and the log alone. *)
Lemma db_ok_frame d d' :
  tasks d' = tasks d -> task_runs d' = task_runs d -> run_seq d' = run_seq d ->
  task_events d' = task_events d -> event_seq d' = event_seq d ->
  db_ok d -> db_ok d'.
Proof.
  intros Ht Hr Hs He Hes [H1 H2 H3 H4 H5 H6 H7 H8].
  split; unfold linked, attached; rewrite ?Ht, ?Hr, ?Hs, ?He, ?Hes; auto.
Qed.

Lemma insert_event_ok d task_id run_id kind payload now :
  db_ok d -> db_ok (insert_event d task_id run_id kind payload now).1.
Proof.
  intros [H1 H2 H3 H4 H5 H6 H7 H8]. split; simpl; auto; [| |lia].
  - rewrite map_app. simpl. apply StronglySorted_app_one; [done|].
    apply Forall_map. eapply Forall_impl; [exact H7|]. simpl. lia.
  - apply Forall_app. split; [eapply Forall_impl; [exact H7|]; simpl; lia|].
    constructor; [simpl; lia|constructor].
Qed.

(** Rewriting a row without touching its lifecycle columns, or moving an idle
    row to another idle row. *)
Lemma put_task_ok d t t' :
  db_ok d -> tasks d !! Task.id t = Some t -> Task.id t' = Task.id t ->
  (Task.status t' = Task.status t /\ Task.claim_lock t' = Task.claim_lock t
   /\ Task.current_run_id t' = Task.current_run_id t
   /\ (Task.claim_expires t' = Task.claim_expires t
       \/ Task.status t = TaskStatus.RUNNING)) \/
  (Task.status t <> TaskStatus.RUNNING /\ Task.status t' <> TaskStatus.RUNNING
   /\ unclaimed t') ->
  db_ok (put_task d t').
Proof.
  intros Hok Ht Hid Hcase. pose proof Hok as [H1 H2 H3 H4 H5 H6 H7 H8].
  pose proof (H2 _ _ Ht) as Hlink.
  split; simpl; auto.
  - intros id u Hu. apply lookup_insert_Some in Hu as [[<- <-]|[_ Hu]]; eauto.
  - intros id u Hu. apply lookup_insert_Some in Hu as [[<- <-]|[_ Hu]].
    + unfold linked in *. simpl. destruct Hcase as [(Hs & Hl & Hr & He)|(Hs & Hs' & Hun)].
      * rewrite Hs, Hid, Hl, Hr. case_bool_decide; [exact Hlink|].
        destruct Hlink as (? & ? & ?). destruct He as [He|He]; [|congruence].
        unfold unclaimed. rewrite He, Hl, Hr. auto.
      * by rewrite bool_decide_eq_false_2.
    + apply (H2 _ _ Hu).
  - intros rid r Hr. destruct (H4 _ _ Hr) as (u & Hu & Hrun). unfold attached. simpl.
    destruct (decide (Task.id t' = TaskRun.task_id r)) as [Heq|Hne].
    + rewrite Heq, lookup_insert_eq. eexists; split; [done|]. intros HR.
      assert (u = t) as -> by congruence.
      destruct (Hrun HR) as [Hs Hc].
      destruct Hcase as [(-> & _ & -> & _)|(Hs' & _)]; [auto|congruence].
    + rewrite lookup_insert_ne by done. eauto.
Qed.

(** * Each operation preserves the invariant *)

Lemma assign_plain t f :
  plain_field f = true ->
  let t' := assign t f in
  Task.id t' = Task.id t /\ Task.status t' = Task.status t
  /\ Task.claim_lock t' = Task.claim_lock t /\ Task.current_run_id t' = Task.current_run_id t
  /\ Task.claim_expires t' = Task.claim_expires t.
Proof. destruct f; done. Qed.

Lemma assign_idle t f :
  idle_field f = true -> Task.status t <> TaskStatus.RUNNING -> unclaimed t ->
  let t' := assign t f in
  Task.id t' = Task.id t /\ Task.status t' <> TaskStatus.RUNNING /\ unclaimed t'.
Proof.
  unfold unclaimed. destruct f; simpl; intros Hf Hs (? & ? & ?);
    repeat split; auto; try (by case_bool_decide).
Qed.

Lemma assign_version_id t f :
  Task.version (assign t f) = Task.version t /\ Task.id (assign t f) = Task.id t.
Proof. destruct f; done. Qed.

Lemma foldl_assign_plain fs t :
  forallb plain_field fs = true ->
  let t' := foldl assign t fs in
  Task.id t' = Task.id t /\ Task.status t' = Task.status t
  /\ Task.claim_lock t' = Task.claim_lock t /\ Task.current_run_id t' = Task.current_run_id t
  /\ Task.claim_expires t' = Task.claim_expires t.
Proof.
  revert t. induction fs as [|f fs IH]; simpl; intros t H; [done|].
  apply andb_true_iff in H as [Hf Hfs].
  destruct (IH (assign t f) Hfs) as (-> & -> & -> & -> & ->).
  by apply assign_plain.
Qed.

Lemma foldl_assign_idle fs t :
  forallb idle_field fs = true -> Task.status t <> TaskStatus.RUNNING -> unclaimed t ->
  let t' := foldl assign t fs in
  Task.id t' = Task.id t /\ Task.status t' <> TaskStatus.RUNNING /\ unclaimed t'.
Proof.
  revert t. induction fs as [|f fs IH]; simpl; intros t H Hs Hu; [done|].
  apply andb_true_iff in H as [Hf Hfs].
  destruct (assign_idle t f Hf Hs Hu) as (Hid & Hs' & Hu').
  destruct (IH _ Hfs Hs' Hu') as (-> & ? & ?). by rewrite Hid.
Qed.

Lemma create_ok d task now :
  db_ok d -> op_ok d (OCreate task now) -> db_ok (create_task_sync d task now).1.
Proof.
  intros [H1 H2 H3 H4 H5 H6 H7 H8] [Hs Hun]. unfold create_task_sync.
  case_match eqn:E; [done|]. apply orb_false_iff in E as [Hfree%bool_decide_eq_false _].
  apply eq_None_not_Some in Hfree.
  split; simpl; auto.
  - intros id u Hu. apply lookup_insert_Some in Hu as [[<- <-]|[_ Hu]]; [done|eauto].
  - intros id u Hu. apply lookup_insert_Some in Hu as [[<- <-]|[_ Hu]]; [|by apply (H2 id)].
    unfold linked. simpl. by rewrite bool_decide_eq_false_2.
  - intros rid r Hr. destruct (H4 _ _ Hr) as (u & Hu & Hrun). exists u. simpl. split; [|done].
    rewrite lookup_insert_ne; [done|]. simpl. intros Heq. congruence.
Qed.

Lemma update_row_cases d t fields now :
  (update_row d t fields now).1 = d
  \/ update_row d t fields now
     = (put_task d (apply_fields t fields now), Return (apply_fields t fields now)).
Proof. unfold update_row. cases; auto. Qed.

Lemma update_cases d id fields v now :
  (update_task_sync d id fields v now).1 = d
  \/ exists t, tasks d !! id = Some t /\ Task.version t = v
      /\ update_task_sync d id fields v now
         = (put_task d (apply_fields t fields now), Return (apply_fields t fields now)).
Proof.
  unfold update_task_sync. destruct (tasks d !! id) as [t|] eqn:Ht; [|auto].
  destruct (Task.version t =? v) eqn:Hv; simpl; [|auto].
  destruct (update_row_cases d t fields now) as [?|Hu]; [auto|].
  right. exists t. apply Z.eqb_eq in Hv. auto.
Qed.

Lemma update_ok d id fields v now :
  db_ok d -> op_ok d (OUpdate id fields v now) -> db_ok (update_task_sync d id fields v now).1.
Proof.
  intros Hok Hop.
  destruct (update_cases d id fields v now) as [->|(t & Ht & _ & ->)]; [done|].
  simpl in *. rewrite Ht in Hop.
  pose proof (ok_task_id _ Hok _ _ Ht) as Hid. rewrite <- Hid in Ht.
  pose proof (ok_linked _ Hok _ _ Ht) as Hl. unfold linked in Hl.
  case_bool_decide as Hrun.
  - destruct (foldl_assign_plain fields t Hop) as (Hid' & Hst & Hcl & Hcr & Hce).
    apply put_task_ok with t; auto. left. simpl. rewrite Hst, Hcl, Hcr. auto.
  - destruct (foldl_assign_idle fields t Hop Hrun Hl) as (Hid' & ? & ?).
    apply put_task_ok with t; auto.
Qed.

(** The live pair of a claim: task [t] runs under run [r]. *)
Definition paired (t : Task.t) (r : TaskRun.t) : Prop :=
  Task.status t = TaskStatus.RUNNING /\ Task.current_run_id t = Some (TaskRun.id r)
  /\ TaskRun.status r = TaskRunStatus.RUNNING
  /\ exists lock, Task.claim_lock t = Some lock /\ TaskRun.claim_lock r = Some lock.

Definition parted (t : Task.t) (r : TaskRun.t) : Prop :=
  Task.status t <> TaskStatus.RUNNING /\ unclaimed t
  /\ TaskRun.status r <> TaskRunStatus.RUNNING.

(** Writing a task and one of its runs, as a live pair or as an ended one. *)
Lemma put_pair_ok d t t' r' seq :
  db_ok d -> tasks d !! Task.id t' = Some t ->
  run_seq d <= seq -> 0 < TaskRun.id r' <= seq -> TaskRun.task_id r' = Task.id t' ->
  (forall r, task_runs d !! TaskRun.id r' = Some r -> TaskRun.task_id r = Task.id t') ->
  (Task.status t = TaskStatus.RUNNING -> Task.current_run_id t = Some (TaskRun.id r')) ->
  paired t' r' \/ parted t' r' ->
  db_ok (put_task (put_run (d <| run_seq := seq |>) r') t').
Proof.
  intros [H1 H2 H3 H4 H5 H6 H7 H8] Ht Hseq Hid Htid Hown Hcur Hcase.
  split; simpl; auto; [| | | |lia].
  - intros id u Hu. apply lookup_insert_Some in Hu as [[<- <-]|[_ Hu]]; eauto.
  - intros id u Hu. apply lookup_insert_Some in Hu as [[<- <-]|[Hne Hu]]; unfold linked; simpl.
    + destruct Hcase as [(-> & Hc & Hr & lock & Hl & Hlr)|(Hs & Hun & _)].
      * rewrite bool_decide_eq_true_2 by done. exists lock, (TaskRun.id r'), r'.
        by rewrite lookup_insert_eq.
      * by rewrite bool_decide_eq_false_2.
    + pose proof (H1 _ _ Hu) as Huid. specialize (H2 _ _ Hu). unfold linked in H2.
      case_bool_decide; [|done]. destruct H2 as (lock & rid & r & ? & ? & Hr & Hrt & ?).
      exists lock, rid, r. rewrite lookup_insert_ne; [done|].
      intros <-. apply Hown in Hr. congruence.
  - intros rid r Hr. apply lookup_insert_Some in Hr as [[<- <-]|[_ Hr]]; [done|].
    destruct (H3 _ _ Hr). split; [done|lia].
  - intros rid r Hr. unfold attached. simpl.
    apply lookup_insert_Some in Hr as [[<- <-]|[Hne Hr]].
    + rewrite Htid, lookup_insert_eq. eexists; split; [done|]. intros HR.
      destruct Hcase as [(? & ? & _)|(_ & _ & ?)]; [done|congruence].
    + destruct (H4 _ _ Hr) as (u & Hu & HR).
      destruct (decide (Task.id t' = TaskRun.task_id r)) as [Heq|Hne'].
      * rewrite Heq, lookup_insert_eq. eexists; split; [done|]. intros Hrun.
        destruct (HR Hrun) as [Hus Huc]. assert (u = t) as -> by congruence.
        specialize (Hcur Hus). congruence.
      * rewrite lookup_insert_ne by done. eauto.
Qed.

(** A claim either does nothing or turns an idle queued task into a live pair
    under a fresh run. *)
Definition claimed_pair (d : db) (task : Task.t) (lock token : string) (lease now : Z)
    : Task.t * TaskRun.t :=
  (task <| Task.status := TaskStatus.RUNNING |>
     <| Task.claim_lock := Some lock |> <| Task.claim_expires := Some (now + seconds lease) |>
     <| Task.current_run_id := Some (run_seq d + 1) |> <| Task.worker_token := Some token |>
     <| Task.pending_trigger_run_id := None |>
     <| Task.started_at := Some (default now (Task.started_at task)) |>
     <| Task.last_heartbeat_at := Some now |>
     <| Task.version := Task.version task + 1 |> <| Task.updated_at := Some now |>,
   TaskRun.mk (run_seq d + 1) (Task.id task) "default" TaskRunStatus.RUNNING (Some lock)
     (Some (now + seconds lease)) (Some token) (Task.max_runtime_seconds task) (Some lease)
     None (Some now) None None None [] None (Task.pending_trigger_run_id task)).

(** When a task can be claimed. *)
Definition claimable (now : Z) (t : Task.t) : bool :=
  bool_decide (Task.status t = TaskStatus.QUEUED) && negb (Task.is_archived t)
  && match Task.scheduled_at t with None => true | Some due => due <=? now end
  && match Task.claim_expires t with None => true | Some e => e <? now end.

Lemma claim_cases d id lock token lease now :
  claim_task_sync d id lock token lease now = (d, None)
  /\ match tasks d !! id with Some t => claimable now t = false | None => True end
  \/ exists t, tasks d !! id = Some t /\ claimable now t = true
     /\ (Task.id t = id ->
         let p := claimed_pair d t lock token lease now in
         claim_task_sync d id lock token lease now
         = ((insert_event (put_task (put_run (d <| run_seq := run_seq d + 1 |>) p.2) p.1) id
               (Some (run_seq d + 1)) "claimed" [("claim_lock", JStr lock)] now).1,
            Some (mkClaimResult p.1 p.2))).
Proof.
  unfold claim_task_sync. destruct (tasks d !! id) as [t|]; [|auto].
  change (bool_decide _ && _ && _ && _) with (claimable now t).
  destruct (claimable now t) eqn:E; [|auto]. right. exists t. split; [done|]. split; [done|].
  intros <-. reflexivity.
Qed.

Lemma claim_ok d id lock token lease now :
  db_ok d -> db_ok (claim_task_sync d id lock token lease now).1.
Proof.
  intros Hok. destruct (claim_cases d id lock token lease now) as [[-> _]|(t & Ht & Hc & Heq)];
    [done|].
  pose proof (ok_task_id _ Hok _ _ Ht) as Hid. rewrite (Heq Hid). cbn [fst].
  apply insert_event_ok.
  rewrite <- Hid in Ht. pose proof (ok_run_seq _ Hok).
  unfold claimable in Hc. rewrite !andb_true_iff in Hc.
  destruct Hc as [[[Hs%bool_decide_eq_true _] _] _].
  apply put_pair_ok with t; simpl; try done; [lia|lia| | |].
  - intros r Hr. apply (ok_run_id _ Hok) in Hr. lia.
  - congruence.
  - left. repeat split; eauto.
Qed.

(** A task whose claim is held is one half of a live pair. *)
Lemma holds_claim_spec task lock rid :
  holds_claim task lock rid = true <->
  Task.claim_lock task = Some lock /\ Task.current_run_id task = Some rid.
Proof. unfold holds_claim. by rewrite andb_true_iff, !bool_decide_eq_true. Qed.

Lemma holder_paired d id task lock rid :
  db_ok d -> tasks d !! id = Some task -> holds_claim task lock rid = true ->
  exists r, task_runs d !! rid = Some r /\ TaskRun.task_id r = id /\ TaskRun.id r = rid
    /\ paired task r /\ TaskRun.claim_lock r = Some lock.
Proof.
  intros Hok Ht [Hl Hr]%holds_claim_spec. pose proof (ok_linked _ Hok _ _ Ht) as Hlink.
  unfold linked in Hlink. case_bool_decide as Hs; [|destruct Hlink as (? & _); congruence].
  destruct Hlink as (l & rid' & r & Hl' & Hr' & Hrow & Hrt & Hrs & Hrl).
  assert (rid' = rid) as -> by congruence. assert (l = lock) as -> by congruence.
  pose proof (ok_task_id _ Hok _ _ Ht). destruct (ok_run_id _ Hok _ _ Hrow) as [Hrid _].
  exists r. unfold paired. rewrite Hrid. repeat split; eauto; congruence.
Qed.

Lemma run_seq_self d : d <| run_seq := run_seq d |> = d.
Proof. by destruct d. Qed.

(** Writing a new version of a live task and of its run, the pair staying live
    or ending. *)
Lemma rewrite_pair_ok d id task lock rid r t' r' :
  db_ok d -> tasks d !! id = Some task -> holds_claim task lock rid = true ->
  task_runs d !! rid = Some r ->
  Task.id t' = Task.id task -> TaskRun.id r' = TaskRun.id r ->
  TaskRun.task_id r' = TaskRun.task_id r -> paired t' r' \/ parted t' r' ->
  db_ok (put_task (put_run d r') t').
Proof.
  intros Hok Ht Hh Hr Htid Hrid Hrt Hcase.
  destruct (holder_paired _ _ _ _ _ Hok Ht Hh) as (r0 & Hr0 & Hrt0 & Hrid0 & Hp & _).
  assert (r0 = r) as -> by congruence.
  pose proof (ok_task_id _ Hok _ _ Ht) as Hid.
  destruct (ok_run_id _ Hok _ _ Hr) as [? ?].
  rewrite <- (run_seq_self d). apply put_pair_ok with task; try done.
  - congruence.
  - lia.
  - congruence.
  - intros r1 Hr1. assert (r1 = r) as -> by congruence. congruence.
  - intros _. apply holds_claim_spec in Hh as [_ ->]. congruence.
Qed.

Lemma put_task_run d t r : put_run (put_task d t) r = put_task (put_run d r) t.
Proof. reflexivity. Qed.

Lemma heartbeat_ok d id rid lock now :
  db_ok d -> db_ok (record_heartbeat_sync d id rid lock now).1.
Proof.
  intros Hok. unfold record_heartbeat_sync. destruct (tasks d !! id) as [task|] eqn:Ht; [|done].
  destruct (holds_claim task lock rid) eqn:Hh; [|done]. cbn [negb].
  destruct (holder_paired _ _ _ _ _ Hok Ht Hh) as (r & Hr & Hrt & Hrid & Hp & Hrl).
  rewrite Hr. rewrite bool_decide_eq_true_2 by done.
  cbn [fst]. rewrite put_task_run.
  eapply rewrite_pair_ok; eauto.
Qed.

(** The outcomes of a finish or a recovery. *)
Lemma finalize_cases d id rid lock oc summary meta error rec target now :
  (finalize_run d id rid lock oc summary meta error rec target now).1 = d
  \/ (exists run, task_runs d !! rid = Some run /\ TaskRun.status run <> TaskRunStatus.RUNNING
      /\ TaskRun.claim_lock run = Some lock
      /\ exists payload,
         finalize_run d id rid lock oc summary meta error rec target now
         = ((insert_event d id (Some rid) "late_finish_attempt" payload now).1,
            Raise TaskConflictError))
  \/ exists run task t' r' payload,
      finalize_run d id rid lock oc summary meta error rec target now
         = (let e := insert_event (put_task (put_run d r') t') id (Some rid)
                       (if rec then "recovered" else "finished") payload now in
            (e.1, Return (mkFinishRunResult t' r' e.2)))
      /\ task_runs d !! rid = Some run /\ tasks d !! id = Some task
      /\ holds_claim task lock rid = true /\ TaskRun.status run = TaskRunStatus.RUNNING
      /\ Task.status t' =
           match target with
           | Some s => s
           | None => outcome_to_task_status oc
                       (if increments_failures oc then Task.consecutive_failures task + 1
                        else Task.consecutive_failures task) (Task.max_retries task)
           end
      /\ unclaimed t' /\ Task.version t' = Task.version task + 1 /\ Task.id t' = Task.id task
      /\ TaskRun.status r' = outcome_to_run_status oc
      /\ TaskRun.id r' = TaskRun.id run /\ TaskRun.task_id r' = TaskRun.task_id run
      /\ TaskRun.claim_lock r' = TaskRun.claim_lock run.
Proof.
  unfold finalize_run. destruct (task_runs d !! rid) as [run|] eqn:Hrun; [|auto].
  destruct (bool_decide (TaskRun.task_id run = id)); cbn [negb]; [|auto].
  destruct (decide (TaskRun.status run = TaskRunStatus.RUNNING)) as [Hrs|Hrs].
  - rewrite bool_decide_eq_true_2 by done. cbn [negb].
    destruct (tasks d !! id) as [task|] eqn:Ht; [|auto].
    destruct (holds_claim task lock rid) eqn:Hh; cbn [negb]; [|auto].
    right; right. exists run, task.
    destruct (bool_decide (oc = TaskRunOutcome.COMPLETED)), (increments_failures oc), rec;
      eexists _, _, _; (split; [reflexivity|]); repeat (split; [done|]); done.
  - rewrite bool_decide_eq_false_2 by done. cbn [negb].
    case_bool_decide as Hl; [|auto]. right; left. exists run. repeat split; try done.
    eexists. reflexivity.
Qed.

Lemma outcome_to_task_status_idle oc n m : outcome_to_task_status oc n m <> TaskStatus.RUNNING.
Proof. destruct oc; simpl; try done; by case_match. Qed.

Lemma outcome_to_run_status_ended oc : outcome_to_run_status oc <> TaskRunStatus.RUNNING.
Proof. by destruct oc. Qed.

Lemma finalize_ok d id rid lock oc summary meta error rec target now :
  target <> Some TaskStatus.RUNNING -> db_ok d ->
  db_ok (finalize_run d id rid lock oc summary meta error rec target now).1.
Proof.
  intros Htgt Hok.
  destruct (finalize_cases d id rid lock oc summary meta error rec target now)
    as [->|[(run & _ & _ & _ & payload & ->)|(run & task & t' & r' & payload & -> & Hrun & Ht & Hh
      & _ & Hst & Hun & _ & Htid & Hrs & Hrid & Hrt & _)]];
    [done|by apply insert_event_ok|].
  cbn zeta. cbn [fst]. apply insert_event_ok. eapply rewrite_pair_ok; eauto.
  right. repeat split; try apply Hun.
  - rewrite Hst. destruct target; [congruence|apply outcome_to_task_status_idle].
  - rewrite Hrs. apply outcome_to_run_status_ended.
Qed.

(** A finish by the holder of a live claim takes effect. *)
Lemma finalize_holder d id t rid lock oc summary meta error rec target now :
  db_ok d -> tasks d !! id = Some t -> holds_claim t lock rid = true ->
  exists r, task_runs d !! rid = Some r /\ paired t r /\ Task.claim_lock t = Some lock
  /\ exists d' res,
     finalize_run d id rid lock oc summary meta error rec target now = (d', Return res)
     /\ (let t' := finished_task res in let r' := finished_run res in
         let failures := Task.consecutive_failures t + (if increments_failures oc then 1 else 0) in
         Task.status t' = match target with
                          | Some s => s
                          | None => outcome_to_task_status oc failures (Task.max_retries t)
                          end
         /\ unclaimed t' /\ Task.version t' = Task.version t + 1
         /\ Task.consecutive_failures t'
            = (if bool_decide (oc = TaskRunOutcome.COMPLETED) then 0 else failures)
         /\ TaskRun.status r' = outcome_to_run_status oc /\ TaskRun.outcome r' = Some oc
         /\ TaskRun.ended_at r' = Some now
         /\ tasks d' = <[id := t']> (tasks d) /\ task_runs d' = <[rid := r']> (task_runs d)
         /\ task_events d' = task_events d ++ [terminal_event res]
         /\ TaskEvent.kind (terminal_event res) = (if rec then "recovered" else "finished")).
Proof.
  intros Hok Ht Hh. destruct (holder_paired _ _ _ _ _ Hok Ht Hh) as (r & Hr & Hrt & Hrid & Hp & _).
  pose proof (ok_task_id _ Hok _ _ Ht) as Hid. exists r. split; [done|]. split; [done|].
  split; [by apply holds_claim_spec in Hh as [? _]|].
  unfold finalize_run. rewrite Hr, Ht, Hh.
  rewrite (bool_decide_eq_true_2 (TaskRun.task_id r = id)) by done. cbn [negb].
  rewrite (bool_decide_eq_true_2 (TaskRun.status r = _)) by (by destruct Hp as (_ & _ & ? & _)).
  cbn [negb]. eexists _, _. split; [reflexivity|].
  destruct oc, target; unfold increments_failures; eval_decides; cbn;
    rewrite ?Hid, ?Hrid, ?Z.add_0_r; repeat split; by destruct rec.
Qed.

(** A claim of a claimable task takes effect. *)
Lemma claim_claimable d id t lock token lease now :
  db_ok d -> tasks d !! id = Some t -> claimable now t = true ->
  exists d', claim_task_sync d id lock token lease now
     = (d', Some (mkClaimResult (claimed_pair d t lock token lease now).1
                    (claimed_pair d t lock token lease now).2))
  /\ tasks d' = <[id := (claimed_pair d t lock token lease now).1]> (tasks d).
Proof.
  intros Hok Ht Hc. pose proof (ok_task_id _ Hok _ _ Ht) as Hid.
  destruct (claim_cases d id lock token lease now) as [[_ Hno]|(t' & Ht' & _ & Heq)].
  - rewrite Ht in Hno. congruence.
  - assert (t' = t) as -> by congruence. rewrite (Heq Hid). eexists. split; [reflexivity|].
    simpl. by rewrite Hid.
Qed.

(** The outcomes of a proposal resolution. *)
Lemma resolve_cases d c now :
  ((resolve_proposal_sync d c now).1 = d /\ exists e, (resolve_proposal_sync d c now).2 = Raise e)
  \/ exists task resolved proposal,
      let e := insert_event d (res_task_id c) None (res_event_kind c)
                 [("decision", JStr (res_decision c)); ("note", json_opt_str (res_note c));
                  ("proposal_event_id", JInt (TaskEvent.id proposal))] now in
      let t' := task <| Task.status := TaskStatus.QUEUED |>
                  <| Task.version := Task.version task + 1 |> <| Task.updated_at := Some now |> in
      resolve_proposal_sync d c now
      = (put_task e.1 t',
         Return (mkProposalResolutionResult (TaskEvent.id proposal) t' e.2))
      /\ tasks d !! res_task_id c = Some task /\ Task.status task = TaskStatus.WAITING_APPROVAL
      /\ Task.version task = res_expected_version c /\ Task.is_archived task = false
      /\ resolved_ids (events_of d (res_task_id c)) = Return resolved
      /\ latest_pending (events_of d (res_task_id c)) resolved = Some proposal
      /\ DECISION_TO_EVENT_KIND (res_decision c) = Some (res_event_kind c).
Proof.
  unfold resolve_proposal_sync. destruct (validate_resolution_command c) eqn:Hv; [|left; eauto].
  destruct (tasks d !! res_task_id c) as [task|] eqn:Ht; [|left; eauto].
  destruct (Task.version task =? res_expected_version c) eqn:Hver; cbn [negb]; [|left; eauto].
  destruct (Task.is_archived task) eqn:Har; [left; eauto|].
  case_bool_decide as Hs; cbn [negb]; [|left; eauto].
  destruct (resolved_ids _) as [resolved|] eqn:Hres; [|left; eauto].
  destruct (latest_pending _ _) as [proposal|] eqn:Hp; [|left; eauto].
  right. exists task, resolved, proposal. apply Z.eqb_eq in Hver.
  split; [reflexivity|]. repeat split; try done.
  unfold validate_resolution_command in Hv. destruct (truthy_str _); [|done].
  destruct (DECISION_TO_EVENT_KIND _); [|done]. cbn [negb] in Hv. revert Hv.
  case_bool_decide; [congruence|done].
Qed.

Lemma decision_kind_marker d k :
  DECISION_TO_EVENT_KIND d = Some k -> k ∈ RESOLUTION_MARKER_KINDS.
Proof.
  unfold DECISION_TO_EVENT_KIND, RESOLUTION_MARKER_KINDS. cases; set_solver.
Qed.

Lemma tasks_insert_event d id rid k p now : tasks (insert_event d id rid k p now).1 = tasks d.
Proof. reflexivity. Qed.

Lemma resolve_ok d c now : db_ok d -> db_ok (resolve_proposal_sync d c now).1.
Proof.
  intros Hok. destruct (resolve_cases d c now)
    as [[-> _]|(task & resolved & proposal & -> & Ht & Hs & _)]; [done|]. cbn [fst].
  pose proof (ok_task_id _ Hok _ _ Ht) as Hid. pose proof (ok_linked _ Hok _ _ Ht) as Hl.
  unfold linked in Hl. rewrite bool_decide_eq_false_2 in Hl by congruence.
  apply put_task_ok with task; [by apply insert_event_ok|by rewrite tasks_insert_event, Hid|done|].
  right. rewrite Hs. done.
Qed.

Lemma delete_ok d id now : db_ok d -> db_ok (delete_task_sync d id now).1.
Proof.
  intros Hok. unfold delete_task_sync. destruct (tasks d !! id) as [t|] eqn:Ht; cbn [fst];
    [|by apply db_ok_frame with d]. destruct Hok as [H1 H2 H3 H4 H5 H6 H7 H8].
  split; simpl; try done.
  - intros id' u Hu. apply lookup_delete_Some in Hu as [_ Hu]. eauto.
  - intros id' u Hu. apply lookup_delete_Some in Hu as [Hne Hu].
    pose proof (H1 _ _ Hu) as Huid. specialize (H2 _ _ Hu). unfold linked in *. simpl.
    case_bool_decide; [|done]. destruct H2 as (lock & rid & r & ? & ? & Hr & Hrt & ?).
    exists lock, rid, r. do 2 (split; [done|]). split; [|done].
    apply map_lookup_filter_Some. split; [done|]. simpl. congruence.
  - intros rid r Hr. apply map_lookup_filter_Some in Hr as [Hr _]. eauto.
  - intros rid r Hr. apply map_lookup_filter_Some in Hr as [Hr Hne]. simpl in Hne.
    destruct (H4 _ _ Hr) as (u & Hu & HR). exists u. simpl.
    rewrite lookup_delete_ne by done. done.
  - by apply StronglySorted_map_filter.
  - by apply Forall_List_filter.
Qed.

Theorem exec_ok d o : db_ok d -> op_ok d o -> db_ok (exec d o).
Proof.
  intros Hok Hop. destruct o; simpl in *;
    try (by apply db_ok_frame with d; unfold add_comment_sync, add_attachment_sync,
           subscribe_notify_sync; cases).
  - by apply create_ok.
  - by apply update_ok.
  - by apply claim_ok.
  - by apply heartbeat_ok.
  - by apply finalize_ok.
  - by apply finalize_ok.
  - by apply resolve_ok.
  - unfold append_event_sync. case_match; [done|].
    by apply (insert_event_ok d task_id run_id kind payload now).
  - by apply delete_ok.
Qed.

Lemma history_ok d ops d' : history d ops d' -> db_ok d -> db_ok d'.
Proof. induction 1 as [|d o ops d' Ho _ IH]; auto using exec_ok. Qed.

Lemma reachable_ok d : reachable d -> db_ok d.
Proof. intros [ops H]. eapply history_ok, empty_db_ok. exact H. Qed.

Lemma history_app d1 ops1 d2 ops2 d3 :
  history d1 ops1 d2 -> history d2 ops2 d3 -> history d1 (ops1 ++ ops2) d3.
Proof. induction 1; simpl; [done|]. constructor; auto. Qed.

Lemma reachable_exec d o : reachable d -> op_ok d o -> reachable (exec d o).
Proof.
  intros [ops H] Ho. exists (ops ++ [o]). eapply history_app; [exact H|]. repeat constructor; done.
Qed.

Lemma history_run d ops : ops_ok d ops -> history d ops (foldl exec d ops).
Proof.
  revert d. induction ops as [|o ops IH]; intros d H; [constructor|].
  destruct H as [Ho Hops]. constructor; [done|]. by apply IH.
Qed.

Lemma reachable_run ops : ops_ok empty_db ops -> reachable (foldl exec empty_db ops).
Proof. intros H. exists ops. by apply history_run. Qed.

#[export] Hint Resolve reachable_ok reachable_exec empty_db_ok exec_ok : agent.

(** Two runs of one task are live only if they are the same run. *)
Lemma live_runs_equal d rid r rid' r' :
  db_ok d -> task_runs d !! rid = Some r -> task_runs d !! rid' = Some r' ->
  TaskRun.task_id r = TaskRun.task_id r' ->
  TaskRun.status r = TaskRunStatus.RUNNING -> TaskRun.status r' = TaskRunStatus.RUNNING ->
  rid = rid'.
Proof.
  intros Hok Hr Hr' Heq Hs Hs'.
  destruct (ok_attached _ Hok _ _ Hr) as (t & Ht & HR), (ok_attached _ Hok _ _ Hr') as (t' & Ht' & HR').
  destruct (HR Hs), (HR' Hs'). congruence.
Qed.
