(* ===== verification/TaskClaims.v ===== *)
(** Claims, leases and versions: the theorems about concurrent workers sharing
    the registry of TaskStore.v. *)
From S2P Require Import Prelude TaskDomain TaskStore TaskStoreInv.

(** * Definitions *)

(** A run row in [d'] is the row it was in [d], or a rewriting of the live
    row it was there. *)
Definition descends (r r' : TaskRun.t) : Prop :=
  TaskRun.task_id r' = TaskRun.task_id r
  /\ (TaskRun.status r <> TaskRunStatus.RUNNING -> r' = r).

Definition runs_descend (d d' : db) : Prop :=
  run_seq d <= run_seq d' /\
  forall rid r', rid <= run_seq d -> task_runs d' !! rid = Some r' ->
    exists r, task_runs d !! rid = Some r /\ descends r r'.

(** Versions of the rows never fall while the task is not deleted. *)
Definition versions_grow (d d' : db) (id : string) : Prop :=
  forall t, tasks d !! id = Some t ->
  exists t', tasks d' !! id = Some t' /\ Task.version t <= Task.version t'.

(** * A small history used by the examples *)

Definition demo_task (id : string) : Task.t :=
  (Task.defaults id "demo") <| Task.max_retries := 1 |>.

Definition demo_ops : list op :=
  [OCreate (demo_task "t1") 10; OCreate (demo_task "t2") 20; OClaim "t1" "L1" "w1" 5 30].

Definition demo_db : db := foldl exec empty_db demo_ops.

Definition demo_finish : FinishRunCommand :=
  mkFinishRunCommand "t1" 1 "L1" TaskRunOutcome.FAILED None [] None (Some "boom").

Definition demo_db_ended : db := exec demo_db (OFinish demo_finish 40).

(** * Helper lemmas *)

Lemma not_claimable_running now t : Task.status t = TaskStatus.RUNNING -> claimable now t = false.
Proof. intros H. unfold claimable. by rewrite H. Qed.

Lemma claim_refused d id lock token lease now t :
  tasks d !! id = Some t -> claimable now t = false ->
  claim_task_sync d id lock token lease now = (d, None).
Proof.
  intros Ht Hc. destruct (claim_cases d id lock token lease now) as [[? _]|(t' & Ht' & Hc' & _)];
    [done|congruence].
Qed.

Lemma runs_descend_same d d' :
  run_seq d' = run_seq d -> task_runs d' = task_runs d -> runs_descend d d'.
Proof. intros Hs Hr. split; [lia|]. rewrite Hr. intros rid r' _ ?. by exists r'. Qed.

Lemma runs_descend_trans d1 d2 d3 :
  runs_descend d1 d2 -> runs_descend d2 d3 -> runs_descend d1 d3.
Proof.
  intros [Hs1 H1] [Hs2 H2]. split; [lia|]. intros rid r3 Hle Hr3.
  destruct (H2 rid r3 ltac:(lia) Hr3) as (r2 & Hr2 & Ht2 & He2).
  destruct (H1 rid r2 Hle Hr2) as (r1 & Hr1 & Ht1 & He1).
  exists r1. split; [done|]. split; [congruence|]. intros He.
  specialize (He1 He). subst r2. auto.
Qed.

(** A new row, or a new version of a live one. *)
Lemma runs_descend_write d d' r' :
  run_seq d <= run_seq d' -> task_runs d' = <[TaskRun.id r' := r']> (task_runs d) ->
  (TaskRun.id r' <= run_seq d ->
   exists r, task_runs d !! TaskRun.id r' = Some r /\ TaskRun.task_id r' = TaskRun.task_id r
             /\ TaskRun.status r = TaskRunStatus.RUNNING) ->
  runs_descend d d'.
Proof.
  intros Hs Hr Hlive. split; [done|]. rewrite Hr. intros rid r Hle Hrow.
  apply lookup_insert_Some in Hrow as [[<- <-]|[_ Hrow]]; [|by exists r].
  destruct (Hlive Hle) as (r0 & ? & ? & ?). by exists r0.
Qed.

Lemma finalize_descends d id rid lock oc summary meta error rec target now :
  db_ok d ->
  runs_descend d (finalize_run d id rid lock oc summary meta error rec target now).1.
Proof.
  intros Hok. destruct (finalize_cases d id rid lock oc summary meta error rec target now)
    as [->|[(run & _ & _ & _ & payload & ->)|(run & task & t' & r' & payload & -> & Hrun & Ht & Hh
      & Hrs & _ & _ & _ & _ & _ & Hrid & Hrt & _)]]; [by apply runs_descend_same..|].
  destruct (ok_run_id _ Hok _ _ Hrun) as [Hid _].
  eapply runs_descend_write with r'; [done..|]. intros _. exists run.
  rewrite Hrid, Hid. done.
Qed.

Lemma exec_runs_descend d o : db_ok d -> runs_descend d (exec d o).
Proof.
  intros Hok. destruct o; simpl; try by apply runs_descend_same.
  - apply runs_descend_same; unfold create_task_sync; by case_match.
  - destruct (update_cases d task_id fields version now) as [->|(t & _ & _ & ->)];
      by apply runs_descend_same.
  - destruct (claim_cases d task_id lock token lease now) as [[-> _]|(t & Ht & _ & Heq)];
      [by apply runs_descend_same|]. rewrite (Heq (ok_task_id _ Hok _ _ Ht)).
    eapply runs_descend_write; [simpl; lia|reflexivity|simpl; lia].
  - unfold record_heartbeat_sync. destruct (tasks d !! task_id) as [t|] eqn:Ht;
      [|by apply runs_descend_same].
    destruct (holds_claim t lock run_id) eqn:Hh; [|by apply runs_descend_same].
    destruct (holder_paired _ _ _ _ _ Hok Ht Hh) as (r' & Hr' & Hrt & Hrid & (_ & _ & Hrs & _) & _).
    rewrite Hr'. rewrite bool_decide_eq_true_2 by done.
    eapply runs_descend_write; [done|reflexivity|]. intros _. exists r'. simpl. by rewrite Hrid.
  - by apply finalize_descends.
  - by apply finalize_descends.
  - destruct (resolve_cases d c now) as [[-> _]|(? & ? & ? & -> & _)]; by apply runs_descend_same.
  - unfold append_event_sync. case_match; by apply runs_descend_same.
  - unfold add_comment_sync. cases; by apply runs_descend_same.
  - unfold add_attachment_sync. cases; by apply runs_descend_same.
  - unfold subscribe_notify_sync. cases; by apply runs_descend_same.
  - unfold delete_task_sync. destruct (tasks d !! task_id); [|by apply runs_descend_same].
    split; [done|]. simpl. intros rid r' _ [Hr _]%map_lookup_filter_Some. by exists r'.
Qed.

Lemma history_runs_descend d ops d' : db_ok d -> history d ops d' -> runs_descend d d'.
Proof.
  intros Hok H. induction H as [d|d o ops d' Ho _ IH]; [by apply runs_descend_same|].
  eapply runs_descend_trans; [by apply exec_runs_descend|]. apply IH. auto with agent.
Qed.

Lemma versions_same d d' id : tasks d' = tasks d -> versions_grow d d' id.
Proof. intros H t Ht. exists t. rewrite H. split; [done|lia]. Qed.

Lemma versions_put d d' id t t' :
  tasks d !! Task.id t' = Some t -> tasks d' = <[Task.id t' := t']> (tasks d) ->
  Task.version t' = Task.version t + 1 -> versions_grow d d' id.
Proof.
  intros Ht Hd Hv u Hu. rewrite Hd. destruct (decide (id = Task.id t')) as [->|Hne].
  - rewrite lookup_insert_eq. exists t'. assert (u = t) as -> by congruence. split; [done|lia].
  - rewrite lookup_insert_ne by done. exists u. split; [done|lia].
Qed.

Lemma apply_fields_version t fields now :
  Task.version (apply_fields t fields now) = Task.version t + 1
  /\ Task.id (apply_fields t fields now) = Task.id t.
Proof.
  split; [done|]. simpl. revert t. induction fields as [|f fs IH]; simpl; [done|].
  intros t. rewrite IH. apply assign_version_id.
Qed.

Lemma finalize_versions d id0 rid lock oc summary meta error rec target now id :
  db_ok d ->
  versions_grow d (finalize_run d id0 rid lock oc summary meta error rec target now).1 id.
Proof.
  intros Hok. destruct (finalize_cases d id0 rid lock oc summary meta error rec target now)
    as [->|[(run & _ & _ & _ & payload & ->)|(run & task & t' & r' & payload & -> & Hrun & Ht & Hh
      & _ & _ & _ & Hv & Htid & _)]]; [by apply versions_same..|].
  pose proof (ok_task_id _ Hok _ _ Ht). apply versions_put with task t'; try done. congruence.
Qed.

Lemma exec_versions d o id : db_ok d -> deletes id o = false -> versions_grow d (exec d o) id.
Proof.
  intros Hok Hdel. destruct o; simpl; try by apply versions_same.
  - unfold create_task_sync. case_match eqn:E; [by apply versions_same|].
    apply orb_false_iff in E as [Hfree%bool_decide_eq_false _].
    intros t Ht. exists t. simpl. rewrite lookup_insert_ne; [split; [done|lia]|].
    simpl. intros Heq. apply Hfree. rewrite Heq. eauto.
  - destruct (update_cases d task_id fields version now) as [->|(t & Ht & _ & ->)];
      [by apply versions_same|].
    destruct (apply_fields_version t fields now) as [Hv Hid].
    pose proof (ok_task_id _ Hok _ _ Ht).
    eapply versions_put with t (apply_fields t fields now); try done. congruence.
  - destruct (claim_cases d task_id lock token lease now) as [[-> _]|(t & Ht & _ & Heq)];
      [by apply versions_same|]. pose proof (ok_task_id _ Hok _ _ Ht) as Hid. rewrite (Heq Hid).
    eapply versions_put with t _; [|reflexivity|done]. simpl. congruence.
  - unfold record_heartbeat_sync. destruct (tasks d !! task_id) as [t|] eqn:Ht;
      [|by apply versions_same].
    destruct (holds_claim t lock run_id); [|by apply versions_same]. cbn [negb fst].
    pose proof (ok_task_id _ Hok _ _ Ht) as Hid. rewrite <- Hid in Ht.
    case_match; (eapply versions_put with t _; [|reflexivity|done]); done.
  - by apply finalize_versions.
  - by apply finalize_versions.
  - destruct (resolve_cases d c now) as [[-> _]|(t & ? & ? & -> & Ht & _)];
      [by apply versions_same|].
    pose proof (ok_task_id _ Hok _ _ Ht) as Hid. rewrite <- Hid in Ht.
    eapply versions_put with t _; [|reflexivity|done]. done.
  - unfold append_event_sync. case_match; by apply versions_same.
  - unfold add_comment_sync. cases; by apply versions_same.
  - unfold add_attachment_sync. cases; by apply versions_same.
  - unfold subscribe_notify_sync. cases; by apply versions_same.
  - simpl in Hdel. apply bool_decide_eq_false in Hdel. unfold delete_task_sync.
    destruct (tasks d !! task_id) as [t0|]; [|by apply versions_same].
    intros t Ht. exists t. simpl. rewrite lookup_delete_ne by done. split; [done|lia].
Qed.

Lemma history_versions d ops d' id :
  db_ok d -> history d ops d' -> forallb (fun o => negb (deletes id o)) ops = true ->
  versions_grow d d' id.
Proof.
  intros Hok H. induction H as [d|d o ops d' Ho _ IH]; simpl; [by intros _; apply versions_same|].
  intros [Hdel%negb_true_iff Hops]%andb_true_iff t Ht.
  destruct (exec_versions d o id Hok Hdel t Ht) as (t1 & Ht1 & ?).
  destruct (IH ltac:(auto with agent) Hops t1 Ht1) as (t2 & Ht2 & ?).
  exists t2. split; [done|lia].
Qed.

Lemma demo_reachable : reachable demo_db /\ reachable demo_db_ended.
Proof.
  split; [apply (reachable_run demo_ops)|apply (reachable_run (demo_ops ++ [OFinish demo_finish 40]))];
    vm_compute; repeat split; done.
Qed.

(** * Theorems *)

(** C1. In every state the registry can reach, a task is RUNNING exactly when
    it is half of a live pair: its [current_run_id] names a run of its own that
    is RUNNING under the same lock; every live run is the current run of a
    RUNNING task; and no task has two live runs. *)
Theorem live_claims_paired d :
  reachable d ->
  (forall id t, tasks d !! id = Some t ->
     (Task.status t = TaskStatus.RUNNING <->
      exists r, task_runs d !! TaskRun.id r = Some r /\ TaskRun.task_id r = id /\ paired t r)) /\
  (forall rid r, task_runs d !! rid = Some r -> TaskRun.status r = TaskRunStatus.RUNNING ->
     exists t, tasks d !! TaskRun.task_id r = Some t /\ paired t r) /\
  (forall rid r rid' r', task_runs d !! rid = Some r -> task_runs d !! rid' = Some r' ->
     TaskRun.task_id r = TaskRun.task_id r' -> TaskRun.status r = TaskRunStatus.RUNNING ->
     TaskRun.status r' = TaskRunStatus.RUNNING -> rid = rid').
Proof.
  intros Hok%reachable_ok. split_and!; [| |by eauto using live_runs_equal].
  - intros id t Ht. split; [intros Hs|by intros (r & _ & _ & ? & _)].
    pose proof (ok_linked _ Hok _ _ Ht) as Hl. unfold linked in Hl.
    rewrite bool_decide_eq_true_2 in Hl by done. destruct Hl as (lock & rid & r & Hl & Hc & _).
    destruct (holder_paired _ id t lock rid Hok Ht) as (r' & Hr & Hrt & Hrid & Hp & _);
      [by apply holds_claim_spec|]. exists r'. by rewrite Hrid.
  - intros rid r Hr Hs. destruct (ok_attached _ Hok _ _ Hr) as (t & Ht & HR).
    destruct (HR Hs) as [Hts Hc]. exists t. split; [done|].
    pose proof (ok_linked _ Hok _ _ Ht) as Hl. unfold linked in Hl.
    rewrite bool_decide_eq_true_2 in Hl by done. destruct Hl as (lock & ? & _ & Hl & _).
    destruct (holder_paired _ _ t lock rid Hok Ht) as (r' & Hr' & _ & _ & Hp & _);
      [by apply holds_claim_spec|]. congruence.
Qed.

Lemma live_claims_paired_witness :
  exists t, tasks demo_db !! "t1" = Some t /\ Task.status t = TaskStatus.RUNNING
  /\ exists r, task_runs demo_db !! TaskRun.id r = Some r /\ TaskRun.task_id r = "t1" /\ paired t r.
Proof.
  destruct (tasks demo_db !! "t1") as [t|] eqn:Ht; [|vm_compute in Ht; discriminate].
  exists t. assert (Task.status t = TaskStatus.RUNNING) as Hs.
  { vm_compute in Ht. injection Ht as <-. reflexivity. }
  split; [done|]. split; [done|].
  by apply (proj1 (live_claims_paired demo_db (proj1 demo_reachable)) "t1" t Ht).
Defined.

(** A successful claim excludes every other worker for as long as its run
    is live: whatever the registry did in between (heartbeats, claims of other
    tasks, edits, finishes), any claim of the task is refused and writes
    nothing, whatever its lock, lease and clock. *)
Theorem claim_excludes_others d id lock token lease now d1 c ops d2 r :
  reachable d -> claim_task_sync d id lock token lease now = (d1, Some c) ->
  history d1 ops d2 ->
  task_runs d2 !! TaskRun.id (claimed_run c) = Some r ->
  TaskRun.status r = TaskRunStatus.RUNNING ->
  forall lock' token' lease' now', claim_task_sync d2 id lock' token' lease' now' = (d2, None).
Proof.
  intros Hreach Hc Hh Hr Hs *. pose proof (reachable_ok _ Hreach) as Hok.
  assert (db_ok d1) as Hok1.
  { pose proof (claim_ok d id lock token lease now Hok) as H. by rewrite Hc in H. }
  destruct (claim_cases d id lock token lease now) as [[Hn _]|(t & Ht & _ & Heq)];
    [rewrite Hn in Hc; discriminate|].
  pose proof (ok_task_id _ Hok _ _ Ht) as Hid. rewrite (Heq Hid) in Hc.
  injection Hc as Hd1 <-. simpl in Hr.
  destruct (history_runs_descend _ _ _ Hok1 Hh) as [_ Hdesc].
  destruct (Hdesc (run_seq d + 1) r) as (r1 & Hr1 & Hrt & _);
    [subst d1; simpl; lia|done|].
  rewrite <- Hd1 in Hr1. simpl in Hr1. rewrite lookup_insert_eq in Hr1. injection Hr1 as <-.
  simpl in Hrt. pose proof (history_ok _ _ _ Hh Hok1) as Hok2.
  destruct (ok_attached _ Hok2 _ _ Hr) as (t2 & Ht2 & HR). destruct (HR Hs) as [Hs2 _].
  rewrite Hrt, Hid in Ht2. eapply claim_refused; [exact Ht2|]. by apply not_claimable_running.
Qed.

Lemma claim_excludes_others_witness :
  let d := foldl exec empty_db (take 2 demo_ops) in
  let hb := exec demo_db (OHeartbeat "t1" 1 "L1" 31) in
  claim_task_sync hb "t1" "L2" "w2" 5 100000000 = (hb, None) /\ hb <> d.
Proof.
  intros d hb. split; [|by intros H%(f_equal run_seq); vm_compute in H].
  assert (reachable d) as Hd.
  { apply reachable_run. vm_compute. repeat split; done. }
  destruct (claim_task_sync d "t1" "L1" "w1" 5 30) as [d1 [c|]] eqn:Hc;
    [|vm_compute in Hc; discriminate].
  assert (d1 = demo_db) as -> by (change demo_db with (claim_task_sync d "t1" "L1" "w1" 5 30).1; by rewrite Hc).
  destruct (task_runs hb !! TaskRun.id (claimed_run c)) as [r|] eqn:Hr.
  - eapply (claim_excludes_others d "t1" "L1" "w1" 5 30 demo_db c [OHeartbeat "t1" 1 "L1" 31] hb r);
      try done; [repeat constructor|].
    change (claim_task_sync d "t1" "L1" "w1" 5 30 = (demo_db, Some c)) in Hc.
    vm_compute in Hc. injection Hc as <-. vm_compute in Hr. injection Hr as <-. reflexivity.
  - exfalso. vm_compute in Hc. injection Hc as <-. vm_compute in Hr. discriminate.
Defined.

(** A run is finished at most once.  Once it has ended, no later operation
    changes its row (deleting its task drops it), and a late or duplicate finish
    or recovery naming it, whatever its lock and outcome, raises and changes
    neither the tasks nor the runs. *)
Theorem ended_run_final d rid r ops d' :
  reachable d -> task_runs d !! rid = Some r -> TaskRun.status r <> TaskRunStatus.RUNNING ->
  history d ops d' ->
  (task_runs d' !! rid = Some r \/ task_runs d' !! rid = None) /\
  forall id lock oc summary meta error rec target now,
    let '(d2, res) := finalize_run d' id rid lock oc summary meta error rec target now in
    tasks d2 = tasks d' /\ task_runs d2 = task_runs d'
    /\ (res = Raise TaskConflictError \/ res = Raise TaskNotFoundError).
Proof.
  intros Hok%reachable_ok Hr Hend Hh.
  destruct (history_runs_descend _ _ _ Hok Hh) as [_ Hdesc].
  destruct (ok_run_id _ Hok _ _ Hr) as [_ [_ Hle]].
  assert (forall r', task_runs d' !! rid = Some r' -> r' = r) as Hsame.
  { intros r' Hr'. destruct (Hdesc rid r' Hle Hr') as (r0 & Hr0 & _ & He).
    assert (r0 = r) as -> by congruence. auto. }
  split; [destruct (task_runs d' !! rid) as [r'|]; [left; f_equal|]; auto|].
  intros *. unfold finalize_run. destruct (task_runs d' !! rid) as [r'|]; [|auto].
  rewrite (Hsame r') by done. case_bool_decide; cbn [negb]; [|auto].
  rewrite bool_decide_eq_false_2 by done. cbn [negb]. case_bool_decide; auto.
Qed.

Lemma ended_run_final_witness :
  exists r, task_runs demo_db_ended !! 1 = Some r
  /\ (finish_run_sync (exec demo_db_ended (OClaim "t2" "L2" "w2" 5 50)) demo_finish 60).2
     = Raise TaskConflictError
  /\ task_runs (exec demo_db_ended (OClaim "t2" "L2" "w2" 5 50)) !! 1 = Some r.
Proof.
  destruct (task_runs demo_db_ended !! 1) as [r|] eqn:Hr; [|vm_compute in Hr; discriminate].
  exists r. split; [done|].
  assert (TaskRun.status r <> TaskRunStatus.RUNNING) as Hend.
  { vm_compute in Hr. injection Hr as <-. discriminate. }
  pose proof (ended_run_final demo_db_ended 1 r [OClaim "t2" "L2" "w2" 5 50] _
    (proj2 demo_reachable) Hr Hend (history_run demo_db_ended [OClaim "t2" "L2" "w2" 5 50] (conj I I)))
    as [[H|H] _].
  - split; [vm_compute; reflexivity|exact H].
  - exfalso. clear -H. vm_compute in H. discriminate.
Defined.

(** Only the holder of a live claim can beat its heart, and a beat renews
    its lease: it succeeds exactly when the task is RUNNING under that run and
    lock; the lease of the task and of its run become [now] plus the run's own
    lease (15 minutes when it has none), the version grows by one, and every
    other task and run is left as it was.  A refused beat changes nothing. *)
Theorem heartbeat_renews_lease d id rid lock now :
  reachable d ->
  match record_heartbeat_sync d id rid lock now with
  | (d', Raise e) =>
      d' = d /\ e = TaskClaimError
      /\ ~ (exists t, tasks d !! id = Some t /\ holds_claim t lock rid = true)
  | (d', Return t') =>
      exists t r, tasks d !! id = Some t /\ task_runs d !! rid = Some r
      /\ TaskRun.task_id r = id /\ paired t r /\ TaskRun.claim_lock r = Some lock
      /\ let expires := now + seconds (default 900 (TaskRun.lease_seconds r)) in
         t' = t <| Task.last_heartbeat_at := Some now |> <| Task.claim_expires := Some expires |>
                <| Task.version := Task.version t + 1 |> <| Task.updated_at := Some now |>
      /\ tasks d' = <[id := t']> (tasks d)
      /\ task_runs d' = <[rid := r <| TaskRun.last_heartbeat_at := Some now |>
                                   <| TaskRun.claim_expires := Some expires |>]> (task_runs d)
      /\ task_events d' = task_events d
  end.
Proof.
  intros Hok%reachable_ok. unfold record_heartbeat_sync.
  destruct (tasks d !! id) as [t|] eqn:Ht.
  2: { repeat split; try done. by intros (? & ? & _). }
  destruct (holds_claim t lock rid) eqn:Hh; cbn [negb].
  2: { repeat split; try done. intros (? & ? & ?). congruence. }
  destruct (holder_paired _ _ _ _ _ Hok Ht Hh) as (r & Hr & Hrt & Hrid & Hp & Hl).
  rewrite Hr. rewrite bool_decide_eq_true_2 by done.
  exists t, r. do 5 (split; [done|]). cbn zeta. split; [reflexivity|].
  pose proof (ok_task_id _ Hok _ _ Ht) as Hid. simpl. by rewrite Hid, Hrid.
Qed.

Lemma heartbeat_renews_lease_witness :
  (exists d' t', record_heartbeat_sync demo_db "t1" 1 "L1" 77 = (d', Return t')
     /\ Task.claim_expires t' = Some 5000077) /\
  (record_heartbeat_sync demo_db "t1" 1 "L2" 77).1 = demo_db.
Proof.
  pose proof (heartbeat_renews_lease demo_db "t1" 1 "L1" 77 (proj1 demo_reachable)) as H.
  pose proof (heartbeat_renews_lease demo_db "t1" 1 "L2" 77 (proj1 demo_reachable)) as H'.
  split.
  - destruct (record_heartbeat_sync demo_db "t1" 1 "L1" 77) as [d' [t'|e]] eqn:E.
    + exists d', t'. split; [done|].
      destruct H as (t & r & _ & Hr & _ & _ & _ & -> & _).
      vm_compute in Hr. injection Hr as <-. reflexivity.
    + exfalso. apply (f_equal (fun p => returns p.2)) in E. vm_compute in E. discriminate.
  - destruct (record_heartbeat_sync demo_db "t1" 1 "L2" 77) as [d' [t'|e]] eqn:E.
    + exfalso. apply (f_equal (fun p => returns p.2)) in E. vm_compute in E. discriminate.
    + apply H'.
Defined.

(** No lost update: after an update accepted at version [v] (or any other
    write of the task that checked [v]), every later update that still expects
    [v] is refused with a conflict and changes nothing, whatever happened in
    between short of deleting the task. *)
Theorem no_lost_update d id fields v now d1 t1 ops d2 :
  reachable d -> op_ok d (OUpdate id fields v now) ->
  update_task_sync d id fields v now = (d1, Return t1) ->
  history d1 ops d2 -> forallb (fun o => negb (deletes id o)) ops = true ->
  forall fields' now', update_task_sync d2 id fields' v now' = (d2, Raise TaskConflictError).
Proof.
  intros Hreach Hop Hup Hh Hdel *. pose proof (reachable_ok _ Hreach) as Hok.
  destruct (update_cases d id fields v now) as [Hsame|(t & Ht & Hv & Heq)].
  - exfalso. rewrite Hup in Hsame. simpl in Hsame. subst d1. revert Hup.
    unfold update_task_sync. destruct (tasks d !! id) as [t|] eqn:Ht; [|done].
    destruct (_ =? _); cbn [negb]; [|done]. unfold update_row. case_match; [done|].
    case_match; [done|]. intros [= Hd _]. apply (f_equal tasks) in Hd. simpl in Hd.
    apply (f_equal (lookup id)) in Hd. destruct (apply_fields_version t fields now) as [Hver Hid].
    pose proof (ok_task_id _ Hok _ _ Ht).
    replace (Task.id _) with id in Hd by (symmetry; etransitivity; [exact Hid|done]).
    rewrite lookup_insert_eq, Ht in Hd. injection Hd as Hd. apply (f_equal Task.version) in Hd.
    change (Task.version t + 1 = Task.version t) in Hd. lia.
  - rewrite Heq in Hup. injection Hup as Hd1 Ht1.
    destruct (apply_fields_version t fields now) as [Hver Hid].
    pose proof (ok_task_id _ Hok _ _ Ht) as Htid. rewrite Htid in Hid.
    assert (db_ok d1) as Hok1 by (pose proof (update_ok d id fields v now Hok Hop) as H; rewrite Heq in H; by rewrite <- Hd1).
    assert (tasks d1 !! id = Some (apply_fields t fields now)) as Hrow.
    { rewrite <- Hd1. unfold put_task. cbn -[apply_fields]. rewrite Hid. apply lookup_insert_eq. }
    destruct (history_versions _ _ _ id Hok1 Hh Hdel _ Hrow) as (t2 & Ht2 & Hle).
    unfold update_task_sync. rewrite Ht2.
    destruct (Task.version t2 =? v) eqn:E; [|done]. apply Z.eqb_eq in E. lia.
Qed.

Lemma no_lost_update_witness :
  update_task_sync (exec demo_db (OUpdate "t2" [FTitle "a"] 1 50)) "t2" [FTitle "b"] 1 60
  = (exec demo_db (OUpdate "t2" [FTitle "a"] 1 50), Raise TaskConflictError).
Proof.
  destruct (update_task_sync demo_db "t2" [FTitle "a"] 1 50) as [d1 [t1|e]] eqn:E;
    [|vm_compute in E; discriminate].
  change (exec demo_db (OUpdate "t2" [FTitle "a"] 1 50))
    with (update_task_sync demo_db "t2" [FTitle "a"] 1 50).1. rewrite E. cbn [fst].
  apply (no_lost_update demo_db "t2" [FTitle "a"] 1 50 d1 t1 [] d1).
  - apply demo_reachable.
  - vm_compute. reflexivity.
  - exact E.
  - constructor.
  - reflexivity.
Defined.

(** A finish or recovery takes effect exactly when its caller holds the
    live claim.  It then frees the claim, moves the task to the given target or
    to the default of its outcome (where a failure counts as one more), resets
    the failure count on completion, ends the run with that outcome, and logs
    one terminal event; refused, it leaves tasks and runs alone. *)
Theorem finish_effect d id rid lock oc summary meta error rec target now :
  reachable d ->
  match finalize_run d id rid lock oc summary meta error rec target now with
  | (d', Return res) =>
      exists t r, tasks d !! id = Some t /\ task_runs d !! rid = Some r /\ paired t r
      /\ Task.claim_lock t = Some lock
      /\ (let t' := finished_task res in let r' := finished_run res in
          let failures := Task.consecutive_failures t + (if increments_failures oc then 1 else 0) in
          Task.status t' = match target with
                           | Some s => s
                           | None => outcome_to_task_status oc failures (Task.max_retries t)
                           end
          /\ unclaimed t' /\ Task.version t' = Task.version t + 1
          /\ Task.consecutive_failures t'
             = (if bool_decide (oc = TaskRunOutcome.COMPLETED) then 0 else failures)
          /\ TaskRun.status r' = outcome_to_run_status oc /\ TaskRun.outcome r' = Some oc
          /\ TaskRun.ended_at r' = Some now
          /\ tasks d' = <[id := t']> (tasks d) /\ task_runs d' = <[rid := r']> (task_runs d)
          /\ task_events d' = task_events d ++ [terminal_event res]
          /\ TaskEvent.kind (terminal_event res) = (if rec then "recovered" else "finished"))
  | (d', Raise e) =>
      tasks d' = tasks d /\ task_runs d' = task_runs d
      /\ ~ (exists t, tasks d !! id = Some t /\ holds_claim t lock rid = true)
  end.
Proof.
  intros Hok%reachable_ok.
  destruct (tasks d !! id) as [t|] eqn:Ht.
  2: { unfold finalize_run. rewrite Ht. cases; repeat split; try done; by intros (? & ? & _). }
  destruct (holds_claim t lock rid) eqn:Hh.
  - destruct (finalize_holder d id t rid lock oc summary meta error rec target now Hok Ht Hh)
      as (r & Hr & Hp & Hl & d' & res & -> & Hres). exists t, r. auto.
  - assert (~ exists t0, Some t = Some t0 /\ holds_claim t0 lock rid = true)
      by (intros (? & [= <-] & ?); congruence).
    unfold finalize_run. rewrite Ht, Hh. cases.
Qed.

Lemma finish_effect_witness :
  exists res, (finish_run_sync demo_db demo_finish 40).2 = Return res
  /\ Task.status (finished_task res) = TaskStatus.QUEUED
  /\ Task.consecutive_failures (finished_task res) = 1
  /\ TaskRun.status (finished_run res) = TaskRunStatus.FAILED.
Proof.
  pose proof (finish_effect demo_db "t1" 1 "L1" TaskRunOutcome.FAILED None [] (Some "boom") false
                None 40 (proj1 demo_reachable)) as H.
  unfold finish_run_sync, demo_finish. cbn.
  destruct (finalize_run _ _ _ _ _ _ _ _ _ _ _) as [d' [res|e]] eqn:E.
  - exists res. destruct H as (t & r & Ht & Hr & _ & _ & Hs & _ & _ & Hc & Hrs & _).
    vm_compute in Ht. injection Ht as <-. repeat split; [exact Hs|exact Hc|exact Hrs].
  - exfalso. apply (f_equal (fun p => returns p.2)) in E. vm_compute in E. discriminate.
Defined.

(** A bulk update is all or nothing: it returns exactly when every item's
    update succeeds in turn, and then its tables are those of the updates made
    one after the other; when any item is missing, stale, names an unknown
    column or clashes, the tables are left as they were. *)
Theorem bulk_update_all_or_nothing d its now :
  let step acc it :=
    let '(d', good) := acc in
    let '(d2, r) := update_task_sync d' (bulk_task_id it) (bulk_fields it)
                      (bulk_expected_version it) now in
    (d2, good && returns r) in
  let '(dn, all_good) := foldl step (d, true) its in
  let '(d', r) := bulk_update_sync d its now in
  returns r = all_good /\ d' = (if all_good then dn else d).
Proof.
  intros step. unfold bulk_update_sync.
  assert (forall its d, (foldl step (d, false) its).2 = false) as Hbad.
  { clear. induction its as [|it its IH]; intros d; [done|]. simpl.
    destruct (update_task_sync _ _ _ _ _) as [d2 r]. simpl. apply IH. }
  assert (forall its d, match bulk_update_loop d its now with
     | (d', Return _) => foldl step (d, true) its = (d', true)
     | (_, Raise _) => (foldl step (d, true) its).2 = false end) as Hloop.
  { clear -Hbad. induction its as [|it its IH]; intros d; [done|]. simpl.
    destruct (update_task_sync _ _ _ _ _) as [d2 [t|e]]; simpl; [apply IH|apply Hbad]. }
  specialize (Hloop its d). destruct (foldl step (d, true) its) as [dn good].
  destruct (bulk_update_loop d its now) as [d' [u|e]]; simpl in *; by simplify_eq.
Qed.
