(* ===== verification/TaskProposals.v ===== *)
(** Deciding proposals: [resolve_proposal_sync] picks the newest proposal still
    waiting, and over every history each proposal is decided at most once. *)
From S2P Require Import Prelude TaskDomain TaskStore TaskStoreInv.

(** * Definitions *)

Definition is_marker (e : TaskEvent.t) : Prop := TaskEvent.kind e ∈ RESOLUTION_MARKER_KINDS.

(** [e] records the decision of the proposal [pid]. *)
Definition decides (e : TaskEvent.t) (pid : Z) : Prop :=
  is_marker e /\ obj_get "proposal_event_id" (TaskEvent.payload e) = Some (JInt pid).

(** A proposal of the task, and one nobody has decided yet. *)
Definition proposal_of (d : db) (task_id : string) (p : TaskEvent.t) : Prop :=
  p ∈ task_events d /\ TaskEvent.task_id p = task_id /\ TaskEvent.kind p = PROPOSAL_KIND.

Definition undecided (d : db) (p : TaskEvent.t) : Prop :=
  forall m, m ∈ task_events d -> TaskEvent.task_id m = TaskEvent.task_id p ->
  ~ decides m (TaskEvent.id p).

Record markers_ok (d : db) : Prop := {
  marker_decides : forall m, m ∈ task_events d -> is_marker m ->
    exists p, decides m (TaskEvent.id p) /\ proposal_of d (TaskEvent.task_id m) p
      /\ TaskEvent.id p < TaskEvent.id m;
  marker_unique : forall m1 m2 pid, m1 ∈ task_events d -> m2 ∈ task_events d ->
    decides m1 pid -> decides m2 pid -> m1 = m2
}.

(** How one operation can change the log; [gone] holds of the tasks it deletes. *)
Inductive log_step (gone : string -> Prop) (d d' : db) : Prop :=
  | log_same : task_events d' = task_events d -> log_step gone d d'
  | log_plain e : task_events d' = task_events d ++ [e] -> ~ is_marker e -> log_step gone d d'
  | log_decision e p : task_events d' = task_events d ++ [e] ->
      decides e (TaskEvent.id p) -> proposal_of d (TaskEvent.task_id e) p -> undecided d p ->
      TaskEvent.id p < TaskEvent.id e -> log_step gone d d'
  | log_delete id : gone id -> task_events d'
      = List.filter (fun e => negb (bool_decide (TaskEvent.task_id e = id))) (task_events d) ->
      log_step gone d d'.

Definition proposal_ops : list op :=
  [OCreate (Task.defaults "t" "x") 1; OClaim "t" "L" "w" 900 2;
   OAppendEvent "t" "change_proposed" [] (Some 1) 3;
   OFinish (mkFinishRunCommand "t" 1 "L" TaskRunOutcome.WAITING_APPROVAL None []
              (Some TaskStatus.WAITING_APPROVAL) None) 4].

Definition proposal_db : db := foldl exec empty_db proposal_ops.

Definition approve_demo : ProposalResolutionCommand :=
  mkProposalResolutionCommand "t" 3 "approved" "change_approved" None.

(** * Helper lemmas *)

Lemma event_ids_inj d e e' :
  db_ok d -> e ∈ task_events d -> e' ∈ task_events d -> TaskEvent.id e = TaskEvent.id e' -> e = e'.
Proof.
  intros Hok. pose proof (ok_events_sorted _ Hok) as Hs. clear Hok.
  induction (task_events d) as [|x l IH]; [by intros ?%not_elem_of_nil|].
  simpl in Hs. inversion Hs as [|? ? Hl Hx]; subst. rewrite Forall_forall in Hx.
  assert (forall y, y ∈ l -> TaskEvent.id x < TaskEvent.id y) as Hlt.
  { intros y Hy. apply Hx. by apply list_elem_of_fmap_2. }
  rewrite !elem_of_cons. intros [->|He] [->|He'] Heq; auto.
  - apply Hlt in He'. lia.
  - apply Hlt in He. lia.
Qed.

Lemma resolved_ids_spec evs :
  (forall m, m ∈ evs -> is_marker m -> exists pid, decides m pid) ->
  exists ns, resolved_ids evs = Return ns
  /\ forall n, n ∈ ns <-> exists m, m ∈ evs /\ decides m n.
Proof.
  induction evs as [|e evs IH]; intros Hm.
  { exists []. split; [done|]. intros n. rewrite elem_of_nil. split; [done|].
    by intros (? & ?%elem_of_nil & _). }
  destruct IH as (ns & Hns & Hspec);
    [by intros m Hin; apply Hm; rewrite elem_of_cons; right|].
  simpl. case_bool_decide as Hk.
  - destruct (Hm e ltac:(set_solver) Hk) as [pid [_ Hpid]]. rewrite Hpid, Hns. simpl.
    exists (pid :: ns). split; [done|]. intros n. rewrite elem_of_cons, Hspec. split.
    + intros [->|(m & ? & ?)]; [exists e|exists m]; rewrite elem_of_cons; [|by auto].
      split; [by left|by split].
    + intros (m & [->|Hin]%elem_of_cons & Hd); [|eauto].
      left. destruct Hd as [_ Hd]. rewrite Hpid in Hd. congruence.
  - exists ns. split; [done|]. intros n. rewrite Hspec. split.
    + intros (m & ? & ?). exists m. rewrite elem_of_cons. auto.
    + intros (m & [->|Hin]%elem_of_cons & Hd); [by destruct Hd|eauto].
Qed.

Lemma events_of_elem d id e : e ∈ events_of d id <-> e ∈ task_events d /\ TaskEvent.task_id e = id.
Proof. unfold events_of. by rewrite List_filter_elem, bool_decide_eq_true. Qed.

Lemma resolved_ids_ok d id :
  markers_ok d ->
  exists ns, resolved_ids (events_of d id) = Return ns
  /\ forall n, n ∈ ns <-> exists m, m ∈ task_events d /\ TaskEvent.task_id m = id /\ decides m n.
Proof.
  intros [Hm _]. destruct (resolved_ids_spec (events_of d id)) as (ns & -> & Hspec).
  - intros m [Hin _]%events_of_elem Hk. destruct (Hm m Hin Hk) as (p & ? & _). eauto.
  - exists ns. split; [done|]. intros n. rewrite Hspec.
    by setoid_rewrite events_of_elem; split; intros (m & H); exists m; tauto.
Qed.

(** [find] from the end of a list gives the last match. *)
Lemma find_rev_last {A} (f : A -> bool) l x :
  List.find f (rev l) = Some x ->
  exists l1 l2, l = l1 ++ x :: l2 /\ f x = true /\ Forall (fun y => f y = false) l2.
Proof.
  induction l as [|y l IH] using rev_ind; simpl; [done|].
  rewrite rev_unit. simpl. destruct (f y) eqn:Hy.
  - intros [= ->]. exists l, []. auto.
  - intros (l1 & l2 & -> & Hx & Hl2)%IH. exists l1, (l2 ++ [y]).
    rewrite <- app_assoc. split; [done|]. split; [done|]. apply Forall_app; auto.
Qed.

(** The proposal a resolution picks: of the task, undecided, and the newest
    such. *)
Lemma latest_pending_spec d id ns p :
  db_ok d -> markers_ok d -> resolved_ids (events_of d id) = Return ns ->
  latest_pending (events_of d id) ns = Some p ->
  proposal_of d id p /\ undecided d p
  /\ forall q, proposal_of d id q -> undecided d q -> TaskEvent.id q <= TaskEvent.id p.
Proof.
  intros Hok Hm Hns (l1 & l2 & Heq & Hp & Hl2)%find_rev_last.
  destruct (resolved_ids_ok d id Hm) as (ns' & Hns' & Hspec).
  assert (ns' = ns) as -> by congruence. clear Hns'.
  assert (forall q, is_pending ns q = true /\ q ∈ events_of d id <-> proposal_of d id q /\ undecided d q)
    as Hpend.
  { intros q. unfold is_pending, proposal_of, undecided.
    rewrite andb_true_iff, negb_true_iff, bool_decide_eq_true, bool_decide_eq_false, Hspec,
      events_of_elem. split.
    - intros [[? Hn] [? Hid]]. repeat split; try done. intros m ? ? ?. apply Hn. exists m.
      by rewrite <- Hid.
    - intros [(? & Hid & ?) Hn]. repeat split; try done. intros (m & ? & ? & ?).
      by apply (Hn m); [|congruence|]. }
  destruct (proj1 (Hpend p)) as [Hprop Hund].
  { split; [done|]. rewrite Heq. set_solver. }
  split; [done|]. split; [done|]. intros q Hq Hqu.
  destruct (proj2 (Hpend q)) as [Hqp Hqin]; [done|].
  pose proof (ok_events_sorted _ Hok) as Hs.
  assert (StronglySorted Z.lt (map TaskEvent.id (events_of d id))) as Hs'
    by by apply StronglySorted_map_filter.
  rewrite Heq in Hqin, Hs'. rewrite elem_of_app, elem_of_cons in Hqin.
  rewrite map_app in Hs'. destruct Hqin as [Hq1|[->|Hq2]]; [|lia|].
  - apply Z.lt_le_incl. eapply (StronglySorted_app_1_elem_of _ _ _ _ _ Hs');
      [by apply list_elem_of_fmap_2|simpl; constructor].
  - rewrite Forall_forall in Hl2. rewrite (Hl2 q Hq2) in Hqp. done.
Qed.

Lemma log_insert gone d d' id rid kind payload now :
  task_events d' = task_events (insert_event d id rid kind payload now).1 ->
  kind ∉ RESOLUTION_MARKER_KINDS -> log_step gone d d'.
Proof. intros H Hk. eapply log_plain; [exact H|exact Hk]. Qed.

Lemma finalize_log gone d id rid lock oc summary meta error rec target now :
  log_step gone d (finalize_run d id rid lock oc summary meta error rec target now).1.
Proof.
  destruct (finalize_cases d id rid lock oc summary meta error rec target now)
    as [->|[(run & _ & _ & _ & payload & ->)|(run & task & t' & r' & payload & -> & _)]].
  - by apply log_same.
  - eapply log_insert; [reflexivity|set_solver].
  - eapply log_insert; [reflexivity|destruct rec; set_solver].
Qed.

Lemma exec_log d o : db_ok d -> markers_ok d -> op_ok d o ->
  log_step (fun id => deletes id o = true) d (exec d o).
Proof.
  intros Hok Hm Hop. destruct o; simpl; try by apply log_same.
  - apply log_same. unfold create_task_sync. by case_match.
  - apply log_same. by destruct (update_cases d task_id fields version now) as [->|(? & _ & _ & ->)].
  - destruct (claim_cases d task_id lock token lease now) as [[-> _]|(t & Ht & _ & Heq)];
      [by apply log_same|]. rewrite (Heq (ok_task_id _ Hok _ _ Ht)).
    eapply log_insert; [reflexivity|set_solver].
  - apply log_same. unfold record_heartbeat_sync. destruct (tasks d !! task_id) as [t|]; [|done].
    destruct (holds_claim t lock run_id); [|done]. cbn [negb]. by case_match.
  - apply finalize_log.
  - apply finalize_log.
  - destruct (resolve_cases d c now)
      as [[-> _]|(task & ns & p & -> & _ & _ & _ & _ & Hns & Hp & Hk)]; [by apply log_same|].
    destruct (latest_pending_spec d _ _ _ Hok Hm Hns Hp) as (Hprop & Hund & _).
    eapply (log_decision _ _ _ _ p); [reflexivity| |exact Hprop|exact Hund|].
    + split; [exact (decision_kind_marker _ _ Hk)|reflexivity].
    + destruct Hprop as [Hin _]. pose proof (ok_event_seq _ Hok) as Hseq.
      rewrite Forall_forall in Hseq. specialize (Hseq _ Hin). simpl in *. lia.
  - unfold append_event_sync. case_match; [by apply log_same|].
    eapply log_insert; [reflexivity|exact Hop].
  - apply log_same. unfold add_comment_sync. cases.
  - apply log_same. unfold add_attachment_sync. cases.
  - apply log_same. unfold subscribe_notify_sync. cases.
  - unfold delete_task_sync. destruct (tasks d !! task_id); [|by apply log_same].
    apply (log_delete _ _ _ task_id); [by apply bool_decide_eq_true_2|done].
Qed.

(** A marker appended to the log and one already in it never decide the same
    proposal. *)
Lemma undecided_fresh d m p e :
  db_ok d -> markers_ok d -> m ∈ task_events d -> decides m (TaskEvent.id p) ->
  proposal_of d (TaskEvent.task_id e) p -> undecided d p -> False.
Proof.
  intros Hok Hm Hin Hd [Hp [Htid _]] Hund.
  destruct (marker_decides _ Hm m Hin (proj1 Hd)) as (q & Hdq & (Hq & Hqt & _) & _).
  assert (TaskEvent.id q = TaskEvent.id p) as Heq.
  { destruct Hd as [_ Hd], Hdq as [_ Hdq]. congruence. }
  assert (q = p) by (by apply (event_ids_inj d)). subst q.
  by apply (Hund m Hin (eq_sym Hqt)).
Qed.

Lemma log_step_markers gone d d' : db_ok d -> log_step gone d d' -> markers_ok d -> markers_ok d'.
Proof.
  intros Hok Hstep Hm. pose proof Hm as [Hd Hu]. destruct Hstep as [He|e He Hk|e p He Hdec Hprop Hund Hlt|id _ He].
  - split; unfold proposal_of; rewrite He; auto.
  - split; unfold proposal_of; rewrite He.
    + intros m Hin Hkm. rewrite elem_of_app, list_elem_of_singleton in Hin.
      destruct Hin as [Hin| ->]; [|done]. destruct (Hd m Hin Hkm) as (p & ? & (? & ? & ?) & ?).
      exists p. rewrite elem_of_app. auto.
    + intros m1 m2 pid Hin1 Hin2 H1 H2.
      rewrite elem_of_app, list_elem_of_singleton in Hin1, Hin2.
      destruct Hin1 as [?| ->]; [|by destruct H1]. destruct Hin2 as [?| ->]; [|by destruct H2].
      eauto.
  - split; unfold proposal_of; rewrite He.
    + intros m Hin Hkm. rewrite elem_of_app, list_elem_of_singleton in Hin.
      destruct Hin as [Hin| ->].
      * destruct (Hd m Hin Hkm) as (q & ? & (? & ? & ?) & ?). exists q. rewrite elem_of_app. auto.
      * exists p. rewrite elem_of_app. destruct Hprop as (? & ? & ?). auto.
    + intros m1 m2 pid Hin1 Hin2 H1 H2.
      assert (forall m pid, m ∈ task_events d -> decides m pid -> decides e pid -> False) as Hno.
      { intros m pid' Hin Hmd Hed. apply (undecided_fresh d m p e); try done.
        destruct Hdec as [_ Hdec], Hed as [_ Hed]. congruence. }
      rewrite elem_of_app, list_elem_of_singleton in Hin1, Hin2.
      destruct Hin1 as [?| ->], Hin2 as [?| ->]; eauto; exfalso; eauto.
  - assert (forall m, m ∈ task_events d' <-> m ∈ task_events d /\ TaskEvent.task_id m <> id) as Hin.
    { intros m. by rewrite He, List_filter_elem, negb_true_iff, bool_decide_eq_false. }
    split; unfold proposal_of.
    + intros m [Hm' Hne]%Hin Hk. destruct (Hd m Hm' Hk) as (p & ? & (? & ? & ?) & ?).
      exists p. rewrite Hin. split; [done|]. split; [|done]. split; [split; [done|congruence]|done].
    + intros m1 m2 pid [? _]%Hin [? _]%Hin. eauto.
Qed.

Lemma history_markers d ops d' : history d ops d' -> db_ok d -> markers_ok d -> markers_ok d'.
Proof.
  induction 1 as [|d o ops d' Ho _ IH]; intros Hok Hm; [done|].
  apply IH; [by apply exec_ok|]. eapply log_step_markers; eauto using exec_log.
Qed.

Lemma reachable_markers d : reachable d -> markers_ok d.
Proof.
  intros [ops H]. eapply history_markers; [exact H|apply empty_db_ok|].
  split; simpl; by intros * ?%elem_of_nil.
Qed.

Lemma proposal_reachable : reachable proposal_db.
Proof. apply (reachable_run proposal_ops). vm_compute. repeat split; try done; set_solver. Qed.

(** * Theorems *)

(** A resolution decides the newest undecided proposal of a waiting task,
    and only that: it returns exactly when the command is valid, its version is
    current, the task waits unarchived and has an undecided proposal; the
    decision is appended to the log naming that proposal, and the task goes back
    to the queue whether it was approved, rejected or revised.  Refused, it
    changes nothing. *)
Theorem resolution_decides_newest d c now :
  reachable d ->
  match resolve_proposal_sync d c now with
  | (d', Return res) =>
      exists task p, tasks d !! res_task_id c = Some task
      /\ Task.status task = TaskStatus.WAITING_APPROVAL /\ Task.version task = res_expected_version c
      /\ proposal_of d (res_task_id c) p /\ undecided d p
      /\ (forall q, proposal_of d (res_task_id c) q -> undecided d q ->
            TaskEvent.id q <= TaskEvent.id p)
      /\ proposal_event_id res = TaskEvent.id p /\ decides (decision_event res) (TaskEvent.id p)
      /\ Task.status (resolved_task res) = TaskStatus.QUEUED
      /\ Task.version (resolved_task res) = Task.version task + 1
      /\ tasks d' = <[res_task_id c := resolved_task res]> (tasks d)
      /\ task_events d' = task_events d ++ [decision_event res]
      /\ task_runs d' = task_runs d
  | (d', Raise e) =>
      d' = d /\
      ~ (returns (validate_resolution_command c) = true /\
         exists task p, tasks d !! res_task_id c = Some task
         /\ Task.version task = res_expected_version c /\ Task.is_archived task = false
         /\ Task.status task = TaskStatus.WAITING_APPROVAL
         /\ proposal_of d (res_task_id c) p /\ undecided d p)
  end.
Proof.
  intros Hr. pose proof (reachable_ok _ Hr) as Hok. pose proof (reachable_markers _ Hr) as Hm.
  destruct (resolved_ids_ok d (res_task_id c) Hm) as (ns & Hns & Hspec).
  destruct (resolve_cases d c now)
    as [[Hd (e & He)]|(task & ns' & p & -> & Ht & Hs & Hv & _ & Hns' & Hp & Hk)].
  - destruct (resolve_proposal_sync d c now) as [d' r] eqn:Hres. simpl in Hd, He. subst d' r.
    split; [done|]. intros (Hval & task & p & Ht & Hv & Har & Hs & Hp & Hund). revert Hres.
    unfold resolve_proposal_sync. destruct (validate_resolution_command c); [|done].
    rewrite Ht, Hv, Z.eqb_refl, Har, Hs, Hns. cbn [negb]. eval_decides. cbn [negb].
    destruct (latest_pending _ ns) as [q|] eqn:Hlp; [done|]. intros _.
    unfold latest_pending in Hlp.
    destruct Hp as (Hin & Htid & Hkind).
    assert (is_pending ns p = false) as Hpf.
    { apply (find_none _ _ Hlp). rewrite <- in_rev, <- list_elem_of_In. by apply events_of_elem. }
    unfold is_pending in Hpf. rewrite bool_decide_eq_true_2 in Hpf by done.
    rewrite bool_decide_eq_false_2 in Hpf; [done|]. rewrite Hspec.
    intros (m & Hm1 & Hm2 & Hm3). apply (Hund m); [done|congruence|done].
  - destruct (latest_pending_spec d _ _ _ Hok Hm Hns' Hp) as (Hprop & Hund & Hmax).
    pose proof (ok_task_id _ Hok _ _ Ht) as Hid.
    exists task, p. do 6 (split; [done|]). split; [done|].
    split; [split; [exact (decision_kind_marker _ _ Hk)|reflexivity]|].
    do 2 (split; [done|]). cbn. by rewrite Hid.
Qed.

Lemma resolution_decides_newest_witness :
  exists res, (resolve_proposal_sync proposal_db approve_demo 9).2 = Return res
  /\ decides (decision_event res) 2 /\ Task.status (resolved_task res) = TaskStatus.QUEUED.
Proof.
  pose proof (resolution_decides_newest proposal_db approve_demo 9 proposal_reachable) as H.
  destruct (resolve_proposal_sync proposal_db approve_demo 9) as [d' [res|e]] eqn:E.
  - exists res. destruct H as (task & p & _ & _ & _ & _ & _ & _ & Hid & Hdec & Hs & _).
    apply (f_equal (fun x => match x.2 with Return r => proposal_event_id r | _ => 0 end)) in E.
    assert (proposal_event_id res = 2) as H2 by (symmetry; vm_compute in E; exact E).
    rewrite <- Hid, H2 in Hdec. done.
  - exfalso. apply (f_equal (fun x => returns x.2)) in E. vm_compute in E. discriminate.
Defined.

(** No proposal is ever decided twice: in every reachable state each
    decision in the log is about an earlier proposal of its own task, and two decisions
    about one proposal are the same event. *)
Theorem proposal_decided_once d :
  reachable d ->
  (forall m, m ∈ task_events d -> is_marker m ->
     exists p, decides m (TaskEvent.id p) /\ proposal_of d (TaskEvent.task_id m) p
       /\ TaskEvent.id p < TaskEvent.id m) /\
  (forall m1 m2 pid, m1 ∈ task_events d -> m2 ∈ task_events d ->
     decides m1 pid -> decides m2 pid -> m1 = m2).
Proof. intros [H1 H2]%reachable_markers. auto. Qed.

Lemma proposal_decided_once_witness :
  exists m, m ∈ task_events (exec proposal_db (OResolve approve_demo 9)) /\ decides m 2
  /\ ~ exists m', m' ∈ task_events (exec proposal_db (OResolve approve_demo 9))
        /\ m' <> m /\ decides m' 2.
Proof.
  assert (reachable (exec proposal_db (OResolve approve_demo 9))) as Hr
    by (apply reachable_exec; [apply proposal_reachable|exact I]).
  destruct (proposal_decided_once _ Hr) as [_ Hu].
  exists (TaskEvent.mk 4 "t" "change_approved"
       [("decision", JStr "approved"); ("note", JNull); ("proposal_event_id", JInt 2)] None (Some 9)).
  assert (forall e, e ∈ [e] ++ ([] : list TaskEvent.t)) as Hin by (intros; by left).
  split; [|split].
  - vm_compute. do 3 right. apply Hin.
  - split; [vm_compute; by left|reflexivity].
  - intros (m' & Hm' & Hne & Hd). apply Hne. apply (Hu m' _ 2); [exact Hm'| |exact Hd|].
    + vm_compute. do 3 right. apply Hin.
    + split; [vm_compute; by left|reflexivity].
Defined.
