(* ===== verification/TaskListing.v ===== *)
(** Reading the registry of TaskStore.v: keyset pagination, the dispatch queue,
    notification watermarks, and the one-time status migration. *)
From S2P Require Import Prelude TaskDomain TaskStore TaskStoreInv.

(** * Definitions *)

(** A client that follows [next_cursor] from page to page. *)
Fixpoint pages (fuel : nat) (d : db) (board : string) (cursor : option TaskListCursor)
    (limit : Z) (include_archived : bool) : list (list Task.t) :=
  match fuel with
  | O => []
  | S fuel =>
      let page := list_tasks_sync d board cursor limit include_archived in
      items page ::
        match next_cursor page with
        | Some c => pages fuel d board (Some c) limit include_archived
        | None => []
        end
  end.

(** The whole listing, in order. *)
Definition full_listing (d : db) (board : string) (include_archived : bool) : list Task.t :=
  order_by page_leb (List.filter (listed board include_archived) (all_tasks d)).

Definition cursor_of (t : Task.t) : TaskListCursor :=
  mkTaskListCursor (Task.created_at t) (Task.id t).

(** Every stored row has its creation time. *)
Definition rows_created (d : db) : Prop :=
  forall id t, tasks d !! id = Some t -> is_Some (Task.created_at t).

(** The statuses a legacy file can hold: the old board columns, and the
    values of the present enum. *)
Definition known_status (s : string) : bool :=
  bool_decide (s ∈ (LEGACY_STATUS_MAP.*1).*1 ++ (TaskStatus.value <$> TaskStatus.all)).

Definition listing_ops : list op :=
  [OCreate ((Task.defaults "b" "x") <| Task.priority := 2 |>) 20;
   OCreate (Task.defaults "a" "x") 10; OCreate (Task.defaults "c" "x") 30].

Definition listing_db : db := foldl exec empty_db listing_ops.

(** * Orders *)

(** [(key, id)] in lexicographic order. *)
Lemma page_leb_spec a b :
  page_leb a b = true <->
  created_key a < created_key b
  \/ created_key a = created_key b /\ str_leb (Task.id a) (Task.id b) = true.
Proof. unfold page_leb. rewrite orb_true_iff, andb_true_iff, Z.ltb_lt, Z.eqb_eq. done. Qed.

Lemma page_leb_total a b : page_leb a b = true \/ page_leb b a = true.
Proof.
  rewrite !page_leb_spec.
  destruct (Z.lt_trichotomy (created_key a) (created_key b)) as [?|[?|?]]; auto.
  destruct (str_leb_total (Task.id a) (Task.id b)); auto.
Qed.

Lemma page_leb_trans a b c : page_leb a b = true -> page_leb b c = true -> page_leb a c = true.
Proof.
  rewrite !page_leb_spec. intros [?|[? H1]] [?|[? H2]]; try (left; lia).
  right. split; [lia|]. by eapply str_leb_trans.
Qed.

Lemma page_leb_antisym a b :
  page_leb a b = true -> page_leb b a = true -> Task.id a = Task.id b.
Proof. rewrite !page_leb_spec. intros [?|[? ?]] [?|[? ?]]; try lia. by apply str_leb_antisym. Qed.

Lemma dispatch_leb_spec a b :
  dispatch_leb a b = true <->
  Task.priority b < Task.priority a
  \/ Task.priority a = Task.priority b /\ page_leb a b = true.
Proof. unfold dispatch_leb. rewrite orb_true_iff, andb_true_iff, Z.ltb_lt, Z.eqb_eq. done. Qed.

Lemma dispatch_leb_total a b : dispatch_leb a b = true \/ dispatch_leb b a = true.
Proof.
  rewrite !dispatch_leb_spec.
  destruct (Z.lt_trichotomy (Task.priority a) (Task.priority b)) as [?|[?|?]]; auto.
  destruct (page_leb_total a b); auto.
Qed.

Lemma dispatch_leb_trans a b c :
  dispatch_leb a b = true -> dispatch_leb b c = true -> dispatch_leb a c = true.
Proof.
  rewrite !dispatch_leb_spec. intros [?|[? H1]] [?|[? H2]]; try (left; lia).
  right. split; [lia|]. by eapply page_leb_trans.
Qed.

(** * Rows *)

Lemma rows_created_put d t :
  rows_created d -> is_Some (Task.created_at t) -> rows_created (put_task d t).
Proof. intros H Ht id u. simpl. intros [[_ <-]|[_ Hu]]%lookup_insert_Some; eauto. Qed.

Lemma apply_fields_created t fields now :
  Task.created_at (apply_fields t fields now) = Task.created_at t.
Proof.
  simpl. revert t. induction fields as [|f fs IH]; simpl; [done|]. intros t. rewrite IH. by destruct f.
Qed.

Lemma finalize_created d id rid lock oc summary meta error rec target now :
  rows_created d ->
  rows_created (finalize_run d id rid lock oc summary meta error rec target now).1.
Proof.
  intros H. unfold finalize_run. destruct (task_runs d !! rid) as [run|]; [|done].
  case_match; [done|]. case_match; [case_match; done|].
  destruct (tasks d !! id) as [t|] eqn:Ht; [|done]. case_match; [done|]. cbn [fst insert_event].
  apply (rows_created_put (put_run d _)); [done|].
  specialize (H _ _ Ht). by destruct (bool_decide (oc = TaskRunOutcome.COMPLETED)), (increments_failures oc).
Qed.

Lemma exec_created d o : rows_created d -> rows_created (exec d o).
Proof.
  intros H. destruct o; simpl; try done.
  - unfold create_task_sync. case_match; [done|]. apply rows_created_put; [done|]. simpl. eauto.
  - destruct (update_cases d task_id fields version now) as [->|(t & Ht & _ & ->)]; [done|].
    apply rows_created_put; [done|]. rewrite apply_fields_created. eauto.
  - unfold claim_task_sync. destruct (tasks d !! task_id) as [t|] eqn:Ht; [|done].
    case_match; [|done]. cbn [fst insert_event]. apply (rows_created_put (put_run _ _)); [done|].
    simpl. eauto.
  - unfold record_heartbeat_sync. destruct (tasks d !! task_id) as [t|] eqn:Ht; [|done].
    case_match; [done|]. cbn [fst].
    assert (rows_created (put_task d t)) by (apply rows_created_put; eauto).
    case_match; apply (rows_created_put d); simpl; eauto.
  - by apply finalize_created.
  - by apply finalize_created.
  - destruct (resolve_cases d c now) as [[-> _]|(t & ns & p & -> & Ht & _)]; [done|].
    cbn [fst]. apply rows_created_put; [done|]. simpl. eauto.
  - unfold append_event_sync. by case_match.
  - unfold add_comment_sync. cases.
  - unfold add_attachment_sync. cases.
  - unfold subscribe_notify_sync. cases.
  - unfold delete_task_sync. destruct (tasks d !! task_id) as [t0|]; [|done]. simpl.
    intros id u Hu. simpl in Hu. apply lookup_delete_Some in Hu as [_ ?]. eauto.
Qed.

Lemma reachable_created d : reachable d -> rows_created d.
Proof.
  intros [ops H]. assert (rows_created empty_db) as H0 by (intros ? ?; simpl; by rewrite lookup_empty).
  revert H0. induction H; auto using exec_created.
Qed.

Lemma all_tasks_elem d t :
  db_ok d -> t ∈ all_tasks d <-> tasks d !! Task.id t = Some t.
Proof.
  intros Hok. unfold all_tasks. rewrite list_elem_of_fmap. split.
  - intros ([id t'] & -> & Hin). apply elem_of_map_to_list in Hin. simpl.
    by rewrite (ok_task_id _ Hok _ _ Hin).
  - intros Ht. exists (Task.id t, t). by rewrite elem_of_map_to_list.
Qed.

Lemma all_tasks_nodup d : db_ok d -> NoDup (all_tasks d).
Proof.
  intros Hok. apply (NoDup_fmap_1 Task.id). unfold all_tasks. rewrite <- list_fmap_compose.
  replace ((Task.id ∘ snd) <$> map_to_list (tasks d)) with (map_to_list (tasks d)).*1.
  - apply NoDup_fst_map_to_list.
  - apply list_fmap_ext. intros i [id t] Hin. simpl. symmetry. apply (ok_task_id _ Hok).
    apply elem_of_map_to_list. by eapply list_elem_of_lookup_2.
Qed.

Lemma full_listing_elem d board arch t :
  db_ok d ->
  t ∈ full_listing d board arch <->
  tasks d !! Task.id t = Some t /\ listed board arch t = true.
Proof.
  intros Hok. unfold full_listing. by rewrite order_by_perm, List_filter_elem, all_tasks_elem.
Qed.

Lemma full_listing_nodup d board arch : db_ok d -> NoDup (full_listing d board arch).
Proof.
  intros Hok. unfold full_listing. rewrite order_by_perm.
  by apply NoDup_List_filter, all_tasks_nodup.
Qed.

(** * Pages *)

(** After the cursor of a listed row come exactly the rows listed after it. *)
Lemma after_cursor_spec x t :
  is_Some (Task.created_at x) -> after_cursor (cursor_of x) t = negb (page_leb t x).
Proof.
  intros [at_ Hx]. unfold after_cursor, cursor_of, page_leb.
  cbn [cursor_created_at cursor_task_id]. assert (created_key x = at_) as ->.
  { unfold created_key. by rewrite Hx. }
  rewrite Hx. destruct (str_leb (Task.id t) (Task.id x)), (Z.ltb_spec at_ (created_key t)),
    (Z.ltb_spec (created_key t) at_), (Z.eqb_spec at_ (created_key t)),
    (Z.eqb_spec (created_key t) at_); simpl; done || lia.
Qed.

Lemma rest_of_listing d board arch l1 x l2 :
  db_ok d -> rows_created d -> full_listing d board arch = l1 ++ x :: l2 ->
  order_by page_leb
    (List.filter (fun t => listed board arch t && after_cursor (cursor_of x) t) (all_tasks d)) = l2.
Proof.
  intros Hok Hcr Hfull.
  pose proof (full_listing_nodup d board arch Hok) as Hnd.
  assert (StronglySorted (fun a b => page_leb a b = true) (full_listing d board arch)) as Hs
    by apply (order_by_sorted _ page_leb_total page_leb_trans).
  assert (forall t, t ∈ full_listing d board arch -> Task.id t = Task.id x -> t = x) as Hinj.
  { intros t Ht Hid. assert (x ∈ full_listing d board arch) as Hx by (rewrite Hfull; set_solver).
    apply (full_listing_elem _ _ _ _ Hok) in Ht as [Ht _], Hx as [Hx _]. congruence. }
  assert (is_Some (Task.created_at x)) as Hxc.
  { assert (x ∈ full_listing d board arch) as Hx by (rewrite Hfull; set_solver).
    apply (full_listing_elem _ _ _ _ Hok) in Hx as [Hx _]. eauto. }
  rewrite Hfull in Hs, Hnd, Hinj.
  assert (List.filter (after_cursor (cursor_of x)) (full_listing d board arch) = l2) as Hfilter.
  { rewrite Hfull, List.filter_app. simpl. rewrite (after_cursor_spec x x) by done.
    assert (page_leb x x = true) as -> by (by destruct (page_leb_total x x)). simpl.
    rewrite (List_filter_none _ l1), (List_filter_all _ l2); [done| |].
    - apply Forall_forall. intros t Ht. rewrite after_cursor_spec by done. apply negb_true_iff.
      apply not_true_is_false. intros Hle.
      assert (page_leb x t = true) as Hge.
      { apply StronglySorted_app_1_r in Hs. inversion Hs as [|? ? _ Hx]; subst.
        by eapply Forall_forall in Hx. }
      apply NoDup_app in Hnd as (_ & _ & Hnd). inversion Hnd; subst.
      assert (t = x) as -> by (apply Hinj; [set_solver|by apply page_leb_antisym]). done.
    - apply Forall_forall. intros t Ht. rewrite after_cursor_spec by done. apply negb_false_iff.
      eapply (StronglySorted_app_1_elem_of _ _ _ _ _ Hs); [done|by constructor]. }
  eapply (StronglySorted_unique_strong (fun a b => page_leb a b = true)).
  - intros a b Ha Hb Hab Hba. rewrite order_by_perm in Ha.
    apply List_filter_elem in Ha as [Ha _]. apply (all_tasks_elem _ _ Hok) in Ha.
    assert (b ∈ full_listing d board arch) as Hb' by (rewrite Hfull; set_solver).
    apply (full_listing_elem _ _ _ _ Hok) in Hb' as [Hb' _].
    pose proof (page_leb_antisym _ _ Hab Hba). congruence.
  - apply order_by_sorted; [apply page_leb_total|apply page_leb_trans].
  - apply StronglySorted_app_1_r in Hs. by inversion Hs.
  - rewrite order_by_perm, List_filter_and. rewrite <- Hfilter. apply List_filter_perm.
    unfold full_listing. by rewrite order_by_perm.
Qed.

Lemma last_take_app {A} (n : nat) (l : list A) :
  (0 < n)%nat -> (n < length l)%nat ->
  exists l1 x, take n l = l1 ++ [x] /\ last (take n l) = Some x.
Proof.
  intros Hn Hl. destruct (take n l) as [|y l'] eqn:E using rev_ind.
  - apply (f_equal length) in E. rewrite length_take in E. simpl in E. lia.
  - exists l', y. by rewrite last_snoc.
Qed.

(** One page over the rows that remain, and where the next one starts. *)
Lemma page_of_rest d board arch limit cursor rest :
  order_by page_leb (List.filter (fun t => listed board arch t &&
      match cursor with Some c => after_cursor c t | None => true end) (all_tasks d)) = rest ->
  let page := list_tasks_sync d board cursor limit arch in
  items page = take (clamp_limit limit) rest
  /\ (next_cursor page = None /\ (length rest <= clamp_limit limit)%nat
      \/ exists l1 x, take (clamp_limit limit) rest = l1 ++ [x]
         /\ next_cursor page = Some (cursor_of x)).
Proof.
  intros Hrest. unfold list_tasks_sync. cbv zeta. rewrite Hrest. cbn [items next_cursor].
  assert (0 < clamp_limit limit)%nat as Hn by (unfold clamp_limit; lia).
  rewrite take_take, Nat.min_l by lia. split; [done|].
  rewrite length_take. destruct (Nat.ltb_spec (clamp_limit limit) (Nat.min (clamp_limit limit + 1) (length rest))).
  - right. destruct (last_take_app (clamp_limit limit) rest) as (l1 & x & Ht & Hlast); [lia..|].
    exists l1, x. by rewrite Hlast.
  - left. split; [done|lia].
Qed.

Lemma pages_rest fuel d board arch limit cursor rest :
  db_ok d -> rows_created d ->
  (cursor = None /\ rest = full_listing d board arch
   \/ exists l1 x, full_listing d board arch = l1 ++ x :: rest /\ cursor = Some (cursor_of x)) ->
  (length rest < fuel)%nat ->
  concat (pages fuel d board cursor limit arch) = rest
  /\ Forall (fun p => (length p <= clamp_limit limit)%nat) (pages fuel d board cursor limit arch).
Proof.
  intros Hok Hcr. revert cursor rest. induction fuel as [|fuel IH]; intros cursor rest Hcase Hfuel; [lia|].
  assert (order_by page_leb (List.filter (fun t => listed board arch t &&
      match cursor with Some c => after_cursor c t | None => true end) (all_tasks d)) = rest) as Hrest.
  { destruct Hcase as [[-> ->]|(l1 & x & Hf & ->)].
    - unfold full_listing. rewrite List_filter_and. f_equal. by apply List_filter_all, Forall_true.
    - by eapply rest_of_listing. }
  destruct (page_of_rest d board arch limit cursor rest Hrest) as [Hitems Hnext].
  assert (0 < clamp_limit limit)%nat as Hn by (unfold clamp_limit; lia).
  cbn [pages]. cbv zeta in Hitems, Hnext. rewrite Hitems. destruct Hnext as [[-> Hle]|(l1 & x & Ht & ->)].
  - simpl. rewrite app_nil_r, take_ge by done. split; [done|].
    repeat constructor. done.
  - assert (rest = l1 ++ x :: drop (clamp_limit limit) rest) as Hsplit.
    { rewrite <- (take_drop (clamp_limit limit) rest) at 1. rewrite Ht. by rewrite <- app_assoc. }
    destruct (IH (Some (cursor_of x)) (drop (clamp_limit limit) rest)) as [Hc HF].
    + right. destruct Hcase as [[_ Hr]|(k1 & y & Hf & _)].
      * exists l1, x. by rewrite <- Hr.
      * exists (k1 ++ y :: l1), x. rewrite Hf, Hsplit at 1. by rewrite <- app_assoc.
    + rewrite length_drop. lia || (apply (f_equal length) in Hsplit; rewrite length_app in Hsplit; simpl in Hsplit; lia).
    + cbn [concat]. rewrite Hc, take_drop. split; [done|]. constructor; [|done]. rewrite length_take. lia.
Qed.

Lemma listing_reachable : reachable listing_db.
Proof. apply (reachable_run listing_ops). vm_compute. repeat split; done. Qed.

(** * Theorems *)

(** C3. Following [next_cursor] over an unchanging table shows every listed
    task exactly once, in [created_at, id] order, in pages of at most [limit]
    (clamped to 1..500), and the walk ends. *)
Theorem pagination_complete d board limit arch :
  reachable d ->
  let walk := pages (S (length (all_tasks d))) d board None limit arch in
  concat walk ≡ₚ List.filter (listed board arch) (all_tasks d)
  /\ NoDup (concat walk)
  /\ StronglySorted (fun a b => page_leb a b = true) (concat walk)
  /\ Forall (fun p => (length p <= clamp_limit limit <= 500)%nat) walk.
Proof.
  intros Hr walk. pose proof (reachable_ok _ Hr) as Hok. pose proof (reachable_created _ Hr) as Hcr.
  destruct (pages_rest (S (length (all_tasks d))) d board arch limit None
              (full_listing d board arch) Hok Hcr) as [Hc HF].
  - by left.
  - unfold full_listing. rewrite order_by_perm. pose proof (List.filter_length_le (listed board arch) (all_tasks d)). lia.
  - fold walk in Hc, HF. rewrite Hc. split_and!.
    + apply order_by_perm.
    + by apply full_listing_nodup.
    + apply order_by_sorted; [apply page_leb_total|apply page_leb_trans].
    + eapply Forall_impl; [exact HF|]. simpl. unfold clamp_limit. lia.
Qed.

Lemma pagination_complete_witness :
  concat (pages 4 listing_db "default" None 2 false) ≡ₚ all_tasks listing_db
  /\ length (pages 4 listing_db "default" None 2 false) = 2%nat.
Proof.
  split; [|vm_compute; reflexivity].
  pose proof (proj1 (pagination_complete listing_db "default" 2 false listing_reachable)) as H.
  assert (length (all_tasks listing_db) = 3%nat) as Hl by (vm_compute; reflexivity).
  rewrite Hl in H. rewrite H. rewrite List_filter_all; [done|].
  vm_compute. repeat constructor.
Defined.

(** The dispatch queue is exact: at most [limit] tasks, each once, by
    priority, then age, then id; every task in it can be claimed at that very
    moment; and a due task that is left out is left out because the queue is
    full of tasks that come before it. *)
Theorem dispatch_queue_exact d now limit board :
  reachable d ->
  let q := list_queued_due_sync d now limit board in
  (length q <= clamp_limit limit)%nat /\ NoDup q
  /\ StronglySorted (fun a b => dispatch_leb a b = true) q
  /\ (forall t, t ∈ q -> tasks d !! Task.id t = Some t /\ Task.board t = board
        /\ forall lock token lease, exists c,
           (claim_task_sync d (Task.id t) lock token lease now).2 = Some c
           /\ Task.id (claimed_task c) = Task.id t)
  /\ (forall id t, tasks d !! id = Some t -> due_for_dispatch board now t = true -> t ∉ q ->
        length q = clamp_limit limit /\ forall u, u ∈ q -> dispatch_leb u t = true).
Proof.
  intros Hok%reachable_ok q.
  set (all := order_by dispatch_leb (List.filter (due_for_dispatch board now) (all_tasks d))).
  assert (StronglySorted (fun a b => dispatch_leb a b = true) all) as Hs
    by apply (order_by_sorted _ dispatch_leb_total dispatch_leb_trans).
  assert (forall t, t ∈ all <-> tasks d !! Task.id t = Some t /\ due_for_dispatch board now t = true)
    as Hin by (intros t; unfold all; by rewrite order_by_perm, List_filter_elem, all_tasks_elem).
  assert (NoDup all) as Hnd
    by (unfold all; rewrite order_by_perm; by apply NoDup_List_filter, all_tasks_nodup).
  change q with (take (clamp_limit limit) all).
  rewrite <- (take_drop (clamp_limit limit) all) in Hs, Hnd. split_and!.
  - rewrite length_take. lia.
  - by apply NoDup_app in Hnd as [? _].
  - by apply StronglySorted_app_1_l in Hs.
  - intros t Htake. assert (t ∈ all) as [Ht Hdue]%Hin.
    { rewrite <- (take_drop (clamp_limit limit) all). apply elem_of_app. by left. }
    unfold due_for_dispatch in Hdue.
    rewrite !andb_true_iff, !bool_decide_eq_true in Hdue. destruct Hdue as [[[Hb Hq] Har] Hsch].
    split; [done|]. split; [done|]. intros *.
    destruct (claim_cases d (Task.id t) lock token lease now) as [[_ Hno]|(t' & Ht' & _ & Heq)].
    + exfalso. rewrite Ht in Hno. unfold claimable in Hno.
      pose proof (ok_linked _ Hok _ _ Ht) as Hl. unfold linked in Hl.
      rewrite bool_decide_eq_false_2 in Hl by congruence. destruct Hl as (_ & Hce & _).
      rewrite Hce, Hq, Har, Hsch in Hno. done.
    + assert (t' = t) as -> by congruence. rewrite (Heq eq_refl). eexists. split; reflexivity.
  - intros id t Ht Hdue Hnot. pose proof (ok_task_id _ Hok _ _ Ht) as Hid.
    assert (t ∈ all) as Hall by (apply Hin; by rewrite Hid).
    rewrite <- (take_drop (clamp_limit limit) all), elem_of_app in Hall.
    destruct Hall as [?|Hdrop]; [done|]. split.
    + rewrite length_take.
      destruct (decide (length all <= clamp_limit limit)%nat) as [Hle|Hgt]; [|lia].
      rewrite drop_ge in Hdrop by done. by apply elem_of_nil in Hdrop.
    + intros u Hu. by apply (StronglySorted_app_1_elem_of _ _ _ _ _ Hs).
Qed.

Lemma dispatch_queue_exact_witness :
  Task.id <$> list_queued_due_sync listing_db 40 2 "default" = ["b"; "a"]
  /\ forall t, t ∈ list_queued_due_sync listing_db 40 2 "default" ->
     exists c, (claim_task_sync listing_db (Task.id t) "L" "w" 900 40).2 = Some c.
Proof.
  split; [vm_compute; reflexivity|]. intros t Ht.
  destruct (dispatch_queue_exact listing_db 40 2 "default" listing_reachable) as (_ & _ & _ & H & _).
  destruct (H t Ht) as (_ & _ & Hc). destruct (Hc "L" "w" 900) as (c & ? & _). eauto.
Defined.

(** A subscription's watermark only moves forward: advancing it returns
    true exactly when some matching subscription was below the event, leaves
    every other subscription alone, never lowers one, and a second delivery of
    the same event reports false and changes nothing. *)
Theorem watermark_advances_once d id platform chat thread event_id now now' :
  let adv d now := update_notify_sub_last_event_sync d id platform chat thread event_id now in
  let d1 := (adv d now).1 in
  ((adv d now).2 = true <-> exists s, s ∈ task_notify_subs d
     /\ sub_matches id platform chat thread s = true /\ NotifySub.last_terminal_event_id s < event_id)
  /\ Forall2 (fun s s' =>
       (NotifySub.last_terminal_event_id s'
        = if sub_matches id platform chat thread s
          then Z.max (NotifySub.last_terminal_event_id s) event_id
          else NotifySub.last_terminal_event_id s)
       /\ (sub_matches id platform chat thread s = false -> s' = s))
     (task_notify_subs d) (task_notify_subs d1)
  /\ adv d1 now' = (d1, false).
Proof.
  intros adv d1. set (hit := fun s => sub_matches id platform chat thread s
                      && (NotifySub.last_terminal_event_id s <? event_id)).
  set (bump := fun (at_ : Z) s => if hit s then s <| NotifySub.last_terminal_event_id := event_id |>
                                        <| NotifySub.updated_at := at_ |> else s).
  assert (forall d at_, adv d at_ = (d <| task_notify_subs := map (bump at_) (task_notify_subs d) |>,
                                     existsb hit (task_notify_subs d))) as Hadv by done.
  subst d1. rewrite !Hadv. clearbody adv. cbn [fst snd].
  assert (forall s, hit (bump now s) = false) as Hmiss.
  { intros s. unfold bump, hit. destruct (sub_matches _ _ _ _ s) eqn:Hm; simpl; [|by rewrite Hm].
    destruct (Z.ltb_spec (NotifySub.last_terminal_event_id s) event_id); simpl; [|].
    - change (sub_matches id platform chat thread _) with (sub_matches id platform chat thread s).
      rewrite Hm, Z.ltb_irrefl. done.
    - rewrite Hm. simpl. by apply Z.ltb_ge. }
  split_and!.
  - rewrite existsb_exists.
    split; intros (s & Hin & Hs); exists s; unfold hit in *;
      rewrite andb_true_iff, Z.ltb_lt in *; by rewrite list_elem_of_In in *.
  - change (task_notify_subs (d <| task_notify_subs := _ |>))
      with (bump now <$> task_notify_subs d).
    apply Forall2_fmap_r, Forall_Forall2_diag, Forall_forall. intros s _. unfold compose, bump, hit.
    destruct (sub_matches id platform chat thread s) eqn:Hm; simpl; rewrite ?Hm; [|done].
    destruct (Z.ltb_spec (NotifySub.last_terminal_event_id s) event_id); simpl; split; done || lia.
  - f_equal.
    + destruct d. unfold over. cbn. f_equal. rewrite map_map. apply map_ext. intros s.
      unfold bump at 1. by rewrite Hmiss.
    + apply not_true_is_false. rewrite existsb_exists. intros (s & Hin & Hs).
      apply in_map_iff in Hin as (s0 & <- & _). by rewrite Hmiss in Hs.
Qed.

(** The status migration is total, runs once and is idempotent: every row
    whose status is an old board column or a present value gets a present value;
    no migrated row claims to be running; and a second start leaves the file as
    it is. *)
Theorem migration_sound version rows :
  version < 1 -> Forall (fun row => known_status row.1 = true) rows ->
  let migrated := ensure_schema version rows in
  migrated.1 = 1
  /\ Forall (fun row => exists s, row.1 = TaskStatus.value s /\ s <> TaskStatus.RUNNING) migrated.2
  /\ length migrated.2 = length rows
  /\ ensure_schema migrated.1 migrated.2 = migrated.
Proof.
  intros Hv Hrows migrated. subst migrated. unfold ensure_schema.
  rewrite (proj2 (Z.ltb_lt _ _) Hv). cbn [fst snd]. split_and!; [done| |by rewrite length_map|done].
  apply Forall_map. eapply Forall_impl; [exact Hrows|]. intros [st arch]. unfold known_status.
  rewrite bool_decide_eq_true, list_elem_of_In. cbn [fst]. intros Hin. vm_compute in Hin.
  repeat destruct Hin as [<-|Hin]; try done;
    vm_compute; first
    [ by exists TaskStatus.QUEUED | by exists TaskStatus.EXPIRED
    | by exists TaskStatus.WAITING_APPROVAL | by exists TaskStatus.SUCCEEDED
    | by exists TaskStatus.FAILED | by exists TaskStatus.CANCELLED ].
Qed.

Lemma migration_sound_witness :
  ensure_schema 0 [("running", 0); ("archived", 0); ("queued", 1)]
  = (1, [("expired", 0); ("cancelled", 1); ("queued", 1)]) /\
  Forall (fun row => exists s, row.1 = TaskStatus.value s /\ s <> TaskStatus.RUNNING)
    (ensure_schema 0 [("running", 0); ("archived", 0); ("queued", 1)]).2.
Proof.
  split; [vm_compute; reflexivity|].
  apply (migration_sound 0 [("running", 0); ("archived", 0); ("queued", 1)]); [lia|].
  repeat constructor.
Defined.
