(* ===== verification/Dispatcher.v ===== *)
(** The in-process worker table (app/application/task_runner.py) behind the
    dispatcher port of app/domain/task.py.

    An [asyncio.Task] is a handle; what the event loop does to it (the worker
    coroutine returns, raises or is cancelled) is an input of the operations
    below. *)
From S2P Require Import Prelude TaskDomain.

(** * The port *)

Record worker_meta := mkWorkerMeta {
  meta_run_id : Z; meta_task_id : string; meta_token : string; meta_started_at : Z }.

Record crash_entry := mkCrashEntry {
  crash_run_id : Z; crash_task_id : string; crash_token : string; crash_error : string }.

(** How a worker coroutine ends. *)
Inductive worker_end := EndReturned | EndRaised | EndCancelled.

#[global] Instance worker_end_eq_dec : EqDecision worker_end.
Proof. solve_decision. Defined.

(** The dispatcher a run service is given.  [ending] is how the worker ended
    within the grace period of a cancellation, [None] when it did not. *)
Class TaskDispatcher (D : Type) := {
  dispatch_spawn : D -> Task.t -> Z -> string -> string -> Z -> D * result string;
  dispatch_cancel : D -> string -> option worker_end -> D * bool;
  dispatch_inspect : D -> D * list worker_meta;
  dispatch_crashed : D -> D * list crash_entry
}.

Definition active_runs {D} `{TaskDispatcher D} (d : D) : list Z := meta_run_id <$> (dispatch_inspect d).2.

(** What the run service relies on. *)
Class DispatcherLaws (D : Type) `{TaskDispatcher D} (valid : D -> Prop) := {
  spawn_valid d task run_id lock hex now : valid d -> valid (dispatch_spawn d task run_id lock hex now).1;
  cancel_valid d token ending : valid d -> valid (dispatch_cancel d token ending).1;
  inspect_valid d : valid d -> valid (dispatch_inspect d).1;
  crashed_valid d : valid d -> valid (dispatch_crashed d).1;
  inspect_stable d : valid d -> active_runs (dispatch_inspect d).1 = active_runs d;
  spawn_adds_one d task run_id lock hex now :
    valid d -> (length (active_runs (dispatch_spawn d task run_id lock hex now).1) <= S (length (active_runs d)))%nat;
  spawn_returns_active d task run_id lock hex now token :
    valid d -> (dispatch_spawn d task run_id lock hex now).2 = Return token ->
    run_id ∈ active_runs (dispatch_spawn d task run_id lock hex now).1;
  spawn_raises d task run_id lock hex now e :
    valid d -> (dispatch_spawn d task run_id lock hex now).2 = Raise e ->
    active_runs (dispatch_spawn d task run_id lock hex now).1 = active_runs d;
  crashed_stable d : valid d -> active_runs (dispatch_crashed d).1 = active_runs d;
  crashed_cleared d : (dispatch_crashed (dispatch_crashed d).1).2 = []
}.

(** * TaskRunner *)

Module TaskRunner.

Record t : Type := mk {
  run_service_bound : bool;
  running_workers : gmap Z Z;
  handles : gmap Z worker_end;
  next_handle : Z;
  token_to_run : gmap string Z;
  run_meta : list worker_meta;
  crashed : list crash_entry
}.

#[global] Instance rebuild_t : Rebuild t := fun r =>
  mk (run_service_bound r) (running_workers r) (handles r) (next_handle r) (token_to_run r)
    (run_meta r) (crashed r).

(** [TaskRunner()], with its run service bound. *)
Definition start : t := mk true ∅ ∅ 0 ∅ [] [].

(** [d[k] = v] on an insertion-ordered dict keyed by run. *)
Fixpoint meta_set (m : worker_meta) (l : list worker_meta) : list worker_meta :=
  match l with
  | [] => [m]
  | m' :: l' => if bool_decide (meta_run_id m' = meta_run_id m) then m :: l' else m' :: meta_set m l'
  end.

(** [d.pop(run_id, None)] *)
Definition meta_pop (run_id : Z) (l : list worker_meta) : list worker_meta :=
  List.filter (fun m => negb (bool_decide (meta_run_id m = run_id))) l.

(** [f"wt-{run_id}-{uuid4().hex[:8]}"] *)
Definition worker_token_of (run_id : Z) (hex : string) : string :=
  "wt-" +:+ pretty run_id +:+ "-" +:+ hex.

Definition spawn (r : t) (task : Task.t) (run_id : Z) (claim_lock hex : string) (now : Z)
    : t * result string :=
  if negb (run_service_bound r) then (r, Raise RuntimeError)
  else
    let worker_token := worker_token_of run_id hex in
    (r <| next_handle := next_handle r + 1 |>
       <| running_workers := <[run_id := next_handle r]> (running_workers r) |>
       <| token_to_run := <[worker_token := run_id]> (token_to_run r) |>
       <| run_meta := meta_set (mkWorkerMeta run_id (Task.id task) worker_token now) (run_meta r) |>,
     Return worker_token).

(** Pops a run from the active table. *)
Definition pop_run (r : t) (run_id : Z) : t :=
  r <| running_workers := delete run_id (running_workers r) |>
    <| run_meta := meta_pop run_id (run_meta r) |>.

(** The end of [_run_worker] on the task [handle]: its [except] and [finally]
    clauses. *)
Definition run_worker_ends (r : t) (task_id : string) (run_id : Z) (worker_token : string)
    (handle : Z) (ending : worker_end) : t :=
  let r1 := r <| handles := <[handle := ending]> (handles r) |> in
  let r2 := if bool_decide (ending = EndRaised)
            then r1 <| crashed := crashed r1 ++
                   [mkCrashEntry run_id task_id worker_token "worker task raised"] |>
            else r1 in
  let r3 := if bool_decide (running_workers r2 !! run_id = Some handle)
            then pop_run r2 run_id else r2 in
  r3 <| token_to_run := delete worker_token (token_to_run r3) |>.

Definition task_of_run (r : t) (run_id : Z) : string :=
  match List.find (fun m => bool_decide (meta_run_id m = run_id)) (run_meta r) with
  | Some m => meta_task_id m
  | None => ""
  end.

Definition cancel (r : t) (worker_token : string) (ending : option worker_end) : t * bool :=
  match token_to_run r !! worker_token with
  | None => (r, false)
  | Some run_id =>
      let pop_token r := r <| token_to_run := delete worker_token (token_to_run r) |> in
      match running_workers r !! run_id with
      | None => (pop_token r, false)
      | Some handle =>
          if bool_decide (is_Some (handles r !! handle)) then (pop_token r, false)
          else
            let r1 := match ending with
                      | Some e => run_worker_ends r (task_of_run r run_id) run_id worker_token handle e
                      | None => r
                      end in
            (pop_token (pop_run r1 run_id), true)
      end
  end.

(** A worker that is done and was not cancelled. *)
Definition finished (r : t) (run_id : Z) : bool :=
  match running_workers r !! run_id with
  | Some handle =>
      match handles r !! handle with Some EndReturned | Some EndRaised => true | _ => false end
  | None => false
  end.

Definition inspect (r : t) : t * list worker_meta :=
  let r' := r <| running_workers := filter (fun kv => finished r kv.1 = false) (running_workers r) |>
              <| run_meta := List.filter (fun m => negb (finished r (meta_run_id m))) (run_meta r) |> in
  (r', run_meta r').

Definition get_crashed_workers (r : t) : t * list crash_entry := (r <| crashed := [] |>, crashed r).

#[global] Instance dispatcher : TaskDispatcher t := {|
  dispatch_spawn := spawn; dispatch_cancel := cancel;
  dispatch_inspect := inspect; dispatch_crashed := get_crashed_workers |}.

(** The active table describes each run once, and exactly the runs that have a
    handle; every token is one this table issued. *)
Record valid (r : t) : Prop := {
  valid_meta_nodup : NoDup (meta_run_id <$> run_meta r);
  valid_meta_dom : forall run_id, run_id ∈ (meta_run_id <$> run_meta r) <-> is_Some (running_workers r !! run_id);
  valid_handle_fresh : forall run_id h, running_workers r !! run_id = Some h -> h < next_handle r;
  valid_ended_fresh : forall h e, handles r !! h = Some e -> h < next_handle r;
  valid_tokens : forall token run_id, token_to_run r !! token = Some run_id -> starts_with "wt-" token = true
}.

(** The states the runner can be in: its own operations and the ends of the
    workers it started, in any order. *)
Inductive reached : t -> Prop :=
  | reached_start : reached start
  | reached_spawn r task run_id lock hex now :
      reached r -> reached (spawn r task run_id lock hex now).1
  | reached_end r task_id run_id token handle ending :
      reached r -> handle < next_handle r ->
      reached (run_worker_ends r task_id run_id token handle ending)
  | reached_cancel r token ending : reached r -> reached (cancel r token ending).1
  | reached_inspect r : reached r -> reached (inspect r).1
  | reached_crashed r : reached r -> reached (get_crashed_workers r).1.
End TaskRunner.

(** * Helper lemmas *)

Module TaskRunnerFacts.
Import TaskRunner.
#[local] Arguments finished : simpl never.

Lemma meta_set_runs m l run_id :
  run_id ∈ (meta_run_id <$> meta_set m l) <-> run_id = meta_run_id m \/ run_id ∈ (meta_run_id <$> l).
Proof.
  induction l as [|x l IH]; simpl; [rewrite elem_of_cons; set_solver|].
  case_bool_decide as Hx; simpl; rewrite !elem_of_cons, ?IH, ?Hx; tauto.
Qed.

Lemma meta_set_nodup m l :
  NoDup (meta_run_id <$> l) -> NoDup (meta_run_id <$> meta_set m l).
Proof.
  induction l as [|x l IH]; simpl; intros Hnd; [repeat constructor; set_solver|].
  apply NoDup_cons in Hnd as [Hx Hl]. case_bool_decide as Hm; simpl.
  - constructor; [by rewrite <- Hm|done].
  - constructor; [|auto]. rewrite meta_set_runs. intros [?|?]; done.
Qed.

Lemma meta_set_length m l : (length (meta_set m l) <= S (length l))%nat.
Proof. induction l as [|x l IH]; simpl; [lia|]. case_bool_decide; simpl; lia. Qed.

Lemma meta_filter_nodup (f : worker_meta -> bool) l :
  NoDup (meta_run_id <$> l) -> NoDup (meta_run_id <$> List.filter f l).
Proof.
  induction l as [|x l IH]; simpl; intros Hnd; [done|]. apply NoDup_cons in Hnd as [Hx Hl].
  case_match; simpl; [|auto]. constructor; [|auto]. intros (m & Hm & [Hin _]%List_filter_elem)%list_elem_of_fmap.
  apply Hx. rewrite Hm. by apply list_elem_of_fmap_2.
Qed.

Lemma meta_filter_runs (f : Z -> bool) l run_id :
  run_id ∈ (meta_run_id <$> List.filter (fun m => f (meta_run_id m)) l)
  <-> run_id ∈ (meta_run_id <$> l) /\ f run_id = true.
Proof.
  rewrite !list_elem_of_fmap. setoid_rewrite List_filter_elem. split.
  - intros (m & -> & Hin & Hf). eauto.
  - intros [(m & -> & Hin) Hf]. exists m. auto.
Qed.

Lemma meta_pop_runs run_id l rid :
  rid ∈ (meta_run_id <$> meta_pop run_id l) <-> rid ∈ (meta_run_id <$> l) /\ rid <> run_id.
Proof.
  unfold meta_pop. rewrite !list_elem_of_fmap. setoid_rewrite List_filter_elem.
  setoid_rewrite negb_true_iff. setoid_rewrite bool_decide_eq_false. split.
  - intros (m & -> & Hin & Hf). eauto.
  - intros [(m & -> & Hin) Hf]. exists m. auto.
Qed.

Lemma start_valid : valid start.
Proof.
  split; simpl; intros *; rewrite ?lookup_empty; try done; [constructor|].
  rewrite elem_of_nil. split; [done|by intros [? ?]].
Qed.

Lemma starts_with_app p s : starts_with p (p +:+ s) = true.
Proof. induction p as [|c p IH]; simpl; [done|]. by rewrite bool_decide_eq_true_2. Qed.

Lemma spawn_valid_ok r task run_id lock hex now : valid r -> valid (spawn r task run_id lock hex now).1.
Proof.
  intros [Hnd Hdom Hfresh Hended Htok]. unfold spawn. case_match; [by split|].
  split; cbn.
  - by apply meta_set_nodup.
  - intros rid. rewrite meta_set_runs, Hdom. simpl. rewrite lookup_insert_is_Some'. naive_solver.
  - intros rid h Hh. apply lookup_insert_Some in Hh as [[_ <-]|[_ Hh]]; [lia|].
    specialize (Hfresh _ _ Hh). lia.
  - intros h e He. specialize (Hended _ _ He). lia.
  - intros tok rid Hh. apply lookup_insert_Some in Hh as [[<- _]|[_ Hh]]; [|eauto].
    exact (starts_with_app "wt-" (pretty run_id +:+ "-" +:+ hex)).
Qed.

Lemma pop_run_valid r run_id : valid r -> valid (pop_run r run_id).
Proof.
  intros [Hnd Hdom Hfresh Hended Htok]. split; cbn; try done.
  - by apply meta_filter_nodup.
  - intros rid. rewrite meta_pop_runs, Hdom, lookup_delete_is_Some. naive_solver.
  - intros rid h Hh. apply lookup_delete_Some in Hh as [_ Hh]. eauto.
Qed.

Lemma pop_token_valid r tok : valid r -> valid (r <| token_to_run := delete tok (token_to_run r) |>).
Proof.
  intros [Hnd Hdom Hfresh Hended Htok]. split; cbn; try done.
  intros tok' rid Hh. apply lookup_delete_Some in Hh as [_ Hh]. eauto.
Qed.

(** Ends of workers this table started. *)
Lemma run_worker_ends_valid r task_id run_id tok handle ending :
  valid r -> handle < next_handle r -> valid (run_worker_ends r task_id run_id tok handle ending).
Proof.
  intros Hv Hh. unfold run_worker_ends. apply pop_token_valid.
  assert (forall c, valid (r <| handles := <[handle := ending]> (handles r) |> <| crashed := c |>)) as Hr.
  { intros c. destruct Hv as [Hnd Hdom Hfresh Hended Htok]. split; cbn; try done.
    intros h e He. apply lookup_insert_Some in He as [[<- _]|[_ He]]; eauto. }
  assert (r <| handles := <[handle := ending]> (handles r) |>
          = r <| handles := <[handle := ending]> (handles r) |> <| crashed := crashed r |>) as Hid
    by by destruct r.
  case_bool_decide; case_bool_decide; try apply pop_run_valid; first [apply Hr | rewrite Hid; apply Hr].
Qed.

Lemma cancel_valid_ok r tok ending : valid r -> valid (cancel r tok ending).1.
Proof.
  intros Hv. unfold cancel. destruct (token_to_run r !! tok) as [rid|] eqn:Htok; [|done].
  destruct (running_workers r !! rid) as [h|] eqn:Hrun; [|by apply pop_token_valid].
  case_bool_decide; [by apply pop_token_valid|]. cbn [fst].
  apply pop_token_valid, pop_run_valid. destruct ending; [|done].
  apply run_worker_ends_valid; [done|]. by eapply valid_handle_fresh.
Qed.

Lemma inspect_runs r rid :
  rid ∈ (meta_run_id <$> (inspect r).2)
  <-> rid ∈ (meta_run_id <$> run_meta r) /\ finished r rid = false.
Proof.
  pose proof (meta_filter_runs (fun k => negb (finished r k)) (run_meta r) rid) as H.
  by rewrite negb_true_iff in H.
Qed.

Lemma inspect_workers r rid :
  is_Some (running_workers (inspect r).1 !! rid)
  <-> is_Some (running_workers r !! rid) /\ finished r rid = false.
Proof.
  change (running_workers (inspect r).1)
    with (filter (fun kv : Z * Z => finished r kv.1 = false) (running_workers r)). split.
  - intros [h [Hh Hf]%map_lookup_filter_Some]. eauto.
  - intros [[h Hh] Hf]. exists h. by apply map_lookup_filter_Some.
Qed.

Lemma inspect_valid_ok r : valid r -> valid (inspect r).1.
Proof.
  intros [Hnd Hdom Hfresh Hended Htok]. split; [| | |exact Hended|exact Htok].
  - by apply (meta_filter_nodup (fun m => negb (finished r (meta_run_id m)))).
  - intros rid. rewrite inspect_workers, <- Hdom. apply inspect_runs.
  - intros rid h Hh.
    apply (Hfresh rid). by apply (map_lookup_filter_Some (fun kv : Z * Z => finished r kv.1 = false)) in Hh as [Hh _].
Qed.

Lemma active_runs_elem r rid :
  rid ∈ active_runs r <-> rid ∈ (meta_run_id <$> run_meta r) /\ finished r rid = false.
Proof. apply inspect_runs. Qed.

Lemma active_runs_nodup r : valid r -> NoDup (active_runs r).
Proof. intros Hv. apply (meta_filter_nodup (fun m => negb (finished r (meta_run_id m)))), Hv. Qed.

(** Only the handle of a run and its ending decide whether it is finished. *)
Lemma finished_inspect r rid : finished r rid = false -> finished (inspect r).1 rid = false.
Proof.
  intros Hf. unfold finished at 1. destruct (running_workers (inspect r).1 !! rid) as [h|] eqn:E; [|done].
  apply (map_lookup_filter_Some (fun kv : Z * Z => finished r kv.1 = false)) in E as [E _].
  change (handles (inspect r).1) with (handles r). unfold finished in Hf. by rewrite E in Hf.
Qed.

Lemma inspect_stable_ok r : active_runs (inspect r).1 = active_runs r.
Proof.
  change (meta_run_id <$> List.filter (fun m => negb (finished (inspect r).1 (meta_run_id m))) (inspect r).2
          = meta_run_id <$> (inspect r).2).
  f_equal. apply List_filter_all, Forall_forall. intros m Hm. apply negb_true_iff, finished_inspect.
  apply List_filter_elem in Hm as [_ Hm]. by apply negb_true_iff.
Qed.

Lemma spawn_active r task run_id lock hex now rid :
  valid r -> (spawn r task run_id lock hex now).2 <> Raise RuntimeError ->
  rid ∈ active_runs (spawn r task run_id lock hex now).1
  <-> rid = run_id \/ rid ∈ active_runs r.
Proof.
  intros Hv. rewrite !active_runs_elem. unfold spawn. destruct (run_service_bound r); simpl; [|done].
  intros _. rewrite meta_set_runs. simpl. unfold finished. cbn.
  destruct (decide (rid = run_id)) as [->|Hne].
  - rewrite lookup_insert_eq. destruct (handles r !! next_handle r) eqn:E; [|tauto].
    apply (valid_ended_fresh _ Hv) in E. lia.
  - rewrite lookup_insert_ne by done. tauto.
Qed.

#[global] Instance dispatcher_laws : DispatcherLaws t valid.
Proof.
  split; intros *; simpl.
  - apply spawn_valid_ok.
  - apply cancel_valid_ok.
  - apply inspect_valid_ok.
  - by intros [].
  - intros _. apply inspect_stable_ok.
  - intros Hv. destruct (run_service_bound d) eqn:Hb.
    + change (S (length (active_runs d))) with (length (run_id :: active_runs d)).
      apply submseteq_length, NoDup_submseteq; [by apply active_runs_nodup, spawn_valid_ok|].
      intros rid Hrid. apply spawn_active in Hrid; [|done|unfold spawn; by rewrite Hb].
      apply elem_of_cons. tauto.
    + unfold spawn. rewrite Hb. simpl. lia.
  - intros Hv Hret. apply spawn_active; [done| |by left]. by rewrite Hret.
  - intros Hv. unfold spawn. by destruct (run_service_bound d).
  - done.
  - done.
Qed.
End TaskRunnerFacts.

(** * Theorems *)

Lemma reached_valid r : TaskRunner.reached r -> TaskRunner.valid r.
Proof.
  induction 1; auto using TaskRunnerFacts.start_valid, TaskRunnerFacts.spawn_valid_ok,
    TaskRunnerFacts.run_worker_ends_valid, TaskRunnerFacts.cancel_valid_ok,
    TaskRunnerFacts.inspect_valid_ok.
  by destruct IHreached.
Qed.

(** The laws hold over the reachable states too. *)
#[global] Instance reached_laws : DispatcherLaws TaskRunner.t TaskRunner.reached.
Proof.
  split; intros *; try (intros Hr%reached_valid; revert Hr; apply TaskRunnerFacts.dispatcher_laws).
  - apply TaskRunner.reached_spawn.
  - apply TaskRunner.reached_cancel.
  - apply TaskRunner.reached_inspect.
  - apply TaskRunner.reached_crashed.
  - reflexivity.
Qed.

(** The worker table is exact whatever the event loop does: [inspect] lists
    each run once, and lists exactly the runs whose current handle has neither
    returned nor raised; a worker that ends late, after its run got another
    handle, changes no entry of the table; and a token the runner did not issue
    (none starts otherwise than by [wt-]) cancels nothing. *)
Theorem worker_table_exact r :
  TaskRunner.reached r ->
  NoDup (active_runs r)
  /\ (forall run_id, run_id ∈ active_runs r <->
        exists h, TaskRunner.running_workers r !! run_id = Some h
        /\ TaskRunner.handles r !! h <> Some EndReturned
        /\ TaskRunner.handles r !! h <> Some EndRaised)
  /\ (forall task_id run_id token handle ending,
        TaskRunner.running_workers r !! run_id <> Some handle ->
        let r' := TaskRunner.run_worker_ends r task_id run_id token handle ending in
        TaskRunner.running_workers r' = TaskRunner.running_workers r
        /\ TaskRunner.run_meta r' = TaskRunner.run_meta r)
  /\ (forall token ending, starts_with "wt-" token = false ->
        TaskRunner.cancel r token ending = (r, false)).
Proof.
  intros Hv%reached_valid. split_and!.
  - by apply TaskRunnerFacts.active_runs_nodup.
  - intros run_id. rewrite TaskRunnerFacts.active_runs_elem, (TaskRunner.valid_meta_dom _ Hv).
    unfold TaskRunner.finished. split.
    + intros [[h Hh] Hf]. rewrite Hh in Hf. exists h.
      split; [done|]. by destruct (TaskRunner.handles r !! h) as [[]|].
    + intros (h & Hh & H1 & H2). rewrite Hh. split; [eauto|].
      by destruct (TaskRunner.handles r !! h) as [[]|].
  - intros * Hne. unfold TaskRunner.run_worker_ends.
    destruct (bool_decide (ending = EndRaised)); cbn; by rewrite bool_decide_eq_false_2.
  - intros token ending Htok. unfold TaskRunner.cancel.
    destruct (TaskRunner.token_to_run r !! token) as [rid|] eqn:E; [|done].
    apply (TaskRunner.valid_tokens _ Hv) in E. congruence.
Qed.

Lemma worker_table_exact_witness :
  let r := (TaskRunner.spawn TaskRunner.start (Task.defaults "t" "x") 7 "L" "0a" 1).1 in
  active_runs r = [7] /\ NoDup (active_runs r)
  /\ TaskRunner.cancel r "4f1b" (Some EndCancelled) = (r, false).
Proof.
  intros r. split; [vm_compute; reflexivity|].
  destruct (worker_table_exact r) as (H & _ & _ & Hc); [repeat constructor|].
  split; [done|]. by apply Hc.
Defined.
