(* ===== verification/TaskWorld.v ===== *)
(** The state the task services share and the monad their methods run in: the
    registry's tables, the dispatcher, and the messages sent so far. *)
From S2P Require Import Prelude TaskDomain TaskStore TaskStoreInv Dispatcher.

(** * Messages

    What the services send or do outside the registry, by what it carries; the wording around the data is
    not modelled, so a message text is a constructor with its arguments. *)

Inductive text : Type :=
  | TextStarted (task_id title : string)
  | TextWaiting (task_id title proposal : string)
  | TextSucceeded (task_id title summary : string)
  | TextFailed (task_id title reason : string)
  | TextCancelled (task_id title : string)
  | TextExpired (task_id title : string)
  | TextApproved (task_id title : string)
  | TextRejected (task_id title : string)
  | TextRevised (task_id title note : string)
  | ResultSucceeded (title summary : string)
  | ResultFailed (title reason : string)
  | ResultCancelled (title : string)
  | ResultExpired (title : string).

Record card := mkCard {
  card_task_id : string; card_status : string; card_title : string; card_summary : string;
  card_actions : list string; card_interaction_type : option string }.

Inductive message : Type :=
  | MsgLifecycle (session : string) (content : text) (payload : option card)
  | MsgResult (session : string) (content : text)
  | MsgNotify (task_id : string) (terminal_event_id : Z)
  | MsgArtifact (session name artifact_id : string)
  | DeleteFile (path : string)
  | DeleteArtifacts (task_id : string)
  | DeleteSession (session : string)
  | WriteFile (path : string)
  | RegisterAttachment (attachment_id : string).

(** * The world and its monad *)

Record world (D : Type) := mkWorld { store : db; disp : D; sent : list message }.
Arguments mkWorld {D} _ _ _.
Arguments store {D} _.
Arguments disp {D} _.
Arguments sent {D} _.

(** A method: it changes the world, and returns or raises. *)
Definition M (D A : Type) : Type := world D -> world D * result A.

#[global] Instance M_ret D : MRet (M D) := fun A a w => (w, Return a).
#[global] Instance M_bind D : MBind (M D) := fun A B k m w =>
  match m w with
  | (w', Return a) => k a w'
  | (w', Raise e) => (w', Raise e)
  end.

Section world.
Context {D : Type}.

Definition raise {A} (e : py_exc) : M D A := fun w => (w, Raise e).

(** [try: m except ...: h], where [handles] picks the exceptions caught. *)
Definition try_except {A} (handles : py_exc -> bool) (m : M D A) (h : py_exc -> M D A) : M D A :=
  fun w => match m w with
           | (w', Raise e) => if handles e then h e w' else (w', Raise e)
           | r => r
           end.

Definition any_exception (_ : py_exc) : bool := true.
Definition conflict_or_missing (e : py_exc) : bool :=
  bool_decide (e ∈ [TaskConflictError; TaskNotFoundError]).

(** A registry call that can raise, one that cannot, and a query. *)
Definition registry {A} (f : db -> db * result A) : M D A := fun w =>
  let '(d', r) := f (store w) in (mkWorld d' (disp w) (sent w), r).
Definition registry_total {A} (f : db -> db * A) : M D A := fun w =>
  let '(d', a) := f (store w) in (mkWorld d' (disp w) (sent w), Return a).
Definition query {A} (f : db -> A) : M D A := fun w => (w, Return (f (store w))).

(** A dispatcher call. *)
Definition dispatch {A} (f : D -> D * A) : M D A := fun w =>
  let '(p, a) := f (disp w) in (mkWorld (store w) p (sent w), Return a).
Definition dispatch_raising {A} (f : D -> D * result A) : M D A := fun w =>
  let '(p, r) := f (disp w) in (mkWorld (store w) p (sent w), r).

Definition send (m : message) : M D unit := fun w =>
  (mkWorld (store w) (disp w) (sent w ++ [m]), Return tt).

(** [for x in xs: body(x)] *)
Fixpoint for_each {A} (xs : list A) (body : A -> M D unit) : M D unit :=
  match xs with
  | [] => mret tt
  | x :: xs => _ ← body x; for_each xs body
  end.

(** A loop that counts the iterations whose body returns true. *)
Fixpoint count_each {A} (xs : list A) (body : A -> M D bool) : M D Z :=
  match xs with
  | [] => mret 0
  | x :: xs => hit ← body x; n ← count_each xs body; mret (if hit : bool then 1 + n else n)
  end.

(** [store] predicates a method keeps: the registry stays in a state its own
    operations can reach. *)
Definition keeps_reachable {A} (m : M D A) : Prop :=
  forall w, reachable (store w) -> reachable (store (m w).1).

(** Writing of [exec] as the store half of a registry call. *)
Definition runs_op (d d' : db) : Prop := d' = d \/ exists o, op_ok d o /\ d' = exec d o.
End world.

(** * Lemmas: what [keeps_reachable] is closed under *)

Section keeps.
Context {D : Type}.

Lemma bind_return {A B} (m : M D A) (k : A -> M D B) w w' a :
  m w = (w', Return a) -> (m ≫= k) w = k a w'.
Proof. unfold mbind, M_bind. by intros ->. Qed.

Lemma bind_raise {A B} (m : M D A) (k : A -> M D B) w w' e :
  m w = (w', Raise e) -> (m ≫= k) w = (w', Raise e).
Proof. unfold mbind, M_bind. by intros ->. Qed.

Lemma keeps_ret {A} (a : A) : keeps_reachable (mret a : M D A).
Proof. by intros w. Qed.

Lemma keeps_raise {A} e : keeps_reachable (raise e : M D A).
Proof. by intros w. Qed.

Lemma keeps_bind {A B} (m : M D A) (k : A -> M D B) :
  keeps_reachable m -> (forall a, keeps_reachable (k a)) -> keeps_reachable (m ≫= k).
Proof.
  intros Hm Hk w Hw. unfold mbind, M_bind. specialize (Hm w Hw).
  destruct (m w) as [w' [a|e]]; simpl in *; [by apply Hk|done].
Qed.

Lemma keeps_try {A} hs (m : M D A) h :
  keeps_reachable m -> (forall e, keeps_reachable (h e)) -> keeps_reachable (try_except hs m h).
Proof.
  intros Hm Hh w Hw. unfold try_except. specialize (Hm w Hw).
  destruct (m w) as [w' [a|e]]; simpl in *; [done|]. destruct (hs e); [by apply Hh|done].
Qed.

Lemma keeps_query {A} (f : db -> A) : keeps_reachable (query f : M D A).
Proof. by intros w. Qed.

Lemma keeps_send m : keeps_reachable (send m : M D unit).
Proof. by intros w. Qed.

Lemma keeps_dispatch {A} (f : D -> D * A) : keeps_reachable (dispatch f).
Proof. intros w. unfold dispatch. by destruct (f (disp w)). Qed.

Lemma keeps_dispatch_raising {A} (f : D -> D * result A) : keeps_reachable (dispatch_raising f).
Proof. intros w. unfold dispatch_raising. by destruct (f (disp w)). Qed.

Lemma runs_op_reachable d d' : reachable d -> runs_op d d' -> reachable d'.
Proof. intros H [->|(o & Ho & ->)]; auto with agent. Qed.

Lemma keeps_registry {A} (f : db -> db * result A) :
  (forall d, reachable d -> runs_op d (f d).1) -> keeps_reachable (registry f : M D A).
Proof.
  intros Hf w Hw. unfold registry. specialize (Hf _ Hw). destruct (f (store w)); simpl in *.
  by eapply runs_op_reachable.
Qed.

Lemma keeps_registry_total {A} (f : db -> db * A) :
  (forall d, reachable d -> runs_op d (f d).1) -> keeps_reachable (registry_total f : M D A).
Proof.
  intros Hf w Hw. unfold registry_total. specialize (Hf _ Hw). destruct (f (store w)); simpl in *.
  by eapply runs_op_reachable.
Qed.

Lemma keeps_for_each {A} (xs : list A) (body : A -> M D unit) :
  (forall x, keeps_reachable (body x)) -> keeps_reachable (for_each xs body).
Proof. intros Hb. induction xs; simpl; auto using keeps_ret, keeps_bind. Qed.

Lemma keeps_count_each {A} (xs : list A) (body : A -> M D bool) :
  (forall x, keeps_reachable (body x)) -> keeps_reachable (count_each xs body).
Proof.
  intros Hb. induction xs; simpl; [apply keeps_ret|]. apply keeps_bind; [done|]. intros hit.
  apply keeps_bind; [done|]. intros n. apply keeps_ret.
Qed.
End keeps.

#[export] Hint Resolve keeps_ret keeps_raise keeps_query keeps_send keeps_dispatch
  keeps_dispatch_raising : agent.
