(* ===== verification/RunService.v ===== *)
(** TaskRunService (app/application/task_run_service.py): the dispatch tick, the
    single path that ends a run, and the recovery of dead workers.

    The methods are in the monad of TaskWorld.v.  [wiring] is what the
    constructor injects besides the registry and the dispatcher; a writer is
    known by whether it is present, since what it raises is swallowed.  [now]
    stands for the clock readings of one call, [ids] for its [uuid4] values,
    [exc_text] for the text of an exception a spawn raises. *)
From S2P Require Import Prelude TaskSettings TaskDomain TaskStore TaskStoreInv Dispatcher TaskWorld.

(** * Data *)

Record TaskArtifact := mkTaskArtifact {
  art_type : string; art_name : string; art_mime : string; art_size : Z;
  art_storage_ref : string; art_source_task_id : string; art_summary : string;
  art_checksum : string; art_content : option string }.

(** One entry of an agent result's [artifacts]: the keys of a dict that
    [_normalize_artifacts] reads, or a value that is not a dict. *)
Inductive raw_artifact : Type :=
  | RawDict (type name storage_ref content mime summary checksum : option string) (size : option Z)
  | RawOther (str : string).

Record TaskAgentResult := mkTaskAgentResult {
  res_status : TaskRunOutcome.t;
  res_output : option string;
  res_error : option string;
  res_metadata : list (string * json);
  res_artifacts : list raw_artifact
}.

(** What the execution of a claim comes to. *)
Inductive execution : Type :=
  | ExecReturned (r : TaskAgentResult)
  | ExecTimedOut
  | ExecRunCancelled
  | ExecRaised (message : string).

(** The outcome of an injected artifact callback. *)
Inductive callback (A : Type) : Type := CbSome (a : A) | CbNone | CbRaises.
Arguments CbSome {A} _.
Arguments CbNone {A}.
Arguments CbRaises {A}.

Record wiring := mkWiring {
  uuid5 : string -> string;
  lifecycle_writer : bool;
  result_writer : bool;
  artifact_writer : bool;
  notifier : bool;
  artifact_normalizer : option (raw_artifact -> Task.t -> callback TaskArtifact);
  artifact_register_callback : option (TaskArtifact -> string -> Z -> Z -> callback string)
}.

(** The identifiers a claim draws: of the lock, of the registry's worker token
    and of the runner's. *)
Record claim_ids := mkClaimIds { lock_hex : string; token_hex : string; worker_hex : string }.

(** * Session of a task (task_session.py) *)

Definition task_session_id_fallback (uuid5 : string -> string) (task_id : string) : string :=
  "task-" +:+ uuid5 task_id.

Definition task_execution_session_id (uuid5 : string -> string) (task : Task.t) : string :=
  match Task.execution_session_id task with
  | Some s => if truthy_str s then s
              else str_or (Task.origin_session_id task) (task_session_id_fallback uuid5 (Task.id task))
  | None => str_or (Task.origin_session_id task) (task_session_id_fallback uuid5 (Task.id task))
  end.

(** * Decisions and texts *)

Definition NOTIFIED_TARGET_STATUSES : list TaskStatus.t :=
  [TaskStatus.SUCCEEDED; TaskStatus.WAITING_APPROVAL; TaskStatus.FAILED;
   TaskStatus.CANCELLED; TaskStatus.EXPIRED].

Definition TASK_SUMMARY_CHAT_MAX_BYTES : Z := 65536.

Definition decide_target_status (task : Task.t) (outcome : TaskRunOutcome.t) : TaskStatus.t :=
  match outcome with
  | TaskRunOutcome.COMPLETED => TaskStatus.SUCCEEDED
  | TaskRunOutcome.WAITING_APPROVAL => TaskStatus.WAITING_APPROVAL
  | TaskRunOutcome.TERMINATED => TaskStatus.CANCELLED
  | TaskRunOutcome.ABORTED => TaskStatus.FAILED
  | TaskRunOutcome.EXPIRED => TaskStatus.EXPIRED
  | TaskRunOutcome.CRASHED | TaskRunOutcome.TIMED_OUT => TaskStatus.EXPIRED
  | TaskRunOutcome.FAILED | TaskRunOutcome.SPAWN_FAILED =>
      let request := mkTaskPolicyRequest TaskStatus.RUNNING TaskStatus.QUEUED
                       (Task.consecutive_failures task + 1) (Task.max_retries task) in
      if bool_decide (TaskPolicy.evaluate request = PolicyOutcome.DENY)
      then TaskStatus.FAILED else TaskStatus.QUEUED
  end.

(** [x or y or ''] *)
Definition or_empty (x y : option string) : string := str_or x (str_or y "").

Definition lifecycle_text (task : Task.t) (target : TaskStatus.t) (summary error : option string)
    : option text :=
  let id := Task.id task in
  let title := Task.title task in
  match target with
  | TaskStatus.WAITING_APPROVAL => Some (TextWaiting id title (str_or summary ""))
  | TaskStatus.SUCCEEDED => Some (TextSucceeded id title (str_or summary ""))
  | TaskStatus.FAILED => Some (TextFailed id title (or_empty error summary))
  | TaskStatus.CANCELLED => Some (TextCancelled id title)
  | TaskStatus.EXPIRED => Some (TextExpired id title)
  | _ => None
  end.

Definition EXPIRED_CARD_SUMMARY : string := "任务运行已过期".

Definition lifecycle_card (task : Task.t) (target : TaskStatus.t) (summary error : option string)
    (interaction_type : option string) : option card :=
  match available_lifecycle_actions target interaction_type with
  | [] => None
  | actions =>
      let card_summary := match target with
        | TaskStatus.WAITING_APPROVAL => str_or summary ""
        | TaskStatus.FAILED => or_empty error summary
        | TaskStatus.EXPIRED => str_or error (str_or summary EXPIRED_CARD_SUMMARY)
        | _ => ""
        end in
      Some (mkCard (Task.id task) (TaskStatus.value target) (Task.title task) card_summary actions
              (if bool_decide (target = TaskStatus.WAITING_APPROVAL)
               then Some (str_or interaction_type "approval") else None))
  end.

Definition terminal_result_text (task : Task.t) (target : TaskStatus.t) (summary error : option string)
    : option text :=
  let title := Task.title task in
  match target with
  | TaskStatus.SUCCEEDED => Some (ResultSucceeded title (strip (str_or summary "")))
  | TaskStatus.FAILED => Some (ResultFailed title (strip (or_empty error summary)))
  | TaskStatus.CANCELLED => Some (ResultCancelled title)
  | TaskStatus.EXPIRED => Some (ResultExpired title)
  | _ => None
  end.

(** * Artifacts *)

Definition normalize_artifact (w : wiring) (task : Task.t) (raw : raw_artifact)
    : option TaskArtifact :=
  let '(ty, name, ref, content, mime, summary, checksum, size) :=
    match raw with
    | RawDict ty name ref content mime summary checksum size =>
        (str_or ty "", str_or name "", str_or ref "", str_or content "", mime, summary, checksum, size)
    | RawOther s => ("unknown", s, "", "", None, None, None, None)
    end in
  if negb (truthy_str ty) || negb (truthy_str name)
     || (negb (truthy_str ref) && negb (truthy_str content))
  then None
  else match artifact_normalizer w with
       | Some normalize =>
           match normalize raw task with CbSome a => Some a | CbNone | CbRaises => None end
       | None =>
           Some (mkTaskArtifact ty name (str_or mime "") (default 0 size) ref (Task.id task)
                   (str_or summary "") (str_or checksum "")
                   (if truthy_str content then Some content else None))
       end.

Definition normalize_artifacts (w : wiring) (raws : list raw_artifact) (task : Task.t)
    : list TaskArtifact := omap (normalize_artifact w task) raws.

(** Registers each artifact under its ordinal; failures are skipped. *)
Definition invoke_artifact_callbacks (w : wiring) (artifacts : list TaskArtifact)
    (task_id : string) (run_id : Z) : list (TaskArtifact * string) :=
  match artifact_register_callback w with
  | None => []
  | Some register =>
      omap (fun '(ordinal, a) =>
              match register a task_id run_id (Z.of_nat ordinal) with
              | CbSome art_id => Some (a, art_id)
              | CbNone | CbRaises => None
              end) (imap pair artifacts)
  end.

(** [len(s.encode("utf-8"))] *)
Definition utf8_len (s : string) : Z :=
  foldr (fun c n => n + (if (Ascii.nat_of_ascii c <? 128)%nat then 1 else 2)) 0 (chars s).

(** [(task.title or 'task-summary').strip()[:60] or 'task-summary'] *)
Definition auto_artifact_name (task : Task.t) : string :=
  let title := String.substring 0 60 (strip (str_or (Some (Task.title task)) "task-summary")) in
  str_or (Some title) "task-summary" +:+ ".md".

Definition auto_summary_artifact (task : Task.t) (summary : string) : TaskArtifact :=
  mkTaskArtifact "markdown" (auto_artifact_name task) "text/markdown" (utf8_len summary) ""
    (Task.id task) "" "" (Some summary).

(** * The service *)

Section service.
Context {D : Type} `{TaskDispatcher D}.
Context (w : wiring) (cfg : TaskConfig).

Definition write_lifecycle (task : Task.t) (content : text) (payload : option card) : M D unit :=
  if lifecycle_writer w
  then send (MsgLifecycle (task_execution_session_id (uuid5 w) task) content payload)
  else mret tt.

Definition write_result (task : Task.t) (content : text) : M D unit :=
  if result_writer w
  then send (MsgResult (task_execution_session_id (uuid5 w) task) content) else mret tt.

Definition write_artifact (task : Task.t) (a : TaskArtifact) (artifact_id : string) : M D unit :=
  if artifact_writer w
  then send (MsgArtifact (task_execution_session_id (uuid5 w) task) (art_name a) artifact_id)
  else mret tt.

Definition write_lifecycle_for_status (task : Task.t) (target : TaskStatus.t)
    (summary error interaction_type : option string) : M D unit :=
  match lifecycle_text task target summary error with
  | None => mret tt
  | Some content =>
      write_lifecycle task content (lifecycle_card task target summary error interaction_type)
  end.

Definition write_result_if_terminal (task : Task.t) (target : TaskStatus.t)
    (summary error : option string) : M D unit :=
  match terminal_result_text task target summary error with
  | None => mret tt
  | Some content => write_result task content
  end.

Definition notify_if_terminal (r : FinishRunResult) (target : TaskStatus.t) : M D unit :=
  if notifier w && bool_decide (target ∈ NOTIFIED_TARGET_STATUSES)
  then send (MsgNotify (Task.id (finished_task r)) (TaskEvent.id (terminal_event r)))
  else mret tt.

(** The fallback for a long summary without artifacts. *)
Definition promote_summary (task : Task.t) (run_id : Z) (summary : option string)
    (target : TaskStatus.t) (registered : list (TaskArtifact * string)) : M D unit :=
  match registered, summary, artifact_register_callback w with
  | [], Some s, Some register =>
      if truthy_str s && bool_decide (target = TaskStatus.SUCCEEDED)
         && (TASK_SUMMARY_CHAT_MAX_BYTES <? utf8_len s)
      then let a := auto_summary_artifact task s in
           match register a (Task.id task) run_id (-1) with
           | CbSome art_id => write_artifact task a art_id
           | CbNone | CbRaises => mret tt
           end
      else mret tt
  | _, _, _ => mret tt
  end.

Definition finish (task : Task.t) (run_id : Z) (lock : string) (outcome : TaskRunOutcome.t)
    (summary error : option string) (metadata : list (string * json))
    (artifacts : list TaskArtifact) (interaction_type : option string) (now : Z)
    : M D (option FinishRunResult) :=
  let target := decide_target_status task outcome in
  let command := mkFinishRunCommand (Task.id task) run_id lock outcome
                   (Some (str_or summary "")) metadata (Some target) error in
  finished ← try_except conflict_or_missing
    (r ← registry (fun d => finish_run_sync d command now); mret (Some r))
    (fun _ => mret None);
  match finished with
  | None => mret None
  | Some r =>
      _ ← write_lifecycle_for_status (finished_task r) target summary error interaction_type;
      _ ← write_result_if_terminal (finished_task r) target summary error;
      _ ← notify_if_terminal r target;
      let registered := invoke_artifact_callbacks w artifacts (Task.id task) run_id in
      _ ← for_each registered (fun '(a, art_id) => write_artifact task a art_id);
      _ ← promote_summary task run_id summary target registered;
      mret (Some r)
  end.

(** ** Claiming *)

Definition handle_spawn_failure (c : ClaimResult) (error : string) (now : Z) : M D unit :=
  _ ← finish (claimed_task c) (TaskRun.id (claimed_run c))
        (str_or (TaskRun.claim_lock (claimed_run c)) "") TaskRunOutcome.SPAWN_FAILED
        None (Some error) [] [] None now;
  mret tt.

Definition claim_and_spawn (task : Task.t) (ids : claim_ids) (exc_text : string) (now : Z)
    : M D (option string) :=
  let claim_lock := "cl-" +:+ lock_hex ids in
  claim ← registry_total (fun d =>
    claim_task_sync d (Task.id task) claim_lock (token_hex ids) (task_lease_seconds cfg) now);
  match claim with
  | None => mret None
  | Some c =>
      try_except any_exception
        (token ← dispatch_raising (fun p =>
           dispatch_spawn p (claimed_task c) (TaskRun.id (claimed_run c)) claim_lock (worker_hex ids) now);
         mret (Some token))
        (fun _ => _ ← handle_spawn_failure c exc_text now; mret None)
  end.

(** ** Workers *)

Definition has_active_worker (run_id : Z) : M D bool :=
  active ← dispatch dispatch_inspect;
  mret (existsb (fun m => meta_run_id m =? run_id) active).

Definition active_worker_count : M D Z :=
  active ← dispatch dispatch_inspect; mret (Z.of_nat (length active)).

Definition cancel_worker_if_active (task : Task.t) (run_id : Z) (ending : option worker_end)
    : M D bool :=
  has_active ← has_active_worker run_id;
  if negb has_active || negb (truthy_opt_str (Task.worker_token task)) then mret false
  else dispatch (fun p => dispatch_cancel p (default "" (Task.worker_token task)) ending).

(** ** Recovery *)

(** What both recoveries do once they have decided to reclaim a run. *)
Definition reclaim (task_id : string) (run_id : Z) (lock : string) (outcome : TaskRunOutcome.t)
    (error : string) (now : Z) : M D bool :=
  try_except conflict_or_missing
    (r ← registry (fun d =>
       recover_run_sync d (mkRecoverRunCommand task_id run_id lock outcome (Some error)) now);
     _ ← write_lifecycle_for_status (finished_task r) TaskStatus.EXPIRED None None None;
     _ ← write_result_if_terminal (finished_task r) TaskStatus.EXPIRED None None;
     _ ← notify_if_terminal r TaskStatus.EXPIRED;
     mret true)
    (fun _ => mret false).

Definition recover_crashed_worker (now : Z) (entry : crash_entry) : M D bool :=
  found ← query (fun d => get_task_sync d (crash_task_id entry));
  match found with
  | Some task =>
      if bool_decide (Task.status task = TaskStatus.RUNNING)
         && bool_decide (Task.current_run_id task = Some (crash_run_id entry))
      then reclaim (crash_task_id entry) (crash_run_id entry) (str_or (Task.claim_lock task) "")
             TaskRunOutcome.CRASHED (crash_error entry) now
      else mret false
  | None => mret false
  end.

Definition recover_crashed_workers (now : Z) : M D Z :=
  crashed ← dispatch dispatch_crashed;
  count_each crashed (recover_crashed_worker now).

(** Whether a run whose worker is [active] is due to be reclaimed. *)
Definition stale_execution (task : Task.t) (active : bool) (now : Z) : bool :=
  if active then Task.is_stale task now (task_heartbeat_timeout_seconds cfg)
  else match Task.claim_expires task with Some e => negb (now <? e) | None => true end.

Definition recover_stale_execution (now : Z) (task : Task.t) : M D bool :=
  match Task.claim_lock task, Task.current_run_id task with
  | Some lock, Some run_id =>
      active ← has_active_worker run_id;
      if stale_execution task active now
      then reclaim (Task.id task) run_id lock TaskRunOutcome.EXPIRED
             "lease expired or heartbeat stale" now
      else mret false
  | _, _ => mret false
  end.

Definition recover_stale_executions (now : Z) : M D Z :=
  running ← query (fun d => list_running_sync d "default");
  count_each running (recover_stale_execution now).

(** ** The tick *)

Record tick_report := mkTickReport {
  recovered_crashed : Z; recovered_stale : Z; spawned : Z; spawn_failures : Z }.

(** The registry's order again: [(-priority, created_at or now, id)]. *)
Definition tick_leb (now : Z) (a b : Task.t) : bool :=
  let ca := default now (Task.created_at a) in
  let cb := default now (Task.created_at b) in
  (Task.priority b <? Task.priority a)
  || ((Task.priority a =? Task.priority b)
      && ((ca <? cb) || ((ca =? cb) && str_leb (Task.id a) (Task.id b)))).

Fixpoint spawn_loop (ids : string -> claim_ids) (exc_text : string) (active now : Z) (queue : list Task.t)
    (ok failed : Z) : M D (Z * Z) :=
  match queue with
  | [] => mret (ok, failed)
  | task :: queue =>
      if task_max_concurrency cfg <=? active + ok then mret (ok, failed)
      else
        started ← try_except any_exception
          (r ← claim_and_spawn task (ids (Task.id task)) exc_text now;
           mret (bool_decide (is_Some r)))
          (fun _ => mret false);
        if started : bool then spawn_loop ids exc_text active now queue (ok + 1) failed
        else spawn_loop ids exc_text active now queue ok (failed + 1)
  end.

Definition dispatch_once (ids : string -> claim_ids) (exc_text : string) (now : Z) : M D tick_report :=
  crashed ← recover_crashed_workers now;
  stale ← recover_stale_executions now;
  queued ← query (fun d => list_queued_due_sync d now 100 "default");
  active ← active_worker_count;
  counts ← spawn_loop ids exc_text active now (order_by (tick_leb now) queued) 0 0;
  mret (mkTickReport crashed stale counts.1 counts.2).

(** ** The worker's own path *)

(** [timeout] of the execution: less than the lease. *)
Definition run_timeout (task : Task.t) : Z :=
  let max_runtime := match Task.max_runtime_seconds task with
                     | Some n => if n =? 0 then task_max_runtime_seconds cfg else n
                     | None => task_max_runtime_seconds cfg
                     end in
  Z.min max_runtime (task_lease_seconds cfg - 1).

Definition agent_result_of (task : Task.t) (x : execution) : TaskAgentResult :=
  match x with
  | ExecReturned r => r
  | ExecTimedOut => mkTaskAgentResult TaskRunOutcome.TIMED_OUT None
      (Some ("execution timed out after " +:+ pretty (run_timeout task) +:+ "s")) [] []
  | ExecRunCancelled =>
      mkTaskAgentResult TaskRunOutcome.TERMINATED None (Some "terminated by request") [] []
  | ExecRaised m => mkTaskAgentResult TaskRunOutcome.CRASHED None (Some ("execution error: " +:+ m)) [] []
  end.

Definition finalize_agent_result (task : Task.t) (run_id : Z) (lock : string) (r : TaskAgentResult)
    (now : Z) : M D unit :=
  _ ← finish task run_id lock (res_status r) (Some (or_empty (res_output r) (res_error r)))
        (res_error r) (res_metadata r) (normalize_artifacts w (res_artifacts r) task) None now;
  mret tt.

(** [execute] is the executor's run, whatever it does to the world. *)
Definition run_claim (task : Task.t) (run_id : Z) (lock : string) (execute : M D execution) (now : Z)
    : M D string :=
  _ ← write_lifecycle task (TextStarted (Task.id task) (Task.title task)) None;
  x ← execute;
  let r := agent_result_of task x in
  _ ← finalize_agent_result task run_id lock r now;
  mret (TaskRunOutcome.value (res_status r)).

Inductive finalize_status := Finalized | FinalizeConflict.

Definition finalize_propose (task_id : string) (run_id : Z) (lock : string) (proposal : option string)
    (proposal_type : string) (ending : option worker_end) (now : Z) : M D finalize_status :=
  found ← query (fun d => get_task_sync d task_id);
  match found with
  | None => raise TaskNotFoundError
  | Some task =>
      _ ← cancel_worker_if_active task run_id ending;
      r ← finish task run_id lock TaskRunOutcome.WAITING_APPROVAL (Some (str_or proposal "")) None
            [] [] (Some proposal_type) now;
      mret (if r : option FinishRunResult then Finalized else FinalizeConflict)
  end.

Inductive terminate_status := Terminated | TerminateConflict | TerminateRequested
  | NotRunning | NoActiveRun.

Definition terminate (task_id : string) (run_id : option Z) (ending : option worker_end) (now : Z)
    : M D terminate_status :=
  found ← query (fun d => get_task_sync d task_id);
  match found with
  | None => raise TaskNotFoundError
  | Some task =>
      if negb (bool_decide (Task.status task = TaskStatus.RUNNING)) then mret NotRunning
      else
        let given := match run_id with Some n => if n =? 0 then None else Some n | None => None end in
        match (match given with Some n => Some n | None => Task.current_run_id task end) with
        | None => mret NoActiveRun
        | Some target_run_id =>
            cancelled ← cancel_worker_if_active task target_run_id ending;
            if cancelled : bool then
              r ← finish task target_run_id (str_or (Task.claim_lock task) "")
                    TaskRunOutcome.TERMINATED None (Some "terminated by request") [] [] None now;
              mret (if r : option FinishRunResult then Terminated else TerminateConflict)
            else
              _ ← registry (fun d => append_event_sync d task_id "terminate_requested"
                     [("run_id", JInt target_run_id)] (Some target_run_id) now);
              mret TerminateRequested
        end
  end.
End service.
