(* ===== verification/RunProps.v ===== *)
(** The theorems about TaskRunService: the target of a finished run, the
    messages it sends, the concurrency cap, recovery, and that every call keeps
    the registry in a state its own operations can reach. *)
From S2P Require Import Prelude TaskSettings TaskDomain TaskStore TaskStoreInv TaskListing Dispatcher TaskWorld RunService.

(** * Definitions *)

(** What a finished run reports, as a list. *)
Definition lifecycle_messages (w : wiring) (task : Task.t) (target : TaskStatus.t)
    (summary error interaction : option string) : list message :=
  match lifecycle_text task target summary error with
  | Some content =>
      if lifecycle_writer w
      then [MsgLifecycle (task_execution_session_id (uuid5 w) task) content
              (lifecycle_card task target summary error interaction)]
      else []
  | None => []
  end.

Definition result_messages (w : wiring) (task : Task.t) (target : TaskStatus.t)
    (summary error : option string) : list message :=
  match terminal_result_text task target summary error with
  | Some content =>
      if result_writer w
      then [MsgResult (task_execution_session_id (uuid5 w) task) content] else []
  | None => []
  end.

Definition notify_messages (w : wiring) (r : FinishRunResult) (target : TaskStatus.t) : list message :=
  if notifier w && negb (bool_decide (target ∈ [TaskStatus.QUEUED; TaskStatus.RUNNING]))
  then [MsgNotify (Task.id (finished_task r)) (TaskEvent.id (terminal_event r))] else [].

Definition is_artifact_message (m : message) : bool :=
  match m with MsgArtifact _ _ _ => true | _ => false end.

(** [k] failed runs of a task in a row: claimed at [now k], then finished as
    FAILED with the target the service decides for the claimed row. *)
Fixpoint failed_attempts (k : nat) (d : db) (id : string) (now : Z) : db :=
  match k with
  | O => d
  | S k =>
      match claim_task_sync d id "lock" "token" 900 now with
      | (d1, Some c) =>
          failed_attempts k
            (finish_run_sync d1 (mkFinishRunCommand id (TaskRun.id (claimed_run c)) "lock"
               TaskRunOutcome.FAILED (Some "") []
               (Some (decide_target_status (claimed_task c) TaskRunOutcome.FAILED)) None) now).1
            id now
      | (d1, None) => d1
      end
  end.

Definition breaker_db : db :=
  foldl exec empty_db [OCreate ((Task.defaults "t" "x") <| Task.max_retries := 1 |>) 10].

(** A service wired to a [TaskRunner], for the examples. *)
Definition demo_wiring : wiring :=
  mkWiring (fun id => "uuid-" +:+ id) true true true true None None.

Definition demo_config : TaskConfig :=
  mkTaskConfig 2 900 300 3600 10 20971520 104857600 3 2000.

Definition demo_queue : db :=
  foldl exec empty_db [OCreate (Task.defaults "a" "x") 10; OCreate (Task.defaults "b" "x") 20;
                       OCreate (Task.defaults "c" "x") 30].

Definition demo_world (d : db) : world TaskRunner.t := mkWorld d TaskRunner.start [].

Definition demo_ids (id : string) : claim_ids := mkClaimIds id "4f1b" "0a".

(** The world after one tick over the queue of three. *)
Definition demo_ticked : world TaskRunner.t :=
  (dispatch_once demo_wiring demo_config demo_ids "boom" 40 (demo_world demo_queue)).1.

(** * Calls that keep the registry reachable *)

Section keeps_service.
Context {D : Type} `{TaskDispatcher D}.
Context (w : wiring) (cfg : TaskConfig).

Lemma decide_target_not_running task oc : decide_target_status task oc <> TaskStatus.RUNNING.
Proof. destruct oc; simpl; try done; by case_match. Qed.

Lemma keeps_write_lifecycle task content payload :
  keeps_reachable (write_lifecycle w task content payload : M D unit).
Proof. unfold write_lifecycle. case_match; auto with agent. Qed.

Lemma keeps_write_lifecycle_for_status task target s e i :
  keeps_reachable (write_lifecycle_for_status w task target s e i : M D unit).
Proof. unfold write_lifecycle_for_status. case_match; auto using keeps_write_lifecycle with agent. Qed.

Lemma keeps_write_result_if_terminal task target s e :
  keeps_reachable (write_result_if_terminal w task target s e : M D unit).
Proof.
  unfold write_result_if_terminal, write_result. case_match; [case_match|]; auto with agent.
Qed.

Lemma keeps_notify r target : keeps_reachable (notify_if_terminal w r target : M D unit).
Proof. unfold notify_if_terminal. case_match; auto with agent. Qed.

Lemma keeps_write_artifact task a i : keeps_reachable (write_artifact w task a i : M D unit).
Proof. unfold write_artifact. case_match; auto with agent. Qed.

Lemma keeps_promote task rid s target reg :
  keeps_reachable (promote_summary w task rid s target reg : M D unit).
Proof. unfold promote_summary. repeat case_match; auto using keeps_write_artifact with agent. Qed.

Hint Resolve keeps_write_lifecycle keeps_write_lifecycle_for_status keeps_write_result_if_terminal
  keeps_notify keeps_write_artifact keeps_promote keeps_bind keeps_try keeps_for_each
  keeps_count_each : agent.

Lemma keeps_finish task rid lock oc s e meta arts i now :
  keeps_reachable (finish w task rid lock oc s e meta arts i now : M D _).
Proof.
  unfold finish. apply keeps_bind.
  - apply keeps_try; [|auto with agent]. apply keeps_bind; [|auto with agent].
    apply keeps_registry. intros d _. right. eexists (OFinish _ now). split; [|reflexivity].
    intros [= Heq]. by apply decide_target_not_running in Heq.
  - intros [r|]; [|auto with agent].
    repeat (apply keeps_bind; [|intros ?]); auto with agent.
    apply keeps_for_each. intros []. auto with agent.
Qed.

Lemma keeps_claim_and_spawn task ids exc now :
  keeps_reachable (claim_and_spawn w cfg task ids exc now : M D _).
Proof.
  unfold claim_and_spawn. apply keeps_bind.
  - apply keeps_registry_total. intros d _. right. eexists (OClaim _ _ _ _ now).
    split; [exact I|reflexivity].
  - intros [c|]; [|auto with agent]. apply keeps_try; [auto with agent|]. intros _.
    apply keeps_bind; [|auto with agent]. apply keeps_bind; [apply keeps_finish|auto with agent].
Qed.

Lemma keeps_has_active rid : keeps_reachable (has_active_worker rid : M D bool).
Proof. unfold has_active_worker. auto with agent. Qed.

Lemma keeps_cancel_worker task rid ending :
  keeps_reachable (cancel_worker_if_active task rid ending : M D bool).
Proof.
  unfold cancel_worker_if_active. apply keeps_bind; [apply keeps_has_active|]. intros b.
  case_match; auto with agent.
Qed.

Lemma keeps_reclaim id rid lock oc e now : keeps_reachable (reclaim w id rid lock oc e now : M D bool).
Proof.
  unfold reclaim. apply keeps_try; [|auto with agent]. apply keeps_bind.
  - apply keeps_registry. intros d _. right. eexists (ORecover _ now). split; [exact I|reflexivity].
  - auto 10 with agent.
Qed.

Lemma keeps_recover_crashed now : keeps_reachable (recover_crashed_workers w now : M D Z).
Proof.
  unfold recover_crashed_workers. apply keeps_bind; [auto with agent|]. intros l.
  apply keeps_count_each. intros entry. unfold recover_crashed_worker.
  apply keeps_bind; [auto with agent|]. intros [t|]; [|auto with agent].
  case_match; auto using keeps_reclaim with agent.
Qed.

Lemma keeps_recover_stale now : keeps_reachable (recover_stale_executions w cfg now : M D Z).
Proof.
  unfold recover_stale_executions. apply keeps_bind; [auto with agent|]. intros l.
  apply keeps_count_each. intros t. unfold recover_stale_execution.
  destruct (Task.claim_lock t); [|auto with agent].
  destruct (Task.current_run_id t); [|auto with agent].
  apply keeps_bind; [apply keeps_has_active|]. intros b.
  case_match; auto using keeps_reclaim with agent.
Qed.

Lemma keeps_spawn_loop ids exc active now queue ok failed :
  keeps_reachable (spawn_loop w cfg ids exc active now queue ok failed : M D _).
Proof.
  revert ok failed. induction queue as [|t queue IH]; intros ok failed; simpl; [auto with agent|].
  case_match; [auto with agent|]. apply keeps_bind.
  - apply keeps_try; [|auto with agent]. apply keeps_bind; [apply keeps_claim_and_spawn|auto with agent].
  - intros []; apply IH.
Qed.

Lemma keeps_dispatch_once ids exc now : keeps_reachable (dispatch_once w cfg ids exc now : M D _).
Proof.
  unfold dispatch_once, active_worker_count.
  apply keeps_bind; [apply keeps_recover_crashed|]. intros ?.
  apply keeps_bind; [apply keeps_recover_stale|]. intros ?.
  apply keeps_bind; [auto with agent|]. intros ?.
  apply keeps_bind; [auto with agent|]. intros ?.
  apply keeps_bind; [apply keeps_spawn_loop|]. auto with agent.
Qed.

Lemma keeps_run_claim task rid lock execute now :
  keeps_reachable execute -> keeps_reachable (run_claim w cfg task rid lock execute now : M D _).
Proof.
  intros Hx. unfold run_claim. apply keeps_bind; [auto with agent|]. intros _.
  apply keeps_bind; [done|]. intros x. apply keeps_bind; [|auto with agent].
  unfold finalize_agent_result. apply keeps_bind; [apply keeps_finish|auto with agent].
Qed.

Lemma keeps_finalize_propose id rid lock p pt ending now :
  keeps_reachable (finalize_propose w id rid lock p pt ending now : M D _).
Proof.
  unfold finalize_propose. apply keeps_bind; [auto with agent|]. intros [t|]; [|auto with agent].
  apply keeps_bind; [apply keeps_cancel_worker|]. intros _.
  apply keeps_bind; [apply keeps_finish|]. intros [r|]; auto with agent.
Qed.

Lemma append_event_runs_op d id kind payload rid now :
  kind ∉ RESOLUTION_MARKER_KINDS -> runs_op d (append_event_sync d id kind payload rid now).1.
Proof. intros Hk. right. exists (OAppendEvent id kind payload rid now). done. Qed.

Lemma keeps_append_event id kind payload rid now :
  kind ∉ RESOLUTION_MARKER_KINDS ->
  keeps_reachable (registry (fun d => append_event_sync d id kind payload rid now) : M D _).
Proof. intros Hk. apply keeps_registry. intros d _. by apply append_event_runs_op. Qed.

Lemma keeps_terminate id rid ending now : keeps_reachable (terminate w id rid ending now : M D _).
Proof.
  unfold terminate. apply keeps_bind; [auto with agent|]. intros [t|]; [|auto with agent].
  case_match; [auto with agent|]. case_match; [|auto with agent].
  apply keeps_bind; [apply keeps_cancel_worker|]. intros [].
  - apply keeps_bind; [apply keeps_finish|]. intros [r|]; auto with agent.
  - apply keeps_bind; [apply keeps_append_event; set_solver|auto with agent].
Qed.
End keeps_service.

(** * What [finish] does *)

Section finish.
Context {D : Type}.
Context (w : wiring).

Lemma finalize_raises d id rid lock oc s meta e rec target now d' x :
  finalize_run d id rid lock oc s meta e rec target now = (d', Raise x) ->
  conflict_or_missing x = true.
Proof. unfold finalize_run. intros Hf. repeat case_match; simplify_eq; try done. Qed.

Lemma for_each_artifacts task (l : list (TaskArtifact * string)) (wd : world D) :
  exists msgs, Forall (fun m => is_artifact_message m = true) msgs
  /\ for_each l (fun '(a, i) => write_artifact w task a i) wd
     = (mkWorld (store wd) (disp wd) (sent wd ++ msgs), Return tt).
Proof.
  revert wd. induction l as [|[a i] l IH]; intros wd; simpl.
  { exists []. rewrite app_nil_r. by destruct wd. }
  unfold mbind, M_bind, write_artifact at 1. destruct (artifact_writer w) eqn:Hw; simpl.
  - destruct (IH (mkWorld (store wd) (disp wd) (sent wd ++
      [MsgArtifact (task_execution_session_id (uuid5 w) task) (art_name a) i]))) as (msgs & HF & Hm).
    exists (MsgArtifact (task_execution_session_id (uuid5 w) task) (art_name a) i :: msgs).
    rewrite Hm. simpl. rewrite <- app_assoc. split; [by constructor|done].
  - apply IH.
Qed.

Lemma promote_artifacts task rid s target reg (wd : world D) :
  exists msgs, Forall (fun m => is_artifact_message m = true) msgs
  /\ promote_summary w task rid s target reg wd
     = (mkWorld (store wd) (disp wd) (sent wd ++ msgs), Return tt).
Proof.
  assert (exists msgs, Forall (fun m => is_artifact_message m = true) msgs
    /\ (wd, Return tt) = (mkWorld (store wd) (disp wd) (sent wd ++ msgs), Return tt)) as Hnil.
  { exists []. rewrite app_nil_r. by destruct wd. }
  unfold promote_summary. destruct reg; [|done]. destruct s; [|done].
  destruct (artifact_register_callback w); [|done]. case_match; [|done].
  case_match; [|done|done]. unfold write_artifact. destruct (artifact_writer w); [|done].
  eexists [_]. split; [|reflexivity]. repeat constructor.
Qed.

(** The reports of a finished run, in order, then its artifacts. *)
Lemma finish_cases task rid lock oc s e meta arts i now (wd : world D) :
  let target := decide_target_status task oc in
  let command := mkFinishRunCommand (Task.id task) rid lock oc (Some (str_or s "")) meta
                   (Some target) e in
  match finish_run_sync (store wd) command now with
  | (d', Raise _) =>
      finish w task rid lock oc s e meta arts i now wd
      = (mkWorld d' (disp wd) (sent wd), Return None)
  | (d', Return r) =>
      exists msgs, Forall (fun m => is_artifact_message m = true) msgs
      /\ finish w task rid lock oc s e meta arts i now wd
         = (mkWorld d' (disp wd)
              (sent wd ++ lifecycle_messages w (finished_task r) target s e i
                 ++ result_messages w (finished_task r) target s e
                 ++ notify_messages w r target ++ msgs), Return (Some r))
  end.
Proof.
  intros target command. unfold finish. fold target. fold command.
  unfold mbind, M_bind, try_except, registry.
  destruct (finish_run_sync (store wd) command now) as [d' [r|x]] eqn:Hfin.
  2: { by rewrite (finalize_raises _ _ _ _ _ _ _ _ _ _ _ _ _ Hfin). }
  cbn [mret M_ret].
  set (reg := invoke_artifact_callbacks w arts (Task.id task) rid).
  assert (forall l, write_lifecycle_for_status w (finished_task r) target s e i (mkWorld d' (disp wd) l)
    = (mkWorld d' (disp wd) (l ++ lifecycle_messages w (finished_task r) target s e i), Return tt)) as ->.
  { intros l. unfold write_lifecycle_for_status, lifecycle_messages, write_lifecycle.
    repeat case_match; rewrite ?app_nil_r; done. }
  assert (forall l, write_result_if_terminal w (finished_task r) target s e (mkWorld d' (disp wd) l)
    = (mkWorld d' (disp wd) (l ++ result_messages w (finished_task r) target s e), Return tt)) as ->.
  { intros l. unfold write_result_if_terminal, result_messages, write_result.
    repeat case_match; rewrite ?app_nil_r; done. }
  assert (forall l, notify_if_terminal w r target (mkWorld d' (disp wd) l)
    = (mkWorld d' (disp wd) (l ++ notify_messages w r target), Return tt)) as ->.
  { intros l. unfold notify_if_terminal, notify_messages.
    destruct (notifier w), target; eval_decides; simpl; rewrite ?app_nil_r; done. }
  edestruct (for_each_artifacts task reg) as (m1 & HF1 & ->).
  edestruct (promote_artifacts task rid s target reg) as (m2 & HF2 & ->).
  exists (m1 ++ m2). split; [by apply Forall_app|]. cbn. by rewrite !app_assoc.
Qed.
End finish.

(** * Calls that return and leave the active workers alone *)

Section quiet.
Context {D : Type} `{HD : TaskDispatcher D} {valid : D -> Prop} `{!DispatcherLaws D valid}.
Context (w : wiring) (cfg : TaskConfig).

(** From a valid dispatcher [m] returns, and the active runs stay as they were. *)
Definition quiet {A} (m : M D A) : Prop :=
  forall wd, valid (disp wd) ->
  exists wd' a, m wd = (wd', Return a) /\ valid (disp wd')
    /\ active_runs (disp wd') = active_runs (disp wd).

Lemma quiet_ret {A} (a : A) : quiet (mret a).
Proof. intros wd Hv. exists wd, a. done. Qed.

Lemma quiet_query {A} (f : db -> A) : quiet (query f).
Proof. intros wd Hv. eexists _, _. done. Qed.

Lemma quiet_send m : quiet (send m).
Proof. intros wd Hv. eexists _, _. done. Qed.

Lemma quiet_bind {A B} (m : M D A) (k : A -> M D B) :
  quiet m -> (forall a, quiet (k a)) -> quiet (m ≫= k).
Proof.
  intros Hm Hk wd Hv. destruct (Hm wd Hv) as (wd1 & a & He1 & Hv1 & Ha1).
  destruct (Hk a wd1 Hv1) as (wd2 & b & He2 & Hv2 & Ha2).
  exists wd2, b. unfold mbind, M_bind. rewrite He1. split; [done|]. split; [done|congruence].
Qed.

Lemma quiet_try {A} hs (m : M D A) h : quiet m -> quiet (try_except hs m h).
Proof.
  intros Hm wd Hv. destruct (Hm wd Hv) as (wd1 & a & He1 & ?).
  exists wd1, a. unfold try_except. by rewrite He1.
Qed.

(** A registry call inside [try] whose exceptions are the ones caught. *)
Lemma quiet_try_registry {A B} hs (f : db -> db * result A) (k : A -> M D B) h :
  (forall d d' e, f d = (d', Raise e) -> hs e = true) -> (forall a, quiet (k a)) ->
  (forall e, quiet (h e)) -> quiet (try_except hs (registry f ≫= k) h).
Proof.
  intros Hf Hk Hh wd Hv. unfold try_except, mbind, M_bind, registry.
  destruct (f (store wd)) as [d' [a|e]] eqn:E.
  - destruct (Hk a (mkWorld d' (disp wd) (sent wd)) Hv) as (wd2 & b & He2 & ?).
    exists wd2, b. rewrite He2. done.
  - rewrite (Hf _ _ _ E).
    destruct (Hh e (mkWorld d' (disp wd) (sent wd)) Hv) as (wd2 & b & He2 & ?). exists wd2, b. done.
Qed.

Lemma quiet_registry_total {A} (f : db -> db * A) : quiet (registry_total f).
Proof.
  intros wd Hv. unfold registry_total. destruct (f (store wd)) as [d' a].
  eexists _, _. done.
Qed.

Lemma quiet_count_each {A} (l : list A) (body : A -> M D bool) :
  (forall x, quiet (body x)) -> quiet (count_each l body).
Proof.
  intros Hb. induction l; simpl; [apply quiet_ret|]. apply quiet_bind; [done|]. intros hit.
  apply quiet_bind; [done|]. intros n. apply quiet_ret.
Qed.

Lemma quiet_inspect : quiet (dispatch dispatch_inspect).
Proof.
  intros wd Hv. unfold dispatch. destruct (dispatch_inspect (disp wd)) as [p l] eqn:E.
  eexists _, _. split; [done|]. simpl. replace p with (dispatch_inspect (disp wd)).1 by (by rewrite E).
  split; [by apply inspect_valid|by apply inspect_stable].
Qed.

Lemma quiet_crashed : quiet (dispatch dispatch_crashed).
Proof.
  intros wd Hv. unfold dispatch. destruct (dispatch_crashed (disp wd)) as [p l] eqn:E.
  eexists _, _. split; [done|]. simpl. replace p with (dispatch_crashed (disp wd)).1 by (by rewrite E).
  split; [by apply crashed_valid|by apply crashed_stable].
Qed.

Lemma quiet_finish task rid lock oc s e meta arts i now :
  quiet (finish w task rid lock oc s e meta arts i now).
Proof.
  intros wd Hv. pose proof (finish_cases w task rid lock oc s e meta arts i now wd) as H.
  cbv zeta in H. destruct (finish_run_sync _ _ _) as [d' [r|x]].
  - destruct H as (msgs & _ & ->). eexists _, _. done.
  - rewrite H. eexists _, _. done.
Qed.

Lemma quiet_reports task target s e i r :
  quiet (write_lifecycle_for_status w task target s e i)
  /\ quiet (write_result_if_terminal w task target s e) /\ quiet (notify_if_terminal w r target).
Proof.
  unfold write_lifecycle_for_status, write_lifecycle, write_result_if_terminal, write_result,
    notify_if_terminal.
  split_and!; repeat case_match; auto using quiet_ret, quiet_send.
Qed.

Lemma quiet_reclaim id rid lock oc e now : quiet (reclaim w id rid lock oc e now).
Proof.
  unfold reclaim. apply quiet_try_registry.
  - intros d d' x Hx. by eapply finalize_raises.
  - intros r.
    destruct (quiet_reports (finished_task r) TaskStatus.EXPIRED None None None r) as (? & ? & ?).
    repeat (apply quiet_bind; [done|intros _]). apply quiet_ret.
  - intros _. apply quiet_ret.
Qed.

Lemma quiet_recover_crashed now : quiet (recover_crashed_workers w now).
Proof.
  apply quiet_bind; [apply quiet_crashed|]. intros l. apply quiet_count_each. intros entry.
  apply quiet_bind; [apply quiet_query|]. intros [t|]; [|apply quiet_ret].
  case_match; auto using quiet_reclaim, quiet_ret.
Qed.

Lemma quiet_has_active rid : quiet (has_active_worker rid).
Proof. apply quiet_bind; [apply quiet_inspect|]. intros l. apply quiet_ret. Qed.

Lemma quiet_recover_stale now : quiet (recover_stale_executions w cfg now).
Proof.
  apply quiet_bind; [apply quiet_query|]. intros l. apply quiet_count_each. intros t.
  unfold recover_stale_execution. destruct (Task.claim_lock t); [|apply quiet_ret].
  destruct (Task.current_run_id t); [|apply quiet_ret].
  apply quiet_bind; [apply quiet_has_active|]. intros b.
  case_match; auto using quiet_reclaim, quiet_ret.
Qed.

Lemma active_worker_count_spec (wd : world D) :
  valid (disp wd) ->
  exists wd', active_worker_count wd = (wd', Return (Z.of_nat (length (active_runs (disp wd)))))
  /\ valid (disp wd') /\ active_runs (disp wd') = active_runs (disp wd).
Proof.
  intros Hv. unfold active_worker_count, mbind, M_bind, dispatch, active_runs at 1.
  pose proof (inspect_valid (disp wd) Hv) as H1. pose proof (inspect_stable (disp wd) Hv) as H2.
  destruct (dispatch_inspect (disp wd)) as [p l]. eexists. split; [by rewrite length_fmap|done].
Qed.

(** A claim that is started adds at most one active run, one that is not
    started adds none; either way the call returns. *)
Lemma claim_and_spawn_active task ids exc now (wd : world D) :
  valid (disp wd) ->
  exists wd' r, claim_and_spawn w cfg task ids exc now wd = (wd', Return r) /\ valid (disp wd')
  /\ (length (active_runs (disp wd'))
      <= length (active_runs (disp wd)) + (if r then 1 else 0))%nat.
Proof.
  intros Hv. unfold claim_and_spawn. unfold mbind at 1, M_bind at 1, registry_total.
  destruct (claim_task_sync _ _ _ _ _ _) as [d' [c|]].
  2: { eexists _, None. split; [reflexivity|]. simpl. split; [done|lia]. }
  unfold try_except, mbind at 1, M_bind at 1, dispatch_raising. cbn [disp store sent].
  set (rid := TaskRun.id (claimed_run c)). set (lock := "cl-" +:+ lock_hex ids).
  pose proof (spawn_valid (disp wd) (claimed_task c) rid lock (worker_hex ids) now Hv) as Hv'.
  pose proof (spawn_adds_one (disp wd) (claimed_task c) rid lock (worker_hex ids) now Hv) as Hlen.
  pose proof (fun e => spawn_raises (disp wd) (claimed_task c) rid lock (worker_hex ids) now e Hv) as Hraise.
  destruct (dispatch_spawn _ _ _ _ _ _) as [p [token|e]]; simpl in *.
  - eexists _, (Some token). split; [reflexivity|]. simpl. split; [done|lia].
  - specialize (Hraise e eq_refl).
    destruct (quiet_finish (claimed_task c) rid (str_or (TaskRun.claim_lock (claimed_run c)) "")
      TaskRunOutcome.SPAWN_FAILED None (Some exc) [] [] None now (mkWorld d' p (sent wd)) Hv')
      as (wd2 & r & Heq & Hv2 & Ha2).
    exists wd2, None. unfold mbind, M_bind, handle_spawn_failure. unfold mbind, M_bind.
    fold rid. rewrite Heq. split; [done|]. split; [done|]. simpl in Ha2. rewrite Ha2, Hraise. lia.
Qed.

Lemma spawn_loop_cap ids exc active now queue ok failed (wd : world D) :
  valid (disp wd) -> 0 <= ok -> Z.of_nat (length (active_runs (disp wd))) <= active + ok ->
  exists wd' n m, spawn_loop w cfg ids exc active now queue ok failed wd = (wd', Return (n, m))
  /\ valid (disp wd') /\ ok <= n /\ n <= Z.max ok (task_max_concurrency cfg - active)
  /\ Z.of_nat (length (active_runs (disp wd'))) <= active + n.
Proof.
  revert ok failed wd. induction queue as [|t queue IH]; intros ok failed wd Hv Hok Hle; simpl.
  { eexists _, _, _. split; [reflexivity|]. split; [done|]. lia. }
  destruct (Z.leb_spec (task_max_concurrency cfg) (active + ok)) as [Hcap|Hroom].
  { eexists _, _, _. split; [reflexivity|]. split; [done|]. lia. }
  destruct (claim_and_spawn_active t (ids (Task.id t)) exc now wd Hv) as (wd1 & r & Heq & Hv1 & Hlen).
  unfold mbind at 1, M_bind at 1, try_except. unfold mbind at 1, M_bind at 1. rewrite Heq.
  cbn [mret M_ret]. destruct r as [token|].
  - rewrite (bool_decide_eq_true_2 (is_Some (Some token))) by eauto.
    destruct (IH (ok + 1) failed wd1) as (wd2 & n & m & ? & ? & ? & ? & ?); [done|lia..|].
    exists wd2, n, m. split; [done|]. split; [done|]. lia.
  - rewrite (bool_decide_eq_false_2 (is_Some None)) by (by intros [? [=]]).
    destruct (IH ok (failed + 1) wd1) as (wd2 & n & m & ? & ? & ? & ? & ?); [done|lia..|].
    exists wd2, n, m. split; [done|]. split; [done|]. lia.
Qed.
End quiet.

(** * Failing runs *)

Lemma finalize_keeps d id t rid lock oc s meta e rec target now d' res :
  tasks d !! id = Some t ->
  finalize_run d id rid lock oc s meta e rec target now = (d', Return res) ->
  let t' := finished_task res in
  Task.is_archived t' = Task.is_archived t /\ Task.scheduled_at t' = Task.scheduled_at t
  /\ Task.max_retries t' = Task.max_retries t /\ Task.id t' = Task.id t
  /\ Task.board t' = Task.board t.
Proof.
  intros Ht. unfold finalize_run. destruct (task_runs d !! rid); [|done].
  case_match; [done|]. case_match; [case_match; done|]. rewrite Ht. case_match; [done|].
  cbn. intros [= _ <-]. cbn.
  by destruct (bool_decide (oc = TaskRunOutcome.COMPLETED)), (increments_failures oc).
Qed.

Lemma finalize_logs d id rid lock oc s meta e rec target now d' res :
  finalize_run d id rid lock oc s meta e rec target now = (d', Return res) ->
  event_seq d' = event_seq d + 1.
Proof.
  unfold finalize_run. destruct (task_runs d !! rid); [|done].
  case_match; [done|]. case_match; [case_match; done|]. destruct (tasks d !! id); [|done].
  case_match; [done|]. cbn. by intros [= <- _].
Qed.

Lemma decide_retryable t :
  decide_target_status t TaskRunOutcome.FAILED
  = if Task.max_retries t <? Task.consecutive_failures t + 1 then TaskStatus.FAILED
    else TaskStatus.QUEUED.
Proof.
  unfold decide_target_status, TaskPolicy.evaluate.
  cbn [current target req_consecutive_failures req_max_retries]. eval_decides. cbn [negb andb].
  by destruct (_ <? _).
Qed.

(** One claimed and failed run. *)
Lemma failed_attempt_step d id t now :
  db_ok d -> tasks d !! id = Some t -> claimable now t = true ->
  exists d' t', (forall k, failed_attempts (S k) d id now = failed_attempts k d' id now)
  /\ db_ok d' /\ tasks d' !! id = Some t'
  /\ Task.consecutive_failures t' = Task.consecutive_failures t + 1
  /\ Task.max_retries t' = Task.max_retries t
  /\ Task.status t' = (if Task.max_retries t <? Task.consecutive_failures t + 1
                       then TaskStatus.FAILED else TaskStatus.QUEUED)
  /\ (Task.status t' = TaskStatus.QUEUED -> claimable now t' = true).
Proof.
  intros Hok Ht Hc. destruct (claim_claimable d id t "lock" "token" 900 now Hok Ht Hc) as (d1 & Heq & Hd1).
  set (p := claimed_pair d t "lock" "token" 900 now) in *.
  assert (db_ok d1) as Hok1 by (pose proof (claim_ok d id "lock" "token" 900 now Hok) as H1; by rewrite Heq in H1).
  assert (tasks d1 !! id = Some p.1) as Ht1 by (rewrite Hd1; apply lookup_insert_eq).
  assert (holds_claim p.1 "lock" (TaskRun.id p.2) = true) as Hh
    by (apply holds_claim_spec; split; reflexivity).
  set (target := decide_target_status p.1 TaskRunOutcome.FAILED).
  destruct (finalize_holder d1 id p.1 (TaskRun.id p.2) "lock" TaskRunOutcome.FAILED (Some "") [] None
    false (Some target) now Hok1 Ht1 Hh) as (r & _ & _ & _ & d2 & res & Hfin & Hres).
  destruct (finalize_keeps _ _ _ _ _ _ _ _ _ _ _ _ _ _ Ht1 Hfin) as (Har & Hsch & Hmax & _ & _).
  cbv zeta in Hres. destruct Hres as (Hst & Hun & _ & Hcf & _ & _ & _ & Hd2 & _).
  exists d2, (finished_task res). split_and!.
  - intros k. cbn [failed_attempts]. rewrite Heq. cbn [claimed_task claimed_run]. unfold finish_run_sync.
    cbn [fin_task_id fin_run_id fin_claim_lock fin_outcome fin_summary fin_metadata fin_error
      fin_target_task_status]. fold target. by rewrite Hfin.
  - pose proof (finalize_ok d1 id (TaskRun.id p.2) "lock" TaskRunOutcome.FAILED (Some "") [] None false
      (Some target) now) as H1. rewrite Hfin in H1. apply H1; [|done].
    intros [= H2]. by apply decide_target_not_running in H2.
  - rewrite Hd2. apply lookup_insert_eq.
  - exact Hcf.
  - exact Hmax.
  - rewrite Hst. etransitivity; [apply decide_retryable|reflexivity].
  - intros Hq. unfold claimable in *. rewrite Hq, Har, Hsch. cbn.
    destruct Hun as (_ & -> & _). rewrite !andb_true_iff in Hc.
    destruct Hc as [[[_ Har'] Hsch'] _]. by rewrite Har', Hsch'.
Qed.

(** * Theorems *)

(** C4. The status a finished run leaves its task in is always one the table
    allows from RUNNING; it is QUEUED exactly for a retryable failure that keeps
    the count of failures in a row within [max_retries]; and it is the status
    the registry itself would default to, save for a deliberate abort, which
    fails the task at once where the registry would retry it. *)
Theorem run_target_legal t oc :
  let target := decide_target_status t oc in
  let failures := Task.consecutive_failures t + (if increments_failures oc then 1 else 0) in
  target ∈ TASK_TRANSITION_TABLE TaskStatus.RUNNING
  /\ (target = TaskStatus.QUEUED <-> increments_failures oc = true /\ failures <= Task.max_retries t)
  /\ (oc <> TaskRunOutcome.ABORTED ->
      target = outcome_to_task_status oc failures (Task.max_retries t))
  /\ (oc = TaskRunOutcome.ABORTED -> target = TaskStatus.FAILED
      /\ (failures <= Task.max_retries t ->
          outcome_to_task_status oc failures (Task.max_retries t) = TaskStatus.QUEUED)).
Proof.
  intros target failures. subst target failures.
  assert (forall oc, oc = TaskRunOutcome.FAILED \/ oc = TaskRunOutcome.SPAWN_FAILED ->
    decide_target_status t oc = if Task.max_retries t <? Task.consecutive_failures t + 1
                                then TaskStatus.FAILED else TaskStatus.QUEUED) as Hdec
    by (intros ? [->| ->]; apply decide_retryable).
  assert (TASK_TRANSITION_TABLE TaskStatus.RUNNING = [TaskStatus.SUCCEEDED; TaskStatus.FAILED;
    TaskStatus.WAITING_APPROVAL; TaskStatus.CANCELLED; TaskStatus.EXPIRED; TaskStatus.QUEUED]) as -> by done.
  destruct oc; rewrite ?Hdec by auto; unfold increments_failures; eval_decides;
    cbn [decide_target_status outcome_to_task_status]; rewrite ?Z.add_0_r;
    destruct (Z.ltb_spec (Task.max_retries t) (Task.consecutive_failures t + 1)),
      (Z.ltb_spec (Task.max_retries t) (Task.consecutive_failures t));
    (split; [set_solver|]); repeat split; intros; destruct_and?; try done; lia.
Qed.

Lemma run_target_legal_witness :
  decide_target_status ((Task.defaults "t" "x") <| Task.max_retries := 3 |>) TaskRunOutcome.ABORTED
  = TaskStatus.FAILED
  /\ outcome_to_task_status TaskRunOutcome.ABORTED 0 3 = TaskStatus.QUEUED.
Proof.
  destruct (run_target_legal ((Task.defaults "t" "x") <| Task.max_retries := 3 |>) TaskRunOutcome.ABORTED)
    as (_ & _ & _ & H). destruct (H eq_refl) as [? Hq]. split; [done|]. apply Hq. by vm_compute.
Defined.

(** The breaker trips after exactly [max_retries + 1] failures in a row: a
    due task whose runs keep failing goes back to the queue after each of the
    first [max_retries] of them, and is FAILED, with every failure counted,
    after the next. *)
Theorem breaker_trips d id t now k :
  reachable d -> tasks d !! id = Some t -> claimable now t = true ->
  Task.consecutive_failures t = 0 -> Z.of_nat k <= Task.max_retries t + 1 -> (0 < k)%nat ->
  exists t', tasks (failed_attempts k d id now) !! id = Some t'
  /\ Task.consecutive_failures t' = Z.of_nat k
  /\ Task.status t' = (if Z.of_nat k =? Task.max_retries t + 1
                       then TaskStatus.FAILED else TaskStatus.QUEUED).
Proof.
  intros Hok%reachable_ok Ht Hc Hzero Hk Hpos.
  assert (forall k d t n, db_ok d -> tasks d !! id = Some t -> claimable now t = true ->
    Task.consecutive_failures t = n -> (0 < k)%nat -> n + Z.of_nat k <= Task.max_retries t + 1 ->
    exists t', tasks (failed_attempts k d id now) !! id = Some t'
    /\ Task.consecutive_failures t' = n + Z.of_nat k
    /\ Task.status t' = (if n + Z.of_nat k =? Task.max_retries t + 1
                         then TaskStatus.FAILED else TaskStatus.QUEUED)) as Hgen.
  { clear. induction k as [|k IH]; intros d t n Hok Ht Hc Hn Hpos Hle; [lia|].
    destruct (failed_attempt_step d id t now Hok Ht Hc)
      as (d' & t' & Hstep & Hok' & Ht' & Hcf & Hmax & Hst & Hq).
    rewrite Hstep. destruct k as [|k].
    - exists t'. simpl failed_attempts. change (Z.of_nat 1) with 1 in *.
      split; [done|]. split; [lia|]. rewrite Hst.
      destruct (Z.ltb_spec (Task.max_retries t) (Task.consecutive_failures t + 1)),
        (Z.eqb_spec (n + 1) (Task.max_retries t + 1)); done || lia.
    - destruct (Z.ltb_spec (Task.max_retries t) (Task.consecutive_failures t + 1)); [lia|].
      destruct (IH d' t' (n + 1) Hok' Ht' (Hq Hst)) as (t2 & Ht2 & Hc2 & Hs2); [lia..|].
      exists t2. split; [done|]. split; [lia|]. rewrite Hs2, Hmax.
      by replace (n + 1 + Z.of_nat (S k)) with (n + Z.of_nat (S (S k))) by lia. }
  destruct (Hgen k d t 0) as (t' & ? & ? & ?); try done. exists t'. done.
Qed.

Lemma breaker_trips_witness :
  (exists t1, tasks (failed_attempts 1 breaker_db "t" 20) !! "t" = Some t1
   /\ Task.status t1 = TaskStatus.QUEUED)
  /\ exists t2, tasks (failed_attempts 2 breaker_db "t" 20) !! "t" = Some t2
   /\ Task.status t2 = TaskStatus.FAILED.
Proof.
  assert (reachable breaker_db) as Hr by (apply reachable_run; vm_compute; repeat split; done).
  destruct (tasks breaker_db !! "t") as [t|] eqn:Ht; [|vm_compute in Ht; discriminate].
  assert (Task.consecutive_failures t = 0 /\ Task.max_retries t = 1 /\ claimable 20 t = true) as (Hc & Hm & Hcl).
  { vm_compute in Ht. injection Ht as <-. vm_compute. auto. }
  split.
  - destruct (breaker_trips breaker_db "t" t 20 1 Hr Ht Hcl Hc ltac:(lia) ltac:(lia))
      as (t' & Ht' & _ & Hs).
    exists t'. rewrite Hm in Hs. split; [exact Ht'|exact Hs].
  - destruct (breaker_trips breaker_db "t" t 20 2 Hr Ht Hcl Hc ltac:(lia) ltac:(lia))
      as (t' & Ht' & _ & Hs).
    exists t'. rewrite Hm in Hs. split; [exact Ht'|exact Hs].
Defined.

(** A run is reported exactly when its finish takes effect.  When the
    caller does not hold the live claim, [finish] returns nothing, sends nothing
    and leaves tasks and runs alone.  Otherwise it sends one notification,
    naming the event the finish logged, unless the task goes back to the queue;
    a task that goes back to the queue is not announced at all; and every button
    of a card is one its new status offers. *)
Theorem finish_reports {D} (w : wiring) task rid lock oc s e meta arts i now (wd : world D) :
  reachable (store wd) ->
  let target := decide_target_status task oc in
  let '(wd', r) := finish w task rid lock oc s e meta arts i now wd in
  match r with
  | Raise _ => False
  | Return None =>
      ~ (exists t, tasks (store wd) !! Task.id task = Some t /\ holds_claim t lock rid = true)
      /\ sent wd' = sent wd /\ tasks (store wd') = tasks (store wd)
      /\ task_runs (store wd') = task_runs (store wd)
  | Return (Some res) =>
      Task.status (finished_task res) = target
      /\ tasks (store wd') !! Task.id task = Some (finished_task res)
      /\ task_events (store wd') = task_events (store wd) ++ [terminal_event res]
      /\ exists reports artifacts, sent wd' = sent wd ++ reports ++ artifacts
         /\ Forall (fun m => is_artifact_message m = true) artifacts
         /\ (target = TaskStatus.QUEUED -> reports = [])
         /\ List.filter (fun m => match m with MsgNotify _ _ => true | _ => false end) reports
            = (if notifier w && negb (bool_decide (target = TaskStatus.QUEUED))
               then [MsgNotify (Task.id (finished_task res)) (TaskEvent.id (terminal_event res))]
               else [])
         /\ (forall session content c, MsgLifecycle session content (Some c) ∈ reports ->
              card_actions c = available_lifecycle_actions target i /\ card_actions c <> [])
  end.
Proof.
  intros Hok%reachable_ok target.
  pose proof (finish_cases w task rid lock oc s e meta arts i now wd) as Hf. cbv zeta in Hf.
  fold target in Hf. unfold finish_run_sync in Hf.
  cbn [fin_task_id fin_run_id fin_claim_lock fin_outcome fin_summary fin_metadata fin_error
    fin_target_task_status] in Hf.
  assert (forall t, tasks (store wd) !! Task.id task = Some t -> holds_claim t lock rid = true ->
    exists d' res, finalize_run (store wd) (Task.id task) rid lock oc (Some (str_or s "")) meta e false
      (Some target) now = (d', Return res) /\ Task.status (finished_task res) = target
      /\ tasks d' = <[Task.id task := finished_task res]> (tasks (store wd))
      /\ task_events d' = task_events (store wd) ++ [terminal_event res]) as Hhold.
  { intros t Ht Hh. destruct (finalize_holder _ _ _ _ _ oc (Some (str_or s "")) meta e false
      (Some target) now Hok Ht Hh) as (r & _ & _ & _ & d' & res & Hfin & Hres).
    cbv zeta in Hres. destruct Hres as (? & _ & _ & _ & _ & _ & _ & ? & _ & ? & _).
    exists d', res. done. }
  destruct (finalize_cases (store wd) (Task.id task) rid lock oc (Some (str_or s "")) meta e false
    (Some target) now) as [Hsame|[(run & _ & _ & _ & payload & Hlate)|Hdone]].
  - destruct (finalize_run _ _ _ _ _ _ _ _ _ _ _) as [d' [r|x]] eqn:E; simpl in Hsame; subst d'.
    + exfalso. apply finalize_logs in E. lia.
    + rewrite Hf. split; [|done]. intros (t & Ht & Hh).
      by destruct (Hhold t Ht Hh) as (? & ? & ? & _).
  - rewrite Hlate in Hf. rewrite Hf. split; [|done]. intros (t & Ht & Hh).
    destruct (Hhold t Ht Hh) as (? & ? & Heq & _). rewrite Hlate in Heq. done.
  - destruct Hdone as (run & t & t' & r' & payload & Heq & _ & Ht & Hh & _).
    destruct (Hhold t Ht Hh) as (d' & res & Hfin & Hst & Hd' & Hev). rewrite Hfin in Hf.
    destruct Hf as (msgs & HF & ->). split; [done|]. split; [simpl; rewrite Hd'; apply lookup_insert_eq|].
    split; [done|].
    exists (lifecycle_messages w (finished_task res) target s e i
            ++ result_messages w (finished_task res) target s e ++ notify_messages w res target), msgs.
    simpl. rewrite <- !app_assoc. split; [done|]. split; [done|].
    unfold lifecycle_messages, result_messages, notify_messages, lifecycle_card. split_and!.
    + intros ->. simpl. by rewrite andb_false_r.
    + pose proof (decide_target_not_running task oc : target <> TaskStatus.RUNNING) as Hnr.
      destruct target; try done; cbn; destruct (lifecycle_writer w), (result_writer w), (notifier w);
        reflexivity.
    + intros session content c. rewrite list_elem_of_In.
      destruct target; eval_decides; cbn;
        destruct (lifecycle_writer w), (result_writer w), (notifier w); cbn; intros Hin; destruct_or?; simplify_eq; try done; case_bool_decide; simplify_eq/=; try done.
Qed.

Lemma demo_queue_reachable : reachable demo_queue.
Proof. apply (reachable_run [_; _; _]). vm_compute. repeat split; done. Qed.

Lemma demo_ticked_reachable : reachable (store demo_ticked).
Proof. apply keeps_dispatch_once, demo_queue_reachable. Qed.

Lemma finish_reports_witness :
  let t := Task.defaults "a" "x" in
  exists res, (finish demo_wiring t 1 "cl-a" TaskRunOutcome.COMPLETED (Some "ok") None [] [] None 50
     demo_ticked).2 = Return (Some res)
  /\ Task.status (finished_task res) = TaskStatus.SUCCEEDED.
Proof.
  intros t.
  pose proof (finish_reports demo_wiring t 1 "cl-a" TaskRunOutcome.COMPLETED (Some "ok") None [] [] None 50
    demo_ticked demo_ticked_reachable) as H. cbv zeta in H.
  destruct (finish _ _ _ _ _ _ _ _ _ _ _ _) as [wd' [[res|]|e]] eqn:E.
  - exists res. split; [done|]. apply H.
  - exfalso. apply (f_equal (fun p => match p.2 with Return (Some _) => true | _ => false end)) in E.
    vm_compute in E. discriminate.
  - destruct H.
Defined.

Lemma dispatch_once_spec {D} `{TaskDispatcher D} {valid : D -> Prop}
    `{!DispatcherLaws D valid} (w : wiring) cfg ids exc now (wd : world D) :
  valid (disp wd) ->
  let before := Z.of_nat (length (active_runs (disp wd))) in
  exists wd' n1 n2 n m,
  dispatch_once w cfg ids exc now wd = (wd', Return (mkTickReport n1 n2 n m))
  /\ valid (disp wd') /\ 0 <= n /\ n <= Z.max 0 (task_max_concurrency cfg - before)
  /\ Z.of_nat (length (active_runs (disp wd'))) <= before + n.
Proof.
  intros Hv before. unfold dispatch_once.
  destruct (quiet_recover_crashed w now wd Hv) as (w1 & n1 & E1 & Hv1 & Ha1).
  destruct (quiet_recover_stale w cfg now w1 Hv1) as (w2 & n2 & E2 & Hv2 & Ha2).
  destruct (active_worker_count_spec w2 Hv2) as (w3 & E3 & Hv3 & Ha3).
  rewrite Ha2, Ha1 in E3. rewrite Ha2, Ha1 in Ha3.
  set (queue := order_by (tick_leb now) (list_queued_due_sync (store w2) now 100 "default")).
  destruct (spawn_loop_cap w cfg ids exc before now queue 0 0 w3) as (w4 & n & m & E4 & Hv4 & Hn0 & Hn & Ha4);
    [done|lia|rewrite Ha3; unfold before; lia|].
  exists w4, n1, n2, n, m. split.
  - unfold mbind, M_bind. rewrite E1, E2. cbn [query mret M_ret]. unfold query. rewrite E3.
    fold before. fold queue. by rewrite E4.
  - done.
Qed.

Lemma tick_keeps_valid {D} `{TaskDispatcher D} {valid : D -> Prop}
    `{!DispatcherLaws D valid} (w : wiring) cfg ids exc now (wd : world D) :
  valid (disp wd) -> valid (disp (dispatch_once w cfg ids exc now wd).1).
Proof.
  intros Hv. destruct (dispatch_once_spec w cfg ids exc now wd Hv) as (wd' & n1 & n2 & n & m & -> & Hv' & _).
  exact Hv'.
Qed.

(** C5. A tick never raises and never overcommits: it starts at most as many
    runs as the concurrency limit leaves room for, and when it ends there are no
    more active workers than the limit, or than there were before it. *)
Theorem tick_respects_concurrency {D} `{TaskDispatcher D} {valid : D -> Prop}
    `{!DispatcherLaws D valid} (w : wiring) cfg ids exc now (wd : world D) :
  valid (disp wd) ->
  let before := Z.of_nat (length (active_runs (disp wd))) in
  exists wd' report, dispatch_once w cfg ids exc now wd = (wd', Return report)
  /\ valid (disp wd')
  /\ 0 <= spawned report <= Z.max 0 (task_max_concurrency cfg - before)
  /\ Z.of_nat (length (active_runs (disp wd'))) <= Z.max before (task_max_concurrency cfg).
Proof.
  intros Hv before.
  destruct (dispatch_once_spec w cfg ids exc now wd Hv) as (wd' & n1 & n2 & n & m & E & Hv' & H0 & Hn & Ha).
  exists wd', (mkTickReport n1 n2 n m). split; [done|]. split; [done|]. fold before in Hn, Ha.
  cbn. lia.
Qed.

Lemma tick_respects_concurrency_witness :
  exists wd' report, dispatch_once demo_wiring demo_config demo_ids "boom" 40 (demo_world demo_queue)
    = (wd', Return report)
  /\ 0 <= spawned report <= 2 /\ active_runs (disp demo_ticked) = [1; 2].
Proof.
  destruct (tick_respects_concurrency demo_wiring demo_config demo_ids "boom" 40 (demo_world demo_queue)
    TaskRunnerFacts.start_valid) as (wd' & report & E & _ & Hs & _).
  exists wd', report. split; [exact E|]. split; [exact Hs|]. vm_compute. reflexivity.
Defined.

Section stale.
Context {D : Type} `{HD : TaskDispatcher D} {valid : D -> Prop} `{!DispatcherLaws D valid}.
Context (w : wiring) (cfg : TaskConfig).

Lemma existsb_run_id rid l :
  existsb (fun m => meta_run_id m =? rid) l = bool_decide (rid ∈ (meta_run_id <$> l)).
Proof.
  induction l as [|m l IH]; [done|]. rewrite fmap_cons. cbn [existsb].
  rewrite IH. destruct (Z.eqb_spec (meta_run_id m) rid); cbn [orb]; symmetry.
  - apply bool_decide_eq_true_2. rewrite elem_of_cons. auto.
  - apply bool_decide_ext. rewrite elem_of_cons. split; [intros [?|?]; [congruence|done]|auto].
Qed.

Lemma has_active_worker_spec rid (wd : world D) :
  valid (disp wd) ->
  exists wd', has_active_worker rid wd = (wd', Return (bool_decide (rid ∈ active_runs (disp wd))))
  /\ store wd' = store wd /\ valid (disp wd') /\ active_runs (disp wd') = active_runs (disp wd).
Proof.
  intros Hv. exists (mkWorld (store wd) (dispatch_inspect (disp wd)).1 (sent wd)). split_and!; try done.
  - unfold has_active_worker, mbind, M_bind, dispatch, active_runs. rewrite <- (existsb_run_id rid).
    by destruct (dispatch_inspect (disp wd)).
  - by apply inspect_valid.
  - by apply inspect_stable.
Qed.

(** Reclaiming the run a live task is under. *)
Lemma reclaim_holder id t rid lock oc e now (wd : world D) :
  db_ok (store wd) -> tasks (store wd) !! id = Some t -> holds_claim t lock rid = true ->
  oc = TaskRunOutcome.EXPIRED \/ oc = TaskRunOutcome.CRASHED ->
  exists wd' t', reclaim w id rid lock oc e now wd = (wd', Return true)
  /\ disp wd' = disp wd /\ tasks (store wd') = <[id := t']> (tasks (store wd))
  /\ Task.status t' = TaskStatus.EXPIRED /\ unclaimed t' /\ Task.version t' = Task.version t + 1.
Proof.
  intros Hok Ht Hh Hoc.
  destruct (finalize_holder _ _ _ _ _ oc None [] (Some e) true None now Hok Ht Hh)
    as (r & _ & _ & _ & d' & res & Hfin & Hres).
  cbv zeta in Hres. destruct Hres as (Hst & Hun & Hver & _ & _ & _ & _ & Hd' & _).
  unfold reclaim, try_except, mbind, M_bind, registry, recover_run_sync.
  cbn [rec_task_id rec_run_id rec_claim_lock rec_outcome rec_error]. rewrite Hfin.
  unfold write_lifecycle_for_status, write_lifecycle, write_result_if_terminal, write_result,
    notify_if_terminal.
  destruct (lifecycle_writer w), (result_writer w), (notifier w); cbn;
    (eexists _, (finished_task res); split; [reflexivity|]);
    (split; [done|]); (split; [done|]); (split; [by rewrite Hst; destruct Hoc as [->| ->]|done]).
Qed.

(** A running task and whether it is due, given the active runs. *)
Definition due_for_recovery (active : list Z) (now : Z) (t : Task.t) : bool :=
  stale_execution cfg t (bool_decide (default 0 (Task.current_run_id t) ∈ active)) now.

Lemma recover_one t now (wd : world D) :
  reachable (store wd) -> valid (disp wd) ->
  tasks (store wd) !! Task.id t = Some t -> Task.status t = TaskStatus.RUNNING ->
  let due := due_for_recovery (active_runs (disp wd)) now t in
  exists wd', recover_stale_execution w cfg now t wd = (wd', Return due)
  /\ reachable (store wd') /\ valid (disp wd') /\ active_runs (disp wd') = active_runs (disp wd)
  /\ (if due then exists t', tasks (store wd') = <[Task.id t := t']> (tasks (store wd))
         /\ Task.status t' = TaskStatus.EXPIRED /\ unclaimed t' /\ Task.version t' = Task.version t + 1
      else tasks (store wd') = tasks (store wd)).
Proof.
  intros Hreach Hv Ht Hs due. pose proof (reachable_ok _ Hreach) as Hok.
  pose proof (ok_linked _ Hok _ _ Ht) as Hl. unfold linked in Hl. rewrite bool_decide_eq_true_2 in Hl by done.
  destruct Hl as (lock & rid & r & Hlock & Hrid & _).
  assert (keeps_reachable (recover_stale_execution w cfg now t : M D bool)) as Hkeep.
  { unfold recover_stale_execution. rewrite Hlock, Hrid. apply keeps_bind; [apply keeps_has_active|].
    intros b. case_match; auto using keeps_reclaim with agent. }
  specialize (Hkeep wd Hreach). unfold recover_stale_execution in *. rewrite Hlock, Hrid in *.
  destruct (has_active_worker_spec rid wd Hv) as (w1 & Heq & Hst & Hv1 & Ha1).
  unfold mbind, M_bind in *. rewrite Heq in *.
  assert (due = stale_execution cfg t (bool_decide (rid ∈ active_runs (disp wd))) now) as Hdue
    by (unfold due, due_for_recovery; by rewrite Hrid).
  rewrite <- Hdue in *. destruct due.
  - destruct (reclaim_holder (Task.id t) t rid lock TaskRunOutcome.EXPIRED
      "lease expired or heartbeat stale" now w1) as (w2 & t' & Heq2 & Hd & Htasks & H1 & H2 & H3);
      [by rewrite Hst|by rewrite Hst|by apply holds_claim_spec|by left|].
    rewrite Heq2 in *. exists w2. rewrite Hd. split; [done|]. split; [done|]. split; [done|]. split; [done|].
    exists t'. by rewrite Htasks, Hst.
  - exists w1. split; [done|]. rewrite Hst. done.
Qed.

Lemma recover_loop l now (wd : world D) :
  reachable (store wd) -> valid (disp wd) -> NoDup (Task.id <$> l) ->
  (forall t, t ∈ l -> tasks (store wd) !! Task.id t = Some t /\ Task.status t = TaskStatus.RUNNING) ->
  let due := due_for_recovery (active_runs (disp wd)) now in
  exists wd', count_each l (recover_stale_execution w cfg now) wd
     = (wd', Return (Z.of_nat (length (List.filter due l))))
  /\ (forall id, id ∉ (Task.id <$> l) -> tasks (store wd') !! id = tasks (store wd) !! id)
  /\ (forall t, t ∈ l -> if due t
       then exists t', tasks (store wd') !! Task.id t = Some t' /\ Task.status t' = TaskStatus.EXPIRED
            /\ unclaimed t' /\ Task.version t' = Task.version t + 1
       else tasks (store wd') !! Task.id t = Some t).
Proof.
  revert wd. induction l as [|t l IH]; intros wd Hreach Hv Hnd Hl due.
  { exists wd. split; [done|]. split; [done|]. by intros t ?%elem_of_nil. }
  apply NoDup_cons in Hnd as [Hnot Hnd].
  destruct (Hl t ltac:(by left)) as [Ht Hs].
  destruct (recover_one t now wd Hreach Hv Ht Hs) as (w1 & Heq & Hr1 & Hv1 & Ha1 & Hcase).
  fold due in Hcase, Heq.
  assert (forall id, id <> Task.id t -> tasks (store w1) !! id = tasks (store wd) !! id) as Hother.
  { intros id Hne. fold (due t) in Hcase. destruct (due t); [|by rewrite Hcase].
    destruct Hcase as (t' & -> & _). by rewrite lookup_insert_ne. }
  destruct (IH w1 Hr1 Hv1 Hnd) as (w2 & Heq2 & Hout & Hin).
  { intros u Hu. rewrite Hother; [by apply Hl; right|].
    intros Heqid. apply Hnot. rewrite <- Heqid. by apply list_elem_of_fmap_2. }
  rewrite Ha1 in Heq2, Hin. fold due in Heq2, Hin. exists w2. split; [|split].
  - cbn [count_each]. unfold mbind, M_bind. rewrite Heq, Heq2. cbn [List.filter].
    fold (due t). destruct (due t); cbn [length]; unfold mret, M_ret; do 2 f_equal. lia.
  - intros id Hid. rewrite Hout, Hother; [done| |]; intros ?; apply Hid; simpl; set_solver.
  - intros u Hu. apply elem_of_cons in Hu as [->|Hu]; [|by apply Hin].
    rewrite Hout by done. fold (due t) in Hcase. destruct (due t).
    + destruct Hcase as (t' & -> & ?). exists t'. by rewrite lookup_insert_eq.
    + by rewrite Hcase.
Qed.
End stale.

(** Stale recovery ends exactly the runs that are due: a RUNNING task whose
    worker is alive is expired only when its heartbeat is older than the
    timeout, one without a worker only when its lease has run out; such a task
    is EXPIRED with its claim freed, every other task keeps its row, and the
    count returned is the number of runs ended. *)
Theorem stale_recovery_exact {D} `{TaskDispatcher D} {valid : D -> Prop}
    `{!DispatcherLaws D valid} (w : wiring) cfg now (wd : world D) :
  reachable (store wd) -> valid (disp wd) ->
  let due t := bool_decide (Task.board t = "default" /\ Task.status t = TaskStatus.RUNNING)
               && (if bool_decide (default 0 (Task.current_run_id t) ∈ active_runs (disp wd))
                   then Task.is_stale t now (task_heartbeat_timeout_seconds cfg)
                   else match Task.claim_expires t with Some e => e <=? now | None => true end) in
  exists wd' n, recover_stale_executions w cfg now wd = (wd', Return n)
  /\ n = Z.of_nat (length (List.filter due (all_tasks (store wd))))
  /\ forall id t, tasks (store wd) !! id = Some t ->
     if due t
     then exists t', tasks (store wd') !! id = Some t' /\ Task.status t' = TaskStatus.EXPIRED
          /\ unclaimed t' /\ Task.version t' = Task.version t + 1
     else tasks (store wd') !! id = Some t.
Proof.
  intros Hreach Hv due. pose proof (reachable_ok _ Hreach) as Hok.
  set (run_due := due_for_recovery cfg (active_runs (disp wd)) now).
  set (listed_running := fun t => bool_decide (Task.board t = "default")
                          && bool_decide (Task.status t = TaskStatus.RUNNING)).
  set (l := list_running_sync (store wd) "default").
  assert (l ≡ₚ List.filter listed_running (all_tasks (store wd))) as Hperm
    by apply order_by_perm.
  assert (forall t, due t = listed_running t && run_due t) as Hdue.
  { intros t. unfold due, listed_running, run_due, due_for_recovery, stale_execution.
    rewrite bool_decide_and. do 2 f_equal. case_match; [done|].
    destruct (Task.claim_expires t); [by rewrite Z.leb_antisym|done]. }
  assert (forall t, t ∈ l <-> tasks (store wd) !! Task.id t = Some t /\ listed_running t = true) as Hl
    by (intros t; by rewrite Hperm, List_filter_elem, TaskListing.all_tasks_elem).
  destruct (recover_loop w cfg l now wd) as (wd' & Heq & Hout & Hin); [done|done| | |].
  - rewrite Hperm. apply (NoDup_fmap_2_strong Task.id); [|apply NoDup_List_filter, TaskListing.all_tasks_nodup; done].
    intros x y [Hx _]%List_filter_elem [Hy _]%List_filter_elem Hid.
    apply (TaskListing.all_tasks_elem _ _ Hok) in Hx, Hy. congruence.
  - intros t [Ht Hs]%Hl. split; [done|]. unfold listed_running in Hs.
    rewrite andb_true_iff, !bool_decide_eq_true in Hs. tauto.
  - fold run_due in Heq, Hin. exists wd', (Z.of_nat (length (List.filter run_due l))).
    split; [exact Heq|]. split.
    + f_equal. rewrite (List_filter_perm run_due _ _ Hperm), <- List_filter_and.
      f_equal. apply List.filter_ext. intros t. by rewrite Hdue.
    + intros id t Ht. pose proof (ok_task_id _ Hok _ _ Ht) as Hid. rewrite Hdue.
      destruct (listed_running t) eqn:Hrun; cbn [andb].
      * assert (t ∈ l) as Htl by (apply Hl; by rewrite Hid). specialize (Hin t Htl).
        rewrite Hid in Hin. exact Hin.
      * rewrite Hout; [done|]. intros (u & Hu & Hul)%list_elem_of_fmap.
        apply Hl in Hul as [Hul Hur]. congruence.
Qed.

Lemma stale_recovery_exact_witness :
  (exists wd', recover_stale_executions demo_wiring demo_config 50 demo_ticked = (wd', Return 0))
  /\ exists wd', recover_stale_executions demo_wiring demo_config 900000041 demo_ticked = (wd', Return 2).
Proof.
  assert (TaskRunner.valid (disp demo_ticked)) as Hv.
  { apply tick_keeps_valid, TaskRunnerFacts.start_valid. }
  split.
  - destruct (stale_recovery_exact demo_wiring demo_config 50 demo_ticked demo_ticked_reachable Hv)
      as (wd' & n & Heq & -> & _). exists wd'. rewrite Heq. reflexivity.
  - destruct (stale_recovery_exact demo_wiring demo_config 900000041 demo_ticked demo_ticked_reachable Hv)
      as (wd' & n & Heq & -> & _). exists wd'. rewrite Heq. reflexivity.
Defined.
