(* ===== verification/TaskService.v ===== *)
(** TaskService (app/application/task_service.py): creation, edits, approval,
    cancellation, retries, attachments and the worker's own calls, over the
    world of TaskWorld.v. *)
From S2P Require Import Prelude TaskSettings TaskDomain TaskStore TaskStoreInv Dispatcher TaskWorld RunService.

(** * The run service, as the task service sees it *)

Record run_port (D : Type) := mkRunPort {
  port_finalize_propose : string -> Z -> string -> option string -> string -> Z -> M D finalize_status;
  port_terminate : string -> Z -> M D terminate_status
}.
Arguments port_finalize_propose {D} _.
Arguments port_terminate {D} _.

(** What the task service relies on: a task that exists is handled without an
    exception, and the registry is only changed by its own operations. *)
Record run_port_ok {D} (p : run_port D) : Prop := {
  port_keeps_propose id rid lock pr pt now :
    keeps_reachable (port_finalize_propose p id rid lock pr pt now);
  port_keeps_terminate id now : keeps_reachable (port_terminate p id now);
  port_propose_returns id rid lock pr pt now wd :
    is_Some (tasks (store wd) !! id) ->
    exists r, (port_finalize_propose p id rid lock pr pt now wd).2 = Return r;
  port_terminate_returns id now wd :
    is_Some (tasks (store wd) !! id) -> exists r, (port_terminate p id now wd).2 = Return r;
  port_keeps_task id id' rid lock pr pt now wd :
    is_Some (tasks (store wd) !! id) ->
    is_Some (tasks (store (port_finalize_propose p id' rid lock pr pt now wd).1) !! id)
    /\ is_Some (tasks (store (port_terminate p id' now wd).1) !! id)
}.

(** TaskRunService behind the port. *)
Definition task_run_port {D} `{TaskDispatcher D} (w : wiring) (ending : option worker_end)
    : run_port D :=
  mkRunPort D
    (fun id rid lock pr pt now => finalize_propose w id rid lock pr pt ending now)
    (fun id now => terminate w id None ending now).

(** * Data *)

Record NewTask := mkNewTask {
  new_title : string;
  new_body : string;
  new_priority : Z;
  new_created_by : string;
  new_board : string;
  new_idempotency_key : option string;
  new_origin_session_id : option string;
  new_scheduled_at : option Z;
  new_skills : list string;
  new_execution_policy : option TaskExecutionPolicy;
  new_workspace_kind : TaskWorkspaceKind.t;
  new_workspace_path : option string;
  new_model_override : option string;
  new_max_runtime_seconds : option Z;
  new_max_retries : option Z;
  new_goal_mode : bool;
  new_goal_max_turns : option Z
}.

(** The surroundings of a call: the run it is made from, the trace it carries
    and the identifier it draws. *)
Record call_context := mkCallContext {
  triggering_run_id : option string;
  captured_trace : list (string * string);
  fresh_hex : string
}.

(** What the constructor injects; [attachment_path] is [None] when no root is
    configured, and gives no path when the resolved one leaves the root. *)
Record service_wiring := mkServiceWiring {
  svc_uuid5 : string -> string;
  svc_lifecycle_writer : bool;
  svc_memory_store : bool;
  svc_artifact_delete : bool;
  svc_artifact_register : bool;
  svc_attachment_path : option (string -> string -> option string);
  svc_workspace_ref_ok : option (string -> bool)
}.

(** * Constants *)

Definition EVENT_CHANGE_PROPOSED : string := "change_proposed".
Definition EVENT_CHANGE_APPROVED : string := "change_approved".
Definition EVENT_CHANGE_REJECTED : string := "change_rejected".
Definition EVENT_CHANGE_REVISED : string := "change_revised".
Definition EVENT_CANCELLED : string := "cancelled".
Definition EVENT_RETRIED : string := "retried".
Definition INTENT_COMPLETE : string := "complete_requested".
Definition INTENT_FAIL : string := "fail_requested".
Definition MAX_EVENTS_IN_DETAIL : Z := 50.
Definition MAX_PROGRESS_EVENTS : nat := 10.

Definition PROGRESS_EVENT_KINDS : list string :=
  ["comment_added"; INTENT_COMPLETE; INTENT_FAIL; EVENT_CHANGE_PROPOSED; EVENT_CHANGE_APPROVED;
   EVENT_CHANGE_REJECTED; EVENT_CHANGE_REVISED; EVENT_CANCELLED; EVENT_RETRIED;
   "goal_judge_feedback"; "finished"].

(** * Validation *)

(** [_normalize_note] on a note that is a string or [None]. *)
Definition normalize_note (required : bool) (note : option string) (max_codepoints : Z)
    : result (option string) :=
  match note with
  | None => if required then Raise TaskValidationError else Return None
  | Some n =>
      let trimmed := strip n in
      if negb (truthy_str trimmed)
      then if required then Raise TaskValidationError else Return None
      else if max_codepoints <? len trimmed then Raise TaskValidationError
      else Return (Some trimmed)
  end.

(** The characters of [[^\x00-\x1f/\\<>:""|?*\x7f]]: the two quotes end one
    string literal and start the next, so no quote is excluded. *)
Definition safe_char (c : Ascii.ascii) : bool :=
  let n := Ascii.nat_of_ascii c in
  negb ((n <=? 31)%nat || (n =? 127)%nat || existsb (Ascii.eqb c) (chars "/\<>:|?*")).

(** [re.match(r"^X+$", s)] for a class of characters: [$] also matches before
    a final newline. *)
Fixpoint class_plus_dollar (cls : Ascii.ascii -> bool) (seen : bool) (s : list Ascii.ascii) : bool :=
  match s with
  | [] => seen
  | c :: s' =>
      (cls c && class_plus_dollar cls true s')
      || (seen && bool_decide (c = Ascii.ascii_of_nat 10) && bool_decide (s' = []))
  end.

Definition filename_safe_re (s : string) : bool := class_plus_dollar safe_char false (chars s).
Definition filename_dot_re (s : string) : bool :=
  class_plus_dollar (fun c => bool_decide (c = Ascii.ascii_of_nat 46)) false (chars s).

Definition validate_attachment_filename (filename : string) : result unit :=
  if negb (truthy_str filename) || negb (truthy_str (strip filename)) then Raise TaskValidationError
  else if filename_dot_re filename then Raise TaskValidationError
  else if negb (filename_safe_re filename) then Raise TaskValidationError
  else if contains "/" filename || contains "\" filename then Raise TaskValidationError
  else Return tt.

Definition has_field (p : task_field -> bool) (fields : list task_field) : bool := existsb p fields.
Definition is_trace_field (f : task_field) : bool :=
  match f with FTraceContext _ => true | _ => false end.
Definition is_status_field (f : task_field) : bool :=
  match f with FStatus _ => true | _ => false end.

Section service.
Context {D : Type}.
Context (sw : service_wiring) (cfg : TaskConfig) (run_service : option (run_port D)).

Definition svc_write_lifecycle (task : Task.t) (content : text) : M D unit :=
  if svc_lifecycle_writer sw
  then send (MsgLifecycle (task_execution_session_id (svc_uuid5 sw) task) content None)
  else mret tt.

Definition append_event (task_id kind : string) (payload : list (string * json)) (run_id : option Z)
    (now : Z) : M D TaskEvent.t :=
  registry (fun d => append_event_sync d task_id kind payload run_id now).

(** * CRUD *)

Definition find_by_idempotency (board created_by idempotency_key : string) : M D (option Task.t) :=
  mret None.

Definition create_task (n : NewTask) (cx : call_context) (now : Z) : M D Task.t :=
  let max_retries := default (task_failure_limit cfg) (new_max_retries n) in
  if negb (truthy_str (new_title n)) || negb (truthy_str (strip (new_title n)))
  then raise TaskValidationError
  else if negb (bool_decide (new_board n = "default")) then raise TaskValidationError
  else
    existing ← (match new_idempotency_key n with
                | Some k => if truthy_str k
                            then find_by_idempotency (new_board n) (new_created_by n) k
                            else mret None
                | None => mret None
                end);
    match existing with
    | Some t => mret t
    | None =>
        let task := (Task.defaults ("t_" +:+ fresh_hex cx) (strip (new_title n)))
          <| Task.body := new_body n |> <| Task.priority := new_priority n |>
          <| Task.created_by := new_created_by n |> <| Task.created_at := Some now |>
          <| Task.updated_at := Some now |> <| Task.board := new_board n |>
          <| Task.origin_session_id := new_origin_session_id n |>
          <| Task.scheduled_at := new_scheduled_at n |> <| Task.skills := new_skills n |>
          <| Task.execution_policy := default (mkTaskExecutionPolicy []) (new_execution_policy n) |>
          <| Task.workspace_kind := new_workspace_kind n |>
          <| Task.workspace_path := new_workspace_path n |>
          <| Task.model_override := new_model_override n |>
          <| Task.max_runtime_seconds := new_max_runtime_seconds n |>
          <| Task.max_retries := max_retries |> <| Task.goal_mode := new_goal_mode n |>
          <| Task.goal_max_turns := new_goal_max_turns n |>
          <| Task.idempotency_key := new_idempotency_key n |>
          <| Task.trace_context := captured_trace cx |>
          <| Task.created_by_run_id := triggering_run_id cx |>
          <| Task.pending_trigger_run_id := triggering_run_id cx |> in
        created ← registry (fun d => create_task_sync d task now);
        _ ← append_event (Task.id created) "created" [("title", JStr (Task.title created))] None now;
        mret created
    end.

Definition get_task (task_id : string) : M D Task.t :=
  found ← query (fun d => get_task_sync d task_id);
  match found with Some t => mret t | None => raise TaskNotFoundError end.

(** [session_id] is a string here. *)
Definition latest_waiting_approval_in_session (session_id : string) : M D (option Task.t) :=
  if negb (truthy_str (strip session_id)) then raise TaskValidationError
  else registry (fun d => (d, latest_waiting_approval_in_session_sync d (strip session_id))).

Definition update_task (task_id : string) (fields : list task_field) (expected_version now : Z)
    : M D Task.t :=
  if has_field is_trace_field fields then raise TaskValidationError
  else
    task ← get_task task_id;
    if bool_decide (Task.status task = TaskStatus.RUNNING) then raise TaskStateError
    else if has_field is_status_field fields then raise TaskStateError
    else registry (fun d => update_task_sync d task_id fields expected_version now).

(** The pre-check of a bulk update. *)
Fixpoint check_bulk (its : list BulkUpdateItem) : M D unit :=
  match its with
  | [] => mret tt
  | it :: its =>
      if has_field is_trace_field (bulk_fields it) then raise TaskValidationError
      else if has_field is_status_field (bulk_fields it) then raise TaskStateError
      else
        found ← query (fun d => get_task_sync d (bulk_task_id it));
        match found with
        | Some t => if bool_decide (Task.status t = TaskStatus.RUNNING)
                    then raise TaskStateError else check_bulk its
        | None => check_bulk its
        end
  end.

Definition bulk_update (its : list BulkUpdateItem) (now : Z) : M D (list Task.t) :=
  _ ← check_bulk its;
  registry (fun d => bulk_update_sync d its now).

Definition attachment_path (task_id stored_name : string) : option string :=
  match svc_attachment_path sw with Some f => f task_id stored_name | None => None end.

Definition delete_task (task_id : string) (now : Z) : M D bool :=
  task ← get_task task_id;
  if bool_decide (Task.status task = TaskStatus.RUNNING) then raise TaskStateError
  else
    attachments ← query (fun d => list_attachments_sync d task_id);
    deleted ← registry_total (fun d => delete_task_sync d task_id now);
    if negb deleted then mret false
    else
      _ ← for_each (omap (fun a => attachment_path task_id (TaskAttachment.stored_name a)) attachments)
            (fun path => send (DeleteFile path));
      _ ← (if svc_artifact_delete sw then send (DeleteArtifacts task_id) else mret tt);
      _ ← (if svc_memory_store sw then
             let execution_sid :=
               if truthy_opt_str (Task.execution_session_id task) then Task.execution_session_id task
               else if truthy_opt_str (Task.origin_session_id task) then Task.execution_session_id task
               else Some (task_session_id_fallback (svc_uuid5 sw) task_id) in
             match execution_sid with
             | Some sid => if truthy_str sid then send (DeleteSession sid) else mret tt
             | None => mret tt
             end
           else mret tt);
      mret true.

(** The tasks of a session, page by page; [fuel] bounds the number of pages. *)
Fixpoint session_task_ids (fuel : nat) (session_id : string) (cursor : option TaskListCursor)
    : M D (list string) :=
  match fuel with
  | O => mret []
  | S fuel =>
      page ← query (fun d => list_tasks_sync d "default" cursor 100 true);
      let here := Task.id <$> List.filter (fun t =>
        bool_decide (Task.origin_session_id t = Some session_id)
        || bool_decide (Task.execution_session_id t = Some session_id)) (items page) in
      match next_cursor page with
      | None => mret here
      | Some c => rest ← session_task_ids fuel session_id (Some c); mret (here ++ rest)
      end
  end.

Definition delete_tasks_by_session (session_id : string) (now : Z) : M D Z :=
  if negb (truthy_str (strip session_id)) then raise TaskValidationError
  else
    count ← query (fun d => length (all_tasks d));
    task_ids ← session_task_ids (S count) session_id None;
    _ ← for_each task_ids (fun id => _ ← delete_task id now; mret tt);
    mret (Z.of_nat (length task_ids)).

Definition set_archived (task_id : string) (value : bool) (expected_version now : Z) : M D Task.t :=
  task ← get_task task_id;
  if bool_decide (Task.status task = TaskStatus.RUNNING) then raise TaskStateError
  else registry (fun d => update_task_sync d task_id [FIsArchived value] expected_version now).

(** * Approval *)

Definition propose_change (task_id proposal : string) (run_id : Z) (proposal_type : string) (now : Z)
    : M D Z :=
  if negb (truthy_str proposal) || negb (truthy_str (strip proposal)) then raise TaskValidationError
  else if negb (bool_decide (proposal_type ∈ ["approval"; "intent_request"]))
  then raise TaskValidationError
  else
    task ← get_task task_id;
    if negb (bool_decide (Task.status task = TaskStatus.RUNNING)) then raise TaskStateError
    else if negb (bool_decide (Task.current_run_id task = Some run_id)) then raise TaskStateError
    else if negb (truthy_opt_str (Task.claim_lock task)) then raise TaskStateError
    else
      event ← append_event task_id EVENT_CHANGE_PROPOSED
        [("proposal", JStr proposal); ("run_id", JInt run_id); ("proposal_type", JStr proposal_type)]
        (Some run_id) now;
      delegated ← (match run_service with
        | Some port =>
            try_except any_exception
              (_ ← port_finalize_propose port task_id run_id (default "" (Task.claim_lock task))
                     (Some proposal) proposal_type now;
               mret true)
              (fun _ => mret false)
        | None => mret false
        end);
      if delegated : bool then mret (TaskEvent.id event)
      else
        match Task.propose_change task proposal run_id with
        | Raise e => raise e
        | Return updated =>
            _ ← registry (fun d =>
              update_task_sync d task_id [FStatus (Task.status updated)] (Task.version task) now);
            mret (TaskEvent.id event)
        end.

Record decision_receipt := mkDecisionReceipt {
  receipt_proposal_event_id : Z; receipt_note : option string; receipt_status : string;
  receipt_title : option string }.

Definition resolve_proposal (task_id decision event_kind : string) (note : option string)
    (required : bool) (now : Z) : M D decision_receipt :=
  if negb (truthy_str (strip task_id)) then raise TaskValidationError
  else
    match normalize_note required note (note_max_codepoints cfg) with
    | Raise e => raise e
    | Return normalized_note =>
        task ← get_task task_id;
        if negb (bool_decide (Task.status task = TaskStatus.WAITING_APPROVAL))
        then raise TaskStateError
        else
          r ← registry (fun d => resolve_proposal_sync d
                (mkProposalResolutionCommand task_id (Task.version task) decision event_kind
                   normalized_note) now);
          let t := resolved_task r in
          _ ← svc_write_lifecycle t
                (if bool_decide (decision = "approved") then TextApproved (Task.id t) (Task.title t)
                 else if bool_decide (decision = "rejected")
                 then TextRejected (Task.id t) (Task.title t)
                 else TextRevised (Task.id t) (Task.title t) (str_or normalized_note ""));
          mret (mkDecisionReceipt (proposal_event_id r) normalized_note
                  (TaskStatus.value (Task.status t)) None)
    end.

Definition approve_change (task_id : string) (note : option string) (now : Z) : M D decision_receipt :=
  resolve_proposal task_id "approved" EVENT_CHANGE_APPROVED note false now.

Definition reject_change (task_id : string) (note : option string) (now : Z) : M D decision_receipt :=
  resolve_proposal task_id "rejected" EVENT_CHANGE_REJECTED note false now.

Definition revise_change (task_id : string) (note : option string) (now : Z) : M D decision_receipt :=
  r ← resolve_proposal task_id "revised" EVENT_CHANGE_REVISED note true now;
  task ← get_task task_id;
  mret (mkDecisionReceipt (receipt_proposal_event_id r) (receipt_note r) (receipt_status r)
          (Some (Task.title task))).

(** * Cancellation and retry

    Both return the status they report. *)

Definition cancel_task (task_id : string) (now : Z) : M D TaskStatus.t :=
  task ← get_task task_id;
  match Task.cancel task now with
  | Raise e => raise e
  | Return _ =>
      handled ← (match run_service with
        | Some port =>
            if bool_decide (Task.status task = TaskStatus.RUNNING) then
              try_except any_exception
                (_ ← port_terminate port task_id now;
                 _ ← append_event task_id EVENT_CANCELLED
                       [("source", JStr (TaskStatus.value (Task.status task)))] None now;
                 mret true)
                (fun _ => mret false)
            else mret false
        | None => mret false
        end);
      if handled : bool then mret TaskStatus.CANCELLED
      else
        _ ← registry (fun d =>
          update_task_sync d task_id [FStatus TaskStatus.CANCELLED] (Task.version task) now);
        _ ← svc_write_lifecycle task (TextCancelled (Task.id task) (Task.title task));
        _ ← append_event task_id EVENT_CANCELLED
              [("source", JStr (TaskStatus.value (Task.status task)))] None now;
        mret TaskStatus.CANCELLED
  end.

Definition retry_task (task_id : string) (cx : call_context) (now : Z) : M D TaskStatus.t :=
  task ← get_task task_id;
  match Task.retry task with
  | Raise e => raise e
  | Return updated =>
      _ ← registry (fun d => update_task_sync d task_id
            [FStatus (Task.status updated); FClaimLock None; FClaimExpires None; FCurrentRunId None;
             FPendingTriggerRunId (triggering_run_id cx)] (Task.version task) now);
      _ ← append_event task_id EVENT_RETRIED
            [("source", JStr (TaskStatus.value (Task.status task)))] None now;
      mret (Task.status updated)
  end.

(** * Comments, events, runs *)

Definition add_comment (task_id body author : string) (cx : call_context) (now : Z)
    : M D TaskComment.t :=
  _ ← get_task task_id;
  c ← registry (fun d => add_comment_sync d task_id author body (fresh_hex cx) now);
  _ ← append_event task_id "comment_added"
        [("comment_id", JStr (TaskComment.id c)); ("author", JStr author)] None now;
  mret c.

Definition list_events (task_id : string) (since limit : Z) : M D (list TaskEvent.t) :=
  _ ← get_task task_id; query (fun d => list_events_sync d task_id since limit).

Definition list_runs (task_id : string) (limit : Z) : M D (list TaskRun.t) :=
  _ ← get_task task_id; query (fun d => list_runs_sync d task_id limit).

(** * Attachments

    [size] and [checksum] are those of the content; [written] is whether the
    file could be written and read back. *)

Definition upload_attachment (task_id filename content_type : string) (size : Z)
    (checksum uploaded_by : string) (written : bool) (cx : call_context) (now : Z)
    : M D TaskAttachment.t :=
  _ ← get_task task_id;
  match validate_attachment_filename filename with
  | Raise e => raise e
  | Return _ =>
      if task_attachment_max_bytes cfg <? size then raise TaskValidationError
      else
        existing ← query (fun d => list_attachments_sync d task_id);
        let total := foldr (fun a n => TaskAttachment.size a + n) 0 existing + size in
        if task_attachment_task_max_bytes cfg <? total then raise TaskValidationError
        else
          match svc_attachment_path sw with
          | None => raise TaskStateError
          | Some path_of =>
              let stored_name := fresh_hex cx +:+ "_" +:+ filename in
              match path_of task_id stored_name with
              | None => raise TaskValidationError
              | Some path =>
                  if negb written then raise TaskValidationError
                  else
                    _ ← send (WriteFile path);
                    a ← registry (fun d => add_attachment_sync d task_id filename stored_name
                          content_type size checksum uploaded_by (fresh_hex cx) now);
                    _ ← append_event task_id "attachment_uploaded"
                          [("attachment_id", JStr (TaskAttachment.id a)); ("filename", JStr filename)]
                          None now;
                    _ ← (if svc_artifact_register sw
                         then send (RegisterAttachment (TaskAttachment.id a)) else mret tt);
                    mret a
              end
          end
  end.

Definition delete_attachment (attachment_id : string) (now : Z) : M D bool :=
  found ← query (fun d => get_attachment_sync d attachment_id);
  match found with
  | None => mret false
  | Some a =>
      deleted ← registry_total (fun d => delete_attachment_sync d attachment_id);
      if negb deleted then mret deleted
      else
        _ ← (match attachment_path (TaskAttachment.task_id a) (TaskAttachment.stored_name a) with
             | Some path => send (DeleteFile path)
             | None => mret tt
             end);
        _ ← append_event (TaskAttachment.task_id a) "attachment_deleted"
              [("attachment_id", JStr attachment_id)] None now;
        mret deleted
  end.

(** * The worker's calls *)

Definition live_claim (task : Task.t) : result (string * Z) :=
  if negb (bool_decide (Task.status task = TaskStatus.RUNNING)) then Raise TaskStateError
  else match Task.claim_lock task, Task.current_run_id task with
       | Some lock, Some run_id =>
           if truthy_str lock then Return (lock, run_id) else Raise TaskStateError
       | _, _ => Raise TaskStateError
       end.

(** The [workspace:] references of an artifact list that cannot be read. *)
Definition unreadable_ref (a : raw_artifact) : bool :=
  match svc_workspace_ref_ok sw, a with
  | Some ok, RawDict _ _ (Some ref) _ _ _ _ _ => starts_with "workspace:" ref && negb (ok ref)
  | _, _ => false
  end.

(** [metadata] and [artifacts] are kept in the event as given; here they stand
    as one JSON value each. *)
Definition complete (task_id summary : string) (metadata artifacts_json : json)
    (artifacts : list raw_artifact) (now : Z) : M D Z :=
  task ← get_task task_id;
  match live_claim task with
  | Raise e => raise e
  | Return (_, run_id) =>
      if existsb unreadable_ref artifacts then raise TaskValidationError
      else
        _ ← append_event task_id INTENT_COMPLETE
              [("outcome", JStr (TaskRunOutcome.value TaskRunOutcome.COMPLETED));
               ("summary", JStr summary); ("metadata", metadata); ("artifacts", artifacts_json);
               ("task_id", JStr task_id); ("run_id", JInt run_id)] (Some run_id) now;
        mret run_id
  end.

Definition fail (task_id reason : string) (now : Z) : M D Z :=
  task ← get_task task_id;
  match live_claim task with
  | Raise e => raise e
  | Return (_, run_id) =>
      _ ← append_event task_id INTENT_FAIL
            [("outcome", JStr (TaskRunOutcome.value TaskRunOutcome.ABORTED));
             ("error", JStr (str_or (Some reason) "worker aborted"));
             ("task_id", JStr task_id); ("run_id", JInt run_id)] (Some run_id) now;
      mret run_id
  end.

Definition heartbeat (task_id note : string) (now : Z) : M D Z :=
  task ← get_task task_id;
  match live_claim task with
  | Raise e => raise e
  | Return (lock, run_id) =>
      _ ← registry (fun d => record_heartbeat_sync d task_id run_id lock now);
      _ ← (if truthy_str note
           then _ ← append_event task_id "heartbeat" [("note", JStr note)] (Some run_id) now; mret tt
           else mret tt);
      mret now
  end.

(** * What a worker is told about its history

    The texts are built from these events. *)

Definition refers_to (pid : Z) (e : TaskEvent.t) : bool :=
  match obj_get "proposal_event_id" (TaskEvent.payload e) with
  | Some (JInt n) => n =? pid
  | Some (JBool b) => (if b then 1 else 0) =? pid
  | _ => false
  end.

Definition latest_open_proposal (events : list TaskEvent.t) : option TaskEvent.t :=
  List.find (fun event =>
    bool_decide (TaskEvent.kind event = EVENT_CHANGE_PROPOSED)
    && negb (existsb (fun e =>
         (TaskEvent.id event <? TaskEvent.id e)
         && bool_decide (TaskEvent.kind e ∈
              [EVENT_CHANGE_APPROVED; EVENT_CHANGE_REJECTED; EVENT_CHANGE_REVISED])
         && refers_to (TaskEvent.id event) e) events))
    (rev events).

Definition latest_decision (events : list TaskEvent.t) : option TaskEvent.t :=
  List.find (fun e => bool_decide (TaskEvent.kind e ∈
    [EVENT_CHANGE_APPROVED; EVENT_CHANGE_REJECTED; EVENT_CHANGE_REVISED])) (rev events).

(** [xs[-n:]] for a positive [n]. *)
Definition last_n {A} (n : nat) (xs : list A) : list A := drop (length xs - n) xs.

Definition progress_events (events : list TaskEvent.t) : list TaskEvent.t :=
  last_n MAX_PROGRESS_EVENTS
    (List.filter (fun e => bool_decide (TaskEvent.kind e ∈ PROGRESS_EVENT_KINDS)) events).

Record worker_context := mkWorkerContext {
  open_proposal : option TaskEvent.t;
  decision : option TaskEvent.t;
  progress : list TaskEvent.t
}.

(** The event segments of [build_worker_context]. *)
Definition build_worker_context (task : Task.t) : M D worker_context :=
  events ← query (fun d => list_events_sync d (Task.id task) 0 MAX_EVENTS_IN_DETAIL);
  mret (mkWorkerContext (latest_open_proposal events) (latest_decision events)
          (progress_events events)).
End service.
