(* ===== verification/ServiceProps.v ===== *)
(** The theorems about TaskService: every call of the task services keeps the
    registry within its invariant, what cancelling a running task really does, and
    which proposal a worker is told about. *)
From S2P Require Import Prelude TaskSettings TaskDomain TaskStore TaskStoreInv TaskProposals TaskListing.
From S2P Require Import Dispatcher TaskWorld RunService RunProps TaskService.

(** * Definitions *)

(** A call of one of the two services. *)
Inductive service_call (D : Type) : Type :=
  | CallCreate (n : NewTask) (cx : call_context)
  | CallUpdate (task_id : string) (fields : list task_field) (version : Z)
  | CallBulk (its : list BulkUpdateItem)
  | CallDelete (task_id : string)
  | CallDeleteSession (session_id : string)
  | CallArchive (task_id : string) (value : bool) (version : Z)
  | CallPropose (task_id proposal : string) (run_id : Z) (proposal_type : string)
  | CallApprove (task_id : string) (note : option string)
  | CallReject (task_id : string) (note : option string)
  | CallRevise (task_id : string) (note : option string)
  | CallCancel (task_id : string)
  | CallRetry (task_id : string) (cx : call_context)
  | CallComment (task_id body author : string) (cx : call_context)
  | CallUpload (task_id filename content_type : string) (size : Z) (checksum by_ : string)
      (written : bool) (cx : call_context)
  | CallDeleteAttachment (attachment_id : string)
  | CallComplete (task_id summary : string) (metadata artifacts_json : json) (arts : list raw_artifact)
  | CallFail (task_id reason : string)
  | CallHeartbeat (task_id note : string)
  | CallTick (ids : string -> claim_ids) (exc_text : string)
  | CallRunClaim (task : Task.t) (run_id : Z) (lock : string) (x : execution).
Arguments CallCreate {D}. Arguments CallUpdate {D}. Arguments CallBulk {D}. Arguments CallDelete {D}.
Arguments CallDeleteSession {D}. Arguments CallArchive {D}. Arguments CallPropose {D}.
Arguments CallApprove {D}. Arguments CallReject {D}. Arguments CallRevise {D}.
Arguments CallCancel {D}. Arguments CallRetry {D}. Arguments CallComment {D}.
Arguments CallUpload {D}. Arguments CallDeleteAttachment {D}. Arguments CallComplete {D}.
Arguments CallFail {D}. Arguments CallHeartbeat {D}. Arguments CallTick {D}.
Arguments CallRunClaim {D}.

(** Edits come without the lifecycle columns, as the routes send them. *)
Definition call_ok {D} (c : service_call D) : Prop :=
  match c with
  | CallUpdate _ fields _ => forallb plain_field fields = true
  | CallBulk its => Forall (fun it => forallb plain_field (bulk_fields it) = true) its
  | _ => True
  end.

Definition ignore {D A} (m : M D A) : M D unit := _ ← m; mret tt.

Section calls.
Context {D : Type} `{TaskDispatcher D}.
Context (w : wiring) (sw : service_wiring) (cfg : TaskConfig) (port : run_port D).

Definition run_call (now : Z) (c : service_call D) : M D unit :=
  match c with
  | CallCreate n cx => ignore (create_task cfg n cx now)
  | CallUpdate id fields v => ignore (update_task id fields v now)
  | CallBulk its => ignore (bulk_update its now)
  | CallDelete id => ignore (delete_task sw id now)
  | CallDeleteSession sid => ignore (delete_tasks_by_session sw sid now)
  | CallArchive id b v => ignore (set_archived id b v now)
  | CallPropose id p rid pt => ignore (propose_change (Some port) id p rid pt now)
  | CallApprove id n => ignore (approve_change sw cfg id n now)
  | CallReject id n => ignore (reject_change sw cfg id n now)
  | CallRevise id n => ignore (revise_change sw cfg id n now)
  | CallCancel id => ignore (cancel_task sw (Some port) id now)
  | CallRetry id cx => ignore (retry_task id cx now)
  | CallComment id b a cx => ignore (add_comment id b a cx now)
  | CallUpload id f ct size sum by_ written cx =>
      ignore (upload_attachment sw cfg id f ct size sum by_ written cx now)
  | CallDeleteAttachment a => ignore (delete_attachment sw a now)
  | CallComplete id s m aj arts => ignore (complete sw id s m aj arts now)
  | CallFail id r => ignore (fail id r now)
  | CallHeartbeat id n => ignore (heartbeat id n now)
  | CallTick ids exc => ignore (dispatch_once w cfg ids exc now)
  | CallRunClaim t rid lock x => ignore (run_claim w cfg t rid lock (mret x) now)
  end.
End calls.

(** A service over a [TaskRunner], for the examples. *)
Definition demo_service : service_wiring :=
  mkServiceWiring (fun id => "uuid-" +:+ id) true true true true
    (Some (fun task name => Some (task +:+ "/" +:+ name))) None.

Definition demo_port : run_port TaskRunner.t := task_run_port demo_wiring (Some EndCancelled).

(** * Every call keeps the registry reachable *)

Section keeps_calls.
Context {D : Type} `{HD : TaskDispatcher D}.
Context (w : wiring) (sw : service_wiring) (cfg : TaskConfig).

Lemma keeps_get_task id : keeps_reachable (get_task id : M D Task.t).
Proof. unfold get_task. apply keeps_bind; [auto with agent|]. intros [t|]; auto with agent. Qed.

Lemma keeps_svc_lifecycle t c : keeps_reachable (svc_write_lifecycle sw t c : M D unit).
Proof. unfold svc_write_lifecycle. case_match; auto with agent. Qed.

Lemma keeps_event id kind payload rid now :
  kind ∉ RESOLUTION_MARKER_KINDS -> keeps_reachable (append_event id kind payload rid now : M D _).
Proof. apply keeps_append_event. Qed.

(** A task read by [get_task] is the row the rest of the call works on. *)
Lemma get_task_then {A} id (k : Task.t -> M D A) (wd : world D) :
  (get_task id ≫= k) wd
  = match tasks (store wd) !! id with Some t => k t wd | None => (wd, Raise TaskNotFoundError) end.
Proof.
  unfold get_task, mbind, M_bind, query, get_task_sync. by destruct (tasks (store wd) !! id).
Qed.

Lemma keeps_create n cx now : keeps_reachable (create_task cfg n cx now : M D _).
Proof.
  unfold create_task. case_match; [auto with agent|]. case_match; [auto with agent|].
  apply keeps_bind; [repeat case_match; unfold find_by_idempotency; auto with agent|].
  intros [t|]; [auto with agent|]. apply keeps_bind.
  - apply keeps_registry. intros d _. right. eexists (OCreate _ now). split; [|reflexivity].
    split; [done|]. repeat split.
  - intros t. apply keeps_bind; [apply keeps_event; set_solver|auto with agent].
Qed.

(** An edit of a task that is not running, or of plain columns. *)
Lemma keeps_edit id fields v now (wd : world D) :
  reachable (store wd) ->
  match tasks (store wd) !! id with
  | Some t => if bool_decide (Task.status t = TaskStatus.RUNNING)
              then forallb plain_field fields = true else forallb idle_field fields = true
  | None => True
  end ->
  reachable (update_task_sync (store wd) id fields v now).1.
Proof. intros Hr Hf. apply (reachable_exec _ (OUpdate id fields v now)); done. Qed.

Lemma plain_idle fields : forallb plain_field fields = true -> forallb idle_field fields = true.
Proof.
  rewrite !forallb_forall. intros Hp f Hf. specialize (Hp f Hf). by destruct f.
Qed.

Lemma registry_store {A} (f : db -> db * result A) (wd : world D) :
  store (registry f wd).1 = (f (store wd)).1.
Proof. unfold registry. by destruct (f (store wd)). Qed.

Lemma keeps_update id fields v now :
  forallb plain_field fields = true -> keeps_reachable (update_task id fields v now : M D _).
Proof.
  intros Hp wd Hr. unfold update_task. case_match; [done|]. rewrite get_task_then.
  destruct (tasks (store wd) !! id) as [t|] eqn:Ht; [|done].
  case_bool_decide; [done|]. case_match; [done|]. rewrite registry_store.
  apply keeps_edit; [done|]. rewrite Ht. case_bool_decide; auto using plain_idle.
Qed.

Lemma plain_update_ok d id fields v now :
  forallb plain_field fields = true -> op_ok d (OUpdate id fields v now).
Proof.
  intros Hp. simpl. case_match; [|done]. case_bool_decide; auto using plain_idle.
Qed.

Lemma bulk_loop_reachable its now d :
  Forall (fun it => forallb plain_field (bulk_fields it) = true) its -> reachable d ->
  reachable (bulk_update_loop d its now).1.
Proof.
  intros HF. revert d. induction HF as [|it its Hp _ IH]; intros d Hr; simpl; [done|].
  pose proof (reachable_exec d (OUpdate (bulk_task_id it) (bulk_fields it) (bulk_expected_version it) now)
    Hr (plain_update_ok _ _ _ _ _ Hp)) as Hr'. simpl in Hr'.
  destruct (update_task_sync d _ _ _ _) as [d' [t|e]]; simpl in *; auto.
Qed.

Lemma keeps_bulk its now :
  Forall (fun it => forallb plain_field (bulk_fields it) = true) its ->
  keeps_reachable (bulk_update its now : M D _).
Proof.
  intros HF. unfold bulk_update. apply keeps_bind.
  - clear HF. induction its as [|it its IH]; simpl; [auto with agent|].
    case_match; [auto with agent|]. case_match; [auto with agent|].
    apply keeps_bind; [auto with agent|]. intros [t|]; [case_match|]; auto with agent.
  - intros _ wd Hr. rewrite registry_store. unfold bulk_update_sync.
    pose proof (bulk_loop_reachable its now (store wd) HF Hr) as Hl.
    by destruct (bulk_update_loop (store wd) its now) as [d' [u|e]].
Qed.

Lemma keeps_delete id now : keeps_reachable (delete_task sw id now : M D _).
Proof.
  unfold delete_task. apply keeps_bind; [apply keeps_get_task|]. intros t.
  case_match; [auto with agent|]. apply keeps_bind; [auto with agent|]. intros l.
  apply keeps_bind.
  - apply keeps_registry_total. intros d _. right. by exists (ODelete id now).
  - intros []; cbn [negb]; [|auto with agent].
    apply keeps_bind; [apply keeps_for_each; intros p; auto with agent|]. intros _.
    apply keeps_bind; [case_match; auto with agent|]. intros _.
    apply keeps_bind; [|auto with agent]. repeat case_match; auto with agent.
Qed.

Lemma keeps_delete_session sid now : keeps_reachable (delete_tasks_by_session sw sid now : M D _).
Proof.
  unfold delete_tasks_by_session. case_match; [auto with agent|].
  apply keeps_bind; [auto with agent|]. intros n. apply keeps_bind.
  - generalize (S n) (None : option TaskListCursor). clear. induction n as [|n IH]; intros c; simpl.
    + auto with agent.
    + apply keeps_bind; [auto with agent|]. intros page. case_match; [|auto with agent].
      apply keeps_bind; [apply IH|auto with agent].
  - intros l. apply keeps_bind; [|auto with agent]. apply keeps_for_each. intros id.
    apply keeps_bind; [apply keeps_delete|auto with agent].
Qed.

Lemma keeps_archive id b v now : keeps_reachable (set_archived id b v now : M D _).
Proof.
  intros wd Hr. unfold set_archived. rewrite get_task_then.
  destruct (tasks (store wd) !! id) as [t|] eqn:Ht; [|done]. case_bool_decide; [done|].
  rewrite registry_store. apply keeps_edit; [done|]. rewrite Ht. by case_bool_decide.
Qed.
End keeps_calls.

Section keeps_calls2.
Context {D : Type} `{HD : TaskDispatcher D}.
Context (w : wiring) (sw : service_wiring) (cfg : TaskConfig) (port : run_port D).
Context (Hport : run_port_ok port).

(** A call of the port on a task that exists is not cut short. *)
Lemma try_port {A} (m : M D A) (k : A -> M D bool) (h : py_exc -> M D bool) (wd : world D) a :
  (m wd).2 = Return a ->
  try_except any_exception (m ≫= k) h wd
  = (let r := k a (m wd).1 in
     match r.2 with Return b => r | Raise e => h e r.1 end).
Proof.
  intros Hm. unfold try_except, mbind, M_bind. destruct (m wd) as [w1 r]. simpl in *. subst r.
  by destruct (k a w1) as [w2 [b|e]].
Qed.

Lemma keeps_propose id p rid pt now : keeps_reachable (propose_change (Some port) id p rid pt now).
Proof.
  intros wd Hr. unfold propose_change. case_match; [done|]. case_match; [done|].
  rewrite get_task_then. destruct (tasks (store wd) !! id) as [t|] eqn:Ht; [|done].
  case_match; [done|]. case_match; [done|]. case_match; [done|].
  unfold mbind at 1, M_bind at 1.
  set (kind := append_event id EVENT_CHANGE_PROPOSED _ _ now).
  assert (reachable (store (kind wd).1)) as Hr1 by (apply keeps_event; [set_solver|done]).
  assert (exists ev, (kind wd).2 = Return ev /\ tasks (store (kind wd).1) = tasks (store wd)) as (ev & Hev & Ht1).
  { unfold kind, append_event, registry, append_event_sync, task_exists. rewrite Ht.
    rewrite bool_decide_eq_true_2 by eauto. cbn. eauto. }
  destruct (kind wd) as [w1 r1]. simpl in *. subst r1.
  set (call := port_finalize_propose port id rid (default "" (Task.claim_lock t)) (Some p) pt now).
  destruct (port_propose_returns _ Hport id rid (default "" (Task.claim_lock t)) (Some p) pt now w1)
    as [r Hret]; [rewrite Ht1; eauto|]. fold call in Hret.
  assert (reachable (store (call w1).1)) as Hr2 by (by apply port_keeps_propose).
  unfold mbind at 1, M_bind at 1. rewrite (try_port call _ _ _ _ Hret). cbn.
  exact Hr2.
Qed.

Lemma keeps_resolve id decision kind note req now :
  keeps_reachable (resolve_proposal sw cfg id decision kind note req now : M D _).
Proof.
  unfold resolve_proposal. case_match; [auto with agent|]. case_match; [|auto with agent].
  apply keeps_bind; [apply keeps_get_task|]. intros t. case_match; [auto with agent|].
  apply keeps_bind.
  - apply keeps_registry. intros d _. right. eexists (OResolve _ now). split; [exact I|reflexivity].
  - intros r. apply keeps_bind; [apply keeps_svc_lifecycle|auto with agent].
Qed.

Lemma keeps_cancel id now : keeps_reachable (cancel_task sw (Some port) id now).
Proof.
  intros wd Hr. unfold cancel_task. rewrite get_task_then.
  destruct (tasks (store wd) !! id) as [t|] eqn:Ht; [|done].
  destruct (Task.cancel t now) as [t'|e] eqn:Hc; [|done].
  assert (keeps_reachable (append_event id EVENT_CANCELLED
    [("source", JStr (TaskStatus.value (Task.status t)))] None now : M D _)) as Hev
    by (apply keeps_event; set_solver).
  destruct (decide (Task.status t = TaskStatus.RUNNING)) as [Hs|Hs].
  - rewrite (bool_decide_eq_true_2 (Task.status t = _)) by done.
    destruct (port_terminate_returns _ Hport id now wd) as [r Hret]; [eauto|].
    unfold mbind at 1, M_bind at 1. rewrite (try_port _ _ _ _ _ Hret).
    pose proof (port_keeps_terminate _ Hport id now wd Hr) as Hr1.
    destruct (port_keeps_task _ Hport id id 0 "" None "" now wd) as [_ Hex]; [eauto|].
    set (w1 := (port_terminate port id now wd).1) in *. cbv zeta.
    unfold mbind at 1, M_bind at 1. specialize (Hev w1 Hr1).
    assert (exists ev, (append_event id EVENT_CANCELLED
      [("source", JStr (TaskStatus.value (Task.status t)))] None now w1).2 = Return ev) as [ev He].
    { unfold append_event, registry, append_event_sync, task_exists.
      rewrite (bool_decide_eq_true_2 _ Hex). cbn. eauto. }
    destruct (append_event _ _ _ _ _ w1) as [w2 r2] eqn:E. simpl in He, Hev. subst r2.
    rewrite (bind_return _ _ _ _ _ E). exact Hev.
  - rewrite bool_decide_eq_false_2 by done. unfold mbind at 1, M_bind at 1. cbn [mret M_ret].
    assert (keeps_reachable (_ ← svc_write_lifecycle sw t (TextCancelled (Task.id t) (Task.title t));
      _ ← append_event id EVENT_CANCELLED [("source", JStr (TaskStatus.value (Task.status t)))] None now;
      mret TaskStatus.CANCELLED : M D TaskStatus.t)) as Hrest.
    { apply keeps_bind; [apply keeps_svc_lifecycle|]. intros _.
      apply keeps_bind; [done|auto with agent]. }
    unfold mbind at 1, M_bind at 1, registry.
    pose proof (keeps_edit id [FStatus TaskStatus.CANCELLED] (Task.version t) now wd Hr) as Hu.
    rewrite Ht in Hu. rewrite bool_decide_eq_false_2 in Hu by done. specialize (Hu eq_refl).
    destruct (update_task_sync _ _ _ _ _) as [d' [t1|e]]; simpl in *; [|done].
    by apply Hrest.
Qed.

Lemma keeps_retry id cx now : keeps_reachable (retry_task id cx now : M D _).
Proof.
  intros wd Hr. unfold retry_task. rewrite get_task_then.
  destruct (tasks (store wd) !! id) as [t|] eqn:Ht; [|done].
  destruct (Task.retry t) as [t'|e] eqn:Hc; [|done].
  assert (Task.status t <> TaskStatus.RUNNING /\ Task.status t' = TaskStatus.QUEUED) as [Hs Hq].
  { unfold Task.retry in Hc. destruct (Task.status t) eqn:E; eval_decides; simplify_eq/=; done. }
  unfold mbind at 1, M_bind at 1, registry.
  pose proof (keeps_edit id [FStatus (Task.status t'); FClaimLock None; FClaimExpires None;
    FCurrentRunId None; FPendingTriggerRunId (triggering_run_id cx)] (Task.version t) now wd Hr) as Hu.
  rewrite Ht, Hq in Hu. rewrite bool_decide_eq_false_2 in Hu by done. specialize (Hu eq_refl).
  rewrite Hq. destruct (update_task_sync _ _ _ _ _) as [d' [t1|e]]; simpl in *; [|done].
  assert (keeps_reachable (_ ← append_event id EVENT_RETRIED
    [("source", JStr (TaskStatus.value (Task.status t)))] None now; mret TaskStatus.QUEUED : M D _)) as Hrest
    by (apply keeps_bind; [apply keeps_event; set_solver|auto with agent]).
  apply (Hrest (mkWorld d' (disp wd) (sent wd))). exact Hu.
Qed.

Lemma keeps_comment id b a cx now : keeps_reachable (add_comment id b a cx now : M D _).
Proof.
  unfold add_comment. apply keeps_bind; [apply keeps_get_task|]. intros _. apply keeps_bind.
  - apply keeps_registry. intros d _. right. by exists (OAddComment id a b (fresh_hex cx) now).
  - intros c. apply keeps_bind; [apply keeps_event; set_solver|auto with agent].
Qed.

Lemma keeps_upload id f ct size sum by_ written cx now :
  keeps_reachable (upload_attachment sw cfg id f ct size sum by_ written cx now : M D _).
Proof.
  unfold upload_attachment. apply keeps_bind; [apply keeps_get_task|]. intros _.
  case_match; [|auto with agent]. case_match; [auto with agent|].
  apply keeps_bind; [auto with agent|]. intros l. case_match; [auto with agent|].
  case_match; [|auto with agent]. case_match; [|auto with agent]. case_match; [auto with agent|].
  apply keeps_bind; [auto with agent|]. intros _. apply keeps_bind.
  - apply keeps_registry. intros d _. right. eexists (OAddAttachment _ _ _ _ _ _ _ _ now).
    split; [exact I|reflexivity].
  - intros att. apply keeps_bind; [apply keeps_event; set_solver|]. intros _.
    apply keeps_bind; [case_match; auto with agent|auto with agent].
Qed.

Lemma keeps_delete_attachment a now : keeps_reachable (delete_attachment sw a now : M D _).
Proof.
  unfold delete_attachment. apply keeps_bind; [auto with agent|]. intros [att|]; [|auto with agent].
  apply keeps_bind.
  - apply keeps_registry_total. intros d _. right. by exists (ODeleteAttachment a).
  - intros b. case_match; [auto with agent|].
    apply keeps_bind; [case_match; auto with agent|]. intros _.
    apply keeps_bind; [apply keeps_event; set_solver|auto with agent].
Qed.

Lemma keeps_worker_calls id s m aj arts reason note now :
  keeps_reachable (complete sw id s m aj arts now : M D _)
  /\ keeps_reachable (fail id reason now : M D _)
  /\ keeps_reachable (heartbeat id note now : M D _).
Proof.
  split_and!; unfold complete, fail, heartbeat;
    (apply keeps_bind; [apply keeps_get_task|]; intros t);
    (destruct (live_claim t) as [[lock rid]|e]; [|auto with agent]).
  - case_match; [auto with agent|]. apply keeps_bind; [apply keeps_event; set_solver|auto with agent].
  - apply keeps_bind; [apply keeps_event; set_solver|auto with agent].
  - apply keeps_bind.
    + apply keeps_registry. intros d _. right. by exists (OHeartbeat id rid lock now).
    + intros _. apply keeps_bind; [|auto with agent]. case_match; [|auto with agent].
      apply keeps_bind; [apply keeps_event; set_solver|auto with agent].
Qed.

Lemma keeps_call now c : call_ok c -> keeps_reachable (run_call w sw cfg port now c).
Proof.
  assert (forall A (m : M D A), keeps_reachable m -> keeps_reachable (ignore m)) as Hig
    by (intros A m Hm; unfold ignore; apply keeps_bind; auto with agent).
  intros Hc. destruct c; simpl in *; apply Hig;
    unfold approve_change, reject_change; auto using keeps_create, keeps_update, keeps_bulk,
      keeps_delete, keeps_delete_session, keeps_archive, keeps_propose, keeps_resolve, keeps_cancel,
      keeps_retry, keeps_comment, keeps_upload, keeps_delete_attachment, keeps_dispatch_once,
      keeps_run_claim, keeps_ret.
  - unfold revise_change. apply keeps_bind; [apply keeps_resolve|]. intros r.
    apply keeps_bind; [apply keeps_get_task|auto with agent].
  - by apply (keeps_worker_calls task_id summary metadata artifacts_json arts "" "").
  - by apply (keeps_worker_calls task_id "" JNull JNull [] reason "").
  - by apply (keeps_worker_calls task_id "" JNull JNull [] "" note).
Qed.
End keeps_calls2.

(** * TaskRunService meets the port *)

Section port.
Context {D : Type} `{HD : TaskDispatcher D}.
Context (w : wiring) (ending : option worker_end).

Definition keeps_tasks (wd wd' : world D) : Prop :=
  forall id, is_Some (tasks (store wd) !! id) -> is_Some (tasks (store wd') !! id).

Lemma finalize_keeps_tasks d id0 rid lock oc s meta e rec target now id :
  is_Some (tasks d !! id) ->
  is_Some (tasks (finalize_run d id0 rid lock oc s meta e rec target now).1 !! id).
Proof.
  destruct (finalize_cases d id0 rid lock oc s meta e rec target now)
    as [->|[(? & _ & _ & _ & ? & ->)|(? & ? & ? & ? & ? & -> & _)]]; try done.
  cbn. rewrite lookup_insert_is_Some'. auto.
Qed.

Lemma finish_total task rid lock oc s e meta arts i now (wd : world D) :
  exists wd' r, finish w task rid lock oc s e meta arts i now wd = (wd', Return r)
  /\ keeps_tasks wd wd'.
Proof.
  pose proof (finish_cases w task rid lock oc s e meta arts i now wd) as H. cbv zeta in H.
  unfold finish_run_sync in H. cbn in H.
  pose proof (finalize_keeps_tasks (store wd) (Task.id task) rid lock oc (Some (str_or s "")) meta e
    false (Some (decide_target_status task oc)) now) as Hk.
  destruct (finalize_run _ _ _ _ _ _ _ _ _ _ _) as [d' [r|x]].
  - destruct H as (msgs & _ & ->). eexists _, _. split; [done|exact Hk].
  - rewrite H. eexists _, _. split; [done|exact Hk].
Qed.

Lemma cancel_worker_total task rid (wd : world D) :
  exists wd' b, cancel_worker_if_active task rid ending wd = (wd', Return b) /\ store wd' = store wd.
Proof.
  unfold cancel_worker_if_active, has_active_worker, mbind, M_bind, dispatch.
  destruct (dispatch_inspect (disp wd)) as [p l]. cbn. case_match.
  - eexists _, _. done.
  - destruct (dispatch_cancel _ _ _). eexists _, _. done.
Qed.

Lemma finalize_propose_total id rid lock pr pt now (wd : world D) :
  is_Some (tasks (store wd) !! id) ->
  exists wd' r, finalize_propose w id rid lock pr pt ending now wd = (wd', Return r)
  /\ keeps_tasks wd wd'.
Proof.
  intros [t Ht]. unfold finalize_propose, query, get_task_sync.
  destruct (cancel_worker_total t rid wd) as (w1 & b & E1 & Hst).
  destruct (finish_total t rid lock TaskRunOutcome.WAITING_APPROVAL (Some (str_or pr "")) None [] []
    (Some pt) now w1) as (w2 & r & E2 & Hk).
  exists w2, (if r then Finalized else FinalizeConflict).
  unfold mbind, M_bind. rewrite Ht, E1, E2. split; [by destruct r|].
  intros id' Hid'. apply Hk. by rewrite Hst.
Qed.

Lemma terminate_total id now (wd : world D) :
  is_Some (tasks (store wd) !! id) ->
  exists wd' r, terminate w id None ending now wd = (wd', Return r) /\ keeps_tasks wd wd'.
Proof.
  intros [t Ht]. unfold terminate.
  rewrite (bind_return _ _ wd wd (Some t)) by (unfold query, get_task_sync; by rewrite Ht).
  destruct (negb (bool_decide (Task.status t = TaskStatus.RUNNING))); [by exists wd; eexists; split; [reflexivity|intros ?]|].
  destruct (Task.current_run_id t) as [rid|]; [|by exists wd; eexists; split; [reflexivity|intros ?]].
  destruct (cancel_worker_total t rid wd) as (w1 & b & E1 & Hst).
  rewrite (bind_return _ _ _ _ _ E1). destruct b.
  - destruct (finish_total t rid (str_or (Task.claim_lock t) "") TaskRunOutcome.TERMINATED None
      (Some "terminated by request") [] [] None now w1) as (w2 & r & E2 & Hk).
    rewrite (bind_return _ _ _ _ _ E2). exists w2. eexists. split; [reflexivity|].
    intros id' Hid'. apply Hk. by rewrite Hst.
  - unfold mbind, M_bind, registry, append_event_sync, task_exists.
    rewrite Hst, Ht. rewrite bool_decide_eq_true_2 by eauto. cbn. eexists _, _. split; [done|].
    intros id' Hid'. exact Hid'.
Qed.

(** A method that finds no task raises before it changes anything. *)
Lemma port_missing id rid lock pr pt now (wd : world D) :
  tasks (store wd) !! id = None ->
  finalize_propose w id rid lock pr pt ending now wd = (wd, Raise TaskNotFoundError)
  /\ terminate w id None ending now wd = (wd, Raise TaskNotFoundError).
Proof.
  intros Ht. unfold finalize_propose, terminate, mbind, M_bind, query, get_task_sync. by rewrite Ht.
Qed.

Lemma task_run_port_ok : run_port_ok (task_run_port w ending : run_port D).
Proof.
  split; cbn.
  - intros. apply keeps_finalize_propose.
  - intros. apply keeps_terminate.
  - intros * Hex. destruct (finalize_propose_total id rid lock pr pt now wd Hex) as (? & r & -> & _). eauto.
  - intros * Hex. destruct (terminate_total id now wd Hex) as (? & r & -> & _). eauto.
  - intros * Hex. destruct (tasks (store wd) !! id') as [t|] eqn:Ht.
    + destruct (finalize_propose_total id' rid lock pr pt now wd) as (w1 & r1 & -> & H1); [eauto|].
      destruct (terminate_total id' now wd) as (w2 & r2 & -> & H2); [eauto|]. auto.
    + destruct (port_missing id' rid lock pr pt now wd Ht) as [-> ->]. done.
Qed.
End port.

(** * Theorems *)

(** C6. The services never break the registry: whatever calls users, workers
    and the dispatch loop make, in whatever order and however they end, the
    tables stay in a state the registry's own operations reach, so tasks and
    live runs stay paired ([db_ok]) and every decision in the log still names a
    proposal of its task ([markers_ok]). *)
Theorem services_keep_registry {D} `{TaskDispatcher D} (w : wiring) (sw : service_wiring) cfg ending
    (calls : list (Z * service_call D)) (wd : world D) :
  reachable (store wd) -> Forall (fun c => call_ok c.2) calls ->
  let wd' := foldl (fun wd c => (run_call w sw cfg (task_run_port w ending) c.1 c.2 wd).1) wd calls in
  reachable (store wd') /\ db_ok (store wd') /\ markers_ok (store wd').
Proof.
  intros Hr HF wd'. assert (reachable (store wd')) as Hr'.
  { subst wd'. revert wd Hr. induction HF as [|[now c] calls Hc _ IH]; intros wd Hr; [done|].
    simpl. apply IH. apply keeps_call; [apply task_run_port_ok|done|done]. }
  auto using reachable_ok, reachable_markers.
Qed.

Lemma services_keep_registry_witness :
  markers_ok (store (foldl (fun wd c =>
    (run_call demo_wiring demo_service demo_config demo_port c.1 c.2 wd).1) (demo_world demo_queue)
    [(40, CallTick demo_ids "boom"); (50, CallPropose "a" "plan" 1 "approval");
     (60, CallApprove "a" (Some "go"))])).
Proof.
  apply (services_keep_registry demo_wiring demo_service demo_config (Some EndCancelled)
    [(40, CallTick demo_ids "boom"); (50, CallPropose "a" "plan" 1 "approval");
     (60, CallApprove "a" (Some "go"))] (demo_world demo_queue)).
  - apply demo_queue_reachable.
  - repeat constructor.
Defined.

Lemma has_active_runner rid (wd : world TaskRunner.t) :
  TaskRunner.valid (disp wd) ->
  exists wd' b, has_active_worker rid wd = (wd', Return b) /\ store wd' = store wd
  /\ sent wd' = sent wd /\ TaskRunner.valid (disp wd')
  /\ active_runs (disp wd') = active_runs (disp wd).
Proof.
  intros Hv. exists (mkWorld (store wd) (TaskRunner.inspect (disp wd)).1 (sent wd)). eexists.
  split; [unfold has_active_worker, mbind, M_bind, dispatch; reflexivity|].
  split; [done|]. split; [done|]. split; [by apply TaskRunnerFacts.inspect_valid_ok|].
  apply TaskRunnerFacts.inspect_stable_ok.
Qed.

(** Cancelling a running task does not cancel it.  The registry gives each
    claim a token of its own, the runner looks workers up by the [wt-] token it
    made itself, so in the deployed wiring no worker is ever found to cancel:
    [cancel_task] on a RUNNING task answers that it is cancelled and logs
    [terminate_requested] and [cancelled], while the task keeps its RUNNING row,
    its run stays live and its worker keeps working. *)
Theorem cancel_running_has_no_effect (w : wiring) (sw : service_wiring) ending id t now
    (wd : world TaskRunner.t) :
  TaskRunner.reached (disp wd) -> tasks (store wd) !! id = Some t ->
  Task.status t = TaskStatus.RUNNING -> is_Some (Task.current_run_id t) ->
  starts_with "wt-" (default "" (Task.worker_token t)) = false ->
  exists wd' e1 e2,
    cancel_task sw (Some (task_run_port w ending)) id now wd = (wd', Return TaskStatus.CANCELLED)
  /\ tasks (store wd') = tasks (store wd) /\ task_runs (store wd') = task_runs (store wd)
  /\ active_runs (disp wd') = active_runs (disp wd) /\ sent wd' = sent wd
  /\ task_events (store wd') = task_events (store wd) ++ [e1; e2]
  /\ TaskEvent.kind e1 = "terminate_requested" /\ TaskEvent.kind e2 = "cancelled".
Proof.
  intros Hv%reached_valid Ht Hs [rid Hrid] Htok.
  destruct (has_active_runner rid wd Hv) as (w1 & b & E1 & Hst & Hsent & Hv1 & Ha1).
  assert (exists w2, cancel_worker_if_active t rid ending wd = (w2, Return false)
    /\ store w2 = store wd /\ sent w2 = sent wd /\ active_runs (disp w2) = active_runs (disp wd))
    as (w2 & E2 & Hst2 & Hsent2 & Ha2).
  { unfold cancel_worker_if_active. rewrite (bind_return _ _ _ _ _ E1). case_match; [by exists w1|].
    exists w1. unfold dispatch. simpl.
    assert (TaskRunner.cancel (disp w1) (default "" (Task.worker_token t)) ending = (disp w1, false)) as ->.
    { unfold TaskRunner.cancel. destruct (TaskRunner.token_to_run (disp w1) !! _) eqn:E; [|done].
      apply (TaskRunner.valid_tokens _ Hv1) in E. congruence. }
    by destruct w1. }
  assert (exists w3 e1, terminate w id None ending now wd = (w3, Return TerminateRequested)
    /\ tasks (store w3) = tasks (store wd) /\ task_runs (store w3) = task_runs (store wd)
    /\ active_runs (disp w3) = active_runs (disp wd) /\ sent w3 = sent wd
    /\ task_events (store w3) = task_events (store wd) ++ [e1]
    /\ TaskEvent.kind e1 = "terminate_requested") as (w3 & e1 & E3 & Ht3 & Hr3 & Ha3 & Hs3 & Hev3 & Hk3).
  { unfold terminate.
    rewrite (bind_return _ _ wd wd (Some t)) by (unfold query, get_task_sync; by rewrite Ht).
    rewrite (bool_decide_eq_true_2 _ Hs), Hrid. cbn [negb]. rewrite (bind_return _ _ _ _ _ E2).
    unfold mbind, M_bind, registry, append_event_sync, task_exists.
    rewrite Hst2, Ht. rewrite bool_decide_eq_true_2 by eauto. cbn. eexists _, _.
    split; [reflexivity|]. cbn. by rewrite Hsent2. }
  unfold cancel_task. rewrite get_task_then, Ht.
  assert (Task.cancel t now = Return (t <| Task.status := TaskStatus.CANCELLED |>
            <| Task.completed_at := Some now |>)) as -> by (unfold Task.cancel; rewrite Hs; reflexivity).
  rewrite (bool_decide_eq_true_2 _ Hs). unfold mbind at 1, M_bind at 1.
  assert ((port_terminate (task_run_port w ending) id now wd).2 = Return TerminateRequested) as Hret
    by (cbn; by rewrite E3).
  rewrite (try_port _ _ _ _ _ Hret). cbn [task_run_port port_terminate]. rewrite E3. cbn [fst].
  unfold append_event, mbind, M_bind, registry, append_event_sync, task_exists.
  rewrite Ht3, Ht. rewrite bool_decide_eq_true_2 by eauto. cbn.
  eexists _, e1, _. split; [reflexivity|]. cbn. rewrite Hev3, <- app_assoc. done.
Qed.

Lemma cancel_running_has_no_effect_witness :
  exists wd', cancel_task demo_service (Some demo_port) "a" 50 demo_ticked = (wd', Return TaskStatus.CANCELLED)
  /\ active_runs (disp wd') = [1; 2]
  /\ exists t, tasks (store wd') !! "a" = Some t /\ Task.status t = TaskStatus.RUNNING.
Proof.
  destruct (tasks (store demo_ticked) !! "a") as [t|] eqn:Ht; [|vm_compute in Ht; discriminate].
  assert (Task.status t = TaskStatus.RUNNING /\ is_Some (Task.current_run_id t)
    /\ starts_with "wt-" (default "" (Task.worker_token t)) = false) as (Hs & Hc & Htok).
  { vm_compute in Ht. injection Ht as <-. vm_compute. repeat split; eauto. }
  assert (TaskRunner.reached (disp demo_ticked)) as Hd.
  { apply (tick_keeps_valid (valid := TaskRunner.reached)). constructor. }
  destruct (cancel_running_has_no_effect demo_wiring demo_service (Some EndCancelled) "a" t 50
    demo_ticked Hd Ht Hs Hc Htok) as (wd' & e1 & e2 & E & Htasks & _ & Ha & _).
  exists wd'. split; [exact E|]. split; [rewrite Ha; vm_compute; reflexivity|].
  exists t. rewrite Htasks. split; [exact Ht|exact Hs].
Defined.

(** ** What a worker is told *)

Lemma find_ext_in {A} (f g : A -> bool) l :
  (forall x, x ∈ l -> f x = g x) -> List.find f l = List.find g l.
Proof.
  induction l as [|x l IH]; simpl; intros H; [done|].
  rewrite <- (H x) by (by left). destruct (f x); [done|]. apply IH. intros y Hy. apply H. by right.
Qed.

(** The task service and the registry agree on the proposal that is open:
    over the whole history of a task, the one a worker is shown is the one the
    next decision will be recorded against. *)
Theorem open_proposal_agrees d id :
  reachable d ->
  exists resolved, resolved_ids (events_of d id) = Return resolved
  /\ latest_open_proposal (events_of d id) = latest_pending (events_of d id) resolved.
Proof.
  intros Hr. pose proof (reachable_markers _ Hr) as Hm. pose proof (reachable_ok _ Hr) as Hok.
  destruct (resolved_ids_ok d id Hm) as (ns & Hns & Hspec). exists ns. split; [done|].
  unfold latest_open_proposal, latest_pending. apply find_ext_in. intros p Hp.
  rewrite list_elem_of_In, <- in_rev, <- list_elem_of_In in Hp. apply events_of_elem in Hp as [Hp Hpt].
  unfold is_pending. change EVENT_CHANGE_PROPOSED with PROPOSAL_KIND.
  case_bool_decide as Hk; cbn [andb]; [|done]. f_equal.
  apply eq_bool_prop_intro. rewrite bool_decide_spec, Is_true_true, existsb_exists, Hspec. split.
  - intros (e & Hin & He). rewrite <- list_elem_of_In, events_of_elem in Hin.
    rewrite !andb_true_iff, bool_decide_eq_true in He. destruct He as [[_ Hkind] Hrefers].
    exists e. split; [apply Hin|]. split; [apply Hin|]. split; [exact Hkind|].
    destruct (marker_decides _ Hm e (proj1 Hin) Hkind) as (q & [_ Hq] & _).
    unfold refers_to in Hrefers. rewrite Hq in *. f_equal. f_equal. lia.
  - intros (m & Hin & Hmt & Hd). exists m. rewrite <- list_elem_of_In, events_of_elem.
    split; [done|]. destruct (marker_decides _ Hm m Hin (proj1 Hd)) as (q & Hdq & (Hq & _ & _) & Hlt).
    destruct Hd as [Hkind Hpid], Hdq as [_ Hq2]. rewrite Hpid in Hq2. injection Hq2 as Hq2.
    rewrite !andb_true_iff, bool_decide_eq_true, Z.ltb_lt. unfold refers_to.
    rewrite Hpid, Z.eqb_refl. repeat split; [lia|exact Hkind].
Qed.

Lemma open_proposal_agrees_witness :
  exists resolved, resolved_ids (events_of proposal_db "t") = Return resolved
  /\ TaskEvent.id <$> latest_pending (events_of proposal_db "t") resolved = Some 2.
Proof.
  destruct (open_proposal_agrees proposal_db "t" proposal_reachable) as (ns & Hns & Heq).
  exists ns. split; [exact Hns|]. rewrite <- Heq. vm_compute. reflexivity.
Defined.
