(* ===== verification/TaskRecords.v ===== *)
(** What the task service keeps with a task and hands out: the context of a
    worker, attachments, deletion by session, and idempotency keys. *)
From S2P Require Import Prelude TaskSettings TaskDomain TaskStore TaskStoreInv TaskProposals TaskListing.
From S2P Require Import Dispatcher TaskWorld RunService RunProps TaskService ServiceProps.

(** * Definitions *)

Definition LF : Ascii.ascii := Ascii.ascii_of_nat 10.

(** A long conversation on one task, then a proposal and its decision. *)
Definition long_ops : list op :=
  [OCreate (Task.defaults "t" "x") 1; OClaim "t" "L" "w" 900 2]
  ++ List.repeat (OAppendEvent "t" "comment_added" [] None 3) 60
  ++ [OAppendEvent "t" "change_proposed" [] (Some 1) 4;
      OFinish (mkFinishRunCommand "t" 1 "L" TaskRunOutcome.WAITING_APPROVAL None []
                (Some TaskStatus.WAITING_APPROVAL) None) 5;
      OResolve (mkProposalResolutionCommand "t" 3 "approved" "change_approved" None) 6].
Definition long_db (n : nat) : db := foldl exec empty_db (take n long_ops).

(** * The log of a task *)

(** The log of a task only grows while the task is not deleted. *)
Lemma log_step_prefix gone d d' id :
  log_step gone d d' -> ~ gone id -> exists l, events_of d' id = events_of d id ++ l.
Proof.
  intros [He|e He _|e p He _ _ _ _|id0 Hgone He] Hno.
  - exists []. unfold events_of. by rewrite He, app_nil_r.
  - unfold events_of. rewrite He, List.filter_app. eauto.
  - unfold events_of. rewrite He, List.filter_app. eauto.
  - exists []. rewrite app_nil_r. unfold events_of. rewrite He.
    assert (id0 <> id) as Hne by congruence. clear -Hne.
    induction (task_events d) as [|e l IH]; simpl; [done|].
    case_bool_decide; cbn [negb]; simpl; case_bool_decide; simpl; try (by f_equal); congruence.
Qed.

Lemma history_log_prefix d ops d' id :
  history d ops d' -> db_ok d -> markers_ok d ->
  forallb (fun o => negb (deletes id o)) ops = true ->
  exists l, events_of d' id = events_of d id ++ l.
Proof.
  induction 1 as [|d o ops d' Ho _ IH]; intros Hok Hm Hdel.
  - exists []. by rewrite app_nil_r.
  - simpl in Hdel. apply andb_true_iff in Hdel as [Hd Hdel]. apply negb_true_iff in Hd.
    pose proof (exec_log d o Hok Hm Ho) as Hstep.
    destruct (log_step_prefix _ _ _ id Hstep) as [l1 H1]; [congruence|].
    destruct IH as [l2 H2]; [by apply exec_ok|by eapply log_step_markers|done|].
    exists (l1 ++ l2). by rewrite H2, H1, app_assoc.
Qed.

Lemma first_page_frozen d d' id l :
  (50 <= length (events_of d id))%nat -> (forall e, e ∈ task_events d -> 0 < TaskEvent.id e) ->
  events_of d' id = events_of d id ++ l ->
  list_events_sync d' id 0 50 = list_events_sync d id 0 50.
Proof.
  intros Hlen Hpos Heq. unfold list_events_sync. rewrite Heq, List.filter_app.
  assert (List.filter (fun e => 0 <? TaskEvent.id e) (events_of d id) = events_of d id) as ->.
  { apply List_filter_all, Forall_forall. intros e [He _]%events_of_elem.
    apply Z.ltb_lt. by apply Hpos. }
  rewrite take_app_le; [done|]. exact Hlen.
Qed.

Lemma ops_ok_take d ops n : ops_ok d ops -> ops_ok d (take n ops).
Proof.
  revert d n. induction ops as [|o ops IH]; intros d [|n]; simpl; try done. intros [? ?]; auto.
Qed.

Lemma ops_ok_always d ops : Forall (fun o => forall d, op_ok d o) ops -> ops_ok d ops.
Proof. intros H. revert d. induction H; simpl; auto. Qed.

Lemma ops_ok_drop d ops n : ops_ok d ops -> ops_ok (foldl exec d (take n ops)) (drop n ops).
Proof.
  revert d n. induction ops as [|o ops IH]; intros d [|n]; simpl; try done. intros [? ?]; auto.
Qed.

Lemma long_ops_ok d : ops_ok d long_ops.
Proof.
  apply ops_ok_always. unfold long_ops. rewrite !Forall_app. split; [|split].
  - repeat apply Forall_cons_2; try apply Forall_nil_2; intros d'; simpl; done.
  - apply Forall_forall. intros o Ho%list_elem_of_In%repeat_spec. subst o. intros d'. simpl.
    by apply (bool_decide_eq_true_1 _).
  - repeat apply Forall_cons_2; try apply Forall_nil_2; intros d'; simpl; try done.
    by apply (bool_decide_eq_true_1 _).
Qed.

Lemma long_history n : history (long_db n) (drop n long_ops) (foldl exec empty_db long_ops).
Proof.
  rewrite <- (take_drop n long_ops) at 2. rewrite foldl_app.
  apply history_run, ops_ok_drop, long_ops_ok.
Qed.

(** * Theorems *)

(** The context a worker is given stops following the task: it is built from
    the first fifty events of the task, so once fifty are logged, nothing that
    happens afterwards (progress, a proposal, the decision on it) ever reaches a
    worker, however long the task lives. *)
Theorem worker_context_frozen {D} d ops d' (task : Task.t) (p p' : D) out out' :
  reachable d -> history d ops d' ->
  forallb (fun o => negb (deletes (Task.id task) o)) ops = true ->
  (50 <= length (events_of d (Task.id task)))%nat ->
  (build_worker_context task (mkWorld d' p' out')).2 = (build_worker_context task (mkWorld d p out)).2.
Proof.
  intros Hr Hh Hdel Hlen. pose proof (reachable_ok _ Hr) as Hok.
  destruct (history_log_prefix _ _ _ (Task.id task) Hh Hok (reachable_markers _ Hr) Hdel) as [l Hl].
  unfold build_worker_context, query, mbind, M_bind. cbn [store].
  unfold MAX_EVENTS_IN_DETAIL. erewrite first_page_frozen; [done|exact Hlen| |exact Hl].
  intros e He. pose proof (ok_event_seq _ Hok) as H. rewrite Forall_forall in H. by apply H.
Qed.

Lemma worker_context_frozen_witness :
  (build_worker_context (Task.defaults "t" "x") (mkWorld (foldl exec empty_db long_ops) tt [])).2
  = Return (mkWorkerContext None None (progress_events (events_of (long_db 51) "t")))
  /\ TaskEvent.kind <$> last (events_of (foldl exec empty_db long_ops) "t") = Some "change_approved".
Proof.
  split; [|vm_compute; reflexivity].
  rewrite (worker_context_frozen (long_db 54) (drop 54 long_ops) (foldl exec empty_db long_ops)
    (Task.defaults "t" "x") tt tt [] []).
  - vm_compute. reflexivity.
  - apply reachable_run, ops_ok_take, long_ops_ok.
  - apply long_history.
  - vm_compute. reflexivity.
  - apply Nat.leb_le. vm_compute. reflexivity.
Defined.

(** ** Attachments *)

(** What [^[cls]+$] matches: one or more of the class, then at most a newline. *)
Lemma class_plus_dollar_spec cls seen s :
  class_plus_dollar cls seen s = true <->
  exists body tail, s = body ++ tail /\ (tail = [] \/ tail = [LF])
    /\ Forall (fun c => cls c = true) body /\ (seen = true \/ body <> []).
Proof.
  revert seen. induction s as [|c s IH]; intros seen; simpl.
  - split; [intros ->; exists [], []; auto|].
    intros ([|c b] & tail & Heq & _ & _ & [H|H]); [done..|discriminate|discriminate].
  - rewrite orb_true_iff, !andb_true_iff, !bool_decide_eq_true, IH. split.
    + intros [[Hc (b & tail & -> & Ht & Hb & _)]|[[Hs Hc] Hn]].
      * exists (c :: b), tail. auto.
      * exists [], [LF]. subst. auto.
    + intros ([|c' b] & tail & Heq & Ht & Hb & Hne).
      * destruct Hne as [Hne|Hne]; [|done]. destruct Ht as [->|Ht]; [done|]. right. subst tail.
        by injection Heq as -> ->.
      * left. injection Heq as <- ->. inversion Hb; subst. split; [done|]. exists b, tail. auto.
Qed.

Lemma contains_char c s : contains (String c EmptyString) s = bool_decide (c ∈ chars s).
Proof.
  induction s as [|c' s IH]; [by destruct c|]. cbn [contains chars]. rewrite IH.
  cbn [starts_with]. rewrite andb_true_r. apply eq_bool_prop_intro.
  by rewrite orb_True, !bool_decide_spec, elem_of_cons.
Qed.

Lemma truthy_str_nonempty s : truthy_str s = true <-> s <> EmptyString.
Proof. by destruct s. Qed.

Lemma filename_dot_spec s :
  filename_dot_re s = true <->
  exists body tail, chars s = body ++ tail /\ (tail = [] \/ tail = [LF])
    /\ body <> [] /\ Forall (fun c => c = Ascii.ascii_of_nat 46) body.
Proof.
  unfold filename_dot_re. rewrite class_plus_dollar_spec. split.
  - intros (b & tail & ? & ? & Hb & [?|?]); [done|]. exists b, tail. split_and!; auto.
    eapply Forall_impl; [exact Hb|]. intros c. by rewrite bool_decide_eq_true.
  - intros (b & tail & ? & ? & ? & Hb). exists b, tail. split_and!; auto.
    eapply Forall_impl; [exact Hb|]. intros c ->. by rewrite bool_decide_eq_true.
Qed.

Lemma body_unique (b b' t t' : list Ascii.ascii) :
  b ++ t = b' ++ t' -> (t = [] \/ t = [LF]) -> (t' = [] \/ t' = [LF]) -> LF ∉ b -> LF ∉ b' -> b = b'.
Proof.
  intros H [->| ->] [->| ->] Hb Hb'; rewrite ?app_nil_r in H; subst; try done.
  - exfalso. apply Hb, elem_of_app. right. by apply list_elem_of_singleton.
  - exfalso. apply Hb', elem_of_app. right. by apply list_elem_of_singleton.
  - by apply app_inj_tail in H as [? _].
Qed.

Lemma safe_char_spec c :
  safe_char c = true <-> (32 <= Ascii.nat_of_ascii c)%nat /\ Ascii.nat_of_ascii c <> 127%nat
    /\ c ∉ chars "/\<>:|?*".
Proof.
  unfold safe_char. rewrite negb_true_iff, !orb_false_iff, Nat.leb_gt, Nat.eqb_neq.
  rewrite <- not_true_iff_false, existsb_exists.
  assert ((exists x, In x (chars "/\<>:|?*") /\ Ascii.eqb c x = true) <-> c ∈ chars "/\<>:|?*") as ->.
  { rewrite list_elem_of_In. split; [|intros H; exists c; by rewrite Ascii.eqb_refl].
    by intros (x & ? & ->%Ascii.eqb_eq). }
  intuition lia.
Qed.

Lemma filename_safe_spec s :
  filename_safe_re s = true <->
  exists body tail, chars s = body ++ tail /\ (tail = [] \/ tail = [LF])
    /\ body <> [] /\ Forall (fun c => safe_char c = true) body.
Proof.
  unfold filename_safe_re. rewrite class_plus_dollar_spec. split.
  - intros (b & tail & ? & ? & ? & [?|?]); [done|]. by exists b, tail.
  - intros (b & tail & ? & ? & ? & ?). exists b, tail. auto.
Qed.

Lemma safe_no_lf b : Forall (fun c => safe_char c = true) b -> LF ∉ b.
Proof. rewrite Forall_forall. intros H Hin. by specialize (H _ Hin). Qed.

Lemma dots_no_lf b : Forall (fun c => c = Ascii.ascii_of_nat 46) b -> LF ∉ b.
Proof. rewrite Forall_forall. intros H Hin. by specialize (H _ Hin). Qed.

Lemma safe_no_separator s c :
  filename_safe_re s = true -> safe_char c = false -> c <> LF ->
  contains (String c EmptyString) s = false.
Proof.
  intros (b & tail & Hs & Ht & _ & Hb)%filename_safe_spec Hc Hlf. rewrite contains_char.
  apply bool_decide_eq_false. rewrite Hs, elem_of_app. intros [Hin|Hin].
  - rewrite Forall_forall in Hb. specialize (Hb _ Hin). congruence.
  - destruct Ht as [->| ->]; [by apply elem_of_nil in Hin|by apply list_elem_of_singleton in Hin].
Qed.

(** Which file names an upload may have, exactly: some character that is not
    white space, and, but for one newline that may end it, one or more
    characters none of which is a control character, DEL or one of
    [/ \ < > : | ? *], not all of them dots.  So a name never leaves its
    directory; the double quote is not among the excluded characters and the
    newline is let through. *)
Theorem attachment_names f :
  validate_attachment_filename f = Return tt <->
  strip f <> EmptyString
  /\ exists body tail, chars f = body ++ tail /\ (tail = [] \/ tail = [LF])
       /\ ~ Forall (fun c => c = Ascii.ascii_of_nat 46) body
       /\ Forall (fun c => (32 <= Ascii.nat_of_ascii c)%nat /\ Ascii.nat_of_ascii c <> 127%nat
                          /\ c ∉ chars "/\<>:|?*") body.
Proof.
  rewrite <- (truthy_str_nonempty (strip f)).
  pose proof (fun b => Forall_iff _ b _ safe_char_spec) as Hsafes.
  setoid_rewrite <- Hsafes. clear Hsafes.
  assert (truthy_str (strip f) = true -> truthy_str f = true) as Hne by (by destruct f).
  unfold validate_attachment_filename. destruct (truthy_str (strip f)) eqn:Hs; cbn [negb];
    [|rewrite orb_true_r; split; [done|by intros [? _]]].
  rewrite Hne by done. cbn [negb orb]. destruct (filename_dot_re f) eqn:Hdot.
  - split; [done|]. intros (_ & b & tail & Hf & Ht & Hnd & Hb).
    apply filename_dot_spec in Hdot as (b' & tail' & Hf' & Ht' & _ & Hd).
    destruct Hnd. rewrite (body_unique b b' tail tail'); auto using safe_no_lf, dots_no_lf. congruence.
  - destruct (filename_safe_re f) eqn:Hsafe; cbn [negb].
    + rewrite !(safe_no_separator f) by done. cbn [orb]. split; [|done]. intros _. split; [done|].
      pose proof Hsafe as (b & tail & ? & ? & ? & ?)%filename_safe_spec. exists b, tail.
      split_and!; try done. intros Hd. apply not_true_iff_false in Hdot. apply Hdot.
      apply filename_dot_spec. by exists b, tail.
    + split; [done|]. intros (_ & b & tail & Hf & Ht & Hnd & Hb).
      apply not_true_iff_false in Hsafe. destruct Hsafe. apply filename_safe_spec. exists b, tail.
      split_and!; try done. intros ->. by destruct Hnd.
Qed.

Definition attached_bytes (d : db) (task_id : string) : Z :=
  foldr (fun a n => TaskAttachment.size a + n) 0 (list_attachments_sync d task_id).

Lemma bytes_perm l l' :
  l ≡ₚ l' -> foldr (fun a n => TaskAttachment.size a + n) 0 l
           = foldr (fun a n => TaskAttachment.size a + n) 0 l'.
Proof. induction 1; simpl; lia. Qed.

Lemma attached_bytes_app d d' a :
  task_attachments d' = task_attachments d ++ [a] ->
  attached_bytes d' (TaskAttachment.task_id a)
  = attached_bytes d (TaskAttachment.task_id a) + TaskAttachment.size a.
Proof.
  intros H. unfold attached_bytes, list_attachments_sync.
  rewrite (bytes_perm _ _ (order_by_perm _ _)).
  rewrite (bytes_perm _ _ (order_by_perm _ (List.filter _ (task_attachments d)))).
  rewrite H, List.filter_app. simpl. rewrite bool_decide_eq_true_2 by done.
  induction (List.filter _ (task_attachments d)); simpl; lia.
Qed.

(** An upload that is accepted has a legal name and an allowed size, adds
    exactly one attachment and one log entry, keeps all the attachments of the
    task together within the configured total, and writes one file, at a path
    the storage root allows; an upload that is refused leaves the registry as
    it was. *)
Theorem upload_respects_limits {D} sw cfg id filename ct size checksum by_ written cx now
    (wd wd' : world D) r :
  upload_attachment sw cfg id filename ct size checksum by_ written cx now wd = (wd', r) ->
  match r with
  | Return a =>
      validate_attachment_filename filename = Return tt /\ size <= task_attachment_max_bytes cfg
      /\ is_Some (tasks (store wd) !! id) /\ tasks (store wd') = tasks (store wd)
      /\ task_attachments (store wd') = task_attachments (store wd) ++ [a]
      /\ attached_bytes (store wd') id = attached_bytes (store wd) id + size
      /\ attached_bytes (store wd') id <= task_attachment_task_max_bytes cfg
      /\ (exists e, task_events (store wd') = task_events (store wd) ++ [e]
           /\ TaskEvent.task_id e = id /\ TaskEvent.kind e = "attachment_uploaded")
      /\ (exists path_of path rest, svc_attachment_path sw = Some path_of
           /\ path_of id (TaskAttachment.stored_name a) = Some path
           /\ sent wd' = sent wd ++ WriteFile path :: rest)
  | Raise _ => store wd' = store wd
  end.
Proof.
  unfold upload_attachment. rewrite get_task_then.
  destruct (tasks (store wd) !! id) as [t|] eqn:Ht; [|by intros [= <- <-]].
  destruct (validate_attachment_filename filename) as [[]|e] eqn:Hv; [|by intros [= <- <-]].
  destruct (Z.ltb_spec (task_attachment_max_bytes cfg) size); [by intros [= <- <-]|].
  unfold query at 1. unfold mbind at 1, M_bind at 1. fold (attached_bytes (store wd) id).
  destruct (Z.ltb_spec (task_attachment_task_max_bytes cfg) (attached_bytes (store wd) id + size));
    [by intros [= <- <-]|].
  destruct (svc_attachment_path sw) as [path_of|] eqn:Hp; [|by intros [= <- <-]].
  destruct (path_of id _) as [path|] eqn:Hpath; [|by intros [= <- <-]].
  destruct written; cbn [negb]; [|by intros [= <- <-]].
  assert (task_exists (store wd) id = true) as Hex
    by (unfold task_exists; apply bool_decide_eq_true_2; eauto).
  unfold send, mbind, M_bind, registry, append_event, append_event_sync, add_attachment_sync.
  cbn [store]. rewrite Hex. cbn [negb]. destruct (existsb _ (task_attachments (store wd))); [by intros [= <- <-]|].
  assert (forall l, task_exists ((store wd) <| task_attachments := l |>) id = true) as Hex'
    by (intros l; exact Hex).
  unfold registry. cbn [store]. rewrite Hex'. cbn [negb]. unfold insert_event.
  intros Heq.
  assert (r = Return (TaskAttachment.mk ("ta_" +:+ fresh_hex cx) id filename
      (fresh_hex cx +:+ "_" +:+ filename) ct size checksum by_ (Some now))) as ->
    by (destruct (svc_artifact_register sw); by injection Heq as _ <-).
  assert (task_attachments (store wd') = task_attachments (store wd) ++ _) as Hatt
    by (destruct (svc_artifact_register sw); injection Heq as <-; reflexivity).
  pose proof (attached_bytes_app _ _ _ Hatt) as Hb. cbn [TaskAttachment.task_id TaskAttachment.size] in Hb.
  rewrite Hb.
  split_and!; try done; try (destruct (svc_artifact_register sw); injection Heq as <-; simpl;
    rewrite <- ?app_assoc; eauto 8).
Qed.

Lemma upload_respects_limits_witness :
  attached_bytes (store (upload_attachment demo_service demo_config "a" "notes.txt" "text/plain" 7 "sha256:0"
    "u" true (mkCallContext None [] "h") 9 (demo_world demo_queue)).1) "a" = 7.
Proof.
  destruct (upload_attachment demo_service demo_config "a" "notes.txt" "text/plain" 7 "sha256:0"
    "u" true (mkCallContext None [] "h") 9 (demo_world demo_queue)) as [wd' r] eqn:E.
  pose proof (upload_respects_limits _ _ _ _ _ _ _ _ _ _ _ _ _ _ E) as H.
  apply (f_equal (fun p => returns p.2)) in E. vm_compute in E.
  destruct r as [a|e]; [|discriminate]. destruct H as (_ & _ & _ & _ & _ & H & _).
  cbn [fst]. rewrite H. vm_compute. reflexivity.
Defined.

(** ** Deleting a session *)

Definition of_session (session_id : string) (t : Task.t) : bool :=
  bool_decide (Task.origin_session_id t = Some session_id)
  || bool_decide (Task.execution_session_id t = Some session_id).

Lemma session_ids_pages {D} fuel sid cursor (wd : world D) :
  session_task_ids fuel sid cursor wd
  = (wd, Return (Task.id <$> List.filter (of_session sid)
                   (concat (pages fuel (store wd) "default" cursor 100 true)))).
Proof.
  revert cursor. induction fuel as [|fuel IH]; intros cursor; [done|].
  cbn [session_task_ids pages concat].
  unfold query at 1. unfold mbind at 1, M_bind at 1.
  set (page := list_tasks_sync (store wd) "default" cursor 100 true).
  rewrite List.filter_app, fmap_app. unfold of_session at 1.
  destruct (next_cursor page) as [c|]; [|by rewrite app_nil_r].
  by rewrite (bind_return _ _ _ _ _ (IH (Some c))).
Qed.

Lemma session_ids_exact {D} sid (wd : world D) :
  reachable (store wd) ->
  session_task_ids (S (length (all_tasks (store wd)))) sid None wd
  = (wd, Return (Task.id <$> List.filter (of_session sid) (full_listing (store wd) "default" true))).
Proof.
  intros Hr. rewrite session_ids_pages.
  destruct (pages_rest (S (length (all_tasks (store wd)))) (store wd) "default" true 100 None
    (full_listing (store wd) "default" true) (reachable_ok _ Hr) (reachable_created _ Hr))
    as [-> _]; [by left| |done].
  unfold full_listing. rewrite order_by_perm.
  pose proof (List.filter_length_le (listed "default" true) (all_tasks (store wd))). lia.
Qed.

(** A step that only sends messages: it returns, and leaves the tables. *)
Definition only_sends {D} (m : M D unit) : Prop :=
  forall wd, exists wd', m wd = (wd', Return tt) /\ store wd' = store wd.

Lemma sends_ret {D} : only_sends (mret tt : M D unit).
Proof. intros wd. by exists wd. Qed.

Lemma sends_send {D} m : only_sends (send m : M D unit).
Proof. intros wd. by eexists. Qed.

Lemma sends_if {D} (b : bool) (m : M D unit) : only_sends m -> only_sends (if b then m else mret tt).
Proof. intros H. destruct b; [done|apply sends_ret]. Qed.

Lemma sends_bind {D A} (m : M D unit) (k : unit -> M D A) wd :
  only_sends m -> exists wd', (m ≫= k) wd = k tt wd' /\ store wd' = store wd.
Proof. intros H. destruct (H wd) as (wd' & E & ?). exists wd'. by rewrite (bind_return _ _ _ _ _ E). Qed.

Lemma sends_for_each {D A} (xs : list A) (f : A -> M D unit) :
  (forall x, only_sends (f x)) -> only_sends (for_each xs f).
Proof.
  intros Hf. induction xs as [|x xs IH]; intros wd; [by exists wd|]. cbn [for_each].
  destruct (sends_bind (f x) (fun _ => for_each xs f) wd (Hf x)) as (w1 & -> & H1).
  destruct (IH w1) as (w2 & -> & H2). exists w2. by rewrite H2.
Qed.

Lemma delete_task_effect {D} sw id now (wd : world D) t :
  tasks (store wd) !! id = Some t ->
  if bool_decide (Task.status t = TaskStatus.RUNNING)
  then delete_task sw id now wd = (wd, Raise TaskStateError)
  else exists wd', delete_task sw id now wd = (wd', Return true)
       /\ tasks (store wd') = base.delete id (tasks (store wd)).
Proof.
  intros Ht. unfold delete_task. rewrite get_task_then, Ht. case_bool_decide as Hs; [done|].
  unfold query at 1. unfold mbind at 1, M_bind at 1.
  unfold registry_total at 1. unfold mbind at 1, M_bind at 1.
  unfold delete_task_sync at 1. rewrite Ht. cbn [negb].
  match goal with |- context [mkWorld ?d (disp wd) (sent wd)] => set (w1 := mkWorld d (disp wd) (sent wd)) end.
  match goal with |- context [(?m ≫= ?k) w1] => destruct (sends_bind m k w1) as (w2 & -> & H2) end;
    [auto using sends_for_each, sends_send|].
  match goal with |- context [(?m ≫= ?k) w2] => destruct (sends_bind m k w2) as (w3 & -> & H3) end;
    [auto using sends_if, sends_send|].
  match goal with |- context [(?m ≫= ?k) w3] => destruct (sends_bind m k w3) as (w4 & -> & H4) end.
  { apply sends_if. case_match; [|apply sends_ret]. apply sends_if, sends_send. }
  exists w4. split; [done|]. by rewrite H4, H3, H2.
Qed.

Lemma delete_loop {D} sw now ids (wd : world D) :
  NoDup ids -> (forall id, id ∈ ids -> is_Some (tasks (store wd) !! id)) ->
  let running id := exists t, tasks (store wd) !! id = Some t /\ Task.status t = TaskStatus.RUNNING in
  exists wd', for_each ids (fun id => _ ← delete_task sw id now; mret tt) wd
    = (wd', if bool_decide (Exists (fun id => option_map Task.status (tasks (store wd) !! id)
                                     = Some TaskStatus.RUNNING) ids)
            then Raise TaskStateError else Return tt)
  /\ (forall id, id ∉ ids \/ running id -> tasks (store wd') !! id = tasks (store wd) !! id)
  /\ (Forall (fun id => ~ running id) ids -> forall id, id ∈ ids -> tasks (store wd') !! id = None).
Proof.
  revert wd. induction ids as [|id ids IH]; intros wd Hnd Hall running.
  { exists wd. cbn. split_and!; [done|done|]. by intros _ ? ?%elem_of_nil. }
  apply NoDup_cons in Hnd as [Hid Hnd]. destruct (Hall id ltac:(by left)) as [t Ht].
  pose proof (delete_task_effect sw id now wd t Ht) as Hdel. case_bool_decide as Hs; cbn [for_each].
  - assert (running id) as Hrun by (exists t; auto).
    exists wd. rewrite bool_decide_eq_true_2 by (left; rewrite Ht; simpl; congruence).
    split_and!; [by rewrite (bind_raise _ _ wd wd TaskStateError) by (by apply bind_raise)|done|].
    intros HF%Forall_cons. by destruct HF.
  - destruct Hdel as (w1 & E1 & Htasks).
    assert (forall id', id' <> id -> tasks (store w1) !! id' = tasks (store wd) !! id') as Hother
      by (intros id' ?; by rewrite Htasks, lookup_delete_ne).
    destruct (IH w1 Hnd) as (w2 & E2 & Hk2 & Hg2).
    { intros id' Hin. rewrite Hother by (by intros ->). apply Hall. by right. }
    assert (~ running id) as Hnr by (intros (t' & Ht' & ?); congruence).
    exists w2. split_and!.
    + rewrite (bind_return _ _ wd w1 tt) by (by rewrite (bind_return _ _ _ _ _ E1)). rewrite E2. f_equal.
      erewrite bool_decide_ext; [reflexivity|]. rewrite Exists_cons, Ht. simpl.
      rewrite !Exists_exists. split.
      * intros (x & Hx & Hr). right. exists x. rewrite <- Hother by (by intros ->). done.
      * intros [?|(x & Hx & Hr)]; [congruence|]. exists x. by rewrite Hother by (by intros ->).
    + intros x Hx. assert (x <> id) as Hne.
      { intros ->. destruct Hx as [Hx|Hx]; [|done]. apply Hx. by left. }
      rewrite Hk2, Hother; [done|done|]. destruct Hx as [Hx|(t' & Ht' & ?)].
      * left. intros ?. apply Hx. by right.
      * right. exists t'. by rewrite Hother.
    + intros [_ HF]%Forall_cons x [->|Hx]%elem_of_cons.
      * rewrite Hk2 by (by left). by rewrite Htasks, lookup_delete_eq.
      * apply Hg2; [|done]. rewrite Forall_forall in HF |- *. intros y Hy (t' & Ht' & ?).
        apply (HF y Hy). exists t'. rewrite <- Hother by (by intros ->). done.
Qed.

(** The tasks a session deletion is about. *)
Definition session_task (session_id : string) (t : Task.t) : bool :=
  bool_decide (Task.board t = "default") && of_session session_id t.

Definition session_rows (d : db) (session_id : string) : list Task.t :=
  List.filter (of_session session_id) (full_listing d "default" true).

Lemma session_rows_perm d sid :
  session_rows d sid ≡ₚ List.filter (session_task sid) (all_tasks d).
Proof.
  unfold session_rows, full_listing. rewrite (List_filter_perm _ _ _ (order_by_perm _ _)).
  rewrite <- List_filter_and. erewrite List.filter_ext; [done|]. intros t. unfold session_task, listed.
  by rewrite orb_true_l, andb_true_r, andb_comm.
Qed.

Lemma session_rows_elem d sid id :
  db_ok d -> id ∈ Task.id <$> session_rows d sid <->
  exists t, tasks d !! id = Some t /\ session_task sid t = true.
Proof.
  intros Hok. rewrite session_rows_perm, list_elem_of_fmap. split.
  - intros (t & -> & [Hin Hs]%List_filter_elem). exists t. by rewrite <- all_tasks_elem.
  - intros (t & Ht & Hs). pose proof (ok_task_id _ Hok _ _ Ht) as Hid. exists t.
    rewrite List_filter_elem, all_tasks_elem, Hid by done. done.
Qed.

Lemma session_rows_nodup d sid : db_ok d -> NoDup (Task.id <$> session_rows d sid).
Proof.
  intros Hok. rewrite session_rows_perm. apply NoDup_fmap_2_strong.
  - intros x y [Hx _]%List_filter_elem [Hy _]%List_filter_elem Heq.
    rewrite all_tasks_elem in Hx, Hy by done. congruence.
  - by apply NoDup_List_filter, all_tasks_nodup.
Qed.

(** Deleting the tasks of a session is complete or refused: when it returns,
    every task of the session on the board is gone, archived ones included,
    every other task is as it was, and the count it returns is theirs; it is
    refused exactly when one of them is running, and even then no running task
    and no task of another session is touched. *)
Theorem session_delete_complete {D} sw sid now (wd wd' : world D) r :
  reachable (store wd) -> strip sid <> EmptyString ->
  delete_tasks_by_session sw sid now wd = (wd', r) ->
  let before := tasks (store wd) in
  let after := tasks (store wd') in
  let blocked := exists id t, before !! id = Some t /\ session_task sid t = true
                   /\ Task.status t = TaskStatus.RUNNING in
  match r with
  | Return n =>
      ~ blocked /\ n = Z.of_nat (length (List.filter (session_task sid) (all_tasks (store wd))))
      /\ forall id, after !! id = (t ← before !! id; if session_task sid t then None else Some t)
  | Raise e =>
      e = TaskStateError /\ blocked
      /\ forall id t, before !! id = Some t ->
         session_task sid t = false \/ Task.status t = TaskStatus.RUNNING -> after !! id = Some t
  end.
Proof.
  intros Hr Hsid. pose proof (reachable_ok _ Hr) as Hok. unfold delete_tasks_by_session.
  rewrite (proj2 (truthy_str_nonempty _)) by done. cbn [negb].
  unfold query at 1. unfold mbind at 1, M_bind at 1.
  rewrite (bind_return _ _ _ _ _ (session_ids_exact sid wd Hr)).
  fold (session_rows (store wd) sid).
  pose proof (fun id => session_rows_elem (store wd) sid id Hok) as Hmine.
  destruct (delete_loop sw now (Task.id <$> session_rows (store wd) sid) wd) as (w2 & E & Hkeep & Hgone).
  { by apply session_rows_nodup. }
  { intros id (t & ? & _)%Hmine. eauto. }
  case_bool_decide as Hblock.
  - rewrite (bind_raise _ _ _ _ _ E). intros [= <- <-]. simpl. split; [done|]. split.
    + apply Exists_exists in Hblock as (id & (t & Ht & Hs)%Hmine & Hrun). exists id, t.
      rewrite Ht in Hrun. injection Hrun as ?. auto.
    + intros id t Ht Hor. rewrite Hkeep; [done|]. destruct Hor as [Hn|Hrun]; [left|right; eauto].
      intros (t' & Ht' & ?)%Hmine. congruence.
  - rewrite (bind_return _ _ _ _ _ E). intros [= <- <-]. simpl.
    assert (~ exists id t, tasks (store wd) !! id = Some t /\ session_task sid t = true
      /\ Task.status t = TaskStatus.RUNNING) as Hfree.
    { intros (id & t & Ht & Hs & Hrun). apply Hblock, Exists_exists. exists id.
      rewrite Hmine, Ht. simpl. split; [eauto|congruence]. }
    split; [done|]. split; [by rewrite length_fmap, (Permutation_length (session_rows_perm _ _))|].
    intros id. destruct (tasks (store wd) !! id) as [t|] eqn:Ht; simpl; [destruct (session_task sid t) eqn:Hs|].
    + apply Hgone; [|rewrite Hmine; eauto]. apply Forall_forall.
      intros id' (t' & Ht' & Hs')%Hmine (t2 & Ht2 & Hrun). apply Hfree. exists id', t2. split_and!; congruence.
    + rewrite Hkeep; [done|]. left. intros (t' & Ht' & ?)%Hmine. congruence.
    + rewrite Hkeep; [done|]. left. intros (t' & Ht' & ?)%Hmine. congruence.
Qed.

Definition session_ops : list op :=
  [OCreate ((Task.defaults "t1" "x") <| Task.origin_session_id := Some "s" |>) 1;
   OCreate ((Task.defaults "t2" "y") <| Task.execution_session_id := Some "s" |>
              <| Task.is_archived := true |>) 2;
   OCreate ((Task.defaults "t3" "z") <| Task.origin_session_id := Some "other" |>) 3].

Lemma session_reachable : reachable (foldl exec empty_db session_ops).
Proof. apply reachable_run. repeat split; done. Qed.

Lemma session_delete_complete_witness :
  (delete_tasks_by_session demo_service "s" 9 (mkWorld (foldl exec empty_db session_ops) tt [])).2
  = Return 2
  /\ forall wd', delete_tasks_by_session demo_service "s" 9
                   (mkWorld (foldl exec empty_db session_ops) tt []) = (wd', Return 2) ->
     tasks (store wd') !! "t2" = None /\ is_Some (tasks (store wd') !! "t3").
Proof.
  split; [vm_compute; reflexivity|]. intros wd' E.
  destruct (session_delete_complete demo_service "s" 9
    (mkWorld (foldl exec empty_db session_ops) tt []) wd' (Return 2) session_reachable ltac:(done) E)
    as (_ & _ & H).
  rewrite !H. split; [vm_compute; reflexivity|].
  apply (bool_decide_eq_true_1 (is_Some _)). vm_compute. reflexivity.
Defined.

(** ** Creating a task twice *)

(** A second task with the board, creator and idempotency key of an existing
    one is refused with a conflict, and nothing is stored, logged or sent; the
    creator is not given the existing task back. *)
Theorem create_twice_conflicts {D} cfg (n : NewTask) cx now (wd : world D) t k :
  tasks (store wd) !! Task.id t = Some t ->
  new_idempotency_key n = Some k -> Task.idempotency_key t = Some k ->
  Task.board t = new_board n -> Task.created_by t = new_created_by n ->
  new_board n = "default" -> strip (new_title n) <> EmptyString ->
  create_task cfg n cx now wd = (wd, Raise TaskConflictError).
Proof.
  intros Ht Hk Htk Hb Hc Hd Htitle. unfold create_task.
  assert (truthy_str (new_title n) = true) as -> by (by destruct (new_title n)).
  rewrite (proj2 (truthy_str_nonempty _) Htitle), (bool_decide_eq_true_2 _ Hd). cbn [negb orb].
  rewrite Hk. unfold find_by_idempotency.
  rewrite (bind_return _ _ wd wd None) by (by destruct (truthy_str k)).
  apply bind_raise. unfold registry, create_task_sync.
  match goal with |- context [idempotency_clash _ ?r] => set (row := r) end.
  assert (bool_decide (is_Some (tasks (store wd) !! Task.id row))
          || idempotency_clash (store wd) row = true) as Hclash.
  { destruct (decide (Task.id t = Task.id row)) as [Heq|Hne].
    - rewrite bool_decide_eq_true_2; [done|]. rewrite <- Heq. eauto.
    - rewrite orb_true_iff. right. unfold idempotency_clash.
      change (Task.idempotency_key row) with (Some k).
      apply bool_decide_eq_true_2, Exists_exists. exists (Task.id t, t).
      rewrite elem_of_map_to_list. split; [done|]. split_and!; done. }
  change (Task.id row) with ("t_" +:+ fresh_hex cx) in Hclash. simpl in Hclash |- *.
  rewrite Hclash. by destruct wd.
Qed.

Definition keyed_task : NewTask :=
  mkNewTask "x" "" 0 "u" "default" (Some "k") None None [] None TaskWorkspaceKind.SCRATCH None None None
    None false None.

Lemma create_twice_conflicts_witness :
  let once := (create_task demo_config keyed_task (mkCallContext None [] "1") 9
                 (mkWorld empty_db tt [])).1 in
  create_task demo_config keyed_task (mkCallContext None [] "2") 10 once = (once, Raise TaskConflictError)
  /\ length (all_tasks (store once)) = 1%nat.
Proof.
  intros once. split; [|vm_compute; reflexivity].
  assert (exists t, tasks (store once) !! "t_1" = Some t /\ Task.id t = "t_1"
    /\ Task.idempotency_key t = Some "k" /\ Task.board t = "default" /\ Task.created_by t = "u")
    as (t & Ht & Hid & Hk & Hb & Hc) by (eexists; split; [vm_compute; reflexivity|by vm_compute]).
  apply (create_twice_conflicts demo_config keyed_task (mkCallContext None [] "2") 10 once t "k").
  - rewrite Hid. exact Ht.
  - reflexivity.
  - exact Hk.
  - exact Hb.
  - exact Hc.
  - reflexivity.
  - vm_compute. discriminate.
Defined.
