(* ===== verification/InformationFlow.v ===== *)
(** Information flow: what may leave the agent, and what is redacted from it
    (app/domain/information_flow.py, information_flow_policy.py,
    app/application/information_flow_service.py).

    A frozenset of secrets is a list of them in the order it is iterated, which
    Python leaves open.  Redaction of text does not raise, so the handlers around
    it have no counterpart; the audit of a decision changes nothing and is left
    out.  Structured data is JSON. *)
From S2P Require Import Prelude Text.
Open Scope Z_scope.

(** * Values *)

Module Classification.
Inductive t : Type := PUBLIC | INTERNAL | SENSITIVE | SECRET.
#[global] Instance eq_dec : EqDecision t.
Proof. solve_decision. Defined.
Definition value (c : t) : string :=
  match c with PUBLIC => "public" | INTERNAL => "internal" | SENSITIVE => "sensitive" | SECRET => "secret" end.
Definition all : list t := [PUBLIC; INTERNAL; SENSITIVE; SECRET].
(** [Classification(raw)]; [None] where it raises [ValueError]. *)
Definition of_value (raw : string) : option t := List.find (fun c => bool_decide (value c = raw)) all.
End Classification.

Module ReleaseTarget.
Inductive t : Type :=
  | LLM_PROVIDER | TOOL_MCP_PLUGIN | EXTERNAL_MEMORY | GATEWAY | OBSERVATION_LOG | USAGE_RETENTION
  | LLM_PAYLOAD_LOG | CLIENT_RESPONSE | PUBLIC_ARTIFACT | PARENT | AGGREGATOR_INPUT.
#[global] Instance eq_dec : EqDecision t.
Proof. solve_decision. Defined.
Definition value (r : t) : string :=
  match r with
  | LLM_PROVIDER => "llm_provider" | TOOL_MCP_PLUGIN => "tool_mcp_plugin" | EXTERNAL_MEMORY => "external_memory"
  | GATEWAY => "gateway" | OBSERVATION_LOG => "observation_log" | USAGE_RETENTION => "usage_retention"
  | LLM_PAYLOAD_LOG => "llm_payload_log" | CLIENT_RESPONSE => "client_response"
  | PUBLIC_ARTIFACT => "public_artifact" | PARENT => "parent" | AGGREGATOR_INPUT => "aggregator_input"
  end.
End ReleaseTarget.

Definition DEFAULT_CREDENTIAL_FIELD_NAMES : list string :=
  ["api_key"; "credential"; "password"; "secret"; "token"; "authorization"].

Record SecretCatalog := mkSecretCatalog {
  secret_values : list string;
  credential_field_names : list string
}.

Definition max_secret_length (c : SecretCatalog) : Z :=
  foldr Z.max 0 (map len (List.filter truthy_str (secret_values c))).
Definition has_secrets (c : SecretCatalog) : bool := existsb truthy_str (secret_values c).

Record InformationFlowConfig := mkInformationFlowConfig {
  log_llm_payloads : bool;
  store_usage_payloads : bool;
  redact_secrets : bool
}.

Record InformationAsset := mkInformationAsset {
  as_classification : Classification.t;
  as_origin : string;
  as_labels : list string;
  as_content : string
}.

Record InformationReleaseDecision := mkReleaseDecision {
  rd_verdict : PolicyOutcome.t;
  rd_transform : option string;
  rd_allowed_fields : list string;
  rd_retention : string;
  rd_audit_level : string;
  rd_reason : string
}.

(** * Redaction *)

Definition REDACTED : string := "[REDACTED]".

(** One round of the loop over the sorted secrets. *)
Definition redact_one (text secret : string) : string :=
  if truthy_str secret && contains secret text then replace_all secret REDACTED text else text.

Definition longest_first (l : list string) : list string := order_by (fun a b => len b <=? len a) l.

Definition redact_secret_values (text : string) (secrets : SecretCatalog) : string :=
  match secret_values secrets with
  | [] => text
  | values => foldl redact_one text (longest_first values)
  end.

Section structured.
Context (secrets : SecretCatalog).

Definition credential_key (key : string) : bool :=
  bool_decide (lower key ∈ map lower (credential_field_names secrets)).

Fixpoint redact_structured (data : json) : json :=
  match data with
  | JObj kvs =>
      JObj ((fix fields l :=
               match l with
               | [] => []
               | (key, value) :: l =>
                   (key, if credential_key key then JStr REDACTED else redact_structured value) :: fields l
               end) kvs)
  | JArr l => JArr (map redact_structured l)
  | JStr s => JStr (redact_secret_values s secrets)
  | other => other
  end.
End structured.

(** * The policy *)

Section policy.
Context (config : InformationFlowConfig) (secrets : SecretCatalog).

Definition contains_secret_value (content : string) : bool :=
  existsb (fun s => truthy_str s && contains s content) (secret_values secrets).

Definition denied (reason : string) : InformationReleaseDecision :=
  mkReleaseDecision PolicyOutcome.DENY None [] "none" "summary" reason.
Definition redacted (reason : string) : InformationReleaseDecision :=
  mkReleaseDecision PolicyOutcome.ALLOW (Some "redaction") [] "sanitized" "summary" reason.
Definition released (retention audit_level reason : string) : InformationReleaseDecision :=
  mkReleaseDecision PolicyOutcome.ALLOW None [] retention audit_level reason.

Definition evaluate (asset : InformationAsset) (target : ReleaseTarget.t) : InformationReleaseDecision :=
  let needs_redaction := contains_secret_value (as_content asset)
                         || bool_decide ("secret" ∈ as_labels asset) in
  let level := Classification.value (as_classification asset) in
  let redact_or_deny yes no := if redact_secrets config then redacted yes else denied no in
  match target with
  | ReleaseTarget.LLM_PAYLOAD_LOG =>
      if negb (log_llm_payloads config) then denied "llm_payload_log_disabled_by_config"
      else if needs_redaction then redact_or_deny "llm_payload_log_secret_redacted" "secret_no_transform_available"
      else released "raw" "full" "llm_payload_log_enabled_no_secrets"
  | ReleaseTarget.USAGE_RETENTION =>
      if negb (store_usage_payloads config) then denied "usage_storage_disabled_by_config"
      else if needs_redaction then redact_or_deny "usage_retention_secret_redacted" "usage_retention_secret_denied"
      else released "sanitized" "summary" "usage_retention_no_secrets"
  | ReleaseTarget.PUBLIC_ARTIFACT =>
      if bool_decide (as_classification asset ∈ [Classification.SECRET; Classification.SENSITIVE])
      then denied ("public_artifact_" +:+ level +:+ "_classification_denied")
      else if needs_redaction
      then redact_or_deny "public_artifact_secret_redacted" "public_artifact_secret_no_transform_available"
      else released "raw" "summary" ("public_artifact_" +:+ level +:+ "_no_secrets")
  | ReleaseTarget.PARENT | ReleaseTarget.AGGREGATOR_INPUT =>
      let name := ReleaseTarget.value target in
      if bool_decide (as_classification asset = Classification.SECRET)
      then denied (name +:+ "_secret_classification_denied")
      else if needs_redaction
      then redact_or_deny (name +:+ "_secret_redacted") (name +:+ "_secret_no_transform_available")
      else released "raw" "summary" (name +:+ "_" +:+ level +:+ "_no_secrets")
  | _ =>
      if needs_redaction then redact_or_deny "secret_detected_redaction_applied" "secret_no_transform_available"
      else if bool_decide (as_classification asset = Classification.INTERNAL)
      then released "raw" "summary" "internal_no_secrets"
      else released "raw" "summary" "default_allow_no_secrets"
  end.
End policy.

(** * The service *)

Record InformationFlowService := mkInformationFlowService {
  if_config : InformationFlowConfig;
  if_secrets : SecretCatalog
}.

(** [from_settings]: the one secret the wiring knows is the provider's key. *)
Definition from_settings (config : InformationFlowConfig) (provider_api_key : string) : InformationFlowService :=
  mkInformationFlowService config
    (mkSecretCatalog (if truthy_str provider_api_key then [provider_api_key] else []) DEFAULT_CREDENTIAL_FIELD_NAMES).

Record ReleaseResult := mkReleaseResult {
  rr_allowed : bool;
  rr_content : option string;
  rr_error : option string;
  rr_decision : InformationReleaseDecision
}.

Definition STABLE_CODE : string := "information_release_denied".

Definition release (f : InformationFlowService) (content : string) (target : ReleaseTarget.t)
    (classification : Classification.t) (origin : string) (labels : list string) : ReleaseResult :=
  let asset := mkInformationAsset classification origin labels content in
  let decision := evaluate (if_config f) (if_secrets f) asset target in
  if bool_decide (rd_verdict decision = PolicyOutcome.ALLOW) then
    if bool_decide (rd_transform decision = Some "redaction")
    then mkReleaseResult true (Some (redact_secret_values content (if_secrets f))) None decision
    else mkReleaseResult true (Some content) None decision
  else mkReleaseResult false None (Some STABLE_CODE) decision.

Definition service_redact_structured (f : InformationFlowService) (data : json) : json :=
  if negb (redact_secrets (if_config f)) then data else redact_structured (if_secrets f) data.

(** * The stream guard *)

Record StreamGuard := mkStreamGuard {
  sg_secrets : SecretCatalog;
  sg_config : InformationFlowConfig;
  sg_lookbehind_size : nat;
  sg_buffer : string
}.
#[export] Instance rebuild_stream_guard : Rebuild StreamGuard := fun g =>
  mkStreamGuard (sg_secrets g) (sg_config g) (sg_lookbehind_size g) (sg_buffer g).

Definition create_stream_guard (f : InformationFlowService) : StreamGuard :=
  mkStreamGuard (if_secrets f) (if_config f) (Z.to_nat (Z.max (max_secret_length (if_secrets f) - 1) 0)) "".

Definition guard_feed (g : StreamGuard) (chunk : string) : StreamGuard * string :=
  let buffer := sg_buffer g +:+ chunk in
  let buffer := if redact_secrets (sg_config g) then redact_secret_values buffer (sg_secrets g) else buffer in
  if (sg_lookbehind_size g <? String.length buffer)%nat then
    let emit_size := (String.length buffer - sg_lookbehind_size g)%nat in
    (g <| sg_buffer := drop_str emit_size buffer |>, take_str emit_size buffer)
  else (g <| sg_buffer := buffer |>, "").

Definition guard_flush (g : StreamGuard) : StreamGuard * string := (g <| sg_buffer := "" |>, sg_buffer g).

(** [transform]: what the generator yields. *)
Fixpoint guard_transform (g : StreamGuard) (chunks : list string) : StreamGuard * list string :=
  match chunks with
  | [] =>
      let '(g, final) := guard_flush g in (g, if truthy_str final then [final] else [])
  | chunk :: chunks =>
      let '(g, emitted) := guard_feed g chunk in
      let '(g, rest) := guard_transform g chunks in
      (g, if truthy_str emitted then emitted :: rest else rest)
  end.

Definition transform_structured (g : StreamGuard) (data : json) : json :=
  if negb (redact_secrets (sg_config g)) then data else redact_structured (sg_secrets g) data.
