(* ===== verification/FlowProps.v ===== *)
(** The theorems about information flow: no release and no stream carries a known
    secret, and redacting a stream piece by piece gives what redacting it at once
    gives.

    The marker "[REDACTED]" must not itself make up part of a secret: [apart]. *)
From S2P Require Import Prelude Text Json InformationFlow.
From Stdlib Require Import Ascii.
Open Scope Z_scope.

(** * Secrets that the marker cannot complete *)

Definition apart (t : string) : Prop :=
  t <> "" /\ lacks "["%char t /\ lacks "]"%char t /\ contains t "REDACTED" = false.

Definition all_apart (c : SecretCatalog) : Prop := Forall (fun t => t = "" \/ apart t) (secret_values c).

(** The catalog of a provider's key. *)
Lemma key_apart config : all_apart (if_secrets (from_settings config "sk-live-42")).
Proof.
  apply Forall_singleton. right. unfold apart, lacks.
  split; [done|]. split; [by apply (bool_decide_eq_true_1 _)|]. split; [by apply (bool_decide_eq_true_1 _)|done].
Qed.

(** No known secret occurs in the text. *)
Definition free_of (c : SecretCatalog) (text : string) : Prop :=
  forall t, t ∈ secret_values c -> t <> "" -> contains t text = false.

Lemma truthy_str_true s : truthy_str s = true <-> s <> "".
Proof. unfold truthy_str. rewrite negb_true_iff, bool_decide_eq_false. done. Qed.

Lemma contains_marker t a b : apart t -> contains t (a +:+ (REDACTED +:+ b)) = contains t a || contains t b.
Proof.
  intros (_ & Ho & Hc & Hr). unfold REDACTED. rewrite !app_str_cons.
  rewrite (contains_around "["%char) by done. f_equal.
  change (contains t ("REDACTED" +:+ String "]"%char ("" +:+ b)) = contains t b).
  by rewrite (contains_around "]"%char), Hr.
Qed.

(** An occurrence that begins inside [a]. *)
Definition early (t a s : string) : Prop :=
  exists x y, a = x +:+ y /\ y <> "" /\ starts_with t (y +:+ s) = true.

Lemma early_nil t s : ~ early t "" s.
Proof. intros ([|? ?] & y & Ha & Hy & _); [by rewrite app_str_nil in Ha|done]. Qed.

Lemma contains_early t a s : contains t (a +:+ s) = true -> early t a s \/ contains t s = true.
Proof.
  induction a as [|c a IH]; str; [by right|]. rewrite orb_true_iff. intros [Hs|Hs].
  - left. exists "", (String c a). by rewrite app_str_cons.
  - destruct (IH Hs) as [(x & y & -> & Hy)|?]; [|by right].
    left. by exists (String c x), y.
Qed.

Lemma early_contains t a s : early t a s -> contains t (a +:+ s) = true.
Proof.
  intros (x & y & -> & _ & [b Hb]%starts_with_spec). apply contains_spec.
  exists x, b. by rewrite app_str_assoc, Hb.
Qed.

Lemma early_within t a s : t <> "" -> contains t a = true -> early t a s.
Proof.
  intros Ht (x & y & ->)%contains_spec. exists x, (t +:+ y). split; [done|]. split; [by destruct t|].
  rewrite app_str_assoc. apply starts_with_prefix.
Qed.

(** * What replacing leaves *)

Section replaced.
Context (old : string) (Hold : old <> "").

(** A prefix seen after a replacement, with anything behind it, was there before. *)
Lemma starts_before t y s x :
  lacks "["%char t -> starts_with t (y +:+ (replace_all old REDACTED s +:+ x)) = true ->
  starts_with t (y +:+ (s +:+ x)) = true.
Proof.
  intros Hl. revert y. apply (replace_ind old REDACTED Hold
    (fun s r => forall y, starts_with t (y +:+ (r +:+ x)) = true -> starts_with t (y +:+ (s +:+ x)) = true)).
  - done.
  - intros s' _ y. unfold REDACTED. rewrite !app_str_cons. intros Hs.
    apply lacks_starts in Hs; [|done]. by apply starts_with_app_l.
  - intros c s' _ IH y Hs. rewrite app_str_cons in *.
    assert (Hc : forall z, y +:+ String c z = (y +:+ String c "") +:+ z) by (intros z; by rewrite app_str_assoc).
    rewrite Hc in *. by apply IH.
Qed.

Lemma contains_before t a s :
  apart t -> contains t (a +:+ replace_all old REDACTED s) = true -> contains t (a +:+ s) = true.
Proof.
  intros Ht. revert a. apply (replace_ind old REDACTED Hold
    (fun s r => forall a, contains t (a +:+ r) = true -> contains t (a +:+ s) = true)).
  - done.
  - intros s' IH a. rewrite contains_marker by done. rewrite orb_true_iff. intros [Hc|Hc]; [by apply contains_app_l|].
    apply contains_app_r, contains_app_r. by apply (IH "").
  - intros c s' _ IH a. intros H.
    assert (Hc : forall z, a +:+ String c z = (a +:+ String c "") +:+ z) by (intros z; by rewrite app_str_assoc).
    rewrite Hc in H |- *. by apply IH.
Qed.

Lemma replace_clears a s : apart old -> ~ early old a s -> contains old (a +:+ replace_all old REDACTED s) = false.
Proof.
  intros Ha. revert a. apply (replace_ind old REDACTED Hold
    (fun s r => forall a, ~ early old a s -> contains old (a +:+ r) = false)).
  - intros a He. rewrite app_str_nil_r. apply not_true_iff_false. intros H. by apply He, early_within.
  - intros s' IH a He. rewrite contains_marker by done. apply orb_false_iff. split.
    + apply not_true_iff_false. intros H. by apply He, early_within.
    + apply (IH ""). apply early_nil.
  - intros c s' Hm IH a He.
    assert (Hc : forall z, a +:+ String c z = (a +:+ String c "") +:+ z) by (intros z; by rewrite app_str_assoc).
    rewrite Hc. apply IH. intros (x & y & Hxy & Hy & Hs).
    apply app_str_split in Hxy as [(k & -> & Hk)|(k & -> & ->)].
    + destruct k as [|d k]; str_in Hk; [subst y; str_in Hs; cbn in Hm; congruence|].
      injection Hk as _ Hk. destruct k, y; done.
    + rewrite app_str_assoc in Hs. str_in Hs. destruct k as [|d k]; [cbn in Hm; str_in Hs; congruence|].
      apply He. by exists x, (String d k).
Qed.

(** Replacing behind a part in which no match begins. *)
Lemma replace_behind a s :
  ~ early old a s -> replace_all old REDACTED (a +:+ s) = a +:+ replace_all old REDACTED s.
Proof.
  induction a as [|c a IH]; intros He; [done|]. rewrite !app_str_cons.
  rewrite replace_miss.
  - f_equal. apply IH. intros (x & y & -> & Hy & Hs). apply He. by exists (String c x), y.
  - apply not_true_iff_false. intros Hs. apply He. exists "", (String c a). by rewrite app_str_cons.
Qed.

(** Nothing begins inside the marker. *)
Lemma replace_marker s : apart old -> replace_all old REDACTED (REDACTED +:+ s) = REDACTED +:+ replace_all old REDACTED s.
Proof.
  intros Ha. apply replace_behind. intros (x & y & Hxy & Hy & Hs).
  assert (contains old (y +:+ s) = true) as Hc by (destruct (y +:+ s); cbn [contains]; by rewrite Hs).
  destruct Ha as (_ & Ho & Hcl & Hr). destruct x as [|d x].
  - rewrite app_str_nil in Hxy. subst y. unfold REDACTED in Hs. rewrite app_str_cons in Hs.
    apply (lacks_starts _ _ "") in Hs; [|done]. by destruct old.
  - unfold REDACTED in Hxy. rewrite app_str_cons in Hxy. injection Hxy as <- Hxy.
    assert (exists k, y = k +:+ "]" /\ exists z, "REDACTED" = z +:+ k) as (k & -> & z & Hz).
    { change "REDACTED]" with ("REDACTED" +:+ "]") in Hxy.
      apply app_str_split in Hxy as [(k & -> & Hk)|(k & Hk & ->)]; [|by eauto].
      destruct k as [|e k]; str_in Hk; [exists ""; subst y; split; [done|by exists "REDACTED"]|].
      injection Hk as <- Hk. by destruct k, y. }
    rewrite app_str_assoc in Hs. str_in Hs. apply lacks_starts in Hs; [|done].
    rewrite Hz in Hr. apply not_true_iff_false in Hr. apply Hr, contains_app_r.
    destruct k; cbn [contains]; by rewrite Hs.
Qed.

(** Replacing in what has been replaced already, with more behind it. *)
Lemma replace_again s x :
  apart old -> replace_all old REDACTED (replace_all old REDACTED s +:+ x) = replace_all old REDACTED (s +:+ x).
Proof.
  intros Ha. apply (replace_ind old REDACTED Hold
    (fun s r => replace_all old REDACTED (r +:+ x) = replace_all old REDACTED (s +:+ x))); [done|..].
  - intros s' IH. rewrite !app_str_assoc, replace_marker, replace_hit by done. by rewrite IH.
  - intros c s' Hm IH. rewrite !app_str_cons.
    destruct (starts_with old (String c (s' +:+ x))) eqn:Hs.
    + (* the match reaches into [x]: [s'] is too short to hold one *)
      rewrite (replace_absent old REDACTED s'); [done|]. apply not_true_iff_false. intros Hc%contains_length.
      rewrite <- app_str_cons, starts_with_app_long in Hs by (cbn; lia). congruence.
    + rewrite (replace_miss old REDACTED c (s' +:+ x)) by done. rewrite <- IH. apply replace_miss.
      apply not_true_iff_false. intros Hs'. apply (starts_before old (String c "")) in Hs'; [|apply Ha].
      str_in Hs'. congruence.
Qed.
End replaced.

(** * Redacting text *)

Lemma redact_one_nonempty text t : t <> "" -> redact_one text t = replace_all t REDACTED text.
Proof.
  intros Ht. unfold redact_one. rewrite (proj2 (truthy_str_true t) Ht). simpl.
  destruct (contains t text) eqn:Hc; [done|]. by rewrite replace_absent.
Qed.

Lemma redact_one_empty text : redact_one text "" = text.
Proof. done. Qed.

Lemma redact_one_before t u a text :
  apart t -> contains t (a +:+ redact_one text u) = true -> contains t (a +:+ text) = true.
Proof.
  destruct (decide (u = "")) as [->|Hu]; [done|]. rewrite redact_one_nonempty by done. by apply contains_before.
Qed.

Lemma redact_fold_before t l a text :
  apart t -> contains t (a +:+ foldl redact_one text l) = true -> contains t (a +:+ text) = true.
Proof.
  intros Ht. revert text. induction l as [|u l IH]; intros text; [done|]. simpl. intros H%IH.
  by apply redact_one_before in H.
Qed.

Lemma redact_fold_clears t l text :
  apart t -> t ∈ l -> contains t (foldl redact_one text l) = false.
Proof.
  intros Ht. revert text. induction l as [|u l IH]; intros text; [by intros ?%elem_of_nil|].
  intros [->|Hin]%elem_of_cons; [|by apply IH]. simpl. apply not_true_iff_false. intros H.
  apply (redact_fold_before _ _ "" _ Ht) in H. str_in H.
  assert (Hu : u <> "") by apply Ht.
  rewrite redact_one_nonempty in H by done.
  pose proof (replace_clears u Hu "" text Ht (early_nil _ _)) as Hf. str_in Hf. congruence.
Qed.

Lemma longest_first_perm l : longest_first l ≡ₚ l.
Proof. apply order_by_perm. Qed.

Lemma redact_is_fold text c :
  redact_secret_values text c = foldl redact_one text (longest_first (secret_values c)).
Proof. unfold redact_secret_values. by destruct (secret_values c). Qed.

Lemma apart_of c t : all_apart c -> t ∈ secret_values c -> t <> "" -> apart t.
Proof. unfold all_apart. rewrite Forall_forall. intros H Hin Ht. by destruct (H t Hin). Qed.

(** Redacted text carries no known secret. *)
Lemma redact_free_of c text : all_apart c -> free_of c (redact_secret_values text c).
Proof.
  intros Hc t Hin Ht. rewrite redact_is_fold. apply redact_fold_clears; [by eapply apart_of|].
  by rewrite longest_first_perm.
Qed.

Lemma redact_fold_id l text :
  (forall t, t ∈ l -> t <> "" -> contains t text = false) -> foldl redact_one text l = text.
Proof.
  induction l as [|t l IH]; intros H; [done|]. simpl.
  replace (redact_one text t) with text; [apply IH; intros; apply H; [by right|done]|].
  unfold redact_one. destruct (decide (t = "")) as [->|Ht]; [done|]. rewrite H; [|by left|done].
  by rewrite andb_false_r.
Qed.

(** Text without secrets is left alone. *)
Lemma redact_id c text : free_of c text -> redact_secret_values text c = text.
Proof.
  intros H. rewrite redact_is_fold. apply redact_fold_id. intros t Hin. apply H. by rewrite longest_first_perm in Hin.
Qed.

Lemma no_secret_found c text : contains_secret_value c text = false <-> free_of c text.
Proof.
  unfold contains_secret_value, free_of. rewrite existsb_false. split.
  - intros H t Hin Ht. specialize (H t Hin). by rewrite (proj2 (truthy_str_true t) Ht) in H.
  - intros H t Hin. destruct (truthy_str t) eqn:Ht; [|done]. apply H; [done|]. by apply truthy_str_true.
Qed.

Lemma marker_free_of c : all_apart c -> free_of c REDACTED.
Proof.
  intros Hc t Hin Ht. pose proof (apart_of _ _ Hc Hin Ht) as Ha.
  pose proof (contains_marker t "" "" Ha) as H. rewrite app_str_nil, app_str_nil_r in H. rewrite H.
  by destruct t.
Qed.

(** * Releases *)

(** What a decision that allows says about the content. *)
Lemma allowed_cases config c asset target :
  rd_verdict (evaluate config c asset target) = PolicyOutcome.ALLOW ->
  rd_transform (evaluate config c asset target) = Some "redaction"
  \/ rd_transform (evaluate config c asset target) = None /\ free_of c (as_content asset)
     /\ "secret" ∉ as_labels asset.
Proof.
  rewrite <- no_secret_found. unfold evaluate.
  destruct (contains_secret_value c (as_content asset)), (bool_decide_reflect ("secret" ∈ as_labels asset)),
    (redact_secrets config), target; simpl; repeat case_match; simpl; try done; auto.
Qed.

(** Who may receive content of each classification. *)
Definition cleared (config : InformationFlowConfig) (level : Classification.t) (target : ReleaseTarget.t) : Prop :=
  match target with
  | ReleaseTarget.PUBLIC_ARTIFACT => level <> Classification.SECRET /\ level <> Classification.SENSITIVE
  | ReleaseTarget.PARENT | ReleaseTarget.AGGREGATOR_INPUT => level <> Classification.SECRET
  | ReleaseTarget.LLM_PAYLOAD_LOG => log_llm_payloads config = true
  | ReleaseTarget.USAGE_RETENTION => store_usage_payloads config = true
  | _ => True
  end.

Lemma allowed_iff config c asset target :
  rd_verdict (evaluate config c asset target) = PolicyOutcome.ALLOW <->
  cleared config (as_classification asset) target
  /\ (free_of c (as_content asset) /\ "secret" ∉ as_labels asset \/ redact_secrets config = true).
Proof.
  rewrite <- no_secret_found. unfold evaluate, cleared.
  destruct (contains_secret_value c (as_content asset)), (bool_decide_reflect ("secret" ∈ as_labels asset)),
    (redact_secrets config), target, (log_llm_payloads config), (store_usage_payloads config),
    (as_classification asset); simpl; intuition congruence.
Qed.

(** What a release hands out carries no known secret. *)
Lemma released_free_of f content target level origin labels text :
  all_apart (if_secrets f) -> rr_content (release f content target level origin labels) = Some text ->
  rr_allowed (release f content target level origin labels) = true /\ free_of (if_secrets f) text.
Proof.
  intros Ha. unfold release. set (asset := mkInformationAsset level origin labels content).
  pose proof (allowed_cases (if_config f) (if_secrets f) asset target) as Hcase.
  case_bool_decide as Hv; [|done]. destruct (Hcase Hv) as [-> | (-> & Hf & _)]; simpl; intros [= <-].
  - split; [done|]. by apply redact_free_of.
  - done.
Qed.

(** A release is allowed exactly when the target may receive the
    classification and, for content with a known secret or labelled secret,
    redaction is on; what is handed out is the content with every known secret
    replaced, in which no known secret occurs; and content without secrets is
    handed out as it is.  A refused release hands out nothing. *)
Theorem release_exact f content target level origin labels :
  all_apart (if_secrets f) ->
  let r := release f content target level origin labels in
  (rr_allowed r = true <->
     cleared (if_config f) level target
     /\ (free_of (if_secrets f) content /\ "secret" ∉ labels \/ redact_secrets (if_config f) = true))
  /\ (rr_allowed r = true ->
        rr_content r = Some (redact_secret_values content (if_secrets f))
        /\ free_of (if_secrets f) (redact_secret_values content (if_secrets f))
        /\ (free_of (if_secrets f) content -> rr_content r = Some content) /\ rr_error r = None)
  /\ (rr_allowed r = false -> rr_content r = None /\ rr_error r = Some STABLE_CODE).
Proof.
  intros Ha r. unfold r, release. set (asset := mkInformationAsset level origin labels content).
  pose proof (redact_free_of (if_secrets f) content Ha) as Hfree.
  pose proof (allowed_cases (if_config f) (if_secrets f) asset target) as Hcase.
  pose proof (allowed_iff (if_config f) (if_secrets f) asset target) as Hiff.
  case_bool_decide as Hv.
  - specialize (Hcase Hv). split; [|split].
    + etransitivity; [|exact Hiff]. split; [done|]. by case_bool_decide.
    + intros _. destruct Hcase as [-> | (-> & Hf & _)]; simpl.
      * split; [done|]. split; [done|]. split; [|done]. intros Hf. by rewrite redact_id.
      * by rewrite redact_id.
    + by case_bool_decide.
  - simpl. split; [|done]. by etransitivity; [|exact Hiff].
Qed.

Lemma release_exact_witness :
  let f := from_settings (mkInformationFlowConfig false true true) "sk-live-42" in
  let r := release f "key=sk-live-42!" ReleaseTarget.PARENT Classification.INTERNAL "delegation_result" [] in
  all_apart (if_secrets f) /\ rr_allowed r = true /\ rr_content r = Some "key=[REDACTED]!"
  /\ free_of (if_secrets f) "key=[REDACTED]!".
Proof.
  intros f r. assert (Ha : all_apart (if_secrets f)) by apply key_apart.
  assert (Hr : rr_allowed r = true) by (vm_compute; reflexivity).
  destruct (release_exact f "key=sk-live-42!" ReleaseTarget.PARENT Classification.INTERNAL "delegation_result" [] Ha)
    as (_ & Hc & _).
  destruct (Hc Hr) as (Hcontent & Hfree & _).
  assert (He : redact_secret_values "key=sk-live-42!" (if_secrets f) = "key=[REDACTED]!") by (vm_compute; reflexivity).
  rewrite He in Hfree, Hcontent. auto.
Defined.

(** * Structured data *)

(** The texts of a value that a reader sees, apart from field names. *)
Fixpoint texts (v : json) : list string :=
  match v with
  | JStr s => [s]
  | JArr l => (fix go l := match l with [] => [] | v :: l => texts v ++ go l end) l
  | JObj kvs => (fix go l := match l with [] => [] | (_, v) :: l => texts v ++ go l end) kvs
  | _ => []
  end.

(** The values under a credential name, at any depth. *)
Fixpoint credentials (c : SecretCatalog) (v : json) : list json :=
  match v with
  | JArr l => (fix go l := match l with [] => [] | v :: l => credentials c v ++ go l end) l
  | JObj kvs =>
      (fix go l := match l with
                   | [] => []
                   | (k, v) :: l => (if credential_key c k then [v] else []) ++ credentials c v ++ go l
                   end) kvs
  | _ => []
  end.

Section structured.
Context (c : SecretCatalog).

Lemma structured_texts v : all_apart c -> Forall (free_of c) (texts (redact_structured c v)).
Proof.
  intros Hc. induction v as [|b|n|s|l IH|kvs IH] using json_nested_ind; simpl; try constructor.
  - by apply redact_free_of.
  - constructor.
  - induction IH as [|v l Hv _ IH]; simpl; [constructor|]. by apply Forall_app.
  - induction IH as [|[k v] l Hv _ IH]; simpl; [constructor|]. apply Forall_app. split; [|done].
    case_match; [|done]. constructor; [by apply marker_free_of|constructor].
Qed.

Lemma structured_credentials v : Forall (fun x => x = JStr REDACTED) (credentials c (redact_structured c v)).
Proof.
  induction v as [|b|n|s|l IH|kvs IH] using json_nested_ind; simpl; try constructor.
  - induction IH as [|v l Hv _ IH]; simpl; [constructor|]. by apply Forall_app.
  - induction IH as [|[k v] l Hv _ IH]; simpl; [constructor|]. apply Forall_app.
    destruct (credential_key c k); simpl; [split; [repeat constructor|done]|].
    split; [constructor|]. by apply Forall_app.
Qed.

(** Redacting again changes nothing. *)
Lemma structured_idempotent v : all_apart c -> redact_structured c (redact_structured c v) = redact_structured c v.
Proof.
  intros Hc. induction v as [|b|n|s|l IH|kvs IH] using json_nested_ind; simpl; try done.
  - f_equal. apply redact_id. by apply redact_free_of.
  - f_equal. rewrite map_map. induction IH as [|v l Hv _ IH]; simpl; [done|]. by rewrite Hv, IH.
  - f_equal. induction IH as [|[k v] l Hv _ IH]; simpl; [done|]. rewrite IH. do 2 f_equal.
    by destruct (credential_key c k).
Qed.

(** The keys, and the shape but for credentials, are kept. *)
Lemma structured_keys kvs :
  exists kvs', redact_structured c (JObj kvs) = JObj kvs' /\ map fst kvs' = map fst kvs.
Proof.
  simpl. eexists. split; [done|]. induction kvs as [|[k v] l IH]; simpl; [done|]. by rewrite IH.
Qed.
End structured.

(** * Streams *)

Definition guard_output (g : StreamGuard) (chunks : list string) : string := join_str (guard_transform g chunks).2.

Lemma join_truthy s l : join_str (if truthy_str s then s :: l else l) = s +:+ join_str l.
Proof. destruct (truthy_str s) eqn:Hs; [done|]. by destruct s. Qed.

Lemma guard_output_nil g : guard_output g [] = sg_buffer g.
Proof.
  unfold guard_output. cbn. pose proof (join_truthy (sg_buffer g) []) as H. rewrite H. apply app_str_nil_r.
Qed.

Lemma guard_output_cons g chunk chunks :
  guard_output g (chunk :: chunks) =
    (guard_feed g chunk).2 +:+ guard_output (guard_feed g chunk).1 chunks.
Proof.
  unfold guard_output. cbn [guard_transform]. destruct (guard_feed g chunk) as [g' emitted]. simpl.
  destruct (guard_transform g' chunks) as [g'' rest]. simpl. apply join_truthy.
Qed.

(** What a feed holds and emits together, and how much it keeps back. *)
Lemma guard_feed_split g chunk :
  let b := sg_buffer g +:+ chunk in
  let b := if redact_secrets (sg_config g) then redact_secret_values b (sg_secrets g) else b in
  let '(g', emitted) := guard_feed g chunk in
  emitted +:+ sg_buffer g' = b /\ sg_secrets g' = sg_secrets g /\ sg_config g' = sg_config g
  /\ sg_lookbehind_size g' = sg_lookbehind_size g
  /\ (emitted = "" \/ String.length (sg_buffer g') = sg_lookbehind_size g).
Proof.
  unfold guard_feed. cbn zeta. set (b := if redact_secrets (sg_config g) then _ else _).
  destruct (_ <? _)%nat eqn:Hl; simpl; [|split_and!; [done..|by left]]. apply Nat.ltb_lt in Hl. rewrite length_drop_str.
  split; [apply take_drop_str|]. repeat split; try done. right. lia.
Qed.

(** No secret can begin in what was emitted and end in what comes. *)
Definition sealed (c : SecretCatalog) (out buffer : string) : Prop :=
  forall t x, t ∈ secret_values c -> t <> "" -> ~ early t out (buffer +:+ x).

Section stream.
Context (g0 : StreamGuard) (Hc : all_apart (sg_secrets g0)) (Hon : redact_secrets (sg_config g0) = true).
Context (Hback : forall t, t ∈ secret_values (sg_secrets g0) ->
           (String.length t <= S (sg_lookbehind_size g0))%nat).

Notation c := (sg_secrets g0).

(** A guard on the way: the same one but for its buffer. *)
Definition same_guard (g : StreamGuard) : Prop :=
  sg_secrets g = c /\ sg_config g = sg_config g0 /\ sg_lookbehind_size g = sg_lookbehind_size g0.

Lemma starts_fold_before t l y text x :
  apart t -> starts_with t (y +:+ (foldl redact_one text l +:+ x)) = true ->
  starts_with t (y +:+ (text +:+ x)) = true.
Proof.
  intros Ht. revert text. induction l as [|u l IH]; intros text Hs; [done|]. simpl in Hs.
  specialize (IH _ Hs). destruct (decide (u = "")) as [->|Hu]; [done|].
  rewrite redact_one_nonempty in IH by done. by eapply starts_before; [exact Hu|apply Ht|].
Qed.

(** Redacting the buffer keeps what was emitted sealed. *)
Lemma sealed_redact out text :
  sealed c out text -> sealed c out (redact_secret_values text c).
Proof.
  intros Hs t x Hin Ht (y & z & -> & Hz & Hst). rewrite redact_is_fold in Hst.
  apply starts_fold_before in Hst; [|by eapply apart_of].
  apply (Hs t x Hin Ht). by exists y, z.
Qed.

Lemma sealed_append out buffer chunk : sealed c out buffer -> sealed c out (buffer +:+ chunk).
Proof. intros Hs t x Hin Ht. rewrite app_str_assoc. by apply Hs. Qed.

(** Emitting all but the lookbehind keeps it sealed. *)
Lemma sealed_emit out emitted kept :
  sealed c out (emitted +:+ kept) -> free_of c (emitted +:+ kept) ->
  (emitted = "" \/ String.length kept = sg_lookbehind_size g0) -> sealed c (out +:+ emitted) kept.
Proof.
  intros Hs Hf Hlen t x Hin Ht (y & z & Hyz & Hz & Hst).
  destruct Hlen as [->|Hlen].
  { rewrite app_str_nil_r in Hyz. rewrite app_str_nil in Hs. apply (Hs t x Hin Ht). by exists y, z. }
  apply app_str_split in Hyz as [(k & -> & ->)|(k & -> & ->)].
  - rewrite <- app_str_assoc, starts_with_app_long in Hst.
    2:{ pose proof (Hback t Hin). rewrite length_app_str. destruct z; [done|]. cbn in *. lia. }
    assert (contains t ((k +:+ z) +:+ kept) = true) as H.
    { rewrite app_str_assoc. apply contains_app_r. destruct (z +:+ kept) eqn:He; cbn [contains]; by rewrite Hst. }
    by rewrite (Hf t Hin Ht) in H.
  - destruct k as [|d k].
    + rewrite app_str_nil, <- app_str_assoc, starts_with_app_long in Hst.
      2:{ pose proof (Hback t Hin). rewrite length_app_str. destruct emitted; [done|]. cbn in *. lia. }
      assert (contains t (emitted +:+ kept) = true) as H.
      { destruct (emitted +:+ kept) eqn:He; cbn [contains]; by rewrite Hst. }
      by rewrite (Hf t Hin Ht) in H.
    + apply (Hs t x Hin Ht). exists y, (String d k). split; [done|]. split; [done|].
      by rewrite !app_str_assoc in *.
Qed.

(** One feed: the new buffer and output, from what was held and the chunk. *)
Lemma feed_step g out chunk :
  same_guard g -> sealed c out (sg_buffer g) ->
  let '(g', emitted) := guard_feed g chunk in
  same_guard g' /\ sealed c (out +:+ emitted) (sg_buffer g')
  /\ emitted +:+ sg_buffer g' = redact_secret_values (sg_buffer g +:+ chunk) c.
Proof.
  intros (Hsec & Hcfg & Hlb) Hs. pose proof (guard_feed_split g chunk) as H.
  destruct (guard_feed g chunk) as [g' emitted]. cbn zeta in H. rewrite Hcfg, Hon, Hsec, Hlb in H.
  destruct H as (Hb & H1 & H2 & H3 & H4). split; [done|]. split; [|done].
  apply sealed_emit; rewrite ?Hb; [|by apply redact_free_of|done].
  by apply sealed_redact, sealed_append.
Qed.

Lemma stream_free g out chunks :
  same_guard g -> sealed c out (sg_buffer g) -> free_of c (out +:+ sg_buffer g) ->
  free_of c (out +:+ guard_output g chunks).
Proof.
  revert g out. induction chunks as [|chunk chunks IH]; intros g out Hg Hs Hf.
  { by rewrite guard_output_nil. }
  rewrite guard_output_cons. pose proof (feed_step g out chunk Hg Hs) as H.
  destruct (guard_feed g chunk) as [g' emitted]. destruct H as (Hg' & Hs' & Hb). simpl.
  rewrite <- app_str_assoc. apply IH; [done..|]. rewrite app_str_assoc, Hb. intros t Hin Ht.
  apply not_true_iff_false. intros [He|Hin']%contains_early.
  - eapply (sealed_redact _ _ (sealed_append _ _ chunk Hs) t ""); [done..|]. by rewrite app_str_nil_r.
  - by rewrite (redact_free_of c _ Hc t Hin Ht) in Hin'.
Qed.

(** With one secret, what is emitted and held is what redacting all of the input
    gives. *)
Lemma stream_exact secret g out seen chunks :
  secret_values c = [secret] -> secret <> "" -> same_guard g -> sealed c out (sg_buffer g) ->
  out +:+ sg_buffer g = replace_all secret REDACTED seen ->
  out +:+ guard_output g chunks = replace_all secret REDACTED (seen +:+ join_str chunks).
Proof.
  intros Hsec Hne. assert (Hap : apart secret).
  { eapply apart_of; [exact Hc| |done]. rewrite Hsec. by left. }
  revert g out seen. induction chunks as [|chunk chunks IH]; intros g out seen Hg Hs Hout.
  { rewrite guard_output_nil. cbn. by rewrite app_str_nil_r. }
  rewrite guard_output_cons. pose proof (feed_step g out chunk Hg Hs) as H.
  destruct (guard_feed g chunk) as [g' emitted]. destruct H as (Hg' & Hs' & Hb). simpl.
  rewrite <- !app_str_assoc. apply IH; [done..|].
  rewrite app_str_assoc, Hb, <- (replace_again secret Hne seen chunk Hap), <- Hout, app_str_assoc.
  rewrite (replace_behind secret).
  - f_equal. rewrite redact_is_fold, Hsec. apply (redact_one_nonempty _ secret Hne).
  - apply (Hs secret chunk); [rewrite Hsec; by left|done].
Qed.
End stream.

(** A guard whose redaction never changes the text hands on what it is fed. *)
Lemma stream_identity g chunks :
  (redact_secrets (sg_config g) = false \/ secret_values (sg_secrets g) = []) ->
  guard_output g chunks = sg_buffer g +:+ join_str chunks.
Proof.
  revert g. induction chunks as [|chunk chunks IH]; intros g Hid.
  { rewrite guard_output_nil. cbn. by rewrite app_str_nil_r. }
  rewrite guard_output_cons. pose proof (guard_feed_split g chunk) as H.
  destruct (guard_feed g chunk) as [g' emitted]. cbn zeta in H. simpl.
  destruct H as (Hb & H1 & H2 & _). rewrite IH by (by rewrite H1, H2).
  rewrite <- !app_str_assoc, Hb. f_equal. destruct Hid as [-> | He]; [done|].
  rewrite redact_is_fold, He. by case_match.
Qed.

Lemma max_len_covers l t : t ∈ l -> t <> "" -> len t <= foldr Z.max 0 (map len (List.filter truthy_str l)).
Proof.
  induction l as [|u l IH]; [by intros ?%elem_of_nil|]. intros [->|Hin]%elem_of_cons Ht; simpl.
  - rewrite (proj2 (truthy_str_true u) Ht). simpl. lia.
  - specialize (IH Hin Ht). case_match; simpl; lia.
Qed.

Lemma lookbehind_covers f t :
  t ∈ secret_values (if_secrets f) -> (String.length t <= S (sg_lookbehind_size (create_stream_guard f)))%nat.
Proof.
  intros Hin. destruct (decide (t = "")) as [->|Ht]; [cbn; lia|].
  pose proof (max_len_covers _ _ Hin Ht) as H. unfold create_stream_guard, max_secret_length, len in *. simpl. lia.
Qed.

Lemma sealed_start c : sealed c "" "".
Proof. intros t x _ _. apply early_nil. Qed.

(** However the content is cut into chunks, what a stream guard emits, its
    flush included, carries none of the known secrets, not even one spread over
    several chunks. *)
Theorem stream_guard_safe f chunks :
  all_apart (if_secrets f) -> redact_secrets (if_config f) = true ->
  free_of (if_secrets f) (guard_output (create_stream_guard f) chunks).
Proof.
  intros Ha Hon. apply (stream_free (create_stream_guard f) Ha Hon (lookbehind_covers f) _ "").
  - done.
  - apply sealed_start.
  - intros t _ Ht. by destruct t.
Qed.

Lemma stream_guard_safe_witness :
  let f := mkInformationFlowService (mkInformationFlowConfig false true true)
             (mkSecretCatalog ["tok-9"; "sk-live-42"] DEFAULT_CREDENTIAL_FIELD_NAMES) in
  all_apart (if_secrets f)
  /\ free_of (if_secrets f) (guard_output (create_stream_guard f) ["a sk-l"; "ive-4"; "2 b to"; "k-9"]).
Proof.
  intros f. assert (Ha : all_apart (if_secrets f)).
  { repeat (apply Forall_cons; split); [..|apply Forall_nil; exact I]; right; unfold apart, lacks.
    all: split; [done|]; split; [by apply (bool_decide_eq_true_1 _)|]; split; [by apply (bool_decide_eq_true_1 _)|done]. }
  split; [exact Ha|]. apply (stream_guard_safe f _ Ha). reflexivity.
Defined.

(** With the catalog the program is wired with, the provider's key: whatever
    the chunks, the emitted pieces put together are what redacting the whole
    content at once gives, or the content itself where redaction is off. *)
Lemma stream_guard_exact config key chunks :
  key = "" \/ apart key ->
  let f := from_settings config key in
  guard_output (create_stream_guard f) chunks =
    if redact_secrets config then redact_secret_values (join_str chunks) (if_secrets f) else join_str chunks.
Proof.
  intros Hk f. destruct (redact_secrets config) eqn:Hon; [|by apply stream_identity; left].
  destruct (decide (key = "")) as [->|Hne]; [by apply stream_identity; right|].
  assert (Hsec : secret_values (if_secrets f) = [key]).
  { unfold f, from_settings. by rewrite (proj2 (truthy_str_true key) Hne). }
  assert (Ha : all_apart (if_secrets f)) by (unfold all_apart; rewrite Hsec; by apply Forall_singleton).
  rewrite redact_is_fold, Hsec. change (longest_first [key]) with [key]. simpl.
  rewrite redact_one_nonempty by done.
  apply (stream_exact (create_stream_guard f) Ha Hon (lookbehind_covers f) key _ "" "");
    [done..|apply sealed_start|done].
Qed.

(** With several secrets the order in which they complete matters: a secret that
    extends another one leaks its tail, which redacting at once does not. *)
Lemma longer_secret_leaks_tail :
  let f := mkInformationFlowService (mkInformationFlowConfig false true true)
             (mkSecretCatalog ["key-1"; "key-1-extended"] DEFAULT_CREDENTIAL_FIELD_NAMES) in
  guard_output (create_stream_guard f) ["key-1"; "-extended"] = "[REDACTED]-extended"
  /\ redact_secret_values "key-1-extended" (if_secrets f) = "[REDACTED]".
Proof. by vm_compute. Qed.

(** Redacting structured data: no text in the result carries a known secret,
    everything under a credential name is the marker, redacting twice is the same
    as once, and an object keeps its keys in their order. *)
Theorem structured_redaction_complete c v :
  all_apart c ->
  Forall (free_of c) (texts (redact_structured c v))
  /\ Forall (fun x => x = JStr REDACTED) (credentials c (redact_structured c v))
  /\ redact_structured c (redact_structured c v) = redact_structured c v
  /\ forall kvs, v = JObj kvs ->
       exists kvs', redact_structured c v = JObj kvs' /\ map fst kvs' = map fst kvs.
Proof.
  intros Hc. split; [by apply structured_texts|]. split; [apply structured_credentials|].
  split; [by apply structured_idempotent|]. intros kvs ->. apply structured_keys.
Qed.

Lemma structured_redaction_complete_witness :
  let c := mkSecretCatalog ["tok-9"] DEFAULT_CREDENTIAL_FIELD_NAMES in
  let v := JObj [("note", JArr [JStr "use tok-9"; JInt 3]); ("API_Key", JObj [("x", JStr "y")])] in
  all_apart c
  /\ redact_structured c v = JObj [("note", JArr [JStr "use [REDACTED]"; JInt 3]); ("API_Key", JStr "[REDACTED]")]
  /\ Forall (free_of c) (texts (redact_structured c v)).
Proof.
  intros c v. assert (Ha : all_apart c).
  { apply Forall_singleton. right. unfold apart, lacks.
    split; [done|]; split; [by apply (bool_decide_eq_true_1 _)|]; split; [by apply (bool_decide_eq_true_1 _)|done]. }
  split; [exact Ha|]. split; [vm_compute; reflexivity|]. apply (structured_redaction_complete c v Ha).
Defined.
