(* ===== verification/Scrubber.v ===== *)
(** Removing memory-context spans from a stream (app/utils/memory_scrubber.py): the
    scrubber of deltas, against the one-shot regular expression, and the chain of
    scrubber and stream guard that a chat answer goes through
    (app/application/agent_graph.py, [stream_events]).

    The two tag expressions are matched by hand: "<" (and "/"), white space, the
    name in any case, white space, ">".  Each can match in one way only, so
    neither greediness nor backtracking matters.  On code points below 256,
    [lower] and the case-insensitive match agree, and [\s] is [str.isspace]. *)
From S2P Require Import Prelude Text InformationFlow FlowProps.
From Stdlib Require Import Ascii.
Open Scope Z_scope.

(** * Tags *)

Definition TAG_NAME : string := "memory-context".

(** The rest of the text after the name, if what follows "<" or "</" is one. *)
Definition match_name (s : string) : option string :=
  let s := lstrip s in
  if starts_with TAG_NAME (lower s) then
    match lstrip (drop_str 14 s) with
    | String ">" rest => Some rest
    | _ => None
    end
  else None.

(** [_OPEN_TAG_RE.match], [_CLOSE_TAG_RE.match]: the rest behind a tag. *)
Definition match_tag (closing : bool) (s : string) : option string :=
  match s with
  | String "<" s =>
      if closing then match s with String "/" s => match_name s | _ => None end else match_name s
  | _ => None
  end.

(** [search]: what precedes the first tag and what follows it. *)
Fixpoint search (closing : bool) (s : string) : option (string * string) :=
  match match_tag closing s, s with
  | Some rest, _ => Some ("", rest)
  | None, EmptyString => None
  | None, String c s' => (fun p => (String c p.1, p.2)) <$> search closing s'
  end.

(** * The scrubber *)

Record Scrubber := mkScrubber { in_span : bool; buf : string }.
Definition new_scrubber : Scrubber := mkScrubber false "".

Definition partial_name (s : string) : bool :=
  let s := lstrip s in
  if bool_decide (s = "") then true
  else if (String.length s <=? 14)%nat then starts_with s TAG_NAME
  else if negb (starts_with TAG_NAME s) then false
  else match lstrip (drop_str 14 s) with
       | "" => true
       | String c "" => bool_decide (c = ">"%char)
       | _ => false
       end.

Definition is_partial_tag_prefix (fragment : string) (is_closing : bool) : bool :=
  match fragment with
  | String "<" s =>
      if is_closing then
        match s with "" => true | String "/" s => partial_name s | _ => false end
      else match s with String "/" _ => false | _ => partial_name s end
  | _ => false
  end.

(** [_max_partial_suffix], on the lowered text. *)
Fixpoint longest_partial (is_closing : bool) (s : string) : nat :=
  match s with
  | "" => 0
  | String c s' =>
      if bool_decide (c = "<"%char) && is_partial_tag_prefix s is_closing then String.length s
      else longest_partial is_closing s'
  end.
Definition max_partial_suffix (s : string) (is_closing : bool) : nat := longest_partial is_closing (lower s).

(** [buf[-held:] if held else ""] and [buf[:-held] if held else buf] *)
Definition held_part (s : string) (is_closing : bool) : string :=
  drop_str (String.length s - max_partial_suffix s is_closing) s.
Definition visible_part (s : string) (is_closing : bool) : string :=
  take_str (String.length s - max_partial_suffix s is_closing) s.

(** The [while] loop: the state it leaves and the text it collects.  Every turn
    but the last removes a tag, so the length of the buffer is enough fuel. *)
Fixpoint scrub_loop (fuel : nat) (span : bool) (s : string) : Scrubber * string :=
  match fuel with
  | O => (mkScrubber span "", "")
  | S fuel =>
      if bool_decide (s = "") then (mkScrubber span "", "")
      else if span then
        match search true s with
        | None => (mkScrubber true (held_part s true), "")
        | Some (_, rest) => scrub_loop fuel false rest
        end
      else
        match search false s with
        | None => (mkScrubber false (held_part s false), visible_part s false)
        | Some (before, rest) =>
            let '(st, out) := scrub_loop fuel true rest in (st, before +:+ out)
        end
  end.

Definition scrub (span : bool) (s : string) : Scrubber * string := scrub_loop (S (String.length s)) span s.

Definition scrubber_feed (st : Scrubber) (text : string) : Scrubber * string :=
  if bool_decide (text = "") then (st, "") else scrub (in_span st) (buf st +:+ text).

Definition scrubber_flush (st : Scrubber) : Scrubber * string := (mkScrubber false "", "").

(** [scrub_memory_context]: [re.sub] of complete spans, left to right; the span is
    the shortest one from an opening tag. *)
Fixpoint sub_spans (fuel : nat) (s : string) : string :=
  match fuel with
  | O => s
  | S fuel =>
      match search false s with
      | None => s
      | Some (before, rest) =>
          match search true rest with
          | Some (_, rest) => before +:+ sub_spans fuel rest
          | None => s
          end
      end
  end.
Definition scrub_memory_context (s : string) : string := sub_spans (S (String.length s)) s.

(** [content.splitlines(keepends=True)]: a line ends behind its line break, and
    "\r\n" is one break. *)
Definition is_break (c : ascii) : bool :=
  let n := Ascii.nat_of_ascii c in
  ((10 <=? n) && (n <=? 13))%nat || ((28 <=? n) && (n <=? 30))%nat || (n =? 133)%nat.

Fixpoint splitlines (s : string) : list string :=
  match s with
  | "" => []
  | String c s' =>
      let one := String c "" :: splitlines s' in
      if is_break c then
        match s' with
        | String d s'' =>
            if bool_decide (c = "013"%char /\ d = "010"%char)
            then String c (String d "") :: splitlines s''
            else one
        | "" => one
        end
      else match splitlines s' with
           | [] => [String c ""]
           | line :: lines => String c line :: lines
           end
  end.

(** The loop of [_split_content_for_streaming]. *)
Fixpoint split_loop (current : string) (line_len : Z) (lines : list string) : list string :=
  match lines with
  | [] => if bool_decide (current = "") then [] else [current]
  | line :: lines =>
      let current := current +:+ line in
      let line_len := line_len + len line in
      if 20 <=? line_len then current :: split_loop "" 0 lines else split_loop current line_len lines
  end.
Definition split_content_for_streaming (content : string) : list string := split_loop "" 0 (splitlines content).

(** The content deltas of [stream_events]: every chunk through the scrubber and
    then the guard, and both flushed at the end; an empty delta is not sent. *)
Fixpoint deltas_of (st : Scrubber) (g : StreamGuard) (chunks : list string) : list string :=
  match chunks with
  | [] =>
      let '(_, scrubbed_final) := scrubber_flush st in
      let '(g, safe) := if truthy_str scrubbed_final then guard_feed g scrubbed_final else (g, "") in
      let '(_, guard_final) := guard_flush g in
      List.filter truthy_str [safe; guard_final]
  | chunk :: chunks =>
      let '(st, scrubbed) := scrubber_feed st chunk in
      let '(g, safe) := if truthy_str scrubbed then guard_feed g scrubbed else (g, "") in
      List.filter truthy_str [safe] ++ deltas_of st g chunks
  end.
Definition content_deltas (f : InformationFlowService) (content : string) : list string :=
  deltas_of new_scrubber (create_stream_guard f) (split_content_for_streaming content).

(** * White space, case and tags *)

Lemma is_space_lower c : is_space (lower_char c) = is_space c.
Proof. destruct c as [[] [] [] [] [] [] [] []]; reflexivity. Qed.

Lemma lower_app a b : lower (a +:+ b) = lower a +:+ lower b.
Proof. induction a as [|c a IH]; [done|]. str. by rewrite IH. Qed.

Lemma length_lower s : String.length (lower s) = String.length s.
Proof. induction s as [|c s IH]; [done|]. cbn. by rewrite IH. Qed.

Lemma lower_lstrip s : lstrip (lower s) = lower (lstrip s).
Proof. induction s as [|c s IH]; [done|]. cbn. rewrite is_space_lower. by destruct (is_space c). Qed.

Lemma lower_drop n s : drop_str n (lower s) = lower (drop_str n s).
Proof. revert n. induction s as [|c s IH]; intros [|n]; [done..|]. apply IH. Qed.

Lemma lstrip_app_ne a b : lstrip a <> "" -> lstrip (a +:+ b) = lstrip a +:+ b.
Proof. induction a as [|c a IH]; [done|]. str. destruct (is_space c); [exact IH|done]. Qed.

Lemma lstrip_app_nil a b : lstrip a = "" -> lstrip (a +:+ b) = lstrip b.
Proof. induction a as [|c a IH]; [done|]. str. destruct (is_space c); [exact IH|done]. Qed.

Lemma lstrip_suffix s : exists sp, s = sp +:+ lstrip s /\ lstrip sp = "".
Proof.
  induction s as [|c s (sp & Hs & Hsp)]; [by exists ""|]. cbn. destruct (is_space c) eqn:Hc.
  - exists (String c sp). rewrite app_str_cons. rewrite <- Hs. cbn. by rewrite Hc.
  - by exists "".
Qed.

(** The punctuation of tags has no case. *)
Lemma lower_char_inv c d : d ∈ ["<"; "/"; ">"]%char -> lower_char c = d -> c = d.
Proof.
  intros Hd Hc. assert (Hn : forall e, e ∈ ["<"; "/"; ">"]%char -> lower_char c = e -> c = e).
  { clear. intros e He. rewrite !elem_of_cons in He. destruct He as [->|[->|[->|[]%elem_of_nil]]];
      destruct c as [[] [] [] [] [] [] [] []]; vm_compute; congruence. }
  by apply Hn.
Qed.

Lemma drop_str_app n a b : (n <= String.length a)%nat -> drop_str n (a +:+ b) = drop_str n a +:+ b.
Proof. revert n. induction a as [|c a IH]; intros [|n] H; cbn in *; [done|lia|done|]. str. apply IH. lia. Qed.

Lemma match_name_rest s x : lstrip s <> "" -> (14 <= String.length (lstrip s))%nat ->
  match_name (s +:+ x) =
    (if starts_with TAG_NAME (lower (lstrip s)) then
       match lstrip (drop_str 14 (lstrip s) +:+ x) with String ">" rest => Some rest | _ => None end
     else None).
Proof.
  intros Hne Hlen. unfold match_name. rewrite lstrip_app_ne by done. rewrite lower_app, starts_with_app_long.
  - by rewrite drop_str_app.
  - rewrite length_lower. exact Hlen.
Qed.

(** A fragment is partial exactly when some continuation makes it a tag. *)
Lemma partial_name_spec s : partial_name (lower s) = true <-> exists x, match_name (s +:+ x) = Some "".
Proof.
  unfold partial_name. rewrite lower_lstrip, length_lower. set (g := lstrip s).
  destruct (decide (g = "")) as [Hg|Hg].
  { rewrite Hg. split; [intros _|done]. exists (TAG_NAME +:+ ">"). unfold match_name.
    by rewrite lstrip_app_nil. }
  rewrite bool_decide_eq_false_2 by (by destruct g). destruct (String.length g <=? 14)%nat eqn:Hlen.
  - apply Nat.leb_le in Hlen. rewrite starts_with_spec. split.
    + intros [d Hd]. assert (Hld : lower d = d).
      { assert (lower TAG_NAME = lower (lower g) +:+ lower d) as H by (by rewrite <- lower_app, <- Hd).
        change (lower TAG_NAME) with TAG_NAME in H. rewrite Hd in H.
        assert (String.length (lower g) = String.length (lower (lower g))) as He by (by rewrite !length_lower).
        apply app_str_split in H as [(k & Hk & H)|(k & Hk & H)];
          apply (f_equal String.length) in Hk; rewrite length_app_str in Hk; (destruct k; [rewrite app_str_nil in H; congruence|cbn in Hk; lia]). }
      exists (d +:+ ">"). unfold match_name. rewrite lstrip_app_ne by done. fold g.
      rewrite !lower_app, Hld, <- app_str_assoc, <- Hd, starts_with_prefix.
      rewrite <- app_str_assoc, drop_str_app.
      * assert (Hn : String.length (g +:+ d) = 14%nat).
        { rewrite length_app_str, <- (length_lower g), <- length_app_str, <- Hd. done. }
        assert (drop_str 14 (g +:+ d) = "") as ->; [|done].
        pose proof (length_drop_str 14 (g +:+ d)) as Hz.
        rewrite Hn in Hz. by destruct (drop_str 14 (g +:+ d)).
      * rewrite length_app_str, <- (length_lower g), <- length_app_str, <- Hd. done.
    + intros [x Hx]. unfold match_name in Hx. rewrite lstrip_app_ne in Hx by done. fold g in Hx.
      destruct (starts_with TAG_NAME _) eqn:Hs; [|done]. apply starts_with_spec in Hs as [b Hb].
      rewrite lower_app in Hb. apply app_str_split in Hb as [(k & Hk & _)|(k & Hk & _)]; [by exists k|].
      pose proof (f_equal String.length Hk) as Hl. rewrite length_app_str, length_lower in Hl. cbn in Hl.
      destruct k; cbn in Hl; [|lia]. exists "". by rewrite Hk, !app_str_nil_r.
  - apply Nat.leb_gt in Hlen.
    assert (Hm : forall x, match_name (s +:+ x) = _) by (intros x; apply match_name_rest; [exact Hg|fold g; lia]).
    fold g in Hm. destruct (starts_with TAG_NAME (lower g)); cbn [negb].
    2:{ split; [done|]. intros [x Hx]. by rewrite Hm in Hx. }
    rewrite lower_drop, lower_lstrip. destruct (lstrip (drop_str 14 g)) as [|c r] eqn:Hr.
    + split; [intros _|done]. exists ">". rewrite Hm. by rewrite lstrip_app_nil.
    + assert (Hm' : forall x, match_name (s +:+ x) = match String c (r +:+ x) with String ">" rest => Some rest | _ => None end).
      { intros x. rewrite Hm, lstrip_app_ne by (by rewrite Hr). by rewrite Hr, app_str_cons. }
      cbn. destruct r as [|d r]; cbn.
      * rewrite bool_decide_eq_true. split.
        -- intros ->%lower_char_inv; [|set_solver]. exists "". by rewrite Hm'.
        -- intros [x Hx]. rewrite Hm' in Hx. cbn in Hx. repeat case_match; simplify_eq. done.
      * split; [done|]. intros [x Hx]. rewrite Hm' in Hx. str_in Hx. repeat case_match; simplify_eq.
Qed.

Lemma partial_open_ne d s :
  d <> "/"%char -> is_partial_tag_prefix (String "<" (String d s)) false = partial_name (String d s).
Proof. intros Hd. destruct d as [[] [] [] [] [] [] [] []]; done. Qed.

Lemma partial_inv closing c s :
  is_partial_tag_prefix (String c s) closing = true -> c = "<"%char.
Proof. destruct c as [[] [] [] [] [] [] [] []]; done. Qed.

Lemma partial_close_inv d s :
  is_partial_tag_prefix (String "<" (String d s)) true = true -> d = "/"%char.
Proof. destruct d as [[] [] [] [] [] [] [] []]; done. Qed.

Lemma match_tag_inv closing s rest :
  match_tag closing s = Some rest ->
  exists s', match_name s' = Some rest /\ s = String "<" (if closing then String "/" s' else s').
Proof.
  intros H. destruct s as [|c s]; [done|]. assert (c = "<"%char) as ->.
  { destruct c as [[] [] [] [] [] [] [] []]; done. }
  destruct closing; [|by exists s]. destruct s as [|d s]; [done|]. assert (d = "/"%char) as ->.
  { destruct d as [[] [] [] [] [] [] [] []]; done. }
  by exists s.
Qed.

Lemma match_name_slash s rest : match_name (String "/" s) = Some rest -> False.
Proof. done. Qed.

Lemma partial_spec closing f :
  is_partial_tag_prefix (lower f) closing = true <-> f <> "" /\ exists x, match_tag closing (f +:+ x) = Some "".
Proof.
  destruct f as [|c f]; [by split; [|intros []]|]. cbn [lower]. split.
  - intros H. split; [done|]. pose proof (partial_inv _ _ _ H) as Hc. rewrite Hc in H.
    apply lower_char_inv in Hc as ->; [|set_solver]. setoid_rewrite app_str_cons. cbn [match_tag].
    destruct f as [|d f].
    { destruct closing; [by exists (String "/" (TAG_NAME +:+ ">"))|by exists (TAG_NAME +:+ ">")]. }
    cbn [lower] in H. destruct closing.
    + pose proof (partial_close_inv _ _ H) as Hd. rewrite Hd in H. apply lower_char_inv in Hd as ->; [|set_solver].
      setoid_rewrite app_str_cons. by apply partial_name_spec.
    + apply partial_name_spec. destruct (decide (lower_char d = "/"%char)) as [Hd|Hd]; [by rewrite Hd in H|].
      by rewrite partial_open_ne in H.
  - intros (_ & x & Hx). apply match_tag_inv in Hx as (s' & Hn & Hs). rewrite app_str_cons in Hs.
    injection Hs as -> Hs. destruct f as [|d f]; [by destruct closing|]. rewrite app_str_cons in Hs.
    destruct closing.
    + injection Hs as -> <-. apply partial_name_spec. by exists x.
    + cbn [lower]. change (lower_char "<") with "<"%char. subst s'. rewrite partial_open_ne.
      * change (String (lower_char d) (lower f)) with (lower (String d f)). apply partial_name_spec. by exists x.
      * intros ->%lower_char_inv; [by apply match_name_slash in Hn|set_solver].
Qed.

(** * Finding tags *)

Lemma lacks_spaces sp : lstrip sp = "" -> lacks "<"%char sp.
Proof.
  unfold lacks. induction sp as [|c sp IH]; cbn; [set_solver|]. destruct (is_space c) eqn:Hc; [|done].
  intros H. specialize (IH H). rewrite not_elem_of_cons. split; [|done]. by intros <-.
Qed.

Lemma chars_lower s : chars (lower s) = map lower_char (chars s).
Proof. induction s as [|c s IH]; [done|]. cbn. by rewrite IH. Qed.

(** A match, cut off from what follows it. *)
Lemma match_name_tag s rest :
  match_name s = Some rest ->
  exists tag, s = tag +:+ rest /\ lacks "<"%char tag /\ forall y, match_name (tag +:+ y) = Some y.
Proof.
  unfold match_name. destruct (lstrip_suffix s) as (sp & Hs & Hsp). set (g := lstrip s) in *.
  destruct (starts_with TAG_NAME (lower g)) eqn:Hn; [|done].
  destruct (lstrip_suffix (drop_str 14 g)) as (sp2 & Hd & Hsp2).
  destruct (lstrip (drop_str 14 g)) as [|c r] eqn:Hr; [done|].
  destruct (decide (c = ">"%char)) as [->|Hc]; [intros [= ->]|by destruct c as [[] [] [] [] [] [] [] []]].
  pose proof (starts_with_length _ _ Hn) as Hlen. rewrite length_lower in Hlen. cbn in Hlen.
  assert (Hg : g = take_str 14 g +:+ (sp2 +:+ String ">" rest)) by (by rewrite <- Hd, take_drop_str).
  assert (Hlt : String.length (take_str 14 g) = 14%nat).
  { pose proof (f_equal String.length (take_drop_str 14 g)) as H. rewrite length_app_str, length_drop_str in H. lia. }
  set (n := take_str 14 g) in *.
  assert (Hln : lower n = TAG_NAME).
  { rewrite Hg, lower_app, starts_with_app_long in Hn by (rewrite length_lower, Hlt; done).
    apply starts_with_spec in Hn as [b Hb]. pose proof (f_equal String.length Hb) as H.
    rewrite length_app_str, length_lower, Hlt in H. destruct b; [by rewrite app_str_nil_r in Hb|cbn in H; lia]. }
  assert (Hne : lstrip (n +:+ "") <> "").
  { assert (lstrip (lower n) = TAG_NAME) as H by (by rewrite Hln). rewrite lower_lstrip in H.
    rewrite app_str_nil_r. intros H0. by rewrite H0 in H. }
  assert (Hnn : lstrip n = n).
  { destruct n as [|c n]; [done|]. cbn. destruct (is_space c) eqn:Hsc; [|done].
    cbn in Hln. injection Hln as Hcm _. rewrite <- is_space_lower, Hcm in Hsc. done. }
  exists (sp +:+ (n +:+ (sp2 +:+ ">"))). split; [|split].
  - rewrite Hs at 1. rewrite Hg at 1. by rewrite !app_str_assoc.
  - unfold lacks. rewrite !chars_app, !not_elem_of_app. split; [by apply lacks_spaces|]. split.
    + intros Hin. apply (list_elem_of_fmap_2 lower_char) in Hin. change (list_fmap _ _ lower_char (chars n)) with (map lower_char (chars n)) in Hin.
      rewrite <- chars_lower, Hln in Hin. revert Hin. apply (bool_decide_eq_true_1 _). vm_compute. reflexivity.
    + split; [by apply lacks_spaces|]. cbn. rewrite list_elem_of_singleton. done.
  - intros y. rewrite !app_str_assoc. rewrite lstrip_app_nil by done.
    rewrite lstrip_app_ne by (rewrite app_str_nil_r in Hne; done). rewrite Hnn, lower_app, Hln, starts_with_prefix.
    rewrite drop_str_app by lia. replace (drop_str 14 n) with "".
    2:{ pose proof (length_drop_str 14 n) as H. rewrite Hlt in H. by destruct (drop_str 14 n). }
    rewrite app_str_nil, lstrip_app_nil by done. done.
Qed.

Lemma match_tag_cut closing s rest :
  match_tag closing s = Some rest ->
  exists w, s = String "<" (w +:+ rest) /\ lacks "<"%char w
            /\ forall y, match_tag closing (String "<" (w +:+ y)) = Some y.
Proof.
  intros (s' & Hn & ->)%match_tag_inv. apply match_name_tag in Hn as (tag & -> & Hl & Hm). destruct closing.
  - exists (String "/" tag). split; [done|]. split; [|exact Hm].
    unfold lacks in *. cbn. rewrite not_elem_of_cons. done.
  - by exists tag.
Qed.

Lemma match_tag_app closing s rest x :
  match_tag closing s = Some rest -> match_tag closing (s +:+ x) = Some (rest +:+ x).
Proof. intros (w & -> & _ & Hm)%match_tag_cut. rewrite app_str_cons, app_str_assoc. apply Hm. Qed.

Lemma match_tag_shorter closing s rest :
  match_tag closing s = Some rest -> (String.length rest < String.length s)%nat.
Proof. intros (w & -> & _ & _)%match_tag_cut. cbn. rewrite length_app_str. lia. Qed.

(** A tag that appears only with more text: the text so far is a partial tag, whose
    only "<" is its first character. *)
Lemma match_tag_later closing c s x rest :
  match_tag closing (String c s) = None -> match_tag closing (String c s +:+ x) = Some rest ->
  is_partial_tag_prefix (lower (String c s)) closing = true /\ lacks "<"%char s.
Proof.
  intros Hn (w & Hw & Hl & Hm)%match_tag_cut. rewrite app_str_cons in Hw. injection Hw as -> Hw.
  apply app_str_split in Hw as [(k & -> & Hk)|(k & -> & Hk)].
  - split.
    + apply partial_spec. split; [done|]. exists k. rewrite app_str_cons.
      specialize (Hm ""). by rewrite app_str_nil_r in Hm.
    + unfold lacks in *. rewrite chars_app, not_elem_of_app in Hl. apply Hl.
  - by rewrite (Hm k) in Hn.
Qed.

Lemma search_step closing c s :
  match_tag closing (String c s) = None ->
  search closing (String c s) = (fun p => (String c p.1, p.2)) <$> search closing s.
Proof. cbn [search]. by intros ->. Qed.

Lemma search_head closing s rest : match_tag closing s = Some rest -> search closing s = Some ("", rest).
Proof. intros H. destruct s; cbn [search]; by rewrite H. Qed.

Lemma search_has closing s b r : search closing s = Some (b, r) -> "<"%char ∈ chars s.
Proof.
  revert b. induction s as [|c s IH]; intros b; [done|].
  destruct (match_tag closing (String c s)) as [rest|] eqn:Hm.
  - intros _. apply match_tag_cut in Hm as (w & Hw & _). injection Hw as -> _. by left.
  - rewrite search_step by done. destruct (search closing s) as [[b' r']|]; [|done]. intros [= _ <-].
    right. by eapply IH.
Qed.

Lemma search_shorter closing s b r : search closing s = Some (b, r) -> (String.length r < String.length s)%nat.
Proof.
  revert b. induction s as [|c s IH]; intros b; [done|].
  destruct (match_tag closing (String c s)) as [rest|] eqn:Hm.
  - rewrite (search_head _ _ _ Hm). intros [= _ <-]. by eapply match_tag_shorter.
  - rewrite search_step by done. destruct (search closing s) as [[b' r']|]; [|done]. intros [= _ <-].
    specialize (IH b' eq_refl). cbn. lia.
Qed.

(** A tag already found stays the first one when more text arrives. *)
Lemma search_app closing s b r x :
  search closing s = Some (b, r) -> search closing (s +:+ x) = Some (b, r +:+ x).
Proof.
  revert b. induction s as [|c s IH]; intros b; [done|].
  destruct (match_tag closing (String c s)) as [rest|] eqn:Hm.
  - rewrite (search_head _ _ _ Hm). intros [= <- <-]. by apply search_head, match_tag_app.
  - rewrite search_step by done. destruct (search closing s) as [[b' r']|] eqn:Hs; [|done]. intros [= <- <-].
    rewrite app_str_cons, search_step.
    + by rewrite (IH b' eq_refl).
    + destruct (match_tag closing (String c (s +:+ x))) as [rest|] eqn:Hx; [|done].
      rewrite <- app_str_cons in Hx. apply match_tag_later in Hx as (_ & Hl); [|done].
      by apply search_has in Hs.
Qed.

(** * What is held back *)

Lemma longest_partial_le closing s : (longest_partial closing s <= String.length s)%nat.
Proof. induction s as [|c s IH]; [done|]. cbn [longest_partial]. case_match; cbn; lia. Qed.

Lemma max_partial_step closing c s :
  max_partial_suffix (String c s) closing =
    if is_partial_tag_prefix (lower (String c s)) closing then S (String.length s)
    else max_partial_suffix s closing.
Proof.
  unfold max_partial_suffix. cbn [lower longest_partial]. destruct (is_partial_tag_prefix _ _) eqn:Hp.
  - rewrite (partial_inv _ _ _ Hp). cbn. by rewrite length_lower.
  - by rewrite andb_false_r.
Qed.

Lemma max_partial_le closing s : (max_partial_suffix s closing <= String.length s)%nat.
Proof. unfold max_partial_suffix. rewrite <- (length_lower s). apply longest_partial_le. Qed.

Lemma held_step closing c s :
  (held_part (String c s) closing, visible_part (String c s) closing) =
    if is_partial_tag_prefix (lower (String c s)) closing then (String c s, "")
    else (held_part s closing, String c (visible_part s closing)).
Proof.
  unfold held_part, visible_part. rewrite max_partial_step. pose proof (max_partial_le closing s).
  case_match; cbn [String.length].
  - by rewrite Nat.sub_diag.
  - replace (S (String.length s) - max_partial_suffix s closing)%nat
      with (S (String.length s - max_partial_suffix s closing)) by lia. done.
Qed.

Lemma visible_held closing s : visible_part s closing +:+ held_part s closing = s.
Proof. apply take_drop_str. Qed.

Lemma search_none_head closing c s :
  search closing (String c s) = None -> match_tag closing (String c s) = None /\ search closing s = None.
Proof.
  destruct (match_tag closing (String c s)) as [rest|] eqn:Hm; [by rewrite (search_head _ _ _ Hm)|].
  rewrite search_step by done. by destruct (search closing s).
Qed.

(** A character that is not held back begins no tag, now or later, and no partial
    one. *)
Lemma not_held closing c s x :
  match_tag closing (String c s) = None -> is_partial_tag_prefix (lower (String c s)) closing = false ->
  match_tag closing (String c (s +:+ x)) = None
  /\ is_partial_tag_prefix (lower (String c (s +:+ x))) closing = false.
Proof.
  intros Hm Hp. split.
  - destruct (match_tag closing (String c (s +:+ x))) as [rest|] eqn:Hx; [|done].
    rewrite <- app_str_cons in Hx. apply match_tag_later in Hx as [Hx _]; congruence.
  - apply not_true_iff_false. intros [_ [y Hy]]%partial_spec. apply not_true_iff_false in Hp. apply Hp.
    apply partial_spec. split; [done|]. exists (x +:+ y). rewrite <- app_str_cons, app_str_assoc in Hy. done.
Qed.

(** What is not held back plays no part in what follows. *)
Lemma search_beyond closing s x :
  search closing s = None ->
  search closing (s +:+ x) =
    (fun p => (visible_part s closing +:+ p.1, p.2)) <$> search closing (held_part s closing +:+ x).
Proof.
  induction s as [|c s IH]; intros Hn.
  - change (held_part "" closing) with "". change (visible_part "" closing) with "". rewrite app_str_nil.
    by destruct (search closing x) as [[? ?]|].
  - apply search_none_head in Hn as [Hm Hn]. pose proof (held_step closing c s) as Hh.
    destruct (is_partial_tag_prefix (lower (String c s)) closing) eqn:Hp; injection Hh as -> ->.
    + rewrite app_str_cons. by destruct (search closing (String c (s +:+ x))) as [[? ?]|].
    + destruct (not_held closing c s x Hm Hp) as [Hm' _]. rewrite app_str_cons, search_step, IH by done.
      destruct (search closing (held_part s closing +:+ x)) as [[b r]|]; [|done]. cbn. by rewrite app_str_cons.
Qed.

Lemma held_beyond closing s x :
  search closing s = None -> search closing (held_part s closing +:+ x) = None ->
  held_part (s +:+ x) closing = held_part (held_part s closing +:+ x) closing
  /\ visible_part (s +:+ x) closing
     = visible_part s closing +:+ visible_part (held_part s closing +:+ x) closing.
Proof.
  induction s as [|c s IH]; intros Hn Hx; [done|].
  apply search_none_head in Hn as [Hm Hn]. pose proof (held_step closing c s) as Hh.
  destruct (is_partial_tag_prefix (lower (String c s)) closing) eqn:Hp; injection Hh as Hh Hv; rewrite Hh, Hv in *.
  - done.
  - destruct (not_held closing c s x Hm Hp) as [_ Hp']. destruct (IH Hn Hx) as [IHh IHv].
    pose proof (held_step closing c (s +:+ x)) as Hh'. rewrite Hp' in Hh'. injection Hh' as Hh' Hv'.
    rewrite !app_str_cons, Hh', Hv', IHh, IHv. done.
Qed.

(** * The scrubber does not see the chunks *)

Lemma scrub_loop_eq fuel span s :
  (String.length s < fuel)%nat ->
  scrub_loop fuel span s =
    match search span s with
    | None => (mkScrubber span (held_part s span), if span then "" else visible_part s span)
    | Some (b, r) =>
        let '(st, out) := scrub_loop (Nat.pred fuel) (negb span) r in (st, (if span then "" else b) +:+ out)
    end.
Proof.
  destruct fuel as [|fuel]; [lia|]. intros _. cbn [scrub_loop Nat.pred]. case_bool_decide as Hs.
  - subst s. by destruct span.
  - destruct span; [|done]. destruct (search true s) as [[b r]|]; [|done]. cbn [negb].
    by destruct (scrub_loop fuel false r).
Qed.

Lemma scrub_loop_fuel fuel span s :
  (String.length s < fuel)%nat -> scrub_loop fuel span s = scrub span s.
Proof.
  unfold scrub. remember (String.length s) as n eqn:Hn. revert fuel span s Hn.
  induction (lt_wf n) as [n _ IH]. intros fuel span s -> Hf.
  rewrite !scrub_loop_eq by lia. destruct (search span s) as [[b r]|] eqn:Hs; [|done].
  apply search_shorter in Hs. cbn [Nat.pred].
  rewrite (IH (String.length r) Hs (Nat.pred fuel) (negb span) r) by lia.
  by rewrite (IH (String.length r) Hs (String.length s) (negb span) r) by lia.
Qed.

Lemma scrub_eq span s :
  scrub span s =
    match search span s with
    | None => (mkScrubber span (held_part s span), if span then "" else visible_part s span)
    | Some (b, r) => let '(st, out) := scrub (negb span) r in (st, (if span then "" else b) +:+ out)
    end.
Proof.
  unfold scrub at 1. rewrite scrub_loop_eq by lia. destruct (search span s) as [[b r]|] eqn:Hs; [|done].
  cbn [Nat.pred]. rewrite scrub_loop_fuel; [done|]. by eapply search_shorter.
Qed.

(** Scrubbing in two parts. *)
Lemma scrub_app span s x :
  scrub span (s +:+ x) =
    let '(st, out) := scrub span s in
    let '(st', out') := scrub (in_span st) (buf st +:+ x) in (st', out +:+ out').
Proof.
  remember (String.length s) as n eqn:Hn. revert span s Hn. induction (lt_wf n) as [n _ IH]. intros span s ->.
  rewrite (scrub_eq span s). destruct (search span s) as [[b r]|] eqn:Hs.
  - rewrite (scrub_eq span (s +:+ x)), (search_app _ _ _ _ x Hs).
    rewrite (IH (String.length r) (search_shorter _ _ _ _ Hs) (negb span) r eq_refl).
    destruct (scrub (negb span) r) as [st out], (scrub (in_span st) (buf st +:+ x)) as [st' out'].
    by rewrite app_str_assoc.
  - cbn [in_span buf]. rewrite (scrub_eq span (s +:+ x)), (scrub_eq span (held_part s span +:+ x)).
    rewrite (search_beyond _ _ _ Hs). destruct (search span (held_part s span +:+ x)) as [[b r]|] eqn:Hx; simpl.
    + destruct (scrub (negb span) r) as [st out]. destruct span; [done|]. by rewrite app_str_assoc.
    + destruct (held_beyond _ _ _ Hs Hx) as [-> ->]. by destruct span.
Qed.

(** All the feeds of a stream: the state they leave and what they show. *)
Fixpoint feed_all (st : Scrubber) (chunks : list string) : Scrubber * string :=
  match chunks with
  | [] => (st, "")
  | chunk :: chunks =>
      let '(st, out) := scrubber_feed st chunk in
      let '(st, out') := feed_all st chunks in (st, out +:+ out')
  end.

(** The text held back is stable: scrubbing it again holds it back again. *)
Definition settled (st : Scrubber) : Prop := scrub (in_span st) (buf st) = (st, "").

Lemma scrub_settled span s : settled (scrub span s).1.
Proof.
  unfold settled. pose proof (scrub_app span s "") as H. rewrite app_str_nil_r in H.
  destruct (scrub span s) as [st out]. simpl. rewrite app_str_nil_r in H.
  destruct (scrub (in_span st) (buf st)) as [st' out'] eqn:He. injection H as -> H.
  f_equal. pose proof (f_equal String.length H) as Hl. rewrite length_app_str in Hl.
  destruct out'; [done|cbn in Hl; lia].
Qed.

Lemma feed_is_scrub st text : settled st -> scrubber_feed st text = scrub (in_span st) (buf st +:+ text).
Proof.
  unfold scrubber_feed, settled. intros Hst. case_bool_decide as Ht; [|done].
  subst text. by rewrite app_str_nil_r.
Qed.

Lemma feed_all_scrub st chunks :
  settled st -> feed_all st chunks = scrub (in_span st) (buf st +:+ join_str chunks).
Proof.
  revert st. induction chunks as [|chunk chunks IH]; intros st Hst; cbn [feed_all join_str].
  { by rewrite app_str_nil_r, Hst. }
  rewrite feed_is_scrub by done. rewrite <- app_str_assoc, (scrub_app _ (buf st +:+ chunk)).
  pose proof (scrub_settled (in_span st) (buf st +:+ chunk)) as Hs.
  destruct (scrub (in_span st) (buf st +:+ chunk)) as [st' out]. simpl in Hs. by rewrite IH.
Qed.

(** * Against the one-shot expression *)

Lemma sub_spans_eq fuel s :
  (String.length s < fuel)%nat ->
  sub_spans fuel s =
    match search false s with
    | None => s
    | Some (b, r) =>
        match search true r with
        | Some (_, r') => b +:+ sub_spans (Nat.pred fuel) r'
        | None => s
        end
    end.
Proof. by destruct fuel; [lia|]. Qed.

Lemma sub_spans_fuel fuel s : (String.length s < fuel)%nat -> sub_spans fuel s = scrub_memory_context s.
Proof.
  unfold scrub_memory_context. remember (String.length s) as n eqn:Hn. revert fuel s Hn.
  induction (lt_wf n) as [n _ IH]. intros fuel s -> Hf. rewrite !sub_spans_eq by lia.
  destruct (search false s) as [[b r]|] eqn:Hs; [|done]. destruct (search true r) as [[b' r']|] eqn:Hr; [|done].
  apply search_shorter in Hs. apply search_shorter in Hr. cbn [Nat.pred].
  rewrite (IH (String.length r') ltac:(lia) (Nat.pred fuel) r') by lia.
  by rewrite (IH (String.length r') ltac:(lia) (String.length s) r') by lia.
Qed.

Lemma scrub_memory_context_eq s :
  scrub_memory_context s =
    match search false s with
    | None => s
    | Some (b, r) =>
        match search true r with
        | Some (_, r') => b +:+ scrub_memory_context r'
        | None => s
        end
    end.
Proof.
  unfold scrub_memory_context at 1. rewrite sub_spans_eq by lia.
  destruct (search false s) as [[b r]|] eqn:Hs; [|done]. destruct (search true r) as [[b' r']|] eqn:Hr; [|done].
  cbn [Nat.pred]. rewrite sub_spans_fuel; [done|]. apply search_shorter in Hs. apply search_shorter in Hr. lia.
Qed.

Lemma search_parts closing s b r :
  search closing s = Some (b, r) -> exists tail, s = b +:+ tail /\ match_tag closing tail = Some r.
Proof.
  revert b. induction s as [|c s IH]; intros b; [done|].
  destruct (match_tag closing (String c s)) as [rest|] eqn:Hm.
  - rewrite (search_head _ _ _ Hm). intros [= <- <-]. by eexists.
  - rewrite search_step by done. destruct (search closing s) as [[b' r']|]; [|done]. intros [= <- <-].
    destruct (IH b' eq_refl) as (tail & -> & Ht). by exists tail.
Qed.

(** The scrubber shows what the expression leaves, up to a partial tag or an opening
    tag that is never closed. *)
Lemma scrub_one_shot s :
  let '(st, out) := scrub false s in
  exists rest, scrub_memory_context s = out +:+ rest
    /\ if in_span st then is_Some (match_tag false rest) else rest = buf st.
Proof.
  remember (String.length s) as n eqn:Hn. revert s Hn. induction (lt_wf n) as [n _ IH]. intros s ->.
  rewrite scrub_eq, scrub_memory_context_eq. destruct (search false s) as [[b r]|] eqn:Hs.
  - cbn [negb]. rewrite scrub_eq. destruct (search true r) as [[b' r']|] eqn:Hr; cbn [negb].
    + pose proof (search_shorter _ _ _ _ Hs). pose proof (search_shorter _ _ _ _ Hr).
      specialize (IH (String.length r') ltac:(lia) r' eq_refl). destruct (scrub false r') as [st out].
      destruct IH as (rest & -> & Hrest). exists rest. split; [|done]. by rewrite app_str_nil, app_str_assoc.
    + cbn. apply search_parts in Hs as (tail & -> & Ht). exists tail. split; [by rewrite app_str_nil_r|by eexists].
  - cbn. exists (held_part s false). split; [|done]. by rewrite visible_held.
Qed.

(** * The content of an answer *)

(** Lines put back together are the content. *)
Lemma splitlines_cons c s :
  join_str (splitlines s) = s -> (forall d s', s = String d s' -> join_str (splitlines s') = s') ->
  join_str (splitlines (String c s)) = String c s.
Proof.
  intros Hs Hs'. cbn [splitlines]. destruct (is_break c).
  - destruct s as [|d s']; [done|]. case_bool_decide as Hcd.
    + cbn [join_str]. rewrite (Hs' d s' eq_refl). done.
    + cbn [join_str]. rewrite Hs. done.
  - destruct (splitlines s) as [|line lines]; cbn [join_str] in *; [by rewrite <- Hs|].
    by rewrite app_str_cons, Hs.
Qed.

Lemma join_splitlines s : join_str (splitlines s) = s.
Proof.
  remember (String.length s) as n eqn:Hn. revert s Hn. induction (lt_wf n) as [n _ IH]. intros [|c s] ->; [done|].
  apply splitlines_cons.
  - apply (IH (String.length s)); [cbn; lia|done].
  - intros d s' ->. apply (IH (String.length s')); [cbn; lia|done].
Qed.

Lemma join_split_loop current n lines : join_str (split_loop current n lines) = current +:+ join_str lines.
Proof.
  revert current n. induction lines as [|line lines IH]; intros current n; cbn [split_loop join_str].
  - case_bool_decide as Hc; [by subst|]. cbn. done.
  - case_match; cbn [join_str]; rewrite IH; by rewrite ?app_str_nil, ?app_str_assoc.
Qed.

Lemma join_chunks content : join_str (split_content_for_streaming content) = content.
Proof. unfold split_content_for_streaming. rewrite join_split_loop. apply join_splitlines. Qed.

(** Empty pieces are not fed to the guard, and empty ones are not sent. *)
Lemma join_filter l : join_str (List.filter truthy_str l) = join_str l.
Proof.
  induction l as [|s l IH]; [done|]. cbn [List.filter]. destruct (truthy_str s) eqn:Hs; cbn [join_str]; rewrite IH; [done|].
  by destruct s.
Qed.

(** The texts the scrubber shows, feed by feed. *)
Fixpoint shown (st : Scrubber) (chunks : list string) : list string :=
  match chunks with
  | [] => []
  | chunk :: chunks => let '(st, out) := scrubber_feed st chunk in out :: shown st chunks
  end.

Lemma join_shown st chunks : join_str (shown st chunks) = (feed_all st chunks).2.
Proof.
  revert st. induction chunks as [|chunk chunks IH]; intros st; [done|]. cbn [shown feed_all].
  destruct (scrubber_feed st chunk) as [st' out]. cbn [join_str]. rewrite IH. by destruct (feed_all st' chunks).
Qed.

Lemma deltas_are_guarded st g chunks :
  join_str (deltas_of st g chunks) = guard_output g (List.filter truthy_str (shown st chunks)).
Proof.
  revert st g. induction chunks as [|chunk chunks IH]; intros st g; cbn [deltas_of shown].
  - cbn [List.filter]. rewrite guard_output_nil. unfold scrubber_flush, guard_flush.
    change (truthy_str "") with false. cbn [List.filter]. change (truthy_str "") with false. cbn iota beta.
    rewrite (join_truthy (sg_buffer g) []). apply app_str_nil_r.
  - destruct (scrubber_feed st chunk) as [st' out]. cbn [List.filter]. destruct (truthy_str out).
    + rewrite guard_output_cons. destruct (guard_feed g out) as [g' safe].
      rewrite join_str_app, (join_truthy safe []), IH. cbn [join_str fst snd]. by rewrite app_str_nil_r.
    + change (truthy_str "") with false. cbn. apply IH.
Qed.

(** C15. The deltas of an answer, put together, are the answer after its
    memory-context spans are removed and then every occurrence of the provider's
    key is replaced, both in one go: neither a tag nor a secret cut by a chunk
    boundary gets through.  What the scrubber shows is what the one-shot
    expression leaves, up to a trailing partial tag or an opening tag that is
    never closed. *)
Theorem streamed_answer_exact config key content :
  key = "" \/ apart key ->
  let f := from_settings config key in
  let '(st, visible) := scrub false content in
  join_str (content_deltas f content) =
    (if redact_secrets config then redact_secret_values visible (if_secrets f) else visible)
  /\ exists rest, scrub_memory_context content = visible +:+ rest
       /\ if in_span st then is_Some (match_tag false rest) else rest = buf st.
Proof.
  intros Hk f. pose proof (scrub_one_shot content) as Hone. unfold content_deltas.
  pose proof (feed_all_scrub new_scrubber (split_content_for_streaming content) eq_refl) as Hall.
  rewrite join_chunks in Hall. cbn [new_scrubber in_span buf] in Hall. rewrite app_str_nil in Hall.
  rewrite deltas_are_guarded. unfold f. rewrite stream_guard_exact by done. rewrite join_filter, join_shown, Hall.
  destruct (scrub false content) as [st visible]. done.
Qed.

Lemma streamed_answer_exact_witness :
  let config := mkInformationFlowConfig false true true in
  let content := "Key sk-live-42:" +:+ String "010" ("see <memory-context>x</memory-context> sk-live-42 <mem") in
  (("sk-live-42" : string) = "" \/ apart "sk-live-42")
  /\ join_str (content_deltas (from_settings config "sk-live-42") content)
     = "Key [REDACTED]:" +:+ String "010" "see  [REDACTED] ".
Proof.
  intros config content. assert (Ha : ("sk-live-42" : string) = "" \/ apart "sk-live-42").
  { right. unfold apart, lacks.
    split; [done|]; split; [by apply (bool_decide_eq_true_1 _)|]; split; [by apply (bool_decide_eq_true_1 _)|done]. }
  split; [exact Ha|]. pose proof (streamed_answer_exact config "sk-live-42" content Ha) as H.
  destruct (scrub false content) as [st visible] eqn:Hs. destruct H as [H _].
  etransitivity; [exact H|]. vm_compute in Hs. injection Hs as <- <-. vm_compute. reflexivity.
Defined.
