(* ===== verification/Budget.v ===== *)
(** Run budgets: the values and the pure policy (app/domain/budget.py,
    budget_policy.py), the account of a run and the service that keeps the accounts
    (app/application/budget_service.py).

    A Python float is IEEE binary64, as in [SpecFloat]; a Decimal is the rational
    it stands for (sums stay exact within the 28 digits of the default context). *)
From S2P Require Import Prelude.
From stdpp Require Import gmap.
From Stdlib Require Import QArith SpecFloat.
Open Scope Z_scope.

(** * Floats and decimals *)

Definition pyfloat : Type := spec_float.
Definition fadd : pyfloat -> pyfloat -> pyfloat := SFadd 53 1024.
Definition fsub : pyfloat -> pyfloat -> pyfloat := SFsub 53 1024.
Definition fgt (a b : pyfloat) : bool := SFltb b a.
Definition feq (a b : pyfloat) : bool := SFeqb a b.
Definition float_of_int (n : Z) : pyfloat := binary_normalize 53 1024 n 0 false.
Definition fzero : pyfloat := S754_zero false.
Definition qgt (a b : Q) : bool := negb (Qle_bool a b).

(** * Values *)

Module BudgetReserveKind.
Inductive t : Type := LLM_CALL | TOOL_CALL | SANDBOX_RESOURCE | WALL_TIME.
#[global] Instance eq_dec : EqDecision t.
Proof. solve_decision. Defined.
End BudgetReserveKind.

Record BudgetConfig := mkBudgetConfig {
  max_wall_seconds : Z;
  max_llm_calls : Z;
  max_tool_calls : Z;
  max_token_cost : option Z;
  max_usd_cost : option Q;
  max_sandbox_seconds : option pyfloat;
  max_sandbox_cpu_seconds : option pyfloat;
  max_sandbox_memory_mb_seconds : option pyfloat;
  max_sandbox_callback_calls : option Z
}.

Record BudgetState := mkBudgetState {
  llm_calls_reserved : Z;
  tool_calls_reserved : Z;
  elapsed_seconds : pyfloat;
  token_cost_reserved : Z;
  usd_cost_reserved : Q;
  sandbox_seconds_reserved : pyfloat;
  sandbox_cpu_seconds_reserved : pyfloat;
  sandbox_memory_mb_seconds_reserved : pyfloat;
  sandbox_callback_calls_reserved : Z
}.
#[export] Instance rebuild_state : Rebuild BudgetState := fun s =>
  mkBudgetState (llm_calls_reserved s) (tool_calls_reserved s) (elapsed_seconds s) (token_cost_reserved s)
    (usd_cost_reserved s) (sandbox_seconds_reserved s) (sandbox_cpu_seconds_reserved s)
    (sandbox_memory_mb_seconds_reserved s) (sandbox_callback_calls_reserved s).

(** [SandboxReserveSpec] and [SandboxBudgetAllocation], which have the same fields. *)
Record SandboxAmounts := mkSandboxAmounts {
  sb_seconds : pyfloat; sb_cpu_seconds : pyfloat; sb_memory_mb_seconds : pyfloat; sb_callback_calls : Z }.

Record BudgetReserveRequest := mkBudgetReserveRequest {
  rq_kind : BudgetReserveKind.t;
  rq_tokens : Z;
  rq_usd : Q;
  rq_duration : pyfloat;
  rq_sandbox : option SandboxAmounts
}.

(** [dec_id] is the reservation id the account gives an allowed decision. *)
Record BudgetReservationDecision := mkDecision {
  dec_outcome : PolicyOutcome.t;
  dec_reason : string;
  dec_kind : BudgetReserveKind.t;
  dec_tokens : Z;
  dec_usd : Q;
  dec_duration : pyfloat;
  dec_sandbox : option SandboxAmounts;
  dec_id : string;
  dec_remaining_llm_calls : option Z;
  dec_remaining_tool_calls : option Z;
  dec_remaining_token_cost : option Z;
  dec_remaining_usd_cost : option Q
}.
#[export] Instance rebuild_decision : Rebuild BudgetReservationDecision := fun d =>
  mkDecision (dec_outcome d) (dec_reason d) (dec_kind d) (dec_tokens d) (dec_usd d) (dec_duration d)
    (dec_sandbox d) (dec_id d) (dec_remaining_llm_calls d) (dec_remaining_tool_calls d)
    (dec_remaining_token_cost d) (dec_remaining_usd_cost d).

Record BudgetActualUsage := mkBudgetActualUsage {
  us_tokens : option Z; us_usd : option Q; us_duration : option pyfloat; us_callbacks : option Z }.

Record BudgetSettleDecision := mkBudgetSettleDecision {
  st_settled : bool; st_reason : string; st_id : string;
  st_tokens : Z; st_usd : Q; st_duration : pyfloat; st_callbacks : Z }.

Record BudgetReleaseDecision := mkBudgetReleaseDecision {
  rl_released : bool; rl_reason : string; rl_id : string }.

(** A decision with every optional field at its default. *)
Definition decide_as (o : PolicyOutcome.t) (reason : string) (kind : BudgetReserveKind.t) : BudgetReservationDecision :=
  mkDecision o reason kind 0 0%Q fzero None "" None None None None.

(** * The policy *)

Section policy.
Context (cfg : BudgetConfig).

Definition evaluate_llm_call (s : BudgetState) (r : BudgetReserveRequest) : BudgetReservationDecision :=
  let deny reason := decide_as PolicyOutcome.DENY reason BudgetReserveKind.LLM_CALL in
  let calls_left := Some (max_llm_calls cfg - llm_calls_reserved s - 1) in
  if max_llm_calls cfg <? llm_calls_reserved s + 1
  then (deny "llm_calls_exhausted") <| dec_remaining_llm_calls := Some 0 |>
  else
    let tokens := token_cost_reserved s + rq_tokens r in
    if match max_token_cost cfg with Some m => m <? tokens | None => false end
    then (deny "token_cost_exhausted") <| dec_remaining_llm_calls := calls_left |>
           <| dec_remaining_token_cost := (fun m => Z.max (m - token_cost_reserved s) 0) <$> max_token_cost cfg |>
    else
      let tokens_left := (fun m => m - tokens) <$> max_token_cost cfg in
      let usd := (usd_cost_reserved s + rq_usd r)%Q in
      if match max_usd_cost cfg with Some m => qgt usd m | None => false end
      then (deny "usd_cost_exhausted") <| dec_remaining_llm_calls := calls_left |>
             <| dec_remaining_token_cost := tokens_left |>
      else
        mkDecision PolicyOutcome.ALLOW "llm_call_allowed" BudgetReserveKind.LLM_CALL (rq_tokens r) (rq_usd r)
          fzero None "" calls_left None tokens_left ((fun m => (m - usd)%Q) <$> max_usd_cost cfg).

Definition evaluate_tool_call (s : BudgetState) (r : BudgetReserveRequest) : BudgetReservationDecision :=
  if max_tool_calls cfg <? tool_calls_reserved s + 1
  then (decide_as PolicyOutcome.DENY "tool_calls_exhausted" BudgetReserveKind.TOOL_CALL)
         <| dec_remaining_tool_calls := Some 0 |>
  else (decide_as PolicyOutcome.ALLOW "tool_call_allowed" BudgetReserveKind.TOOL_CALL)
         <| dec_remaining_tool_calls := Some (max_tool_calls cfg - tool_calls_reserved s - 1) |>.

Definition evaluate_wall_time (s : BudgetState) (r : BudgetReserveRequest) : BudgetReservationDecision :=
  (if fgt (fadd (elapsed_seconds s) (rq_duration r)) (float_of_int (max_wall_seconds cfg))
   then decide_as PolicyOutcome.DENY "wall_time_exceeded" BudgetReserveKind.WALL_TIME
   else decide_as PolicyOutcome.ALLOW "wall_time_allowed" BudgetReserveKind.WALL_TIME)
  <| dec_duration := rq_duration r |>.

(** A cumulative float limit, if configured, would be passed. *)
Definition over_float (limit : option pyfloat) (reserved amount : pyfloat) : bool :=
  match limit with Some m => fgt (fadd reserved amount) m | None => false end.

Definition evaluate_sandbox (s : BudgetState) (r : BudgetReserveRequest) : BudgetReservationDecision :=
  let deny reason := decide_as PolicyOutcome.DENY reason BudgetReserveKind.SANDBOX_RESOURCE in
  match rq_sandbox r with
  | None => deny "sandbox_spec_missing"
  | Some spec =>
      if over_float (max_sandbox_seconds cfg) (sandbox_seconds_reserved s) (sb_seconds spec)
      then deny "sandbox_seconds_exhausted"
      else if over_float (max_sandbox_cpu_seconds cfg) (sandbox_cpu_seconds_reserved s) (sb_cpu_seconds spec)
      then deny "sandbox_cpu_seconds_exhausted"
      else if over_float (max_sandbox_memory_mb_seconds cfg) (sandbox_memory_mb_seconds_reserved s)
                (sb_memory_mb_seconds spec)
      then deny "sandbox_memory_exhausted"
      else if match max_sandbox_callback_calls cfg with
              | Some m => m <? sandbox_callback_calls_reserved s + sb_callback_calls spec
              | None => false
              end
      then deny "sandbox_callbacks_exhausted"
      else (decide_as PolicyOutcome.ALLOW "sandbox_resource_allowed" BudgetReserveKind.SANDBOX_RESOURCE)
             <| dec_sandbox := Some spec |>
  end.

Definition evaluate_reserve (s : BudgetState) (r : BudgetReserveRequest) : BudgetReservationDecision :=
  match rq_kind r with
  | BudgetReserveKind.LLM_CALL => evaluate_llm_call s r
  | BudgetReserveKind.TOOL_CALL => evaluate_tool_call s r
  | BudgetReserveKind.WALL_TIME => evaluate_wall_time s r
  | BudgetReserveKind.SANDBOX_RESOURCE => evaluate_sandbox s r
  end.
End policy.

Definition evaluate_settle (r : BudgetReservationDecision) (u : BudgetActualUsage) : BudgetSettleDecision :=
  let duration :=
    match us_duration u with
    | Some x => x
    | None =>
        match dec_sandbox r with
        | Some alloc => if feq (dec_duration r) fzero then sb_seconds alloc else dec_duration r
        | None => dec_duration r
        end
    end in
  mkBudgetSettleDecision true "settled" (dec_id r) (default (dec_tokens r) (us_tokens u))
    (default (dec_usd r) (us_usd u)) duration
    (match dec_sandbox r with Some alloc => default (sb_callback_calls alloc) (us_callbacks u) | None => 0 end).

Definition evaluate_release (r : BudgetReservationDecision) : BudgetReleaseDecision :=
  mkBudgetReleaseDecision true "released" (dec_id r).

(** * The account of a run

    Its lock makes every operation one step.  [start_time] is the float it is in
    the code, zero until the first reserve; [mono] is the monotonic clock. *)

Record RunBudgetAccount := mkAccount {
  acc_config : BudgetConfig;
  acc_state : BudgetState;
  acc_pending : list (string * BudgetReservationDecision);
  acc_next_id : Z;
  acc_start_time : pyfloat
}.
#[export] Instance rebuild_account : Rebuild RunBudgetAccount := fun a =>
  mkAccount (acc_config a) (acc_state a) (acc_pending a) (acc_next_id a) (acc_start_time a).

Definition empty_state : BudgetState := mkBudgetState 0 0 fzero 0 0%Q fzero fzero fzero 0.
Definition new_account (cfg : BudgetConfig) : RunBudgetAccount := mkAccount cfg empty_state [] 0 fzero.

(** Dict operations on [_pending]. *)
Definition pending_get (id : string) (l : list (string * BudgetReservationDecision))
    : option BudgetReservationDecision :=
  snd <$> List.find (fun p => bool_decide (p.1 = id)) l.
Definition pending_del (id : string) (l : list (string * BudgetReservationDecision))
    : list (string * BudgetReservationDecision) :=
  List.filter (fun p => negb (bool_decide (p.1 = id))) l.

Definition apply_reserve (s : BudgetState) (d : BudgetReservationDecision) : BudgetState :=
  match dec_kind d with
  | BudgetReserveKind.LLM_CALL =>
      s <| llm_calls_reserved := llm_calls_reserved s + 1 |>
        <| token_cost_reserved := token_cost_reserved s + dec_tokens d |>
        <| usd_cost_reserved := (usd_cost_reserved s + dec_usd d)%Q |>
  | BudgetReserveKind.TOOL_CALL => s <| tool_calls_reserved := tool_calls_reserved s + 1 |>
  | BudgetReserveKind.SANDBOX_RESOURCE =>
      match dec_sandbox d with
      | Some a =>
          s <| sandbox_seconds_reserved := fadd (sandbox_seconds_reserved s) (sb_seconds a) |>
            <| sandbox_cpu_seconds_reserved := fadd (sandbox_cpu_seconds_reserved s) (sb_cpu_seconds a) |>
            <| sandbox_memory_mb_seconds_reserved :=
                 fadd (sandbox_memory_mb_seconds_reserved s) (sb_memory_mb_seconds a) |>
            <| sandbox_callback_calls_reserved := sandbox_callback_calls_reserved s + sb_callback_calls a |>
      | None => s
      end
  | BudgetReserveKind.WALL_TIME => s
  end.

Definition apply_settle (s : BudgetState) (r : BudgetReservationDecision) (u : BudgetActualUsage) : BudgetState :=
  let d := evaluate_settle r u in
  if negb (st_settled d) then s
  else
    match dec_kind r with
    | BudgetReserveKind.LLM_CALL =>
        s <| token_cost_reserved := token_cost_reserved s + (st_tokens d - dec_tokens r) |>
          <| usd_cost_reserved := (usd_cost_reserved s + (st_usd d - dec_usd r))%Q |>
    | BudgetReserveKind.SANDBOX_RESOURCE =>
        match dec_sandbox r with
        | Some a =>
            s <| sandbox_seconds_reserved :=
                   fadd (sandbox_seconds_reserved s) (fsub (st_duration d) (sb_seconds a)) |>
              <| sandbox_callback_calls_reserved :=
                   sandbox_callback_calls_reserved s + (st_callbacks d - sb_callback_calls a) |>
        | None => s
        end
    | _ => s
    end.

Definition apply_release (s : BudgetState) (r : BudgetReservationDecision) : BudgetState :=
  if negb (rl_released (evaluate_release r)) then s
  else
    match dec_kind r with
    | BudgetReserveKind.LLM_CALL =>
        s <| llm_calls_reserved := llm_calls_reserved s - 1 |>
          <| token_cost_reserved := token_cost_reserved s - dec_tokens r |>
          <| usd_cost_reserved := (usd_cost_reserved s - dec_usd r)%Q |>
    | BudgetReserveKind.TOOL_CALL => s <| tool_calls_reserved := tool_calls_reserved s - 1 |>
    | BudgetReserveKind.SANDBOX_RESOURCE =>
        match dec_sandbox r with
        | Some a =>
            s <| sandbox_seconds_reserved := fsub (sandbox_seconds_reserved s) (sb_seconds a) |>
              <| sandbox_cpu_seconds_reserved := fsub (sandbox_cpu_seconds_reserved s) (sb_cpu_seconds a) |>
              <| sandbox_memory_mb_seconds_reserved :=
                   fsub (sandbox_memory_mb_seconds_reserved s) (sb_memory_mb_seconds a) |>
              <| sandbox_callback_calls_reserved := sandbox_callback_calls_reserved s - sb_callback_calls a |>
        | None => s
        end
    | BudgetReserveKind.WALL_TIME => s
    end.

Definition account_reserve (a : RunBudgetAccount) (r : BudgetReserveRequest) (mono : pyfloat)
    : RunBudgetAccount * BudgetReservationDecision :=
  let start := if feq (acc_start_time a) fzero then mono else acc_start_time a in
  let s := if fgt start fzero then (acc_state a) <| elapsed_seconds := fsub mono start |> else acc_state a in
  let a := a <| acc_start_time := start |> <| acc_state := s |> in
  let d := evaluate_reserve (acc_config a) s r in
  if bool_decide (dec_outcome d = PolicyOutcome.ALLOW) then
    let n := acc_next_id a + 1 in
    let d := d <| dec_id := "r-" +:+ pretty n |> in
    (a <| acc_next_id := n |> <| acc_state := apply_reserve s d |>
       <| acc_pending := acc_pending a ++ [(dec_id d, d)] |>, d)
  else (a, d).

Definition account_settle (a : RunBudgetAccount) (r : BudgetReservationDecision) (u : BudgetActualUsage)
    : RunBudgetAccount :=
  match pending_get (dec_id r) (acc_pending a) with
  | None => a
  | Some _ => a <| acc_state := apply_settle (acc_state a) r u |>
                <| acc_pending := pending_del (dec_id r) (acc_pending a) |>
  end.

Definition account_release (a : RunBudgetAccount) (r : BudgetReservationDecision) : RunBudgetAccount :=
  match pending_get (dec_id r) (acc_pending a) with
  | None => a
  | Some _ => a <| acc_state := apply_release (acc_state a) r |>
                <| acc_pending := pending_del (dec_id r) (acc_pending a) |>
  end.

Definition account_close (a : RunBudgetAccount) : RunBudgetAccount :=
  a <| acc_state := foldl apply_release (acc_state a) (map snd (acc_pending a)) |> <| acc_pending := [] |>.

(** * The service: an account per run; audit and telemetry, whose failures are
    swallowed, are left out. *)

Record BudgetService := mkBudgetService {
  svc_config : BudgetConfig; svc_accounts : gmap string RunBudgetAccount }.
#[export] Instance rebuild_budget_service : Rebuild BudgetService := fun s =>
  mkBudgetService (svc_config s) (svc_accounts s).

Definition get_or_create_account (s : BudgetService) (run_id : string) : RunBudgetAccount :=
  default (new_account (svc_config s)) (svc_accounts s !! run_id).

Definition open_account (s : BudgetService) (run_id : string) (config : option BudgetConfig) : BudgetService :=
  match svc_accounts s !! run_id with
  | Some _ => s
  | None => s <| svc_accounts := <[run_id := new_account (default (svc_config s) config)]> (svc_accounts s) |>
  end.

Definition reserve (s : BudgetService) (run_id : string) (r : BudgetReserveRequest) (mono : pyfloat)
    : BudgetService * BudgetReservationDecision :=
  let '(a, d) := account_reserve (get_or_create_account s run_id) r mono in
  (s <| svc_accounts := <[run_id := a]> (svc_accounts s) |>, d).

Definition settle (s : BudgetService) (run_id : string) (r : BudgetReservationDecision) (u : BudgetActualUsage)
    : BudgetService :=
  match svc_accounts s !! run_id with
  | None => s
  | Some a => s <| svc_accounts := <[run_id := account_settle a r u]> (svc_accounts s) |>
  end.

Definition release (s : BudgetService) (run_id : string) (r : BudgetReservationDecision) : BudgetService :=
  match svc_accounts s !! run_id with
  | None => s
  | Some a => s <| svc_accounts := <[run_id := account_release a r]> (svc_accounts s) |>
  end.

(** [close]: the account leaves the dict, then its reservations are undone. *)
Definition close (s : BudgetService) (run_id : string) : BudgetService * option RunBudgetAccount :=
  match svc_accounts s !! run_id with
  | None => (s, None)
  | Some a => (s <| svc_accounts := delete run_id (svc_accounts s) |>, Some (account_close a))
  end.

Definition get_state (s : BudgetService) (run_id : string) : option BudgetState :=
  acc_state <$> svc_accounts s !! run_id.
