(* ===== verification/BudgetProps.v ===== *)
(** The account of a run under its clients: no counter is over- or understated.

    A client reserves, and settles or releases what it was given, in any order
    and any number of times; the run may be closed at any point.  Each counter is
    the total of the settled calls plus that of the open reservations. *)
From S2P Require Import Prelude Budget.
From stdpp Require Import gmap.
From Stdlib Require Import QArith SpecFloat.
Open Scope Z_scope.

(** * Clients of an account *)

(** [Settle i] and [Release i] pass the [i]-th decision [reserve] has returned. *)
Inductive account_op : Type :=
  | Reserve (r : BudgetReserveRequest) (mono : pyfloat)
  | Settle (i : nat) (u : BudgetActualUsage)
  | Release (i : nat)
  | Close.

(** The account, every decision returned so far, and the calls settled. *)
Record account_use := mkUse {
  the_account : RunBudgetAccount;
  issued : list BudgetReservationDecision;
  settled : list (BudgetReservationDecision * BudgetActualUsage)
}.

Definition still_open (a : RunBudgetAccount) (d : BudgetReservationDecision) : bool :=
  bool_decide (is_Some (pending_get (dec_id d) (acc_pending a))).

Definition account_step (w : account_use) (op : account_op) : account_use :=
  let a := the_account w in
  match op with
  | Reserve r mono =>
      let '(a', d) := account_reserve a r mono in mkUse a' (issued w ++ [d]) (settled w)
  | Settle i u =>
      match issued w !! i with
      | Some d => mkUse (account_settle a d u) (issued w)
                    (settled w ++ if still_open a d then [(d, u)] else [])
      | None => w
      end
  | Release i =>
      match issued w !! i with
      | Some d => mkUse (account_release a d) (issued w) (settled w)
      | None => w
      end
  | Close => mkUse (account_close a) (issued w) (settled w)
  end.

Definition account_run (cfg : BudgetConfig) (ops : list account_op) : account_use :=
  foldl account_step (mkUse (new_account cfg) [] []) ops.

(** * What a reservation holds and what a settled call costs *)

Definition is_llm (d : BudgetReservationDecision) : Z :=
  if bool_decide (dec_kind d = BudgetReserveKind.LLM_CALL) then 1 else 0.
Definition is_tool (d : BudgetReservationDecision) : Z :=
  if bool_decide (dec_kind d = BudgetReserveKind.TOOL_CALL) then 1 else 0.
Definition held_tokens (d : BudgetReservationDecision) : Z := is_llm d * dec_tokens d.
Definition held_usd (d : BudgetReservationDecision) : Q := inject_Z (is_llm d) * dec_usd d.
Definition held_callbacks (d : BudgetReservationDecision) : Z :=
  match dec_kind d, dec_sandbox d with
  | BudgetReserveKind.SANDBOX_RESOURCE, Some a => sb_callback_calls a
  | _, _ => 0
  end.

(** An unknown usage is charged at its estimate. *)
Definition used_tokens (x : BudgetReservationDecision * BudgetActualUsage) : Z :=
  is_llm x.1 * default (dec_tokens x.1) (us_tokens x.2).
Definition used_usd (x : BudgetReservationDecision * BudgetActualUsage) : Q :=
  inject_Z (is_llm x.1) * default (dec_usd x.1) (us_usd x.2).
Definition used_callbacks (x : BudgetReservationDecision * BudgetActualUsage) : Z :=
  match dec_kind x.1, dec_sandbox x.1 with
  | BudgetReserveKind.SANDBOX_RESOURCE, Some a => default (sb_callback_calls a) (us_callbacks x.2)
  | _, _ => 0
  end.

Definition sumZ {A} (f : A -> Z) (l : list A) : Z := foldr (fun x n => f x + n) 0 l.
Definition sumQ {A} (f : A -> Q) (l : list A) : Q := foldr (fun x n => (f x + n)%Q) 0%Q l.
Definition held {A} (f : BudgetReservationDecision -> A) : string * BudgetReservationDecision -> A :=
  fun p => f p.2.

(** * Sums *)

Lemma sumZ_app {A} (f : A -> Z) l l' : sumZ f (l ++ l') = sumZ f l + sumZ f l'.
Proof. induction l as [|x l IH]; simpl; lia. Qed.

Lemma sumQ_app {A} (f : A -> Q) l l' : (sumQ f (l ++ l') == sumQ f l + sumQ f l')%Q.
Proof. induction l as [|x l IH]; simpl; [ring|]. rewrite IH. ring. Qed.

Lemma sumQ_inject {A} (f : A -> Z) l : (sumQ (fun x => inject_Z (f x)) l == inject_Z (sumZ f l))%Q.
Proof. induction l as [|x l IH]; simpl; [reflexivity|]. by rewrite IH, inject_Z_plus. Qed.

Lemma inject_Z_eq a b : (inject_Z a == inject_Z b)%Q -> a = b.
Proof. unfold Qeq. simpl. lia. Qed.

(** * The pending reservations *)

Definition pending_ids (a : RunBudgetAccount) : list string := map fst (acc_pending a).

Lemma pending_get_split id d l :
  NoDup (map fst l) -> pending_get id l = Some d ->
  exists l1 l2, l = l1 ++ (id, d) :: l2 /\ pending_del id l = l1 ++ l2.
Proof.
  unfold pending_get. induction l as [|[k e] l IH]; simpl; [done|].
  intros [Hk Hn]%NoDup_cons. case_bool_decide as Hid; simpl.
  - intros [= ->]. subst k. exists [], l. split; [done|]. simpl.
    apply List_filter_all, Forall_forall. intros [k' e'] Hin. simpl.
    rewrite bool_decide_eq_false_2; [done|]. intros ->. apply Hk.
    by apply (list_elem_of_fmap_2 fst) in Hin.
  - intros Hf. destruct (IH Hn Hf) as (l1 & l2 & -> & Hd).
    exists ((k, e) :: l1), l2. split; [done|]. simpl. f_equal. exact Hd.
Qed.

Lemma pending_get_fst id d l : pending_get id l = Some d -> (id, d) ∈ l.
Proof.
  unfold pending_get. induction l as [|[k e] l IH]; simpl; [done|].
  case_bool_decide as Hid; simpl in *.
  - intros [= ->]. subst. left.
  - intros H. right. auto.
Qed.

(** * The ids [reserve] gives *)

Definition id_below (n : Z) (id : string) : Prop :=
  id = "" \/ exists k, k <= n /\ id = "r-" +:+ pretty k.

Lemma id_below_mono n n' id : n <= n' -> id_below n id -> id_below n' id.
Proof. intros Hn [->|(k & Hk & ->)]; [by left|right; exists k; split; [lia|done]]. Qed.

Lemma id_next_fresh n id : id_below n id -> id <> "r-" +:+ pretty (n + 1).
Proof.
  intros [->|(k & Hk & ->)]; [done|]. intros He%(inj (String.app "r-"))%(inj pretty). lia.
Qed.

(** The policy leaves the id to the account. *)
Lemma policy_sets_no_id cfg s r : dec_id (evaluate_reserve cfg s r) = "".
Proof.
  unfold evaluate_reserve, evaluate_llm_call, evaluate_tool_call, evaluate_wall_time, evaluate_sandbox.
  repeat case_match; done.
Qed.

(** * The invariant of the reservations *)

Record use_ok (w : account_use) : Prop := mkUseOk {
  ids_given : Forall (fun d => id_below (acc_next_id (the_account w)) (dec_id d)) (issued w);
  open_issued : Forall (fun p => p.2 ∈ issued w /\ p.1 = dec_id p.2 /\ p.1 <> "") (acc_pending (the_account w));
  open_unique : forall d p, d ∈ issued w -> p ∈ acc_pending (the_account w) -> dec_id d = p.1 -> d = p.2;
  settled_issued : Forall (fun x => x.1 ∈ issued w) (settled w);
  charged_once : NoDup (pending_ids (the_account w) ++ map (fun x => dec_id x.1) (settled w))
}.

(** How one step changes the account: by the reservation it opens, settles or
    releases, or only by the time it notes. *)
Inductive account_change (w w' : account_use) : Prop :=
  | only_time e :
      acc_state (the_account w') = (acc_state (the_account w)) <| elapsed_seconds := e |> ->
      acc_pending (the_account w') = acc_pending (the_account w) -> settled w' = settled w ->
      account_change w w'
  | opens e r id d :
      let v := evaluate_reserve (acc_config (the_account w)) ((acc_state (the_account w)) <| elapsed_seconds := e |>) r in
      dec_outcome v = PolicyOutcome.ALLOW -> d = v <| dec_id := id |> ->
      acc_state (the_account w') = apply_reserve ((acc_state (the_account w)) <| elapsed_seconds := e |>) d ->
      acc_pending (the_account w') = acc_pending (the_account w) ++ [(dec_id d, d)] ->
      settled w' = settled w -> account_change w w'
  | settles l1 d l2 u :
      acc_pending (the_account w) = l1 ++ (dec_id d, d) :: l2 ->
      acc_pending (the_account w') = l1 ++ l2 -> settled w' = settled w ++ [(d, u)] ->
      acc_state (the_account w') = apply_settle (acc_state (the_account w)) d u -> account_change w w'
  | releases l1 d l2 :
      acc_pending (the_account w) = l1 ++ (dec_id d, d) :: l2 ->
      acc_pending (the_account w') = l1 ++ l2 -> settled w' = settled w ->
      acc_state (the_account w') = apply_release (acc_state (the_account w)) d -> account_change w w'
  | closes :
      acc_pending (the_account w') = [] -> settled w' = settled w ->
      acc_state (the_account w') = foldl apply_release (acc_state (the_account w))
                                     (map snd (acc_pending (the_account w))) -> account_change w w'.

(** The reservation a client passes is the one the account has under its id. *)
Lemma open_is_issued w d :
  use_ok w -> d ∈ issued w -> still_open (the_account w) d = true ->
  exists l1 l2, acc_pending (the_account w) = l1 ++ (dec_id d, d) :: l2
    /\ pending_del (dec_id d) (acc_pending (the_account w)) = l1 ++ l2
    /\ pending_get (dec_id d) (acc_pending (the_account w)) = Some d.
Proof.
  intros Hok Hd [d' Hg]%bool_decide_eq_true_1.
  pose proof (open_unique w Hok d _ Hd (pending_get_fst _ _ _ Hg) eq_refl) as He. simpl in He. subst d'.
  pose proof (charged_once w Hok) as (Hnd & _ & _)%NoDup_app.
  destruct (pending_get_split _ _ _ Hnd Hg) as (l1 & l2 & ? & ?). eauto.
Qed.

Lemma closed_no_change a d :
  still_open a d = false -> (forall u, account_settle a d u = a) /\ account_release a d = a.
Proof.
  unfold still_open, account_settle, account_release.
  destruct (pending_get _ _); [|done]. by rewrite bool_decide_eq_true_2 by eauto.
Qed.

Lemma same_state s : s = s <| elapsed_seconds := elapsed_seconds s |>.
Proof. by destruct s. Qed.

(** The seconds a reserve notes: from the first reserve with a clock above zero. *)
Definition clocked (a : RunBudgetAccount) (mono : pyfloat) : pyfloat :=
  let start := if feq (acc_start_time a) fzero then mono else acc_start_time a in
  if fgt start fzero then fsub mono start else elapsed_seconds (acc_state a).

(** What a reserve does to the account. *)
Lemma reserve_cases a r mono a' d :
  account_reserve a r mono = (a', d) ->
  acc_config a' = acc_config a /\
  let s := (acc_state a) <| elapsed_seconds := clocked a mono |> in
  let v := evaluate_reserve (acc_config a) s r in
  if bool_decide (dec_outcome v = PolicyOutcome.ALLOW)
  then d = v <| dec_id := "r-" +:+ pretty (acc_next_id a + 1) |> /\ acc_state a' = apply_reserve s d
       /\ acc_pending a' = acc_pending a ++ [(dec_id d, d)] /\ acc_next_id a' = acc_next_id a + 1
  else d = v /\ acc_state a' = s /\ acc_pending a' = acc_pending a /\ acc_next_id a' = acc_next_id a.
Proof.
  unfold account_reserve. set (start := if feq _ _ then _ else _). set (s := if fgt _ _ then _ else _).
  assert (Hs : s = (acc_state a) <| elapsed_seconds := clocked a mono |>).
  { unfold s, clocked. fold start. case_match; [done|apply same_state]. }
  clearbody s. cbn zeta. intros H. split; [by case_match; simplify_eq|].
  rewrite <- Hs. simpl in *. case_bool_decide; simplify_eq; done.
Qed.

(** A reservation that leaves the pending ones, charged or not. *)
Lemma use_ok_remove w w' l1 d l2 charge :
  use_ok w -> acc_pending (the_account w) = l1 ++ (dec_id d, d) :: l2 ->
  acc_pending (the_account w') = l1 ++ l2 -> acc_next_id (the_account w') = acc_next_id (the_account w) ->
  issued w' = issued w -> settled w' = settled w ++ charge ->
  (charge = [] \/ exists u, charge = [(d, u)]) -> use_ok w'.
Proof.
  intros [Hids Hopen Huniq Hset Honce] Hp Hp' Hn Hi Hs Hc.
  rewrite Hp in Hopen, Huniq. unfold pending_ids in Honce. rewrite Hp in Honce.
  assert (Hsub : l1 ++ l2 ⊆ l1 ++ (dec_id d, d) :: l2) by set_solver.
  assert (Hd : d ∈ issued w).
  { rewrite Forall_forall in Hopen. apply (Hopen (dec_id d, d)). set_solver. }
  constructor; rewrite ?Hi, ?Hn, ?Hp', ?Hs; [done| | | |].
  - rewrite Forall_forall in Hopen |- *. auto.
  - intros e p He Hin. apply Huniq; auto.
  - apply Forall_app. split; [done|]. destruct Hc as [->|[u ->]]; repeat constructor; done.
  - unfold pending_ids. rewrite Hp'. rewrite !map_app in *. simpl in Honce.
    assert (Hperm : dec_id d :: ((map fst l1 ++ map fst l2) ++ map (fun x => dec_id x.1) (settled w))
            ≡ₚ (map fst l1 ++ dec_id d :: map fst l2) ++ map (fun x => dec_id x.1) (settled w)) by solve_Permutation.
    rewrite <- Hperm in Honce.
    destruct Hc as [->|[u ->]]; simpl; [rewrite app_nil_r; by apply NoDup_cons in Honce as [_ ?]|].
    eapply NoDup_Permutation_proper; [|exact Honce]. solve_Permutation.
Qed.

Lemma use_ok_reserve w r mono a d :
  use_ok w -> account_reserve (the_account w) r mono = (a, d) -> use_ok (mkUse a (issued w ++ [d]) (settled w)).
Proof.
  intros Hok (_ & Hr)%reserve_cases. cbn zeta in Hr. destruct Hok as [Hids Hopen Huniq Hset Honce].
  case_bool_decide as Ho.
  - destruct Hr as (Hd & _ & Hp & Hn). assert (Hid : dec_id d = "r-" +:+ pretty (acc_next_id (the_account w) + 1)).
    { by rewrite Hd. }
    assert (Hfresh : forall d', d' ∈ issued w -> dec_id d' <> dec_id d).
    { intros d' Hin. rewrite Forall_forall in Hids. rewrite Hid. apply id_next_fresh. by apply Hids. }
    assert (Hpin : forall p, p ∈ acc_pending (the_account w) -> p.1 <> dec_id d).
    { intros p Hin. rewrite Forall_forall in Hopen. destruct (Hopen p Hin) as (Hi & -> & _). auto. }
    constructor; simpl; rewrite ?Hp, ?Hn.
    + apply Forall_app. split; [|apply Forall_singleton; right; eexists; split; [|exact Hid]; lia].
      eapply Forall_impl; [exact Hids|]. intros d' Hd'. eapply id_below_mono; [|exact Hd']. lia.
    + apply Forall_app. split; [|apply Forall_singleton; simpl; split; [set_solver|by rewrite Hid]].
      eapply Forall_impl; [exact Hopen|]. intros p (Hi & Hrest). split; [set_solver|done].
    + intros d' p Hd' [Hin|Hin]%elem_of_app He; [|apply list_elem_of_singleton in Hin as ->].
      * apply elem_of_app in Hd' as [Hd'|Hd']; [auto|apply list_elem_of_singleton in Hd' as ->]. by destruct (Hpin p Hin).
      * simpl in *. apply elem_of_app in Hd' as [Hd'|Hd']; [|by apply list_elem_of_singleton in Hd' as ->]. by destruct (Hfresh d' Hd').
    + eapply Forall_impl; [exact Hset|]. set_solver.
    + unfold pending_ids in *. simpl. rewrite Hp, map_app. simpl.
      eapply NoDup_Permutation_proper; [|apply NoDup_cons; split; [|exact Honce]].
      { instantiate (1 := dec_id d). solve_Permutation. }
      intros [(p & Hpe & Hin)%list_elem_of_fmap|(x & Hxe & Hin)%list_elem_of_fmap]%elem_of_app.
      * by destruct (Hpin p Hin).
      * rewrite Forall_forall in Hset. by destruct (Hfresh x.1 (Hset x Hin)).
  - destruct Hr as (Hd & _ & Hp & Hn). assert (Hid : dec_id d = "") by (rewrite Hd; apply policy_sets_no_id).
    constructor; simpl; unfold pending_ids; simpl; rewrite ?Hp, ?Hn.
    + apply Forall_app. split; [done|]. apply Forall_singleton. by left.
    + eapply Forall_impl; [exact Hopen|]. intros p (Hi & Hrest). split; [set_solver|done].
    + intros d' p [Hd'|Hd']%elem_of_app Hin He; [auto|apply list_elem_of_singleton in Hd' as ->].
      rewrite Forall_forall in Hopen. destruct (Hopen p Hin) as (_ & _ & Hne). by rewrite <- He, Hid in Hne.
    + eapply Forall_impl; [exact Hset|]. set_solver.
    + done.
Qed.

Lemma use_ok_close w : use_ok w -> use_ok (mkUse (account_close (the_account w)) (issued w) (settled w)).
Proof.
  intros [Hids Hopen Huniq Hset Honce]. constructor; simpl; [done|constructor| |done|].
  - intros d p _ Hin. by apply elem_of_nil in Hin.
  - by apply NoDup_app in Honce as (_ & _ & ?).
Qed.

(** Every step keeps the invariant and is one of the changes above. *)
Lemma account_step_ok w op :
  use_ok w -> use_ok (account_step w op) /\ account_change w (account_step w op)
              /\ acc_config (the_account (account_step w op)) = acc_config (the_account w).
Proof.
  intros Hok. assert (Hstay : account_change w w) by (eapply only_time; [apply same_state|done..]).
  destruct op as [r mono|i u|i|]; simpl.
  - destruct (account_reserve _ _ _) as [a d] eqn:Hr. split; [by eapply use_ok_reserve|].
    apply reserve_cases in Hr as (Hcfg & Hr). split; [|done]. cbn zeta in Hr. case_bool_decide as Ho.
    + destruct Hr as (Hd & Hs & Hp & _). by eapply (opens _ _ _ r _ d).
    + destruct Hr as (Hd & Hs & Hp & _). by eapply only_time.
  - destruct (issued w !! i) as [d|] eqn:Hi; [|done]. apply list_elem_of_lookup_2 in Hi.
    destruct (still_open _ _) eqn:Hopen.
    + destruct (open_is_issued w d Hok Hi Hopen) as (l1 & l2 & Hp & Hdel & Hg).
      unfold account_settle. rewrite Hg. split; [eapply (use_ok_remove w _ l1 d l2); simpl; eauto|].
      split; [|done]. by eapply (settles _ _ l1 d l2 u).
    + rewrite (proj1 (closed_no_change _ _ Hopen)), app_nil_r. by destruct w.
  - destruct (issued w !! i) as [d|] eqn:Hi; [|done]. apply list_elem_of_lookup_2 in Hi.
    destruct (still_open (the_account w) d) eqn:Hopen.
    + destruct (open_is_issued w d Hok Hi Hopen) as (l1 & l2 & Hp & Hdel & Hg).
      unfold account_release. rewrite Hg. split.
      { eapply (use_ok_remove w _ l1 d l2 []); simpl; rewrite ?app_nil_r; eauto. }
      split; [|done]. by eapply (releases _ _ l1 d l2).
    + rewrite (proj2 (closed_no_change _ _ Hopen)). by destruct w.
  - split; [by apply use_ok_close|]. split; [|done]. by apply closes.
Qed.

(** * Meters: counters that reservations and settled calls add up to *)

Record meter (read : BudgetState -> Q) (hold : BudgetReservationDecision -> Q)
    (cost : BudgetReservationDecision * BudgetActualUsage -> Q) : Prop := mkMeter {
  read_time : forall s e, (read (s <| elapsed_seconds := e |>) == read s)%Q;
  read_reserve : forall s d, (read (apply_reserve s d) == read s + hold d)%Q;
  read_settle : forall s d u, (read (apply_settle s d u) == read s + cost (d, u) - hold d)%Q;
  read_release : forall s d, (read (apply_release s d) == read s - hold d)%Q
}.

Section meter.
Context {read hold cost} (M : meter read hold cost).

Lemma read_close l s : (read (foldl apply_release s (map snd l)) == read s - sumQ (held hold) l)%Q.
Proof.
  revert s. induction l as [|p l IH]; intros s; simpl; [ring|].
  rewrite IH, (read_release _ _ _ M). unfold held. ring.
Qed.

Lemma meter_step w w' :
  account_change w w' ->
  (read (acc_state (the_account w)) == sumQ cost (settled w) + sumQ (held hold) (acc_pending (the_account w)))%Q ->
  (read (acc_state (the_account w')) == sumQ cost (settled w') + sumQ (held hold) (acc_pending (the_account w')))%Q.
Proof.
  intros [e Hs Hp Hd|e r id d v _ _ Hs Hp Hd|l1 d l2 u Hp Hp' Hd Hs|l1 d l2 Hp Hp' Hd Hs|Hp Hd Hs] H;
    rewrite Hs, Hd, ?Hp', ?Hp; rewrite ?Hp in H; rewrite ?sumQ_app in *; simpl in *; unfold held in *; simpl in *.
  - by rewrite (read_time _ _ _ M).
  - rewrite (read_reserve _ _ _ M), (read_time _ _ _ M), H. ring.
  - rewrite (read_settle _ _ _ M), H. ring.
  - rewrite (read_release _ _ _ M), H. ring.
  - rewrite read_close, H. unfold held. ring.
Qed.
End meter.

Ltac solve_meter :=
  unfold apply_reserve, apply_settle, apply_release, evaluate_settle, held_tokens, held_usd, used_tokens, used_usd,
    held_callbacks, used_callbacks, is_llm, is_tool; simpl; intros; repeat case_match; simplify_eq/=;
  rewrite ?inject_Z_plus, ?inject_Z_mult, ?inject_Z_opp; unfold Z.sub;
  rewrite ?inject_Z_plus, ?inject_Z_mult, ?inject_Z_opp; ring.

Lemma llm_meter : meter (fun s => inject_Z (llm_calls_reserved s)) (fun d => inject_Z (is_llm d)) (fun x => inject_Z (is_llm x.1)).
Proof. split; solve_meter. Qed.

Lemma tool_meter : meter (fun s => inject_Z (tool_calls_reserved s)) (fun d => inject_Z (is_tool d)) (fun x => inject_Z (is_tool x.1)).
Proof. split; solve_meter. Qed.

Lemma token_meter : meter (fun s => inject_Z (token_cost_reserved s)) (fun d => inject_Z (held_tokens d)) (fun x => inject_Z (used_tokens x)).
Proof. split; solve_meter. Qed.

Lemma usd_meter : meter usd_cost_reserved held_usd used_usd.
Proof. split; solve_meter. Qed.

Lemma callback_meter : meter (fun s => inject_Z (sandbox_callback_calls_reserved s)) (fun d => inject_Z (held_callbacks d)) (fun x => inject_Z (used_callbacks x)).
Proof. split; solve_meter. Qed.

(** * Limits *)

Definition calls_within (cfg : BudgetConfig) (s : BudgetState) : Prop :=
  llm_calls_reserved s <= Z.max 0 (max_llm_calls cfg) /\ tool_calls_reserved s <= Z.max 0 (max_tool_calls cfg).

Definition at_most {A} (gt : A -> A -> bool) (limit : option A) (x : A) : Prop :=
  match limit with Some m => gt x m = false | None => True end.

(** What a request asks for, as the decision that grants it all. *)
Definition asked (r : BudgetReserveRequest) : BudgetReservationDecision :=
  mkDecision PolicyOutcome.ALLOW "" (rq_kind r) (rq_tokens r) (rq_usd r) (rq_duration r) (rq_sandbox r) ""
    None None None None.

(** The limits of its kind hold once the decision [d] is entered in [s]; wall time, which
    nothing adds up, is what has passed and what is asked for. *)
Definition kind_within (cfg : BudgetConfig) (d : BudgetReservationDecision) (s : BudgetState) : Prop :=
  match dec_kind d with
  | BudgetReserveKind.LLM_CALL =>
      llm_calls_reserved s <= max_llm_calls cfg /\ at_most Z.gtb (max_token_cost cfg) (token_cost_reserved s)
      /\ at_most qgt (max_usd_cost cfg) (usd_cost_reserved s)
  | BudgetReserveKind.TOOL_CALL => tool_calls_reserved s <= max_tool_calls cfg
  | BudgetReserveKind.WALL_TIME =>
      fgt (fadd (elapsed_seconds s) (dec_duration d)) (float_of_int (max_wall_seconds cfg)) = false
  | BudgetReserveKind.SANDBOX_RESOURCE =>
      at_most fgt (max_sandbox_seconds cfg) (sandbox_seconds_reserved s)
      /\ at_most fgt (max_sandbox_cpu_seconds cfg) (sandbox_cpu_seconds_reserved s)
      /\ at_most fgt (max_sandbox_memory_mb_seconds cfg) (sandbox_memory_mb_seconds_reserved s)
      /\ at_most Z.gtb (max_sandbox_callback_calls cfg) (sandbox_callback_calls_reserved s)
  end.

(** A request the account has room for; one for a sandbox says how much it needs. *)
Definition fits (cfg : BudgetConfig) (s : BudgetState) (r : BudgetReserveRequest) : Prop :=
  (rq_kind r = BudgetReserveKind.SANDBOX_RESOURCE -> is_Some (rq_sandbox r))
  /\ kind_within cfg (asked r) (apply_reserve s (asked r)).

Lemma at_most_ltb (limit : option Z) x :
  match limit with Some m => m <? x | None => false end = false <-> at_most Z.gtb limit x.
Proof. destruct limit; simpl; [by rewrite Z.gtb_ltb|done]. Qed.

Lemma at_most_iff {A} (gt : A -> A -> bool) limit x :
  match limit with Some m => gt x m | None => false end = false <-> at_most gt limit x.
Proof. by destruct limit. Qed.

Lemma denied_if (b : bool) (x y : BudgetReservationDecision) :
  dec_outcome x = PolicyOutcome.DENY ->
  dec_outcome (if b then x else y) = PolicyOutcome.ALLOW <-> b = false /\ dec_outcome y = PolicyOutcome.ALLOW.
Proof. destruct b; naive_solver congruence. Qed.

(** The policy allows exactly what fits. *)
Lemma allowed_fits cfg s r : dec_outcome (evaluate_reserve cfg s r) = PolicyOutcome.ALLOW <-> fits cfg s r.
Proof.
  unfold fits, kind_within, evaluate_reserve, apply_reserve. cbn. destruct (rq_kind r).
  - unfold evaluate_llm_call. cbv zeta. rewrite !denied_if by done. rewrite at_most_ltb, at_most_iff, Z.ltb_ge.
    cbn. naive_solver.
  - unfold evaluate_tool_call. rewrite denied_if by done. rewrite Z.ltb_ge. cbn. naive_solver.
  - unfold evaluate_sandbox, over_float. destruct (rq_sandbox r) as [spec|]; cbn.
    + rewrite !denied_if by done. rewrite at_most_ltb, !at_most_iff. cbn. naive_solver.
    + split; [done|]. intros [H _]. by destruct (H eq_refl).
  - unfold evaluate_wall_time. destruct (fgt _ _); cbn; naive_solver.
Qed.

(** What is entered of an allowed decision is what was asked for. *)
Lemma allowed_asked cfg s r id :
  let v := evaluate_reserve cfg s r in
  dec_outcome v = PolicyOutcome.ALLOW ->
  dec_kind v = rq_kind r /\ forall s', apply_reserve s' (v <| dec_id := id |>) = apply_reserve s' (asked r).
Proof.
  unfold evaluate_reserve, evaluate_llm_call, evaluate_tool_call, evaluate_wall_time, evaluate_sandbox, apply_reserve.
  destruct (rq_kind r) eqn:Hk; [..|destruct (rq_sandbox r) as [spec|] eqn:Hs; [|done]|]; cbn; rewrite ?Hk;
    repeat (match goal with |- context [if ?c then _ else _] => destruct c; cbn; [done|] end); cbn; rewrite ?Hk, ?Hs;
    by intros _.
Qed.

Lemma apply_reserve_calls s d :
  llm_calls_reserved (apply_reserve s d) = llm_calls_reserved s + is_llm d
  /\ tool_calls_reserved (apply_reserve s d) = tool_calls_reserved s + is_tool d.
Proof. unfold apply_reserve, is_llm, is_tool. repeat case_match; simplify_eq/=; lia. Qed.

Lemma apply_release_calls s d :
  llm_calls_reserved (apply_release s d) <= llm_calls_reserved s
  /\ tool_calls_reserved (apply_release s d) <= tool_calls_reserved s.
Proof. unfold apply_release. repeat case_match; simplify_eq/=; lia. Qed.

Lemma apply_settle_calls s d u :
  llm_calls_reserved (apply_settle s d u) = llm_calls_reserved s
  /\ tool_calls_reserved (apply_settle s d u) = tool_calls_reserved s.
Proof. unfold apply_settle. repeat case_match; simplify_eq/=; done. Qed.

Lemma calls_within_release cfg s d : calls_within cfg s -> calls_within cfg (apply_release s d).
Proof. pose proof (apply_release_calls s d). unfold calls_within. lia. Qed.

Lemma calls_within_step w w' :
  account_change w w' -> calls_within (acc_config (the_account w)) (acc_state (the_account w)) ->
  calls_within (acc_config (the_account w)) (acc_state (the_account w')).
Proof.
  intros [e Hs _ _|e r id d v Ho He Hs _ _|l1 d l2 u _ _ _ Hs|l1 d l2 _ _ _ Hs|_ _ Hs] H; rewrite Hs.
  - exact H.
  - destruct (allowed_asked _ _ _ id Ho) as [Hk Ha]. fold v in Hk, Ha. rewrite <- He in Ha.
    apply allowed_fits in Ho as [_ Hw]. rewrite <- Ha in Hw.
    assert (Hkd : dec_kind d = dec_kind (asked r)) by (by rewrite He).
    pose proof (apply_reserve_calls ((acc_state (the_account w)) <| elapsed_seconds := e |>) d) as Hc.
    unfold kind_within, calls_within, is_llm, is_tool in *. rewrite <- Hkd in Hw. simpl in *.
    destruct (dec_kind d); simpl in *; repeat case_bool_decide; try done; lia.
  - pose proof (apply_settle_calls (acc_state (the_account w)) d u). unfold calls_within in *. lia.
  - by apply calls_within_release.
  - clear Hs. revert H. generalize (acc_state (the_account w)) as s.
    induction (map snd _) as [|d l IH]; simpl; intros s H; [done|]. by apply IH, calls_within_release.
Qed.

(** * Runs *)

Lemma account_run_ok cfg ops :
  use_ok (account_run cfg ops) /\ acc_config (the_account (account_run cfg ops)) = cfg
  /\ calls_within cfg (acc_state (the_account (account_run cfg ops))).
Proof.
  unfold account_run. induction ops as [|op ops IH] using rev_ind.
  - simpl. split; [|split; [done|split; simpl; lia]].
    constructor; simpl; [constructor|constructor| |constructor|constructor].
    intros d p Hd. by apply elem_of_nil in Hd.
  - rewrite foldl_app. simpl. destruct IH as (Hok & Hcfg & Hw).
    destruct (account_step_ok _ op Hok) as (Hok' & Hch & Hcfg'). split; [done|]. split; [by rewrite Hcfg'|].
    pose proof (calls_within_step _ _ Hch) as H. rewrite Hcfg in H. auto.
Qed.

Lemma meter_exact {read hold cost} (M : meter read hold cost) cfg ops :
  (read empty_state == 0)%Q ->
  (read (acc_state (the_account (account_run cfg ops))) ==
     sumQ cost (settled (account_run cfg ops))
     + sumQ (held hold) (acc_pending (the_account (account_run cfg ops))))%Q.
Proof.
  intros H0. induction ops as [|op ops IH] using rev_ind.
  - simpl. rewrite H0. ring.
  - unfold account_run in *. rewrite foldl_app. simpl. eapply (meter_step M); [|exact IH].
    apply account_step_ok. apply (account_run_ok cfg ops).
Qed.

Lemma int_meter_exact read hold cost cfg ops :
  meter (fun s => inject_Z (read s)) (fun d => inject_Z (hold d)) (fun x => inject_Z (cost x)) ->
  read empty_state = 0 ->
  read (acc_state (the_account (account_run cfg ops))) =
    sumZ cost (settled (account_run cfg ops))
    + sumZ (held hold) (acc_pending (the_account (account_run cfg ops))).
Proof.
  intros M H0. apply inject_Z_eq. rewrite (meter_exact M) by (by rewrite H0).
  rewrite inject_Z_plus. unfold held. by rewrite <- !sumQ_inject.
Qed.

(** * The account is exact *)

(** C10. However a client mixes reserve, settle, release and close, passing any
    decision it was ever given any number of times: the call counters are the
    settled calls plus the open reservations and stay within the configured
    limits; the token, dollar and callback counters are what the settled calls
    used (the estimate where usage is unknown) plus what the open reservations
    hold; and no reservation is charged twice, or charged and still open.  The next
    reserve is allowed exactly when what it asks for leaves every configured limit
    of its kind respected, wall time included, at the time it notes; then exactly
    that is entered and pending, and otherwise only the clock moves. *)
Theorem budget_account_exact cfg ops r mono :
  let w := account_run cfg ops in
  let a := the_account w in
  let s := acc_state a in
  llm_calls_reserved s = sumZ (fun x => is_llm x.1) (settled w) + sumZ (held is_llm) (acc_pending a)
  /\ tool_calls_reserved s = sumZ (fun x => is_tool x.1) (settled w) + sumZ (held is_tool) (acc_pending a)
  /\ calls_within cfg s
  /\ token_cost_reserved s = sumZ used_tokens (settled w) + sumZ (held held_tokens) (acc_pending a)
  /\ (usd_cost_reserved s == sumQ used_usd (settled w) + sumQ (held held_usd) (acc_pending a))%Q
  /\ sandbox_callback_calls_reserved s
     = sumZ used_callbacks (settled w) + sumZ (held held_callbacks) (acc_pending a)
  /\ NoDup (pending_ids a ++ map (fun x => dec_id x.1) (settled w))
  /\ let '(a', d) := account_reserve a r mono in
     let now := s <| elapsed_seconds := clocked a mono |> in
     (dec_outcome d = PolicyOutcome.ALLOW <-> fits cfg now r)
     /\ (dec_outcome d = PolicyOutcome.ALLOW ->
          dec_kind d = rq_kind r /\ acc_state a' = apply_reserve now (asked r)
          /\ acc_pending a' = acc_pending a ++ [(dec_id d, d)])
     /\ (dec_outcome d <> PolicyOutcome.ALLOW -> acc_state a' = now /\ acc_pending a' = acc_pending a).
Proof.
  intros w a s. destruct (account_run_ok cfg ops) as (Hok & Hcfg & Hw).
  do 2 (split; [by apply int_meter_exact; [apply llm_meter || apply tool_meter|]|]).
  split; [done|]. split; [by apply int_meter_exact; [apply token_meter|]|].
  split; [by apply (meter_exact usd_meter)|]. split; [by apply int_meter_exact; [apply callback_meter|]|].
  split; [apply Hok|]. destruct (account_reserve a r mono) as [a' d] eqn:Hr.
  apply reserve_cases in Hr as (_ & Hr). cbn zeta in Hr. unfold a, w in Hr. rewrite Hcfg in Hr.
  fold w a in Hr. change (acc_state a) with s in Hr. cbv zeta. rewrite <- allowed_fits.
  case_bool_decide as Ho; destruct Hr as (-> & Hs & Hp & _).
  - destruct (allowed_asked _ _ _ ("r-" +:+ pretty (acc_next_id a + 1)) Ho) as [Hk Ha]. split; [done|]. split; [|done].
    intros _. split; [done|]. split; [by rewrite Hs, Ha|done].
  - done.
Qed.
