(* ===== verification/DelegationDomain.v ===== *)
(** The delegation aggregate (app/domain/delegation.py): a parent agent hands
    work to child agents (members) and joins their results.  Its enums, the two
    transition tables, the aggregates with their [transition], and the join. *)
From S2P Require Import Prelude.

(** * Enums *)

Module DelegationStatus.
Inductive t : Type :=
  | PENDING | RUNNING | JOINING | SUCCEEDED | FAILED | CANCELLING | CANCELLED | EXPIRED.
#[global] Instance eq_dec : EqDecision t.
Proof. solve_decision. Defined.

Definition value (s : t) : string :=
  match s with
  | PENDING => "pending" | RUNNING => "running" | JOINING => "joining"
  | SUCCEEDED => "succeeded" | FAILED => "failed" | CANCELLING => "cancelling"
  | CANCELLED => "cancelled" | EXPIRED => "expired"
  end.
End DelegationStatus.

Module DelegationMemberStatus.
Inductive t : Type := PENDING | RUNNING | SUCCEEDED | FAILED | CANCELLED | EXPIRED.
#[global] Instance eq_dec : EqDecision t.
Proof. solve_decision. Defined.
End DelegationMemberStatus.

Module DelegationMemberRole.
Inductive t : Type := WORKER | AGGREGATOR.
#[global] Instance eq_dec : EqDecision t.
Proof. solve_decision. Defined.
End DelegationMemberRole.

Module DelegationJoinPolicy.
Inductive t : Type := ALL_COMPLETED | ALL_SUCCEEDED | BEST_EFFORT.
#[global] Instance eq_dec : EqDecision t.
Proof. solve_decision. Defined.
End DelegationJoinPolicy.

Module DelegationAggregationPolicy.
Inductive t : Type := PARENT | AGENT.
#[global] Instance eq_dec : EqDecision t.
Proof. solve_decision. Defined.
End DelegationAggregationPolicy.

Module MutationOutcome.
Inductive t : Type := SUCCESS | IDEMPOTENT_REPLAY | CONFLICT | BUSY.
#[global] Instance eq_dec : EqDecision t.
Proof. solve_decision. Defined.
End MutationOutcome.

(** * Transition tables *)

Definition DELEGATION_TERMINAL_STATES : list DelegationStatus.t :=
  [DelegationStatus.SUCCEEDED; DelegationStatus.FAILED; DelegationStatus.CANCELLED;
   DelegationStatus.EXPIRED].

Definition DELEGATION_TRANSITION_TABLE (s : DelegationStatus.t) : list DelegationStatus.t :=
  match s with
  | DelegationStatus.PENDING =>
      [DelegationStatus.RUNNING; DelegationStatus.CANCELLING; DelegationStatus.EXPIRED]
  | DelegationStatus.RUNNING =>
      [DelegationStatus.JOINING; DelegationStatus.SUCCEEDED; DelegationStatus.FAILED;
       DelegationStatus.CANCELLING; DelegationStatus.EXPIRED]
  | DelegationStatus.JOINING =>
      [DelegationStatus.SUCCEEDED; DelegationStatus.FAILED; DelegationStatus.CANCELLING;
       DelegationStatus.EXPIRED]
  | DelegationStatus.CANCELLING => [DelegationStatus.CANCELLED; DelegationStatus.EXPIRED]
  | _ => []
  end.

Definition DELEGATION_MEMBER_TERMINAL_STATES : list DelegationMemberStatus.t :=
  [DelegationMemberStatus.SUCCEEDED; DelegationMemberStatus.FAILED;
   DelegationMemberStatus.CANCELLED; DelegationMemberStatus.EXPIRED].

Definition DELEGATION_MEMBER_TRANSITION_TABLE (s : DelegationMemberStatus.t)
    : list DelegationMemberStatus.t :=
  match s with
  | DelegationMemberStatus.PENDING =>
      [DelegationMemberStatus.RUNNING; DelegationMemberStatus.CANCELLED;
       DelegationMemberStatus.EXPIRED]
  | DelegationMemberStatus.RUNNING =>
      [DelegationMemberStatus.SUCCEEDED; DelegationMemberStatus.FAILED;
       DelegationMemberStatus.CANCELLED; DelegationMemberStatus.EXPIRED;
       DelegationMemberStatus.PENDING]
  | _ => []
  end.

(** * Value objects *)

Record DelegationParentRef := mkDelegationParentRef {
  source : string; scope_id : string; run_id : string; session_id : string }.

(** [output_schema] is known by the length of its [repr]. *)
Record DelegationChildSpec := mkDelegationChildSpec {
  spec_title : string;
  spec_instruction : string;
  spec_skills : list string;
  spec_allowed_tools : list string;
  spec_model_override : option string;
  spec_max_runtime_seconds : option Z;
  spec_budget_tokens : Z;
  spec_output_schema_repr : option Z
}.

Module DelegationResult.
Record t : Type := mk {
  status : DelegationMemberStatus.t;
  summary : string;
  structured_data : option (list (string * json));
  artifact_refs : list string;
  error_code : option string;
  error_message : option string;
  usage_summary : list (string * Z);
  classification : option string;
  checksum : string;
  started_at : option Z;
  ended_at : option Z
}.

Definition bare (s : DelegationMemberStatus.t) : t := mk s "" None [] None None [] None "" None None.
End DelegationResult.

Record DelegationResultSet := mkDelegationResultSet {
  rs_delegation_id : string;
  rs_status : DelegationStatus.t;
  rs_member_results : list DelegationResult.t;
  rs_aggregation_result : option DelegationResult.t;
  rs_partial : bool;
  rs_partial_reason : option string;
  rs_filter_notes : list string;
  rs_total_usage : option (list (string * Z))
}.

(** * The aggregates *)

Module Delegation.
Record t : Type := mk {
  id : string;
  parent : DelegationParentRef;
  delegation_key : string;
  fingerprint : string;
  join_policy : DelegationJoinPolicy.t;
  aggregation : DelegationAggregationPolicy.t;
  deadline_at : option Z;
  policy_snapshot_id : string;
  budget_total_tokens : Z;
  budget_reserved_tokens : Z;
  budget_settled_tokens : Z;
  status : DelegationStatus.t;
  version : Z;
  first_run_id : option string;
  created_at : Z;
  updated_at : Z;
  cancellation_reason : option string;
  canonical_parent_run_id : option string
}.

#[global] Instance rebuild_t : Rebuild t := fun r =>
  mk (id r) (parent r) (delegation_key r) (fingerprint r) (join_policy r) (aggregation r)
    (deadline_at r) (policy_snapshot_id r) (budget_total_tokens r) (budget_reserved_tokens r)
    (budget_settled_tokens r) (status r) (version r) (first_run_id r) (created_at r) (updated_at r)
    (cancellation_reason r) (canonical_parent_run_id r).

Definition transition (d : t) (target : DelegationStatus.t) : result t :=
  if bool_decide (target ∈ DELEGATION_TRANSITION_TABLE (status d))
  then Return (d <| status := target |> <| version := version d + 1 |>)
  else Raise DelegationStateError.

Definition mark_cancelling (d : t) : result t := transition d DelegationStatus.CANCELLING.
Definition is_terminal (d : t) : bool := bool_decide (status d ∈ DELEGATION_TERMINAL_STATES).
End Delegation.

Module DelegationMember.
Record t : Type := mk {
  id : string;
  delegation_id : string;
  role : DelegationMemberRole.t;
  ordinal : Z;
  title : string;
  instruction : string;
  skills : list string;
  allowed_tools : list string;
  model_override : option string;
  max_runtime_seconds : option Z;
  execution_session_id : string;
  deadline_at : option Z;
  budget_tokens : Z;
  status : DelegationMemberStatus.t;
  version : Z;
  retry_count : Z;
  retry_of : option string;
  claim_lock : option string;
  claim_expires_at : option Z;
  last_heartbeat_at : option Z;
  cancel_reason : option string;
  cancel_requested_at : option Z;
  started_at : option Z;
  ended_at : option Z
}.

#[global] Instance rebuild_t : Rebuild t := fun r =>
  mk (id r) (delegation_id r) (role r) (ordinal r) (title r) (instruction r) (skills r)
    (allowed_tools r) (model_override r) (max_runtime_seconds r) (execution_session_id r)
    (deadline_at r) (budget_tokens r) (status r) (version r) (retry_count r) (retry_of r)
    (claim_lock r) (claim_expires_at r) (last_heartbeat_at r) (cancel_reason r)
    (cancel_requested_at r) (started_at r) (ended_at r).

(** [new], with the [uuid4] it draws. *)
Definition new (uuid delegation_id : string) (role : DelegationMemberRole.t) (ordinal : Z)
    (title instruction : string) (skills allowed_tools : list string) (execution_session_id : string)
    (deadline_at : option Z) (budget_tokens : Z) (model_override : option string)
    (max_runtime_seconds : option Z) : t :=
  mk uuid delegation_id role ordinal title instruction skills allowed_tools model_override
    max_runtime_seconds execution_session_id deadline_at budget_tokens DelegationMemberStatus.PENDING
    1 0 None None None None None None None None.

Definition transition (m : t) (target : DelegationMemberStatus.t) : result t :=
  if bool_decide (target ∈ DELEGATION_MEMBER_TRANSITION_TABLE (status m)) then
    let m1 :=
      if bool_decide (target = DelegationMemberStatus.PENDING)
         && bool_decide (status m = DelegationMemberStatus.RUNNING)
      then m <| retry_count := retry_count m + 1 |>
             <| retry_of := Some (default (id m) (retry_of m)) |>
      else m in
    Return (m1 <| status := target |> <| version := version m1 + 1 |>)
  else Raise DelegationStateError.

Definition is_terminal (m : t) : bool := bool_decide (status m ∈ DELEGATION_MEMBER_TERMINAL_STATES).
End DelegationMember.

(** * The join *)

Definition succeeded (r : DelegationResult.t) : bool :=
  bool_decide (DelegationResult.status r = DelegationMemberStatus.SUCCEEDED).

Definition evaluate_join_outcome (delegation_id : string) (join_policy : DelegationJoinPolicy.t)
    (aggregation : DelegationAggregationPolicy.t) (member_results : list DelegationResult.t)
    (aggregation_result : option DelegationResult.t) (partial : bool) (partial_reason : option string)
    (filter_notes : list string) (total_usage : option (list (string * Z))) : DelegationResultSet :=
  let workers :=
    match join_policy with
    | DelegationJoinPolicy.ALL_COMPLETED | DelegationJoinPolicy.ALL_SUCCEEDED =>
        if partial then DelegationStatus.FAILED
        else if negb (bool_decide (member_results = [])) && forallb succeeded member_results
        then DelegationStatus.SUCCEEDED else DelegationStatus.FAILED
    | DelegationJoinPolicy.BEST_EFFORT =>
        if existsb succeeded member_results
        then DelegationStatus.SUCCEEDED else DelegationStatus.FAILED
    end in
  let status :=
    if bool_decide (partial_reason = Some "cancelled") then DelegationStatus.CANCELLED
    else match aggregation, aggregation_result with
         | DelegationAggregationPolicy.AGENT, Some r =>
             if succeeded r then DelegationStatus.SUCCEEDED else DelegationStatus.FAILED
         | _, _ => workers
         end in
  mkDelegationResultSet delegation_id status member_results aggregation_result partial partial_reason
    filter_notes total_usage.

(** * Outcomes of the registry's mutations *)

Record ClaimMemberResult := mkClaimMemberResult {
  claim_outcome : MutationOutcome.t;
  claim_member : option DelegationMember.t;
  claim_delegation : option Delegation.t
}.

Record FinishMemberResult := mkFinishMemberResult {
  finish_outcome : MutationOutcome.t;
  finish_member : option DelegationMember.t;
  finish_delegation : option Delegation.t
}.

Record LedgerResult := mkLedgerResult {
  ledger_outcome : MutationOutcome.t;
  ledger_reservation_id : option string;
  ledger_balance : option Z
}.

(** * The create request *)

Record PolicySnapshotRecord := mkPolicySnapshotRecord {
  profile_version : string;
  parent_config : list (string * json);
  child_config : list (string * json);
  aggregator_config : option (list (string * json));
  snapshot_checksum : string
}.

Record DelegationCreateRequest := mkDelegationCreateRequest {
  req_parent : DelegationParentRef;
  req_delegation_key : string;
  req_fingerprint : string;
  req_join_policy : DelegationJoinPolicy.t;
  req_aggregation : DelegationAggregationPolicy.t;
  req_deadline_at : option Z;
  req_budget_total_tokens : Z;
  req_members : list DelegationMember.t;
  req_snapshot : PolicySnapshotRecord;
  req_trace_context : list (string * string);
  req_canonical_parent_run_id : option string
}.
