(* ===== verification/DelegationPolicy.v ===== *)
(** Admission of a delegation (app/domain/delegation_policy.py): the checks in
    their order, and what an admitted request is known to satisfy. *)
From S2P Require Import Prelude DelegationDomain.
From stdpp Require Import gmap.
From Stdlib Require Import QArith.
Open Scope Z_scope.

(** * Definitions *)

Definition FORBIDDEN_CHILD_TOOLS : gset string := list_to_set
  ["delegate_agents"; "create_task"; "list_tasks"; "approve_task"; "reject_task"; "revise_task";
   "task_show"; "task_complete"; "task_heartbeat"; "task_propose_change"; "task_fail";
   "manage_schedule"; "schedule_query"; "skill_manage"; "manage_plugin"].

Definition MAX_REALTIME_TIMEOUT_SECONDS : Z := 300.
Definition MAX_TASK_TIMEOUT_SECONDS : Z := 3600.
Definition MAX_TITLE_LENGTH : Z := 200.
Definition MAX_INSTRUCTION_LENGTH : Z := 8000.
Definition MAX_SKILLS_COUNT : Z := 20.
Definition MAX_SCHEMA_REPR_LENGTH : Z := 16384.

(** [parent_deadline] is a finite float, a rational. *)
Record DelegationPolicyRequest := mkDelegationPolicyRequest {
  parent : DelegationParentRef;
  has_capability : bool;
  children : list DelegationChildSpec;
  join_policy : DelegationJoinPolicy.t;
  aggregation : DelegationAggregationPolicy.t;
  depth : Z;
  parent_allowed_tools : gset string;
  system_child_allowlist : gset string;
  max_children : Z;
  max_runtime_seconds : option Z;
  member_max_runtime_seconds : option Z;
  max_total_tokens : option Z;
  max_tokens_per_child : option Z;
  timeout_seconds : option Z;
  parent_deadline : option Q;
  aggregator_spec : option DelegationChildSpec;
  classification : option string
}.

(** [limit is not None and n > limit] *)
Definition over_limit (limit : option Z) (n : Z) : bool :=
  match limit with Some m => m <? n | None => false end.
Definition not_positive (n : option Z) : bool :=
  match n with Some n => n <=? 0 | None => false end.

Definition tools (spec : DelegationChildSpec) : gset string := list_to_set (spec_allowed_tools spec).

Definition validate_spec (spec : DelegationChildSpec) (r : DelegationPolicyRequest) : bool :=
  if MAX_TITLE_LENGTH <? len (spec_title spec) then false
  else if negb (truthy_str (strip (spec_instruction spec))) then false
  else if MAX_INSTRUCTION_LENGTH <? len (spec_instruction spec) then false
  else if MAX_SKILLS_COUNT <? Z.of_nat (length (spec_skills spec)) then false
  else if match spec_output_schema_repr spec with Some n => MAX_SCHEMA_REPR_LENGTH <? n | None => false end
  then false
  else if not_positive (spec_max_runtime_seconds spec) then false
  else if spec_budget_tokens spec <? 0 then false
  else if over_limit (max_tokens_per_child r) (spec_budget_tokens spec) then false
  else if match spec_max_runtime_seconds spec with
          | Some n => over_limit (member_max_runtime_seconds r) n
          | None => false
          end then false
  else true.

Definition spec_key : Type := string * string * list string * list string * option string.

Definition normalize_spec (spec : DelegationChildSpec) : spec_key :=
  (lower (strip (spec_title spec)), strip (spec_instruction spec), sorted_strs (spec_skills spec),
   sorted_strs (spec_allowed_tools spec), spec_model_override spec).

(** The loop over [seen]: whether some child repeats the key of an earlier one. *)
Fixpoint repeated_spec (seen : list spec_key) (l : list DelegationChildSpec) : bool :=
  match l with
  | [] => false
  | child :: l =>
      let key := normalize_spec child in
      if bool_decide (key ∈ seen) then true else repeated_spec (key :: seen) l
  end.

Definition sum_tokens (l : list DelegationChildSpec) : Z :=
  foldr (fun c n => spec_budget_tokens c + n) 0 l.

Definition validate_budget_runtime (r : DelegationPolicyRequest) : bool :=
  if not_positive (max_runtime_seconds r) then false
  else if not_positive (member_max_runtime_seconds r) then false
  else
    let total := sum_tokens (children r)
      + match aggregation r, aggregator_spec r with
        | DelegationAggregationPolicy.AGENT, Some agg => spec_budget_tokens agg
        | _, _ => 0
        end in
    negb (over_limit (max_total_tokens r) total).

Definition validate_timeout (r : DelegationPolicyRequest) : bool :=
  match timeout_seconds r with
  | None => true
  | Some timeout =>
      if timeout <=? 0 then false
      else if match parent_deadline r with
              | Some d => negb (Qle_bool (inject_Z timeout) d)
              | None => false
              end then false
      else if (if bool_decide (source (parent r) = "realtime") then MAX_REALTIME_TIMEOUT_SECONDS <? timeout
               else if bool_decide (source (parent r) = "task") then MAX_TASK_TIMEOUT_SECONDS <? timeout
               else false) then false
      else negb (over_limit (max_runtime_seconds r) timeout)
  end.

Definition forbidden (ts : gset string) : bool := negb (bool_decide (ts ∩ FORBIDDEN_CHILD_TOOLS = ∅)).
Definition effective_tools (r : DelegationPolicyRequest) : gset string :=
  parent_allowed_tools r ∩ system_child_allowlist r.

Definition validate_aggregator (r : DelegationPolicyRequest) : bool :=
  match aggregation r with
  | DelegationAggregationPolicy.PARENT => true
  | DelegationAggregationPolicy.AGENT =>
      match aggregator_spec r with
      | None => false
      | Some agg =>
          if negb (validate_spec agg r) then false
          else if forbidden (tools agg) then false
          else if negb (bool_decide (tools agg ⊆ effective_tools r)) then false
          else negb (existsb (fun c => bool_decide (normalize_spec c = normalize_spec agg)) (children r))
      end
  end.

Definition evaluate (r : DelegationPolicyRequest) : PolicyOutcome.t :=
  if negb (has_capability r) then PolicyOutcome.DENY
  else if negb (depth r =? 1) then PolicyOutcome.DENY
  else if (Z.of_nat (length (children r)) <? 1) || (max_children r <? Z.of_nat (length (children r)))
  then PolicyOutcome.DENY
  else if forbidden (parent_allowed_tools r) then PolicyOutcome.DENY
  else if existsb (fun c => forbidden (tools c)) (children r) then PolicyOutcome.DENY
  else if existsb (fun c => negb (bool_decide (tools c ⊆ effective_tools r))) (children r)
  then PolicyOutcome.DENY
  else if existsb (fun c => negb (validate_spec c r)) (children r) then PolicyOutcome.DENY
  else if repeated_spec [] (children r) then PolicyOutcome.DENY
  else if negb (validate_budget_runtime r) then PolicyOutcome.DENY
  else if negb (validate_timeout r) then PolicyOutcome.DENY
  else if negb (validate_aggregator r) then PolicyOutcome.DENY
  else PolicyOutcome.ALLOW.

(** * What admission means *)

(** The agents a request asks for: its children, and the aggregator that AGENT
    aggregation runs. *)
Definition aggregators (r : DelegationPolicyRequest) : list DelegationChildSpec :=
  match aggregation r with
  | DelegationAggregationPolicy.AGENT => option_list (aggregator_spec r)
  | DelegationAggregationPolicy.PARENT => []
  end.
Definition agents (r : DelegationPolicyRequest) : list DelegationChildSpec := children r ++ aggregators r.

Definition within (n : Z) (limit : option Z) : Prop := forall m, limit = Some m -> n <= m.

(** Two agents asked to do the same work. *)
Definition same_work (a b : DelegationChildSpec) : Prop :=
  lower (strip (spec_title a)) = lower (strip (spec_title b))
  /\ strip (spec_instruction a) = strip (spec_instruction b)
  /\ spec_skills a ≡ₚ spec_skills b /\ spec_allowed_tools a ≡ₚ spec_allowed_tools b
  /\ spec_model_override a = spec_model_override b.

(** One agent on its own: its texts, and its share of tokens and time. *)
Definition spec_shape (c : DelegationChildSpec) : Prop :=
  len (spec_title c) <= 200 /\ 0 < len (strip (spec_instruction c)) /\ len (spec_instruction c) <= 8000
  /\ Z.of_nat (length (spec_skills c)) <= 20
  /\ forall n, spec_output_schema_repr c = Some n -> n <= 16384.

Definition spec_limits (r : DelegationPolicyRequest) (c : DelegationChildSpec) : Prop :=
  0 <= spec_budget_tokens c /\ within (spec_budget_tokens c) (max_tokens_per_child r)
  /\ forall n, spec_max_runtime_seconds c = Some n -> 0 < n /\ within n (member_max_runtime_seconds r).

(** A request that gives no agent more than its parent has. *)
Record admissible (r : DelegationPolicyRequest) : Prop := {
  adm_capability : has_capability r = true;
  adm_depth : depth r = 1;
  adm_count : 1 <= Z.of_nat (length (children r)) <= max_children r;
  adm_parent : forall t, t ∈ parent_allowed_tools r -> t ∉ FORBIDDEN_CHILD_TOOLS;
  adm_tools : forall c t, c ∈ agents r -> t ∈ spec_allowed_tools c ->
    t ∈ parent_allowed_tools r /\ t ∈ system_child_allowlist r;
  adm_shape : forall c, c ∈ agents r -> spec_shape c;
  adm_limits : forall c, c ∈ agents r -> spec_limits r c;
  adm_distinct : forall i j a b, agents r !! i = Some a -> agents r !! j = Some b -> same_work a b -> i = j;
  adm_total : within (sum_tokens (agents r)) (max_total_tokens r);
  adm_runtime : forall n, max_runtime_seconds r = Some n \/ member_max_runtime_seconds r = Some n -> 0 < n;
  adm_timeout : forall n, timeout_seconds r = Some n ->
    0 < n /\ within n (max_runtime_seconds r)
    /\ (source (parent r) = "realtime" -> n <= 300) /\ (source (parent r) = "task" -> n <= 3600)
    /\ forall d, parent_deadline r = Some d -> (inject_Z n <= d)%Q;
  adm_aggregator : aggregation r = DelegationAggregationPolicy.AGENT -> is_Some (aggregator_spec r)
}.

(** * Lemmas *)

Lemma over_limit_false limit n : over_limit limit n = false <-> within n limit.
Proof.
  unfold over_limit, within. destruct limit as [m|]; [|by split].
  rewrite Z.ltb_ge. split; [by intros ? ? [= <-]|auto].
Qed.

Lemma not_positive_false o : not_positive o = false <-> forall n, o = Some n -> 0 < n.
Proof.
  unfold not_positive. destruct o as [m|]; [|by split].
  rewrite Z.leb_gt. split; [by intros ? ? [= <-]|auto].
Qed.

Lemma truthy_len s : negb (truthy_str s) = false <-> 0 < len s.
Proof.
  unfold truthy_str. rewrite negb_involutive, bool_decide_eq_false.
  destruct s; unfold len; cbn [String.length]; [split; [done|lia]|split; [lia|done]].
Qed.

Lemma if_false (b c : bool) : (if b then false else c) = true <-> b = false /\ c = true.
Proof. destruct b; naive_solver. Qed.

Lemma if_deny (b : bool) (o : PolicyOutcome.t) :
  (if b then PolicyOutcome.DENY else o) = PolicyOutcome.ALLOW <-> b = false /\ o = PolicyOutcome.ALLOW.
Proof. destruct b; naive_solver. Qed.

Lemma validate_spec_true c r : validate_spec c r = true <-> spec_shape c /\ spec_limits r c.
Proof.
  unfold validate_spec, spec_shape, spec_limits. rewrite !if_false, !Z.ltb_ge, truthy_len, not_positive_false,
    over_limit_false. unfold MAX_TITLE_LENGTH, MAX_INSTRUCTION_LENGTH, MAX_SKILLS_COUNT, MAX_SCHEMA_REPR_LENGTH.
  assert ((match spec_output_schema_repr c with Some n => 16384 <? n | None => false end) = false
    <-> forall n, spec_output_schema_repr c = Some n -> n <= 16384) as ->
    by (destruct (spec_output_schema_repr c); [rewrite Z.ltb_ge|]; naive_solver).
  assert ((match spec_max_runtime_seconds c with
           | Some n => over_limit (member_max_runtime_seconds r) n | None => false end) = false
    <-> forall n, spec_max_runtime_seconds c = Some n -> within n (member_max_runtime_seconds r)) as ->
    by (destruct (spec_max_runtime_seconds c); [rewrite over_limit_false|]; naive_solver).
  naive_solver.
Qed.

Lemma normalize_eq a b : normalize_spec a = normalize_spec b <-> same_work a b.
Proof.
  unfold normalize_spec, same_work. rewrite <- !sorted_strs_eq. split; [by intros [= -> -> -> -> ->]|].
  by intros (-> & -> & -> & -> & ->).
Qed.

Lemma repeated_spec_false seen l :
  repeated_spec seen l = false
  <-> NoDup (map normalize_spec l) /\ forall c, c ∈ l -> normalize_spec c ∉ seen.
Proof.
  revert seen. induction l as [|c l IH]; intros seen; cbn [repeated_spec map].
  { split; [|done]. intros _. split; [constructor|]. by intros ? ?%elem_of_nil. }
  rewrite NoDup_cons. case_bool_decide as Hc.
  { split; [done|]. intros [_ H]. destruct (H c); [by left|done]. }
  rewrite IH. split.
  - intros [Hnd Hs]. split; [split; [|done]|].
    + intros (c' & Heq & Hc')%list_elem_of_fmap. apply (Hs c' Hc'). rewrite <- Heq. by left.
    + intros c' [->|Hc']%elem_of_cons; [done|]. intros Hin. apply (Hs c' Hc'). by right.
  - intros [[Hn Hnd] Hs]. split; [done|]. intros c' Hc' [Heq|Hin]%elem_of_cons.
    + apply Hn. rewrite <- Heq. by apply list_elem_of_fmap_2.
    + by apply (Hs c'); [right|].
Qed.

Lemma distinct_works l :
  NoDup (map normalize_spec l)
  <-> forall i j a b, l !! i = Some a -> l !! j = Some b -> same_work a b -> i = j.
Proof.
  rewrite NoDup_alt. split.
  - intros H i j a b Ha Hb Hab%normalize_eq. apply (H i j (normalize_spec a)).
    + by rewrite list_lookup_fmap, Ha.
    + rewrite Hab. by rewrite list_lookup_fmap, Hb.
  - intros H i j k Hi Hj. rewrite list_lookup_fmap in Hi, Hj.
    apply fmap_Some in Hi as (a & Ha & ->). apply fmap_Some in Hj as (b & Hb & Hab).
    by apply (H i j a b); [..|apply normalize_eq].
Qed.

Lemma forbidden_false ts : forbidden ts = false <-> forall t, t ∈ ts -> t ∉ FORBIDDEN_CHILD_TOOLS.
Proof. unfold forbidden. rewrite negb_false_iff, bool_decide_eq_true. set_solver. Qed.

Lemma tools_elem c t : t ∈ tools c <-> t ∈ spec_allowed_tools c.
Proof. unfold tools. by rewrite elem_of_list_to_set. Qed.

(** Tools taken from the parent are not forbidden when the parent's are not. *)
Lemma tools_within r c :
  forbidden (parent_allowed_tools r) = false ->
  forbidden (tools c) = false /\ negb (bool_decide (tools c ⊆ effective_tools r)) = false
  <-> forall t, t ∈ spec_allowed_tools c -> t ∈ parent_allowed_tools r /\ t ∈ system_child_allowlist r.
Proof.
  rewrite !forbidden_false, negb_false_iff, bool_decide_eq_true. unfold effective_tools. intros Hp. split.
  - intros [_ Hs] t Ht%tools_elem. set_solver.
  - intros H. split.
    + intros t Ht%tools_elem. apply Hp. by apply H.
    + intros t Ht%tools_elem. destruct (H t Ht). set_solver.
Qed.

Lemma validate_timeout_true r :
  validate_timeout r = true
  <-> forall n, timeout_seconds r = Some n ->
      0 < n /\ within n (max_runtime_seconds r)
      /\ (source (parent r) = "realtime" -> n <= 300) /\ (source (parent r) = "task" -> n <= 3600)
      /\ forall d, parent_deadline r = Some d -> (inject_Z n <= d)%Q.
Proof.
  unfold validate_timeout. destruct (timeout_seconds r) as [n|]; [|by split].
  assert ((match parent_deadline r with Some d => negb (Qle_bool (inject_Z n) d) | None => false end) = false
    <-> forall d, parent_deadline r = Some d -> (inject_Z n <= d)%Q) as Hd.
  { destruct (parent_deadline r) as [d|]; [|by split]. rewrite negb_false_iff, Qle_bool_iff.
    split; [by intros ? ? [= <-]|auto]. }
  assert ((if bool_decide (source (parent r) = "realtime") then MAX_REALTIME_TIMEOUT_SECONDS <? n
           else if bool_decide (source (parent r) = "task") then MAX_TASK_TIMEOUT_SECONDS <? n else false) = false
    <-> (source (parent r) = "realtime" -> n <= 300) /\ (source (parent r) = "task" -> n <= 3600)) as Hs.
  { unfold MAX_REALTIME_TIMEOUT_SECONDS, MAX_TASK_TIMEOUT_SECONDS.
    repeat case_bool_decide; rewrite ?Z.ltb_ge; intuition congruence. }
  rewrite !if_false, Hd, Hs, Z.leb_gt, negb_true_iff, over_limit_false.
  split; [intros H m [= <-]; tauto|]. intros H. specialize (H n eq_refl). tauto.
Qed.

Lemma sum_tokens_app l l' : sum_tokens (l ++ l') = sum_tokens l + sum_tokens l'.
Proof. induction l; simpl; lia. Qed.

Lemma validate_budget_runtime_true r :
  validate_budget_runtime r = true
  <-> (forall n, max_runtime_seconds r = Some n \/ member_max_runtime_seconds r = Some n -> 0 < n)
      /\ within (sum_tokens (agents r)) (max_total_tokens r).
Proof.
  unfold validate_budget_runtime. rewrite !if_false, !not_positive_false, negb_true_iff, over_limit_false.
  assert (match aggregation r, aggregator_spec r with
          | DelegationAggregationPolicy.AGENT, Some agg => spec_budget_tokens agg | _, _ => 0 end
          = sum_tokens (aggregators r)) as ->
    by (unfold aggregators; destruct (aggregation r), (aggregator_spec r); cbn; lia).
  unfold agents. rewrite sum_tokens_app. naive_solver.
Qed.

(** What the loop over the children and [_validate_aggregator] each ask of one agent. *)
Definition agent_ok (r : DelegationPolicyRequest) (c : DelegationChildSpec) : Prop :=
  spec_shape c /\ spec_limits r c
  /\ forall t, t ∈ spec_allowed_tools c -> t ∈ parent_allowed_tools r /\ t ∈ system_child_allowlist r.

Lemma children_ok r :
  forbidden (parent_allowed_tools r) = false ->
  existsb (fun c => forbidden (tools c)) (children r) = false
  /\ existsb (fun c => negb (bool_decide (tools c ⊆ effective_tools r))) (children r) = false
  /\ existsb (fun c => negb (validate_spec c r)) (children r) = false
  <-> forall c, c ∈ children r -> agent_ok r c.
Proof.
  intros Hp. rewrite !existsb_false. unfold agent_ok. split.
  - intros (H1 & H2 & H3) c Hc. specialize (H3 c Hc). rewrite negb_false_iff, validate_spec_true in H3.
    destruct H3. split_and!; [done..|]. apply (tools_within r c Hp). auto.
  - intros H. split_and!; intros c Hc; destruct (H c Hc) as (Hs & Hl & Ht);
      apply (tools_within r c Hp) in Ht as [? ?]; [done..|].
    by rewrite negb_false_iff, validate_spec_true.
Qed.

Lemma validate_aggregator_true r :
  forbidden (parent_allowed_tools r) = false -> NoDup (map normalize_spec (children r)) ->
  validate_aggregator r = true
  <-> (aggregation r = DelegationAggregationPolicy.AGENT -> is_Some (aggregator_spec r))
      /\ (forall c, c ∈ aggregators r -> agent_ok r c)
      /\ NoDup (map normalize_spec (agents r)).
Proof.
  intros Hp Hnd. unfold validate_aggregator, agents, aggregators.
  destruct (aggregation r); cbn [option_list].
  { rewrite app_nil_r. split; [|done]. intros _. split; [done|]. split; [by intros ? ?%elem_of_nil|done]. }
  destruct (aggregator_spec r) as [agg|]; cbn [option_list]; [|split; [done|]; intros [[? ?] _]; naive_solver].
  rewrite !if_false, negb_true_iff, negb_false_iff, validate_spec_true, existsb_false, List.map_app, NoDup_app.
  assert ((forall c, c ∈ children r -> bool_decide (normalize_spec c = normalize_spec agg) = false)
    <-> forall k, k ∈ map normalize_spec (children r) -> k ∉ map normalize_spec [agg]) as ->.
  { split.
    - intros H k (c & -> & Hc)%list_elem_of_fmap Heq%list_elem_of_singleton.
      specialize (H c Hc). by apply bool_decide_eq_false in H.
    - intros H c Hc. apply bool_decide_eq_false. intros Heq.
      apply (H (normalize_spec c)); [by apply list_elem_of_fmap_2|]. rewrite Heq. by apply list_elem_of_singleton. }
  pose proof (tools_within r agg Hp) as Ht. unfold agent_ok. split.
  - intros ([Hs Hl] & Hf & He & Hd). split; [done|]. split; [|split_and!; [done..|apply NoDup_singleton]].
    intros c ->%list_elem_of_singleton. tauto.
  - intros (_ & Ha & _ & Hd & _). specialize (Ha agg ltac:(by left)). tauto.
Qed.

Lemma allowed_admissible r : evaluate r = PolicyOutcome.ALLOW -> admissible r.
Proof.
  unfold evaluate. rewrite !if_deny, !negb_false_iff, orb_false_iff, Z.eqb_eq, !Z.ltb_ge,
    repeated_spec_false, validate_budget_runtime_true, validate_timeout_true.
  intros (H1 & H2 & H3 & H4 & H5 & H6 & H7 & [H8 _] & [H9 H9'] & H10 & H11 & _).
  apply (validate_aggregator_true r H4 H8) in H11 as (Ha & Hag & Hnd).
  pose proof (proj1 (children_ok r H4) (conj H5 (conj H6 H7))) as Hch.
  assert (forall c, c ∈ agents r -> agent_ok r c) as Hall by (intros c [Hc|Hc]%elem_of_app; auto).
  split; try done; try lia; try (intros; by apply Hall).
  - by apply forbidden_false.
  - intros c t Hc. by apply Hall.
  - by apply distinct_works.
Qed.

(** * Properties *)

(** C11. Admission does not escalate.  A request is allowed exactly when it is
    admissible: asked by a parent that may delegate, one level deep, for between one
    and the maximum number of children; every agent it starts, aggregator included,
    uses only tools that both its parent and the system's child list have, none of
    them forbidden; no two agents are asked the same work; tokens, texts and times
    stay within their limits, and the tokens of all of them within the total. *)
Theorem admission_exact r : evaluate r = PolicyOutcome.ALLOW <-> admissible r.
Proof.
  split; [apply allowed_admissible|].
  unfold evaluate. rewrite !if_deny, !negb_false_iff, orb_false_iff, Z.eqb_eq, !Z.ltb_ge,
    repeated_spec_false, validate_budget_runtime_true, validate_timeout_true.
  intros [H1 H2 H3 H4 Ht Hs Hl Hd Htot Hrt Hto Ha].
  apply forbidden_false in H4. apply distinct_works in Hd.
  assert (forall c, c ∈ agents r -> agent_ok r c) as Hall
    by (intros c Hc; split; [by apply Hs|split; [by apply Hl|intros t; by apply Ht]]).
  assert (NoDup (map normalize_spec (children r))) as Hnd
    by (unfold agents in Hd; rewrite List.map_app in Hd; by apply NoDup_app in Hd as [? _]).
  destruct (proj2 (children_ok r H4)) as (H5 & H6 & H7);
    [intros c Hc; apply Hall, elem_of_app; by left|].
  split_and!; try done; try lia; [by intros ? _ ?%elem_of_nil|].
  apply validate_aggregator_true; [done..|]. split_and!; [done| |done].
  intros c Hc. apply Hall, elem_of_app. by right.
Qed.
