(* ===== verification/DelegationStore.v ===== *)
(** The SQLite delegation registry
    (app/infrastructure/registry/sqlite_delegation_registry.py).

    [ddb] holds its seven tables and the [agent_runs] table it shares; a table
    is the list of its rows in rowid order.  Each [*_sync] method is one
    transaction: a function from the tables, the clock and the identifiers it
    draws to the tables and an outcome, a raise rolling back unless the code
    has committed.  Timestamps are the instants their ISO-8601 UTC texts order
    as. *)
From S2P Require Import Prelude DelegationDomain.

(** * Rows *)

Module SnapshotRow.
Record t : Type := mk { id : string; delegation_id : string; record : PolicySnapshotRecord }.
End SnapshotRow.

Inductive result_scope := MemberScope | DelegationScope.
#[global] Instance result_scope_eq_dec : EqDecision result_scope.
Proof. solve_decision. Defined.

Module ResultRow.
Record t : Type := mk {
  delegation_id : string;
  scope : result_scope;
  member_id : option string;
  record : DelegationResult.t;
  adopted : bool
}.
End ResultRow.

Module DelegationEvent.
Record t : Type := mk {
  id : Z; delegation_id : string; kind : string; payload : list (string * json);
  member_ordinal : option Z; run_id : option string; created_at : Z }.
End DelegationEvent.

Module LedgerRow.
Record t : Type := mk {
  delegation_id : string; reservation_id : string; purpose : string; amount : Z;
  reserved : Z; settled : Z; released : Z; usage_event_id : option string }.
#[global] Instance rebuild_t : Rebuild t := fun r =>
  mk (delegation_id r) (reservation_id r) (purpose r) (amount r) (reserved r) (settled r)
    (released r) (usage_event_id r).
End LedgerRow.

Module OutboxRow.
Record t : Type := mk {
  id : Z; delegation_id : string; member_id : option string; reason : string; attempts : Z;
  next_attempt_at : Z; acked_at : option Z }.
#[global] Instance rebuild_t : Rebuild t := fun r =>
  mk (id r) (delegation_id r) (member_id r) (reason r) (attempts r) (next_attempt_at r) (acked_at r).
End OutboxRow.

(** The columns of [agent_runs] used here. *)
Module AgentRunRow.
Record t : Type := mk {
  id : string; session_id : string; delegation_member_id : option string;
  business_owner_deleted_at : option Z }.
#[global] Instance rebuild_t : Rebuild t := fun r =>
  mk (id r) (session_id r) (delegation_member_id r) (business_owner_deleted_at r).
End AgentRunRow.

(** * The tables; [agent_runs] is [None] when the table does not exist. *)

Record ddb := mkDdb {
  delegations : list Delegation.t;
  members : list DelegationMember.t;
  snapshots : list SnapshotRow.t;
  results : list ResultRow.t;
  events : list DelegationEvent.t;
  event_seq : Z;
  ledger : list LedgerRow.t;
  outbox : list OutboxRow.t;
  outbox_seq : Z;
  agent_runs : option (list AgentRunRow.t)
}.

#[global] Instance rebuild_ddb : Rebuild ddb := fun d =>
  mkDdb (delegations d) (members d) (snapshots d) (results d) (events d) (event_seq d) (ledger d)
    (outbox d) (outbox_seq d) (agent_runs d).

Definition empty_ddb : ddb := mkDdb [] [] [] [] [] 0 [] [] 0 (Some []).

(** * SQL on a table *)

(** [UPDATE ... SET f WHERE p], and the rows it touches. *)
Definition update_where {A} (p : A -> bool) (f : A -> A) (l : list A) : list A :=
  map (fun x => if p x then f x else x) l.
Definition rowcount {A} (p : A -> bool) (l : list A) : nat := length (List.filter p l).

(** [LIMIT n]: no limit when negative. *)
Definition sql_limit {A} (n : Z) (l : list A) : list A := if n <? 0 then l else take (Z.to_nat n) l.

Definition by_id (delegation_id : string) (d : Delegation.t) : bool :=
  bool_decide (Delegation.id d = delegation_id).
Definition of_delegation (delegation_id : string) (m : DelegationMember.t) : bool :=
  bool_decide (DelegationMember.delegation_id m = delegation_id).
Definition at_ordinal (delegation_id : string) (ordinal : Z) (m : DelegationMember.t) : bool :=
  of_delegation delegation_id m && bool_decide (DelegationMember.ordinal m = ordinal).

Definition find_delegation (d : ddb) (delegation_id : string) : option Delegation.t :=
  List.find (by_id delegation_id) (delegations d).
Definition find_member (d : ddb) (delegation_id : string) (ordinal : Z) : option DelegationMember.t :=
  List.find (at_ordinal delegation_id ordinal) (members d).

Definition update_delegation (d : ddb) (delegation_id : string) (f : Delegation.t -> Delegation.t) : ddb :=
  d <| delegations := update_where (by_id delegation_id) f (delegations d) |>.

Definition insert_event (d : ddb) (delegation_id kind : string) (payload : list (string * json))
    (member_ordinal : option Z) (run_id : option string) (now : Z) : ddb * DelegationEvent.t :=
  let ev := DelegationEvent.mk (event_seq d + 1) delegation_id kind payload member_ordinal run_id now in
  (d <| events := events d ++ [ev] |> <| event_seq := event_seq d + 1 |>, ev).

(** [json.loads(json.dumps(...))] of a stored result. *)
Definition stored (r : DelegationResult.t) : DelegationResult.t :=
  DelegationResult.mk (DelegationResult.status r) (DelegationResult.summary r)
    (Some (default [] (DelegationResult.structured_data r))) (DelegationResult.artifact_refs r)
    (DelegationResult.error_code r) (DelegationResult.error_message r) (DelegationResult.usage_summary r)
    (DelegationResult.classification r) (DelegationResult.checksum r) (DelegationResult.started_at r)
    (DelegationResult.ended_at r).

Definition adopted_result (d : ddb) (member_id : string) : option ResultRow.t :=
  List.find (fun r => bool_decide (ResultRow.member_id r = Some member_id) && ResultRow.adopted r)
    (results d).

(** * Create *)

(** The rows the transaction inserts break no constraint of the schema: the
    primary keys, [(delegation_id, role, ordinal)], and the [CHECK]s. *)
Definition insertable (d : ddb) (delegation_id : string) (req : DelegationCreateRequest) : bool :=
  let ms := req_members req in
  bool_decide (find_delegation d delegation_id = None)
  && (0 <=? req_budget_total_tokens req)
  && bool_decide (NoDup (map DelegationMember.id (members d ++ ms)))
  && bool_decide (NoDup (map (fun m => (DelegationMember.role m, DelegationMember.ordinal m)) ms))
  && forallb (fun m => (0 <=? DelegationMember.ordinal m) && (0 <=? DelegationMember.budget_tokens m)) ms.

Definition canonical_parent_valid (d : ddb) (req : DelegationCreateRequest) : result unit :=
  match req_canonical_parent_run_id req with
  | None => Return tt
  | Some rid =>
      match agent_runs d with
      | None => Raise OperationalError
      | Some runs =>
          match List.find (fun r => bool_decide (AgentRunRow.id r = rid)) runs with
          | Some r => if bool_decide (AgentRunRow.session_id r = session_id (req_parent req))
                      then Return tt else Raise ValueError
          | None => Raise ValueError
          end
      end
  end.

Definition same_key (req : DelegationCreateRequest) (x : Delegation.t) : bool :=
  bool_decide (source (Delegation.parent x) = source (req_parent req))
  && bool_decide (scope_id (Delegation.parent x) = scope_id (req_parent req))
  && bool_decide (Delegation.delegation_key x = req_delegation_key req).

(** The columns of a member that the insert takes over; the rest start afresh. *)
Definition inserted_member (delegation_id : string) (m : DelegationMember.t) : DelegationMember.t :=
  DelegationMember.new (DelegationMember.id m) delegation_id (DelegationMember.role m)
    (DelegationMember.ordinal m) (DelegationMember.title m) (DelegationMember.instruction m)
    (DelegationMember.skills m) (DelegationMember.allowed_tools m)
    (DelegationMember.execution_session_id m) (DelegationMember.deadline_at m)
    (DelegationMember.budget_tokens m) (DelegationMember.model_override m)
    (DelegationMember.max_runtime_seconds m).

Definition create_or_reconnect_sync (d : ddb) (req : DelegationCreateRequest) (uuid : string) (now : Z)
    : ddb * result Delegation.t :=
  match List.find (same_key req) (delegations d) with
  | Some existing =>
      if negb (bool_decide (Delegation.fingerprint existing = req_fingerprint req))
      then (d, Raise DelegationConflictError) else (d, Return existing)
  | None =>
      match canonical_parent_valid d req with
      | Raise e => (d, Raise e)
      | Return _ =>
          let snapshot_id := "snap-" +:+ uuid in
          let row := Delegation.mk uuid (req_parent req) (req_delegation_key req) (req_fingerprint req)
            (req_join_policy req) (req_aggregation req) (req_deadline_at req) snapshot_id
            (req_budget_total_tokens req) 0 0 DelegationStatus.PENDING 1 None now now None
            (req_canonical_parent_run_id req) in
          if negb (insertable d uuid req) then (d, Raise IntegrityError)
          else
            let d1 := d <| delegations := delegations d ++ [row] |>
              <| members := members d ++ map (inserted_member uuid) (req_members req) |>
              <| snapshots := snapshots d ++ [SnapshotRow.mk snapshot_id uuid (req_snapshot req)] |> in
            let '(d2, _) := insert_event d1 uuid "created"
              [("trace_context", JObj (map (fun kv => (kv.1, JStr kv.2)) (req_trace_context req)))]
              None (Some (run_id (req_parent req))) now in
            (d2, Return row)
      end
  end.

(** * Reads *)

Definition get_sync (d : ddb) (delegation_id : string) : option Delegation.t :=
  find_delegation d delegation_id.

Definition list_execution_session_ids_for_parent_sync (d : ddb) (parent_session_id : string)
    : list string :=
  List.filter (fun s => negb (bool_decide (s = "")))
    (map DelegationMember.execution_session_id
       (List.filter (fun m => existsb (fun x => by_id (DelegationMember.delegation_id m) x
                       && bool_decide (session_id (Delegation.parent x) = parent_session_id))
                     (delegations d)) (members d))).

(** [ORDER BY created_at DESC LIMIT ? OFFSET ?] *)
Definition newest_leb (a b : Delegation.t) : bool := Delegation.created_at b <=? Delegation.created_at a.

Definition list_for_trusted_scope_sync (d : ddb) (scope : string) (limit : Z) : list Delegation.t :=
  sql_limit limit (order_by newest_leb
    (List.filter (fun x => bool_decide (scope_id (Delegation.parent x) = scope)) (delegations d))).

Definition list_delegations_sync (d : ddb) (limit offset : Z) (scope : option string)
    (status : option DelegationStatus.t) : list Delegation.t :=
  let ok x :=
    match scope with Some s => bool_decide (scope_id (Delegation.parent x) = s) | None => true end
    && match status with Some s => bool_decide (Delegation.status x = s) | None => true end in
  sql_limit limit (drop (Z.to_nat offset) (order_by newest_leb (List.filter ok (delegations d)))).

Definition list_members_sync (d : ddb) (delegation_id : string) : list DelegationMember.t :=
  order_by (fun a b => DelegationMember.ordinal a <=? DelegationMember.ordinal b)
    (List.filter (of_delegation delegation_id) (members d)).

Definition get_policy_snapshot_sync (d : ddb) (delegation_id : string) : option PolicySnapshotRecord :=
  SnapshotRow.record <$>
    List.find (fun s => bool_decide (SnapshotRow.delegation_id s = delegation_id)) (snapshots d).

Definition list_events_sync (d : ddb) (delegation_id : string) (since limit : Z)
    : list DelegationEvent.t :=
  sql_limit limit (List.filter (fun e =>
    bool_decide (DelegationEvent.delegation_id e = delegation_id) && (since <? DelegationEvent.id e))
    (events d)).

(** * Deletion of a session's delegations, with the cascades *)

Definition delete_by_parent_session_sync (d : ddb) (parent_session_id : string) (now : Z) : ddb * Z :=
  let doomed x := bool_decide (session_id (Delegation.parent x) = parent_session_id) in
  let ids := map Delegation.id (List.filter doomed (delegations d)) in
  let keep delegation_id := negb (bool_decide (delegation_id ∈ ids)) in
  let member_ids := map DelegationMember.id
    (List.filter (fun m => negb (keep (DelegationMember.delegation_id m))) (members d)) in
  let stamp r := match AgentRunRow.delegation_member_id r with
                 | Some m => if bool_decide (m ∈ member_ids)
                             then r <| AgentRunRow.business_owner_deleted_at := Some now |> else r
                 | None => r
                 end in
  (d <| agent_runs := map stamp <$> agent_runs d |>
     <| delegations := List.filter (fun x => negb (doomed x)) (delegations d) |>
     <| members := List.filter (fun m => keep (DelegationMember.delegation_id m)) (members d) |>
     <| snapshots := List.filter (fun s => keep (SnapshotRow.delegation_id s)) (snapshots d) |>
     <| results := List.filter (fun r => keep (ResultRow.delegation_id r)) (results d) |>
     <| events := List.filter (fun e => keep (DelegationEvent.delegation_id e)) (events d) |>
     <| ledger := List.filter (fun l => keep (LedgerRow.delegation_id l)) (ledger d) |>
     <| outbox := List.filter (fun o => keep (OutboxRow.delegation_id o)) (outbox d) |>,
   Z.of_nat (length ids)).

(** * Events *)

Definition append_event_sync (d : ddb) (delegation_id kind : string) (payload : list (string * json))
    (member_ordinal : option Z) (now : Z) : ddb * result DelegationEvent.t :=
  if bool_decide (find_delegation d delegation_id = None) then (d, Raise IntegrityError)
  else let '(d', ev) := insert_event d delegation_id kind payload member_ordinal None now in
       (d', Return ev).

(** * Claims *)

Definition claim_member_sync (d : ddb) (delegation_id : string) (member_ordinal : Z)
    (lock : string) (lease_seconds now : Z) : ddb * result ClaimMemberResult :=
  let expires := now + seconds lease_seconds in
  let pending m := at_ordinal delegation_id member_ordinal m
    && bool_decide (DelegationMember.status m = DelegationMemberStatus.PENDING) in
  let claimed m := m <| DelegationMember.status := DelegationMemberStatus.RUNNING |>
    <| DelegationMember.claim_lock := Some lock |>
    <| DelegationMember.claim_expires_at := Some expires |>
    <| DelegationMember.started_at := Some (default now (DelegationMember.started_at m)) |>
    <| DelegationMember.version := DelegationMember.version m + 1 |> in
  let d' := d <| members := update_where pending claimed (members d) |> in
  if bool_decide (rowcount pending (members d) = 1%nat) then
    match find_delegation d' delegation_id, find_member d' delegation_id member_ordinal with
    | Some x, Some m => (d', Return (mkClaimMemberResult MutationOutcome.SUCCESS (Some m) (Some x)))
    | _, _ => (d', Raise TypeError)
    end
  else
    match find_member d' delegation_id member_ordinal with
    | None => (d', Return (mkClaimMemberResult MutationOutcome.BUSY None None))
    | Some m =>
        if bool_decide (DelegationMember.claim_lock m = Some lock)
           && bool_decide (DelegationMember.status m = DelegationMemberStatus.RUNNING)
        then (d', Return (mkClaimMemberResult MutationOutcome.IDEMPOTENT_REPLAY (Some m)
                            (find_delegation d' delegation_id)))
        else if DelegationMember.is_terminal m
        then (d', Return (mkClaimMemberResult MutationOutcome.BUSY None None))
        else (d', Return (mkClaimMemberResult MutationOutcome.CONFLICT None None))
    end.

Definition finish_refused (o : MutationOutcome.t) : result FinishMemberResult :=
  Return (mkFinishMemberResult o None None).

Definition member_by_id (member_id : string) (m : DelegationMember.t) : bool :=
  bool_decide (DelegationMember.id m = member_id).

Definition finish_member_sync (d : ddb) (delegation_id : string) (member_ordinal : Z)
    (lock : string) (r : DelegationResult.t) (expected_version now : Z)
    : ddb * result FinishMemberResult :=
  match find_member d delegation_id member_ordinal with
  | None => (d, finish_refused MutationOutcome.BUSY)
  | Some member =>
      if DelegationMember.is_terminal member then
        match adopted_result d (DelegationMember.id member) with
        | Some existing =>
            if bool_decide (DelegationResult.checksum (ResultRow.record existing)
                            = DelegationResult.checksum r)
            then (d, Return (mkFinishMemberResult MutationOutcome.IDEMPOTENT_REPLAY (Some member)
                               (find_delegation d delegation_id)))
            else (d, finish_refused MutationOutcome.CONFLICT)
        | None => (d, finish_refused MutationOutcome.CONFLICT)
        end
      else if negb (bool_decide (DelegationMember.status member = DelegationMemberStatus.RUNNING))
      then (d, finish_refused MutationOutcome.BUSY)
      else if negb (bool_decide (DelegationMember.claim_lock member = Some lock))
              || negb (DelegationMember.version member =? expected_version)
      then (d, finish_refused MutationOutcome.CONFLICT)
      else if bool_decide (is_Some (adopted_result d (DelegationMember.id member)))
      then (d, Raise IntegrityError)
      else
        let ended m := m <| DelegationMember.status := DelegationResult.status r |>
          <| DelegationMember.ended_at := Some now |>
          <| DelegationMember.version := DelegationMember.version m + 1 |> in
        let d1 := d <| members := update_where (member_by_id (DelegationMember.id member)) ended (members d) |>
          <| results := results d ++ [ResultRow.mk delegation_id MemberScope
                (Some (DelegationMember.id member)) (stored r) true] |> in
        match find_delegation d1 delegation_id with
        | None => (d, Raise IntegrityError)
        | Some x =>
            let d2 := update_delegation d1 delegation_id
                        (fun x => x <| Delegation.updated_at := now |>) in
            (d2, Return (mkFinishMemberResult MutationOutcome.SUCCESS
                           (List.find (member_by_id (DelegationMember.id member)) (members d2)) (Some x)))
        end
  end.

(** * The token ledger *)

Definition balance (x : Delegation.t) : Z :=
  Delegation.budget_total_tokens x - Delegation.budget_reserved_tokens x
  - Delegation.budget_settled_tokens x.

Definition by_reservation (reservation_id : string) (l : LedgerRow.t) : bool :=
  bool_decide (LedgerRow.reservation_id l = reservation_id).

Definition reserve_ledger_sync (d : ddb) (delegation_id : string) (amount : Z) (purpose uuid : string)
    (now : Z) : ddb * result LedgerResult :=
  let reservation_id := "res-" +:+ uuid in
  match find_delegation d delegation_id with
  | None => (d, Return (mkLedgerResult MutationOutcome.BUSY None None))
  | Some x =>
      if balance x <? amount then (d, Return (mkLedgerResult MutationOutcome.CONFLICT None None))
      else if (amount <? 0) || (Delegation.budget_reserved_tokens x + amount <? 0)
              || existsb (by_reservation reservation_id) (ledger d)
      then (d, Raise IntegrityError)
      else
        ((update_delegation d delegation_id (fun x =>
           x <| Delegation.budget_reserved_tokens := Delegation.budget_reserved_tokens x + amount |>
             <| Delegation.updated_at := now |>))
         <| ledger := ledger d ++ [LedgerRow.mk delegation_id reservation_id purpose amount amount 0 0 None] |>,
         Return (mkLedgerResult MutationOutcome.SUCCESS (Some reservation_id) (Some (balance x - amount))))
  end.

(** The tail of a settle or release: takes [reserved] back from the delegation,
    adds [actual] to what is settled. *)
Definition move_reserved (d : ddb) (delegation_id reservation_id : string) (mark : LedgerRow.t -> LedgerRow.t)
    (reserved actual now : Z) : ddb * result LedgerResult :=
  let d1 := (update_delegation d delegation_id (fun x =>
       x <| Delegation.budget_reserved_tokens := Delegation.budget_reserved_tokens x - reserved |>
         <| Delegation.budget_settled_tokens := Delegation.budget_settled_tokens x + actual |>
         <| Delegation.updated_at := now |>))
     <| ledger := update_where (by_reservation reservation_id) mark (ledger d) |> in
  match find_delegation d1 delegation_id with
  | None => (d, Raise TypeError)
  | Some x =>
      if (Delegation.budget_reserved_tokens x <? 0) || (Delegation.budget_settled_tokens x <? 0)
      then (d, Raise IntegrityError)
      else (d1, Return (mkLedgerResult MutationOutcome.SUCCESS (Some reservation_id) (Some (balance x))))
  end.

Definition settle_ledger_sync (d : ddb) (delegation_id reservation_id : string) (actual : Z)
    (usage_event_id : option string) (now : Z) : ddb * result LedgerResult :=
  let replay := match usage_event_id with
    | Some u => List.find (fun l => bool_decide (LedgerRow.usage_event_id l = Some u)
                                    && (0 <? LedgerRow.settled l)) (ledger d)
    | None => None
    end in
  match replay with
  | Some existing =>
      (d, Return (mkLedgerResult MutationOutcome.IDEMPOTENT_REPLAY
                    (Some (LedgerRow.reservation_id existing)) (balance <$> find_delegation d delegation_id)))
  | None =>
      match List.find (by_reservation reservation_id) (ledger d) with
      | None => (d, Return (mkLedgerResult MutationOutcome.CONFLICT None None))
      | Some row =>
          if 0 <? LedgerRow.settled row
          then (d, Return (mkLedgerResult MutationOutcome.IDEMPOTENT_REPLAY (Some reservation_id) None))
          else if actual <? 0 then (d, Raise IntegrityError)
          else move_reserved d delegation_id reservation_id
                 (fun l => l <| LedgerRow.settled := actual |>
                             <| LedgerRow.usage_event_id := usage_event_id |>)
                 (LedgerRow.reserved row) actual now
      end
  end.

Definition release_ledger_sync (d : ddb) (delegation_id reservation_id : string) (now : Z)
    : ddb * result LedgerResult :=
  match List.find (by_reservation reservation_id) (ledger d) with
  | None => (d, Return (mkLedgerResult MutationOutcome.CONFLICT None None))
  | Some row =>
      if (0 <? LedgerRow.released row) || (0 <? LedgerRow.settled row)
      then (d, Return (mkLedgerResult MutationOutcome.IDEMPOTENT_REPLAY (Some reservation_id) None))
      else move_reserved d delegation_id reservation_id
             (fun l => l <| LedgerRow.released := LedgerRow.reserved row |>)
             (LedgerRow.reserved row) 0 now
  end.

(** * Cancellation *)

Definition live_member (m : DelegationMember.t) : bool := negb (DelegationMember.is_terminal m).

Definition request_cancel_sync (d : ddb) (delegation_id reason : string) (now : Z)
    : ddb * result Delegation.t :=
  match find_delegation d delegation_id with
  | None => (d, Raise DelegationConflictError)
  | Some x =>
      if Delegation.is_terminal x then (d, Return x)
      else if bool_decide (Delegation.status x = DelegationStatus.CANCELLING)
              && existsb (fun o => bool_decide (OutboxRow.delegation_id o = delegation_id)) (outbox d)
      then (d, Return x)
      else
        let d1 := (update_delegation d delegation_id (fun x =>
              x <| Delegation.status := DelegationStatus.CANCELLING |> <| Delegation.updated_at := now |>))
          <| members := update_where (fun m => of_delegation delegation_id m && live_member m)
               (fun m => m <| DelegationMember.cancel_requested_at := Some now |>) (members d) |>
          <| outbox := outbox d ++ [OutboxRow.mk (outbox_seq d + 1) delegation_id None reason 0 now None] |>
          <| outbox_seq := outbox_seq d + 1 |> in
        let '(d2, _) := insert_event d1 delegation_id "cancel_requested" [("reason", JStr reason)]
                          None None now in
        match find_delegation d2 delegation_id with
        | Some x' => (d2, Return x')
        | None => (d2, Raise TypeError)
        end
  end.

Definition list_outbox_pending_sync (d : ddb) (limit : Z) : list OutboxRow.t :=
  sql_limit limit
    (order_by (fun a b => OutboxRow.next_attempt_at a <=? OutboxRow.next_attempt_at b)
       (List.filter (fun o => bool_decide (OutboxRow.acked_at o = None)) (outbox d))).

Definition ack_outbox_sync (d : ddb) (entry_id now : Z) : ddb :=
  d <| outbox := update_where (fun o => bool_decide (OutboxRow.id o = entry_id)
                                        && bool_decide (OutboxRow.acked_at o = None))
                   (fun o => o <| OutboxRow.acked_at := Some now |>) (outbox d) |>.

Definition cancel_pending_members_sync (d : ddb) (delegation_id reason : string) (now : Z) : ddb * Z :=
  let p m := of_delegation delegation_id m && live_member m in
  (d <| members := update_where p (fun m =>
          m <| DelegationMember.status := DelegationMemberStatus.CANCELLED |>
            <| DelegationMember.cancel_reason := Some (str_or (Some reason) "cancelled") |>
            <| DelegationMember.ended_at := Some now |>
            <| DelegationMember.version := DelegationMember.version m + 1 |>) (members d) |>,
   Z.of_nat (rowcount p (members d))).

(** * Results *)

Definition member_result (d : ddb) (m : DelegationMember.t) : DelegationResult.t :=
  match adopted_result d (DelegationMember.id m) with
  | Some row => ResultRow.record row
  | None => DelegationResult.bare (DelegationMember.status m)
  end.

Definition aggregation_row (d : ddb) (delegation_id : string) : option ResultRow.t :=
  List.find (fun r => bool_decide (ResultRow.delegation_id r = delegation_id)
                      && bool_decide (ResultRow.scope r = DelegationScope) && ResultRow.adopted r)
    (results d).

Definition get_result_set_sync (d : ddb) (delegation_id : string) : option DelegationResultSet :=
  match find_delegation d delegation_id with
  | None => None
  | Some x =>
      let ms := list_members_sync d delegation_id in
      if negb (forallb DelegationMember.is_terminal ms) then None
      else Some (evaluate_join_outcome delegation_id (Delegation.join_policy x)
                   (Delegation.aggregation x) (map (member_result d) ms)
                   (ResultRow.record <$> aggregation_row d delegation_id) false None [] None)
  end.

(** * Recovery and scheduling *)

Definition mark_expired_sync (d : ddb) (now : Z) : ddb * Z :=
  let p x := match Delegation.deadline_at x with Some at_ => at_ <? now | None => false end
             && negb (Delegation.is_terminal x) in
  (d <| delegations := update_where p (fun x =>
          x <| Delegation.status := DelegationStatus.EXPIRED |> <| Delegation.updated_at := now |>)
          (delegations d) |>,
   Z.of_nat (rowcount p (delegations d))).

Definition mark_stale_sync (d : ddb) (now : Z) : ddb * Z :=
  let p m := bool_decide (DelegationMember.status m = DelegationMemberStatus.RUNNING)
    && match DelegationMember.claim_expires_at m with Some at_ => at_ <? now | None => false end in
  (d <| members := update_where p (fun m =>
          m <| DelegationMember.status := DelegationMemberStatus.PENDING |>
            <| DelegationMember.claim_lock := None |>
            <| DelegationMember.claim_expires_at := None |>
            <| DelegationMember.version := DelegationMember.version m + 1 |>) (members d) |>,
   Z.of_nat (rowcount p (members d))).

(** [ORDER BY delegation_id, ordinal] *)
Definition pending_leb (a b : DelegationMember.t) : bool :=
  let da := DelegationMember.delegation_id a in
  let db := DelegationMember.delegation_id b in
  if bool_decide (da = db) then DelegationMember.ordinal a <=? DelegationMember.ordinal b
  else String.leb da db.

Definition list_pending_members_sync (d : ddb) (limit : Z) : list DelegationMember.t :=
  sql_limit limit (order_by pending_leb
    (List.filter (fun m => bool_decide (DelegationMember.status m = DelegationMemberStatus.PENDING))
       (members d))).

Definition list_active_delegations_sync (d : ddb) (limit : Z) : list Delegation.t :=
  sql_limit limit (order_by (fun a b => Delegation.created_at a <=? Delegation.created_at b)
    (List.filter (fun x => negb (Delegation.is_terminal x)) (delegations d))).

(** [UPDATE delegations SET status = ... WHERE id = ?] *)
Definition set_status (d : ddb) (delegation_id : string) (s : DelegationStatus.t) (now : Z) : ddb :=
  update_delegation d delegation_id (fun x =>
    x <| Delegation.status := s |> <| Delegation.updated_at := now |>).

Definition finalize_cancelled_sync (d : ddb) (delegation_id : string) (now : Z)
    : ddb * option Delegation.t :=
  match find_delegation d delegation_id with
  | None => (d, None)
  | Some x =>
      if negb (bool_decide (Delegation.status x = DelegationStatus.CANCELLING)) then (d, Some x)
      else if (0 <? rowcount (fun m => of_delegation delegation_id m && live_member m) (members d))%nat
      then (d, Some x)
      else
        let d1 := set_status d delegation_id DelegationStatus.CANCELLED now in
        let d2 := (insert_event d1 delegation_id "cancelled" [] None None now).1 in
        (d2, find_delegation d2 delegation_id)
  end.

Definition advance_to_joining_sync (d : ddb) (delegation_id : string) (now : Z)
    : ddb * option Delegation.t :=
  match find_delegation d delegation_id with
  | None => (d, None)
  | Some x =>
      if negb (bool_decide (Delegation.status x = DelegationStatus.RUNNING)) then (d, Some x)
      else let d1 := set_status d delegation_id DelegationStatus.JOINING now in
           (d1, find_delegation d1 delegation_id)
  end.

Definition start_delegation_sync (d : ddb) (delegation_id : string) (now : Z)
    : ddb * option Delegation.t :=
  match find_delegation d delegation_id with
  | None => (d, None)
  | Some x =>
      if negb (bool_decide (Delegation.status x = DelegationStatus.PENDING)) then (d, Some x)
      else
        let d1 := set_status d delegation_id DelegationStatus.RUNNING now in
        let d2 := (insert_event d1 delegation_id "started" [] None None now).1 in
        (d2, find_delegation d2 delegation_id)
  end.

Definition finalize_result_set_sync (d : ddb) (delegation_id : string) (status : DelegationStatus.t)
    (now : Z) : ddb * option Delegation.t :=
  let p x := by_id delegation_id x && bool_decide (Delegation.status x = DelegationStatus.JOINING) in
  if bool_decide (rowcount p (delegations d) = 0%nat) then (d, None)
  else
    let d1 := d <| delegations := update_where p (fun x =>
        x <| Delegation.status := status |> <| Delegation.updated_at := now |>) (delegations d) |> in
    let d2 := (insert_event d1 delegation_id (DelegationStatus.value status) [] None None now).1 in
    (d2, find_delegation d2 delegation_id).
