(* ===== verification/DelegationInv.v ===== *)
(** What the delegation registry guarantees over every sequence of its
    operations: keys stay unique, members belong to a delegation, statuses move
    along the transition tables, versions grow with every status change, and a
    member has at most one adopted result, its own. *)
From S2P Require Import Prelude DelegationDomain DelegationStore.

(** * Operations as data *)

Inductive op : Type :=
  | DCreate (req : DelegationCreateRequest) (uuid : string) (now : Z)
  | DAppendEvent (did kind : string) (payload : list (string * json)) (ordinal : option Z) (now : Z)
  | DClaim (did : string) (ordinal : Z) (lock : string) (lease now : Z)
  | DFinish (did : string) (ordinal : Z) (lock : string) (r : DelegationResult.t) (version now : Z)
  | DReserve (did : string) (amount : Z) (purpose uuid : string) (now : Z)
  | DSettle (did reservation : string) (actual : Z) (usage_event_id : option string) (now : Z)
  | DRelease (did reservation : string) (now : Z)
  | DRequestCancel (did reason : string) (now : Z)
  | DAck (entry_id now : Z)
  | DCancelMembers (did reason : string) (now : Z)
  | DExpire (now : Z)
  | DStale (now : Z)
  | DFinalizeCancelled (did : string) (now : Z)
  | DAdvance (did : string) (now : Z)
  | DStart (did : string) (now : Z)
  | DFinalizeResult (did : string) (status : DelegationStatus.t) (now : Z)
  | DDeleteSession (session : string) (now : Z).

Definition exec (d : ddb) (o : op) : ddb :=
  match o with
  | DCreate req uuid now => (create_or_reconnect_sync d req uuid now).1
  | DAppendEvent did k p n now => (append_event_sync d did k p n now).1
  | DClaim did n lock lease now => (claim_member_sync d did n lock lease now).1
  | DFinish did n lock r v now => (finish_member_sync d did n lock r v now).1
  | DReserve did a p u now => (reserve_ledger_sync d did a p u now).1
  | DSettle did r a u now => (settle_ledger_sync d did r a u now).1
  | DRelease did r now => (release_ledger_sync d did r now).1
  | DRequestCancel did r now => (request_cancel_sync d did r now).1
  | DAck e now => ack_outbox_sync d e now
  | DCancelMembers did r now => (cancel_pending_members_sync d did r now).1
  | DExpire now => (mark_expired_sync d now).1
  | DStale now => (mark_stale_sync d now).1
  | DFinalizeCancelled did now => (finalize_cancelled_sync d did now).1
  | DAdvance did now => (advance_to_joining_sync d did now).1
  | DStart did now => (start_delegation_sync d did now).1
  | DFinalizeResult did s now => (finalize_result_set_sync d did s now).1
  | DDeleteSession s now => (delete_by_parent_session_sync d s now).1
  end.

(** The callers number the members of a delegation apart, report terminal
    results, and join to a success or a failure. *)
Definition op_ok (o : op) : Prop :=
  match o with
  | DCreate req _ _ => NoDup (map DelegationMember.ordinal (req_members req))
  | DFinish _ _ _ r _ _ => DelegationResult.status r ∈ DELEGATION_MEMBER_TERMINAL_STATES
  | DFinalizeResult _ s _ => s ∈ [DelegationStatus.SUCCEEDED; DelegationStatus.FAILED]
  | _ => True
  end.

Inductive history : ddb -> list op -> ddb -> Prop :=
  | history_nil d : history d [] d
  | history_cons d o ops d' : op_ok o -> history (exec d o) ops d' -> history d (o :: ops) d'.

Definition reachable (d : ddb) : Prop := exists ops, history empty_ddb ops d.

(** * Steps of one row *)

Record delegation_step (x x' : Delegation.t) : Prop := {
  dstep_id : Delegation.id x' = Delegation.id x;
  dstep_parent : Delegation.parent x' = Delegation.parent x;
  dstep_key : Delegation.delegation_key x' = Delegation.delegation_key x;
  dstep_fingerprint : Delegation.fingerprint x' = Delegation.fingerprint x;
  dstep_join : Delegation.join_policy x' = Delegation.join_policy x;
  dstep_aggregation : Delegation.aggregation x' = Delegation.aggregation x;
  dstep_total : Delegation.budget_total_tokens x' = Delegation.budget_total_tokens x;
  dstep_version : Delegation.version x' = Delegation.version x;
  dstep_status : Delegation.status x' = Delegation.status x
    \/ Delegation.status x' ∈ DELEGATION_TRANSITION_TABLE (Delegation.status x)
}.

Definition member_still (m m' : DelegationMember.t) : Prop :=
  DelegationMember.status m' = DelegationMember.status m
  /\ DelegationMember.version m' = DelegationMember.version m
  /\ DelegationMember.claim_lock m' = DelegationMember.claim_lock m.

Definition member_moved (m m' : DelegationMember.t) : Prop :=
  DelegationMember.status m' ∈ DELEGATION_MEMBER_TRANSITION_TABLE (DelegationMember.status m)
  /\ DelegationMember.version m' = DelegationMember.version m + 1.

Record member_step (m m' : DelegationMember.t) : Prop := {
  mstep_id : DelegationMember.id m' = DelegationMember.id m;
  mstep_delegation : DelegationMember.delegation_id m' = DelegationMember.delegation_id m;
  mstep_ordinal : DelegationMember.ordinal m' = DelegationMember.ordinal m;
  mstep_retry : DelegationMember.retry_count m' = DelegationMember.retry_count m;
  mstep_status : member_still m m' \/ member_moved m m'
}.

(** * The invariant *)

(** A stored result is the adopted one of a member that has ended with it. *)
Definition result_of (d : ddb) (r : ResultRow.t) : Prop :=
  ResultRow.scope r = MemberScope /\ ResultRow.adopted r = true
  /\ exists m, m ∈ members d /\ ResultRow.member_id r = Some (DelegationMember.id m)
     /\ ResultRow.delegation_id r = DelegationMember.delegation_id m
     /\ DelegationResult.status (ResultRow.record r) = DelegationMember.status m
     /\ DelegationMember.is_terminal m = true.

Definition place (m : DelegationMember.t) : string * Z :=
  (DelegationMember.delegation_id m, DelegationMember.ordinal m).

Record ddb_ok (d : ddb) : Prop := {
  ok_delegation_ids : NoDup (map Delegation.id (delegations d));
  ok_member_ids : NoDup (map DelegationMember.id (members d));
  ok_places : NoDup (map place (members d));
  ok_owned : forall m, m ∈ members d -> exists x, x ∈ delegations d
      /\ Delegation.id x = DelegationMember.delegation_id m;
  ok_results : forall r, r ∈ results d -> result_of d r;
  ok_results_unique : NoDup (map ResultRow.member_id (results d))
}.

(** How one operation changes the delegations and members; [gone] holds of the
    sessions whose delegations it deletes. *)
Inductive db_step (gone : string -> Prop) (d d' : ddb) : Prop :=
  | step_rows (f : Delegation.t -> Delegation.t) (g : DelegationMember.t -> DelegationMember.t) :
      delegations d' = map f (delegations d) ->
      (forall x, x ∈ delegations d -> delegation_step x (f x)) ->
      members d' = map g (members d) ->
      (forall m, m ∈ members d -> member_step m (g m)) ->
      (results d' = results d
       \/ exists r m, results d' = results d ++ [r] /\ m ∈ members d
          /\ DelegationMember.is_terminal m = false
          /\ ResultRow.scope r = MemberScope /\ ResultRow.adopted r = true
          /\ ResultRow.member_id r = Some (DelegationMember.id m)
          /\ ResultRow.delegation_id r = DelegationMember.delegation_id m
          /\ DelegationResult.status (ResultRow.record r) = DelegationMember.status (g m)
          /\ DelegationMember.is_terminal (g m) = true) ->
      db_step gone d d'
  | step_create (req : DelegationCreateRequest) (uuid : string) (x : Delegation.t) :
      delegations d' = delegations d ++ [x] -> Delegation.id x = uuid ->
      find_delegation d uuid = None -> List.find (same_key req) (delegations d) = None ->
      same_key req x = true ->
      members d' = members d ++ map (inserted_member uuid) (req_members req) ->
      NoDup (map DelegationMember.id (members d ++ req_members req)) ->
      NoDup (map DelegationMember.ordinal (req_members req)) ->
      results d' = results d -> db_step gone d d'
  | step_delete (session : string) :
      gone session ->
      let ids := map Delegation.id (List.filter (fun x =>
        bool_decide (session_id (Delegation.parent x) = session)) (delegations d)) in
      delegations d' = List.filter (fun x =>
        negb (bool_decide (session_id (Delegation.parent x) = session))) (delegations d) ->
      members d' = List.filter (fun m =>
        negb (bool_decide (DelegationMember.delegation_id m ∈ ids))) (members d) ->
      results d' = List.filter (fun r =>
        negb (bool_decide (ResultRow.delegation_id r ∈ ids))) (results d) ->
      db_step gone d d'.

(** * Lemmas: rows *)

Lemma delegation_step_refl x : delegation_step x x.
Proof. split; auto. Qed.

Lemma member_step_refl m : member_step m m.
Proof. split; auto. left. by split. Qed.

Lemma update_where_step {A} (R : A -> A -> Prop) p f (l : list A) :
  (forall x, R x x) -> (forall x, x ∈ l -> p x = true -> R x (f x)) ->
  forall x, x ∈ l -> R x (if p x then f x else x).
Proof. intros Hrefl H x Hx. destruct (p x) eqn:E; auto. Qed.

Lemma terminal_no_moves m :
  DelegationMember.is_terminal m = true ->
  DELEGATION_MEMBER_TRANSITION_TABLE (DelegationMember.status m) = [].
Proof. unfold DelegationMember.is_terminal. by destruct (DelegationMember.status m). Qed.

Lemma terminal_stays m m' :
  DelegationMember.is_terminal m = true -> member_step m m' ->
  DelegationMember.status m' = DelegationMember.status m.
Proof.
  intros Ht [_ _ _ _ [(? & _)|[Hin _]]]; [done|].
  rewrite (terminal_no_moves _ Ht) in Hin. by apply elem_of_nil in Hin.
Qed.

Lemma is_terminal_status m m' :
  DelegationMember.status m' = DelegationMember.status m ->
  DelegationMember.is_terminal m' = DelegationMember.is_terminal m.
Proof. unfold DelegationMember.is_terminal. by intros ->. Qed.

(** * Lemmas: the shapes of a step *)

Section shapes.
Context (gone : string -> Prop) (d d' : ddb).

Lemma step_same :
  delegations d' = delegations d -> members d' = members d -> results d' = results d -> db_step gone d d'.
Proof.
  intros Hd Hm Hr. apply (step_rows _ _ _ id id); rewrite ?map_id; auto using delegation_step_refl, member_step_refl.
Qed.

Lemma step_delegations p f :
  delegations d' = update_where p f (delegations d) -> members d' = members d ->
  results d' = results d ->
  (forall x, x ∈ delegations d -> p x = true -> delegation_step x (f x)) -> db_step gone d d'.
Proof.
  intros Hd Hm Hr Hf. apply (step_rows _ _ _ (fun x => if p x then f x else x) id); rewrite ?map_id; auto.
  - apply update_where_step; auto using delegation_step_refl.
  - auto using member_step_refl.
Qed.

Lemma step_members p f :
  delegations d' = delegations d -> members d' = update_where p f (members d) ->
  results d' = results d ->
  (forall m, m ∈ members d -> p m = true -> member_step m (f m)) -> db_step gone d d'.
Proof.
  intros Hd Hm Hr Hf. apply (step_rows _ _ _ id (fun m => if p m then f m else m)); rewrite ?map_id; auto.
  - auto using delegation_step_refl.
  - apply update_where_step; auto using member_step_refl.
Qed.
End shapes.

(** * Lemmas: the invariant is kept *)

Lemma step_rows_result d d' g r :
  members d' = map g (members d) -> (forall m, m ∈ members d -> member_step m (g m)) ->
  result_of d r -> result_of d' r.
Proof.
  intros Hm Hg (Hs & Ha & m & Hin & Hid & Hdid & Hst & Ht). split; [done|]. split; [done|].
  exists (g m). pose proof (Hg m Hin) as Hstep. pose proof (terminal_stays _ _ Ht Hstep) as Hsame.
  destruct Hstep as [H1 H2 _ _ _]. rewrite Hm, H1, H2, Hsame, (is_terminal_status _ _ Hsame).
  split_and!; auto. by apply list_elem_of_fmap_2.
Qed.

Lemma step_ok gone d d' : db_step gone d d' -> ddb_ok d -> ddb_ok d'.
Proof.
  intros Hstep [Hid Hmid Hpl Hown Hres Hru].
  destruct Hstep as [f g Hd Hf Hm Hg Hr|req uuid x Hd Hx Hfresh Hkey Hsame Hm Hnm Hno Hr|session _ ids Hd Hm Hr].
  - assert (forall m, m ∈ members d -> DelegationMember.id (g m) = DelegationMember.id m) as Hgi
      by (intros m Hin; apply (mstep_id _ _ (Hg m Hin))).
    assert (forall m, m ∈ members d -> place (g m) = place m) as Hgp.
    { intros m Hin. destruct (Hg m Hin) as [_ H1 H2 _ _]. unfold place. by rewrite H1, H2. }
    split.
    + rewrite Hd, map_map_id; [done|]. intros x Hx. apply (dstep_id _ _ (Hf x Hx)).
    + by rewrite Hm, map_map_id.
    + by rewrite Hm, map_map_id.
    + intros m' Hin. rewrite Hm in Hin. apply list_elem_of_fmap in Hin as (m & -> & Hin).
      destruct (Hown m Hin) as (x & Hx & Heq). exists (f x). rewrite Hd.
      split; [by apply list_elem_of_fmap_2|].
      by rewrite (dstep_id _ _ (Hf x Hx)), (mstep_delegation _ _ (Hg m Hin)).
    + intros r Hin. destruct Hr as [Hr|(r0 & m & Hr & Hinm & Hlive & Hs & Ha & Hrm & Hrd & Hst & Ht)];
        rewrite Hr in Hin.
      * by eapply step_rows_result; eauto.
      * apply elem_of_app in Hin as [Hin| ->%list_elem_of_singleton]; [by eapply step_rows_result; eauto|].
        split; [done|]. split; [done|]. exists (g m).
        rewrite Hgi, (mstep_delegation _ _ (Hg m Hinm)), Hm by done.
        split_and!; auto. by apply list_elem_of_fmap_2.
    + destruct Hr as [->|(r0 & m & -> & Hinm & Hlive & _ & _ & Hrm & _)]; [done|].
      rewrite List.map_app. apply NoDup_app. split; [done|]. split; [|apply NoDup_singleton].
      intros k Hk ->%list_elem_of_singleton. apply list_elem_of_fmap in Hk as (r & Heq & Hin).
      destruct (Hres r Hin) as (_ & _ & m2 & Hin2 & Hid2 & _ & _ & Ht2).
      rewrite Hrm, Hid2 in Heq. injection Heq as Heq.
      assert (m2 = m) as -> by (by apply (NoDup_map_inj DelegationMember.id (members d))). congruence.
  - assert (uuid ∉ map Delegation.id (delegations d)) as Hnew.
    { intros Hin. apply list_elem_of_fmap in Hin as (y & Hy & Hin).
      unfold find_delegation in Hfresh. apply List.find_none with (x := y) in Hfresh.
      - unfold by_id in Hfresh. by rewrite bool_decide_eq_false in Hfresh.
      - by apply list_elem_of_In. }
    split.
    + rewrite Hd, List.map_app. simpl. rewrite Hx. apply NoDup_app. split; [done|].
      split; [|apply NoDup_singleton]. by intros k Hk ->%list_elem_of_singleton.
    + rewrite Hm, List.map_app, List.map_map. rewrite List.map_app in Hnm. exact Hnm.
    + rewrite Hm, List.map_app, List.map_map. apply NoDup_app. split; [done|]. split.
      * intros k Hk Hin. apply list_elem_of_fmap in Hk as (m & -> & Hin').
        destruct (Hown m Hin') as (y & Hy & Heq). apply list_elem_of_fmap in Hin as (m2 & Heq2 & _).
        apply (f_equal fst) in Heq2. simpl in Heq2. apply Hnew. rewrite <- Heq2.
        unfold place. simpl. rewrite <- Heq. by apply list_elem_of_fmap_2.
      * replace (map (fun m => place (inserted_member uuid m)) (req_members req))
          with (map (pair uuid) (map DelegationMember.ordinal (req_members req)))
          by (rewrite List.map_map; done).
        apply NoDup_fmap_2; [|done]. by intros ? ? [= ->].
    + intros m Hin. rewrite Hm in Hin. apply elem_of_app in Hin as [Hin|Hin].
      * destruct (Hown m Hin) as (y & Hy & Heq). exists y. rewrite Hd. split; [|done].
        apply elem_of_app. by left.
      * apply list_elem_of_fmap in Hin as (m2 & -> & _). exists x. rewrite Hd. split; [|done].
        apply elem_of_app. right. by apply list_elem_of_singleton.
    + intros r Hin. rewrite Hr in Hin. destruct (Hres r Hin) as (Hs & Ha & m & Hin' & H).
      split; [done|]. split; [done|]. exists m. split; [|done]. rewrite Hm. apply elem_of_app. by left.
    + by rewrite Hr.
  - split.
    + rewrite Hd. by apply NoDup_map_filter.
    + rewrite Hm. by apply NoDup_map_filter.
    + rewrite Hm. by apply NoDup_map_filter.
    + intros m Hin. rewrite Hm in Hin. apply List_filter_elem in Hin as [Hin Hk].
      destruct (Hown m Hin) as (y & Hy & Heq). exists y. split; [|done]. rewrite Hd.
      apply List_filter_elem. split; [done|]. apply negb_true_iff, bool_decide_eq_false in Hk.
      apply negb_true_iff, bool_decide_eq_false. intros Hs. apply Hk. unfold ids. rewrite <- Heq.
      apply list_elem_of_fmap_2, List_filter_elem. split; [done|]. by apply bool_decide_eq_true.
    + intros r Hin. rewrite Hr in Hin. apply List_filter_elem in Hin as [Hin Hk].
      destruct (Hres r Hin) as (Hs & Ha & m & Hin' & Hmid' & Hrd & H).
      split; [done|]. split; [done|]. exists m. split; [|done]. rewrite Hm.
      apply List_filter_elem. by rewrite <- Hrd.
    + rewrite Hr. by apply NoDup_map_filter.
Qed.

(** * Lemmas: every operation is a step *)

Lemma find_delegation_spec d did x :
  find_delegation d did = Some x -> x ∈ delegations d /\ Delegation.id x = did.
Proof.
  intros [Hin Hp]%List.find_some. split; [by apply list_elem_of_In|].
  by apply bool_decide_eq_true in Hp.
Qed.

Lemma at_ordinal_spec did n m :
  at_ordinal did n m = true <-> place m = (did, n).
Proof.
  unfold at_ordinal, of_delegation, place. rewrite andb_true_iff, !bool_decide_eq_true.
  split; [by intros [-> ->]|by intros [= -> ->]].
Qed.

Lemma find_member_spec d did n m :
  find_member d did n = Some m -> m ∈ members d /\ place m = (did, n).
Proof.
  intros [Hin Hp]%List.find_some. split; [by apply list_elem_of_In|]. by apply at_ordinal_spec.
Qed.

Lemma delegation_status_step x s now :
  s = Delegation.status x \/ s ∈ DELEGATION_TRANSITION_TABLE (Delegation.status x) ->
  delegation_step x (x <| Delegation.status := s |> <| Delegation.updated_at := now |>).
Proof. by split. Qed.

Lemma live_delegation_moves x s :
  Delegation.is_terminal x = false -> s ∈ [DelegationStatus.CANCELLING; DelegationStatus.EXPIRED] ->
  s = Delegation.status x \/ s ∈ DELEGATION_TRANSITION_TABLE (Delegation.status x).
Proof.
  unfold Delegation.is_terminal. intros Hl Hs. rewrite !elem_of_cons, elem_of_nil in Hs.
  destruct Hs as [->|[->|[]]]; destruct (Delegation.status x); vm_compute in Hl; try done;
    try (by left); right; by apply (bool_decide_eq_true_1 _).
Qed.

Lemma live_member_moves m s :
  live_member m = true -> s = DelegationMemberStatus.CANCELLED ->
  s ∈ DELEGATION_MEMBER_TRANSITION_TABLE (DelegationMember.status m).
Proof.
  unfold live_member, DelegationMember.is_terminal. intros Hl ->.
  destruct (DelegationMember.status m); vm_compute in Hl; try done; by apply (bool_decide_eq_true_1 _).
Qed.

Lemma terminal_from_running s :
  s ∈ DELEGATION_MEMBER_TERMINAL_STATES ->
  s ∈ DELEGATION_MEMBER_TRANSITION_TABLE DelegationMemberStatus.RUNNING.
Proof. destruct s; intros H%(bool_decide_eq_true_2 _); by apply (bool_decide_eq_true_1 _). Qed.

(** Ledger bookkeeping touches no status. *)
Lemma move_reserved_step gone d did res mark n actual now :
  db_step gone d (move_reserved d did res mark n actual now).1.
Proof.
  unfold move_reserved. case_match; [|by apply step_same]. case_match; [by apply step_same|].
  eapply step_delegations; [reflexivity..|]. intros x _ _. by split; auto.
Qed.

Lemma set_status_step gone d d' did s x now :
  ddb_ok d -> find_delegation d did = Some x ->
  delegations d' = delegations (set_status d did s now) -> members d' = members d ->
  results d' = results d -> s ∈ DELEGATION_TRANSITION_TABLE (Delegation.status x) -> db_step gone d d'.
Proof.
  intros Hok [Hx Hid]%find_delegation_spec Hd Hm Hr Hs.
  eapply step_delegations; [exact Hd|done..|]. intros y Hy Hp. apply bool_decide_eq_true in Hp.
  assert (y = x) as ->.
  { apply (NoDup_map_inj Delegation.id (delegations d)); [apply (ok_delegation_ids _ Hok)|done..|congruence]. }
  apply delegation_status_step. by right.
Qed.

Lemma create_step gone d req uuid now :
  NoDup (map DelegationMember.ordinal (req_members req)) ->
  db_step gone d (create_or_reconnect_sync d req uuid now).1.
Proof.
  intros Hno. unfold create_or_reconnect_sync.
  destruct (List.find (same_key req) (delegations d)) as [x|] eqn:Hkey;
    [case_match; by apply step_same|].
  destruct (canonical_parent_valid d req) as [[]|e]; [|by apply step_same].
  destruct (insertable d uuid req) eqn:Hins; cbn [negb]; [|by apply step_same].
  unfold insertable in Hins. rewrite !andb_true_iff, !bool_decide_eq_true in Hins.
  destruct Hins as [[[[Hfresh _] Hids] _] _].
  eapply (step_create _ _ _ req uuid); [reflexivity|reflexivity|done|done| |reflexivity|done|done|done].
  unfold same_key. simpl. by rewrite !bool_decide_eq_true_2.
Qed.

Lemma finish_step gone d did n lock r v now :
  ddb_ok d -> DelegationResult.status r ∈ DELEGATION_MEMBER_TERMINAL_STATES ->
  db_step gone d (finish_member_sync d did n lock r v now).1.
Proof.
  intros Hok Hterm. unfold finish_member_sync.
  destruct (find_member d did n) as [m|] eqn:Hm; [|by apply step_same].
  apply find_member_spec in Hm as [Hin Hplace].
  destruct (DelegationMember.is_terminal m) eqn:Hlive; [repeat case_match; by apply step_same|].
  case_bool_decide as Hrun; cbn [negb]; [|by apply step_same].
  destruct (negb _ || negb _); [by apply step_same|].
  destruct (bool_decide (is_Some _)); [by apply step_same|].
  match goal with |- db_step _ d (match ?o with _ => _ end).1 => destruct o end; [|by apply step_same].
  cbn [fst].
  set (g := fun m' => if member_by_id (DelegationMember.id m) m' then
      m' <| DelegationMember.status := DelegationResult.status r |>
         <| DelegationMember.ended_at := Some now |>
         <| DelegationMember.version := DelegationMember.version m' + 1 |> else m').
  assert (g m = m <| DelegationMember.status := DelegationResult.status r |>
         <| DelegationMember.ended_at := Some now |>
         <| DelegationMember.version := DelegationMember.version m + 1 |>) as Hgm.
  { unfold g, member_by_id. by rewrite bool_decide_eq_true_2. }
  apply (step_rows _ _ _ (fun x => if by_id did x then x <| Delegation.updated_at := now |> else x) g).
  - reflexivity.
  - apply update_where_step; [apply delegation_step_refl|]. intros y _ _. by split; auto.
  - reflexivity.
  - intros m' Hin'. unfold g. destruct (member_by_id _ m') eqn:Hmid; [|apply member_step_refl].
    apply bool_decide_eq_true in Hmid.
    assert (m' = m) as -> by (by apply (NoDup_map_inj DelegationMember.id (members d)); [apply ok_member_ids|..]).
    split; auto. right. split; [|done]. simpl. rewrite Hrun. by apply terminal_from_running.
  - right. eexists _, m. split; [reflexivity|]. rewrite Hgm.
    split_and!; try done; simpl; unfold place in Hplace; [congruence|].
    unfold DelegationMember.is_terminal. by apply bool_decide_eq_true.
Qed.

Lemma cancel_step gone d did reason now :
  ddb_ok d -> db_step gone d (request_cancel_sync d did reason now).1.
Proof.
  intros Hok. unfold request_cancel_sync.
  destruct (find_delegation d did) as [x|] eqn:Hx; [|by apply step_same].
  apply find_delegation_spec in Hx as [Hin Hid].
  destruct (Delegation.is_terminal x) eqn:Hlive; [by apply step_same|].
  case_match; [by apply step_same|]. cbn -[find_delegation].
  match goal with |- db_step _ d (match find_delegation ?d2 did with _ => _ end).1 => set (dd := d2) end.
  assert (db_step gone d dd); [|by case_match].
  apply (step_rows _ _ _ (fun y => if by_id did y then y <| Delegation.status := DelegationStatus.CANCELLING |>
        <| Delegation.updated_at := now |> else y)
      (fun m => if of_delegation did m && live_member m
                then m <| DelegationMember.cancel_requested_at := Some now |> else m));
    [reflexivity| |reflexivity| |by left].
  - apply update_where_step; [apply delegation_step_refl|]. intros y Hy Hp. apply bool_decide_eq_true in Hp.
    assert (y = x) as -> by
      (apply (NoDup_map_inj Delegation.id (delegations d)); [apply (ok_delegation_ids _ Hok)|done..|congruence]).
    apply delegation_status_step. apply live_delegation_moves; [done|by left].
  - apply update_where_step; [apply member_step_refl|]. intros m _ _. split; auto. left. by split.
Qed.

Theorem exec_step d o :
  ddb_ok d -> op_ok o -> db_step (fun s => exists now, o = DDeleteSession s now) d (exec d o).
Proof.
  intros Hok Ho. destruct o; simpl in *.
  - by apply create_step.
  - apply step_same; unfold append_event_sync; by case_match.
  - unfold claim_member_sync.
    assert (forall d' r, d' = d <| members := update_where (fun m => at_ordinal did ordinal m
        && bool_decide (DelegationMember.status m = DelegationMemberStatus.PENDING))
        (fun m => m <| DelegationMember.status := DelegationMemberStatus.RUNNING |>
           <| DelegationMember.claim_lock := Some lock |>
           <| DelegationMember.claim_expires_at := Some (now + seconds lease) |>
           <| DelegationMember.started_at := Some (default now (DelegationMember.started_at m)) |>
           <| DelegationMember.version := DelegationMember.version m + 1 |>) (members d) |> ->
      db_step (fun s => exists t, DClaim did ordinal lock lease now = DDeleteSession s t) d
        (d', r : result ClaimMemberResult).1) as Hstep.
    { intros d' r ->. eapply step_members; [reflexivity..|].
      intros m _ [_ Hp%bool_decide_eq_true]%andb_true_iff. split; auto. right. split; [|done].
      simpl. rewrite Hp. by left. }
    repeat case_match; by apply Hstep.
  - by apply finish_step.
  - unfold reserve_ledger_sync. repeat (case_match; try by apply step_same).
    eapply step_delegations; [reflexivity..|]. intros x _ _. by split; auto.
  - unfold settle_ledger_sync. repeat (case_match; try by apply step_same); apply move_reserved_step.
  - unfold release_ledger_sync. repeat (case_match; try by apply step_same); apply move_reserved_step.
  - by apply cancel_step.
  - by apply step_same.
  - eapply step_members; [reflexivity..|]. intros m _ [_ Hp]%andb_true_iff. split; auto. right.
    split; [|done]. by apply live_member_moves.
  - eapply step_delegations; [reflexivity..|]. intros x _ [_ Hp%negb_true_iff]%andb_true_iff.
    apply delegation_status_step. apply live_delegation_moves; [done|]. right. by left.
  - eapply step_members; [reflexivity..|]. intros m _ [Hp%bool_decide_eq_true _]%andb_true_iff.
    split; auto. right. split; [|done]. simpl. rewrite Hp. by apply (bool_decide_eq_true_1 _).
  - unfold finalize_cancelled_sync. destruct (find_delegation d did) as [x|] eqn:Hx; [|by apply step_same].
    case_bool_decide as Hs; cbn [negb]; [|by apply step_same]. case_match; [by apply step_same|].
    eapply set_status_step; [done|exact Hx|reflexivity..|]. rewrite Hs. by left.
  - unfold advance_to_joining_sync. destruct (find_delegation d did) as [x|] eqn:Hx; [|by apply step_same].
    case_bool_decide as Hs; cbn [negb]; [|by apply step_same].
    eapply set_status_step; [done|exact Hx|reflexivity..|]. rewrite Hs. by left.
  - unfold start_delegation_sync. destruct (find_delegation d did) as [x|] eqn:Hx; [|by apply step_same].
    case_bool_decide as Hs; cbn [negb]; [|by apply step_same].
    eapply set_status_step; [done|exact Hx|reflexivity..|]. rewrite Hs. by left.
  - unfold finalize_result_set_sync. case_match; [by apply step_same|].
    eapply step_delegations; [reflexivity..|]. intros x _ [_ Hp%bool_decide_eq_true]%andb_true_iff.
    apply delegation_status_step. right. rewrite Hp.
    rewrite !elem_of_cons, elem_of_nil in Ho. destruct Ho as [->|[->|[]]]; by apply (bool_decide_eq_true_1 _).
  - apply (step_delete _ _ _ session); eauto.
Qed.

Lemma empty_ddb_ok : ddb_ok empty_ddb.
Proof. split; simpl; first [by apply NoDup_nil | by intros ? ?%elem_of_nil]. Qed.

Lemma dexec_ok d o : ddb_ok d -> op_ok o -> ddb_ok (exec d o).
Proof. intros Hok Ho. by eapply step_ok; [apply exec_step|]. Qed.

Lemma dhistory_ok d ops d' : history d ops d' -> ddb_ok d -> ddb_ok d'.
Proof. induction 1; auto using dexec_ok. Qed.

Lemma dreachable_ok d : reachable d -> ddb_ok d.
Proof. intros [ops H]. eapply dhistory_ok; [exact H|apply empty_ddb_ok]. Qed.

Lemma dhistory_app d1 ops1 d2 ops2 d3 :
  history d1 ops1 d2 -> history d2 ops2 d3 -> history d1 (ops1 ++ ops2) d3.
Proof. induction 1; simpl; [done|]. intros. constructor; auto. Qed.

Lemma reachable_history d ops d' : reachable d -> history d ops d' -> reachable d'.
Proof. intros [ops0 H0] H. exists (ops0 ++ ops). by eapply dhistory_app. Qed.

Lemma dhistory_run d ops : Forall op_ok ops -> history d ops (foldl exec d ops).
Proof. intros H. revert d. induction H; intros d; simpl; constructor; auto. Qed.

Lemma dreachable_run ops : Forall op_ok ops -> reachable (foldl exec empty_ddb ops).
Proof. intros H. exists ops. by apply dhistory_run. Qed.
