(* ===== verification/DelegationProps.v ===== *)
(** The theorems about the delegation registry: statuses, claims and late
    workers, joins, whose result set follows the members, and idempotent creation. *)
From S2P Require Import Prelude DelegationDomain DelegationStore DelegationInv.

(** * Definitions *)

Definition parent_demo : DelegationParentRef := mkDelegationParentRef "task" "t" "run" "sess".

Definition member_demo (uuid : string) (role : DelegationMemberRole.t) (n : Z) : DelegationMember.t :=
  DelegationMember.new uuid "" role n "title" "work" [] [] ("delegation-" +:+ uuid) None 10 None None.

Definition request_demo : DelegationCreateRequest :=
  mkDelegationCreateRequest parent_demo "key" "fp" DelegationJoinPolicy.BEST_EFFORT
    DelegationAggregationPolicy.AGENT None 100
    [member_demo "m0" DelegationMemberRole.WORKER 0; member_demo "m1" DelegationMemberRole.WORKER 1;
     member_demo "m2" DelegationMemberRole.AGGREGATOR 2]
    (mkPolicySnapshotRecord "v1" [] [] None "") [] None.

Definition result_demo (s : DelegationMemberStatus.t) : DelegationResult.t := DelegationResult.bare s.

(** Created, and the first member claimed for ten seconds. *)
Definition claimed_ops : list op := [DCreate request_demo "d" 1; DClaim "d" 0 "run-m0" 10 2; DStart "d" 3].
Definition claimed_db : ddb := foldl exec empty_ddb claimed_ops.

(** Two members done, the aggregator failed. *)
Definition joined_ops : list op :=
  claimed_ops ++ [DFinish "d" 0 "run-m0" (result_demo DelegationMemberStatus.SUCCEEDED) 2 4;
    DClaim "d" 1 "run-m1" 10 5; DFinish "d" 1 "run-m1" (result_demo DelegationMemberStatus.SUCCEEDED) 2 6;
    DClaim "d" 2 "run-m2" 10 7; DFinish "d" 2 "run-m2" (result_demo DelegationMemberStatus.FAILED) 2 8].
Definition joined_db : ddb := foldl exec empty_ddb joined_ops.

(** The lease runs out, and the member is claimed again under the same lock. *)
Definition created_db : ddb := exec empty_ddb (DCreate request_demo "d" 1).
Definition first_claim_db : ddb := exec created_db (DClaim "d" 0 "run-m0" 10 2).
Definition stale_db : ddb := foldl exec first_claim_db [DStart "d" 3; DStale 20000000].
Definition reclaimed_db : ddb := foldl exec stale_db [DClaim "d" 0 "run-m0" 10 20000001].

(** No operation of [ops] deletes the delegations of [session]. *)
Definition keeps_session (session : string) (ops : list op) : Prop :=
  Forall (fun o => forall now, o <> DDeleteSession session now) ops.

(** * Lemmas *)

Lemma request_demo_ok : NoDup (map DelegationMember.ordinal (req_members request_demo)).
Proof. repeat (apply NoDup_cons_2; [by apply (bool_decide_eq_true_1 _)|]). apply NoDup_nil_2. Qed.

Lemma claimed_reachable : reachable claimed_db.
Proof.
  apply dreachable_run. repeat (apply Forall_cons_2; [simpl|]); try apply Forall_nil_2; try done.
  apply request_demo_ok.
Qed.

Lemma created_reachable : reachable created_db.
Proof. apply (dreachable_run [DCreate request_demo "d" 1]), Forall_singleton, request_demo_ok. Qed.

Lemma step_delegation gone d d' x x' :
  ddb_ok d -> db_step gone d d' -> x ∈ delegations d -> x' ∈ delegations d' ->
  Delegation.id x' = Delegation.id x -> delegation_step x x'.
Proof.
  intros Hok Hstep Hx Hx' Hid.
  destruct Hstep as [f g Hd Hf Hm Hg Hr|req uuid y Hd Hy Hfresh Hkey Hsame Hm Hnm Hno Hr|session _ ids Hd Hm Hr].
  - rewrite Hd in Hx'. apply list_elem_of_fmap in Hx' as (z & -> & Hz).
    assert (z = x) as ->; [|by apply Hf].
    apply (NoDup_map_inj Delegation.id (delegations d)); [apply (ok_delegation_ids _ Hok)|done..|].
    by rewrite <- Hid, (dstep_id _ _ (Hf z Hz)).
  - rewrite Hd in Hx'. apply elem_of_app in Hx' as [Hx'| ->%list_elem_of_singleton].
    + assert (x' = x) as ->; [|apply delegation_step_refl].
      by apply (NoDup_map_inj Delegation.id (delegations d)); [apply (ok_delegation_ids _ Hok)|..].
    + exfalso. unfold find_delegation in Hfresh.
      apply List.find_none with (x := x) in Hfresh; [|by apply list_elem_of_In].
      unfold by_id in Hfresh. apply bool_decide_eq_false in Hfresh. congruence.
  - rewrite Hd in Hx'. apply List_filter_elem in Hx' as [Hx' _].
    assert (x' = x) as ->; [|apply delegation_step_refl].
    by apply (NoDup_map_inj Delegation.id (delegations d)); [apply (ok_delegation_ids _ Hok)|..].
Qed.

Lemma step_member gone d d' m m' :
  ddb_ok d -> db_step gone d d' -> m ∈ members d -> m' ∈ members d' ->
  DelegationMember.id m' = DelegationMember.id m -> member_step m m'.
Proof.
  intros Hok Hstep Hm0 Hm1 Hid.
  destruct Hstep as [f g Hd Hf Hm Hg Hr|req uuid y Hd Hy Hfresh Hkey Hsame Hm Hnm Hno Hr|session _ ids Hd Hm Hr].
  - rewrite Hm in Hm1. apply list_elem_of_fmap in Hm1 as (z & -> & Hz).
    assert (z = m) as ->; [|by apply Hg].
    apply (NoDup_map_inj DelegationMember.id (members d)); [apply (ok_member_ids _ Hok)|done..|].
    by rewrite <- Hid, (mstep_id _ _ (Hg z Hz)).
  - rewrite Hm in Hm1. apply elem_of_app in Hm1 as [Hm1|Hm1].
    + assert (m' = m) as ->; [|apply member_step_refl].
      by apply (NoDup_map_inj DelegationMember.id (members d)); [apply (ok_member_ids _ Hok)|..].
    + exfalso. apply list_elem_of_fmap in Hm1 as (m2 & -> & Hm2). simpl in Hid.
      rewrite List.map_app in Hnm. apply NoDup_app in Hnm as (_ & Hno' & _).
      apply (Hno' (DelegationMember.id m)); [by apply list_elem_of_fmap_2|]. rewrite <- Hid.
      by apply list_elem_of_fmap_2.
  - rewrite Hm in Hm1. apply List_filter_elem in Hm1 as [Hm1 _].
    assert (m' = m) as ->; [|apply member_step_refl].
    by apply (NoDup_map_inj DelegationMember.id (members d)); [apply (ok_member_ids _ Hok)|..].
Qed.

(** A member of a delegation of [session], and the row it goes on as. *)
Definition member_in (session : string) (d : ddb) (m : DelegationMember.t) : Prop :=
  m ∈ members d /\ exists x, x ∈ delegations d
    /\ Delegation.id x = DelegationMember.delegation_id m
    /\ session_id (Delegation.parent x) = session.

Lemma step_member_persists gone session d d' m :
  ddb_ok d -> db_step gone d d' -> ~ gone session -> member_in session d m ->
  exists m', member_in session d' m' /\ member_step m m'.
Proof.
  intros Hok Hstep Hgone (Hin & x & Hx & Hid & Hs).
  destruct Hstep as [f g Hd Hf Hm Hg Hr|req uuid y Hd Hy Hfresh Hkey Hsame Hm Hnm Hno Hr|s Hgs ids Hd Hm Hr].
  - exists (g m). split; [|by apply Hg]. pose proof (Hf x Hx) as Hfx. split.
    + rewrite Hm. by apply list_elem_of_fmap_2.
    + exists (f x). rewrite Hd, (mstep_delegation _ _ (Hg m Hin)), (dstep_id _ _ Hfx), (dstep_parent _ _ Hfx).
      split; [by apply list_elem_of_fmap_2|done].
  - exists m. split; [|apply member_step_refl]. split; [rewrite Hm; apply elem_of_app; by left|].
    exists x. split; [rewrite Hd; apply elem_of_app; by left|done].
  - assert (s <> session) as Hne by congruence.
    exists m. split; [|apply member_step_refl]. split.
    + rewrite Hm. apply List_filter_elem. split; [done|]. apply negb_true_iff, bool_decide_eq_false.
      intros Hids. apply list_elem_of_fmap in Hids as (y & Hy & [Hyin Hys]%List_filter_elem).
      apply bool_decide_eq_true in Hys. assert (y = x) as ->; [|congruence].
      apply (NoDup_map_inj Delegation.id (delegations d)); [apply (ok_delegation_ids _ Hok)|done..|congruence].
    + exists x. rewrite Hd. split; [|done]. apply List_filter_elem. split; [done|].
      apply negb_true_iff, bool_decide_eq_false. congruence.
Qed.

(** What [member_step] leaves over a history: the place, and a version that
    only grows, strictly with every change of status or lock. *)
Record member_ahead (m m' : DelegationMember.t) : Prop := {
  ahead_place : place m' = place m;
  ahead_version : DelegationMember.version m <= DelegationMember.version m';
  ahead_still : DelegationMember.version m' = DelegationMember.version m -> member_still m m'
}.

Lemma member_ahead_step m m' m'' : member_step m m' -> member_ahead m' m'' -> member_ahead m m''.
Proof.
  intros [_ H1 H2 _ Hs] [Hp Hv Hst]. split.
  - rewrite Hp. unfold place. by rewrite H1, H2.
  - destruct Hs as [(_ & Hv' & _)|[_ Hv']]; lia.
  - intros Heq. destruct Hs as [(Ha & Hb & Hc)|[_ Hv']]; [|lia].
    destruct Hst as (Ha' & Hb' & Hc'); [lia|]. split_and!; congruence.
Qed.

Lemma history_member session d ops d' m :
  history d ops d' -> ddb_ok d -> keeps_session session ops -> member_in session d m ->
  exists m', member_in session d' m' /\ member_ahead m m'.
Proof.
  intros H. revert m. induction H as [d|d o ops d' Ho H IH]; intros m Hok Hk Hin.
  - exists m. split; [done|]. split; [done|lia|]. by split.
  - apply Forall_cons in Hk as [Hk1 Hk2].
    destruct (step_member_persists _ session _ _ m Hok (exec_step d o Hok Ho)) as (m1 & Hin1 & Hs1);
      [by intros [now ->]; apply (Hk1 now)|done|].
    destruct (IH m1 (dexec_ok _ _ Hok Ho) Hk2 Hin1) as (m2 & Hin2 & Ha2).
    exists m2. split; [done|]. by eapply member_ahead_step.
Qed.

Lemma find_member_unique d did n m :
  ddb_ok d -> m ∈ members d -> place m = (did, n) -> find_member d did n = Some m.
Proof.
  intros Hok Hin Hp. destruct (find_member d did n) as [m2|] eqn:E.
  - apply find_member_spec in E as [Hin2 Hp2]. f_equal.
    apply (NoDup_map_inj place (members d)); [apply (ok_places _ Hok)|done..|congruence].
  - unfold find_member in E. apply List.find_none with (x := m) in E; [|by apply list_elem_of_In].
    apply at_ordinal_spec in Hp. congruence.
Qed.

(** What a successful claim did: one pending row became running under the lock,
    one version on. *)
Lemma claim_success d did n lock lease now d1 m x :
  ddb_ok d ->
  claim_member_sync d did n lock lease now
    = (d1, Return (mkClaimMemberResult MutationOutcome.SUCCESS (Some m) (Some x))) ->
  exists m0, find_member d did n = Some m0
  /\ DelegationMember.status m0 = DelegationMemberStatus.PENDING
  /\ m = m0 <| DelegationMember.status := DelegationMemberStatus.RUNNING |>
           <| DelegationMember.claim_lock := Some lock |>
           <| DelegationMember.claim_expires_at := Some (now + seconds lease) |>
           <| DelegationMember.started_at := Some (default now (DelegationMember.started_at m0)) |>
           <| DelegationMember.version := DelegationMember.version m0 + 1 |>
  /\ find_member d1 did n = Some m /\ find_delegation d1 did = Some x.
Proof.
  intros Hok Hc. pose proof (dexec_ok d (DClaim did n lock lease now) Hok I) as Hok1. simpl in Hok1.
  unfold claim_member_sync in *. revert Hc Hok1.
  set (p := fun m => at_ordinal did n m && bool_decide (DelegationMember.status m = DelegationMemberStatus.PENDING)).
  set (g := fun m => m <| DelegationMember.status := DelegationMemberStatus.RUNNING |>
           <| DelegationMember.claim_lock := Some lock |>
           <| DelegationMember.claim_expires_at := Some (now + seconds lease) |>
           <| DelegationMember.started_at := Some (default now (DelegationMember.started_at m)) |>
           <| DelegationMember.version := DelegationMember.version m + 1 |>).
  set (dd := d <| members := update_where p g (members d) |>).
  case_bool_decide as Hone.
  2: { repeat (case_match; try by intros [=]). }
  destruct (find_delegation dd did) as [x'|] eqn:Hx; [|by intros [=]].
  destruct (find_member dd did n) as [m'|] eqn:Hm; [|by intros [=]].
  intros [= <- <- <-] Hok1. unfold rowcount in Hone.
  destruct (List.filter p (members d)) as [|m0 [|]] eqn:Hf; [done| |done].
  assert (m0 ∈ List.filter p (members d)) as [Hin Hp0]%List_filter_elem by (rewrite Hf; by left).
  pose proof Hp0 as [Hpl%at_ordinal_spec Hs%bool_decide_eq_true]%andb_true_iff.
  exists m0. split; [by apply find_member_unique|]. split; [done|].
  assert (g m0 ∈ members dd) as Hg.
  { apply list_elem_of_fmap. exists m0. by rewrite Hp0. }
  split; [|done]. apply find_member_unique with (did := did) (n := n) in Hg; [|exact Hok1|exact Hpl].
  rewrite Hg in Hm. by injection Hm as <-.
Qed.

(** * Theorems *)

(** The registry moves statuses only the way the aggregates would: after any
    operation of any history, a delegation or member still there has kept its
    status or made a move that its own [transition] accepts; a member's version
    then grows by one exactly as [transition] says, so a status once terminal is
    never left.  Unlike [transition], no operation changes a delegation's version
    or a member's retry count. *)
Theorem delegations_follow_table d o :
  reachable d -> op_ok o ->
  (forall x x', x ∈ delegations d -> x' ∈ delegations (exec d o) -> Delegation.id x' = Delegation.id x ->
     Delegation.version x' = Delegation.version x
     /\ (Delegation.status x' = Delegation.status x
         \/ returns (Delegation.transition x (Delegation.status x')) = true))
  /\ (forall m m', m ∈ members d -> m' ∈ members (exec d o) ->
     DelegationMember.id m' = DelegationMember.id m ->
     DelegationMember.retry_count m' = DelegationMember.retry_count m
     /\ ((DelegationMember.status m' = DelegationMember.status m
          /\ DelegationMember.version m' = DelegationMember.version m)
         \/ exists m2, DelegationMember.transition m (DelegationMember.status m') = Return m2
            /\ DelegationMember.version m' = DelegationMember.version m2)).
Proof.
  intros Hr Ho. pose proof (dreachable_ok _ Hr) as Hok. pose proof (exec_step d o Hok Ho) as Hstep. split.
  - intros x x' Hx Hx' Hid. destruct (step_delegation _ _ _ _ _ Hok Hstep Hx Hx' Hid) as [_ _ _ _ _ _ _ Hv Hs].
    split; [done|]. destruct Hs as [Hs|Hs]; [by left|right]. unfold Delegation.transition.
    by rewrite bool_decide_eq_true_2.
  - intros m m' Hm Hm' Hid. destruct (step_member _ _ _ _ _ Hok Hstep Hm Hm' Hid) as [_ _ _ Hrt Hs].
    split; [done|]. destruct Hs as [(Hs & Hv & _)|[Hs Hv]]; [by left|right].
    unfold DelegationMember.transition. rewrite bool_decide_eq_true_2 by done.
    eexists. split; [reflexivity|]. simpl. rewrite Hv. by destruct (bool_decide _ && bool_decide _).
Qed.

Lemma delegations_follow_table_witness :
  exists m, find_member (exec claimed_db (DStale 20000000)) "d" 0 = Some m
  /\ DelegationMember.status m = DelegationMemberStatus.PENDING /\ DelegationMember.retry_count m = 0.
Proof.
  destruct (find_member claimed_db "d" 0) as [m0|] eqn:E; [|vm_compute in E; discriminate].
  destruct (find_member (exec claimed_db (DStale 20000000)) "d" 0) as [m|] eqn:E';
    [|vm_compute in E'; discriminate].
  exists m. split; [done|].
  pose proof (find_member_spec _ _ _ _ E) as [Hin0 _]. pose proof (find_member_spec _ _ _ _ E') as [Hin _].
  assert (DelegationMember.id m0 = "m0" /\ DelegationMember.retry_count m0 = 0) as [Hid0 Hr0]
    by (vm_compute in E; injection E as <-; split; reflexivity).
  assert (DelegationMember.id m = "m0" /\ DelegationMember.status m = DelegationMemberStatus.PENDING)
    as [Hid Hs] by (vm_compute in E'; injection E' as <-; split; reflexivity).
  split; [exact Hs|].
  destruct (proj2 (delegations_follow_table claimed_db (DStale 20000000) claimed_reachable I) m0 m Hin0 Hin)
    as [Hr _]; congruence.
Defined.

(** C8. A late worker is fenced off.  When a member claimed at some version has
    since been reclaimed, cancelled or finished (at any point its row was not
    running at that version), the worker of that claim can no longer finish it,
    even though every claim of a member uses the same lock: its call changes
    nothing and is not a success. *)
Theorem stale_worker_fenced d did n lock lease now d1 m x ops1 dm mm ops2 d2 r now' :
  reachable d ->
  claim_member_sync d did n lock lease now
    = (d1, Return (mkClaimMemberResult MutationOutcome.SUCCESS (Some m) (Some x))) ->
  history d1 ops1 dm -> history dm ops2 d2 ->
  keeps_session (session_id (Delegation.parent x)) (ops1 ++ ops2) ->
  find_member dm did n = Some mm ->
  DelegationMember.status mm <> DelegationMemberStatus.RUNNING
  \/ DelegationMember.version mm <> DelegationMember.version m ->
  (finish_member_sync d2 did n lock r (DelegationMember.version m) now').1 = d2
  /\ exists res, (finish_member_sync d2 did n lock r (DelegationMember.version m) now').2 = Return res
     /\ finish_outcome res <> MutationOutcome.SUCCESS.
Proof.
  intros Hr Hc H1 H2 Hk Hmm Hchanged.
  assert (d1 = exec d (DClaim did n lock lease now)) as Hd1 by (simpl; by rewrite Hc).
  assert (reachable d1) as Hr1
    by (rewrite Hd1; apply (reachable_history d [DClaim did n lock lease now]); [done|];
        constructor; [done|constructor]).
  assert (find_member d1 did n = Some m /\ find_delegation d1 did = Some x
    /\ DelegationMember.status m = DelegationMemberStatus.RUNNING) as (Hm & Hx & Hrun).
  { destruct (claim_success _ _ _ _ _ _ _ _ _ (dreachable_ok _ Hr) Hc) as (m0 & _ & _ & -> & Hm & Hx). auto. }
  apply Forall_app in Hk as [Hk1 Hk2]. pose proof (dreachable_ok _ Hr1) as Hok1.
  apply find_member_spec in Hm as [Hin Hp]. apply find_delegation_spec in Hx as [Hxin Hxid].
  assert (member_in (session_id (Delegation.parent x)) d1 m) as Hmi.
  { split; [done|]. exists x. split; [done|]. split; [|done]. unfold place in Hp. congruence. }
  destruct (history_member _ _ _ _ _ H1 Hok1 Hk1 Hmi) as (ma & Hma & [Hpa Hva Hsa]).
  pose proof (dhistory_ok _ _ _ H1 Hok1) as Hokm.
  assert (ma = mm) as ->.
  { rewrite (find_member_unique dm did n ma) in Hmm; [congruence|done|apply Hma|congruence]. }
  destruct (history_member _ _ _ _ _ H2 Hokm Hk2 Hma) as (mb & Hmb & [Hpb Hvb Hsb]).
  assert (DelegationMember.version m < DelegationMember.version mb) as Hlt.
  { destruct (decide (DelegationMember.version mm = DelegationMember.version m)) as [Heq|Hne]; [|lia].
    destruct (Hsa Heq) as (Hst & _). destruct Hchanged; congruence. }
  unfold finish_member_sync.
  rewrite (find_member_unique d2 did n mb); [|by eapply dhistory_ok|apply Hmb|congruence].
  assert ((DelegationMember.version mb =? DelegationMember.version m) = false) as -> by (apply Z.eqb_neq; lia).
  cbn [negb]. rewrite orb_true_r.
  repeat (case_match; try (split; [done|]; eexists; split; [reflexivity|done])).
Qed.

Lemma stale_worker_fenced_witness :
  (finish_member_sync reclaimed_db "d" 0 "run-m0" (result_demo DelegationMemberStatus.SUCCEEDED) 2 20000002).1
  = reclaimed_db.
Proof.
  destruct (find_member first_claim_db "d" 0) as [m|] eqn:Hm; [|vm_compute in Hm; discriminate].
  destruct (find_delegation first_claim_db "d") as [x|] eqn:Hx; [|vm_compute in Hx; discriminate].
  destruct (find_member stale_db "d" 0) as [mm|] eqn:Hmm; [|vm_compute in Hmm; discriminate].
  assert ((claim_member_sync created_db "d" 0 "run-m0" 10 2).2
    = Return (mkClaimMemberResult MutationOutcome.SUCCESS (Some m) (Some x))) as E.
  { vm_compute in Hm, Hx. injection Hm as <-. injection Hx as <-. vm_compute. reflexivity. }
  assert (DelegationMember.version m = 2) as <- by (vm_compute in Hm; injection Hm as <-; reflexivity).
  apply (stale_worker_fenced created_db "d" 0 "run-m0" 10 2 first_claim_db m x
    [DStart "d" 3; DStale 20000000] stale_db mm [DClaim "d" 0 "run-m0" 10 20000001] reclaimed_db).
  - exact created_reachable.
  - rewrite <- E. apply surjective_pairing.
  - apply (dhistory_run first_claim_db). repeat (apply Forall_cons_2; [exact I|]). apply Forall_nil_2.
  - apply (dhistory_run stale_db). repeat (apply Forall_cons_2; [exact I|]). apply Forall_nil_2.
  - repeat (apply Forall_cons_2; [by intros|]). apply Forall_nil_2.
  - exact Hmm.
  - left. vm_compute in Hmm. injection Hmm as <-. discriminate.
Defined.

(** * The result set *)

Definition member_succeeded (m : DelegationMember.t) : bool :=
  bool_decide (DelegationMember.status m = DelegationMemberStatus.SUCCEEDED).

(** What the join policy asks of the members. *)
Definition join_met (policy : DelegationJoinPolicy.t) (ms : list DelegationMember.t) : bool :=
  match policy with
  | DelegationJoinPolicy.BEST_EFFORT => existsb member_succeeded ms
  | _ => negb (bool_decide (ms = [])) && forallb member_succeeded ms
  end.

Lemma member_result_status d m :
  ddb_ok d -> m ∈ members d ->
  DelegationResult.status (member_result d m) = DelegationMember.status m.
Proof.
  intros Hok Hin. unfold member_result. destruct (adopted_result d (DelegationMember.id m)) as [r|] eqn:E; [|done].
  apply List.find_some in E as [Hr [Hid%bool_decide_eq_true _]%andb_true_iff].
  apply list_elem_of_In, (ok_results _ Hok) in Hr as (_ & _ & m' & Hin' & Hid' & _ & Hst & _).
  assert (m' = m) as ->; [|done].
  apply (NoDup_map_inj DelegationMember.id (members d)); [apply (ok_member_ids _ Hok)|done..|congruence].
Qed.

Lemma list_members_elem d did m :
  m ∈ list_members_sync d did <-> m ∈ members d /\ DelegationMember.delegation_id m = did.
Proof.
  unfold list_members_sync. rewrite order_by_perm, List_filter_elem. unfold of_delegation.
  by rewrite bool_decide_eq_true.
Qed.

Lemma no_aggregation_row d did : ddb_ok d -> aggregation_row d did = None.
Proof.
  intros Hok. unfold aggregation_row. destruct (List.find _ _) as [r|] eqn:E; [|done].
  apply List.find_some in E as [Hr Hp]. apply list_elem_of_In, (ok_results _ Hok) in Hr as (Hs & _).
  by rewrite Hs, andb_false_r in Hp.
Qed.

Lemma join_met_results d policy ms :
  ddb_ok d -> (forall m, m ∈ ms -> m ∈ members d) ->
  match policy with
  | DelegationJoinPolicy.BEST_EFFORT => existsb succeeded (map (member_result d) ms)
  | _ => negb (bool_decide (map (member_result d) ms = [])) && forallb succeeded (map (member_result d) ms)
  end = join_met policy ms.
Proof.
  intros Hok Hin.
  assert (forall m, m ∈ ms -> succeeded (member_result d m) = member_succeeded m) as Hs.
  { intros m Hm. unfold succeeded. by rewrite member_result_status by auto. }
  assert (forallb succeeded (map (member_result d) ms) = forallb member_succeeded ms
    /\ existsb succeeded (map (member_result d) ms) = existsb member_succeeded ms) as [-> ->].
  { clear Hin. induction ms as [|m ms IH]; [done|]. simpl. rewrite Hs by (by left).
    destruct IH as [-> ->]; [|done]. intros m' Hm'. apply Hs. by right. }
  assert (bool_decide (map (member_result d) ms = []) = bool_decide (ms = [])) as -> by (by destruct ms).
  by destruct policy.
Qed.

(** A delegation has a result set exactly when all its members have ended,
    and the set is about them: one result per member, in order, with the member's
    own status, and the status the join policy gives them, BEST_EFFORT asking for
    one success, the other two policies alike for all.  No operation ever stores
    the result of an aggregation, so an aggregator counts as one more member and
    its outcome overrides nothing. *)
Theorem result_set_reflects_members d did :
  reachable d ->
  let ms := list_members_sync d did in
  match find_delegation d did, get_result_set_sync d did with
  | None, rs => rs = None
  | Some _, None => exists m, m ∈ ms /\ DelegationMember.is_terminal m = false
  | Some x, Some rs =>
      Forall (fun m => DelegationMember.is_terminal m = true) ms
      /\ map DelegationResult.status (rs_member_results rs) = map DelegationMember.status ms
      /\ rs_aggregation_result rs = None
      /\ rs_status rs = (if join_met (Delegation.join_policy x) ms
                         then DelegationStatus.SUCCEEDED else DelegationStatus.FAILED)
  end.
Proof.
  intros Hr ms. pose proof (dreachable_ok _ Hr) as Hok. unfold get_result_set_sync. fold ms.
  destruct (find_delegation d did) as [x|]; [|done].
  destruct (forallb DelegationMember.is_terminal ms) eqn:Hall; cbn [negb].
  - assert (forall m, m ∈ ms -> m ∈ members d) as Hin by (by intros m [? _]%list_members_elem).
    rewrite no_aggregation_row by done. cbn -[join_met].
    split; [by apply Forall_forall; intros m Hm; apply (proj1 (List.forallb_forall _ _) Hall), list_elem_of_In|].
    split; [rewrite List.map_map; apply List.map_ext_in; intros m Hm; apply member_result_status; [done|];
      apply Hin; by apply list_elem_of_In|].
    split; [done|]. rewrite <- (join_met_results d) by done.
    by destruct (Delegation.join_policy x), (Delegation.aggregation x).
  - apply not_true_iff_false in Hall. rewrite List.forallb_forall in Hall.
    destruct (List.existsb live_member ms) eqn:He.
    + apply List.existsb_exists in He as (m & Hm & Hl). exists m. rewrite list_elem_of_In.
      split; [done|]. by apply negb_true_iff.
    + destruct Hall. intros m Hm. destruct (DelegationMember.is_terminal m) eqn:Ht; [done|].
      apply not_true_iff_false in He. destruct He. apply List.existsb_exists. exists m.
      unfold live_member. by rewrite Ht.
Qed.

Lemma joined_reachable : reachable joined_db.
Proof.
  apply dreachable_run. repeat apply Forall_cons_2; try apply Forall_nil_2; simpl; try done;
    try apply request_demo_ok; by apply (bool_decide_eq_true_1 _).
Qed.

Lemma result_set_reflects_members_witness :
  exists rs, get_result_set_sync joined_db "d" = Some rs /\ rs_status rs = DelegationStatus.SUCCEEDED
  /\ rs_aggregation_result rs = None
  /\ map DelegationResult.status (rs_member_results rs)
     = [DelegationMemberStatus.SUCCEEDED; DelegationMemberStatus.SUCCEEDED; DelegationMemberStatus.FAILED].
Proof.
  pose proof (result_set_reflects_members joined_db "d" joined_reachable) as H.
  assert (exists x, find_delegation joined_db "d" = Some x
    /\ Delegation.join_policy x = DelegationJoinPolicy.BEST_EFFORT) as (x & Hx & Hp)
    by (eexists; split; [vm_compute; reflexivity|reflexivity]).
  assert (exists rs, get_result_set_sync joined_db "d" = Some rs) as (rs & Hrs)
    by (eexists; vm_compute; reflexivity).
  rewrite Hx, Hrs in H. destruct H as (_ & Hm & Ha & Hs). exists rs. split; [exact Hrs|].
  rewrite Hs, Hm, Hp. split_and!; [vm_compute; reflexivity|exact Ha|vm_compute; reflexivity].
Defined.

(** * Creation *)

Lemma same_key_agree req req' x :
  same_key req x = true -> same_key req' x = true -> forall y, same_key req y = same_key req' y.
Proof.
  unfold same_key. rewrite !andb_true_iff, !bool_decide_eq_true. intros [[-> ->] ->] [[-> ->] ->]. done.
Qed.

Lemma find_ext {A} (p q : A -> bool) l : (forall x, p x = q x) -> List.find p l = List.find q l.
Proof. intros H. induction l as [|x l IH]; simpl; [done|]. by rewrite H, IH. Qed.

(** Creating a delegation is idempotent in its key.  What it returns carries
    the requested key and fingerprint; it is either the delegation already there,
    and nothing changes, or one new PENDING row with exactly the requested members,
    all unclaimed.  Any later request with that key, from the same parent and in
    the same tables, gets that delegation back when its fingerprint agrees and a
    conflict when it does not, and changes nothing; a refused request changes
    nothing. *)
Theorem create_is_idempotent d req uuid now :
  match create_or_reconnect_sync d req uuid now with
  | (d', Raise e) => d' = d /\ e ∈ [DelegationConflictError; OperationalError; ValueError; IntegrityError]
  | (d', Return x) =>
      same_key req x = true /\ Delegation.fingerprint x = req_fingerprint req
      /\ (d' = d \/ (delegations d' = delegations d ++ [x]
            /\ Delegation.status x = DelegationStatus.PENDING
            /\ members d' = members d ++ map (inserted_member (Delegation.id x)) (req_members req)
            /\ Forall (fun m => DelegationMember.status m = DelegationMemberStatus.PENDING
                 /\ DelegationMember.claim_lock m = None)
                 (map (inserted_member (Delegation.id x)) (req_members req))))
      /\ forall req' uuid' now', same_key req' x = true ->
         create_or_reconnect_sync d' req' uuid' now'
         = (d', if bool_decide (req_fingerprint req' = req_fingerprint req)
                then Return x else Raise DelegationConflictError)
  end.
Proof.
  assert (forall d' x, List.find (same_key req) (delegations d') = Some x ->
    same_key req x = true -> Delegation.fingerprint x = req_fingerprint req ->
    forall req' uuid' now', same_key req' x = true ->
    create_or_reconnect_sync d' req' uuid' now'
    = (d', if bool_decide (req_fingerprint req' = req_fingerprint req)
           then Return x else Raise DelegationConflictError)) as Hagain.
  { intros d' x Hfind Hx Hfp req' uuid' now' Hkey. unfold create_or_reconnect_sync.
    rewrite (find_ext _ _ _ (same_key_agree req' req x Hkey Hx)), Hfind, Hfp.
    rewrite (bool_decide_ext (req_fingerprint req = req_fingerprint req')
      (req_fingerprint req' = req_fingerprint req)) by done.
    by destruct (bool_decide _). }
  unfold create_or_reconnect_sync at 1.
  destruct (List.find (same_key req) (delegations d)) as [x|] eqn:Hfind.
  - pose proof (List.find_some _ _ Hfind) as [_ Hx].
    case_bool_decide as Hfp; cbn [negb]; [|split; [done|by left]]. auto.
  - destruct (canonical_parent_valid d req) as [[]|e] eqn:Hc.
    + destruct (insertable d uuid req) eqn:Hins; cbn [negb];
        [|split; [done|by apply (bool_decide_eq_true_1 _)]].
      cbn -[same_key]. match goal with |- same_key req ?x = true /\ _ => assert (same_key req x = true) as Hx end.
      { unfold same_key. cbn. by rewrite !bool_decide_eq_true_2. }
      split; [exact Hx|]. split; [done|]. split.
      * right. split_and!; try done. apply Forall_forall. intros m Hm.
        by apply list_elem_of_fmap in Hm as (m' & -> & _).
      * apply Hagain; [by apply find_app|done|done].
    + split; [done|]. unfold canonical_parent_valid in Hc. cases; by apply (bool_decide_eq_true_1 _).
Qed.
