(* ===== verification/DelegationLedger.v ===== *)
(** The token ledger of a delegation: what is conserved as long as a reservation
    is settled or released once, and what a second settlement does. *)
From S2P Require Import Prelude DelegationDomain DelegationStore DelegationInv DelegationProps.

(** * Definitions *)

Definition total_of (f : LedgerRow.t -> Z) (l : list LedgerRow.t) : Z := foldr (fun r n => f r + n) 0 l.

(** What a delegation's row holds back while its reservation is one of [live], and what
    it spent. *)
Definition held (live : list string) (did : string) (r : LedgerRow.t) : Z :=
  if bool_decide (LedgerRow.delegation_id r = did) && bool_decide (LedgerRow.reservation_id r ∈ live)
  then LedgerRow.reserved r else 0.
Definition spent (did : string) (r : LedgerRow.t) : Z :=
  if bool_decide (LedgerRow.delegation_id r = did) then LedgerRow.settled r else 0.

Definition succeeded (r : result LedgerResult) : bool :=
  match r with Return x => bool_decide (ledger_outcome x = MutationOutcome.SUCCESS) | Raise _ => false end.

Definition without (res : string) (live : list string) : list string :=
  List.filter (fun x => negb (bool_decide (x = res))) live.

(** The reservations that are open after an operation: one that succeeds opens or closes
    its own. *)
Definition live_after (d : ddb) (live : list string) (o : op) : list string :=
  match o with
  | DReserve did amount purpose uuid now =>
      if succeeded (reserve_ledger_sync d did amount purpose uuid now).2 then ("res-" +:+ uuid) :: live else live
  | DSettle did res actual event now =>
      if succeeded (settle_ledger_sync d did res actual event now).2
      then without res live else live
  | DRelease did res now =>
      if succeeded (release_ledger_sync d did res now).2
      then without res live else live
  | _ => live
  end.

Record ledger_ok (live : list string) (d : ddb) : Prop := {
  ledger_unique : NoDup (map LedgerRow.reservation_id (ledger d));
  ledger_owned : forall r, r ∈ ledger d -> LedgerRow.delegation_id r ∈ map Delegation.id (delegations d);
  ledger_signs : forall r, r ∈ ledger d ->
    0 <= LedgerRow.reserved r /\ 0 <= LedgerRow.settled r /\ 0 <= LedgerRow.released r;
  ledger_live : forall r, r ∈ ledger d -> LedgerRow.reservation_id r ∈ live ->
    LedgerRow.settled r = 0 /\ LedgerRow.released r = 0;
  ledger_exact : forall x, x ∈ delegations d ->
    Delegation.budget_reserved_tokens x = total_of (held live (Delegation.id x)) (ledger d)
    /\ Delegation.budget_settled_tokens x = total_of (spent (Delegation.id x)) (ledger d)
    /\ Delegation.budget_reserved_tokens x + Delegation.budget_settled_tokens x
       <= Delegation.budget_total_tokens x
}.

(** A reservation is settled or released by its own delegation, and settled within its
    amount, zero included.  One that is closed is only settled or released again where
    the registry can tell: it was settled for something, or, to release it, released. *)
Definition careful (live : list string) (d : ddb) (o : op) : Prop :=
  match o with
  | DSettle did res actual _ _ =>
      match List.find (by_reservation res) (ledger d) with
      | Some row => LedgerRow.delegation_id row = did /\ 0 <= actual <= LedgerRow.reserved row
                    /\ (res ∈ live \/ 0 < LedgerRow.settled row)
      | None => True
      end
  | DRelease did res _ =>
      match List.find (by_reservation res) (ledger d) with
      | Some row => LedgerRow.delegation_id row = did
                    /\ (res ∈ live \/ 0 < LedgerRow.settled row \/ 0 < LedgerRow.released row)
      | None => True
      end
  | _ => True
  end.

Inductive careful_history : list string -> ddb -> list op -> list string -> ddb -> Prop :=
  | careful_nil live d : careful_history live d [] live d
  | careful_cons live d o ops live' d' :
      op_ok o -> careful live d o -> careful_history (live_after d live o) (exec d o) ops live' d' ->
      careful_history live d (o :: ops) live' d'.

#[export] Instance careful_dec live d o : Decision (careful live d o).
Proof. destruct o; simpl; try apply _; case_match; apply _. Defined.

#[export] Instance op_ok_dec o : Decision (op_ok o).
Proof. destruct o; simpl; apply _. Defined.

Fixpoint run_careful (live : list string) (d : ddb) (ops : list op) : option (list string) :=
  match ops with
  | [] => Some live
  | o :: ops =>
      if bool_decide (op_ok o) && bool_decide (careful live d o)
      then run_careful (live_after d live o) (exec d o) ops else None
  end.

Definition ledger_ops : list op :=
  [DCreate request_demo "d" 1; DReserve "d" 40 "worker" "r1" 2; DReserve "d" 30 "worker" "r2" 3;
   DSettle "d" "res-r1" 25 (Some "u1") 4; DRelease "d" "res-r2" 5; DReserve "d" 50 "worker" "r3" 6;
   DReserve "d" 20 "worker" "r4" 7; DSettle "d" "res-r4" 0 None 8].
Definition ledger_db : ddb := foldl exec empty_ddb ledger_ops.

(** * Lemmas: sums *)

Lemma total_app f l l' : total_of f (l ++ l') = total_of f l + total_of f l'.
Proof. induction l; simpl; lia. Qed.

Lemma total_ext f g l : (forall r, r ∈ l -> f r = g r) -> total_of f l = total_of g l.
Proof.
  induction l as [|r l IH]; simpl; intros H; [done|]. rewrite IH, H; [done|by left|].
  intros r' Hr'. apply H. by right.
Qed.

Lemma total_nonneg f l : (forall r, r ∈ l -> 0 <= f r) -> 0 <= total_of f l.
Proof.
  induction l as [|r l IH]; simpl; intros H; [done|].
  assert (0 <= f r) by (apply H; by left). assert (0 <= total_of f l) by (apply IH; intros; apply H; by right). lia.
Qed.

Lemma total_zero f l : (forall r, r ∈ l -> f r = 0) -> total_of f l = 0.
Proof. intros H. rewrite (total_ext f (fun _ => 0)) by done. clear H. induction l; simpl; lia. Qed.

Lemma total_filter f p l :
  (forall r, r ∈ l -> p r = false -> f r = 0) -> total_of f (List.filter p l) = total_of f l.
Proof.
  induction l as [|r l IH]; simpl; intros H; [done|].
  assert (total_of f (List.filter p l) = total_of f l) as IH' by (apply IH; intros; apply H; [by right|done]).
  destruct (p r) eqn:E; simpl; [lia|]. rewrite H by (auto; by left). lia.
Qed.

(** Rewriting the one row of a reservation. *)
Lemma total_mark f mark res row l :
  NoDup (map LedgerRow.reservation_id l) -> row ∈ l -> LedgerRow.reservation_id row = res ->
  total_of f (update_where (by_reservation res) mark l) = total_of f l - f row + f (mark row).
Proof.
  intros Hnd Hin Hid. induction l as [|r l IH]; simpl; [by apply elem_of_nil in Hin|].
  simpl in Hnd. apply NoDup_cons in Hnd as [Hr Hnd]. apply elem_of_cons in Hin as [<-|Hin].
  - unfold by_reservation at 1. rewrite bool_decide_eq_true_2 by done.
    assert (update_where (by_reservation res) mark l = l) as Hsame; [|fold (update_where (by_reservation res) mark l); rewrite Hsame; lia].
    unfold update_where. rewrite <- (List.map_id l) at 2. apply List.map_ext_in. intros r' Hr'.
    unfold by_reservation. rewrite bool_decide_eq_false_2; [done|]. intros Heq. apply Hr. rewrite Hid, <- Heq.
    apply list_elem_of_fmap_2. by apply list_elem_of_In.
  - unfold by_reservation at 1. rewrite bool_decide_eq_false_2.
    + fold (update_where (by_reservation res) mark l). rewrite IH by done. lia.
    + intros Heq. apply Hr. rewrite Heq, <- Hid. by apply list_elem_of_fmap_2.
Qed.

(** * Lemmas: the invariant *)

Lemma ledger_frame live d d' f :
  ledger_ok live d -> ledger d' = ledger d -> delegations d' = map f (delegations d) ->
  (forall x, x ∈ delegations d -> Delegation.id (f x) = Delegation.id x
     /\ Delegation.budget_reserved_tokens (f x) = Delegation.budget_reserved_tokens x
     /\ Delegation.budget_settled_tokens (f x) = Delegation.budget_settled_tokens x
     /\ Delegation.budget_total_tokens (f x) = Delegation.budget_total_tokens x) ->
  ledger_ok live d'.
Proof.
  intros [Hu Ho Hs Hv Hb] Hl Hd Hf. split; rewrite Hl; auto.
  - intros r Hr. rewrite Hd, map_map_id; [by apply Ho|]. intros x Hx. apply (Hf x Hx).
  - intros x' Hx'. rewrite Hd in Hx'. apply list_elem_of_fmap in Hx' as (x & -> & Hx).
    destruct (Hf x Hx) as (-> & -> & -> & ->). by apply Hb.
Qed.

Lemma ledger_same live d d' :
  ledger_ok live d -> ledger d' = ledger d -> delegations d' = delegations d -> ledger_ok live d'.
Proof. intros Hok Hl Hd. apply (ledger_frame live d d' id); rewrite ?map_id; auto. Qed.

Lemma ledger_update live d d' p f :
  ledger_ok live d -> ledger d' = ledger d -> delegations d' = update_where p f (delegations d) ->
  (forall x, Delegation.id (f x) = Delegation.id x
     /\ Delegation.budget_reserved_tokens (f x) = Delegation.budget_reserved_tokens x
     /\ Delegation.budget_settled_tokens (f x) = Delegation.budget_settled_tokens x
     /\ Delegation.budget_total_tokens (f x) = Delegation.budget_total_tokens x) ->
  ledger_ok live d'.
Proof.
  intros Hok Hl Hd Hf. apply (ledger_frame live d d' (fun x => if p x then f x else x)); auto.
  intros x _. by destruct (p x).
Qed.

Lemma ledger_create live d req uuid now :
  ledger_ok live d -> ledger_ok live (create_or_reconnect_sync d req uuid now).1.
Proof.
  intros Hok. unfold create_or_reconnect_sync.
  destruct (List.find (same_key req) (delegations d)) as [x|]; [case_match; exact Hok|].
  destruct (canonical_parent_valid d req) as [[]|e]; [|exact Hok].
  destruct (insertable d uuid req) eqn:Hins; cbn [negb]; [|exact Hok].
  unfold insertable in Hins. rewrite !andb_true_iff, !bool_decide_eq_true, Z.leb_le in Hins.
  destruct Hins as [[[[Hfresh Htot] _] _] _]. destruct Hok as [Hu Ho Hs Hv Hb]. split; cbn -[total_of]; auto.
  - intros r Hr. rewrite List.map_app, elem_of_app. left. by apply Ho.
  - intros x Hx. apply elem_of_app in Hx as [Hx| ->%list_elem_of_singleton]; [by apply Hb|]. cbn -[total_of].
    assert (forall r, r ∈ ledger d -> LedgerRow.delegation_id r <> uuid) as Hno.
    { intros r Hr Heq. apply Ho in Hr. rewrite Heq in Hr. apply list_elem_of_fmap in Hr as (y & Hy & Hin).
      unfold find_delegation in Hfresh. apply List.find_none with (x := y) in Hfresh; [|by apply list_elem_of_In].
      unfold by_id in Hfresh. apply bool_decide_eq_false in Hfresh. congruence. }
    rewrite !total_zero; [lia|..]; intros r Hr; unfold spent, held;
      by rewrite (bool_decide_eq_false_2 _ (Hno r Hr)).
Qed.

Lemma ledger_delete live d session now :
  ddb_ok d -> ledger_ok live d -> ledger_ok live (delete_by_parent_session_sync d session now).1.
Proof.
  intros Hdok [Hu Ho Hs Hv Hb]. cbn -[total_of]. split; cbn -[total_of].
  - by apply NoDup_map_filter.
  - intros r [Hr Hk]%List_filter_elem. apply negb_true_iff, bool_decide_eq_false in Hk.
    apply Ho, list_elem_of_fmap in Hr as (x & Hx & Hin). rewrite Hx in *. apply list_elem_of_fmap_2.
    apply List_filter_elem. split; [done|]. apply negb_true_iff, bool_decide_eq_false. intros He. apply Hk.
    apply list_elem_of_fmap_2, List_filter_elem. split; [done|]. by apply bool_decide_eq_true.
  - intros r [Hr _]%List_filter_elem. by apply Hs.
  - intros r [Hr _]%List_filter_elem. by apply Hv.
  - intros x [Hx Hk]%List_filter_elem. apply negb_true_iff, bool_decide_eq_false in Hk.
    rewrite !total_filter; [by apply Hb|..]; intros r Hr Hgone; apply negb_false_iff, bool_decide_eq_true in Hgone;
      unfold held, spent; (rewrite bool_decide_eq_false_2; [done|]); intros Heq; rewrite Heq in Hgone;
      apply list_elem_of_fmap in Hgone as (y & Hy & [Hyin Hyd%bool_decide_eq_true]%List_filter_elem);
      (assert (y = x) as ->; [by apply (NoDup_map_inj Delegation.id (delegations d)); [apply ok_delegation_ids|..]|done]).
Qed.

Lemma delegation_unique d x y :
  ddb_ok d -> x ∈ delegations d -> y ∈ delegations d -> Delegation.id x = Delegation.id y -> x = y.
Proof. intros Hok. apply NoDup_map_inj, ok_delegation_ids, Hok. Qed.

Lemma update_delegation_ids p f l :
  (forall x, Delegation.id (f x) = Delegation.id x) ->
  map Delegation.id (update_where p f l) = map Delegation.id l.
Proof. intros H. apply map_map_id. intros x _. by destruct (p x). Qed.

Lemma without_elem res live x : x ∈ without res live <-> x ∈ live /\ x <> res.
Proof. unfold without. by rewrite List_filter_elem, negb_true_iff, bool_decide_eq_false. Qed.

(** A reservation no row has yet holds nothing. *)
Lemma held_new live res did l :
  res ∉ map LedgerRow.reservation_id l -> total_of (held (res :: live) did) l = total_of (held live did) l.
Proof.
  intros Hn. apply total_ext. intros r Hr. unfold held.
  rewrite (bool_decide_ext (LedgerRow.reservation_id r ∈ res :: live) (LedgerRow.reservation_id r ∈ live)); [done|].
  rewrite elem_of_cons. split; [|by right]. intros [E|?]; [|done]. destruct Hn. rewrite <- E. by apply list_elem_of_fmap_2.
Qed.

(** Closing a reservation gives back what its row held. *)
Lemma held_closed live res row did mark l :
  NoDup (map LedgerRow.reservation_id l) -> row ∈ l -> LedgerRow.reservation_id row = res ->
  LedgerRow.reservation_id (mark row) = res ->
  total_of (held (without res live) did) (update_where (by_reservation res) mark l)
  = total_of (held live did) l - held live did row.
Proof.
  intros Hnd Hin Hid Hm. rewrite (total_mark _ mark res row) by done.
  assert (forall r, LedgerRow.reservation_id r = res -> held (without res live) did r = 0) as Hz.
  { intros r Hr. unfold held. rewrite (bool_decide_eq_false_2 (_ ∈ without _ _)); [by rewrite andb_false_r|].
    rewrite without_elem, Hr. by intros [_ ?]. }
  rewrite !Hz by done. clear Hm. induction l as [|r l IH]; [by apply elem_of_nil in Hin|].
  cbn [total_of foldr]. cbn in Hnd. apply NoDup_cons in Hnd as [Hr Hnd].
  fold (total_of (held (without res live) did) l) (total_of (held live did) l).
  assert (forall x, LedgerRow.reservation_id x <> res -> held (without res live) did x = held live did x) as Hsame.
  { intros x Hx. unfold held. rewrite (bool_decide_ext (_ ∈ without res live) (LedgerRow.reservation_id x ∈ live)); [done|].
    rewrite without_elem. naive_solver. }
  apply elem_of_cons in Hin as [<-|Hin].
  - rewrite Hz by done. rewrite (total_ext (held (without res live) did) (held live did)); [lia|].
    intros x Hx. apply Hsame. intros E. apply Hr. rewrite Hid, <- E. by apply list_elem_of_fmap_2.
  - rewrite Hsame, (Z.add_sub_swap). { specialize (IH Hnd Hin). lia. }
    intros E. apply Hr. rewrite E, <- Hid. by apply list_elem_of_fmap_2.
Qed.

Lemma ledger_reserve live d did amount purpose uuid now :
  ddb_ok d -> ledger_ok live d ->
  ledger_ok (live_after d live (DReserve did amount purpose uuid now)) (reserve_ledger_sync d did amount purpose uuid now).1.
Proof.
  intros Hdok Hok. cbn [live_after]. unfold reserve_ledger_sync.
  destruct (find_delegation d did) as [x|] eqn:Hx; [|exact Hok].
  apply find_delegation_spec in Hx as [Hx Hid].
  destruct (Z.ltb_spec (balance x) amount) as [|Hbal]; [exact Hok|].
  destruct (Z.ltb_spec amount 0) as [|Hpos]; [exact Hok|]. cbn [orb].
  destruct (Delegation.budget_reserved_tokens x + amount <? 0); [exact Hok|]. cbn [orb].
  destruct (existsb _ (ledger d)) eqn:Hfresh; [exact Hok|]. cbn [fst snd succeeded ledger_outcome].
  rewrite bool_decide_true by done. set (res := "res-" +:+ uuid) in *.
  assert (Hnew : res ∉ map LedgerRow.reservation_id (ledger d)).
  { intros (r & Hr & Hin)%list_elem_of_fmap. apply not_true_iff_false in Hfresh. apply Hfresh, List.existsb_exists.
    exists r. split; [by apply list_elem_of_In|]. unfold by_reservation. by apply bool_decide_eq_true. }
  destruct Hok as [Hu Ho Hs Hv Hb]. split; cbn -[total_of].
  - rewrite List.map_app. apply NoDup_app. split; [done|]. split; [|apply NoDup_singleton].
    by intros k Hk ->%list_elem_of_singleton.
  - intros r Hr. rewrite update_delegation_ids by done.
    apply elem_of_app in Hr as [Hr| ->%list_elem_of_singleton]; [by apply Ho|]. cbn. rewrite <- Hid.
    by apply list_elem_of_fmap_2.
  - intros r Hr. apply elem_of_app in Hr as [Hr| ->%list_elem_of_singleton]; [by apply Hs|]. cbn. lia.
  - intros r Hr Hlive. apply elem_of_app in Hr as [Hr| ->%list_elem_of_singleton]; [|done].
    apply elem_of_cons in Hlive as [E|Hlive]; [|by apply Hv]. destruct Hnew. rewrite <- E. by apply list_elem_of_fmap_2.
  - intros y Hy. apply list_elem_of_fmap in Hy as (z & -> & Hz). rewrite !total_app, !held_new by done.
    destruct (Hb z Hz) as (H1 & H2 & H3).
    assert (Hrow : forall r k, total_of k [r] = k r) by (intros; cbn; lia). rewrite !Hrow. unfold held at 2, spent at 2. cbn -[total_of].
    rewrite (bool_decide_eq_true_2 (res ∈ res :: live)) by by left.
    destruct (by_id did z) eqn:E; cbn -[total_of].
    + apply bool_decide_eq_true in E. assert (z = x) as -> by (apply (delegation_unique d); auto; congruence).
      unfold balance in Hbal. rewrite bool_decide_eq_true_2 by done. cbn -[total_of]. lia.
    + apply bool_decide_eq_false in E. rewrite bool_decide_eq_false_2 by congruence. cbn -[total_of]. lia.
Qed.

Lemma ledger_move live d did res mark row actual now :
  ddb_ok d -> ledger_ok live d -> row ∈ ledger d -> LedgerRow.reservation_id row = res ->
  LedgerRow.delegation_id row = did -> res ∈ live -> 0 <= actual <= LedgerRow.reserved row ->
  (forall r, LedgerRow.reservation_id (mark r) = LedgerRow.reservation_id r
     /\ LedgerRow.delegation_id (mark r) = LedgerRow.delegation_id r
     /\ LedgerRow.reserved (mark r) = LedgerRow.reserved r) ->
  LedgerRow.settled (mark row) = actual -> 0 <= LedgerRow.released (mark row) ->
  let m := move_reserved d did res mark (LedgerRow.reserved row) actual now in
  ledger_ok (if succeeded m.2 then without res live else live) m.1.
Proof.
  intros Hdok Hok Hrow Hres Hdid Hlive Hact Hmark Hms Hmr. unfold move_reserved. cbv zeta.
  destruct (find_delegation _ _) as [x|]; [|exact Hok]. destruct (_ || _); [exact Hok|]. cbn [fst snd succeeded ledger_outcome]. rewrite bool_decide_true by done.
  destruct Hok as [Hu Ho Hs Hv Hb]. destruct (Hmark row) as (Hm1 & Hm2 & Hm3).
  destruct (Hv row Hrow) as [Hset Hrel]; [by rewrite Hres|].
  assert (Hother : forall r', r' ∈ ledger d -> by_reservation res r' = true -> r' = row).
  { intros r' Hr' E%bool_decide_eq_true. apply (NoDup_map_inj LedgerRow.reservation_id (ledger d)); auto; congruence. }
  split; cbn -[total_of].
  - unfold update_where. rewrite map_map_id; [done|]. intros r _. destruct (by_reservation res r); [apply Hmark|done].
  - intros r Hr. rewrite update_delegation_ids by done. apply list_elem_of_fmap in Hr as (r' & -> & Hr).
    destruct (by_reservation res r'); [|by apply Ho]. rewrite (proj1 (proj2 (Hmark r'))). by apply Ho.
  - intros r Hr. apply list_elem_of_fmap in Hr as (r' & -> & Hr).
    destruct (by_reservation res r') eqn:E; [|by apply Hs]. rewrite (Hother r' Hr E).
    destruct (Hs row Hrow) as (? & _). rewrite Hm3. lia.
  - intros r Hr [Hl Hne]%without_elem. apply list_elem_of_fmap in Hr as (r' & -> & Hr).
    destruct (by_reservation res r') eqn:E; [|by apply Hv]. rewrite (Hother r' Hr E) in Hne. congruence.
  - intros y Hy. apply list_elem_of_fmap in Hy as (z & -> & Hz).
    destruct (Hb z Hz) as (H1 & H2 & H3).
    destruct (by_id did z) eqn:E; cbn -[total_of];
      rewrite (held_closed live res row), (total_mark (spent _) mark res row) by congruence || done;
      unfold held at 2, spent at 2 3; rewrite Hm2, Hdid, Hms, Hset, Hres, (bool_decide_eq_true_2 (res ∈ live)) by done.
    + apply bool_decide_eq_true in E. rewrite E in *. rewrite bool_decide_eq_true_2 by done. cbn -[total_of]. lia.
    + apply bool_decide_eq_false in E. rewrite bool_decide_eq_false_2 by congruence. cbn -[total_of]. lia.
Qed.

Lemma by_reservation_find d res row :
  List.find (by_reservation res) (ledger d) = Some row ->
  row ∈ ledger d /\ LedgerRow.reservation_id row = res.
Proof.
  intros [Hin Hp]%List.find_some. split; [by apply list_elem_of_In|]. by apply bool_decide_eq_true in Hp.
Qed.

Lemma ledger_step live d o :
  ddb_ok d -> ledger_ok live d -> op_ok o -> careful live d o -> ledger_ok (live_after d live o) (exec d o).
Proof.
  intros Hdok Hok Ho Hc. destruct o; cbn [exec]; try (cbn [live_after]).
  - by apply ledger_create.
  - apply (ledger_same live d); [done|..]; unfold append_event_sync; by case_match.
  - apply (ledger_same live d); [done|..]; unfold claim_member_sync; by repeat case_match.
  - unfold finish_member_sync. repeat (case_match; try exact Hok).
    eapply (ledger_update live d); [done|reflexivity..|]. by intros.
  - by apply ledger_reserve.
  - unfold settle_ledger_sync. cbn [careful] in Hc. destruct (match usage_event_id with Some _ => _ | None => _ end);
      [exact Hok|].
    destruct (List.find (by_reservation reservation) (ledger d)) as [row|] eqn:E; [|exact Hok].
    apply by_reservation_find in E as [Hin Hres]. destruct (Z.ltb_spec 0 (LedgerRow.settled row)); [exact Hok|].
    destruct Hc as (Hdid & Hact & [Hl|?]); [|lia]. destruct (Z.ltb_spec actual 0); [exact Hok|].
    destruct (ledger_signs _ _ Hok _ Hin) as (_ & _ & ?). by apply ledger_move.
  - unfold release_ledger_sync. cbn [careful] in Hc.
    destruct (List.find (by_reservation reservation) (ledger d)) as [row|] eqn:E; [|exact Hok].
    apply by_reservation_find in E as [Hin Hres]. destruct (Z.ltb_spec 0 (LedgerRow.released row)); [exact Hok|].
    cbn [orb]. destruct (Z.ltb_spec 0 (LedgerRow.settled row)); [exact Hok|].
    destruct Hc as (Hdid & [Hl|[?|?]]); [|lia..].
    destruct (ledger_signs _ _ Hok _ Hin) as (? & ? & ?). destruct (ledger_live _ _ Hok _ Hin) as [Hs _]; [by rewrite Hres|].
    by apply ledger_move.
  - unfold request_cancel_sync, insert_event. cbv beta iota zeta. repeat (case_match; try exact Hok);
      (eapply (ledger_update live d); [done|reflexivity..|]; by intros).
  - by apply (ledger_same live d).
  - by apply (ledger_same live d).
  - eapply (ledger_update live d); [done|reflexivity..|]. by intros.
  - by apply (ledger_same live d).
  - unfold finalize_cancelled_sync. repeat (case_match; try exact Hok).
    eapply (ledger_update live d); [done|reflexivity..|]. by intros.
  - unfold advance_to_joining_sync. repeat (case_match; try exact Hok).
    eapply (ledger_update live d); [done|reflexivity..|]. by intros.
  - unfold start_delegation_sync. repeat (case_match; try exact Hok).
    eapply (ledger_update live d); [done|reflexivity..|]. by intros.
  - unfold finalize_result_set_sync. case_match; [exact Hok|].
    eapply (ledger_update live d); [done|reflexivity..|]. by intros.
  - by apply ledger_delete.
Qed.

Lemma careful_history_ok live d ops live' d' :
  careful_history live d ops live' d' -> ddb_ok d -> ledger_ok live d -> ledger_ok live' d'.
Proof. induction 1; intros; auto using dexec_ok, ledger_step. Qed.

Lemma empty_ledger_ok : ledger_ok [] empty_ddb.
Proof. split; simpl; first [by apply NoDup_nil | by intros ? ?%elem_of_nil]. Qed.

Lemma careful_run live d ops live' :
  run_careful live d ops = Some live' -> careful_history live d ops live' (foldl exec d ops).
Proof.
  revert live d. induction ops as [|o ops IH]; intros live d; simpl; [intros [= ->]; constructor|].
  case_match eqn:E; [|done]. rewrite !andb_true_iff, !bool_decide_eq_true in E. destruct E as [Ho Hc].
  intros H. constructor; auto.
Qed.

(** * Properties *)

(** C12. The token ledger balances.  Reservations are opened, settled for any amount up to
    what they hold, zero included, and released, each by its own delegation; what is
    closed may be closed again where the registry can tell, which it cannot for a
    reservation settled at zero, or settled after its release: such calls are left out.
    Then, among all other operations of the registry, every delegation's reserved
    counter is the sum of its open reservations, its settled counter the sum of what
    the settled ones cost, neither is negative, and the two together never exceed its
    budget. *)
Theorem ledger_conserved ops live d x :
  careful_history [] empty_ddb ops live d -> x ∈ delegations d ->
  Delegation.budget_reserved_tokens x = total_of (held live (Delegation.id x)) (ledger d)
  /\ Delegation.budget_settled_tokens x = total_of (spent (Delegation.id x)) (ledger d)
  /\ 0 <= Delegation.budget_reserved_tokens x /\ 0 <= Delegation.budget_settled_tokens x
  /\ Delegation.budget_reserved_tokens x + Delegation.budget_settled_tokens x
     <= Delegation.budget_total_tokens x.
Proof.
  intros Hh Hx. pose proof (careful_history_ok _ _ _ _ _ Hh empty_ddb_ok empty_ledger_ok) as Hok.
  destruct (ledger_exact _ _ Hok _ Hx) as (H1 & H2 & H3). split_and!; try done; rewrite ?H1, ?H2.
  - apply total_nonneg. intros r Hr. unfold held. case_match; [|lia]. apply (ledger_signs _ _ Hok _ Hr).
  - apply total_nonneg. intros r Hr. unfold spent. case_match; [|lia]. apply (ledger_signs _ _ Hok _ Hr).
Qed.

(** One reservation is settled, one released, one settled at zero and one still open. *)
Lemma ledger_conserved_witness :
  exists x, find_delegation ledger_db "d" = Some x
  /\ Delegation.budget_reserved_tokens x = 50 /\ Delegation.budget_settled_tokens x = 25.
Proof.
  destruct (find_delegation ledger_db "d") as [x|] eqn:E; [|vm_compute in E; discriminate].
  assert (careful_history [] empty_ddb ledger_ops ["res-r3"] ledger_db) as Hh
    by (apply careful_run; vm_compute; reflexivity).
  pose proof (find_delegation_spec _ _ _ E) as [Hin Hid].
  destruct (ledger_conserved ledger_ops _ ledger_db x Hh Hin) as (H1 & H2 & _).
  exists x. rewrite H1, H2, Hid. split_and!; [done|vm_compute; reflexivity..].
Defined.

(** What the guard of [settle_ledger] leaves open: it asks only whether the
    reservation was settled for a positive amount.  A reservation already released, or
    settled at zero, is settled all the same, and its tokens leave the reserved counter
    a second time, so that the other open reservations are no longer covered. *)
Lemma closed_settled_again res :
  res = "res-r2" \/ res = "res-r4" ->
  let o := DSettle "d" res 0 None 9 in
  exists x, find_delegation (exec ledger_db o) "d" = Some x
  /\ Delegation.budget_reserved_tokens x = (if bool_decide (res = "res-r2") then 20 else 30)
  /\ total_of (held ["res-r3"] "d") (ledger (exec ledger_db o)) = 50
  /\ ~ careful ["res-r3"] ledger_db o.
Proof.
  intros [-> | ->]; (eexists; split; [vm_compute; reflexivity|]; split; [reflexivity|]; split; [vm_compute; reflexivity|];
    by apply (bool_decide_eq_false_1 _)).
Qed.
