(* ===== verification/DelegationRun.v ===== *)
(** Driving delegations (app/application/delegation_run_service.py and
    [_drive_to_terminal] of delegation_service.py): one scheduling pass, whose
    members run concurrently in any interleaving, and the loop of passes. *)
From S2P Require Import Prelude DelegationDomain DelegationStore DelegationInv.

(** * The members of one pass, in turn *)

(** [by_delegation.setdefault(m.delegation_id, []).append(m)] *)
Fixpoint add_to_group (m : DelegationMember.t) (groups : list (string * list DelegationMember.t))
    : list (string * list DelegationMember.t) :=
  match groups with
  | [] => [(DelegationMember.delegation_id m, [m])]
  | (did, group) :: rest =>
      if bool_decide (did = DelegationMember.delegation_id m) then (did, group ++ [m]) :: rest
      else (did, group) :: add_to_group m rest
  end.

Definition by_delegation (pending : list DelegationMember.t) : list (string * list DelegationMember.t) :=
  foldl (fun groups m => add_to_group m groups) [] pending.

(** One pass over the keys: the first member of every group, and what is left. *)
Fixpoint take_heads (groups : list (string * list DelegationMember.t))
    : list DelegationMember.t * list (string * list DelegationMember.t) :=
  match groups with
  | [] => ([], [])
  | (did, group) :: rest =>
      let '(heads, rest') := take_heads rest in
      match group with
      | [] => (heads, rest')
      | m :: [] => (m :: heads, rest')
      | m :: group => (m :: heads, (did, group) :: rest')
      end
  end.

(** [while by_delegation: ...], on fuel. *)
Fixpoint interleave (fuel : nat) (groups : list (string * list DelegationMember.t))
    : list DelegationMember.t :=
  match fuel, groups with
  | S fuel, _ :: _ => let '(heads, rest') := take_heads groups in heads ++ interleave fuel rest'
  | _, _ => []
  end.

(** A group is never longer than the list, so its length is fuel enough. *)
Definition round_robin (pending : list DelegationMember.t) : list DelegationMember.t :=
  interleave (length pending) (by_delegation pending).

(** * The coroutines [_claim_and_run], between their awaits *)

(** What a call of the child executor comes to. *)
Inductive exec_reply : Type :=
  | Replied (r : DelegationResult.t)
  | RunCancelled
  | TaskCancelled
  | ExecFailed.

Inductive proc : Type :=
  | Claiming (m : DelegationMember.t)
  | Starting (m claimed : DelegationMember.t)
  | Checking (m claimed : DelegationMember.t)
  | Loading (m claimed : DelegationMember.t)
  | Executing (m claimed : DelegationMember.t) (delegation : option Delegation.t)
  | Finishing (m claimed : DelegationMember.t) (r : DelegationResult.t)
  | Ended (m : DelegationMember.t).

Definition member_of (p : proc) : DelegationMember.t :=
  match p with
  | Claiming m | Starting m _ | Checking m _ | Loading m _ | Executing m _ _ | Finishing m _ _ | Ended m => m
  end.

Definition ended (p : proc) : bool := match p with Ended _ => true | _ => false end.

Definition claim_lock_of (m : DelegationMember.t) : string := "run-" +:+ DelegationMember.id m.

Definition cancelled_result (m : DelegationMember.t) (now : Z) : DelegationResult.t :=
  DelegationResult.mk DelegationMemberStatus.CANCELLED "" None [] (Some "agent_run_cancelled")
    (Some "member execution cancelled") [] None "" (DelegationMember.started_at m) (Some now).
Definition failed_result : DelegationResult.t :=
  DelegationResult.mk DelegationMemberStatus.FAILED "" None [] (Some "delegation_run_error")
    (Some "member execution failed") [] None "" None None.

Module RunConfig.
Record t : Type := mk { max_concurrency : Z; member_max_runtime_seconds : Z }.
End RunConfig.

(** The registry and the kill switch: what the coroutines share. *)
Record shared := mkShared { registry : ddb; kill_switch : bool }.
#[global] Instance rebuild_shared : Rebuild shared := fun s => mkShared (registry s) (kill_switch s).

(** What happens during a pass: a coroutine runs up to its next await, another
    client of the registry makes a call, the kill switch is moved. *)
Inductive event : Type :=
  | Run (i : nat) (now : Z)
  | Other (o : op)
  | Switch (b : bool).

Record env := mkEnv { env_now : Z; env_schedule : list event; env_later : Z }.

Section run.
Context {C : Type}.
Context (cfg : RunConfig.t) (parent_caps : gmap string C).

(** The child executor (run_service calls it with the member, the capability of
    its delegation's parent, the deadline and the canonical run): outside. *)
Context (execute : DelegationMember.t -> option C -> option Z -> option string -> Z -> exec_reply).

Definition execute_member (m : DelegationMember.t) (delegation : option Delegation.t) (now : Z)
    : option DelegationResult.t :=
  match execute m (parent_caps !! DelegationMember.delegation_id m)
          (delegation ≫= Delegation.deadline_at) (delegation ≫= Delegation.canonical_parent_run_id) now with
  | Replied r => Some r
  | RunCancelled => Some (cancelled_result m now)
  | TaskCancelled => None
  | ExecFailed => Some failed_result
  end.

(** A coroutine up to its next await; one registry call at most. *)
Definition step_proc (s : shared) (now : Z) (p : proc) : shared * proc :=
  match p with
  | Claiming m =>
      let '(d, r) := claim_member_sync (registry s) (DelegationMember.delegation_id m)
        (DelegationMember.ordinal m) (claim_lock_of m) (RunConfig.member_max_runtime_seconds cfg) now in
      (s <| registry := d |>,
       match r with
       | Return res =>
           match claim_outcome res, claim_member res with
           | MutationOutcome.SUCCESS, Some claimed => Starting m claimed
           | _, _ => Ended m
           end
       | Raise _ => Ended m
       end)
  | Starting m claimed =>
      (s <| registry := (start_delegation_sync (registry s) (DelegationMember.delegation_id m) now).1 |>,
       Checking m claimed)
  | Checking m claimed =>
      if kill_switch s
      then (s <| registry := (cancel_pending_members_sync (registry s) (DelegationMember.delegation_id m)
                                "kill_switch" now).1 |>, Ended m)
      else (s, Loading m claimed)
  | Loading m claimed =>
      (s, Executing m claimed (get_sync (registry s) (DelegationMember.delegation_id claimed)))
  | Executing m claimed delegation =>
      (s, match execute_member claimed delegation now with
          | Some r => Finishing m claimed r
          | None => Ended m
          end)
  | Finishing m claimed r =>
      (s <| registry := (finish_member_sync (registry s) (DelegationMember.delegation_id m)
                           (DelegationMember.ordinal m) (claim_lock_of m) r
                           (DelegationMember.version claimed) now).1 |>, Ended m)
  | Ended m => (s, Ended m)
  end.

Definition run_event (sp : shared * list proc) (e : event) : shared * list proc :=
  let '(s, ps) := sp in
  match e with
  | Run i now =>
      match ps !! i with
      | Some p => let '(s', p') := step_proc s now p in (s', <[i := p']> ps)
      | None => (s, ps)
      end
  | Other o => (s <| registry := exec (registry s) o |>, ps)
  | Switch b => (s <| kill_switch := b |>, ps)
  end.

(** [asyncio.gather]: done when every coroutine has ended. *)
Definition gather (schedule : list event) (s : shared) (ps : list proc) : option shared :=
  let '(s', ps') := foldl run_event (s, ps) schedule in
  if forallb ended ps' then Some s' else None.

(** * One pass *)

Definition deliver_entry (now : Z) (d : ddb) (entry : OutboxRow.t) : ddb :=
  let did := OutboxRow.delegation_id entry in
  let d1 := (cancel_pending_members_sync d did (OutboxRow.reason entry) now).1 in
  let d2 := (finalize_cancelled_sync d1 did now).1 in
  ack_outbox_sync d2 (OutboxRow.id entry) now.

Definition deliver_cancel_outbox (d : ddb) (now : Z) : ddb :=
  foldl (deliver_entry now) d (list_outbox_pending_sync d 50).

Definition claim_and_execute_pending (s : shared) (schedule : list event) : option shared :=
  gather schedule s
    (map Claiming (round_robin (list_pending_members_sync (registry s) (RunConfig.max_concurrency cfg)))).

Definition kill_member (now : Z) (ds : ddb * list string) (m : DelegationMember.t) : ddb * list string :=
  let '(d, cancelled) := ds in
  let did := DelegationMember.delegation_id m in
  if bool_decide (did ∈ cancelled) then ds
  else
    match get_sync d did with
    | None => ds
    | Some x =>
        if Delegation.is_terminal x then ds
        else
          let d1 := if negb (bool_decide (Delegation.status x = DelegationStatus.CANCELLING))
                    then (request_cancel_sync d did "kill_switch" now).1 else d in
          ((cancel_pending_members_sync d1 did "kill_switch" now).1, did :: cancelled)
    end.

Definition cancel_under_kill_switch (d : ddb) (now : Z) : ddb :=
  (foldl (kill_member now) (d, []) (list_pending_members_sync d 100)).1.

Definition advance_join (now : Z) (d : ddb) (x : Delegation.t) : ddb :=
  let did := Delegation.id x in
  let ms := list_members_sync d did in
  if bool_decide (ms = []) then d
  else if negb (forallb DelegationMember.is_terminal ms) then d
  else if bool_decide (Delegation.status x = DelegationStatus.CANCELLING)
  then (finalize_cancelled_sync d did now).1
  else
    let d1 := if bool_decide (Delegation.status x = DelegationStatus.RUNNING)
              then (advance_to_joining_sync d did now).1 else d in
    match get_result_set_sync d1 did with
    | None => d1
    | Some rs => (finalize_result_set_sync d1 did (rs_status rs) now).1
    end.

Definition try_advance_joins (d : ddb) (now : Z) : ddb :=
  foldl (advance_join now) d (list_active_delegations_sync d 100).

(** [tick]; [None] as long as the schedule leaves a coroutine unfinished. *)
Definition tick (s : shared) (e : env) : option shared :=
  let now := env_now e in
  let d1 := (mark_expired_sync (registry s) now).1 in
  let d2 := (mark_stale_sync d1 now).1 in
  let s3 := s <| registry := deliver_cancel_outbox d2 now |> in
  s4 ← (if kill_switch s3
        then Some (s3 <| registry := cancel_under_kill_switch (registry s3) now |>)
        else claim_and_execute_pending s3 (env_schedule e));
  Some (s4 <| registry := try_advance_joins (registry s4) (env_later e) |>).

(** * The loop of passes *)

Inductive drive_outcome : Type := DriveTerminal | DeletionMissing | DelegationTimeout.

Definition MAX_TICKS : nat := 200.

Fixpoint drive_ticks (n : nat) (envs : nat -> env) (k : nat) (s : shared) (did : string)
    : option (shared * drive_outcome) :=
  match n with
  | O => Some (s, DelegationTimeout)
  | S n =>
      match get_sync (registry s) did with
      | None => Some (s, DeletionMissing)
      | Some x =>
          if Delegation.is_terminal x then Some (s, DriveTerminal)
          else s' ← tick s (envs k); drive_ticks n envs (S k) s' did
      end
  end.

Definition drive_to_terminal (envs : nat -> env) (s : shared) (did : string)
    : option (shared * drive_outcome) :=
  drive_ticks MAX_TICKS envs 0 s did.
End run.
