(* ===== verification/DelegationDrive.v ===== *)
(** Passes of the delegation scheduler.  The order in which a pass starts its
    members: every pending member once, each delegation's in their order, and delegations
    in turn.  And passes against the registry: whatever runs at the same time, a pass is a
    sequence of registry operations. *)
From S2P Require Import Prelude DelegationDomain DelegationStore DelegationInv DelegationProps DelegationRun.

(** * Definitions *)

Definition groups : Type := list (string * list DelegationMember.t).

(** The members of [did] among [l], and in the groups. *)
Definition of_did (did : string) (l : list DelegationMember.t) : list DelegationMember.t :=
  List.filter (of_delegation did) l.
Definition group_of (did : string) (gs : groups) : list DelegationMember.t :=
  concat (map snd (List.filter (fun g => bool_decide (g.1 = did)) gs)).
Definition total (gs : groups) : nat := length (concat (map snd gs)).

Record groups_ok (gs : groups) : Prop := {
  gs_keys : NoDup (map fst gs);
  gs_full : forall g, g ∈ gs -> g.2 <> [];
  gs_members : forall g m, g ∈ gs -> m ∈ g.2 -> DelegationMember.delegation_id m = g.1
}.

(** * Lemmas *)

Lemma group_of_cons did g gs :
  group_of did (g :: gs) = (if bool_decide (g.1 = did) then g.2 else []) ++ group_of did gs.
Proof. unfold group_of. cbn [List.filter]. by case_bool_decide. Qed.

Lemma of_did_app did l l' : of_did did (l ++ l') = of_did did l ++ of_did did l'.
Proof. apply List.filter_app. Qed.

Lemma of_did_cons did m l :
  of_did did (m :: l)
  = if bool_decide (DelegationMember.delegation_id m = did) then m :: of_did did l else of_did did l.
Proof. reflexivity. Qed.

Lemma group_of_absent did gs : did ∉ map fst gs -> group_of did gs = [].
Proof.
  induction gs as [|g gs IH]; [done|]. cbn [map]. intros [Hn Hgs]%not_elem_of_cons.
  rewrite group_of_cons, bool_decide_eq_false_2 by done. auto.
Qed.

Lemma groups_ok_cons g gs :
  groups_ok (g :: gs) <->
  g.1 ∉ map fst gs /\ g.2 <> [] /\ (forall m, m ∈ g.2 -> DelegationMember.delegation_id m = g.1) /\ groups_ok gs.
Proof.
  split.
  - intros [Hk Hf Hm]. cbn [map] in Hk. apply NoDup_cons in Hk as [? ?].
    split_and!; [done|apply Hf; by left|intros m; apply Hm; by left|].
    split; [done|intros g' Hg; apply Hf; by right|intros g' m Hg; apply Hm; by right].
  - intros (Hn & Hne & Hms & [Hk Hf Hm]). split; [by apply NoDup_cons|..].
    + intros g' [->|Hg]%elem_of_cons; auto.
    + intros g' m [->|Hg]%elem_of_cons; eauto.
Qed.

Lemma add_to_group_keys m gs k :
  k ∈ map fst (add_to_group m gs) <-> k = DelegationMember.delegation_id m \/ k ∈ map fst gs.
Proof.
  induction gs as [|[did group] gs IH]; simpl; [by rewrite elem_of_cons, elem_of_nil|].
  case_bool_decide as Hd; simpl; rewrite !elem_of_cons; [naive_solver|]. rewrite IH. tauto.
Qed.

Lemma add_to_group_ok m gs : groups_ok gs -> groups_ok (add_to_group m gs).
Proof.
  induction gs as [|[did group] gs IH]; intros Hok; simpl.
  { apply groups_ok_cons. split_and!; [apply not_elem_of_nil|done| |done].
    by intros ? ->%list_elem_of_singleton. }
  apply groups_ok_cons in Hok as (Hn & Hne & Hms & Hok). simpl in *. case_bool_decide as Hd.
  - apply groups_ok_cons. split_and!; simpl; [done|by destruct group| |done].
    intros m' [Hm'| ->%list_elem_of_singleton]%elem_of_app; auto.
  - apply groups_ok_cons. split_and!; simpl; auto. rewrite add_to_group_keys. naive_solver.
Qed.

Lemma add_to_group_of did m gs :
  groups_ok gs -> group_of did (add_to_group m gs) = group_of did gs ++ of_did did [m].
Proof.
  rewrite of_did_cons. induction gs as [|[k group] gs IH]; intros Hok; simpl; rewrite !group_of_cons; simpl.
  - by repeat case_bool_decide.
  - apply groups_ok_cons in Hok as (Hn & _ & _ & Hok). simpl in *.
    destruct (decide (k = DelegationMember.delegation_id m)) as [->|Hk].
    + rewrite (bool_decide_eq_true_2 (_ = DelegationMember.delegation_id m)) by done.
      rewrite group_of_cons. simpl. case_bool_decide as Hd; [|by rewrite app_nil_r].
      rewrite (group_of_absent did gs) by congruence. by rewrite !app_nil_r.
    + rewrite (bool_decide_eq_false_2 (k = _)) by done. rewrite group_of_cons. simpl. rewrite IH by done.
      by rewrite app_assoc.
Qed.

Lemma add_to_group_total m gs : total (add_to_group m gs) = S (total gs).
Proof.
  unfold total. induction gs as [|[k group] gs IH]; simpl; [done|].
  case_bool_decide; simpl; rewrite !length_app; simpl; [lia|]. rewrite IH. lia.
Qed.

Lemma by_delegation_spec l :
  groups_ok (by_delegation l) /\ (forall did, group_of did (by_delegation l) = of_did did l)
  /\ total (by_delegation l) = length l.
Proof.
  unfold by_delegation.
  assert (forall gs, groups_ok gs ->
    let gs' := foldl (fun groups m => add_to_group m groups) gs l in
    groups_ok gs' /\ (forall did, group_of did gs' = group_of did gs ++ of_did did l)
    /\ total gs' = (total gs + length l)%nat) as H.
  { induction l as [|m l IH]; intros gs Hok; simpl.
    - split_and!; [done|intros; by rewrite app_nil_r|lia].
    - destruct (IH (add_to_group m gs)) as (H1 & H2 & H3); [by apply add_to_group_ok|].
      split_and!; [done| |rewrite H3, add_to_group_total; lia].
      intros did. rewrite H2, add_to_group_of, <- app_assoc by done. f_equal.
      by rewrite <- of_did_app. }
  apply (H []). split; [constructor|by intros ? ?%elem_of_nil|by intros ? ? ?%elem_of_nil].
Qed.

Lemma of_did_none did l :
  (forall m, m ∈ l -> DelegationMember.delegation_id m <> did) -> of_did did l = [].
Proof.
  intros H. apply List_filter_none, Forall_forall. intros m Hm. unfold of_delegation.
  apply bool_decide_eq_false. auto.
Qed.

Lemma take_heads_spec gs heads rest :
  groups_ok gs -> take_heads gs = (heads, rest) ->
  groups_ok rest /\ (forall k, k ∈ map fst rest -> k ∈ map fst gs)
  /\ length heads = length gs /\ total gs = (length heads + total rest)%nat
  /\ (forall m, m ∈ heads -> DelegationMember.delegation_id m ∈ map fst gs)
  /\ forall did, group_of did gs = of_did did heads ++ group_of did rest
     /\ length (of_did did heads) = if bool_decide (did ∈ map fst gs) then 1%nat else 0%nat.
Proof.
  revert heads rest. induction gs as [|[k group] gs IH]; intros heads rest Hok; cbn [take_heads].
  { intros [= <- <-]. split_and!; try done; by intros ? ?%elem_of_nil. }
  apply groups_ok_cons in Hok as (Hn & Hne & Hms & Hok). simpl in Hn, Hne, Hms.
  destruct (take_heads gs) as [hs rs] eqn:E. destruct (IH hs rs Hok eq_refl) as (H1 & H2 & H3 & H4 & H5 & H6).
  destruct group as [|m group]; [done|]. assert (DelegationMember.delegation_id m = k) as Hm by (apply Hms; by left).
  assert (of_did k hs = []) as Hhs.
  { apply of_did_none. intros m' Hm' Heq. apply Hn. rewrite <- Heq. by apply H5. }
  intros Heq.
  assert (heads = m :: hs /\ (rest = rs /\ group = [] \/ rest = (k, group) :: rs /\ group <> [])) as [-> Hrest]
    by (destruct group; injection Heq as <- <-; naive_solver).
  clear Heq. cbn [map fst].
  assert (k ∉ map fst rs) as Hkr by naive_solver.
  split_and!.
  - destruct Hrest as [[-> ->]|[-> Hg]]; [done|]. apply groups_ok_cons. split_and!; simpl; [done|done| |done].
    intros m' Hm'. apply Hms. by right.
  - intros k' Hk'. apply elem_of_cons. destruct Hrest as [[-> ->]|[-> Hg]]; [by right; apply H2|].
    cbn [map fst] in Hk'. apply elem_of_cons in Hk' as [->|Hk']; [by left|right; by apply H2].
  - simpl. lia.
  - unfold total in *. destruct Hrest as [[-> ->]|[-> Hg]]; simpl; rewrite ?length_app; simpl; lia.
  - intros m' [->|Hm']%elem_of_cons; apply elem_of_cons; [by left|right; by apply H5].
  - intros did. destruct (H6 did) as [Hg Hl]. rewrite group_of_cons, of_did_cons. cbn [fst snd].
    rewrite Hm. destruct (decide (k = did)) as [<-|Hkd].
    + rewrite !bool_decide_eq_true_2 by (done || by left). rewrite Hhs. split; [|done].
      rewrite (group_of_absent k gs) by done. destruct Hrest as [[-> ->]|[-> _]].
      * by rewrite (group_of_absent k rs).
      * rewrite group_of_cons. cbn [fst snd]. rewrite bool_decide_eq_true_2 by done.
        by rewrite (group_of_absent k rs).
    + rewrite (bool_decide_eq_false_2 (k = did)) by done. split.
      * rewrite Hg. destruct Hrest as [[-> ->]|[-> _]]; [done|]. rewrite group_of_cons. cbn [fst snd].
        by rewrite bool_decide_eq_false_2.
      * rewrite Hl. assert (did ∈ k :: map fst gs <-> did ∈ map fst gs) as Hiff by (rewrite elem_of_cons; naive_solver).
        by rewrite (bool_decide_ext _ _ Hiff).
Qed.

Lemma total_nil gs : groups_ok gs -> total gs = 0%nat -> gs = [].
Proof.
  destruct gs as [|g gs]; [done|]. intros (_ & Hne & _)%groups_ok_cons. unfold total. simpl.
  rewrite length_app. destruct (g.2); [done|]. simpl. lia.
Qed.

Lemma interleave_of fuel gs did :
  groups_ok gs -> (total gs <= fuel)%nat -> of_did did (interleave fuel gs) = group_of did gs.
Proof.
  revert gs. induction fuel as [|fuel IH]; intros gs Hok Hf.
  { rewrite (total_nil gs) by (done || lia). done. }
  destruct gs as [|g gs]; [done|]. cbn [interleave].
  destruct (take_heads (g :: gs)) as [hs rs] eqn:E.
  destruct (take_heads_spec _ _ _ Hok E) as (H1 & _ & H3 & H4 & _ & H6). destruct (H6 did) as [Hg _].
  rewrite of_did_app, IH, Hg; [done|done|]. simpl in H3. lia.
Qed.

(** Between two delegations with work left, neither gets ahead by more than one. *)
Lemma interleave_fair fuel gs a b pre post :
  groups_ok gs -> (total gs <= fuel)%nat -> interleave fuel gs = pre ++ post -> of_did b post <> [] ->
  (length (of_did a pre) <= S (length (of_did b pre)))%nat.
Proof.
  revert gs pre. induction fuel as [|fuel IH]; intros gs pre Hok Hf.
  { cbn [interleave]. intros Heq Hb. symmetry in Heq. apply app_eq_nil in Heq as [-> ->]. done. }
  destruct gs as [|g gs].
  { cbn [interleave]. intros Heq Hb. symmetry in Heq. apply app_eq_nil in Heq as [-> ->]. done. }
  cbn [interleave]. destruct (take_heads (g :: gs)) as [hs rs] eqn:E.
  destruct (take_heads_spec _ _ _ Hok E) as (H1 & Hk & H3 & H4 & _ & H6). simpl in H3. intros Heq Hb.
  assert (forall did, (length (of_did did hs) <= 1)%nat) as Hone
    by (intros did; rewrite (proj2 (H6 did)); case_bool_decide; lia).
  apply app_eq_inv in Heq as [(k & Hhs & Hpost)|(k & Hpre & Hrest)].
  - specialize (Hone a). rewrite Hhs, of_did_app, length_app in Hone. lia.
  - specialize (IH rs k H1 ltac:(lia) Hrest Hb). rewrite Hpre, !of_did_app, !length_app.
    destruct (decide (b ∈ map fst (g :: gs))) as [Hin|Hout].
    + assert (length (of_did b hs) = 1%nat) as -> by (rewrite (proj2 (H6 b)); by rewrite bool_decide_eq_true_2).
      specialize (Hone a). lia.
    + exfalso. apply Hb. assert (of_did b (interleave fuel rs) = []) as Hnone.
      { rewrite interleave_of by (done || lia). apply group_of_absent. auto. }
      rewrite Hrest, of_did_app in Hnone. by apply app_eq_nil in Hnone as [_ ?].
Qed.

(** A permutation from its parts. *)
Lemma perm_of_dids l l' : (forall did, of_did did l = of_did did l') -> l ≡ₚ l'.
Proof.
  revert l'. induction l as [|m l IH]; intros l' H.
  - destruct l' as [|m' l']; [done|]. specialize (H (DelegationMember.delegation_id m')).
    rewrite of_did_cons, bool_decide_eq_true_2 in H by done. done.
  - pose proof (H (DelegationMember.delegation_id m)) as Hm.
    rewrite of_did_cons, bool_decide_eq_true_2 in Hm by done.
    assert (exists pre post, l' = pre ++ m :: post /\ of_did (DelegationMember.delegation_id m) pre = [])
      as (pre & post & -> & Hpre).
    { clear H IH. induction l' as [|m' l' IH]; [done|]. rewrite of_did_cons in Hm. case_bool_decide as Hd.
      - injection Hm as -> _. by exists [], l'.
      - destruct (IH Hm) as (pre & post & -> & Hpre). exists (m' :: pre), post. split; [done|].
        by rewrite of_did_cons, bool_decide_eq_false_2. }
    rewrite <- Permutation_middle. f_equiv. apply IH. intros did. specialize (H did).
    rewrite of_did_app, of_did_cons in *. rewrite of_did_cons in H. case_bool_decide as Hd; [|done].
    subst did. rewrite Hpre in *. by injection H.
Qed.

Lemma round_robin_of did pending : of_did did (round_robin pending) = of_did did pending.
Proof.
  destruct (by_delegation_spec pending) as (Hok & Hof & Htot).
  unfold round_robin. rewrite interleave_of by (done || lia). apply Hof.
Qed.

Lemma round_robin_spec pending : round_robin pending ≡ₚ pending /\ length (round_robin pending) = length pending.
Proof.
  assert (round_robin pending ≡ₚ pending) as H by (apply perm_of_dids; intros; apply round_robin_of).
  split; [done|]. by rewrite H.
Qed.

(** * Properties *)

(** A pass starts its members fairly.  The order computed by the loop over the
    groups is the list of pending members rearranged: every one of them once, those of
    one delegation in their order.  And delegations take turns: however the order is
    cut, no delegation has been given more than one member beyond any other that still
    has members waiting. *)
Theorem round_robin_fair pending :
  round_robin pending ≡ₚ pending
  /\ (forall did, of_did did (round_robin pending) = of_did did pending)
  /\ forall pre post a b, round_robin pending = pre ++ post -> of_did b post <> [] ->
     (length (of_did a pre) <= S (length (of_did b pre)))%nat.
Proof.
  destruct (by_delegation_spec pending) as (Hok & Hof & Htot).
  split_and!; [apply round_robin_spec|intros; apply round_robin_of|].
  intros pre post a b. apply interleave_fair; [done|lia].
Qed.

(** * Definitions *)

(** Some operations lead from [d] to [d']. *)
Definition runs (d d' : ddb) : Prop := exists ops, history d ops d'.

(** The child executor ends its members: with a result that is one. *)
Definition executor_ends {C} (execute : DelegationMember.t -> option C -> option Z -> option string -> Z -> exec_reply)
    : Prop :=
  forall m cap deadline run now r, execute m cap deadline run now = Replied r ->
    DelegationResult.status r ∈ DELEGATION_MEMBER_TERMINAL_STATES.

Definition event_ok (e : event) : Prop := match e with Other o => op_ok o | _ => True end.

(** A coroutine about to finish its member has a result to finish it with. *)
Definition proc_result_ok (p : proc) : Prop :=
  match p with
  | Finishing _ _ r => DelegationResult.status r ∈ DELEGATION_MEMBER_TERMINAL_STATES
  | _ => True
  end.

(** The delegation of three members, its first one left RUNNING by a process that
    died; two coroutines at a time, taking turns. *)
Definition drive_cfg : RunConfig.t := RunConfig.mk 2 900.
Definition drive_schedule (now : Z) : list event :=
  concat (replicate 6 [Run 0 now; Run 1 now]).
Definition drive_envs (k : nat) : env :=
  let now := (Z.of_nat k + 1) * 20000000 in mkEnv now (drive_schedule now) now.
Definition drive_execute (m : DelegationMember.t) (cap : option unit) (deadline : option Z)
    (run : option string) (now : Z) : exec_reply :=
  if bool_decide (DelegationMember.role m = DelegationMemberRole.AGGREGATOR) then ExecFailed
  else Replied (result_demo DelegationMemberStatus.SUCCEEDED).
Definition drive_start : shared := mkShared claimed_db false.

(** A pass disturbed: the delegation is cancelled while its members start, and
    the kill switch falls before one of them has run. *)
Definition disturbed_env : env :=
  mkEnv 20000000 ([Run 0 20000001; Run 1 20000002; Other (DRequestCancel "d" "stop" 20000003); Run 0 20000004;
                   Run 0 20000005; Switch true] ++ drive_schedule 20000006) 20000007.

(** * Lemmas: sequences of operations *)

Lemma runs_refl d : runs d d.
Proof. exists []. constructor. Qed.

Lemma runs_trans d1 d2 d3 : runs d1 d2 -> runs d2 d3 -> runs d1 d3.
Proof. intros [ops1 H1] [ops2 H2]. exists (ops1 ++ ops2). by eapply dhistory_app. Qed.

Lemma runs_op d o : op_ok o -> runs d (exec d o).
Proof. intros Ho. exists [o]. constructor; [done|constructor]. Qed.

Lemma runs_foldl {A B} (f : B -> A -> B) (get : B -> ddb) l b :
  (forall b x, runs (get b) (get (f b x))) -> runs (get b) (get (foldl f b l)).
Proof.
  intros H. revert b. induction l as [|x l IH]; intros b; simpl; [apply runs_refl|].
  eapply runs_trans; [apply H|apply IH].
Qed.

#[export] Hint Resolve runs_refl : agent.

(** [d'] is one operation after [d]. *)
Ltac runs_by o :=
  match goal with |- runs ?d _ => apply (runs_op d o); by first [exact I | assumption | idtac] end.

Section runs.
Context {C : Type} (cfg : RunConfig.t) (parent_caps : gmap string C).
Context (execute : DelegationMember.t -> option C -> option Z -> option string -> Z -> exec_reply).
Context (Hexecute : executor_ends execute).

Lemma execute_member_ends m x now r :
  execute_member parent_caps execute m x now = Some r ->
  DelegationResult.status r ∈ DELEGATION_MEMBER_TERMINAL_STATES.
Proof.
  unfold execute_member. destruct (execute _ _ _ _ _) eqn:E; intros [= <-].
  - by eapply Hexecute.
  - by apply (bool_decide_eq_true_1 _).
  - by apply (bool_decide_eq_true_1 _).
Qed.

Lemma step_proc_runs s now p s' p' :
  proc_result_ok p -> step_proc cfg parent_caps execute s now p = (s', p') ->
  runs (registry s) (registry s') /\ proc_result_ok p'.
Proof.
  destruct p as [m|m c|m c|m c|m c x|m c r|m]; cbn [step_proc]; intros Hp.
  - destruct (claim_member_sync _ _ _ _ _ _) as [d r] eqn:E. intros [= <- <-]. split.
    + change d with (d, r).1. rewrite <- E.
      runs_by (DClaim (DelegationMember.delegation_id m) (DelegationMember.ordinal m) (claim_lock_of m)
        (RunConfig.member_max_runtime_seconds cfg) now).
    + by repeat case_match.
  - intros [= <- <-]. split; [|done]. runs_by (DStart (DelegationMember.delegation_id m) now).
  - destruct (kill_switch s); intros [= <- <-]; (split; [|done]); [|apply runs_refl].
    runs_by (DCancelMembers (DelegationMember.delegation_id m) "kill_switch" now).
  - intros [= <- <-]. by split; [apply runs_refl|].
  - intros [= <- <-]. split; [apply runs_refl|].
    destruct (execute_member _ _ c x now) eqn:E; [|done]. by eapply execute_member_ends.
  - intros [= <- <-]. split; [|done].
    runs_by (DFinish (DelegationMember.delegation_id m) (DelegationMember.ordinal m) (claim_lock_of m) r
      (DelegationMember.version c) now).
  - intros [= <- <-]. by split; [apply runs_refl|].
Qed.

Lemma gather_runs schedule s ps s' :
  Forall event_ok schedule -> Forall proc_result_ok ps ->
  gather cfg parent_caps execute schedule s ps = Some s' -> runs (registry s) (registry s').
Proof.
  unfold gather. intros Hev. revert s ps.
  induction Hev as [|e schedule He _ IH]; intros s ps Hps; cbn [foldl].
  { case_match; intros [= <-]. apply runs_refl. }
  destruct e as [i now|o|b]; cbn [run_event].
  - destruct (ps !! i) as [p|] eqn:Hi; [|by apply IH].
    destruct (step_proc _ _ _ s now p) as [s1 p1] eqn:E.
    destruct (step_proc_runs _ _ _ _ _ (proj1 (Forall_lookup _ _) Hps _ _ Hi) E) as [Hr Hp].
    intros Hg. eapply runs_trans; [exact Hr|]. apply (IH s1 (<[i:=p1]> ps)); [|done].
    by apply Forall_insert.
  - intros Hg. eapply runs_trans; [by apply (runs_op _ o)|]. exact (IH _ ps Hps Hg).
  - intros Hg. exact (IH _ ps Hps Hg).
Qed.
End runs.

Lemma deliver_entry_runs now d entry : runs d (deliver_entry now d entry).
Proof.
  unfold deliver_entry. eapply runs_trans;
    [by apply (runs_op d (DCancelMembers (OutboxRow.delegation_id entry) (OutboxRow.reason entry) now))|].
  eapply runs_trans; [by apply (runs_op _ (DFinalizeCancelled (OutboxRow.delegation_id entry) now))|].
  by apply (runs_op _ (DAck (OutboxRow.id entry) now)).
Qed.

Lemma kill_member_runs now ds m : runs ds.1 (kill_member now ds m).1.
Proof.
  destruct ds as [d cancelled]. unfold kill_member. set (did := DelegationMember.delegation_id m).
  case_bool_decide; [apply runs_refl|]. destruct (get_sync d did) as [x|]; [|apply runs_refl].
  destruct (Delegation.is_terminal x); [apply runs_refl|]. cbn [fst].
  eapply runs_trans; [|by apply (runs_op _ (DCancelMembers did "kill_switch" now))].
  case_match; [by apply (runs_op _ (DRequestCancel did "kill_switch" now))|apply runs_refl].
Qed.

Lemma result_set_status d did rs :
  get_result_set_sync d did = Some rs -> rs_status rs ∈ [DelegationStatus.SUCCEEDED; DelegationStatus.FAILED].
Proof.
  unfold get_result_set_sync. destruct (find_delegation d did); [|done]. case_match; [done|].
  intros [= <-]. unfold evaluate_join_outcome. cbn. repeat case_match; by apply (bool_decide_eq_true_1 _).
Qed.

Lemma advance_join_runs now d x : runs d (advance_join now d x).
Proof.
  unfold advance_join. set (did := Delegation.id x).
  case_bool_decide; [apply runs_refl|]. destruct (negb _); [apply runs_refl|].
  case_bool_decide; [by apply (runs_op _ (DFinalizeCancelled did now))|].
  eapply runs_trans.
  { instantiate (1 := if bool_decide (Delegation.status x = DelegationStatus.RUNNING)
                      then (advance_to_joining_sync d did now).1 else d).
    case_match; [by apply (runs_op _ (DAdvance did now))|apply runs_refl]. }
  destruct (get_result_set_sync _ did) as [rs|] eqn:E; [|apply runs_refl].
  apply (runs_op _ (DFinalizeResult did (rs_status rs) now)). by eapply result_set_status.
Qed.

(** * Properties *)

(** C9. A pass adds nothing to the registry.  Whatever the order in which its
    members' coroutines run, whatever other clients of the registry and the kill switch
    do between their steps, the registry after a pass is one its own operations lead
    to; so all that is proved of reachable registries holds of a scheduled one. *)
Theorem passes_refine_registry {C} (cfg : RunConfig.t) (caps : gmap string C) execute s e s' :
  executor_ends execute -> Forall event_ok (env_schedule e) ->
  tick cfg caps execute s e = Some s' -> runs (registry s) (registry s').
Proof.
  intros Hex Hev. unfold tick. cbn zeta.
  set (d1 := (mark_expired_sync (registry s) (env_now e)).1).
  set (d2 := (mark_stale_sync d1 (env_now e)).1). set (d3 := deliver_cancel_outbox d2 (env_now e)).
  assert (runs (registry s) d3) as H3.
  { eapply runs_trans; [by apply (runs_op _ (DExpire (env_now e)))|].
    eapply runs_trans; [by apply (runs_op _ (DStale (env_now e)))|].
    apply (runs_foldl (deliver_entry (env_now e)) id). intros. apply deliver_entry_runs. }
  cbn [kill_switch registry]. intros (s4 & Hs4 & [= <-])%bind_Some. cbn [registry].
  eapply runs_trans; [exact H3|]. eapply runs_trans.
  2: { apply (runs_foldl (advance_join (env_later e)) id). intros. apply advance_join_runs. }
  change (kill_switch (s <| registry := d3 |>)) with (kill_switch s) in Hs4.
  destruct (kill_switch s); [injection Hs4 as <-; cbn [registry]|].
  - apply (runs_foldl (kill_member (env_now e)) fst _ (d3, [])). intros. apply kill_member_runs.
  - eapply (gather_runs _ _ _ Hex) in Hs4; [exact Hs4|done|]. apply Forall_forall.
    intros p (m & -> & _)%list_elem_of_fmap. exact I.
Qed.

Lemma drive_execute_ends : executor_ends drive_execute.
Proof.
  intros m cap deadline run now r. unfold drive_execute. case_bool_decide; [discriminate|].
  intros [= <-]. by apply (bool_decide_eq_true_1 _).
Qed.

Lemma passes_refine_registry_witness :
  exists s', tick drive_cfg ∅ drive_execute drive_start disturbed_env = Some s'
  /\ runs (registry drive_start) (registry s') /\ kill_switch s' = true.
Proof.
  assert (option_map kill_switch (tick drive_cfg ∅ drive_execute drive_start disturbed_env) = Some true) as H
    by (vm_compute; reflexivity).
  destruct (tick drive_cfg ∅ drive_execute drive_start disturbed_env) as [s'|] eqn:Hs; [|discriminate H].
  injection H as Hk. exists s'. split; [reflexivity|]. split; [|exact Hk].
  apply (passes_refine_registry drive_cfg ∅ drive_execute drive_start disturbed_env s' drive_execute_ends);
    [|exact Hs].
  repeat (apply Forall_cons_2; [exact I|]). apply Forall_nil_2.
Defined.
