(* ===== verification/DelegationLive.v ===== *)
(** The scheduler finishes: from a registry whose claims have lapsed, enough
    passes end every delegation, and [_drive_to_terminal] returns. *)
From S2P Require Import Prelude DelegationDomain DelegationStore DelegationInv DelegationProps.
From S2P Require Import DelegationRun DelegationDrive.

(** * Definitions *)

Definition live_count (d : ddb) : nat := rowcount live_member (members d).
Definition active (x : Delegation.t) : bool := negb (Delegation.is_terminal x).

(** What passes need of the registry and keep: every active delegation has a
    member, one not yet started has a member left and no cancellation on its way,
    and one listing reaches all that are active. *)
Record core (d : ddb) : Prop := {
  core_ok : ddb_ok d;
  core_members : forall x, x ∈ delegations d -> active x = true ->
    exists m, m ∈ members d /\ DelegationMember.delegation_id m = Delegation.id x;
  core_pending : forall x, x ∈ delegations d -> Delegation.status x = DelegationStatus.PENDING ->
    (exists m, m ∈ members d /\ DelegationMember.delegation_id m = Delegation.id x /\ live_member m = true)
    /\ forall o, o ∈ outbox d -> OutboxRow.delegation_id o <> Delegation.id x;
  core_active : (length (List.filter active (delegations d)) <= 100)%nat
}.

(** No claim is live at [now]: the members still RUNNING, left by a process that
    died, have all lost their lease. *)
Definition lapsed (now : Z) (d : ddb) : Prop :=
  forall m, m ∈ members d -> DelegationMember.status m = DelegationMemberStatus.RUNNING ->
    exists at_, DelegationMember.claim_expires_at m = Some at_ /\ at_ < now.
Definition idle (d : ddb) : Prop :=
  forall m, m ∈ members d -> DelegationMember.status m <> DelegationMemberStatus.RUNNING.

(** How one phase of a pass changes the rows. *)
Definition delegation_phase (x x' : Delegation.t) : Prop :=
  Delegation.id x' = Delegation.id x
  /\ (Delegation.status x' = DelegationStatus.PENDING -> Delegation.status x = DelegationStatus.PENDING)
  /\ (Delegation.is_terminal x = true -> Delegation.is_terminal x' = true).

Definition member_phase (m m' : DelegationMember.t) : Prop :=
  place m' = place m /\ DelegationMember.id m' = DelegationMember.id m
  /\ (live_member m' = true -> live_member m = true)
  /\ (DelegationMember.status m' = DelegationMemberStatus.RUNNING ->
      DelegationMember.status m = DelegationMemberStatus.RUNNING).

Inductive phase (d d' : ddb) : Prop := phase_intro f g :
  delegations d' = map f (delegations d) ->
  (forall x, x ∈ delegations d -> delegation_phase x (f x)) ->
  members d' = map g (members d) ->
  (forall m, m ∈ members d -> member_phase m (g m)) ->
  (forall m x, m ∈ members d -> live_member m = true -> live_member (g m) = false ->
     x ∈ delegations d' -> Delegation.id x = DelegationMember.delegation_id m ->
     Delegation.status x <> DelegationStatus.PENDING) ->
  (forall o, o ∈ outbox d' -> exists o', o' ∈ outbox d /\ OutboxRow.delegation_id o' = OutboxRow.delegation_id o) ->
  phase d d'.

(** * Lemmas: phases *)

Lemma delegation_phase_refl x : delegation_phase x x.
Proof. by split_and!. Qed.

Lemma member_phase_refl m : member_phase m m.
Proof. by split_and!. Qed.

#[export] Hint Resolve delegation_phase_refl member_phase_refl : agent.

Lemma phase_of_outbox d d' :
  delegations d' = delegations d -> members d' = members d ->
  (forall o, o ∈ outbox d' -> exists o', o' ∈ outbox d /\ OutboxRow.delegation_id o' = OutboxRow.delegation_id o) ->
  phase d d'.
Proof.
  intros Hd Hm Ho. apply (phase_intro _ _ id id); rewrite ?map_id; auto with agent.
  intros m x _ Hl Hdead. simpl in Hdead. congruence.
Qed.

Lemma phase_refl d : phase d d.
Proof. apply phase_of_outbox; eauto. Qed.

Lemma phase_trans d1 d2 d3 : phase d1 d2 -> phase d2 d3 -> phase d1 d3.
Proof.
  intros [f1 g1 Hd1 Hf1 Hm1 Hg1 Hl1 Ho1] [f2 g2 Hd2 Hf2 Hm2 Hg2 Hl2 Ho2].
  assert (forall x, x ∈ delegations d1 -> f1 x ∈ delegations d2) as Hin
    by (intros x Hx; rewrite Hd1; by apply list_elem_of_fmap_2).
  assert (forall m, m ∈ members d1 -> g1 m ∈ members d2) as Hinm
    by (intros m Hm; rewrite Hm1; by apply list_elem_of_fmap_2).
  apply (phase_intro _ _ (fun x => f2 (f1 x)) (fun m => g2 (g1 m))).
  - by rewrite Hd2, Hd1, List.map_map.
  - intros x Hx. destruct (Hf1 x Hx) as (? & ? & ?), (Hf2 _ (Hin x Hx)) as (? & ? & ?).
    split_and!; [congruence|auto|auto].
  - by rewrite Hm2, Hm1, List.map_map.
  - intros m Hm. destruct (Hg1 m Hm) as (? & ? & ? & ?), (Hg2 _ (Hinm m Hm)) as (? & ? & ? & ?).
    split_and!; [congruence|congruence|auto|auto].
  - intros m x Hm Hlive Hdead Hx Hid. destruct (live_member (g1 m)) eqn:E.
    + apply (Hl2 (g1 m)); auto. destruct (Hg1 m Hm) as (Hp & _). unfold place in Hp. congruence.
    + rewrite Hd2 in Hx. apply list_elem_of_fmap in Hx as (y & -> & Hy).
      destruct (Hf2 y Hy) as (Hidy & Hpend & _). intros Hp. apply Hpend in Hp.
      apply (Hl1 m y); [done..|congruence|done].
  - intros o Ho. destruct (Ho2 o Ho) as (o2 & Hin2 & Heq2). destruct (Ho1 o2 Hin2) as (o1 & ? & ?).
    exists o1. split; [done|congruence].
Qed.

Lemma phase_foldl {A} (f : ddb -> A -> ddb) (inv : ddb -> Prop) l d :
  (forall d x, inv d -> x ∈ l -> phase d (f d x) /\ inv (f d x)) -> inv d ->
  phase d (foldl f d l) /\ inv (foldl f d l).
Proof.
  revert d. induction l as [|x l IH]; intros d H Hd; simpl; [by split; [apply phase_refl|]|].
  destruct (H d x Hd) as [H1 H2]; [by left|]. destruct (IH (f d x)) as [H3 H4]; [|done|].
  - intros d' y Hd' Hy. apply H; [done|by right].
  - split; [by eapply phase_trans|done].
Qed.

Lemma phase_core d d' : phase d d' -> ddb_ok d' -> core d -> core d'.
Proof.
  intros [f g Hd Hf Hm Hg Hl Ho] Hok [_ Hmem Hpend Hact]. split; [done|..].
  - intros x' Hx' Ha. rewrite Hd in Hx'. apply list_elem_of_fmap in Hx' as (x & -> & Hx).
    destruct (Hf x Hx) as (Hid & _ & Ht). destruct (Hmem x Hx) as (m & Hin & Hdid).
    { unfold active in *. apply negb_true_iff in Ha. apply negb_true_iff, not_true_iff_false. intros Hx1.
      by rewrite (Ht Hx1) in Ha. }
    exists (g m). rewrite Hm. split; [by apply list_elem_of_fmap_2|].
    destruct (Hg m Hin) as (Hp & _). unfold place in Hp. congruence.
  - intros x' Hx'. pose proof Hx' as Hx. rewrite Hd in Hx. apply list_elem_of_fmap in Hx as (x & Heq & Hx).
    destruct (Hf x Hx) as (Hid & Hp & _). intros Hs. rewrite Heq in Hs.
    destruct (Hpend x Hx (Hp Hs)) as [(m & Hin & Hdid & Hlive) Hout]. rewrite Heq, Hid. split.
    + exists (g m). rewrite Hm. destruct (Hg m Hin) as (Hpl & _). unfold place in Hpl.
      split; [by apply list_elem_of_fmap_2|]. split; [congruence|].
      destruct (live_member (g m)) eqn:E; [done|]. destruct (Hl m x' Hin Hlive E Hx'); congruence.
    + intros o Hin'. destruct (Ho o Hin') as (o' & Hin'' & <-). by apply Hout.
  - rewrite Hd. etrans; [|exact Hact]. clear -Hf. induction (delegations d) as [|x l IH]; [done|]. simpl.
    destruct (Hf x) as (_ & _ & Ht); [by left|]. specialize (IH ltac:(intros; apply Hf; by right)).
    assert (active (f x) = true -> active x = true) as Ha.
    { unfold active. rewrite !negb_true_iff, <- !not_true_iff_false. tauto. }
    destruct (active (f x)); [rewrite Ha by done|destruct (active x)]; simpl; lia.
Qed.

Lemma phase_idle d d' : phase d d' -> idle d -> idle d'.
Proof.
  intros [f g _ _ Hm Hg _ _] Hi m' Hm'. rewrite Hm in Hm'. apply list_elem_of_fmap in Hm' as (m & -> & Hin).
  destruct (Hg m Hin) as (_ & _ & _ & Hr). intros H. by apply (Hi m Hin), Hr.
Qed.

Lemma live_count_map (g : DelegationMember.t -> DelegationMember.t) l dead :
  NoDup (map DelegationMember.id l) ->
  (forall m, m ∈ l -> live_member (g m) = true -> live_member m = true) ->
  NoDup dead -> (forall m, m ∈ dead -> m ∈ l /\ live_member m = true /\ live_member (g m) = false) ->
  (rowcount live_member (map g l) + length dead <= rowcount live_member l)%nat.
Proof.
  intros Hnd Hg Hdn Hdead. unfold rowcount.
  assert (length (List.filter live_member (map g l)) = length (List.filter (fun m => live_member (g m)) l)) as ->
    by (clear; induction l as [|m l IH]; simpl; [done|]; destruct (live_member (g m)); simpl; lia).
  rewrite <- length_app. apply NoDup_incl_length.
  - apply NoDup_ListNoDup. apply NoDup_app. split; [apply NoDup_List_filter; by eapply NoDup_fmap_1|].
    split; [|done]. intros m [_ Hm]%List_filter_elem Hd. destruct (Hdead m Hd) as (_ & _ & ?). congruence.
  - intros m Hm. apply list_elem_of_In, elem_of_app in Hm. apply list_elem_of_In, List_filter_elem.
    destruct Hm as [[Hin Hl]%List_filter_elem|Hm]; [split; auto|]. by destruct (Hdead m Hm) as (? & ? & _).
Qed.

Lemma phase_live_count d d' : ddb_ok d -> phase d d' -> (live_count d' <= live_count d)%nat.
Proof.
  intros Hok [f g _ _ Hm Hg _ _]. unfold live_count. rewrite Hm.
  pose proof (live_count_map g (members d) []) as H. simpl in H. etrans; [|apply H].
  - lia.
  - apply (ok_member_ids _ Hok).
  - intros m Hin. apply (Hg m Hin).
  - constructor.
  - by intros ? ?%elem_of_nil.
Qed.

(** * Lemmas: the phases before and after the members run *)

Lemma runs_ok d d' : ddb_ok d -> runs d d' -> ddb_ok d'.
Proof. intros Hok [ops H]. by eapply dhistory_ok. Qed.

Lemma phase_of_delegations d d' p f :
  delegations d' = update_where p f (delegations d) -> members d' = members d -> outbox d' = outbox d ->
  (forall x, x ∈ delegations d -> p x = true -> delegation_phase x (f x)) -> phase d d'.
Proof.
  intros Hd Hm Ho Hf. apply (phase_intro _ _ (fun x => if p x then f x else x) id).
  - exact Hd.
  - by apply update_where_step; [apply delegation_phase_refl|].
  - by rewrite map_id.
  - intros; apply member_phase_refl.
  - intros m x _ Hl Hdead. simpl in Hdead. congruence.
  - rewrite Ho. eauto.
Qed.

Lemma phase_of_members d d' p g :
  delegations d' = delegations d -> members d' = update_where p g (members d) -> outbox d' = outbox d ->
  (forall m, m ∈ members d -> p m = true -> member_phase m (g m)) ->
  (forall m x, m ∈ members d -> p m = true -> live_member (g m) = false -> x ∈ delegations d ->
     Delegation.id x = DelegationMember.delegation_id m -> Delegation.status x <> DelegationStatus.PENDING) ->
  phase d d'.
Proof.
  intros Hd Hm Ho Hg Hl. apply (phase_intro _ _ id (fun m => if p m then g m else m)).
  - by rewrite map_id.
  - intros; apply delegation_phase_refl.
  - exact Hm.
  - by apply update_where_step; [apply member_phase_refl|].
  - rewrite Hd. intros m x Hin Hlive Hdead Hx Hid. destruct (p m) eqn:E; [by eapply Hl|congruence].
  - rewrite Ho. eauto.
Qed.

Lemma phase_fold {A} (f : ddb -> A -> ddb) l d0 :
  ddb_ok d0 -> (forall d x, runs d (f d x)) ->
  (forall d x, x ∈ l -> ddb_ok d -> phase d0 d -> phase d (f d x)) ->
  phase d0 (foldl f d0 l) /\ ddb_ok (foldl f d0 l).
Proof.
  intros Hok Hr Hf.
  destruct (phase_foldl f (fun d => ddb_ok d /\ phase d0 d) l d0) as [? [? _]]; [|by split; [|apply phase_refl]|done].
  intros d x [Hd Hp] Hx. specialize (Hf d x Hx Hd Hp). split; [done|]. split; [by eapply runs_ok|].
  by eapply phase_trans.
Qed.

(** A status other than PENDING, given to a delegation not yet ended or ending it. *)
Lemma delegation_phase_status x s now :
  s <> DelegationStatus.PENDING ->
  (Delegation.is_terminal x = true -> s ∈ DELEGATION_TERMINAL_STATES) ->
  delegation_phase x (x <| Delegation.status := s |> <| Delegation.updated_at := now |>).
Proof.
  intros Hs Ht. split_and!; [done|by intros ?|]. intros Hx. unfold Delegation.is_terminal. simpl.
  apply bool_decide_eq_true. auto.
Qed.

Lemma active_status x s :
  Delegation.status x = s -> s ∉ DELEGATION_TERMINAL_STATES -> Delegation.is_terminal x = true -> False.
Proof. intros <- Hs Ht. by apply bool_decide_eq_true in Ht. Qed.

Lemma expired_phase d now : phase d (mark_expired_sync d now).1.
Proof.
  eapply phase_of_delegations; [reflexivity..|]. intros x _ _. apply delegation_phase_status; [done|].
  intros _. by apply (bool_decide_eq_true_1 _).
Qed.

Lemma stale_phase d now : phase d (mark_stale_sync d now).1.
Proof.
  eapply phase_of_members; [reflexivity..| |].
  - intros m _ [Hr%bool_decide_eq_true _]%andb_true_iff. split_and!; try done.
    intros _. unfold live_member, DelegationMember.is_terminal. rewrite Hr. by apply (bool_decide_eq_true_1 _).
  - intros m x _ _ Hl. exfalso. revert Hl. by vm_compute.
Qed.

Lemma stale_idle d now : lapsed now d -> idle (mark_stale_sync d now).1.
Proof.
  intros Hl m' Hm' Hr. apply list_elem_of_fmap in Hm' as (m & -> & Hin).
  case_match eqn:E; [done|]. apply andb_false_iff in E.
  destruct (Hl m Hin) as (at_ & Ha & Hlt); [by case_match|].
  rewrite Ha in E. destruct E as [E|E]; [by apply bool_decide_eq_false in E|]. apply Z.ltb_ge in E. lia.
Qed.

Lemma finalize_cancelled_phase d did now : phase d (finalize_cancelled_sync d did now).1.
Proof.
  unfold finalize_cancelled_sync. destruct (find_delegation d did) as [x|] eqn:Hx; [|apply phase_refl].
  case_bool_decide; cbn [negb]; [|apply phase_refl]. case_match; [apply phase_refl|].
  eapply phase_of_delegations; [reflexivity..|]. intros y _ _. apply delegation_phase_status; [done|].
  intros _. by apply (bool_decide_eq_true_1 _).
Qed.

Lemma deliver_phase d now : core d -> phase d (deliver_cancel_outbox d now) /\ ddb_ok (deliver_cancel_outbox d now).
Proof.
  intros [Hok _ Hpend _]. apply phase_fold; [done|intros; apply deliver_entry_runs|].
  intros d1 entry Hin Hok1 [f g Hd Hf _ _ _ _]. unfold deliver_entry.
  assert (entry ∈ outbox d) as Hentry.
  { unfold list_outbox_pending_sync, sql_limit in Hin. simpl in Hin. apply elem_of_take in Hin as (i & Hi & _).
    apply list_elem_of_lookup_2 in Hi. rewrite order_by_perm in Hi. by apply List_filter_elem in Hi as [? _]. }
  apply (phase_trans _ (cancel_pending_members_sync d1 (OutboxRow.delegation_id entry)
                          (OutboxRow.reason entry) now).1);
    [|eapply phase_trans; [apply (finalize_cancelled_phase _ (OutboxRow.delegation_id entry) now)|]].
  - eapply phase_of_members; [reflexivity..| |].
    + intros m _ [_ Hl]%andb_true_iff. by split_and!.
    + intros m x1 _ [Hm%bool_decide_eq_true _]%andb_true_iff _ Hx Hid Hp.
      rewrite Hd in Hx. apply list_elem_of_fmap in Hx as (x & -> & Hx).
      destruct (Hf x Hx) as (Hidx & Hpx & _). destruct (Hpend x Hx (Hpx Hp)) as [_ Hout].
      apply (Hout entry Hentry). congruence.
  - set (d2 := (finalize_cancelled_sync _ _ _).1). apply phase_of_outbox; [done..|].
    intros o (o' & -> & Ho')%list_elem_of_fmap. exists o'. split; [done|]. by case_match.
Qed.

Lemma set_status_phase d did x s now :
  ddb_ok d -> find_delegation d did = Some x -> s <> DelegationStatus.PENDING ->
  (Delegation.is_terminal x = true -> s ∈ DELEGATION_TERMINAL_STATES) ->
  phase d (set_status d did s now).
Proof.
  intros Hok Hx Hs Ht. eapply phase_of_delegations; [reflexivity..|].
  intros y Hy Hp%bool_decide_eq_true. apply delegation_phase_status; [done|].
  apply find_delegation_spec in Hx as [Hx Hid].
  assert (y = x) as ->; [|done].
  apply (NoDup_map_inj Delegation.id (delegations d)); [apply (ok_delegation_ids _ Hok)|done..|congruence].
Qed.

Lemma advance_to_joining_phase d did now : ddb_ok d -> phase d (advance_to_joining_sync d did now).1.
Proof.
  intros Hok. unfold advance_to_joining_sync. destruct (find_delegation d did) as [x|] eqn:Hx; [|apply phase_refl].
  case_bool_decide as Hs; cbn [negb]; [|apply phase_refl]. eapply set_status_phase; [done..|].
  intros Ht. exfalso. eapply active_status; [exact Hs| |exact Ht]. by apply (bool_decide_eq_true_1 _).
Qed.

Lemma finalize_result_phase d did s now :
  s ∈ [DelegationStatus.SUCCEEDED; DelegationStatus.FAILED] ->
  phase d (finalize_result_set_sync d did s now).1.
Proof.
  intros Hs. unfold finalize_result_set_sync. case_bool_decide; [apply phase_refl|].
  eapply phase_of_delegations; [reflexivity..|]. intros x _ _.
  rewrite !elem_of_cons, elem_of_nil in Hs.
  apply delegation_phase_status; [naive_solver|]. intros _.
  destruct Hs as [->|[->|[]]]; by apply (bool_decide_eq_true_1 _).
Qed.

Lemma advance_join_phase d x now : ddb_ok d -> phase d (advance_join now d x).
Proof.
  intros Hok. unfold advance_join. set (did := Delegation.id x).
  case_bool_decide; [apply phase_refl|]. destruct (negb _); [apply phase_refl|].
  case_bool_decide; [apply finalize_cancelled_phase|].
  eapply phase_trans.
  { instantiate (1 := if bool_decide (Delegation.status x = DelegationStatus.RUNNING)
                      then (advance_to_joining_sync d did now).1 else d).
    case_match; [by apply advance_to_joining_phase|apply phase_refl]. }
  destruct (get_result_set_sync _ did) as [rs|] eqn:E; [|apply phase_refl].
  apply finalize_result_phase. by eapply result_set_status.
Qed.

Lemma joins_phase d now : ddb_ok d -> phase d (try_advance_joins d now) /\ ddb_ok (try_advance_joins d now).
Proof.
  intros Hok. apply phase_fold; [done|intros; apply advance_join_runs|]. intros; by apply advance_join_phase.
Qed.
