(* ===== verification/DelegationGather.v ===== *)
(** The members of one pass run to their end, in any interleaving: what each
    coroutine does to the registry, and what all of them leave behind. *)
From S2P Require Import Prelude DelegationDomain DelegationStore DelegationInv DelegationProps.
From S2P Require Import DelegationRun DelegationDrive DelegationLive.

(** * Definitions *)

(** The executor comes back, and is not cancelled from outside. *)
Definition executor_replies {C} (execute : DelegationMember.t -> option C -> option Z -> option string -> Z -> exec_reply)
    : Prop :=
  executor_ends execute /\ forall m cap deadline run now, execute m cap deadline run now <> TaskCancelled.

(** Steps a coroutine still needs. *)
Definition rank (p : proc) : nat :=
  match p with
  | Claiming _ => 6 | Starting _ _ => 5 | Checking _ _ => 4 | Loading _ _ => 3
  | Executing _ _ _ => 2 | Finishing _ _ _ => 1 | Ended _ => 0
  end.

(** How often coroutine [i] runs. *)
Definition turns (i : nat) (schedule : list event) : nat :=
  length (List.filter (fun e => match e with Run j _ => bool_decide (i = j) | _ => false end) schedule).

(** Only the coroutines of the pass run, each of the first [n] to its end. *)
Record fair_schedule (n : nat) (schedule : list event) : Prop := {
  fair_own : forall e, e ∈ schedule -> exists i now, e = Run i now;
  fair_turns : forall i, (i < n)%nat -> (6 <= turns i schedule)%nat
}.

Definition started (d : ddb) (m : DelegationMember.t) : Prop :=
  forall x, x ∈ delegations d -> Delegation.id x = DelegationMember.delegation_id m ->
    Delegation.status x <> DelegationStatus.PENDING.

Definition held (d : ddb) (m c : DelegationMember.t) : Prop :=
  c ∈ members d /\ place c = place m /\ DelegationMember.status c = DelegationMemberStatus.RUNNING
  /\ DelegationMember.claim_lock c = Some (claim_lock_of m).

Definition proc_ok (d : ddb) (p : proc) : Prop :=
  proc_result_ok p /\
  match p with
  | Claiming m => m ∈ members d /\ DelegationMember.status m = DelegationMemberStatus.PENDING
  | Starting m c => held d m c
  | Checking m c | Loading m c | Executing m c _ | Finishing m c _ => held d m c /\ started d m
  | Ended m => (exists c, c ∈ members d /\ place c = place m /\ live_member c = false) /\ started d m
  end.

(** Steps that touch the rows at some places, and delegations only to start them. *)
Inductive effect (pls : list (string * Z)) (d d' : ddb) : Prop := effect_intro f g :
  delegations d' = map f (delegations d) ->
  (forall x, x ∈ delegations d -> Delegation.id (f x) = Delegation.id x
     /\ (Delegation.status (f x) = DelegationStatus.PENDING -> Delegation.status x = DelegationStatus.PENDING)
     /\ Delegation.is_terminal (f x) = Delegation.is_terminal x) ->
  members d' = map g (members d) ->
  (forall m, m ∈ members d -> place (g m) = place m /\ DelegationMember.id (g m) = DelegationMember.id m
     /\ (place m ∉ pls -> g m = m)) ->
  outbox d' = outbox d -> effect pls d d'.

(** * Lemmas: effects *)

Lemma effect_refl pls d d' :
  delegations d' = delegations d -> members d' = members d -> outbox d' = outbox d -> effect pls d d'.
Proof. intros Hd Hm Ho. apply (effect_intro _ _ _ id id); rewrite ?map_id; auto. Qed.

Lemma started_effect pls d d' m : effect pls d d' -> started d m -> started d' m.
Proof.
  intros [f g Hd Hf _ _ _] Hs x' Hx' Hid Hp. rewrite Hd in Hx'. apply list_elem_of_fmap in Hx' as (x & -> & Hx).
  destruct (Hf x Hx) as (Hidx & Hpx & _). apply (Hs x Hx); [congruence|auto].
Qed.

Lemma row_effect pls d d' c : effect pls d d' -> c ∈ members d -> place c ∉ pls -> c ∈ members d'.
Proof.
  intros [f g _ _ Hm Hg _] Hc Hp. destruct (Hg c Hc) as (_ & _ & Hsame). rewrite Hm, <- (Hsame Hp).
  by apply list_elem_of_fmap_2.
Qed.

(** The other coroutines do not notice. *)
Lemma proc_frame pls d d' p : effect pls d d' -> place (member_of p) ∉ pls -> proc_ok d p -> proc_ok d' p.
Proof.
  intros He Hp [Hr Hok]. split; [done|].
  assert (forall m c, place m = place (member_of p) -> held d m c -> held d' m c) as Hheld.
  { intros m c Hm (Hin & Hpl & Hrest). split; [|done]. eapply row_effect; [done..|congruence]. }
  pose proof (started_effect _ _ _ (member_of p) He) as Hst.
  destruct p; simpl in *.
  2-6: naive_solver.
  - destruct Hok. split; [by eapply row_effect|done].
  - destruct Hok as [(c & Hc & Hpl & Hl) Hs]. split; [|auto]. exists c. split; [|done].
    eapply row_effect; [done..|congruence].
Qed.

Lemma place_unique d c c' : ddb_ok d -> c ∈ members d -> c' ∈ members d -> place c = place c' -> c = c'.
Proof. intros Hok. apply NoDup_map_inj, ok_places, Hok. Qed.

(** [List.filter] for the one element it holds of. *)
Lemma filter_single {A} (p : A -> bool) l x :
  NoDup l -> x ∈ l -> (forall y, y ∈ l -> p y = true <-> y = x) -> List.filter p l = [x].
Proof.
  induction l as [|y l IH]; [by intros _ ?%elem_of_nil|]. intros [Hy Hnd]%NoDup_cons Hx Hp. simpl.
  destruct (p y) eqn:E.
  - apply (Hp y) in E as ->; [|by left]. f_equal. apply List_filter_none, Forall_forall. intros z Hz.
    apply not_true_iff_false. intros Hpz. apply (Hp z) in Hpz as ->; [done|by right].
  - apply elem_of_cons in Hx as [->|Hx].
    + rewrite (proj2 (Hp y ltac:(by left)) eq_refl) in E. done.
    + apply IH; [done|done|]. intros z Hz. apply Hp. by right.
Qed.

Lemma members_nodup d : ddb_ok d -> NoDup (members d).
Proof. intros Hok. eapply NoDup_fmap_1. apply (ok_places _ Hok). Qed.

(** * Lemmas: the steps *)

Lemma claim_pending d m lock lease now :
  ddb_ok d -> m ∈ members d -> DelegationMember.status m = DelegationMemberStatus.PENDING ->
  let res := claim_member_sync d (DelegationMember.delegation_id m) (DelegationMember.ordinal m) lock lease now in
  exists c x, res.2 = Return (mkClaimMemberResult MutationOutcome.SUCCESS (Some c) (Some x))
  /\ effect [place m] d res.1 /\ c ∈ members res.1 /\ place c = place m
  /\ DelegationMember.status c = DelegationMemberStatus.RUNNING
  /\ DelegationMember.claim_lock c = Some lock.
Proof.
  intros Hok Hin Hs. cbn zeta.
  pose proof (dexec_ok d (DClaim (DelegationMember.delegation_id m) (DelegationMember.ordinal m) lock lease now)
    Hok I) as Hok1. simpl in Hok1. revert Hok1. unfold claim_member_sync.
  set (p := fun m' => at_ordinal (DelegationMember.delegation_id m) (DelegationMember.ordinal m) m'
    && bool_decide (DelegationMember.status m' = DelegationMemberStatus.PENDING)).
  set (g := fun m => m <| DelegationMember.status := DelegationMemberStatus.RUNNING |> <| _ := _ |>
    <| _ := _ |> <| _ := _ |> <| DelegationMember.version := DelegationMember.version m + 1 |>).
  set (dd := d <| members := update_where p g (members d) |>).
  assert (forall m', m' ∈ members d -> p m' = true <-> m' = m) as Hp.
  { intros m' Hm'. unfold p. rewrite andb_true_iff, at_ordinal_spec, bool_decide_eq_true. split; [|by intros ->].
    intros [Hpl _]. by apply (place_unique d). }
  assert (rowcount p (members d) = 1%nat) as Hone.
  { unfold rowcount. rewrite (filter_single p (members d) m); [done|by apply members_nodup|done..]. }
  rewrite bool_decide_eq_true_2 by done.
  destruct (ok_owned _ Hok m Hin) as (x & Hx & Hid).
  destruct (find_delegation dd (DelegationMember.delegation_id m)) as [x'|] eqn:Hfx.
  2: { unfold find_delegation in Hfx. apply List.find_none with (x := x) in Hfx; [|by apply list_elem_of_In].
       unfold by_id in Hfx. by apply bool_decide_eq_false in Hfx. }
  assert (g m ∈ members dd) as Hgm.
  { apply list_elem_of_fmap. exists m. split; [|done]. by rewrite (proj2 (Hp m Hin) eq_refl). }
  destruct (find_member dd (DelegationMember.delegation_id m) (DelegationMember.ordinal m)) as [c|] eqn:Hc;
    cbn [fst snd]; intros Hok1.
  2: { rewrite (find_member_unique dd _ _ (g m)) in Hc by done. done. }
  rewrite (find_member_unique dd _ _ (g m)) in Hc by done. injection Hc as <-.
  exists (g m), x'. split_and!; try done.
  apply (effect_intro _ _ _ id (fun m => if p m then g m else m)); rewrite ?map_id; try done.
  intros m' Hm'. destruct (p m') eqn:E; [|done]. apply Hp in E as ->; [|done]. split_and!; [done|done|]. intros Hn. destruct Hn. by left.
Qed.

Lemma start_effect d m now pls :
  ddb_ok d ->
  let d' := (start_delegation_sync d (DelegationMember.delegation_id m) now).1 in
  effect pls d d' /\ started d' m.
Proof.
  intros Hok. cbn zeta. unfold start_delegation_sync.
  destruct (find_delegation d (DelegationMember.delegation_id m)) as [x|] eqn:Hx.
  2: { split; [by apply effect_refl|]. intros y Hy Hid.
       unfold find_delegation in Hx. apply List.find_none with (x := y) in Hx; [|by apply list_elem_of_In].
       unfold by_id in Hx. by apply bool_decide_eq_false in Hx. }
  apply find_delegation_spec in Hx as [Hin Hid].
  assert (forall y, y ∈ delegations d -> Delegation.id y = DelegationMember.delegation_id m -> y = x) as Hone.
  { intros y Hy Heq. apply (NoDup_map_inj Delegation.id (delegations d)); [apply (ok_delegation_ids _ Hok)|done..|congruence]. }
  case_bool_decide as Hs; cbn [negb fst].
  2: { split; [by apply effect_refl|]. intros y Hy Heq. by rewrite (Hone y Hy Heq). }
  split.
  - apply (effect_intro _ _ _ (fun y => if by_id (DelegationMember.delegation_id m) y
      then y <| Delegation.status := DelegationStatus.RUNNING |> <| Delegation.updated_at := now |> else y) id);
      try done; [|by rewrite map_id].
    intros y Hy. destruct (by_id _ y) eqn:E; [|done]. apply bool_decide_eq_true in E.
    rewrite (Hone y Hy E). split_and!; [done|done|]. unfold Delegation.is_terminal. rewrite Hs. done.
  - intros y' Hy' Heq. apply list_elem_of_fmap in Hy' as (y & -> & Hy).
    destruct (by_id _ y) eqn:E; [done|]. apply bool_decide_eq_false in E. done.
Qed.

Lemma finish_running d m c r now :
  ddb_ok d -> held d m c -> DelegationResult.status r ∈ DELEGATION_MEMBER_TERMINAL_STATES ->
  let d' := (finish_member_sync d (DelegationMember.delegation_id m) (DelegationMember.ordinal m) (claim_lock_of m) r
               (DelegationMember.version c) now).1 in
  effect [place m] d d' /\ exists c', c' ∈ members d' /\ place c' = place m /\ live_member c' = false.
Proof.
  intros Hok (Hin & Hpl & Hrun & Hlock) Hr. cbn zeta. unfold finish_member_sync.
  rewrite (find_member_unique d _ _ c Hok Hin) by done.
  assert (DelegationMember.is_terminal c = false) as Ht by (unfold DelegationMember.is_terminal; by rewrite Hrun).
  rewrite Ht, Hrun, Hlock, Z.eqb_refl, !bool_decide_eq_true_2 by done. cbn [negb orb].
  rewrite bool_decide_eq_false_2.
  2: { intros [row Hrow]. unfold adopted_result in Hrow.
       apply List.find_some in Hrow as [Hrow [Hid%bool_decide_eq_true _]%andb_true_iff].
       apply list_elem_of_In, (ok_results _ Hok) in Hrow as (_ & _ & c' & Hc' & Hid' & _ & _ & Ht').
       assert (c' = c) as ->; [|congruence].
       apply (NoDup_map_inj DelegationMember.id (members d)); [apply (ok_member_ids _ Hok)|done..|congruence]. }
  set (ended := fun m => m <| DelegationMember.status := DelegationResult.status r |> <| _ := _ |>
    <| DelegationMember.version := DelegationMember.version m + 1 |>).
  set (d1 := d <| members := _ |> <| results := _ |>).
  destruct (ok_owned _ Hok c Hin) as (x & Hx & Hidx).
  destruct (find_delegation d1 (DelegationMember.delegation_id m)) as [x'|] eqn:Hfx.
  2: { exfalso. unfold find_delegation in Hfx. apply List.find_none with (x := x) in Hfx; [|by apply list_elem_of_In].
       unfold by_id in Hfx. apply bool_decide_eq_false in Hfx. unfold place in Hpl. congruence. }
  cbn [fst].
  assert (forall c', c' ∈ members d -> member_by_id (DelegationMember.id c) c' = true <-> c' = c) as Hone.
  { intros c' Hc'. unfold member_by_id. rewrite bool_decide_eq_true. split; [|by intros ->].
    intros Heq. apply (NoDup_map_inj DelegationMember.id (members d)); [apply (ok_member_ids _ Hok)|done..]. }
  split.
  - apply (effect_intro _ _ _ (fun y => if by_id (DelegationMember.delegation_id m) y
        then y <| Delegation.updated_at := now |> else y)
      (fun c' => if member_by_id (DelegationMember.id c) c' then ended c' else c')); try done.
    + intros y _. by destruct (by_id _ y).
    + intros c' Hc'. destruct (member_by_id _ c') eqn:E; [|done]. apply Hone in E as ->; [|done].
      split_and!; [done|done|]. intros Hn. destruct Hn. rewrite Hpl. by left.
  - exists (ended c). split; [|split; [done|]].
    + apply list_elem_of_fmap. exists c. split; [|done]. by rewrite (proj2 (Hone c Hin) eq_refl).
    + unfold live_member, DelegationMember.is_terminal, ended. simpl. by rewrite bool_decide_eq_true_2.
Qed.

Lemma effect_trans pls d1 d2 d3 : effect pls d1 d2 -> effect pls d2 d3 -> effect pls d1 d3.
Proof.
  intros [f1 g1 Hd1 Hf1 Hm1 Hg1 Ho1] [f2 g2 Hd2 Hf2 Hm2 Hg2 Ho2].
  apply (effect_intro _ _ _ (fun x => f2 (f1 x)) (fun m => g2 (g1 m))).
  - by rewrite Hd2, Hd1, List.map_map.
  - intros x Hx. destruct (Hf1 x Hx) as (? & ? & ?).
    destruct (Hf2 (f1 x)) as (? & ? & ?); [rewrite Hd1; by apply list_elem_of_fmap_2|].
    split_and!; [congruence|auto|congruence].
  - by rewrite Hm2, Hm1, List.map_map.
  - intros m Hm. destruct (Hg1 m Hm) as (Hp1 & ? & Hs1).
    destruct (Hg2 (g1 m)) as (? & ? & Hs2); [rewrite Hm1; by apply list_elem_of_fmap_2|].
    split_and!; [congruence|congruence|]. intros Hn. rewrite Hs2 by congruence. auto.
  - congruence.
Qed.

Lemma effect_weaken pls pls' d d' : (forall pl, pl ∈ pls -> pl ∈ pls') -> effect pls d d' -> effect pls' d d'.
Proof.
  intros Hs [f g Hd Hf Hm Hg Ho]. apply (effect_intro _ _ _ f g); try done.
  intros m Hin. destruct (Hg m Hin) as (? & ? & Hsame). split_and!; [done|done|]. auto.
Qed.

(** * Lemmas: the whole pass *)

Section gather.
Context {C : Type} (cfg : RunConfig.t) (caps : gmap string C).
Context (execute : DelegationMember.t -> option C -> option Z -> option string -> Z -> exec_reply).
Context (Hexecute : executor_replies execute).

Lemma step_rank s now p : (rank (step_proc cfg caps execute s now p).2 <= pred (rank p))%nat.
Proof. destruct p; cbn [step_proc]; repeat case_match; simpl; lia. Qed.

Lemma step_keeps_member s now p : member_of (step_proc cfg caps execute s now p).2 = member_of p.
Proof. destruct p; cbn [step_proc]; by repeat case_match. Qed.

Lemma execute_member_some m x now : is_Some (execute_member caps execute m x now).
Proof.
  unfold execute_member. destruct (execute _ _ _ _ _) eqn:E; eauto. destruct (proj2 Hexecute _ _ _ _ _ E).
Qed.

Lemma step_proc_ok s now p s' p' :
  kill_switch s = false -> ddb_ok (registry s) -> proc_ok (registry s) p ->
  step_proc cfg caps execute s now p = (s', p') ->
  effect [place (member_of p)] (registry s) (registry s') /\ proc_ok (registry s') p' /\ kill_switch s' = false.
Proof.
  intros Hk Hok [Hr Hp] E.
  destruct (step_proc_runs _ _ _ (proj1 Hexecute) _ _ _ _ _ Hr E) as [_ Hr'].
  revert E Hr'. unfold proc_ok.
  destruct p as [m|m c|m c|m c|m c x|m c r|m]; cbn [step_proc member_of].
  - destruct Hp as [Hin Hs].
    destruct (claim_pending _ m (claim_lock_of m) (RunConfig.member_max_runtime_seconds cfg) now Hok Hin Hs)
      as (c & x & Hres & He & Hc & Hpl & Hrun & Hlock).
    destruct (claim_member_sync _ _ _ _ _ _) as [d r]. cbn [fst snd] in *. subst r. cbn.
    by intros [= <- <-] _.
  - intros [= <- <-] _. destruct (start_effect (registry s) m now [] Hok) as [He Hst].
    destruct Hp as (Hin & Hpl & Hrest).
    split_and!; try done; [by eapply effect_weaken; [|exact He]; intros ? ?%elem_of_nil|].
    split; [|done]. eapply row_effect; [exact He|done|]. apply not_elem_of_nil.
  - rewrite Hk. intros [= <- <-] _. by split; [apply effect_refl|].
  - intros [= <- <-] _. by split; [apply effect_refl|].
  - destruct (execute_member_some c x now) as [r Hres]. rewrite Hres.
    intros [= <- <-] ?. by split; [apply effect_refl|].
  - destruct Hp as [Hh Hst]. destruct (finish_running _ _ _ _ now Hok Hh Hr) as [He Hc].
    intros [= <- <-] _. split_and!; try done. by eapply started_effect.
  - intros [= <- <-] _. by split; [apply effect_refl|].
Qed.

(** What holds between the steps of a pass over [ms] begun in [d0]. *)
Record gathering (d0 : ddb) (ms : list DelegationMember.t) (s : shared) (ps : list proc) : Prop := {
  ga_ok : ddb_ok (registry s);
  ga_kill : kill_switch s = false;
  ga_members : map member_of ps = ms;
  ga_effect : effect (map place ms) d0 (registry s);
  ga_procs : Forall (proc_ok (registry s)) ps
}.

Lemma gathering_step d0 ms s ps i now p s' p' :
  NoDup (map place ms) -> gathering d0 ms s ps -> ps !! i = Some p ->
  step_proc cfg caps execute s now p = (s', p') -> gathering d0 ms s' (<[i := p']> ps).
Proof.
  intros Hnd [Hok Hk Hms He Hps] Hi E. rewrite Forall_lookup in Hps.
  destruct (step_proc_ok _ _ _ _ _ Hk Hok (Hps _ _ Hi) E) as (He1 & Hp1 & Hk1).
  pose proof (step_keeps_member s now p) as Hmem. rewrite E in Hmem. simpl in Hmem.
  assert (ms !! i = Some (member_of p)) as Hmi by (by rewrite <- Hms, list_lookup_fmap, Hi).
  split; [|done|..].
  - eapply runs_ok; [exact Hok|].
    by eapply (step_proc_runs _ _ _ (proj1 Hexecute)); [apply (Hps _ _ Hi)|exact E].
  - rewrite <- Hms. change (member_of <$> <[i:=p']> ps = member_of <$> ps).
    rewrite list_fmap_insert, Hmem. apply list_insert_id. by rewrite list_lookup_fmap, Hi.
  - eapply effect_trans; [exact He|]. eapply effect_weaken; [|exact He1].
    intros pl ->%list_elem_of_singleton. apply list_elem_of_fmap_2. by eapply list_elem_of_lookup_2.
  - apply Forall_lookup. intros j q. rewrite list_lookup_insert_Some.
    intros [(<- & <- & _)|[Hij Hj]]; [done|]. eapply proc_frame; [exact He1| |by eapply Hps].
    intros Heq%list_elem_of_singleton. apply Hij. rewrite NoDup_alt in Hnd.
    apply (Hnd i j (place (member_of p))); [by rewrite list_lookup_fmap, Hmi|].
    rewrite list_lookup_fmap, <- Hms, list_lookup_fmap, Hj. simpl. by rewrite Heq.
Qed.

Lemma gathering_run d0 ms schedule s ps :
  NoDup (map place ms) -> gathering d0 ms s ps ->
  (forall e, e ∈ schedule -> exists i now, e = Run i now) ->
  let sp := foldl (run_event cfg caps execute) (s, ps) schedule in
  gathering d0 ms sp.1 sp.2
  /\ forall i p, ps !! i = Some p -> exists p', sp.2 !! i = Some p' /\ (rank p' <= rank p - turns i schedule)%nat.
Proof.
  intros Hnd. revert s ps. induction schedule as [|e schedule IH]; intros s ps Hg Hown; cbn [foldl].
  { cbn zeta. split; [done|]. intros i p Hi. exists p. split; [done|]. unfold turns. simpl. lia. }
  destruct (Hown e) as (j & now & ->); [by left|]. cbn [run_event].
  assert (forall e, e ∈ schedule -> exists i now, e = Run i now) as Hown' by (intros e He; apply Hown; by right).
  assert (forall i, turns i (Run j now :: schedule)
    = ((if bool_decide (i = j) then 1 else 0) + turns i schedule)%nat) as Hturns
    by (intros i; unfold turns; cbn [List.filter]; by case_bool_decide).
  destruct (ps !! j) as [p|] eqn:Hj.
  - destruct (step_proc cfg caps execute s now p) as [s1 p1] eqn:E.
    destruct (IH s1 (<[j:=p1]> ps)) as [Hg' Hr]; [by eapply gathering_step|done|]. split; [done|].
    intros i q Hi. rewrite Hturns. destruct (decide (i = j)) as [->|Hij].
    + destruct (Hr j p1) as (p' & Hp' & Hrank); [apply list_lookup_insert_eq; by eapply lookup_lt_Some|].
      exists p'. split; [done|]. pose proof (step_rank s now p) as Hd. rewrite E in Hd. simpl in Hd.
      rewrite bool_decide_eq_true_2 by done. assert (q = p) as -> by congruence. lia.
    + rewrite bool_decide_eq_false_2 by done. apply Hr. by rewrite list_lookup_insert_ne by done.
  - destruct (IH s ps Hg Hown') as [Hg' Hr]. split; [done|]. intros i q Hi. rewrite Hturns.
    assert (i <> j) by congruence. rewrite bool_decide_eq_false_2 by done. by apply Hr.
Qed.

(** Member [m] has ended, under a delegation that was started. *)
Definition done_with (d : ddb) (m : DelegationMember.t) : Prop :=
  (exists c, c ∈ members d /\ place c = place m /\ live_member c = false) /\ started d m.

(** Under a fair schedule every coroutine ends. *)
Lemma gather_all s ms schedule :
  kill_switch s = false -> ddb_ok (registry s) -> NoDup (map place ms) ->
  (forall m, m ∈ ms -> m ∈ members (registry s) /\ DelegationMember.status m = DelegationMemberStatus.PENDING) ->
  fair_schedule (length ms) schedule ->
  exists s', gather cfg caps execute schedule s (map Claiming ms) = Some s' /\ kill_switch s' = false
  /\ ddb_ok (registry s') /\ effect (map place ms) (registry s) (registry s')
  /\ forall m, m ∈ ms -> done_with (registry s') m.
Proof.
  intros Hk Hok Hnd Hms [Hown Hturns].
  assert (gathering (registry s) ms s (map Claiming ms)) as Hg.
  { split; [done|done| |by apply effect_refl|].
    - rewrite List.map_map. apply List.map_id.
    - apply Forall_forall. intros p (m & -> & Hm)%list_elem_of_fmap. split; [exact I|]. by apply Hms. }
  destruct (gathering_run _ _ schedule _ _ Hnd Hg Hown) as [Hg' Hrank]. unfold gather.
  destruct (foldl _ _ schedule) as [s' ps']. cbn [fst snd] in *. destruct Hg' as [Hok' Hk' Hmem He Hps].
  assert (length ps' = length ms) as Hlen by (rewrite <- Hmem; symmetry; apply length_map).
  assert (forall i p, ps' !! i = Some p -> exists m, p = Ended m /\ ms !! i = Some m) as Hended.
  { intros i p Hi. pose proof (lookup_lt_Some _ _ _ Hi) as Hlt. rewrite Hlen in Hlt.
    destruct (lookup_lt_is_Some_2 ms i Hlt) as [m Hm].
    destruct (Hrank i (Claiming m)) as (p' & Hp' & Hr); [by rewrite list_lookup_fmap, Hm|].
    assert (p' = p) as -> by congruence. specialize (Hturns i Hlt). simpl in Hr.
    assert (rank p = 0%nat) as Hz by lia. destruct p; try done. exists m0. split; [done|].
    by rewrite <- Hmem, list_lookup_fmap, Hi. }
  assert (forallb ended ps' = true) as ->.
  { apply forallb_true. intros p [i Hi]%list_elem_of_lookup. by destruct (Hended i p Hi) as (m & -> & _). }
  exists s'. do 4 (split; [done|]). intros m [i Hi]%list_elem_of_lookup.
  destruct (lookup_lt_is_Some_2 ps' i) as [p Hp]; [rewrite Hlen; by eapply lookup_lt_Some|].
  destruct (Hended i p Hp) as (m' & -> & Hm'). assert (m' = m) as -> by congruence.
  by destruct (proj1 (Forall_lookup _ _) Hps _ _ Hp) as [_ ?].
Qed.
End gather.

(** What they leave behind: a phase that ends the members [ms]. *)
Lemma done_phase d d' ms :
  ddb_ok d -> ddb_ok d' -> effect (map place ms) d d' -> NoDup (map place ms) ->
  (forall m, m ∈ ms -> m ∈ members d /\ live_member m = true) -> (forall m, m ∈ ms -> done_with d' m) ->
  phase d d' /\ (live_count d' + length ms <= live_count d)%nat.
Proof.
  intros Hok Hok' [f g Hd Hf Hm Hg Ho] Hnd Hms Hdone.
  assert (forall m, m ∈ ms -> live_member (g m) = false) as Hdead.
  { intros m Hin. destruct (Hdone m Hin) as [(c & Hc & Hpl & Hl) _]. destruct (Hms m Hin) as [Hinm _].
    assert (g m = c) as ->; [|done]. apply (place_unique d'); [done| |done|].
    - rewrite Hm. by apply list_elem_of_fmap_2.
    - destruct (Hg m Hinm) as (-> & _). done. }
  assert (forall m, m ∈ members d -> g m = m \/ m ∈ ms) as Hcases.
  { intros m Hin. destruct (decide (place m ∈ map place ms)) as [Hp|Hp]; [right|left; by apply Hg].
    apply list_elem_of_fmap in Hp as (m' & Hpl & Hm').
    assert (m = m') as ->; [|done]. apply (place_unique d); [done|done|by apply Hms|done]. }
  split.
  - apply (phase_intro _ _ f g); try done.
    + intros x Hx. destruct (Hf x Hx) as (? & ? & Ht). split_and!; [done|done|by rewrite Ht].
    + intros m Hin. destruct (Hg m Hin) as (? & ? & _). destruct (Hcases m Hin) as [->|Hp]; [done|].
      split_and!; [done|done|by rewrite (Hdead m Hp)|]. intros Hr. exfalso. specialize (Hdead m Hp).
      unfold live_member, DelegationMember.is_terminal in Hdead. rewrite Hr in Hdead. by vm_compute in Hdead.
    + intros m x Hin Hl Hdd Hx Hid. destruct (Hcases m Hin) as [Hsame|Hp]; [congruence|].
      by apply (proj2 (Hdone m Hp) x Hx).
    + rewrite Ho. eauto.
  - unfold live_count. rewrite Hm. apply live_count_map.
    + apply (ok_member_ids _ Hok).
    + intros m Hin Hl. destruct (Hcases m Hin) as [Hsame|Hp]; [congruence|]. by rewrite Hdead in Hl.
    + by eapply NoDup_fmap_1.
    + intros m Hin. destruct (Hms m Hin). auto.
Qed.
