(* ===== verification/DelegationFinish.v ===== *)
(** Enough passes end every delegation: the last phase of a pass, a whole pass,
    and the loop that waits for one delegation. *)
From S2P Require Import Prelude DelegationDomain DelegationStore DelegationInv DelegationProps.
From S2P Require Import DelegationRun DelegationDrive DelegationLive DelegationGather.

(** * Definitions *)

Definition all_ended (d : ddb) : Prop := forall x, x ∈ delegations d -> Delegation.is_terminal x = true.

(** The registry after the join of [x]: [x] has ended, the rest is as it was. *)
Definition joined (x : Delegation.t) (d d' : ddb) : Prop :=
  members d' = members d
  /\ (forall y, y ∈ delegations d' ->
      Delegation.is_terminal y = true \/ y ∈ delegations d /\ Delegation.id y <> Delegation.id x)
  /\ (forall y, y ∈ delegations d -> Delegation.id y <> Delegation.id x -> y ∈ delegations d').

(** * Lemmas: joins *)

Lemma joined_update d d' x p f :
  ddb_ok d -> x ∈ delegations d -> members d' = members d ->
  delegations d' = update_where p f (delegations d) ->
  (forall y, y ∈ delegations d -> p y = true <-> y = x) -> Delegation.is_terminal (f x) = true ->
  joined x d d'.
Proof.
  intros Hok Hx Hm Hd Hp Ht. split; [done|]. rewrite Hd. split.
  - intros y' (y & -> & Hy)%list_elem_of_fmap. destruct (p y) eqn:E.
    + apply Hp in E as ->; [|done]. by left.
    + right. split; [done|]. intros Heq.
      assert (y = x) as -> by (apply (NoDup_map_inj Delegation.id (delegations d)); [apply (ok_delegation_ids _ Hok)|done..]).
      rewrite (proj2 (Hp x Hx) eq_refl) in E. done.
  - intros y Hy Hne. apply list_elem_of_fmap. exists y. split; [|done]. destruct (p y) eqn:E; [|done].
    by apply Hp in E as ->.
Qed.

Lemma by_id_unique d x y :
  ddb_ok d -> x ∈ delegations d -> y ∈ delegations d -> by_id (Delegation.id x) y = true <-> y = x.
Proof.
  intros Hok Hx Hy. unfold by_id. rewrite bool_decide_eq_true. split; [|by intros ->].
  apply (NoDup_map_inj Delegation.id (delegations d)); [apply (ok_delegation_ids _ Hok)|done..].
Qed.

Lemma find_delegation_self d x : ddb_ok d -> x ∈ delegations d -> find_delegation d (Delegation.id x) = Some x.
Proof.
  intros Hok Hx. destruct (find_delegation d (Delegation.id x)) as [y|] eqn:E.
  - apply find_delegation_spec in E as [Hy Hid]. f_equal.
    apply (NoDup_map_inj Delegation.id (delegations d)); [apply (ok_delegation_ids _ Hok)|done..].
  - unfold find_delegation in E. apply List.find_none with (x := x) in E; [|by apply list_elem_of_In].
    unfold by_id in E. by apply bool_decide_eq_false in E.
Qed.

Lemma no_live_rows did d :
  (forall m, m ∈ members d -> DelegationMember.is_terminal m = true) ->
  rowcount (fun m => of_delegation did m && live_member m) (members d) = 0%nat.
Proof.
  intros H. unfold rowcount. rewrite List_filter_none; [done|]. apply Forall_forall. intros m Hm.
  unfold live_member. by rewrite (H m Hm), andb_false_r.
Qed.

Lemma result_set_ready d x :
  ddb_ok d -> x ∈ delegations d -> (forall m, m ∈ members d -> DelegationMember.is_terminal m = true) ->
  exists rs, get_result_set_sync d (Delegation.id x) = Some rs.
Proof.
  intros Hok Hx Hall. unfold get_result_set_sync. rewrite (find_delegation_self d x) by done.
  assert (forallb DelegationMember.is_terminal (list_members_sync d (Delegation.id x)) = true) as ->; [|by eauto].
  apply List.forallb_forall. intros m Hm%list_elem_of_In. apply list_members_elem in Hm as [Hm _]. auto.
Qed.

(** Finalizing a delegation that is JOINING and whose members have all ended. *)
Lemma finalize_joining d x s now :
  ddb_ok d -> x ∈ delegations d -> Delegation.status x = DelegationStatus.JOINING ->
  s ∈ [DelegationStatus.SUCCEEDED; DelegationStatus.FAILED] ->
  joined x d (finalize_result_set_sync d (Delegation.id x) s now).1.
Proof.
  intros Hok Hx Hs Hst. unfold finalize_result_set_sync.
  set (p := fun y => by_id (Delegation.id x) y && bool_decide (Delegation.status y = DelegationStatus.JOINING)).
  assert (forall y, y ∈ delegations d -> p y = true <-> y = x) as Hp.
  { intros y Hy. unfold p. rewrite andb_true_iff, by_id_unique, bool_decide_eq_true by done.
    split; [tauto|by intros ->]. }
  rewrite bool_decide_eq_false_2.
  2: { unfold rowcount. rewrite (filter_single p (delegations d) x); [done| |done..].
       eapply NoDup_fmap_1. apply (ok_delegation_ids _ Hok). }
  eapply (joined_update _ _ _ p); [done|done|reflexivity..|done|].
  unfold Delegation.is_terminal. simpl. rewrite !elem_of_cons, elem_of_nil in Hst.
  destruct Hst as [->|[->|[]]]; by apply (bool_decide_eq_true_1 _).
Qed.

Lemma advance_join_done d x now :
  ddb_ok d -> x ∈ delegations d -> active x = true -> Delegation.status x <> DelegationStatus.PENDING ->
  (forall m, m ∈ members d -> DelegationMember.is_terminal m = true) ->
  (exists m, m ∈ members d /\ DelegationMember.delegation_id m = Delegation.id x) ->
  joined x d (advance_join now d x).
Proof.
  intros Hok Hx Ha Hnp Hall [m0 Hm0]. unfold advance_join. apply (list_members_elem d) in Hm0.
  rewrite bool_decide_eq_false_2 by (intros Hnil; rewrite Hnil in Hm0; by apply elem_of_nil in Hm0).
  assert (forallb DelegationMember.is_terminal (list_members_sync d (Delegation.id x)) = true) as ->.
  { apply List.forallb_forall. intros m Hm%list_elem_of_In. apply list_members_elem in Hm as [Hm _]. auto. }
  cbn [negb]. case_bool_decide as Hc.
  { unfold finalize_cancelled_sync. rewrite (find_delegation_self d x), bool_decide_eq_true_2 by done. cbn [negb].
    rewrite no_live_rows by done. cbn. eapply joined_update; [done|done|reflexivity..| |].
    - intros y Hy. by apply (by_id_unique d).
    - by apply (bool_decide_eq_true_1 _). }
  case_bool_decide as Hr.
  - unfold advance_to_joining_sync. rewrite (find_delegation_self d x), bool_decide_eq_true_2 by done. cbn [negb fst].
    set (d1 := set_status d (Delegation.id x) DelegationStatus.JOINING now).
    set (x1 := x <| Delegation.status := DelegationStatus.JOINING |> <| Delegation.updated_at := now |>).
    assert (ddb_ok d1) as Hok1.
    { pose proof (dexec_ok d (DAdvance (Delegation.id x) now) Hok I) as H. simpl in H.
      unfold advance_to_joining_sync in H. by rewrite (find_delegation_self d x), bool_decide_eq_true_2 in H by done. }
    assert (x1 ∈ delegations d1) as Hx1.
    { apply list_elem_of_fmap. exists x. split; [|done]. by rewrite (proj2 (by_id_unique d x x Hok Hx Hx) eq_refl). }
    destruct (result_set_ready d1 x1 Hok1 Hx1) as [rs Hrs]; [done|].
    change (Delegation.id x) with (Delegation.id x1). rewrite Hrs.
    destruct (finalize_joining d1 x1 (rs_status rs) now) as (Hm & Hd & Hk); [done..|by eapply result_set_status|].
    split_and!; [done|..].
    + intros y Hy. destruct (Hd y Hy) as [Ht|[Hin Hne]]; [by left|].
      apply list_elem_of_fmap in Hin as (z & -> & Hz). destruct (by_id (Delegation.id x) z) eqn:E.
      * destruct Hne. by apply bool_decide_eq_true in E.
      * right. by split.
    + intros y Hy Hne. apply Hk; [|done]. apply list_elem_of_fmap. exists y. split; [|done].
      unfold by_id. by rewrite bool_decide_eq_false_2.
  - destruct (result_set_ready d x Hok Hx Hall) as [rs Hrs]. rewrite Hrs.
    apply finalize_joining; [done|done| |by eapply result_set_status].
    unfold active, Delegation.is_terminal in Ha. destruct (Delegation.status x); try done.
Qed.

Lemma joins_loop d xs now :
  ddb_ok d -> NoDup (map Delegation.id xs) ->
  (forall m, m ∈ members d -> DelegationMember.is_terminal m = true) ->
  (forall x, x ∈ xs -> x ∈ delegations d /\ active x = true /\ Delegation.status x <> DelegationStatus.PENDING
     /\ exists m, m ∈ members d /\ DelegationMember.delegation_id m = Delegation.id x) ->
  forall y, y ∈ delegations (foldl (advance_join now) d xs) ->
    Delegation.is_terminal y = true \/ y ∈ delegations d /\ Delegation.id y ∉ map Delegation.id xs.
Proof.
  revert d. induction xs as [|x xs IH]; intros d Hok Hnd Hall Hxs y; cbn [foldl map].
  { right. split; [done|]. apply not_elem_of_nil. }
  cbn [map] in Hnd. apply NoDup_cons in Hnd as [Hn Hnd].
  destruct (Hxs x) as (Hx & Ha & Hp & Hmx); [by left|].
  destruct (advance_join_done d x now) as (Hm & Hd & Hk); [done..|]. intros Hy.
  destruct (IH (advance_join now d x)) with (y := y) as [Ht|[Hin Hni]]; [..|by left|].
  - eapply runs_ok; [exact Hok|apply advance_join_runs].
  - done.
  - by rewrite Hm.
  - intros z Hz. destruct (Hxs z) as (Hzd & Haz & Hpz & Hmz); [by right|]. rewrite Hm. split; [|done].
    apply Hk; [done|]. intros Heq. apply Hn. rewrite <- Heq. by apply list_elem_of_fmap_2.
  - done.
  - destruct (Hd y Hin) as [Ht|[Hyd Hne]]; [by left|]. right. split; [done|]. by apply not_elem_of_cons.
Qed.

Lemma no_live_terminal d m : live_count d = 0%nat -> m ∈ members d -> DelegationMember.is_terminal m = true.
Proof.
  unfold live_count, rowcount. intros H Hm. apply not_false_iff_true. intros Ht.
  assert (m ∈ List.filter live_member (members d)) as Hin
    by (apply List_filter_elem; split; [done|]; unfold live_member; by rewrite Ht).
  apply length_zero_iff_nil in H. rewrite H in Hin. by apply elem_of_nil in Hin.
Qed.

Lemma joins_end d now : core d -> live_count d = 0%nat -> all_ended (try_advance_joins d now).
Proof.
  intros [Hok Hmem Hpend Hact] Hlive y Hy. unfold try_advance_joins in Hy.
  set (xs := list_active_delegations_sync d 100) in *.
  assert (xs ≡ₚ List.filter active (delegations d)) as Hxs.
  { unfold xs, list_active_delegations_sync, sql_limit. simpl. rewrite take_ge; [apply order_by_perm|].
    rewrite order_by_perm. exact Hact. }
  assert (forall m, m ∈ members d -> DelegationMember.is_terminal m = true) as Hall
    by (intros m; by apply no_live_terminal).
  destruct (joins_loop d xs now Hok) with (y := y) as [Ht|[Hin Hn]]; [| | |exact Hy|done|].
  - change (NoDup (Delegation.id <$> xs)). rewrite Hxs. apply NoDup_map_filter, (ok_delegation_ids _ Hok).
  - done.
  - intros x Hx. rewrite Hxs in Hx. apply List_filter_elem in Hx as [Hx Ha]. split_and!; [done|done| |].
    + intros Hp. destruct (Hpend x Hx Hp) as [(m & Hm & _ & Hl) _]. unfold live_member in Hl. by rewrite Hall in Hl.
    + by apply Hmem.
  - apply not_false_iff_true. intros Ht. apply Hn. change (Delegation.id y ∈ Delegation.id <$> xs). rewrite Hxs.
    apply list_elem_of_fmap_2, List_filter_elem. split; [done|]. unfold active. by rewrite Ht.
Qed.

(** * Lemmas: one pass *)

Lemma pending_listed d n :
  idle d -> 0 <= n ->
  let ms := list_pending_members_sync d n in
  length ms = Nat.min (Z.to_nat n) (live_count d)
  /\ forall m, m ∈ ms -> m ∈ members d /\ DelegationMember.status m = DelegationMemberStatus.PENDING.
Proof.
  intros Hidle Hn. unfold list_pending_members_sync, sql_limit. rewrite (proj2 (Z.ltb_ge n 0)) by done.
  set (p := fun m => bool_decide (DelegationMember.status m = DelegationMemberStatus.PENDING)). cbn zeta. split.
  - rewrite length_take. f_equal. rewrite order_by_perm. unfold live_count, rowcount.
    f_equal. clear Hn. revert Hidle. unfold idle. induction (members d) as [|m l IH]; intros Hidle; [done|]. simpl.
    rewrite IH by (intros m' Hm'; apply Hidle; by right). specialize (Hidle m ltac:(by left)).
    unfold p, live_member, DelegationMember.is_terminal. by destruct (DelegationMember.status m).
  - intros m Hm. apply elem_of_take in Hm as (i & Hi & _). apply list_elem_of_lookup_2 in Hi.
    rewrite order_by_perm in Hi. apply List_filter_elem in Hi as [Hin Hp]. by apply bool_decide_eq_true in Hp.
Qed.

Lemma pending_places d n : ddb_ok d -> NoDup (map place (list_pending_members_sync d n)).
Proof.
  intros Hok. unfold list_pending_members_sync, sql_limit.
  assert (NoDup (map place (order_by pending_leb (List.filter (fun m =>
    bool_decide (DelegationMember.status m = DelegationMemberStatus.PENDING)) (members d))))) as H.
  { change (NoDup (place <$> order_by pending_leb (List.filter (fun m =>
      bool_decide (DelegationMember.status m = DelegationMemberStatus.PENDING)) (members d)))).
    rewrite order_by_perm. apply NoDup_map_filter, (ok_places _ Hok). }
  case_match; [done|]. eapply sublist_NoDup; [exact H|]. apply fmap_sublist, sublist_take.
Qed.

Section passes.
Context {C : Type} (cfg : RunConfig.t) (caps : gmap string C).
Context (execute : DelegationMember.t -> option C -> option Z -> option string -> Z -> exec_reply).
Context (Hexecute : executor_replies execute).
Let width := Z.to_nat (RunConfig.max_concurrency cfg).
Context (Hwidth : (1 <= width)%nat).

(** What a pass starts from and leaves: the switch off, the registry in order. *)
Record ready (s : shared) : Prop := { ready_switch : kill_switch s = false; ready_core : core (registry s) }.

Lemma fair_fewer n n' schedule : (n' <= n)%nat -> fair_schedule n schedule -> fair_schedule n' schedule.
Proof. intros Hn [Ho Ht]. split; [done|]. intros i Hi. apply Ht. lia. Qed.

Lemma before_members s e :
  ready s -> lapsed (env_now e) (registry s) ->
  let d := deliver_cancel_outbox (mark_stale_sync (mark_expired_sync (registry s) (env_now e)).1 (env_now e)).1
             (env_now e) in
  phase (registry s) d /\ core d /\ idle d.
Proof.
  intros [_ Hcore] Hl. cbn zeta. set (d1 := (mark_expired_sync _ _).1). set (d2 := (mark_stale_sync _ _).1).
  assert (phase (registry s) d1) as P1 by apply expired_phase.
  assert (phase d1 d2) as P2 by apply stale_phase.
  assert (ddb_ok d1) as K1 by (apply (dexec_ok _ (DExpire (env_now e))); [apply (core_ok _ Hcore)|exact I]).
  assert (ddb_ok d2) as K2 by (by apply (dexec_ok _ (DStale (env_now e)))).
  assert (core d2) as C2 by (apply (phase_core d1); [done..|by apply (phase_core (registry s))]).
  assert (idle d2) as I2 by (by apply stale_idle).
  destruct (deliver_phase d2 (env_now e) C2) as [P3 K3].
  split; [|split; [by apply (phase_core d2)|by eapply phase_idle]].
  eapply phase_trans; [exact P1|]. by eapply phase_trans.
Qed.

(** A pass comes to an end, takes as many members as it may, and once none is left
    every delegation has ended. *)
Lemma tick_progress s e :
  ready s -> lapsed (env_now e) (registry s) -> fair_schedule width (env_schedule e) ->
  exists s', tick cfg caps execute s e = Some s' /\ ready s' /\ idle (registry s')
  /\ phase (registry s) (registry s')
  /\ (live_count (registry s') <= live_count (registry s) - width)%nat
  /\ ((live_count (registry s) <= width)%nat -> all_ended (registry s')).
Proof.
  intros Hready Hl Hfair. pose proof Hready as [Hk Hcore].
  destruct (before_members s e Hready Hl) as (P3 & C3 & I3). unfold tick. cbn zeta.
  set (d3 := deliver_cancel_outbox _ _) in *. cbn [kill_switch registry].
  change (kill_switch (s <| registry := d3 |>)) with (kill_switch s). rewrite Hk.
  pose proof (phase_live_count _ _ (core_ok _ Hcore) P3) as L3.
  set (s3 := s <| registry := d3 |>). set (pending := list_pending_members_sync d3 (RunConfig.max_concurrency cfg)).
  destruct (pending_listed d3 (RunConfig.max_concurrency cfg) I3) as [Hlen Hpend]; [unfold width in Hwidth; lia|].
  fold width pending in Hlen, Hpend. destruct (round_robin_spec pending) as [Hperm Hrlen].
  assert (NoDup (map place (round_robin pending))) as Hnd.
  { change (NoDup (place <$> round_robin pending)). rewrite Hperm. by apply pending_places, (core_ok _ C3). }
  assert (forall m, m ∈ round_robin pending -> m ∈ members d3 /\ DelegationMember.status m = DelegationMemberStatus.PENDING)
    as Hms by (intros m Hm; rewrite Hperm in Hm; by apply Hpend).
  destruct (gather_all cfg caps execute Hexecute s3 (round_robin pending) (env_schedule e)) as
    (s4 & Hg & Hk4 & K4 & E4 & D4); [done|apply (core_ok _ C3)|done|done|by eapply fair_fewer; [|exact Hfair]; lia|].
  destruct (done_phase d3 (registry s4) (round_robin pending)) as [P4 L4]; [apply (core_ok _ C3)|done..| |done|].
  { intros m Hm. destruct (Hms m Hm) as [? Hs]. split; [done|]. unfold live_member, DelegationMember.is_terminal.
    by rewrite Hs. }
  unfold claim_and_execute_pending. change (registry s3) with d3. fold pending. rewrite Hg. cbn.
  assert (core (registry s4)) as C4 by (by apply (phase_core d3)).
  assert (idle (registry s4)) as I4 by (by eapply phase_idle).
  destruct (joins_phase (registry s4) (env_later e) K4) as [P5 K5].
  pose proof (phase_live_count _ _ K4 P5) as L5.
  eexists. split; [reflexivity|]. cbn [registry kill_switch]. split_and!.
  - split; [done|]. by apply (phase_core (registry s4)).
  - by eapply phase_idle.
  - eapply phase_trans; [exact P3|]. by eapply phase_trans.
  - change (live_count (try_advance_joins (registry s4) (env_later e)) <= live_count (registry s) - width)%nat. lia.
  - intros Hfew. apply joins_end; [done|]. lia.
Qed.

Lemma phase_keeps_delegation d d' did x :
  ddb_ok d' -> phase d d' -> find_delegation d did = Some x -> exists x', find_delegation d' did = Some x'.
Proof.
  intros Hok [f g Hd Hf _ _ _ _] [Hx <-]%find_delegation_spec. destruct (Hf x Hx) as (<- & _).
  exists (f x). apply find_delegation_self; [done|]. rewrite Hd. by apply list_elem_of_fmap_2.
Qed.

Lemma drive_ends envs did n k s x :
  ready s -> lapsed (env_now (envs k)) (registry s) ->
  (forall j, fair_schedule width (env_schedule (envs j))) ->
  find_delegation (registry s) did = Some x ->
  Delegation.is_terminal x = true /\ (1 <= n)%nat \/ (2 <= n)%nat /\ (live_count (registry s) <= (n - 1) * width)%nat ->
  exists s' x', drive_ticks cfg caps execute n envs k s did = Some (s', DriveTerminal)
  /\ find_delegation (registry s') did = Some x' /\ Delegation.is_terminal x' = true.
Proof.
  intros Hr Hl Hfair. revert k s x Hr Hl. induction n as [|n IH]; intros k s x Hr Hl Hx Hn; [lia|].
  cbn [drive_ticks]. unfold get_sync. rewrite Hx. destruct (Delegation.is_terminal x) eqn:Ht; [by eauto|].
  destruct Hn as [[? _]|[Hn Hlive]]; [done|].
  destruct (tick_progress s (envs k) Hr Hl (Hfair k)) as (s1 & -> & Hr1 & Hi1 & Hp1 & Hlive1 & Hend). cbn.
  destruct (phase_keeps_delegation _ _ _ _ (core_ok _ (ready_core _ Hr1)) Hp1 Hx) as [x1 Hx1].
  apply (IH _ _ x1); [done|by intros m Hm Hrun; destruct (Hi1 m Hm)|done|].
  destruct (decide (n = 1)%nat) as [->|Hn1].
  - left. split; [|lia]. apply Hend; [lia|]. by apply find_delegation_spec in Hx1 as [? _].
  - right. split; [lia|]. nia.
Qed.
End passes.

(** * Lemmas: a concrete run *)

Lemma claimed_core : core claimed_db.
Proof.
  split.
  - apply dreachable_ok, claimed_reachable.
  - intros x Hx _. assert (forallb (fun x => existsb (fun m => bool_decide (DelegationMember.delegation_id m = Delegation.id x))
      (members claimed_db)) (delegations claimed_db) = true) as H by (vm_compute; reflexivity).
    rewrite forallb_true in H. apply H, List.existsb_exists in Hx as (m & Hm & Hd).
    exists m. split; [by apply list_elem_of_In|]. by apply bool_decide_eq_true in Hd.
  - intros x Hx Hp. exfalso. assert (existsb (fun x => bool_decide (Delegation.status x = DelegationStatus.PENDING))
      (delegations claimed_db) = false) as H by (vm_compute; reflexivity).
    rewrite existsb_false in H. specialize (H x Hx). by apply bool_decide_eq_false in H.
  - apply Nat.leb_le. vm_compute. reflexivity.
Qed.

Lemma claimed_lapsed : lapsed 20000000 claimed_db.
Proof.
  assert (forallb (fun m => match DelegationMember.claim_expires_at m with
      | Some at_ => at_ <? 20000000
      | None => negb (bool_decide (DelegationMember.status m = DelegationMemberStatus.RUNNING))
      end) (members claimed_db) = true) as H by (vm_compute; reflexivity).
  rewrite forallb_true in H. intros m Hm Hr. specialize (H m Hm).
  destruct (DelegationMember.claim_expires_at m) as [at_|].
  - exists at_. split; [done|]. by apply Z.ltb_lt.
  - apply negb_true_iff, bool_decide_eq_false in H. done.
Qed.

Lemma drive_fair k : fair_schedule 2 (env_schedule (drive_envs k)).
Proof.
  split.
  - intros e He. unfold drive_envs, drive_schedule, env_schedule in He. simpl in He.
    repeat (apply elem_of_cons in He as [->|He]; [by eauto|]). by apply elem_of_nil in He.
  - intros i Hi. destruct i as [|[|i]]; [done|done|lia].
Qed.

(** * Properties *)

(** C7. Delegations end.  Whatever a dead process left behind, as long as its claims
    have lapsed: if every delegation not yet started still has a member and no
    cancellation on its way, at most a hundred delegations are active, the kill switch
    is off, the executor replies, and every pass runs its coroutines fairly, in any
    interleaving, with no other client of the registry acting meanwhile, then the loop of
    200 passes waiting for a delegation never waits for ever and does not time out,
    provided the members left to run are at most 199 times what one pass may run: it
    returns with the delegation ended. *)
Theorem drive_reaches_terminal {C} (cfg : RunConfig.t) (caps : gmap string C) execute envs s did :
  executor_replies execute -> 1 <= RunConfig.max_concurrency cfg ->
  kill_switch s = false -> core (registry s) -> lapsed (env_now (envs 0%nat)) (registry s) ->
  (forall k, fair_schedule (Z.to_nat (RunConfig.max_concurrency cfg)) (env_schedule (envs k))) ->
  (live_count (registry s) <= 199 * Z.to_nat (RunConfig.max_concurrency cfg))%nat ->
  is_Some (find_delegation (registry s) did) ->
  exists s' x, drive_to_terminal cfg caps execute envs s did = Some (s', DriveTerminal)
  /\ find_delegation (registry s') did = Some x /\ Delegation.is_terminal x = true.
Proof.
  intros Hex Hc Hk Hcore Hl Hfair Hlive [x Hx]. unfold drive_to_terminal.
  eapply drive_ends; [done|lia|by split|done|done|exact Hx|]. right. split; unfold MAX_TICKS; lia.
Qed.

Lemma drive_reaches_terminal_witness :
  exists s' x, drive_to_terminal drive_cfg ∅ drive_execute drive_envs drive_start "d" = Some (s', DriveTerminal)
  /\ find_delegation (registry s') "d" = Some x /\ Delegation.is_terminal x = true.
Proof.
  apply (drive_reaches_terminal drive_cfg ∅ drive_execute drive_envs drive_start "d").
  - split; [exact drive_execute_ends|]. intros m cap deadline run now. unfold drive_execute. by case_bool_decide.
  - apply (bool_decide_eq_true_1 _). reflexivity.
  - reflexivity.
  - exact claimed_core.
  - exact claimed_lapsed.
  - exact drive_fair.
  - vm_compute. lia.
  - exact (bool_decide_eq_true_1 (is_Some (find_delegation claimed_db "d")) eq_refl).
Defined.
