(* ===== verification/DelegationService.v ===== *)
(** Delegating (app/application/delegation_service.py, with the request parser of
    app/application/delegation_request_parser.py): from the request of a parent to
    the result set it gets back.

    The state is what the service works on: the registry and the kill switch, the
    budget accounts, and the capabilities the run service remembers.  [delegate]
    awaits at the reservation, at the creation and in the passes of the scheduler;
    what other coroutines do between its reservation and its creation is an
    argument, what they do during the passes is in the schedules of DelegationRun.v.

    NFC normalisation leaves texts of code points below 256 alone. *)
From S2P Require Import Prelude Text Json InformationFlow Budget DelegationDomain DelegationPolicy DelegationStore.
From S2P Require Import DelegationInv DelegationRun.
From stdpp Require Import gmap.
From Stdlib Require Import QArith.
Open Scope Z_scope.

(** * Outcomes *)

(** A call returns, raises [DelegationError] with its code, or lets another
    exception out. *)
Inductive outcome (A : Type) : Type :=
  | Done (a : A)
  | Failed (code : string)
  | Escaped (e : py_exc).
Arguments Done {A} _.
Arguments Failed {A} _.
Arguments Escaped {A} _.

Definition bind_outcome {A B} (o : outcome A) (k : A -> outcome B) : outcome B :=
  match o with Done a => k a | Failed c => Failed c | Escaped e => Escaped e end.
Notation "'let!' x ':=' c 'in' k" := (bind_outcome c (fun x => k))
  (at level 10, x pattern, c at level 200, k at level 200) : agent_scope.

(** * The request parser *)

Definition normalize_key (key : string) : outcome string :=
  let normalized := lower (strip key) in
  if negb (truthy_str normalized) then Failed "delegation_invalid" else Done normalized.

(** [_normalize_spec_key] *)
Definition normalize_spec_key (spec : DelegationChildSpec) (title instruction : string) : spec_key :=
  (lower title, instruction, sorted_strs (spec_skills spec), sorted_strs (spec_allowed_tools spec),
   spec_model_override spec).

Fixpoint normalize_loop (seen : list spec_key) (children : list DelegationChildSpec)
    : outcome (list DelegationChildSpec) :=
  match children with
  | [] => Done []
  | spec :: children =>
      let instruction := strip (spec_instruction spec) in
      let title := strip (spec_title spec) in
      let norm := normalize_spec_key spec title instruction in
      if negb (truthy_str instruction) then Failed "delegation_invalid"
      else if negb (truthy_str title) then Failed "delegation_invalid"
      else if bool_decide (norm ∈ seen) then Failed "delegation_invalid"
      else
        let! rest := normalize_loop (norm :: seen) children in
        Done (mkDelegationChildSpec title instruction (spec_skills spec) (spec_allowed_tools spec)
                (spec_model_override spec) (spec_max_runtime_seconds spec) (spec_budget_tokens spec)
                (spec_output_schema_repr spec) :: rest)
  end.

Definition normalize_children (children : list DelegationChildSpec) : outcome (list DelegationChildSpec) :=
  if bool_decide (children = []) then Failed "delegation_invalid" else normalize_loop [] children.

Definition json_opt_int (o : option Z) : json := match o with Some n => JInt n | None => JNull end.
Definition json_strs (l : list string) : json := JArr (map JStr l).

Definition child_payload (c : DelegationChildSpec) : json :=
  JObj [("t", JStr (spec_title c)); ("i", JStr (spec_instruction c));
        ("s", json_strs (sorted_strs (spec_skills c))); ("a", json_strs (sorted_strs (spec_allowed_tools c)));
        ("m", json_opt_str (spec_model_override c)); ("r", json_opt_int (spec_max_runtime_seconds c));
        ("b", JInt (spec_budget_tokens c))].

(** [aggregator_instruction.strip() if aggregator_instruction else None] *)
Definition stripped_instruction (o : option string) : option string :=
  match o with Some s => if truthy_str s then Some (strip s) else None | None => None end.

Definition request_payload (key : string) (children : list DelegationChildSpec) (join_policy aggregation : string)
    (timeout_seconds : option Z) (aggregator_instruction : option string) : json :=
  JObj [("k", JStr key); ("c", JArr (map child_payload children)); ("j", JStr join_policy);
        ("g", JStr aggregation); ("t", json_opt_int timeout_seconds);
        ("ai", json_opt_str (stripped_instruction aggregator_instruction))].

(** The text that [fingerprint] hashes. *)
Definition fingerprint_text (key : string) (children : list DelegationChildSpec) (join_policy aggregation : string)
    (timeout_seconds : option Z) (aggregator_instruction : option string) : outcome string :=
  let! key := normalize_key key in
  let! norm_children := normalize_children children in
  Done (dumps_sorted (request_payload key norm_children join_policy aggregation timeout_seconds
                        aggregator_instruction)).

(** * The service *)

(** [parent_capability]: the keys the service reads, absent ones at the defaults it
    reads them with. *)
Record ParentCapability := mkParentCapability {
  cap_source : string;
  cap_scope_id : string;
  cap_run_id : string;
  cap_session_id : string;
  cap_has_capability : bool;
  cap_classification : option string;
  cap_parent_allowed_tools : gset string;
  cap_system_child_allowlist : gset string;
  cap_parent_deadline : option Q
}.

(** The fields of [DelegationPolicyConfig] used here. *)
Record DelegationPolicyConfig := mkDelegationPolicyConfig {
  cfg_enabled : bool;
  cfg_realtime_enabled : bool;
  cfg_task_enabled : bool;
  cfg_max_children : Z;
  cfg_max_runtime_seconds : Z;
  cfg_member_max_runtime_seconds : Z;
  cfg_max_total_tokens : Z;
  cfg_max_tokens_per_child : Z
}.

(** The arguments of [delegate] besides the capability. *)
Record DelegateArgs := mkDelegateArgs {
  arg_key : string;
  arg_children : list DelegationChildSpec;
  arg_join_policy : string;
  arg_aggregation : string;
  arg_timeout_seconds : Z;
  arg_aggregator_instruction : option string
}.

(** [DelegationJoinPolicy(value)], [DelegationAggregationPolicy(value)] *)
Definition join_policy_of (s : string) : outcome DelegationJoinPolicy.t :=
  if bool_decide (s = "all_completed") then Done DelegationJoinPolicy.ALL_COMPLETED
  else if bool_decide (s = "all_succeeded") then Done DelegationJoinPolicy.ALL_SUCCEEDED
  else if bool_decide (s = "best_effort") then Done DelegationJoinPolicy.BEST_EFFORT
  else Escaped ValueError.
Definition aggregation_of (s : string) : outcome DelegationAggregationPolicy.t :=
  if bool_decide (s = "parent") then Done DelegationAggregationPolicy.PARENT
  else if bool_decide (s = "agent") then Done DelegationAggregationPolicy.AGENT
  else Escaped ValueError.

(** What the service shares with others. *)
Record dstate := mkDstate {
  ds_shared : shared;
  ds_budget : option BudgetService;
  ds_caps : gmap string ParentCapability
}.
#[export] Instance rebuild_dstate : Rebuild dstate := fun s => mkDstate (ds_shared s) (ds_budget s) (ds_caps s).

(** What a call draws from outside: clocks, identifiers, the run it is bound to, and
    what other coroutines do while it waits. *)
Record call_env := mkCallEnv {
  ce_mono : pyfloat;
  ce_now : Z;
  ce_created : Z;
  ce_uuid : string;
  ce_member_ids : nat -> string;
  ce_session_ids : nat -> string;
  ce_trace : list (string * string);
  ce_current_run : option string;
  ce_meanwhile : dstate -> dstate;
  ce_ticks : nat -> env
}.

(** [datetime.max] as an instant, in microseconds. *)
Definition MAX_INSTANT : Z := 253402300799999999.

(** [timedelta(seconds=x)] in microseconds, half to even. *)
Definition round_half_even (x : Q) : Z :=
  let twice := (2 * Qnum x) in
  let den := Zpos (Qden x) in
  let fl := Qnum x / den in
  match Z.compare (Qnum x - fl * den) (den - (Qnum x - fl * den)) with
  | Lt => fl
  | Gt => fl + 1
  | Eq => if Z.even fl then fl else fl + 1
  end.
Definition timedelta (x : Q) : Z := round_half_even (x * inject_Z 1000000)%Q.

Section service.
(** [sha256(...).hexdigest()] and [json.loads] ([None] where it raises). *)
Context (sha256 : string -> string) (json_loads : string -> option json).
Context (config : DelegationPolicyConfig) (info_flow : InformationFlowService).
Context (run_config : RunConfig.t).
Context (execute : DelegationMember.t -> option ParentCapability -> option Z -> option string -> Z -> exec_reply).

Definition fingerprint_of (key : string) (children : list DelegationChildSpec) (join_policy aggregation : string)
    (timeout_seconds : option Z) (aggregator_instruction : option string) : outcome string :=
  let! text := fingerprint_text key children join_policy aggregation timeout_seconds aggregator_instruction in
  Done (sha256 text).

Definition check_feature_flags (cap : ParentCapability) : outcome unit :=
  if negb (cfg_enabled config) then Failed "delegation_disabled"
  else if bool_decide (cap_source cap = "realtime") && negb (cfg_realtime_enabled config)
  then Failed "delegation_disabled"
  else if bool_decide (cap_source cap = "task") && negb (cfg_task_enabled config)
  then Failed "delegation_disabled"
  else Done tt.

Definition build_parent_ref (cap : ParentCapability) : DelegationParentRef :=
  mkDelegationParentRef (cap_source cap) (cap_scope_id cap) (cap_run_id cap) (cap_session_id cap).

(** [aggregation == "agent" and aggregator_instruction], and the stripped text. *)
Definition aggregator_text (aggregation : string) (instruction : option string) : option string :=
  if bool_decide (aggregation = "agent") then stripped_instruction instruction else None.

Definition build_policy_request (cap : ParentCapability) (children : list DelegationChildSpec)
    (join_policy aggregation : string) (timeout_seconds : Z) (aggregator_instruction : option string)
    : outcome DelegationPolicyRequest :=
  let aggregator_spec :=
    (fun text => mkDelegationChildSpec "aggregator" text [] [] None None 0 None)
      <$> aggregator_text aggregation aggregator_instruction in
  let! jp := join_policy_of join_policy in
  let! ag := aggregation_of aggregation in
  Done (mkDelegationPolicyRequest (build_parent_ref cap) (cap_has_capability cap) children jp ag 1
          (cap_parent_allowed_tools cap) (cap_system_child_allowlist cap) (cfg_max_children config)
          (Some (cfg_max_runtime_seconds config)) (Some (cfg_member_max_runtime_seconds config))
          (Some (cfg_max_total_tokens config)) (Some (cfg_max_tokens_per_child config)) (Some timeout_seconds)
          (cap_parent_deadline cap) aggregator_spec (cap_classification cap)).

Definition total_budget (children : list DelegationChildSpec) : Z := Z.max (sum_tokens children) 0.

Definition reserve_parent_budget (s : dstate) (cap : ParentCapability) (children : list DelegationChildSpec)
    (mono : pyfloat) : dstate * outcome (option BudgetReservationDecision) :=
  match ds_budget s with
  | None => (s, Done None)
  | Some b =>
      let total := total_budget children in
      if total <=? 0 then (s, Done None)
      else
        let request := mkBudgetReserveRequest BudgetReserveKind.LLM_CALL total 0%Q fzero None in
        let '(b, decision) := Budget.reserve b (cap_run_id cap) request mono in
        (s <| ds_budget := Some b |>,
         if bool_decide (dec_outcome decision = PolicyOutcome.ALLOW) then Done (Some decision)
         else Failed "delegation_budget_exceeded")
  end.

Definition release_parent_budget (s : dstate) (cap : ParentCapability)
    (reservation : option BudgetReservationDecision) : dstate :=
  match ds_budget s, reservation with
  | Some b, Some r => s <| ds_budget := Some (Budget.release b (cap_run_id cap) r) |>
  | _, _ => s
  end.

Definition build_snapshot : PolicySnapshotRecord :=
  let parent_config := [("max_children", JInt (cfg_max_children config));
                        ("max_runtime_seconds", JInt (cfg_max_runtime_seconds config));
                        ("max_total_tokens", JInt (cfg_max_total_tokens config))] in
  let child_config := parent_config ++ [("delegation_enabled", JBool false)] in
  mkPolicySnapshotRecord "system-v1" parent_config child_config None
    (sha256 (dumps_sorted (JObj [("p", JObj parent_config); ("c", JObj child_config)]))).

(** [now + delta], which raises past [datetime.max]. *)
Definition add_time (now delta : Z) : result Z :=
  if MAX_INSTANT <? now + delta then Raise OverflowError else Return (now + delta).

Definition compute_deadline (cap : ParentCapability) (timeout_seconds now : Z) : result (option Z) :=
  let? deadline := add_time now (seconds timeout_seconds) in
  match cap_parent_deadline cap with
  | Some d =>
      if negb (Qle_bool d 0) then
        let? parent_deadline := add_time now (timedelta d) in
        Return (Some (if parent_deadline <? deadline then parent_deadline else deadline))
      else Return (Some deadline)
  | None => Return (Some deadline)
  end.

Definition build_worker (e : call_env) (deadline_at : option Z) (ordinal : nat) (spec : DelegationChildSpec)
    : DelegationMember.t :=
  DelegationMember.new (ce_member_ids e ordinal) "" DelegationMemberRole.WORKER (Z.of_nat ordinal)
    (spec_title spec) (spec_instruction spec) (spec_skills spec) (spec_allowed_tools spec)
    ("delegation-" +:+ ce_session_ids e ordinal) deadline_at (spec_budget_tokens spec)
    (spec_model_override spec) (spec_max_runtime_seconds spec).

Definition build_members (e : call_env) (children : list DelegationChildSpec) (deadline_at : option Z)
    (aggregation : string) (aggregator_instruction : option string) : list DelegationMember.t :=
  imap (build_worker e deadline_at) children
  ++ match aggregator_text aggregation aggregator_instruction with
     | Some text =>
         let n := length children in
         [DelegationMember.new (ce_member_ids e n) "" DelegationMemberRole.AGGREGATOR (Z.of_nat n) "aggregator"
            text [] [] ("delegation-" +:+ ce_session_ids e n) deadline_at 0 None
            (Some (cfg_member_max_runtime_seconds config))]
     | None => []
     end.

(** The members and the request, inside the [try]: what raises there is a
    [delegation_create_failed]. *)
Definition create_request (e : call_env) (cap : ParentCapability) (key fingerprint : string)
    (children : list DelegationChildSpec) (args : DelegateArgs) : result DelegationCreateRequest :=
  let? deadline_at := compute_deadline cap (arg_timeout_seconds args) (ce_now e) in
  match join_policy_of (arg_join_policy args), aggregation_of (arg_aggregation args) with
  | Done jp, Done ag =>
      Return (mkDelegationCreateRequest (build_parent_ref cap) key fingerprint jp ag deadline_at
                (total_budget children)
                (build_members e children deadline_at (arg_aggregation args) (arg_aggregator_instruction args))
                build_snapshot (ce_trace e)
                (if bool_decide (ce_current_run e = Some (cap_run_id cap)) then ce_current_run e else None))
  | _, _ => Raise ValueError
  end.

(** Steps 1 to 3: nothing is changed. *)
Definition admit_request (cap : ParentCapability) (args : DelegateArgs)
    : outcome (string * list DelegationChildSpec * string) :=
  let! _ := check_feature_flags cap in
  if negb (cap_has_capability cap) then Failed "delegation_not_authorized"
  else
    let! key := normalize_key (arg_key args) in
    let! children := normalize_children (arg_children args) in
    let! fingerprint := fingerprint_of (arg_key args) children (arg_join_policy args) (arg_aggregation args)
                          (Some (arg_timeout_seconds args)) (arg_aggregator_instruction args) in
    let! request := build_policy_request cap children (arg_join_policy args) (arg_aggregation args)
                      (arg_timeout_seconds args) (arg_aggregator_instruction args) in
    if bool_decide (DelegationPolicy.evaluate request = PolicyOutcome.ALLOW)
    then Done (key, children, fingerprint) else Failed "delegation_invalid".

(** Steps 5 and 6, from the reservation on. *)
Definition create (s : dstate) (e : call_env) (cap : ParentCapability) (args : DelegateArgs)
    (admitted : string * list DelegationChildSpec * string) (reservation : option BudgetReservationDecision)
    : dstate * outcome Delegation.t :=
  let '(key, children, fingerprint) := admitted in
  match create_request e cap key fingerprint children args with
  | Raise _ => (release_parent_budget s cap reservation, Failed "delegation_create_failed")
  | Return request =>
      let '(d, r) := create_or_reconnect_sync (registry (ds_shared s)) request (ce_uuid e) (ce_created e) in
      let s := s <| ds_shared := (ds_shared s) <| registry := d |> |> in
      match r with
      | Return delegation => (s, Done delegation)
      | Raise DelegationConflictError =>
          (release_parent_budget s cap reservation, Failed "delegation_conflict")
      | Raise _ => (release_parent_budget s cap reservation, Failed "delegation_create_failed")
      end
  end.

(** * Filtering what the parent gets *)

Definition classification_of (cap : ParentCapability) : Classification.t :=
  match cap_classification cap with
  | Some raw => default Classification.INTERNAL (Classification.of_value raw)
  | None => Classification.INTERNAL
  end.

Definition redact_json_credential_fields (summary : string) : string :=
  match json_loads summary with
  | Some (JObj kvs) => dumps "," ":" (service_redact_structured info_flow (JObj kvs))
  | Some (JArr l) => dumps "," ":" (service_redact_structured info_flow (JArr l))
  | _ => summary
  end.

#[local] Instance rebuild_result : Rebuild DelegationResult.t := fun r =>
  DelegationResult.mk (DelegationResult.status r) (DelegationResult.summary r) (DelegationResult.structured_data r)
    (DelegationResult.artifact_refs r) (DelegationResult.error_code r) (DelegationResult.error_message r)
    (DelegationResult.usage_summary r) (DelegationResult.classification r) (DelegationResult.checksum r)
    (DelegationResult.started_at r) (DelegationResult.ended_at r).

Definition filter_result (classification : Classification.t) (r : DelegationResult.t) : DelegationResult.t :=
  let summary := redact_json_credential_fields (DelegationResult.summary r) in
  let rel := InformationFlow.release info_flow summary ReleaseTarget.PARENT classification "delegation_result" [] in
  r <| DelegationResult.summary :=
         if rr_allowed rel then default summary (rr_content rel) else "[filtered]" |>.

Definition filter_result_set (cap : ParentCapability) (rs : DelegationResultSet) : DelegationResultSet :=
  let classification := classification_of cap in
  mkDelegationResultSet (rs_delegation_id rs) (rs_status rs)
    (map (filter_result classification) (rs_member_results rs))
    (filter_result classification <$> rs_aggregation_result rs)
    (rs_partial rs) (rs_partial_reason rs) (rs_filter_notes rs) (rs_total_usage rs).

(** * [delegate] *)

(** Steps 7 and 8; [None] as long as a schedule leaves a coroutine unfinished. *)
Definition run_to_result (s : dstate) (e : call_env) (cap : ParentCapability) (delegation : Delegation.t)
    : option (dstate * outcome DelegationResultSet) :=
  let did := Delegation.id delegation in
  let s := s <| ds_caps := <[did := cap]> (ds_caps s) |> in
  '(sh, how) ← drive_to_terminal run_config (ds_caps s) execute (ce_ticks e) (ds_shared s) did;
  let s := s <| ds_shared := sh |> in
  Some (s, match how with
           | DeletionMissing => Failed "deletion_missing"
           | DelegationTimeout => Failed "delegation_timeout"
           | DriveTerminal =>
               match get_result_set_sync (registry sh) did with
               | None => Failed "delegation_no_result"
               | Some rs => Done (filter_result_set cap rs)
               end
           end).

Definition delegate (s : dstate) (e : call_env) (cap : ParentCapability) (args : DelegateArgs)
    : option (dstate * outcome DelegationResultSet) :=
  match admit_request cap args with
  | Failed c => Some (s, Failed c)
  | Escaped x => Some (s, Escaped x)
  | Done admitted =>
      match reserve_parent_budget s cap admitted.1.2 (ce_mono e) with
      | (s, Failed c) => Some (s, Failed c)
      | (s, Escaped x) => Some (s, Escaped x)
      | (s, Done reservation) =>
          match create (ce_meanwhile e s) e cap args admitted reservation with
          | (s, Failed c) => Some (s, Failed c)
          | (s, Escaped x) => Some (s, Escaped x)
          | (s, Done delegation) => run_to_result s e cap delegation
          end
      end
  end.
End service.
