(* ===== verification/DelegateProps.v ===== *)
(** The theorems about delegating: what a request's fingerprint identifies, what a
    child may be given, what a failed call leaves behind, and what the parent
    reads. *)
From S2P Require Import Prelude Text Json InformationFlow FlowProps Budget BudgetProps DelegationDomain DelegationPolicy.
From S2P Require Import DelegationStore DelegationInv DelegationRun DelegationService.
From stdpp Require Import gmap.
From Stdlib Require Import QArith.
Open Scope Z_scope.

(** * Fingerprints *)

Lemma sort_keys_obj kvs :
  sort_keys (JObj kvs) = JObj (order_by (fun a b => str_leb a.1 b.1) (map (fun kv => (kv.1, sort_keys kv.2)) kvs)).
Proof. cbn. do 2 f_equal. induction kvs as [|[k v] l IH]; cbn; [done|]. by rewrite IH. Qed.

(** Objects with the same distinct keys sort to the same one only if their values
    do. *)
Lemma sort_keys_fields kvs kvs' :
  NoDup (map fst kvs) -> map fst kvs = map fst kvs' -> sort_keys (JObj kvs) = sort_keys (JObj kvs') ->
  map (fun kv => sort_keys kv.2) kvs = map (fun kv => sort_keys kv.2) kvs'.
Proof.
  rewrite !sort_keys_obj. intros Hnd Hk [= He]. set (f := fun kv : string * json => (kv.1, sort_keys kv.2)) in *.
  assert (Hp : map f kvs ≡ₚ map f kvs').
  { rewrite <- (order_by_perm (fun a b => str_leb a.1 b.1) (map f kvs)), He. apply order_by_perm. }
  clear He. revert kvs' Hk Hp. induction kvs as [|[k v] l IH]; intros [|[k' v'] l'] Hk Hp; try done.
  cbn in Hk, Hnd. injection Hk as -> Hk. apply NoDup_cons in Hnd as [Hnin Hnd].
  assert (Hv : sort_keys v = sort_keys v').
  { assert ((k', sort_keys v) ∈ map f ((k', v') :: l')) as Hin by (rewrite <- Hp; by left).
    apply elem_of_cons in Hin as [[= ->]|Hin]; [done|]. apply list_elem_of_fmap in Hin as ([k2 v2] & [= -> _] & Hin).
    destruct Hnin. rewrite Hk. by apply (list_elem_of_fmap_2 fst) in Hin. }
  cbn. rewrite Hv. f_equal. apply IH; [done..|]. cbn in Hp. unfold f at 1 3 in Hp. cbn in Hp. rewrite Hv in Hp.
  by apply Permutation_cons_inv in Hp.
Qed.

(** A child spec as the parser rebuilds it. *)
Definition stripped (c : DelegationChildSpec) : DelegationChildSpec :=
  mkDelegationChildSpec (strip (spec_title c)) (strip (spec_instruction c)) (spec_skills c) (spec_allowed_tools c)
    (spec_model_override c) (spec_max_runtime_seconds c) (spec_budget_tokens c) (spec_output_schema_repr c).

Lemma normalize_loop_stripped seen l l' : normalize_loop seen l = Done l' -> l' = map stripped l.
Proof.
  revert seen l'. induction l as [|c l IH]; intros seen l'; cbn [normalize_loop]; [by intros [= <-]|].
  repeat case_match; try done. destruct (normalize_loop _ l) as [rest| |] eqn:Hl; cbn; [|done..].
  intros [= <-]. apply IH in Hl as ->. done.
Qed.

Lemma normalize_children_stripped l l' : normalize_children l = Done l' -> l' = map stripped l.
Proof. unfold normalize_children. case_bool_decide; [done|]. apply normalize_loop_stripped. Qed.

Lemma escapes_nothing l x : normalize_children l = Escaped x -> False.
Proof.
  unfold normalize_children. case_bool_decide; [done|]. generalize (@nil spec_key) as seen.
  induction l as [|c l IH]; intros seen; cbn [normalize_loop]; [done|].
  repeat case_match; try done. destruct (normalize_loop _ l) as [rest| |] eqn:Hl; cbn; [done..|].
  intros [= ->]. destruct l as [|c' l]; [done|]. eapply IH; [done|exact Hl].
Qed.

(** Two children that ask for the same. *)
Definition same_child (a b : DelegationChildSpec) : Prop :=
  strip (spec_title a) = strip (spec_title b) /\ strip (spec_instruction a) = strip (spec_instruction b)
  /\ spec_skills a ≡ₚ spec_skills b /\ spec_allowed_tools a ≡ₚ spec_allowed_tools b
  /\ spec_model_override a = spec_model_override b /\ spec_max_runtime_seconds a = spec_max_runtime_seconds b
  /\ spec_budget_tokens a = spec_budget_tokens b.

(** Two requests that ask for the same. *)
Definition same_request (a b : DelegateArgs) : Prop :=
  lower (strip (arg_key a)) = lower (strip (arg_key b))
  /\ Forall2 same_child (arg_children a) (arg_children b)
  /\ arg_join_policy a = arg_join_policy b /\ arg_aggregation a = arg_aggregation b
  /\ arg_timeout_seconds a = arg_timeout_seconds b
  /\ stripped_instruction (arg_aggregator_instruction a) = stripped_instruction (arg_aggregator_instruction b).

Lemma json_strs_inj l l' : map sort_keys (map JStr l) = map sort_keys (map JStr l') -> l = l'.
Proof.
  rewrite !map_map. intros H. revert l' H.
  induction l as [|s l IH]; intros [|s' l'] H; try done. cbn in H. injection H as -> H. f_equal. auto.
Qed.

Lemma opt_str_inj o o' : sort_keys (json_opt_str o) = sort_keys (json_opt_str o') -> o = o'.
Proof. destruct o, o'; cbn; congruence. Qed.

Lemma opt_int_inj o o' : sort_keys (json_opt_int o) = sort_keys (json_opt_int o') -> o = o'.
Proof. destruct o, o'; cbn; congruence. Qed.

Lemma map_eq_Forall2 {A B} (f g : A -> B) l l' : map f l = map g l' <-> Forall2 (fun x y => f x = g y) l l'.
Proof.
  split.
  - revert l'. induction l as [|x l IH]; intros [|y l'] H; try done. injection H as Hx H. constructor; auto.
  - induction 1 as [|x y l l' Hx _ IH]; cbn; [done|]. by rewrite Hx, IH.
Qed.

Lemma child_payload_inj a b :
  sort_keys (child_payload (stripped a)) = sort_keys (child_payload (stripped b)) <-> same_child a b.
Proof.
  split.
  - unfold child_payload. intros H. apply sort_keys_fields in H; [|apply (bool_decide_eq_true_1 _); reflexivity|done].
    cbn -[sort_keys sorted_strs] in H. injection H as Ht Hi Hs Ha Hm Hr Hb.
    apply json_strs_inj, sorted_strs_eq in Hs, Ha. apply opt_str_inj in Hm. apply opt_int_inj in Hr.
    cbn in *. by split_and!; try congruence.
  - intros (Ht & Hi & Hs & Ha & Hm & Hr & Hb). apply sorted_strs_eq in Hs, Ha. unfold child_payload, stripped.
    cbn [spec_title spec_instruction spec_skills spec_allowed_tools spec_model_override spec_max_runtime_seconds
         spec_budget_tokens]. by rewrite Ht, Hi, Hs, Ha, Hm, Hr, Hb.
Qed.

Lemma request_payload_inj a b :
  let p x := request_payload (lower (strip (arg_key x))) (map stripped (arg_children x)) (arg_join_policy x)
               (arg_aggregation x) (Some (arg_timeout_seconds x)) (arg_aggregator_instruction x) in
  sort_keys (p a) = sort_keys (p b) <-> same_request a b.
Proof.
  intros p. split.
  - unfold p, request_payload. intros H.
    apply sort_keys_fields in H; [|apply (bool_decide_eq_true_1 _); reflexivity|done].
    cbn -[sort_keys child_payload stripped] in H. injection H as Hk Hc Hj Hg Ht Hai.
    apply opt_str_inj in Hai. split_and!; try (cbn in *; congruence).
    rewrite !map_map in Hc. apply map_eq_Forall2 in Hc. eapply Forall2_impl; [exact Hc|].
    intros x y. apply child_payload_inj.
  - intros (Hk & Hc & Hj & Hg & Ht & Hai). unfold p, request_payload. rewrite !sort_keys_obj, Hk, Hj, Hg, Ht, Hai.
    do 2 f_equal. cbn -[child_payload stripped]. do 3 f_equal. f_equal. rewrite !map_map.
    apply map_eq_Forall2. eapply Forall2_impl; [exact Hc|]. intros x y. apply child_payload_inj.
Qed.

Lemma fingerprint_text_done args text :
  fingerprint_text (arg_key args) (arg_children args) (arg_join_policy args) (arg_aggregation args)
    (Some (arg_timeout_seconds args)) (arg_aggregator_instruction args) = Done text ->
  text = dumps_sorted (request_payload (lower (strip (arg_key args))) (map stripped (arg_children args))
           (arg_join_policy args) (arg_aggregation args) (Some (arg_timeout_seconds args))
           (arg_aggregator_instruction args)).
Proof.
  unfold fingerprint_text, normalize_key. case_match; [done|]. cbn [bind_outcome].
  destruct (normalize_children (arg_children args)) as [l| |] eqn:Hl; [|done..]. cbn [bind_outcome].
  intros [= <-]. by rewrite (normalize_children_stripped _ _ Hl).
Qed.

(** The fingerprint of a delegation request is its identity.  If the hash does
    not collide on the two texts, two requests get the same fingerprint exactly
    when they ask for the same: the same key up to case and surrounding space, the
    same children in the same order (their skills and tools in any order), the same
    policies, timeout and aggregator instruction.  The expected output schema of a
    child is not part of it. *)
Theorem fingerprint_exact (sha256 : string -> string) a b text_a text_b :
  let fingerprint x := fingerprint_of sha256 (arg_key x) (arg_children x) (arg_join_policy x) (arg_aggregation x)
                         (Some (arg_timeout_seconds x)) (arg_aggregator_instruction x) in
  let text x := fingerprint_text (arg_key x) (arg_children x) (arg_join_policy x) (arg_aggregation x)
                  (Some (arg_timeout_seconds x)) (arg_aggregator_instruction x) in
  text a = Done text_a -> text b = Done text_b -> (sha256 text_a = sha256 text_b -> text_a = text_b) ->
  fingerprint a = fingerprint b <-> same_request a b.
Proof.
  intros fingerprint text Ha Hb Hsha. unfold fingerprint, fingerprint_of. unfold text in *. rewrite Ha, Hb. cbn.
  rewrite <- request_payload_inj. pose proof (fingerprint_text_done _ _ Ha). pose proof (fingerprint_text_done _ _ Hb).
  subst text_a text_b. unfold dumps_sorted in *. split.
  - intros [= H%Hsha]. apply dumps_inj in H; [exact H|by eexists].
  - cbn zeta. by intros ->.
Qed.

Lemma fingerprint_exact_witness :
  let child skills := mkDelegationChildSpec " A" "work" skills ["read"] None None 5 None in
  let a := mkDelegateArgs " Key" [child ["x"; "y"]] "best_effort" "parent" 60 None in
  let b := mkDelegateArgs "key" [child ["y"; "x"]] "best_effort" "parent" 60 (Some "") in
  let fingerprint x := fingerprint_of (fun text => text) (arg_key x) (arg_children x) (arg_join_policy x)
                         (arg_aggregation x) (Some (arg_timeout_seconds x)) (arg_aggregator_instruction x) in
  same_request a b /\ fingerprint a = fingerprint b.
Proof.
  intros child a b fingerprint.
  destruct (fingerprint_text (arg_key a) (arg_children a) (arg_join_policy a) (arg_aggregation a)
    (Some (arg_timeout_seconds a)) (arg_aggregator_instruction a)) as [ta| |] eqn:Ha; [|vm_compute in Ha; discriminate..].
  destruct (fingerprint_text (arg_key b) (arg_children b) (arg_join_policy b) (arg_aggregation b)
    (Some (arg_timeout_seconds b)) (arg_aggregator_instruction b)) as [tb| |] eqn:Hb; [|vm_compute in Hb; discriminate..].
  assert (Hs : same_request a b).
  { split; [reflexivity|]. split; [|repeat split]. constructor; [|constructor]. repeat split; try reflexivity.
    apply perm_swap. }
  split; [exact Hs|].
  exact (proj2 (fingerprint_exact (fun text => text) a b ta tb Ha Hb (fun H => H)) Hs).
Defined.

(** * What a child may be given *)

Section granted.
Context (sha256 : string -> string) (config : DelegationPolicyConfig).

Lemma admit_done cap args key children fp :
  admit_request sha256 config cap args = Done (key, children, fp) ->
  exists r, build_policy_request config cap children (arg_join_policy args) (arg_aggregation args)
              (arg_timeout_seconds args) (arg_aggregator_instruction args) = Done r
    /\ admissible r /\ normalize_key (arg_key args) = Done key /\ children = map stripped (arg_children args)
    /\ fingerprint_of sha256 (arg_key args) children (arg_join_policy args) (arg_aggregation args)
         (Some (arg_timeout_seconds args)) (arg_aggregator_instruction args) = Done fp.
Proof.
  unfold admit_request. destruct (check_feature_flags config cap); [|done..]. cbn [bind_outcome].
  destruct (negb _); [done|]. destruct (normalize_key _) as [k| |]; [|done..]. cbn [bind_outcome].
  destruct (normalize_children _) as [ch| |] eqn:Hch; [|done..]. cbn [bind_outcome].
  destruct (fingerprint_of _ _ _ _ _ _ _) as [f| |] eqn:Hf; [|done..]. cbn [bind_outcome].
  destruct (build_policy_request _ _ _ _ _ _ _) as [r| |] eqn:Hr; [|done..]. cbn [bind_outcome].
  case_bool_decide as Hev; [|done]. intros [= -> -> ->]. exists r. split; [done|].
  split; [by apply allowed_admissible|]. split; [done|]. split; [by apply normalize_children_stripped|done].
Qed.

(** A member of the delegation [x] that [cap] may start. *)
Record granted (cap : ParentCapability) (x : Delegation.t) (m : DelegationMember.t) : Prop := mkGranted {
  gr_delegation : DelegationMember.delegation_id m = Delegation.id x;
  gr_status : DelegationMember.status m = DelegationMemberStatus.PENDING;
  gr_tools : forall t, t ∈ DelegationMember.allowed_tools m ->
    t ∈ cap_parent_allowed_tools cap /\ t ∈ cap_system_child_allowlist cap /\ t ∉ FORBIDDEN_CHILD_TOOLS;
  gr_instruction : 0 < len (strip (DelegationMember.instruction m));
  gr_budget : 0 <= DelegationMember.budget_tokens m <= cfg_max_tokens_per_child config;
  gr_runtime : forall n, DelegationMember.max_runtime_seconds m = Some n ->
    0 < n <= cfg_member_max_runtime_seconds config;
  gr_deadline : DelegationMember.deadline_at m = Delegation.deadline_at x
}.

(** What a member takes over from the agent it is made for. *)
Definition made_for (c : DelegationChildSpec) (m : DelegationMember.t) : Prop :=
  DelegationMember.instruction m = spec_instruction c /\ DelegationMember.allowed_tools m = spec_allowed_tools c
  /\ DelegationMember.budget_tokens m = spec_budget_tokens c
  /\ (DelegationMember.max_runtime_seconds m = spec_max_runtime_seconds c
      \/ DelegationMember.max_runtime_seconds m = Some (cfg_member_max_runtime_seconds config)).

Lemma members_made cap args children r e deadline_at :
  build_policy_request config cap children (arg_join_policy args) (arg_aggregation args)
    (arg_timeout_seconds args) (arg_aggregator_instruction args) = Done r ->
  admissible r ->
  Forall2 made_for (agents r)
    (build_members config e children deadline_at (arg_aggregation args) (arg_aggregator_instruction args))
  /\ Forall (fun m => DelegationMember.deadline_at m = deadline_at)
       (build_members config e children deadline_at (arg_aggregation args) (arg_aggregator_instruction args)).
Proof.
  unfold build_policy_request. destruct (join_policy_of _) as [jp| |]; [|done..]. cbn [bind_outcome].
  unfold aggregation_of, build_members, agents, aggregators, aggregator_text.
  intros Hr Ha.
  assert (Hworkers : forall l k,
    Forall2 made_for l (imap (fun n => build_worker e deadline_at (k + n)%nat) l)
    /\ Forall (fun m => DelegationMember.deadline_at m = deadline_at)
         (imap (fun n => build_worker e deadline_at (k + n)%nat) l)).
  { induction l as [|c l IH]; intros k; cbn [imap]; [by split|].
    assert (He : imap ((fun n => build_worker e deadline_at (k + n)%nat) ∘ S) l
                 = imap (fun n => build_worker e deadline_at (S k + n)%nat) l).
    { apply imap_ext. intros i y _. cbn. by rewrite Nat.add_succ_r. }
    rewrite He. destruct (IH (S k)) as [IH1 IH2]. split; constructor; try done. by repeat split; left. }
  destruct (Hworkers children 0%nat) as [Hw1 Hw2].
  change (fun n => build_worker e deadline_at (0 + n)%nat) with (build_worker e deadline_at) in Hw1, Hw2.
  destruct (bool_decide (arg_aggregation args = "parent")) eqn:Hp.
  - apply bool_decide_eq_true in Hp. cbn in Hr. injection Hr as <-. cbn [aggregation DelegationPolicy.children].
    by rewrite Hp, !app_nil_r.
  - destruct (bool_decide (arg_aggregation args = "agent")) eqn:Hg; [|done]. cbn in Hr. injection Hr as <-.
    pose proof (adm_aggregator _ Ha eq_refl) as Hs. cbn in Hs |- *.
    destruct (stripped_instruction _) as [text|]; [|by destruct Hs]. cbn [fmap option_fmap option_map option_list].
    split; [apply Forall2_app|apply Forall_app]; (split; [done|]) || idtac; try done; repeat constructor; by right.
Qed.

Definition member_tokens (l : list DelegationMember.t) : Z :=
  foldr (fun m n => DelegationMember.budget_tokens m + n) 0 l.

Lemma made_tokens l ms : Forall2 made_for l ms -> member_tokens ms = sum_tokens l.
Proof.
  induction 1 as [|c m l ms (_ & _ & Hb & _) _ IH]; [done|]. cbn. unfold member_tokens, sum_tokens in IH. by rewrite Hb, IH.
Qed.

Lemma inserted_tokens uuid ms : member_tokens (map (inserted_member uuid) ms) = member_tokens ms.
Proof. induction ms as [|m ms IH]; [done|]. cbn. unfold member_tokens in IH. by rewrite IH. Qed.

(** An agent of an admissible request makes a member its parent may start. *)
Lemma made_granted cap r uuid x c m :
  admissible r -> parent_allowed_tools r = cap_parent_allowed_tools cap ->
  system_child_allowlist r = cap_system_child_allowlist cap ->
  max_tokens_per_child r = Some (cfg_max_tokens_per_child config) ->
  member_max_runtime_seconds r = Some (cfg_member_max_runtime_seconds config) ->
  Delegation.id x = uuid -> DelegationMember.deadline_at m = Delegation.deadline_at x ->
  c ∈ agents r -> made_for c m -> granted cap x (inserted_member uuid m).
Proof.
  intros Ha Hp Hs Ht Hm <- Hd Hc (Hi & Hal & Hb & Hr).
  destruct (adm_limits r Ha c Hc) as (Hb0 & Hbm & Hrt). destruct (adm_shape r Ha c Hc) as (_ & Hsi & _).
  split; cbn.
  - done.
  - done.
  - intros t Hin. rewrite Hal in Hin. destruct (adm_tools r Ha c t Hc Hin) as [H1 H2].
    rewrite <- Hp, <- Hs. split; [done|]. split; [done|]. by apply (adm_parent r Ha).
  - by rewrite Hi.
  - rewrite Hb. split; [done|]. by apply Hbm.
  - intros n Hn. destruct Hr as [Hr|Hr]; rewrite Hr in Hn.
    + destruct (Hrt n Hn) as [H0 Hw]. split; [done|]. by apply Hw.
    + injection Hn as <-. pose proof (adm_runtime r Ha (cfg_member_max_runtime_seconds config) (or_intror Hm)). lia.
  - done.
Qed.

Lemma policy_request_fields cap children args r :
  build_policy_request config cap children (arg_join_policy args) (arg_aggregation args)
    (arg_timeout_seconds args) (arg_aggregator_instruction args) = Done r ->
  parent_allowed_tools r = cap_parent_allowed_tools cap
  /\ system_child_allowlist r = cap_system_child_allowlist cap
  /\ max_tokens_per_child r = Some (cfg_max_tokens_per_child config)
  /\ member_max_runtime_seconds r = Some (cfg_member_max_runtime_seconds config)
  /\ max_total_tokens r = Some (cfg_max_total_tokens config)
  /\ max_runtime_seconds r = Some (cfg_max_runtime_seconds config)
  /\ timeout_seconds r = Some (arg_timeout_seconds args) /\ parent_deadline r = cap_parent_deadline cap.
Proof.
  unfold build_policy_request. destruct (join_policy_of _); [|done..]. cbn [bind_outcome].
  destruct (aggregation_of _); [|done..]. cbn [bind_outcome]. by intros [= <-].
Qed.

Lemma deadline_bound cap timeout now deadline :
  compute_deadline cap timeout now = Return deadline ->
  exists t, deadline = Some t /\ t <= now + seconds timeout
    /\ forall d, cap_parent_deadline cap = Some d -> (0 < d)%Q -> t <= now + timedelta d.
Proof.
  unfold compute_deadline, add_time. destruct (MAX_INSTANT <? _); [done|]. cbn [bind_result].
  destruct (cap_parent_deadline cap) as [d|].
  - destruct (Qle_bool d 0) eqn:Hd; cbn [negb].
    + intros [= <-]. eexists. split; [done|]. split; [done|]. intros d' [= <-] Hpos.
      apply Qle_bool_iff in Hd. by apply Qle_not_lt in Hd.
    + destruct (MAX_INSTANT <? _); [done|]. cbn [bind_result]. intros [= <-]. eexists. split; [done|].
      case_match eqn:Hlt; [apply Z.ltb_lt in Hlt|apply Z.ltb_ge in Hlt]; (split; [lia|]); intros d' [= <-] _; lia.
  - intros [= <-]. eexists. split; [done|]. by split; [|intros ? ?].
Qed.
End granted.

(** What a request says of a member. *)
Definition described (m : DelegationMember.t) :=
  (DelegationMember.role m, DelegationMember.ordinal m, DelegationMember.title m, DelegationMember.instruction m,
   (DelegationMember.skills m, DelegationMember.allowed_tools m, DelegationMember.model_override m,
    DelegationMember.budget_tokens m, DelegationMember.max_runtime_seconds m)).

(** The members a request asks for: a worker for each child, and where the results are to
    be aggregated by an agent, that agent, without tools and budget. *)
Definition requested (config : DelegationPolicyConfig) (args : DelegateArgs) :=
  imap (fun n c =>
    (DelegationMemberRole.WORKER, Z.of_nat n, strip (spec_title c), strip (spec_instruction c),
     (spec_skills c, spec_allowed_tools c, spec_model_override c, spec_budget_tokens c, spec_max_runtime_seconds c)))
    (arg_children args)
  ++ (if bool_decide (arg_aggregation args = "agent") then
        [(DelegationMemberRole.AGGREGATOR, Z.of_nat (length (arg_children args)), "aggregator",
          strip (default "" (arg_aggregator_instruction args)),
          ([], [], None, 0, Some (cfg_member_max_runtime_seconds config)))]
      else []).

Lemma members_described config cap args r e deadline uuid :
  build_policy_request config cap (map stripped (arg_children args)) (arg_join_policy args) (arg_aggregation args)
    (arg_timeout_seconds args) (arg_aggregator_instruction args) = Done r ->
  admissible r ->
  map described (map (inserted_member uuid)
    (build_members config e (map stripped (arg_children args)) deadline (arg_aggregation args) (arg_aggregator_instruction args)))
  = requested config args.
Proof.
  unfold build_policy_request, aggregation_of. destruct (join_policy_of _) as [jp| |]; [|done..]. cbn [bind_outcome].
  intros Hr Ha. unfold build_members, requested, aggregator_text in *. rewrite !map_app. f_equal.
  - rewrite !fmap_imap, imap_fmap. done.
  - destruct (bool_decide (arg_aggregation args = "agent")) eqn:Hg; [|done].
    apply bool_decide_eq_true in Hg. rewrite Hg in Hr. cbn in Hr. injection Hr as <-.
    pose proof (adm_aggregator _ Ha eq_refl) as Hs. cbn in Hs. unfold stripped_instruction in *.
    destruct (arg_aggregator_instruction args) as [text|]; [|by destruct Hs].
    destruct (truthy_str text); [|by destruct Hs]. cbn. by rewrite length_map.
Qed.

(** C13. A child never gets more than its parent may give.  When an admitted request
    creates a delegation, exactly the agents it asks for are added to the registry as
    pending members, one worker for each child and, where an agent is to aggregate, the
    aggregator, each with the text, skills, tools, model, budget and run time of the
    request: each may use only tools the parent has and the system allows to
    children, none of the forbidden ones; has a non-blank instruction, a budget
    within the limit per child and a run time within the limit per member; all of
    them together stay within the total; the deadline is no later than the timeout
    asked for, which is within the maximal run time, nor than the parent's own
    deadline.  When the key is known already, nothing is added: the delegation
    returned is the parent's earlier one, made by a request with the same
    fingerprint. *)
Theorem delegate_no_escalation sha256 config s e cap args admitted reservation s' x :
  admit_request sha256 config cap args = Done admitted ->
  create sha256 config s e cap args admitted reservation = (s', Done x) ->
  let d := registry (ds_shared s) in
  let d' := registry (ds_shared s') in
  match find_delegation d (Delegation.id x) with
  | None =>
      exists added, members d' = members d ++ added /\ map described added = requested config args
        /\ Forall (granted config cap x) added
        /\ member_tokens added <= cfg_max_total_tokens config /\ delegations d' = delegations d ++ [x]
        /\ Delegation.parent x = build_parent_ref cap
        /\ 0 < arg_timeout_seconds args <= cfg_max_runtime_seconds config
        /\ exists t, Delegation.deadline_at x = Some t /\ t <= ce_now e + seconds (arg_timeout_seconds args)
             /\ forall p, cap_parent_deadline cap = Some p -> (0 < p)%Q -> t <= ce_now e + timedelta p
  | Some _ =>
      d' = d /\ x ∈ delegations d /\ source (Delegation.parent x) = cap_source cap
      /\ scope_id (Delegation.parent x) = cap_scope_id cap /\ Delegation.delegation_key x = admitted.1.1
      /\ Delegation.fingerprint x = admitted.2
  end.
Proof.
  destruct admitted as [[key children] fp]. intros Hadmit Hcreate.
  destruct (admit_done _ _ _ _ _ _ _ Hadmit) as (r & Hr & Ha & Hkey & Hch & Hfp). cbn zeta.
  unfold create, create_request in Hcreate.
  destruct (compute_deadline cap _ _) as [deadline|] eqn:Hdl; [|done]. cbn [bind_result] in Hcreate.
  destruct (join_policy_of _) as [jp| |]; [|done..]. destruct (aggregation_of _) as [ag| |]; [|done..].
  set (req := mkDelegationCreateRequest _ _ _ _ _ _ _ _ _ _ _) in Hcreate.
  unfold create_or_reconnect_sync in Hcreate. destruct (List.find (same_key req) _) as [old|] eqn:Hold.
  - apply find_some in Hold as [Hin Hsame]. apply list_elem_of_In in Hin.
    destruct (negb _) eqn:Hfpr; [done|]. apply negb_false_iff, bool_decide_eq_true in Hfpr.
    injection Hcreate as <- <-. unfold same_key in Hsame. rewrite !andb_true_iff, !bool_decide_eq_true in Hsame.
    destruct Hsame as [[Hs1 Hs2] Hs3]. destruct (find_delegation _ (Delegation.id old)) eqn:Hf; [done|].
    exfalso. unfold find_delegation in Hf. eapply find_none in Hf; [|apply list_elem_of_In; exact Hin].
    unfold by_id in Hf. by rewrite bool_decide_eq_true_2 in Hf.
  - destruct (canonical_parent_valid _ _) as [[]|err]; [|by destruct err].
    destruct (negb (insertable _ _ _)) eqn:Hins; [done|]. injection Hcreate as <- <-. cbn.
    apply negb_false_iff in Hins. unfold insertable in Hins. rewrite !andb_true_iff, bool_decide_eq_true in Hins.
    destruct Hins as [[[[Hnone _] _] _] _]. rewrite Hnone.
    destruct (policy_request_fields _ _ _ _ _ Hr) as (Hp & Hsys & Ht & Hm & Htot & Hmax & Hto & Hpd).
    destruct (members_made config cap args children r e deadline Hr Ha) as [Hmade Hdead].
    eexists. split; [done|]. split_and!.
    + rewrite Hch in *. by eapply members_described.
    + rewrite Forall_forall. intros m (m0 & -> & Hm0)%list_elem_of_fmap.
      rewrite Forall_forall in Hdead. specialize (Hdead m0 Hm0).
      apply list_elem_of_lookup_1 in Hm0 as [i Hi]. destruct (Forall2_lookup_r _ _ _ _ _ Hmade Hi) as (c & Hc & Hmc).
      apply list_elem_of_lookup_2 in Hc. by eapply made_granted.
    + rewrite inserted_tokens, (made_tokens _ _ _ Hmade). by apply (adm_total r Ha).
    + done.
    + done.
    + apply (adm_timeout r Ha _ Hto).
    + destruct (adm_timeout r Ha _ Hto) as (_ & Hw & _). by apply Hw.
    + by apply deadline_bound.
Qed.

Definition witness_config : DelegationPolicyConfig := mkDelegationPolicyConfig true true true 8 1800 900 1000 600.
Definition witness_cap : ParentCapability :=
  mkParentCapability "realtime" "sess" "run-1" "sess" true None {["read"; "write"]} {["read"; "write"; "web"]} (Some 120%Q).
Definition witness_args : DelegateArgs :=
  mkDelegateArgs "Key" [mkDelegationChildSpec "A" "work" [] ["read"] None (Some 30) 400 None;
                        mkDelegationChildSpec "B" "more work" [] [] None None 500 None]
    "best_effort" "agent" 60 (Some "merge").
Definition witness_env : call_env :=
  mkCallEnv fzero (seconds 1000) (seconds 1001) "d1" (fun n => "m" +:+ pretty n) (fun n => "s" +:+ pretty n) []
    (Some "run-1") (fun s => s) (fun _ => mkEnv 0 [] 0).
Definition witness_budget : BudgetService :=
  mkBudgetService (mkBudgetConfig 900 10 100 None None None None None None) ∅.
Definition witness_registry : ddb := empty_ddb <| agent_runs := Some [AgentRunRow.mk "run-1" "sess" None None] |>.
Definition witness_state : dstate := mkDstate (mkShared witness_registry false) (Some witness_budget) ∅.

Lemma delegate_no_escalation_witness :
  let sha := fun text : string => text in
  match admit_request sha witness_config witness_cap witness_args with
  | Done admitted =>
      match create sha witness_config witness_state witness_env witness_cap witness_args admitted None with
      | (s', Done x) =>
          map described (members (registry (ds_shared s'))) = requested witness_config witness_args
          /\ Forall (granted witness_config witness_cap x) (members (registry (ds_shared s')))
      | _ => False
      end
  | _ => False
  end.
Proof.
  cbn zeta. destruct (admit_request _ witness_config witness_cap witness_args) as [admitted| |] eqn:Ha;
    [|vm_compute in Ha; discriminate..].
  destruct (create _ witness_config witness_state witness_env witness_cap witness_args admitted None)
    as [s' [x|c|err]] eqn:Hc.
  2, 3: vm_compute in Ha; injection Ha as <-; vm_compute in Hc; discriminate.
  pose proof (delegate_no_escalation _ _ _ _ _ _ _ _ _ _ Ha Hc) as H. cbn zeta in H.
  assert (Hn : find_delegation (registry (ds_shared witness_state)) (Delegation.id x) = None) by reflexivity.
  rewrite Hn in H. destruct H as (added & Hm & Hd & Hg & _).
  rewrite Hm. split; [exact Hd|exact Hg].
Defined.

(** * What a failed call leaves behind *)

(** The account of a run, if there is one. *)
Definition account_of (s : dstate) (run : string) : option RunBudgetAccount :=
  b ← ds_budget s; svc_accounts b !! run.

(** Nothing more is reserved or used than before. *)
Definition same_use (a b : RunBudgetAccount) : Prop :=
  acc_pending a = acc_pending b /\ acc_config a = acc_config b
  /\ llm_calls_reserved (acc_state a) = llm_calls_reserved (acc_state b)
  /\ tool_calls_reserved (acc_state a) = tool_calls_reserved (acc_state b)
  /\ token_cost_reserved (acc_state a) = token_cost_reserved (acc_state b)
  /\ (usd_cost_reserved (acc_state a) == usd_cost_reserved (acc_state b))%Q
  /\ sandbox_seconds_reserved (acc_state a) = sandbox_seconds_reserved (acc_state b)
  /\ sandbox_cpu_seconds_reserved (acc_state a) = sandbox_cpu_seconds_reserved (acc_state b)
  /\ sandbox_memory_mb_seconds_reserved (acc_state a) = sandbox_memory_mb_seconds_reserved (acc_state b)
  /\ sandbox_callback_calls_reserved (acc_state a) = sandbox_callback_calls_reserved (acc_state b).

Lemma same_use_refl a : same_use a a.
Proof. by repeat split. Qed.

(** An account that some sequence of calls has led to. *)
Definition used_account (a : RunBudgetAccount) : Prop := exists cfg ops, a = the_account (account_run cfg ops).

Lemma llm_decision cfg s r : rq_kind r = BudgetReserveKind.LLM_CALL ->
  dec_kind (evaluate_reserve cfg s r) = BudgetReserveKind.LLM_CALL.
Proof. unfold evaluate_reserve. intros ->. unfold evaluate_llm_call. by repeat case_match. Qed.

Lemma pending_append id d l :
  (forall p, p ∈ l -> p.1 <> id) ->
  is_Some (pending_get id (l ++ [(id, d)])) /\ pending_del id (l ++ [(id, d)]) = l.
Proof.
  unfold pending_get, pending_del. induction l as [|p l IH]; intros H; cbn.
  - rewrite bool_decide_eq_true_2 by done. by split; [eexists|].
  - assert (p.1 <> id) as Hp by (apply H; by left). rewrite bool_decide_eq_false_2 by done. cbn.
    destruct IH as [IH1 IH2]; [intros q Hq; apply H; by right|]. split; [exact IH1|]. by rewrite IH2.
Qed.

(** Releasing what was just reserved undoes it. *)
Lemma reserve_release a r mono a1 d :
  used_account a -> rq_kind r = BudgetReserveKind.LLM_CALL -> account_reserve a r mono = (a1, d) ->
  if bool_decide (dec_outcome d = PolicyOutcome.ALLOW) then same_use (account_release a1 d) a else same_use a1 a.
Proof.
  intros (cfg & ops & ->) Hk Hr. destruct (account_run_ok cfg ops) as (Hok & _ & _).
  pose proof (use_ok_reserve _ _ _ _ _ Hok Hr) as Hok'.
  apply reserve_cases in Hr as (Hcfg & Hr). cbn zeta in Hr.
  set (a := the_account (account_run cfg ops)) in *.
  pose proof (llm_decision (acc_config a) ((acc_state a) <| elapsed_seconds := clocked a mono |>) r Hk) as Hkind.
  destruct (bool_decide (dec_outcome (evaluate_reserve _ _ _) = _)) eqn:Ho.
  - destruct Hr as (Hd & Hs & Hp & Hn).
    assert (Hdo : dec_outcome d = PolicyOutcome.ALLOW) by (apply bool_decide_eq_true in Ho; by rewrite Hd).
    assert (Hdk : dec_kind d = BudgetReserveKind.LLM_CALL) by (by rewrite Hd).
    rewrite bool_decide_eq_true_2 by done. unfold account_release. rewrite Hp.
    assert (Hfresh : forall p, p ∈ acc_pending a -> p.1 <> dec_id d).
    { pose proof (charged_once _ Hok') as Hnd. unfold pending_ids in Hnd. cbn in Hnd. rewrite Hp, map_app in Hnd.
      apply NoDup_app in Hnd as (Hnd & _ & _). apply NoDup_app in Hnd as (_ & Hnd & _). intros p Hin He.
      apply (Hnd p.1); [by apply (list_elem_of_fmap_2 fst)|]. rewrite He. by left. }
    destruct (pending_append (dec_id d) d (acc_pending a) Hfresh) as [[d' ->] Hdel].
    unfold same_use. cbn. rewrite Hdel, Hs. unfold apply_release, apply_reserve. rewrite Hdk. cbn.
    split_and!; try done; try lia. ring.
  - destruct Hr as (Hd & Hs & Hp & _). rewrite Hd, Ho. unfold same_use. rewrite Hp, Hs, Hcfg. by repeat split.
Qed.

Lemma create_refused d req uuid now err :
  (create_or_reconnect_sync d req uuid now).2 = Raise err -> (create_or_reconnect_sync d req uuid now).1 = d.
Proof. unfold create_or_reconnect_sync. repeat case_match; done. Qed.

Lemma create_fails sha256 config s e cap args admitted reservation s' o :
  create sha256 config s e cap args admitted reservation = (s', o) -> (forall x, o <> Done x) ->
  s' = release_parent_budget s cap reservation.
Proof.
  unfold create. destruct admitted as [[key children] fp]. destruct (create_request _ _ _ _ _ _ _ _) as [req|];
    [|by intros [= <- _]].
  pose proof (create_refused (registry (ds_shared s)) req (ce_uuid e) (ce_created e)) as Href.
  destruct (create_or_reconnect_sync _ _ _ _) as [d [x|err]]; cbn in Href.
  - intros [= <- <-] Ho. by destruct (Ho x).
  - rewrite (Href err eq_refl).
    assert (Hs : s <| ds_shared := (ds_shared s) <| registry := registry (ds_shared s) |> |> = s).
    { by destruct s as [[? ?] ? ?]. }
    rewrite Hs. intros H _. by destruct err; injection H as <- _.
Qed.

Section failures.
Context (sha256 : string -> string) (json_loads : string -> option json).
Context (config : DelegationPolicyConfig) (info_flow : InformationFlowService) (run_config : RunConfig.t).
Context (execute : DelegationMember.t -> option ParentCapability -> option Z -> option string -> Z -> exec_reply).

(** The run's account is as before, or was opened and is as good as new. *)
Definition budget_kept (s s' : dstate) (run : string) : Prop :=
  account_of s' run = account_of s run
  \/ exists b a, ds_budget s = Some b /\ account_of s' run = Some a /\ same_use a (get_or_create_account b run).

Lemma admit_escapes cap args x : admit_request sha256 config cap args = Escaped x -> x = ValueError.
Proof.
  unfold admit_request, check_feature_flags, normalize_key.
  destruct (negb (cfg_enabled config)); [done|]. destruct (_ && _); [done|]. destruct (_ && _); [done|].
  cbn [bind_outcome]. destruct (negb _); [done|]. destruct (negb _); [done|]. cbn [bind_outcome].
  destruct (normalize_children _) as [ch| |] eqn:Hch; cbn [bind_outcome]; [|done|].
  - unfold fingerprint_of, fingerprint_text, normalize_key. destruct (negb _); [done|]. cbn [bind_outcome].
    destruct (normalize_children ch) as [ch'| |] eqn:Hch'; cbn [bind_outcome]; [|done|by apply escapes_nothing in Hch'].
    unfold build_policy_request, join_policy_of, aggregation_of.
    repeat case_match; cbn [bind_outcome]; repeat case_match; congruence.
  - by apply escapes_nothing in Hch.
Qed.

Lemma reserve_parent_kept s cap children mono s1 o :
  (forall a, account_of s (cap_run_id cap) = Some a -> used_account a) ->
  reserve_parent_budget s cap children mono = (s1, o) ->
  ds_shared s1 = ds_shared s
  /\ match o with
     | Done None => s1 = s
     | Done (Some d) =>
         exists b a1, ds_budget s = Some b /\ account_of s1 (cap_run_id cap) = Some a1
           /\ same_use (account_release a1 d) (get_or_create_account b (cap_run_id cap))
     | _ => o = Failed "delegation_budget_exceeded" /\ budget_kept s s1 (cap_run_id cap)
     end.
Proof.
  intros Hused. unfold reserve_parent_budget. destruct (ds_budget s) as [b|] eqn:Hb; [|by intros [= <- <-]].
  destruct (_ <=? 0); [by intros [= <- <-]|]. unfold Budget.reserve.
  destruct (account_reserve _ _ mono) as [a1 d] eqn:Hr. intros [= <- <-]. split; [done|].
  assert (Hu : used_account (get_or_create_account b (cap_run_id cap))).
  { unfold get_or_create_account. destruct (svc_accounts b !! cap_run_id cap) as [a|] eqn:Ha.
    - apply Hused. unfold account_of. by rewrite Hb.
    - by exists (svc_config b), []. }
  eapply reserve_release in Hr as Hs; [|exact Hu|done].
  assert (Hacc : account_of (s <| ds_budget := Some (b <| svc_accounts :=
            <[cap_run_id cap := a1]> (svc_accounts b) |>) |>) (cap_run_id cap) = Some a1).
  { unfold account_of. cbn. apply lookup_insert_eq. }
  destruct (bool_decide (dec_outcome d = PolicyOutcome.ALLOW)).
  - by exists b, a1.
  - split; [done|]. right. by exists b, a1.
Qed.

Lemma release_parent_account s cap d a :
  account_of s (cap_run_id cap) = Some a ->
  account_of (release_parent_budget s cap (Some d)) (cap_run_id cap) = Some (account_release a d)
  /\ ds_shared (release_parent_budget s cap (Some d)) = ds_shared s.
Proof.
  unfold account_of, release_parent_budget. destruct (ds_budget s) as [b|]; [|done]. cbn. intros Ha.
  unfold Budget.release. rewrite Ha. cbn. split; [apply lookup_insert_eq|done].
Qed.

Lemma release_parent_none s cap : release_parent_budget s cap None = s.
Proof. unfold release_parent_budget. by destruct (ds_budget s). Qed.

Lemma run_result_codes s e cap x s' o :
  run_to_result json_loads info_flow run_config execute s e cap x = Some (s', o) ->
  match o with
  | Done rs => exists rs0, get_result_set_sync (registry (ds_shared s')) (Delegation.id x) = Some rs0
                 /\ rs = filter_result_set json_loads info_flow cap rs0
  | Failed c => c ∈ ["deletion_missing"; "delegation_timeout"; "delegation_no_result"]
  | Escaped _ => False
  end.
Proof.
  unfold run_to_result. destruct (drive_to_terminal _ _ _ _ _ _) as [[sh how]|]; [|done]. cbn.
  destruct how; [|intros [= <- <-]; set_solver..]. destruct (get_result_set_sync _ _) as [rs0|] eqn:Hrs;
    intros [= <- <-]; [|set_solver]. by exists rs0.
Qed.

(** C14. A call that fails before its delegation exists leaves nothing behind.  If
    what other coroutines do meanwhile leaves this run's account alone, then after
    a failure with a code of these steps the registry is what the others left, and
    the account holds what it held before: a refused reservation changes nothing but
    the clock, and one made is released.  The failures after that carry their own
    codes; the only exception that escapes is the ValueError of an unknown policy
    name, with nothing changed. *)
Theorem delegate_failure_clean s e cap args s' o :
  (forall s1, account_of (ce_meanwhile e s1) (cap_run_id cap) = account_of s1 (cap_run_id cap)) ->
  (forall a, account_of s (cap_run_id cap) = Some a -> used_account a) ->
  delegate sha256 json_loads config info_flow run_config execute s e cap args = Some (s', o) ->
  match o with
  | Done _ => True
  | Escaped x => x = ValueError /\ s' = s
  | Failed c =>
      c ∈ ["deletion_missing"; "delegation_timeout"; "delegation_no_result"]
      \/ budget_kept s s' (cap_run_id cap)
         /\ (ds_shared s' = ds_shared s
             \/ exists s1, ds_shared s1 = ds_shared s /\ ds_shared s' = ds_shared (ce_meanwhile e s1))
  end.
Proof.
  intros Hmean Hused. unfold delegate. destruct (admit_request _ _ _ _) as [admitted|c|x] eqn:Had.
  - destruct (reserve_parent_budget _ _ _ _) as [s1 r] eqn:Hr.
    apply reserve_parent_kept in Hr as [Hsh Hr]; [|done].
    destruct r as [reservation|c|x]; [|intros [= <- <-]; right; split; [apply Hr|by left]|by destruct Hr].
    destruct (create _ _ _ _ _ _ _ _) as [s2 [x|c|x]] eqn:Hc; [|intros [= <- <-]..].
    + intros H%run_result_codes. destruct o; [done|by left|done].
    + apply create_fails in Hc; [|done]. subst s2. right. destruct reservation as [d|].
      * destruct Hr as (b & a1 & Hb & Ha & Hu). rewrite <- Hmean in Ha.
        destruct (release_parent_account _ _ d _ Ha) as [Hrel Hrsh].
        split; [right; by exists b, (account_release a1 d)|right; by exists s1].
      * subst s1. rewrite release_parent_none. split; [left; apply Hmean|right; by exists s].
    + apply create_fails in Hc as Hs2; [|done]. exfalso. revert Hc. unfold create.
      destruct admitted as [[? ?] ?]. repeat case_match; congruence.
  - intros [= <- <-]. right. split; [by left|by left].
  - intros [= <- <-]. split; [by eapply admit_escapes|done].
Qed.
End failures.

Definition conflict_registry : ddb :=
  (create_or_reconnect_sync witness_registry
     (mkDelegationCreateRequest (build_parent_ref witness_cap) "key" "another" DelegationJoinPolicy.BEST_EFFORT
        DelegationAggregationPolicy.PARENT None 0 [] (mkPolicySnapshotRecord "v" [] [] None "") [] None) "d0" 0).1.

Lemma delegate_failure_clean_witness :
  let s := mkDstate (mkShared conflict_registry false) (Some witness_budget) ∅ in
  let call := delegate (fun text => text) (fun _ => None) witness_config
    (from_settings (mkInformationFlowConfig false true true) "sk-live-42") (RunConfig.mk 4 900)
    (fun _ _ _ _ _ => ExecFailed) s witness_env witness_cap witness_args in
  match call with
  | Some (s', Failed c) => c = "delegation_conflict" /\ budget_kept s s' "run-1"
                           /\ token_cost_reserved <$> (acc_state <$> account_of s' "run-1") = Some 0
  | _ => False
  end.
Proof.
  cbn zeta. set (s := mkDstate _ _ _).
  assert (Hmean : forall s1, account_of (ce_meanwhile witness_env s1) (cap_run_id witness_cap)
            = account_of s1 (cap_run_id witness_cap)) by reflexivity.
  assert (Hused : forall a, account_of s (cap_run_id witness_cap) = Some a -> used_account a) by discriminate.
  pose proof (fun s' o => delegate_failure_clean (fun text => text) (fun _ => None) witness_config
    (from_settings (mkInformationFlowConfig false true true) "sk-live-42") (RunConfig.mk 4 900)
    (fun _ _ _ _ _ => ExecFailed) s witness_env witness_cap witness_args s' o Hmean Hused) as H.
  destruct (delegate _ _ _ _ _ _ s _ _ _) as [[s' o]|] eqn:Hd; [|vm_compute in Hd; discriminate].
  specialize (H s' o eq_refl). vm_compute in Hd. destruct o as [rs|c|x]; [discriminate| |discriminate].
  injection Hd as Hs' Hc. subst c s'. split; [reflexivity|]. destruct H as [H|[H _]].
  - exfalso. revert H. apply (bool_decide_eq_true_1 _). vm_compute. reflexivity.
  - split; [exact H|]. vm_compute. reflexivity.
Defined.

(** * What the parent reads *)

Section results.
Context (sha256 : string -> string) (json_loads : string -> option json).
Context (config : DelegationPolicyConfig) (info_flow : InformationFlowService) (run_config : RunConfig.t).
Context (execute : DelegationMember.t -> option ParentCapability -> option Z -> option string -> Z -> exec_reply).

(** A result as the parent may see it. *)
Definition shown_safely (level : Classification.t) (r : DelegationResult.t) : Prop :=
  (DelegationResult.summary r = "[filtered]" \/ free_of (if_secrets info_flow) (DelegationResult.summary r))
  /\ (level = Classification.SECRET -> DelegationResult.summary r = "[filtered]").

Lemma filter_result_safe level r :
  all_apart (if_secrets info_flow) -> shown_safely level (filter_result json_loads info_flow level r).
Proof.
  intros Ha. unfold filter_result. set (text := redact_json_credential_fields _ _ _).
  set (rel := InformationFlow.release _ _ _ _ _ _). unfold shown_safely. cbn.
  assert (Hsecret : level = Classification.SECRET -> rr_allowed rel = false).
  { intros ->. unfold rel, InformationFlow.release, InformationFlow.evaluate. cbn. done. }
  pose proof (released_free_of info_flow text ReleaseTarget.PARENT level "delegation_result" []) as Hrel.
  fold rel in Hrel. destruct (rr_allowed rel) eqn:Hal.
  - destruct (rr_content rel) as [c|] eqn:Hc.
    + destruct (Hrel c Ha eq_refl) as [_ Hf]. split; [by right|]. by intros ?%Hsecret.
    + exfalso. unfold rel, InformationFlow.release in Hal, Hc. by repeat case_match.
  - split; [by left|done].
Qed.

(** The loop ends as terminal only on a terminal delegation. *)
Lemma drive_terminal n caps envs k s did s' :
  drive_ticks run_config caps execute n envs k s did = Some (s', DriveTerminal) ->
  exists x, get_sync (registry s') did = Some x /\ Delegation.is_terminal x = true.
Proof.
  revert k s. induction n as [|n IH]; intros k s; cbn [drive_ticks]; [done|].
  destruct (get_sync (registry s) did) as [x|] eqn:Hg; [|done].
  destruct (Delegation.is_terminal x) eqn:Ht; [intros [= <-]; by exists x|].
  destruct (tick _ _ _ _ _) as [s1|]; [|done]. cbn. apply IH.
Qed.

(** What [delegate] returns is filtered.  The result set is that of a delegation
    that has ended, with the same statuses in the same order; every summary in it
    either is the placeholder or carries no known secret, whatever a child wrote
    and however its JSON reads; and to a parent classified secret nothing but
    placeholders is returned. *)
Theorem delegate_results_filtered s e cap args s' rs :
  all_apart (if_secrets info_flow) ->
  delegate sha256 json_loads config info_flow run_config execute s e cap args = Some (s', Done rs) ->
  Forall (shown_safely (classification_of cap)) (rs_member_results rs ++ option_list (rs_aggregation_result rs))
  /\ exists x rs0, get_sync (registry (ds_shared s')) (rs_delegation_id rs) = Some x
       /\ Delegation.is_terminal x = true
       /\ get_result_set_sync (registry (ds_shared s')) (rs_delegation_id rs) = Some rs0
       /\ rs_status rs = rs_status rs0
       /\ map DelegationResult.status (rs_member_results rs) = map DelegationResult.status (rs_member_results rs0).
Proof.
  intros Ha. unfold delegate. destruct (admit_request _ _ _ _) as [admitted|c|x]; [|done..].
  destruct (reserve_parent_budget _ _ _ _) as [s1 [reservation|c|x]]; [|done..].
  destruct (create _ _ _ _ _ _ _ _) as [s2 [x|c|x]]; [|done..].
  intros Hr. pose proof (run_result_codes _ _ _ _ _ _ _ _ _ _ Hr) as (rs0 & Hrs0 & ->). split.
  - apply Forall_app. split.
    + apply Forall_forall. intros r (r0 & -> & _)%list_elem_of_fmap. by apply filter_result_safe.
    + cbn. destruct (rs_aggregation_result rs0); cbn; [|constructor]. apply Forall_singleton. by apply filter_result_safe.
  - assert (Hid : rs_delegation_id rs0 = Delegation.id x).
    { unfold get_result_set_sync in Hrs0. destruct (find_delegation _ _); [|done]. destruct (negb _); [done|].
      by injection Hrs0 as <-. }
    cbn. rewrite Hid. unfold run_to_result in Hr.
    destruct (drive_to_terminal _ _ _ _ _ _) as [[sh how]|] eqn:Hdr; [|done]. cbn in Hr.
    destruct how; [|done..]. destruct (get_result_set_sync (registry sh) _) eqn:Hg; [|done]. injection Hr as <- _.
    apply drive_terminal in Hdr as (y & Hy & Ht). exists y, rs0. cbn in Hrs0. split_and!; try done.
    rewrite map_map. by apply map_ext.
Qed.
End results.

Definition leaky_result : DelegationResult.t :=
  DelegationResult.mk DelegationMemberStatus.SUCCEEDED "used sk-live-42" None [] None None [] None "c" None None.
Definition round_schedule : list event :=
  concat (replicate 6 [Run 0 (seconds 1002); Run 1 (seconds 1002); Run 2 (seconds 1002)]).

Lemma delegate_results_filtered_witness :
  let info := from_settings (mkInformationFlowConfig false true true) "sk-live-42" in
  let e := mkCallEnv fzero (seconds 1000) (seconds 1001) "d1" (fun n => "m" +:+ pretty n) (fun n => "s" +:+ pretty n) []
             (Some "run-1") (fun s => s) (fun _ => mkEnv (seconds 1002) round_schedule (seconds 1003)) in
  match delegate (fun text => text) (fun _ => None) witness_config info (RunConfig.mk 4 900)
          (fun _ _ _ _ _ => Replied leaky_result) witness_state e witness_cap witness_args with
  | Some (_, Done rs) =>
      map DelegationResult.summary (rs_member_results rs) = ["used [REDACTED]"; "used [REDACTED]"; "used [REDACTED]"]
      /\ Forall (shown_safely info (classification_of witness_cap)) (rs_member_results rs)
  | _ => False
  end.
Proof.
  cbn zeta. set (info := from_settings _ _).
  assert (Ha : all_apart (if_secrets info)) by apply key_apart.
  destruct (delegate _ _ _ _ _ _ _ _ _ _) as [[s' o]|] eqn:Hd; [|vm_compute in Hd; discriminate].
  destruct o as [rs|c|x]; [|vm_compute in Hd; discriminate..].
  pose proof (delegate_results_filtered _ _ _ _ _ _ _ _ _ _ _ _ Ha Hd) as [H _].
  apply Forall_app in H as [H _]. split; [|exact H].
  vm_compute in Hd. injection Hd as _ <-. reflexivity.
Defined.
