(* ===== verification/AgentRuns.v ===== *)
(** Agent runs: the ledger of executions (app/domain/agent_run.py,
    app/infrastructure/registry/sqlite_agent_run_registry.py), the choice of a
    predecessor (app/application/agent_run_retry_policy.py) and the service of one
    process (app/application/agent_run_service.py).

    The [agent_runs] table is the list of its rows in rowid order; what [register]
    reads of the other tables is an argument.  Clock readings are integers. *)
From S2P Require Import Prelude.
From stdpp Require Import gmap.
Open Scope Z_scope.

(** * The table *)

Module RunStatus.
Inductive t : Type := PENDING | RUNNING | COMPLETED | FAILED | CANCELLED | INTERRUPTED | NOT_STARTED.
#[global] Instance eq_dec : EqDecision t.
Proof. solve_decision. Defined.
End RunStatus.

Module AgentRun.
Record t : Type := mk {
  id : string;
  session_id : string;
  source : string;
  execution_kind : string;
  status : RunStatus.t;
  parent_run_id : option string;
  retry_of_run_id : option string;
  task_run_id : option Z;
  schedule_execution_id : option string;
  delegation_member_id : option string;
  foreground : bool;
  process_id : string;
  owner_token : string;
  created_at : Z;
  started_at : option Z;
  ended_at : option Z;
  heartbeat_at : Z;
  lease_expires_at : Z;
  interrupted_at : option Z;
  end_reason : option string;
  error : option string
}.
#[global] Instance rebuild_t : Rebuild t := fun r =>
  mk (id r) (session_id r) (source r) (execution_kind r) (status r) (parent_run_id r) (retry_of_run_id r)
    (task_run_id r) (schedule_execution_id r) (delegation_member_id r) (foreground r) (process_id r)
    (owner_token r) (created_at r) (started_at r) (ended_at r) (heartbeat_at r) (lease_expires_at r)
    (interrupted_at r) (end_reason r) (error r).
End AgentRun.

(** [RunBinding], its check apart. *)
Record RunBinding := mkRunBinding {
  b_run_id : string;
  b_session_id : string;
  b_owner_token : string;
  b_process_id : string
}.

Notation run_table := (list AgentRun.t).

(** [status IN ('pending','running')] *)
Definition unfinished (r : AgentRun.t) : bool :=
  bool_decide (AgentRun.status r ∈ [RunStatus.PENDING; RunStatus.RUNNING]).

Definition find_run (d : run_table) (run_id : string) : option AgentRun.t :=
  List.find (fun r => bool_decide (AgentRun.id r = run_id)) d.

(** [UPDATE agent_runs SET ... WHERE cond], and whether a row was written. *)
Definition update_runs (cond : AgentRun.t -> bool) (set : AgentRun.t -> AgentRun.t) (d : run_table) : run_table :=
  map (fun r => if cond r then set r else r) d.

(** * The registry *)

(** The other tables of the database, as [register] and [retry_facts] read them: the
    sessions, the attempts of tasks ([task_runs], in the order of their ids) with
    their task, the session of an execution, that of a delegation member. *)
Record Database := mkDatabase {
  has_session : string -> bool;
  task_attempts : list (Z * string);
  execution_session : string -> option string;
  member_session : string -> option (option string)
}.

Record RegisterFacts := mkRegisterFacts {
  f_run_id : string;
  f_session_id : string;
  f_source : string;
  f_execution_kind : string;
  f_process_id : string;
  f_owner_token : string;
  f_parent_run_id : option string;
  f_retry_of_run_id : option string;
  f_task_run_id : option Z;
  f_schedule_execution_id : option string;
  f_delegation_member_id : option string;
  f_foreground : bool
}.

Definition known_run (d : run_table) (o : option string) : bool :=
  match o with Some i => bool_decide (is_Some (find_run d i)) | None => true end.

(** The owners of a run exist and belong to its session. *)
Definition owners_exist (db : Database) (f : RegisterFacts) : bool :=
  match f_task_run_id f with Some i => bool_decide (i ∈ map fst (task_attempts db)) | None => true end
  && match f_schedule_execution_id f with Some i => bool_decide (is_Some (execution_session db i)) | None => true end
  && match f_delegation_member_id f with Some i => bool_decide (is_Some (member_session db i)) | None => true end.
Definition owners_agree (db : Database) (f : RegisterFacts) : bool :=
  match f_schedule_execution_id f with
  | Some i => bool_decide (execution_session db i = Some (f_session_id f)) | None => true end
  && match f_delegation_member_id f with
     | Some i => match member_session db i with
                 | Some s => bool_decide (str_or s ("delegation-" +:+ i) = f_session_id f)
                 | None => false end
     | None => true end.

Definition owner_count (f : RegisterFacts) : nat :=
  (if bool_decide (f_task_run_id f = None) then 0 else 1)
  + (if bool_decide (f_schedule_execution_id f = None) then 0 else 1)
  + (if bool_decide (f_delegation_member_id f = None) then 0 else 1).

Definition foreground_of (session_id : string) (r : AgentRun.t) : bool :=
  bool_decide (AgentRun.session_id r = session_id) && AgentRun.foreground r && unfinished r.

Definition register_run (db : Database) (d : run_table) (f : RegisterFacts) (lease_seconds now : Z)
    : run_table * result unit :=
  if negb (forallb truthy_str [f_run_id f; f_session_id f; f_source f; f_execution_kind f; f_process_id f; f_owner_token f])
  then (d, Raise ValueError)
  else if (1 <? owner_count f)%nat then (d, Raise ValueError)
  else if negb (has_session db (f_session_id f)) then (d, Raise ValueError)
  else if negb (known_run d (f_parent_run_id f) && known_run d (f_retry_of_run_id f)) then (d, Raise ValueError)
  else if negb (owners_exist db f) then (d, Raise ValueError)
  else if negb (owners_agree db f) then (d, Raise ValueError)
  else if f_foreground f && existsb (foreground_of (f_session_id f)) d then (d, Raise RunAdmissionConflict)
  else if bool_decide (is_Some (find_run d (f_run_id f))) then (d, Raise IntegrityError)
  else
    (d ++ [AgentRun.mk (f_run_id f) (f_session_id f) (f_source f) (f_execution_kind f) RunStatus.PENDING
             (f_parent_run_id f) (f_retry_of_run_id f) (f_task_run_id f) (f_schedule_execution_id f)
             (f_delegation_member_id f) (f_foreground f) (f_process_id f) (f_owner_token f) now None None now
             (now + lease_seconds) None None None], Return tt).

(** [WHERE id=? AND owner_token=? AND process_id=? AND lease_expires_at>?] *)
Definition owned (b : RunBinding) (now : Z) (r : AgentRun.t) : bool :=
  bool_decide (AgentRun.id r = b_run_id b) && bool_decide (AgentRun.owner_token r = b_owner_token b)
  && bool_decide (AgentRun.process_id r = b_process_id b) && (now <? AgentRun.lease_expires_at r).

Definition activate_run (d : run_table) (b : RunBinding) (lease_seconds now : Z) : run_table * result unit :=
  let cond r := owned b now r && bool_decide (AgentRun.status r = RunStatus.PENDING) in
  if existsb cond d
  then (update_runs cond (fun r => r <| AgentRun.status := RunStatus.RUNNING |>
          <| AgentRun.started_at := Some now |> <| AgentRun.heartbeat_at := now |>
          <| AgentRun.lease_expires_at := now + lease_seconds |>) d, Return tt)
  else (d, Raise RunOwnershipLost).

Definition check_run (d : run_table) (b : RunBinding) (now : Z) : result unit :=
  if existsb (fun r => owned b now r && unfinished r) d then Return tt else Raise RunOwnershipLost.

Definition heartbeat_run (d : run_table) (b : RunBinding) (lease_seconds now : Z) : run_table * result unit :=
  let cond r := owned b now r && unfinished r in
  if existsb cond d
  then (update_runs cond (fun r => r <| AgentRun.heartbeat_at := now |>
          <| AgentRun.lease_expires_at := now + lease_seconds |>) d, Return tt)
  else (d, Raise RunOwnershipLost).

Definition terminal_status (s : RunStatus.t) : bool :=
  bool_decide (s ∈ [RunStatus.COMPLETED; RunStatus.FAILED; RunStatus.CANCELLED]).

(** Repeating the same terminal write is accepted and changes nothing. *)
Definition finish_run (d : run_table) (b : RunBinding) (status : RunStatus.t) (end_reason : string)
    (error : option string) (now : Z) : run_table * result unit :=
  if negb (terminal_status status) then (d, Raise ValueError)
  else
    let cond r := owned b now r && unfinished r in
    if existsb cond d
    then (update_runs cond (fun r => r <| AgentRun.status := status |> <| AgentRun.end_reason := Some end_reason |>
            <| AgentRun.error := error |> <| AgentRun.ended_at := Some now |>) d, Return tt)
    else match find_run d (b_run_id b) with
         | Some r =>
             if bool_decide (AgentRun.status r = status) && bool_decide (AgentRun.owner_token r = b_owner_token b)
                && bool_decide (AgentRun.process_id r = b_process_id b)
             then (d, Return tt) else (d, Raise RunOwnershipLost)
         | None => (d, Raise RunOwnershipLost)
         end.

Definition expired (now : Z) (r : AgentRun.t) : bool := unfinished r && (AgentRun.lease_expires_at r <=? now).
Definition reconcile_expired (d : run_table) (now : Z) : run_table * nat :=
  (update_runs (expired now) (fun r => r
     <| AgentRun.status := if bool_decide (AgentRun.status r = RunStatus.PENDING) then RunStatus.NOT_STARTED
                           else RunStatus.INTERRUPTED |>
     <| AgentRun.interrupted_at := Some now |> <| AgentRun.end_reason := Some "owner_lost" |>) d,
   length (List.filter (expired now) d)).

Definition abandon_pending (d : run_table) (b : RunBinding) (now : Z) : run_table :=
  update_runs (fun r => bool_decide (AgentRun.id r = b_run_id b) && bool_decide (AgentRun.owner_token r = b_owner_token b)
                        && bool_decide (AgentRun.process_id r = b_process_id b)
                        && bool_decide (AgentRun.status r = RunStatus.PENDING))
    (fun r => r <| AgentRun.status := RunStatus.NOT_STARTED |> <| AgentRun.interrupted_at := Some now |>
                <| AgentRun.end_reason := Some "shutdown_before_start" |>) d.

(** [validate_run_session], inside a write of another table: [None] when the write may
    go on; [current] is the run the coroutine is bound to. *)
Definition validate_run_session (d : run_table) (current : option RunBinding) (run_id : option string)
    (session_id : string) (now : Z) : option py_exc :=
  match run_id with
  | None => None
  | Some i =>
      match find_run d i with
      | None => Some ValueError
      | Some r =>
          if negb (bool_decide (AgentRun.session_id r = session_id)) then Some ValueError
          else match current with
               | Some b =>
                   if bool_decide (b_run_id b = i)
                      && (negb (bool_decide (AgentRun.owner_token r = b_owner_token b)) || negb (unfinished r)
                          || (AgentRun.lease_expires_at r <=? now))
                   then Some RunOwnershipLost else None
               | None => None
               end
      end
  end.

(** ** Predecessors *)

Record RunPredecessor := mkRunPredecessor {
  p_run_id : string; p_execution_kind : string; p_task_run_id : option Z }.
Record RunRetryFacts := mkRunRetryFacts {
  current_attempt_runs : list RunPredecessor;
  earlier_attempt_runs : list RunPredecessor;
  member_runs : list RunPredecessor
}.
Definition predecessor (r : AgentRun.t) : RunPredecessor :=
  mkRunPredecessor (AgentRun.id r) (AgentRun.execution_kind r) (AgentRun.task_run_id r).

(** [ORDER BY created_at DESC, rowid DESC]: the sort is stable. *)
Definition newest_runs (d : run_table) : run_table :=
  order_by (fun a b => AgentRun.created_at b <=? AgentRun.created_at a) (rev d).

Definition task_of_attempt (db : Database) (attempt : Z) : option string :=
  snd <$> List.find (fun p => p.1 =? attempt) (task_attempts db).
(** The attempts of the same task before this one, the latest first. *)
Definition earlier_attempts (db : Database) (attempt : Z) : list Z :=
  match task_of_attempt db attempt with
  | None => []
  | Some task => order_by (fun a b => b <=? a)
      (map fst (List.filter (fun p => bool_decide (p.2 = task) && (p.1 <? attempt)) (task_attempts db)))
  end.
Definition runs_of_attempt (d : run_table) (attempt : Z) : run_table :=
  List.filter (fun r => bool_decide (AgentRun.task_run_id r = Some attempt)) (newest_runs d).

Definition retry_facts (db : Database) (d : run_table) (task_run_id : option Z) (delegation_member_id : option string)
    : RunRetryFacts :=
  mkRunRetryFacts
    (match task_run_id with Some i => map predecessor (runs_of_attempt d i) | None => [] end)
    (match task_run_id with
     | Some i => map predecessor (flat_map (runs_of_attempt d) (earlier_attempts db i)) | None => [] end)
    (match delegation_member_id with
     | Some m => map predecessor
         (List.filter (fun r => bool_decide (AgentRun.delegation_member_id r = Some m)) (newest_runs d))
     | None => [] end).

(** [AgentRunRetryPolicy.resolve] *)
Definition resolve_retry (execution_kind : string) (facts : RunRetryFacts) : option string :=
  let worker r := bool_decide (p_execution_kind r = "task_worker") in
  match member_runs facts with
  | r :: _ => Some (p_run_id r)
  | [] =>
      if negb (bool_decide (execution_kind = "task_worker")) then None
      else if existsb worker (current_attempt_runs facts) then None
      else p_run_id <$> List.find worker (earlier_attempt_runs facts)
  end.

(** * The service of a process *)

(** An asyncio task, as [done], [cancelled] and [cancelling] show it. *)
Inductive task_state : Type := TaskRunning | TaskCancelling | TaskDone | TaskCancelled.
#[global] Instance task_state_eq_dec : EqDecision task_state.
Proof. solve_decision. Defined.
Definition task_done (t : task_state) : bool := bool_decide (t ∈ [TaskDone; TaskCancelled]).

Record AgentRunService := mkAgentRunService {
  process : string;
  lease_seconds : Z;
  bindings : gmap string RunBinding;
  tasks : gmap string task_state;
  foreground_runs : gmap string string;
  fenced : gset string;
  cancel_requested : gset string;
  closed : bool
}.
#[export] Instance rebuild_service : Rebuild AgentRunService := fun s =>
  mkAgentRunService (process s) (lease_seconds s) (bindings s) (tasks s) (foreground_runs s) (fenced s)
    (cancel_requested s) (closed s).
Definition new_service (process_id : string) (lease : Z) : AgentRunService :=
  mkAgentRunService process_id lease ∅ ∅ ∅ ∅ ∅ false.

(** The service and the table it shares with other processes. *)
Definition svc : Type := AgentRunService * run_table.

Definition forget (b : RunBinding) (s : AgentRunService) : AgentRunService :=
  s <| bindings := delete (b_run_id b) (bindings s) |>
    <| tasks := delete (b_run_id b) (tasks s) |>
    <| cancel_requested := cancel_requested s ∖ {[b_run_id b]} |>
    <| foreground_runs := if bool_decide (foreground_runs s !! b_session_id b = Some (b_run_id b))
                          then delete (b_session_id b) (foreground_runs s) else foreground_runs s |>.

(** [register], the monitor that [start] may create apart; [token] is the owner token
    it draws. *)
Definition register (db : Database) (st : svc) (f : RegisterFacts) (token : string) (now : Z)
    : svc * result RunBinding :=
  let '(s, d) := st in
  if closed s then (st, Raise RuntimeError)
  else
    let d := (reconcile_expired d now).1 in
    let b := mkRunBinding (f_run_id f) (f_session_id f) token (process s) in
    let retry :=
      match f_retry_of_run_id f with
      | Some r => Some r
      | None => if bool_decide (f_execution_kind f = "task_worker") || negb (bool_decide (f_delegation_member_id f = None))
                then resolve_retry (f_execution_kind f) (retry_facts db d (f_task_run_id f) (f_delegation_member_id f))
                else None
      end in
    let facts := mkRegisterFacts (f_run_id f) (f_session_id f) (f_source f) (f_execution_kind f) (process s) token
                   (f_parent_run_id f) retry (f_task_run_id f) (f_schedule_execution_id f)
                   (f_delegation_member_id f) (f_foreground f) in
    match register_run db d facts (lease_seconds s) now with
    | (d, Raise e) => ((s, d), Raise e)
    | (d, Return _) =>
        let s := s <| bindings := <[f_run_id f := b]> (bindings s) |> in
        let s := if f_foreground f
                 then s <| foreground_runs := <[f_session_id f := f_run_id f]> (foreground_runs s) |> else s in
        ((s, (reconcile_expired d now).1), Return b)
    end.

Definition check (st : svc) (b : RunBinding) (now : Z) : result unit :=
  let '(s, d) := st in
  if closed s then Raise RuntimeError
  else if bool_decide (b_run_id b ∈ fenced s) then Raise RunOwnershipLost
  else check_run d b now.

Definition cancelled_before_start (b : RunBinding) (r : AgentRun.t) : bool :=
  bool_decide (AgentRun.status r = RunStatus.CANCELLED)
  && bool_decide (AgentRun.end_reason r = Some "cancelled_before_start")
  && bool_decide (AgentRun.owner_token r = b_owner_token b) && bool_decide (AgentRun.process_id r = b_process_id b).

(** [activate]; [with_task] says whether a task is handed over. *)
Definition activate (st : svc) (b : RunBinding) (with_task : bool) (now : Z) : svc * result unit :=
  let '(s, d) := st in
  if closed s then (st, Raise RuntimeError)
  else if match find_run d (b_run_id b) with Some r => cancelled_before_start b r | None => false end
  then (st, Raise RunCancelledError)
  else match check st b now with
       | Raise e => (st, Raise e)
       | Return _ =>
           match activate_run d b (lease_seconds s) now with
           | (d, Raise e) => ((s, d), Raise e)
           | (d, Return _) =>
               ((if with_task then s <| tasks := <[b_run_id b := TaskRunning]> (tasks s) |> else s, d), Return tt)
           end
       end.

Definition finish (st : svc) (b : RunBinding) (status : RunStatus.t) (end_reason : string) (error : option string)
    (now : Z) : svc * result unit :=
  let '(s, d) := st in
  if bool_decide (b_run_id b ∈ fenced s) then ((forget b s, d), Raise RunOwnershipLost)
  else match finish_run d b status end_reason error now with
       | (d, Return _) => ((forget b s, d), Return tt)
       | (d, Raise e) => ((forget b (s <| fenced := {[b_run_id b]} ∪ fenced s |>), d), Raise e)
       end.

Definition cancel (st : svc) (run_id : string) (now : Z) : svc * bool :=
  let '(s, d) := st in
  match tasks s !! run_id with
  | None =>
      match bindings s !! run_id with
      | None => (st, false)
      | Some b =>
          match find_run d run_id with
          | Some r =>
              if negb (bool_decide (AgentRun.status r = RunStatus.PENDING)) then (st, false)
              else match finish_run d b RunStatus.CANCELLED "cancelled_before_start" None now with
                   | (d, Return _) => ((forget b s, d), true)
                   | (d, Raise _) => ((forget b s, d), false)
                   end
          | None => (st, false)
          end
      end
  | Some t =>
      if task_done t then (st, false)
      else ((s <| cancel_requested := {[run_id]} ∪ cancel_requested s |>
               <| tasks := <[run_id := TaskCancelling]> (tasks s) |>, d), true)
  end.

Definition was_cancel_requested (s : AgentRunService) (run_id : string) : bool :=
  bool_decide (run_id ∈ cancel_requested s).
Definition cancel_session (st : svc) (session_id : string) (now : Z) : svc * bool :=
  match foreground_runs st.1 !! session_id with Some i => cancel st i now | None => (st, false) end.
Definition is_cancelled (s : AgentRunService) (run_id : string) : bool :=
  bool_decide (run_id ∈ fenced s)
  || match tasks s !! run_id with Some t => bool_decide (t ∈ [TaskCancelled; TaskCancelling]) | None => false end.

(** ** One turn of the lease monitor *)

Definition renew (st : svc) (run_id : string) (now : Z) : svc :=
  let '(s, d) := st in
  match bindings s !! run_id, tasks s !! run_id with
  | Some b, Some t =>
      if task_done t then st
      else match heartbeat_run d b (lease_seconds s) now with
           | (d, Return _) => (s, d)
           | (d, Raise _) => (s <| fenced := {[run_id]} ∪ fenced s |> <| tasks := <[run_id := TaskCancelling]> (tasks s) |>, d)
           end
  | _, _ => st
  end.

Definition drop_lost (st : svc) (b : RunBinding) (now : Z) : svc :=
  let '(s, d) := st in
  match tasks s !! b_run_id b with
  | Some _ => st
  | None => match check_run d b now with Return _ => st | Raise _ => (forget b s, d) end
  end.

Definition heartbeat_pass (st : svc) (now : Z) : svc :=
  let st := fold_left (fun st i => renew st i now) (map fst (map_to_list (tasks st.1))) st in
  let st := (st.1, (reconcile_expired st.2 now).1) in
  fold_left (fun st b => drop_lost st b now) (map snd (map_to_list (bindings st.1))) st.

(** [close]: the tasks it cancels may end meanwhile; pending runs are given up. *)
Definition close (st : svc) (ended : gmap string task_state -> gmap string task_state) (now : Z) : svc :=
  let '(s, d) := st in
  let cancelled := (fun t => if task_done t then t else TaskCancelling) <$> tasks s in
  let s := s <| closed := true |> <| tasks := ended cancelled |> in
  (s, fold_left (fun d b => abandon_pending d b now) (map snd (map_to_list (bindings s))) d).
