(* ===== verification/AgentRunProps.v ===== *)
(** What the ledger of agent runs guarantees to all processes that share it: statuses
    follow the life cycle of a run, a finished row never changes, a session has one
    unfinished foreground run at most, and who lost a lease writes nothing more. *)
From stdpp Require Import gmap.
From S2P Require Import Prelude AgentRuns.
Open Scope Z_scope.

(** * Histories of the table *)

Inductive rop : Type :=
  | RRegister (db : Database) (f : RegisterFacts) (lease now : Z)
  | RActivate (b : RunBinding) (lease now : Z)
  | RHeartbeat (b : RunBinding) (lease now : Z)
  | RFinish (b : RunBinding) (status : RunStatus.t) (reason : string) (error : option string) (now : Z)
  | RReconcile (now : Z)
  | RAbandon (b : RunBinding) (now : Z).

Definition exec_rop (d : run_table) (o : rop) : run_table :=
  match o with
  | RRegister db f lease now => (register_run db d f lease now).1
  | RActivate b lease now => (activate_run d b lease now).1
  | RHeartbeat b lease now => (heartbeat_run d b lease now).1
  | RFinish b s r e now => (finish_run d b s r e now).1
  | RReconcile now => (reconcile_expired d now).1
  | RAbandon b now => abandon_pending d b now
  end.
Definition exec_rops (d : run_table) (ops : list rop) : run_table := fold_left exec_rop ops d.

(** The life cycle: a pending run starts, ends or is given up; a running one ends or is
    interrupted; nothing follows. *)
Definition run_moves (a b : RunStatus.t) : bool :=
  match a, b with
  | RunStatus.PENDING, (RunStatus.RUNNING | RunStatus.COMPLETED | RunStatus.FAILED | RunStatus.CANCELLED | RunStatus.NOT_STARTED)
  | RunStatus.RUNNING, (RunStatus.COMPLETED | RunStatus.FAILED | RunStatus.CANCELLED | RunStatus.INTERRUPTED) => true
  | _, _ => false
  end.

(** Who a run is and whose. *)
Definition identity (r : AgentRun.t) :=
  (AgentRun.id r, AgentRun.session_id r, AgentRun.owner_token r, AgentRun.process_id r, AgentRun.foreground r,
   AgentRun.created_at r, (AgentRun.parent_run_id r, AgentRun.retry_of_run_id r)).

(** What an operation may make of a row. *)
Definition row_step (r r' : AgentRun.t) : Prop :=
  identity r' = identity r
  /\ (AgentRun.status r' = AgentRun.status r \/ run_moves (AgentRun.status r) (AgentRun.status r') = true)
  /\ (unfinished r = false -> r' = r).

Lemma row_step_refl r : row_step r r.
Proof. split; [done|]. split; [by left|done]. Qed.

Lemma row_step_trans a b c : row_step a b -> row_step b c ->
  identity c = identity a /\ (unfinished a = false -> c = a).
Proof. intros (H1 & _ & H2) (H3 & _ & H4). split; [congruence|]. intros Ha. rewrite (H2 Ha) in H4. auto. Qed.

(** An update of unfinished rows. *)
Lemma update_runs_step cond set d :
  (forall r, cond r = true -> unfinished r = true /\ row_step r (set r)) ->
  Forall2 row_step d (update_runs cond set d).
Proof.
  intros H. unfold update_runs. induction d as [|r d IH]; cbn; constructor; [|done].
  case_match eqn:Hc; [by apply H|apply row_step_refl].
Qed.

Lemma Forall2_refl_step d : Forall2 row_step d d.
Proof. induction d; constructor; [apply row_step_refl|done]. Qed.

Lemma unfinished_cases r : unfinished r = true -> AgentRun.status r = RunStatus.PENDING \/ AgentRun.status r = RunStatus.RUNNING.
Proof. intros H%bool_decide_eq_true. set_solver. Qed.

(** Every operation steps the rows there are, in place, and may add one new pending
    row at the end. *)
Lemma exec_rop_rows d o :
  Forall2 row_step d (exec_rop d o)
  \/ exists r, exec_rop d o = d ++ [r] /\ AgentRun.status r = RunStatus.PENDING /\ find_run d (AgentRun.id r) = None
       /\ (AgentRun.foreground r = true -> existsb (foreground_of (AgentRun.session_id r)) d = false).
Proof.
  destruct o; cbn [exec_rop].
  - unfold register_run. repeat (case_match; [left; apply Forall2_refl_step|]). right. eexists. split; [reflexivity|].
    split; [done|]. cbn. split.
    + apply bool_decide_eq_false in H6. by apply eq_None_not_Some.
    + intros Hf. rewrite Hf in H5. done.
  - left. unfold activate_run. case_match; [|apply Forall2_refl_step]. apply update_runs_step.
    intros r [_ Hs%bool_decide_eq_true]%andb_true_iff. unfold row_step, unfinished. rewrite Hs.
    split; [done|]. split; [done|]. split; [by right|done].
  - left. unfold heartbeat_run. case_match; [|apply Forall2_refl_step]. apply update_runs_step.
    intros r [_ Hu]%andb_true_iff. split; [done|]. split; [done|]. split; [by left|]. congruence.
  - left. unfold finish_run. case_match; [apply Forall2_refl_step|]. case_match.
    + apply update_runs_step. intros r [_ Hu]%andb_true_iff. split; [done|]. split; [done|]. split; [|congruence].
      right. cbn. apply negb_false_iff, bool_decide_eq_true in H.
      apply unfinished_cases in Hu as [-> | ->]; destruct status; try done; set_solver.
    + repeat case_match; apply Forall2_refl_step.
  - left. apply update_runs_step. intros r [Hu _]%andb_true_iff. split; [done|]. split; [done|]. split; [|congruence].
    right. cbn. apply unfinished_cases in Hu as [Hs | Hs]; rewrite Hs; done.
  - left. apply update_runs_step. intros r [_ Hs%bool_decide_eq_true]%andb_true_iff. unfold row_step, unfinished. rewrite Hs.
    split; [done|]. split; [done|]. split; [by right|done].
Qed.

(** * Uniqueness *)

Record runs_ok (d : run_table) : Prop := {
  ok_run_ids : NoDup (map AgentRun.id d);
  ok_foreground : forall i j r r', d !! i = Some r -> d !! j = Some r' ->
    foreground_of (AgentRun.session_id r) r = true -> foreground_of (AgentRun.session_id r) r' = true -> i = j
}.

Lemma row_step_foreground s r r' : row_step r r' -> foreground_of s r' = true -> foreground_of s r = true.
Proof.
  intros (Hid & _ & Hfix). unfold foreground_of. rewrite !andb_true_iff. injection Hid as _ -> _ _ -> _ _ _.
  intros [[? ?] Hu]. split; [done|]. destruct (unfinished r) eqn:E; [done|]. rewrite (Hfix eq_refl) in Hu. congruence.
Qed.

Lemma step_ids d d' : Forall2 row_step d d' -> map AgentRun.id d' = map AgentRun.id d.
Proof. induction 1 as [|r r' d d' (Hid & _) _ IH]; cbn; [done|]. injection Hid as ->. by rewrite IH. Qed.

Lemma find_run_none d i : find_run d i = None -> i ∉ map AgentRun.id d.
Proof.
  intros H (r & -> & Hr)%list_elem_of_fmap. eapply find_none in H; [|apply list_elem_of_In; exact Hr].
  by rewrite bool_decide_eq_true_2 in H.
Qed.

Lemma find_run_in d i r : find_run d i = Some r -> r ∈ d /\ AgentRun.id r = i.
Proof. intros [H1 H2%bool_decide_eq_true]%find_some. by apply list_elem_of_In in H1. Qed.

Lemma runs_ok_step d d' : Forall2 row_step d d' -> runs_ok d -> runs_ok d'.
Proof.
  intros Hs [H1 H2]. split; [by rewrite (step_ids _ _ Hs)|].
  intros i j r r' Hi Hj Hf Hf'. eapply Forall2_lookup_r in Hi as (r0 & Hi0 & Hr0); [|exact Hs].
  eapply Forall2_lookup_r in Hj as (r1 & Hj1 & Hr1); [|exact Hs].
  assert (Hse : AgentRun.session_id r = AgentRun.session_id r0) by (destruct Hr0 as (Hid & _); by injection Hid).
  rewrite Hse in Hf, Hf'. apply (row_step_foreground _ _ _ Hr0) in Hf. apply (row_step_foreground _ _ _ Hr1) in Hf'.
  by apply (H2 i j r0 r1).
Qed.

Lemma exec_rop_ok d o : runs_ok d -> runs_ok (exec_rop d o).
Proof.
  intros Hd. destruct (exec_rop_rows d o) as [Hs|(r & -> & _ & Hn & Hf)]; [by apply runs_ok_step with d|].
  destruct Hd as [H1 H2]. split.
  - rewrite map_app. apply NoDup_app. split; [done|]. split; [|apply NoDup_singleton].
    intros x Hx ->%list_elem_of_singleton. by apply find_run_none in Hn.
  - assert (Hnew : forall k x s, d !! k = Some x -> foreground_of s r = true -> foreground_of s x = true -> False).
    { intros k x s Hk Hr Hx. unfold foreground_of in Hr. rewrite !andb_true_iff in Hr.
      destruct Hr as [[Hs%bool_decide_eq_true Hfr] _]. specialize (Hf Hfr). rewrite existsb_false in Hf.
      rewrite Hs in Hf. rewrite (Hf x) in Hx; [done|]. by apply list_elem_of_lookup_2 with k. }
    intros i j x y Hi Hj Hx Hy.
    apply lookup_app_Some in Hi as [Hi|[Hli Hi]]; apply lookup_app_Some in Hj as [Hj|[Hlj Hj]].
    + by apply (H2 i j x y).
    + apply list_lookup_singleton_Some in Hj as [_ ->]. by destruct (Hnew i x (AgentRun.session_id x)).
    + apply list_lookup_singleton_Some in Hi as [_ ->]. by destruct (Hnew j y (AgentRun.session_id x)).
    + apply list_lookup_singleton_Some in Hi as [? _]. apply list_lookup_singleton_Some in Hj as [? _]. lia.
Qed.

Lemma exec_rops_ok d ops : runs_ok d -> runs_ok (exec_rops d ops).
Proof. revert d. induction ops as [|o ops IH]; intros d Hd; cbn; [done|]. apply IH. by apply exec_rop_ok. Qed.

Lemma empty_runs_ok : runs_ok [].
Proof. split; [constructor|]. by intros i j r r' Hi. Qed.

(** * A row over time *)

(** A row is where it was, the same run, and if it was finished it is as it was. *)
Lemma exec_rops_row d ops k r :
  d !! k = Some r -> exists r', exec_rops d ops !! k = Some r' /\ identity r' = identity r
    /\ (unfinished r = false -> r' = r).
Proof.
  revert d r. induction ops as [|o ops IH]; intros d r Hk; cbn; [by exists r|].
  assert (exists r1, exec_rop d o !! k = Some r1 /\ row_step r r1) as (r1 & Hk1 & Hr1).
  { destruct (exec_rop_rows d o) as [Hs|(x & -> & _)].
    - eapply Forall2_lookup_l in Hs as (r1 & ? & ?); [|exact Hk]. by exists r1.
    - exists r. split; [by apply lookup_app_l_Some|apply row_step_refl]. }
  destruct (IH (exec_rop d o) r1 Hk1) as (r2 & Hk2 & Hid & Hfix). exists r2. split; [done|].
  destruct Hr1 as (Hid1 & _ & Hfix1). split; [congruence|]. intros Hu. rewrite (Hfix1 Hu) in Hfix. auto.
Qed.

Lemma unique_run d k r : runs_ok d -> d !! k = Some r -> find_run d (AgentRun.id r) = Some r.
Proof.
  intros [Hnd _] Hk. destruct (find_run d (AgentRun.id r)) as [r'|] eqn:Hf.
  - apply find_run_in in Hf as [(j & Hj)%list_elem_of_lookup_1 Hid]. f_equal.
    assert (j = k) as ->; [|congruence]. apply (NoDup_lookup (map AgentRun.id d) j k (AgentRun.id r) Hnd); rewrite list_lookup_fmap.
    + by rewrite Hj; cbn; rewrite Hid.
    + by rewrite Hk.
  - apply find_run_none in Hf. destruct Hf. apply list_elem_of_fmap_2. by apply list_elem_of_lookup_2 with k.
Qed.

(** * Ownership *)

(** What a process may still do with a run it has bound. *)
Definition may_write (d : run_table) (b : RunBinding) (now : Z) : Prop :=
  exists r, find_run d (b_run_id b) = Some r /\ AgentRun.owner_token r = b_owner_token b
    /\ AgentRun.process_id r = b_process_id b /\ now < AgentRun.lease_expires_at r /\ unfinished r = true.

Lemma owned_unfinished d b now :
  runs_ok d -> existsb (fun r => owned b now r && unfinished r) d = true <-> may_write d b now.
Proof.
  intros Hd. rewrite existsb_exists. unfold owned. split.
  - intros (r & Hin%list_elem_of_In & H). rewrite !andb_true_iff, !bool_decide_eq_true, Z.ltb_lt in H.
    destruct H as [[[[Hi Ho] Hp] Hl] Hu]. exists r. apply list_elem_of_lookup_1 in Hin as (k & Hk).
    by rewrite <- Hi, (unique_run d k r Hd Hk).
  - intros (r & Hf & Ho & Hp & Hl & Hu). apply find_run_in in Hf as [Hin Hi]. exists r. split; [by apply list_elem_of_In|].
    rewrite !andb_true_iff, !bool_decide_eq_true, Z.ltb_lt. done.
Qed.

Lemma rejected d b now : runs_ok d -> ~ may_write d b now -> existsb (fun r => owned b now r && unfinished r) d = false.
Proof.
  intros Hd Hn. destruct (existsb _ d) eqn:E; [|done]. by apply (owned_unfinished _ _ _ Hd) in E.
Qed.

(** The run of [b] is not its any more: finished, taken over, expired or gone. *)
Definition fenced_off (d : run_table) (b : RunBinding) (now : Z) : Prop :=
  forall r, find_run d (b_run_id b) = Some r ->
    unfinished r = false \/ AgentRun.owner_token r <> b_owner_token b \/ AgentRun.process_id r <> b_process_id b
    \/ AgentRun.lease_expires_at r <= now.

Lemma fenced_may_not d b now : fenced_off d b now -> ~ may_write d b now.
Proof.
  intros H (r & Hf & Ho & Hp & Hl & Hu). destruct (H r Hf) as [Hx|[Hx|[Hx|Hx]]]; try congruence. lia.
Qed.

(** The rows found under an identifier, over time. *)
Lemma find_run_later d ops i r :
  runs_ok d -> find_run d i = Some r -> exists r', find_run (exec_rops d ops) i = Some r' /\ identity r' = identity r
    /\ (unfinished r = false -> r' = r).
Proof.
  intros Hd Hf. apply find_run_in in Hf as [(k & Hk)%list_elem_of_lookup_1 Hi].
  destruct (exec_rops_row d ops k r Hk) as (r' & Hk' & Hid & Hfix). exists r'. split; [|done].
  assert (AgentRun.id r' = i) as <- by (injection Hid; congruence).
  apply unique_run with k; [by apply exec_rops_ok|done].
Qed.

(** Who lost a run writes nothing more.  Once the lease of a run is over and the
    ledger has been reconciled, no call of its former owner ever succeeds again,
    whatever happens in between: its check, its heartbeat and its start are refused,
    and a terminal write changes nothing and is refused unless it repeats the one made
    in time.  Before that its check succeeds exactly while the unfinished run is its
    and the lease lasts. *)
Theorem lost_owner_fenced d b r now ops later :
  runs_ok d -> find_run d (b_run_id b) = Some r -> AgentRun.lease_expires_at r <= now ->
  let d' := exec_rops (reconcile_expired d now).1 ops in
  (forall t, check_run d b t = Return tt <-> may_write d b t)
  /\ check_run d' b later = Raise RunOwnershipLost
  /\ (forall lease, heartbeat_run d' b lease later = (d', Raise RunOwnershipLost)
                    /\ activate_run d' b lease later = (d', Raise RunOwnershipLost))
  /\ (forall status reason error, (finish_run d' b status reason error later).1 = d')
  /\ (unfinished r = true -> forall status reason error,
        exists e, finish_run d' b status reason error later = (d', Raise e)).
Proof.
  intros Hd Hf Hexp d'. set (d0 := (reconcile_expired d now).1) in *.
  assert (Hd0 : runs_ok d0) by exact (exec_rop_ok d (RReconcile now) Hd).
  assert (Hd' : runs_ok d') by by apply exec_rops_ok.
  assert (exists r0, find_run d0 (b_run_id b) = Some r0 /\ unfinished r0 = false
    /\ (unfinished r = true -> AgentRun.status r0 ∈ [RunStatus.INTERRUPTED; RunStatus.NOT_STARTED])) as (r0 & Hf0 & Hu0 & Hi0).
  { pose proof Hf as [(k & Hk)%list_elem_of_lookup_1 Hi]%find_run_in.
    set (set r := r <| AgentRun.status := if bool_decide (AgentRun.status r = RunStatus.PENDING) then RunStatus.NOT_STARTED
                           else RunStatus.INTERRUPTED |>
     <| AgentRun.interrupted_at := Some now |> <| AgentRun.end_reason := Some "owner_lost" |>).
    assert (Hk0 : d0 !! k = Some (if expired now r then set r else r)).
    { unfold d0, reconcile_expired, update_runs. cbn. by rewrite list_lookup_fmap, Hk. }
    exists (if expired now r then set r else r). split; [|split].
    - rewrite <- Hi. replace (AgentRun.id r) with (AgentRun.id (if expired now r then set r else r)) by by case_match.
      by apply unique_run with k.
    - unfold expired. destruct (unfinished r) eqn:Hu; cbn; [|done]. rewrite (proj2 (Z.leb_le _ _) Hexp).
      unfold set, unfinished. cbn. by destruct (bool_decide (AgentRun.status r = RunStatus.PENDING)).
    - intros Hu. unfold expired. rewrite Hu, (proj2 (Z.leb_le _ _) Hexp). unfold set. cbn. case_bool_decide; set_solver. }
  destruct (find_run_later d0 ops _ _ Hd0 Hf0) as (r' & Hf' & _ & Hfix). rewrite (Hfix Hu0) in Hf'. clear Hfix r'.
  assert (Hoff : fenced_off d' b later).
  { intros x Hx. fold d' in Hf'. rewrite Hf' in Hx. injection Hx as <-. by left. }
  pose proof (rejected d' b later Hd' (fenced_may_not _ _ _ Hoff)) as Hrej.
  assert (Hrej' : existsb (fun x => owned b later x && bool_decide (AgentRun.status x = RunStatus.PENDING)) d' = false).
  { apply existsb_false. intros x Hx. rewrite existsb_false in Hrej. specialize (Hrej x Hx). apply andb_false_iff in Hrej as [->|Hrej]; [done|].
    rewrite bool_decide_eq_false_2; [by rewrite andb_false_r|]. intros E. unfold unfinished in Hrej. by rewrite E in Hrej. }
  split; [|split; [unfold check_run; by rewrite Hrej|split; [|split]]].
  - intros t. rewrite <- owned_unfinished by done. unfold check_run. by case_match.
  - intros lease. unfold heartbeat_run, activate_run. by rewrite Hrej, Hrej'.
  - intros status reason error. unfold finish_run. case_match; [done|]. rewrite Hrej. by repeat case_match.
  - intros Hrun status reason error. unfold finish_run. destruct (negb _) eqn:Ht; [by eexists|]. rewrite Hrej.
    fold d' in Hf'. rewrite Hf'. rewrite bool_decide_eq_false_2; [by eexists|].
    apply negb_false_iff, bool_decide_eq_true in Ht. intros <-. specialize (Hi0 Hrun). apply (bool_decide_eq_true_2 _) in Ht, Hi0. by destruct (AgentRun.status r0).
Qed.

(** * The service *)

Inductive svc_call : Type :=
  | CRegister (db : Database) (f : RegisterFacts) (token : string)
  | CActivate (b : RunBinding) (with_task : bool)
  | CFinish (b : RunBinding) (status : RunStatus.t) (reason : string) (error : option string)
  | CCancel (run_id : string)
  | CCancelSession (session_id : string)
  | CHeartbeat
  | CClose (ended : gmap string task_state -> gmap string task_state).

Definition exec_call (st : svc) (c : svc_call) (now : Z) : svc :=
  match c with
  | CRegister db f token => (register db st f token now).1
  | CActivate b w => (activate st b w now).1
  | CFinish b status reason error => (finish st b status reason error now).1
  | CCancel i => (cancel st i now).1
  | CCancelSession i => (cancel_session st i now).1
  | CHeartbeat => heartbeat_pass st now
  | CClose ended => close st ended now
  end.

Definition writes (d d' : run_table) : Prop := exists ops, d' = exec_rops d ops.

Lemma writes_refl d : writes d d.
Proof. by exists []. Qed.
Lemma writes_op d o : writes d (exec_rop d o).
Proof. by exists [o]. Qed.
Lemma writes_trans d d' d'' : writes d d' -> writes d' d'' -> writes d d''.
Proof. intros [a ->] [b ->]. exists (a ++ b). unfold exec_rops. by rewrite fold_left_app. Qed.

Lemma writes_fold {A} (f : svc -> A -> svc) l st :
  (forall st x, writes st.2 (f st x).2) -> writes st.2 (fold_left f l st).2.
Proof.
  intros H. revert st. induction l as [|x l IH]; intros st; cbn; [apply writes_refl|].
  eapply writes_trans; [apply H|apply IH].
Qed.

Lemma finish_run_op d b status reason error now :
  writes d (finish_run d b status reason error now).1.
Proof. exact (writes_op d (RFinish b status reason error now)). Qed.

Lemma cancel_writes st i now : writes st.2 (cancel st i now).1.2.
Proof.
  destruct st as [s d]. unfold cancel. destruct (tasks s !! i) as [t|]; [case_match; apply writes_refl|].
  destruct (bindings s !! i) as [b|]; [|apply writes_refl]. destruct (find_run d i) as [r|]; [|apply writes_refl].
  case_match; [apply writes_refl|]. pose proof (finish_run_op d b RunStatus.CANCELLED "cancelled_before_start" None now) as H'.
  by destruct (finish_run _ _ _ _ _ _) as [d' [|]].
Qed.

Lemma renew_writes st i now : writes st.2 (renew st i now).2.
Proof.
  destruct st as [s d]. unfold renew. destruct (bindings s !! i) as [b|]; [|apply writes_refl].
  destruct (tasks s !! i) as [t|]; [|apply writes_refl]. case_match; [apply writes_refl|].
  pose proof (writes_op d (RHeartbeat b (lease_seconds s) now)) as Hw. cbn in Hw.
  by destruct (heartbeat_run _ _ _ _) as [d' [|]].
Qed.

Lemma drop_lost_writes st b now : writes st.2 (drop_lost st b now).2.
Proof. destruct st as [s d]. unfold drop_lost. repeat case_match; apply writes_refl. Qed.

(** Every call of the service is a sequence of operations of the ledger. *)
Lemma call_writes st c now : writes st.2 (exec_call st c now).2.
Proof.
  destruct c; cbn [exec_call].
  - destruct st as [s d]. unfold register. case_match; [apply writes_refl|].
    pose proof (writes_op d (RReconcile now)) as H1. cbn [exec_rop] in H1. set (d1 := (reconcile_expired d now).1) in *.
    set (facts := mkRegisterFacts _ _ _ _ _ _ _ _ _ _ _ _).
    pose proof (writes_op d1 (RRegister db facts (lease_seconds s) now)) as H2. cbn [exec_rop] in H2.
    destruct (register_run db d1 facts (lease_seconds s) now) as [d2 [|e]]; [|by eapply writes_trans].
    cbn in *. eapply writes_trans; [exact H1|]. eapply writes_trans; [exact H2|].
    exact (writes_op d2 (RReconcile now)).
  - destruct st as [s d]. unfold activate. repeat (case_match; [apply writes_refl|]).
    destruct (check _ _ _); [|apply writes_refl]. pose proof (writes_op d (RActivate b (lease_seconds s) now)) as H'.
    cbn in H'. by destruct (activate_run _ _ _ _) as [d' [|]].
  - destruct st as [s d]. unfold finish. case_match; [apply writes_refl|].
    pose proof (finish_run_op d b status reason error now) as H'. by destruct (finish_run _ _ _ _ _ _) as [d' [|]].
  - apply cancel_writes.
  - unfold cancel_session. destruct (foreground_runs st.1 !! session_id); [apply cancel_writes|apply writes_refl].
  - unfold heartbeat_pass. set (st1 := fold_left (fun st i => renew st i now) (map fst (map_to_list (tasks st.1))) st).
    apply writes_trans with st1.2; [apply (writes_fold (fun st i => renew st i now)); intros; apply renew_writes|].
    eapply writes_trans; [exact (writes_op st1.2 (RReconcile now))|].
    exact (writes_fold (fun st b => drop_lost st b now) _ (st1.1, _) (fun st b => drop_lost_writes st b now)).
  - destruct st as [s d]. unfold close. cbn. generalize (map snd (map_to_list (bindings s))). intros l.
    revert d. induction l as [|b l IH]; intros d; cbn; [apply writes_refl|].
    eapply writes_trans; [exact (writes_op d (RAbandon b now))|apply IH].
Qed.

Lemma fold_fenced {A} (f : svc -> A -> svc) l st i :
  (forall st x, i ∈ fenced st.1 -> i ∈ fenced (f st x).1) -> i ∈ fenced st.1 -> i ∈ fenced (fold_left f l st).1.
Proof. intros H. revert st. induction l as [|x l IH]; intros st Hi; cbn; [done|]. apply IH. by apply H. Qed.

(** The bindings of a service are those of its runs. *)
Definition svc_ok (s : AgentRunService) : Prop := forall i b, bindings s !! i = Some b -> b_run_id b = i.

Lemma forget_ok b s : svc_ok s -> svc_ok (forget b s).
Proof. intros H i b' Hb. cbn in Hb. apply lookup_delete_Some in Hb as [_ Hb]. by apply H. Qed.

Lemma fold_ok {A} (f : svc -> A -> svc) l st :
  (forall st x, svc_ok st.1 -> svc_ok (f st x).1) -> svc_ok st.1 -> svc_ok (fold_left f l st).1.
Proof. intros H. revert st. induction l as [|x l IH]; intros st Hi; cbn; [done|]. apply IH. by apply H. Qed.

Lemma call_keeps_ok st c now : svc_ok st.1 -> svc_ok (exec_call st c now).1.
Proof.
  intros Hi. destruct c; cbn [exec_call].
  - destruct st as [s d]. unfold register. case_match; [done|]. destruct (register_run _ _ _ _ _) as [d2 [|]]; [|done].
    assert (H' : svc_ok (s <| bindings := <[f_run_id f := mkRunBinding (f_run_id f) (f_session_id f) token (process s)]> (bindings s) |>)).
    { intros i b Hb. cbn in Hb. apply lookup_insert_Some in Hb as [[<- <-]|[_ Hb]]; [done|]. by apply Hi. }
    by destruct (f_foreground f).
  - destruct st as [s d]. unfold activate. repeat (case_match; [done|]). destruct (check _ _ _); [|done].
    destruct (activate_run _ _ _ _) as [d' [|]]; [|done]. by destruct with_task.
  - destruct st as [s d]. unfold finish. case_match; [by apply forget_ok|].
    destruct (finish_run _ _ _ _ _ _) as [d' [|]]; by apply forget_ok.
  - destruct st as [s d]. unfold cancel. repeat case_match; try done; by apply forget_ok.
  - destruct st as [s d]. unfold cancel_session, cancel. repeat case_match; try done; by apply forget_ok.
  - unfold heartbeat_pass. apply (fold_ok (fun st b => drop_lost st b now)).
    { intros [s d] b H. unfold drop_lost. repeat case_match; try done. by apply forget_ok. }
    apply (fold_ok (fun st i => renew st i now)); [|done]. intros [s d] x H. unfold renew. by repeat case_match.
  - by destruct st as [s d].
Qed.

(** A run once fenced stays fenced. *)
Lemma call_keeps_fenced st c now i : i ∈ fenced st.1 -> i ∈ fenced (exec_call st c now).1.
Proof.
  intros Hi. destruct c; cbn [exec_call].
  - destruct st as [s d]. unfold register. case_match; [done|]. destruct (register_run _ _ _ _ _) as [d2 [|]]; [|done].
    by destruct (f_foreground f).
  - destruct st as [s d]. unfold activate. repeat (case_match; [done|]). destruct (check _ _ _); [|done].
    destruct (activate_run _ _ _ _) as [d' [|]]; [|done]. by destruct with_task.
  - destruct st as [s d]. unfold finish. case_match; [done|]. destruct (finish_run _ _ _ _ _ _) as [d' [|]]; [done|].
    cbn. set_solver.
  - destruct st as [s d]. unfold cancel. by repeat case_match.
  - destruct st as [s d]. unfold cancel_session, cancel. by repeat case_match.
  - unfold heartbeat_pass. apply (fold_fenced (fun st b => drop_lost st b now)).
    { intros [s d] b H. unfold drop_lost. by repeat case_match. }
    apply (fold_fenced (fun st i => renew st i now)); [|done].
    intros [s d] x H. unfold renew. repeat case_match; try done. cbn in *. set_solver.
  - by destruct st as [s d].
Qed.

Definition exec_calls (st : svc) (calls : list (svc_call * Z)) : svc :=
  fold_left (fun st c => exec_call st c.1 c.2) calls st.

Lemma calls_keep_fenced st calls i : i ∈ fenced st.1 -> i ∈ fenced (exec_calls st calls).1.
Proof. revert st. induction calls as [|c calls IH]; intros st Hi; cbn; [done|]. apply IH. by apply call_keeps_fenced. Qed.

Lemma finish_run_row d b status reason error now d' :
  runs_ok d -> finish_run d b status reason error now = (d', Return tt) ->
  exists r, find_run d' (b_run_id b) = Some r /\ AgentRun.status r = status /\ unfinished r = false
    /\ AgentRun.owner_token r = b_owner_token b /\ AgentRun.process_id r = b_process_id b.
Proof.
  intros Hd. unfold finish_run. destruct (negb _) eqn:Ht; [done|]. apply negb_false_iff, bool_decide_eq_true in Ht.
  assert (Hun : forall r, AgentRun.status r = status -> unfinished r = false).
  { intros r Hr. unfold unfinished. rewrite Hr. apply bool_decide_eq_false. intros H'.
    apply (bool_decide_eq_true_2 _) in Ht, H'. by destruct status. }
  case_match eqn:He.
  - intros [= <-]. apply (owned_unfinished _ _ _ Hd) in He as (r & Hf & Ho & Hp & Hl & Hu).
    pose proof Hf as [(k & Hk)%list_elem_of_lookup_1 Hi]%find_run_in.
    match goal with |- context [update_runs ?c ?f d] => set (cond := c); set (set := f) end.
    assert (Hc : cond r = true).
    { unfold cond, owned. rewrite !bool_decide_eq_true_2 by done. by rewrite (proj2 (Z.ltb_lt _ _) Hl), Hu. }
    exists (set r). assert (Hk' : update_runs cond set d !! k = Some (set r)).
    { unfold update_runs. rewrite list_lookup_fmap, Hk. cbn. by rewrite Hc. }
    split; [|split; [done|split; [by apply Hun|done]]].
    replace (b_run_id b) with (AgentRun.id (set r)) by done. apply unique_run with k; [|done].
    pose proof (exec_rop_ok d (RFinish b status reason error now) Hd) as Hok. cbn in Hok. revert Hok.
    unfold finish_run, terminal_status. rewrite (proj2 (negb_false_iff _) (bool_decide_eq_true_2 _ Ht)).
    by rewrite (proj2 (owned_unfinished d b now Hd)) by by exists r.
  - destruct (find_run d (b_run_id b)) as [r|] eqn:Hf; [|done]. case_match eqn:Hc; [|done]. intros [= <-].
    rewrite !andb_true_iff, !bool_decide_eq_true in Hc. destruct Hc as [[Hs Ho] Hp].
    exists r. split; [done|]. split; [done|]. split; [by apply Hun|done].
Qed.

(** A process only announces what is durable.  When [finish] returns, the run is in
    the ledger with the status announced, under this owner, and no operation of any
    process changes that row again.  When it raises, the ledger is unchanged and
    either the status was not a terminal one or the run is fenced: from then on, after
    any further calls, this service refuses every check and every finish of it.  A
    cancellation reported as made is durable for a pending run and requested from the
    task of a running one. *)
Theorem finish_is_durable st b status reason error now :
  runs_ok st.2 -> svc_ok st.1 ->
  (match finish st b status reason error now with
   | (st', Return _) =>
       exists r, AgentRun.status r = status /\ AgentRun.owner_token r = b_owner_token b
         /\ AgentRun.process_id r = b_process_id b
         /\ forall ops, find_run (exec_rops st'.2 ops) (b_run_id b) = Some r
   | (st', Raise _) =>
       st'.2 = st.2 /\ forall calls t status' reason' error',
         let st2 := exec_calls st' calls in
         returns (check st2 b t) = false /\ (finish st2 b status' reason' error' t).2 = Raise RunOwnershipLost
   end)
  /\ forall run_id st', cancel st run_id now = (st', true) ->
       (exists r, find_run st'.2 run_id = Some r /\ AgentRun.status r = RunStatus.CANCELLED)
       \/ was_cancel_requested st'.1 run_id = true /\ is_cancelled st'.1 run_id = true.
Proof.
  intros Hd Hok. split.
  - assert (Hrefuse : forall st', b_run_id b ∈ fenced st'.1 -> forall calls t status' reason' error',
      let st2 := exec_calls st' calls in
      returns (check st2 b t) = false /\ (finish st2 b status' reason' error' t).2 = Raise RunOwnershipLost).
    { intros st' Hf calls t status' reason' error' st2. pose proof (calls_keep_fenced st' calls _ Hf) as H2. fold st2 in H2.
      destruct st2 as [s2 d2]. unfold check, finish. cbn [fst] in H2. rewrite bool_decide_eq_true_2 by done.
      split; [by case_match|done]. }
    destruct st as [s d]. unfold finish. case_bool_decide as Hf.
    + split; [done|]. apply Hrefuse. exact Hf.
    + destruct (finish_run d b status reason error now) as [d' [[]|e]] eqn:Hr.
      * destruct (finish_run_row _ _ _ _ _ _ _ Hd Hr) as (r & Hfr & Hs & Hu & Ho & Hp). exists r.
        split; [done|]. split; [done|]. split; [done|]. intros ops. cbn.
        assert (Hd' : runs_ok d') by (pose proof (exec_rop_ok d (RFinish b status reason error now) Hd) as H; cbn in H; by rewrite Hr in H).
        destruct (find_run_later d' ops _ _ Hd' Hfr) as (r' & Hf' & _ & Hfix). by rewrite (Hfix Hu) in Hf'.
      * split; [|apply Hrefuse; cbn; set_solver]. revert Hr. unfold finish_run. repeat case_match; by intros [= <- _].
  - intros i st'. destruct st as [s d]. unfold cancel. destruct (tasks s !! i) as [t|] eqn:Ht.
    + case_match; [done|]. intros [= <-]. right. unfold was_cancel_requested, is_cancelled. cbn.
      split; [apply bool_decide_eq_true; set_solver|]. rewrite lookup_insert_eq. cbn. apply orb_true_r.
    + destruct (bindings s !! i) as [b'|] eqn:Hb; [|done]. destruct (find_run d i) as [r|] eqn:Hf; [|done].
      destruct (negb _); [done|]. destruct (finish_run d b' _ _ _ now) as [d' [[]|e]] eqn:Hr; [|done].
      intros [= <-]. left. cbn. destruct (finish_run_row _ _ _ _ _ _ _ Hd Hr) as (r' & Hf' & Hs & _).
      exists r'. split; [|done]. by rewrite <- (Hok i b' Hb).
Qed.

(** * Witnesses *)

Definition example_db : Database := mkDatabase (fun _ => true) [] (fun _ => None) (fun _ => None).
Definition example_facts (token : string) : RegisterFacts :=
  mkRegisterFacts "r" "s" "api" "chat" "p" token None None None None None true.
Definition example_binding : RunBinding := mkRunBinding "r" "s" "o" "p".
Definition example_runs : run_table :=
  exec_rops [] [RRegister example_db (example_facts "o") 30 100; RActivate example_binding 30 101].
Definition example_service : svc :=
  ((new_service "p" 30) <| bindings := {["r" := example_binding]} |>, example_runs).

Lemma example_runs_ok : runs_ok example_runs.
Proof. apply exec_rops_ok, empty_runs_ok. Qed.

Lemma lost_owner_fenced_witness :
  let d' := exec_rops (reconcile_expired example_runs 200).1 [RReconcile 300] in
  heartbeat_run d' example_binding 30 201 = (d', Raise RunOwnershipLost)
  /\ exists e, finish_run d' example_binding RunStatus.COMPLETED "stop" None 202 = (d', Raise e).
Proof.
  intros d'. destruct (find_run example_runs "r") as [r|] eqn:Hr; [|vm_compute in Hr; discriminate].
  assert (Hexp : AgentRun.lease_expires_at r <= 200) by (vm_compute in Hr; injection Hr as <-; vm_compute; discriminate).
  assert (Hu : unfinished r = true) by (vm_compute in Hr; injection Hr as <-; by vm_compute).
  destruct (lost_owner_fenced example_runs example_binding r 200 [RReconcile 300] 201 example_runs_ok Hr Hexp)
    as (_ & _ & Hh & _ & _).
  destruct (lost_owner_fenced example_runs example_binding r 200 [RReconcile 300] 202 example_runs_ok Hr Hexp)
    as (_ & _ & _ & _ & Hf).
  split; [apply Hh|apply (Hf Hu)].
Defined.

(** The first process finishes its run in time; a finish after the lease fences it. *)
Lemma finish_is_durable_witness :
  runs_ok example_service.2 /\ svc_ok example_service.1
  /\ (exists r, AgentRun.status r = RunStatus.COMPLETED
        /\ forall ops, find_run (exec_rops (finish example_service example_binding RunStatus.COMPLETED "stop" None 110).1.2 ops) "r" = Some r)
  /\ (finish (exec_calls (finish example_service example_binding RunStatus.COMPLETED "stop" None 900).1 [(CHeartbeat, 901)])
        example_binding RunStatus.COMPLETED "stop" None 902).2 = Raise RunOwnershipLost.
Proof.
  assert (Hok : svc_ok example_service.1).
  { intros i b Hb. cbn in Hb. by apply lookup_singleton_Some in Hb as [<- <-]. }
  split; [exact example_runs_ok|]. split; [exact Hok|]. split.
  - destruct (finish_is_durable example_service example_binding RunStatus.COMPLETED "stop" None 110 example_runs_ok Hok) as [H _].
    destruct (finish example_service example_binding RunStatus.COMPLETED "stop" None 110) as [st' [u|e]] eqn:Hf.
    + destruct H as (r & Hs & _ & _ & Hops). exists r. split; [exact Hs|exact Hops].
    + apply (f_equal (fun x => returns x.2)) in Hf. vm_compute in Hf. discriminate.
  - destruct (finish_is_durable example_service example_binding RunStatus.COMPLETED "stop" None 900 example_runs_ok Hok) as [H _].
    destruct (finish example_service example_binding RunStatus.COMPLETED "stop" None 900) as [st' [u|e]] eqn:Hf.
    + apply (f_equal (fun x => returns x.2)) in Hf. vm_compute in Hf. discriminate.
    + destruct H as [_ H]. apply (H [(CHeartbeat, 901)] 902).
Defined.
