(* ===== verification/GatewayStore.v ===== *)
(** The chat gateway: its domain (app/domain/gateway.py, app/domain/platform.py), its
    policy (app/domain/gateway_policy.py) and the registry of conversations, session
    links, processed events and home targets
    (app/infrastructure/registry/sqlite_gateway_registry.py).

    A table is the list of its rows; foreign keys are not enforced (the connection
    never turns them on).  Timestamps are instants. *)
From S2P Require Import Prelude Json.
Open Scope Z_scope.

(** * The domain *)

Module Platform.
Inductive t : Type := FEISHU | DINGTALK | WECOM.
#[global] Instance eq_dec : EqDecision t.
Proof. solve_decision. Defined.
Definition value (p : t) : string := match p with FEISHU => "feishu" | DINGTALK => "dingtalk" | WECOM => "wecom" end.
Definition of_value (s : string) : option t :=
  List.find (fun p => bool_decide (value p = s)) [FEISHU; DINGTALK; WECOM].
End Platform.

Module ConfirmationAction.
Inductive t : Type := NEW | RENAME | DELETE | SCHEDULE_REMOVE.
#[global] Instance eq_dec : EqDecision t.
Proof. solve_decision. Defined.
End ConfirmationAction.

Module ConfirmationChoice.
Inductive t : Type := ONCE | TRUST_SESSION | CANCEL.
#[global] Instance eq_dec : EqDecision t.
Proof. solve_decision. Defined.
End ConfirmationChoice.

(** The source is kept as its [source_value]. *)
Record GatewaySessionKey := mkSessionKey {
  key_source : string;
  platform_session_id : string;
  thread_id : string;
  key_display_name : string
}.
Definition platform_of (k : GatewaySessionKey) : option Platform.t := Platform.of_value (key_source k).
Definition conversation_parts (k : GatewaySessionKey) : string * string * string :=
  (key_source k, platform_session_id k, thread_id k).

(** * The policy *)

Record GatewayAccessDecision := mkAccessDecision {
  acc_verdict : PolicyOutcome.t;
  acc_actor : option string;
  acc_session_owner : option (string * string * string);
  acc_confirmation_requirement : option string
}.

Record GatewayInboundRequest := mkInboundRequest {
  in_session_key : GatewaySessionKey;
  in_actor_id : option string;
  in_action : option ConfirmationAction.t;
  is_bootstrap : bool;
  has_confirmation_channel : bool;
  in_session_id : option string;
  require_actor_for_managed_actions : bool
}.

Definition evaluate_inbound (r : GatewayInboundRequest) : GatewayAccessDecision :=
  let owner := if truthy_opt_str (in_session_id r) then Some (conversation_parts (in_session_key r)) else None in
  match in_action r with
  | None => mkAccessDecision PolicyOutcome.ALLOW (in_actor_id r) owner None
  | Some action =>
      if is_bootstrap r then mkAccessDecision PolicyOutcome.ALLOW (in_actor_id r) None None
      else if negb (require_actor_for_managed_actions r)
      then mkAccessDecision PolicyOutcome.ALLOW (in_actor_id r) owner None
      else match in_actor_id r with
           | None =>
               if has_confirmation_channel r
               then mkAccessDecision PolicyOutcome.REQUIRE_APPROVAL None None (Some "once")
               else mkAccessDecision PolicyOutcome.DENY None None None
           | Some actor =>
               if bool_decide (in_session_id r = None) && negb (bool_decide (action = ConfirmationAction.NEW))
               then mkAccessDecision PolicyOutcome.DENY (Some actor) None None
               else mkAccessDecision PolicyOutcome.ALLOW (Some actor) owner None
           end
  end.

(** Actors are compared as the values they are; [JNull] is [None]. *)
Record GatewayOutboundRequest := mkOutboundRequest {
  target_session_key : GatewaySessionKey;
  origin_session_key : GatewaySessionKey;
  target_actor_id : json;
  origin_actor_id : json
}.

Record GatewayDeliveryDecision := mkDeliveryDecision {
  gd_verdict : PolicyOutcome.t;
  gd_reason : string;
  gd_target_owner : string * string * string
}.

Definition evaluate_outbound (r : GatewayOutboundRequest) : GatewayDeliveryDecision :=
  let owner := conversation_parts (target_session_key r) in
  if bool_decide (origin_actor_id r = JNull) || bool_decide (target_actor_id r = JNull)
  then mkDeliveryDecision PolicyOutcome.DENY "outbound delivery requires actor on both sides" owner
  else if negb (bool_decide (target_actor_id r = origin_actor_id r))
          || negb (bool_decide (owner = conversation_parts (origin_session_key r)))
  then mkDeliveryDecision PolicyOutcome.DENY
         "outbound origin mismatch: target belongs to different actor/session/thread" owner
  else mkDeliveryDecision PolicyOutcome.ALLOW "outbound origin match" owner.

(** * The registry *)

Module Conversation.
Record t : Type := mk {
  id : string;
  platform : string;
  platform_session_id : string;
  thread_id : string;
  display_name : string;
  active_session_id : option string;
  created_at : Z;
  updated_at : Z;
  receive_id_type : option string
}.
#[global] Instance rebuild_t : Rebuild t := fun r =>
  mk (id r) (platform r) (platform_session_id r) (thread_id r) (display_name r) (active_session_id r)
    (created_at r) (updated_at r) (receive_id_type r).
End Conversation.

Module SessionLink.
Record t : Type := mk {
  id : string;
  conversation_id : string;
  session_id : string;
  created_at : Z;
  updated_at : Z
}.
#[global] Instance rebuild_t : Rebuild t := fun r =>
  mk (id r) (conversation_id r) (session_id r) (created_at r) (updated_at r).
End SessionLink.

Record ProcessedEvent := mkProcessedEvent {
  pe_platform : string;
  pe_event_id : string;
  pe_message_id : option string
}.

Module HomeTarget.
Record t : Type := mk {
  platform : Platform.t;
  receive_id : string;
  receive_id_type : string;
  thread_id : string;
  display_name : string
}.
End HomeTarget.

Record gdb := mkGdb {
  conversations : list Conversation.t;
  links : list SessionLink.t;
  processed_events : list ProcessedEvent;
  home_targets : list HomeTarget.t
}.
#[export] Instance rebuild_gdb : Rebuild gdb := fun d =>
  mkGdb (conversations d) (links d) (processed_events d) (home_targets d).
Definition empty_gdb : gdb := mkGdb [] [] [] [].

Definition key_of (c : Conversation.t) : string * string * string :=
  (Conversation.platform c, Conversation.platform_session_id c, Conversation.thread_id c).

(** [_get_conversation] *)
Definition find_conversation (d : gdb) (k : GatewaySessionKey) : option Conversation.t :=
  List.find (fun c => bool_decide (key_of c = conversation_parts k)) (conversations d).
(** [_get_link], its join with the conversation included. *)
Definition find_link (d : gdb) (conversation_id session_id : string) : option SessionLink.t :=
  if existsb (fun c => bool_decide (Conversation.id c = conversation_id)) (conversations d)
  then List.find (fun l => bool_decide (SessionLink.conversation_id l = conversation_id)
                           && bool_decide (SessionLink.session_id l = session_id)) (links d)
  else None.

Definition get_active_session (d : gdb) (k : GatewaySessionKey) : option SessionLink.t :=
  c ← find_conversation d k; s ← Conversation.active_session_id c; find_link d (Conversation.id c) s.

Definition update_conversations (cond : Conversation.t -> bool) (set : Conversation.t -> Conversation.t) (d : gdb)
    : gdb := d <| conversations := map (fun c => if cond c then set c else c) (conversations d) |>.
Definition update_links (cond : SessionLink.t -> bool) (set : SessionLink.t -> SessionLink.t) (d : gdb) : gdb :=
  d <| links := map (fun l => if cond l then set l else l) (links d) |>.

Definition with_conversation_id (i : string) (c : Conversation.t) : bool := bool_decide (Conversation.id c = i).
Definition link_of (conversation_id session_id : string) (l : SessionLink.t) : bool :=
  bool_decide (SessionLink.conversation_id l = conversation_id) && bool_decide (SessionLink.session_id l = session_id).

(** [_ensure_conversation]; [new_id] is the identifier it draws. *)
Definition ensure_conversation (d : gdb) (k : GatewaySessionKey) (now : Z) (new_id : string) : gdb * string :=
  match find_conversation d k with
  | Some c =>
      (update_conversations (with_conversation_id (Conversation.id c))
         (fun c => c <| Conversation.display_name := key_display_name k |> <| Conversation.updated_at := now |>) d,
       Conversation.id c)
  | None =>
      (d <| conversations := conversations d ++
              [Conversation.mk new_id (key_source k) (platform_session_id k) (thread_id k) (key_display_name k)
                 None now now None] |>, new_id)
  end.

(** What [INSERT OR IGNORE] drops: a link of the same conversation and session, or of
    the same id. *)
Definition insert_link (d : gdb) (l : SessionLink.t) : gdb :=
  if existsb (fun x => link_of (SessionLink.conversation_id l) (SessionLink.session_id l) x
                       || bool_decide (SessionLink.id x = SessionLink.id l)) (links d)
  then d else d <| links := links d ++ [l] |>.

(** [ids] are the identifiers drawn for the link and for the conversation. *)
Definition create_session_link (d : gdb) (k : GatewaySessionKey) (session_id : string) (now : Z)
    (ids : string * string) : gdb * result SessionLink.t :=
  let '(d, cid) := ensure_conversation d k now ids.2 in
  let d := insert_link d (SessionLink.mk ids.1 cid session_id now now) in
  let d := update_links (link_of cid session_id) (fun l => l <| SessionLink.updated_at := now |>) d in
  let d := update_conversations (with_conversation_id cid)
             (fun c => c <| Conversation.active_session_id := Some session_id |>
                         <| Conversation.display_name := key_display_name k |>
                         <| Conversation.updated_at := now |>) d in
  (d, match find_link d cid session_id with Some l => Return l | None => Raise AssertionError end).

Definition set_active_session (d : gdb) (k : GatewaySessionKey) (session_id : string) (now : Z)
    (ids : string * string) : gdb * result SessionLink.t :=
  match find_conversation d k with
  | None => create_session_link d k session_id now ids
  | Some c =>
      match find_link d (Conversation.id c) session_id with
      | None => create_session_link d k session_id now ids
      | Some l =>
          let d := update_conversations (with_conversation_id (Conversation.id c))
                     (fun c => c <| Conversation.active_session_id := Some session_id |>
                                 <| Conversation.updated_at := now |>) d in
          let d := update_links (fun x => bool_decide (SessionLink.id x = SessionLink.id l))
                     (fun x => x <| SessionLink.updated_at := now |>) d in
          (d, match find_link d (Conversation.id c) session_id with Some l => Return l | None => Raise AssertionError end)
      end
  end.

Definition list_session_links (d : gdb) (k : GatewaySessionKey) : list SessionLink.t :=
  match find_conversation d k with
  | None => []
  | Some c => order_by (fun a b => SessionLink.updated_at b <=? SessionLink.updated_at a)
                (List.filter (fun l => bool_decide (SessionLink.conversation_id l = Conversation.id c)) (links d))
  end.

Definition delete_session_link (d : gdb) (session_id : string) : gdb :=
  let d := d <| links := List.filter (fun l => negb (bool_decide (SessionLink.session_id l = session_id))) (links d) |> in
  update_conversations (fun c => bool_decide (Conversation.active_session_id c = Some session_id))
    (fun c => c <| Conversation.active_session_id := None |>) d.

(** [message_id or None]; two [NULL]s are distinct for [UNIQUE]. *)
Definition mark_event_processed (d : gdb) (source event_id message_id : string) : gdb * bool :=
  let m := if truthy_str message_id then Some message_id else None in
  if existsb (fun e => bool_decide (pe_platform e = source)
                       && (bool_decide (pe_event_id e = event_id)
                           || (bool_decide (is_Some m) && bool_decide (pe_message_id e = m)))) (processed_events d)
  then (d, false)
  else (d <| processed_events := processed_events d ++ [mkProcessedEvent source event_id m] |>, true).

Definition get_home_target (d : gdb) (p : Platform.t) : option HomeTarget.t :=
  List.find (fun h => bool_decide (HomeTarget.platform h = p)) (home_targets d).
Definition set_home_target (d : gdb) (t : HomeTarget.t) : gdb * HomeTarget.t :=
  let same h := bool_decide (HomeTarget.platform h = HomeTarget.platform t) in
  (if existsb same (home_targets d)
   then d <| home_targets := map (fun h => if same h then t else h) (home_targets d) |>
   else d <| home_targets := home_targets d ++ [t] |>, t).

(** Rows of a platform that is not known are not listed. *)
Definition known_platform (c : Conversation.t) : bool := bool_decide (is_Some (Platform.of_value (Conversation.platform c))).
Definition newer_conversation (a b : Conversation.t) : bool :=
  (Conversation.updated_at b <? Conversation.updated_at a)
  || ((Conversation.updated_at a =? Conversation.updated_at b) && str_leb (Conversation.id b) (Conversation.id a)).

Definition get_conversation (d : gdb) (conversation_id : string) : option Conversation.t :=
  c ← List.find (with_conversation_id conversation_id) (conversations d);
  if known_platform c then Some c else None.
Definition find_conversations (d : gdb) (p : Platform.t) (receive_id : string) : list Conversation.t :=
  order_by newer_conversation
    (List.filter (fun c => bool_decide (Conversation.platform c = Platform.value p)
                           && bool_decide (Conversation.platform_session_id c = receive_id)) (conversations d)).

Definition record_delivery_address (d : gdb) (k : GatewaySessionKey) (receive_id_type : string) : gdb :=
  update_conversations (fun c => bool_decide (key_of c = conversation_parts k))
    (fun c => c <| Conversation.receive_id_type := Some receive_id_type |>) d.

Definition count_conversations (d : gdb) (p : Platform.t) : Z :=
  Z.of_nat (length (List.filter (fun c => bool_decide (Conversation.platform c = Platform.value p)) (conversations d))).

(** [LIMIT n OFFSET k] of the rows, newest first; an offset below zero is none. *)
Definition list_conversations (d : gdb) (p : option Platform.t) (limit offset : Z) : list Conversation.t :=
  let rows := order_by newer_conversation
    (List.filter (fun c => match p with Some p => bool_decide (Conversation.platform c = Platform.value p) | None => true end)
       (conversations d)) in
  let rows := drop (Z.to_nat offset) rows in
  List.filter known_platform (if limit <? 0 then rows else take (Z.to_nat limit) rows).

(** [MAX(updated_at)] *)
Definition get_last_active (d : gdb) (p : Platform.t) : option Z :=
  foldr (fun c m => if bool_decide (Conversation.platform c = Platform.value p)
                    then Some (match m with Some t => Z.max t (Conversation.updated_at c) | None => Conversation.updated_at c end)
                    else m) None (conversations d).
