(* ===== verification/Schedules.v ===== *)
(** Scheduled tasks: the domain (app/domain/schedule.py, app/domain/schedule_policy.py)
    and the SQLite registry of tasks and executions
    (app/infrastructure/registry/sqlite_schedule_registry.py).

    [sdb] holds the two tables, a table being the list of its rows in rowid order.
    Each method is one transaction: a function from the tables, the clock and the
    identifiers it draws to the tables and an outcome.  Timestamps are the instants
    their ISO-8601 texts order as; a JSON column is the value it holds.  The cron
    calculator (croniter) is an argument. *)
From S2P Require Import Prelude Json.
Open Scope Z_scope.

(** * The domain *)

Module ScheduledTaskStatus.
Inductive t : Type := ACTIVE | PAUSED | SESSION_MISSING | DELETED.
#[global] Instance eq_dec : EqDecision t.
Proof. solve_decision. Defined.
Definition value (s : t) : string :=
  match s with ACTIVE => "active" | PAUSED => "paused" | SESSION_MISSING => "session_missing" | DELETED => "deleted" end.
End ScheduledTaskStatus.

Module ExecutionStatus.
Inductive t : Type := RUNNING | SUCCEEDED | FAILED | CANCELLED | BLOCKED | SKIPPED_MISSED.
#[global] Instance eq_dec : EqDecision t.
Proof. solve_decision. Defined.
Definition value (s : t) : string :=
  match s with
  | RUNNING => "running" | SUCCEEDED => "succeeded" | FAILED => "failed" | CANCELLED => "cancelled"
  | BLOCKED => "blocked" | SKIPPED_MISSED => "skipped_missed"
  end.
End ExecutionStatus.

Module DeliveryTargetType.
Inductive t : Type := ORIGIN | FEISHU | DASHBOARD | SILENT.
#[global] Instance eq_dec : EqDecision t.
Proof. solve_decision. Defined.
Definition value (x : t) : string :=
  match x with ORIGIN => "origin" | FEISHU => "feishu" | DASHBOARD => "dashboard" | SILENT => "silent" end.
(** [DeliveryTargetType(raw)] *)
Definition of_value (raw : string) : option t :=
  List.find (fun x => bool_decide (value x = raw)) [ORIGIN; FEISHU; DASHBOARD; SILENT].
End DeliveryTargetType.

Record DeliveryTarget := mkDeliveryTarget {
  target_type : DeliveryTargetType.t;
  target_context : dict
}.

(** The one mode is [unattended]. *)
Record ScheduledExecutionPolicy := mkScheduledExecutionPolicy {
  tool_exposure_policy : string;
  allow_confirm_tools : bool;
  allowed_tools : list string
}.

Module ScheduledTask.
Record t : Type := mk {
  id : string;
  name : string;
  prompt : string;
  schedule : string;
  timezone : string;
  session_id : string;
  delivery_target : DeliveryTarget;
  next_run_at : Z;
  enabled : bool;
  status : ScheduledTaskStatus.t;
  origin : dict;
  execution_policy : ScheduledExecutionPolicy;
  lease_until : option Z;
  lease_owner : option string;
  claim_id : option string;
  last_run_at : option Z;
  last_status : option ExecutionStatus.t;
  last_error : option string;
  last_delivery_error : option string;
  unread_count : Z;
  created_at : option Z;
  updated_at : option Z
}.
#[global] Instance rebuild_t : Rebuild t := fun r =>
  mk (id r) (name r) (prompt r) (schedule r) (timezone r) (session_id r) (delivery_target r)
    (next_run_at r) (enabled r) (status r) (origin r) (execution_policy r) (lease_until r)
    (lease_owner r) (claim_id r) (last_run_at r) (last_status r) (last_error r)
    (last_delivery_error r) (unread_count r) (created_at r) (updated_at r).
End ScheduledTask.

Inductive claim_reason : Type := CLAIM_REASON_DUE | CLAIM_REASON_RUN_NOW.
#[global] Instance claim_reason_eq_dec : EqDecision claim_reason.
Proof. solve_decision. Defined.

(** [ScheduledTaskClaim]; [skipped_missed] is never set. *)
Module Claim.
Record t : Type := mk {
  task : ScheduledTask.t;
  claim_id : string;
  lease_owner : string;
  lease_until : Z;
  claimed_next_run_at : Z;
  next_run_at : Z;
  reason : claim_reason
}.
End Claim.

Module Execution.
Record t : Type := mk {
  id : string;
  task_id : string;
  session_id : string;
  claim_id : string;
  lease_owner : string;
  status : ExecutionStatus.t;
  claimed_next_run_at : option Z;
  started_at : option Z;
  completed_at : option Z;
  output : option string;
  error : option string;
  delivery_status : option string;
  delivery_error : option string;
  created_at : option Z;
  trigger_run_id : option string
}.
#[global] Instance rebuild_t : Rebuild t := fun r =>
  mk (id r) (task_id r) (session_id r) (claim_id r) (lease_owner r) (status r)
    (claimed_next_run_at r) (started_at r) (completed_at r) (output r) (error r)
    (delivery_status r) (delivery_error r) (created_at r) (trigger_run_id r).
End Execution.

(** * The claim constraints and the policy after a claim *)

Module Constraints.
Record t : Type := mk {
  status : ScheduledTaskStatus.t;
  enabled : bool;
  due_at_or_before : option Z;
  lease_free_at : option Z
}.
Definition for_due_claim (now : Z) : t := mk ScheduledTaskStatus.ACTIVE true (Some now) (Some now).
Definition for_run_now_claim (now : Z) : t := mk ScheduledTaskStatus.ACTIVE true None (Some now).

Definition is_satisfied_by (c : t) (task : ScheduledTask.t) : bool :=
  if negb (eqb (ScheduledTask.enabled task) (enabled c)) then false
  else if negb (bool_decide (ScheduledTask.status task = status c)) then false
  else if match due_at_or_before c with Some due => due <? ScheduledTask.next_run_at task | None => false end
  then false
  else match lease_free_at c, ScheduledTask.lease_until task with
       | Some free, Some until => negb (free <=? until)
       | _, _ => true
       end.
End Constraints.

Inductive MissedAction : Type := RUN_NOW | SKIPPED_MISSED.
Inductive DeliveryMode : Type := DELIVER | SILENT.
#[global] Instance missed_action_eq_dec : EqDecision MissedAction.
Proof. solve_decision. Defined.
#[global] Instance delivery_mode_eq_dec : EqDecision DeliveryMode.
Proof. solve_decision. Defined.

(** [RunOverrides], the mode apart. *)
Record RunOverrides := mkRunOverrides {
  ov_tool_exposure_policy : string;
  ov_allow_confirm_tools : bool
}.
Definition default_overrides : RunOverrides := mkRunOverrides "safe_only" false.

(** [retry_plan] is always [NONE]. *)
Record ScheduleRunDecision := mkScheduleRunDecision {
  verdict : PolicyOutcome.t;
  missed_action : MissedAction;
  delivery_mode : DeliveryMode;
  run_overrides : RunOverrides;
  decision_reason : string
}.

Definition should_run (d : ScheduleRunDecision) : bool :=
  bool_decide (verdict d = PolicyOutcome.ALLOW) && bool_decide (missed_action d = RUN_NOW).
Definition should_deliver (d : ScheduleRunDecision) : bool :=
  should_run d && bool_decide (delivery_mode d = DELIVER).

(** [SchedulePolicy.evaluate] *)
Definition evaluate (missed_grace_seconds : Z) (claim : Claim.t) (now : Z) : ScheduleRunDecision :=
  let task := Claim.task claim in
  if negb (ScheduledTask.enabled task)
     || bool_decide (ScheduledTask.status task ∈ [ScheduledTaskStatus.DELETED;
          ScheduledTaskStatus.SESSION_MISSING; ScheduledTaskStatus.PAUSED])
  then mkScheduleRunDecision PolicyOutcome.DENY RUN_NOW DELIVER default_overrides
         ("task not runnable: status=" +:+ ScheduledTaskStatus.value (ScheduledTask.status task) +:+ " enabled="
          +:+ (if ScheduledTask.enabled task then "True" else "False"))
  else if negb (bool_decide (Claim.reason claim = CLAIM_REASON_RUN_NOW))
          && (seconds missed_grace_seconds <? now - Claim.claimed_next_run_at claim)
  then mkScheduleRunDecision PolicyOutcome.ALLOW SKIPPED_MISSED SILENT default_overrides "task past missed grace window"
  else
    let policy := ScheduledTask.execution_policy task in
    mkScheduleRunDecision PolicyOutcome.ALLOW RUN_NOW
      (if bool_decide (target_type (ScheduledTask.delivery_target task) = DeliveryTargetType.SILENT)
       then SILENT else DELIVER)
      (mkRunOverrides (tool_exposure_policy policy) (allow_confirm_tools policy)) "task due for execution".

(** [ScheduledDeliveryAuthorizationPolicy.evaluate] *)
Record AuthorizationRequest := mkAuthorizationRequest {
  auth_platform : json;
  auth_address_type : json;
  conversation_verified : bool;
  address_matches : bool;
  platform_available : bool
}.
Definition authorize (r : AuthorizationRequest) : PolicyOutcome.t :=
  if bool_decide (auth_platform r = JStr "feishu") && bool_decide (auth_address_type r = JStr "chat_id")
     && conversation_verified r && address_matches r && platform_available r
  then PolicyOutcome.ALLOW else PolicyOutcome.DENY.

(** * The registry *)

Record sdb := mkSdb {
  scheduled_tasks : list ScheduledTask.t;
  executions : list Execution.t
}.
#[export] Instance rebuild_sdb : Rebuild sdb := fun d => mkSdb (scheduled_tasks d) (executions d).
Definition empty_sdb : sdb := mkSdb [] [].

Notation is_active t := (bool_decide (ScheduledTask.status t = ScheduledTaskStatus.ACTIVE)).
Notation is_deleted t := (bool_decide (ScheduledTask.status t = ScheduledTaskStatus.DELETED)).

(** [UPDATE scheduled_tasks SET ... WHERE cond], and what [cursor.rowcount] is then. *)
Definition update_tasks (cond : ScheduledTask.t -> bool) (set : ScheduledTask.t -> ScheduledTask.t) (d : sdb) : sdb :=
  d <| scheduled_tasks := map (fun t => if cond t then set t else t) (scheduled_tasks d) |>.
Definition update_executions (cond : Execution.t -> bool) (set : Execution.t -> Execution.t) (d : sdb) : sdb :=
  d <| executions := map (fun e => if cond e then set e else e) (executions d) |>.
Definition rowcount {A} (cond : A -> bool) (rows : list A) : nat := length (List.filter cond rows).

Definition with_id (task_id : string) (t : ScheduledTask.t) : bool := bool_decide (ScheduledTask.id t = task_id).

Definition get_task (d : sdb) (task_id : string) : option ScheduledTask.t :=
  List.find (fun t => with_id task_id t && negb (is_deleted t)) (scheduled_tasks d).

(** A row read back after a write: [assert task is not None]. *)
Definition read_back (d : sdb) (task_id : string) : sdb * result ScheduledTask.t :=
  (d, match get_task d task_id with Some t => Return t | None => Raise AssertionError end).

Definition create_row (d : sdb) (task : ScheduledTask.t) (now : Z) : sdb * result ScheduledTask.t :=
  if existsb (with_id (ScheduledTask.id task)) (scheduled_tasks d) then (d, Raise IntegrityError)
  else
    let row := task <| ScheduledTask.created_at := Some (default now (ScheduledTask.created_at task)) |>
                    <| ScheduledTask.updated_at := Some (default now (ScheduledTask.updated_at task)) |> in
    read_back (d <| scheduled_tasks := scheduled_tasks d ++ [row] |>) (ScheduledTask.id task).

Definition created_leb (a b : ScheduledTask.t) : bool :=
  default 0 (ScheduledTask.created_at a) <=? default 0 (ScheduledTask.created_at b).
Definition list_rows (d : sdb) : list ScheduledTask.t :=
  order_by created_leb (List.filter (fun t => negb (is_deleted t)) (scheduled_tasks d)).

(** Every column but [id] and [created_at] is written, from the task given. *)
Definition update_row (d : sdb) (task : ScheduledTask.t) (now : Z) : sdb * result ScheduledTask.t :=
  read_back (update_tasks (with_id (ScheduledTask.id task))
    (fun row => task <| ScheduledTask.created_at := ScheduledTask.created_at row |>
                     <| ScheduledTask.updated_at := Some now |>) d) (ScheduledTask.id task).

Definition update_status (d : sdb) (task_id : string) (status : ScheduledTaskStatus.t) (on : bool) (now : Z)
    : sdb * result ScheduledTask.t :=
  read_back (update_tasks (with_id task_id)
    (fun row => row <| ScheduledTask.status := status |> <| ScheduledTask.enabled := on |>
                    <| ScheduledTask.updated_at := Some now |>) d) task_id.

(** Executions stay. *)
Definition delete_row (d : sdb) (task_id : string) : sdb * bool :=
  (d <| scheduled_tasks := List.filter (fun t => negb (with_id task_id t)) (scheduled_tasks d) |>,
   existsb (with_id task_id) (scheduled_tasks d)).

(** ** Claims *)

(** [lease_until IS NULL OR lease_until < now] *)
Definition lease_free (now : Z) (t : ScheduledTask.t) : bool :=
  match ScheduledTask.lease_until t with None => true | Some until => until <? now end.

Definition due_leb (a b : ScheduledTask.t) : bool := ScheduledTask.next_run_at a <=? ScheduledTask.next_run_at b.

(** [LIMIT n]: a negative limit is none. *)
Definition limited {A} (limit : Z) (l : list A) : list A := if limit <? 0 then l else take (Z.to_nat limit) l.

Definition make_claim (task : ScheduledTask.t) (now lease_seconds : Z) (reason : claim_reason) (next_run_at : Z)
    (ids : string * string) : Claim.t :=
  Claim.mk task ids.1 ids.2 (now + seconds lease_seconds) (ScheduledTask.next_run_at task) next_run_at reason.

(** The columns a claim writes. *)
Definition leased (claim : Claim.t) (now : Z) (row : ScheduledTask.t) : ScheduledTask.t :=
  row <| ScheduledTask.lease_until := Some (Claim.lease_until claim) |>
      <| ScheduledTask.lease_owner := Some (Claim.lease_owner claim) |>
      <| ScheduledTask.claim_id := Some (Claim.claim_id claim) |>
      <| ScheduledTask.updated_at := Some now |>.

Definition due_now (now : Z) (t : ScheduledTask.t) : bool :=
  ScheduledTask.enabled t && is_active t && (ScheduledTask.next_run_at t <=? now) && lease_free now t.

Section registry.
(** [calculator.next_after(expression, base, timezone)] *)
Context (next_after : string -> Z -> string -> result Z).

Fixpoint claim_loop (d : sdb) (rows : list ScheduledTask.t) (now lease_seconds : Z)
    (ids : list (string * string)) : sdb * result (list Claim.t) :=
  match rows, ids with
  | task :: rows, drawn :: ids =>
      match next_after (ScheduledTask.schedule task) now (ScheduledTask.timezone task) with
      | Raise e => (d, Raise e)
      | Return next_run =>
          let claim := make_claim task now lease_seconds CLAIM_REASON_DUE next_run drawn in
          let cond t := with_id (ScheduledTask.id task) t && ScheduledTask.enabled t && is_active t
                        && lease_free now t in
          let r := claim_loop (update_tasks cond
            (fun row => leased claim now row <| ScheduledTask.next_run_at := next_run |>) d) rows now lease_seconds ids in
          (r.1, let? claims := r.2 in
                Return (if (0 <? rowcount cond (scheduled_tasks d))%nat then claim :: claims else claims))
      end
  | _, _ => (d, Return [])
  end.

Definition due_rows (d : sdb) (now limit : Z) : list ScheduledTask.t :=
  limited limit (order_by due_leb (List.filter (due_now now) (scheduled_tasks d))).

(** A raise leaves the transaction uncommitted.  [ids] are the identifiers drawn, two
    for each row. *)
Definition claim_due_tasks (d : sdb) (now limit lease_seconds : Z) (ids : list (string * string))
    : sdb * result (list Claim.t) :=
  match claim_loop d (due_rows d now limit) now lease_seconds ids with
  | (_, Raise e) => (d, Raise e)
  | (d', Return claims) => (d', Return claims)
  end.
End registry.

(** The claim of a row is no longer running. *)
Definition claim_ended (d : sdb) (t : ScheduledTask.t) : bool :=
  existsb (fun e => bool_decide (Execution.task_id e = ScheduledTask.id t)
                    && bool_decide (ScheduledTask.claim_id t = Some (Execution.claim_id e))
                    && bool_decide (ScheduledTask.lease_owner t = Some (Execution.lease_owner e))
                    && negb (bool_decide (Execution.status e = ExecutionStatus.RUNNING))) (executions d).

Definition claimable_now (d : sdb) (now : Z) (t : ScheduledTask.t) : bool :=
  ScheduledTask.enabled t && is_active t && (lease_free now t || claim_ended d t).

Definition claim_task_for_run_now (d : sdb) (task_id : string) (now lease_seconds : Z) (ids : string * string)
    : sdb * option Claim.t :=
  match List.find (fun t => with_id task_id t && claimable_now d now t) (scheduled_tasks d) with
  | None => (d, None)
  | Some task =>
      let claim := make_claim task now lease_seconds CLAIM_REASON_RUN_NOW (ScheduledTask.next_run_at task) ids in
      let cond t := with_id (ScheduledTask.id task) t && claimable_now d now t in
      (update_tasks cond (leased claim now) d,
       if (0 <? rowcount cond (scheduled_tasks d))%nat then Some claim else None)
  end.

(** ** Executions *)

Definition record_execution_started (d : sdb) (e : Execution.t) (now : Z) : sdb * result Execution.t :=
  if existsb (fun x => bool_decide (Execution.id x = Execution.id e)) (executions d) then (d, Raise IntegrityError)
  else
    let row := e <| Execution.created_at := Some (default now (Execution.created_at e)) |> in
    (d <| executions := executions d ++ [row] |>, Return e).

(** [id=? AND claim_id=? AND lease_owner=?] *)
Definition holds_claim (task_id claim_id lease_owner : string) (t : ScheduledTask.t) : bool :=
  with_id task_id t && bool_decide (ScheduledTask.claim_id t = Some claim_id)
  && bool_decide (ScheduledTask.lease_owner t = Some lease_owner).

Definition same_execution (d : sdb) (e x : Execution.t) : bool :=
  bool_decide (Execution.id x = Execution.id e)
  && existsb (holds_claim (Execution.task_id e) (Execution.claim_id e) (Execution.lease_owner e)) (scheduled_tasks d).

Definition record_execution_completed (d : sdb) (e : Execution.t) (now : Z) : sdb * bool :=
  let d1 := update_executions (same_execution d e)
    (fun x => x <| Execution.completed_at := Execution.completed_at e |>
                <| Execution.status := Execution.status e |>
                <| Execution.output := Execution.output e |>
                <| Execution.error := Execution.error e |>) d in
  if (0 <? rowcount (same_execution d e) (executions d))%nat then
    (update_tasks (holds_claim (Execution.task_id e) (Execution.claim_id e) (Execution.lease_owner e))
        (fun t => t <| ScheduledTask.last_run_at := Execution.completed_at e |>
                    <| ScheduledTask.last_status := Some (Execution.status e) |>
                    <| ScheduledTask.last_error := Execution.error e |>
                    <| ScheduledTask.lease_until := None |>
                    <| ScheduledTask.updated_at := Some now |>) d1, true)
  else (d1, false).

Definition record_delivery_result (d : sdb) (e : Execution.t) (now : Z) : sdb * bool :=
  let d1 := update_executions (same_execution d e)
    (fun x => x <| Execution.delivery_status := Execution.delivery_status e |>
                <| Execution.delivery_error := Execution.delivery_error e |>) d in
  if (0 <? rowcount (same_execution d e) (executions d))%nat then
    (update_tasks (holds_claim (Execution.task_id e) (Execution.claim_id e) (Execution.lease_owner e))
        (fun t => t <| ScheduledTask.last_delivery_error := Execution.delivery_error e |>
                    <| ScheduledTask.updated_at := Some now |>) d1, true)
  else (d1, false).

(** A running execution is stale when its claim's lease is over or another claim
    has taken its task; SQL's [!=] is not true of [NULL]. *)
Definition stale_for (now : Z) (e : Execution.t) (t : ScheduledTask.t) : bool :=
  bool_decide (ScheduledTask.id t = Execution.task_id e)
  && ((bool_decide (ScheduledTask.claim_id t = Some (Execution.claim_id e))
       && bool_decide (ScheduledTask.lease_owner t = Some (Execution.lease_owner e))
       && match ScheduledTask.lease_until t with Some until => until <? now | None => false end)
      || match ScheduledTask.claim_id t with
         | Some c => negb (bool_decide (c = Execution.claim_id e)) | None => false end).
Definition stale (d : sdb) (now : Z) (e : Execution.t) : bool :=
  bool_decide (Execution.status e = ExecutionStatus.RUNNING) && existsb (stale_for now e) (scheduled_tasks d).

Definition lease_over (now : Z) (t : ScheduledTask.t) : bool :=
  match ScheduledTask.lease_until t with Some until => until <? now | None => false end.

Definition recover_stale_executions (d : sdb) (now : Z) : sdb * nat :=
  let d1 := update_executions (stale d now)
    (fun e => e <| Execution.status := ExecutionStatus.FAILED |>
                <| Execution.completed_at := Some now |>
                <| Execution.error := Some "execution_stale_recovered" |>) d in
  (update_tasks (lease_over now)
     (fun t => t <| ScheduledTask.lease_until := None |> <| ScheduledTask.updated_at := Some now |>) d1,
   rowcount (stale d now) (executions d)).

Definition newest_first (a b : Execution.t) : bool :=
  default 0 (Execution.created_at b) <=? default 0 (Execution.created_at a).
Definition list_all_executions (d : sdb) (limit : Z) (task_id : option string) : list Execution.t :=
  limited limit (order_by newest_first
    (match task_id with
     | None => executions d
     | Some i => List.filter (fun e => bool_decide (Execution.task_id e = i)) (executions d)
     end)).
Definition list_executions (d : sdb) (task_id : string) (limit : Z) : list Execution.t :=
  list_all_executions d limit (Some task_id).

(** ** Marks *)

Definition mark_dashboard_unread (d : sdb) (task_id claim_id lease_owner : string) (now : Z) : sdb * bool :=
  (update_tasks (holds_claim task_id claim_id lease_owner)
     (fun t => t <| ScheduledTask.unread_count := ScheduledTask.unread_count t + 1 |>
                 <| ScheduledTask.updated_at := Some now |>) d,
   (0 <? rowcount (holds_claim task_id claim_id lease_owner) (scheduled_tasks d))%nat).
Definition clear_dashboard_unread (d : sdb) (task_id : string) (now : Z) : sdb * bool :=
  (update_tasks (with_id task_id)
     (fun t => t <| ScheduledTask.unread_count := 0 |> <| ScheduledTask.updated_at := Some now |>) d,
   (0 <? rowcount (with_id task_id) (scheduled_tasks d))%nat).

Definition mark_session_missing (d : sdb) (session_id : string) (now : Z) : sdb * nat :=
  let cond t := bool_decide (ScheduledTask.session_id t = session_id) && negb (is_deleted t) in
  (update_tasks cond
     (fun t => t <| ScheduledTask.enabled := false |>
                 <| ScheduledTask.status := ScheduledTaskStatus.SESSION_MISSING |>
                 <| ScheduledTask.updated_at := Some now |>) d,
   rowcount cond (scheduled_tasks d)).

Definition recoverable (t : ScheduledTask.t) : bool :=
  bool_decide (ScheduledTask.status t = ScheduledTaskStatus.SESSION_MISSING)
  && bool_decide (target_type (ScheduledTask.delivery_target t) = DeliveryTargetType.ORIGIN).
Definition list_recoverable_origin_tasks (d : sdb) : list ScheduledTask.t :=
  order_by due_leb (List.filter recoverable (scheduled_tasks d)).

(** ** Migration of the [source_type] key *)

Definition normalize_origin_platform (value : dict) : dict * bool :=
  match obj_get "source_type" value with
  | None => (value, false)
  | Some v => (dict_set "platform" v (dict_pop "source_type" value), true)
  end.

Definition migrate_row (t : ScheduledTask.t) : ScheduledTask.t :=
  let '(origin, origin_changed) := normalize_origin_platform (ScheduledTask.origin t) in
  let target := ScheduledTask.delivery_target t in
  let '(context, delivery_changed) := normalize_origin_platform (target_context target) in
  if negb origin_changed && negb delivery_changed then t
  else t <| ScheduledTask.origin := origin |>
         <| ScheduledTask.delivery_target := mkDeliveryTarget (target_type target) context |>.
Definition migrate_origin_source_type_to_platform (d : sdb) : sdb :=
  d <| scheduled_tasks := map migrate_row (scheduled_tasks d) |>.
