(* ===== verification/ScheduleProps.v ===== *)
(** What the schedule registry guarantees over every sequence of its operations:
    identifiers stay unique, a held claim excludes every other claim of its task, a
    superseded claim has no effect, recovery takes exactly the stale executions. *)
From S2P Require Import Prelude Json Schedules.
Open Scope Z_scope.

(** * Operations as data *)

Inductive sop : Type :=
  | SCreate (task : ScheduledTask.t) (now : Z)
  | SUpdate (task : ScheduledTask.t) (now : Z)
  | SUpdateStatus (task_id : string) (status : ScheduledTaskStatus.t) (on : bool) (now : Z)
  | SDelete (task_id : string)
  | SClaimDue (now limit lease : Z) (ids : list (string * string))
  | SRunNow (task_id : string) (now lease : Z) (ids : string * string)
  | SStart (e : Execution.t) (now : Z)
  | SComplete (e : Execution.t) (now : Z)
  | SDeliver (e : Execution.t) (now : Z)
  | SRecover (now : Z)
  | SUnread (task_id claim_id lease_owner : string) (now : Z)
  | SClear (task_id : string) (now : Z)
  | SMissing (session_id : string) (now : Z)
  | SMigrate.

Section history.
Context (next_after : string -> Z -> string -> result Z).

Definition exec_sop (d : sdb) (o : sop) : sdb :=
  match o with
  | SCreate task now => (create_row d task now).1
  | SUpdate task now => (update_row d task now).1
  | SUpdateStatus id status on now => (update_status d id status on now).1
  | SDelete id => (delete_row d id).1
  | SClaimDue now limit lease ids => (claim_due_tasks next_after d now limit lease ids).1
  | SRunNow id now lease ids => (claim_task_for_run_now d id now lease ids).1
  | SStart e now => (record_execution_started d e now).1
  | SComplete e now => (record_execution_completed d e now).1
  | SDeliver e now => (record_delivery_result d e now).1
  | SRecover now => (recover_stale_executions d now).1
  | SUnread id c o now => (mark_dashboard_unread d id c o now).1
  | SClear id now => (clear_dashboard_unread d id now).1
  | SMissing sid now => (mark_session_missing d sid now).1
  | SMigrate => migrate_origin_source_type_to_platform d
  end.

Definition exec_sops (d : sdb) (ops : list sop) : sdb := fold_left exec_sop ops d.

(** * Rows by identifier *)

Definition task_ids (d : sdb) : list string := map ScheduledTask.id (scheduled_tasks d).
Definition execution_ids (d : sdb) : list string := map Execution.id (executions d).

Record sdb_ok (d : sdb) : Prop := {
  ok_task_ids : NoDup (task_ids d);
  ok_execution_ids : NoDup (execution_ids d)
}.

Lemma map_if_id {A B} (f : A -> B) (cond : A -> bool) (set : A -> A) l :
  (forall x, x ∈ l -> cond x = true -> f (set x) = f x) ->
  map f (map (fun x => if cond x then set x else x) l) = map f l.
Proof.
  intros H. rewrite map_map. apply map_ext_in. intros x Hx%list_elem_of_In. case_match; [|done]. by apply H.
Qed.

Lemma update_tasks_ok cond set d :
  (forall t, cond t = true -> ScheduledTask.id (set t) = ScheduledTask.id t) ->
  sdb_ok d -> sdb_ok (update_tasks cond set d).
Proof.
  intros Hid [H1 H2]. split; [|done]. unfold task_ids, update_tasks in *. cbn. rewrite map_if_id; auto.
Qed.

Lemma update_executions_ok cond set d :
  (forall e, cond e = true -> Execution.id (set e) = Execution.id e) ->
  sdb_ok d -> sdb_ok (update_executions cond set d).
Proof.
  intros Hid [H1 H2]. split; [done|]. unfold execution_ids, update_executions in *. cbn. rewrite map_if_id; auto.
Qed.

Lemma claim_loop_ok d rows now lease ids : sdb_ok d -> sdb_ok (claim_loop next_after d rows now lease ids).1.
Proof.
  revert d ids. induction rows as [|t rows IH]; intros d [|i ids] Hd; cbn [claim_loop]; try done.
  destruct (next_after _ _ _) as [next|e]; [|done]. apply IH. by apply update_tasks_ok.
Qed.

Lemma not_existsb_notin {A} (f : A -> string) (x : string) l :
  existsb (fun a => bool_decide (f a = x)) l = false -> x ∉ map f l.
Proof.
  rewrite existsb_false. intros H (a & -> & Ha)%list_elem_of_fmap. apply H in Ha.
  by apply bool_decide_eq_false in Ha.
Qed.

Lemma insert_ok {A} (f : A -> string) x l :
  existsb (fun a => bool_decide (f a = f x)) l = false -> NoDup (map f l) -> NoDup (map f (l ++ [x])).
Proof.
  intros He Hl. rewrite map_app. cbn. apply NoDup_app. split; [done|]. split; [|apply NoDup_singleton].
  intros y Hy ->%list_elem_of_singleton. by apply not_existsb_notin in He.
Qed.

Lemma exec_sop_ok d o : sdb_ok d -> sdb_ok (exec_sop d o).
Proof.
  intros Hd. destruct o; cbn [exec_sop].
  - unfold create_row. destruct (existsb _ _) eqn:He; [done|]. destruct Hd as [H1 H2]. split; [|done].
    by apply (insert_ok ScheduledTask.id).
  - apply update_tasks_ok; [|done]. intros t Ht%bool_decide_eq_true. by rewrite Ht.
  - by apply update_tasks_ok.
  - destruct Hd as [H1 H2]. split; [|done]. unfold delete_row, task_ids in *. cbn.
    eapply sublist_NoDup; [exact H1|]. apply fmap_sublist.
    clear. induction (scheduled_tasks d) as [|t l IH]; cbn; [done|]. case_match; by constructor.
  - unfold claim_due_tasks. pose proof (claim_loop_ok d (due_rows d now limit) now lease ids Hd) as H.
    by destruct (claim_loop _ _ _ _ _ _) as [d' [claims|e]].
  - unfold claim_task_for_run_now. destruct (List.find _ _) as [t|]; [|done]. by apply update_tasks_ok.
  - unfold record_execution_started. destruct (existsb _ _) eqn:He; [done|]. destruct Hd as [H1 H2]. split; [done|].
    by apply (insert_ok Execution.id).
  - unfold record_execution_completed. case_match; cbn; [apply update_tasks_ok; [done|]|]; by apply update_executions_ok.
  - unfold record_delivery_result. case_match; cbn; [apply update_tasks_ok; [done|]|]; by apply update_executions_ok.
  - apply update_tasks_ok; [done|]. by apply update_executions_ok.
  - by apply update_tasks_ok.
  - by apply update_tasks_ok.
  - by apply update_tasks_ok.
  - destruct Hd as [H1 H2]. split; [|done]. unfold task_ids, migrate_origin_source_type_to_platform in *. cbn.
    rewrite map_map. erewrite map_ext; [exact H1|]. intros t. unfold migrate_row.
    destruct (normalize_origin_platform (ScheduledTask.origin t)) as [o b].
    destruct (normalize_origin_platform _) as [c b']. by case_match.
Qed.

(** * The row of a task *)

Definition row_at (d : sdb) (id : string) : option ScheduledTask.t := List.find (with_id id) (scheduled_tasks d).

Lemma row_at_id d id t : row_at d id = Some t -> ScheduledTask.id t = id.
Proof. intros [_ H]%find_some. by apply bool_decide_eq_true in H. Qed.

Lemma row_at_in d id t : row_at d id = Some t -> t ∈ scheduled_tasks d.
Proof. intros [H _]%find_some. by apply list_elem_of_In. Qed.

Lemma in_row_at d t : sdb_ok d -> t ∈ scheduled_tasks d -> row_at d (ScheduledTask.id t) = Some t.
Proof.
  intros [Hnd _]. unfold task_ids, row_at in *. induction (scheduled_tasks d) as [|x l IH]; [by intros ?%elem_of_nil|].
  inversion Hnd as [|? ? Hx Hl]; subst. intros [->|Hin]%elem_of_cons; cbn; unfold with_id.
  - by rewrite bool_decide_eq_true_2.
  - rewrite bool_decide_eq_false_2; [by apply IH|]. intros E. apply Hx. rewrite E. by apply list_elem_of_fmap_2.
Qed.

Lemma row_unique d t t' :
  sdb_ok d -> t ∈ scheduled_tasks d -> t' ∈ scheduled_tasks d -> ScheduledTask.id t = ScheduledTask.id t' -> t = t'.
Proof. intros Hd Ht%(in_row_at _ _ Hd) Ht'%(in_row_at _ _ Hd) E. rewrite E in Ht. congruence. Qed.

Lemma row_at_update cond set d id :
  (forall t, cond t = true -> ScheduledTask.id (set t) = ScheduledTask.id t) ->
  row_at (update_tasks cond set d) id = (fun t => if cond t then set t else t) <$> row_at d id.
Proof.
  intros H. unfold row_at, update_tasks. cbn. induction (scheduled_tasks d) as [|t l IH]; cbn; [done|].
  assert (Hw : with_id id (if cond t then set t else t) = with_id id t).
  { unfold with_id. case_match; [|done]. by rewrite H. }
  rewrite Hw. by destruct (with_id id t).
Qed.

Lemma row_at_executions cond set d id : row_at (update_executions cond set d) id = row_at d id.
Proof. done. Qed.

Lemma rowcount_pos {A} (cond : A -> bool) l : (0 <? rowcount cond l)%nat = existsb cond l.
Proof. unfold rowcount. induction l as [|x l IH]; cbn; [done|]. by destruct (cond x). Qed.

Lemma find_map_other {A} (f g : A -> bool) (h : A -> A) l :
  (forall x, g (h x) = g x) -> List.find g (map h l) = h <$> List.find g l.
Proof. intros H. induction l as [|x l IH]; cbn; [done|]. rewrite H. by destruct (g x). Qed.

(** ** What a batch of claims does *)

Definition next_of (t : ScheduledTask.t) (now : Z) : Z :=
  match next_after (ScheduledTask.schedule t) now (ScheduledTask.timezone t) with Return n => n | Raise _ => 0 end.
Definition due_claim (now lease : Z) (t : ScheduledTask.t) (ids : string * string) : Claim.t :=
  make_claim t now lease CLAIM_REASON_DUE (next_of t now) ids.
(** The row after its due claim. *)
Definition due_leased (now lease : Z) (t : ScheduledTask.t) (ids : string * string) : ScheduledTask.t :=
  leased (due_claim now lease t ids) now t <| ScheduledTask.next_run_at := next_of t now |>.

Definition claimable (now : Z) (t : ScheduledTask.t) : bool :=
  ScheduledTask.enabled t && is_active t && lease_free now t.

Lemma claim_loop_spec d rows now lease ids claims :
  sdb_ok d -> NoDup (map ScheduledTask.id rows) -> (length rows <= length ids)%nat ->
  Forall (fun t => t ∈ scheduled_tasks d /\ claimable now t = true) rows ->
  (claim_loop next_after d rows now lease ids).2 = Return claims ->
  claims = zip_with (due_claim now lease) rows ids
  /\ (forall k t i, rows !! k = Some t -> ids !! k = Some i ->
        row_at (claim_loop next_after d rows now lease ids).1 (ScheduledTask.id t) = Some (due_leased now lease t i))
  /\ (forall id, id ∉ map ScheduledTask.id rows ->
        row_at (claim_loop next_after d rows now lease ids).1 id = row_at d id).
Proof.
  revert d ids claims. induction rows as [|t rows IH]; intros d [|i ids] claims Hd Hnd Hlen Hrows; cbn [claim_loop].
  1-2: by intros [= <-]. { cbn in Hlen. lia. }
  inversion Hnd as [|? ? Ht Hnd']; subst. inversion Hrows as [|? ? [Hin Hcl] Hrows']; subst.
  assert (Hnext : forall n, next_after (ScheduledTask.schedule t) now (ScheduledTask.timezone t) = Return n -> next_of t now = n).
  { unfold next_of. by intros n ->. }
  destruct (next_after _ _ _) as [next|e]; [|done]. specialize (Hnext _ eq_refl). cbn [fst snd].
  set (cond := fun x => _). set (set := fun row => _). set (d1 := update_tasks cond set d).
  assert (Hset : forall x, cond x = true -> ScheduledTask.id (set x) = ScheduledTask.id x) by done.
  assert (Hd1 : sdb_ok d1) by by apply update_tasks_ok.
  assert (Hct : cond t = true).
  { unfold cond, claimable in *. unfold with_id. rewrite bool_decide_eq_true_2 by done. by rewrite <- !andb_assoc in *. }
  assert (Hother : forall x, ScheduledTask.id x <> ScheduledTask.id t -> cond x = false).
  { intros x Hx. unfold cond, with_id. by rewrite (bool_decide_eq_false_2 (ScheduledTask.id x = _)). }
  assert (Hcount : (0 <? rowcount cond (scheduled_tasks d))%nat = true).
  { rewrite rowcount_pos. apply existsb_exists. exists t. by rewrite <- list_elem_of_In. }
  rewrite Hcount. destruct (claim_loop next_after d1 rows now lease ids).2 as [claims'|e] eqn:Hr; [|done].
  cbn [bind_result]. intros [= <-].
  assert (Hrows1 : Forall (fun x => x ∈ scheduled_tasks d1 /\ claimable now x = true) rows).
  { rewrite Forall_forall in Hrows' |- *. intros x Hx. destruct (Hrows' x Hx) as [Hxin Hxc]. split; [|done].
    unfold d1, update_tasks. cbn. apply list_elem_of_fmap. exists x. split; [|done]. rewrite Hother; [done|].
    intros E. apply Ht. rewrite <- E. by apply list_elem_of_fmap_2. }
  destruct (IH d1 ids claims' Hd1 Hnd' ltac:(cbn in Hlen; lia) Hrows1 Hr) as (-> & Hin1 & Hout1).
  split; [unfold due_claim at 2; cbn [zip_with]; by rewrite Hnext|]. split.
  - intros [|k] t' i'; cbn [lookup list_lookup]; [|by apply Hin1]. intros [= <-] [= <-]. rewrite Hout1 by done.
    unfold d1. rewrite row_at_update by done. rewrite (in_row_at d t Hd Hin). cbn. rewrite Hct.
    unfold due_leased, due_claim. by rewrite Hnext.
  - intros id Hid. apply not_elem_of_cons in Hid as [Hne Hid]. rewrite Hout1 by done.
    unfold d1. rewrite row_at_update by done. destruct (row_at d id) as [x|] eqn:Hx; [|done]. cbn.
    rewrite Hother; [done|]. by rewrite (row_at_id _ _ _ Hx).
Qed.

(** ** The rows that are due *)

Lemma limited_sublist {A} limit (l : list A) : limited limit l `sublist_of` l.
Proof. unfold limited. case_match; [done|]. apply sublist_take. Qed.

Lemma due_leb_total a b : due_leb a b = true \/ due_leb b a = true.
Proof. unfold due_leb. rewrite !Z.leb_le. lia. Qed.
Lemma due_leb_trans a b c : due_leb a b = true -> due_leb b c = true -> due_leb a c = true.
Proof. unfold due_leb. rewrite !Z.leb_le. lia. Qed.

Lemma due_rows_elem d now limit t : t ∈ due_rows d now limit -> t ∈ scheduled_tasks d /\ due_now now t = true.
Proof.
  intros H. apply (sublist_subseteq _ _ (limited_sublist _ _)) in H.
  rewrite (order_by_perm due_leb) in H. by apply List_filter_elem in H.
Qed.

Lemma due_rows_nodup d now limit : sdb_ok d -> NoDup (map ScheduledTask.id (due_rows d now limit)).
Proof.
  intros [Hnd _]. unfold due_rows.
  eapply sublist_NoDup; [|apply fmap_sublist, limited_sublist].
  eapply NoDup_Permutation_proper; [apply fmap_Permutation, order_by_perm|].
  eapply sublist_NoDup; [exact Hnd|]. apply fmap_sublist.
  induction (scheduled_tasks d) as [|t l IH]; cbn; [done|]. case_match; by constructor.
Qed.

(** A due task is among the rows taken, unless the limit cut it off behind rows due
    no later. *)
Lemma due_rows_complete d now limit t :
  t ∈ scheduled_tasks d -> due_now now t = true ->
  t ∈ due_rows d now limit
  \/ 0 <= limit /\ Z.of_nat (length (due_rows d now limit)) = limit
     /\ forall r, r ∈ due_rows d now limit -> ScheduledTask.next_run_at r <= ScheduledTask.next_run_at t.
Proof.
  intros Hin Hdue. unfold due_rows. set (l := order_by due_leb _).
  assert (Ht : t ∈ l) by (unfold l; rewrite order_by_perm; by apply List_filter_elem).
  assert (Hs : StronglySorted (fun a b => due_leb a b = true) l)
    by (apply order_by_sorted; [apply due_leb_total|apply due_leb_trans]).
  unfold limited. destruct (Z.ltb_spec limit 0) as [|Hl]; [by left|].
  rewrite <- (take_drop (Z.to_nat limit) l) in Ht, Hs. apply elem_of_app in Ht as [Ht|Ht]; [by left|]. right.
  split; [done|]. split.
  - rewrite length_take. assert (drop (Z.to_nat limit) l <> []) as Hne by (intros E; rewrite E in Ht; by apply elem_of_nil in Ht).
    assert (Z.to_nat limit < length l)%nat; [|lia].
    destruct (decide (Z.to_nat limit < length l)%nat); [done|]. exfalso. apply Hne. apply drop_ge. lia.
  - intros r Hr. apply Z.leb_le. change (due_leb r t = true). revert Hs Hr Ht.
    generalize (take (Z.to_nat limit) l) (drop (Z.to_nat limit) l). intros l1 l2. induction l1 as [|x l1 IH]; cbn.
    + by intros _ ?%elem_of_nil.
    + intros Hs. inversion Hs as [|? ? Hs' Hx]; subst. intros [->|Hr]%elem_of_cons Ht; [|by apply IH].
      rewrite Forall_forall in Hx. apply Hx. apply elem_of_app. by right.
Qed.

Lemma limited_length {A} limit (l : list A) : 0 <= limit -> Z.of_nat (length (limited limit l)) <= limit.
Proof. intros Hl. unfold limited. rewrite (proj2 (Z.ltb_ge _ _) Hl), length_take. lia. Qed.

(** The rows are taken in the order they are due. *)
Lemma due_rows_sorted d now limit :
  StronglySorted (fun a b => ScheduledTask.next_run_at a <= ScheduledTask.next_run_at b) (due_rows d now limit).
Proof.
  unfold due_rows. set (l := order_by due_leb _).
  assert (Hs : StronglySorted (fun a b => due_leb a b = true) l)
    by (apply order_by_sorted; [apply due_leb_total|apply due_leb_trans]).
  assert (Hle : StronglySorted (fun a b => ScheduledTask.next_run_at a <= ScheduledTask.next_run_at b) l).
  { induction Hs as [|t l Hs IH Ht]; constructor; [done|]. eapply Forall_impl; [exact Ht|]. intros x. apply Z.leb_le. }
  unfold limited. destruct (limit <? 0); [done|]. clear Hs. revert Hle. generalize (Z.to_nat limit) as n.
  induction l as [|t l IH]; intros [|n] Hle; cbn; [constructor..|]. apply StronglySorted_inv in Hle as [Hl Ht].
  constructor; [by apply IH|]. by apply Forall_take.
Qed.

Lemma due_satisfies now t :
  due_now now t = Constraints.is_satisfied_by (Constraints.for_due_claim now) t.
Proof.
  unfold due_now, Constraints.is_satisfied_by, Constraints.for_due_claim, lease_free. cbn.
  destruct (ScheduledTask.enabled t); cbn; [|done]. case_bool_decide; cbn; [|done].
  rewrite Z.ltb_antisym. destruct (_ <=? now); cbn; [|done].
  destruct (ScheduledTask.lease_until t); [|done]. apply Z.ltb_antisym.
Qed.

Lemma claimable_satisfies now t :
  claimable now t = Constraints.is_satisfied_by (Constraints.for_run_now_claim now) t.
Proof.
  unfold claimable, Constraints.is_satisfied_by, Constraints.for_run_now_claim, lease_free. cbn.
  destruct (ScheduledTask.enabled t); cbn; [|done]. case_bool_decide; cbn; [|done].
  destruct (ScheduledTask.lease_until t); [|done]. apply Z.ltb_antisym.
Qed.

Lemma due_claimable now t : due_now now t = true -> claimable now t = true.
Proof. unfold due_now, claimable. by rewrite !andb_true_iff; intros [[[? ?] ?] ?]. Qed.

Lemma claim_due_spec d now limit lease ids d' claims :
  sdb_ok d -> (length (due_rows d now limit) <= length ids)%nat ->
  claim_due_tasks next_after d now limit lease ids = (d', Return claims) ->
  claims = zip_with (due_claim now lease) (due_rows d now limit) ids
  /\ (forall k t i, due_rows d now limit !! k = Some t -> ids !! k = Some i ->
        row_at d' (ScheduledTask.id t) = Some (due_leased now lease t i))
  /\ (forall id, id ∉ map ScheduledTask.id (due_rows d now limit) -> row_at d' id = row_at d id).
Proof.
  intros Hd Hlen. unfold claim_due_tasks.
  assert (Hrows : Forall (fun t => t ∈ scheduled_tasks d /\ claimable now t = true) (due_rows d now limit)).
  { apply Forall_forall. intros t [Hin Hdue]%due_rows_elem. split; [done|]. by apply due_claimable. }
  pose proof (fun c => claim_loop_spec d (due_rows d now limit) now lease ids c Hd (due_rows_nodup d now limit Hd) Hlen Hrows) as H.
  destruct (claim_loop _ _ _ _ _ _) as [d1 [c|e]]; [|done]. intros [= <- <-]. by apply H.
Qed.

(** C17. A tick claims exactly the due tasks.  With identifiers to draw and a calculator
    that answers, [claim_due_tasks] claims, each once and in the order they are due, the
    tasks that satisfy the constraints of a due claim: at most [limit], and where one is
    left out, [limit] that are due no later; each gets a lease under its own claim and
    the next run after now, no other row is changed; and a manual claim succeeds whenever
    its constraints hold. *)
Theorem due_claims_exact d now limit lease ids d' claims :
  sdb_ok d -> (length (due_rows d now limit) <= length ids)%nat ->
  claim_due_tasks next_after d now limit lease ids = (d', Return claims) ->
  (forall t, t ∈ map Claim.task claims ->
     t ∈ scheduled_tasks d /\ Constraints.is_satisfied_by (Constraints.for_due_claim now) t = true)
  /\ (forall t, t ∈ scheduled_tasks d -> Constraints.is_satisfied_by (Constraints.for_due_claim now) t = true ->
       t ∈ map Claim.task claims
       \/ 0 <= limit /\ Z.of_nat (length claims) = limit
          /\ forall c, c ∈ claims -> ScheduledTask.next_run_at (Claim.task c) <= ScheduledTask.next_run_at t)
  /\ NoDup (map (ScheduledTask.id ∘ Claim.task) claims)
  /\ StronglySorted (fun a b => ScheduledTask.next_run_at a <= ScheduledTask.next_run_at b) (map Claim.task claims)
  /\ (0 <= limit -> Z.of_nat (length claims) <= limit)
  /\ (forall c, c ∈ claims -> row_at d' (ScheduledTask.id (Claim.task c))
         = Some (leased c now (Claim.task c) <| ScheduledTask.next_run_at := next_of (Claim.task c) now |>))
  /\ (forall id, id ∉ map (ScheduledTask.id ∘ Claim.task) claims -> row_at d' id = row_at d id)
  /\ (forall t pair, t ∈ scheduled_tasks d ->
       Constraints.is_satisfied_by (Constraints.for_run_now_claim now) t = true ->
       (claim_task_for_run_now d (ScheduledTask.id t) now lease pair).2
       = Some (make_claim t now lease CLAIM_REASON_RUN_NOW (ScheduledTask.next_run_at t) pair)).
Proof.
  intros Hd Hlen Hc. destruct (claim_due_spec _ _ _ _ _ _ _ Hd Hlen Hc) as (-> & Hin & Hout).
  assert (Htasks : map Claim.task (zip_with (due_claim now lease) (due_rows d now limit) ids) = due_rows d now limit).
  { clear -Hlen. revert ids Hlen. induction (due_rows d now limit) as [|t l IH]; intros [|i ids]; cbn; try done; try lia.
    intros. f_equal. apply IH. lia. }
  assert (Hlength : length (zip_with (due_claim now lease) (due_rows d now limit) ids) = length (due_rows d now limit))
    by (by rewrite <- (length_map Claim.task), Htasks).
  split_and!.
  - rewrite Htasks. intros t [Ht Hdue]%due_rows_elem. by rewrite <- due_satisfies.
  - intros t Ht Hs. rewrite <- due_satisfies in Hs. rewrite Htasks, Hlength.
    destruct (due_rows_complete d now limit t Ht Hs) as [|(? & ? & Hle)]; [by left|right].
    split; [done|]. split; [done|]. intros c Hcin. apply Hle. rewrite <- Htasks. by apply list_elem_of_fmap_2.
  - change (ScheduledTask.id ∘ Claim.task) with (fun c => ScheduledTask.id (Claim.task c)).
    rewrite <- map_map, Htasks. by apply due_rows_nodup.
  - rewrite Htasks. apply due_rows_sorted.
  - rewrite Hlength. apply limited_length.
  - intros c (k & Hk)%list_elem_of_lookup_1. apply lookup_zip_with_Some in Hk as (t & i & -> & Ht & Hi).
    exact (Hin k t i Ht Hi).
  - intros id Hid. apply Hout. rewrite <- Htasks, map_map. exact Hid.
  - intros t pair Ht Hs. rewrite <- claimable_satisfies in Hs. unfold claim_task_for_run_now.
    assert (Hcl : claimable_now d now t = true).
    { unfold claimable_now, claimable in *. rewrite !andb_true_iff in *. destruct Hs as [[? ?] Hf]. by rewrite Hf. }
    destruct (List.find _ _) as [t'|] eqn:Hf.
    + pose proof Hf as [Hin' [Hid' _]%andb_true_iff]%find_some. apply list_elem_of_In in Hin'.
      apply bool_decide_eq_true in Hid'. rewrite (row_unique d t' t Hd Hin' Ht Hid'). cbv zeta. cbn [snd].
      rewrite rowcount_pos. replace (existsb _ _) with true; [done|]. symmetry. apply existsb_exists. exists t.
      split; [by apply list_elem_of_In|]. unfold with_id. by rewrite bool_decide_eq_true_2, Hcl.
    + eapply find_none in Hf; [|apply list_elem_of_In; exact Ht]. unfold with_id in Hf.
      by rewrite bool_decide_eq_true_2, Hcl in Hf.
Qed.
End history.

(** * Witness *)

(** A calculator that runs everything an hour later, and a task that is due. *)
Definition hourly (_ : string) (now : Z) (_ : string) : result Z := Return (now + seconds 3600).
Definition due_task : ScheduledTask.t :=
  ScheduledTask.mk "t" "n" "p" "* * * * *" "UTC" "s" (mkDeliveryTarget DeliveryTargetType.DASHBOARD []) 5 true
    ScheduledTaskStatus.ACTIVE [] (mkScheduledExecutionPolicy "safe_only" false []) None None None None None None
    None 0 (Some 0) (Some 0).
Definition due_db : sdb := mkSdb [due_task] [].
Definition claim_op : sop := SClaimDue 10 5 900 [("c", "o")].
Definition the_claim : Claim.t := due_claim hourly 10 900 due_task ("c", "o").

Lemma due_db_ok : sdb_ok due_db.
Proof. split; cbn; [apply NoDup_singleton|constructor]. Qed.

Lemma due_claims_exact_witness :
  let '(d', r) := claim_due_tasks hourly due_db 10 5 900 [("c", "o")] in
  r = Return [the_claim]
  /\ row_at d' "t" = Some (leased the_claim 10 due_task <| ScheduledTask.next_run_at := 3600000010 |>).
Proof.
  destruct (claim_due_tasks hourly due_db 10 5 900 [("c", "o")]) as [d' r] eqn:Hc.
  pose proof Hc as Hc'. vm_compute in Hc. injection Hc as <- <-. split; [by vm_compute|].
  pose proof (due_claims_exact hourly due_db 10 5 900 [("c", "o")] _ _ due_db_ok ltac:(vm_compute; lia) Hc') as (_ & _ & _ & _ & _ & H & _).
  assert (Hin : the_claim ∈ [the_claim]) by by left.
  etransitivity; [|etransitivity; [exact (H the_claim ltac:(vm_compute; left))|]]; by vm_compute.
Defined.
