(* ===== verification/ScheduleClaims.v ===== *)
(** Claims of scheduled tasks over time: while a claim is held no other can be made of
    its task; once another has taken the task the first is powerless; recovery ends
    exactly the executions whose claim is over. *)
From S2P Require Import Prelude Json Schedules ScheduleProps.
Open Scope Z_scope.

Section claims.
Context (next_after : string -> Z -> string -> result Z).
Notation exec := (exec_sop next_after).

(** [e] belongs to the claim. *)
Definition belongs (e : Execution.t) (id c o : string) : Prop :=
  Execution.task_id e = id /\ Execution.claim_id e = c /\ Execution.lease_owner e = o.

(** * A held claim *)

Definition claim_columns (t : ScheduledTask.t) : option string * option string * option Z :=
  (ScheduledTask.claim_id t, ScheduledTask.lease_owner t, ScheduledTask.lease_until t).

(** The task [id] is claimed until [until], and the claim has not ended. *)
Definition holds (d : sdb) (id c o : string) (until : Z) : Prop :=
  (exists t, row_at d id = Some t /\ claim_columns t = (Some c, Some o, Some until))
  /\ forall e, e ∈ executions d -> belongs e id c o -> Execution.status e = ExecutionStatus.RUNNING.

(** Operations that leave a held claim to its holder: clocks have not passed the
    lease, edits write back the claim columns they read, the task is not deleted, and
    nobody else completes its executions. *)
Definition respects (d : sdb) (id c o : string) (until : Z) (op : sop) : Prop :=
  match op with
  | SUpdate task _ => ScheduledTask.id task = id -> claim_columns task = (Some c, Some o, Some until)
  | SDelete i => i <> id
  | SClaimDue now _ _ _ | SRunNow _ now _ _ | SRecover now => now <= until
  | SStart e _ => belongs e id c o -> Execution.status e = ExecutionStatus.RUNNING
  | SComplete e _ =>
      ~ belongs e id c o
      /\ forall x, x ∈ executions d -> Execution.id x = Execution.id e -> ~ belongs x id c o
  | _ => True
  end.

Fixpoint all_respect (d : sdb) (id c o : string) (until : Z) (ops : list sop) : Prop :=
  match ops with
  | [] => True
  | op :: ops => respects d id c o until op /\ all_respect (exec d op) id c o until ops
  end.

Lemma update_tasks_holds cond set d id c o until :
  (forall t, cond t = true -> ScheduledTask.id (set t) = ScheduledTask.id t) ->
  (forall t, row_at d id = Some t -> cond t = true -> claim_columns (set t) = claim_columns t) ->
  holds d id c o until -> holds (update_tasks cond set d) id c o until.
Proof.
  intros Hid Hset [(t & Ht & Hc) He]. split; [|done]. rewrite row_at_update by done. rewrite Ht. cbn.
  eexists. split; [done|]. case_match; [|done]. by rewrite Hset.
Qed.

Lemma update_executions_holds cond set d id c o until :
  (forall e, cond e = true -> belongs (set e) id c o ->
     belongs e id c o /\ (Execution.status e = ExecutionStatus.RUNNING -> Execution.status (set e) = ExecutionStatus.RUNNING)
     \/ Execution.status (set e) = ExecutionStatus.RUNNING) ->
  holds d id c o until -> holds (update_executions cond set d) id c o until.
Proof.
  intros Hset [Ht He]. split; [done|]. cbn. intros x (e & -> & Hin)%list_elem_of_fmap Hb.
  case_match eqn:Hc; [|by apply He]. destruct (Hset e Hc Hb) as [[Hbe Hrun]|]; [|done]. auto.
Qed.

(** While a claim is held nothing is free: neither is it due nor has it ended. *)
Lemma held_not_free d id c o until t now :
  holds d id c o until -> row_at d id = Some t -> now <= until ->
  lease_free now t = false /\ lease_over now t = false /\ claim_ended d t = false.
Proof.
  intros [(t' & Ht' & Hc) He] Ht Hnow. rewrite Ht in Ht'. injection Ht' as <-.
  unfold claim_columns in Hc. injection Hc as Hc Ho Hu. unfold lease_free, lease_over. rewrite Hu.
  split; [apply Z.ltb_ge; lia|]. split; [apply Z.ltb_ge; lia|].
  unfold claim_ended. apply existsb_false. intros e Hin. rewrite !andb_false_iff, negb_false_iff, !bool_decide_eq_false, bool_decide_eq_true.
  rewrite Hc, Ho. destruct (decide (belongs e id c o)) as [Hb|Hb]; [right; by apply He|].
  left. apply row_at_id in Ht. destruct (decide (Execution.task_id e = ScheduledTask.id t)) as [Hid|]; [|by left; left].
  destruct (decide (Some c = Some (Execution.claim_id e))) as [[= Hce]|]; [|by left; right].
  right. intros [= Hoe]. apply Hb. split; [congruence|]. by split.
Qed.

Lemma claim_loop_executions d rows now lease ids :
  executions (claim_loop next_after d rows now lease ids).1 = executions d.
Proof.
  revert d ids. induction rows as [|t rows IH]; intros d [|i ids]; cbn [claim_loop]; try done.
  destruct (next_after _ _ _); [|done]. cbn. by rewrite IH.
Qed.

Lemma claim_loop_other d rows now lease ids id :
  id ∉ map ScheduledTask.id rows -> row_at (claim_loop next_after d rows now lease ids).1 id = row_at d id.
Proof.
  revert d ids. induction rows as [|t rows IH]; intros d [|i ids] Hid; cbn [claim_loop]; try done.
  apply not_elem_of_cons in Hid as [Hne Hid]. destruct (next_after _ _ _); [|done]. cbn. rewrite IH by done.
  rewrite row_at_update by done. destruct (row_at d id) as [x|] eqn:Hx; [|done]. cbn.
  unfold with_id. rewrite bool_decide_eq_false_2; [done|]. by rewrite (row_at_id _ _ _ Hx).
Qed.

Lemma held_not_due d id c o until now limit :
  sdb_ok d -> holds d id c o until -> now <= until -> id ∉ map ScheduledTask.id (due_rows d now limit).
Proof.
  intros Hd Hh Hnow (t & -> & Ht)%list_elem_of_fmap. apply due_rows_elem in Ht as [Hin Hdue].
  pose proof (in_row_at _ _ Hd Hin) as Hr. destruct (held_not_free _ _ _ _ _ _ _ Hh Hr Hnow) as [Hf _].
  unfold due_now in Hdue. by rewrite Hf, andb_false_r in Hdue.
Qed.

Lemma held_not_claimable d id c o until now t :
  holds d id c o until -> row_at d id = Some t -> now <= until -> claimable_now d now t = false.
Proof.
  intros Hh Ht Hnow. destruct (held_not_free _ _ _ _ _ _ _ Hh Ht Hnow) as (Hf & _ & He).
  unfold claimable_now. by rewrite Hf, He, andb_false_r.
Qed.

Lemma row_at_app d x id t : row_at d id = Some t -> row_at (d <| scheduled_tasks := scheduled_tasks d ++ [x] |>) id = Some t.
Proof. unfold row_at. cbn. intros H. induction (scheduled_tasks d) as [|y l IH]; cbn in *; [done|]. by case_match; auto. Qed.

Lemma row_at_filter d (keep : ScheduledTask.t -> bool) id :
  (forall t, with_id id t = true -> keep t = true) ->
  row_at (d <| scheduled_tasks := List.filter keep (scheduled_tasks d) |>) id = row_at d id.
Proof.
  intros H. unfold row_at. cbn. induction (scheduled_tasks d) as [|t l IH]; cbn; [done|].
  destruct (with_id id t) eqn:Hw; [rewrite (H _ Hw); cbn; by rewrite Hw|].
  case_match; cbn; [by rewrite Hw|done].
Qed.

Lemma migrate_row_columns t :
  ScheduledTask.id (migrate_row t) = ScheduledTask.id t /\ claim_columns (migrate_row t) = claim_columns t.
Proof.
  unfold migrate_row. destruct (normalize_origin_platform (ScheduledTask.origin t)) as [a b].
  destruct (normalize_origin_platform _) as [a' b']. by case_match.
Qed.

Lemma respected_holds d id c o until op :
  sdb_ok d -> respects d id c o until op -> holds d id c o until -> holds (exec d op) id c o until.
Proof.
  intros Hd Hr Hh. destruct op; cbn [exec_sop respects] in *.
  - unfold create_row. case_match; [done|]. destruct Hh as [(t & Ht & Hc) He]. split; [|done].
    exists t. split; [|done]. by apply row_at_app.
  - apply update_tasks_holds; [intros t Ht%bool_decide_eq_true; by rewrite Ht| |done].
    intros t Ht Hw%bool_decide_eq_true. pose proof Hh as [(t' & Ht' & Hc) _]. rewrite Ht in Ht'. injection Ht' as <-.
    rewrite Hc. apply Hr. rewrite <- Hw. by apply row_at_id in Ht.
  - by apply update_tasks_holds.
  - destruct Hh as [(t & Ht & Hc) He]. split; [|done]. exists t. split; [|done].
    etransitivity; [apply row_at_filter|exact Ht]. intros x Hx%bool_decide_eq_true. unfold with_id.
    rewrite bool_decide_eq_false_2; [done|]. congruence.
  - unfold claim_due_tasks. destruct (claim_loop _ _ _ _ _ _) as [d' [claims|e]] eqn:Hl; [|done]. cbn.
    apply (f_equal fst) in Hl. cbn in Hl. subst d'. destruct Hh as [(t & Ht & Hc) He]. split.
    + exists t. split; [|done]. rewrite claim_loop_other; [done|].
      apply held_not_due with c o until; [done|split; [by exists t|done]|done].
    + by rewrite claim_loop_executions.
  - unfold claim_task_for_run_now. destruct (List.find _ _) as [t|] eqn:Hf; [|done]. cbn.
    apply update_tasks_holds; [done| |done]. intros t' Ht' [_ Hcl]%andb_true_iff.
    by rewrite (held_not_claimable _ _ _ _ _ _ _ Hh Ht' Hr) in Hcl.
  - unfold record_execution_started. case_match; [done|]. destruct Hh as [Ht He]. split; [done|]. cbn.
    intros x [Hx| ->%list_elem_of_singleton]%elem_of_app Hb; [by apply He|]. by apply Hr.
  - destruct Hr as [Hr Hx]. assert (H1 : holds (update_executions (same_execution d e)
      (fun x => x <| Execution.completed_at := Execution.completed_at e |>
                  <| Execution.status := Execution.status e |>
                  <| Execution.output := Execution.output e |>
                  <| Execution.error := Execution.error e |>) d) id c o until).
    { destruct Hh as [Ht He]. split; [done|]. cbn. intros y (x & -> & Hin)%list_elem_of_fmap Hb.
      case_match eqn:Hs; [|by apply He]. apply andb_true_iff in Hs as [Hs%bool_decide_eq_true _].
      by destruct (Hx x Hin Hs). }
    unfold record_execution_completed. case_match; [|done]. cbn. apply update_tasks_holds; [done| |done].
    intros t Ht Hc. destruct H1 as [(t' & Ht' & Hcol) _]. rewrite row_at_executions in Ht'. change (row_at d id = Some t) in Ht.
    rewrite Ht in Ht'. injection Ht' as <-. unfold claim_columns in Hcol. injection Hcol as Hcc Hco _.
    unfold holds_claim in Hc. rewrite !andb_true_iff, Hcc, Hco, !bool_decide_eq_true in Hc.
    destruct Hc as [[Hc1%bool_decide_eq_true [= Hc2]] [= Hc3]]. destruct Hr. apply row_at_id in Ht.
    split; [congruence|]. by split.
  - assert (H1 : holds (update_executions (same_execution d e)
      (fun x => x <| Execution.delivery_status := Execution.delivery_status e |>
                  <| Execution.delivery_error := Execution.delivery_error e |>) d) id c o until).
    { apply update_executions_holds; [|done]. intros x _ Hb. by left. }
    unfold record_delivery_result. case_match; [|done]. cbn. by apply update_tasks_holds.
  - unfold recover_stale_executions. cbn. apply update_tasks_holds; [done| |].
    + intros t Ht Hover. change (row_at d id = Some t) in Ht.
      destruct (held_not_free _ _ _ _ _ _ _ Hh Ht Hr) as (_ & Hf & _). congruence.
    + destruct Hh as [(t & Ht & Hc) He]. split; [by exists t|]. cbn. intros y (x & -> & Hin)%list_elem_of_fmap Hb.
      case_match eqn:Hs; [|by apply He]. exfalso. apply andb_true_iff in Hs as [_ Hs].
      apply existsb_exists in Hs as (t' & Ht'%list_elem_of_In & Hst). unfold stale_for in Hst.
      apply andb_true_iff in Hst as [Hid%bool_decide_eq_true Hst]. destruct Hb as (Hb1 & Hb2 & Hb3). cbn in Hb1, Hb2, Hb3.
      assert (t' = t) as ->.
      { apply row_unique with d; [done|done|by apply row_at_in in Ht|]. apply row_at_id in Ht. congruence. }
      unfold claim_columns in Hc. injection Hc as Hcc Hco Hcu. rewrite Hcc, Hco, Hcu in Hst.
      apply orb_true_iff in Hst as [[_ Hlt%Z.ltb_lt]%andb_true_iff|Hne%negb_true_iff%bool_decide_eq_false]; [lia|congruence].
  - by apply update_tasks_holds.
  - by apply update_tasks_holds.
  - by apply update_tasks_holds.
  - destruct Hh as [(t & Ht & Hc) He]. split; [|done]. destruct (migrate_row_columns t) as [_ Hm].
    exists (migrate_row t). split; [|by rewrite Hm]. unfold row_at, migrate_origin_source_type_to_platform. cbn.
    rewrite (find_map_other (with_id id) (with_id id)); [unfold row_at in Ht; by rewrite Ht|].
    intros x. unfold with_id. by destruct (migrate_row_columns x) as [-> _].
Qed.

Lemma respected_all_hold d id c o until ops :
  sdb_ok d -> all_respect d id c o until ops -> holds d id c o until ->
  sdb_ok (exec_sops next_after d ops) /\ holds (exec_sops next_after d ops) id c o until.
Proof.
  revert d. induction ops as [|op ops IH]; intros d Hd; cbn; [done|]. intros [Hr Hall] Hh.
  apply IH; [by apply exec_sop_ok|done|by apply respected_holds].
Qed.

(** ** A claim, once made, is held *)

(** The operation [op] makes the claim [x] on [d]. *)
Definition makes_claim (d : sdb) (op : sop) (x : Claim.t) : Prop :=
  match op with
  | SClaimDue now limit lease ids =>
      (length (due_rows d now limit) <= length ids)%nat
      /\ exists d' claims, claim_due_tasks next_after d now limit lease ids = (d', Return claims) /\ x ∈ claims
  | SRunNow id now lease ids => (claim_task_for_run_now d id now lease ids).2 = Some x
  | _ => False
  end.

Lemma claim_is_held d op x :
  sdb_ok d -> makes_claim d op x ->
  (forall e, e ∈ executions d -> Execution.claim_id e <> Claim.claim_id x) ->
  holds (exec d op) (ScheduledTask.id (Claim.task x)) (Claim.claim_id x) (Claim.lease_owner x) (Claim.lease_until x).
Proof.
  intros Hd Hm Hfresh. destruct op; cbn [makes_claim exec_sop] in *; try done.
  - destruct Hm as (Hlen & d' & claims & Hc & Hx). rewrite Hc. cbn.
    destruct (claim_due_spec _ _ _ _ _ _ _ _ Hd Hlen Hc) as (-> & Hin & _).
    apply list_elem_of_lookup_1 in Hx as (k & Hk). apply lookup_zip_with_Some in Hk as (t & i & -> & Ht & Hi).
    split; [eexists; split; [exact (Hin k t i Ht Hi)|done]|]. cbn.
    replace (executions d') with (executions d).
    { intros e He (_ & Hb & _). by destruct (Hfresh e He). }
    revert Hc. unfold claim_due_tasks. destruct (claim_loop _ _ _ _ _ _) as [d1 [c|e]] eqn:Hl; [|done].
    intros [= <- _]. apply (f_equal fst) in Hl. cbn in Hl. subst d1. by rewrite claim_loop_executions.
  - unfold claim_task_for_run_now in *. destruct (List.find _ _) as [t|] eqn:Hf; [|done]. cbn in *.
    case_match; [|done]. injection Hm as <-. cbn. pose proof Hf as [Hin [Hid Hcl]%andb_true_iff]%find_some.
    apply list_elem_of_In in Hin. apply bool_decide_eq_true in Hid. split.
    + eexists. split; [rewrite row_at_update by done; rewrite (in_row_at _ _ Hd Hin); cbn; unfold with_id; by rewrite bool_decide_eq_true_2, Hcl|done].
    + cbn. intros e He (_ & Hb & _). by destruct (Hfresh e He).
Qed.

(** A claim excludes every other.  From the moment a tick or a manual run claims a
    task, and as long as the lease lasts and only its holder may complete it, no
    sequence of operations, edits that write back what they read included, takes the
    claim away, and neither a tick nor a manual run claims the task again. *)
Theorem schedule_claim_exclusive d op x ops :
  sdb_ok d -> makes_claim d op x ->
  (forall e, e ∈ executions d -> Execution.claim_id e <> Claim.claim_id x) ->
  let id := ScheduledTask.id (Claim.task x) in
  all_respect (exec d op) id (Claim.claim_id x) (Claim.lease_owner x) (Claim.lease_until x) ops ->
  let d' := exec_sops next_after (exec d op) ops in
  (exists t, row_at d' id = Some t /\ ScheduledTask.claim_id t = Some (Claim.claim_id x)
     /\ ScheduledTask.lease_until t = Some (Claim.lease_until x))
  /\ forall now, now <= Claim.lease_until x ->
       (forall limit lease ids y, makes_claim d' (SClaimDue now limit lease ids) y -> ScheduledTask.id (Claim.task y) <> id)
       /\ (forall lease ids, claim_task_for_run_now d' id now lease ids = (d', None)).
Proof.
  intros Hd Hm Hfresh id Hall d'. pose proof (claim_is_held _ _ _ Hd Hm Hfresh) as Hh.
  destruct (respected_all_hold _ _ _ _ _ _ (exec_sop_ok _ _ op Hd) Hall Hh) as [Hd' Hh']. fold d' id in Hd', Hh'.
  split; [destruct Hh' as [(t & Ht & Hc) _]; exists t; unfold claim_columns in Hc; by injection Hc as -> _ ->|].
  intros now Hnow. split.
  - intros limit lease ids y (Hlen & d2 & claims & Hc & Hy) E.
    destruct (claim_due_spec _ _ _ _ _ _ _ _ Hd' Hlen Hc) as (-> & _ & _).
    apply (held_not_due _ _ _ _ _ now limit Hd' Hh' Hnow). rewrite <- E.
    apply list_elem_of_lookup_1 in Hy as (k & Hk). apply lookup_zip_with_Some in Hk as (t & i & -> & Ht & _).
    apply list_elem_of_fmap_2. by apply list_elem_of_lookup_2 with k.
  - intros lease ids. unfold claim_task_for_run_now. destruct (List.find _ _) as [t|] eqn:Hf; [|done]. exfalso.
    apply find_some in Hf as [Hin [Hid Hcl]%andb_true_iff]. apply list_elem_of_In in Hin.
    apply bool_decide_eq_true in Hid. pose proof (in_row_at _ _ Hd' Hin) as Hr. rewrite Hid in Hr.
    by rewrite (held_not_claimable _ _ _ _ _ _ _ Hh' Hr Hnow) in Hcl.
Qed.

(** * A superseded claim *)

(** The task [id] is not claimed by [c] any more. *)
Definition lost (d : sdb) (id c : string) : Prop :=
  forall t, t ∈ scheduled_tasks d -> ScheduledTask.id t = id -> ScheduledTask.claim_id t <> Some c.

(** Operations that do not write the claim [c] into the task: claims draw other
    identifiers, edits do not bring an old row back. *)
Definition leaves_lost (id c : string) (op : sop) : Prop :=
  match op with
  | SCreate task _ | SUpdate task _ => ScheduledTask.id task = id -> ScheduledTask.claim_id task <> Some c
  | SClaimDue _ _ _ ids => c ∉ map fst ids
  | SRunNow _ _ _ ids => ids.1 <> c
  | _ => True
  end.

Lemma update_tasks_lost cond set d id c :
  (forall t, cond t = true -> ScheduledTask.id (set t) = ScheduledTask.id t) ->
  (forall t, cond t = true -> ScheduledTask.id t = id -> ScheduledTask.claim_id (set t) <> Some c \/
     ScheduledTask.claim_id (set t) = ScheduledTask.claim_id t) ->
  lost d id c -> lost (update_tasks cond set d) id c.
Proof.
  intros Hid Hset Hl t (x & -> & Hx)%list_elem_of_fmap. case_match eqn:Hc; [|by apply Hl].
  rewrite (Hid x Hc). intros E. destruct (Hset x Hc E) as [|Heq]; [done|]. rewrite Heq. by apply Hl.
Qed.

Lemma claim_loop_lost d rows now lease ids id c :
  c ∉ map fst ids -> lost d id c -> lost (claim_loop next_after d rows now lease ids).1 id c.
Proof.
  revert d ids. induction rows as [|t rows IH]; intros d [|i ids] Hids Hl; cbn [claim_loop]; try done.
  apply not_elem_of_cons in Hids as [Hi Hids]. destruct (next_after _ _ _); [|done]. apply IH; [done|].
  apply update_tasks_lost; [done| |done]. intros x _ _. left. cbn. congruence.
Qed.

Lemma lost_step d op id c : leaves_lost id c op -> lost d id c -> lost (exec d op) id c.
Proof.
  intros Hop Hl. destruct op; cbn [exec_sop leaves_lost] in *.
  - unfold create_row. case_match; [done|]. cbn. intros t [Ht| ->%list_elem_of_singleton]%elem_of_app; [by apply Hl|].
    exact Hop.
  - apply update_tasks_lost; [intros t Ht%bool_decide_eq_true; by rewrite Ht| |done].
    intros t Ht%bool_decide_eq_true Hid. left. cbn. apply Hop. congruence.
  - apply update_tasks_lost; [done| |done]. by right.
  - intros t [Ht _]%List_filter_elem. by apply Hl.
  - unfold claim_due_tasks. pose proof (claim_loop_lost d (due_rows d now limit) now lease ids id c Hop Hl) as H.
    by destruct (claim_loop _ _ _ _ _ _) as [d' [claims|e]].
  - unfold claim_task_for_run_now. destruct (List.find _ _) as [t|]; [|done]. cbn.
    apply update_tasks_lost; [done| |done]. intros x _ _. left. cbn. congruence.
  - unfold record_execution_started. by case_match.
  - unfold record_execution_completed. case_match; [|done]. cbn. apply update_tasks_lost; [done|by right|done].
  - unfold record_delivery_result. case_match; [|done]. cbn. apply update_tasks_lost; [done|by right|done].
  - apply update_tasks_lost; [done|by right|done].
  - apply update_tasks_lost; [done|by right|done].
  - apply update_tasks_lost; [done|by right|done].
  - apply update_tasks_lost; [done|by right|done].
  - intros t (x & -> & Hx)%list_elem_of_fmap. destruct (migrate_row_columns x) as [-> Hc].
    injection Hc as -> _ _. by apply Hl.
Qed.

Lemma lost_steps d ops id c :
  Forall (leaves_lost id c) ops -> lost d id c -> lost (exec_sops next_after d ops) id c.
Proof. intros Hops. revert d. induction Hops as [|op ops Hop _ IH]; intros d Hl; cbn; [done|]. apply IH. by apply lost_step. Qed.

Lemma map_if_none {A} (cond : A -> bool) (set : A -> A) l :
  existsb cond l = false -> map (fun x => if cond x then set x else x) l = l.
Proof.
  intros H. rewrite existsb_false in H. etransitivity; [|apply map_id]. apply map_ext_in.
  intros x Hx%list_elem_of_In. by rewrite H.
Qed.

Lemma update_none_tasks set d cond : existsb cond (scheduled_tasks d) = false -> update_tasks cond set d = d.
Proof. intros H. destruct d as [ts es]. unfold update_tasks. cbn in *. by rewrite map_if_none. Qed.
Lemma update_none_executions set d cond : existsb cond (executions d) = false -> update_executions cond set d = d.
Proof. intros H. destruct d as [ts es]. unfold update_executions. cbn in *. by rewrite map_if_none. Qed.

Lemma lost_holds_none d id c o : lost d id c -> existsb (holds_claim id c o) (scheduled_tasks d) = false.
Proof.
  intros Hl. apply existsb_false. intros t Ht. unfold holds_claim, with_id.
  destruct (decide (ScheduledTask.id t = id)) as [E|E]; [|by rewrite bool_decide_eq_false_2].
  rewrite (bool_decide_eq_false_2 (_ = Some c)); [by rewrite andb_false_r|by apply Hl].
Qed.

(** A superseded claim is powerless.  Once another claim has taken its task, or the
    task is gone, and as long as no operation writes the old claim back, its worker
    can record neither a completion nor a delivery nor an unread mark: each is
    refused and changes nothing. *)
Theorem superseded_claim_powerless d id c o ops e now :
  lost d id c -> Forall (leaves_lost id c) ops -> belongs e id c o ->
  let d' := exec_sops next_after d ops in
  record_execution_completed d' e now = (d', false)
  /\ record_delivery_result d' e now = (d', false)
  /\ mark_dashboard_unread d' id c o now = (d', false).
Proof.
  intros Hl Hops (<- & <- & <-) d'. pose proof (lost_steps _ _ _ _ Hops Hl) as Hl'. fold d' in Hl'.
  pose proof (lost_holds_none d' _ _ (Execution.lease_owner e) Hl') as Hnone.
  assert (Hse : existsb (same_execution d' e) (executions d') = false).
  { apply existsb_false. intros x _. unfold same_execution. by rewrite Hnone, andb_false_r. }
  unfold record_execution_completed, record_delivery_result, mark_dashboard_unread.
  rewrite !rowcount_pos, Hse, Hnone, !update_none_executions, !update_none_tasks; done.
Qed.

(** * Recovery *)

(** The task of [e] is gone. *)
Definition orphaned (d : sdb) (e : Execution.t) : Prop :=
  forall t, t ∈ scheduled_tasks d -> ScheduledTask.id t <> Execution.task_id e.

(** The claim of [e] is still in force: its task is under no other claim, and a lease
    it has is not over. *)
Definition in_force (d : sdb) (now : Z) (e : Execution.t) : Prop :=
  exists t, t ∈ scheduled_tasks d /\ ScheduledTask.id t = Execution.task_id e
    /\ (ScheduledTask.claim_id t = None \/ ScheduledTask.claim_id t = Some (Execution.claim_id e))
    /\ (ScheduledTask.claim_id t = Some (Execution.claim_id e) -> ScheduledTask.lease_owner t = Some (Execution.lease_owner e) ->
        lease_over now t = false).

Lemma stale_false d now e :
  sdb_ok d -> Execution.status e = ExecutionStatus.RUNNING ->
  stale d now e = false <-> orphaned d e \/ in_force d now e.
Proof.
  intros Hd Hrun. unfold stale. rewrite bool_decide_eq_true_2 by done. cbn [andb]. rewrite existsb_false. split.
  - intros H. destruct (row_at d (Execution.task_id e)) as [t|] eqn:Ht.
    + right. exists t. pose proof (row_at_in _ _ _ Ht) as Hin. pose proof (row_at_id _ _ _ Ht) as Hid.
      split; [done|]. split; [done|]. specialize (H t Hin). unfold stale_for in H.
      rewrite bool_decide_eq_true_2 in H by done. cbn [andb] in H. apply orb_false_iff in H as [H1 H2]. split.
      * destruct (ScheduledTask.claim_id t) as [c|]; [|by left]. right.
        by apply negb_false_iff, bool_decide_eq_true in H2 as ->.
      * intros Hc Ho. rewrite Hc, Ho, !bool_decide_eq_true_2 in H1 by done. exact H1.
    + left. intros t Hin Hid. eapply find_none in Ht; [|apply list_elem_of_In; exact Hin].
      unfold with_id in Ht. by rewrite bool_decide_eq_true_2 in Ht.
  - intros H t Hin. unfold stale_for. destruct (decide (ScheduledTask.id t = Execution.task_id e)) as [E|E];
      [|by rewrite bool_decide_eq_false_2].
    rewrite bool_decide_eq_true_2 by done. cbn [andb]. destruct H as [Ho|(t' & Hin' & Hid' & Hc & Hover)]; [by destruct (Ho t)|].
    assert (t' = t) as -> by (apply row_unique with d; congruence). apply orb_false_iff. split.
    + destruct (bool_decide (ScheduledTask.claim_id t = _)) eqn:Hb; [|done]. apply bool_decide_eq_true in Hb.
      destruct (bool_decide (ScheduledTask.lease_owner t = _)) eqn:Hb'; [|done]. apply bool_decide_eq_true in Hb'.
      by apply Hover.
    + destruct Hc as [->| ->]; [done|]. by rewrite bool_decide_eq_true_2.
Qed.

(** Nothing but a new task of the same id ends the execution of a task that is gone;
    completions are of the execution that was started. *)
Definition keeps_orphan (e : Execution.t) (op : sop) : Prop :=
  match op with
  | SCreate task _ => ScheduledTask.id task <> Execution.task_id e
  | SComplete x _ => Execution.id x = Execution.id e -> Execution.task_id x = Execution.task_id e
  | _ => True
  end.

Definition same_run (e x : Execution.t) : Prop :=
  Execution.id x = Execution.id e /\ Execution.task_id x = Execution.task_id e /\ Execution.status x = ExecutionStatus.RUNNING.

Definition runs_orphaned (d : sdb) (e : Execution.t) : Prop :=
  orphaned d e /\ exists x, x ∈ executions d /\ same_run e x.

Lemma ids_orphaned d d' e : (forall t, t ∈ scheduled_tasks d' -> exists t0, t0 ∈ scheduled_tasks d /\ ScheduledTask.id t0 = ScheduledTask.id t) ->
  orphaned d e -> orphaned d' e.
Proof. intros H Ho t Ht E. destruct (H t Ht) as (t0 & Ht0 & Hid). apply (Ho t0 Ht0). congruence. Qed.

Lemma update_tasks_ids cond set d :
  (forall t, cond t = true -> ScheduledTask.id (set t) = ScheduledTask.id t) ->
  forall t, t ∈ scheduled_tasks (update_tasks cond set d) -> exists t0, t0 ∈ scheduled_tasks d /\ ScheduledTask.id t0 = ScheduledTask.id t.
Proof. intros H t (x & -> & Hx)%list_elem_of_fmap. exists x. split; [done|]. case_match; [by rewrite H|done]. Qed.

Lemma update_tasks_orphaned cond set d e :
  (forall t, cond t = true -> ScheduledTask.id (set t) = ScheduledTask.id t) ->
  orphaned d e -> orphaned (update_tasks cond set d) e.
Proof. intros H. apply ids_orphaned. by apply update_tasks_ids. Qed.

Lemma claim_loop_ids d rows now lease ids t :
  t ∈ scheduled_tasks (claim_loop next_after d rows now lease ids).1 ->
  exists t0, t0 ∈ scheduled_tasks d /\ ScheduledTask.id t0 = ScheduledTask.id t.
Proof.
  revert d ids. induction rows as [|x rows IH]; intros d [|i ids]; cbn [claim_loop]; try (intros ?; by exists t).
  destruct (next_after _ _ _); [|intros ?; by exists t]. cbn [fst]. intros (t0 & Ht0 & <-)%IH.
  by apply update_tasks_ids in Ht0.
Qed.

Lemma update_executions_run cond set d e :
  (forall x, cond x = true -> same_run e x -> same_run e (set x)) ->
  (exists x, x ∈ executions d /\ same_run e x) -> exists x, x ∈ executions (update_executions cond set d) /\ same_run e x.
Proof.
  intros H (x & Hx & Hs). exists (if cond x then set x else x). split.
  - apply list_elem_of_fmap. by exists x.
  - case_match; auto.
Qed.

Lemma orphan_step d op e : keeps_orphan e op -> runs_orphaned d e -> runs_orphaned (exec d op) e.
Proof.
  intros Hop [Ho Hx]. destruct op; cbn [exec_sop keeps_orphan] in *.
  - unfold create_row. case_match; [done|]. split; [|done]. cbn.
    intros t [Ht| ->%list_elem_of_singleton]%elem_of_app; [by apply Ho|done].
  - split; [|done]. apply update_tasks_orphaned; [|exact Ho]. intros t Ht%bool_decide_eq_true. by rewrite Ht.
  - split; [|done]. by apply update_tasks_orphaned.
  - split; [|done]. intros t [Ht _]%List_filter_elem. by apply Ho.
  - unfold claim_due_tasks. pose proof (claim_loop_ids d (due_rows d now limit) now lease ids) as H.
    pose proof (claim_loop_executions d (due_rows d now limit) now lease ids) as He.
    destruct (claim_loop _ _ _ _ _ _) as [d' [claims|x]]; [|done]. cbn in *.
    split; [by eapply ids_orphaned|by rewrite He].
  - unfold claim_task_for_run_now. destruct (List.find _ _) as [t|]; [|done]. cbn.
    split; [|done]. by apply update_tasks_orphaned.
  - unfold record_execution_started. case_match; [done|]. split; [done|]. destruct Hx as (x & Hx & Hs). exists x.
    split; [|done]. cbn. apply elem_of_app. by left.
  - assert (H1 : exists x, x ∈ executions (update_executions (same_execution d e0) (fun x : Execution.t =>
      x <| Execution.completed_at := Execution.completed_at e0 |> <| Execution.status := Execution.status e0 |>
        <| Execution.output := Execution.output e0 |> <| Execution.error := Execution.error e0 |>) d) /\ same_run e x).
    { apply update_executions_run; [|done]. intros x [Hid%bool_decide_eq_true Hex]%andb_true_iff (Hi & Ht & _). exfalso.
      apply existsb_exists in Hex as (t & Hin%list_elem_of_In & Hh). unfold holds_claim in Hh.
      rewrite !andb_true_iff in Hh. destruct Hh as [[Hw%bool_decide_eq_true _] _].
      apply (Ho t Hin). rewrite Hw. apply Hop. congruence. }
    unfold record_execution_completed. case_match; [|by split]. cbn. split; [|exact H1].
    by apply update_tasks_orphaned.
  - assert (H1 : exists x, x ∈ executions (update_executions (same_execution d e0) (fun x : Execution.t =>
      x <| Execution.delivery_status := Execution.delivery_status e0 |>
        <| Execution.delivery_error := Execution.delivery_error e0 |>) d) /\ same_run e x)
      by by apply update_executions_run.
    unfold record_delivery_result. case_match; [|by split]. cbn. split; [|exact H1].
    by apply update_tasks_orphaned.
  - unfold recover_stale_executions. cbn. split.
    + by apply update_tasks_orphaned.
    + apply (update_executions_run (stale d now)); [|done]. intros x Hs (_ & Ht & _). exfalso.
      apply andb_true_iff in Hs as [_ Hs]. apply existsb_exists in Hs as (t & Hin%list_elem_of_In & Hst).
      apply andb_true_iff in Hst as [Hid%bool_decide_eq_true _]. apply (Ho t Hin). congruence.
  - split; [|done]. by apply update_tasks_orphaned.
  - split; [|done]. by apply update_tasks_orphaned.
  - split; [|done]. by apply update_tasks_orphaned.
  - split; [|done]. intros t (x & -> & Hx')%list_elem_of_fmap. destruct (migrate_row_columns x) as [-> _]. by apply Ho.
Qed.

Lemma orphan_steps d ops e :
  Forall (keeps_orphan e) ops -> runs_orphaned d e -> runs_orphaned (exec_sops next_after d ops) e.
Proof. intros Hops. revert d. induction Hops as [|op ops Hop _ IH]; intros d H; cbn; [done|]. apply IH. by apply orphan_step. Qed.

Definition recovered (now : Z) (e : Execution.t) : Execution.t :=
  e <| Execution.status := ExecutionStatus.FAILED |> <| Execution.completed_at := Some now |>
    <| Execution.error := Some "execution_stale_recovered" |>.

Lemma in_force_recovered d now e :
  in_force d now e -> in_force (recover_stale_executions d now).1 now e.
Proof.
  intros (t & Hin & Hid & Hc & Hover). unfold recover_stale_executions. cbn.
  eexists. split; [apply list_elem_of_fmap; exists t; split; [reflexivity|exact Hin]|].
  destruct (lease_over now t) eqn:Hl; cbn; [|by split].
  split; [done|]. split; [done|]. done.
Qed.

(** Recovery ends exactly the executions that cannot end by themselves.  A running
    execution whose task is under another claim, or whose own lease is over, is
    marked failed; every other execution is left alone, and after it no lease on the
    table is over.  An execution whose task was deleted is in neither case: it stays
    running whatever happens afterwards. *)
Theorem schedule_recovery_exact d now :
  sdb_ok d ->
  let d' := (recover_stale_executions d now).1 in
  (forall e, e ∈ executions d ->
     (Execution.status e = ExecutionStatus.RUNNING -> ~ orphaned d e -> ~ in_force d now e ->
        recovered now e ∈ executions d')
     /\ (Execution.status e <> ExecutionStatus.RUNNING \/ orphaned d e \/ in_force d now e -> e ∈ executions d'))
  /\ (forall e, e ∈ executions d' -> Execution.status e = ExecutionStatus.RUNNING -> orphaned d' e \/ in_force d' now e)
  /\ (forall t, t ∈ scheduled_tasks d' -> lease_over now t = false)
  /\ forall e ops, e ∈ executions d -> Execution.status e = ExecutionStatus.RUNNING -> orphaned d e ->
       Forall (keeps_orphan e) ops ->
       exists x, x ∈ executions (exec_sops next_after d ops) /\ Execution.id x = Execution.id e
         /\ Execution.status x = ExecutionStatus.RUNNING.
Proof.
  intros Hd d'. split; [|split; [|split]].
  - intros e He. pose proof (stale_false d now e Hd) as Hs. split.
    + intros Hrun Ho Hf. apply list_elem_of_fmap. exists e. split; [|done].
      destruct (stale d now e) eqn:Hst; [done|]. exfalso. by destruct (proj1 (Hs Hrun) eq_refl).
    + intros H. apply list_elem_of_fmap. exists e. split; [|done].
      replace (stale d now e) with false; [done|]. symmetry.
      destruct (decide (Execution.status e = ExecutionStatus.RUNNING)) as [Hrun|Hrun].
      * apply Hs; [done|]. by destruct H.
      * unfold stale. by rewrite bool_decide_eq_false_2.
  - intros x (e & -> & He)%list_elem_of_fmap. destruct (stale d now e) eqn:Hst; [done|]. intros Hrun.
    apply (stale_false d now e Hd Hrun) in Hst as [Ho|Hf]; [left|right; by apply in_force_recovered].
    unfold d', recover_stale_executions. cbn. by apply update_tasks_orphaned.
  - intros x (t & -> & Ht)%list_elem_of_fmap. by destruct (lease_over now t) eqn:Hl.
  - intros e ops He Hrun Ho Hops. destruct (orphan_steps d ops e Hops) as [_ (x & Hx & Hi & _ & Hr)].
    { split; [done|]. by exists e. }
    by exists x.
Qed.
End claims.

(** * Witnesses *)

Definition the_execution : Execution.t :=
  Execution.mk "e" "t" "s" "c" "o" ExecutionStatus.RUNNING (Some 5) (Some 10) None None None None None (Some 10) None.

(** A tick claims the task, its execution starts, and the next tick finds nothing. *)
Lemma schedule_claim_exclusive_witness :
  makes_claim hourly due_db claim_op the_claim
  /\ claim_task_for_run_now (exec_sops hourly due_db [claim_op; SStart the_execution 11; SRecover 60]) "t" 70 900 ("c2", "o2")
     = (exec_sops hourly due_db [claim_op; SStart the_execution 11; SRecover 60], None).
Proof.
  assert (Hm : makes_claim hourly due_db claim_op the_claim).
  { split; [vm_compute; lia|]. do 2 eexists. split; [vm_compute; reflexivity|]. vm_compute. left. }
  split; [exact Hm|].
  destruct (schedule_claim_exclusive hourly due_db claim_op the_claim [SStart the_execution 11; SRecover 60]
    due_db_ok Hm) as [_ H].
  - by intros e ?%elem_of_nil.
  - vm_compute. split; [done|]. split; [by intros ?|done].
  - destruct (H 70 ltac:(vm_compute; by intros ?)) as [_ Hnow]. exact (Hnow 900 ("c2", "o2")).
Defined.

(** The lease of the first claim is over and a second tick takes the task: the first
    worker's completion is refused. *)
Definition second_claim : list sop := [SClaimDue 9000000000 5 900 [("c2", "o2")]].
Definition retaken_db : sdb := exec_sops hourly due_db ([claim_op; SStart the_execution 11] ++ second_claim).

Lemma superseded_claim_powerless_witness :
  lost retaken_db "t" "c" /\ record_execution_completed retaken_db the_execution 9000000001 = (retaken_db, false).
Proof.
  assert (Hl : lost retaken_db "t" "c").
  { intros t Ht _. vm_compute in Ht. apply list_elem_of_singleton in Ht as ->. by vm_compute. }
  split; [exact Hl|].
  exact (proj1 (superseded_claim_powerless hourly retaken_db "t" "c" "o" [] the_execution 9000000001 Hl
    (Forall_nil_2 _) (conj eq_refl (conj eq_refl eq_refl)))).
Defined.

(** The task is deleted while its execution runs: recoveries leave it running. *)
Definition deleted_db : sdb := exec_sops hourly due_db [claim_op; SStart the_execution 11; SDelete "t"].

Lemma schedule_recovery_exact_witness :
  sdb_ok deleted_db
  /\ exists x, x ∈ executions (exec_sops hourly deleted_db [SRecover 9000000000; SComplete the_execution 9000000001])
       /\ Execution.id x = "e" /\ Execution.status x = ExecutionStatus.RUNNING.
Proof.
  assert (Hd : sdb_ok deleted_db).
  { split; vm_compute; [constructor|apply NoDup_singleton]. }
  split; [exact Hd|].
  destruct (schedule_recovery_exact hourly deleted_db 9000000000 Hd) as (_ & _ & _ & H).
  apply (H the_execution [SRecover 9000000000; SComplete the_execution 9000000001]).
  - vm_compute. left.
  - reflexivity.
  - intros t Ht. vm_compute in Ht. by apply elem_of_nil in Ht.
  - repeat constructor.
Defined.
