(* ===== verification/Repr.v ===== *)
(** Python's view of a JSON value: its truth value, [str] and [repr], and how sqlite3
    binds it as a parameter compared with a [TEXT] column. *)
From S2P Require Import Prelude Json.
From Stdlib Require Import Ascii.
From stdpp Require Import pretty.
Open Scope Z_scope.

(** [bool(v)] *)
Definition truthy_json (v : json) : bool :=
  match v with
  | JNull => false
  | JBool b => b
  | JInt n => negb (n =? 0)
  | JStr s => truthy_str s
  | JArr l => match l with [] => false | _ => true end
  | JObj l => match l with [] => false | _ => true end
  end.

(** [a or b] *)
Definition json_or (a b : json) : json := if truthy_json a then a else b.

(** [isinstance(v, str)] and the text, if so. *)
Definition as_str (v : json) : option string := match v with JStr s => Some s | _ => None end.

(** * [repr] of a string

    Single quotes, unless the text holds a single quote and no double one.  Control
    characters, and of the Latin-1 ones 127 to 160 and 173, are escaped. *)
Definition APOSTROPHE : ascii := "039".

Definition hex_escape (c : ascii) : string :=
  let n := Ascii.nat_of_ascii c in
  "\x" +:+ String (hex_digit (n / 16)) (String (hex_digit (n mod 16)) "").

Definition repr_char (quote c : ascii) : string :=
  let n := Ascii.nat_of_ascii c in
  if bool_decide (c = quote) || bool_decide (c = "\"%char) then String "\" (String c "")
  else if (n =? 9)%nat then "\t" else if (n =? 10)%nat then "\n" else if (n =? 13)%nat then "\r"
  else if ((n <? 32) || ((127 <=? n) && (n <=? 160)) || (n =? 173))%nat then hex_escape c
  else String c "".

Fixpoint repr_chars (quote : ascii) (s : string) : string :=
  match s with EmptyString => "" | String c s => repr_char quote c +:+ repr_chars quote s end.

Definition repr_str (s : string) : string :=
  let quote := if bool_decide (APOSTROPHE ∈ chars s) && negb (bool_decide (QUOTE ∈ chars s)) then QUOTE else APOSTROPHE in
  String quote (repr_chars quote s +:+ String quote "").

(** * [repr] and [str] of a value *)

Fixpoint py_repr (v : json) : string :=
  match v with
  | JNull => "None"
  | JBool b => if b then "True" else "False"
  | JInt n => pretty n
  | JStr s => repr_str s
  | JArr [] => "[]"
  | JArr (v :: l) =>
      "[" +:+ (py_repr v +:+ (fix rest l := match l with
                                             | [] => "]"
                                             | v :: l => ", " +:+ (py_repr v +:+ rest l)
                                             end) l)
  | JObj [] => "{}"
  | JObj ((k, v) :: kvs) =>
      "{" +:+ (repr_str k +:+ (": " +:+ (py_repr v +:+
        (fix rest l := match l with
                       | [] => "}"
                       | (k, v) :: l => ", " +:+ (repr_str k +:+ (": " +:+ (py_repr v +:+ rest l)))
                       end) kvs)))
  end.

Definition py_str (v : json) : string := match v with JStr s => s | _ => py_repr v end.

(** The text a parameter equals in [column = ?] on a [TEXT] column: a number is
    compared as its text, [NULL] equals nothing, arrays and objects cannot be bound. *)
Definition bind_text (v : json) : result (option string) :=
  match v with
  | JNull => Return None
  | JBool b => Return (Some (if b then "1" else "0"))
  | JInt n => Return (Some (pretty n))
  | JStr s => Return (Some s)
  | JArr _ | JObj _ => Raise ProgrammingError
  end.
