(* ===== verification/ScheduleDelivery.v ===== *)
(** Where a scheduled task delivers: the addresses the service trusts
    (app/application/schedule_delivery_service.py), the sending of an answer
    (app/infrastructure/schedule/outbound.py) and the scan of prompts
    (app/infrastructure/schedule/prompt_safety.py).

    A method reads the gateway registry and the schedule registry; its reads are of
    one state.  What a platform answers about its connection, the names of chats and
    the hash of an address are arguments; the chat client is a function that says
    whether the message could be sent, and what was given to it is returned. *)
From S2P Require Import Prelude Json Repr Schedules GatewayStore.
From Stdlib Require Import Ascii.
From stdpp Require Import gmap.
Open Scope Z_scope.

Record DeliveryResult := mkDeliveryResult {
  dr_status : string;
  dr_error : option string
}.
Definition failed (reason : string) : DeliveryResult := mkDeliveryResult "failed" (Some reason).
Definition success : DeliveryResult := mkDeliveryResult "success" None.

Definition feishu_target (context : dict) : DeliveryTarget := mkDeliveryTarget DeliveryTargetType.FEISHU context.
Definition origin_target (context : dict) : DeliveryTarget := mkDeliveryTarget DeliveryTargetType.ORIGIN context.

(** [context.get(k) == "text"] *)
Definition has_text (context : dict) (k text : string) : bool := bool_decide (dict_get context k = JStr text).

(** What the user interface is shown of a conversation, and of the target of a task. *)

Module Projection.
Record t : Type := mk {
  reason : option string;
  label : string;
  parent_chat : string;
  representative : bool;
  status : string;
  chat_name : option string
}.
#[global] Instance rebuild_t : Rebuild t := fun r =>
  mk (reason r) (label r) (parent_chat r) (representative r) (status r) (chat_name r).
Definition delivery_available (p : t) : bool := bool_decide (reason p = None).
End Projection.

Module TaskProjection.
Record t : Type := mk {
  kind : string;
  conversation_id : json;
  label : string;
  available : bool;
  reason : option string;
  legacy : bool;
  home : bool;
  home_configured : option bool;
  legacy_restore_available : bool
}.
#[global] Instance rebuild_t : Rebuild t := fun r =>
  mk (kind r) (conversation_id r) (label r) (available r) (reason r) (legacy r) (home r) (home_configured r)
    (legacy_restore_available r).
End TaskProjection.

(** * Trusted addresses *)

Section delivery.
Context (platform_status : Platform.t -> string) (gateway : gdb) (schedules : sdb).

(** The address types known for an address. *)
Notation evidence := (gmap string (gset string)).
Definition add_evidence (address kind : string) (types : evidence) : evidence :=
  <[address := {[kind]} ∪ default ∅ (types !! address)]> types.

Definition context_evidence (context : dict) (types : evidence) : evidence :=
  match dict_get context "receive_id", dict_get context "receive_id_type" with
  | JStr address, JStr kind =>
      if has_text context "platform" "feishu" && truthy_str kind then add_evidence address kind types else types
  | _, _ => types
  end.

Definition local_types : evidence :=
  let types := match get_home_target gateway Platform.FEISHU with
               | Some home => add_evidence (HomeTarget.receive_id home) (HomeTarget.receive_id_type home) ∅
               | None => ∅
               end in
  foldl (fun types task =>
    if negb (bool_decide (target_type (ScheduledTask.delivery_target task) = DeliveryTargetType.ORIGIN)) then types
    else context_evidence (target_context (ScheduledTask.delivery_target task))
           (context_evidence (ScheduledTask.origin task) types)) types (list_rows schedules).

(** [{item.receive_id_type for item in rows if item.receive_id_type}] *)
Definition row_types (rows : list Conversation.t) : gset string :=
  list_to_set (omap (fun c => match Conversation.receive_id_type c with
                              | Some k => if truthy_str k then Some k else None
                              | None => None
                              end) rows).

(** The checks of [_rows_and_type] once the rows of the chat are read. *)
Definition check_rows (row : Conversation.t) (types : evidence) (rows : list Conversation.t)
    : result (list Conversation.t) :=
  let known := row_types rows ∪ default ∅ (types !! Conversation.platform_session_id row) in
  if (1 <? size known)%nat then Raise (ScheduleDeliveryError "address_type_conflict")
  else if negb (bool_decide (known = {["chat_id"]})) then Raise (ScheduleDeliveryError "unsupported_address_type")
  else match rows with [] => Raise (ScheduleDeliveryError "conversation_not_found") | _ => Return rows end.

Definition check_address (row : Conversation.t) : result unit :=
  if negb (bool_decide (Conversation.platform row = "feishu")) then Raise (ScheduleDeliveryError "unsupported_platform")
  else if negb (truthy_str (strip (Conversation.platform_session_id row)))
  then Raise (ScheduleDeliveryError "unsupported_address_type")
  else Return tt.

Definition rows_and_type (row : Conversation.t) (types : evidence) : result (list Conversation.t) :=
  let? _ := check_address row in
  check_rows row types (find_conversations gateway Platform.FEISHU (Conversation.platform_session_id row)).

(** [min(rows, key=(created_at, id))]: the first of the least. *)
Definition earlier (a b : Conversation.t) : bool :=
  (Conversation.created_at a <? Conversation.created_at b)
  || ((Conversation.created_at a =? Conversation.created_at b)
      && String.ltb (Conversation.id a) (Conversation.id b)).
Definition representative (row : Conversation.t) (rows : list Conversation.t) : Conversation.t :=
  foldl (fun best r => if earlier r best then r else best) row rows.

(** [_representative]; it is only called on rows that are there. *)
Definition representative_of (rows : list Conversation.t) : option Conversation.t :=
  match rows with [] => None | row :: rows => Some (representative row rows) end.
Definition is_representative (row : Conversation.t) (rows : list Conversation.t) : bool :=
  match representative_of rows with
  | Some r => bool_decide (Conversation.id r = Conversation.id row)
  | None => false
  end.

Definition target_of (row : Conversation.t) : DeliveryTarget :=
  feishu_target [("conversation_id", JStr (Conversation.id row)); ("platform", JStr "feishu");
    ("receive_id", JStr (Conversation.platform_session_id row)); ("receive_id_type", JStr "chat_id")].

Definition connected : bool := bool_decide (platform_status Platform.FEISHU = "connected").

(** The rows are those of a known platform, and by then that is Feishu. *)
Definition resolve_selection (conversation_id : string) : result DeliveryTarget :=
  match get_conversation gateway conversation_id with
  | None => Raise (ScheduleDeliveryError "conversation_not_found")
  | Some row =>
      let? rows := rows_and_type row local_types in
      if negb (is_representative row rows) then Raise (ScheduleDeliveryError "same_chat_representative")
      else if negb connected then Raise (ScheduleDeliveryError "platform_unavailable")
      else Return (target_of row)
  end.

Definition validate_snapshot (target : DeliveryTarget) : result DeliveryTarget :=
  let context := target_context target in
  if negb (bool_decide (target_type target = DeliveryTargetType.FEISHU))
  then Raise (ScheduleDeliveryError "unsupported_target")
  else
    let? id := bind_text (default (JStr "") (obj_get "conversation_id" context)) in
    match id ≫= get_conversation gateway with
    | None => Raise (ScheduleDeliveryError "conversation_not_found")
    | Some row =>
        let? _ := rows_and_type row local_types in
        let canonical := target_of row in
        if existsb (fun p => negb (bool_decide (dict_get context p.1 = p.2))) (target_context canonical)
        then Raise (ScheduleDeliveryError "snapshot_mismatch")
        else if negb connected then Raise (ScheduleDeliveryError "platform_unavailable")
        else Return canonical
    end.

(** [types] is the evidence frozen before an import, or read now. *)
Definition rebind_import (context : dict) (types : option evidence) : result DeliveryTarget :=
  match as_str (dict_get context "receive_id") with
  | Some address =>
      if negb (has_text context "platform" "feishu") || negb (has_text context "receive_id_type" "chat_id")
         || negb (truthy_str (strip address))
      then Raise (ScheduleDeliveryError "invalid_import_target")
      else match representative_of (find_conversations gateway Platform.FEISHU address) with
           | None => Raise (ScheduleDeliveryError "conversation_not_found")
           | Some r => let? _ := rows_and_type r (default local_types types) in Return (target_of r)
           end
  | None => Raise (ScheduleDeliveryError "invalid_import_target")
  end.

(** ** What the user interface is shown *)

(** The lookups of chats already made for a page. *)
Notation chat_cache := (list (string * list Conversation.t)).

Definition cached_rows (chats : chat_cache) (address : string) : chat_cache * list Conversation.t :=
  match List.find (fun p => bool_decide (p.1 = address)) chats with
  | Some p => (chats, p.2)
  | None =>
      let rows := find_conversations gateway Platform.FEISHU address in ((address, rows) :: chats, rows)
  end.

Definition cached_rows_and_type (row : Conversation.t) (types : evidence) (chats : chat_cache)
    : chat_cache * result (list Conversation.t) :=
  match check_address row with
  | Raise e => (chats, Raise e)
  | Return _ =>
      let '(chats, rows) := cached_rows chats (Conversation.platform_session_id row) in
      (chats, check_rows row types rows)
  end.

Definition reason_of (row : Conversation.t) (status : string) (found : result (list Conversation.t))
    : option string * bool :=
  match found with
  | Raise (ScheduleDeliveryError code) => (Some code, false)
  | Raise _ => (None, false)
  | Return rows =>
      if negb (is_representative row rows) then (Some "same_chat_representative", false)
      else (if negb (bool_decide (status = "connected")) then Some "platform_unavailable" else None, true)
  end.

(** [opaque] is the first 16 digits of the hash of the address. *)
Context (opaque : string -> string).

Definition status_of (row : Conversation.t) : string :=
  from_option platform_status "" (Platform.of_value (Conversation.platform row)).

Definition projection (row : Conversation.t) (found : result (list Conversation.t)) : Projection.t :=
  let '(reason, rep) := reason_of row (status_of row) found in
  Projection.mk reason
    (if truthy_str (Conversation.thread_id row) then "飞书聊天（发送到父聊天）" else "飞书聊天")
    ("chat-" +:+ opaque (Conversation.platform row +:+ ":" +:+ Conversation.platform_session_id row))
    rep (status_of row) None.

Fixpoint project_rows (rows : list Conversation.t) (types : evidence) (chats : chat_cache)
    : list (Conversation.t * Projection.t) :=
  match rows with
  | [] => []
  | row :: rows =>
      let '(chats, found) := cached_rows_and_type row types chats in
      (row, projection row found) :: project_rows rows types chats
  end.

(** An address whose name may be looked up. *)
Definition named (p : Conversation.t * Projection.t) : bool :=
  bool_decide (Conversation.platform p.1 = "feishu") && bool_decide (Projection.status p.2 = "connected")
  && bool_decide (Projection.reason p.2 ∈ [None; Some "same_chat_representative"]).

(** [resolver address] is the name the platform has for it, if it answers in time. *)
Definition project_conversations (resolver : option (string -> option string)) (rows : list Conversation.t)
    : list (Conversation.t * Projection.t) :=
  let projected := project_rows rows local_types [] in
  let addresses := map (fun p => Conversation.platform_session_id p.1) (List.filter named projected) in
  let name address :=
    if bool_decide (address ∈ addresses) then
      match resolver with
      | Some look => match look address with
                     | Some v => if truthy_str (strip v) then Some (strip v) else None
                     | None => None
                     end
      | None => None
      end
    else None in
  map (fun p => (p.1, p.2 <| Projection.chat_name :=
    if bool_decide (Conversation.platform p.1 = "feishu") then name (Conversation.platform_session_id p.1) else None |>))
    projected.

(** ** The saved target of a task *)

Definition blank_str (v : json) : bool := match as_str v with Some s => negb (truthy_str (strip s)) | None => true end.

Definition legacy_restore_available (task : ScheduledTask.t) : bool :=
  let origin := ScheduledTask.origin task in
  has_text origin "platform" "feishu"
  && (has_text origin "target" "home"
      || (negb (blank_str (dict_get origin "receive_id")) && negb (blank_str (dict_get origin "receive_id_type")))).

Definition platform_label (platform : json) : option string :=
  match platform with
  | JStr "dingtalk" => Some "钉钉"
  | JStr "wecom" => Some "企业微信"
  | _ => None
  end.

(** The legacy target of the platform Feishu, on what is known of it so far. *)
Definition project_feishu_origin (context : dict) (shown : TaskProjection.t) : result TaskProjection.t :=
  let saved_home := get_home_target gateway Platform.FEISHU in
  let configured := match saved_home with
                    | Some h => truthy_str (HomeTarget.receive_id h) && truthy_str (HomeTarget.receive_id_type h)
                    | None => false
                    end in
  let home := bool_decide (is_Some saved_home) || has_text context "target" "home" in
  let shown := shown <| TaskProjection.home := home |>
                     <| TaskProjection.label := if home then "默认通知会话" else "历史飞书聊天" |>
                     <| TaskProjection.home_configured :=
                          if home then Some configured else TaskProjection.home_configured shown |> in
  let valid := if home then configured
               else truthy_json (dict_get context "receive_id") && truthy_json (dict_get context "receive_id_type") in
  if negb valid
  then Return (shown <| TaskProjection.available := false |>
                     <| TaskProjection.reason := Some (if home then "home_target_not_configured" else "invalid_legacy_target") |>)
  else
    let shown := shown <| TaskProjection.available := connected |>
                       <| TaskProjection.reason := if connected then None else Some "platform_unavailable" |> in
    let field from_home k :=
      match (if home && configured then saved_home else None) with
      | Some h => JStr (from_home h)
      | None => dict_get context k
      end in
    if connected && bool_decide (field HomeTarget.receive_id_type "receive_id_type" = JStr "chat_id") then
      let? address := bind_text (field HomeTarget.receive_id "receive_id") in
      match representative_of (from_option (find_conversations gateway Platform.FEISHU) [] address) with
      | Some r =>
          match resolve_selection (Conversation.id r) with
          | Return _ => Return (shown <| TaskProjection.conversation_id := JStr (Conversation.id r) |>)
          | Raise (ScheduleDeliveryError _) => Return shown
          | Raise e => Raise e
          end
      | None => Return shown
      end
    else Return shown.

Definition project_task (task : ScheduledTask.t) : result TaskProjection.t :=
  let target := ScheduledTask.delivery_target task in
  let context := target_context target in
  let shown := TaskProjection.mk (DeliveryTargetType.value (target_type target)) JNull
    (if bool_decide (target_type target = DeliveryTargetType.DASHBOARD) then "Dashboard" else "不投递")
    true None (bool_decide (target_type target = DeliveryTargetType.ORIGIN)) false None
    (legacy_restore_available task) in
  match target_type target with
  | DeliveryTargetType.FEISHU =>
      let shown := shown <| TaskProjection.conversation_id := dict_get context "conversation_id" |>
                         <| TaskProjection.label := "飞书聊天" |> in
      match validate_snapshot target with
      | Return _ => Return shown
      | Raise (ScheduleDeliveryError code) =>
          Return (shown <| TaskProjection.available := false |> <| TaskProjection.reason := Some code |>
                        <| TaskProjection.label := "历史飞书目标（需重新选择）" |>)
      | Raise e => Raise e
      end
  | DeliveryTargetType.ORIGIN =>
      let platform := json_or (dict_get context "platform") (dict_get (ScheduledTask.origin task) "platform") in
      let shown := shown <| TaskProjection.kind :=
                              match as_str platform with Some p => if truthy_str p then p else "origin" | None => "origin" end |>
                         <| TaskProjection.label :=
                              match platform_label platform with
                              | Some l => "历史" +:+ l +:+ "投递目标（需重新连接）"
                              | None => "历史投递目标（未知平台，需重新连接）"
                              end |>
                         <| TaskProjection.available := false |>
                         <| TaskProjection.reason := Some "unsupported_platform" |> in
      if bool_decide (platform = JStr "feishu") then project_feishu_origin context shown else Return shown
  | _ => Return shown
  end.
End delivery.

(** * Sending *)

(** A message given to the chat client. *)
Record Sent := mkSent {
  sent_to : json;
  sent_content : string;
  sent_type : json
}.

(** [Some message] is what the client raised. *)
Notation chat_client := (Sent -> option string).

Definition send (client : chat_client) (m : Sent) (error : string -> string) : list Sent * DeliveryResult :=
  ([m], match client m with Some text => failed (error text) | None => success end).

Section outbound.
Context (feishu_client : option chat_client)
  (home_target_resolver : option (Platform.t -> option HomeTarget.t)).

(** The address of an origin delivery, or why there is none. *)
Definition origin_address (context : dict) : (json * json) + string :=
  let given := (default (JStr "") (obj_get "receive_id" context), default (JStr "chat_id") (obj_get "receive_id_type" context)) in
  match home_target_resolver with
  | Some resolve =>
      match resolve Platform.FEISHU with
      | Some home => inl (JStr (HomeTarget.receive_id home), JStr (HomeTarget.receive_id_type home))
      | None => if has_text context "target" "home" then inr "feishu home target is not configured" else inl given
      end
  | None => if has_text context "target" "home" then inr "feishu home target resolver is not configured"
            else inl given
  end.

(** [ScheduleOutboundDelivery.deliver] *)
Definition deliver (target : DeliveryTarget) (content : string) : list Sent * DeliveryResult :=
  let context := target_context target in
  match target_type target with
  | DeliveryTargetType.SILENT => ([], mkDeliveryResult "skipped" None)
  | DeliveryTargetType.DASHBOARD => ([], success)
  | DeliveryTargetType.FEISHU =>
      match feishu_client with
      | None => ([], failed "send_failed")
      | Some client =>
          if negb (has_text context "platform" "feishu") || negb (has_text context "receive_id_type" "chat_id")
             || negb (truthy_json (dict_get context "receive_id"))
          then ([], failed "send_failed")
          else send client (mkSent (dict_get context "receive_id") content (JStr "chat_id")) (fun _ => "send_failed")
      end
  | DeliveryTargetType.ORIGIN =>
      let platform_value := dict_get context "platform" in
      if negb (truthy_json platform_value) then ([], failed "origin missing platform")
      else match as_str platform_value ≫= Platform.of_value with
           | Some Platform.FEISHU =>
               match feishu_client with
               | None => ([], failed "feishu client is not configured")
               | Some client =>
                   match origin_address context with
                   | inr reason => ([], failed reason)
                   | inl (receive_id, receive_id_type) =>
                       if negb (truthy_json receive_id) then ([], failed "feishu origin missing receive_id")
                       else send client (mkSent receive_id content receive_id_type) (fun text => text)
                   end
               end
           | _ => ([], failed ("unsupported platform: " +:+ py_str platform_value))
           end
  end.
End outbound.

(** * Prompts *)

Definition BLOCKED_PATTERNS : list (string * string) :=
  [("confirm", "confirm permission bypass"); ("绕过", "permission bypass"); ("bypass", "permission bypass");
   ("api key", "secret leakage"); ("secret", "secret leakage"); ("密钥", "secret leakage"); ("泄露", "secret leakage");
   ("scheduler", "scheduler self modification"); ("任务", "scheduler self modification");
   ("recurring job", "scheduler self modification")].

(** [DeterministicPromptSafetyScanner.scan]: the reason it is not allowed, if it is
    not.  The prompt is its UTF-8 text, of which only the ASCII letters are lowered;
    the one other letter that Python lowers to an ASCII one is U+212A. *)
Definition lower_ascii (c : ascii) : ascii := if (Ascii.nat_of_ascii c <? 128)%nat then lower_char c else c.
Fixpoint lower_utf8 (s : string) : string :=
  match s with EmptyString => EmptyString | String c s => String (lower_ascii c) (lower_utf8 s) end.

Definition scan (prompt : string) : option string :=
  snd <$> List.find (fun p => contains p.1 (lower_utf8 prompt)) BLOCKED_PATTERNS.
