(* ===== verification/Unicode.v ===== *)
(** Texts as lists of code points, where the code counts characters and bytes: white
    space, [strip], slices, the length in UTF-8 and the bytes themselves; strict decoding,
    [bytes.decode("utf-8")], which inverts the encoding; and the string methods that go
    through the code points of an encoded text. *)
From S2P Require Import Prelude Text.
From Stdlib Require Import Ascii.
Open Scope Z_scope.

Notation text := (list Z).

(** [str.isspace] on one code point. *)
Definition space_point (c : Z) : bool :=
  ((9 <=? c) && (c <=? 13)) || ((28 <=? c) && (c <=? 32)) || (c =? 133) || (c =? 160) || (c =? 5760)
  || ((8192 <=? c) && (c <=? 8202)) || (c =? 8232) || (c =? 8233) || (c =? 8239) || (c =? 8287) || (c =? 12288).

Fixpoint strip_left (s : text) : text :=
  match s with [] => [] | c :: s' => if space_point c then strip_left s' else s end.
Definition strip_text (s : text) : text := rev (strip_left (rev (strip_left s))).

(** A code point that is not a surrogate: one that has a UTF-8 encoding. *)
Definition scalar (c : Z) : bool := (0 <=? c) && (c <? 1114112) && negb ((55296 <=? c) && (c <=? 57343)).

Definition point_size (c : Z) : Z :=
  if c <? 128 then 1 else if c <? 2048 then 2 else if c <? 65536 then 3 else 4.
Definition utf8_size (s : text) : Z := foldr (fun c n => point_size c + n) 0 s.

Definition byte (n : Z) : ascii := ascii_of_nat (Z.to_nat n).
Definition continuation (n : Z) : ascii := byte (128 + n mod 64).
Definition encode_point (c : Z) (rest : string) : string :=
  if c <? 128 then String (byte c) rest
  else if c <? 2048 then String (byte (192 + c / 64)) (String (continuation c) rest)
  else if c <? 65536
  then String (byte (224 + c / 4096)) (String (continuation (c / 64)) (String (continuation c) rest))
  else String (byte (240 + c / 262144)) (String (continuation (c / 4096))
         (String (continuation (c / 64)) (String (continuation c) rest))).
Definition utf8_encode (s : text) : string := foldr encode_point "" s.

(** [data[:n].decode("utf-8", errors="ignore")] of an encoded text: the sequence the
    cut falls into is dropped. *)
Fixpoint take_bytes (n : Z) (s : text) : text :=
  match s with
  | [] => []
  | c :: s => if point_size c <=? n then c :: take_bytes (n - point_size c) s else []
  end.

(** * Lemmas *)

Lemma point_size_pos c : 0 < point_size c.
Proof. unfold point_size. repeat case_match; lia. Qed.

Lemma utf8_size_cons c s : utf8_size (c :: s) = point_size c + utf8_size s.
Proof. done. Qed.

Lemma utf8_size_nonneg s : 0 <= utf8_size s.
Proof. induction s as [|c s IH]; [done|]. rewrite utf8_size_cons. pose proof (point_size_pos c). lia. Qed.

Lemma utf8_size_app s t : utf8_size (s ++ t) = utf8_size s + utf8_size t.
Proof. induction s as [|c s IH]; [done|]. rewrite <- app_comm_cons, !utf8_size_cons. lia. Qed.

Lemma utf8_size_rev s : utf8_size (rev s) = utf8_size s.
Proof. induction s as [|c s IH]; [done|]. cbn [rev]. rewrite utf8_size_app, IH, !utf8_size_cons. cbn. lia. Qed.

(** The size counts the bytes of the encoding. *)
Lemma encode_length s : len (utf8_encode s) = utf8_size s.
Proof.
  unfold len. induction s as [|c s IH]; [done|]. cbn [utf8_encode foldr]. rewrite utf8_size_cons.
  change (foldr encode_point "" s) with (utf8_encode s).
  unfold encode_point, point_size. repeat case_match; cbn [String.length]; lia.
Qed.

Lemma strip_left_suffix s : exists w, s = w ++ strip_left s /\ Forall (fun c => space_point c = true) w.
Proof.
  induction s as [|c s (w & Hs & Hw)]; [by exists []|]. cbn. case_match; [|by exists []].
  exists (c :: w). split; [cbn; by f_equal|by constructor].
Qed.

Lemma strip_left_head s : match strip_left s with c :: _ => space_point c = false | [] => True end.
Proof. induction s as [|c s IH]; cbn; [done|]. by destruct (space_point c) eqn:?. Qed.

(** The text between its white space on both ends. *)
Lemma strip_text_inner s :
  exists a b, s = a ++ strip_text s ++ b /\ Forall (fun c => space_point c = true) a
    /\ Forall (fun c => space_point c = true) b.
Proof.
  destruct (strip_left_suffix s) as (a & Hs & Ha). destruct (strip_left_suffix (rev (strip_left s))) as (b & Hb & Hw).
  exists a, (rev b). unfold strip_text. split; [|split; [done|by apply Forall_rev]].
  rewrite Hs at 1. f_equal. apply (f_equal (@rev Z)) in Hb. by rewrite rev_involutive, rev_app_distr in Hb.
Qed.

Lemma strip_text_size s : utf8_size (strip_text s) <= utf8_size s.
Proof.
  destruct (strip_text_inner s) as (a & b & Hs & _). rewrite Hs at 2. rewrite !utf8_size_app.
  pose proof (utf8_size_nonneg a). pose proof (utf8_size_nonneg b). lia.
Qed.

Lemma take_bytes_prefix n s : exists rest, s = take_bytes n s ++ rest.
Proof.
  revert n. induction s as [|c s IH]; intros n; [by exists []|]. cbn. case_match; [|by exists (c :: s)].
  destruct (IH (n - point_size c)) as (r & Hr). exists r. cbn. by f_equal.
Qed.

(** A cut loses less than one sequence of what fits. *)
Lemma take_bytes_size n s :
  0 <= n -> utf8_size (take_bytes n s) <= n
            /\ (take_bytes n s = s \/ n < utf8_size (take_bytes n s) + 4).
Proof.
  revert n. induction s as [|c s IH]; intros n Hn; cbn [take_bytes]; [split; [done|by left]|].
  destruct (point_size c <=? n) eqn:Hc; rewrite ?utf8_size_cons.
  - apply Z.leb_le in Hc. destruct (IH (n - point_size c)) as [H1 H2]; [lia|]. split; [lia|].
    destruct H2 as [->|]; [by left|right; lia].
  - apply Z.leb_gt in Hc. split; [done|]. right. change (utf8_size []) with 0. unfold point_size in Hc. repeat case_match; lia.
Qed.

Definition code (c : ascii) : Z := Z.of_nat (nat_of_ascii c).
Definition cont (c : ascii) : bool := (128 <=? code c) && (code c <? 192).

(** [None] where Python raises [UnicodeDecodeError]: a byte out of place, an overlong form,
    a surrogate, a number above U+10FFFF. *)
Fixpoint utf8_decode (s : string) : option text :=
  match s with
  | "" => Some []
  | String a s1 =>
      if code a <? 128 then cons (code a) <$> utf8_decode s1
      else match s1 with
      | "" => None
      | String b s2 =>
          let p2 := (code a - 192) * 64 + (code b - 128) in
          if code a <? 224 then
            if (194 <=? code a) && cont b then cons p2 <$> utf8_decode s2 else None
          else match s2 with
          | "" => None
          | String c s3 =>
              let p3 := (code a - 224) * 4096 + (code b - 128) * 64 + (code c - 128) in
              if code a <? 240 then
                if cont b && cont c && (2048 <=? p3) && scalar p3 then cons p3 <$> utf8_decode s3 else None
              else match s3 with
              | "" => None
              | String d s4 =>
                  let p4 := (code a - 240) * 262144 + (code b - 128) * 4096 + (code c - 128) * 64 + (code d - 128) in
                  if cont b && cont c && cont d && (65536 <=? p4) && (p4 <? 1114112)
                  then cons p4 <$> utf8_decode s4 else None
              end
          end
      end
  end.

Lemma code_byte n : 0 <= n < 256 -> code (byte n) = n.
Proof. intros H. unfold code, byte. rewrite nat_ascii_embedding; lia. Qed.

Lemma code_continuation n : code (continuation n) = 128 + n mod 64.
Proof. unfold continuation. pose proof (Z.mod_pos_bound n 64 ltac:(lia)). rewrite code_byte; lia. Qed.

Lemma cont_continuation n : cont (continuation n) = true.
Proof. unfold cont. rewrite code_continuation. pose proof (Z.mod_pos_bound n 64 ltac:(lia)). lia. Qed.

Ltac divs := Z.div_mod_to_equations; lia.

(** Decoding what was encoded. *)
Lemma decode_encode t : Forall (fun c => scalar c = true) t -> utf8_decode (utf8_encode t) = Some t.
Proof.
  induction t as [|c t IH]; [done|]. intros [Hc Ht]%Forall_cons. cbn [utf8_encode foldr]. fold (utf8_encode t).
  specialize (IH Ht). pose proof Hc as Hs. unfold scalar in Hs.
  assert (Hr : 0 <= c < 1114112) by lia. unfold encode_point.
  destruct (c <? 128) eqn:H1; [|destruct (c <? 2048) eqn:H2; [|destruct (c <? 65536) eqn:H3]]; cbn [utf8_decode].
  - rewrite code_byte by lia. by rewrite H1, IH.
  - rewrite code_byte, cont_continuation, code_continuation by divs.
    rewrite (proj2 (Z.ltb_ge _ _)), (proj2 (Z.ltb_lt _ _)), (proj2 (Z.leb_le _ _)) by divs. cbn [andb]. rewrite IH. cbn.
    do 2 f_equal. divs.
  - rewrite code_byte, !cont_continuation, !code_continuation by divs.
    rewrite !(proj2 (Z.ltb_ge _ _)) by divs. rewrite (proj2 (Z.ltb_lt _ 240)) by divs. cbn [andb].
    assert (Hp : (224 + c / 4096 - 224) * 4096 + (128 + (c / 64) `mod` 64 - 128) * 64 + (128 + c `mod` 64 - 128) = c) by divs.
    rewrite Hp, Hc, IH, (proj2 (Z.leb_le _ _)) by lia. done.
  - rewrite code_byte, !cont_continuation, !code_continuation by divs.
    rewrite !(proj2 (Z.ltb_ge _ _)) by divs. cbn [andb].
    assert (Hp : (240 + c / 262144 - 240) * 262144 + (128 + (c / 4096) `mod` 64 - 128) * 4096
                 + (128 + (c / 64) `mod` 64 - 128) * 64 + (128 + c `mod` 64 - 128) = c) by divs.
    rewrite Hp, IH, (proj2 (Z.leb_le _ _)), (proj2 (Z.ltb_lt _ _)) by lia. done.
Qed.

(** [str.strip] on an encoded text. *)
Definition strip_utf8 (s : string) : string :=
  match utf8_decode s with Some t => utf8_encode (strip_text t) | None => s end.

(** [s.endswith(p)] *)
Definition ends_with (p s : string) : bool :=
  (String.length p <=? String.length s)%nat && bool_decide (drop_str (String.length s - String.length p) s = p).

(** [s.split(c)[0]] *)
Fixpoint before_char (c : ascii) (s : string) : string :=
  match s with "" => "" | String a s => if bool_decide (a = c) then "" else String a (before_char c s) end.

(** The first occurrence replaced: [text[:idx] + new + text[idx+len(old):]] with
    [idx = text.find(old)]. *)
Fixpoint replace_first (old new s : string) : option string :=
  if starts_with old s then Some (new +:+ drop_str (String.length old) s)
  else match s with "" => None | String c s => String c <$> replace_first old new s end.

Lemma replace_first_spec old new s :
  match replace_first old new s with
  | Some s' => exists a b, s = a +:+ old +:+ b /\ s' = a +:+ new +:+ b /\ contains old s = true
  | None => contains old s = false
  end.
Proof.
  induction s as [|c s IH].
  - cbn [replace_first contains]. destruct (starts_with old "") eqn:Hs; [|done].
    apply starts_with_spec in Hs as [b Hb]. exists "", b. rewrite !app_str_nil. rewrite Hb, drop_app_str. done.
  - cbn [replace_first contains]. destruct (starts_with old (String c s)) eqn:Hs.
    + apply starts_with_spec in Hs as [b Hb]. exists "", b. rewrite !app_str_nil, Hb, drop_app_str. done.
    + cbn [orb]. destruct (replace_first old new s) as [s'|]; [|done]. cbn. destruct IH as (a & b & -> & -> & Hc).
      exists (String c a), b. rewrite !app_str_cons. done.
Qed.
