(* ===== verification/SessionStore.v ===== *)
(** Sessions, their messages and what else a conversation leaves in the database, and
    the migration of session ids to the prefix of their source (app/domain/session.py,
    app/infrastructure/memory/sqlite_store.py).

    [database] holds the tables of the store together with those of the other
    registries that the deletion of a session and the migration of session ids write:
    agent runs, gateway, schedules, tasks and delegations.  Foreign keys are not
    enforced on this store's connections.  Timestamps are instants; the columns that
    hold JSON are the values they hold.  The tables of usage records, compression
    statistics and sandbox history, which the migration renames in the same way, are not
    part of [database]. *)
From S2P Require Import Prelude Text Json TaskDomain TaskStore DelegationDomain AgentRuns GatewayStore Schedules.
From stdpp Require Import gmap.
Open Scope Z_scope.

(** * The domain *)

Definition DEFAULT_SESSION_TITLE : string := "New Session".
Definition CONTEXT_SUMMARY_PREFIX : string := "[CONTEXT SUMMARY]: ".

Module SessionSource.
Inductive t : Type := DASHBOARD | API | CLI | FEISHU | DINGTALK | WECOM | ACP | SCHEDULE | CURATOR | TASK | DELEGATION.
#[global] Instance eq_dec : EqDecision t.
Proof. solve_decision. Defined.
Definition value (s : t) : string :=
  match s with
  | DASHBOARD => "dashboard" | API => "api" | CLI => "cli" | FEISHU => "feishu" | DINGTALK => "dingtalk"
  | WECOM => "wecom" | ACP => "acp" | SCHEDULE => "schedule" | CURATOR => "curator" | TASK => "task"
  | DELEGATION => "delegation"
  end.
Definition im_platforms : list string := map value [FEISHU; DINGTALK; WECOM].
End SessionSource.

Module Message.
Record t : Type := mk {
  id : string;
  session_id : string;
  role : string;
  content : json;
  tool_call_id : option string;
  name : option string;
  created_at : Z;
  is_summary : bool;
  is_summarized : bool;
  source : option string;
  card : option dict;
  run_id : option string;
  origin_kind : string
}.
#[global] Instance rebuild_t : Rebuild t := fun r =>
  mk (id r) (session_id r) (role r) (content r) (tool_call_id r) (name r) (created_at r) (is_summary r)
    (is_summarized r) (source r) (card r) (run_id r) (origin_kind r).
End Message.

Module ToolCall.
Record t : Type := mk {
  id : string;
  session_id : string;
  tool_name : string;
  arguments : dict;
  result : option dict;
  status : string;
  duration_ms : Z;
  message_id : option string;
  created_at : Z;
  run_id : option string
}.
#[global] Instance rebuild_t : Rebuild t := fun r =>
  mk (id r) (session_id r) (tool_name r) (arguments r) (result r) (status r) (duration_ms r) (message_id r)
    (created_at r) (run_id r).
End ToolCall.

Module Summary.
Record t : Type := mk {
  session_id : string;
  summary : string;
  source_message_id : option string;
  updated_at : Z
}.
#[global] Instance rebuild_t : Rebuild t := fun r => mk (session_id r) (summary r) (source_message_id r) (updated_at r).
End Summary.

Module TaskState.
Record t : Type := mk {
  session_id : string;
  status : string;
  iteration_count : Z;
  last_error : option string;
  updated_at : Z
}.
#[global] Instance rebuild_t : Rebuild t := fun r => mk (session_id r) (status r) (iteration_count r) (last_error r) (updated_at r).
End TaskState.

Module Session.
Record t : Type := mk {
  id : string;
  title : string;
  source : string;
  external_memory_enabled : option (list string);
  external_memory_slots : option dict;
  created_at : Z;
  updated_at : Z;
  acp_metadata : option dict
}.
#[global] Instance rebuild_t : Rebuild t := fun r =>
  mk (id r) (title r) (source r) (external_memory_enabled r) (external_memory_slots r) (created_at r) (updated_at r)
    (acp_metadata r).
(** [ConversationSession(id=...)] *)
Definition fresh (id : string) (now : Z) : t :=
  mk id DEFAULT_SESSION_TITLE (SessionSource.value SessionSource.API) None None now now None.
Definition has_default_title (s : t) : bool := bool_decide (title s = DEFAULT_SESSION_TITLE).
End Session.

(** * The database *)

Record database := mkTables {
  db_sessions : list Session.t;
  db_messages : list Message.t;
  db_tool_calls : list ToolCall.t;
  db_task_states : list TaskState.t;
  db_summaries : list Summary.t;
  db_runs : list AgentRun.t;
  db_gateway : gdb;
  db_schedules : sdb;
  db_tasks : gmap string Task.t;
  (** [task_runs.id] and [task_runs.trigger_run_id] *)
  db_task_triggers : list (Z * option string);
  db_delegations : list Delegation.t;
  db_trace_links : list trace_link_row
}.
#[export] Instance rebuild_database : Rebuild database := fun d =>
  mkTables (db_sessions d) (db_messages d) (db_tool_calls d) (db_task_states d) (db_summaries d) (db_runs d)
    (db_gateway d) (db_schedules d) (db_tasks d) (db_task_triggers d) (db_delegations d) (db_trace_links d).
Definition empty_database : database := mkTables [] [] [] [] [] [] empty_gdb empty_sdb ∅ [] [] [].

Definition is_session (i : string) (s : Session.t) : bool := bool_decide (Session.id s = i).
Definition get_session (d : database) (i : string) : option Session.t := List.find (is_session i) (db_sessions d).

Definition update_sessions (i : string) (set : Session.t -> Session.t) (d : database) : database :=
  d <| db_sessions := map (fun s => if is_session i s then set s else s) (db_sessions d) |>.

(** [INSERT OR IGNORE]; the slots column is not written. *)
Definition create_session (d : database) (s : Session.t) : database * Session.t :=
  (match get_session d (Session.id s) with
   | Some _ => d
   | None => d <| db_sessions := db_sessions d ++ [s <| Session.external_memory_slots := None |>] |>
   end, s).

(** [ORDER BY updated_at DESC] *)
Definition list_sessions (d : database) : list Session.t :=
  order_by (fun a b => Session.updated_at b <=? Session.updated_at a) (db_sessions d).

Definition update_session_title (d : database) (i title : string) : database :=
  update_sessions i (fun s => s <| Session.title := title |>) d.

(** The first lock stays. *)
Definition lock_session_external_memory (d : database) (i : string) (enabled : list string) (slots : option dict)
    (now : Z) : database * list string :=
  let d := (create_session d (Session.fresh i now)).1 in
  match get_session d i ≫= Session.external_memory_enabled with
  | Some locked => (d, locked)
  | None =>
      let slots := match slots with Some [] => None | s => s end in
      (update_sessions i (fun s => s <| Session.external_memory_enabled := Some enabled |>
                                     <| Session.external_memory_slots := slots |>) d, enabled)
  end.

(** ** Messages *)

Section writes.
(** The run the coroutine is bound to, and the clock. *)
Context (current : option RunBinding) (now : Z).

(** [_validate_projection_write] *)
Definition validate_projection_write (d : database) (i : string) : option py_exc :=
  match current with
  | Some b => if bool_decide (b_session_id b = i)
              then validate_run_session (db_runs d) current (Some (b_run_id b)) i now else None
  | None => None
  end.

Definition insert_message (d : database) (m : Message.t) : result database :=
  if existsb (fun x => bool_decide (Message.id x = Message.id m)) (db_messages d) then Raise IntegrityError
  else Return (d <| db_messages := db_messages d ++ [m] |>).

(** The transaction of a message, for a session that a message without a run creates. *)
Definition append_row (d : database) (i : string) (m : Message.t) : database * result Message.t :=
  let d := if bool_decide (Message.run_id m = None) then (create_session d (Session.fresh i now)).1 else d in
  match validate_run_session (db_runs d) current (Message.run_id m) i now with
  | Some e => (d, Raise e)
  | None =>
      match insert_message d m with
      | Raise e => (d, Raise e)
      | Return d => (update_sessions i (fun s => s <| Session.updated_at := Message.created_at m |>) d, Return m)
      end
  end.

Definition append_message (d : database) (i : string) (m : Message.t) : database * result Message.t :=
  append_row d i (m <| Message.session_id := i |>).

Definition append_message_if_session_exists (d : database) (i : string) (m : Message.t)
    : database * result (option Message.t) :=
  let m := m <| Message.session_id := i |> in
  match get_session d i with
  | None => (d, Return None)
  | Some _ =>
      match validate_run_session (db_runs d) current (Message.run_id m) i now with
      | Some e => (d, Raise e)
      | None =>
          match insert_message d m with
          | Raise e => (d, Raise e)
          | Return d => (update_sessions i (fun s => s <| Session.updated_at :=
                           Z.max (Session.updated_at s) (Message.created_at m) |>) d, Return (Some m))
          end
      end
  end.

Definition append_summary_message (d : database) (i : string) (m : Message.t) : database * result Message.t :=
  match Message.content m with
  | JStr text =>
      if negb (Message.is_summary m) || negb (bool_decide (Message.role m = "user"))
         || negb (starts_with CONTEXT_SUMMARY_PREFIX text)
      then (d, Raise ValueError)
      else append_row d i (m <| Message.session_id := i |> <| Message.is_summarized := false |> <| Message.card := None |>)
  | _ => (d, Raise ValueError)
  end.

Definition of_session (i : string) (m : Message.t) : bool := bool_decide (Message.session_id m = i).

(** [ORDER BY created_at ASC, rowid ASC] *)
Definition list_messages (d : database) (i : string) : list Message.t :=
  order_by (fun a b => Message.created_at a <=? Message.created_at b) (List.filter (of_session i) (db_messages d)).

Definition delete_summary_messages (d : database) (i : string) : database * result nat :=
  match validate_projection_write d i with
  | Some e => (d, Raise e)
  | None =>
      let cond m := of_session i m && Message.is_summary m in
      (d <| db_messages := List.filter (fun m => negb (cond m)) (db_messages d) |>, Return (rowcount cond (db_messages d)))
  end.

Definition mark_messages_summarized (d : database) (i : string) (ids : list string) : database * result nat :=
  match ids with
  | [] => (d, Return 0%nat)
  | _ =>
      match validate_projection_write d i with
      | Some e => (d, Raise e)
      | None =>
          let cond m := of_session i m && bool_decide (Message.id m ∈ ids) in
          (d <| db_messages := map (fun m => if cond m then m <| Message.is_summarized := true |> else m) (db_messages d) |>,
           Return (rowcount cond (db_messages d)))
      end
  end.

(** ** Tool calls, states and summaries

    [INSERT OR REPLACE]: the old row goes, the new one is last. *)

Definition replace_row {A} (same : A -> bool) (row : A) (rows : list A) : list A :=
  List.filter (fun x => negb (same x)) rows ++ [row].

Definition save_tool_call (d : database) (c : ToolCall.t) : database * result ToolCall.t :=
  let i := ToolCall.session_id c in
  let d := if bool_decide (ToolCall.run_id c = None) then (create_session d (Session.fresh i now)).1 else d in
  match validate_run_session (db_runs d) current (ToolCall.run_id c) i now with
  | Some e => (d, Raise e)
  | None => (d <| db_tool_calls := replace_row (fun x => bool_decide (ToolCall.id x = ToolCall.id c)) c (db_tool_calls d) |>,
             Return c)
  end.

Definition call_of (i : string) (c : ToolCall.t) : bool := bool_decide (ToolCall.session_id c = i).
Definition list_tool_calls (d : database) (i : string) : list ToolCall.t :=
  order_by (fun a b => ToolCall.created_at a <=? ToolCall.created_at b) (List.filter (call_of i) (db_tool_calls d)).
Definition list_recent_tool_calls (d : database) (tool_name : option string) (limit : Z) : list ToolCall.t :=
  limited limit (order_by (fun a b => ToolCall.created_at b <=? ToolCall.created_at a)
    (match tool_name with
     | Some n => List.filter (fun c => bool_decide (ToolCall.tool_name c = n)) (db_tool_calls d)
     | None => db_tool_calls d
     end)).
Definition delete_tool_call (d : database) (call_id : string) : database * bool :=
  (d <| db_tool_calls := List.filter (fun c => negb (bool_decide (ToolCall.id c = call_id))) (db_tool_calls d) |>,
   existsb (fun c => bool_decide (ToolCall.id c = call_id)) (db_tool_calls d)).

Definition state_of (i : string) (s : TaskState.t) : bool := bool_decide (TaskState.session_id s = i).
Definition summary_of (i : string) (s : Summary.t) : bool := bool_decide (Summary.session_id s = i).

Definition save_task_state (d : database) (s : TaskState.t) : database * result TaskState.t :=
  match validate_projection_write d (TaskState.session_id s) with
  | Some e => (d, Raise e)
  | None => (d <| db_task_states := replace_row (state_of (TaskState.session_id s)) s (db_task_states d) |>, Return s)
  end.
Definition get_task_state (d : database) (i : string) : option TaskState.t := List.find (state_of i) (db_task_states d).

Definition save_summary (d : database) (s : Summary.t) : database * result Summary.t :=
  match validate_projection_write d (Summary.session_id s) with
  | Some e => (d, Raise e)
  | None => (d <| db_summaries := replace_row (summary_of (Summary.session_id s)) s (db_summaries d) |>, Return s)
  end.
Definition get_summary (d : database) (i : string) : option Summary.t := List.find (summary_of i) (db_summaries d).
End writes.

(** ** Deletion *)

Definition session_busy (d : database) (i : string) : bool :=
  existsb (fun r => bool_decide (AgentRun.session_id r = i) && unfinished r) (db_runs d).

Definition assert_session_deletable (d : database) (i : string) : result unit :=
  if session_busy d i then Raise ValueError else Return tt.

(** The runs of the session, whose references the other tables lose. *)
Definition session_runs (d : database) (i : string) : list string :=
  map AgentRun.id (List.filter (fun r => bool_decide (AgentRun.session_id r = i)) (db_runs d)).

(** [SET column = NULL WHERE column IN ids] *)
Definition clear_in (ids : list string) (v : option string) : option string :=
  match v with Some x => if bool_decide (x ∈ ids) then None else v | None => None end.

Definition delete_runs (d : database) (i : string) : database :=
  let ids := session_runs d i in
  d <| db_trace_links := List.filter (fun l => negb (bool_decide (tl_biz_type l = "agent_run")
                                                   && bool_decide (tl_biz_id l ∈ ids))) (db_trace_links d) |>
    <| db_runs := List.filter (fun r => negb (bool_decide (AgentRun.session_id r = i)))
                    (map (fun r => r <| AgentRun.parent_run_id := clear_in ids (AgentRun.parent_run_id r) |>
                                     <| AgentRun.retry_of_run_id := clear_in ids (AgentRun.retry_of_run_id r) |>) (db_runs d)) |>
    <| db_tasks := (fun t => t <| Task.created_by_run_id := clear_in ids (Task.created_by_run_id t) |>
                             <| Task.pending_trigger_run_id := clear_in ids (Task.pending_trigger_run_id t) |>) <$> db_tasks d |>
    <| db_task_triggers := map (fun p => (p.1, clear_in ids p.2)) (db_task_triggers d) |>
    <| db_schedules := (db_schedules d) <| executions :=
         map (fun e => e <| Execution.trigger_run_id := clear_in ids (Execution.trigger_run_id e) |>) (executions (db_schedules d)) |> |>
    <| db_delegations := map (fun x => x <| Delegation.canonical_parent_run_id :=
                                clear_in ids (Delegation.canonical_parent_run_id x) |>) (db_delegations d) |>.

(** [BEGIN IMMEDIATE]: one transaction, refused while a run of the session is active. *)
Definition delete_session (d : database) (i : string) : database * result bool :=
  if session_busy d i then (d, Raise ValueError)
  else
    let d := delete_runs d i in
    let d := d <| db_gateway := delete_session_link (db_gateway d) i |> in
    let d := d <| db_messages := List.filter (fun m => negb (of_session i m)) (db_messages d) |>
               <| db_tool_calls := List.filter (fun c => negb (call_of i c)) (db_tool_calls d) |>
               <| db_task_states := List.filter (fun s => negb (state_of i s)) (db_task_states d) |>
               <| db_summaries := List.filter (fun s => negb (summary_of i s)) (db_summaries d) |>
               <| db_tasks := (fun t => t <| Task.origin_session_id := clear_in [i] (Task.origin_session_id t) |>
                                        <| Task.execution_session_id := clear_in [i] (Task.execution_session_id t) |>) <$> db_tasks d |> in
    (d <| db_sessions := List.filter (fun s => negb (is_session i s)) (db_sessions d) |>,
     Return (existsb (is_session i) (db_sessions d))).

(** ** Sessions of one source *)

Definition update_session_acp_metadata (d : database) (i : string) (metadata : dict) (now : Z) : database :=
  update_sessions i (fun s => s <| Session.acp_metadata := Some metadata |> <| Session.updated_at := now |>) d.

(** [ORDER BY updated_at DESC, id DESC] *)
Definition newer_session (a b : Session.t) : bool :=
  (Session.updated_at b <? Session.updated_at a)
  || ((Session.updated_at a =? Session.updated_at b) && str_leb (Session.id b) (Session.id a)).

Definition in_cwd (cwd : option string) (s : Session.t) : bool :=
  match cwd with
  | None => true
  | Some c => match Session.acp_metadata s with Some m => bool_decide (dict_get m "cwd" = JStr c) | None => false end
  end.

Definition sessions_of_source (d : database) (source : string) (cwd : option string) : list Session.t :=
  List.filter (in_cwd cwd) (order_by newer_session
    (List.filter (fun s => bool_decide (Session.source s = source)) (db_sessions d))).

(** A cursor is the time and the id of the last session shown; its text is split at
    the first bar, and a text without one lists nothing, as one that is not found. *)
Notation cursor := (Z * string)%type.
Definition cursor_at (s : Session.t) : cursor := (Session.updated_at s, Session.id s).

Fixpoint after_cursor (c : cursor) (l : list Session.t) : option (list Session.t) :=
  match l with
  | [] => None
  | s :: l => if bool_decide (cursor_at s = c) then Some l else after_cursor c l
  end.

Definition list_sessions_by_source (d : database) (source : string) (cwd : option string) (c : option cursor)
    (limit : nat) : list Session.t * option cursor :=
  match (match c with None => Some (sessions_of_source d source cwd)
                    | Some c => after_cursor c (sessions_of_source d source cwd) end) with
  | None => ([], None)
  | Some rest =>
      let page := take limit rest in
      (page, if (limit <? length rest)%nat then cursor_at <$> last page else None)
  end.

(** ** Cloning

    [ids] are the identifiers drawn, which no row has yet: one for each message and
    then one for each tool call.  The columns of a copy that the statement does not name have their
    defaults: no card, no run, and the tool calls no run. *)

Definition copy_message (target : string) (p : Message.t * string) : Message.t :=
  p.1 <| Message.id := p.2 |> <| Message.session_id := target |> <| Message.card := None |>
      <| Message.run_id := None |> <| Message.origin_kind := "context_copy" |>.

Definition copy_call (target : string) (renamed : string -> option string) (p : ToolCall.t * string) : ToolCall.t :=
  p.1 <| ToolCall.id := p.2 |> <| ToolCall.session_id := target |> <| ToolCall.run_id := None |>
      <| ToolCall.message_id := ToolCall.message_id p.1 ≫= renamed |>.

Definition clone_rows (d : database) (source target : string) (ids : list string) : database :=
  let old := list_messages d source in
  let calls := list_tool_calls d source in
  let pairs := zip old ids in
  let renamed i := snd <$> List.find (fun p => bool_decide (Message.id p.1 = i)) pairs in
  let d := d <| db_messages := db_messages d ++ map (copy_message target) pairs |>
             <| db_tool_calls := db_tool_calls d ++ map (copy_call target renamed) (zip calls (drop (length old) ids)) |> in
  let d := match get_task_state d source with
           | Some s => d <| db_task_states := replace_row (state_of target) (s <| TaskState.session_id := target |>) (db_task_states d) |>
           | None => d
           end in
  match get_summary d source with
  | Some s => d <| db_summaries := replace_row (summary_of target) (s <| Summary.session_id := target |>) (db_summaries d) |>
  | None => d
  end.

Definition clone_session (d : database) (source target : string) (ids : list string) (now : Z) : database * result unit :=
  match get_session d source with
  | None => (d, Return tt)
  | Some s =>
      match get_session d target with
      | Some _ => (d, Raise IntegrityError)
      | None =>
          let row := s <| Session.id := target |> <| Session.created_at := now |> <| Session.updated_at := now |>
                       <| Session.source := SessionSource.value SessionSource.ACP |> in
          (clone_rows (d <| db_sessions := db_sessions d ++ [row] |>) source target ids, Return tt)
      end
  end.

(** [s[len(p):]] when [s.startswith(p)]. *)
Definition after_prefix (p s : string) : option string :=
  if starts_with p s then Some (drop_str (String.length p) s) else None.

Definition is_im (source : string) : bool := bool_decide (source ∈ SessionSource.im_platforms).

Definition new_source_of (source : string) : string :=
  if bool_decide (source = "local") then SessionSource.value SessionSource.CLI
  else match after_prefix "gw/" source with
       | Some platform => if is_im platform then platform else source
       | None => source
       end.

(** [p + rest] for the first of the old prefixes the id has, or the id with [p] before
    it unless it is there already. *)
Fixpoint renamed_prefix (p : string) (old : list string) (i : string) : string :=
  match old with
  | [] => if starts_with p i then i else p +:+ i
  | o :: old => match after_prefix o i with Some rest => p +:+ rest | None => renamed_prefix p old i end
  end.

Definition new_id_of (new_source i : string) : string :=
  if bool_decide (new_source = SessionSource.value SessionSource.DASHBOARD)
  then match after_prefix "session-" i with Some rest => "dashboard-" +:+ rest | None => i end
  else if bool_decide (new_source = SessionSource.value SessionSource.API)
  then match after_prefix "tmp-" i with Some rest => "api-" +:+ rest | None => i end
  else if bool_decide (new_source = SessionSource.value SessionSource.CLI)
  then renamed_prefix "cli-" ["gateway-"] i
  else if is_im new_source then renamed_prefix (new_source +:+ "-") ["gateway-"; "gw-"] i
  else i.

Definition compute_new_session_id_and_source (old_id source : string) : string * string :=
  let new_source := new_source_of source in (new_id_of new_source old_id, new_source).

(** [(old_id, new_id, new_source)] *)
Record renaming := mkRenaming { old_id : string; new_id : string; new_source : string }.

Definition taken (d : database) (i : string) : bool := bool_decide (is_Some (get_session d i)).

(** The rows to change; a row whose new id another row has is skipped. *)
Definition renaming_of (d : database) (s : Session.t) : option renaming :=
  let '(n, src) := compute_new_session_id_and_source (Session.id s) (Session.source s) in
  if bool_decide (n = Session.id s) && bool_decide (src = Session.source s) then None
  else if negb (bool_decide (n = Session.id s)) && taken d n then None
  else Some (mkRenaming (Session.id s) n src).
Definition renamings (d : database) : list renaming := omap (renaming_of d) (db_sessions d).

Definition swap (o n i : string) : string := if bool_decide (i = o) then n else i.

(** A column declared unique refuses the new value. *)
Definition clashes (d : database) (o n : string) : bool :=
  taken d n
  || (bool_decide (is_Some (get_task_state d o)) && bool_decide (is_Some (get_task_state d n)))
  || (bool_decide (is_Some (get_summary d o)) && bool_decide (is_Some (get_summary d n)))
  || existsb (fun l => bool_decide (SessionLink.session_id l = o)
                       && existsb (link_of (SessionLink.conversation_id l) n) (links (db_gateway d))) (links (db_gateway d)).

(** [f] on the session id of every row of every table. *)
Definition map_session_ids (f : string -> string) (d : database) : database :=
  mkTables
    (map (fun s => s <| Session.id := f (Session.id s) |>) (db_sessions d))
    (map (fun m => m <| Message.session_id := f (Message.session_id m) |>) (db_messages d))
    (map (fun c => c <| ToolCall.session_id := f (ToolCall.session_id c) |>) (db_tool_calls d))
    (map (fun s => s <| TaskState.session_id := f (TaskState.session_id s) |>) (db_task_states d))
    (map (fun s => s <| Summary.session_id := f (Summary.session_id s) |>) (db_summaries d))
    (map (fun r => r <| AgentRun.session_id := f (AgentRun.session_id r) |>) (db_runs d))
    (mkGdb
       (map (fun c => c <| Conversation.active_session_id := f <$> Conversation.active_session_id c |>)
          (conversations (db_gateway d)))
       (map (fun l => l <| SessionLink.session_id := f (SessionLink.session_id l) |>) (links (db_gateway d)))
       (processed_events (db_gateway d)) (home_targets (db_gateway d)))
    (mkSdb
       (map (fun t => t <| ScheduledTask.session_id := f (ScheduledTask.session_id t) |>) (scheduled_tasks (db_schedules d)))
       (map (fun e => e <| Execution.session_id := f (Execution.session_id e) |>) (executions (db_schedules d))))
    ((fun t => t <| Task.origin_session_id := f <$> Task.origin_session_id t |>
                 <| Task.execution_session_id := f <$> Task.execution_session_id t |>) <$> db_tasks d)
    (db_task_triggers d) (db_delegations d) (db_trace_links d).

(** The updates of one rename. *)
Definition rename_everywhere (o n : string) (d : database) : database := map_session_ids (swap o n) d.

Fixpoint apply_renamings (d : database) (l : list renaming) : result database :=
  match l with
  | [] => Return d
  | r :: l =>
      let? d := (if bool_decide (new_id r = old_id r) then Return d
                 else if clashes d (old_id r) (new_id r) then Raise IntegrityError
                 else Return (rename_everywhere (old_id r) (new_id r) d)) in
      apply_renamings (update_sessions (new_id r) (fun s => s <| Session.source := new_source r |>) d) l
  end.

(** One transaction: a clash undoes the whole migration. *)
Definition migrate_session_id_prefixes (d : database) : database * result unit :=
  match apply_renamings d (renamings d) with
  | Return d' => (d', Return tt)
  | Raise e => (d, Raise e)
  end.
