(* ===== verification/SessionService.v ===== *)
(** The session service (app/application/session_service.py) on the store of sessions.

    What the callbacks of the other components do is an argument: each is a function
    on the database that may raise.  The calls of the memory manager and of the plugin
    hooks, whose failures are swallowed, are the trace returned. *)
From S2P Require Import Prelude Json Unicode Schedules AgentRuns SessionStore.
Open Scope Z_scope.

Definition handler : Type := string -> database -> database * result unit.

(** What the memory manager and the plugins are told. *)
Inductive session_event : Type :=
  | MemorySwitched (id : string)
  | MemoryEnded (id : string)
  | HookStarted (id source : string)
  | HookEnded (id source : string).

Record session_service := mkSessionService {
  on_deleting : list handler;
  on_deleted : list handler;
  has_memory_manager : bool;
  has_hooks : bool
}.

(** * Creation and deletion *)

(** The session returned is the one given, also when another was stored before. *)
Definition service_create_session (svc : session_service) (d : database) (i source : string) (now : Z)
    : database * list session_event * Session.t :=
  let is_new := bool_decide (get_session d i = None) in
  let '(d, created) := create_session d ((Session.fresh i now) <| Session.source := source |>) in
  (d, (if is_new && has_memory_manager svc then [MemorySwitched i] else [])
      ++ (if is_new && has_hooks svc then [HookStarted i (Session.source created)] else []), created).

(** [_invoke_session_deleting_handlers]: the first failure is raised. *)
Fixpoint run_deleting (hs : list handler) (i : string) (d : database) : database * result unit :=
  match hs with
  | [] => (d, Return tt)
  | h :: hs => match h i d with
               | (d, Return _) => run_deleting hs i d
               | (d, Raise e) => (d, Raise e)
               end
  end.

(** [_invoke_session_deleted_handlers]: a failure is logged. *)
Definition run_deleted (hs : list handler) (i : string) (d : database) : database :=
  foldl (fun d h => (h i d).1) d hs.

(** The one [ValueError] the store raises here is that of an active run. *)
Definition busy_error (e : py_exc) : py_exc := match e with ValueError => SessionBusyError | _ => e end.

Definition service_delete_session (svc : session_service) (d : database) (i : string)
    : database * list session_event * result unit :=
  match get_session d i with
  | None => (d, [], Raise SessionNotFoundError)
  | Some existing =>
      match assert_session_deletable d i with
      | Raise e => (d, [], Raise (busy_error e))
      | Return _ =>
          match run_deleting (on_deleting svc) i d with
          | (d, Raise e) => (d, [], Raise e)
          | (d, Return _) =>
              let told := if has_memory_manager svc then [MemoryEnded i] else [] in
              match delete_session d i with
              | (d, Raise e) => (d, told, Raise (busy_error e))
              | (d, Return false) => (d, told, Raise SessionNotFoundError)
              | (d, Return true) =>
                  let told := told ++ (if has_hooks svc then [HookEnded i (Session.source existing)] else []) in
                  (run_deleted (on_deleted svc) i d, told, Return tt)
              end
          end
      end
  end.

(** * Titles *)

Definition rename_session (d : database) (i : string) (title : option text) : database * result Session.t :=
  match title with
  | None => (d, Raise SessionValidationError)
  | Some t =>
      match strip_text t with
      | [] => (d, Raise SessionValidationError)
      | cleaned =>
          match get_session d i with
          | None => (d, Raise SessionNotFoundError)
          | Some session =>
              let d := update_session_title d i (utf8_encode (take 60 cleaned)) in
              (d, Return (default session (get_session d i)))
          end
      end
  end.

(** [_generate_and_save_title]; [title] is what the generator answers, if it does. *)
Definition generate_and_save_title (d : database) (i : string) (title : option text) : database :=
  match strip_text <$> title with
  | None | Some [] => d
  | Some t => update_session_title d i (utf8_encode (take 60 t))
  end.

(** [ensure_title]: the task it starts, if it starts one. *)
Definition ensure_title (d : database) (has_generator : bool) (i : string) (user_message : string) : bool :=
  has_generator && truthy_str user_message
  && match get_session d i with Some s => Session.has_default_title s | None => false end.

(** * Messages to the user *)

Definition TASK_MESSAGE_MAX_BYTES : Z := 65536.
(** The suffix is three full-width dots and five characters in brackets. *)
Definition TASK_MESSAGE_TRUNCATE_SUFFIX : text := [8230; 91; 20869; 23481; 24050; 25130; 26029; 93].

(** [_truncate_task_message_utf8] *)
Definition truncate_task_message_utf8 (t : text) : text :=
  if utf8_size t <=? TASK_MESSAGE_MAX_BYTES then t
  else
    let budget := TASK_MESSAGE_MAX_BYTES - utf8_size TASK_MESSAGE_TRUNCATE_SUFFIX in
    if budget <=? 0 then TASK_MESSAGE_TRUNCATE_SUFFIX
    else strip_text (take_bytes budget t ++ TASK_MESSAGE_TRUNCATE_SUFFIX).

(** A card whose summary is the text [summary], if it has one. *)
Record card := mkCard { card_fields : dict; card_summary : option text }.

(** [_normalize_card] *)
Definition normalize_card (c : card) : dict :=
  match card_summary c with
  | Some t => dict_set "summary" (JStr (utf8_encode (truncate_task_message_utf8 t))) (card_fields c)
  | None => card_fields c
  end.

Section messages.
Context (current : option RunBinding) (now : Z) (new_id : string).

(** [_append_system_message] *)
Definition append_system_message (d : database) (i name : string) (content : text) (truncate : bool)
    (c : option card) : database * result Message.t :=
  match strip_text content with
  | [] => (d, Raise SessionValidationError)
  | cleaned =>
      if negb truncate && (TASK_MESSAGE_MAX_BYTES <? utf8_size cleaned) then (d, Raise SessionValidationError)
      else
        let body := if truncate then truncate_task_message_utf8 cleaned else cleaned in
        let m := Message.mk new_id i "system" (JStr (utf8_encode body)) None (Some name) now false false None
                   (normalize_card <$> c) None "notification" in
        match append_message_if_session_exists current now d i m with
        | (d, Raise e) => (d, Raise e)
        | (d, Return None) => (d, Raise SessionNotFoundError)
        | (d, Return (Some m)) => (d, Return m)
        end
  end.

Definition append_task_command_message (d : database) (i : string) (content : text) :=
  append_system_message d i "ui.task_command" content false None.
Definition append_task_lifecycle_message (d : database) (i : string) (content : text) (c : option card) :=
  append_system_message d i "ui.task_lifecycle" content true c.
Definition append_task_result_message (d : database) (i : string) (content : text) :=
  append_system_message d i "ui.task_result" content true None.
Definition append_task_artifact_message (d : database) (i : string) (content : text) (c : option card) :=
  append_system_message d i "ui.task_artifact" content true c.

Definition APPROVAL_FIELDS : list string :=
  ["confirmation_id"; "tool_name"; "description"; "arguments_summary"; "expires_at"].

(** The fields of an approval are texts; the card shows these fields only. *)
Definition append_tool_approval_message (d : database) (i : string) (approval : list (string * text))
    : database * result Message.t :=
  let field k := snd <$> List.find (fun p => bool_decide (p.1 = k)) approval in
  match mapM field APPROVAL_FIELDS with
  | None => (d, Raise SessionValidationError)
  | Some values =>
      if existsb (fun v => bool_decide (strip_text v = [])) values then (d, Raise SessionValidationError)
      else append_system_message d i "ui.tool_approval"
             [24037; 20855; 25805; 20316; 31561; 24453; 30830; 35748] true
             (Some (mkCard [("kind", JStr "tool_approval");
                            ("approval", JObj (zip APPROVAL_FIELDS (map (fun v => JStr (utf8_encode v)) values)))] None))
  end.

Definition append_tool_approval_resolution_message (d : database) (i : string) (confirmation_id : text)
    (status : string) (scope : option string) : database * result Message.t :=
  if bool_decide (strip_text confirmation_id = []) then (d, Raise SessionValidationError)
  else if negb (bool_decide (status ∈ ["approved"; "rejected"])) then (d, Raise SessionValidationError)
  else
    let approved := bool_decide (status = "approved") in
    let label := if approved then [24050; 25209; 20934] else [24050; 25298; 32477] in
    let extra := match scope with
                 | Some s => if approved && bool_decide (s ∈ ["once"; "session"]) then [("scope", JStr s)] else []
                 | None => []
                 end in
    append_system_message d i "ui.tool_approval_resolution" ([24037; 20855; 25805; 20316] ++ label) true
      (Some (mkCard ([("kind", JStr "tool_approval_resolution"); ("confirmation_id", JStr (utf8_encode confirmation_id));
                      ("status", JStr status)] ++ extra) None)).
End messages.
