(* ===== verification/SessionProps.v ===== *)
(** The integrity of the store of sessions over time: which rows belong to which, under
    every operation of the store, of the registry of runs and of the migration; and what
    these operations make of the ledger of runs. *)
From stdpp Require Import gmap.
From S2P Require Import Prelude Schedules AgentRuns AgentRunProps SessionStore.
Open Scope Z_scope.

(** * Histories *)

Inductive store_op : Type :=
  | ECreate (s : Session.t)
  | ETitle (i title : string)
  | ELock (i : string) (enabled : list string) (slots : option dict) (now : Z)
  | EMetadata (i : string) (metadata : dict) (now : Z)
  | EAppend (current : option RunBinding) (now : Z) (i : string) (m : Message.t)
  | EAppendIf (current : option RunBinding) (now : Z) (i : string) (m : Message.t)
  | EAppendSummary (current : option RunBinding) (now : Z) (i : string) (m : Message.t)
  | EDropSummaries (current : option RunBinding) (now : Z) (i : string)
  | EMark (current : option RunBinding) (now : Z) (i : string) (ids : list string)
  | ECall (current : option RunBinding) (now : Z) (c : ToolCall.t)
  | EDropCall (call_id : string)
  | EState (current : option RunBinding) (now : Z) (s : TaskState.t)
  | ESummary (current : option RunBinding) (now : Z) (s : Summary.t)
  | EDelete (i : string)
  | EClone (source target : string) (ids : list string) (now : Z)
  | ERun (o : rop)
  | EMigrate.

(** A registration looks the session up in this database. *)
Definition on_store (d : database) (o : rop) : rop :=
  match o with
  | RRegister db f lease now =>
      RRegister (mkDatabase (taken d) (task_attempts db) (execution_session db) (member_session db)) f lease now
  | o => o
  end.

Definition exec_store (d : database) (op : store_op) : database :=
  match op with
  | ECreate s => (create_session d s).1
  | ETitle i title => update_session_title d i title
  | ELock i enabled slots now => (lock_session_external_memory d i enabled slots now).1
  | EMetadata i m now => update_session_acp_metadata d i m now
  | EAppend cur now i m => (append_message cur now d i m).1
  | EAppendIf cur now i m => (append_message_if_session_exists cur now d i m).1
  | EAppendSummary cur now i m => (append_summary_message cur now d i m).1
  | EDropSummaries cur now i => (delete_summary_messages cur now d i).1
  | EMark cur now i ids => (mark_messages_summarized cur now d i ids).1
  | ECall cur now c => (save_tool_call cur now d c).1
  | EDropCall i => (delete_tool_call d i).1
  | EState cur now s => (save_task_state cur now d s).1
  | ESummary cur now s => (save_summary cur now d s).1
  | EDelete i => (delete_session d i).1
  | EClone source target ids now => (clone_session d source target ids now).1
  | ERun o => d <| db_runs := exec_rop (db_runs d) (on_store d o) |>
  | EMigrate => (migrate_session_id_prefixes d).1
  end.
Definition exec_stores (d : database) (ops : list store_op) : database := fold_left exec_store ops d.

(** The identifiers a clone draws are new. *)
Definition fresh_ids (d : database) (op : store_op) : Prop :=
  match op with
  | EClone _ _ ids _ => NoDup ids /\ (forall i, i ∈ ids -> i ∉ map Message.id (db_messages d) /\ i ∉ map ToolCall.id (db_tool_calls d))
  | _ => True
  end.
Fixpoint all_fresh (d : database) (ops : list store_op) : Prop :=
  match ops with [] => True | op :: ops => fresh_ids d op /\ all_fresh (exec_store d op) ops end.

(** * The invariant *)

Definition session_ids (d : database) : list string := map Session.id (db_sessions d).

(** The session is stored, and the run, if one is named, is a run of it. *)
Definition belongs_to (d : database) (s : string) (run : option string) : Prop :=
  s ∈ session_ids d
  /\ forall i, run = Some i -> exists r, r ∈ db_runs d /\ AgentRun.id r = i /\ AgentRun.session_id r = s.

Definition knows_run (d : database) (o : option string) : Prop :=
  forall i, o = Some i -> i ∈ map AgentRun.id (db_runs d).

Record store_ok (d : database) : Prop := {
  st_sessions : NoDup (session_ids d);
  st_messages : NoDup (map Message.id (db_messages d));
  st_calls : NoDup (map ToolCall.id (db_tool_calls d));
  st_runs : NoDup (map AgentRun.id (db_runs d));
  st_message_owner : forall m, m ∈ db_messages d -> belongs_to d (Message.session_id m) (Message.run_id m);
  st_call_owner : forall c, c ∈ db_tool_calls d -> belongs_to d (ToolCall.session_id c) (ToolCall.run_id c);
  st_run_owner : forall r, r ∈ db_runs d -> AgentRun.session_id r ∈ session_ids d
                   /\ knows_run d (AgentRun.parent_run_id r) /\ knows_run d (AgentRun.retry_of_run_id r)
}.

Lemma empty_store_ok : store_ok empty_database.
Proof. split; try (by apply NoDup_nil_2); by intros ? ?%elem_of_nil. Qed.

(** ** Frames *)

Lemma belongs_mono d d' s o :
  (forall i, i ∈ session_ids d -> i ∈ session_ids d') ->
  (forall r, r ∈ db_runs d -> exists r', r' ∈ db_runs d' /\ AgentRun.id r' = AgentRun.id r /\ AgentRun.session_id r' = AgentRun.session_id r) ->
  belongs_to d s o -> belongs_to d' s o.
Proof.
  intros Hs Hr [H1 H2]. split; [auto|]. intros i Hi. destruct (H2 i Hi) as (r & Hin & <- & <-).
  destruct (Hr r Hin) as (r' & ? & ? & ?). by exists r'.
Qed.

(** More sessions, the same rows. *)
Lemma ok_more_sessions d d' :
  store_ok d -> NoDup (session_ids d') -> (forall i, i ∈ session_ids d -> i ∈ session_ids d') ->
  db_messages d' = db_messages d -> db_tool_calls d' = db_tool_calls d -> db_runs d' = db_runs d -> store_ok d'.
Proof.
  intros [H1 H2 H3 H4 H5 H6 H7] Hn Hs Hm Hc Hr.
  assert (Hb : forall s o, belongs_to d s o -> belongs_to d' s o).
  { intros s o. apply belongs_mono; [done|]. rewrite Hr. eauto. }
  split; rewrite ?Hm, ?Hc, ?Hr; auto. intros r Hin. destruct (H7 r Hin) as (? & ? & ?). unfold knows_run in *.
  rewrite Hr. auto.
Qed.

Lemma session_ids_update i set d :
  (forall s, Session.id (set s) = Session.id s) -> session_ids (update_sessions i set d) = session_ids d.
Proof.
  intros H. unfold session_ids. cbn. rewrite map_map. apply map_ext. intros s. case_match; [apply H|done].
Qed.

Lemma update_sessions_ok i set d :
  (forall s, Session.id (set s) = Session.id s) -> store_ok d -> store_ok (update_sessions i set d).
Proof.
  intros H Hd. apply ok_more_sessions with d; try done; rewrite session_ids_update by done; [apply Hd|done].
Qed.

Lemma get_session_in d i : bool_decide (is_Some (get_session d i)) = true <-> i ∈ session_ids d.
Proof.
  rewrite bool_decide_eq_true. unfold session_ids. split.
  - intros (s & [Hin Hid%bool_decide_eq_true]%find_some). apply list_elem_of_In in Hin. rewrite <- Hid.
    by apply list_elem_of_fmap_2.
  - intros (s & -> & Hin)%list_elem_of_fmap. unfold get_session. destruct (List.find _ _) eqn:Hf; [by eexists|].
    eapply find_none in Hf; [|apply list_elem_of_In; exact Hin]. unfold is_session in Hf. by rewrite bool_decide_eq_true_2 in Hf.
Qed.

Lemma get_session_none d i : get_session d i = None -> i ∉ session_ids d.
Proof. intros H Hin%get_session_in. rewrite H in Hin. apply bool_decide_eq_true in Hin. by destruct Hin. Qed.

Lemma get_session_some d i s : get_session d i = Some s -> i ∈ session_ids d.
Proof. intros H. apply get_session_in. rewrite H. by apply bool_decide_eq_true_2. Qed.

(** ** Creation and writes *)

Lemma create_session_ok d s : store_ok d -> store_ok (create_session d s).1.
Proof.
  intros Hd. unfold create_session. cbn. destruct (get_session d (Session.id s)) eqn:Hg; [done|].
  apply ok_more_sessions with d; try done; unfold session_ids; cbn; rewrite map_app; cbn.
  - apply NoDup_app. split; [apply Hd|]. split; [|apply NoDup_singleton].
    intros i Hi ->%list_elem_of_singleton. by apply (get_session_none _ _ Hg).
  - intros i Hi. apply elem_of_app. by left.
Qed.

Lemma create_session_stored d s : Session.id s ∈ session_ids (create_session d s).1.
Proof.
  unfold create_session. cbn. destruct (get_session d (Session.id s)) eqn:Hg; [by apply get_session_some in Hg|].
  unfold session_ids. cbn. rewrite map_app. apply elem_of_app. right. cbn. by left.
Qed.

Lemma create_session_rows d s :
  let d' := (create_session d s).1 in
  db_messages d' = db_messages d /\ db_tool_calls d' = db_tool_calls d /\ db_runs d' = db_runs d.
Proof. unfold create_session. cbn. by case_match. Qed.

Lemma validated_run d cur o i now :
  validate_run_session (db_runs d) cur o i now = None ->
  forall r, o = Some r -> exists x, x ∈ db_runs d /\ AgentRun.id x = r /\ AgentRun.session_id x = i.
Proof.
  intros H r ->. cbn in H. destruct (find_run (db_runs d) r) as [x|] eqn:Hf; [|done].
  destruct (bool_decide (AgentRun.session_id x = i)) eqn:Hs; [|done]. apply find_run_in in Hf as [Hin Hid].
  apply bool_decide_eq_true in Hs. by exists x.
Qed.

(** A write that creates the session when no run is named belongs to it. *)
Lemma validated_belongs d cur o i now :
  store_ok d -> validate_run_session (db_runs d) cur o i now = None -> (o = None -> i ∈ session_ids d) -> belongs_to d i o.
Proof.
  intros Hd Hv Hn. pose proof (validated_run _ _ _ _ _ Hv) as H. split; [|exact H].
  destruct o as [r|]; [|by apply Hn]. destruct (H r eq_refl) as (x & Hx & _ & <-). by apply (st_run_owner _ Hd).
Qed.

Lemma insert_message_ok d m d' :
  store_ok d -> belongs_to d (Message.session_id m) (Message.run_id m) -> insert_message d m = Return d' ->
  store_ok d' /\ session_ids d' = session_ids d.
Proof.
  intros [H1 H2 H3 H4 H5 H6 H7] Hb. unfold insert_message. destruct (existsb _ _) eqn:He; [done|]. intros [= <-].
  split; [|done]. split; cbn; try done.
  - rewrite map_app. apply NoDup_app. split; [done|]. split; [|apply NoDup_singleton].
    intros x (y & -> & Hy)%list_elem_of_fmap Hx%list_elem_of_singleton. rewrite existsb_false in He.
    specialize (He y Hy). by rewrite bool_decide_eq_true_2 in He.
  - intros x [Hx| ->%list_elem_of_singleton]%elem_of_app; [by apply H5|done].
Qed.

Lemma maybe_create_ok (b : bool) d s :
  store_ok d -> store_ok (if b then (create_session d s).1 else d)
               /\ (b = true -> Session.id s ∈ session_ids (if b then (create_session d s).1 else d)).
Proof.
  intros Hd. destruct b; [|by split]. split; [by apply create_session_ok|]. intros _. apply create_session_stored.
Qed.

Lemma append_row_ok cur now d i m :
  store_ok d -> Message.session_id m = i -> store_ok (append_row cur now d i m).1.
Proof.
  intros Hd Hi. unfold append_row.
  destruct (maybe_create_ok (bool_decide (Message.run_id m = None)) d (Session.fresh i now) Hd) as [Hd1 Hs].
  set (d1 := if bool_decide _ then _ else _) in *. clearbody d1.
  destruct (validate_run_session _ _ _ _ _) eqn:Hv; [done|]. destruct (insert_message d1 m) as [d2|e] eqn:Hm; [|done].
  apply update_sessions_ok; [done|]. apply (insert_message_ok d1 m d2); [done| |done]. rewrite Hi.
  apply validated_belongs with cur now; [done|done|]. intros Hn. apply Hs. by apply bool_decide_eq_true_2.
Qed.

Lemma append_if_ok cur now d i m : store_ok d -> store_ok (append_message_if_session_exists cur now d i m).1.
Proof.
  intros Hd. unfold append_message_if_session_exists. destruct (get_session d i) eqn:Hg; [|done].
  destruct (validate_run_session _ _ _ _ _) eqn:Hv; [done|]. destruct (insert_message d _) as [d2|e] eqn:Hm; [|done].
  apply update_sessions_ok; [done|]. apply (insert_message_ok _ _ _ Hd) in Hm; [by destruct Hm|].
  apply validated_belongs with cur now; [done|done|]. intros _. by apply get_session_some in Hg.
Qed.

(** Rows that go. *)
Lemma drop_messages_ok keep d :
  store_ok d -> store_ok (d <| db_messages := List.filter keep (db_messages d) |>).
Proof.
  intros [H1 H2 H3 H4 H5 H6 H7]. split; cbn; try done.
  - by apply NoDup_map_filter.
  - intros m [Hm _]%List_filter_elem. by apply H5.
Qed.

Lemma drop_calls_ok keep d :
  store_ok d -> store_ok (d <| db_tool_calls := List.filter keep (db_tool_calls d) |>).
Proof.
  intros [H1 H2 H3 H4 H5 H6 H7]. split; cbn; try done.
  - by apply NoDup_map_filter.
  - intros m [Hm _]%List_filter_elem. by apply H6.
Qed.

Lemma mark_ok (cond : Message.t -> bool) d :
  store_ok d ->
  store_ok (d <| db_messages := map (fun m => if cond m then m <| Message.is_summarized := true |> else m) (db_messages d) |>).
Proof.
  intros [H1 H2 H3 H4 H5 H6 H7]. split; cbn; try done.
  - rewrite map_map_id; [done|]. intros m _. by destruct (cond m).
  - intros x (m & -> & Hm)%list_elem_of_fmap. apply H5 in Hm. by destruct (cond m).
Qed.

Lemma save_call_ok cur now d c : store_ok d -> store_ok (save_tool_call cur now d c).1.
Proof.
  intros Hd. unfold save_tool_call.
  destruct (maybe_create_ok (bool_decide (ToolCall.run_id c = None)) d (Session.fresh (ToolCall.session_id c) now) Hd) as [Hd1 Hs].
  set (d1 := if bool_decide _ then _ else _) in *. clearbody d1.
  destruct (validate_run_session _ _ _ _ _) eqn:Hv; [done|]. cbn.
  assert (Hb : belongs_to d1 (ToolCall.session_id c) (ToolCall.run_id c)).
  { apply validated_belongs with cur now; [done|done|]. intros Hn. apply Hs. by apply bool_decide_eq_true_2. }
  apply (drop_calls_ok (fun x => negb (bool_decide (ToolCall.id x = ToolCall.id c)))) in Hd1 as [H1 H2 H3 H4 H5 H6 H7].
  split; cbn in *; try done; unfold replace_row.
  - rewrite map_app. apply NoDup_app. split; [done|]. split; [|apply NoDup_singleton].
    intros x (y & -> & [_ Hy%negb_true_iff%bool_decide_eq_false]%List_filter_elem)%list_elem_of_fmap Hx%list_elem_of_singleton.
    by apply Hy.
  - intros x [Hx| ->%list_elem_of_singleton]%elem_of_app; [by apply H6|done].
Qed.

Lemma save_state_ok cur now d s : store_ok d -> store_ok (save_task_state cur now d s).1.
Proof. intros Hd. unfold save_task_state. case_match; [done|]. by apply ok_more_sessions with d; try apply Hd. Qed.

Lemma save_summary_ok cur now d s : store_ok d -> store_ok (save_summary cur now d s).1.
Proof. intros Hd. unfold save_summary. case_match; [done|]. by apply ok_more_sessions with d; try apply Hd. Qed.

(** ** Runs *)

Lemma identity_run r r' :
  identity r' = identity r ->
  AgentRun.id r' = AgentRun.id r /\ AgentRun.session_id r' = AgentRun.session_id r
  /\ AgentRun.parent_run_id r' = AgentRun.parent_run_id r /\ AgentRun.retry_of_run_id r' = AgentRun.retry_of_run_id r.
Proof. intros [= ? ? ? ? ? ? ? ?]. done. Qed.

Lemma same_runs_ok d l :
  Forall2 row_step (db_runs d) l -> store_ok d -> store_ok (d <| db_runs := l |>).
Proof.
  intros Hs [H1 H2 H3 H4 H5 H6 H7].
  assert (Hids : map AgentRun.id l = map AgentRun.id (db_runs d)) by by apply step_ids.
  assert (Hb : forall s o, belongs_to d s o -> belongs_to (d <| db_runs := l |>) s o).
  { intros s o. apply belongs_mono; [done|]. intros r Hr. apply list_elem_of_lookup in Hr as (i & Hi).
    eapply Forall2_lookup_l in Hi as (r' & Hi' & Hst); [|exact Hs]. exists r'. split; [by apply list_elem_of_lookup_2 with i|].
    destruct Hst as (Hid & _). apply identity_run in Hid as (? & ? & _). done. }
  split; cbn; try done; rewrite ?Hids; auto.
  intros r Hr. apply list_elem_of_lookup in Hr as (i & Hi). eapply Forall2_lookup_r in Hi as (r0 & Hi0 & Hst); [|exact Hs]. destruct Hst as (Hid & _).
  apply identity_run in Hid as (_ & -> & -> & ->). destruct (H7 r0) as (? & Hp & Hq); [by apply list_elem_of_lookup_2 with i|].
  unfold knows_run in *. cbn. rewrite Hids. auto.
Qed.

Lemma new_run_ok d r :
  store_ok d -> find_run (db_runs d) (AgentRun.id r) = None -> AgentRun.session_id r ∈ session_ids d ->
  knows_run d (AgentRun.parent_run_id r) -> knows_run d (AgentRun.retry_of_run_id r) ->
  store_ok (d <| db_runs := db_runs d ++ [r] |>).
Proof.
  intros [H1 H2 H3 H4 H5 H6 H7] Hn Hs Hp Hq.
  assert (Hb : forall s o, belongs_to d s o -> belongs_to (d <| db_runs := db_runs d ++ [r] |>) s o).
  { intros s o. apply belongs_mono; [done|]. intros x Hx. exists x. cbn. split; [|done]. apply elem_of_app. by left. }
  assert (Hk : forall o, knows_run d o -> knows_run (d <| db_runs := db_runs d ++ [r] |>) o).
  { intros o Ho i Hi. cbn. rewrite map_app. apply elem_of_app. left. by apply Ho. }
  split; cbn; auto.
  - rewrite map_app. apply NoDup_app. split; [done|]. split; [|apply NoDup_singleton].
    intros x Hx ->%list_elem_of_singleton. by apply find_run_none in Hn.
  - intros x [Hx| ->%list_elem_of_singleton]%elem_of_app; [|by auto]. destruct (H7 x Hx) as (? & ? & ?). auto.
Qed.

Lemma known_run_knows d o : known_run (db_runs d) o = true -> knows_run d o.
Proof.
  intros H i ->. apply bool_decide_eq_true in H as (r & [Hin <-]%find_run_in). by apply list_elem_of_fmap_2.
Qed.

(** A registration that adds a row has found its session and the runs it names. *)
Lemma register_owner db d f lease now r :
  (register_run db d f lease now).1 = d ++ [r] ->
  has_session db (AgentRun.session_id r) = true
  /\ known_run d (AgentRun.parent_run_id r) = true /\ known_run d (AgentRun.retry_of_run_id r) = true.
Proof.
  assert (Hne : d <> d ++ [r]) by (intros H%(f_equal length); rewrite length_app in H; cbn in H; lia).
  unfold register_run. repeat (case_match; [done|]). intros [= <-]%app_inv_head. cbn.
  match goal with H : negb (known_run _ _ && _) = false |- _ => apply negb_false_iff, andb_true_iff in H end.
  match goal with H : negb (has_session _ _) = false |- _ => apply negb_false_iff in H end. done.
Qed.

Lemma exec_run_ok d o : store_ok d -> store_ok (d <| db_runs := exec_rop (db_runs d) (on_store d o) |>).
Proof.
  intros Hd. destruct (exec_rop_rows (db_runs d) (on_store d o)) as [Hs|(r & Hr & _ & Hn & _)]; [by apply same_runs_ok|].
  rewrite Hr. destruct o; cbn [on_store exec_rop] in Hr.
  2-6: exfalso; apply (f_equal length) in Hr; revert Hr; unfold activate_run, heartbeat_run, finish_run, reconcile_expired,
    abandon_pending, update_runs; rewrite length_app; repeat case_match; cbn; rewrite ?length_map; lia.
  apply register_owner in Hr as (Hs & Hp & Hq). apply new_run_ok; [done|done|by apply get_session_in| |]; by apply known_run_knows.
Qed.

(** ** Deletion *)

Lemma clear_in_some ids v i : clear_in ids v = Some i <-> v = Some i /\ i ∉ ids.
Proof.
  destruct v as [x|]; cbn; [|by split; [|intros []]]. destruct (decide (x ∈ ids)) as [H|H].
  - rewrite bool_decide_eq_true_2 by done. split; [done|]. by intros [[= ->] ?].
  - rewrite bool_decide_eq_false_2 by done. split; [by intros [= ->]|by intros [-> _]].
Qed.

Lemma session_runs_elem d i r :
  store_ok d -> r ∈ db_runs d -> AgentRun.id r ∈ session_runs d i <-> AgentRun.session_id r = i.
Proof.
  intros Hd Hr. unfold session_runs. split.
  - intros (x & Hid & [Hx Hs%bool_decide_eq_true]%List_filter_elem)%list_elem_of_fmap.
    by rewrite (NoDup_map_inj _ _ _ _ (st_runs _ Hd) Hr Hx Hid).
  - intros <-. apply list_elem_of_fmap_2, List_filter_elem. by rewrite bool_decide_eq_true_2.
Qed.

Definition cleared (ids : list string) (r : AgentRun.t) : AgentRun.t :=
  r <| AgentRun.parent_run_id := clear_in ids (AgentRun.parent_run_id r) |>
    <| AgentRun.retry_of_run_id := clear_in ids (AgentRun.retry_of_run_id r) |>.

(** The runs left after a deletion. *)
Lemma deleted_runs_elem d i r' :
  r' ∈ db_runs (delete_runs d i) <->
  exists r, r' = cleared (session_runs d i) r /\ r ∈ db_runs d /\ AgentRun.session_id r <> i.
Proof.
  unfold delete_runs. cbn. rewrite List_filter_elem, list_elem_of_fmap. unfold cleared. split.
  - intros [(r & -> & Hr) Hs%negb_true_iff%bool_decide_eq_false]. by exists r.
  - intros (r & -> & Hr & Hs). split; [by exists r|]. by rewrite bool_decide_eq_false_2.
Qed.

Lemma delete_session_ok d i : store_ok d -> store_ok (delete_session d i).1.
Proof.
  intros Hd. unfold delete_session. case_match; [done|]. cbn.
  set (d' := _ <| db_sessions := _ |>).
  assert (Hids : forall s, s ∈ session_ids d' <-> s ∈ session_ids d /\ s <> i).
  { intros s. unfold session_ids, d'. cbn. rewrite !list_elem_of_fmap. split.
    - intros (x & -> & [Hx Hi%negb_true_iff%bool_decide_eq_false]%List_filter_elem). split; [by exists x|done].
    - intros [(x & -> & Hx) Hi]. exists x. split; [done|]. apply List_filter_elem. split; [done|].
      apply negb_true_iff. by apply bool_decide_eq_false_2. }
  assert (Hruns : db_runs d' = db_runs (delete_runs d i)) by done.
  assert (Hb : forall s o, s <> i -> belongs_to d s o -> belongs_to d' s o).
  { intros s o Hs [H1 H2]. split; [by apply Hids|]. intros r Hr. destruct (H2 r Hr) as (x & Hx & Hxi & Hxs).
    exists (cleared (session_runs d i) x). rewrite Hruns. split; [|done]. apply deleted_runs_elem. exists x. by rewrite Hxs. }
  assert (Hk : forall o, knows_run d o -> knows_run d' (clear_in (session_runs d i) o)).
  { intros o Ho r [Hr Hn]%clear_in_some. specialize (Ho r Hr). apply list_elem_of_fmap in Ho as (x & -> & Hx).
    rewrite Hruns. apply list_elem_of_fmap. exists (cleared (session_runs d i) x). split; [done|].
    apply deleted_runs_elem. exists x. split; [done|]. split; [done|]. intros Hs. apply Hn. by apply session_runs_elem. }
  destruct Hd as [H1 H2 H3 H4 H5 H6 H7]. split.
  - by apply (NoDup_map_filter Session.id).
  - by apply (NoDup_map_filter Message.id).
  - by apply (NoDup_map_filter ToolCall.id).
  - unfold d', delete_runs. cbn. apply NoDup_map_filter. by rewrite map_map.
  - intros m [Hm Hs%negb_true_iff%bool_decide_eq_false]%List_filter_elem. auto.
  - intros m [Hm Hs%negb_true_iff%bool_decide_eq_false]%List_filter_elem. auto.
  - rewrite Hruns. intros r' (r & -> & Hr & Hs)%deleted_runs_elem. destruct (H7 r Hr) as (Ha & Hp & Hq).
    split; [by apply Hids|]. split; by apply Hk.
Qed.

(** ** Copies *)

Lemma insert_messages_ok d l :
  store_ok d -> NoDup (map Message.id l) -> (forall m, m ∈ l -> Message.id m ∉ map Message.id (db_messages d)) ->
  (forall m, m ∈ l -> belongs_to d (Message.session_id m) (Message.run_id m)) ->
  store_ok (d <| db_messages := db_messages d ++ l |>).
Proof.
  intros [H1 H2 H3 H4 H5 H6 H7] Hn Hf Hb. split; cbn; try done.
  - rewrite map_app. apply NoDup_app. split; [done|]. split; [|done].
    intros x Hx (m & -> & Hm)%list_elem_of_fmap. by apply (Hf m).
  - intros m [Hm|Hm]%elem_of_app; [by apply H5|by apply Hb].
Qed.

Lemma insert_calls_ok d l :
  store_ok d -> NoDup (map ToolCall.id l) -> (forall c, c ∈ l -> ToolCall.id c ∉ map ToolCall.id (db_tool_calls d)) ->
  (forall c, c ∈ l -> belongs_to d (ToolCall.session_id c) (ToolCall.run_id c)) ->
  store_ok (d <| db_tool_calls := db_tool_calls d ++ l |>).
Proof.
  intros [H1 H2 H3 H4 H5 H6 H7] Hn Hf Hb. split; cbn; try done.
  - rewrite map_app. apply NoDup_app. split; [done|]. split; [|done].
    intros x Hx (m & -> & Hm)%list_elem_of_fmap. by apply (Hf m).
  - intros m [Hm|Hm]%elem_of_app; [by apply H6|by apply Hb].
Qed.

Lemma zip_snd_sublist {A B} (l : list A) (k : list B) : map snd (zip l k) `sublist_of` k.
Proof.
  revert k. induction l as [|x l IH]; intros k; cbn; [apply sublist_nil_l|].
  destruct k as [|y k]; cbn; [constructor|]. by constructor.
Qed.

Lemma drop_sublist {A} n (l : list A) : drop n l `sublist_of` l.
Proof. revert n. induction l as [|x l IH]; intros [|n]; cbn; try done. by constructor. Qed.

(** The identifiers of copies are among those drawn, each used once. *)
Lemma drawn_ids {A B} (copy : A * string -> B) (key : B -> string) (l : list A) (ids : list string) :
  (forall p, key (copy p) = p.2) -> NoDup ids ->
  NoDup (map key (map copy (zip l ids))) /\ (forall x, x ∈ map copy (zip l ids) -> key x ∈ ids).
Proof.
  intros Hk Hn. assert (Hm : map key (map copy (zip l ids)) = map snd (zip l ids)) by (rewrite map_map; by apply map_ext).
  split; [rewrite Hm; by eapply sublist_NoDup; [|apply zip_snd_sublist]|].
  intros x Hx. apply (list_elem_of_fmap_2 key) in Hx. change (fmap key) with (map key) in Hx. rewrite Hm in Hx.
  eapply elem_of_submseteq; [exact Hx|]. apply sublist_submseteq, zip_snd_sublist.
Qed.

Lemma clone_rows_ok d source target ids :
  store_ok d -> target ∈ session_ids d -> NoDup ids ->
  (forall i, i ∈ ids -> i ∉ map Message.id (db_messages d) /\ i ∉ map ToolCall.id (db_tool_calls d)) ->
  store_ok (clone_rows d source target ids).
Proof.
  intros Hd Ht Hn Hf. unfold clone_rows.
  set (pairs := zip (list_messages d source) ids).
  set (renamed := fun i => snd <$> List.find _ pairs).
  set (calls := zip (list_tool_calls d source) (drop (length (list_messages d source)) ids)).
  assert (Hown : belongs_to d target None) by (split; [done|]; by intros ? [=]).
  destruct (drawn_ids (copy_message target) Message.id (list_messages d source) ids) as [Hm1 Hm2]; [done|done|].
  assert (H1 : store_ok (d <| db_messages := db_messages d ++ map (copy_message target) pairs |>)).
  { apply insert_messages_ok; [done|exact Hm1| |].
    - intros m Hm. apply Hf. by apply Hm2.
    - by intros m (p & -> & _)%list_elem_of_fmap. }
  destruct (drawn_ids (copy_call target renamed) ToolCall.id (list_tool_calls d source)
    (drop (length (list_messages d source)) ids)) as [Hc1 Hc2]; [done|by eapply sublist_NoDup; [|apply drop_sublist]|].
  assert (H2 : store_ok (d <| db_messages := db_messages d ++ map (copy_message target) pairs |>
                           <| db_tool_calls := db_tool_calls d ++ map (copy_call target renamed) calls |>)).
  { refine (insert_calls_ok _ (map (copy_call target renamed) calls) H1 Hc1 _ _).
    - intros c Hc. apply Hf. eapply elem_of_submseteq; [by apply Hc2|]. apply sublist_submseteq, drop_sublist.
    - by intros c (p & -> & _)%list_elem_of_fmap. }
  repeat case_match; try exact H2; (eapply ok_more_sessions; [exact H2|by apply H2|done..]).
Qed.

Lemma clone_session_ok d source target ids now :
  store_ok d -> fresh_ids d (EClone source target ids now) -> store_ok (clone_session d source target ids now).1.
Proof.
  intros Hd [Hn Hf]. unfold clone_session. destruct (get_session d source) as [s|]; [|done].
  destruct (get_session d target) eqn:Ht; [done|].
  set (d1 := d <| db_sessions := _ |>).
  assert (Hids : session_ids d1 = session_ids d ++ [target]) by (unfold session_ids, d1; cbn; by rewrite map_app).
  apply clone_rows_ok; [|rewrite Hids; apply elem_of_app; right; by left|done|done].
  apply ok_more_sessions with d; try done; rewrite Hids.
  - apply NoDup_app. split; [apply Hd|]. split; [|apply NoDup_singleton].
    intros i Hi ->%list_elem_of_singleton. by apply (get_session_none _ _ Ht).
  - intros i Hi. apply elem_of_app. by left.
Qed.

(** ** Renames *)

Lemma swap_inj o n i j : i <> n -> j <> n -> swap o n i = swap o n j -> i = j.
Proof. unfold swap. repeat case_bool_decide; congruence. Qed.

Lemma NoDup_swap o n l : n ∉ l -> NoDup l -> NoDup (map (swap o n) l).
Proof.
  intros Hn. induction 1 as [|i l Hi _ IH]; cbn; [constructor|]. apply not_elem_of_cons in Hn as [Hni Hnl].
  constructor; [|by apply IH]. intros (j & Hj & Hin)%list_elem_of_fmap. apply Hi.
  rewrite (swap_inj o n i j); [done| | |done]; [done|]. intros ->. done.
Qed.

Lemma rename_ok o n d : store_ok d -> n ∉ session_ids d -> store_ok (rename_everywhere o n d).
Proof.
  intros [H1 H2 H3 H4 H5 H6 H7] Hn.
  assert (Hids : session_ids (rename_everywhere o n d) = map (swap o n) (session_ids d)).
  { unfold session_ids, rename_everywhere. cbn. by rewrite !map_map. }
  assert (Hb : forall s r, belongs_to d s r -> belongs_to (rename_everywhere o n d) (swap o n s) r).
  { intros s r [Ha Hr]. split; [rewrite Hids; by apply list_elem_of_fmap_2|]. intros i Hi.
    destruct (Hr i Hi) as (x & Hx & <- & <-). exists (x <| AgentRun.session_id := swap o n (AgentRun.session_id x) |>).
    split; [|done]. apply list_elem_of_fmap. by exists x. }
  assert (Hruns : map AgentRun.id (db_runs (rename_everywhere o n d)) = map AgentRun.id (db_runs d)).
  { cbn. by rewrite map_map. }
  split.
  - rewrite Hids. by apply NoDup_swap.
  - cbn. by rewrite map_map.
  - cbn. by rewrite map_map.
  - by rewrite Hruns.
  - intros m (x & -> & Hx)%list_elem_of_fmap. exact (Hb _ _ (H5 x Hx)).
  - intros m (x & -> & Hx)%list_elem_of_fmap. exact (Hb _ _ (H6 x Hx)).
  - intros m (x & -> & Hx)%list_elem_of_fmap. destruct (H7 x Hx) as (Ha & Hp & Hq). unfold knows_run in *. rewrite Hruns.
    split; [rewrite Hids; by apply (list_elem_of_fmap_2 (swap o n))|by split].
Qed.

Lemma apply_renamings_ok l d d' : store_ok d -> apply_renamings d l = Return d' -> store_ok d'.
Proof.
  revert d. induction l as [|r l IH]; intros d Hd; cbn; [by intros [= <-]|].
  case_bool_decide as Hr; cbn; [by apply IH, update_sessions_ok|].
  destruct (clashes d (old_id r) (new_id r)) eqn:Hc; [done|]. cbn. apply IH, update_sessions_ok; [done|].
  apply rename_ok; [done|]. unfold clashes in Hc. rewrite !orb_false_iff in Hc. destruct Hc as [[[Ht _] _] _].
  intros Hin%get_session_in. unfold taken in Ht. congruence.
Qed.

Lemma migrate_ok d : store_ok d -> store_ok (migrate_session_id_prefixes d).1.
Proof.
  intros Hd. unfold migrate_session_id_prefixes. destruct (apply_renamings d (renamings d)) as [d'|e] eqn:H; [|done].
  by apply apply_renamings_ok with (renamings d) d.
Qed.

(** ** Every operation *)

Lemma exec_store_ok d op : store_ok d -> fresh_ids d op -> store_ok (exec_store d op).
Proof.
  intros Hd Hf. destruct op; cbn [exec_store].
  - by apply create_session_ok.
  - by apply update_sessions_ok.
  - unfold lock_session_external_memory. pose proof (create_session_ok d (Session.fresh i now) Hd) as H1.
    case_match; [done|]. by apply update_sessions_ok.
  - by apply update_sessions_ok.
  - by apply append_row_ok.
  - by apply append_if_ok.
  - unfold append_summary_message. repeat (case_match; try done). by apply append_row_ok.
  - unfold delete_summary_messages. case_match; [done|]. by apply drop_messages_ok.
  - unfold mark_messages_summarized. repeat (case_match; try done). by apply mark_ok.
  - by apply save_call_ok.
  - by apply drop_calls_ok.
  - by apply save_state_ok.
  - by apply save_summary_ok.
  - by apply delete_session_ok.
  - by apply clone_session_ok.
  - by apply exec_run_ok.
  - by apply migrate_ok.
Qed.

Lemma exec_stores_ok d ops : store_ok d -> all_fresh d ops -> store_ok (exec_stores d ops).
Proof.
  revert d. induction ops as [|op ops IH]; intros d Hd; cbn; [done|]. intros [Hf Hall].
  apply IH; [by apply exec_store_ok|done].
Qed.

(** C18. No row is lost from its session.  From the empty database, whatever sequence of
    operations of the store, of the registry of runs and of the migration is executed,
    identifiers stay unique; every message and every tool call belongs to a stored
    session and, where it names a run, to a run of that same session; and every run
    belongs to a stored session and names only runs that are there. *)
Theorem store_integrity ops :
  all_fresh empty_database ops -> store_ok (exec_stores empty_database ops).
Proof. apply exec_stores_ok, empty_store_ok. Qed.

(** * The ledger of runs among all operations *)

Lemma create_session_runs d s : db_runs (create_session d s).1 = db_runs d.
Proof. unfold create_session. by case_match. Qed.

Lemma insert_message_runs d m d' : insert_message d m = Return d' -> db_runs d' = db_runs d.
Proof. unfold insert_message. case_match; [done|]. by intros [= <-]. Qed.

Lemma append_row_runs cur now d i m : db_runs (append_row cur now d i m).1 = db_runs d.
Proof.
  unfold append_row. set (d0 := if bool_decide _ then _ else d).
  assert (H0 : db_runs d0 = db_runs d) by (unfold d0; case_match; [apply create_session_runs|done]).
  case_match; [done|]. destruct (insert_message d0 m) as [d1|] eqn:H1; [|done].
  apply insert_message_runs in H1. cbn. congruence.
Qed.

(** Most operations leave the runs alone. *)
Lemma runs_untouched d op :
  match op with EDelete _ | ERun _ | EMigrate => False | _ => True end ->
  db_runs (exec_store d op) = db_runs d.
Proof.
  destruct op; cbn [exec_store]; try done; intros _.
  - apply create_session_runs.
  - unfold lock_session_external_memory. case_match; [|cbn [fst]; change (db_runs (update_sessions ?i ?f ?x)) with (db_runs x)]; apply create_session_runs.
  - apply append_row_runs.
  - unfold append_message_if_session_exists. case_match; [|done]. case_match; [done|].
    case_match eqn:Hi; [|done]. by apply insert_message_runs in Hi.
  - unfold append_summary_message. repeat (case_match; try done). apply append_row_runs.
  - unfold delete_summary_messages. by case_match.
  - unfold mark_messages_summarized. by repeat case_match.
  - unfold save_tool_call. destruct (bool_decide _); case_match; cbn [fst db_runs]; rewrite ?create_session_runs; try done; apply create_session_runs.
  - unfold save_task_state. by case_match.
  - unfold save_summary. by case_match.
  - unfold clone_session, clone_rows. by repeat case_match.
Qed.

(** Rows that are told apart by their ids. *)
Lemma runs_ok_by_id d :
  runs_ok d <-> NoDup (map AgentRun.id d)
    /\ forall r r', r ∈ d -> r' ∈ d -> foreground_of (AgentRun.session_id r) r = true ->
         foreground_of (AgentRun.session_id r) r' = true -> AgentRun.id r = AgentRun.id r'.
Proof.
  split.
  - intros [H1 H2]. split; [done|]. intros r r' (i & Hi)%list_elem_of_lookup (j & Hj)%list_elem_of_lookup Hr Hr'.
    assert (i = j) as -> by eauto. congruence.
  - intros [H1 H2]. split; [done|]. intros i j r r' Hi Hj Hr Hr'.
    apply (NoDup_lookup (map AgentRun.id d) i j (AgentRun.id r) H1); rewrite list_lookup_fmap.
    + by rewrite Hi.
    + rewrite Hj. cbn. f_equal. symmetry. by eapply H2; [eapply list_elem_of_lookup_2..| |].
Qed.

(** A run under another session. *)
Definition moved_run (r r' : AgentRun.t) : Prop := exists s, r' = r <| AgentRun.session_id := s |>.

Lemma rename_runs_ok o n d :
  store_ok d -> n ∉ session_ids d -> runs_ok (db_runs d) -> runs_ok (db_runs (rename_everywhere o n d)).
Proof.
  intros Hd Hn [H1 H2]. split; cbn; [by rewrite map_map|]. intros i j x' y' Hi Hj.
  rewrite list_lookup_fmap in Hi, Hj. destruct (db_runs d !! i) as [x|] eqn:Hx; [|done].
  destruct (db_runs d !! j) as [y|] eqn:Hy; [|done]. injection Hi as <-. injection Hj as <-.
  pose proof (st_run_owner _ Hd x ltac:(by eapply list_elem_of_lookup_2)) as [Hsx _].
  pose proof (st_run_owner _ Hd y ltac:(by eapply list_elem_of_lookup_2)) as [Hsy _].
  unfold foreground_of. cbn. rewrite !andb_true_iff, !bool_decide_eq_true. intros [[_ Hfx] Hux] [[Hs Hfy] Huy].
  apply (H2 i j x y Hx Hy); unfold foreground_of; rewrite !andb_true_iff, bool_decide_eq_true; [done|].
  split; [|done]. split; [|done]. apply (swap_inj o n); [congruence..|done].
Qed.

Lemma migrated_runs l d d' :
  store_ok d -> runs_ok (db_runs d) -> apply_renamings d l = Return d' ->
  runs_ok (db_runs d') /\ Forall2 moved_run (db_runs d) (db_runs d').
Proof.
  assert (Hrefl : forall d : run_table, Forall2 moved_run d d).
  { intros t. apply Forall2_same_length_lookup_2; [done|]. intros i x y Hx Hy. rewrite Hx in Hy. injection Hy as <-.
    exists (AgentRun.session_id x). by destruct x. }
  revert d. induction l as [|r l IH]; intros d Hd Hr; cbn; [intros [= <-]; by split|].
  case_bool_decide as Hsame; cbn; [intros H; apply IH in H; [done|by apply update_sessions_ok|done]|].
  destruct (clashes d (old_id r) (new_id r)) eqn:Hc; [done|]. cbn.
  assert (Hn : new_id r ∉ session_ids d).
  { unfold clashes in Hc. rewrite !orb_false_iff in Hc. destruct Hc as [[[Ht _] _] _]. intros Hin%get_session_in.
    unfold taken in Ht. congruence. }
  intros H. apply IH in H as [H1 H2].
  - split; [done|]. apply (Forall2_fmap_l _ _ (db_runs d)) in H2. eapply Forall2_impl; [exact H2|].
    intros x y [s ->]. by exists s.
  - by apply update_sessions_ok, rename_ok.
  - by apply rename_runs_ok.
Qed.

Lemma deleted_runs_ok d i : store_ok d -> runs_ok (db_runs d) -> runs_ok (db_runs (delete_runs d i)).
Proof.
  intros Hd Hr. apply runs_ok_by_id. apply runs_ok_by_id in Hr as [Hnd Hf]. split.
  - unfold delete_runs. cbn. apply NoDup_map_filter. by rewrite map_map.
  - intros x' y' (x & -> & Hx & _)%deleted_runs_elem (y & -> & Hy & _)%deleted_runs_elem. exact (Hf x y Hx Hy).
Qed.

(** What becomes of a run that stays: an operation of its registry moves it along its life
    cycle, or leaves it, as every other operation does; the deletion of a session takes
    away references to the runs that go; the migration renames its session. *)
Definition run_after (d : database) (op : store_op) (r r' : AgentRun.t) : Prop :=
  match op with
  | EDelete i => r' = r \/ r' = cleared (session_runs d i) r
  | EMigrate => moved_run r r'
  | _ => row_step r r'
  end.

Lemma stays_of_Forall2 (P : AgentRun.t -> AgentRun.t -> Prop) l l' :
  Forall2 P l l' -> (forall r, r ∈ l -> exists r', r' ∈ l' /\ P r r') /\ (forall r', r' ∈ l' -> exists r, r ∈ l /\ P r r').
Proof.
  intros H. split.
  - intros r (i & Hi)%list_elem_of_lookup. eapply Forall2_lookup_l in Hi as (r' & Hi' & Hp); [|exact H].
    exists r'. split; [by eapply list_elem_of_lookup_2|done].
  - intros r' (i & Hi)%list_elem_of_lookup. eapply Forall2_lookup_r in Hi as (r & Hi' & Hp); [|exact H].
    exists r. split; [by eapply list_elem_of_lookup_2|done].
Qed.

(** One operation: the runs there were, and those there are. *)
Record ledger_step (d : database) (op : store_op) (d' : database) : Prop := {
  ls_ok : runs_ok (db_runs d');
  ls_stays : forall r, r ∈ db_runs d ->
    (exists r', r' ∈ db_runs d' /\ AgentRun.id r' = AgentRun.id r /\ run_after d op r r')
    \/ op = EDelete (AgentRun.session_id r) /\ unfinished r = false /\ AgentRun.id r ∉ map AgentRun.id (db_runs d');
  ls_new : forall r', r' ∈ db_runs d' -> AgentRun.id r' ∈ map AgentRun.id (db_runs d)
    \/ AgentRun.status r' = RunStatus.PENDING /\ exists db f lease now, op = ERun (RRegister db f lease now)
}.

Lemma ledger_step_rows d op d' :
  runs_ok (db_runs d') -> Forall2 (fun r r' => AgentRun.id r' = AgentRun.id r /\ run_after d op r r') (db_runs d) (db_runs d') ->
  ledger_step d op d'.
Proof.
  intros Hok [H1 H2]%stays_of_Forall2. split; [done| |].
  - intros r Hr. left. by apply H1.
  - intros r' (r & Hr & -> & _)%H2. left. by apply list_elem_of_fmap_2.
Qed.

Lemma exec_store_ledger d op : store_ok d -> runs_ok (db_runs d) -> ledger_step d op (exec_store d op).
Proof.
  intros Hd Hr.
  assert (Hstep : forall l, Forall2 row_step (db_runs d) l ->
            Forall2 (fun r r' => AgentRun.id r' = AgentRun.id r /\ row_step r r') (db_runs d) l).
  { intros l H. eapply Forall2_impl; [exact H|]. intros r r' Hrr. split; [|done]. destruct Hrr as [Hi _]. by injection Hi. }
  assert (Hsame : match op with EDelete _ | ERun _ | EMigrate => False | _ => True end -> ledger_step d op (exec_store d op)).
  { intros Hop. pose proof (runs_untouched d op Hop) as He. apply ledger_step_rows; rewrite He; [done|].
    destruct op; try done; cbn [run_after]; apply Hstep, Forall2_refl_step. }
  destruct op; try (by apply Hsame); clear Hsame; cbn [exec_store].
  - unfold delete_session. destruct (session_busy d i) eqn:Hb.
    { cbn [fst]. apply ledger_step_rows; [done|]. apply Forall2_same_length_lookup_2; [done|].
      intros k x y Hx Hy. assert (y = x) as -> by congruence. split; [done|by left]. }
    assert (He : forall r', r' ∈ db_runs (delete_session d i).1 <-> r' ∈ db_runs (delete_runs d i)).
    { intros r'. unfold delete_session. by rewrite Hb. }
    split; cbn [fst].
    + by apply deleted_runs_ok.
    + intros r Hrin. destruct (decide (AgentRun.session_id r = i)) as [<-|Hs].
      * right. split; [done|]. split.
        { unfold session_busy in Hb. rewrite existsb_false in Hb. specialize (Hb r Hrin).
          by rewrite bool_decide_eq_true_2 in Hb. }
        intros (x' & Hid & (x & -> & Hx & Hxs)%deleted_runs_elem)%list_elem_of_fmap. cbn in Hid.
        by rewrite (NoDup_map_inj _ _ _ _ (st_runs _ Hd) Hrin Hx Hid) in Hxs.
      * left. exists (cleared (session_runs d i) r). split; [|split; [done|by right]]. apply deleted_runs_elem. by exists r.
    + intros x' (x & -> & Hx & _)%deleted_runs_elem. left.
      change (AgentRun.id x ∈ map AgentRun.id (db_runs d)). by apply list_elem_of_fmap_2.
  - pose proof (exec_rop_ok (db_runs d) (on_store d o) Hr) as Hok.
    destruct (exec_rop_rows (db_runs d) (on_store d o)) as [Hs|(r & Hrow & Hp & _)].
    { apply ledger_step_rows; [done|]. by apply Hstep. }
    split; cbn; [done|..]; rewrite Hrow.
    + intros x Hx. left. exists x. split; [apply elem_of_app; by left|]. split; [done|apply row_step_refl].
    + intros x [Hx| ->%list_elem_of_singleton]%elem_of_app; [left; by apply list_elem_of_fmap_2|right]. split; [done|].
      destruct o; [by eauto|..]; exfalso; apply (f_equal length) in Hrow; cbn [on_store exec_rop] in Hrow; revert Hrow;
      unfold activate_run, heartbeat_run, finish_run, reconcile_expired,
        abandon_pending, update_runs; rewrite length_app; repeat case_match; cbn; rewrite ?length_map; lia.
  - unfold migrate_session_id_prefixes. destruct (apply_renamings d (renamings d)) as [d'|e] eqn:H.
    + apply migrated_runs in H as [H1 H2]; [|done..]. apply ledger_step_rows; [done|].
      eapply Forall2_impl; [exact H2|]. intros r r' [s ->]. split; [done|by exists s].
    + cbn [fst]. apply ledger_step_rows; [done|]. apply Forall2_same_length_lookup_2; [done|]. intros k x y Hx Hy.
      assert (y = x) as -> by congruence. split; [done|]. exists (AgentRun.session_id x). by destruct x.
Qed.

Lemma exec_stores_runs d ops :
  store_ok d -> runs_ok (db_runs d) -> all_fresh d ops -> runs_ok (db_runs (exec_stores d ops)).
Proof.
  revert d. induction ops as [|op ops IH]; intros d Hd Hr; cbn; [done|]. intros [Hf Hall].
  apply IH; [by apply exec_store_ok|by apply exec_store_ledger|done].
Qed.

(** C16. The ledger is a history of runs.  After any operations of the ledger itself, of the
    store of sessions, of the deletion of sessions and of the migration of their ids:
    run identifiers are unique and a session has at most one unfinished foreground run.
    One more operation keeps every run there is, but for the runs of a session that is
    deleted, and those have ended.  A run that stays keeps its identifier, owner, process
    and origin; its status is left or moved along the life cycle; and a row that has
    reached its end is left as it is, except that a deletion clears its references to
    runs that went and the migration renames its session.  Only a registration adds a
    run, which is pending.  (The mark that the task or delegation of a run was deleted
    is a column the rows do not have here.) *)
Theorem run_ledger_sound ops op :
  all_fresh empty_database ops ->
  let d := exec_stores empty_database ops in
  let d' := exec_store d op in
  runs_ok (db_runs d) /\ runs_ok (db_runs d')
  /\ (forall r, r ∈ db_runs d ->
        (exists r', r' ∈ db_runs d' /\ AgentRun.id r' = AgentRun.id r /\ run_after d op r r')
        \/ op = EDelete (AgentRun.session_id r) /\ unfinished r = false /\ AgentRun.id r ∉ map AgentRun.id (db_runs d'))
  /\ (forall r', r' ∈ db_runs d' -> AgentRun.id r' ∈ map AgentRun.id (db_runs d)
        \/ AgentRun.status r' = RunStatus.PENDING /\ exists db f lease now, op = ERun (RRegister db f lease now)).
Proof.
  intros Hf d d'. assert (Hd : store_ok d) by by apply exec_stores_ok; [apply empty_store_ok|].
  assert (Hr : runs_ok (db_runs d)) by (apply exec_stores_runs; [apply empty_store_ok|apply empty_runs_ok|done]).
  destruct (exec_store_ledger d op Hd Hr) as [H1 H2 H3]. done.
Qed.

(** * Deletion leaves nothing *)








(** * Witnesses *)

Definition plain_message (id session : string) (run : option string) (at_ : Z) : Message.t :=
  Message.mk id session "user" (JStr "hello") None None at_ false false None None run "model".
Definition plain_call (id session : string) (run : option string) (message : option string) : ToolCall.t :=
  ToolCall.mk id session "ls" [] None "done" 1 message 5 run.
Definition no_owners : Database := mkDatabase (fun _ => false) [] (fun _ => None) (fun _ => None).
Definition run_facts (id session : string) (parent : option string) : RegisterFacts :=
  mkRegisterFacts id session "chat" "chat" "p" "o" parent None None None None false.
Definition two_sessions : list store_op :=
  [ECreate (Session.fresh "a" 1); ECreate (Session.fresh "b" 1);
   ERun (RRegister no_owners (run_facts "r1" "a" None) 60 2);
   ERun (RRegister no_owners (run_facts "r2" "b" (Some "r1")) 60 3);
   EAppend None 4 "a" (plain_message "m1" "a" (Some "r1") 4); EAppend None 5 "c" (plain_message "m2" "c" None 5);
   ECall None 5 (plain_call "t1" "a" (Some "r1") (Some "m1")); EClone "a" "d" ["m3"; "t3"] 6;
   ERun (RFinish (mkRunBinding "r1" "a" "o" "p") RunStatus.COMPLETED "done" None 7)].

Lemma two_sessions_fresh : all_fresh empty_database two_sessions.
Proof.
  repeat (split; [done|]). split; [|by split]. split; [apply (bool_decide_unpack _); by vm_compute|].
  intros i Hi. apply elem_of_cons in Hi as [-> | ->%list_elem_of_singleton]; vm_compute;
    split; intros H; repeat (apply elem_of_cons in H as [H|H]; [done|]); by apply elem_of_nil in H.
Qed.

Lemma store_integrity_witness : store_ok (exec_stores empty_database two_sessions).
Proof. exact (store_integrity two_sessions two_sessions_fresh). Defined.

(** Deleting the first session takes its run along, which the run of the second forgets. *)
Lemma run_ledger_sound_witness :
  let d := exec_stores empty_database two_sessions in
  map AgentRun.id (db_runs d) = ["r1"; "r2"]
  /\ runs_ok (db_runs (exec_store d (EDelete "a")))
  /\ forall r', r' ∈ db_runs (exec_store d (EDelete "a")) -> AgentRun.id r' ∈ ["r1"; "r2"].
Proof.
  intros d. destruct (run_ledger_sound two_sessions (EDelete "a") two_sessions_fresh) as (_ & H1 & _ & H2).
  assert (Hids : map AgentRun.id (db_runs d) = ["r1"; "r2"]) by (vm_compute; reflexivity).
  split; [exact Hids|]. split; [exact H1|]. intros r' Hr'. rewrite <- Hids.
  destruct (H2 r' Hr') as [H|[_ (? & ? & ? & ? & H)]]; [exact H|discriminate H].
Defined.

