(* ===== verification/SessionCopies.v ===== *)
(** Cloned sessions and migrated session ids: what a copy has of its original, and that
    a migration takes every reference along. *)
From stdpp Require Import gmap.
From S2P Require Import Prelude Text Schedules AgentRuns AgentRunProps SessionStore SessionProps.
Open Scope Z_scope.

(** * Clones *)

(** What a copy of a message keeps. *)
Definition same_message (m m' : Message.t) : Prop :=
  Message.role m' = Message.role m /\ Message.content m' = Message.content m /\ Message.created_at m' = Message.created_at m
  /\ Message.tool_call_id m' = Message.tool_call_id m /\ Message.name m' = Message.name m
  /\ Message.is_summary m' = Message.is_summary m /\ Message.is_summarized m' = Message.is_summarized m
  /\ Message.source m' = Message.source m.

(** What a copy of a tool call keeps. *)
Definition same_call (c c' : ToolCall.t) : Prop :=
  ToolCall.tool_name c' = ToolCall.tool_name c /\ ToolCall.arguments c' = ToolCall.arguments c
  /\ ToolCall.result c' = ToolCall.result c /\ ToolCall.status c' = ToolCall.status c
  /\ ToolCall.duration_ms c' = ToolCall.duration_ms c /\ ToolCall.created_at c' = ToolCall.created_at c.

Lemma created_sorted l :
  StronglySorted (fun a b : Message.t => (Message.created_at a <=? Message.created_at b) = true)
    (order_by (fun a b => Message.created_at a <=? Message.created_at b) l).
Proof. apply order_by_sorted; intros; rewrite ?Z.leb_le in *; lia. Qed.

Lemma calls_sorted l :
  StronglySorted (fun a b : ToolCall.t => (ToolCall.created_at a <=? ToolCall.created_at b) = true)
    (order_by (fun a b => ToolCall.created_at a <=? ToolCall.created_at b) l).
Proof. apply order_by_sorted; intros; rewrite ?Z.leb_le in *; lia. Qed.

(** Copies made in order are in order. *)
Lemma copies_sorted {A} (leb : A -> A -> bool) (copy : A * string -> A) l ids :
  (forall p q, leb (copy p) (copy q) = leb p.1 q.1) ->
  StronglySorted (fun a b => leb a b = true) l ->
  StronglySorted (fun a b => leb a b = true) (map copy (zip l ids)).
Proof.
  intros Hc Hl. revert ids. induction Hl as [|x l _ IH Hx]; intros [|i ids]; cbn; try constructor; [apply IH|].
  apply Forall_forall. intros y (p & -> & Hp)%list_elem_of_fmap. rewrite Hc. cbn. rewrite Forall_forall in Hx. apply Hx.
  destruct p as [a b]. by apply elem_of_zip_l in Hp.
Qed.

(** What an operation adds for another session leaves the rows of a session. *)
Lemma filter_added {A} (own : A -> bool) l l' :
  (forall x, x ∈ l' -> own x = false) -> List.filter own (l ++ l') = List.filter own l.
Proof. intros H. rewrite List.filter_app, (List_filter_none own l'), app_nil_r; [done|]. by apply Forall_forall. Qed.

Lemma filter_only_added {A} (own : A -> bool) l l' :
  (forall x, x ∈ l -> own x = false) -> (forall x, x ∈ l' -> own x = true) -> List.filter own (l ++ l') = l'.
Proof.
  intros H H'. rewrite List.filter_app, (List_filter_none own l), (List_filter_all own l'); [done| |]; by apply Forall_forall.
Qed.

Section clone.
Context (d : database) (source target : string) (ids : list string).
Notation messages := (list_messages d source).
Notation calls := (list_tool_calls d source).
Notation pairs := (zip messages ids).
Notation d' := (clone_rows d source target ids).

Lemma clone_messages : db_messages d' = db_messages d ++ map (copy_message target) pairs.
Proof. unfold clone_rows. cbn. repeat case_match; done. Qed.

Definition renamed (i : string) : option string := snd <$> List.find (fun p => bool_decide (Message.id p.1 = i)) pairs.

Lemma clone_calls : db_tool_calls d' = db_tool_calls d ++ map (copy_call target renamed) (zip calls (drop (length messages) ids)).
Proof. unfold clone_rows. cbn. repeat case_match; done. Qed.

Lemma cloned_messages :
  (forall m, m ∈ db_messages d -> Message.session_id m <> target) ->
  list_messages d' target = map (copy_message target) pairs.
Proof.
  intros Hn. unfold list_messages at 1. rewrite clone_messages, filter_only_added.
  - apply order_by_sorted_id, (copies_sorted (fun a b => Message.created_at a <=? Message.created_at b)); [done|].
    apply created_sorted.
  - intros m Hm. apply bool_decide_eq_false_2. auto.
  - intros m (p & -> & _)%list_elem_of_fmap. by apply bool_decide_eq_true_2.
Qed.

Lemma cloned_calls :
  (forall c, c ∈ db_tool_calls d -> ToolCall.session_id c <> target) ->
  list_tool_calls d' target = map (copy_call target renamed) (zip calls (drop (length messages) ids)).
Proof.
  intros Hn. unfold list_tool_calls at 1. rewrite clone_calls, filter_only_added.
  - apply order_by_sorted_id, (copies_sorted (fun a b => ToolCall.created_at a <=? ToolCall.created_at b)); [done|].
    apply calls_sorted.
  - intros m Hm. apply bool_decide_eq_false_2. auto.
  - intros m (p & -> & _)%list_elem_of_fmap. by apply bool_decide_eq_true_2.
Qed.

Lemma clone_keeps_others i : i <> target ->
  list_messages d' i = list_messages d i /\ list_tool_calls d' i = list_tool_calls d i.
Proof.
  intros Hi. unfold list_messages at 1, list_tool_calls at 1. rewrite clone_messages, clone_calls, !filter_added; [done| |];
    intros m (p & -> & _)%list_elem_of_fmap; by apply bool_decide_eq_false_2.
Qed.

(** The k-th message is renamed to the k-th identifier. *)
Lemma renamed_at k m i :
  NoDup (map Message.id (db_messages d)) -> messages !! k = Some m -> ids !! k = Some i -> renamed (Message.id m) = Some i.
Proof.
  intros Hn Hm Hi. unfold renamed. assert (Hp : (m, i) ∈ pairs).
  { apply list_elem_of_lookup_2 with k. apply lookup_zip_with_Some. by exists m, i. }
  assert (Hnd : NoDup (map Message.id messages)).
  { unfold list_messages. change (map Message.id) with (fmap Message.id : list _ -> list _). rewrite order_by_perm.
    by apply NoDup_map_filter. }
  destruct (List.find _ pairs) as [[m' i']|] eqn:Hf.
  - apply find_some in Hf as [Hin Hid%bool_decide_eq_true]. apply list_elem_of_In, list_elem_of_lookup in Hin as (j & Hj).
    apply lookup_zip_with_Some in Hj as (x & y & [= <- <-] & Hx & Hy). cbn in Hid.
    assert (j = k) as ->; [|cbn; congruence].
    apply (NoDup_lookup (map Message.id messages) j k (Message.id m) Hnd); rewrite list_lookup_fmap; [by rewrite Hx; cbn; f_equal|by rewrite Hm].
  - eapply find_none in Hf; [|apply list_elem_of_In; exact Hp]. cbn in Hf. by rewrite bool_decide_eq_true_2 in Hf.
Qed.
End clone.

(** C20. A clone is a faithful copy.  With a new id for each row to copy, cloning a session
    to an id that is free succeeds; the clone has, in the order of the original, a
    copy of each message and of each tool call with its content, and a tool call that
    belonged to the k-th message belongs to the k-th copy; the original and every
    other session have the rows they had. *)
Theorem clone_faithful d source target ids now s :
  store_ok d -> get_session d source = Some s -> get_session d target = None ->
  fresh_ids d (EClone source target ids now) ->
  (length (list_messages d source) + length (list_tool_calls d source) <= length ids)%nat ->
  let d' := (clone_session d source target ids now).1 in
  (clone_session d source target ids now).2 = Return tt
  /\ get_session d' target = Some (s <| Session.id := target |> <| Session.created_at := now |>
       <| Session.updated_at := now |> <| Session.source := SessionSource.value SessionSource.ACP |>)
  /\ Forall2 same_message (list_messages d source) (list_messages d' target)
  /\ Forall2 same_call (list_tool_calls d source) (list_tool_calls d' target)
  /\ (forall k j m c c', list_messages d source !! j = Some m -> list_tool_calls d source !! k = Some c ->
        list_tool_calls d' target !! k = Some c' -> ToolCall.message_id c = Some (Message.id m) ->
        exists m', list_messages d' target !! j = Some m' /\ ToolCall.message_id c' = Some (Message.id m'))
  /\ forall i, i <> target -> list_messages d' i = list_messages d i /\ list_tool_calls d' i = list_tool_calls d i.
Proof.
  intros Hd Hs Ht [Hn Hf] Hlen. unfold clone_session. rewrite Hs, Ht. cbn [fst snd].
  set (row := s <| Session.id := target |> <| Session.created_at := now |> <| Session.updated_at := now |>
    <| Session.source := SessionSource.value SessionSource.ACP |>).
  set (d1 := d <| db_sessions := _ |>).
  change (list_messages d) with (list_messages d1) in *. change (list_tool_calls d) with (list_tool_calls d1) in *.
  pose proof (get_session_none _ _ Ht) as Hnt.
  assert (Hm : list_messages (clone_rows d1 source target ids) target = map (copy_message target) (zip (list_messages d1 source) ids)).
  { apply cloned_messages. intros m Hm Heq. apply Hnt. rewrite <- Heq. by apply (st_message_owner _ Hd). }
  assert (Hc : list_tool_calls (clone_rows d1 source target ids) target
    = map (copy_call target (renamed d1 source ids)) (zip (list_tool_calls d1 source) (drop (length (list_messages d1 source)) ids))).
  { apply cloned_calls. intros m Hm' Heq. apply Hnt. rewrite <- Heq. by apply (st_call_owner _ Hd). }
  split; [done|]. split; [|split; [|split; [|split]]].
  - replace (get_session (clone_rows d1 source target ids) target) with (get_session d1 target)
      by (unfold get_session; f_equal; unfold clone_rows; repeat case_match; done).
    apply find_app; [exact Ht|]. by apply bool_decide_eq_true_2.
  - rewrite Hm. apply Forall2_same_length_lookup. rewrite length_map, length_zip. split; [lia|].
    intros k x y Hx Hy. apply list_lookup_fmap_Some in Hy as ([m i] & -> & Hk).
    apply lookup_zip_with_Some in Hk as (? & ? & [= <- <-] & Hx' & _). rewrite Hx in Hx'. by injection Hx' as <-.
  - rewrite Hc. apply Forall2_same_length_lookup. rewrite length_map, length_zip, length_drop. split; [lia|].
    intros k x y Hx Hy. apply list_lookup_fmap_Some in Hy as ([m i] & -> & Hk).
    apply lookup_zip_with_Some in Hk as (? & ? & [= <- <-] & Hx' & _). rewrite Hx in Hx'. by injection Hx' as <-.
  - intros k j m c c' Hj Hk Hk' Hlink. destruct (lookup_lt_is_Some_2 ids j) as [i Hi].
    { apply lookup_lt_Some in Hj. lia. }
    exists (copy_message target (m, i)). split.
    + rewrite Hm, list_lookup_fmap, lookup_zip_with, Hj, Hi. done.
    + rewrite Hc in Hk'. apply list_lookup_fmap_Some in Hk' as ([x y] & -> & Hz).
      apply lookup_zip_with_Some in Hz as (? & ? & [= <- <-] & Hx & _). rewrite Hk in Hx. injection Hx as <-. cbn.
      rewrite Hlink. cbn. apply (renamed_at d1 source ids j m i); [apply Hd|done|done].
  - intros i Hi. by apply clone_keeps_others.
Qed.

(** * The migration of ids *)

Lemma map_ids_compose f g d : map_session_ids g (map_session_ids f d) = map_session_ids (fun i => g (f i)) d.
Proof.
  unfold map_session_ids. cbn. f_equal; try (rewrite map_map; by apply map_ext).
  - f_equal; rewrite map_map; [|done]. apply map_ext. intros c. cbn. by destruct (GatewayStore.Conversation.active_session_id c).
  - f_equal; by rewrite map_map.
  - rewrite <- map_fmap_compose. apply map_fmap_ext. intros k t _. cbn.
    by destruct (TaskDomain.Task.origin_session_id t), (TaskDomain.Task.execution_session_id t).
Qed.

Lemma map_ids_ext f g d : (forall i, f i = g i) -> map_session_ids f d = map_session_ids g d.
Proof.
  intros H. unfold map_session_ids. f_equal; try (apply map_ext; intros x; by rewrite H).
  - f_equal; apply map_ext; intros x; [|by rewrite H]. f_equal.
    by destruct (GatewayStore.Conversation.active_session_id x); cbn; rewrite ?H.
  - f_equal; apply map_ext; intros x; by rewrite H.
  - apply map_fmap_ext. intros k t _.
    by destruct (TaskDomain.Task.origin_session_id t), (TaskDomain.Task.execution_session_id t); cbn; rewrite ?H.
Qed.

Lemma map_same {A} (f : A -> A) l : (forall x, f x = x) -> map f l = l.
Proof. intros H. induction l as [|x l IH]; cbn; [done|]. by rewrite H, IH. Qed.

Lemma map_ids_id f d : (forall i, f i = i) -> map_session_ids f d = d.
Proof.
  intros H. rewrite (map_ids_ext f (fun i => i)) by done. destruct d as [s m c st su r g sch t tr dl tl].
  unfold map_session_ids. cbn. f_equal; try (apply map_same; by intros []).
  - destruct g as [cs ls es hs]. cbn. f_equal; apply map_same; [|by intros []]. by intros [? ? ? ? ? [] ? ? ?].
  - destruct sch as [ts es]. cbn. f_equal; apply map_same; by intros [].
  - rewrite <- (map_fmap_id t) at 2. apply map_fmap_ext. intros k [] _. cbn.
    by repeat match goal with |- context [_ <$> ?o] => is_var o; destruct o end.
Qed.

Definition renaming_for (l : list renaming) (i : string) : option renaming :=
  List.find (fun r => bool_decide (old_id r = i)) l.
(** Where a reference to the session [i] leads after the renamings. *)
Definition renamed_to (l : list renaming) (i : string) : string := from_option new_id i (renaming_for l i).
Definition moved (l : list renaming) (s : Session.t) : Session.t :=
  match renaming_for l (Session.id s) with
  | Some r => s <| Session.id := new_id r |> <| Session.source := new_source r |>
  | None => s
  end.

(** No new id is an old one, but that of a row whose source alone changes. *)
Definition separate (l : list renaming) : Prop :=
  NoDup (map old_id l) /\ forall r, r ∈ l -> new_id r = old_id r \/ new_id r ∉ map old_id l.

Lemma renaming_for_none l i : i ∉ map old_id l -> renaming_for l i = None.
Proof.
  intros H. unfold renaming_for. destruct (List.find _ l) as [r|] eqn:Hf; [|done].
  apply find_some in Hf as [Hin <-%bool_decide_eq_true]. apply list_elem_of_In in Hin. destruct H. by apply list_elem_of_fmap_2.
Qed.

Lemma separate_tail r l : separate (r :: l) -> separate l /\ new_id r ∉ map old_id l.
Proof.
  intros [[Ho Hn]%NoDup_cons Hs]. split; [split; [done|]|].
  - intros x Hx. destruct (Hs x) as [|Hx']; [by right|by left|right]. intros ?. apply Hx'. by right.
  - destruct (Hs r) as [->|Hr]; [by left|done|]. intros ?. apply Hr. by right.
Qed.

Lemma renamed_step r l i : new_id r ∉ map old_id l -> renamed_to l (swap (old_id r) (new_id r) i) = renamed_to (r :: l) i.
Proof.
  intros Hn. unfold renamed_to, renaming_for, swap. cbn. case_bool_decide as H.
  - subst i. rewrite bool_decide_eq_true_2 by done. fold (renaming_for l (new_id r)). by rewrite renaming_for_none.
  - rewrite (bool_decide_eq_false_2 (old_id r = i)); congruence.
Qed.

Lemma moved_step r l s (stored : list Session.t) :
  new_id r ∉ map old_id l -> (new_id r = old_id r \/ new_id r ∉ map Session.id stored) -> s ∈ stored ->
  let s1 := s <| Session.id := swap (old_id r) (new_id r) (Session.id s) |> in
  moved l (if is_session (new_id r) s1 then s1 <| Session.source := new_source r |> else s1) = moved (r :: l) s.
Proof.
  intros Hn Hf Hs. unfold moved at 2, renaming_for, is_session, swap. cbn. destruct (decide (Session.id s = old_id r)) as [He|He].
  - rewrite (bool_decide_eq_true_2 (Session.id s = old_id r)), (bool_decide_eq_true_2 (old_id r = Session.id s)) by done. cbn.
    rewrite (bool_decide_eq_true_2 (new_id r = new_id r)) by done. unfold moved. cbn. by rewrite renaming_for_none.
  - rewrite (bool_decide_eq_false_2 (Session.id s = _)), (bool_decide_eq_false_2 (old_id r = _)) by congruence. cbn.
    rewrite (bool_decide_eq_false_2 (Session.id s = new_id r)); [by destruct s|].
    intros Heq. destruct Hf as [Hf|Hf]; [congruence|]. apply Hf. rewrite <- Heq. by apply list_elem_of_fmap_2.
Qed.

Lemma apply_renamings_spec l d d' :
  separate l -> apply_renamings d l = Return d' ->
  d' = (map_session_ids (renamed_to l) d) <| db_sessions := map (moved l) (db_sessions d) |>.
Proof.
  revert d. induction l as [|r l IH]; intros d Hsep; cbn [apply_renamings].
  - intros [= <-]. rewrite map_ids_id by done. rewrite map_same by done. by destruct d.
  - pose proof Hsep as [[Ho _]%NoDup_cons Hnew]. apply separate_tail in Hsep as [Hsep Hn].
    intros H. assert (Hr : exists d1, d1 = rename_everywhere (old_id r) (new_id r) d
      /\ (new_id r = old_id r \/ new_id r ∉ session_ids d)
      /\ apply_renamings (update_sessions (new_id r) (fun s => s <| Session.source := new_source r |>) d1) l = Return d').
    { revert H. case_bool_decide as He; cbn.
      - intros H. exists d. split; [|by split; [left|]]. unfold rename_everywhere. rewrite map_ids_id; [done|].
        intros i. unfold swap. case_bool_decide; congruence.
      - destruct (clashes d (old_id r) (new_id r)) eqn:Hc; [done|]. cbn. intros H.
        eexists. split; [reflexivity|]. split; [right|exact H]. intros Hin%get_session_in.
        unfold clashes, taken in Hc. rewrite Hin in Hc. done. }
    destruct Hr as (d1 & -> & Hfree & H1). apply IH in H1 as ->; [|done].
    set (d2 := update_sessions _ _ _).
    assert (Hmap : (map_session_ids (renamed_to l) d2) <| db_sessions := map (moved l) (db_sessions d2) |>
      = (map_session_ids (renamed_to l) (rename_everywhere (old_id r) (new_id r) d)) <| db_sessions := map (moved l) (db_sessions d2) |>) by done.
    rewrite Hmap. unfold rename_everywhere. rewrite map_ids_compose, (map_ids_ext _ (renamed_to (r :: l))).
    2: { intros i. by apply renamed_step. }
    replace (map (moved l) (db_sessions d2)) with (map (moved (r :: l)) (db_sessions d)); [done|].
    unfold d2. cbn. rewrite !map_map. symmetry. apply map_ext_in. intros s Hs%list_elem_of_In. by apply moved_step with (db_sessions d).
Qed.

(** ** Prefixes *)

Lemma after_prefix_app p s : after_prefix p (p +:+ s) = Some s.
Proof. unfold after_prefix. rewrite starts_with_prefix. f_equal. apply drop_app_str. Qed.

Lemma is_im_cases s : is_im s = true -> s = "feishu" \/ s = "dingtalk" \/ s = "wecom".
Proof. intros H%bool_decide_eq_true. cbn in H. set_solver. Qed.

(** A source that is normalized stays. *)
Lemma new_source_again s : new_source_of (new_source_of s) = new_source_of s.
Proof.
  unfold new_source_of at 2 3. case_bool_decide as Hl; [done|]. destruct (after_prefix "gw/" s) as [p|] eqn:Hp.
  - destruct (is_im p) eqn:Hi; [by apply is_im_cases in Hi as [->|[->| ->]]|].
    unfold new_source_of. by rewrite bool_decide_eq_false_2, Hp, Hi.
  - unfold new_source_of. by rewrite bool_decide_eq_false_2, Hp.
Qed.

Lemma renamed_prefix_starts p old i : starts_with p (renamed_prefix p old i) = true.
Proof.
  induction old as [|o old IH]; cbn; [destruct (starts_with p i) eqn:?; [done|apply starts_with_prefix]|].
  case_match; [apply starts_with_prefix|done].
Qed.

Lemma renamed_prefix_again p old i :
  (forall o s, o ∈ old -> after_prefix o (p +:+ s) = None) ->
  renamed_prefix p old (renamed_prefix p old i) = renamed_prefix p old i.
Proof.
  intros Hold. pose proof (renamed_prefix_starts p old i) as Hs. set (j := renamed_prefix p old i) in *. clearbody j.
  pose proof Hs as Hs'. apply starts_with_spec in Hs' as (rest & ->). induction old as [|o old IH]; cbn; [by rewrite Hs|].
  rewrite Hold by (by left). apply IH. intros o' s Ho'. apply Hold. by right.
Qed.

Lemma new_id_again src i : new_id_of src (new_id_of src i) = new_id_of src i.
Proof.
  unfold new_id_of. repeat case_bool_decide; subst.
  - destruct (after_prefix "session-" i) as [r|] eqn:Ha; [done|]. by rewrite Ha.
  - destruct (after_prefix "tmp-" i) as [r|] eqn:Ha; [done|]. by rewrite Ha.
  - apply renamed_prefix_again. by intros o s ->%list_elem_of_singleton.
  - destruct (is_im src) eqn:Hi; [|done]. apply renamed_prefix_again. intros o s Ho.
    apply is_im_cases in Hi as [->|[->| ->]]; apply elem_of_cons in Ho as [-> | ->%list_elem_of_singleton]; done.
Qed.

Lemma compute_again i s :
  let '(n, src) := compute_new_session_id_and_source i s in compute_new_session_id_and_source n src = (n, src).
Proof. unfold compute_new_session_id_and_source. by rewrite new_source_again, new_id_again. Qed.

Lemma renaming_of_spec d s r :
  renaming_of d s = Some r ->
  old_id r = Session.id s /\ (new_id r, new_source r) = compute_new_session_id_and_source (Session.id s) (Session.source s)
  /\ (new_id r = old_id r \/ new_id r ∉ session_ids d).
Proof.
  unfold renaming_of. destruct (compute_new_session_id_and_source _ _) as [n src]. case_match; [done|].
  destruct (negb (bool_decide (n = Session.id s)) && taken d n) eqn:Ht; [done|]. intros [= <-]. cbn.
  split; [done|]. split; [done|]. apply andb_false_iff in Ht as [Hn%negb_false_iff%bool_decide_eq_true|Hn]; [by left|right].
  intros Hin%get_session_in. unfold taken in Hn. congruence.
Qed.

Lemma renamings_separate d : NoDup (session_ids d) -> separate (renamings d).
Proof.
  intros Hn. assert (Hsub : forall r, r ∈ renamings d -> old_id r ∈ session_ids d
    /\ (new_id r = old_id r \/ new_id r ∉ session_ids d)).
  { intros r (s & Hs & Hr)%list_elem_of_omap. apply renaming_of_spec in Hr as (-> & _ & Hf).
    split; [by apply list_elem_of_fmap_2|done]. }
  assert (Ho : map old_id (renamings d) `sublist_of` session_ids d).
  { unfold renamings, session_ids. clear. generalize d at 1. intros d0. induction (db_sessions d) as [|s l IH]; cbn -[renaming_of]; [constructor|].
    destruct (renaming_of d0 s) as [r|] eqn:Hr; cbn; [|by constructor].
    apply renaming_of_spec in Hr as (-> & _). by constructor. }
  split; [by eapply sublist_NoDup|]. intros r Hr. destruct (Hsub r Hr) as [_ [Hf|Hf]]; [by left|right].
  intros Hin. apply Hf. eapply elem_of_submseteq; [exact Hin|by apply sublist_submseteq].
Qed.

Lemma renaming_for_session d s :
  NoDup (session_ids d) -> s ∈ db_sessions d -> renaming_for (renamings d) (Session.id s) = renaming_of d s.
Proof.
  intros Hn Hs. pose proof (renamings_separate d Hn) as [Ho _].
  destruct (renaming_of d s) as [r|] eqn:Hr.
  - pose proof (renaming_of_spec _ _ _ Hr) as (Hold & _). unfold renaming_for.
    assert (Hin : r ∈ renamings d) by (apply list_elem_of_omap; by exists s).
    destruct (List.find _ (renamings d)) as [r'|] eqn:Hf.
    + apply find_some in Hf as [Hin'%list_elem_of_In Hid%bool_decide_eq_true]. f_equal.
      apply (NoDup_map_inj old_id (renamings d)); congruence.
    + eapply find_none in Hf; [|apply list_elem_of_In; exact Hin]. by rewrite bool_decide_eq_true_2 in Hf.
  - apply renaming_for_none. intros (r & Hid & (s' & Hs' & Hr')%list_elem_of_omap)%list_elem_of_fmap.
    pose proof (renaming_of_spec _ _ _ Hr') as (Hold & _).
    rewrite (NoDup_map_inj Session.id (db_sessions d) s s' Hn Hs Hs') in Hr by congruence. congruence.
Qed.

(** A row is skipped: another session has the id it should get. *)
Definition skipped (d : database) (s : Session.t) : Prop :=
  let n := (compute_new_session_id_and_source (Session.id s) (Session.source s)).1 in
  n <> Session.id s /\ n ∈ session_ids d.

(** The migration of session ids takes every reference along.  When it goes through,
    each session has the id and the source its old ones stand for, unless another
    session already has that id, and then it is left as it is; every column of every
    table that named a session names it by its new id; no two sessions have become
    one; and if no session was skipped a second migration changes nothing. *)
Theorem session_migration_sound d d' :
  store_ok d -> migrate_session_id_prefixes d = (d', Return tt) ->
  d' = (map_session_ids (renamed_to (renamings d)) d) <| db_sessions := map (moved (renamings d)) (db_sessions d) |>
  /\ (forall s, s ∈ db_sessions d ->
        let '(n, src) := compute_new_session_id_and_source (Session.id s) (Session.source s) in
        (skipped d s /\ renamed_to (renamings d) (Session.id s) = Session.id s /\ s ∈ db_sessions d')
        \/ (~ skipped d s /\ renamed_to (renamings d) (Session.id s) = n
            /\ s <| Session.id := n |> <| Session.source := src |> ∈ db_sessions d'))
  /\ store_ok d'
  /\ ((forall s, s ∈ db_sessions d -> ~ skipped d s) -> migrate_session_id_prefixes d' = (d', Return tt)).
Proof.
  intros Hd Hm. pose proof (migrate_ok d Hd) as Hok. rewrite Hm in Hok. cbn in Hok.
  pose proof (st_sessions _ Hd) as Hn. pose proof (renamings_separate d Hn) as Hsep.
  assert (Heq : d' = (map_session_ids (renamed_to (renamings d)) d) <| db_sessions := map (moved (renamings d)) (db_sessions d) |>).
  { unfold migrate_session_id_prefixes in Hm. destruct (apply_renamings d (renamings d)) as [x|e] eqn:Ha; [|done].
    injection Hm as <-. by apply apply_renamings_spec. }
  assert (Hrow : forall s, s ∈ db_sessions d ->
    let '(n, src) := compute_new_session_id_and_source (Session.id s) (Session.source s) in
    (skipped d s /\ renamed_to (renamings d) (Session.id s) = Session.id s /\ moved (renamings d) s = s)
    \/ (~ skipped d s /\ renamed_to (renamings d) (Session.id s) = n
        /\ moved (renamings d) s = s <| Session.id := n |> <| Session.source := src |>)).
  { intros s Hs. unfold renamed_to, moved, skipped. rewrite (renaming_for_session d s Hn Hs). unfold renaming_of.
    destruct (compute_new_session_id_and_source _ _) as [n src]. cbn.
    destruct (bool_decide (n = Session.id s)) eqn:H1; [apply bool_decide_eq_true in H1|apply bool_decide_eq_false in H1]; cbn.
    - right. split; [by intros []|]. case_bool_decide as H2; cbn; [|done]. subst. by destruct s.
    - destruct (taken d n) eqn:Ht; [left|right]; cbn.
      + by rewrite <- get_session_in.
      + split; [|done]. rewrite <- get_session_in. unfold taken in Ht. rewrite Ht. by intros []. }
  split; [done|]. split; [|split; [done|]].
  - intros s Hs. specialize (Hrow s Hs). destruct (compute_new_session_id_and_source _ _) as [n src]. subst d'. cbn.
    destruct Hrow as [(H1 & H2 & H3)|(H1 & H2 & H3)]; [left|right]; (split; [done|]; split; [done|]);
      apply list_elem_of_fmap; by exists s.
  - intros Hnone. assert (Hempty : renamings d' = []).
    { destruct (renamings d') as [|r l] eqn:He; [done|]. exfalso. assert (Hin : r ∈ renamings d') by (rewrite He; by left).
      apply list_elem_of_omap in Hin as (s' & Hs' & Hr).
      rewrite Heq in Hs'. cbn in Hs'. apply list_elem_of_fmap in Hs' as (s & -> & Hs). specialize (Hrow s Hs).
      pose proof (compute_again (Session.id s) (Session.source s)) as Hagain.
      destruct (compute_new_session_id_and_source (Session.id s) (Session.source s)) as [n src].
      destruct Hrow as [(H1 & _)|(_ & _ & Hmv)]; [by apply Hnone in H1|]. rewrite Hmv in Hr. unfold renaming_of in Hr.
      change (compute_new_session_id_and_source _ _) with (compute_new_session_id_and_source n src) in Hr.
      rewrite Hagain in Hr. by rewrite !bool_decide_eq_true_2 in Hr. }
    unfold migrate_session_id_prefixes. by rewrite Hempty.
Qed.

(** ** Two sessions for one id

    Two sessions whose ids differ by the old prefix alone both get the same new id, and
    none of the rows has it yet: neither is skipped, the second rename fails and the
    whole migration is undone, at every start. *)
Definition im_session (i : string) : Session.t := (Session.fresh i 1) <| Session.source := "feishu" |>.
Definition same_stem : database := exec_stores empty_database [ECreate (im_session "gateway-x"); ECreate (im_session "gw-x")].

Lemma same_stem_blocks_migration :
  store_ok same_stem /\ migrate_session_id_prefixes same_stem = (same_stem, Raise IntegrityError).
Proof. split; [apply exec_stores_ok; [apply empty_store_ok|by repeat split]|by vm_compute]. Qed.

(** * Witnesses *)

(** A session with a message and its tool call is copied. *)
Lemma clone_faithful_witness :
  let d := exec_stores empty_database two_sessions in
  let d' := (clone_session d "a" "e" ["m4"; "t4"] 9).1 in
  Forall2 same_message (list_messages d "a") (list_messages d' "e")
  /\ exists m', list_messages d' "e" !! 0%nat = Some m' /\ Some "m4" = Some (Message.id m').
Proof.
  set (d := exec_stores empty_database two_sessions).
  assert (Hd : store_ok d) by (apply exec_stores_ok; [apply empty_store_ok|apply two_sessions_fresh]).
  destruct (clone_faithful d "a" "e" ["m4"; "t4"] 9 ((Session.fresh "a" 1) <| Session.updated_at := 4 |>) Hd)
    as (_ & _ & Hm & _ & Hl & _); [by vm_compute|by vm_compute| |by vm_compute; lia|].
  { split; [apply (bool_decide_unpack _); by vm_compute|].
    intros i Hi. apply elem_of_cons in Hi as [-> | ->%list_elem_of_singleton]; vm_compute;
      split; intros H; repeat (apply elem_of_cons in H as [H|H]; [done|]); by apply elem_of_nil in H. }
  split; [exact Hm|].
  exact (Hl 0%nat 0%nat (plain_message "m1" "a" (Some "r1") 4) (plain_call "t1" "a" (Some "r1") (Some "m1"))
    (plain_call "t4" "e" None (Some "m4")) ltac:(by vm_compute) ltac:(by vm_compute) ltac:(by vm_compute) eq_refl).
Defined.

Lemma session_migration_sound_witness :
  let d := exec_stores empty_database [ECreate (im_session "gw-x"); EAppend None 4 "gw-x" (plain_message "m1" "gw-x" None 4)] in
  migrate_session_id_prefixes d = ((migrate_session_id_prefixes d).1, Return tt)
  /\ (im_session "feishu-x") <| Session.updated_at := 4 |> ∈ db_sessions (migrate_session_id_prefixes d).1.
Proof.
  set (d := exec_stores _ _).
  assert (Hd : store_ok d) by (apply exec_stores_ok; [apply empty_store_ok|by repeat split]).
  assert (Hm : migrate_session_id_prefixes d = ((migrate_session_id_prefixes d).1, Return tt)) by by vm_compute.
  split; [exact Hm|]. destruct (session_migration_sound d _ Hd Hm) as (_ & H & _).
  destruct (H ((im_session "gw-x") <| Session.updated_at := 4 |>)) as [([_ Hs] & _)|(_ & _ & Hin)].
  - vm_compute. left.
  - vm_compute in Hs. by apply elem_of_cons in Hs as [|[]%elem_of_nil].
  - exact Hin.
Defined.
