(* ===== verification/ScheduleRun.v ===== *)
(** Running a claimed task (app/application/schedule_run_service.py,
    app/application/scheduled_agent_executor.py, app/application/scheduler_runner.py).

    A function from the database to the database, the messages given to the chat client
    and the report returned.  Where the code awaits the agent or a delivery, what the
    other coroutines did to the database meanwhile is an argument.  What the agent
    answers is an argument. *)
From S2P Require Import Prelude Json Repr InformationFlow Schedules GatewayStore SessionStore ScheduleDelivery.
From stdpp Require Import pretty.
Open Scope Z_scope.

(** * The executor *)

Record ScheduledAgentResult := mkAgentResult {
  ar_status : ExecutionStatus.t;
  ar_output : option string;
  ar_error : option string
}.

(** The answer of the chat service, or how its completion failed. *)
Record chat_answer := mkChatAnswer { finish_reason : string; answer_content : string }.
Inductive chat_failure : Type :=
  | ChatTimedOut
  | ChatCancelled
  | ChatRaised (text : string).

(** [ScheduledAgentExecutor.run]: a prompt that is not safe is not run. *)
Definition executor_run (complete : ScheduledTask.t -> chat_answer + chat_failure) (task : ScheduledTask.t)
    : ScheduledAgentResult + chat_failure :=
  match scan (ScheduledTask.prompt task) with
  | Some reason => inl (mkAgentResult ExecutionStatus.BLOCKED None (Some reason))
  | None =>
      match complete task with
      | inl a =>
          inl (if bool_decide (finish_reason a = "error") then mkAgentResult ExecutionStatus.FAILED None (Some (answer_content a))
               else mkAgentResult ExecutionStatus.SUCCEEDED (Some (answer_content a)) None)
      | inr failure => inr failure
      end
  end.

(** [_run_executor] *)
Definition run_executor (timeout_seconds : Z) (complete : ScheduledTask.t -> chat_answer + chat_failure)
    (task : ScheduledTask.t) : ScheduledAgentResult :=
  match executor_run complete task with
  | inl r => r
  | inr ChatTimedOut =>
      mkAgentResult ExecutionStatus.FAILED None (Some ("execution timed out after " +:+ pretty timeout_seconds +:+ "s"))
  | inr ChatCancelled => mkAgentResult ExecutionStatus.CANCELLED None (Some "cancelled by request")
  | inr (ChatRaised text) => mkAgentResult ExecutionStatus.FAILED None (Some ("execution error: " +:+ text))
  end.

(** * Delivery *)

(** What the service is wired to. *)
Record run_wiring := mkRunWiring {
  max_due_per_tick : Z;
  lease_seconds : Z;
  missed_grace_seconds : Z;
  execution_timeout_seconds : Z;
  information_flow : InformationFlowService;
  chat : option chat_client;
  platform_status : Platform.t -> string;
  has_delivery_service : bool
}.

Section run.
Context (w : run_wiring).

(** [outbound_delivery.deliver], wired to the home target of the gateway registry. *)
Definition outbound (d : database) (target : DeliveryTarget) (content : string) : list Sent * DeliveryResult :=
  deliver (chat w) (Some (get_home_target (db_gateway d))) target content.

Definition release_to_gateway (content : string) : option string :=
  let r := release (information_flow w) content ReleaseTarget.GATEWAY Classification.INTERNAL "scheduled_delivery" [] in
  if rr_allowed r then rr_content r else None.

(** [_evaluate_gateway_outbound] *)
Definition text_of (d : dict) (k : string) : string := py_str (json_or (dict_get d k) (JStr "")).

Definition gateway_outbound_request (task : ScheduledTask.t) : GatewayOutboundRequest :=
  let origin := ScheduledTask.origin task in
  let ctx := target_context (ScheduledTask.delivery_target task) in
  let origin_receive_id := text_of origin "receive_id" in
  let or_origin k o := py_str (json_or (dict_get ctx k) (JStr o)) in
  let origin_actor := json_or (json_or (dict_get origin "actor_id") (JStr origin_receive_id)) JNull in
  mkOutboundRequest
    (mkSessionKey (or_origin "platform" (text_of origin "platform")) (or_origin "receive_id" origin_receive_id)
       (or_origin "thread_id" (text_of origin "thread_id")) "")
    (mkSessionKey (text_of origin "platform") origin_receive_id (text_of origin "thread_id") "")
    (json_or (dict_get ctx "actor_id") origin_actor) origin_actor.
Definition evaluate_gateway_outbound (task : ScheduledTask.t) : GatewayDeliveryDecision :=
  evaluate_outbound (gateway_outbound_request task).

Definition snapshot_reason (e : py_exc) : string :=
  match e with
  | ScheduleDeliveryError code =>
      if bool_decide (code = "conversation_not_found") then "target_deleted"
      else if bool_decide (code = "snapshot_mismatch") then "target_mismatch"
      else if bool_decide (code = "platform_unavailable") then "platform_unavailable"
      else "target_unverified"
  | _ => "target_unverified"
  end.

(** The branch of a Feishu target. *)
Definition deliver_feishu (d : database) (target : DeliveryTarget) (content : string) : list Sent * DeliveryResult :=
  if negb (has_delivery_service w) then ([], failed "target_unverified")
  else match validate_snapshot (platform_status w) (db_gateway d) (db_schedules d) target with
       | Raise e => ([], failed (snapshot_reason e))
       | Return verified =>
           let field k := default (JStr "") (obj_get k (target_context verified)) in
           if negb (bool_decide (authorize (mkAuthorizationRequest (field "platform") (field "receive_id_type")
                                              true true true) = PolicyOutcome.ALLOW))
           then ([], failed "authorization_denied")
           else match release_to_gateway content with
                | None => ([], failed "information_flow_denied")
                | Some text =>
                    let '(sent, r) := outbound d verified text in
                    (sent, if bool_decide (dr_status r = "success") then r else failed "send_failed")
                end
       end.

(** [_deliver] *)
Definition deliver_result (d : database) (task : ScheduledTask.t) (content : string) : list Sent * DeliveryResult :=
  let target := ScheduledTask.delivery_target task in
  match target_type target with
  | DeliveryTargetType.DASHBOARD => outbound d target content
  | DeliveryTargetType.FEISHU => deliver_feishu d target content
  | _ =>
      match release_to_gateway content with
      | None => ([], failed "information_flow_denied")
      | Some text =>
          let decision := evaluate_gateway_outbound task in
          if bool_decide (gd_verdict decision = PolicyOutcome.DENY)
          then ([], failed ("gateway_denied: " +:+ gd_reason decision))
          else outbound d target text
      end
  end.

(** * One claim *)

(** What the agent answers to this claim, what other coroutines do while it runs and
    while the answer is delivered, the identifier of the execution, the run that asked
    for it, and the time the writes are made. *)
Record claim_input := mkClaimInput {
  in_chat : ScheduledTask.t -> chat_answer + chat_failure;
  in_during_run : database -> database;
  in_during_delivery : database -> database;
  in_execution_id : string;
  in_trigger : option string;
  in_later : Z
}.

Record run_report := mkRunReport {
  rep_task_id : string;
  rep_status : string;
  rep_reason : option string;
  rep_delivery_status : option string
}.

Definition on_schedules {A} (d : database) (r : sdb * A) : database * A := (d <| db_schedules := r.1 |>, r.2).

(** [_completed]; the code gives it [started_at] for the time of completion. *)
Definition completed (e : Execution.t) (status : ExecutionStatus.t) (completed_at : option Z)
    (output error : option string) : Execution.t :=
  e <| Execution.status := status |> <| Execution.completed_at := completed_at |>
    <| Execution.output := output |> <| Execution.error := error |>.

Definition new_execution (claim : Claim.t) (now : Z) (i : claim_input) : Execution.t :=
  Execution.mk (in_execution_id i) (ScheduledTask.id (Claim.task claim)) (ScheduledTask.session_id (Claim.task claim))
    (Claim.claim_id claim) (Claim.lease_owner claim) ExecutionStatus.RUNNING (Some (Claim.claimed_next_run_at claim))
    (Some now) None None None None None None (in_trigger i).

(** The text delivered. *)
Definition content_of (r : ScheduledAgentResult) : string :=
  if bool_decide (ar_status r = ExecutionStatus.BLOCKED)
  then "Scheduled task blocked: " +:+ str_or (ar_error r) "blocked"
  else str_or (ar_output r) (str_or (ar_error r) "scheduled task completed").

(** The answer is delivered and the outcome recorded. *)
Definition deliver_and_record (d : database) (claim : Claim.t) (e : Execution.t) (r : ScheduledAgentResult) (i : claim_input)
    : database * list Sent * run_report :=
  let task := Claim.task claim in
  let '(sent, result) := deliver_result d task (content_of r) in
  let d := in_during_delivery i d in
  let delivered := e <| Execution.delivery_status := Some (dr_status result) |>
                     <| Execution.delivery_error := dr_error result |> in
  let d := (on_schedules d (record_delivery_result (db_schedules d) delivered (in_later i))).1 in
  let d := if bool_decide (target_type (ScheduledTask.delivery_target task) = DeliveryTargetType.DASHBOARD)
           then (on_schedules d (mark_dashboard_unread (db_schedules d) (ScheduledTask.id task) (Claim.claim_id claim)
                                   (Claim.lease_owner claim) (in_later i))).1
           else d in
  (d, sent, mkRunReport (ScheduledTask.id task) (ExecutionStatus.value (ar_status r)) None (Some (dr_status result))).

(** [_execute_claim] *)
Definition execute_claim (d : database) (claim : Claim.t) (now : Z) (i : claim_input)
    : database * list Sent * result run_report :=
  let task := Claim.task claim in
  let id := ScheduledTask.id task in
  let decision := evaluate (missed_grace_seconds w) claim now in
  let e := new_execution claim now i in
  match on_schedules d (record_execution_started (db_schedules d) e now) with
  | (d, Raise x) => (d, [], Raise x)
  | (d, Return _) =>
      let complete d e := on_schedules d (record_execution_completed (db_schedules d) e (in_later i)) in
      if bool_decide (verdict decision = PolicyOutcome.DENY) then
        let d := (complete d (completed e ExecutionStatus.BLOCKED (Some now) None (Some (decision_reason decision)))).1 in
        (d, [], Return (mkRunReport id "blocked" (Some (decision_reason decision)) None))
      else if bool_decide (missed_action decision = SKIPPED_MISSED) then
        let d := (complete d (completed e ExecutionStatus.SKIPPED_MISSED (Some now) None None)).1 in
        (d, [], Return (mkRunReport id "skipped_missed" None None))
      else
        let r := run_executor (execution_timeout_seconds w) (in_chat i) task in
        let d := in_during_run i d in
        let done := completed e (ar_status r) (Some now) (ar_output r) (ar_error r) in
        match complete d done with
        | (d, false) => (d, [], Return (mkRunReport id "stale" None None))
        | (d, true) =>
            if bool_decide (ar_status r = ExecutionStatus.CANCELLED)
               || bool_decide (delivery_mode decision = SILENT)
            then (d, [], Return (mkRunReport id (ExecutionStatus.value (ar_status r)) None None))
            else let '(d, sent, report) := deliver_and_record d claim done r i in (d, sent, Return report)
        end
  end.

(** * A tick, and a run that is asked for *)

(** [recover_missing_origin_sessions], when it is wired. *)
Context (recover_sessions : database -> database * result unit).

Fixpoint run_claims (d : database) (claims : list Claim.t) (now : Z) (inputs : nat -> claim_input) (k : nat)
    : database * list Sent * result (list run_report) :=
  match claims with
  | [] => (d, [], Return [])
  | c :: claims =>
      match execute_claim d c now (inputs k) with
      | (d, sent, Raise x) => (d, sent, Raise x)
      | (d, sent, Return report) =>
          let '(d, sent', reports) := run_claims d claims now inputs (S k) in
          (d, sent ++ sent', let? l := reports in Return (report :: l))
      end
  end.

(** [run_due_claims]; [ids] are the identifiers the claims draw, [inputs k] what the
    k-th claim meets. *)
Definition run_due_claims (next_after : string -> Z -> string -> result Z) (d : database) (now : Z)
    (ids : list (string * string)) (inputs : nat -> claim_input) : database * list Sent * result (list run_report) :=
  match recover_sessions d with
  | (d, Raise x) => (d, [], Raise x)
  | (d, Return _) =>
      let d := (on_schedules d (recover_stale_executions (db_schedules d) now)).1 in
      match on_schedules d (claim_due_tasks next_after (db_schedules d) now (max_due_per_tick w) (lease_seconds w) ids) with
      | (d, Raise x) => (d, [], Raise x)
      | (d, Return claims) => run_claims d claims now inputs 0
      end
  end.

(** [run_now]: the claim is run by a task of its own, whose exceptions are logged. *)
Definition run_now (d : database) (task_id : string) (now : Z) (ids : string * string)
    : database * result (option Claim.t) :=
  match recover_sessions d with
  | (d, Raise x) => (d, Raise x)
  | (d, Return _) =>
      let d := (on_schedules d (recover_stale_executions (db_schedules d) now)).1 in
      let '(d, claim) := on_schedules d (claim_task_for_run_now (db_schedules d) task_id now (lease_seconds w) ids) in
      (d, Return claim)
  end.
Definition run_claim_safe (d : database) (claim : Claim.t) (now : Z) (i : claim_input) : database * list Sent :=
  let '(d, sent, _) := execute_claim d claim now i in (d, sent).
End run.
