(* ===== verification/ScheduleRunProps.v ===== *)
(** What a claimed run does: every run ends, whatever happens while the agent works, and
    a message leaves the program only for an address that was checked and without a
    known secret. *)
From S2P Require Import Prelude Json Repr InformationFlow FlowProps GatewayStore Schedules ScheduleProps ScheduleClaims SessionStore ScheduleDelivery ScheduleRun.
From stdpp Require Import gmap.
Open Scope Z_scope.

(** * Completion *)

(** Who a claim is of, as the registry looks it up. *)
Definition holds_for (claim : Claim.t) (t : ScheduledTask.t) : bool :=
  holds_claim (ScheduledTask.id (Claim.task claim)) (Claim.claim_id claim) (Claim.lease_owner claim) t.

(** An execution of the claim. *)
Definition of_claim (claim : Claim.t) (e : Execution.t) : Prop :=
  Execution.task_id e = ScheduledTask.id (Claim.task claim) /\ Execution.claim_id e = Claim.claim_id claim
  /\ Execution.lease_owner e = Claim.lease_owner claim.

(** The execution [i] has ended with [status] and no row of the claim has a lease. *)
Definition ended (d : sdb) (claim : Claim.t) (i : string) (status : ExecutionStatus.t) (now : Z) : Prop :=
  (exists e, e ∈ executions d /\ Execution.id e = i /\ Execution.status e = status /\ Execution.completed_at e = Some now)
  /\ forall t, t ∈ scheduled_tasks d -> holds_for claim t = true -> ScheduledTask.lease_until t = None.

Lemma completed_ends d claim e now later :
  of_claim claim e -> Execution.completed_at e = Some now -> (record_execution_completed d e later).2 = true ->
  ended (record_execution_completed d e later).1 claim (Execution.id e) (Execution.status e) now.
Proof.
  intros (Ht & Hc & Ho) Hat. unfold record_execution_completed. rewrite rowcount_pos.
  destruct (existsb (same_execution d e) (executions d)) eqn:Hex; [|done]. intros _. cbn.
  rewrite Ht, Hc, Ho. fold (holds_for claim). apply existsb_exists in Hex as (x & Hx%list_elem_of_In & Hs).
  pose proof Hs as [Hid%bool_decide_eq_true Hh]%andb_true_iff. split.
  - eexists. split; [apply list_elem_of_fmap; exists x; split; [reflexivity|exact Hx]|]. by rewrite Hs.
  - intros t' (t & -> & _)%list_elem_of_fmap. unfold holds_for.
    destruct (holds_claim _ _ _ t) eqn:Hht; [done|by rewrite Hht].
Qed.

(** A completion that is refused changes nothing, and then either the execution is gone
    or the claim is not held. *)
Lemma refused_completion d claim e later :
  of_claim claim e -> (record_execution_completed d e later).2 = false ->
  (record_execution_completed d e later).1 = d
  /\ ~ ((exists x, x ∈ executions d /\ Execution.id x = Execution.id e)
        /\ exists t, t ∈ scheduled_tasks d /\ holds_for claim t = true).
Proof.
  intros (Ht & Hc & Ho). unfold record_execution_completed. rewrite rowcount_pos.
  destruct (existsb _ _) eqn:Hs; [done|]. intros _. cbn. split; [by apply update_none_executions|].
  intros [(x & Hx & Hxi) (t & Htin & Hh)]. rewrite existsb_false in Hs. specialize (Hs x Hx). unfold same_execution in Hs.
  rewrite (bool_decide_eq_true_2 _ Hxi), Ht, Hc, Ho in Hs. cbn in Hs. rewrite existsb_false in Hs.
  specialize (Hs t Htin). unfold holds_for in Hh. congruence.
Qed.

(** The executions that can be completed: the claim is held and the execution is there. *)
Lemma completes d claim e later t :
  of_claim claim e -> e ∈ executions d -> t ∈ scheduled_tasks d -> holds_for claim t = true ->
  forall e', of_claim claim e' -> Execution.id e' = Execution.id e -> (record_execution_completed d e' later).2 = true.
Proof.
  intros _ He Ht Hh e' (Ht' & Hc' & Ho') Hid. unfold record_execution_completed. rewrite rowcount_pos.
  replace (existsb _ _) with true; [done|]. symmetry. apply existsb_exists. exists e.
  split; [by apply list_elem_of_In|]. unfold same_execution. rewrite bool_decide_eq_true_2 by done. cbn.
  apply existsb_exists. exists t. split; [by apply list_elem_of_In|]. by rewrite Ht', Hc', Ho'.
Qed.

(** * Every run ends *)

Lemma run_executor_ends timeout chat task :
  ar_status (run_executor timeout chat task) <> ExecutionStatus.RUNNING.
Proof.
  unfold run_executor, executor_run. destruct (scan _); [done|]. destruct (chat task) as [a|[]]; try done. by case_bool_decide.
Qed.

Section runs.
Context (w : run_wiring).

(** How far the executions have come, and who has which task leased. *)
Definition progress (d : sdb) :=
  (map (fun e => (Execution.id e, Execution.status e, Execution.completed_at e)) (executions d),
   map (fun t => (ScheduledTask.id t, ScheduledTask.claim_id t, ScheduledTask.lease_owner t, ScheduledTask.lease_until t))
     (scheduled_tasks d)).

Lemma update_tasks_progress cond set d :
  (forall t, ScheduledTask.id (set t) = ScheduledTask.id t /\ ScheduledTask.claim_id (set t) = ScheduledTask.claim_id t
     /\ ScheduledTask.lease_owner (set t) = ScheduledTask.lease_owner t
     /\ ScheduledTask.lease_until (set t) = ScheduledTask.lease_until t) ->
  progress (update_tasks cond set d) = progress d.
Proof.
  intros H. unfold progress, update_tasks. cbn. f_equal. rewrite map_map. apply map_ext. intros t.
  destruct (cond t); [|done]. by destruct (H t) as (-> & -> & -> & ->).
Qed.

(** Neither the record of a delivery nor an unread mark ends or leases anything. *)
Lemma delivery_progress d e later : progress (record_delivery_result d e later).1 = progress d.
Proof.
  unfold record_delivery_result. set (d1 := update_executions _ _ d).
  assert (H1 : progress d1 = progress d).
  { unfold progress, d1, update_executions. cbn. f_equal. rewrite map_map. apply map_ext. intros x. by case_match. }
  case_match; cbn [fst]; [|exact H1]. rewrite <- H1. by apply update_tasks_progress.
Qed.

Lemma deliver_and_record_progress d claim e r i :
  progress (db_schedules (deliver_and_record w d claim e r i).1.1) = progress (db_schedules (in_during_delivery i d)).
Proof.
  unfold deliver_and_record. destruct (deliver_result w d (Claim.task claim) (content_of r)) as [sent res]. cbn [fst].
  case_match; unfold on_schedules; cbn; [unfold mark_dashboard_unread; cbn; rewrite update_tasks_progress by done|];
    by rewrite delivery_progress.
Qed.

(** The database when the answer of a claimed run is delivered. *)
Definition at_delivery (d : database) (claim : Claim.t) (now : Z) (i : claim_input) (d' : database) : Prop :=
  let e := new_execution claim now i in
  let r := run_executor (execution_timeout_seconds w) (in_chat i) (Claim.task claim) in
  let d1 := (on_schedules d (record_execution_started (db_schedules d) e now)).1 in
  on_schedules (in_during_run i d1)
    (record_execution_completed (db_schedules (in_during_run i d1))
       (completed e (ar_status r) (Some now) (ar_output r) (ar_error r)) (in_later i)) = (d', true).

(** C21. A claim that is held when its run begins comes to an end.  Whatever the agent
    answers, also when it fails, hangs or is cancelled, and whatever other coroutines
    do to the database while it works: either the execution gets a final status, the
    one reported, and the lease of the task is released, or the report says "stale"
    and by then the claim is no longer held or its execution gone.  An answer is
    delivered only after that; what the run still writes when others have had their turn
    meanwhile neither changes the status of an execution nor leases a task.  The time
    recorded for the completion is that of the start. *)
Theorem claimed_run_ends d claim now i t :
  t ∈ scheduled_tasks (db_schedules d) -> holds_for claim t = true ->
  in_execution_id i ∉ execution_ids (db_schedules d) ->
  let '(d', _, r) := execute_claim w d claim now i in
  exists rep, r = Return rep /\ rep_task_id rep = ScheduledTask.id (Claim.task claim)
  /\ ((rep_status rep = "stale"
       /\ ~ ((exists e, e ∈ executions (db_schedules d') /\ Execution.id e = in_execution_id i)
             /\ exists t', t' ∈ scheduled_tasks (db_schedules d') /\ holds_for claim t' = true))
      \/ exists status, status <> ExecutionStatus.RUNNING /\ rep_status rep = ExecutionStatus.value status
           /\ (ended (db_schedules d') claim (in_execution_id i) status now
               \/ exists at_end, at_delivery d claim now i at_end
                    /\ ended (db_schedules at_end) claim (in_execution_id i) status now
                    /\ progress (db_schedules d') = progress (db_schedules (in_during_delivery i at_end)))).
Proof.
  intros Ht Hh Hfresh. unfold execute_claim, at_delivery, record_execution_started.
  set (e := new_execution claim now i). assert (Hof : of_claim claim e) by done.
  destruct (existsb _ (executions (db_schedules d))) eqn:Hex.
  { exfalso. apply existsb_exists in Hex as (x & Hx%list_elem_of_In & Hid%bool_decide_eq_true). apply Hfresh.
    apply list_elem_of_fmap. by exists x. }
  cbn [on_schedules fst snd].
  set (d1 := d <| db_schedules := _ |>). set (row := e <| Execution.created_at := Some (default now (Execution.created_at e)) |>).
  assert (Hin : row ∈ executions (db_schedules d1)) by (apply elem_of_app; right; by left).
  assert (Hend : forall status out err, let fin := completed e status (Some now) out err in
    ended (record_execution_completed (db_schedules d1) fin (in_later i)).1 claim (in_execution_id i) status now).
  { intros status out err. apply (completed_ends (db_schedules d1) claim (completed e status (Some now) out err) now (in_later i)); [done|done|].
    by apply completes with claim row t. }
  case_bool_decide as Hdeny.
  { eexists. split; [reflexivity|]. split; [done|]. right. exists ExecutionStatus.BLOCKED. split; [done|]. split; [done|]. left. apply Hend. }
  case_bool_decide as Hmiss.
  { eexists. split; [reflexivity|]. split; [done|]. right. exists ExecutionStatus.SKIPPED_MISSED. split; [done|]. split; [done|]. left. apply Hend. }
  set (r := run_executor _ _ _). pose proof (run_executor_ends (execution_timeout_seconds w) (in_chat i) (Claim.task claim)) as Hr.
  fold r in Hr. set (d2 := in_during_run i d1). set (fin := completed e _ _ _ _).
  pose proof (refused_completion (db_schedules d2) claim fin (in_later i) Hof) as Hstale.
  pose proof (completed_ends (db_schedules d2) claim fin now (in_later i) Hof eq_refl) as Hdone.
  destruct (record_execution_completed (db_schedules d2) fin (in_later i)) as [s3 [|]] eqn:Hc; cbn [fst snd] in *.
  - specialize (Hdone eq_refl). unfold on_schedules. cbn [fst snd]. destruct (_ || _).
    + eexists. split; [reflexivity|]. split; [done|]. right. exists (ar_status r). split; [done|]. split; [done|]. by left.
    + destruct (deliver_and_record w _ claim fin r i) as [[d4 sent] rep] eqn:Hdel.
      assert (Hrep : rep_task_id rep = ScheduledTask.id (Claim.task claim) /\ rep_status rep = ExecutionStatus.value (ar_status r)).
      { revert Hdel. unfold deliver_and_record. destruct (deliver_result _ _ _ _) as [s res]. by intros [= _ _ <-]. }
      exists rep. split; [done|]. split; [apply Hrep|]. right. exists (ar_status r). split; [done|]. split; [apply Hrep|].
      right. exists (d2 <| db_schedules := s3 |>). split; [done|]. split; [exact Hdone|].
      pose proof (deliver_and_record_progress (d2 <| db_schedules := s3 |>) claim fin r i) as Hp. by rewrite Hdel in Hp.
  - destruct (Hstale eq_refl) as [-> Hs]. eexists. split; [reflexivity|]. split; [done|]. by left.
Qed.

(** * Every message is checked *)

(** The address a task's message may go to.  For a Feishu target the saved snapshot is that
    of a chat of the registry on a connected platform for which no address type but
    [chat_id] is known.  For an origin target, of a task that came from Feishu, the policy
    agreed, and the message goes to the home target of the registry; without one it goes
    to the very address the task came from. *)
Definition checked_address (d : database) (task : ScheduledTask.t) (m : Sent) : Prop :=
  let context := target_context (ScheduledTask.delivery_target task) in
  match target_type (ScheduledTask.delivery_target task) with
  | DeliveryTargetType.FEISHU =>
      platform_status w Platform.FEISHU = "connected" /\
      exists row, row ∈ conversations (db_gateway d) /\ Conversation.platform row = "feishu"
        /\ dict_get context "conversation_id" = JStr (Conversation.id row)
        /\ dict_get context "receive_id" = JStr (Conversation.platform_session_id row)
        /\ sent_to m = JStr (Conversation.platform_session_id row) /\ sent_type m = JStr "chat_id"
        /\ row_types (find_conversations (db_gateway d) Platform.FEISHU (Conversation.platform_session_id row))
             ∪ default ∅ (local_types (db_gateway d) (db_schedules d) !! Conversation.platform_session_id row) = {["chat_id"]}
  | DeliveryTargetType.ORIGIN =>
      gd_verdict (evaluate_gateway_outbound task) = PolicyOutcome.ALLOW
      /\ text_of (ScheduledTask.origin task) "platform" = "feishu" /\ truthy_json (sent_to m) = true
      /\ match get_home_target (db_gateway d) Platform.FEISHU with
         | Some home => sent_to m = JStr (HomeTarget.receive_id home) /\ sent_type m = JStr (HomeTarget.receive_id_type home)
         | None => py_str (sent_to m) = text_of (ScheduledTask.origin task) "receive_id"
                   /\ sent_type m = default (JStr "chat_id") (obj_get "receive_id_type" context)
         end
  | _ => False
  end.

Lemma checked_rows row types rows rows' :
  check_rows row types rows = Return rows' ->
  row_types rows ∪ default ∅ (types !! Conversation.platform_session_id row) = {["chat_id"]}.
Proof. unfold check_rows. case_match; [done|]. by case_bool_decide. Qed.

Lemma get_conversation_elem g i row :
  get_conversation g i = Some row -> row ∈ conversations g /\ Conversation.id row = i.
Proof.
  unfold get_conversation. destruct (List.find _ _) as [c|] eqn:Hf; cbn; [|done].
  apply find_some in Hf as [Hin%list_elem_of_In Hi%bool_decide_eq_true]. case_match; [|done]. by intros [= <-].
Qed.

(** A snapshot that is valid is that of a known chat. *)
Lemma snapshot_checked d target verified :
  validate_snapshot (platform_status w) (db_gateway d) (db_schedules d) target = Return verified ->
  platform_status w Platform.FEISHU = "connected" /\
  exists row, row ∈ conversations (db_gateway d) /\ Conversation.platform row = "feishu" /\ verified = target_of row
    /\ dict_get (target_context target) "conversation_id" = JStr (Conversation.id row)
    /\ dict_get (target_context target) "receive_id" = JStr (Conversation.platform_session_id row)
    /\ row_types (find_conversations (db_gateway d) Platform.FEISHU (Conversation.platform_session_id row))
         ∪ default ∅ (local_types (db_gateway d) (db_schedules d) !! Conversation.platform_session_id row) = {["chat_id"]}.
Proof.
  unfold validate_snapshot. case_bool_decide; [|done]. cbn [negb].
  destruct (bind_text _) as [i|]; [|done]. cbn. destruct (i ≫= _) as [row|] eqn:Hg; [|done].
  unfold rows_and_type, check_address. destruct (bool_decide (_ = "feishu")) eqn:Hp; [|done].
  apply bool_decide_eq_true in Hp. cbn. destruct (truthy_str _); [|done]. cbn.
  destruct (check_rows _ _ _) as [rows|] eqn:Hc; [|done]. apply checked_rows in Hc. cbn.
  match goal with |- context [if ?b then Raise (ScheduleDeliveryError "snapshot_mismatch") else _] => destruct b eqn:Hs end; [done|].
  cbn in Hs. rewrite !orb_false_iff, !negb_false_iff, !bool_decide_eq_true in Hs. destruct Hs as (H1 & _ & H3 & _).
  unfold connected. destruct (bool_decide (platform_status _ _ = _)) eqn:Hconn; [|done].
  apply bool_decide_eq_true in Hconn. intros [= <-].
  split; [done|]. exists row. destruct i as [i|]; [|done]. apply get_conversation_elem in Hg as [Hin _].
  by repeat split.
Qed.

Lemma feishu_value s : Platform.of_value s = Some Platform.FEISHU -> s = "feishu".
Proof. unfold Platform.of_value. cbn. repeat case_bool_decide; by intros [=]. Qed.

Lemma json_or_truthy a b : truthy_json a = true -> json_or a b = a.
Proof. unfold json_or. by intros ->. Qed.

(** A message the policy allows goes to the platform and the address the task came from,
    where its target names them. *)
Lemma allowed_origin task :
  gd_verdict (evaluate_gateway_outbound task) = PolicyOutcome.ALLOW ->
  forall k v, k ∈ ["platform"; "receive_id"; "thread_id"] ->
  dict_get (target_context (ScheduledTask.delivery_target task)) k = v -> truthy_json v = true ->
  text_of (ScheduledTask.origin task) k = py_str v.
Proof.
  unfold evaluate_gateway_outbound, evaluate_outbound. destruct (_ || _); [done|].
  destruct (negb _ || negb _) eqn:Hm; [done|]. apply orb_false_iff in Hm as [_ Hm].
  apply negb_false_iff, bool_decide_eq_true in Hm. unfold conversation_parts in Hm. cbn in Hm. injection Hm as H1 H2 H3.
  intros _ k v Hk Hv Ht. rewrite !elem_of_cons, elem_of_nil in Hk.
  destruct Hk as [->|[->|[->|[]]]]; rewrite Hv, json_or_truthy in * by done; congruence.
Qed.

(** What the outbound adapter sends. *)
Lemma outbound_sends d target content m :
  m ∈ (outbound w d target content).1 ->
  (outbound w d target content).1 = [m] /\ sent_content m = content
  /\ match target_type target with
     | DeliveryTargetType.FEISHU => sent_to m = dict_get (target_context target) "receive_id" /\ sent_type m = JStr "chat_id"
     | DeliveryTargetType.ORIGIN =>
         origin_address (Some (get_home_target (db_gateway d))) (target_context target) = inl (sent_to m, sent_type m)
         /\ truthy_json (sent_to m) = true /\ dict_get (target_context target) "platform" = JStr "feishu"
     | _ => False
     end.
Proof.
  unfold outbound, deliver, send. destruct (target_type target) eqn:Ht.
  - destruct (negb _); [by intros ?%elem_of_nil|]. destruct (as_str _ ≫= _) as [[]|] eqn:Hp; try by intros ?%elem_of_nil.
    destruct (chat w) as [client|]; [|by intros ?%elem_of_nil]. destruct (origin_address _ _) as [[a k]|] eqn:Ho; [|by intros ?%elem_of_nil].
    destruct (truthy_json a) eqn:Ha; cbn [negb]; [|by intros ?%elem_of_nil]. cbn. intros ->%list_elem_of_singleton.
    cbn. split_and!; try done. destruct (dict_get (target_context target) "platform"); cbn in Hp; try done.
    apply feishu_value in Hp. by rewrite Hp.
  - destruct (chat w) as [client|]; [|by intros ?%elem_of_nil]. destruct (_ || _); [by intros ?%elem_of_nil|].
    cbn. by intros ->%list_elem_of_singleton.
  - by intros ?%elem_of_nil.
  - by intros ?%elem_of_nil.
Qed.

(** A message is the only one of its delivery, its address is checked, and its text is
    what the release of the content handed out. *)
Lemma delivered_checked d task content m :
  m ∈ (deliver_result w d task content).1 ->
  (deliver_result w d task content).1 = [m] /\ checked_address d task m
  /\ release_to_gateway w content = Some (sent_content m).
Proof.
  unfold deliver_result, checked_address. destruct (target_type (ScheduledTask.delivery_target task)) eqn:Ht.
  - destruct (release_to_gateway w content) as [text|]; [|by intros ?%elem_of_nil].
    case_bool_decide as Hv; [by intros ?%elem_of_nil|]. intros Hm. pose proof (outbound_sends _ _ _ _ Hm) as (-> & <- & Ho).
    split; [done|]. split; [|done]. rewrite Ht in Ho. destruct Ho as (Ho & Htr & Hp).
    assert (Hallow : gd_verdict (evaluate_gateway_outbound task) = PolicyOutcome.ALLOW).
    { revert Hv. unfold evaluate_gateway_outbound, evaluate_outbound. destruct (_ || _); [done|]. by destruct (_ || _). }
    split; [done|]. split; [by apply (allowed_origin task Hallow "platform" (JStr "feishu") ltac:(set_solver))|]. split; [done|].
    unfold origin_address in Ho. destruct (get_home_target _ _); [by injection Ho as <- <-|]. case_match; [done|].
    injection Ho as Hto Hty. split; [|done]. symmetry. apply (allowed_origin task Hallow "receive_id"); [set_solver| |done].
    unfold dict_get. rewrite <- Hto in Htr |- *. by destruct (obj_get "receive_id" _).
  - unfold deliver_feishu. destruct (has_delivery_service w); [|by intros ?%elem_of_nil]. cbn [negb].
    destruct (validate_snapshot _ _ _ _) as [verified|e] eqn:Hs; [|by intros ?%elem_of_nil].
    destruct (negb _); [by intros ?%elem_of_nil|]. destruct (release_to_gateway w content) as [text|]; [|by intros ?%elem_of_nil].
    destruct (outbound w d verified text) as [sent r] eqn:Ho. cbn [fst]. intros Hm.
    pose proof (outbound_sends d verified text m) as Hout. rewrite Ho in Hout. cbn [fst] in Hout. destruct (Hout Hm) as (-> & <- & Haddr).
    apply snapshot_checked in Hs as (Hconn & row & Hin & Hp & -> & Hid & Hri & Hty). destruct Haddr as [Ha Hk].
    split; [done|]. split; [|done]. split; [done|]. exists row. by repeat split.
  - intros Hm. apply outbound_sends in Hm as (_ & _ & Hf). by rewrite Ht in Hf.
  - case_match; [|by intros ?%elem_of_nil]. case_bool_decide; [by intros ?%elem_of_nil|]. intros Hm.
    apply outbound_sends in Hm as (_ & _ & Hf). by rewrite Ht in Hf.
Qed.

(** C22. A message leaves the program only for a run whose claim was still held when the
    agent had answered, that the policy let run, that was not cancelled and is not
    silent.  It is the only message of the run, and no known secret occurs in its text.
    With a Feishu target it goes to a chat of the gateway registry as it stood after the
    run, on a connected platform and known by no type of address but [chat_id]; with an origin
    target, whose conversation the policy has compared with the one the task came from, to
    the home target the registry then has, or, without one, to the address the task came
    from; with any other target nothing is sent. *)
Theorem schedule_sends_guarded d claim now i m :
  all_apart (if_secrets (information_flow w)) ->
  let '(_, sent, _) := execute_claim w d claim now i in
  m ∈ sent ->
  sent = [m] /\ free_of (if_secrets (information_flow w)) (sent_content m)
  /\ verdict (evaluate (missed_grace_seconds w) claim now) <> PolicyOutcome.DENY
  /\ delivery_mode (evaluate (missed_grace_seconds w) claim now) <> SILENT
  /\ ar_status (run_executor (execution_timeout_seconds w) (in_chat i) (Claim.task claim)) <> ExecutionStatus.CANCELLED
  /\ exists d', at_delivery d claim now i d' /\ checked_address d' (Claim.task claim) m.
Proof.
  intros Ha. unfold execute_claim, at_delivery.
  destruct (on_schedules d _) as [d1 [u|x]] eqn:Hd1; [|by intros ?%elem_of_nil]. cbn [fst].
  case_bool_decide as Hdeny; [by intros ?%elem_of_nil|]. case_bool_decide; [by intros ?%elem_of_nil|].
  set (r := run_executor _ _ _). destruct (on_schedules (in_during_run i d1) _) as [d2 [|]] eqn:Hd2; [|by intros ?%elem_of_nil].
  case_bool_decide as Hcancel; [by intros ?%elem_of_nil|]. case_bool_decide as Hsilent; [by intros ?%elem_of_nil|]. cbn [orb].
  unfold deliver_and_record. destruct (deliver_result w d2 (Claim.task claim) (content_of r)) as [sent res] eqn:Hdel. intros Hm.
  pose proof (delivered_checked d2 (Claim.task claim) (content_of r) m) as Hc. rewrite Hdel in Hc. cbn [fst] in Hc.
  destruct (Hc Hm) as (-> & Hchk & Hrel). unfold release_to_gateway in Hrel.
  destruct (rr_allowed _); [|done]. apply released_free_of in Hrel as [_ Hfree]; [|done].
  repeat (split; [done|]). by exists d2.
Qed.
End runs.

(** * Targets that are never reached *)

(** A task whose origin names no actor and no address, as the one that a chat command
    stores for the home target of its platform, is never delivered to: the policy asks
    for an actor on both sides and the address stands in for a missing actor. *)
Theorem home_target_never_delivered w d task content :
  target_type (ScheduledTask.delivery_target task) = DeliveryTargetType.ORIGIN ->
  ScheduledTask.origin task = [("platform", JStr "feishu"); ("target", JStr "home")] ->
  deliver_result w d task content
  = match release_to_gateway w content with
    | None => ([], failed "information_flow_denied")
    | Some _ => ([], failed "gateway_denied: outbound delivery requires actor on both sides")
    end.
Proof.
  intros Ht Ho. unfold deliver_result. rewrite Ht. destruct (release_to_gateway w content); [|done].
  replace (evaluate_gateway_outbound task)
    with (mkDeliveryDecision PolicyOutcome.DENY "outbound delivery requires actor on both sides"
            (conversation_parts (target_session_key (gateway_outbound_request task)))).
  { done. }
  unfold evaluate_gateway_outbound, evaluate_outbound.
  by replace (origin_actor_id (gateway_outbound_request task)) with JNull by (unfold gateway_outbound_request; by rewrite Ho).
Qed.

(** * Witnesses *)

Definition chat_target : DeliveryTarget :=
  feishu_target [("conversation_id", JStr "conv"); ("platform", JStr "feishu"); ("receive_id", JStr "oc_1");
                 ("receive_id_type", JStr "chat_id")].
Definition run_task (target : DeliveryTarget) (origin : dict) : ScheduledTask.t :=
  ScheduledTask.mk "t" "n" "sum up" "* * * * *" "UTC" "s" target 5 true ScheduledTaskStatus.ACTIVE origin
    (mkScheduledExecutionPolicy "safe_only" false []) (Some 900) (Some "o") (Some "c") None None None None 0 (Some 0) (Some 0).
Definition run_db (target : DeliveryTarget) (origin : dict) : database :=
  empty_database
    <| db_gateway := mkGdb [Conversation.mk "conv" "feishu" "oc_1" "" "" None 0 0 (Some "chat_id")] [] [] [] |>
    <| db_schedules := mkSdb [run_task target origin] [] |>.
Definition the_run (target : DeliveryTarget) (origin : dict) : Claim.t :=
  Claim.mk (run_task target origin) "c" "o" 900 5 65 CLAIM_REASON_DUE.
Definition the_wiring : run_wiring :=
  mkRunWiring 5 900 3600 600 (from_settings (mkInformationFlowConfig false true true) "sk-live-42")
    (Some (fun _ => None)) (fun _ => "connected") true.
Definition the_input : claim_input :=
  mkClaimInput (fun _ => inl (mkChatAnswer "stop" "key=sk-live-42!")) (fun d => d) (fun d => d) "e" None 20.

Lemma claimed_run_ends_witness :
  let '(d', _, r) := execute_claim the_wiring (run_db chat_target []) (the_run chat_target []) 10 the_input in
  r = Return (mkRunReport "t" "succeeded" None (Some "success"))
  /\ (ended (db_schedules d') (the_run chat_target []) "e" ExecutionStatus.SUCCEEDED 10
      \/ exists at_end, at_delivery the_wiring (run_db chat_target []) (the_run chat_target []) 10 the_input at_end
           /\ ended (db_schedules at_end) (the_run chat_target []) "e" ExecutionStatus.SUCCEEDED 10
           /\ progress (db_schedules d') = progress (db_schedules at_end)).
Proof.
  pose proof (claimed_run_ends the_wiring (run_db chat_target []) (the_run chat_target []) 10 the_input (run_task chat_target [])
    ltac:(by left) ltac:(by vm_compute) ltac:(apply not_elem_of_nil)) as H.
  destruct (execute_claim _ _ _ _ _) as [[d' sent] r] eqn:He.
  assert (Hr : r = Return (mkRunReport "t" "succeeded" None (Some "success"))).
  { transitivity (execute_claim the_wiring (run_db chat_target []) (the_run chat_target []) 10 the_input).2; [by rewrite He|by vm_compute]. }
  clear He. split; [exact Hr|]. destruct H as (rep & -> & _ & [[Hs _]|(st & Hst & Hv & Hend)]); injection Hr as ->.
  - discriminate Hs.
  - destruct st; try discriminate Hv. exact Hend.
Defined.

Lemma schedule_sends_guarded_witness :
  let '(_, sent, _) := execute_claim the_wiring (run_db chat_target []) (the_run chat_target []) 10 the_input in
  sent = [mkSent (JStr "oc_1") "key=[REDACTED]!" (JStr "chat_id")]
  /\ free_of (if_secrets (information_flow the_wiring)) "key=[REDACTED]!".
Proof.
  assert (Ha : all_apart (if_secrets (information_flow the_wiring))) by apply key_apart.
  pose proof (schedule_sends_guarded the_wiring (run_db chat_target []) (the_run chat_target []) 10 the_input
    (mkSent (JStr "oc_1") "key=[REDACTED]!" (JStr "chat_id")) Ha) as H.
  destruct (execute_claim _ _ _ _ _) as [[d' sent] r] eqn:He.
  assert (Hs : sent = [mkSent (JStr "oc_1") "key=[REDACTED]!" (JStr "chat_id")]).
  { transitivity (execute_claim the_wiring (run_db chat_target []) (the_run chat_target []) 10 the_input).1.2; [by rewrite He|by vm_compute]. }
  clear He. destruct H as (_ & Hf & _); [rewrite Hs; by left|]. split; [exact Hs|exact Hf].
Defined.

Lemma home_target_never_delivered_witness :
  let home := [("platform", JStr "feishu"); ("target", JStr "home")] in
  deliver_result the_wiring (run_db (origin_target home) home) (run_task (origin_target home) home) "done"
  = ([], failed "gateway_denied: outbound delivery requires actor on both sides").
Proof.
  intros home. etransitivity; [by apply home_target_never_delivered|]. by vm_compute.
Defined.
