(* ===== verification/ScheduleService.v ===== *)
(** The schedule service (app/application/schedule_service.py) on the database: the
    creation and edits of scheduled tasks, their import, pauses and deletion, and what
    happens to the tasks of a deleted session.

    The cron calculator is an argument, as are the identifiers drawn.  None of the calls
    between the reads and the writes of an operation suspends, so each is one step of
    the event loop. *)
From S2P Require Import Prelude Json Repr Unicode Schedules GatewayStore SessionStore ScheduleDelivery ScheduleRun.
From stdpp Require Import gmap.
Open Scope Z_scope.

(** The calculator: [validate] and [next_after] may raise. *)
Record calculator := mkCalculator {
  validate_cron : string -> string -> result unit;
  next_after : string -> Z -> string -> result Z
}.

Record ScheduledTaskCreateInput := mkCreateInput {
  c_name : text;
  c_prompt : string;
  c_cron : string;
  c_timezone : string;
  c_delivery_target : string;
  c_origin : dict;
  c_session_id : option string;
  c_allowed_tools : list string;
  c_conversation_id : option string
}.

Record ScheduledTaskUpdateInput := mkUpdateInput {
  u_name : option string;
  u_prompt : option string;
  u_cron : option string;
  u_timezone : option string;
  u_delivery_target : option string;
  u_origin : option dict;
  u_session_id : option string;
  u_allowed_tools : option (list string);
  u_conversation_id : option string
}.

(** The keyword arguments of an import. *)
Record ImportInput := mkImportInput {
  i_name : text;
  i_prompt : string;
  i_cron : string;
  i_timezone : string;
  i_delivery_target : string;
  i_origin : dict;
  i_delivery_context : dict;
  i_execution_policy : ScheduledExecutionPolicy;
  i_enabled : bool;
  i_status : ScheduledTaskStatus.t;
  i_evidence : option (gmap string (gset string))
}.

Definition default_policy (allowed : list string) : ScheduledExecutionPolicy :=
  mkScheduledExecutionPolicy "safe_only" false allowed.

(** [_normalize_runnability] *)
Definition normalize_runnability (enabled : bool) (status : ScheduledTaskStatus.t) : bool * ScheduledTaskStatus.t :=
  if enabled && bool_decide (status = ScheduledTaskStatus.ACTIVE) then (true, ScheduledTaskStatus.ACTIVE)
  else (false, ScheduledTaskStatus.PAUSED).

Section service.
Context (calc : calculator) (platform_status : Platform.t -> string) (has_delivery : bool).

(** * Checks *)

(** [_validate]: what the calculator raises is a validation error, and so is a prompt
    the scanner blocks. *)
Definition validate (expression timezone prompt : string) : result unit :=
  match validate_cron calc expression timezone with
  | Raise _ => Raise ScheduleValidationError
  | Return _ => match scan prompt with Some _ => Raise ScheduleValidationError | None => Return tt end
  end.

(** [_delivery_target] *)
Definition delivery_target_of (target : string) (origin : dict) : result DeliveryTarget :=
  match DeliveryTargetType.of_value target with
  | None | Some DeliveryTargetType.FEISHU => Raise ScheduleDeliveryContextError
  | Some DeliveryTargetType.ORIGIN =>
      if negb (has_text origin "target" "home")
         && (negb (truthy_json (dict_get origin "receive_id")) || negb (truthy_json (dict_get origin "receive_id_type")))
      then Raise ScheduleDeliveryContextError
      else Return (origin_target origin)
  | Some t => Return (mkDeliveryTarget t [])
  end.

Definition blank (s : string) : bool := negb (truthy_str (strip s)).

(** [_resolve_delivery_target] *)
Definition resolve_delivery_target (d : database) (target : string) (origin : dict) (conversation_id : option string)
    (task : option ScheduledTask.t) : result DeliveryTarget :=
  match DeliveryTargetType.of_value target with
  | None => Raise ScheduleDeliveryContextError
  | Some DeliveryTargetType.FEISHU =>
      match conversation_id with
      | Some c =>
          if blank c || negb has_delivery then Raise ScheduleDeliveryContextError
          else resolve_selection platform_status (db_gateway d) (db_schedules d) c
      | None =>
          match task with
          | Some t => if bool_decide (target_type (ScheduledTask.delivery_target t) = DeliveryTargetType.FEISHU)
                      then Return (ScheduledTask.delivery_target t) else Raise ScheduleDeliveryContextError
          | None => Raise ScheduleDeliveryContextError
          end
      end
  | Some DeliveryTargetType.ORIGIN =>
      match task with
      | Some t => if has_text (ScheduledTask.origin t) "platform" "feishu" then delivery_target_of target origin
                  else Raise ScheduleDeliveryContextError
      | None => delivery_target_of target origin
      end
  | Some _ => delivery_target_of target origin
  end.

(** [_validate_delivery_selection] *)
Definition validate_delivery_selection (target conversation_id : option string) : result unit :=
  match conversation_id with
  | None => Return tt
  | Some c => if blank c then Raise ScheduleDeliveryContextError
              else if negb (bool_decide (target = Some "feishu")) then Raise ScheduleDeliveryContextError
              else Return tt
  end.

(** * Creation and edits

    [ids] are the identifiers drawn: of a new session and of the task. *)

Definition schedule_session (d : database) (session_id : string) (now : Z) : database :=
  (create_session d ((Session.fresh session_id now) <| Session.source := SessionSource.value SessionSource.SCHEDULE |>)).1.

Definition get (d : database) (task_id : string) : result ScheduledTask.t :=
  match get_task (db_schedules d) task_id with Some t => Return t | None => Raise ScheduledTaskNotFoundError end.

Definition name_or (name : text) (fallback : string) : string :=
  match strip_text name with [] => fallback | t => utf8_encode t end.

(** The row of a new task. *)
Definition new_task (id name prompt expression timezone session_id : string) (origin : dict) (target : DeliveryTarget)
    (next_run_at : Z) (enabled : bool) (status : ScheduledTaskStatus.t) (policy : ScheduledExecutionPolicy) (now : Z)
    : ScheduledTask.t :=
  ScheduledTask.mk id name prompt expression timezone session_id target next_run_at enabled status origin policy
    None None None None None None None 0 (Some now) (Some now).

Definition needs_session (session_id : option string) (target : DeliveryTarget) : bool :=
  bool_decide (session_id = None) || bool_decide (target_type target ∈ [DeliveryTargetType.ORIGIN; DeliveryTargetType.FEISHU]).

Definition create (d : database) (r : ScheduledTaskCreateInput) (now : Z) (ids : string * string)
    : database * result ScheduledTask.t :=
  match (let? _ := validate_delivery_selection (Some (c_delivery_target r)) (c_conversation_id r) in
         let? _ := validate (c_cron r) (c_timezone r) (c_prompt r) in
         resolve_delivery_target d (c_delivery_target r) (c_origin r) (c_conversation_id r) None) with
  | Raise e => (d, Raise e)
  | Return target =>
      let '(d, session_id) :=
        if needs_session (c_session_id r) target then (schedule_session d ids.1 now, ids.1)
        else (d, default ids.1 (c_session_id r)) in
      match next_after calc (c_cron r) now (c_timezone r) with
      | Raise e => (d, Raise e)
      | Return next_run =>
          on_schedules d (create_row (db_schedules d)
            (new_task ids.2 (name_or (c_name r) "Scheduled Task") (c_prompt r) (c_cron r) (c_timezone r) session_id
               (c_origin r) target next_run true ScheduledTaskStatus.ACTIVE (default_policy (c_allowed_tools r)) now) now)
      end
  end.

Definition update (d : database) (task_id : string) (r : ScheduledTaskUpdateInput) (now : Z)
    : database * result ScheduledTask.t :=
  match (let? _ := validate_delivery_selection (u_delivery_target r) (u_conversation_id r) in
         let? task := get d task_id in
         let expression := str_or (u_cron r) (ScheduledTask.schedule task) in
         let timezone := str_or (u_timezone r) (ScheduledTask.timezone task) in
         let prompt := default (ScheduledTask.prompt task) (u_prompt r) in
         let? _ := validate expression timezone prompt in
         let? target := match u_delivery_target r with
                        | None => Return (ScheduledTask.delivery_target task)
                        | Some t => resolve_delivery_target d t (ScheduledTask.origin task) (u_conversation_id r) (Some task)
                        end in
         let? next_run := next_after calc expression now timezone in
         let old := ScheduledTask.execution_policy task in
         Return (task
           <| ScheduledTask.name := default (ScheduledTask.name task) (u_name r) |>
           <| ScheduledTask.prompt := prompt |> <| ScheduledTask.schedule := expression |>
           <| ScheduledTask.timezone := timezone |>
           <| ScheduledTask.origin := default (ScheduledTask.origin task) (u_origin r) |>
           <| ScheduledTask.delivery_target := target |>
           <| ScheduledTask.session_id := default (ScheduledTask.session_id task) (u_session_id r) |>
           <| ScheduledTask.next_run_at := next_run |>
           <| ScheduledTask.execution_policy :=
                match u_allowed_tools r with
                | Some tools => mkScheduledExecutionPolicy (tool_exposure_policy old) (allow_confirm_tools old) tools
                | None => old
                end |>
           <| ScheduledTask.updated_at := Some now |>)) with
  | Raise e => (d, Raise e)
  | Return updated => on_schedules d (update_row (db_schedules d) updated now)
  end.

Definition pause (d : database) (task_id : string) (now : Z) : database * result ScheduledTask.t :=
  match get d task_id with
  | Raise e => (d, Raise e)
  | Return _ => on_schedules d (update_status (db_schedules d) task_id ScheduledTaskStatus.PAUSED false now)
  end.

Definition resume (d : database) (task_id : string) (now : Z) : database * result ScheduledTask.t :=
  match (let? task := get d task_id in
         let? next_run := next_after calc (ScheduledTask.schedule task) now (ScheduledTask.timezone task) in
         Return (task <| ScheduledTask.next_run_at := next_run |> <| ScheduledTask.updated_at := Some now |>)) with
  | Raise e => (d, Raise e)
  | Return refreshed =>
      match on_schedules d (update_row (db_schedules d) refreshed now) with
      | (d, Raise e) => (d, Raise e)
      | (d, Return _) => on_schedules d (update_status (db_schedules d) task_id ScheduledTaskStatus.ACTIVE true now)
      end
  end.

Definition delete (d : database) (task_id : string) : database * result bool :=
  match get d task_id with
  | Raise e => (d, Raise e)
  | Return _ => let '(d, gone) := on_schedules d (delete_row (db_schedules d) task_id) in (d, Return gone)
  end.

(** * Import *)

(** [_import_delivery_target] *)
Definition import_delivery_target (d : database) (r : ImportInput) : result DeliveryTarget :=
  if negb (bool_decide (i_delivery_target r = "feishu")) then delivery_target_of (i_delivery_target r) (i_delivery_context r)
  else if negb has_delivery then Raise (ScheduleDeliveryError "delivery_resolver_unavailable")
  else rebind_import (db_gateway d) (db_schedules d) (i_delivery_context r) (i_evidence r).

Definition import_checks (d : database) (r : ImportInput) : result DeliveryTarget :=
  let? _ := validate (i_cron r) (i_timezone r) (i_prompt r) in import_delivery_target d r.

Definition import_create (d : database) (r : ImportInput) (now : Z) (ids : string * string)
    : database * result ScheduledTask.t :=
  match import_checks d r with
  | Raise e => (d, Raise e)
  | Return target =>
      let '(enabled, status) := normalize_runnability (i_enabled r) (i_status r) in
      let d := schedule_session d ids.1 now in
      match next_after calc (i_cron r) now (i_timezone r) with
      | Raise e => (d, Raise e)
      | Return next_run =>
          on_schedules d (create_row (db_schedules d)
            (new_task ids.2 (name_or (i_name r) "Scheduled Task") (i_prompt r) (i_cron r) (i_timezone r) ids.1
               (i_origin r) target next_run enabled status (i_execution_policy r) now) now)
      end
  end.

Definition lease_held (now : Z) (task : ScheduledTask.t) : bool :=
  match ScheduledTask.lease_until task with Some until => now <? until | None => false end.

Definition import_update (d : database) (task_id : string) (r : ImportInput) (now : Z)
    : database * result ScheduledTask.t :=
  match (let? task := get d task_id in
         if lease_held now task then Raise ScheduledTaskLeaseHeldError
         else
           let? target := import_checks d r in
           let '(enabled, status) := normalize_runnability (i_enabled r) (i_status r) in
           let reschedule := negb (bool_decide (i_cron r = ScheduledTask.schedule task))
                             || negb (bool_decide (i_timezone r = ScheduledTask.timezone task))
                             || negb (bool_decide (enabled = ScheduledTask.enabled task)) in
           let? next_run := (if reschedule then next_after calc (i_cron r) now (i_timezone r)
                             else Return (ScheduledTask.next_run_at task)) in
           Return (task
             <| ScheduledTask.name := name_or (i_name r) (ScheduledTask.name task) |>
             <| ScheduledTask.prompt := i_prompt r |> <| ScheduledTask.schedule := i_cron r |>
             <| ScheduledTask.timezone := i_timezone r |> <| ScheduledTask.origin := i_origin r |>
             <| ScheduledTask.delivery_target := target |>
             <| ScheduledTask.execution_policy := i_execution_policy r |>
             <| ScheduledTask.enabled := enabled |> <| ScheduledTask.status := status |>
             <| ScheduledTask.next_run_at := next_run |> <| ScheduledTask.updated_at := Some now |>)) with
  | Raise e => (d, Raise e)
  | Return updated => on_schedules d (update_row (db_schedules d) updated now)
  end.

(** * Sessions that go *)

Definition handle_session_deleted (d : database) (session_id : string) (now : Z) : database * nat :=
  on_schedules d (mark_session_missing (db_schedules d) session_id now).

(** A new session for each task, which becomes active again; [ids] are the sessions'. *)
Fixpoint recover_tasks (d : database) (tasks : list ScheduledTask.t) (ids : list string) (now : Z) : database * result unit :=
  match tasks, ids with
  | task :: tasks, session_id :: ids =>
      let d := schedule_session d session_id now in
      match on_schedules d (update_row (db_schedules d)
              (task <| ScheduledTask.session_id := session_id |> <| ScheduledTask.enabled := true |>
                    <| ScheduledTask.status := ScheduledTaskStatus.ACTIVE |>) now) with
      | (d, Raise e) => (d, Raise e)
      | (d, Return _) => recover_tasks d tasks ids now
      end
  | _, _ => (d, Return tt)
  end.
Definition recover_missing_origin_sessions (d : database) (ids : list string) (now : Z) : database * result unit :=
  recover_tasks d (list_recoverable_origin_tasks (db_schedules d)) ids now.

(** * Runs on request, and histories *)

(** [run_now], wired to the run service; the sessions recovered draw [session_ids], and
    those recovered again by the run service [again]. *)
Definition service_run_now (w : run_wiring) (d : database) (task_id : string) (now : Z) (session_ids again : list string)
    (ids : string * string) : database * result Claim.t :=
  match recover_missing_origin_sessions d session_ids now with
  | (d, Raise e) => (d, Raise e)
  | (d, Return _) =>
      match get d task_id with
      | Raise e => (d, Raise e)
      | Return task =>
          if bool_decide (ScheduledTask.status task = ScheduledTaskStatus.PAUSED) || negb (ScheduledTask.enabled task)
             || bool_decide (ScheduledTask.status task = ScheduledTaskStatus.SESSION_MISSING)
          then (d, Raise ScheduledTaskNotRunnableError)
          else match run_now w (fun d => recover_missing_origin_sessions d again now) d task_id now ids with
               | (d, Raise e) => (d, Raise e)
               | (d, Return None) => (d, Raise ScheduledTaskNotRunnableError)
               | (d, Return (Some claim)) => (d, Return claim)
               end
      end
  end.

Definition service_list_executions (d : database) (task_id : string) (limit : Z) : result (list Execution.t) :=
  let? _ := get d task_id in
  if (limit <? 1) || (50 <? limit) then Raise ScheduleValidationError
  else Return (list_executions (db_schedules d) task_id limit).

Definition service_list_all_executions (d : database) (limit : Z) (task_id : option string) : result (list Execution.t) :=
  if (limit <? 1) || (200 <? limit) then Raise ScheduleValidationError
  else
    let normalized := match task_id with Some i => if truthy_str i then Some i else None | None => None end in
    let? _ := match normalized with Some i => let? _ := get d i in Return tt | None => Return tt end in
    Return (list_all_executions (db_schedules d) limit normalized).
End service.
