(* ===== verification/ScheduleServiceProps.v ===== *)
(** The schedule service keeps its tasks valid, imports disturb no run, and what happens
    to the tasks of a deleted session. *)
From S2P Require Import Prelude Json Repr Unicode Schedules ScheduleProps ScheduleClaims GatewayStore SessionStore SessionProps ScheduleDelivery ScheduleRun ScheduleService.
From stdpp Require Import gmap.
Open Scope Z_scope.

Section service.
Context (calc : calculator) (platform_status : Platform.t -> string) (has_delivery : bool).

(** * Valid tasks *)

(** A task is enabled exactly when it is active, its expression, time zone and prompt
    pass the checks, and its next run is one the calculator gave for them. *)
Record task_valid (t : ScheduledTask.t) : Prop := {
  valid_enabled : ScheduledTask.enabled t = true <-> ScheduledTask.status t = ScheduledTaskStatus.ACTIVE;
  valid_texts : validate calc (ScheduledTask.schedule t) (ScheduledTask.timezone t) (ScheduledTask.prompt t) = Return tt;
  valid_next : exists base, next_after calc (ScheduledTask.schedule t) base (ScheduledTask.timezone t)
                            = Return (ScheduledTask.next_run_at t)
}.

Definition schedules_valid (d : sdb) : Prop := sdb_ok d /\ forall t, t ∈ scheduled_tasks d -> task_valid t.

(** The writes that keep it. *)
Definition lawful (o : sop) : Prop :=
  match o with
  | SCreate t _ | SUpdate t _ => task_valid t
  | SUpdateStatus _ status on _ => on = true <-> status = ScheduledTaskStatus.ACTIVE
  | _ => True
  end.

Lemma update_tasks_valid cond set d :
  (forall t, t ∈ scheduled_tasks d -> cond t = true -> task_valid t -> task_valid (set t)) ->
  (forall t, t ∈ scheduled_tasks d -> task_valid t) ->
  forall t, t ∈ scheduled_tasks (update_tasks cond set d) -> task_valid t.
Proof. intros Hset Hd t (x & -> & Hx)%list_elem_of_fmap. case_match; [apply Hset|]; auto. Qed.

(** Two rows of a task keep its time table. *)
Definition same_times (t x : ScheduledTask.t) : Prop :=
  ScheduledTask.id x = ScheduledTask.id t ->
  ScheduledTask.schedule x = ScheduledTask.schedule t /\ ScheduledTask.timezone x = ScheduledTask.timezone t.

Lemma claim_loop_valid d rows now lease ids :
  (forall t x, t ∈ rows -> x ∈ scheduled_tasks d -> same_times t x) ->
  (forall t, t ∈ scheduled_tasks d -> task_valid t) ->
  forall t, t ∈ scheduled_tasks (claim_loop (next_after calc) d rows now lease ids).1 -> task_valid t.
Proof.
  revert d ids. induction rows as [|r rows IH]; intros d [|i ids] Hrows Hd; cbn [claim_loop]; try done.
  destruct (next_after calc _ _ _) as [n|] eqn:Hn; [|done]. cbn [fst]. apply IH.
  - intros t x Ht (y & -> & Hy)%list_elem_of_fmap. case_match; refine (Hrows t y _ Hy); by right.
  - apply update_tasks_valid; [|done]. intros t Ht [[[Hid _]%andb_true_iff _]%andb_true_iff _]%andb_true_iff [H1 H2 H3].
    apply bool_decide_eq_true in Hid. destruct (Hrows r t) as [Hs Hz]; [by left|done|done|].
    split; [exact H1|exact H2|]. exists now. change (next_after calc (ScheduledTask.schedule t) now (ScheduledTask.timezone t) = Return n).
    by rewrite Hs, Hz.
Qed.

Lemma lawful_valid d o : lawful o -> schedules_valid d -> schedules_valid (exec_sop (next_after calc) d o).
Proof.
  intros Ho [Hok Hd]. split; [by apply exec_sop_ok|]. destruct o; cbn [exec_sop lawful] in *.
  - unfold create_row. case_match; [done|]. cbn. intros t [Ht| ->%list_elem_of_singleton]%elem_of_app; [auto|].
    by destruct Ho as [H1 H2 H3].
  - apply update_tasks_valid; [|done]. intros t _ _ _. by destruct Ho as [H1 H2 H3].
  - apply update_tasks_valid; [|done]. intros t _ _ [H1 H2 H3]. by split.
  - intros t [Ht _]%list_elem_of_In%filter_In. apply Hd. by apply list_elem_of_In.
  - unfold claim_due_tasks. pose proof (claim_loop_valid d (due_rows d now limit) now lease ids) as H.
    destruct (claim_loop _ _ _ _ _ _) as [d' [claims|e]]; [|done]. cbn in *. apply H; [|done].
    intros t x Ht Hx Hid. apply due_rows_elem in Ht as [Ht _]. by rewrite (row_unique d x t Hok Hx Ht Hid).
  - unfold claim_task_for_run_now. destruct (List.find _ _); [|done]. apply update_tasks_valid; [|done]. by intros t' _ _ [].
  - unfold record_execution_started. by case_match.
  - unfold record_execution_completed. case_match; [|done]. apply update_tasks_valid; [|done]. by intros t' _ _ [].
  - unfold record_delivery_result. case_match; [|done]. apply update_tasks_valid; [|done]. by intros t' _ _ [].
  - apply update_tasks_valid; [|done]. by intros t' _ _ [].
  - apply update_tasks_valid; [|done]. by intros t' _ _ [].
  - apply update_tasks_valid; [|done]. by intros t' _ _ [].
  - apply update_tasks_valid; [|done]. intros t' _ _ [H1 H2 H3]. by split.
  - intros t (x & -> & [H1 H2 H3]%Hd)%list_elem_of_fmap. unfold migrate_row.
    destruct (normalize_origin_platform (ScheduledTask.origin x)) as [o b].
    destruct (normalize_origin_platform _) as [c b']. by case_match.
Qed.

(** * Every operation of the service *)

Inductive svc_op : Type :=
  | VCreate (r : ScheduledTaskCreateInput) (now : Z) (ids : string * string)
  | VUpdate (task_id : string) (r : ScheduledTaskUpdateInput) (now : Z)
  | VPause (task_id : string) (now : Z)
  | VResume (task_id : string) (now : Z)
  | VDelete (task_id : string)
  | VImportCreate (r : ImportInput) (now : Z) (ids : string * string)
  | VImportUpdate (task_id : string) (r : ImportInput) (now : Z)
  | VSessionDeleted (session_id : string) (now : Z)
  | VRecover (ids : list string) (now : Z)
  | VRegistry (o : sop).

Definition exec_svc (d : database) (o : svc_op) : database :=
  match o with
  | VCreate r now ids => (create calc platform_status has_delivery d r now ids).1
  | VUpdate id r now => (update calc platform_status has_delivery d id r now).1
  | VPause id now => (pause d id now).1
  | VResume id now => (resume calc d id now).1
  | VDelete id => (ScheduleService.delete d id).1
  | VImportCreate r now ids => (import_create calc has_delivery d r now ids).1
  | VImportUpdate id r now => (import_update calc has_delivery d id r now).1
  | VSessionDeleted sid now => (handle_session_deleted d sid now).1
  | VRecover ids now => (recover_missing_origin_sessions d ids now).1
  | VRegistry o => d <| db_schedules := exec_sop (next_after calc) (db_schedules d) o |>
  end.
Definition exec_svcs (d : database) (ops : list svc_op) : database := fold_left exec_svc ops d.

(** What claims, executions, marks and migrations write themselves; rows are created and
    rewritten by the service only. *)
Definition registry_write (o : svc_op) : Prop :=
  match o with VRegistry (SCreate _ _ | SUpdate _ _ | SUpdateStatus _ _ _ _) => False | _ => True end.

Ltac settle := cbn -[on_schedules update_row update_status create_row].

Notation valid d := (schedules_valid (db_schedules d)).
Notation exec d o := (exec_sop (next_after calc) (db_schedules d) o).

Lemma session_valid d i now : valid d -> valid (schedule_session d i now).
Proof. unfold schedule_session, create_session. by case_match. Qed.

Lemma get_valid d id t : valid d -> get d id = Return t -> t ∈ scheduled_tasks (db_schedules d) /\ task_valid t.
Proof.
  intros [_ Hd]. unfold get, get_task. destruct (List.find _ _) as [x|] eqn:Hf; [|done]. intros [= <-].
  apply find_some in Hf as [Hin%list_elem_of_In _]. auto.
Qed.

Lemma get_not_deleted d id t : get d id = Return t -> ScheduledTask.id t = id /\ ScheduledTask.status t <> ScheduledTaskStatus.DELETED.
Proof.
  unfold get, get_task. destruct (List.find _ _) as [x|] eqn:Hf; [|done]. intros [= <-].
  apply find_some in Hf as [_ [Hi%bool_decide_eq_true Hs%negb_true_iff%bool_decide_eq_false]%andb_true_iff]. done.
Qed.

Lemma normalize_valid enabled status e s :
  normalize_runnability enabled status = (e, s) -> (e = true <-> s = ScheduledTaskStatus.ACTIVE).
Proof. unfold normalize_runnability. by case_match; intros [= <- <-]. Qed.

Lemma validated d r : validate calc (i_cron r) (i_timezone r) (i_prompt r) = Return d ->
  validate calc (i_cron r) (i_timezone r) (i_prompt r) = Return tt.
Proof. by destruct d. Qed.

Lemma update_row_valid d t now : task_valid t -> valid d -> valid (on_schedules d (update_row (db_schedules d) t now)).1.
Proof. intros Ht Hd. exact (lawful_valid _ (SUpdate t now) Ht Hd). Qed.
Lemma create_row_valid d t now : task_valid t -> valid d -> valid (on_schedules d (create_row (db_schedules d) t now)).1.
Proof. intros Ht Hd. exact (lawful_valid _ (SCreate t now) Ht Hd). Qed.

(** [o] on the schedules, and nothing else. *)
Lemma on_sop_valid d o : lawful o -> valid d -> valid (d <| db_schedules := exec d o |>).
Proof. intros Ho Hd. exact (lawful_valid _ _ Ho Hd). Qed.

Lemma recover_tasks_valid tasks ids now d :
  (forall t, t ∈ tasks -> task_valid t) -> valid d -> valid (recover_tasks d tasks ids now).1.
Proof.
  revert d ids. induction tasks as [|t tasks IH]; intros d [|i ids] Ht Hd; cbn [recover_tasks]; try done.
  assert (H : valid (on_schedules (schedule_session d i now) (update_row (db_schedules (schedule_session d i now))
     (t <| ScheduledTask.session_id := i |> <| ScheduledTask.enabled := true |> <| ScheduledTask.status := ScheduledTaskStatus.ACTIVE |>) now)).1).
  { apply update_row_valid; [|by apply session_valid].
    destruct (Ht t) as [H1 H2 H3]; [by left|]. by split. }
  destruct (on_schedules _ _) as [d' [u|e]]; [|done]. apply IH; [|done]. intros x Hx. apply Ht. by right.
Qed.

Lemma exec_svc_valid d o : registry_write o -> valid d -> valid (exec_svc d o).
Proof.
  intros Ho Hd. destruct o as [r now ids|id r now|id now|id now|id|r now ids|id r now|sid now|ids now|o]; cbn [exec_svc].
  - unfold create. destruct (validate_delivery_selection _ _); [|done]. cbn.
    destruct (validate calc _ _ _) as [[]|] eqn:Hv; [|done]. settle.
    destruct (resolve_delivery_target _ _ _ _ _ _ _) as [target|]; [|done].
    set (p := if needs_session _ _ then _ else _). assert (Hp : valid p.1) by (unfold p; case_match; [by apply session_valid|done]).
    destruct p as [d1 sid]. destruct (next_after calc _ _ _) as [n|] eqn:Hn; [|done].
    apply create_row_valid; [|done]. split; [done|exact Hv|by exists now].
  - unfold update. destruct (validate_delivery_selection _ _); [|done]. cbn.
    destruct (get d id) as [t|] eqn:Hg; [|done]. settle.
    destruct (validate calc _ _ _) as [[]|] eqn:Hv; [|done]. settle.
    destruct (match u_delivery_target r with Some _ => _ | None => _ end) as [target|]; [|done]. settle.
    destruct (next_after calc _ _ _) as [n|] eqn:Hn; [|done]. settle.
    destruct (get_valid _ _ _ Hd Hg) as [_ [H1 H2 H3]].
    apply update_row_valid; [|done]. split; [exact H1|exact Hv|by exists now].
  - unfold pause. destruct (get d id); [|done]. by apply (on_sop_valid d (SUpdateStatus _ _ _ now)).
  - unfold resume. destruct (get d id) as [t|] eqn:Hg; [|done]. settle.
    destruct (next_after calc _ _ _) as [n|] eqn:Hn; [|done]. settle.
    destruct (get_valid _ _ _ Hd Hg) as [_ [H1 H2 H3]].
    match goal with |- context [update_row _ ?x _] => set (t' := x) end.
    assert (H : valid (on_schedules d (update_row (db_schedules d) t' now)).1).
    { apply update_row_valid; [|done]. split; [exact H1|exact H2|by exists now]. }
    destruct (on_schedules d _) as [d' [u|e]]; [|done]. by apply (on_sop_valid d' (SUpdateStatus _ _ _ now)).
  - unfold ScheduleService.delete. destruct (get d id); [|done]. by apply (on_sop_valid d (SDelete id)).
  - unfold import_create, import_checks. destruct (validate calc _ _ _) as [[]|] eqn:Hv; [|done]. settle.
    destruct (import_delivery_target _ _ _) as [target|]; [|done].
    destruct (normalize_runnability _ _) as [e s] eqn:Hr. destruct (next_after calc _ _ _) as [n|] eqn:Hn; [|by apply session_valid].
    apply create_row_valid; [|by apply session_valid].
    split; [by apply normalize_valid with (i_enabled r) (i_status r)|exact Hv|by exists now].
  - unfold import_update. destruct (get d id) as [t|] eqn:Hg; [|done]. settle.
    destruct (lease_held _ _); [done|].
    unfold import_checks. destruct (validate calc _ _ _) as [[]|] eqn:Hv; [|done]. settle.
    destruct (import_delivery_target _ _ _) as [target|]; [|done]. settle.
    destruct (normalize_runnability _ _) as [e s] eqn:Hr. destruct (get_valid _ _ _ Hd Hg) as [_ [H1 H2 H3]].
    match goal with |- context [if ?b then next_after calc _ _ _ else _] => destruct b eqn:Hb end.
    + destruct (next_after calc _ _ _) as [n|] eqn:Hn; [|done]. settle. apply update_row_valid; [|done].
      split; [by apply normalize_valid with (i_enabled r) (i_status r)|exact Hv|by exists now].
    + settle. rewrite !orb_false_iff, !negb_false_iff, !bool_decide_eq_true in Hb. destruct Hb as [[Hc Hz] _].
      apply update_row_valid; [|done].
      split; [by apply normalize_valid with (i_enabled r) (i_status r)|exact Hv|]. cbn. by rewrite Hc, Hz.
  - by apply (on_sop_valid d (SMissing sid now)).
  - apply recover_tasks_valid; [|done]. intros t Ht. apply Hd. unfold list_recoverable_origin_tasks in Ht.
    rewrite order_by_perm in Ht. apply list_elem_of_In, filter_In in Ht as [Ht _]. by apply list_elem_of_In.
  - apply on_sop_valid; [|done]. by destruct o.
Qed.

(** Whatever is created, edited, imported, paused, resumed, claimed, run, lost with its
    session and recovered, in whatever order and with whatever failures in between: a
    task is enabled exactly when it is active, what is stored passes the checks of
    creation, and the next run is one the calculator gave for the stored expression and
    time zone, never for those of before an edit. *)
Theorem schedules_stay_valid d ops :
  schedules_valid (db_schedules d) -> Forall registry_write ops ->
  schedules_valid (db_schedules (exec_svcs d ops)).
Proof.
  intros Hd Hops. revert d Hd. induction Hops as [|o ops Ho _ IH]; intros d Hd; [exact Hd|].
  cbn. apply IH. by apply exec_svc_valid.
Qed.

(** * Imports *)

Lemma find_updated cond set keep (l : list ScheduledTask.t) t :
  List.find (fun x => cond x && keep x) l = Some t -> (forall x, cond x = true -> cond (set x) = true /\ keep (set x) = true) ->
  exists x, x ∈ l /\ cond x = true /\ List.find (fun x => cond x && keep x) (map (fun x => if cond x then set x else x) l) = Some (set x).
Proof.
  intros Hf Hset. induction l as [|x l IH]; cbn in *; [done|]. destruct (cond x) eqn:Hc.
  - destruct (Hset x Hc) as [-> ->]. exists x. split; [by left|]. done.
  - rewrite Hc in *. cbn in *. destruct (IH Hf) as (y & Hy & ?). exists y. split; [by right|]. done.
Qed.

(** A row that is not deleted is read back after its update. *)
Lemma update_row_returns d t now :
  (exists x, get_task d (ScheduledTask.id t) = Some x) -> ScheduledTask.status t <> ScheduledTaskStatus.DELETED ->
  exists row, row ∈ scheduled_tasks d /\ ScheduledTask.id row = ScheduledTask.id t /\
    (update_row d t now).2 = Return (t <| ScheduledTask.created_at := ScheduledTask.created_at row |> <| ScheduledTask.updated_at := Some now |>).
Proof.
  intros [x Hx] Hs. unfold update_row, read_back, get_task in *. cbn.
  destruct (find_updated (with_id (ScheduledTask.id t)) (fun row => t <| ScheduledTask.created_at := ScheduledTask.created_at row |>
    <| ScheduledTask.updated_at := Some now |>) _ _ _ Hx) as (row & Hin & Hid & ->).
  - intros y _. unfold with_id. split; [by apply bool_decide_eq_true_2|]. by apply negb_true_iff, bool_decide_eq_false_2.
  - exists row. apply bool_decide_eq_true in Hid. done.
Qed.

Lemma update_row_row_at d t now x :
  row_at d (ScheduledTask.id t) = Some x ->
  row_at (update_row d t now).1 (ScheduledTask.id t)
  = Some (t <| ScheduledTask.created_at := ScheduledTask.created_at x |> <| ScheduledTask.updated_at := Some now |>).
Proof.
  intros Hx. unfold update_row, read_back. cbn [fst]. rewrite row_at_update.
  - rewrite Hx. cbn. unfold with_id. rewrite bool_decide_eq_true_2; [done|]. by apply row_at_id in Hx.
  - by intros y Hy%bool_decide_eq_true.
Qed.

Lemma update_row_other d t now id : ScheduledTask.id t <> id -> row_at (update_row d t now).1 id = row_at d id.
Proof.
  intros Hne. unfold update_row, read_back. cbn [fst]. rewrite row_at_update by (by intros y Hy%bool_decide_eq_true).
  destruct (row_at d id) as [x|] eqn:Hx; [|done]. cbn. unfold with_id. rewrite bool_decide_eq_false_2; [done|].
  apply row_at_id in Hx. congruence.
Qed.

(** An import onto a task that is there: while a lease is held it is refused; refused or
    failed it changes nothing.  Accepted, it leaves alone every other task and the
    claim, run and read marks of this one, arms the task only when the import says
    both enabled and active, and moves the next run only when the expression, the time
    zone or the arming changes. *)
Theorem import_update_guarded d id r now t :
  sdb_ok (db_schedules d) -> get d id = Return t ->
  let '(d', res) := import_update calc has_delivery d id r now in
  (lease_held now t = true -> res = Raise ScheduledTaskLeaseHeldError)
  /\ (forall e, res = Raise e -> d' = d)
  /\ (forall t', res = Return t' ->
        row_at (db_schedules d') id = Some t'
        /\ (forall i, i <> id -> row_at (db_schedules d') i = row_at (db_schedules d) i)
        /\ claim_columns t' = claim_columns t
        /\ ScheduledTask.last_status t' = ScheduledTask.last_status t
        /\ ScheduledTask.unread_count t' = ScheduledTask.unread_count t
        /\ ScheduledTask.session_id t' = ScheduledTask.session_id t
        /\ (ScheduledTask.enabled t' = true <-> i_enabled r = true /\ i_status r = ScheduledTaskStatus.ACTIVE)
        /\ (ScheduledTask.schedule t', ScheduledTask.timezone t', ScheduledTask.prompt t') = (i_cron r, i_timezone r, i_prompt r)
        /\ (if bool_decide ((i_cron r, i_timezone r, ScheduledTask.enabled t')
                            = (ScheduledTask.schedule t, ScheduledTask.timezone t, ScheduledTask.enabled t))
            then ScheduledTask.next_run_at t' = ScheduledTask.next_run_at t
            else next_after calc (i_cron r) now (i_timezone r) = Return (ScheduledTask.next_run_at t'))).
Proof.
  intros Hok Hg. unfold import_update. rewrite Hg. settle. destruct (get_not_deleted _ _ _ Hg) as [Hid Hnd].
  destruct (lease_held now t); [done|]. destruct (import_checks _ _ _ _) as [target|]; [|settle; by split; [|split; [|intros ? [=]]]].
  settle. destruct (normalize_runnability _ _) as [e s] eqn:Hn.
  set (resched := _ || _). destruct (if resched then _ else _) as [n|] eqn:Hnext; [|settle; by split; [|split; [|intros ? [=]]]].
  settle. set (t1 := t <| ScheduledTask.name := _ |> <| ScheduledTask.prompt := _ |> <| ScheduledTask.schedule := _ |>
    <| ScheduledTask.timezone := _ |> <| ScheduledTask.origin := _ |> <| ScheduledTask.delivery_target := _ |>
    <| ScheduledTask.execution_policy := _ |> <| ScheduledTask.enabled := _ |> <| ScheduledTask.status := _ |>
    <| ScheduledTask.next_run_at := _ |> <| ScheduledTask.updated_at := _ |>).
  assert (Hs1 : ScheduledTask.status t1 <> ScheduledTaskStatus.DELETED).
  { change (s <> ScheduledTaskStatus.DELETED). revert Hn. unfold normalize_runnability. destruct (_ && _); by intros [= _ <-]. }
  assert (Hget : get_task (db_schedules d) (ScheduledTask.id t1) = Some t).
  { unfold get in Hg. change (ScheduledTask.id t1) with (ScheduledTask.id t). rewrite Hid. destruct (get_task _ _); by inversion Hg. }
  assert (Hrow : row_at (db_schedules d) id = Some t).
  { rewrite <- Hid. apply in_row_at; [done|]. unfold get_task in Hget. apply find_some in Hget as [H _]. by apply list_elem_of_In. }
  destruct (update_row_returns (db_schedules d) t1 now (ex_intro _ t Hget) Hs1) as (row & Hin & Hrid & Hret).
  assert (row = t) as -> .
  { apply (row_unique (db_schedules d)); [done|done| |done]. by apply row_at_in in Hrow. }
  unfold on_schedules. split; [done|]. split; [by rewrite Hret|]. intros t' Ht'.
  cbn [snd] in Ht'. rewrite Hret in Ht'. injection Ht' as <-.
  split; [|split].
  { cbn [fst db_schedules]. rewrite <- Hid. apply (update_row_row_at (db_schedules d) t1 now t).
    change (row_at (db_schedules d) (ScheduledTask.id t) = Some t). by rewrite Hid. }
  { intros i Hi. apply (update_row_other (db_schedules d) t1 now i). change (ScheduledTask.id t1) with (ScheduledTask.id t). congruence. }
  repeat (split; [done|]). split.
  { change (e = true <-> i_enabled r = true /\ i_status r = ScheduledTaskStatus.ACTIVE). revert Hn. unfold normalize_runnability.
    destruct (i_enabled r); case_bool_decide; intros [= <- <-]; intuition congruence. }
  split; [done|]. change (ScheduledTask.enabled _) with e at 1. change (ScheduledTask.next_run_at (_ <| ScheduledTask.updated_at := _ |>)) with n.
  replace (bool_decide _) with (negb resched).
  { destruct resched; cbn; [exact Hnext|by injection Hnext]. }
  apply eq_true_iff_eq. unfold resched. rewrite negb_true_iff, !orb_false_iff, !negb_false_iff, !bool_decide_eq_true.
  intuition congruence.
Qed.
End service.

(** * Tasks of a deleted session *)

(** The row of a recovered task. *)
Definition recovered (t : ScheduledTask.t) (session_id : string) (now : Z) (row : ScheduledTask.t) : ScheduledTask.t :=
  t <| ScheduledTask.session_id := session_id |> <| ScheduledTask.enabled := true |>
    <| ScheduledTask.status := ScheduledTaskStatus.ACTIVE |>
    <| ScheduledTask.created_at := ScheduledTask.created_at row |> <| ScheduledTask.updated_at := Some now |>.

Lemma update_row_ok d t now : sdb_ok d -> sdb_ok (update_row d t now).1.
Proof. exact (exec_sop_ok (fun _ _ _ => Return 0) d (SUpdate t now)). Qed.

Lemma session_schedules d i now : db_schedules (schedule_session d i now) = db_schedules d.
Proof. unfold schedule_session, create_session. by case_match. Qed.

Lemma session_ids_grow d i now j : j ∈ session_ids d -> j ∈ session_ids (schedule_session d i now).
Proof.
  unfold schedule_session, create_session, session_ids. case_match; [done|]. cbn. rewrite map_app, elem_of_app. by left.
Qed.

Lemma recover_tasks_spec tasks ids now d :
  sdb_ok (db_schedules d) -> NoDup (map ScheduledTask.id tasks) -> (length tasks <= length ids)%nat ->
  (forall t, t ∈ tasks -> t ∈ scheduled_tasks (db_schedules d) /\ ScheduledTask.status t <> ScheduledTaskStatus.DELETED) ->
  let '(d', r) := recover_tasks d tasks ids now in
  r = Return tt
  /\ (forall t, t ∈ tasks -> exists i, i ∈ session_ids d' /\ i ∈ ids
        /\ row_at (db_schedules d') (ScheduledTask.id t) = Some (recovered t i now t))
  /\ (forall id, id ∉ map ScheduledTask.id tasks -> row_at (db_schedules d') id = row_at (db_schedules d) id)
  /\ (forall j, j ∈ session_ids d -> j ∈ session_ids d').
Proof.
  revert d ids. induction tasks as [|t tasks IH]; intros d [|i ids] Hok Hnd Hlen Ht; cbn [recover_tasks].
  1,2: split; [done|]; split; [by intros ? ?%elem_of_nil|done]. { cbn in Hlen. lia. }
  set (d1 := schedule_session d i now). set (t1 := t <| ScheduledTask.session_id := i |> <| ScheduledTask.enabled := true |>
    <| ScheduledTask.status := ScheduledTaskStatus.ACTIVE |>).
  assert (Hd1 : db_schedules d1 = db_schedules d) by apply session_schedules.
  destruct (Ht t) as [Hin Hnotdel]; [by left|]. pose proof (in_row_at _ _ Hok Hin) as Hrow.
  destruct (update_row_returns (db_schedules d1) t1 now) as (row & _ & _ & Hret); [|done|].
  { rewrite Hd1. unfold get_task. change (ScheduledTask.id t1) with (ScheduledTask.id t).
    destruct (List.find _ _) as [x|] eqn:Hf; [by exists x|]. eapply find_none in Hf; [|apply list_elem_of_In; exact Hin].
    unfold with_id in Hf. rewrite bool_decide_eq_true_2 in Hf by done. cbn in Hf. by apply negb_false_iff, bool_decide_eq_true in Hf. }
  unfold on_schedules. rewrite Hret. rewrite Hd1. set (d2 := d1 <| db_schedules := _ |>).
  inversion Hnd as [|? ? Hnew Hnd']; subst.
  assert (Hother : forall id, id <> ScheduledTask.id t -> row_at (db_schedules d2) id = row_at (db_schedules d) id).
  { intros id Hid. apply (update_row_other (db_schedules d) t1 now id). change (ScheduledTask.id t <> id). congruence. }
  assert (Hmine : row_at (db_schedules d2) (ScheduledTask.id t) = Some (recovered t i now t)).
  { exact (update_row_row_at (db_schedules d) t1 now t Hrow). }
  specialize (IH d2 ids (update_row_ok _ _ _ Hok) Hnd'). destruct (recover_tasks d2 tasks ids now) as [d' r].
  destruct IH as (-> & Hall & Hrest & Hgrow); [cbn in Hlen; lia| |].
  { intros x Hx. destruct (Ht x) as [Hxin Hxs]; [by right|]. split; [|done]. apply (row_at_in _ (ScheduledTask.id x)).
    rewrite Hother; [by apply in_row_at|]. intros E. apply Hnew. rewrite <- E. by apply list_elem_of_fmap_2. }
  split; [done|]. split; [|split].
  - intros x [->|Hx]%elem_of_cons.
    + exists i. split; [|split; [by left|]]. { apply Hgrow. exact (create_session_stored d ((Session.fresh i now) <| Session.source := SessionSource.value SessionSource.SCHEDULE |>)). }
      rewrite Hrest by done. exact Hmine.
    + destruct (Hall x Hx) as (j & Hj & Hji & Hr). exists j. split; [done|]. split; [by right|done].
  - intros id Hid. cbn in Hid. apply not_elem_of_cons in Hid as [Hne Hid]. rewrite Hrest by done. by apply Hother.
  - intros j Hj. apply Hgrow. change (j ∈ session_ids d1). by apply session_ids_grow.
Qed.

Lemma recoverable_elem d t :
  t ∈ list_recoverable_origin_tasks d <-> t ∈ scheduled_tasks d /\ recoverable t = true.
Proof. unfold list_recoverable_origin_tasks. rewrite order_by_perm, !list_elem_of_In. by rewrite filter_In. Qed.

Lemma recoverable_ids d : sdb_ok d -> NoDup (map ScheduledTask.id (list_recoverable_origin_tasks d)).
Proof.
  intros [Hnd _]. unfold list_recoverable_origin_tasks. rewrite order_by_perm. by apply NoDup_map_filter.
Qed.

(** When a session is deleted its tasks stop, all but deleted ones, and the recovery
    that every tick begins with gives those whose target is their origin a session of
    their own and starts them again; the others stay stopped.  What a task was before
    makes no difference: one that its user had paused runs again. *)
Theorem lost_sessions_recovered d session_id now ids later :
  sdb_ok (db_schedules d) ->
  let d1 := (handle_session_deleted d session_id now).1 in
  (length (list_recoverable_origin_tasks (db_schedules d1)) <= length ids)%nat ->
  let '(d2, r) := recover_missing_origin_sessions d1 ids later in
  r = Return tt /\
  forall t, t ∈ scheduled_tasks (db_schedules d) -> ScheduledTask.session_id t = session_id ->
    ScheduledTask.status t <> ScheduledTaskStatus.DELETED ->
    exists t', row_at (db_schedules d2) (ScheduledTask.id t) = Some t'
    /\ ScheduledTask.next_run_at t' = ScheduledTask.next_run_at t
    /\ if bool_decide (target_type (ScheduledTask.delivery_target t) = DeliveryTargetType.ORIGIN)
       then ScheduledTask.enabled t' = true /\ ScheduledTask.status t' = ScheduledTaskStatus.ACTIVE
            /\ ScheduledTask.session_id t' ∈ ids /\ ScheduledTask.session_id t' ∈ session_ids d2
       else ScheduledTask.enabled t' = false /\ ScheduledTask.status t' = ScheduledTaskStatus.SESSION_MISSING
            /\ ScheduledTask.session_id t' = session_id.
Proof.
  intros Hok d1 Hlen. assert (Hok1 : sdb_ok (db_schedules d1)) by exact (exec_sop_ok (fun _ _ _ => Return 0) _ (SMissing session_id now) Hok).
  unfold recover_missing_origin_sessions. set (tasks := list_recoverable_origin_tasks _).
  assert (Hin : forall t, t ∈ tasks -> t ∈ scheduled_tasks (db_schedules d1) /\ ScheduledTask.status t <> ScheduledTaskStatus.DELETED).
  { intros t [Ht [Hs%bool_decide_eq_true _]%andb_true_iff]%recoverable_elem. split; [done|]. by rewrite Hs. }
  pose proof (recover_tasks_spec tasks ids later d1 Hok1 (recoverable_ids _ Hok1) Hlen Hin) as H.
  destruct (recover_tasks d1 tasks ids later) as [d2 r]. destruct H as (-> & Hall & Hrest & _). split; [done|].
  intros t Ht Hsid Hst. set (t0 := t <| ScheduledTask.enabled := false |> <| ScheduledTask.status := ScheduledTaskStatus.SESSION_MISSING |>
    <| ScheduledTask.updated_at := Some now |>).
  assert (Ht0 : t0 ∈ scheduled_tasks (db_schedules d1)).
  { apply list_elem_of_fmap. exists t. split; [|done]. by rewrite (bool_decide_eq_true_2 _ Hsid), (bool_decide_eq_false_2 _ Hst). }
  case_bool_decide as Htype.
  - destruct (Hall t0) as (i & Hi & Hids & Hr).
    { apply recoverable_elem. split; [done|]. apply andb_true_iff. split; by apply bool_decide_eq_true. }
    exists (recovered t0 i later t0). done.
  - exists t0. split; [|done]. rewrite Hrest; [exact (in_row_at _ _ Hok1 Ht0)|].
    intros (x & Hx & [Hxin [_ Hxt%bool_decide_eq_true]%andb_true_iff]%recoverable_elem)%list_elem_of_fmap. apply Htype.
    by rewrite <- (row_unique _ t0 x Hok1 Ht0 Hxin Hx) in Hxt.
Qed.

(** * Witnesses *)

(** A calculator that accepts every expression and runs it an hour later. *)
Definition hourly_calc : calculator := mkCalculator (fun _ _ => Return tt) hourly.
Definition plain_policy : ScheduledExecutionPolicy := default_policy [].
Definition an_import (status : ScheduledTaskStatus.t) : ImportInput :=
  mkImportInput [] "sum up" "0 9 * * *" "UTC" "dashboard" [] [] plain_policy true status None.
Definition new_input : ScheduledTaskCreateInput :=
  mkCreateInput [] "sum up" "* * * * *" "UTC" "dashboard" [] None [] None.
Definition a_plan : list svc_op :=
  [VCreate new_input 10 ("s", "t"); VPause "t" 20; VImportUpdate "t" (an_import ScheduledTaskStatus.ACTIVE) 30;
   VRegistry (SClaimDue 4000000000 5 900 [("c", "o")])].

Lemma schedules_stay_valid_witness :
  let d := exec_svcs hourly_calc (fun _ => "connected") true empty_database a_plan in
  map (fun t => (ScheduledTask.schedule t, ScheduledTask.enabled t, ScheduledTask.next_run_at t)) (scheduled_tasks (db_schedules d))
  = [("0 9 * * *", true, 7600000000)]
  /\ schedules_valid hourly_calc (db_schedules d).
Proof.
  split; [by vm_compute|]. apply schedules_stay_valid; [|repeat constructor].
  split; [split; constructor|by intros t ?%elem_of_nil].
Defined.

Definition imported_db : database := exec_svcs hourly_calc (fun _ => "connected") true empty_database [VCreate new_input 10 ("s", "t")].

Lemma import_update_guarded_witness :
  let r := import_update hourly_calc true imported_db "t" (an_import ScheduledTaskStatus.PAUSED) 30 in
  exists t', r.2 = Return t' /\ ScheduledTask.schedule t' = "0 9 * * *"
  /\ (ScheduledTask.enabled t' = true <-> true = true /\ ScheduledTaskStatus.PAUSED = ScheduledTaskStatus.ACTIVE).
Proof.
  intros r.
  assert (Hok : sdb_ok (db_schedules imported_db)).
  { exact (exec_sop_ok (fun _ _ _ => Return 0) empty_sdb (SCreate _ 10) ltac:(split; constructor)). }
  destruct (get imported_db "t") as [t|] eqn:Ht; [|vm_compute in Ht; discriminate].
  pose proof (import_update_guarded hourly_calc true imported_db "t" (an_import ScheduledTaskStatus.PAUSED) 30 t Hok Ht) as H.
  destruct (import_update _ _ _ _ _ _) as [d' res] eqn:Hi. subst r. cbn [snd].
  destruct res as [t'|e] eqn:Hres.
  - exists t'. split; [done|]. destruct H as (_ & _ & H). destruct (H t' eq_refl) as (_ & _ & _ & _ & _ & _ & He & Ht' & _).
    split; [|exact He]. by inversion Ht'.
  - apply (f_equal snd) in Hi. vm_compute in Hi. discriminate.
Defined.

Definition home_task (id : string) (status : ScheduledTaskStatus.t) (target : DeliveryTargetType.t) : ScheduledTask.t :=
  ScheduledTask.mk id "n" "p" "* * * * *" "UTC" "s" (mkDeliveryTarget target []) 5
    (bool_decide (status = ScheduledTaskStatus.ACTIVE)) status [] plain_policy None None None None None None None 0 (Some 0) (Some 0).
Definition paused_db : database :=
  empty_database <| db_schedules := mkSdb [home_task "a" ScheduledTaskStatus.PAUSED DeliveryTargetType.ORIGIN;
    home_task "b" ScheduledTaskStatus.ACTIVE DeliveryTargetType.DASHBOARD] [] |>.

Lemma lost_sessions_recovered_witness :
  let d1 := (handle_session_deleted paused_db "s" 10).1 in
  let '(d2, r) := recover_missing_origin_sessions d1 ["s2"] 20 in
  r = Return tt /\ exists t', row_at (db_schedules d2) "a" = Some t' /\ ScheduledTask.status t' = ScheduledTaskStatus.ACTIVE.
Proof.
  intros d1. assert (Hok : sdb_ok (db_schedules paused_db)).
  { split; [|constructor]. cbn. apply NoDup_cons. split; [|apply NoDup_singleton]. by intros ?%list_elem_of_singleton. }
  pose proof (lost_sessions_recovered paused_db "s" 10 ["s2"] 20 Hok) as H. cbv zeta in H. fold d1 in H.
  specialize (H ltac:(vm_compute; lia)). destruct (recover_missing_origin_sessions d1 ["s2"] 20) as [d2 r].
  destruct H as [-> H]. split; [done|].
  destruct (H (home_task "a" ScheduledTaskStatus.PAUSED DeliveryTargetType.ORIGIN)) as (t' & Ht' & _ & Hs); [by left|done|done|].
  exists t'. split; [exact Ht'|]. rewrite bool_decide_eq_true_2 in Hs by done. apply Hs.
Defined.
