(* ===== verification/ToolGrants.v ===== *)
(** Grants of tools that need a confirmation
    (app/application/gateway_tool_approval_service.py): a set of (session, actor, tool)
    in memory, and their copy in the metadata of a Dashboard session.

    Restoring what was stored gives the grants that were there and no other, and nothing
    but a grant, made here or stored by a Dashboard session, grants. *)
From S2P Require Import Prelude Json Schedules SessionStore.
From stdpp Require Import gmap.
Open Scope Z_scope.

Notation grants := (gset (string * string * string)).

Definition DASHBOARD_GRANTS_KEY : string := "dashboard_tool_session_grants_v1".

Definition grant_session (g : grants) (session_id actor_id tool_name : string) : grants * bool :=
  if truthy_str session_id && truthy_str actor_id && truthy_str tool_name
  then ({[(session_id, actor_id, tool_name)]} ∪ g, true) else (g, false).
Definition revoke_session (g : grants) (session_id actor_id tool_name : string) : grants :=
  g ∖ {[(session_id, actor_id, tool_name)]}.

(** The tools of a session and actor; the value of each is ["session"]. *)
Definition grants_for (g : grants) (session_id actor_id : string) : gset string :=
  set_map snd (filter (fun t => t.1 = (session_id, actor_id)) g).
Definition is_granted (g : grants) (session_id actor_id tool_name : string) : bool :=
  bool_decide ((session_id, actor_id, tool_name) ∈ g).

(** The list stored for the actor, if the session may have one.  [d] is [None] when
    there is no store; a read that fails is the [None] of [read]. *)
Definition dashboard_metadata (d : database) (session_id : string) : option (option dict) :=
  match get_session d session_id with
  | Some s => if bool_decide (Session.source s = "dashboard") then Some (Session.acp_metadata s) else None
  | None => None
  end.

Definition stored_tools (metadata : dict) (actor_id : string) : list json :=
  match dict_get metadata DASHBOARD_GRANTS_KEY with
  | JObj all => match dict_get all actor_id with JArr tools => tools | _ => [] end
  | _ => []
  end.

Definition restore_tool (session_id actor_id : string) (g : grants) (tool : json) : grants :=
  match tool with
  | JStr name => if truthy_str name then (grant_session g session_id actor_id name).1 else g
  | _ => g
  end.

(** [restore_session_grants], on the session read from the store. *)
Definition restore_session_grants (read : option database) (g : grants) (session_id actor_id : string) : grants :=
  match read with
  | None => g
  | Some d =>
      if negb (truthy_str session_id) || negb (truthy_str actor_id) then g
      else match dashboard_metadata d session_id with
           | Some (Some metadata) => foldl (restore_tool session_id actor_id) g (stored_tools metadata actor_id)
           | _ => g
           end
  end.

(** [sorted] on the names. *)
Definition sorted_names (s : gset string) : list string := order_by str_leb (elements s).

(** [persist_session_grants]: the metadata it leaves, if it writes. *)
Definition persisted_metadata (g : grants) (session_id actor_id : string) (old : option dict) : dict :=
  let metadata := default [] old in
  let all := match dict_get metadata DASHBOARD_GRANTS_KEY with JObj l => l | _ => [] end in
  dict_set DASHBOARD_GRANTS_KEY
    (JObj (dict_set actor_id (JArr (map JStr (sorted_names (grants_for g session_id actor_id)))) all)) metadata.
Definition persist_session_grants (d : database) (g : grants) (session_id actor_id : string) (now : Z) : database :=
  if negb (truthy_str session_id) || negb (truthy_str actor_id) then d
  else match dashboard_metadata d session_id with
       | Some old => update_session_acp_metadata d session_id (persisted_metadata g session_id actor_id old) now
       | None => d
       end.

(** * What is stored is what is restored *)

Lemma grants_for_spec g s a t : t ∈ grants_for g s a <-> (s, a, t) ∈ g.
Proof.
  unfold grants_for. rewrite elem_of_map. split.
  - intros ([[s' a'] t'] & -> & [Hf Hin]%elem_of_filter). cbn in *. by injection Hf as -> ->.
  - intros H. exists (s, a, t). split; [done|]. by apply elem_of_filter.
Qed.

Lemma sorted_names_spec s n : n ∈ sorted_names s <-> n ∈ s.
Proof. unfold sorted_names. by rewrite order_by_perm, elem_of_elements. Qed.

(** Restoring adds grants of the session and the actor for stored names, and no other. *)
Lemma restore_tools_spec s a tools g t :
  truthy_str s = true -> truthy_str a = true ->
  t ∈ foldl (restore_tool s a) g tools <->
  t ∈ g \/ exists n, JStr n ∈ tools /\ truthy_str n = true /\ t = (s, a, n).
Proof.
  intros Hs Ha. revert g. induction tools as [|v tools IH]; intros g; cbn [foldl].
  - split; [by left|]. intros [H|(n & H & _)]; [done|by apply elem_of_nil in H].
  - rewrite IH. assert (Hv : t ∈ restore_tool s a g v <-> t ∈ g \/ exists n, v = JStr n /\ truthy_str n = true /\ t = (s, a, n)).
    { destruct v as [| | |n| |]; cbn; try (split; [by left|]; intros [?|(? & ? & _)]; done).
      destruct (truthy_str n) eqn:Hn.
      - unfold grant_session. rewrite Hs, Ha, Hn. cbn. rewrite elem_of_union, elem_of_singleton. split.
        + intros [->|?]; [right|by left]. by exists n.
        + intros [?|(m & [= <-] & _ & ->)]; [by right|by left].
      - split; [by left|]. intros [?|(m & [= <-] & Hm & _)]; [done|congruence]. }
    rewrite Hv. split.
    + intros [[?|(n & -> & Hn & ->)]|(n & Hin & Hn & ->)]; [by left|right|right]; exists n; (split; [|done]); [by left|by right].
    + intros [?|(n & [<-|Hin]%elem_of_cons & Hn & ->)]; [by left; left|left; right|right]; by exists n.
Qed.

(** Every grant has a session, an actor and a tool. *)
Definition grants_ok (g : grants) : Prop :=
  forall s a t, (s, a, t) ∈ g -> truthy_str s = true /\ truthy_str a = true /\ truthy_str t = true.

Lemma grant_session_ok g s a t : grants_ok g -> grants_ok (grant_session g s a t).1.
Proof.
  intros Hg. unfold grant_session. destruct (truthy_str s && _ && _) eqn:H; [|done]. cbn.
  rewrite !andb_true_iff in H. destruct H as [[Hs Ha] Ht].
  intros s' a' t' [[= -> -> ->]%elem_of_singleton|Hin]%elem_of_union; [done|by apply Hg].
Qed.

Lemma get_session_updated d i set :
  (forall s, Session.id (set s) = Session.id s) -> get_session (update_sessions i set d) i = set <$> get_session d i.
Proof.
  intros Hset. unfold get_session, update_sessions. cbn. induction (db_sessions d) as [|s l IH]; cbn; [done|].
  destruct (is_session i s) eqn:Hs; [|by rewrite Hs]. unfold is_session. rewrite Hset. unfold is_session in Hs. by rewrite Hs.
Qed.

(** The grants of an actor that a Dashboard session stored are exactly those that a
    restart restores: every tool granted comes back, nothing that was not granted does,
    and neither the grants another actor had stored nor the rest of the metadata is
    touched.  Of a session from elsewhere nothing is stored and nothing restored. *)
Theorem grants_survive_restart d g s a now session :
  grants_ok g -> truthy_str s = true -> truthy_str a = true -> get_session d s = Some session ->
  let d' := persist_session_grants d g s a now in
  if bool_decide (Session.source session = "dashboard") then
    (forall t, t ∈ restore_session_grants (Some d') ∅ s a <-> exists n, t = (s, a, n) /\ (s, a, n) ∈ g)
    /\ (forall a', a' <> a -> restore_session_grants (Some d') ∅ s a' = restore_session_grants (Some d) ∅ s a')
    /\ (exists m, Session.acp_metadata <$> get_session d' s = Some (Some m)
          /\ forall k, k <> DASHBOARD_GRANTS_KEY -> dict_get m k = dict_get (default [] (Session.acp_metadata session)) k)
  else d' = d /\ restore_session_grants (Some d) g s a = g.
Proof.
  intros Hg Hs Ha Hget d'. case_bool_decide as Hsrc.
  2: { unfold d', persist_session_grants, restore_session_grants, dashboard_metadata. rewrite Hs, Ha, Hget. cbn.
       by rewrite bool_decide_eq_false_2. }
  set (m := persisted_metadata g s a (Session.acp_metadata session)).
  assert (Hd' : get_session d' s = Some (session <| Session.acp_metadata := Some m |> <| Session.updated_at := now |>)).
  { unfold d', persist_session_grants, dashboard_metadata. rewrite Hs, Ha, Hget. cbn. rewrite bool_decide_eq_true_2 by done.
    unfold update_session_acp_metadata. rewrite get_session_updated by done. by rewrite Hget. }
  assert (Hmeta : dashboard_metadata d' s = Some (Some m)).
  { unfold dashboard_metadata. rewrite Hd'. cbn. by rewrite bool_decide_eq_true_2. }
  assert (Hm : forall a', stored_tools m a' = if bool_decide (a = a') then map JStr (sorted_names (grants_for g s a))
                                              else stored_tools (default [] (Session.acp_metadata session)) a').
  { intros a'. unfold stored_tools, m, persisted_metadata. rewrite dict_get_set, bool_decide_eq_true_2, dict_get_set by done.
    case_bool_decide; [done|]. by destruct (dict_get _ DASHBOARD_GRANTS_KEY). }
  split; [|split].
  - intros t. unfold restore_session_grants. rewrite Hs, Ha, Hmeta, Hm, bool_decide_eq_true_2 by done. cbn [negb orb].
    rewrite restore_tools_spec by done. split.
    + intros [H|(n & (x & [= ->] & Hn)%list_elem_of_fmap & _ & ->)]; [by apply elem_of_empty in H|].
      exists x. split; [done|]. by apply grants_for_spec, sorted_names_spec.
    + intros (n & -> & Hin). right. exists n. split; [|split; [|done]].
      * apply list_elem_of_fmap. exists n. split; [done|]. by apply sorted_names_spec, grants_for_spec.
      * by destruct (Hg _ _ _ Hin) as (_ & _ & ?).
  - intros a' Hne. unfold restore_session_grants. destruct (negb _ || negb _); [done|]. rewrite Hmeta, Hm, bool_decide_eq_false_2 by congruence.
    unfold dashboard_metadata. rewrite Hget. rewrite bool_decide_eq_true_2 by done.
    by destruct (Session.acp_metadata session).
  - exists m. rewrite Hd'. split; [done|]. intros k Hk. unfold m, persisted_metadata. rewrite dict_get_set.
    by rewrite bool_decide_eq_false_2 by congruence.
Qed.

(** * Witness *)

Definition dashboard_db : database :=
  empty_database <| db_sessions := [(Session.fresh "s" 1) <| Session.source := "dashboard" |>
                                      <| Session.acp_metadata := Some [("cwd", JStr "/w")] |>] |>.
Definition two_grants : grants := (grant_session (grant_session ∅ "s" "ann" "shell").1 "s" "bob" "browser").1.

Lemma grants_survive_restart_witness :
  let d := persist_session_grants dashboard_db two_grants "s" "ann" 5 in
  ("s", "ann", "shell") ∈ restore_session_grants (Some d) ∅ "s" "ann"
  /\ ("s", "bob", "browser") ∉ restore_session_grants (Some d) ∅ "s" "ann".
Proof.
  intros d. assert (Hok : grants_ok two_grants) by (apply grant_session_ok, grant_session_ok; intros ??? H; by apply elem_of_empty in H).
  destruct (get_session dashboard_db "s") as [session|] eqn:Hs; [|done].
  pose proof (grants_survive_restart dashboard_db two_grants "s" "ann" 5 session Hok eq_refl eq_refl Hs) as H.
  injection Hs as <-. cbv zeta in H. rewrite bool_decide_eq_true_2 in H by done. destruct H as [H _]. split.
  - apply H. exists "shell". split; [done|]. by apply (bool_decide_eq_true_1 _).
  - intros (n & [=] & _)%H.
Defined.
