(* ===== verification/GatewayCommands.v ===== *)
(** The chat gateway's commands (app/application/gateway_service.py,
    GatewayCommandService): slash commands, the confirmations that destructive ones
    wait for, and their execution.

    The state is the database, the confirmations that wait, the actors that are trusted
    and the tools that are granted.  The stores never suspend the coroutine; what runs
    while the caller's callback is awaited is an argument.  Texts of messages are code
    points, as the commands cut them up. *)
From S2P Require Import Prelude Json Repr Unicode GatewayStore Schedules SessionStore SessionService ScheduleDelivery ScheduleRun ScheduleService ToolGrants.
From stdpp Require Import gmap.
From Stdlib Require Import Ascii.
Open Scope Z_scope.

(** * Messages *)

Record InteractionMessage := mkInteractionMessage {
  msg_id : string;
  msg_key : GatewaySessionKey;
  msg_text : text;
  msg_metadata : dict;
  msg_images : list string
}.

Record OutboundMessage := mkOutboundMessage { out_content : string; out_metadata : dict }.
Record InteractionResponse := mkResponse {
  resp_session_id : string;
  resp_messages : list OutboundMessage;
  resp_metadata : dict
}.
(** [_response] *)
Definition response_with (session_id content : string) (metadata : dict) : InteractionResponse :=
  mkResponse session_id [mkOutboundMessage content metadata] [].
Definition response (session_id content : string) : InteractionResponse := response_with session_id content [].

Module ConfirmationRequest.
Record t : Type := mk {
  id : string;
  session_key : GatewaySessionKey;
  actor_id : string;
  session_id : string;
  target_session_id : string;
  action : ConfirmationAction.t;
  command : text;
  args : list (string * text);
  created_at : Z;
  expires_at : Z;
  trusted_metadata : dict
}.
End ConfirmationRequest.

Record gateway := mkGateway {
  gw_db : database;
  gw_pending : gmap string ConfirmationRequest.t;
  gw_trusted : gset (string * string * string * string);
  gw_grants : grants
}.
#[export] Instance rebuild_gateway : Rebuild gateway := fun s =>
  mkGateway (gw_db s) (gw_pending s) (gw_trusted s) (gw_grants s).

(** * Reading commands *)

(** A text of ASCII characters. *)
Definition ascii_text (s : string) : text := map (fun c => Z.of_nat (nat_of_ascii c)) (chars s).

(** [text.partition(" ")], without the separator. *)
Fixpoint partition_space (t : text) : text * text :=
  match t with
  | [] => ([], [])
  | c :: t => if c =? 32 then ([], t) else let '(a, b) := partition_space t in (c :: a, b)
  end.

Definition starts_slash (t : text) : bool := match t with c :: _ => c =? 47 | [] => false end.

(** [text.split()] *)
Fixpoint split_words (t : text) : list text :=
  match t with
  | [] => []
  | c :: t' =>
      if space_point c then split_words t'
      else
        let ws := split_words t' in
        let joined := match t' with d :: _ => negb (space_point d) | [] => false end in
        match ws with
        | w :: ws' => if joined then (c :: w) :: ws' else [c] :: ws
        | [] => [[c]]
        end
  end.

(** [" ".join(words)] *)
Fixpoint join_words (ws : list text) : text :=
  match ws with [] => [] | [w] => w | w :: ws => w ++ 32 :: join_words ws end.

(** [text.split(sep)] of a one-character separator. *)
Fixpoint split_on (sep : Z) (t : text) : list text :=
  match t with
  | [] => [[]]
  | c :: t => if c =? sep then [] :: split_on sep t
              else match split_on sep t with w :: ws => (c :: w) :: ws | [] => [[c]] end
  end.

(** [text.split(sep, 1)] when [sep] occurs. *)
Fixpoint cut_at (sep t : text) : option (text * text) :=
  if bool_decide (take (length sep) t = sep) then Some ([], drop (length sep) t)
  else match t with
       | [] => None
       | c :: t => '(a, b) ← cut_at sep t; Some (c :: a, b)
       end.

Definition has_args (t : text) : bool := bool_decide (strip_text t <> []).

(** [_parse_destructive_command] *)
Definition parse_destructive_command (t : text) : option (ConfirmationAction.t * list (string * text)) :=
  let '(command, arg) := partition_space (strip_text t) in
  if bool_decide (command = ascii_text "/new") then Some (ConfirmationAction.NEW, [])
  else if bool_decide (command = ascii_text "/rename") then
    if has_args arg then Some (ConfirmationAction.RENAME, [("title", strip_text arg)]) else None
  else if bool_decide (command = ascii_text "/delete") then Some (ConfirmationAction.DELETE, [])
  else if bool_decide (command = ascii_text "/schedule") then
    let '(action, rest) := partition_space (strip_text arg) in
    if bool_decide (action = ascii_text "remove") && has_args rest
    then Some (ConfirmationAction.SCHEDULE_REMOVE, [("task_id", strip_text rest)]) else None
  else None.

Definition is_destructive_command (t : text) : bool :=
  starts_slash (strip_text t) && bool_decide (is_Some (parse_destructive_command t)).

(** [parts.index(w)] *)
Definition word_index (w : text) (ws : list text) : option nat := fst <$> list_find (fun x => x = w) ws.

(** [_parse_schedule_add]: the expression, the prompt and the allowed tools. *)
Definition parse_schedule_add (rest : text) : option (text * text * list text) :=
  let parts := split_words rest in
  let '(parts, allowed) :=
    match word_index (ascii_text "--tools") parts with
    | None => (parts, [])
    | Some i =>
        match parts !! S i with
        | Some names => (take i parts ++ drop (i + 2) parts,
                         List.filter (fun n => bool_decide (n <> [])) (map strip_text (split_on 44 names)))
        | None => (take i parts, [])
        end
    end in
  let rest := join_words parts in
  let cut := match cut_at (ascii_text " -- ") rest with
             | Some (cron, prompt) => Some (strip_text cron, strip_text prompt)
             | None => let bits := split_words rest in
                       if (length bits <? 6)%nat then None
                       else Some (join_words (take 5 bits), join_words (drop 5 bits))
             end in
  match cut with
  | None => None
  | Some (cron, prompt) => if bool_decide (cron = []) || bool_decide (prompt = []) then None
                           else Some (cron, prompt, allowed)
  end.

(** ** What an event says of its sender *)

(** [event.metadata.get("actor_id")], as a text when it is there. *)
Definition actor_value (metadata : dict) : option string :=
  match dict_get metadata "actor_id" with JNull => None | v => Some (py_str v) end.

(** [_actor_id] *)
Definition actor_id_of (e : InteractionMessage) : string :=
  py_str (json_or (dict_get (msg_metadata e) "actor_id")
    (json_or (JStr (key_display_name (msg_key e))) (JStr (platform_session_id (msg_key e))))).

(** [str(md.get(k) or fallback or "")] *)
Definition md_or (md : dict) (k fallback : string) : string :=
  py_str (json_or (dict_get md k) (json_or (JStr fallback) (JStr ""))).

(** [_build_trusted_metadata] *)
Definition build_trusted_metadata (e : InteractionMessage) : dict :=
  let md := msg_metadata e in
  let k := msg_key e in
  [("gateway.source", JStr (key_source k)); ("gateway.platform_session_id", JStr (platform_session_id k));
   ("thread_id", JStr (md_or md "thread_id" (thread_id k))); ("actor_id", JStr (md_or md "actor_id" ""));
   ("receive_id", JStr (md_or md "receive_id" "")); ("receive_id_type", JStr (md_or md "receive_id_type" ""))]
  ++ match platform_of k with
     | Some p => [("gateway.platform", JStr (Platform.value p)); ("platform", JStr (Platform.value p))]
     | None => []
     end.

(** [_home_target_from_event]; the key has a platform. *)
Definition home_target_from_event (e : InteractionMessage) (p : Platform.t) : HomeTarget.t :=
  let md := msg_metadata e in
  let k := msg_key e in
  HomeTarget.mk p (py_str (json_or (dict_get md "receive_id") (JStr (platform_session_id k))))
    (py_str (json_or (dict_get md "receive_id_type") (JStr "chat_id"))) (md_or md "thread_id" (thread_id k))
    (key_display_name k).

(** [_session_id_prefix_and_source] *)
Definition session_id_prefix_and_source (k : GatewaySessionKey) : string * string :=
  if bool_decide (key_source k = "acp") then ("acp", "acp")
  else match platform_of k with
       | Some p => (Platform.value p, Platform.value p)
       | None => ("cli", "cli")
       end.

(** * The command service *)

(** How a compression went: whether it did, and its reason. *)
Record compress_status := mkCompressStatus { compressed : bool; compress_reason : json }.

(** What the service is wired to; the texts of lists that others keep are given. *)
Record command_wiring := mkCommandWiring {
  cw_calculator : calculator;
  cw_platform_status : Platform.t -> string;
  cw_has_delivery : bool;
  cw_session_service : session_service;
  cw_run : run_wiring;
  cw_has_schedules : bool;
  cw_require_actor : bool;
  cw_confirmation_ttl : Z;
  cw_isoformat : Z -> string;
  cw_claim_text : Claim.t -> string;
  cw_tool_names : list string;
  cw_model_ids : list string;
  cw_health : string;
  cw_compress : option (string -> database -> database * result compress_status)
}.

(** The identifiers a call draws: of a confirmation, of a session (after its prefix),
    of a link and its conversation, of a schedule's session and task, of a claim, and
    of the sessions recovered before a run. *)
Record drawn := mkDrawn {
  new_confirmation : string;
  new_session : string;
  new_link : string * string;
  new_schedule : string * string;
  new_claim : string * string;
  recovery_sessions : list string * list string
}.

Definition on_gateway {A} (s : gateway) (r : gdb * A) : gateway * A :=
  (s <| gw_db := (gw_db s) <| db_gateway := r.1 |> |>, r.2).
Definition on_db {A} (s : gateway) (r : database * A) : gateway * A := (s <| gw_db := r.1 |>, r.2).

Section commands.
Context (w : command_wiring) (now : Z) (ids : drawn).

Definition lines (l : list string) (none : string) : string :=
  let t := String.concat (String (ascii_of_nat 10) "") l in if truthy_str t then t else none.

(** [_cleanup_expired] *)
Definition cleanup_expired (s : gateway) : gateway :=
  s <| gw_pending := filter (fun p => now < ConfirmationRequest.expires_at p.2) (gw_pending s) |>.

Definition trust_key (k : GatewaySessionKey) (actor_id : string) : string * string * string * string :=
  (conversation_parts k, actor_id).

(** The session of the new name is created and linked. *)
Definition new_linked_session (s : gateway) (k : GatewaySessionKey) : gateway * result string :=
  let '(prefix, source) := session_id_prefix_and_source k in
  let session_id := prefix +:+ "-" +:+ new_session ids in
  let s := s <| gw_db := (service_create_session (cw_session_service w) (gw_db s) session_id source now).1.1 |> in
  let '(s, r) := on_gateway s (create_session_link (db_gateway (gw_db s)) k session_id now (new_link ids)) in
  (s, let? _ := r in Return session_id).

(** [_execute_new] *)
Definition execute_new (s : gateway) (k : GatewaySessionKey) : gateway * result InteractionResponse :=
  let '(s, r) := new_linked_session s k in
  (s, let? session_id := r in Return (response session_id ("已创建新会话 " +:+ session_id))).

Definition arg (args : list (string * text)) (k : string) : text :=
  default [] (snd <$> List.find (fun p => bool_decide (p.1 = k)) args).

(** [_execute_schedule_remove] *)
Definition origin_matches (task : ScheduledTask.t) (trusted : dict) : bool :=
  let origin := ScheduledTask.origin task in
  let platform := py_str (json_or (dict_get trusted "platform") (json_or (dict_get trusted "gateway.platform") (JStr ""))) in
  bool_decide (text_of origin "platform" = platform)
  && bool_decide (text_of origin "receive_id" = text_of trusted "receive_id")
  && bool_decide (text_of origin "receive_id_type" = text_of trusted "receive_id_type")
  && bool_decide (text_of origin "thread_id" = text_of trusted "thread_id").

Definition execute_schedule_remove (s : gateway) (session_id : string) (args : list (string * text)) (trusted : dict)
    : gateway * result InteractionResponse :=
  if negb (cw_has_schedules w) then (s, Return (response session_id "任务服务未启用"))
  else
    let task_id := utf8_encode (arg args "task_id") in
    match get (gw_db s) task_id with
    | Raise _ => (s, Return (response session_id "任务不存在"))
    | Return task =>
        if negb (origin_matches task trusted) then (s, Return (response session_id "任务不存在"))
        else let '(s, r) := on_db s (ScheduleService.delete (gw_db s) task_id) in
             (s, let? _ := r in Return (response session_id "已删除"))
    end.

Definition denied (session_id : string) : InteractionResponse := response session_id "操作被拒绝".

(** The request the policy is asked about an action. *)
Definition inbound (k : GatewaySessionKey) (actor : option string) (action : ConfirmationAction.t) (bootstrap : bool)
    (session_id : option string) : GatewayInboundRequest :=
  mkInboundRequest k actor (Some action) bootstrap true session_id (cw_require_actor w).
Definition is_denied (r : GatewayInboundRequest) : bool := bool_decide (acc_verdict (evaluate_inbound r) = PolicyOutcome.DENY).

Definition or_none (s : string) : option string := if truthy_str s then Some s else None.
Definition is_new (a : ConfirmationAction.t) : bool := bool_decide (a = ConfirmationAction.NEW).

(** [_execute]; the wording of a denial leaves out its reason. *)
Definition execute (s : gateway) (action : ConfirmationAction.t) (k : GatewaySessionKey) (actor : option string)
    (session_id : string) (args : list (string * text)) (trusted : dict) : gateway * result InteractionResponse :=
  if is_denied (inbound k actor action (is_new action && bool_decide (actor = None)) (or_none session_id))
  then (s, Return (denied session_id))
  else
    match action with
    | ConfirmationAction.NEW => execute_new s k
    | ConfirmationAction.RENAME =>
        let '(s, r) := on_db s (rename_session (gw_db s) session_id (Some (arg args "title"))) in
        (s, let? _ := r in Return (response session_id ("已重命名为 " +:+ utf8_encode (arg args "title"))))
    | ConfirmationAction.DELETE =>
        let s := s <| gw_db := (gw_db s) <| db_gateway := delete_session_link (db_gateway (gw_db s)) session_id |> |> in
        let '(d, _, r) := service_delete_session (cw_session_service w) (gw_db s) session_id in
        let s := s <| gw_db := d |> in
        match r with Raise e => (s, Raise e) | Return _ => execute_new s k end
    | ConfirmationAction.SCHEDULE_REMOVE => execute_schedule_remove s session_id args trusted
    end.

(** The confirmation a command waits for. *)
Definition confirmation_of (e : InteractionMessage) (actor_id session_id : string) (action : ConfirmationAction.t)
    (args : list (string * text)) : ConfirmationRequest.t :=
  ConfirmationRequest.mk ("confirm-" +:+ new_confirmation ids) (msg_key e) actor_id session_id session_id action
    (strip_text (msg_text e)) args now (now + seconds (cw_confirmation_ttl w)) (build_trusted_metadata e).

Definition ConfirmationAction_value (a : ConfirmationAction.t) : string :=
  match a with
  | ConfirmationAction.NEW => "new" | ConfirmationAction.RENAME => "rename" | ConfirmationAction.DELETE => "delete"
  | ConfirmationAction.SCHEDULE_REMOVE => "schedule_remove"
  end.
(** [_confirmation_metadata] *)
Definition confirmation_metadata (c : ConfirmationRequest.t) : dict :=
  [("id", JStr (ConfirmationRequest.id c)); ("action", JStr (ConfirmationAction_value (ConfirmationRequest.action c)));
   ("command", JStr (utf8_encode (ConfirmationRequest.command c)));
   ("expires_at", JStr (cw_isoformat w (ConfirmationRequest.expires_at c)));
   ("platform_session_id", JStr (platform_session_id (ConfirmationRequest.session_key c)));
   ("thread_id", JStr (thread_id (ConfirmationRequest.session_key c)))].

(** The actor a command is asked by. *)
Definition asking_actor (e : InteractionMessage) : string :=
  match actor_value (msg_metadata e) with
  | Some a => a
  | None => if truthy_str (key_display_name (msg_key e)) then key_display_name (msg_key e)
            else platform_session_id (msg_key e)
  end.

(** [handle_destructive_preflight]; [None] when the text is not such a command. *)
Definition handle_destructive_preflight (s : gateway) (e : InteractionMessage)
    : gateway * option (result InteractionResponse) :=
  match parse_destructive_command (msg_text e) with
  | None => (s, None)
  | Some (action, args) =>
      let active := get_active_session (db_gateway (gw_db s)) (msg_key e) in
      if negb (is_new action) && bool_decide (active = None)
      then (s, Some (Return (response "" "没有当前会话，请先发送普通消息或使用 /new 创建会话")))
      else
        let session_id := from_option SessionLink.session_id "" active in
        let actor := actor_value (msg_metadata e) in
        let bootstrap := bool_decide (actor = None) && is_new action in
        if is_denied (inbound (msg_key e) actor action bootstrap (or_none session_id))
        then (s, Some (Return (denied session_id)))
        else if bootstrap then let '(s, r) := execute_new s (msg_key e) in (s, Some r)
        else
          let actor_id := asking_actor e in
          if bool_decide (trust_key (msg_key e) actor_id ∈ gw_trusted s)
          then let '(s, r) := execute s action (msg_key e) actor session_id args (build_trusted_metadata e) in (s, Some r)
          else
            let s := cleanup_expired s in
            let c := confirmation_of e actor_id session_id action args in
            (s <| gw_pending := <[ConfirmationRequest.id c := c]> (gw_pending s) |>,
             Some (Return (response_with session_id ("请确认执行 " +:+ utf8_encode (ConfirmationRequest.command c))
                             [("confirmation", JObj (confirmation_metadata c))])))
  end.

(** [handle_confirmation], up to its callback: the confirmation taken, or the answer. *)
Definition take_confirmation (s : gateway) (k : GatewaySessionKey) (actor_id confirmation_id : string)
    : gateway * (InteractionResponse + ConfirmationRequest.t) :=
  let s := cleanup_expired s in
  let drop s := s <| gw_pending := delete confirmation_id (gw_pending s) |> in
  match gw_pending s !! confirmation_id with
  | None => (drop s, inl (response "" "确认已失效"))
  | Some c =>
      if ConfirmationRequest.expires_at c <=? now then (drop s, inl (response "" "确认已失效"))
      else if negb (bool_decide (conversation_parts (ConfirmationRequest.session_key c) = conversation_parts k))
      then (s, inl (response (ConfirmationRequest.session_id c) "确认已失效"))
      else if negb (bool_decide (ConfirmationRequest.actor_id c = actor_id))
      then (s, inl (response (ConfirmationRequest.session_id c) "只有命令发起者可以确认"))
      else
        let s := drop s in
        if is_denied (inbound k (Some actor_id) (ConfirmationRequest.action c) false (Some (ConfirmationRequest.session_id c)))
        then (s, inl (denied (ConfirmationRequest.session_id c)))
        else (s, inr c)
  end.

(** The rest of it. *)
Definition run_confirmed (s : gateway) (c : ConfirmationRequest.t) (k : GatewaySessionKey) (actor_id : string)
    (choice : ConfirmationChoice.t) : gateway * result InteractionResponse :=
  if bool_decide (choice = ConfirmationChoice.CANCEL)
  then (s, Return (response (ConfirmationRequest.session_id c) "已取消"))
  else
    let s := if bool_decide (choice = ConfirmationChoice.TRUST_SESSION)
             then s <| gw_trusted := {[trust_key k actor_id]} ∪ gw_trusted s |> else s in
    execute s (ConfirmationRequest.action c) k None (ConfirmationRequest.session_id c)
      (ConfirmationRequest.args c) (ConfirmationRequest.trusted_metadata c).

(** [consumed] is what the caller's callback does while it is awaited, the calls of
    other coroutines included. *)
Definition handle_confirmation (s : gateway) (k : GatewaySessionKey) (actor_id confirmation_id : string)
    (choice : ConfirmationChoice.t) (consumed : gateway -> gateway * result unit) : gateway * result InteractionResponse :=
  match take_confirmation s k actor_id confirmation_id with
  | (s, inl r) => (s, Return r)
  | (s, inr c) =>
      match consumed s with
      | (s, Raise e) => (s, Raise e)
      | (s, Return _) => run_confirmed s c k actor_id choice
      end
  end.

Definition discard_confirmation (s : gateway) (confirmation_id : string) : gateway :=
  s <| gw_pending := delete confirmation_id (gw_pending s) |>.

(** ** The other commands *)

(** [_schedule_origin] *)
Definition schedule_origin (s : gateway) (e : InteractionMessage) : gateway * dict :=
  match platform_of (msg_key e) with
  | Some Platform.FEISHU =>
      let home := [("platform", JStr "feishu"); ("target", JStr "home")] in
      match get_home_target (db_gateway (gw_db s)) Platform.FEISHU with
      | Some _ => (s, home)
      | None => ((on_gateway s (set_home_target (db_gateway (gw_db s)) (home_target_from_event e Platform.FEISHU))).1, home)
      end
  | platform =>
      let origin := match platform with
                    | Some p => dict_set "platform" (JStr (Platform.value p)) (msg_metadata e)
                    | None => dict_set "source" (JStr (key_source (msg_key e))) (msg_metadata e)
                    end in
      (s, match obj_get "thread_id" origin with
          | Some _ => origin
          | None => dict_set "thread_id" (JStr (thread_id (msg_key e))) origin
          end)
  end.

Definition SCHEDULE_ADD_USAGE : string := "用法: /schedule add <cron> <prompt> [--tools <csv>]".

(** [_handle_schedule] *)
Definition handle_schedule (s : gateway) (arg : text) (e : InteractionMessage) (session_id : string)
    : gateway * result InteractionResponse :=
  let answer s content := (s, Return (response session_id content)) in
  if negb (cw_has_schedules w) then answer s "任务服务未启用"
  else
    let '(action, rest) := partition_space (strip_text arg) in
    let verb a := bool_decide (action = ascii_text a) in
    let task_id := utf8_encode (strip_text rest) in
    if bool_decide (action = []) || verb "help" then
      answer s "用法: /schedule add <cron> <prompt> [--tools <csv>] | list | pause <id> | resume <id> | run <id> | remove <id>"
    else if verb "add" then
      match parse_schedule_add rest with
      | None => answer s SCHEDULE_ADD_USAGE
      | Some (cron, prompt, allowed) =>
          let '(s, origin) := schedule_origin s e in
          let '(s, r) := on_db s (create (cw_calculator w) (cw_platform_status w) (cw_has_delivery w) (gw_db s)
            (mkCreateInput (take 40 prompt) (utf8_encode prompt) (utf8_encode cron) "Asia/Shanghai" "origin" origin None
               (map utf8_encode allowed) None) now (new_schedule ids)) in
          (s, let? task := r in Return (response session_id ("已创建任务 " +:+ ScheduledTask.id task)))
      end
    else if verb "list" then
      answer s (lines (map (fun t => ScheduledTask.id t +:+ " " +:+ ScheduledTask.name t +:+ " "
                                     +:+ cw_isoformat w (ScheduledTask.next_run_at t)) (list_rows (db_schedules (gw_db s)))) "暂无任务")
    else if verb "pause" then
      let '(s, r) := on_db s (pause (gw_db s) task_id now) in (s, let? _ := r in Return (response session_id "已暂停"))
    else if verb "resume" then
      let '(s, r) := on_db s (resume (cw_calculator w) (gw_db s) task_id now) in
      (s, let? _ := r in Return (response session_id "已恢复"))
    else if verb "run" then
      let '(s, r) := on_db s (service_run_now (cw_run w) (gw_db s) task_id now (recovery_sessions ids).1
                                (recovery_sessions ids).2 (new_claim ids)) in
      (s, let? claim := r in Return (response session_id (cw_claim_text w claim)))
    else if verb "remove" && negb (has_args rest) then answer s "用法: /schedule remove <id>"
    else answer s "未知 /schedule 命令".

(** [_handle_compress] *)
Definition handle_compress (s : gateway) (session_id : string) : gateway * result InteractionResponse :=
  match cw_compress w with
  | None => (s, Return (response session_id "上下文压缩未启用"))
  | Some compress =>
      let '(s, r) := on_db s (compress session_id (gw_db s)) in
      (s, let? status := r in
          let reason := py_str (json_or (compress_reason status) (JStr "")) in
          Return (response session_id
            (if compressed status then "已压缩上下文"
             else if bool_decide (reason = "context_engine_unavailable") then "上下文压缩未启用"
             else if bool_decide (reason = "no_change") then "上下文无需压缩（消息过少或已在保护范围内）"
             else if truthy_str reason then "压缩未执行: " +:+ reason else "压缩未执行")))
  end.

Definition HELP : string :=
  "可用命令: /help, /new, /rename <title>, /delete, /switch <session_id>, /sessions, /tools, /models, /status, /compress, /sethome, /schedule help".

(** [handle]; [None] when the text is not a command. *)
Definition handle (s : gateway) (e : InteractionMessage) (session_id : string)
    : gateway * option (result InteractionResponse) :=
  let t := strip_text (msg_text e) in
  if negb (starts_slash t) then (s, None)
  else
    let '(command, arg) := partition_space t in
    let verb c := bool_decide (command = ascii_text c) in
    let answer content := (s, Some (Return (response session_id content))) in
    let some (r : gateway * result InteractionResponse) := (r.1, Some r.2) in
    if verb "/help" then answer HELP
    else if verb "/sethome" then
      match platform_of (msg_key e) with
      | None => answer "当前入口不支持 home chat"
      | Some p =>
          let target := home_target_from_event e p in
          ((on_gateway s (set_home_target (db_gateway (gw_db s)) target)).1,
           Some (Return (response session_id ("已设置 " +:+ Platform.value p +:+ " home chat: " +:+ HomeTarget.receive_id target))))
      end
    else if verb "/rename" && negb (has_args arg) then answer "用法: /rename <title>"
    else if verb "/switch" then
      if negb (has_args arg) then answer "用法: /switch <session_id>"
      else some (let '(s, r) := on_gateway s (set_active_session (db_gateway (gw_db s)) (msg_key e)
                                  (utf8_encode (strip_text arg)) now (new_link ids)) in
                 (s, let? link := r in
                     Return (response (SessionLink.session_id link) ("已切换到会话 " +:+ SessionLink.session_id link))))
    else if verb "/sessions" then
      answer (match list_session_links (db_gateway (gw_db s)) (msg_key e) with
              | [] => "暂无会话"
              | links => String.concat (String (ascii_of_nat 10) "") (map SessionLink.session_id links)
              end)
    else if verb "/tools" then answer (lines (cw_tool_names w) "暂无工具")
    else if verb "/models" then answer (lines (cw_model_ids w) "暂无模型")
    else if verb "/status" then answer (cw_health w)
    else if verb "/compress" then some (handle_compress s session_id)
    else if verb "/schedule" then some (handle_schedule s arg e session_id)
    else answer "未知命令，输入 /help 查看可用命令".
End commands.
