(* ===== verification/GatewayChat.v ===== *)
(** The chat gateway (app/application/gateway_service.py, GatewayService) and the
    platform service (app/application/platform_service.py).

    A message is first marked as processed, then passed by the policy, the destructive
    commands, the session of its conversation, the other commands, and last the chat
    service, which is an argument: a function of the request and the state.  Telemetry
    is left out. *)
From S2P Require Import Prelude Json Repr Unicode GatewayStore Schedules SessionStore SessionService ScheduleDelivery ScheduleRun ToolGrants GatewayCommands.
From stdpp Require Import gmap.
Open Scope Z_scope.

Record chat_request := mkChatRequest {
  rq_session_id : string;
  rq_content : json;
  rq_stream : bool;
  rq_actor_id : string;
  rq_gateway : dict;
  rq_trusted : dict;
  rq_grants : option (gset string)
}.

(** The completion's session and the content of its message. *)
Record chat_result := mkChatResult { res_session_id : string; res_content : json }.

Inductive ChatEvent : Type :=
  | MessageDone (content finish_reason : string) (metadata : dict)
  | StreamError (error : string)
  | Done (metadata : dict)
  | Streamed (event : json).

(** [_gateway_metadata] *)
Definition gateway_metadata (e : InteractionMessage) : dict :=
  let k := msg_key e in
  [("source", JStr (key_source k)); ("platform_session_id", JStr (platform_session_id k)); ("thread_id", JStr (thread_id k))]
  ++ match platform_of k with Some p => [("platform", JStr (Platform.value p))] | None => [] end.

(** [_content_from_interaction] *)
Definition content_from_interaction (e : InteractionMessage) : json :=
  match msg_images e with
  | [] => JStr (utf8_encode (msg_text e))
  | urls =>
      JArr ((if bool_decide (msg_text e = []) then []
             else [JObj [("type", JStr "text"); ("text", JStr (utf8_encode (msg_text e)))]])
            ++ map (fun url => JObj [("type", JStr "image_url"); ("image_url", JObj [("url", JStr url)])]) urls)
  end.

(** [_first_message_content] *)
Definition first_message_content (r : InteractionResponse) : string :=
  match resp_messages r with m :: _ => out_content m | [] => "" end.

(** [d.update(more)] *)
Definition dict_update (d more : dict) : dict := foldl (fun d p => dict_set p.1 p.2 d) d more.

Section service.
Context (w : command_wiring) (now : Z).

(** [_resolve_session_id] *)
Definition verified_address (e : InteractionMessage) : bool :=
  let k := msg_key e in
  let md := msg_metadata e in
  bool_decide (platform_of k = Some Platform.FEISHU) && truthy_str (platform_session_id k)
  && has_text md "platform" (key_source k) && has_text md "receive_id" (platform_session_id k)
  && has_text md "receive_id_type" "chat_id".

Definition resolve_session_id (ids : drawn) (s : gateway) (e : InteractionMessage) : gateway * result string :=
  let '(s, r) := match get_active_session (db_gateway (gw_db s)) (msg_key e) with
                 | Some link => (s, Return (SessionLink.session_id link))
                 | None => new_linked_session w now ids s (msg_key e)
                 end in
  match r with
  | Raise x => (s, Raise x)
  | Return session_id =>
      (if verified_address e
       then s <| gw_db := (gw_db s) <| db_gateway := record_delivery_address (db_gateway (gw_db s)) (msg_key e) "chat_id" |> |>
       else s, Return session_id)
  end.

(** [_evaluate_ordinary_message_policy]: whether the message is denied. *)
Definition ordinary_denied (e : InteractionMessage) : bool :=
  negb (is_destructive_command (msg_text e))
  && is_denied (mkInboundRequest (msg_key e) (actor_value (msg_metadata e)) None false true None (cw_require_actor w)).

Definition slash_with_images (e : InteractionMessage) : bool :=
  starts_slash (strip_text (msg_text e)) && negb (bool_decide (msg_images e = [])).

Definition message_id_of (e : InteractionMessage) : string := py_str (default (JStr "") (obj_get "message_id" (msg_metadata e))).

Definition mark_processed (s : gateway) (e : InteractionMessage) : gateway * bool :=
  on_gateway s (mark_event_processed (db_gateway (gw_db s)) (key_source (msg_key e)) (msg_id e) (message_id_of e)).

(** What precedes the chat service: the answer, or the session of the conversation.
    The link between [ids], used for a new session, and [ids'], used by the command. *)
Inductive routed : Type :=
  | Refused (r : InteractionResponse)
  | Preflight (r : InteractionResponse)
  | Commanded (r : InteractionResponse)
  | Ordinary (session_id : string).

Definition route (ids ids' : drawn) (s : gateway) (e : InteractionMessage) : gateway * result routed :=
  if slash_with_images e then (s, Return (Refused (response "" "slash 命令不支持附带图片")))
  else if ordinary_denied e then (s, Return (Refused (denied "")))
  else
    match handle_destructive_preflight w now ids s e with
    | (s, Some r) => (s, let? r := r in Return (Preflight r))
    | (s, None) =>
        match resolve_session_id ids s e with
        | (s, Raise x) => (s, Raise x)
        | (s, Return session_id) =>
            match handle w now ids' s e session_id with
            | (s, Some r) => (s, let? r := r in Return (Commanded r))
            | (s, None) => (s, Return (Ordinary session_id))
            end
        end
    end.

Definition request_of (s : gateway) (e : InteractionMessage) (session_id : string) (stream : bool) (trusted : dict)
    (granted : option (gset string)) : chat_request :=
  mkChatRequest session_id (content_from_interaction e) stream (actor_id_of e) (gateway_metadata e) trusted granted.

(** [_handle_message] *)
Definition handle_message (chat : chat_request -> gateway -> gateway * result chat_result) (ids ids' : drawn)
    (s : gateway) (e : InteractionMessage) : gateway * result InteractionResponse :=
  match mark_processed s e with
  | (s, false) => (s, Return (mkResponse "" [] [("duplicate", JBool true)]))
  | (s, true) =>
      match route ids ids' s e with
      | (s, Raise x) => (s, Raise x)
      | (s, Return (Refused r | Preflight r | Commanded r)) => (s, Return r)
      | (s, Return (Ordinary session_id)) =>
          let '(s, r) := chat (request_of s e session_id false (build_trusted_metadata e)
                                 (Some (grants_for (gw_grants s) session_id (actor_id_of e)))) s in
          (s, let? c := r in Return (response (res_session_id c) (py_str (res_content c))))
      end
  end.

(** [_handle_message_stream]: the events until the stream ends.  The chat service may
    answer with no stream. *)
Definition handle_message_stream (chat : chat_request -> gateway -> gateway * option (list json)) (ids ids' : drawn)
    (trusted_override : dict) (granted : option (gset string)) (s : gateway) (e : InteractionMessage)
    : gateway * result (list ChatEvent) :=
  match mark_processed s e with
  | (s, false) => (s, Return [Done [("duplicate", JBool true)]])
  | (s, true) =>
      match route ids ids' s e with
      | (s, Raise x) => (s, Raise x)
      | (s, Return (Refused r)) => (s, Return [MessageDone (first_message_content r) "stop" []; Done []])
      | (s, Return (Preflight r)) =>
          let metadata := match resp_messages r with m :: _ => out_metadata m | [] => [] end in
          (s, Return [MessageDone (first_message_content r) "confirmation_required" metadata; Done []])
      | (s, Return (Commanded r)) =>
          (s, Return (map (fun m => MessageDone (out_content m) "stop" (out_metadata m)) (resp_messages r) ++ [Done []]))
      | (s, Return (Ordinary session_id)) =>
          let trusted := dict_update (build_trusted_metadata e) trusted_override in
          match chat (request_of s e session_id true trusted granted) s with
          | (s, None) => (s, Return [StreamError "chat service did not return stream iterator"; Done []])
          | (s, Some events) => (s, Return (map Streamed events))
          end
      end
  end.
End service.

Definition owns_confirmation (s : gateway) (confirmation_id : string) : bool :=
  bool_decide (is_Some (gw_pending s !! confirmation_id)).
Definition grant_tool_for_session (s : gateway) (session_id actor_id tool_name : string) : gateway :=
  s <| gw_grants := (grant_session (gw_grants s) session_id actor_id tool_name).1 |>.
Definition is_tool_granted (s : gateway) (session_id actor_id tool_name : string) : bool :=
  is_granted (gw_grants s) session_id actor_id tool_name.

(** * The platform service *)

Module PlatformDescriptor.
Record t : Type := mk { platform : Platform.t; display_name : string; config_summary : dict }.
End PlatformDescriptor.

(** A lifecycle: whether it is connected, and its fatal error. *)
Record PlatformLifecycle := mkLifecycle { is_connected : bool; fatal_error : option (string * string) }.

Record PlatformView := mkPlatformView {
  pv_platform : Platform.t;
  pv_display_name : string;
  pv_status : string;
  pv_error_code : option string;
  pv_error_message : option string;
  pv_config_summary : dict;
  pv_session_count : Z;
  pv_last_active_at : option Z
}.

Section platforms.
Context (descriptors : list PlatformDescriptor.t) (lifecycle : Platform.t -> option PlatformLifecycle).

(** [_compose_status] *)
Definition compose_status (descriptor : option PlatformDescriptor.t) (l : option PlatformLifecycle)
    : string * option string * option string :=
  match descriptor, l with
  | None, _ => ("disabled", None, None)
  | Some _, None => ("configured", None, None)
  | Some _, Some l =>
      match fatal_error l with
      | Some (code, message) => ("fatal", Some code, Some message)
      | None => (if is_connected l then "connected" else "disconnected", None, None)
      end
  end.

Definition descriptor_of (p : Platform.t) : option PlatformDescriptor.t :=
  List.find (fun x => bool_decide (PlatformDescriptor.platform x = p)) descriptors.

(** [_view] *)
Definition view (g : gdb) (x : PlatformDescriptor.t) : PlatformView :=
  let p := PlatformDescriptor.platform x in
  let '(status, code, message) := compose_status (Some x) (lifecycle p) in
  mkPlatformView p (PlatformDescriptor.display_name x) status code message (PlatformDescriptor.config_summary x)
    (count_conversations g p) (get_last_active g p).

Definition list_platforms (g : gdb) : list PlatformView := map (view g) descriptors.

(** [_parse_platform] *)
Definition parse_platform (s : string) : result Platform.t :=
  match Platform.of_value s with Some p => Return p | None => Raise PlatformInvalidError end.

Definition known_descriptor (s : string) : result (Platform.t * PlatformDescriptor.t) :=
  let? p := parse_platform s in
  match descriptor_of p with Some x => Return (p, x) | None => Raise PlatformNotFoundError end.

(** [get_platform]: the view, and of the first 100000 sessions how many are active. *)
Definition get_platform (g : gdb) (s : string) : result (PlatformView * Z * Z) :=
  let? (p, x) := known_descriptor s in
  let v := view g x in
  let active c := match Conversation.active_session_id c with Some i => truthy_str i | None => false end in
  Return (v, pv_session_count v, Z.of_nat (length (List.filter active (list_conversations g (Some p) 100000 0)))).

(** [list_platform_sessions], without the projections of the delivery service. *)
Definition list_platform_sessions (g : gdb) (s : string) (limit offset : Z) : result (list Conversation.t * Z) :=
  let? (p, _) := known_descriptor s in
  Return (list_conversations g (Some p) limit offset, count_conversations g p).

Definition get_platform_session (g : gdb) (s conversation_id : string) : result Conversation.t :=
  let? (p, _) := known_descriptor s in
  match get_conversation g conversation_id with
  | Some row => if bool_decide (Conversation.platform row = Platform.value p) then Return row else Raise PlatformNotFoundError
  | None => Raise PlatformNotFoundError
  end.
End platforms.
