(* ===== verification/GatewayHistory.v ===== *)
(** The chat gateway's confirmations: a destructive command of an actor that is not
    trusted waits, and what waits runs at most once, for the actor and the conversation
    it waits for and before it expires.

    A history is any order of messages, confirmations that are taken, their runs after the
    caller's callback, and whatever other parts do to the database meanwhile.  Each
    confirmation is asked for, taken and run at most once, in that order. *)
From S2P Require Import Prelude Json GatewayStore Schedules Repr ScheduleDelivery Unicode SessionStore SessionService ScheduleRun ScheduleService ToolGrants GatewayCommands GatewayChat.
From stdpp Require Import gmap.
Open Scope Z_scope.

(** * What leaves the confirmations alone *)

Definition asks (s : gateway) := (gw_pending s, gw_trusted s, gw_grants s).

Section props.
Context (w : command_wiring).

Lemma on_gateway_asks {A} s (r : gdb * A) : asks (on_gateway s r).1 = asks s.
Proof. done. Qed.
Lemma on_db_asks {A} s (r : database * A) : asks (on_db s r).1 = asks s.
Proof. done. Qed.

Lemma new_linked_asks now ids s k : asks (new_linked_session w now ids s k).1 = asks s.
Proof. unfold new_linked_session. by destruct (session_id_prefix_and_source k). Qed.

Lemma execute_new_asks now ids s k : asks (execute_new w now ids s k).1 = asks s.
Proof.
  unfold execute_new. rewrite <- (new_linked_asks now ids s k). by destruct (new_linked_session w now ids s k).
Qed.

Lemma schedule_remove_asks s i args trusted : asks (execute_schedule_remove w s i args trusted).1 = asks s.
Proof. unfold execute_schedule_remove. destruct (negb _); [done|]. destruct (get _ _); [|done]. by destruct (negb _). Qed.

Lemma execute_asks now ids s a k actor i args trusted : asks (execute w now ids s a k actor i args trusted).1 = asks s.
Proof.
  unfold execute. destruct (is_denied _); [done|]. destruct a.
  - apply execute_new_asks.
  - done.
  - destruct (service_delete_session _ _ _) as [[d ev] [u|e]]; [|done]. by rewrite execute_new_asks.
  - apply schedule_remove_asks.
Qed.

Lemma handle_schedule_asks now ids s a e i : asks (handle_schedule w now ids s a e i).1 = asks s.
Proof.
  unfold handle_schedule. destruct (negb _); [done|]. destruct (partition_space _) as [action rest]. cbv zeta.
  destruct (_ || _); [done|]. destruct (bool_decide _).
  { destruct (parse_schedule_add rest) as [[[cron prompt] allowed]|]; [|done]. unfold schedule_origin.
    destruct (platform_of _) as [[]|]; try done. by destruct (get_home_target _ _). }
  repeat (destruct (bool_decide _); [done|]). by destruct (_ && _).
Qed.

Lemma handle_asks now ids s e i : asks (handle w now ids s e i).1 = asks s.
Proof.
  unfold handle. destruct (negb _); [done|]. destruct (partition_space _) as [command arg]. cbv zeta.
  destruct (bool_decide _); [done|]. destruct (bool_decide _); [by destruct (platform_of _)|].
  destruct (_ && _); [done|]. destruct (bool_decide _); [by destruct (negb _)|].
  repeat (destruct (bool_decide _); [done|]). destruct (bool_decide _).
  { unfold handle_compress. by destruct (cw_compress w). }
  destruct (bool_decide _); [apply handle_schedule_asks|done].
Qed.

Lemma resolve_asks now ids s e : asks (resolve_session_id w now ids s e).1 = asks s.
Proof.
  unfold resolve_session_id. destruct (get_active_session _ _); [by destruct (verified_address e)|].
  rewrite <- (new_linked_asks now ids s (msg_key e)). destruct (new_linked_session _ _ _ _ _) as [s' [i|x]]; [|done].
  by destruct (verified_address e).
Qed.

(** * Asking *)

(** The command of [e] that now waits as [c]. *)
Definition asked_by (e : InteractionMessage) (now : Z) (ids : drawn) (c : ConfirmationRequest.t) : Prop :=
  exists action args i, parse_destructive_command (msg_text e) = Some (action, args)
  /\ c = confirmation_of w now ids e (asking_actor e) i action args.

Definition bootstraps (e : InteractionMessage) : bool :=
  match parse_destructive_command (msg_text e) with
  | Some (action, _) => bool_decide (actor_value (msg_metadata e) = None) && is_new action
  | None => false
  end.

Definition trusts (s : gateway) (e : InteractionMessage) : bool :=
  bool_decide (trust_key (msg_key e) (asking_actor e) ∈ gw_trusted s).

(** A destructive command is answered at once, run at once for an actor without a
    session of its own or one that is trusted, or put with those that wait. *)
Lemma preflight_cases now ids s e :
  let '(s', r) := handle_destructive_preflight w now ids s e in
  (parse_destructive_command (msg_text e) = None /\ r = None /\ s' = s)
  \/ (exists a, parse_destructive_command (msg_text e) = Some a) /\ is_Some r /\
     (s' = s
      \/ (bootstraps e || trusts s e = true /\ asks s' = asks s)
      \/ (trusts s e = false /\ exists c, asked_by e now ids c
          /\ s' = (cleanup_expired now s) <| gw_pending := <[ConfirmationRequest.id c := c]> (gw_pending (cleanup_expired now s)) |>)).
Proof.
  unfold handle_destructive_preflight, bootstraps, trusts, asked_by.
  destruct (parse_destructive_command (msg_text e)) as [[action args]|]; [|by left].
  destruct (_ && bool_decide (_ = None)). { right. split; [by eexists|]. split; [done|]. by left. }
  destruct (is_denied _). { right. split; [by eexists|]. split; [done|]. by left. }
  destruct (bool_decide (actor_value _ = None) && is_new action) eqn:Hb.
  { pose proof (execute_new_asks now ids s (msg_key e)) as Ha. destruct (execute_new _ _ _ _ _) as [s' r].
    right. split; [by eexists|]. split; [done|]. right; left. by split. }
  destruct (bool_decide (trust_key _ _ ∈ _)) eqn:Ht.
  { set (i := from_option _ _ _).
    pose proof (execute_asks now ids s action (msg_key e) (actor_value (msg_metadata e)) i args (build_trusted_metadata e)) as Ha.
    destruct (execute _ _ _ _ _ _ _ _ _ _) as [s' r]. right. split; [by eexists|]. split; [done|]. right; left. split; [|done].
    by rewrite orb_true_r. }
  right. split; [by eexists|]. split; [done|]. right; right. split; [done|]. eexists. split; [by eexists _, _, _|]. done.
Qed.

(** The state but for the events marked. *)
Definition unmarked (s : gateway) : gateway :=
  s <| gw_db := (gw_db s) <| db_gateway := (db_gateway (gw_db s)) <| processed_events := [] |> |> |>.

Lemma mark_processed_unmarked s e : unmarked (mark_processed s e).1 = unmarked s.
Proof. unfold mark_processed, mark_event_processed, unmarked. by destruct (existsb _ _). Qed.

Lemma mark_processed_asks s e : asks (mark_processed s e).1 = asks s.
Proof. done. Qed.

Lemma destructive_parses t : is_destructive_command t = true -> exists a, parse_destructive_command t = Some a.
Proof. unfold is_destructive_command. intros [_ [a Ha]%bool_decide_eq_true]%andb_true_iff. by exists a. Qed.

(** C23. A destructive command of an actor that is not trusted does nothing by itself.  But
    for the mark of its event the databases, the trusted actors and the tool grants stay
    as they were; at most one confirmation is added, which names the command as it was
    read, its conversation and its actor, and expires after the time to live; and the
    chat service is not called.  (A first session is created without one.) *)
Theorem destructive_command_waits chat now ids ids' s e :
  is_destructive_command (msg_text e) = true -> bootstraps e = false -> trusts s e = false ->
  let s' := (handle_message w now chat ids ids' s e).1 in
  gw_db (unmarked s') = gw_db (unmarked s) /\ gw_trusted s' = gw_trusted s /\ gw_grants s' = gw_grants s
  /\ (forall i c, gw_pending s' !! i = Some c -> gw_pending s !! i = Some c
        \/ i = "confirm-" +:+ new_confirmation ids /\ asked_by e now ids c
            /\ conversation_parts (ConfirmationRequest.session_key c) = conversation_parts (msg_key e)
            /\ ConfirmationRequest.actor_id c = asking_actor e
            /\ ConfirmationRequest.expires_at c = now + seconds (cw_confirmation_ttl w))
  /\ forall chat', handle_message w now chat' ids ids' s e = handle_message w now chat ids ids' s e.
Proof.
  intros Hd Hb Ht s'. assert (Hroute : forall s, trusts s e = false ->
    exists r, (route w now ids ids' s e).2 = r /\ (forall i, r <> Return (Ordinary i))
      /\ gw_db (route w now ids ids' s e).1 = gw_db s /\ gw_trusted (route w now ids ids' s e).1 = gw_trusted s
      /\ gw_grants (route w now ids ids' s e).1 = gw_grants s
      /\ forall i c, gw_pending (route w now ids ids' s e).1 !! i = Some c -> gw_pending s !! i = Some c
          \/ i = "confirm-" +:+ new_confirmation ids /\ asked_by e now ids c).
  { clear -Hd Hb. intros s Ht. eexists. split; [done|]. unfold route. destruct (slash_with_images e).
    { repeat (split; [done|]). intros. by left. }
    unfold ordinary_denied. rewrite Hd. cbn [negb andb]. pose proof (preflight_cases now ids s e) as H.
    destruct (handle_destructive_preflight _ _ _ _ _) as [s' r].
    destruct H as [(Hp & _ & _)|(_ & [r' ->] & Hs)].
    { destruct (destructive_parses _ Hd) as [a Ha]. congruence. }
    split; [intros i; by destruct r'|]. cbn [fst]. destruct Hs as [->|[[Hbt _]|(_ & c & Hc & ->)]].
    - repeat (split; [done|]). intros. by left.
    - by rewrite Hb, Ht in Hbt.
    - repeat (split; [done|]). cbn. intros i c' [[<- ->]|[_ [H _]%map_lookup_filter_Some]]%lookup_insert_Some; [right|by left].
      split; [|done]. by destruct Hc as (a & b & j & _ & ->). }
  pose proof (mark_processed_unmarked s e) as Hm. pose proof (mark_processed_asks s e) as Ha.
  unfold s', handle_message. destruct (mark_processed s e) as [s1 b]. cbn [fst] in *. injection Ha as Hp1 Ht1 Hg1.
  destruct b.
  2: { cbn [fst]. split; [by rewrite Hm|]. split; [done|]. split; [done|]. rewrite Hp1. split; [|done]. intros. by left. }
  destruct (Hroute s1) as (r & Hr & Hord & Hdb & Htr & Hgr & Hpend). { unfold trusts in *. by rewrite Ht1. }
  destruct (route w now ids ids' s1 e) as [s2 r2]. cbn [fst snd] in *. subst r2.
  assert (Hs2 : gw_db (unmarked s2) = gw_db (unmarked s)).
  { rewrite <- Hm. unfold unmarked. cbn. by rewrite Hdb. }
  assert (Hrest : gw_db (unmarked s2) = gw_db (unmarked s) /\ gw_trusted s2 = gw_trusted s /\ gw_grants s2 = gw_grants s
    /\ forall i c, gw_pending s2 !! i = Some c -> gw_pending s !! i = Some c
        \/ i = "confirm-" +:+ new_confirmation ids /\ asked_by e now ids c
            /\ conversation_parts (ConfirmationRequest.session_key c) = conversation_parts (msg_key e)
            /\ ConfirmationRequest.actor_id c = asking_actor e
            /\ ConfirmationRequest.expires_at c = now + seconds (cw_confirmation_ttl w)).
  { split; [done|]. split; [congruence|]. split; [congruence|]. intros i c Hi. destruct (Hpend i c Hi) as [H|[-> Hc]].
    - left. congruence.
    - right. split; [done|]. split; [done|]. by destruct Hc as (a & b & j & _ & ->). }
  destruct r as [[r|r|r|i]|x]; cbn [fst]; try by destruct Hrest as (? & ? & ? & ?).
  by destruct (Hord i).
Qed.
End props.

(** * Steps *)

(** [GRun] and [GRaise] are what follows the callback of the n-th confirmation taken:
    its run, or the exception of the callback. *)
Inductive gw_step : Type :=
  | GMessage (e : InteractionMessage) (now : Z) (ids ids' : drawn)
  | GTake (k : GatewaySessionKey) (actor_id confirmation_id : string) (now : Z)
  | GRun (n : nat) (choice : ConfirmationChoice.t) (now : Z) (ids : drawn)
  | GRaise (n : nat)
  | GDiscard (confirmation_id : string)
  | GGrant (session_id actor_id tool_name : string)
  | GDatabase (f : database -> database).

Inductive gw_event : Type :=
  | Asked (c : ConfirmationRequest.t)
  | Taken (c : ConfirmationRequest.t) (k : GatewaySessionKey) (actor_id : string) (now : Z)
  | Ran (c : ConfirmationRequest.t) (k : GatewaySessionKey) (actor_id : string) (choice : ConfirmationChoice.t).

Record world := mkWorld {
  wo_gateway : gateway;
  wo_taken : list (ConfirmationRequest.t * GatewaySessionKey * string)
}.

Notation confirmation_id_of ids := ("confirm-" +:+ new_confirmation ids).

Section history.
Context (w : command_wiring).

(** A message until the chat service is called. *)
Definition receive (now : Z) (ids ids' : drawn) (s : gateway) (e : InteractionMessage) : gateway :=
  match mark_processed s e with
  | (s, false) => s
  | (s, true) => (route w now ids ids' s e).1
  end.

Lemma handle_message_receives now ids ids' s e r :
  (handle_message w now (fun _ s => (s, r)) ids ids' s e).1 = receive now ids ids' s e.
Proof.
  unfold handle_message, receive. destruct (mark_processed s e) as [s1 []]; [|done].
  by destruct (route w now ids ids' s1 e) as [s2 [[]|]].
Qed.

Definition gw_exec (d : world) (o : gw_step) : world * list gw_event :=
  let s := wo_gateway d in
  match o with
  | GMessage e now ids ids' =>
      let s' := receive now ids ids' s e in
      (mkWorld s' (wo_taken d),
       match gw_pending s !! confirmation_id_of ids, gw_pending s' !! confirmation_id_of ids with
       | None, Some c => [Asked c]
       | _, _ => []
       end)
  | GTake k actor_id i now =>
      match take_confirmation w now s k actor_id i with
      | (s', inl _) => (mkWorld s' (wo_taken d), [])
      | (s', inr c) => (mkWorld s' (wo_taken d ++ [(c, k, actor_id)]), [Taken c k actor_id now])
      end
  | GRun n choice now ids =>
      match wo_taken d !! n with
      | None => (d, [])
      | Some (c, k, actor_id) =>
          (mkWorld (run_confirmed w now ids s c k actor_id choice).1 (delete n (wo_taken d)), [Ran c k actor_id choice])
      end
  | GRaise n => (mkWorld s (delete n (wo_taken d)), [])
  | GDiscard i => (mkWorld (discard_confirmation s i) (wo_taken d), [])
  | GGrant i a t => (mkWorld (grant_tool_for_session s i a t) (wo_taken d), [])
  | GDatabase f => (mkWorld (s <| gw_db := f (gw_db s) |>) (wo_taken d), [])
  end.

Fixpoint gw_run (d : world) (steps : list gw_step) : world * list gw_event :=
  match steps with
  | [] => (d, [])
  | o :: steps => let '(d, tr) := gw_exec d o in let '(d, tr') := gw_run d steps in (d, tr ++ tr')
  end.

(** A confirmation is a taking followed by a run, around the callback. *)
Lemma handle_confirmation_steps now ids s k actor_id i choice taken :
  (handle_confirmation w now ids s k actor_id i choice (fun s => (s, Return tt))).1
  = match gw_exec (mkWorld s taken) (GTake k actor_id i now) with
    | (d, []) => wo_gateway d
    | (d, _) => wo_gateway (gw_exec d (GRun (length taken) choice now ids)).1
    end.
Proof.
  unfold handle_confirmation. cbn. destruct (take_confirmation w now s k actor_id i) as [s' [r|c]]; [done|].
  cbn. by rewrite lookup_app_r, Nat.sub_diag.
Qed.

(** * Traces in order *)

Definition justified (before : list gw_event) (ev : gw_event) : Prop :=
  match ev with
  | Asked _ => True
  | Taken c k actor_id now =>
      Asked c ∈ before /\ conversation_parts (ConfirmationRequest.session_key c) = conversation_parts k
      /\ ConfirmationRequest.actor_id c = actor_id /\ now < ConfirmationRequest.expires_at c
  | Ran c k actor_id _ => exists now, Taken c k actor_id now ∈ before
  end.

Definition in_order (tr : list gw_event) : Prop := forall before ev after, tr = before ++ ev :: after -> justified before ev.

Lemma in_order_snoc tr ev : in_order tr -> justified tr ev -> in_order (tr ++ [ev]).
Proof.
  intros Ht He before ev' after E. destruct (last after) as [x|] eqn:Hl.
  - apply last_Some in Hl as [after' ->]. rewrite app_comm_cons, app_assoc in E. apply app_inj_tail in E as [E _].
    by apply (Ht before ev' after').
  - apply last_None in Hl as ->. apply app_inj_tail in E as [-> ->]. done.
Qed.

(** The identifiers of the confirmations that ran. *)
Definition ran_ids (tr : list gw_event) : list string :=
  omap (fun ev => match ev with Ran c _ _ _ => Some (ConfirmationRequest.id c) | _ => None end) tr.
Definition taken_ids (d : world) : list string := map (fun p => ConfirmationRequest.id p.1.1) (wo_taken d).

Lemma ran_ids_app tr tr' : ran_ids (tr ++ tr') = ran_ids tr ++ ran_ids tr'.
Proof. apply omap_app. Qed.

(** What the commands of [steps] ask for. *)
Definition asked_in (steps : list gw_step) (c : ConfirmationRequest.t) : Prop :=
  exists e now ids ids', GMessage e now ids ids' ∈ steps /\ asked_by w e now ids c.

Record history_ok (past : list gw_step) (used : list string) (d : world) (tr : list gw_event) : Prop := {
  h_pending : forall i c, gw_pending (wo_gateway d) !! i = Some c -> ConfirmationRequest.id c = i /\ Asked c ∈ tr /\ i ∈ used;
  h_spent : forall i, i ∈ taken_ids d ++ ran_ids tr -> gw_pending (wo_gateway d) !! i = None /\ i ∈ used;
  h_once : NoDup (taken_ids d ++ ran_ids tr);
  h_taken : forall p, p ∈ wo_taken d -> exists now, Taken p.1.1 p.1.2 p.2 now ∈ tr;
  h_order : in_order tr;
  h_asked : forall c, Asked c ∈ tr -> asked_in past c;
  h_trusted : forall key, key ∈ gw_trusted (wo_gateway d) ->
                exists c k a, Ran c k a ConfirmationChoice.TRUST_SESSION ∈ tr /\ key = trust_key k a
}.

(** ** Single steps *)

Lemma receive_cases now ids ids' s e :
  asks (receive now ids ids' s e) = asks s
  \/ exists c, asked_by w e now ids c /\ gw_trusted (receive now ids ids' s e) = gw_trusted s
     /\ gw_pending (receive now ids ids' s e) = <[ConfirmationRequest.id c := c]> (gw_pending (cleanup_expired now s)).
Proof.
  pose proof (mark_processed_asks s e) as Hm. unfold receive. destruct (mark_processed s e) as [s1 []]; [|by left].
  cbn [fst] in Hm. unfold route. destruct (slash_with_images e); [by left|]. destruct (ordinary_denied w e); [by left|].
  pose proof (preflight_cases w now ids s1 e) as H. destruct (handle_destructive_preflight _ _ _ _ _) as [s2 r].
  destruct H as [(_ & -> & ->)|(_ & [r' ->] & [->|[[_ Ha]|(_ & c & Hc & ->)]])].
  - left. rewrite <- Hm, <- (resolve_asks w now ids s1 e). destruct (resolve_session_id _ _ _ _ _) as [s3 [i|x]]; [|done].
    cbn [fst]. rewrite <- (handle_asks w now ids' s3 e i). by destruct (handle _ _ _ _ _ _) as [s4 [r|]].
  - by left.
  - left. cbn. by rewrite Ha.
  - right. exists c. unfold asks in Hm. injection Hm as Hp Ht Hg. split; [done|]. cbn. rewrite Ht. split; [done|]. by rewrite Hp.
Qed.

Lemma take_cases now s k a i :
  let '(s', r) := take_confirmation w now s k a i in
  gw_trusted s' = gw_trusted s /\ gw_pending s' ⊆ gw_pending s
  /\ match r with
     | inl _ => True
     | inr c => gw_pending s !! i = Some c /\ gw_pending s' !! i = None
                /\ conversation_parts (ConfirmationRequest.session_key c) = conversation_parts k
                /\ ConfirmationRequest.actor_id c = a /\ now < ConfirmationRequest.expires_at c
     end.
Proof.
  assert (Hsub : gw_pending (cleanup_expired now s) ⊆ gw_pending s) by apply map_filter_subseteq.
  assert (Hdel : delete i (gw_pending (cleanup_expired now s)) ⊆ gw_pending s) by (etransitivity; [apply delete_subseteq|exact Hsub]).
  unfold take_confirmation. destruct (gw_pending (cleanup_expired now s) !! i) as [c|] eqn:Hi; [|by split; [|split]].
  destruct (_ <=? now) eqn:Hexp; [by split; [|split]|]. case_bool_decide as Hk; [|by split; [|split]].
  case_bool_decide as Ha; [|by split; [|split]]. cbn [negb]. destruct (is_denied _); [by split; [|split]|].
  split; [done|]. split; [exact Hdel|]. split; [|split; [|split; [done|split; [done|]]]].
  - by eapply lookup_weaken.
  - apply lookup_delete_eq.
  - by apply Z.leb_gt.
Qed.

Lemma run_confirmed_asks now ids s c k a choice :
  gw_pending (run_confirmed w now ids s c k a choice).1 = gw_pending s
  /\ gw_trusted (run_confirmed w now ids s c k a choice).1
     = if bool_decide (choice = ConfirmationChoice.TRUST_SESSION) then {[trust_key k a]} ∪ gw_trusted s else gw_trusted s.
Proof.
  unfold run_confirmed. destruct (bool_decide (choice = ConfirmationChoice.CANCEL)) eqn:Hc.
  - apply bool_decide_eq_true in Hc as ->. by rewrite bool_decide_eq_false_2.
  - match goal with |- context [execute w now ids ?s0 ?x ?y ?z ?u ?v ?t] => pose proof (execute_asks w now ids s0 x y z u v t) as H end.
    destruct (bool_decide (choice = ConfirmationChoice.TRUST_SESSION)); injection H as Hp Ht _; by rewrite Hp, Ht.
Qed.

(** ** The history *)

Lemma asked_in_more past o c : asked_in past c -> asked_in (past ++ [o]) c.
Proof. intros (e & now & ids & ids' & Hin & Hc). exists e, now, ids, ids'. split; [|done]. apply elem_of_app. by left. Qed.

(** A step without an event, after which less waits and less was taken. *)
Lemma history_quiet past used used' d d' tr o :
  history_ok past used d tr -> used ⊆ used' ->
  gw_pending (wo_gateway d') ⊆ gw_pending (wo_gateway d) -> gw_trusted (wo_gateway d') ⊆ gw_trusted (wo_gateway d) ->
  sublist (wo_taken d') (wo_taken d) -> history_ok (past ++ [o]) used' d' tr.
Proof.
  intros [H1 H2 H3 H4 H5 H6 H7] Hu Hp Ht Hs.
  assert (Hids : sublist (taken_ids d' ++ ran_ids tr) (taken_ids d ++ ran_ids tr)).
  { apply sublist_app; [|done]. by apply fmap_sublist. }
  split.
  - intros i c Hi. destruct (H1 i c) as (? & ? & ?); [by eapply lookup_weaken|]. auto.
  - intros i Hi. destruct (H2 i) as [Hn Hin]; [by eapply sublist_subseteq|]. split; [|by apply Hu].
    destruct (gw_pending (wo_gateway d') !! i) as [c|] eqn:E; [|done]. eapply lookup_weaken in E; [|exact Hp]. congruence.
  - by eapply sublist_NoDup.
  - intros p Hin. apply H4. by eapply sublist_subseteq.
  - done.
  - intros c Hc. by apply asked_in_more, H6.
  - intros key Hk. by apply H7, Ht.
Qed.

Definition step_ids (o : gw_step) : list string :=
  match o with GMessage _ _ ids _ => [confirmation_id_of ids] | _ => [] end.

Lemma history_message past used d tr e now ids ids' :
  history_ok past used d tr -> confirmation_id_of ids ∉ used ->
  let '(d', evs) := gw_exec d (GMessage e now ids ids') in
  history_ok (past ++ [GMessage e now ids ids']) (used ++ [confirmation_id_of ids]) d' (tr ++ evs).
Proof.
  intros Hd Hnew. unfold gw_exec. set (s' := receive now ids ids' (wo_gateway d) e). pose proof Hd as [H1 H2 H3 H4 H5 H6 H7].
  assert (Hfresh : gw_pending (wo_gateway d) !! confirmation_id_of ids = None).
  { destruct (gw_pending (wo_gateway d) !! _) as [c|] eqn:E; [|done]. by destruct (H1 _ _ E) as (_ & _ & ?). }
  rewrite Hfresh. assert (Hused : used ⊆ used ++ [confirmation_id_of ids]) by (intros x Hx; apply elem_of_app; by left).
  pose proof (receive_cases now ids ids' (wo_gateway d) e) as Hcase. fold s' in Hcase. destruct Hcase as [Ha|(c & Hc & Ht & Hp)].
  - injection Ha as Hp Ht _. rewrite Hp, Hfresh, app_nil_r. apply history_quiet with used d; try done; cbn [wo_gateway]; [by rewrite Hp|by rewrite Ht].
  - assert (Hid : ConfirmationRequest.id c = confirmation_id_of ids) by by destruct Hc as (a & b & i & _ & ->).
    rewrite Hp, Hid, lookup_insert_eq. split; cbn [wo_gateway wo_taken].
    + intros i c'. rewrite Hp, Hid. intros [[<- <-]|[_ [Hi _]%map_lookup_filter_Some]]%lookup_insert_Some.
      * split; [done|]. split; apply elem_of_app; right; by left.
      * destruct (H1 _ _ Hi) as (? & ? & ?). split; [done|]. split; apply elem_of_app; by left.
    + intros i. unfold taken_ids. cbn [wo_taken]. rewrite ran_ids_app, app_nil_r. intros Hi. destruct (H2 i Hi) as [Hn Hin].
      split; [|by apply Hused]. rewrite Hp, Hid, lookup_insert_ne by (by intros <-).
      apply map_lookup_filter_None. by left.
    + unfold taken_ids. cbn [wo_taken]. by rewrite ran_ids_app, app_nil_r.
    + intros p Hin. destruct (H4 p Hin) as [t Htk]. exists t. apply elem_of_app. by left.
    + by apply in_order_snoc.
    + intros c' [Hin|[= ->]%list_elem_of_singleton]%elem_of_app; [by apply asked_in_more, H6|].
      exists e, now, ids, ids'. split; [|done]. apply elem_of_app. right. by left.
    + intros key. rewrite Ht. intros (c' & k & a & Hin & ->)%H7. exists c', k, a. split; [|done]. apply elem_of_app. by left.
Qed.

Lemma history_take past used d tr k a i now :
  history_ok past used d tr ->
  let '(d', evs) := gw_exec d (GTake k a i now) in history_ok (past ++ [GTake k a i now]) used d' (tr ++ evs).
Proof.
  intros Hd. unfold gw_exec. pose proof (take_cases now (wo_gateway d) k a i) as H.
  destruct (take_confirmation w now (wo_gateway d) k a i) as [s' [r|c]]; destruct H as (Ht & Hp & H).
  - rewrite app_nil_r. apply history_quiet with used d; try done; cbn [wo_gateway]; by rewrite ?Ht.
  - destruct H as (Hi & Hgone & Hk & Ha & Hexp). destruct Hd as [H1 H2 H3 H4 H5 H6 H7]. destruct (H1 i c Hi) as (Hid & Hasked & Hused).
    assert (Hspent : i ∉ taken_ids d ++ ran_ids tr). { intros [Hn _]%H2. congruence. }
    assert (Hids : taken_ids (mkWorld s' (wo_taken d ++ [(c, k, a)])) ++ ran_ids (tr ++ [Taken c k a now])
                   ≡ₚ i :: taken_ids d ++ ran_ids tr).
    { unfold taken_ids. cbn [wo_taken]. rewrite ran_ids_app, app_nil_r, map_app. cbn. rewrite Hid, <- app_assoc. cbn [app]. by rewrite <- Permutation_middle. }
    split; cbn [wo_gateway wo_taken].
    + intros j c' Hj. destruct (H1 j c') as (? & ? & ?); [by eapply lookup_weaken|]. split; [done|]. split; [|done]. apply elem_of_app. by left.
    + intros j. rewrite Hids. intros [->|Hj]%elem_of_cons; [done|]. destruct (H2 j Hj) as [Hn ?]. split; [|done].
      destruct (gw_pending s' !! j) as [c'|] eqn:E; [|done]. eapply lookup_weaken in E; [|exact Hp]. congruence.
    + rewrite Hids. by constructor.
    + intros p [Hin| ->%list_elem_of_singleton]%elem_of_app.
      * destruct (H4 p Hin) as [t Htk]. exists t. apply elem_of_app. by left.
      * exists now. apply elem_of_app. right. by left.
    + by apply in_order_snoc.
    + intros c' [Hin|[=]%list_elem_of_singleton]%elem_of_app. by apply asked_in_more, H6.
    + intros key. rewrite Ht. intros (c' & k' & a' & Hin & ->)%H7. exists c', k', a'. split; [|done]. apply elem_of_app. by left.
Qed.

Lemma history_holds past used d tr n choice now ids :
  history_ok past used d tr ->
  let '(d', evs) := gw_exec d (GRun n choice now ids) in history_ok (past ++ [GRun n choice now ids]) used d' (tr ++ evs).
Proof.
  intros Hd. unfold gw_exec. destruct (wo_taken d !! n) as [[[c k] a]|] eqn:Hn.
  2: { rewrite app_nil_r. by apply history_quiet with used d. }
  destruct (run_confirmed_asks now ids (wo_gateway d) c k a choice) as [Hp Ht].
  destruct Hd as [H1 H2 H3 H4 H5 H6 H7].
  set (s' := (run_confirmed w now ids (wo_gateway d) c k a choice).1) in *.
  assert (Hids : taken_ids (mkWorld s' (delete n (wo_taken d))) ++ ran_ids (tr ++ [Ran c k a choice]) ≡ₚ taken_ids d ++ ran_ids tr).
  { unfold taken_ids. cbn [wo_taken]. rewrite ran_ids_app. cbn.
    rewrite (delete_Permutation (wo_taken d) n (c, k, a) Hn) at 2. cbn. rewrite app_assoc, Permutation_app_comm. done. }
  split; cbn [wo_gateway wo_taken].
  - intros j c' Hj. rewrite Hp in Hj. destruct (H1 j c' Hj) as (? & ? & ?). split; [done|]. split; [|done]. apply elem_of_app. by left.
  - intros j. rewrite Hids, Hp. apply H2.
  - by rewrite Hids.
  - intros p Hin. destruct (H4 p) as [t Htk].
    { rewrite (delete_Permutation (wo_taken d) n (c, k, a) Hn). by right. }
    exists t. apply elem_of_app. by left.
  - apply in_order_snoc; [done|]. destruct (H4 (c, k, a)) as [t Htk]; [by apply list_elem_of_lookup_2 with n|]. by exists t.
  - intros c' [Hin|[=]%list_elem_of_singleton]%elem_of_app. by apply asked_in_more, H6.
  - intros key. rewrite Ht. intros Hkey. assert (Hold : key ∈ gw_trusted (wo_gateway d) \/ choice = ConfirmationChoice.TRUST_SESSION /\ key = trust_key k a).
    { case_bool_decide; [|by left]. apply elem_of_union in Hkey as [->%elem_of_singleton|?]; [by right|by left]. }
    destruct Hold as [(c' & k' & a' & Hin & ->)%H7|[-> ->]].
    + exists c', k', a'. split; [|done]. apply elem_of_app. by left.
    + exists c, k, a. split; [|done]. apply elem_of_app. right. by left.
Qed.

Lemma history_step past used d tr o :
  history_ok past used d tr -> (forall i, i ∈ step_ids o -> i ∉ used) ->
  let '(d', evs) := gw_exec d o in history_ok (past ++ [o]) (used ++ step_ids o) d' (tr ++ evs).
Proof.
  intros Hd Hnew. destruct o as [e now ids ids'|k a i now|n choice now ids|n|i|si a t|f]; cbn [step_ids]; rewrite ?app_nil_r.
  - apply history_message; [done|]. apply Hnew. by left.
  - by apply history_take.
  - by apply history_holds.
  - cbn. rewrite app_nil_r. apply history_quiet with used d; try done. cbn. apply sublist_delete.
  - cbn. rewrite app_nil_r. apply history_quiet with used d; try done. cbn. apply delete_subseteq.
  - cbn. rewrite app_nil_r. by apply history_quiet with used d.
  - cbn. rewrite app_nil_r. by apply history_quiet with used d.
Qed.

Lemma history_run_ok past used d tr steps :
  history_ok past used d tr -> NoDup (used ++ concat (map step_ids steps)) ->
  let '(d', tr') := gw_run d steps in
  history_ok (past ++ steps) (used ++ concat (map step_ids steps)) d' (tr ++ tr').
Proof.
  revert past used d tr. induction steps as [|o steps IH]; intros past used d tr Hd Hnd.
  - cbn. by rewrite !app_nil_r.
  - cbn [gw_run map concat] in *. rewrite app_assoc in Hnd.
    assert (Hnew : forall i, i ∈ step_ids o -> i ∉ used).
    { intros i Hi Hu. apply NoDup_app in Hnd as ((_ & H & _)%NoDup_app & _ & _). by apply (H i). }
    pose proof (history_step past used d tr o Hd Hnew) as Hs. destruct (gw_exec d o) as [d1 evs].
    specialize (IH _ _ d1 (tr ++ evs) Hs Hnd). destruct (gw_run d1 steps) as [d2 tr'].
    by rewrite !app_assoc in *; rewrite <- app_assoc in IH.
Qed.

(** C24. Whatever is asked, confirmed, refused, discarded and run, in whatever interleaving
    with the rest of the program: a destructive command that waited runs at most once;
    it runs only after it was taken, and was taken only after it was asked for, by the
    same actor in the same conversation and before it expired; what runs is the command
    of a message that was received; and an actor is trusted in a conversation only by a
    confirmed command that said so. *)
Theorem confirmations_single_use db granted steps :
  NoDup (concat (map step_ids steps)) ->
  let '(d, tr) := gw_run (mkWorld (mkGateway db ∅ ∅ granted) []) steps in
  NoDup (ran_ids tr)
  /\ (forall before c k actor choice after, tr = before ++ Ran c k actor choice :: after ->
        exists before1 now between, before = before1 ++ Taken c k actor now :: between /\ Asked c ∈ before1
          /\ conversation_parts (ConfirmationRequest.session_key c) = conversation_parts k
          /\ ConfirmationRequest.actor_id c = actor /\ now < ConfirmationRequest.expires_at c /\ asked_in steps c)
  /\ (forall key, key ∈ gw_trusted (wo_gateway d) ->
        exists c k a, Ran c k a ConfirmationChoice.TRUST_SESSION ∈ tr /\ key = trust_key k a).
Proof.
  intros Hnd. assert (H0 : history_ok [] [] (mkWorld (mkGateway db ∅ ∅ granted) []) []).
  { split; cbn; try set_solver; try by constructor. intros [|] ? ? [=]. }
  pose proof (history_run_ok [] [] _ [] steps H0 Hnd) as H. destruct (gw_run _ steps) as [d tr].
  destruct H as [H1 H2 H3 H4 H5 H6 H7]. rewrite app_nil_l in *.
  split; [by apply NoDup_app in H3 as (_ & _ & ?)|]. split; [|done].
  intros before c k actor choice after E. destruct (H5 _ _ _ E) as [now (b1 & b2 & Eb)%list_elem_of_split].
  rewrite Eb in E. rewrite <- app_assoc in E. cbn in E. destruct (H5 _ _ _ E) as (Ha & Hk & Hac & Hexp).
  exists b1, now, b2. repeat (split; [done|]). apply H6. rewrite E. apply elem_of_app. by left.
Qed.
End history.

(** * Witnesses *)

Definition a_wiring : command_wiring :=
  mkCommandWiring (mkCalculator (fun _ _ => Return tt) (fun _ now _ => Return (now + seconds 3600))) (fun _ => "connected") true
    (mkSessionService [] [] false false)
    (mkRunWiring 5 900 3600 600 (InformationFlow.from_settings (InformationFlow.mkInformationFlowConfig false true true) "") None
       (fun _ => "connected") true)
    true true 900 (fun _ => "") (fun _ => "") [] [] "" None.
Definition a_key : GatewaySessionKey := mkSessionKey "feishu" "oc_1" "" "Ann".
Definition draws (tag : string) : drawn :=
  mkDrawn tag tag (tag +:+ "-l", tag +:+ "-c") (tag, tag) (tag, tag) ([], []).
Definition a_message (id text : string) (metadata : dict) : InteractionMessage :=
  mkInteractionMessage id a_key (ascii_text text) metadata [].
Definition by_ann : dict := [("actor_id", JStr "ou_ann")].
Definition a_history : list gw_step :=
  [GMessage (a_message "1" "/new" []) 10 (draws "a") (draws "a2");
   GMessage (a_message "2" "/delete" by_ann) 20 (draws "b") (draws "b2");
   GTake a_key "ou_eve" "confirm-b" 30; GTake a_key "ou_ann" "confirm-b" 40; GTake a_key "ou_ann" "confirm-b" 50;
   GRun 0 ConfirmationChoice.ONCE 60 (draws "d")].

Lemma confirmations_single_use_witness :
  let '(d, tr) := gw_run a_wiring (mkWorld (mkGateway empty_database ∅ ∅ ∅) []) a_history in
  ran_ids tr = ["confirm-b"] /\ NoDup (ran_ids tr)
  /\ map Session.id (db_sessions (gw_db (wo_gateway d))) = ["feishu-d"].
Proof.
  assert (Hnd : NoDup (concat (map step_ids a_history))) by by apply (bool_decide_eq_true_1 _).
  pose proof (confirmations_single_use a_wiring empty_database ∅ a_history Hnd) as H.
  destruct (gw_run _ _ _) as [d tr] eqn:E. destruct H as (Honce & _).
  split; [|split; [exact Honce|]].
  - transitivity (ran_ids (gw_run a_wiring (mkWorld (mkGateway empty_database ∅ ∅ ∅) []) a_history).2); [by rewrite E|by vm_compute].
  - transitivity (map Session.id (db_sessions (gw_db (wo_gateway
      (gw_run a_wiring (mkWorld (mkGateway empty_database ∅ ∅ ∅) []) a_history).1)))); [by rewrite E|by vm_compute].
Defined.

Definition asked_state : gateway :=
  wo_gateway (gw_run a_wiring (mkWorld (mkGateway empty_database ∅ ∅ ∅) []) [GMessage (a_message "1" "/new" []) 10 (draws "a") (draws "a2")]).1.

Lemma destructive_command_waits_witness :
  let s' := (handle_message a_wiring 20 (fun _ s => (s, Raise ValueError)) (draws "b") (draws "b2") asked_state
               (a_message "2" "/delete" by_ann)).1 in
  gw_trusted s' = gw_trusted asked_state /\ map fst (map_to_list (gw_pending s')) = ["confirm-b"].
Proof.
  intros s'. split; [|by vm_compute].
  pose proof (destructive_command_waits a_wiring (fun _ s => (s, Raise ValueError)) 20 (draws "b") (draws "b2") asked_state
    (a_message "2" "/delete" by_ann) ltac:(by vm_compute) ltac:(by vm_compute) ltac:(by vm_compute)) as (_ & H & _).
  exact H.
Defined.
