(* ===== verification/GatewayRegistry.v ===== *)
(** The gateway registry: its rows fit together after any history of operations, an
    event is accepted once, and what a conversation's active session is. *)
From S2P Require Import Prelude Json GatewayStore.
Open Scope Z_scope.

(** * Rows that fit together *)

Definition link_pair (l : SessionLink.t) : string * string := (SessionLink.conversation_id l, SessionLink.session_id l).

Record gdb_ok (d : gdb) : Prop := {
  g_keys : NoDup (map key_of (conversations d));
  g_ids : NoDup (map Conversation.id (conversations d));
  g_link_ids : NoDup (map SessionLink.id (links d));
  g_pairs : NoDup (map link_pair (links d));
  g_linked : forall l, l ∈ links d -> SessionLink.conversation_id l ∈ map Conversation.id (conversations d);
  g_active : forall c s, c ∈ conversations d -> Conversation.active_session_id c = Some s ->
               (Conversation.id c, s) ∈ map link_pair (links d);
  g_homes : NoDup (map HomeTarget.platform (home_targets d))
}.

Inductive gop : Type :=
  | GLink (k : GatewaySessionKey) (session_id : string) (now : Z) (ids : string * string)
  | GSwitch (k : GatewaySessionKey) (session_id : string) (now : Z) (ids : string * string)
  | GUnlink (session_id : string)
  | GMark (source event_id message_id : string)
  | GHome (t : HomeTarget.t)
  | GAddress (k : GatewaySessionKey) (receive_id_type : string).

Definition exec_gop (d : gdb) (o : gop) : gdb :=
  match o with
  | GLink k s now ids => (create_session_link d k s now ids).1
  | GSwitch k s now ids => (set_active_session d k s now ids).1
  | GUnlink s => delete_session_link d s
  | GMark source e m => (mark_event_processed d source e m).1
  | GHome t => (set_home_target d t).1
  | GAddress k t => record_delivery_address d k t
  end.

(** The identifiers drawn are new. *)
Definition fresh_gop (d : gdb) (o : gop) : Prop :=
  match o with
  | GLink _ _ _ ids | GSwitch _ _ _ ids =>
      ids.1 ∉ map SessionLink.id (links d) /\ ids.2 ∉ map Conversation.id (conversations d)
  | _ => True
  end.
Fixpoint all_fresh_gops (d : gdb) (ops : list gop) : Prop :=
  match ops with [] => True | o :: ops => fresh_gop d o /\ all_fresh_gops (exec_gop d o) ops end.
Definition exec_gops (d : gdb) (ops : list gop) : gdb := fold_left exec_gop ops d.

(** ** Updates in place *)

Lemma map_update_same {A B} (f : A -> B) (cond : A -> bool) (set : A -> A) l :
  (forall x, f (set x) = f x) -> map f (map (fun x => if cond x then set x else x) l) = map f l.
Proof. intros H. rewrite map_map. apply map_ext. intros x. by destruct (cond x). Qed.

(** An update of conversations that keeps their identity and points only to links that
    are there. *)
Lemma update_conversations_ok cond set d :
  (forall c, key_of (set c) = key_of c) -> (forall c, Conversation.id (set c) = Conversation.id c) ->
  (forall c s, c ∈ conversations d -> cond c = true -> Conversation.active_session_id (set c) = Some s ->
     (Conversation.id c, s) ∈ map link_pair (links d)) ->
  gdb_ok d -> gdb_ok (update_conversations cond set d).
Proof.
  intros Hk Hi Hs [H1 H2 H3 H4 H5 H6 H7]. unfold update_conversations. split; cbn; rewrite ?map_update_same by done; try done.
  intros c s (x & -> & Hx)%list_elem_of_fmap. destruct (cond x) eqn:Hc; [|by apply H6].
  intros Ha. rewrite Hi. by apply Hs.
Qed.

Lemma update_links_ok cond set d :
  (forall l, SessionLink.id (set l) = SessionLink.id l) -> (forall l, link_pair (set l) = link_pair l) ->
  gdb_ok d -> gdb_ok (update_links cond set d).
Proof.
  intros Hi Hp [H1 H2 H3 H4 H5 H6 H7]. unfold update_links. split; cbn; rewrite ?map_update_same by done; try done.
  intros l (x & -> & Hx)%list_elem_of_fmap. destruct (cond x); [|by apply H5].
  specialize (Hp x). injection Hp as -> _. by apply H5.
Qed.

Lemma find_conversation_elem d k c :
  find_conversation d k = Some c -> c ∈ conversations d /\ key_of c = conversation_parts k.
Proof. intros [Hin H%bool_decide_eq_true]%find_some. split; [by apply list_elem_of_In|done]. Qed.

Lemma find_conversation_none d k : find_conversation d k = None -> conversation_parts k ∉ map key_of (conversations d).
Proof.
  intros H (c & E & Hin)%list_elem_of_fmap. eapply find_none in H; [|by apply list_elem_of_In].
  by rewrite <- E, bool_decide_eq_true_2 in H.
Qed.

Lemma ensure_conversation_ok d k now i :
  gdb_ok d -> i ∉ map Conversation.id (conversations d) ->
  gdb_ok (ensure_conversation d k now i).1
  /\ (ensure_conversation d k now i).2 ∈ map Conversation.id (conversations (ensure_conversation d k now i).1)
  /\ links (ensure_conversation d k now i).1 = links d.
Proof.
  intros Hd Hi. unfold ensure_conversation. destruct (find_conversation d k) as [c|] eqn:Hf; cbn [fst snd].
  - apply find_conversation_elem in Hf as [Hin _]. split; [|split; [|done]].
    + apply update_conversations_ok; try done. intros c' s Hc' _. cbn. by apply Hd.
    + unfold update_conversations. cbn. rewrite map_update_same by done. by apply list_elem_of_fmap_2.
  - apply find_conversation_none in Hf. destruct Hd as [H1 H2 H3 H4 H5 H6 H7]. split; [|split; [|done]].
    + split; cbn; rewrite ?map_app; cbn; try done.
      * apply NoDup_app. split; [done|]. split; [|apply NoDup_singleton]. intros x Hx ->%list_elem_of_singleton. done.
      * apply NoDup_app. split; [done|]. split; [|apply NoDup_singleton]. intros x Hx ->%list_elem_of_singleton. done.
      * intros l Hl. apply elem_of_app. left. by apply H5.
      * intros c s [Hc| ->%list_elem_of_singleton]%elem_of_app; [by apply H6|done].
    + cbn. rewrite map_app. apply elem_of_app. right. by left.
Qed.

Lemma insert_link_ok d l :
  gdb_ok d -> SessionLink.id l ∉ map SessionLink.id (links d) ->
  SessionLink.conversation_id l ∈ map Conversation.id (conversations d) ->
  gdb_ok (insert_link d l) /\ link_pair l ∈ map link_pair (links (insert_link d l))
  /\ conversations (insert_link d l) = conversations d.
Proof.
  intros Hd Hi Hc. unfold insert_link. destruct (existsb _ _) eqn:He.
  - split; [done|]. split; [|done]. apply existsb_exists in He as (x & Hx%list_elem_of_In & [[H1 H2]%andb_true_iff|H]%orb_true_iff).
    + apply bool_decide_eq_true in H1, H2. apply list_elem_of_fmap. exists x. split; [|done]. unfold link_pair. by rewrite H1, H2.
    + apply bool_decide_eq_true in H. destruct Hi. rewrite <- H. by apply list_elem_of_fmap_2.
  - rewrite existsb_false in He. destruct Hd as [H1 H2 H3 H4 H5 H6 H7]. split; [|split; [|done]].
    + split; cbn; rewrite ?map_app; cbn; try done.
      * apply NoDup_app. split; [done|]. split; [|apply NoDup_singleton]. intros x Hx ->%list_elem_of_singleton. done.
      * apply NoDup_app. split; [done|]. split; [|apply NoDup_singleton].
        intros x (y & -> & Hy)%list_elem_of_fmap E%list_elem_of_singleton. specialize (He y Hy).
        apply orb_false_iff in He as [He _]. unfold link_pair in E. injection E as E1 E2. unfold link_of in He.
        by rewrite E1, E2, !bool_decide_eq_true_2 in He.
      * intros x [Hx| ->%list_elem_of_singleton]%elem_of_app; [by apply H5|done].
      * intros c s Hin Hs. apply elem_of_app. left. by apply H6.
    + cbn. rewrite map_app. apply elem_of_app. right. by left.
Qed.

Lemma update_links_pairs cond set d :
  (forall l, link_pair (set l) = link_pair l) -> map link_pair (links (update_links cond set d)) = map link_pair (links d).
Proof. intros H. unfold update_links. cbn. by apply map_update_same. Qed.

Lemma create_session_link_ok d k s now ids :
  gdb_ok d -> fresh_gop d (GLink k s now ids) -> gdb_ok (create_session_link d k s now ids).1.
Proof.
  intros Hd [Hl Hc]. unfold create_session_link.
  pose proof (ensure_conversation_ok d k now ids.2 Hd Hc) as (H1 & H2 & H3).
  destruct (ensure_conversation d k now ids.2) as [d1 cid]. cbn [fst snd] in *.
  set (l := SessionLink.mk ids.1 cid s now now).
  destruct (insert_link_ok d1 l) as (H4 & H5 & H6); [done|by rewrite H3|done|].
  set (d2 := insert_link d1 l) in *. set (set_l := fun x : SessionLink.t => x <| SessionLink.updated_at := now |>).
  apply update_conversations_ok; [done|done| |by apply update_links_ok].
  intros c s' Hc' Hw%bool_decide_eq_true [= <-]. rewrite update_links_pairs by done. rewrite Hw. exact H5.
Qed.

Lemma find_link_elem d cid s l : find_link d cid s = Some l -> l ∈ links d /\ link_pair l = (cid, s).
Proof.
  unfold find_link. destruct (existsb _ _); [|done]. intros [Hin [H1 H2]%andb_true_iff]%find_some.
  apply bool_decide_eq_true in H1, H2. split; [by apply list_elem_of_In|]. unfold link_pair. by rewrite H1, H2.
Qed.

Lemma exec_gop_ok d o : gdb_ok d -> fresh_gop d o -> gdb_ok (exec_gop d o).
Proof.
  intros Hd Hf. destruct o as [k s now ids|k s now ids|s|source e m|t|k t]; cbn [exec_gop].
  - by apply create_session_link_ok.
  - unfold set_active_session. destruct (find_conversation d k) as [c|] eqn:Hc; [|by apply create_session_link_ok].
    destruct (find_link d (Conversation.id c) s) as [l|] eqn:Hl; [|by apply create_session_link_ok]. cbn [fst].
    apply find_link_elem in Hl as [Hin Hp]. apply update_links_ok; [done|done|]. apply update_conversations_ok; [done|done| |done].
    intros c' s' Hc' Hw%bool_decide_eq_true [= <-]. rewrite Hw, <- Hp. by apply list_elem_of_fmap_2.
  - unfold delete_session_link. set (keep := fun l => negb (bool_decide (SessionLink.session_id l = s))).
    destruct Hd as [H1 H2 H3 H4 H5 H6 H7].
    unfold update_conversations. split; cbn; rewrite ?map_update_same by done; try done.
    1,2: by apply NoDup_map_filter.
    + intros l [Hl _]%List_filter_elem. by apply H5.
    + intros c s' (x & -> & Hx)%list_elem_of_fmap. case_bool_decide as Ha; [done|]. intros Hs.
      pose proof (H6 x s' Hx Hs) as (l & Hp & Hl)%list_elem_of_fmap. rewrite Hp. apply list_elem_of_fmap_2.
      apply List_filter_elem. split; [done|]. injection Hp as _ Hsid. unfold keep. rewrite <- Hsid.
      apply negb_true_iff, bool_decide_eq_false_2. congruence.
  - unfold mark_event_processed. destruct (existsb _ _); [done|]. by destruct Hd.
  - unfold set_home_target. destruct (existsb _ _) eqn:He; destruct Hd as [H1 H2 H3 H4 H5 H6 H7]; split; try done; cbn.
    + erewrite map_map, map_ext; [exact H7|]. intros h. by case_bool_decide.
    + rewrite map_app. cbn. apply NoDup_app. split; [done|]. split; [|apply NoDup_singleton].
      intros p (h & -> & Hh)%list_elem_of_fmap E%list_elem_of_singleton. rewrite existsb_false in He. specialize (He h Hh).
      by rewrite bool_decide_eq_true_2 in He.
  - apply update_conversations_ok; try done. intros c s Hc _. cbn. by apply Hd.
Qed.

(** * What conversations point to *)

Lemma find_link_of_pair d cid s :
  gdb_ok d -> (cid, s) ∈ map link_pair (links d) -> exists l, find_link d cid s = Some l /\ SessionLink.session_id l = s.
Proof.
  intros Hd Hin. unfold find_link. pose proof Hin as (l & Hp & Hl)%list_elem_of_fmap.
  replace (existsb _ _) with true.
  - destruct (List.find _ (links d)) as [l'|] eqn:Hf.
    + exists l'. split; [done|]. apply find_some in Hf as [_ [_ H%bool_decide_eq_true]%andb_true_iff]. done.
    + eapply find_none in Hf; [|by apply list_elem_of_In]. injection Hp as -> ->. by rewrite !bool_decide_eq_true_2 in Hf.
  - symmetry. pose proof (g_linked _ Hd l Hl) as (c & Hc & Hcin)%list_elem_of_fmap. injection Hp as -> _.
    apply existsb_exists. exists c. split; [by apply list_elem_of_In|]. by apply bool_decide_eq_true_2.
Qed.

Lemma find_by_key d c k : gdb_ok d -> c ∈ conversations d -> key_of c = conversation_parts k -> find_conversation d k = Some c.
Proof.
  intros Hd Hc Hk. unfold find_conversation. pose proof (g_keys _ Hd) as Hnd. clear Hd.
  induction (conversations d) as [|x l IH]; [by apply elem_of_nil in Hc|]. cbn in *. inversion Hnd as [|? ? Hx Hl]; subst.
  apply elem_of_cons in Hc as [<-|Hc]; [by rewrite bool_decide_eq_true_2|].
  case_bool_decide as E; [|by apply IH]. destruct Hx. rewrite E, <- Hk. by apply list_elem_of_fmap_2.
Qed.

(** The conversation of [k] has [s] for its active session. *)
Definition active_in (d : gdb) (k : GatewaySessionKey) (s : string) : Prop :=
  exists c, c ∈ conversations d /\ key_of c = conversation_parts k /\ Conversation.active_session_id c = Some s.

Lemma get_active_iff d k s :
  gdb_ok d -> (exists l, get_active_session d k = Some l /\ SessionLink.session_id l = s) <-> active_in d k s.
Proof.
  intros Hd. unfold get_active_session, active_in. split.
  - intros (l & Hl & Hs). destruct (find_conversation d k) as [c|] eqn:Hf; [|done]. apply find_conversation_elem in Hf as [Hc Hk].
    cbn in Hl. destruct (Conversation.active_session_id c) as [s'|] eqn:Ha; [|done]. cbn in Hl.
    apply find_link_elem in Hl as [_ [= _ <-]]. exists c. by subst.
  - intros (c & Hc & Hk & Ha). rewrite (find_by_key d c k Hd Hc Hk). cbn. rewrite Ha. cbn.
    apply find_link_of_pair; [done|]. by apply Hd.
Qed.

(** After any history the registry's rows fit together: one conversation for each chat
    and thread, one link for each session in it, no link without its conversation, and
    what a lookup of the active session answers is exactly what the conversation names:
    a session named is never one without a link.  A session that is unlinked is active
    nowhere and linked nowhere; a home target is the last one set. *)
Theorem gateway_registry_sound ops :
  all_fresh_gops empty_gdb ops ->
  let d := exec_gops empty_gdb ops in
  gdb_ok d
  /\ (forall k s, (exists l, get_active_session d k = Some l /\ SessionLink.session_id l = s) <-> active_in d k s)
  /\ (forall s k, ~ active_in (delete_session_link d s) k s /\ s ∉ map SessionLink.session_id (links (delete_session_link d s)))
  /\ (forall t p, get_home_target (set_home_target d t).1 p
        = if bool_decide (HomeTarget.platform t = p) then Some t else get_home_target d p).
Proof.
  intros Hf. assert (Hok : forall d, gdb_ok d -> all_fresh_gops d ops -> gdb_ok (exec_gops d ops)).
  { clear Hf. induction ops as [|o ops IH]; intros d Hd; [done|]. intros [Hf Hfs]. apply IH; [by apply exec_gop_ok|done]. }
  set (d := exec_gops empty_gdb ops). assert (Hd : gdb_ok d).
  { apply Hok; [|done]. split; cbn; try apply NoDup_nil_2; set_solver. }
  split; [done|]. split; [intros k s; by apply get_active_iff|]. split.
  - intros s k. unfold delete_session_link, active_in, update_conversations. cbn. split.
    + intros (c & (x & -> & Hx)%list_elem_of_fmap & _ & Ha). by case_bool_decide.
    + intros (l & -> & [_ Hl%negb_true_iff%bool_decide_eq_false]%List_filter_elem)%list_elem_of_fmap. done.
  - intros t p. unfold get_home_target, set_home_target. pose proof (g_homes _ Hd) as Hnd. clear Hok Hd.
    destruct (existsb _ _) eqn:He; cbn.
    + induction (home_targets d) as [|h l IH]; [done|]. cbn in *. inversion Hnd as [|? ? Hh Hl]; subst.
      destruct (bool_decide (HomeTarget.platform h = HomeTarget.platform t)) eqn:E.
      * apply bool_decide_eq_true in E. cbn. case_bool_decide as Hp; [done|]. rewrite bool_decide_eq_false_2 by congruence.
        clear -E Hh Hp. induction l as [|x l IH]; [done|]. cbn in *. apply not_elem_of_cons in Hh as [Hx Hh].
        rewrite (bool_decide_eq_false_2 (HomeTarget.platform x = _)) by congruence. case_bool_decide; [done|by apply IH].
      * cbn. destruct (bool_decide (HomeTarget.platform h = p)) eqn:Ep.
        { apply bool_decide_eq_true in Ep. apply bool_decide_eq_false in E. rewrite bool_decide_eq_false_2 by congruence. done. }
        by apply IH.
    + rewrite existsb_false in He. case_bool_decide as Hp.
      * subst p. clear Hnd. induction (home_targets d) as [|h l IH]; cbn; [by rewrite bool_decide_eq_true_2|].
        rewrite (He h) by by left. apply IH. intros x Hx. apply He. by right.
      * rewrite <- (app_nil_r (home_targets d)) at 2. clear He Hnd. induction (home_targets d) as [|h l IH]; cbn.
        { by rewrite bool_decide_eq_false_2. }
        case_bool_decide; [done|]. exact IH.
Qed.

(** * Events *)

(** The events of [ops] that were accepted, in order. *)
Fixpoint accepted (d : gdb) (ops : list gop) : list (string * string * option string) :=
  match ops with
  | [] => []
  | o :: ops =>
      match o with
      | GMark source e m =>
          if (mark_event_processed d source e m).2 then [(source, e, if truthy_str m then Some m else None)] else []
      | _ => []
      end ++ accepted (exec_gop d o) ops
  end.

(** Two accepted events that could be the same. *)
Definition same_event (a b : string * string * option string) : Prop :=
  a.1.1 = b.1.1 /\ (a.1.2 = b.1.2 \/ is_Some a.2 /\ a.2 = b.2).

Definition event_of (p : ProcessedEvent) : string * string * option string := (pe_platform p, pe_event_id p, pe_message_id p).

Lemma exec_gop_events d o :
  map event_of (processed_events (exec_gop d o)) = map event_of (processed_events d) ++ accepted d [o].
Proof.
  destruct o as [k s now ids|k s now ids|s|source e m|t|k t]; cbn [exec_gop accepted]; rewrite ?app_nil_r; try done.
  - unfold create_session_link, ensure_conversation, insert_link. destruct (find_conversation d k); cbn; by case_match.
  - unfold set_active_session, create_session_link, ensure_conversation, insert_link.
    destruct (find_conversation d k); [destruct (find_link _ _ _); [done|]|]; cbn; by case_match.
  - unfold mark_event_processed. destruct (existsb _ _); cbn; [by rewrite app_nil_r|]. by rewrite map_app.
  - unfold set_home_target. by case_match.
Qed.

Lemma same_event_sym a b : same_event a b -> same_event b a.
Proof. intros [H1 [H2|[H2 H3]]]; (split; [done|]); [by left|right]. by rewrite <- H3. Qed.

Lemma marked_iff d source e m :
  (mark_event_processed d source e m).2 = true <->
  forall a, a ∈ map event_of (processed_events d) -> ~ same_event (source, e, if truthy_str m then Some m else None) a.
Proof.
  unfold mark_event_processed. destruct (existsb _ _) eqn:He; cbn; split; try done.
  - intros H. apply existsb_exists in He as (p & Hp%list_elem_of_In & [H1 H2]%andb_true_iff).
    destruct (H (event_of p)); [by apply list_elem_of_fmap_2|]. apply bool_decide_eq_true in H1. split; [done|].
    apply orb_true_iff in H2 as [H2%bool_decide_eq_true|[H2%bool_decide_eq_true H3%bool_decide_eq_true]%andb_true_iff];
      [by left|by right].
  - intros _ a (p & -> & Hp)%list_elem_of_fmap [H1 H2]. rewrite existsb_false in He. specialize (He p Hp).
    cbn in H1, H2. rewrite (bool_decide_eq_true_2 _ (eq_sym H1)) in He. cbn in He. apply orb_false_iff in He as [He1 He2].
    apply bool_decide_eq_false in He1. destruct H2 as [H2|[H2 H3]]; [by destruct He1|].
    rewrite (bool_decide_eq_true_2 _ H2) in He2. cbn in He2. apply bool_decide_eq_false in He2. by destruct He2.
Qed.

Lemma accepted_cons d o ops : accepted d (o :: ops) = accepted d [o] ++ accepted (exec_gop d o) ops.
Proof. cbn [accepted]. by rewrite app_nil_r. Qed.

Lemma exec_gops_events d ops :
  map event_of (processed_events (exec_gops d ops)) = map event_of (processed_events d) ++ accepted d ops.
Proof.
  revert d. induction ops as [|o ops IH]; intros d; [by rewrite app_nil_r|]. rewrite accepted_cons.
  change (exec_gops d (o :: ops)) with (exec_gops (exec_gop d o) ops). by rewrite IH, exec_gop_events, <- app_assoc.
Qed.

Lemma accepted_first d o b : b ∈ accepted d [o] -> accepted d [o] = [b]
  /\ forall a, a ∈ map event_of (processed_events d) -> ~ same_event b a.
Proof.
  destruct o as [k s now ids|k s now ids|s|source e m|t|k t]; cbn [accepted]; rewrite ?app_nil_r; try by intros ?%elem_of_nil.
  destruct (mark_event_processed d source e m).2 eqn:Hm; [|by intros ?%elem_of_nil].
  intros ->%list_elem_of_singleton. split; [done|]. by apply marked_iff.
Qed.

Lemma accepted_new d ops b : b ∈ accepted d ops -> forall a, a ∈ map event_of (processed_events d) -> ~ same_event b a.
Proof.
  revert d. induction ops as [|o ops IH]; intros d; [by intros ?%elem_of_nil|]. rewrite accepted_cons.
  intros [Hb|Hb]%elem_of_app a Ha; [by apply (accepted_first d o b)|].
  apply (IH _ Hb). rewrite exec_gop_events. apply elem_of_app. by left.
Qed.

(** An event is accepted exactly when no earlier one of its platform has its identifier
    or its message identifier; no two accepted events are the same one. *)
Theorem events_accepted_once ops :
  (forall before a between b after, accepted empty_gdb ops = before ++ a :: between ++ b :: after -> ~ same_event a b)
  /\ forall source e m, let event := (source, e, if truthy_str m then Some m else None) in
      (mark_event_processed (exec_gops empty_gdb ops) source e m).2 = true
      <-> forall a, a ∈ accepted empty_gdb ops -> ~ same_event event a.
Proof.
  split; [|intros source e m event; by rewrite marked_iff, exec_gops_events].
  generalize empty_gdb as d. induction ops as [|o ops IH]; intros d before a between b after; [by destruct before|].
  rewrite accepted_cons. intros E. destruct (accepted d [o]) as [|x l] eqn:Hf; [by apply (IH _ _ _ _ _ _ E)|].
  destruct (accepted_first d o x) as [Hx _]; [rewrite Hf; by left|]. rewrite Hf in Hx. injection Hx as ->.
  destruct before as [|y before]; injection E as -> E; [|by apply (IH _ _ _ _ _ _ E)].
  intros Hs%same_event_sym. apply (accepted_new (exec_gop d o) ops b) with a; [|rewrite exec_gop_events, Hf|done].
  - rewrite E. apply elem_of_app. right. by left.
  - apply elem_of_app. right. by left.
Qed.

(** * Witness *)

Definition a_chat : GatewaySessionKey := mkSessionKey "feishu" "oc_1" "" "Ann".
Definition registry_ops : list gop :=
  [GLink a_chat "s1" 1 ("l1", "c1"); GLink a_chat "s2" 2 ("l2", "c2"); GSwitch a_chat "s1" 3 ("l3", "c3"); GUnlink "s2"].

Lemma gateway_registry_sound_witness :
  let d := exec_gops empty_gdb registry_ops in
  gdb_ok d /\ exists l, get_active_session d a_chat = Some l /\ SessionLink.session_id l = "s1".
Proof.
  intros d. assert (Hf : all_fresh_gops empty_gdb registry_ops).
  { repeat split; try done; by apply (bool_decide_eq_true_1 _). }
  destruct (gateway_registry_sound registry_ops Hf) as (Hd & Hact & _). split; [exact Hd|]. apply Hact.
  exists (Conversation.mk "c1" "feishu" "oc_1" "" "Ann" (Some "s1") 1 3 None). split; [by left|done].
Defined.
