(* ===== verification/ArtifactDomain.v ===== *)
(** Artifacts, their revisions and their published snapshots (app/domain/artifact.py), and
    the policy on editing, publishing and deleting them (app/domain/artifact_policy.py).

    A text is kept as its UTF-8 bytes, so [len] of it is the length the code compares
    sizes with.  Timestamps are integers. *)
From S2P Require Import Prelude Text.
From Stdlib Require Import Ascii.
Open Scope Z_scope.

Module ArtifactKind.
Inductive t : Type := DOCUMENT | MARKDOWN | CODE | HTML | DATA | CSV | JSON | IMAGE | PDF | TEXT | OTHER.
#[global] Instance eq_dec : EqDecision t.
Proof. solve_decision. Defined.
Definition value (k : t) : string :=
  match k with
  | DOCUMENT => "document" | MARKDOWN => "markdown" | CODE => "code" | HTML => "html" | DATA => "data" | CSV => "csv"
  | JSON => "json" | IMAGE => "image" | PDF => "pdf" | TEXT => "text" | OTHER => "other"
  end.
End ArtifactKind.

Module ArtifactSource.
Inductive t : Type := TASK_ATTACHMENT | TASK_ARTIFACT | SESSION | MANUAL.
#[global] Instance eq_dec : EqDecision t.
Proof. solve_decision. Defined.
Definition value (k : t) : string :=
  match k with
  | TASK_ATTACHMENT => "task_attachment" | TASK_ARTIFACT => "task_artifact" | SESSION => "session" | MANUAL => "manual"
  end.
End ArtifactSource.

Module ArtifactStatus.
Inductive t : Type := DRAFT | PUBLISHED | ARCHIVED.
#[global] Instance eq_dec : EqDecision t.
Proof. solve_decision. Defined.
End ArtifactStatus.

Module PublishedArtifactStatus.
Inductive t : Type := ACTIVE | REVOKED.
#[global] Instance eq_dec : EqDecision t.
Proof. solve_decision. Defined.
End PublishedArtifactStatus.

(** [_TEXT_KINDS]; the other kinds are [_BINARY_KINDS]. *)
Definition is_text_kind (k : ArtifactKind.t) : bool :=
  match k with ArtifactKind.IMAGE | ArtifactKind.PDF | ArtifactKind.OTHER => false | _ => true end.

(** * Checksums *)

Definition hex_digit (c : ascii) : bool :=
  let n := nat_of_ascii c in
  ((48 <=? n) && (n <=? 57) || (97 <=? n) && (n <=? 102))%nat.

Definition NEWLINE : string := String (ascii_of_nat 10) "".

(** [_CHECKSUM_RE.match]; its [$] also matches before a last newline. *)
Definition valid_checksum (s : string) : bool :=
  let digits := drop_str 7 s in
  starts_with "sha256:" s
  && forallb hex_digit (chars (take_str 64 digits))
  && ((String.length digits =? 64)%nat || bool_decide (drop_str 64 digits = NEWLINE)).

(** * Artifacts *)

Module Artifact.
Record t : Type := mk {
  id : string;
  name : string;
  kind : ArtifactKind.t;
  mime : string;
  content_ref : option string;
  inline_content : option string;
  size : Z;
  checksum : string;
  source_kind : ArtifactSource.t;
  source_ref : string;
  source_context_ref : option string;
  source_session_id : option string;
  summary : string;
  classification : option string;
  labels : option (list string);
  status : ArtifactStatus.t;
  created_at : option Z;
  updated_at : option Z;
  created_by : string;
  current_revision_id : option string
}.
#[global] Instance rebuild : Rebuild t := fun a =>
  mk (id a) (name a) (kind a) (mime a) (content_ref a) (inline_content a) (size a) (checksum a) (source_kind a)
     (source_ref a) (source_context_ref a) (source_session_id a) (summary a) (classification a) (labels a) (status a)
     (created_at a) (updated_at a) (created_by a) (current_revision_id a).

(** [__post_init__]: every failure raises [ArtifactValidationError]. *)
Definition valid (a : t) : bool :=
  valid_checksum (checksum a) && (0 <=? size a)
  && (if is_text_kind (kind a)
      then negb (Bool.eqb (bool_decide (is_Some (inline_content a))) (truthy_opt_str (content_ref a)))
           && match inline_content a with Some text => size a =? len text | None => true end
      else bool_decide (inline_content a = None) && truthy_opt_str (content_ref a))
  && implb (bool_decide (source_kind a = ArtifactSource.MANUAL)) (bool_decide (source_ref a = id a)).
Definition make (a : t) : result t := if valid a then Return a else Raise ArtifactValidationError.

(** The numbers are printed by the caller. *)
Definition task_artifact_source_ref (task_id run_id ordinal : string) : string :=
  "task:" +:+ task_id +:+ ":run:" +:+ run_id +:+ ":artifact:" +:+ ordinal.
End Artifact.

(** * Published snapshots *)

Module PublishedArtifact.
Record t : Type := mk {
  publish_id : string;
  artifact_id : option string;
  snapshot_name : string;
  snapshot_kind : ArtifactKind.t;
  snapshot_mime : string;
  snapshot_content_ref : option string;
  snapshot_inline_content : option string;
  snapshot_size : Z;
  snapshot_checksum : string;
  snapshot_summary : string;
  published_at : option Z;
  published_by : string;
  status : PublishedArtifactStatus.t;
  revoked_at : option Z;
  published_revision_id : option string
}.
#[global] Instance rebuild : Rebuild t := fun p =>
  mk (publish_id p) (artifact_id p) (snapshot_name p) (snapshot_kind p) (snapshot_mime p) (snapshot_content_ref p)
     (snapshot_inline_content p) (snapshot_size p) (snapshot_checksum p) (snapshot_summary p) (published_at p)
     (published_by p) (status p) (revoked_at p) (published_revision_id p).
Definition valid (p : t) : bool := valid_checksum (snapshot_checksum p) && (0 <=? snapshot_size p).
Definition make (p : t) : result t := if valid p then Return p else Raise ArtifactValidationError.
Definition is_active (p : t) : bool := bool_decide (status p = PublishedArtifactStatus.ACTIVE).
End PublishedArtifact.

(** * Revisions *)

Module ArtifactRevision.
Record t : Type := mk {
  id : string;
  artifact_id : string;
  revision_number : Z;
  parent_revision_id : option string;
  rollback_from_revision_id : option string;
  content_ref : option string;
  inline_content : option string;
  size : Z;
  checksum : string;
  mime : string;
  kind : ArtifactKind.t;
  created_at : Z;
  change_summary : string;
  created_by : string;
  source_session_id : option string;
  source_run_id : option string
}.
#[global] Instance rebuild : Rebuild t := fun r =>
  mk (id r) (artifact_id r) (revision_number r) (parent_revision_id r) (rollback_from_revision_id r) (content_ref r)
     (inline_content r) (size r) (checksum r) (mime r) (kind r) (created_at r) (change_summary r) (created_by r)
     (source_session_id r) (source_run_id r).

Definition one_content (r : t) : bool :=
  negb (Bool.eqb (bool_decide (is_Some (content_ref r))) (bool_decide (is_Some (inline_content r)))).

(** [__post_init__]. *)
Definition valid (r : t) : bool :=
  one_content r
  && negb (bool_decide (content_ref r = Some ""))
  && negb (negb (is_text_kind (kind r)) && bool_decide (is_Some (inline_content r)))
  && (1 <=? revision_number r)
  && valid_checksum (checksum r)
  && (0 <=? size r)
  && truthy_str (mime r)
  && match content_ref r with Some ref => starts_with "item:" ref && (5 <? len ref) | None => true end
  && match inline_content r with
     | Some text => implb (is_text_kind (kind r)) (size r =? len text)
     | None => true
     end
  && negb (bool_decide (is_Some (rollback_from_revision_id r)) && bool_decide (parent_revision_id r = None)).
Definition make (r : t) : result t := if valid r then Return r else Raise ArtifactValidationError.

Definition is_initial (r : t) : bool :=
  bool_decide (parent_revision_id r = None) && bool_decide (rollback_from_revision_id r = None).
End ArtifactRevision.

(** * Values of the port *)

Record ArtifactListCursor := mkArtifactListCursor { ac_updated_at : option Z; ac_artifact_id : string }.
Record ArtifactListPage := mkArtifactListPage { ap_items : list Artifact.t; ap_next_cursor : option ArtifactListCursor }.

Module ArtifactAttachmentSource.
Record t : Type := mk {
  attachment_id : string;
  task_id : string;
  stored_name : string;
  filename : string;
  content_type : string;
  size : Z;
  checksum : string;
  uploaded_by : string;
  created_at : option Z
}.
End ArtifactAttachmentSource.

Record RevisionListCursor := mkRevisionListCursor { rc_artifact_id : string; rc_revision_number : Z; rc_id : string }.
Record RevisionListPage := mkRevisionListPage {
  rp_items : list ArtifactRevision.t; rp_next_cursor : option RevisionListCursor }.

Record ArtifactDeleteGraph := mkArtifactDeleteGraph {
  revision_content_refs : list string;
  legacy_artifact_content_ref : option string;
  publish_snapshot_ids : list string
}.

(** * The policy *)

Module ArtifactPolicyAction.
Inductive t : Type := EDIT | PUBLISH | DELETE.
#[global] Instance eq_dec : EqDecision t.
Proof. solve_decision. Defined.
End ArtifactPolicyAction.

Record ArtifactPolicyRequest := mkArtifactPolicyRequest {
  pr_artifact : Artifact.t;
  pr_action : ArtifactPolicyAction.t;
  pr_content_available : bool;
  pr_active_publish_checksum : option string;
  pr_publish_max_bytes : Z
}.

Record ArtifactPolicyOutcome := mkArtifactPolicyOutcome {
  po_decision : PolicyOutcome.t;
  po_reason : string;
  po_reuse : bool
}.

Definition publish_whitelisted (k : ArtifactKind.t) : bool := negb (bool_decide (k = ArtifactKind.OTHER)).
Definition SENSITIVE_LABELS : list string := ["sensitive"; "secret"].

Definition evaluate_edit (a : Artifact.t) : ArtifactPolicyOutcome :=
  if bool_decide (Artifact.status a = ArtifactStatus.ARCHIVED)
  then mkArtifactPolicyOutcome PolicyOutcome.DENY "archived" false
  else mkArtifactPolicyOutcome PolicyOutcome.ALLOW "edit_allowed" false.

Definition evaluate_publish (r : ArtifactPolicyRequest) (a : Artifact.t) : ArtifactPolicyOutcome :=
  let deny reason := mkArtifactPolicyOutcome PolicyOutcome.DENY reason false in
  if bool_decide (Artifact.status a = ArtifactStatus.ARCHIVED) then deny "archived"
  else if negb (pr_content_available r) then deny "content_unavailable"
  else if pr_publish_max_bytes r <? Artifact.size a then deny "size_over_limit"
  else if negb (publish_whitelisted (Artifact.kind a)) then deny "kind_not_publishable"
  else if negb (is_text_kind (Artifact.kind a))
          && (negb (bool_decide (Artifact.classification a = Some "public"))
              || existsb (fun l => bool_decide (l ∈ SENSITIVE_LABELS)) (default [] (Artifact.labels a)))
  then deny "binary_classification_denied"
  else match pr_active_publish_checksum r with
       | Some active =>
           if bool_decide (active = Artifact.checksum a)
           then mkArtifactPolicyOutcome PolicyOutcome.ALLOW "publish_reuse" true
           else mkArtifactPolicyOutcome PolicyOutcome.ALLOW "publish_replace" false
       | None => mkArtifactPolicyOutcome PolicyOutcome.ALLOW "publish_new" false
       end.

Definition artifact_evaluate (r : ArtifactPolicyRequest) : ArtifactPolicyOutcome :=
  match pr_action r with
  | ArtifactPolicyAction.EDIT => evaluate_edit (pr_artifact r)
  | ArtifactPolicyAction.DELETE => mkArtifactPolicyOutcome PolicyOutcome.ALLOW "delete_allowed" false
  | ArtifactPolicyAction.PUBLISH => evaluate_publish r (pr_artifact r)
  end.
