(* ===== verification/ArtifactStore.v ===== *)
(** The registry of artifacts, their revisions and their published snapshots
    (app/infrastructure/registry/sqlite_artifact_registry.py).

    A table is the list of its rows in the order they were inserted.  Every connection
    of this registry enforces foreign keys.  The clock is read once in an operation. *)
From S2P Require Import Prelude Text TaskStore ArtifactDomain.
From Stdlib Require Import Ascii.
Open Scope Z_scope.

Record adb := mkAdb {
  artifacts : list Artifact.t;
  revisions : list ArtifactRevision.t;
  published : list PublishedArtifact.t
}.
#[export] Instance rebuild_adb : Rebuild adb := fun d => mkAdb (artifacts d) (revisions d) (published d).

Definition empty_adb : adb := mkAdb [] [] [].

Definition update_artifacts (c : Artifact.t -> bool) (f : Artifact.t -> Artifact.t) (d : adb) : adb :=
  d <| artifacts := map (fun a => if c a then f a else a) (artifacts d) |>.
Definition update_published (c : PublishedArtifact.t -> bool) (f : PublishedArtifact.t -> PublishedArtifact.t) (d : adb) : adb :=
  d <| published := map (fun p => if c p then f p else p) (published d) |>.

Definition is_artifact (i : string) (a : Artifact.t) : bool := bool_decide (Artifact.id a = i).
Definition revision_of (i : string) (r : ArtifactRevision.t) : bool := bool_decide (ArtifactRevision.artifact_id r = i).
Definition publish_of (i : string) (p : PublishedArtifact.t) : bool := bool_decide (PublishedArtifact.artifact_id p = Some i).
Definition active_of (i : string) (p : PublishedArtifact.t) : bool := publish_of i p && PublishedArtifact.is_active p.

(** * Constraints

    [None] where the statement raises [sqlite3.IntegrityError]. *)

Definition same_source (a b : Artifact.t) : bool :=
  bool_decide (Artifact.source_kind a = Artifact.source_kind b)
  && bool_decide (Artifact.source_ref a = Artifact.source_ref b).

Definition insert_artifact (d : adb) (a : Artifact.t) : option adb :=
  if existsb (fun b => is_artifact (Artifact.id a) b || same_source a b) (artifacts d) then None
  else Some (d <| artifacts := artifacts d ++ [a] |>).

Definition revision_exists (d : adb) (i : string) : bool :=
  existsb (fun r => bool_decide (ArtifactRevision.id r = i)) (revisions d).

(** The reference of a row may be the row itself. *)
Definition refers (d : adb) (own : string) (o : option string) : bool :=
  match o with None => true | Some i => bool_decide (i = own) || revision_exists d i end.

Definition insert_revision (d : adb) (r : ArtifactRevision.t) : option adb :=
  if existsb (fun b => bool_decide (ArtifactRevision.id b = ArtifactRevision.id r)
                       || (revision_of (ArtifactRevision.artifact_id r) b
                           && (ArtifactRevision.revision_number b =? ArtifactRevision.revision_number r))) (revisions d)
     || negb ((1 <=? ArtifactRevision.revision_number r) && (0 <=? ArtifactRevision.size r)
              && ArtifactRevision.one_content r && negb (bool_decide (ArtifactRevision.content_ref r = Some "")))
     || negb (existsb (is_artifact (ArtifactRevision.artifact_id r)) (artifacts d))
     || negb (refers d (ArtifactRevision.id r) (ArtifactRevision.parent_revision_id r))
     || negb (refers d (ArtifactRevision.id r) (ArtifactRevision.rollback_from_revision_id r))
  then None
  else Some (d <| revisions := revisions d ++ [r] |>).

Definition insert_published (d : adb) (p : PublishedArtifact.t) : option adb :=
  if existsb (fun b => bool_decide (PublishedArtifact.publish_id b = PublishedArtifact.publish_id p)
                       || match PublishedArtifact.artifact_id p with
                          | Some i => PublishedArtifact.is_active p && active_of i b
                          | None => false
                          end) (published d)
     || match PublishedArtifact.artifact_id p with
        | Some i => negb (existsb (is_artifact i) (artifacts d))
        | None => false
        end
     || match PublishedArtifact.published_revision_id p with
        | Some i => negb (revision_exists d i)
        | None => false
        end
  then None
  else Some (d <| published := published d ++ [p] |>).

(** * Artifacts *)

Definition resolved_times (a : Artifact.t) (now : Z) : Artifact.t :=
  a <| Artifact.created_at := Some (default now (Artifact.created_at a)) |>
    <| Artifact.updated_at := Some (default now (Artifact.updated_at a)) |>.

Definition create_artifact (d : adb) (a : Artifact.t) (now : Z) : adb * result Artifact.t :=
  let a := resolved_times a now in
  match insert_artifact d a with
  | None => (d, Raise ArtifactConflictError)
  | Some d => (d, Return a)
  end.

Definition get_artifact (d : adb) (i : string) : option Artifact.t := List.find (is_artifact i) (artifacts d).

(** SQLite's [LIKE]: ASCII letters of either case are the same, [%] is any text, [_] any
    one character. *)
Definition ascii_lower (c : ascii) : ascii := if (nat_of_ascii c <? 128)%nat then lower_char c else c.
Definition continues (c : ascii) : bool := (128 <=? nat_of_ascii c)%nat && (nat_of_ascii c <? 192)%nat.
Fixpoint skip_continuation (s : string) : string :=
  match s with String c s' => if continues c then skip_continuation s' else s | "" => "" end.
Fixpoint some_suffix (f : string -> bool) (s : string) : bool :=
  f s || match s with String _ s => some_suffix f s | "" => false end.
Fixpoint like (p s : string) : bool :=
  match p with
  | "" => bool_decide (s = "")
  | String c p =>
      if bool_decide (c = "%"%char) then some_suffix (like p) s
      else match s with
           | "" => false
           | String c' s =>
               if bool_decide (c = "_"%char) then like p (skip_continuation s)
               else bool_decide (ascii_lower c = ascii_lower c') && like p s
           end
  end.

Record artifact_filter := mkArtifactFilter {
  af_source_kind : option ArtifactSource.t;
  af_source_context_ref : option string;
  af_source_session_id : option string;
  af_kind : option ArtifactKind.t;
  af_status : option ArtifactStatus.t;
  af_q : option string
}.
#[export] Instance rebuild_filter : Rebuild artifact_filter := fun f =>
  mkArtifactFilter (af_source_kind f) (af_source_context_ref f) (af_source_session_id f) (af_kind f) (af_status f) (af_q f).
Definition no_filter : artifact_filter := mkArtifactFilter None None None None None None.

Definition given {A} (o : option A) (f : A -> bool) : bool := match o with Some x => f x | None => true end.

Definition filter_matches (f : artifact_filter) (a : Artifact.t) : bool :=
  given (af_source_kind f) (fun k => bool_decide (Artifact.source_kind a = k))
  && given (af_source_context_ref f) (fun c => bool_decide (Artifact.source_context_ref a = Some c))
  && given (af_source_session_id f) (fun s => bool_decide (Artifact.source_session_id a = Some s))
  && given (af_kind f) (fun k => bool_decide (Artifact.kind a = k))
  && given (af_status f) (fun s => bool_decide (Artifact.status a = s))
  && given (af_q f) (fun q => like ("%" +:+ q +:+ "%") (Artifact.name a) || like ("%" +:+ q +:+ "%") (Artifact.summary a)).

(** A comparison with [NULL] is not true. *)
Definition before_cursor (c : option ArtifactListCursor) (a : Artifact.t) : bool :=
  given c (fun c =>
    match ac_updated_at c, Artifact.updated_at a with
    | Some at_, Some u =>
        (u <? at_) || ((u =? at_) && (str_leb (Artifact.id a) (ac_artifact_id c)
                                      && negb (bool_decide (Artifact.id a = ac_artifact_id c))))
    | _, _ => false
    end).

(** [ORDER BY updated_at DESC, id DESC] *)
Definition newest_artifact (a b : Artifact.t) : bool :=
  let u x := default 0 (Artifact.updated_at x) in
  (u b <? u a) || ((u a =? u b) && str_leb (Artifact.id b) (Artifact.id a)).

Definition clamp (low high n : Z) : Z := Z.max low (Z.min n high).

Definition page_of (rows : list Artifact.t) (c : option ArtifactListCursor) (limit : Z) : ArtifactListPage :=
  let rows := take (Z.to_nat (limit + 1)) (order_by newest_artifact (List.filter (before_cursor c) rows)) in
  let items := take (Z.to_nat limit) rows in
  mkArtifactListPage items
    (if limit <? Z.of_nat (length rows)
     then (fun a => mkArtifactListCursor (Artifact.updated_at a) (Artifact.id a)) <$> last items else None).

Definition list_artifacts (d : adb) (f : artifact_filter) (c : option ArtifactListCursor) (limit : Z) : ArtifactListPage :=
  page_of (List.filter (filter_matches f) (artifacts d)) c (clamp 1 500 limit).

(** Every column but the identifier, the creation time and the current revision. *)
Definition update_artifact (d : adb) (a : Artifact.t) (now : Z) : adb * result Artifact.t :=
  match get_artifact d (Artifact.id a) with
  | None => (d, Raise ArtifactNotFoundError)
  | Some _ =>
      if existsb (fun b => negb (is_artifact (Artifact.id a) b) && same_source a b) (artifacts d)
      then (d, Raise IntegrityError)
      else
        let write b := a <| Artifact.created_at := Artifact.created_at b |>
                         <| Artifact.updated_at := Some now |>
                         <| Artifact.current_revision_id := Artifact.current_revision_id b |> in
        let d := update_artifacts (is_artifact (Artifact.id a)) write d in
        (d, match get_artifact d (Artifact.id a) with Some r => Return r | None => Raise TypeError end)
  end.

(** [DELETE], with [ON DELETE CASCADE] on the revisions and [ON DELETE SET NULL] on
    what names a row that goes. *)
Definition clear_gone (gone : list string) (o : option string) : option string :=
  match o with Some i => if bool_decide (i ∈ gone) then None else Some i | None => None end.

Definition delete_row (d : adb) (i : string) : adb :=
  let gone := map ArtifactRevision.id (List.filter (revision_of i) (revisions d)) in
  if existsb (is_artifact i) (artifacts d) then
    mkAdb (List.filter (fun a => negb (is_artifact i a)) (artifacts d))
      (map (fun r => r <| ArtifactRevision.parent_revision_id := clear_gone gone (ArtifactRevision.parent_revision_id r) |>
                       <| ArtifactRevision.rollback_from_revision_id :=
                            clear_gone gone (ArtifactRevision.rollback_from_revision_id r) |>)
         (List.filter (fun r => negb (revision_of i r)) (revisions d)))
      (map (fun p => p <| PublishedArtifact.artifact_id := clear_gone [i] (PublishedArtifact.artifact_id p) |>
                       <| PublishedArtifact.published_revision_id :=
                            clear_gone gone (PublishedArtifact.published_revision_id p) |>) (published d))
  else d.

Definition delete_artifact (d : adb) (i : string) : adb * bool :=
  (delete_row d i, existsb (is_artifact i) (artifacts d)).

Definition get_by_source (d : adb) (k : ArtifactSource.t) (ref : string) : option Artifact.t :=
  List.find (fun a => bool_decide (Artifact.source_kind a = k) && bool_decide (Artifact.source_ref a = ref)) (artifacts d).

Definition count_artifacts (d : adb) : Z := Z.of_nat (length (artifacts d)).

Definition by_artifact_id (a b : Artifact.t) : bool := str_leb (Artifact.id a) (Artifact.id b).

Definition list_task_artifacts_missing_session (d : adb) (limit : Z) : list Artifact.t :=
  take (Z.to_nat (clamp 1 500 limit)) (order_by by_artifact_id
    (List.filter (fun a => bool_decide (Artifact.source_kind a ∈ [ArtifactSource.TASK_ARTIFACT; ArtifactSource.TASK_ATTACHMENT])
                           && bool_decide (Artifact.source_session_id a = None)) (artifacts d))).

Definition list_artifacts_with_empty_mime (d : adb) (limit : Z) : list Artifact.t :=
  take (Z.to_nat (clamp 1 500 limit)) (order_by by_artifact_id
    (List.filter (fun a => bool_decide (Artifact.mime a = "")) (artifacts d))).

(** * Published snapshots *)

(** [UPDATE published_artifacts SET status='revoked' WHERE artifact_id=? AND status='active'] *)
Definition revoked (now : Z) (p : PublishedArtifact.t) : PublishedArtifact.t :=
  p <| PublishedArtifact.status := PublishedArtifactStatus.REVOKED |> <| PublishedArtifact.revoked_at := Some now |>.
Definition revoke_active (i : string) (now : Z) (d : adb) : adb := update_published (active_of i) (revoked now) d.

Definition mark_published (i : string) (now : Z) (d : adb) : adb :=
  update_artifacts (is_artifact i)
    (fun a => a <| Artifact.status := ArtifactStatus.PUBLISHED |> <| Artifact.updated_at := Some now |>) d.

Definition get_published (d : adb) (publish_id : string) : option PublishedArtifact.t :=
  List.find (fun p => bool_decide (PublishedArtifact.publish_id p = publish_id)) (published d).
Definition get_active_publish (d : adb) (i : string) : option PublishedArtifact.t := List.find (active_of i) (published d).

Definition resolved_published (p : PublishedArtifact.t) (now : Z) : PublishedArtifact.t :=
  p <| PublishedArtifact.published_at := Some (default now (PublishedArtifact.published_at p)) |>.

(** On a failed insert the transaction is rolled back and an active row of the artifact,
    if there is one, is the answer. *)
Definition register_published (d : adb) (p : PublishedArtifact.t) (revoke_artifact_id : option string) (now : Z)
    : adb * result PublishedArtifact.t :=
  let p := resolved_published p now in
  let d1 := match revoke_artifact_id with Some i => revoke_active i now d | None => d end in
  match insert_published d1 p with
  | Some d2 => (match PublishedArtifact.artifact_id p with Some i => mark_published i now d2 | None => d2 end, Return p)
  | None =>
      (d, match PublishedArtifact.artifact_id p ≫= get_active_publish d with
          | Some existing => Return existing
          | None => Raise ArtifactConflictError
          end)
  end.

Definition newest_published (a b : PublishedArtifact.t) : bool :=
  let u x := default 0 (PublishedArtifact.published_at x) in
  (u b <? u a) || ((u a =? u b) && str_leb (PublishedArtifact.publish_id b) (PublishedArtifact.publish_id a)).
Definition list_published (d : adb) (artifact_id : option string) : list PublishedArtifact.t :=
  order_by newest_published (List.filter (fun p => given artifact_id (fun i => publish_of i p)) (published d)).

Definition last_revoked (a b : PublishedArtifact.t) : bool :=
  let u x := default 0 (PublishedArtifact.revoked_at x) in
  (u b <? u a) || ((u a =? u b) && str_leb (PublishedArtifact.publish_id b) (PublishedArtifact.publish_id a)).

Definition revoke_published (d : adb) (i : string) (now : Z) : adb * option PublishedArtifact.t :=
  match get_active_publish d i with
  | Some p =>
      (update_published (fun x => bool_decide (PublishedArtifact.publish_id x = PublishedArtifact.publish_id p)) (revoked now) d,
       Some (revoked now p))
  | None => (d, head (order_by last_revoked
                        (List.filter (fun p => publish_of i p && negb (PublishedArtifact.is_active p)) (published d))))
  end.

Definition delete_published_by_artifact (d : adb) (i : string) : adb * nat :=
  (d <| published := List.filter (fun p => negb (publish_of i p)) (published d) |>,
   length (List.filter (publish_of i) (published d))).

(** Reads the table of the task registry. *)
Definition attachment_source (a : TaskAttachment.t) : ArtifactAttachmentSource.t :=
  ArtifactAttachmentSource.mk (TaskAttachment.id a) (TaskAttachment.task_id a) (TaskAttachment.stored_name a)
    (TaskAttachment.filename a) (TaskAttachment.content_type a) (TaskAttachment.size a) (TaskAttachment.checksum a)
    (TaskAttachment.uploaded_by a) (TaskAttachment.created_at a).
Definition by_attachment_id (a b : TaskAttachment.t) : bool := str_leb (TaskAttachment.id a) (TaskAttachment.id b).
Definition list_attachment_sources (tasks : db) (after : option string) (limit : Z) : list ArtifactAttachmentSource.t :=
  map attachment_source (take (Z.to_nat (clamp 1 500 limit)) (order_by by_attachment_id
    (List.filter (fun a => given after (fun x => negb (str_leb (TaskAttachment.id a) x))) (task_attachments tasks)))).

(** * Revisions *)

Definition create_artifact_with_initial_revision (d : adb) (a : Artifact.t) (initial : ArtifactRevision.t) (now : Z)
    : adb * result (Artifact.t * ArtifactRevision.t) :=
  if negb (bool_decide (ArtifactRevision.artifact_id initial = Artifact.id a))
  then (d, Raise ArtifactRevisionValidationError)
  else if negb (ArtifactRevision.revision_number initial =? 1) || negb (ArtifactRevision.is_initial initial)
  then (d, Raise ArtifactRevisionValidationError)
  else
    let a := (resolved_times a now) <| Artifact.current_revision_id := Some (ArtifactRevision.id initial) |> in
    match insert_artifact d a ≫= fun d => insert_revision d initial with
    | Some d => (d, Return (a, initial))
    | None => (d, Raise ArtifactConflictError)
    end.

Definition get_revision (d : adb) (artifact_id revision_id : string) : option ArtifactRevision.t :=
  List.find (fun r => bool_decide (ArtifactRevision.id r = revision_id) && revision_of artifact_id r) (revisions d).

(** [MAX(revision_number)], 0 where there is none. *)
Definition max_number (d : adb) (i : string) : Z :=
  foldr Z.max 0 (map ArtifactRevision.revision_number (List.filter (revision_of i) (revisions d))).

Definition point_to (i revision_id : string) (now : Z) (d : adb) : adb :=
  update_artifacts (is_artifact i)
    (fun a => a <| Artifact.current_revision_id := Some revision_id |> <| Artifact.updated_at := Some now |>) d.

Definition belongs (d : adb) (i : string) (o : option string) : bool :=
  match o with
  | None => true
  | Some x => match List.find (fun r => bool_decide (ArtifactRevision.id r = x)) (revisions d) with
              | Some r => revision_of i r
              | None => false
              end
  end.

Definition append_revision (d : adb) (i : string) (r : ArtifactRevision.t) (expected : string) (now : Z)
    : adb * result ArtifactRevision.t :=
  if negb (bool_decide (ArtifactRevision.artifact_id r = i)) then (d, Raise ArtifactRevisionValidationError)
  else
    match get_artifact d i with
    | None => (d, Raise ArtifactNotFoundError)
    | Some a =>
        if negb (bool_decide (Artifact.current_revision_id a = Some expected)) then (d, Raise ArtifactRevisionConflictError)
        else if negb (bool_decide (ArtifactRevision.parent_revision_id r = Artifact.current_revision_id a))
        then (d, Raise ArtifactRevisionValidationError)
        else if negb (ArtifactRevision.revision_number r =? max_number d i + 1) then (d, Raise ArtifactRevisionValidationError)
        else if negb (belongs d i (ArtifactRevision.parent_revision_id r)) then (d, Raise ArtifactRevisionValidationError)
        else if negb (belongs d i (ArtifactRevision.rollback_from_revision_id r)) then (d, Raise ArtifactRevisionValidationError)
        else match insert_revision d r with
             | None => (d, Raise ArtifactRevisionConflictError)
             | Some d => (point_to i (ArtifactRevision.id r) now d, Return r)
             end
    end.

(** [ORDER BY revision_number DESC, id DESC] *)
Definition newest_revision (a b : ArtifactRevision.t) : bool :=
  (ArtifactRevision.revision_number b <? ArtifactRevision.revision_number a)
  || ((ArtifactRevision.revision_number a =? ArtifactRevision.revision_number b)
      && str_leb (ArtifactRevision.id b) (ArtifactRevision.id a)).
Definition before_revision (c : option RevisionListCursor) (r : ArtifactRevision.t) : bool :=
  given c (fun c =>
    (ArtifactRevision.revision_number r <? rc_revision_number c)
    || ((ArtifactRevision.revision_number r =? rc_revision_number c)
        && str_leb (ArtifactRevision.id r) (rc_id c) && negb (bool_decide (ArtifactRevision.id r = rc_id c)))).

Definition list_revisions (d : adb) (i : string) (c : option RevisionListCursor) (limit : Z) : result RevisionListPage :=
  let limit := clamp 1 100 limit in
  if negb (given c (fun c => bool_decide (rc_artifact_id c = i))) then Raise ArtifactRevisionValidationError
  else
    let rows := take (Z.to_nat (limit + 1)) (order_by newest_revision
                  (List.filter (before_revision c) (List.filter (revision_of i) (revisions d)))) in
    let items := take (Z.to_nat limit) rows in
    Return (mkRevisionListPage items
      (if limit <? Z.of_nat (length rows)
       then (fun r => mkRevisionListCursor i (ArtifactRevision.revision_number r) (ArtifactRevision.id r)) <$> last items
       else None)).

(** [dict.fromkeys], the order of first occurrences. *)
Definition first_occurrences (l : list string) : list string :=
  foldl (fun seen x => if bool_decide (x ∈ seen) then seen else seen ++ [x]) [] l.

Definition delete_artifact_graph (d : adb) (i : string) : adb * ArtifactDeleteGraph :=
  let refs := omap ArtifactRevision.content_ref (List.filter (revision_of i) (revisions d)) in
  (delete_row (d <| published := List.filter (fun p => negb (publish_of i p)) (published d) |>) i,
   mkArtifactDeleteGraph (first_occurrences (List.filter truthy_str refs))
     (get_artifact d i ≫= Artifact.content_ref)
     (map PublishedArtifact.publish_id (List.filter (publish_of i) (published d)))).

(** * Migration *)

Definition list_revision_migration_candidates (d : adb) (c : option ArtifactListCursor) (limit : Z) : ArtifactListPage :=
  page_of (List.filter (fun a => bool_decide (Artifact.current_revision_id a = None)) (artifacts d)) c (clamp 1 500 limit).

Definition commit_initial_revision_backfill (d : adb) (i : string) (r : ArtifactRevision.t) (now : Z)
    : adb * result ArtifactRevision.t :=
  match get_artifact d i with
  | None => (d, Raise ArtifactNotFoundError)
  | Some a =>
      match Artifact.current_revision_id a with
      | Some current => (d, match get_revision d i current with
                            | Some row => Return row
                            | None => Raise ArtifactRevisionValidationError
                            end)
      | None =>
          match List.find (fun r => revision_of i r && (ArtifactRevision.revision_number r =? 1)) (revisions d) with
          | Some row => (point_to i (ArtifactRevision.id row) now d, Return row)
          | None =>
              if negb (bool_decide (ArtifactRevision.artifact_id r = i)) then (d, Raise ArtifactRevisionValidationError)
              else if negb (ArtifactRevision.revision_number r =? 1) || negb (ArtifactRevision.is_initial r)
              then (d, Raise ArtifactRevisionValidationError)
              else match insert_revision d r with
                   | None => (d, Raise ArtifactConflictError)
                   | Some d => (point_to i (ArtifactRevision.id r) now d, Return r)
                   end
          end
      end
  end.

Definition same_content_publish (i checksum : string) (p : PublishedArtifact.t) : bool :=
  active_of i p && bool_decide (PublishedArtifact.snapshot_checksum p = checksum).

(** After a failed insert the code looks again for a snapshot with this checksum, and
    finds what it found before. *)
Definition register_revision_publish (d : adb) (p : PublishedArtifact.t) (i revision_id expected : string) (now : Z)
    : adb * result PublishedArtifact.t :=
  let p := (resolved_published p now) <| PublishedArtifact.published_revision_id := Some revision_id |> in
  match get_artifact d i with
  | None => (d, Raise ArtifactNotFoundError)
  | Some a =>
      if negb (bool_decide (Artifact.current_revision_id a = Some expected)) then (d, Raise ArtifactRevisionConflictError)
      else
        match List.find (same_content_publish i (PublishedArtifact.snapshot_checksum p)) (published d) with
        | Some existing => (d, Return existing)
        | None =>
            match insert_published (revoke_active i now d) p with
            | Some d => (mark_published i now d, Return p)
            | None => (d, Raise ArtifactConflictError)
            end
        end
  end.

Definition count_artifacts_without_revision (d : adb) : Z :=
  Z.of_nat (length (List.filter (fun a => bool_decide (Artifact.current_revision_id a = None)) (artifacts d))).
