(* ===== verification/ArtifactHistory.v ===== *)
(** What the artifact registry guarantees over every sequence of its operations: the
    revisions of an artifact form one chain that only grows and ends in the current
    revision, an edit prepared on an older revision is refused, and an artifact has one
    public snapshot at most, whose content never changes. *)
From S2P Require Import Prelude Text ArtifactDomain ArtifactStore.
Open Scope Z_scope.

(** * Operations as data *)

Inductive aop : Type :=
  | ACreate (a : Artifact.t) (now : Z)
  | ACreateInitial (a : Artifact.t) (r : ArtifactRevision.t) (now : Z)
  | AUpdate (a : Artifact.t) (now : Z)
  | ADelete (i : string)
  | ADeleteGraph (i : string)
  | AAppend (i : string) (r : ArtifactRevision.t) (expected : string) (now : Z)
  | ABackfill (i : string) (r : ArtifactRevision.t) (now : Z)
  | ARegister (p : PublishedArtifact.t) (revoke_artifact_id : option string) (now : Z)
  | APublish (p : PublishedArtifact.t) (i revision_id expected : string) (now : Z)
  | ARevoke (i : string) (now : Z)
  | ADeletePublished (i : string).

Definition exec_aop (d : adb) (o : aop) : adb :=
  match o with
  | ACreate a now => (create_artifact d a now).1
  | ACreateInitial a r now => (create_artifact_with_initial_revision d a r now).1
  | AUpdate a now => (update_artifact d a now).1
  | ADelete i => (delete_artifact d i).1
  | ADeleteGraph i => (delete_artifact_graph d i).1
  | AAppend i r expected now => (append_revision d i r expected now).1
  | ABackfill i r now => (commit_initial_revision_backfill d i r now).1
  | ARegister p revoke now => (register_published d p revoke now).1
  | APublish p i revision_id expected now => (register_revision_publish d p i revision_id expected now).1
  | ARevoke i now => (revoke_published d i now).1
  | ADeletePublished i => (delete_published_by_artifact d i).1
  end.
Definition exec_aops : adb -> list aop -> adb := foldl exec_aop.

(** An artifact stored without a revision names none; a snapshot registered for an
    artifact carries its id. *)
Definition aop_fits (o : aop) : Prop :=
  match o with
  | ACreate a _ => Artifact.current_revision_id a = None
  | APublish p i _ _ _ => PublishedArtifact.artifact_id p = Some i
  | _ => True
  end.

Definition deletes (i : string) (o : aop) : Prop :=
  match o with ADelete j | ADeleteGraph j => j = i | _ => False end.

(** * The invariant *)

Definition history (d : adb) (i : string) : list ArtifactRevision.t := List.filter (revision_of i) (revisions d).

(** The first revision has the parent [prev] and the number [n], and each other one the
    revision before it and the next number. *)
Fixpoint chained (prev : option string) (n : Z) (l : list ArtifactRevision.t) : Prop :=
  match l with
  | [] => True
  | r :: l => ArtifactRevision.parent_revision_id r = prev /\ ArtifactRevision.revision_number r = n
              /\ chained (Some (ArtifactRevision.id r)) (n + 1) l
  end.

Definition head_of (l : list ArtifactRevision.t) : option string := ArtifactRevision.id <$> last l.

Definition rolls_back_in (l : list ArtifactRevision.t) (r : ArtifactRevision.t) : Prop :=
  forall x, ArtifactRevision.rollback_from_revision_id r = Some x -> x ∈ map ArtifactRevision.id l.

Record history_ok (d : adb) (a : Artifact.t) : Prop := {
  ho_chain : chained None 1 (history d (Artifact.id a));
  ho_current : Artifact.current_revision_id a = head_of (history d (Artifact.id a));
  ho_rollback : Forall (rolls_back_in (history d (Artifact.id a))) (history d (Artifact.id a))
}.

Definition artifact_ids (d : adb) : list string := map Artifact.id (artifacts d).
Definition revision_ids (d : adb) : list string := map ArtifactRevision.id (revisions d).
Definition source_key (a : Artifact.t) : ArtifactSource.t * string := (Artifact.source_kind a, Artifact.source_ref a).

Record published_ok (d : adb) (p : PublishedArtifact.t) : Prop := {
  po_artifact : forall i, PublishedArtifact.artifact_id p = Some i -> i ∈ artifact_ids d;
  po_revision : forall r, PublishedArtifact.published_revision_id p = Some r -> r ∈ revision_ids d
}.

Record adb_ok (d : adb) : Prop := {
  ao_ids : NoDup (artifact_ids d);
  ao_sources : NoDup (map source_key (artifacts d));
  ao_revision_ids : NoDup (revision_ids d);
  ao_publish_ids : NoDup (map PublishedArtifact.publish_id (published d));
  ao_owned : forall r, r ∈ revisions d -> ArtifactRevision.artifact_id r ∈ artifact_ids d;
  ao_history : forall a, a ∈ artifacts d -> history_ok d a;
  ao_one_active : forall i, (length (List.filter (active_of i) (published d)) <= 1)%nat;
  ao_published : forall p, p ∈ published d -> published_ok d p
}.

(** ** Chains *)

Lemma chained_snoc l r : forall prev n,
  chained prev n (l ++ [r]) <->
  chained prev n l /\ ArtifactRevision.parent_revision_id r = match head_of l with Some x => Some x | None => prev end
  /\ ArtifactRevision.revision_number r = n + Z.of_nat (length l).
Proof.
  induction l as [|a l IH]; intros prev n; cbn [app chained length]; [cbn; rewrite Z.add_0_r; naive_solver|].
  rewrite IH. assert (Hh : head_of (a :: l) = Some (default (ArtifactRevision.id a) (head_of l))).
  { unfold head_of. destruct l; [done|]. rewrite last_cons. by destruct (last (t :: l)). }
  rewrite Hh. replace (n + 1 + Z.of_nat (length l)) with (n + Z.of_nat (S (length l))) by lia.
  destruct (head_of l); naive_solver.
Qed.

Lemma chained_max l : forall prev n, 1 <= n -> chained prev n l ->
  foldr Z.max 0 (map ArtifactRevision.revision_number l) = match l with [] => 0 | _ => n + Z.of_nat (length l) - 1 end.
Proof.
  induction l as [|r l IH]; intros prev n Hn; [done|]. intros (_ & Hr & Hl). cbn [map foldr length].
  rewrite (IH _ (n + 1) ltac:(lia) Hl). destruct l; cbn [length]; lia.
Qed.

Lemma head_of_elem l x : head_of l = Some x -> x ∈ map ArtifactRevision.id l.
Proof.
  unfold head_of. destruct (last l) eqn:Hl; [|done]. intros [= <-]. apply list_elem_of_fmap. eexists. split; [done|].
  by apply last_Some_elem_of.
Qed.

Lemma head_of_none l : head_of l = None -> l = [].
Proof. unfold head_of. rewrite fmap_None. by intros ?%last_None. Qed.

Lemma NoDup_snoc {A} (l : list A) x : NoDup l -> x ∉ l -> NoDup (l ++ [x]).
Proof.
  intros Hl Hx. apply NoDup_app. split; [done|]. split; [|apply NoDup_singleton]. by intros y Hy ->%list_elem_of_singleton.
Qed.

(** ** Every operation keeps it *)

(** A change of other columns of the artifacts. *)
Lemma ok_artifact_rows d d' :
  adb_ok d -> revisions d' = revisions d -> published d' = published d -> artifact_ids d' = artifact_ids d ->
  NoDup (map source_key (artifacts d')) ->
  (forall a', a' ∈ artifacts d' -> exists a, a ∈ artifacts d /\ Artifact.id a' = Artifact.id a
                                            /\ Artifact.current_revision_id a' = Artifact.current_revision_id a) ->
  adb_ok d'.
Proof.
  intros Hd Hr Hp Hi Hs Ha. destruct d' as [as' rs' ps']; cbn in Hr, Hp. subst. destruct Hd.
  split; unfold revision_ids, artifact_ids, history in *; cbn [revisions published artifacts] in *; rewrite ?Hi; try done.
  - intros a' (a & Ha0 & Hia & Hc)%Ha. destruct (ao_history0 a Ha0) as [H1 H2 H3].
    split; unfold history in *; cbn [revisions]; by rewrite ?Hc, Hia.
  - intros p Hp. destruct (ao_published0 p Hp) as [H1 H2]. split; unfold artifact_ids; cbn [artifacts]; rewrite ?Hi; done.
Qed.

Lemma map_if_same {A B} (g : A -> B) (c : A -> bool) (f : A -> A) l :
  (forall a, c a = true -> g (f a) = g a) -> map g (map (fun a => if c a then f a else a) l) = map g l.
Proof. intros H. rewrite map_map. apply map_ext. intros a. destruct (c a) eqn:Hc; auto. Qed.

Lemma ok_update_artifacts d c f :
  adb_ok d ->
  (forall a, c a = true -> Artifact.id (f a) = Artifact.id a /\ source_key (f a) = source_key a
                           /\ Artifact.current_revision_id (f a) = Artifact.current_revision_id a) ->
  adb_ok (update_artifacts c f d).
Proof.
  intros Hd Hf. apply (ok_artifact_rows d); [done|done|done| | |].
  - unfold artifact_ids. cbn. apply map_if_same. naive_solver.
  - cbn. rewrite map_if_same by naive_solver. apply Hd.
  - intros a' (a & -> & Ha)%list_elem_of_fmap. exists a. split; [done|]. destruct (c a) eqn:Hc; [|done]. naive_solver.
Qed.

(** A change of the snapshots. *)
Lemma ok_published_rows d l :
  adb_ok d -> NoDup (map PublishedArtifact.publish_id l) ->
  (forall i, (length (List.filter (active_of i) l) <= 1)%nat) ->
  (forall p, p ∈ l -> published_ok d p) -> adb_ok (d <| published := l |>).
Proof.
  intros [] H1 H2 H3. split; try done; [intros a [? ? ?]%ao_history0|intros p [? ?]%H3]; by split.
Qed.

Lemma filter_map_le {A} (p : A -> bool) (f : A -> A) l :
  (forall a, p (f a) = true -> p a = true) -> (length (List.filter p (map f l)) <= length (List.filter p l))%nat.
Proof.
  intros H. induction l as [|a l IH]; [done|]. cbn. destruct (p (f a)) eqn:Hf; [rewrite (H a Hf); cbn; lia|].
  destruct (p a); cbn; lia.
Qed.

Lemma ok_update_published d c f :
  adb_ok d ->
  (forall p, PublishedArtifact.publish_id (f p) = PublishedArtifact.publish_id p
             /\ PublishedArtifact.artifact_id (f p) = PublishedArtifact.artifact_id p
             /\ PublishedArtifact.published_revision_id (f p) = PublishedArtifact.published_revision_id p
             /\ (PublishedArtifact.is_active (f p) = true -> PublishedArtifact.is_active p = true)) ->
  adb_ok (update_published c f d).
Proof.
  intros Hd Hf. apply ok_published_rows; [done| | |].
  - rewrite map_if_same by (intros; apply Hf). apply Hd.
  - intros i. etrans; [apply filter_map_le|apply (ao_one_active d Hd i)]. intros p. destruct (c p); [|done].
    unfold active_of, publish_of. destruct (Hf p) as (_ & -> & _ & H). rewrite !andb_true_iff. naive_solver.
  - intros p' (p & -> & Hp)%list_elem_of_fmap. destruct (ao_published d Hd p Hp) as [H1 H2].
    destruct (c p); [|done]. destruct (Hf p) as (_ & Ea & Er & _). split; rewrite ?Ea, ?Er; done.
Qed.

Lemma ok_revoke d c now : adb_ok d -> adb_ok (update_published c (revoked now) d).
Proof. intros Hd. apply ok_update_published; [done|]. intros p. repeat split. by unfold PublishedArtifact.is_active. Qed.

Lemma ok_mark_published d i now : adb_ok d -> adb_ok (mark_published i now d).
Proof. intros Hd. by apply ok_update_artifacts. Qed.


Lemma existsb_is_artifact d i : existsb (is_artifact i) (artifacts d) = true <-> i ∈ artifact_ids d.
Proof.
  rewrite existsb_exists. unfold artifact_ids, is_artifact. rewrite list_elem_of_fmap.
  setoid_rewrite bool_decide_eq_true. setoid_rewrite <- list_elem_of_In. naive_solver.
Qed.

Lemma revision_exists_spec d i : revision_exists d i = true <-> i ∈ revision_ids d.
Proof.
  unfold revision_exists, revision_ids. rewrite existsb_exists, list_elem_of_fmap.
  setoid_rewrite bool_decide_eq_true. setoid_rewrite <- list_elem_of_In. naive_solver.
Qed.

Lemma get_artifact_spec d i a : get_artifact d i = Some a -> a ∈ artifacts d /\ Artifact.id a = i.
Proof. intros [H1 H2]%find_some. apply list_elem_of_In in H1. by apply bool_decide_eq_true in H2. Qed.

Lemma get_artifact_none d i : get_artifact d i = None -> i ∉ artifact_ids d.
Proof.
  intros H [a [-> Ha]]%list_elem_of_fmap. apply list_elem_of_In in Ha. pose proof (find_none _ _ H a Ha) as Hn.
  by apply bool_decide_eq_false in Hn.
Qed.

Lemma get_artifact_unique d a : adb_ok d -> a ∈ artifacts d -> get_artifact d (Artifact.id a) = Some a.
Proof.
  intros Hd Ha. destruct (get_artifact d (Artifact.id a)) as [b|] eqn:Hb.
  - apply get_artifact_spec in Hb as [Hb Hi]. f_equal. by apply (NoDup_map_inj Artifact.id (artifacts d)); [apply Hd|..].
  - apply get_artifact_none in Hb. contradict Hb. by apply list_elem_of_fmap_2.
Qed.

Lemma insert_artifact_spec d a d' :
  insert_artifact d a = Some d' ->
  d' = (d <| artifacts := artifacts d ++ [a] |>) /\ Artifact.id a ∉ artifact_ids d
  /\ source_key a ∉ map source_key (artifacts d).
Proof.
  unfold insert_artifact. case_match eqn:He; [done|]. intros [= <-]. split; [done|].
  rewrite existsb_false in He. split; intros (b & Hb & Hin)%list_elem_of_fmap; pose proof (He b Hin) as Hf;
    apply orb_false_iff in Hf as [H1 H2].
  - by apply bool_decide_eq_false in H1.
  - unfold same_source in H2. injection Hb as H3 H4. rewrite H3, H4, !bool_decide_true in H2; done.
Qed.

Lemma insert_revision_spec d r d' :
  insert_revision d r = Some d' ->
  d' = (d <| revisions := revisions d ++ [r] |>) /\ ArtifactRevision.id r ∉ revision_ids d
  /\ ArtifactRevision.artifact_id r ∈ artifact_ids d.
Proof.
  unfold insert_revision. case_match eqn:He; [done|]. intros [= <-]. split; [done|].
  rewrite !orb_false_iff, !negb_false_iff in He. destruct He as ((((He & _) & Ha) & _) & _).
  split; [|by apply existsb_is_artifact]. rewrite existsb_false in He.
  intros (b & Hb & Hin)%list_elem_of_fmap. pose proof (He b Hin) as Hf. apply orb_false_iff in Hf as [H1 _].
  by apply bool_decide_eq_false in H1.
Qed.

Lemma history_snoc d r i :
  history (d <| revisions := revisions d ++ [r] |>) i
  = history d i ++ (if revision_of i r then [r] else []).
Proof. unfold history. cbn. rewrite List.filter_app. cbn. by destruct (revision_of i r). Qed.

Lemma history_unowned d i : adb_ok d -> i ∉ artifact_ids d -> history d i = [].
Proof.
  intros Hd Hi. apply List_filter_none, Forall_forall. intros r Hr. apply bool_decide_eq_false. intros <-.
  by apply Hi, Hd.
Qed.

Lemma ok_add_artifact d a :
  adb_ok d -> Artifact.id a ∉ artifact_ids d -> source_key a ∉ map source_key (artifacts d) ->
  Artifact.current_revision_id a = None -> adb_ok (d <| artifacts := artifacts d ++ [a] |>).
Proof.
  intros Hd Hi Hs Hc. pose proof (history_unowned d _ Hd Hi) as Hh. destruct Hd.
  assert (Hids : artifact_ids (d <| artifacts := artifacts d ++ [a] |>) = artifact_ids d ++ [Artifact.id a]).
  { unfold artifact_ids. cbn. by rewrite map_app. }
  split; rewrite ?Hids; try done.
  - by apply NoDup_snoc.
  - cbn. rewrite map_app. by apply NoDup_snoc.
  - intros r Hr. apply elem_of_app. by left; apply ao_owned0.
  - intros b [Hb| ->%list_elem_of_singleton]%elem_of_app; [by destruct (ao_history0 b Hb); split|].
    split; unfold history in *; cbn; rewrite ?Hh; [done|done|constructor].
  - intros p [H1 H2]%ao_published0. split; [|done]. intros j Hj. rewrite Hids. apply elem_of_app. by left; apply H1.
Qed.

(** A revision after the current one. *)
Lemma ok_append d a r now :
  adb_ok d -> a ∈ artifacts d -> ArtifactRevision.artifact_id r = Artifact.id a ->
  ArtifactRevision.id r ∉ revision_ids d ->
  ArtifactRevision.parent_revision_id r = Artifact.current_revision_id a ->
  ArtifactRevision.revision_number r = 1 + Z.of_nat (length (history d (Artifact.id a))) ->
  rolls_back_in (history d (Artifact.id a)) r ->
  adb_ok (point_to (Artifact.id a) (ArtifactRevision.id r) now (d <| revisions := revisions d ++ [r] |>)).
Proof.
  intros Hd Ha Hown Hfresh Hpar Hnum Hroll. set (d' := point_to _ _ _ _).
  assert (Hids : artifact_ids d' = artifact_ids d) by (unfold artifact_ids; cbn; by apply map_if_same).
  assert (Hhist : forall i, history d' i = history d i ++ (if revision_of i r then [r] else []))
    by (intros i; apply history_snoc).
  assert (Hrev : revision_of (Artifact.id a) r = true) by by apply bool_decide_eq_true.
  pose proof (get_artifact_unique d a Hd Ha) as Hget.
  destruct (ao_history d Hd a Ha) as [Hch Hcur Hrb]. destruct Hd.
  split; rewrite ?Hids; try done.
  - cbn. rewrite map_if_same; done.
  - unfold revision_ids. cbn. rewrite map_app. by apply NoDup_snoc.
  - intros x [Hx| ->%list_elem_of_singleton]%elem_of_app; [by apply ao_owned0|]. rewrite Hown. by apply list_elem_of_fmap_2.
  - intros b' (b & -> & Hb)%list_elem_of_fmap. destruct (is_artifact (Artifact.id a) b) eqn:Hab.
    + apply bool_decide_eq_true in Hab. assert (b = a) as -> by by apply (NoDup_map_inj Artifact.id (artifacts d)).
      split; cbn -[history]; rewrite Hhist, Hrev.
      * apply chained_snoc. split; [done|]. rewrite Hpar, Hcur. split; [by destruct (head_of _)|done].
      * unfold head_of. by rewrite last_snoc.
      * apply Forall_app. split; [|constructor; [|done]].
        -- eapply Forall_impl; [exact Hrb|]. intros x Hx y Hy. rewrite map_app. apply elem_of_app. by left; apply Hx.
        -- intros y Hy. rewrite map_app. apply elem_of_app. by left; apply Hroll.
    + assert (Hno : revision_of (Artifact.id b) r = false).
      { apply bool_decide_eq_false. rewrite Hown. intros E. apply bool_decide_eq_false in Hab. by rewrite E in Hab. }
      destruct (ao_history0 b Hb) as [H1 H2 H3]. split; rewrite Hhist, Hno, app_nil_r; done.
  - intros p [H1 H2]%ao_published0. split; [by rewrite Hids|]. intros x Hx. unfold revision_ids. cbn. rewrite map_app.
    apply elem_of_app. by left; apply H2.
Qed.

Lemma chained_parent l r x : forall prev n,
  chained prev n l -> r ∈ l -> ArtifactRevision.parent_revision_id r = Some x ->
  prev = Some x \/ x ∈ map ArtifactRevision.id l.
Proof.
  induction l as [|a l IH]; intros prev n; [by intros _ ?%elem_of_nil|]. intros (Ha & _ & Hl) [->|Hr]%elem_of_cons Hx.
  - left. congruence.
  - right. cbn. destruct (IH _ _ Hl Hr Hx) as [[= ->]|H]; [by left|by right].
Qed.

Lemma in_history d r : r ∈ revisions d -> r ∈ history d (ArtifactRevision.artifact_id r).
Proof. intros Hr. apply List_filter_elem. split; [done|]. by apply bool_decide_eq_true. Qed.
Lemma history_elem d i r : r ∈ history d i -> r ∈ revisions d /\ ArtifactRevision.artifact_id r = i.
Proof. intros [Hr Hi]%List_filter_elem. by apply bool_decide_eq_true in Hi. Qed.

(** A revision refers to revisions of its own artifact only. *)
Lemma refers_to_own d r x :
  adb_ok d -> r ∈ revisions d ->
  ArtifactRevision.parent_revision_id r = Some x \/ ArtifactRevision.rollback_from_revision_id r = Some x ->
  x ∈ map ArtifactRevision.id (history d (ArtifactRevision.artifact_id r)).
Proof.
  intros Hd Hr Hx. pose proof (ao_owned d Hd r Hr) as (a & Hi & Ha)%list_elem_of_fmap.
  destruct (ao_history d Hd a Ha) as [Hc _ Hb]. rewrite <- Hi in Hc, Hb. pose proof (in_history d r Hr) as Hin.
  destruct Hx as [Hx|Hx]; [|by rewrite Forall_forall in Hb; apply (Hb r Hin)].
  by destruct (chained_parent _ _ _ _ _ Hc Hin Hx).
Qed.

Lemma clear_gone_keeps gone o : (forall x, o = Some x -> x ∉ gone) -> clear_gone gone o = o.
Proof. intros H. destruct o as [x|]; [|done]. cbn. rewrite bool_decide_false; [done|]. by apply H. Qed.

Lemma revision_id_inj d x r : adb_ok d -> x ∈ revisions d -> r ∈ revisions d ->
  ArtifactRevision.id x = ArtifactRevision.id r -> x = r.
Proof. intros Hd. apply (NoDup_map_inj ArtifactRevision.id (revisions d)), Hd. Qed.

Lemma delete_row_revisions d i :
  adb_ok d -> revisions (delete_row d i) = List.filter (fun r => negb (revision_of i r)) (revisions d).
Proof.
  intros Hd. unfold delete_row. destruct (existsb (is_artifact i) (artifacts d)) eqn:He.
  - cbn [revisions]. etrans; [|apply map_id]. apply map_ext_in. intros r [Hr Hi]%list_elem_of_In%List_filter_elem.
    apply negb_true_iff, bool_decide_eq_false in Hi.
    assert (Hout : forall x, ArtifactRevision.parent_revision_id r = Some x \/ ArtifactRevision.rollback_from_revision_id r = Some x ->
                     x ∉ map ArtifactRevision.id (List.filter (revision_of i) (revisions d))).
    { intros x Hx (y & -> & [Hy Hyi]%history_elem)%list_elem_of_fmap.
      pose proof (refers_to_own d r _ Hd Hr Hx) as (z & Hz & [Hz1 Hz2]%history_elem)%list_elem_of_fmap.
      assert (y = z) as -> by by apply (revision_id_inj d). congruence. }
    rewrite !clear_gone_keeps by naive_solver. by destruct r.
  - symmetry. apply List_filter_all, Forall_forall. intros r Hr. apply negb_true_iff, bool_decide_eq_false. intros <-.
    apply (ao_owned d Hd) in Hr. apply existsb_is_artifact in Hr. congruence.
Qed.

Lemma delete_row_history d i j : adb_ok d -> i <> j -> history (delete_row d i) j = history d j.
Proof.
  intros Hd Hij. unfold history. rewrite delete_row_revisions by done. rewrite <- List_filter_and. apply filter_ext.
  intros r. unfold revision_of. do 2 case_bool_decide; cbn; congruence.
Qed.

Lemma delete_row_ids d i : artifact_ids (delete_row d i) = List.filter (fun x => negb (bool_decide (x = i))) (artifact_ids d).
Proof.
  unfold delete_row, artifact_ids. destruct (existsb (is_artifact i) (artifacts d)) eqn:He; cbn [artifacts].
  - clear He. induction (artifacts d) as [|a l IH]; [done|]. cbn [map List.filter]. unfold is_artifact at 1.
    destruct (bool_decide (Artifact.id a = i)); cbn [negb map]; by rewrite IH.
  - rewrite List_filter_all; [done|]. apply Forall_forall. intros x (a & -> & Ha)%list_elem_of_fmap.
    rewrite existsb_false in He. apply negb_true_iff. by apply (He a).
Qed.

Lemma delete_row_artifact d i a : a ∈ artifacts (delete_row d i) -> a ∈ artifacts d /\ Artifact.id a <> i.
Proof.
  unfold delete_row. destruct (existsb (is_artifact i) (artifacts d)) eqn:He; cbn [artifacts].
  - intros [Ha Hi]%List_filter_elem. apply negb_true_iff, bool_decide_eq_false in Hi. done.
  - intros Ha. split; [done|]. rewrite existsb_false in He. by apply He, bool_decide_eq_false in Ha.
Qed.

Lemma delete_row_published d i :
  i ∈ artifact_ids d ->
  published (delete_row d i)
  = map (fun p => p <| PublishedArtifact.artifact_id := clear_gone [i] (PublishedArtifact.artifact_id p) |>
                    <| PublishedArtifact.published_revision_id :=
                         clear_gone (map ArtifactRevision.id (history d i)) (PublishedArtifact.published_revision_id p) |>)
        (published d).
Proof. intros Hi%existsb_is_artifact. unfold delete_row. by rewrite Hi. Qed.

Lemma remaining_revision d i x :
  adb_ok d -> x ∈ revision_ids d -> x ∉ map ArtifactRevision.id (history d i) -> x ∈ revision_ids (delete_row d i).
Proof.
  intros Hd (r & -> & Hr)%list_elem_of_fmap Hx. unfold revision_ids. rewrite delete_row_revisions by done.
  apply list_elem_of_fmap_2, List_filter_elem. split; [done|]. apply negb_true_iff, bool_decide_eq_false. intros <-.
  by apply Hx, list_elem_of_fmap_2, in_history.
Qed.

Lemma clear_gone_some gone o x : clear_gone gone o = Some x -> o = Some x /\ x ∉ gone.
Proof. destruct o as [y|]; [|done]. cbn. case_bool_decide; [done|]. by intros [= ->]. Qed.

Lemma ok_delete_row d i : adb_ok d -> adb_ok (delete_row d i).
Proof.
  intros Hd. destruct (existsb (is_artifact i) (artifacts d)) eqn:He; [|unfold delete_row; by rewrite He].
  apply existsb_is_artifact in He. pose proof (delete_row_published d i He) as Hp. split.
  - rewrite delete_row_ids. apply NoDup_List_filter, Hd.
  - unfold delete_row. apply existsb_is_artifact in He. rewrite He. cbn. apply NoDup_map_filter, Hd.
  - unfold revision_ids. rewrite delete_row_revisions by done. apply NoDup_map_filter, Hd.
  - rewrite Hp, map_map. apply Hd.
  - intros r. rewrite delete_row_revisions, delete_row_ids by done. intros [Hr Hi]%List_filter_elem.
    apply List_filter_elem. split; [by apply Hd|done].
  - intros a [Ha Hi]%delete_row_artifact. destruct (ao_history d Hd a Ha) as [H1 H2 H3].
    split; rewrite delete_row_history by done; done.
  - intros j. rewrite Hp. etrans; [apply filter_map_le|apply (ao_one_active d Hd j)]. intros p.
    unfold active_of, publish_of. rewrite !andb_true_iff, !bool_decide_eq_true. cbn. by intros [[H _]%clear_gone_some ?].
  - intros p'. rewrite Hp. intros (p & -> & Hin)%list_elem_of_fmap. destruct (ao_published d Hd p Hin) as [H1 H2]. split; cbn.
    + intros j [Hj Hji]%clear_gone_some. rewrite delete_row_ids. apply List_filter_elem. split; [by apply H1|].
      apply negb_true_iff, bool_decide_eq_false. intros ->. by apply Hji, list_elem_of_singleton.
    + intros x [Hx Hg]%clear_gone_some. apply remaining_revision; [done|by apply H2|done].
Qed.

Lemma ok_published_filter d f : adb_ok d -> adb_ok (d <| published := List.filter f (published d) |>).
Proof.
  intros Hd. apply ok_published_rows; [done| | |].
  - apply NoDup_map_filter, Hd.
  - intros i. etrans; [|apply (ao_one_active d Hd i)]. rewrite <- List_filter_and.
    clear. induction (published d) as [|p l IH]; [done|]. cbn. destruct (f p), (active_of i p); cbn; lia.
  - intros p [Hp _]%List_filter_elem. by apply Hd.
Qed.

Lemma insert_published_spec d p d' :
  insert_published d p = Some d' ->
  d' = (d <| published := published d ++ [p] |>)
  /\ PublishedArtifact.publish_id p ∉ map PublishedArtifact.publish_id (published d)
  /\ (forall i, active_of i p = true -> List.filter (active_of i) (published d) = [])
  /\ published_ok d p.
Proof.
  unfold insert_published. case_match eqn:He; [done|]. intros [= <-]. split; [done|].
  rewrite !orb_false_iff, existsb_false in He. destruct He as [[He Ha] Hr]. split; [|split; [|split]].
  - intros (q & Hq & Hin)%list_elem_of_fmap. apply He in Hin. apply orb_false_iff in Hin as [Hin _].
    by apply bool_decide_eq_false in Hin.
  - intros i [Hi Hact]%andb_true_iff. apply bool_decide_eq_true in Hi. apply List_filter_none, Forall_forall. intros q Hq.
    apply He in Hq. rewrite Hi, Hact in Hq. by apply orb_false_iff in Hq as [_ Hq].
  - intros i Hi. rewrite Hi in Ha. apply existsb_is_artifact. by apply negb_false_iff.
  - intros x Hx. rewrite Hx in Hr. apply revision_exists_spec. by apply negb_false_iff.
Qed.

Lemma ok_insert_published d p d' : adb_ok d -> insert_published d p = Some d' -> adb_ok d'.
Proof.
  intros Hd (-> & Hid & Hact & Hok)%insert_published_spec. apply ok_published_rows; [done| | |].
  - rewrite map_app. apply NoDup_snoc; [apply Hd|done].
  - intros i. rewrite List.filter_app. cbn. destruct (active_of i p) eqn:Hi; [by rewrite (Hact i Hi)|].
    rewrite app_nil_r. apply Hd.
  - intros q [Hq| ->%list_elem_of_singleton]%elem_of_app; [by apply Hd|done].
Qed.

Lemma belongs_spec d i x : adb_ok d -> belongs d i (Some x) = true -> x ∈ map ArtifactRevision.id (history d i).
Proof.
  intros Hd. unfold belongs. destruct (List.find _ _) as [r|] eqn:Hf; [|done]. apply find_some in Hf as [Hr Hx].
  apply list_elem_of_In in Hr. apply bool_decide_eq_true in Hx. intros Hi. apply list_elem_of_fmap. exists r.
  split; [done|]. by apply List_filter_elem.
Qed.

Lemma max_number_ok d a : adb_ok d -> a ∈ artifacts d ->
  max_number d (Artifact.id a) = Z.of_nat (length (history d (Artifact.id a))).
Proof.
  intros Hd Ha. destruct (ao_history d Hd a Ha) as [Hc _ _]. unfold max_number, history in *.
  rewrite (chained_max _ None 1) by (done || lia). destruct (List.filter _ _); cbn [length]; lia.
Qed.

Lemma ok_create d a now : adb_ok d -> Artifact.current_revision_id a = None -> adb_ok (create_artifact d a now).1.
Proof.
  intros Hd Hc. unfold create_artifact. destruct (insert_artifact d _) as [d'|] eqn:Hi; [|done].
  apply insert_artifact_spec in Hi as (-> & ? & ?). by apply ok_add_artifact.
Qed.

Lemma ok_create_initial d a r now : adb_ok d -> adb_ok (create_artifact_with_initial_revision d a r now).1.
Proof.
  intros Hd. unfold create_artifact_with_initial_revision. case_bool_decide as Hown; [|done]. cbn [negb].
  destruct (_ || _) eqn:Hn; [done|]. apply orb_false_iff in Hn as [Hn Hinit].
  apply negb_false_iff, Z.eqb_eq in Hn. apply negb_false_iff, andb_true_iff in Hinit as [Hp Hrb].
  apply bool_decide_eq_true in Hp. apply bool_decide_eq_true in Hrb.
  destruct (insert_artifact _ _) as [d1|] eqn:Hi; [|done]. cbn [mbind option_bind]. destruct (insert_revision d1 r) as [d2|] eqn:Hr; [|done].
  apply insert_artifact_spec in Hi as (-> & Hid & Hsrc). apply insert_revision_spec in Hr as (-> & Hrid & _). cbn [fst].
  set (a0 := (resolved_times a now) <| Artifact.current_revision_id := None |>).
  set (d1 := d <| artifacts := artifacts d ++ [a0] |>).
  assert (H0 : adb_ok d1) by by apply ok_add_artifact.
  assert (Hh : history d1 (Artifact.id a0) = []) by by apply (history_unowned d).
  assert (H1 : adb_ok (point_to (Artifact.id a0) (ArtifactRevision.id r) 0 (d1 <| revisions := revisions d1 ++ [r] |>))).
  { apply ok_append; try done; [|by rewrite Hh, Hn|intros x; by rewrite Hrb].
    apply elem_of_app. right. by apply list_elem_of_singleton. }
  apply (ok_artifact_rows _ _ H1); try done.
  - unfold artifact_ids. cbn. rewrite map_if_same by done. by rewrite !map_app.
  - cbn. rewrite map_app. apply NoDup_snoc; [apply Hd|done].
  - cbn. intros a' [Ha| ->%list_elem_of_singleton]%elem_of_app.
    + exists a'. split; [|done]. apply list_elem_of_fmap. exists a'. split; [|apply elem_of_app; by left].
      unfold is_artifact. rewrite bool_decide_false; [done|]. intros E. apply Hid. cbn. rewrite <- E. by apply list_elem_of_fmap_2.
    + eexists. split; [apply list_elem_of_fmap; exists a0; split; [reflexivity|apply elem_of_app; right; by apply list_elem_of_singleton]|].
      unfold is_artifact. by rewrite bool_decide_true.
Qed.

Lemma ok_update d a now : adb_ok d -> adb_ok (update_artifact d a now).1.
Proof.
  intros Hd. unfold update_artifact. destruct (get_artifact d (Artifact.id a)) as [old|] eqn:Hg; [|done].
  destruct (existsb _ _) eqn:He; [done|]. apply get_artifact_spec in Hg as [Hold Hid]. cbn [fst].
  rewrite existsb_false in He. set (write b := _).
  apply (ok_artifact_rows d); [done|done|done| | |].
  - unfold artifact_ids. cbn. apply map_if_same. by intros b ->%bool_decide_eq_true.
  - cbn. clear Hold old Hid. pose proof (ao_ids d Hd) as Hids. pose proof (ao_sources d Hd) as Hs. unfold artifact_ids in Hids.
    induction (artifacts d) as [|b l IH]; [constructor|]. cbn [map] in *.
    apply NoDup_cons in Hids as [Hb Hids]. apply NoDup_cons in Hs as [Hbs Hs].
    assert (Hmem : forall c, c ∈ map (fun a0 => if is_artifact (Artifact.id a) a0 then write a0 else a0) l ->
                     (c ∈ l /\ is_artifact (Artifact.id a) c = false)
                     \/ (source_key c = source_key a /\ Artifact.id a ∈ map Artifact.id l)).
    { intros c (x & -> & Hx)%list_elem_of_fmap. destruct (is_artifact (Artifact.id a) x) eqn:Hxa; [right|by left].
      apply bool_decide_eq_true in Hxa. split; [done|]. rewrite <- Hxa. by apply list_elem_of_fmap_2. }
    assert (Hother : forall c, c ∈ b :: l -> is_artifact (Artifact.id a) c = false -> source_key c <> source_key a).
    { intros c Hc Hca E. specialize (He c Hc). rewrite Hca in He. unfold same_source in He. injection E as E1 E2.
      rewrite E1, E2, !bool_decide_true in He; done. }
    apply NoDup_cons. split; [|apply IH; [|done|done]; intros c Hc; apply He; by right].
    destruct (is_artifact (Artifact.id a) b) eqn:Hba.
    + apply bool_decide_eq_true in Hba. change (source_key (write b)) with (source_key a).
      intros (c & Hc & [[Hcl Hca]|[_ Hin]]%Hmem)%list_elem_of_fmap; [|by rewrite <- Hba in Hin].
      by apply (Hother c); [by right|done|].
    + intros (c & Hc & [[Hcl Hca]|[Hcs Hin]]%Hmem)%list_elem_of_fmap; [apply Hbs; rewrite Hc; by apply list_elem_of_fmap_2|].
      apply (Hother b); [by left|done|congruence].
  - intros a' (b & -> & Hb)%list_elem_of_fmap. exists b. split; [done|]. destruct (is_artifact _ b) eqn:Hba; [|done].
    by apply bool_decide_eq_true in Hba.
Qed.

Lemma ok_append_revision d i r expected now : adb_ok d -> adb_ok (append_revision d i r expected now).1.
Proof.
  intros Hd. unfold append_revision. case_bool_decide as Hown; [|done]. cbn [negb].
  destruct (get_artifact d i) as [a|] eqn:Hg; [|done]. apply get_artifact_spec in Hg as [Ha <-].
  case_bool_decide as Hcur; [|done]. case_bool_decide as Hpar; [|done]. cbn [negb].
  destruct (_ =? _) eqn:Hn; [|done]. apply Z.eqb_eq in Hn. rewrite max_number_ok in Hn by done.
  destruct (belongs d _ (ArtifactRevision.parent_revision_id r)) eqn:Hbp; [|done].
  destruct (belongs d _ (ArtifactRevision.rollback_from_revision_id r)) eqn:Hbr; [|done]. cbn [negb].
  destruct (insert_revision d r) as [d'|] eqn:Hi; [|done]. apply insert_revision_spec in Hi as (-> & Hid & _).
  apply ok_append; try done; [lia|]. intros x Hx. rewrite Hx in Hbr. by apply belongs_spec.
Qed.

Lemma ok_backfill d i r now : adb_ok d -> adb_ok (commit_initial_revision_backfill d i r now).1.
Proof.
  intros Hd. unfold commit_initial_revision_backfill. destruct (get_artifact d i) as [a|] eqn:Hg; [|done].
  apply get_artifact_spec in Hg as [Ha <-]. destruct (Artifact.current_revision_id a) eqn:Hc; [done|].
  pose proof (ao_history d Hd a Ha) as [_ Hcur _]. rewrite Hc in Hcur. symmetry in Hcur. apply head_of_none in Hcur.
  destruct (List.find _ _) as [row|] eqn:Hf.
  - apply find_some in Hf as [Hrow [Hof _]%andb_true_iff]. apply list_elem_of_In in Hrow.
    assert (Hin : row ∈ history d (Artifact.id a)) by by apply List_filter_elem. rewrite Hcur in Hin. by apply elem_of_nil in Hin.
  - case_bool_decide as Hown; [|done]. cbn [negb]. destruct (_ || _) eqn:Hn; [done|]. apply orb_false_iff in Hn as [Hn Hinit].
    apply negb_false_iff, Z.eqb_eq in Hn. apply negb_false_iff, andb_true_iff in Hinit as [Hp Hrb].
    apply bool_decide_eq_true in Hp. apply bool_decide_eq_true in Hrb.
    destruct (insert_revision d r) as [d'|] eqn:Hi; [|done]. apply insert_revision_spec in Hi as (-> & Hid & _).
    apply ok_append; try done; [congruence|by rewrite Hcur, Hn|]. intros x. by rewrite Hrb.
Qed.

Lemma exec_aop_ok d o : adb_ok d -> aop_fits o -> adb_ok (exec_aop d o).
Proof.
  intros Hd Ho. destruct o; cbn [exec_aop aop_fits] in *.
  - by apply ok_create.
  - by apply ok_create_initial.
  - by apply ok_update.
  - by apply ok_delete_row.
  - by apply ok_delete_row, ok_published_filter.
  - by apply ok_append_revision.
  - by apply ok_backfill.
  - unfold register_published. destruct (insert_published _ _) as [d2|] eqn:Hi; [|done]. cbn [fst].
    assert (H2 : adb_ok d2). { eapply ok_insert_published; [|done]. destruct revoke_artifact_id; [by apply ok_revoke|done]. }
    destruct (PublishedArtifact.artifact_id _); [by apply ok_mark_published|done].
  - unfold register_revision_publish. destruct (get_artifact d i); [|done]. case_bool_decide; [|done]. cbn [negb].
    destruct (List.find _ _); [done|]. destruct (insert_published _ _) as [d2|] eqn:Hi; [|done].
    apply ok_mark_published. eapply ok_insert_published; [|done]. by apply ok_revoke.
  - unfold revoke_published. destruct (get_active_publish d i); [|done]. by apply ok_revoke.
  - by apply ok_published_filter.
Qed.

Lemma exec_aops_ok ops : forall d, adb_ok d -> Forall aop_fits ops -> adb_ok (exec_aops d ops).
Proof. induction ops as [|o ops IH]; intros d Hd; [done|]. intros [Ho Hos]%Forall_cons. apply IH; [by apply exec_aop_ok|done]. Qed.

Lemma empty_adb_ok : adb_ok empty_adb.
Proof. split; cbn; try apply NoDup_nil_2; try (by intros ? ?%elem_of_nil). intros i. lia. Qed.

(** ** Histories only grow *)

(** What an append that succeeds has done. *)
Lemma append_returns d i r expected now d' r' :
  append_revision d i r expected now = (d', Return r') ->
  r' = r /\ ArtifactRevision.artifact_id r = i /\ (exists a, get_artifact d i = Some a /\ Artifact.current_revision_id a = Some expected)
  /\ ArtifactRevision.id r ∉ revision_ids d
  /\ d' = point_to i (ArtifactRevision.id r) now (d <| revisions := revisions d ++ [r] |>).
Proof.
  unfold append_revision. case_bool_decide as Hown; [|done]. cbn [negb]. destruct (get_artifact d i) as [a|]; [|done].
  case_bool_decide as Hcur; [|done]. cbn [negb].
  destruct (negb _); [done|]. destruct (negb _); [done|]. destruct (negb _); [done|]. destruct (negb _); [done|].
  destruct (insert_revision d r) eqn:Hi; [|done]. apply insert_revision_spec in Hi as (-> & ? & _).
  intros [= <- <-]. naive_solver.
Qed.

Lemma append_raises d i r expected now d' e : append_revision d i r expected now = (d', Raise e) -> d' = d.
Proof.
  unfold append_revision. destruct (negb _); [congruence|]. destruct (get_artifact d i); [|congruence].
  do 5 (destruct (negb _); [congruence|]). destruct (insert_revision d r); congruence.
Qed.

Lemma history_prefix_snoc d r i : history d i `prefix_of` history (d <| revisions := revisions d ++ [r] |>) i.
Proof. rewrite history_snoc. by apply prefix_app_r. Qed.

Lemma exec_aop_history d o i :
  adb_ok d -> ~ deletes i o ->
  history d i `prefix_of` history (exec_aop d o) i /\ (i ∈ artifact_ids d -> i ∈ artifact_ids (exec_aop d o)).
Proof.
  intros Hd Hnot. destruct o; cbn [exec_aop deletes] in *.
  - unfold create_artifact. destruct (insert_artifact _ _) eqn:Hi; [|done].
    apply insert_artifact_spec in Hi as (-> & _ & _). split; [done|]. unfold artifact_ids. cbn. rewrite map_app. set_solver.
  - unfold create_artifact_with_initial_revision. destruct (negb _); [done|]. destruct (_ || _); [done|].
    destruct (insert_artifact _ _) as [d1|] eqn:Hi; [|done]. cbn [mbind option_bind].
    destruct (insert_revision d1 r) eqn:Hr; [|done].
    apply insert_artifact_spec in Hi as (-> & _ & _). apply insert_revision_spec in Hr as (-> & _ & _).
    split; [match goal with |- context [revisions ?x ++ _] => apply (history_prefix_snoc x) end|]. unfold artifact_ids. cbn. rewrite map_app. set_solver.
  - unfold update_artifact. destruct (get_artifact _ _); [|done]. destruct (existsb _ _); [done|].
    split; [done|]. unfold artifact_ids. cbn. rewrite map_if_same; [done|]. by intros b ->%bool_decide_eq_true.
  - cbn. rewrite delete_row_history, delete_row_ids by done. split; [done|]. intros Hi. apply List_filter_elem.
    split; [done|]. apply negb_true_iff, bool_decide_eq_false. naive_solver.
  - cbn. rewrite delete_row_history, delete_row_ids by (done || by apply ok_published_filter). split; [done|]. intros Hi.
    apply List_filter_elem. split; [done|]. apply negb_true_iff, bool_decide_eq_false. naive_solver.
  - destruct (append_revision _ _ _ _ _) as [d' [r'|e]] eqn:Ha; cbn [fst].
    + apply append_returns in Ha as (_ & _ & _ & _ & ->).
      split; [apply history_prefix_snoc|]. unfold artifact_ids. cbn. by rewrite map_if_same.
    + by apply append_raises in Ha as ->.
  - unfold commit_initial_revision_backfill. destruct (get_artifact _ _); [|done]. destruct (Artifact.current_revision_id _); [done|].
    destruct (List.find _ _); [split; [done|]; unfold artifact_ids; cbn; by rewrite map_if_same|].
    destruct (negb _); [done|]. destruct (_ || _); [done|]. destruct (insert_revision _ _) eqn:Hi; [|done].
    apply insert_revision_spec in Hi as (-> & _ & _).
    split; [apply history_prefix_snoc|]. unfold artifact_ids. cbn. by rewrite map_if_same.
  - assert (Hr : forall d1, artifacts d1 = artifacts d -> revisions d1 = revisions d ->
      forall d2, insert_published d1 (resolved_published p now) = Some d2 ->
      history d i `prefix_of` history (match PublishedArtifact.artifact_id (resolved_published p now) with
                                       | Some i => mark_published i now d2 | None => d2 end) i
      /\ (i ∈ artifact_ids d -> i ∈ artifact_ids (match PublishedArtifact.artifact_id (resolved_published p now) with
                                       | Some i => mark_published i now d2 | None => d2 end))).
    { intros d1 Ha Hr d2 (-> & _)%insert_published_spec. unfold artifact_ids, history.
      destruct (PublishedArtifact.artifact_id _); cbn; rewrite ?map_if_same, Ha, Hr; done. }
    unfold register_published. destruct revoke_artifact_id; (destruct (insert_published _ _) eqn:Hi; [|done]);
      eapply Hr; try exact Hi; done.
  - unfold register_revision_publish. destruct (get_artifact _ _); [|done]. destruct (negb _); [done|].
    destruct (List.find _ _); [done|]. destruct (insert_published _ _) eqn:Hi; [|done].
    apply insert_published_spec in Hi as (-> & _). split; [done|]. unfold artifact_ids. cbn. by rewrite map_if_same.
  - unfold revoke_published. by destruct (get_active_publish _ _).
  - done.
Qed.

Lemma exec_aops_history ops i : forall d,
  adb_ok d -> Forall aop_fits ops -> Forall (fun o => ~ deletes i o) ops ->
  history d i `prefix_of` history (exec_aops d ops) i /\ (i ∈ artifact_ids d -> i ∈ artifact_ids (exec_aops d ops)).
Proof.
  induction ops as [|o ops IH]; intros d Hd; [done|]. intros [Ho Hos]%Forall_cons [Hn Hns]%Forall_cons.
  destruct (exec_aop_history d o i Hd Hn) as [H1 H2]. destruct (IH (exec_aop d o)) as [H3 H4]; [by apply exec_aop_ok|done|done|].
  split; [by etrans|auto].
Qed.

(** The current revision is the last one of the history. *)
Lemma current_is_last d i a : adb_ok d -> get_artifact d i = Some a -> Artifact.current_revision_id a = head_of (history d i).
Proof. intros Hd [Ha <-]%get_artifact_spec. by apply Hd. Qed.

(** A revision followed by another one is not current. *)
Lemma superseded_not_current d i a before r rest :
  adb_ok d -> get_artifact d i = Some a -> history d i = before ++ r :: rest -> rest <> [] ->
  Artifact.current_revision_id a <> Some (ArtifactRevision.id r).
Proof.
  intros Hd Ha Hh Hrest Hc. rewrite (current_is_last d i a Hd Ha), Hh in Hc. unfold head_of in Hc.
  destruct (last (before ++ r :: rest)) as [x|] eqn:Hl; [|done]. injection Hc as Hx.
  assert (Hxr : x ∈ rest).
  { destruct (exists_last Hrest) as (rest' & y & ->). rewrite app_comm_cons, app_assoc, last_snoc in Hl. injection Hl as ->.
    apply elem_of_app. right. by apply list_elem_of_singleton. }
  assert (Hnd : NoDup (map ArtifactRevision.id (history d i))) by apply NoDup_map_filter, Hd.
  rewrite Hh, map_app in Hnd. apply NoDup_app in Hnd as (_ & _ & Hnd). cbn in Hnd. apply NoDup_cons in Hnd as [Hnd _].
  apply Hnd. rewrite <- Hx. by apply list_elem_of_fmap_2.
Qed.

(** * The theorems *)

(** C29. Whatever sequence of operations the registry executes, from the empty database:
    identifiers, sources and publish identifiers stay unique; the revisions of an artifact
    are numbered 1, 2, 3, ... without a gap, each has the one before it as its parent, a
    rollback names a revision of the same artifact, and the current revision is the last
    one; at most one snapshot of an artifact is public; and no row names a row that is
    not there. *)
Theorem revision_history_sound ops : Forall aop_fits ops -> adb_ok (exec_aops empty_adb ops).
Proof. apply exec_aops_ok, empty_adb_ok. Qed.

Lemma superseded_refused d i before x r rest :
  adb_ok d -> i ∈ artifact_ids d -> history d i = before ++ x :: r :: rest ->
  exists a, get_artifact d i = Some a /\ Artifact.current_revision_id a <> Some (ArtifactRevision.id x).
Proof.
  intros Hd Hi Hh. destruct (get_artifact d i) as [a|] eqn:Ha; [|by apply get_artifact_none in Ha]. exists a. split; [done|].
  by apply (superseded_not_current d i a before x (r :: rest)).
Qed.

(** An edit does not overwrite another one.  Once a revision was appended after
    [expected], every later append or publication that was prepared on [expected] is
    refused and changes nothing, whatever happened in between short of deleting the
    artifact; and the revisions there were, with the new one, stay the beginning of the
    history. *)
Theorem stale_edit_refused d i r expected now d' ops :
  adb_ok d -> append_revision d i r expected now = (d', Return r) ->
  Forall aop_fits ops -> Forall (fun o => ~ deletes i o) ops ->
  (history d i ++ [r]) `prefix_of` history (exec_aops d' ops) i
  /\ (forall r2 now2, ArtifactRevision.artifact_id r2 = i ->
        append_revision (exec_aops d' ops) i r2 expected now2 = (exec_aops d' ops, Raise ArtifactRevisionConflictError))
  /\ (forall p revision_id now2,
        register_revision_publish (exec_aops d' ops) p i revision_id expected now2
        = (exec_aops d' ops, Raise ArtifactRevisionConflictError)).
Proof.
  intros Hd Happ Hfit Hdel. assert (Hd' : adb_ok d') by (change d' with (d', Return r).1; rewrite <- Happ; by apply ok_append_revision).
  apply append_returns in Happ as (_ & Hown & (a & Ha & Hc) & _ & ->). set (d1 := point_to _ _ _ _) in *.
  assert (Hh : history d1 i = history d i ++ [r]).
  { subst d1. change (history (point_to _ _ _ _) i) with (history (d <| revisions := revisions d ++ [r] |>) i).
    rewrite history_snoc. unfold revision_of. by rewrite bool_decide_true. }
  assert (Hi : i ∈ artifact_ids d1).
  { unfold artifact_ids. cbn. rewrite map_if_same by done. apply get_artifact_spec in Ha as [Ha <-]. by apply list_elem_of_fmap_2. }
  destruct (exec_aops_history ops i d1 Hd' Hfit Hdel) as [[rest Hrest] Hin]. rewrite Hh in Hrest.
  pose proof (exec_aops_ok ops d1 Hd' Hfit) as Hd2. set (d2 := exec_aops d1 ops) in *.
  split; [by exists rest|].
  rewrite (current_is_last d i a Hd Ha) in Hc. unfold head_of in Hc. destruct (last (history d i)) as [x|] eqn:Hx; [|done].
  injection Hc as <-. apply last_Some in Hx as [before Hx]. rewrite Hx, <- !app_assoc in Hrest.
  destruct (superseded_refused d2 i before x r rest Hd2 (Hin Hi) Hrest) as (a2 & Ha2 & Hc2).
  split; intros; unfold append_revision, register_revision_publish; rewrite Ha2, ?(bool_decide_true (_ = i)) by done; cbn [negb];
    by rewrite bool_decide_false.
Qed.

(** What of a snapshot is shown to the public. *)
Definition same_snapshot (p q : PublishedArtifact.t) : Prop :=
  PublishedArtifact.publish_id q = PublishedArtifact.publish_id p
  /\ PublishedArtifact.snapshot_name q = PublishedArtifact.snapshot_name p
  /\ PublishedArtifact.snapshot_kind q = PublishedArtifact.snapshot_kind p
  /\ PublishedArtifact.snapshot_mime q = PublishedArtifact.snapshot_mime p
  /\ PublishedArtifact.snapshot_content_ref q = PublishedArtifact.snapshot_content_ref p
  /\ PublishedArtifact.snapshot_inline_content q = PublishedArtifact.snapshot_inline_content p
  /\ PublishedArtifact.snapshot_size q = PublishedArtifact.snapshot_size p
  /\ PublishedArtifact.snapshot_checksum q = PublishedArtifact.snapshot_checksum p
  /\ PublishedArtifact.snapshot_summary q = PublishedArtifact.snapshot_summary p.

(** [d'] has the snapshots of [d], [p] being public instead of those of [i] before. *)
Record switched (d d' : adb) (i : string) (p : PublishedArtifact.t) : Prop := {
  sw_active : get_active_publish d' i = Some p;
  sw_only : forall q, q ∈ published d' -> active_of i q = true -> q = p;
  sw_kept : forall q, q ∈ published d -> exists q', q' ∈ published d' /\ same_snapshot q q'
                                                   /\ PublishedArtifact.is_active q' = (PublishedArtifact.is_active q && negb (publish_of i q))
}.

Lemma active_unique d i p q :
  adb_ok d -> p ∈ published d -> q ∈ published d -> active_of i p = true -> active_of i q = true -> p = q.
Proof.
  intros Hd Hp Hq Hpa Hqa. pose proof (ao_one_active d Hd i) as Hone.
  assert (H1 : p ∈ List.filter (active_of i) (published d)) by by apply List_filter_elem.
  assert (H2 : q ∈ List.filter (active_of i) (published d)) by by apply List_filter_elem.
  destruct (List.filter _ _) as [|x [|y l]]; cbn in Hone; [by apply elem_of_nil in H1| |lia].
  apply list_elem_of_singleton in H1, H2. congruence.
Qed.

Lemma find_active d i p : adb_ok d -> p ∈ published d -> active_of i p = true -> get_active_publish d i = Some p.
Proof.
  intros Hd Hp Ha. unfold get_active_publish. destruct (List.find _ _) as [q|] eqn:Hf.
  - apply find_some in Hf as [Hq Hqa]. apply list_elem_of_In in Hq. f_equal. by apply (active_unique d i).
  - apply list_elem_of_In in Hp. by rewrite (find_none _ _ Hf p Hp) in Ha.
Qed.

Lemma find_same_content d i c :
  adb_ok d ->
  List.find (same_content_publish i c) (published d)
  = match get_active_publish d i with
    | Some q => if bool_decide (PublishedArtifact.snapshot_checksum q = c) then Some q else None
    | None => None
    end.
Proof.
  intros Hd. destruct (List.find (same_content_publish i c) _) as [x|] eqn:Hf.
  - apply find_some in Hf as [Hx [Ha Hc]%andb_true_iff]. apply list_elem_of_In in Hx.
    by rewrite (find_active d i x Hd Hx Ha), Hc.
  - destruct (get_active_publish d i) as [q|] eqn:Hg; [|done]. apply find_some in Hg as [Hq Ha].
    pose proof (find_none _ _ Hf q Hq) as Hn. unfold same_content_publish in Hn. rewrite Ha in Hn. cbn in Hn. by rewrite Hn.
Qed.

Lemma revoke_active_rows d i now q :
  q ∈ published d -> exists q', q' ∈ published (revoke_active i now d) /\ same_snapshot q q'
                                /\ PublishedArtifact.is_active q' = (PublishedArtifact.is_active q && negb (publish_of i q)).
Proof.
  intros Hq. exists (if active_of i q then revoked now q else q). split; [|split].
  - apply list_elem_of_fmap. by exists q.
  - by destruct (active_of i q).
  - unfold active_of. destruct (publish_of i q), (PublishedArtifact.is_active q) eqn:Hq2; cbn; by rewrite ?Hq2.
Qed.

Lemma insert_published_fresh d p i rev :
  PublishedArtifact.artifact_id p = Some i -> i ∈ artifact_ids d ->
  PublishedArtifact.published_revision_id p = Some rev -> rev ∈ revision_ids d ->
  PublishedArtifact.publish_id p ∉ map PublishedArtifact.publish_id (published d) ->
  (forall q, q ∈ published d -> active_of i q = false) ->
  insert_published d p = Some (d <| published := published d ++ [p] |>).
Proof.
  intros Hp Hi Hr Hrev Hid Hact. unfold insert_published. rewrite Hp, Hr.
  apply existsb_is_artifact in Hi. apply revision_exists_spec in Hrev. rewrite Hi, Hrev. cbn [negb orb].
  rewrite !orb_false_r. rewrite (proj2 (existsb_false _ _)); [done|]. intros q Hq. rewrite (Hact q Hq), andb_false_r, orb_false_r.
  apply bool_decide_eq_false. intros E. apply Hid. rewrite <- E. by apply list_elem_of_fmap_2.
Qed.

(** Publishing a revision is exact.  Prepared on a revision that is not current any more,
    it is refused; when the public snapshot of the artifact already has this content, it
    is the answer and nothing is written; otherwise the new snapshot becomes the one
    public snapshot of the artifact, the one before it is revoked, and no other row
    changes. *)
Theorem publish_switches d p i revision_id expected now a :
  adb_ok d -> get_artifact d i = Some a -> revision_id ∈ revision_ids d ->
  PublishedArtifact.artifact_id p = Some i -> PublishedArtifact.is_active p = true ->
  PublishedArtifact.publish_id p ∉ map PublishedArtifact.publish_id (published d) ->
  let p' := (resolved_published p now) <| PublishedArtifact.published_revision_id := Some revision_id |> in
  let '(d', res) := register_revision_publish d p i revision_id expected now in
  if bool_decide (Artifact.current_revision_id a = Some expected)
  then match get_active_publish d i with
       | Some q => if bool_decide (PublishedArtifact.snapshot_checksum q = PublishedArtifact.snapshot_checksum p)
                   then d' = d /\ res = Return q
                   else switched d d' i p' /\ res = Return p'
       | None => switched d d' i p' /\ res = Return p'
       end
  else d' = d /\ res = Raise ArtifactRevisionConflictError.
Proof.
  intros Hd Ha Hrev Hp Hact Hid p'. unfold register_revision_publish. rewrite Ha.
  destruct (bool_decide (Artifact.current_revision_id a = Some expected)); [|done]. cbn [negb]. fold p'.
  rewrite (find_same_content d i _ Hd). change (PublishedArtifact.snapshot_checksum p') with (PublishedArtifact.snapshot_checksum p).
  assert (Hsw : exists d2, insert_published (revoke_active i now d) p' = Some d2 /\ switched d (mark_published i now d2) i p').
  { assert (Hnone : forall q, q ∈ published (revoke_active i now d) -> active_of i q = false).
    { intros q' (q & -> & Hq)%list_elem_of_fmap. destruct (active_of i q) eqn:Hqa; [|done].
      unfold active_of, PublishedArtifact.is_active. cbn. by rewrite andb_false_r. }
    assert (Hpa : active_of i p' = true).
    { unfold active_of, publish_of. apply andb_true_iff. split; [by apply bool_decide_eq_true|done]. }
    eexists. split.
    - apply (insert_published_fresh _ _ i revision_id); try done.
      + change (artifact_ids _) with (artifact_ids d). apply get_artifact_spec in Ha as [Ha <-]. by apply list_elem_of_fmap_2.
      + cbn. by rewrite map_if_same.
    - split.
      + unfold get_active_publish. cbn. apply find_app; [|done]. destruct (List.find _ _) as [q|] eqn:Hf; [|done].
        apply find_some in Hf as [Hq%list_elem_of_In Hqa]. by rewrite (Hnone q Hq) in Hqa.
      + intros q [Hq| ->%list_elem_of_singleton]%elem_of_app Hqa; [|done]. apply Hnone in Hq. congruence.
      + intros q Hq. destruct (revoke_active_rows d i now q Hq) as (q' & Hq' & Hs). exists q'. split; [|done].
        apply elem_of_app. by left. }
  destruct Hsw as (d2 & -> & Hsw). destruct (get_active_publish d i) as [q|]; [|done]. by case_bool_decide.
Qed.

(** * Examples *)

Definition a_note : Artifact.t :=
  Artifact.mk "a1" "note.md" ArtifactKind.MARKDOWN "text/markdown" None (Some "one") 3 "sha256:1" ArtifactSource.MANUAL "a1"
    None None "" None None ArtifactStatus.DRAFT None None "dashboard" None.
Definition a_revision (id : string) (n : Z) (parent back : option string) (text : string) : ArtifactRevision.t :=
  ArtifactRevision.mk id "a1" n parent back None (Some text) (len text) ("sha256:" +:+ text) "text/markdown"
    ArtifactKind.MARKDOWN 0 "" "dashboard" None None.
Definition a_snapshot (id checksum : string) : PublishedArtifact.t :=
  PublishedArtifact.mk id (Some "a1") "note.md" ArtifactKind.MARKDOWN "text/markdown" None (Some "one") 3 checksum "" None
    "dashboard" PublishedArtifactStatus.ACTIVE None None.

Definition note_ops : list aop :=
  [ACreateInitial a_note (a_revision "r1" 1 None None "one") 1;
   APublish (a_snapshot "p1" "sha256:one") "a1" "r1" "r1" 2;
   AAppend "a1" (a_revision "r2" 2 (Some "r1") None "two") "r1" 3].
Definition note_db : adb := exec_aops empty_adb note_ops.

Lemma note_ops_fit : Forall aop_fits note_ops.
Proof. by repeat constructor. Qed.
Lemma note_db_ok : adb_ok note_db.
Proof. apply exec_aops_ok; [apply empty_adb_ok|apply note_ops_fit]. Qed.

Lemma revision_history_sound_witness : adb_ok (exec_aops empty_adb note_ops) /\ length (history note_db "a1") = 2%nat.
Proof. split; [apply (revision_history_sound note_ops), note_ops_fit|vm_compute; reflexivity]. Defined.

Lemma stale_edit_refused_witness :
  append_revision (exec_aops (append_revision note_db "a1" (a_revision "r3" 3 (Some "r2") (Some "r1") "one") "r2" 4).1
                     [ARevoke "a1" 5; AUpdate a_note 6])
    "a1" (a_revision "r4" 3 (Some "r2") None "four") "r2" 7
  = (exec_aops (append_revision note_db "a1" (a_revision "r3" 3 (Some "r2") (Some "r1") "one") "r2" 4).1
       [ARevoke "a1" 5; AUpdate a_note 6], Raise ArtifactRevisionConflictError).
Proof.
  apply (stale_edit_refused note_db "a1" (a_revision "r3" 3 (Some "r2") (Some "r1") "one") "r2" 4);
    [apply note_db_ok|vm_compute; reflexivity| |repeat constructor; cbn; tauto|reflexivity].
  by repeat constructor.
Defined.

Lemma publish_switches_witness :
  exists a, get_artifact note_db "a1" = Some a
  /\ let p' := (resolved_published (a_snapshot "p2" "sha256:two") 9) <| PublishedArtifact.published_revision_id := Some "r2" |> in
     switched note_db (register_revision_publish note_db (a_snapshot "p2" "sha256:two") "a1" "r2" "r2" 9).1 "a1" p'.
Proof.
  eexists. split; [vm_compute; reflexivity|].
  assert (Hf : ("p2" ∉ map PublishedArtifact.publish_id (published note_db)) /\ "r2" ∈ revision_ids note_db).
  { split; apply (bool_decide_eq_true_1 _); vm_compute; reflexivity. }
  pose proof (publish_switches note_db (a_snapshot "p2" "sha256:two") "a1" "r2" "r2" 9 _ note_db_ok
                ltac:(vm_compute; reflexivity) (proj2 Hf) ltac:(reflexivity) ltac:(reflexivity) (proj1 Hf)) as H.
  destruct (register_revision_publish _ _ _ _ _ _) as [d' res]. rewrite bool_decide_true in H by reflexivity.
  destruct (get_active_publish note_db "a1") as [q|] eqn:Hq; [|apply H].
  rewrite bool_decide_false in H; [apply H|]. vm_compute in Hq. injection Hq as <-. by vm_compute.
Defined.
