(* ===== verification/ArtifactContent.v ===== *)
(** The store of artifact contents on disk (app/infrastructure/artifact/content_store.py).

    A disk is a tree of nodes under absolute paths, a path being the list of its names; a
    text is its UTF-8 bytes.  What lies behind a symbolic link is reached under its own
    path only.  The name [uuid4().hex] drawn for a file is an argument.  An atomic write
    (temporary file, [fsync], [os.replace]) either leaves the whole file or nothing, so
    its temporary file is not in the model; nor are refusals of the operating system
    beyond missing directories (permissions, names that are too long). *)
From S2P Require Import Prelude Text ArtifactDomain.
From Stdlib Require Import Ascii.
From stdpp Require Import gmap.
Open Scope Z_scope.

Notation path := (list string).

Inductive node : Type := File (bytes : string) | Directory | Symlink.
Notation disk := (gmap (list string) node).

Record ContentStore := mkContentStore {
  cs_root : path;
  cs_attachments_root : path;
  cs_workspace_root : path;
  cs_max_bytes : Z;
  cs_publish_max_bytes : Z;
  cs_inline_max_bytes : Z
}.

Inductive scheme : Type := Item | Published | Attachment | Workspace.
#[export] Instance scheme_eq_dec : EqDecision scheme.
Proof. solve_decision. Defined.

(** * Names *)

Definition id_char (c : ascii) : bool :=
  let n := nat_of_ascii c in
  ((48 <=? n) && (n <=? 57) || (65 <=? n) && (n <=? 90) || (97 <=? n) && (n <=? 122)
   || (n =? 95) || (n =? 45))%nat.

(** [re.match] of a pattern that is one class, repeated, between [^] and [$], which also matches before a last newline. *)
Fixpoint all_then_end (f : ascii -> bool) (s : string) : bool :=
  match s with
  | "" => true
  | String c s' => (f c && all_then_end f s') || bool_decide (s = NEWLINE)
  end.
Definition matches_class (f : ascii -> bool) (s : string) : bool :=
  match s with String c s => f c && all_then_end f s | "" => false end.

(** [_validate_id] *)
Definition validate_id (value : string) : bool := matches_class id_char value.

(** [_FILENAME_RE]: no control character and none of the separators and the characters
    Windows reserves. *)
Definition filename_char (c : ascii) : bool :=
  let n := nat_of_ascii c in
  ((32 <=? n) && negb (n =? 47) && negb (n =? 92) && negb (n =? 60) && negb (n =? 62) && negb (n =? 58) && negb (n =? 34)
   && negb (n =? 124) && negb (n =? 63) && negb (n =? 42) && negb (n =? 127))%nat.

(** [_validate_filename] *)
Definition validate_filename (value : string) : bool :=
  negb (bool_decide (value ∈ ["."; ".."])) && matches_class filename_char value.

(** [s.split("/")] *)
Fixpoint split_slash (s : string) : list string :=
  match s with
  | "" => [""]
  | String c s => if bool_decide (c = "/"%char) then "" :: split_slash s
                  else match split_slash s with w :: ws => String c w :: ws | [] => [String c ""] end
  end.

(** [s.split("/", 1)] where it holds a slash. *)
Fixpoint cut_slash (s : string) : option (string * string) :=
  match s with
  | "" => None
  | String c s => if bool_decide (c = "/"%char) then Some ("", s)
                  else (fun p => (String c p.1, p.2)) <$> cut_slash s
  end.

(** [_validate_workspace_path] *)
Definition validate_workspace_path (rel : string) : result (list string) :=
  if negb (truthy_str rel) || starts_with "/" rel || contains "\" rel then Raise ArtifactValidationError
  else if existsb (fun part => bool_decide (part ∈ [""; "."; ".."])) (split_slash rel) then Raise ArtifactValidationError
  else Return (split_slash rel).

Definition parse_scheme_parts (s : scheme) (rest : string) : result (list string) :=
  match s with
  | Workspace => validate_workspace_path rest
  | _ => match cut_slash rest with
         | None => Raise ArtifactValidationError
         | Some (id_part, file_part) =>
             if validate_id id_part && validate_filename file_part && negb (contains "/" file_part)
             then Return [id_part; file_part] else Raise ArtifactValidationError
         end
  end.

Definition prefixes : list (string * scheme) :=
  [("item:", Item); ("published:", Published); ("attachment:", Attachment); ("workspace:", Workspace)].

(** [_parse_ref] *)
Definition parse_ref (content_ref : string) : result (scheme * list string) :=
  match List.find (fun p => starts_with p.1 content_ref) prefixes with
  | None => Raise ArtifactValidationError
  | Some (prefix, s) => let? parts := parse_scheme_parts s (drop_str (String.length prefix) content_ref) in Return (s, parts)
  end.

(** [_safe_ext].  Of the characters outside ASCII only the Kelvin sign has a lower case in
    it. *)
Definition KELVIN : string := String (ascii_of_nat 226) (String (ascii_of_nat 132) (String (ascii_of_nat 170) "")).
Fixpoint lower_ascii_only (s : string) : string :=
  match s with
  | "" => ""
  | String c s => String (if (nat_of_ascii c <? 128)%nat then lower_char c else c) (lower_ascii_only s)
  end.
Definition ascii_lowered (s : string) : string := lower_ascii_only (replace_all KELVIN "k" s).
Definition alnum (c : ascii) : bool := id_char c && negb (bool_decide (c = "_"%char)) && negb (bool_decide (c = "-"%char)).

(** [_SAFE_EXT_RE], after the dot. *)
Definition safe_ext_name (s : string) : bool :=
  matches_class alnum s
  && ((String.length s <=? 8)%nat || ((String.length s =? 9)%nat && bool_decide (drop_str 8 s = NEWLINE))).

(** The text from the last dot on; [None] without a dot, or with its first character the
    last one. *)
Fixpoint from_last_dot (s : string) : option string :=
  match s with
  | "" => None
  | String c s' => match from_last_dot s' with
                   | Some e => Some e
                   | None => if bool_decide (c = "."%char) then Some s else None
                   end
  end.
Definition safe_ext (filename : string) : string :=
  match from_last_dot filename with
  | Some e => let e' := ascii_lowered e in
              if bool_decide (e = filename) then "" else if safe_ext_name (drop_str 1 e') then e' else ""
  | None => ""
  end.
Definition generate_server_filename (hex filename : string) : string := hex +:+ safe_ext filename.

(** * Paths on the disk *)

Section store.
Context (cs : ContentStore).

Definition items_root : path := cs_root cs ++ ["items"].
Definition published_root : path := cs_root cs ++ ["published"].
Definition root_for_scheme (s : scheme) : path :=
  match s with
  | Item => items_root | Published => published_root
  | Attachment => cs_attachments_root cs | Workspace => cs_workspace_root cs
  end.

Definition check_root (d : disk) (root : path) : result unit :=
  match d !! root with
  | None => Raise ArtifactContentUnavailableError
  | Some Directory => Return tt
  | Some _ => Raise ArtifactValidationError
  end.

Fixpoint walk_existing (d : disk) (current : path) (parts : list string) : result path :=
  match parts with
  | [] => Return current
  | part :: rest =>
      let current := current ++ [part] in
      match d !! current, rest with
      | None, _ => Raise ArtifactContentUnavailableError
      | Some (File _), [] => Return current
      | Some Directory, _ :: _ => walk_existing d current rest
      | Some _, _ => Raise ArtifactValidationError
      end
  end.
Definition resolve_existing (d : disk) (root : path) (parts : list string) : result path :=
  let? _ := check_root d root in walk_existing d root parts.

Fixpoint walk_parents (d : disk) (current : path) (parts : list string) : result path :=
  match parts with
  | [] | [_] => Return current
  | part :: rest =>
      let current := current ++ [part] in
      match d !! current with
      | None => Raise ArtifactContentUnavailableError
      | Some Directory => walk_parents d current rest
      | Some _ => Raise ArtifactValidationError
      end
  end.
Definition resolve_parent (d : disk) (root : path) (parts : list string) : result path :=
  let? _ := check_root d root in walk_parents d root parts.

(** [mkdir(parents=False)] when it is missing. *)
Definition ensure_safe_dir (d : disk) (p : path) : disk * result unit :=
  match d !! p with
  | Some Directory => (d, Return tt)
  | Some _ => (d, Raise ArtifactValidationError)
  | None => match d !! removelast p with
            | Some Directory => (<[p := Directory]> d, Return tt)
            | _ => (d, Raise OSError)
            end
  end.

(** Both directories, in this order. *)
Definition ensure_dirs (d : disk) (parent child : path) : disk * result unit :=
  match ensure_safe_dir d parent with
  | (d, Return _) => ensure_safe_dir d child
  | r => r
  end.

(** [_write_file_bounded]; [_stream_copy] does the same with what it reads. *)
Definition write_file_bounded (d : disk) (dir : path) (filename data : string) (max_bytes : Z) : disk * result unit :=
  match d !! (dir ++ [filename]) with
  | Some Symlink => (d, Raise ArtifactValidationError)
  | target =>
      if max_bytes <? len data then (d, Raise ArtifactValidationError)
      else match target with
           | Some Directory => (d, Raise OSError)
           | _ => (<[dir ++ [filename] := File data]> d, Return tt)
           end
  end.

(** * Operations *)

Definition read (d : disk) (content_ref : string) (max_bytes : Z) : result string :=
  let? (s, parts) := parse_ref content_ref in
  if max_bytes <? 0 then Raise ArtifactValidationError
  else
    let? p := resolve_existing d (root_for_scheme s) parts in
    match d !! p with
    | Some (File data) => if max_bytes <? len data then Raise ArtifactValidationError else Return data
    | _ => Raise ArtifactContentUnavailableError
    end.

Definition probe (d : disk) (content_ref : string) : result unit :=
  let? (s, parts) := parse_ref content_ref in
  let? _ := resolve_existing d (root_for_scheme s) parts in Return tt.

Definition write_atomic (d : disk) (artifact_id filename data hex : string) : disk * result string :=
  if negb (validate_id artifact_id) then (d, Raise ArtifactValidationError)
  else
    let name := generate_server_filename hex filename in
    let dir := items_root ++ [artifact_id] in
    match ensure_dirs d items_root dir with
    | (d, Raise e) => (d, Raise e)
    | (d, Return _) =>
        match write_file_bounded d dir name data (cs_max_bytes cs) with
        | (d, Raise e) => (d, Raise e)
        | (d, Return _) => (d, Return ("item:" +:+ artifact_id +:+ "/" +:+ name))
        end
    end.

Definition delete_owned (d : disk) (content_ref : string) : disk * result bool :=
  match parse_ref content_ref with
  | Raise e => (d, Raise e)
  | Return (s, parts) =>
      if negb (bool_decide (s ∈ [Item; Published])) then (d, Raise ArtifactValidationError)
      else
        match resolve_parent d (root_for_scheme s) parts with
        | Raise ArtifactContentUnavailableError => (d, Return false)
        | Raise e => (d, Raise e)
        | Return parent =>
            let target := parent ++ [List.last parts ""] in
            match d !! target with
            | None => (d, Return false)
            | Some (File _) => (base.delete target d, Return true)
            | Some _ => (d, Raise ArtifactValidationError)
            end
        end
  end.

(** [_parse_typed_ref], then [_resolve_existing] and the reading of the source. *)
Definition read_typed (d : disk) (ref : string) (expected : scheme) : result (list string * string) :=
  let? (s, parts) := parse_ref ref in
  if negb (bool_decide (s = expected)) then Raise ArtifactValidationError
  else
    let? p := resolve_existing d (root_for_scheme s) parts in
    match d !! p with
    | Some (File data) => Return (parts, data)
    | _ => Raise ArtifactContentUnavailableError
    end.

Definition materialize_source (d : disk) (k : ArtifactSource.t) (ref artifact_id hex : string) : disk * result string :=
  if negb (validate_id artifact_id) then (d, Raise ArtifactValidationError)
  else
    match (match k with
           | ArtifactSource.TASK_ATTACHMENT => read_typed d ref Attachment
           | ArtifactSource.TASK_ARTIFACT => read_typed d ref Workspace
           | _ => Raise ArtifactValidationError
           end) with
    | Raise e => (d, Raise e)
    | Return (parts, data) =>
        let name := generate_server_filename hex (List.last parts "") in
        let dir := items_root ++ [artifact_id] in
        match ensure_dirs d items_root dir with
        | (d, Raise e) => (d, Raise e)
        | (d, Return _) =>
            match write_file_bounded d dir name data (cs_max_bytes cs) with
            | (d, Raise e) => (d, Raise e)
            | (d, Return _) => (d, Return ("item:" +:+ artifact_id +:+ "/" +:+ name))
            end
        end
    end.

(** The directory of the snapshot is made before the content is looked at. *)
Definition copy_to_publish_snapshot (d : disk) (src_ref publish_id : string) (inline : option string) (hex : string)
    : disk * result string :=
  if negb (validate_id publish_id) then (d, Raise ArtifactValidationError)
  else
    let dir := published_root ++ [publish_id] in
    match ensure_dirs d published_root dir with
    | (d, Raise e) => (d, Raise e)
    | (d, Return _) =>
        match (match inline with
               | Some data => if cs_inline_max_bytes cs <? len data then Raise ArtifactValidationError
                              else Return ("snapshot.txt", data, cs_inline_max_bytes cs)
               | None => let? (parts, data) := read_typed d src_ref Item in
                         Return (List.last parts "", data, cs_publish_max_bytes cs)
               end) with
        | Raise e => (d, Raise e)
        | Return (filename, data, max_bytes) =>
            let name := generate_server_filename hex filename in
            match write_file_bounded d dir name data max_bytes with
            | (d, Raise e) => (d, Raise e)
            | (d, Return _) => (d, Return ("published:" +:+ publish_id +:+ "/" +:+ name))
            end
        end
    end.

(** [iterdir], in an order the operating system leaves open. *)
Definition entries (d : disk) (dir : path) : list path :=
  List.filter (fun p => bool_decide (p <> []) && bool_decide (removelast p = dir)) (map fst (map_to_list d)).

Fixpoint unlink_all (d : disk) (l : list path) : disk * result unit :=
  match l with
  | [] => (d, Return tt)
  | p :: l => match d !! p with
              | Some (File _) => unlink_all (base.delete p d) l
              | _ => (d, Raise ArtifactValidationError)
              end
  end.

Definition delete_publish_snapshot (d : disk) (publish_id : string) : disk * result unit :=
  if negb (validate_id publish_id) then (d, Raise ArtifactValidationError)
  else
    let dir := published_root ++ [publish_id] in
    match d !! dir with
    | None => (d, Return tt)
    | Some Directory =>
        match unlink_all d (entries d dir) with
        | (d, Return _) => (base.delete dir d, Return tt)
        | r => r
        end
    | Some _ => (d, Raise ArtifactValidationError)
    end.
End store.
