(* ===== verification/ArtifactFiles.v ===== *)
(** What the content store guarantees: a reference leads nowhere but below its own root,
    only files the store owns are written or removed, and what was written is read back. *)
From S2P Require Import Prelude Text ArtifactDomain ArtifactContent.
From Stdlib Require Import Ascii.
From stdpp Require Import gmap.
Open Scope Z_scope.

(** * Names *)

(** A name of one component that is no step upwards. *)
Definition plain_name (s : string) : Prop := s <> "" /\ s <> "." /\ s <> ".." /\ lacks "/" s.

Lemma all_then_end_char f s c : all_then_end f s = true -> c ∈ chars s -> f c = true \/ c = ascii_of_nat 10.
Proof.
  induction s as [|a s IH]; [by intros _ ?%elem_of_nil|]. cbn [all_then_end].
  intros [[Ha Hs]%andb_true_iff|Hs%bool_decide_eq_true]%orb_true_iff.
  - intros [->|Hc]%elem_of_cons; [by left|auto].
  - injection Hs as -> ->. intros [->|Hc%elem_of_nil]%elem_of_cons; [by right|done].
Qed.

Lemma matches_class_char f s c : matches_class f s = true -> c ∈ chars s -> f c = true \/ c = ascii_of_nat 10.
Proof.
  destruct s as [|a s]; [done|]. intros [Ha Hs]%andb_true_iff [->|Hc]%elem_of_cons; [by left|by apply (all_then_end_char f s)].
Qed.

Lemma matches_class_nonempty f s : matches_class f s = true -> s <> "".
Proof. by destruct s. Qed.

Lemma matches_class_lacks f s c : matches_class f s = true -> f c = false -> c <> ascii_of_nat 10 -> lacks c s.
Proof. intros Hs Hc Hn Hin. destruct (matches_class_char f s c Hs Hin); congruence. Qed.

Lemma all_then_end_app f a b : Forall (fun c => f c = true) (chars a) -> all_then_end f b = true -> all_then_end f (a +:+ b) = true.
Proof.
  intros Ha Hb. induction a as [|c a IH]; [done|]. rewrite app_str_cons. cbn [chars] in Ha. apply Forall_cons in Ha as [Hc Ha].
  cbn [all_then_end]. by rewrite Hc, IH.
Qed.

Lemma all_then_end_impl (f g : ascii -> bool) s :
  (forall c, f c = true -> g c = true) -> all_then_end f s = true -> all_then_end g s = true.
Proof.
  intros H. induction s as [|c s IH]; [done|]. cbn [all_then_end].
  intros [[Hc Hs]%andb_true_iff|Hs]%orb_true_iff; apply orb_true_iff; [left|by right]. by rewrite (H c Hc), (IH Hs).
Qed.

Lemma contains_single c s : contains (String c "") s = false <-> lacks c s.
Proof.
  unfold lacks. induction s as [|a s IH]; [split; [by intros _ ?%elem_of_nil|done]|]. cbn [contains starts_with chars].
  rewrite orb_false_iff, andb_true_r, bool_decide_eq_false, elem_of_cons, IH. split; [intros [H1 H2]|intros H; split]; naive_solver.
Qed.

Lemma cut_slash_spec s a b : cut_slash s = Some (a, b) -> s = a +:+ String "/" b.
Proof.
  revert a. induction s as [|c s IH]; intros a; [done|]. cbn [cut_slash]. case_bool_decide as Hc.
  - intros [= <- <-]. by subst c.
  - destruct (cut_slash s) as [[x y]|]; [|done]. cbn. intros [= <- <-]. by rewrite app_str_cons, (IH x eq_refl).
Qed.

Lemma cut_slash_app a b : lacks "/" a -> cut_slash (a +:+ String "/" b) = Some (a, b).
Proof.
  unfold lacks. induction a as [|c a IH]; [by rewrite app_str_nil|]. cbn [chars]. rewrite not_elem_of_cons, app_str_cons. intros [Hc Ha].
  cbn [cut_slash]. rewrite bool_decide_false by done. by rewrite (IH Ha).
Qed.

Lemma split_slash_lacks s : Forall (lacks "/") (split_slash s).
Proof.
  unfold lacks. induction s as [|c s IH]; cbn [split_slash]; [constructor; [apply not_elem_of_nil|done]|].
  case_bool_decide as Hc; [constructor; [apply not_elem_of_nil|done]|].
  destruct (split_slash s) as [|w ws]; [constructor; [|done]|apply Forall_cons in IH as [Hw Hws]; constructor; [|done]];
    cbn [chars]; rewrite not_elem_of_cons; (split; [done|]); [apply not_elem_of_nil|done].
Qed.

Lemma split_slash_nonempty s : split_slash s <> [].
Proof. destruct s as [|c s]; [done|]. cbn. case_bool_decide; [done|]. by destruct (split_slash s). Qed.

Lemma validate_id_plain s : validate_id s = true -> plain_name s.
Proof.
  intros H. split; [by apply matches_class_nonempty in H|]. split; [|split].
  - by intros ->.
  - by intros ->.
  - by apply (matches_class_lacks id_char).
Qed.

Lemma validate_filename_plain s : validate_filename s = true -> plain_name s.
Proof.
  unfold validate_filename. intros [Hd%negb_true_iff%bool_decide_eq_false Hm]%andb_true_iff.
  split; [by apply matches_class_nonempty in Hm|]. split; [|split].
  - intros ->. apply Hd. by left.
  - intros ->. apply Hd. right. by left.
  - by apply (matches_class_lacks filename_char).
Qed.

(** What a reference is parsed into: names of single components, two of them except below
    the workspace. *)
Lemma parse_ref_plain ref s parts :
  parse_ref ref = Return (s, parts) ->
  parts <> [] /\ Forall plain_name parts /\ (s <> Workspace -> exists a b, parts = [a; b]).
Proof.
  unfold parse_ref. destruct (List.find _ prefixes) as [[prefix s']|] eqn:Hf; [|done]. cbn [bind_result].
  destruct (parse_scheme_parts s' _) as [l|e] eqn:Hp; [|done]. cbn. intros [= <- <-].
  assert (Hw : forall rest, validate_workspace_path rest = Return l -> l <> [] /\ Forall plain_name l).
  { intros rest. unfold validate_workspace_path. destruct (_ || _); [done|]. destruct (existsb _ _) eqn:He; [done|]. intros [= <-].
    split; [apply split_slash_nonempty|]. apply Forall_forall. intros x Hx. rewrite existsb_false in He.
    pose proof (He x Hx) as Hn%bool_decide_eq_false. pose proof (split_slash_lacks rest) as Hl. rewrite Forall_forall in Hl.
    split; [|split; [|split; [|by apply Hl]]]; intros ->; apply Hn; repeat constructor. }
  assert (H2 : forall rest, match cut_slash rest with
             | None => Raise ArtifactValidationError
             | Some (id_part, file_part) =>
                 if validate_id id_part && validate_filename file_part && negb (contains "/" file_part)
                 then Return [id_part; file_part] else Raise ArtifactValidationError
             end = Return l -> l <> [] /\ Forall plain_name l /\ exists a b, l = [a; b]).
  { intros rest. destruct (cut_slash rest) as [[a b]|]; [|done]. destruct (validate_id a) eqn:Ha; [|done].
    destruct (validate_filename b) eqn:Hb; [|done]. cbn [andb]. destruct (negb _); [|done]. intros [= <-].
    split; [done|]. split; [|by exists a, b]. repeat constructor; try by apply validate_id_plain. all: by apply validate_filename_plain. }
  destruct s'; cbn [parse_scheme_parts] in Hp; try (apply H2 in Hp as (? & ? & ?); done).
  apply Hw in Hp as [? ?]. done.
Qed.

(** The name the store gives a file is one it accepts in a reference. *)
Lemma alnum_id c : alnum c = true -> id_char c = true.
Proof. unfold alnum. by intros [[? _]%andb_true_iff _]%andb_true_iff. Qed.

Lemma id_char_filename c : id_char c = true -> filename_char c = true.
Proof. destruct c as [[] [] [] [] [] [] [] []]; vm_compute; congruence. Qed.

Lemma from_last_dot_spec s e : from_last_dot s = Some e -> exists x, e = String "." x.
Proof.
  induction s as [|c s IH]; [done|]. cbn [from_last_dot]. destruct (from_last_dot s); [auto|].
  case_bool_decide as Hc; [|done]. intros [= <-]. subst c. by exists s.
Qed.

Lemma safe_ext_shape filename :
  safe_ext filename = "" \/ exists e, safe_ext filename = String "." e /\ matches_class alnum e = true.
Proof.
  unfold safe_ext. destruct (from_last_dot filename) as [e|] eqn:He; [|by left]. case_bool_decide; [by left|].
  apply from_last_dot_spec in He as [x ->]. unfold ascii_lowered. rewrite replace_miss by done. cbn [lower_ascii_only].
  set (y := lower_ascii_only _). change (drop_str 1 (String _ y)) with y.
  destruct (safe_ext_name y) eqn:Hy; [|by left]. right. exists y. split; [done|].
  by apply andb_true_iff in Hy as [Hy _].
Qed.

Definition hex_name (s : string) : Prop := s <> "" /\ Forall (fun c => id_char c = true) (chars s).

Lemma server_filename_valid hex filename : hex_name hex -> validate_filename (generate_server_filename hex filename) = true.
Proof.
  intros [Hne Hhex]. unfold generate_server_filename. destruct hex as [|c h]; [done|]. rewrite app_str_cons.
  cbn [chars] in Hhex. apply Forall_cons in Hhex as [Hc Hh].
  assert (He : all_then_end filename_char (safe_ext filename) = true).
  { destruct (safe_ext_shape filename) as [-> | (e & -> & He)]; [done|]. cbn [all_then_end].
    change (filename_char ".") with true. cbn [andb].
    destruct e as [|a e]; [done|]. apply andb_true_iff in He as [Ha He]. apply orb_true_iff. left. cbn [all_then_end].
    apply alnum_id, id_char_filename in Ha. rewrite Ha. cbn [andb].
    rewrite (all_then_end_impl alnum filename_char); [done| |done]. intros b Hb. by apply id_char_filename, alnum_id. }
  assert (Hall : all_then_end filename_char (h +:+ safe_ext filename) = true).
  { apply all_then_end_app; [|done]. eapply Forall_impl; [exact Hh|]. intros b. apply id_char_filename. }
  unfold validate_filename, matches_class. rewrite (id_char_filename c Hc), Hall. cbn [andb].
  rewrite andb_true_r. apply negb_true_iff, bool_decide_eq_false. rewrite !elem_of_cons. intros [E|[E|E%elem_of_nil]]; [..|done];
    injection E as -> _; by vm_compute in Hc.
Qed.

(** * Walks *)

Lemma walk_existing_spec parts : forall d cur p,
  walk_existing d cur parts = Return p -> parts <> [] ->
  p = cur ++ parts /\ (exists b, d !! p = Some (File b))
  /\ forall k, (0 < k < length parts)%nat -> d !! (cur ++ take k parts) = Some Directory.
Proof.
  induction parts as [|part rest IH]; intros d cur p; [done|]. cbn [walk_existing]. intros Hw _.
  destruct (d !! (cur ++ [part])) as [[b| |]|] eqn:Hn; destruct rest as [|r rest]; try done.
  - injection Hw as <-. split; [done|]. split; [by exists b|]. cbn. intros; lia.
  - apply IH in Hw as (-> & Hb & Hk); [|done]. rewrite <- app_assoc. split; [done|]. split; [by rewrite <- app_assoc in Hb|].
    intros [|[|k]] Hlt; [lia|by cbn|]. specialize (Hk (S k)). rewrite <- app_assoc in Hk. apply Hk. cbn in *. lia.
Qed.

Lemma walk_existing_complete parts : forall d cur b,
  parts <> [] -> d !! (cur ++ parts) = Some (File b) ->
  (forall k, (0 < k < length parts)%nat -> d !! (cur ++ take k parts) = Some Directory) ->
  walk_existing d cur parts = Return (cur ++ parts).
Proof.
  induction parts as [|part rest IH]; intros d cur b; [done|]. intros _ Hb Hk. cbn [walk_existing]. destruct rest as [|r rest].
  - by rewrite Hb.
  - pose proof (Hk 1%nat ltac:(cbn; lia)) as H1. cbn [take] in H1. rewrite H1. rewrite (IH d (cur ++ [part]) b); rewrite <- ?app_assoc; try done.
    intros k Hlt. rewrite <- app_assoc. apply (Hk (S k)). cbn in *. lia.
Qed.

Section store.
Context (cs : ContentStore).

(** The file a reference leads to, through directories only. *)
Definition leads_to (d : disk) (s : scheme) (parts : list string) (data : string) : Prop :=
  d !! (root_for_scheme cs s ++ parts) = Some (File data)
  /\ forall k, (k < length parts)%nat -> d !! (root_for_scheme cs s ++ take k parts) = Some Directory.

Lemma resolve_existing_spec d root parts p :
  resolve_existing d root parts = Return p -> parts <> [] ->
  p = root ++ parts /\ (exists b, d !! (root ++ parts) = Some (File b))
  /\ forall k, (k < length parts)%nat -> d !! (root ++ take k parts) = Some Directory.
Proof.
  unfold resolve_existing, check_root. destruct (d !! root) as [[b| |]|] eqn:Hr; try done. cbn [bind_result]. intros Hw Hne.
  apply walk_existing_spec in Hw as (-> & Hb & Hk); [|done]. split; [done|]. split; [done|].
  intros [|k] Hlt; [by rewrite app_nil_r|]. apply Hk. lia.
Qed.

Lemma resolve_existing_complete d root parts b :
  parts <> [] -> d !! (root ++ parts) = Some (File b) ->
  (forall k, (k < length parts)%nat -> d !! (root ++ take k parts) = Some Directory) ->
  resolve_existing d root parts = Return (root ++ parts).
Proof.
  intros Hne Hb Hk. unfold resolve_existing, check_root.
  assert (H0 : d !! root = Some Directory).
  { rewrite <- (app_nil_r root). apply (Hk 0%nat). destruct parts; [done|cbn; lia]. }
  rewrite H0. cbn [bind_result]. apply (walk_existing_complete parts d root b); [done..|].
  intros k [_ Hlt]. by apply Hk.
Qed.

Lemma read_returns d ref n data :
  read cs d ref n = Return data <->
  exists s parts, parse_ref ref = Return (s, parts) /\ leads_to d s parts data /\ 0 <= n /\ len data <= n.
Proof.
  unfold read. split.
  - destruct (parse_ref ref) as [[s parts]|] eqn:Hp; [|done]. cbn [bind_result]. destruct (n <? 0) eqn:Hn; [done|].
    destruct (resolve_existing _ _ _) as [p|] eqn:Hr; [|done]. cbn [bind_result]. apply parse_ref_plain in Hp as Hpp.
    apply resolve_existing_spec in Hr as (-> & [b Hb] & Hk); [|apply Hpp]. rewrite Hb. destruct (n <? len b) eqn:Hl; [done|].
    intros [= ->]. exists s, parts. repeat split; try done; lia.
  - intros (s & parts & Hp & [Hb Hk] & Hn & Hl). rewrite Hp. cbn [bind_result]. rewrite (proj2 (Z.ltb_ge n 0) Hn).
    apply parse_ref_plain in Hp as (Hne & _). rewrite (resolve_existing_complete d _ parts data) by done. cbn [bind_result].
    by rewrite Hb, (proj2 (Z.ltb_ge _ _) Hl).
Qed.

(** * Directories *)

Lemma ensure_safe_dir_spec d p d' :
  ensure_safe_dir d p = (d', Return tt) ->
  d' !! p = Some Directory /\ (forall q, q <> p -> d' !! q = d !! q) /\ (d !! p = None \/ d !! p = Some Directory).
Proof.
  unfold ensure_safe_dir. destruct (d !! p) as [[b| |]|] eqn:Hp; [done| |done|]; [intros [= <-]; naive_solver|].
  destruct (d !! removelast p) as [[b| |]|]; try done. intros [= <-]. split; [apply lookup_insert_eq|].
  split; [|by left]. intros q Hq. by apply lookup_insert_ne.
Qed.

Lemma ensure_safe_dir_fails d p d' e : ensure_safe_dir d p = (d', Raise e) -> d' = d.
Proof.
  unfold ensure_safe_dir. destruct (d !! p) as [[b| |]|]; [congruence..|].
  destruct (d !! removelast p) as [[b| |]|]; congruence.
Qed.

Lemma snoc_ne {A} (p : list A) x : p ++ [x] <> p.
Proof. intros E. apply (f_equal length) in E. rewrite length_app in E. cbn in E. lia. Qed.

(** The two directories are there, and nothing else has changed. *)
Record dirs_made (d d' : disk) (parent : path) (name : string) : Prop := {
  dm_parent : d' !! parent = Some Directory;
  dm_child : d' !! (parent ++ [name]) = Some Directory;
  dm_other : forall q, q <> parent -> q <> parent ++ [name] -> d' !! q = d !! q;
  dm_new : forall q x, d !! q = Some x -> d' !! q = Some x
}.

Lemma ensure_dirs_spec d parent name d' :
  ensure_dirs d parent (parent ++ [name]) = (d', Return tt) -> dirs_made d d' parent name.
Proof.
  unfold ensure_dirs. destruct (ensure_safe_dir d parent) as [d1 [[]|]] eqn:H1; [|done]. intros H2.
  apply ensure_safe_dir_spec in H1 as (Hp & Ho & Hn). apply ensure_safe_dir_spec in H2 as (Hc & Ho2 & Hn2).
  assert (Hne : parent <> parent ++ [name]) by (intros E; symmetry in E; by apply snoc_ne in E).
  split; [by rewrite Ho2|done| |].
  - intros q Hq Hq2. rewrite Ho2, Ho; done.
  - intros q x Hx. destruct (decide (q = parent ++ [name])) as [->|Hq].
    + rewrite Hc. rewrite Ho, Hx in Hn2 by done. destruct Hn2; congruence.
    + rewrite Ho2 by done. destruct (decide (q = parent)) as [->|Hq2]; [|by rewrite Ho].
      rewrite Hp. rewrite Hx in Hn. destruct Hn; congruence.
Qed.

Lemma ensure_dirs_fails d parent child d' e :
  ensure_dirs d parent child = (d', Raise e) -> forall q, q <> parent -> d' !! q = d !! q.
Proof.
  unfold ensure_dirs. destruct (ensure_safe_dir d parent) as [d1 [[]|]] eqn:H1.
  - intros ->%ensure_safe_dir_fails. by apply ensure_safe_dir_spec in H1 as (_ & Ho & _).
  - intros [= <- _]. by apply ensure_safe_dir_fails in H1 as ->.
Qed.

(** A write that succeeds leaves the file whole, one that fails leaves none. *)
Lemma write_file_spec d dir name data max d' r :
  write_file_bounded d dir name data max = (d', r) ->
  match r with
  | Return _ => len data <= max /\ d' = <[dir ++ [name] := File data]> d /\ d !! (dir ++ [name]) <> Some Directory
  | Raise _ => d' = d
  end.
Proof.
  unfold write_file_bounded. destruct (d !! (dir ++ [name])) as [[b| |]|]; destruct (max <? len data) eqn:Hl; intros [= <- <-]; try done;
    (split; [lia|done]).
Qed.

(** * Operations as data *)

Inductive cop : Type :=
  | CWrite (artifact_id filename data hex : string)
  | CDelete (content_ref : string)
  | CMaterialize (k : ArtifactSource.t) (ref artifact_id hex : string)
  | CCopy (src_ref publish_id : string) (inline : option string) (hex : string)
  | CDeleteSnapshot (publish_id : string).

Definition exec_cop (d : disk) (o : cop) : disk :=
  match o with
  | CWrite i filename data hex => (write_atomic cs d i filename data hex).1
  | CDelete ref => (delete_owned cs d ref).1
  | CMaterialize k ref i hex => (materialize_source cs d k ref i hex).1
  | CCopy src i inline hex => (copy_to_publish_snapshot cs d src i inline hex).1
  | CDeleteSnapshot i => (delete_publish_snapshot cs d i).1
  end.

(** The two directories the store owns, and what is below them. *)
Definition owned (p : path) : Prop := items_root cs `prefix_of` p \/ published_root cs `prefix_of` p.
Definition only_owned (d d' : disk) : Prop := forall p, ~ owned p -> d' !! p = d !! p.

Definition owned_root (root : path) : Prop := root = items_root cs \/ root = published_root cs.

Lemma below_owned root rest : owned_root root -> owned (root ++ rest).
Proof. intros [-> | ->]; [left|right]; by apply prefix_app_r. Qed.

Lemma only_owned_insert d d' root rest x : owned_root root -> only_owned d d' -> only_owned d (<[root ++ rest := x]> d').
Proof. intros Hr H p Hp. rewrite lookup_insert_ne; [by apply H|]. intros <-. by apply Hp, below_owned. Qed.
Lemma only_owned_delete d d' root rest : owned_root root -> only_owned d d' -> only_owned d (base.delete (root ++ rest) d').
Proof. intros Hr H p Hp. rewrite lookup_delete_ne; [by apply H|]. intros <-. by apply Hp, below_owned. Qed.

Lemma only_owned_dirs d root name d' r :
  owned_root root -> ensure_dirs d root (root ++ [name]) = (d', r) -> only_owned d d'.
Proof.
  intros Hr He p Hp. assert (Hn : p <> root) by (intros ->; apply Hp; rewrite <- (app_nil_r root); by apply below_owned).
  destruct r as [[]|e]; [|by apply (ensure_dirs_fails _ _ _ _ _ He)].
  apply ensure_dirs_spec in He as [_ _ Ho _]. apply Ho; [done|]. intros ->. by apply Hp, below_owned.
Qed.

Lemma only_owned_file d root name file data max d1 d' r :
  owned_root root -> only_owned d d1 -> write_file_bounded d1 (root ++ [name]) file data max = (d', r) -> only_owned d d'.
Proof.
  intros Hr H1 Hw%write_file_spec. destruct r; [|by subst d']. destruct Hw as (_ & -> & _). rewrite <- app_assoc.
  by apply only_owned_insert.
Qed.

Lemma walk_parents_spec parts : forall d cur p, parts <> [] ->
  walk_parents d cur parts = Return p -> p ++ [List.last parts ""] = cur ++ parts.
Proof.
  induction parts as [|part rest IH]; intros d cur p; [done|]. intros _. cbn [walk_parents]. destruct rest as [|r rest].
  - by intros [= <-].
  - destruct (d !! (cur ++ [part])) as [[b| |]|]; try done. intros Hw%IH; [|done]. by rewrite <- app_assoc in Hw.
Qed.

(** What [delete_owned] may do: remove one file of the store, or nothing. *)
Lemma delete_owned_spec d ref d' r :
  delete_owned cs d ref = (d', r) ->
  d' = d \/ exists s parts b, parse_ref ref = Return (s, parts) /\ (s = Item \/ s = Published)
             /\ d !! (root_for_scheme cs s ++ parts) = Some (File b)
             /\ d' = base.delete (root_for_scheme cs s ++ parts) d /\ r = Return true.
Proof.
  unfold delete_owned. destruct (parse_ref ref) as [[s parts]|] eqn:Hp; [|intros [= <-]; by left].
  case_bool_decide as Hs; cbn [negb]; [|intros [= <-]; by left].
  destruct (resolve_parent _ _ _) as [p|e] eqn:Hr; [|destruct e; intros [= <-]; by left].
  apply parse_ref_plain in Hp as (Hne & _). unfold resolve_parent in Hr. destruct (check_root _ _); [|done]. cbn [bind_result] in Hr.
  apply walk_parents_spec in Hr; [|done]. rewrite Hr.
  destruct (d !! (root_for_scheme cs s ++ parts)) as [[b| |]|] eqn:Hb; intros [= <- <-]; try by left.
  right. exists s, parts, b. split; [done|]. split; [|done]. set_solver.
Qed.

Lemma unlink_all_owned d root name l : owned_root root ->
  Forall (fun p => exists x, p = (root ++ [name]) ++ [x]) l -> only_owned d (unlink_all d l).1.
Proof.
  intros Hr Hl. assert (H : forall d1, only_owned d d1 -> only_owned d (unlink_all d1 l).1); [|by apply H].
  induction Hl as [|p l [x ->] Hl IH]; intros d1 H1; [done|]. cbn [unlink_all].
  destruct (d1 !! _) as [[b| |]|]; try done. apply IH. rewrite <- app_assoc. by apply only_owned_delete.
Qed.

Lemma entries_below d dir : Forall (fun p => exists x, p = dir ++ [x]) (entries d dir).
Proof.
  apply Forall_forall. intros p [_ [Hne Hr]%andb_true_iff]%List_filter_elem. apply bool_decide_eq_true in Hne, Hr.
  exists (List.last p ""). rewrite <- Hr. by apply app_removelast_last.
Qed.

(** * The theorems *)

(** A reference leads nowhere else.  What is read through one lies below the root of its
    scheme, under names none of which is empty, [.], [..] or holds a slash, and is reached
    through directories only, never through a symbolic link; it is a whole file of at most
    the bytes asked for.  A reference that does not parse this way, or leads to anything
    else, is refused. *)
Theorem refs_are_confined d ref n data :
  read cs d ref n = Return data <->
  exists s parts, parse_ref ref = Return (s, parts) /\ Forall plain_name parts /\ parts <> []
                  /\ leads_to d s parts data /\ 0 <= n /\ len data <= n.
Proof.
  rewrite read_returns. split; intros (s & parts & Hp & H); exists s, parts; [|naive_solver].
  apply parse_ref_plain in Hp as Hpp. naive_solver.
Qed.

(** Only files of the store change.  Whatever the store is asked to do, with whatever
    reference, and whether or not it raises, nothing outside its two directories is
    written or removed: the attachments of tasks and the workspace are only read, and
    removing by reference removes at most the one file the reference names. *)
Theorem store_touches_own_files d o :
  only_owned d (exec_cop d o)
  /\ (forall ref, o = CDelete ref -> exec_cop d o = d \/ exists s parts b,
        parse_ref ref = Return (s, parts) /\ (s = Item \/ s = Published)
        /\ d !! (root_for_scheme cs s ++ parts) = Some (File b)
        /\ exec_cop d o = base.delete (root_for_scheme cs s ++ parts) d).
Proof.
  assert (Hi : owned_root (items_root cs)) by by left. assert (Hp : owned_root (published_root cs)) by by right. split.
  - destruct o as [i filename data hex|ref|k ref i hex|src i inline hex|i]; cbn [exec_cop].
    + unfold write_atomic. destruct (negb _); [done|]. destruct (ensure_dirs _ _ _) as [d1 [[]|e]] eqn:He;
        apply only_owned_dirs in He; try done. destruct (write_file_bounded _ _ _ _ _) as [d2 r] eqn:Hw.
      apply (only_owned_file d _ i) in Hw; [by destruct r|done|done].
    + destruct (delete_owned cs d ref) as [d' r] eqn:Hdel.
      apply delete_owned_spec in Hdel as [->|(s & parts & b & _ & Hs & _ & -> & _)]; [done|]. cbn [fst].
      by destruct Hs as [-> | ->]; apply only_owned_delete.
    + unfold materialize_source. destruct (negb _); [done|].
      destruct (match k with ArtifactSource.TASK_ATTACHMENT => _ | _ => _ end) as [[parts data]|e]; [|done].
      destruct (ensure_dirs _ _ _) as [d1 [[]|e]] eqn:He; apply only_owned_dirs in He; try done.
      destruct (write_file_bounded _ _ _ _ _) as [d2 r] eqn:Hw. apply (only_owned_file d _ i) in Hw; [by destruct r|done|done].
    + unfold copy_to_publish_snapshot. destruct (negb _); [done|].
      destruct (ensure_dirs _ _ _) as [d1 [[]|e]] eqn:He; apply only_owned_dirs in He; try done.
      destruct (match inline with Some _ => _ | None => _ end) as [[[filename data] max]|e]; [|done].
      destruct (write_file_bounded _ _ _ _ _) as [d2 r] eqn:Hw. apply (only_owned_file d _ i) in Hw; [by destruct r|done|done].
    + unfold delete_publish_snapshot. destruct (negb _); [done|]. destruct (d !! _) as [[b| |]|]; try done.
      pose proof (unlink_all_owned d _ i (entries d (published_root cs ++ [i])) Hp (entries_below _ _)) as Hu.
      destruct (unlink_all d _) as [d1 [[]|e]]; [|done]. cbn [fst] in *. by apply only_owned_delete.
  - intros ref ->. cbn [exec_cop]. destruct (delete_owned cs d ref) as [d' r] eqn:Hdel.
    apply delete_owned_spec in Hdel as [->|(s & parts & b & Hps & Hs & Hb & -> & _)]; [by left|]. right. by exists s, parts, b.
Qed.

Lemma parse_two sch prefix i name :
  sch <> Workspace -> In (prefix, sch) prefixes ->
  validate_id i = true -> validate_filename name = true -> parse_ref (prefix +:+ i +:+ "/" +:+ name) = Return (sch, [i; name]).
Proof.
  intros Hs Hpre Hi Hn. assert (Hcut : parse_scheme_parts sch (i +:+ "/" +:+ name) = Return [i; name]).
  { unfold parse_scheme_parts. change (i +:+ "/" +:+ name) with (i +:+ String "/" name).
    rewrite cut_slash_app by apply (validate_id_plain i Hi). rewrite Hi, Hn.
    apply validate_filename_plain in Hn as (_ & _ & _ & Hn). apply contains_single in Hn. rewrite Hn. by destruct sch. }
  unfold parse_ref. assert (Hf : List.find (fun p => starts_with p.1 (prefix +:+ i +:+ "/" +:+ name)) prefixes = Some (prefix, sch)).
  { destruct Hpre as [[= <- <-]|[[= <- <-]|[[= <- <-]|[[= <- <-]|[]]]]]; done. }
  rewrite Hf. cbn [bind_result]. by rewrite drop_app_str, Hcut.
Qed.

(** A new file in a directory of the store: where it is, and what stays. *)
Lemma file_placed d root i name data max d1 d' :
  ensure_dirs d root (root ++ [i]) = (d1, Return tt) -> write_file_bounded d1 (root ++ [i]) name data max = (d', Return tt) ->
  d' !! (root ++ [i; name]) = Some (File data)
  /\ (forall k, (k < 2)%nat -> d' !! (root ++ take k [i; name]) = Some Directory)
  /\ (forall q, q <> root ++ [i; name] -> forall x, d !! q = Some x -> d' !! q = Some x).
Proof.
  intros [H1 H2 H3 H4]%ensure_dirs_spec (_ & -> & _)%write_file_spec.
  assert (Hpath : root ++ [i; name] = (root ++ [i]) ++ [name]) by by rewrite <- app_assoc.
  rewrite Hpath. split; [apply lookup_insert_eq|]. split.
  - intros [|[|k]] Hk; cbn [take]; [..|lia].
    + rewrite app_nil_r, lookup_insert_ne; [done|]. intros E. rewrite <- app_assoc in E. apply (f_equal length) in E.
      rewrite length_app in E. cbn in E. lia.
    + rewrite lookup_insert_ne; [done|]. apply snoc_ne.
  - intros q Hq x Hx. rewrite lookup_insert_ne; [by apply H4|done].
Qed.

(** A write that succeeds: where its file is. *)
Lemma write_atomic_returns d i filename data hex d' ref :
  hex_name hex -> write_atomic cs d i filename data hex = (d', Return ref) ->
  let name := generate_server_filename hex filename in
  parse_ref ref = Return (Item, [i; name]) /\ leads_to d' Item [i; name] data
  /\ (forall q, q <> items_root cs ++ [i; name] -> forall x, d !! q = Some x -> d' !! q = Some x).
Proof.
  intros Hhex Hw. cbn zeta. unfold write_atomic in Hw. destruct (validate_id i) eqn:Hi; [|done]. cbn [negb] in Hw.
  set (name := generate_server_filename hex filename) in *.
  destruct (ensure_dirs _ _ _) as [d1 [[]|e]] eqn:He; [|done].
  destruct (write_file_bounded _ _ _ _ _) as [d2 [[]|e]] eqn:Hf; [|done]. injection Hw as <- <-.
  destruct (file_placed _ _ _ _ _ _ _ _ He Hf) as (H1 & H2 & H3).
  split; [apply (parse_two Item "item:"); [done|by left|done|by apply server_filename_valid]|done].
Qed.

(** A file that is there is removed, and nothing else. *)
Lemma delete_placed d ref i name data :
  parse_ref ref = Return (Item, [i; name]) -> leads_to d Item [i; name] data ->
  delete_owned cs d ref = (base.delete (items_root cs ++ [i; name]) d, Return true).
Proof.
  intros Hp [Hf Hdirs]. unfold delete_owned. rewrite Hp. rewrite bool_decide_true by set_solver. cbn [negb].
  unfold resolve_parent, check_root.
  pose proof (Hdirs 0%nat ltac:(cbn; lia)) as H0. pose proof (Hdirs 1%nat ltac:(cbn; lia)) as H1. cbn [take root_for_scheme] in *.
  rewrite app_nil_r in H0. rewrite H0. cbn [bind_result walk_parents]. rewrite H1. cbn [List.last]. rewrite <- app_assoc.
  change ([i] ++ [?x]) with [i; x]. cbn [app]. by rewrite Hf.
Qed.

Lemma dirs_no_file d root name d' r q b :
  ensure_dirs d root (root ++ [name]) = (d', r) -> d' !! q = Some (File b) -> d !! q = Some (File b).
Proof.
  intros He Hq. destruct r as [[]|e].
  - apply ensure_dirs_spec in He as [H1 H2 H3 _]. rewrite <- H3; [done|..]; intros ->; congruence.
  - unfold ensure_dirs in He. destruct (ensure_safe_dir d root) as [d1 [[]|]] eqn:H1.
    + apply ensure_safe_dir_fails in He as ->. apply ensure_safe_dir_spec in H1 as (Hp & Ho & _).
      rewrite <- Ho; [done|]. intros ->. congruence.
    + injection He as <- _. by apply ensure_safe_dir_fails in H1 as ->.
Qed.

(** The one file a write adds. *)
Lemma write_files d i filename data hex d' r q b :
  write_atomic cs d i filename data hex = (d', r) -> d' !! q = Some (File b) ->
  d !! q = Some (File b) \/ q = items_root cs ++ [i; generate_server_filename hex filename] /\ exists ref, r = Return ref.
Proof.
  unfold write_atomic. destruct (negb _); [intros [= <- _]; by left|].
  destruct (ensure_dirs _ _ _) as [d1 [[]|e]] eqn:He; [|intros [= <- _] Hq; left; by eapply dirs_no_file].
  destruct (write_file_bounded _ _ _ _ _) as [d2 [[]|e]] eqn:Hw; apply write_file_spec in Hw; intros [= <- <-] Hq.
  - destruct Hw as (_ & -> & _). rewrite <- app_assoc in Hq. cbn [app] in Hq.
    destruct (decide (q = items_root cs ++ [i; generate_server_filename hex filename])) as [->|Hne]; [right; eauto|].
    rewrite lookup_insert_ne in Hq by done. left. by eapply dirs_no_file.
  - subst d2. left. by eapply dirs_no_file.
Qed.

(** A source that can be copied. *)
Lemma read_typed_returns d ref sch parts data :
  read_typed cs d ref sch = Return (parts, data) -> parse_ref ref = Return (sch, parts) /\ d !! (root_for_scheme cs sch ++ parts) = Some (File data).
Proof.
  unfold read_typed. destruct (parse_ref ref) as [[s p]|] eqn:Hp; [|done]. cbn [bind_result]. case_bool_decide as Hs; [subst s|done].
  cbn [negb]. destruct (resolve_existing _ _ _) as [q|] eqn:Hr; [|done]. cbn [bind_result].
  apply resolve_existing_spec in Hr as (-> & [b Hb] & _); [|by apply parse_ref_plain in Hp as (? & _)].
  rewrite Hb. intros [= -> ->]. done.
Qed.

(** A snapshot that is copied: where it is, and what of. *)
Lemma copy_returns d src i inline hex d' ref :
  hex_name hex -> copy_to_publish_snapshot cs d src i inline hex = (d', Return ref) ->
  exists filename data, let name := generate_server_filename hex filename in
  parse_ref ref = Return (Published, [i; name]) /\ leads_to d' Published [i; name] data
  /\ match inline with
     | Some x => data = x
     | None => exists parts, parse_ref src = Return (Item, parts) /\ d !! (items_root cs ++ parts) = Some (File data)
     end.
Proof.
  intros Hhex Hc. unfold copy_to_publish_snapshot in Hc. destruct (validate_id i) eqn:Hi; [|done]. cbn [negb] in Hc.
  destruct (ensure_dirs _ _ _) as [d1 [[]|e]] eqn:He; [|done].
  destruct (match inline with Some _ => _ | None => _ end) as [[[filename data] max]|e] eqn:Hsrc; [|done].
  destruct (write_file_bounded _ _ _ _ _) as [d2 [[]|e]] eqn:Hf; [|done]. injection Hc as <- <-.
  destruct (file_placed _ _ _ _ _ _ _ _ He Hf) as (H1 & H2 & H3). exists filename, data. cbn zeta.
  split; [apply (parse_two Published "published:"); [done|by right; left|done|by apply server_filename_valid]|]. split; [done|].
  destruct inline as [x|]; [by case_match; [|injection Hsrc as <- <- <-]|].
  destruct (read_typed cs d1 src Item) as [[parts data']|] eqn:Hr; [|done]. injection Hsrc as _ <- _.
  apply read_typed_returns in Hr as [Hp Hb]. exists parts. split; [done|]. cbn [root_for_scheme] in Hb.
  apply ensure_dirs_spec in He as [D1 D2 D3 D4].
  rewrite <- D3; [done|..]; intros E; rewrite E in Hb; congruence.
Qed.

(** What was written is read back.  A file the store writes under a name not used before
    is found by the reference it answers, whole; every reference that could be read
    before can be read still, with the same content; and removing the new file takes away
    this file only. *)
Theorem written_content_reads_back d i filename data hex d' ref :
  hex_name hex -> d !! (items_root cs ++ [i; generate_server_filename hex filename]) = None ->
  write_atomic cs d i filename data hex = (d', Return ref) ->
  (forall n, len data <= n -> read cs d' ref n = Return data)
  /\ (forall ref2 n x, read cs d ref2 n = Return x -> read cs d' ref2 n = Return x)
  /\ delete_owned cs d' ref = (base.delete (items_root cs ++ [i; generate_server_filename hex filename]) d', Return true).
Proof.
  intros Hhex Hnew Hw. apply write_atomic_returns in Hw as (Hp & Hl & Hk); [|done]. split; [|split].
  - intros n Hn. apply read_returns. exists Item, [i; generate_server_filename hex filename]. repeat split; try done;
      [apply Hl|apply Hl|unfold len in *; lia].
  - intros ref2 n x (s & parts & Hp2 & [Hf Hdirs] & Hn)%read_returns. apply read_returns. exists s, parts. split; [done|].
    split; [|done]. split; [apply Hk; [|done]; intros E; by rewrite E, Hnew in Hf|].
    intros k Hlt. apply Hk; [|by apply Hdirs]. intros E. specialize (Hdirs k Hlt). by rewrite E, Hnew in Hdirs.
  - by apply (delete_placed d' ref i _ data).
Qed.
End store.

(** * Example *)

Definition a_store : ContentStore := mkContentStore ["data"; "artifacts"] ["data"; "attachments"] ["data"] 100 50 10.
Definition a_disk : disk := list_to_map [(["data"], Directory); (["data"; "artifacts"], Directory); (["data"; "n.md"], File "old")].

Lemma written_content_reads_back_witness :
  let d' := (write_atomic a_store a_disk "a1" "note.md" "text" "0f").1 in
  read a_store d' "item:a1/0f.md" 4 = Return "text" /\ read a_store d' "workspace:n.md" 10 = Return "old".
Proof.
  destruct (written_content_reads_back a_store a_disk "a1" "note.md" "text" "0f"
              (write_atomic a_store a_disk "a1" "note.md" "text" "0f").1 "item:a1/0f.md") as (H1 & H2 & _).
  - split; [done|]. repeat constructor.
  - vm_compute; reflexivity.
  - rewrite (surjective_pairing (write_atomic _ _ _ _ _ _)) at 1. f_equal.
  - split; [apply H1; vm_compute; discriminate|apply H2; vm_compute; reflexivity].
Defined.
