(* ===== verification/ArtifactService.v ===== *)
(** The artifact service (app/application/artifact_service.py): reading, creating and
    editing artifacts, their revisions and rollbacks.  Publishing, deletion, registration
    of task results and the backfills are in ArtifactFlows.v.

    A method acts on the tables of the registry and on the disk of the content store.  What
    other coroutines do between its reads and its writes is the argument [during].  SHA-256,
    the identifiers and file names drawn and the clock are arguments.  The audit of a policy
    decision, whose failures are swallowed, is left out. *)
From S2P Require Import Prelude Text Unicode ArtifactDomain ArtifactStore ArtifactContent.
From Stdlib Require Import Ascii.
From stdpp Require Import gmap.
Open Scope Z_scope.

Record ArtifactServiceConfig := mkArtifactServiceConfig {
  artifact_max_bytes : Z;
  artifact_publish_max_bytes : Z;
  artifact_inline_max_bytes : Z;
  published_base_url : string;
  diff_max_bytes : Z
}.

Record astate := mkAstate { a_db : adb; a_disk : disk }.
#[export] Instance rebuild_astate : Rebuild astate := fun s => mkAstate (a_db s) (a_disk s).

(** What one call draws: an artifact or publish identifier, a revision identifier, the
    token in the name of a revision's file, and the name of the file on disk. *)
Record drawn := mkDrawn { dr_id : string; dr_revision_id : string; dr_token : string; dr_hex : string }.

Record UpdateRevisionResult := mkUpdateRevisionResult { content_unchanged : bool; publish_sync_state : string }.
Record PublishResult := mkPublishResult { pub_published : PublishedArtifact.t; pub_share_url : string; pub_reused : bool }.

(** * Kinds and MIME types *)

(** [(mime or "").lower().split(";")[0].strip()] *)
Definition normalized_mime (mime : string) : string := strip_utf8 (before_char ";" (ascii_lowered mime)).

Definition MIME_TO_KIND : list (string * ArtifactKind.t) :=
  [("text/markdown", ArtifactKind.MARKDOWN); ("text/x-markdown", ArtifactKind.MARKDOWN); ("text/html", ArtifactKind.HTML);
   ("text/csv", ArtifactKind.CSV); ("application/json", ArtifactKind.JSON); ("application/pdf", ArtifactKind.PDF)].

Definition kind_from_mime (mime : string) : ArtifactKind.t :=
  let m := normalized_mime mime in
  match List.find (fun p => bool_decide (p.1 = m)) MIME_TO_KIND with
  | Some p => p.2
  | None => if starts_with "image/" m then ArtifactKind.IMAGE
            else if starts_with "text/" m then ArtifactKind.TEXT else ArtifactKind.OTHER
  end.

(** [sorted(_EXT_TO_MIME, key=len, reverse=True)] *)
Definition EXT_TO_MIME : list (string * string) :=
  [(".markdown", "text/markdown"); (".html", "text/html"); (".json", "application/json"); (".htm", "text/html");
   (".csv", "text/csv"); (".pdf", "application/pdf"); (".txt", "text/plain"); (".md", "text/markdown")].

Definition resolve_mime (name mime : string) : string :=
  if truthy_str mime then mime
  else match List.find (fun p => ends_with p.1 (ascii_lowered name)) EXT_TO_MIME with Some p => p.2 | None => "" end.

Definition ensure_nonempty_mime (mime : string) (k : ArtifactKind.t) : string :=
  if truthy_str mime then mime else if is_text_kind k then "text/plain" else "application/octet-stream".

Definition is_owned_ref (o : option string) : bool := match o with Some r => starts_with "item:" r | None => false end.
Definition is_source_ref (o : option string) : bool :=
  match o with Some r => starts_with "attachment:" r || starts_with "workspace:" r | None => false end.

(** * Text patches *)

(** One item of [_validate_text_patch]: an object with exactly three keys.  A [mode] that
    cannot be hashed makes the membership test raise. *)
Definition validate_patch_item (item : json) : result (string * string * bool) :=
  match item with
  | JObj kvs =>
      if negb (bool_decide (sorted_strs (map fst kvs) = ["mode"; "replace"; "search"])) then Raise ArtifactRevisionValidationError
      else match obj_get "search" kvs, obj_get "replace" kvs, obj_get "mode" kvs with
           | Some (JStr search), Some (JStr new), Some mode =>
               if negb (truthy_str search) then Raise ArtifactRevisionValidationError
               else match mode with
                    | JStr m => if bool_decide (m = "first") then Return (search, new, true)
                                else if bool_decide (m = "all") then Return (search, new, false)
                                else Raise ArtifactRevisionValidationError
                    | JArr _ | JObj _ => Raise TypeError
                    | _ => Raise ArtifactRevisionValidationError
                    end
           | _, _, _ => Raise ArtifactRevisionValidationError
           end
  | _ => Raise ArtifactRevisionValidationError
  end.

Fixpoint validate_patch_items (l : list json) : result (list (string * string * bool)) :=
  match l with
  | [] => Return []
  | item :: l => let? p := validate_patch_item item in let? ps := validate_patch_items l in Return (p :: ps)
  end.

(** [_validate_text_patch]; what it answers is the patch as read. *)
Definition validate_text_patch (patch : json) : result (list (string * string * bool)) :=
  match patch with
  | JArr l => if (length l <? 1)%nat || (100 <? length l)%nat then Raise ArtifactRevisionValidationError else validate_patch_items l
  | _ => Raise ArtifactRevisionValidationError
  end.

Definition apply_patch_item (text : string) (item : string * string * bool) : result string :=
  let '(search, new, first) := item in
  if first then match replace_first search new text with Some t => Return t | None => Raise ArtifactRevisionValidationError end
  else if contains search text then Return (replace_all search new text) else Raise ArtifactRevisionValidationError.

Fixpoint apply_text_patch (text : string) (patch : list (string * string * bool)) : result string :=
  match patch with
  | [] => Return text
  | item :: patch => let? text := apply_patch_item text item in apply_text_patch text patch
  end.

Section service.
Context (sha256 : string -> string) (cs : ContentStore) (cfg : ArtifactServiceConfig).

Definition sha256_checksum (data : string) : string := "sha256:" +:+ sha256 data.

(** * The policy *)

Definition evaluate_policy (a : Artifact.t) (action : ArtifactPolicyAction.t) (content_available : bool)
    (active_publish_checksum : option string) : result ArtifactPolicyOutcome :=
  let outcome := artifact_evaluate (mkArtifactPolicyRequest a action content_available active_publish_checksum
                                      (artifact_publish_max_bytes cfg)) in
  if bool_decide (po_decision outcome = PolicyOutcome.DENY)
  then Raise (if bool_decide (action = ArtifactPolicyAction.PUBLISH) then PublishBlockedError else ArtifactValidationError)
  else Return outcome.

(** * Reading *)

Definition found {A} (e : py_exc) (o : option A) : result A := match o with Some x => Return x | None => Raise e end.

Definition list_artifacts (s : astate) (f : artifact_filter) (c : option ArtifactListCursor) (limit : Z) : ArtifactListPage :=
  ArtifactStore.list_artifacts (a_db s) f c (clamp 1 100 limit).

Definition get_artifact (s : astate) (i : string) : result Artifact.t :=
  found ArtifactNotFoundError (ArtifactStore.get_artifact (a_db s) i).

(** [inline.encode()], or the file. *)
Definition read_content (s : astate) (inline ref : option string) (max_bytes : Z) : result string :=
  match inline, ref with
  | Some text, _ => Return text
  | None, None => Raise ArtifactContentUnavailableError
  | None, Some r => read cs (a_disk s) r max_bytes
  end.
Definition read_revision_bytes (s : astate) (r : ArtifactRevision.t) : result string :=
  read_content s (ArtifactRevision.inline_content r) (ArtifactRevision.content_ref r) (artifact_max_bytes cfg).
Definition read_legacy_bytes (s : astate) (a : Artifact.t) : result string :=
  read_content s (Artifact.inline_content a) (Artifact.content_ref a) (artifact_max_bytes cfg).

Definition get_content (s : astate) (i : string) : result (string * Artifact.t) :=
  let? a := get_artifact s i in
  match Artifact.current_revision_id a with
  | Some current =>
      let? r := found ArtifactContentUnavailableError (ArtifactStore.get_revision (a_db s) i current) in
      let? data := read_revision_bytes s r in Return (data, a)
  | None => let? data := read_legacy_bytes s a in Return (data, a)
  end.

Definition get_current_revision (s : astate) (i : string) : result ArtifactRevision.t :=
  let? a := get_artifact s i in
  let? current := found ArtifactMigrationIncompleteError (Artifact.current_revision_id a) in
  found ArtifactRevisionNotFoundError (ArtifactStore.get_revision (a_db s) i current).

Definition unmigrated (s : astate) (i : string) : bool :=
  match ArtifactStore.get_artifact (a_db s) i with
  | Some a => bool_decide (Artifact.current_revision_id a = None)
  | None => false
  end.

Definition get_revision (s : astate) (i revision_id : string) : result ArtifactRevision.t :=
  if unmigrated s i then Raise ArtifactMigrationIncompleteError
  else found ArtifactRevisionNotFoundError (ArtifactStore.get_revision (a_db s) i revision_id).

Definition verify_revision_checksum (r : ArtifactRevision.t) (data : string) : result unit :=
  if bool_decide (sha256_checksum data = ArtifactRevision.checksum r) then Return tt else Raise ArtifactContentUnavailableError.

(** The view of an artifact without revisions. *)
Definition legacy_revision (a : Artifact.t) (now : Z) : ArtifactRevision.t :=
  ArtifactRevision.mk "legacy" (Artifact.id a) 1 None None (Artifact.content_ref a) (Artifact.inline_content a) (Artifact.size a)
    (Artifact.checksum a) (Artifact.mime a) (Artifact.kind a) (default now (Artifact.created_at a)) "" (Artifact.created_by a)
    (Artifact.source_session_id a) None.

Definition get_revision_content (s : astate) (i : string) (revision_id : option string) (now : Z)
    : result (string * ArtifactRevision.t) :=
  let? a := get_artifact s i in
  match revision_id, Artifact.current_revision_id a with
  | None, None =>
      let? data := read_legacy_bytes s a in
      let? r := ArtifactRevision.make (legacy_revision a now) in Return (data, r)
  | Some _, None => Raise ArtifactMigrationIncompleteError
  | o, Some current =>
      let? r := found ArtifactRevisionNotFoundError (ArtifactStore.get_revision (a_db s) i (default current o)) in
      let? data := read_revision_bytes s r in
      let? _ := verify_revision_checksum r data in Return (data, r)
  end.

(** * Creating *)

Definition best_effort_delete (s : astate) (ref : string) : astate := s <| a_disk := (delete_owned cs (a_disk s) ref).1 |>.
Definition best_effort_delete_opt (s : astate) (ref : option string) : astate :=
  match ref with Some r => best_effort_delete s r | None => s end.

(** [write_atomic] on the state. *)
Definition write_content (s : astate) (i filename data hex : string) : astate * result string :=
  let '(d, r) := write_atomic cs (a_disk s) i filename data hex in (s <| a_disk := d |>, r).

Definition register_initial (s : astate) (a : Artifact.t) (r : ArtifactRevision.t) (now : Z) : astate * result Artifact.t :=
  match create_artifact_with_initial_revision (a_db s) a r now with
  | (d, Return (a, _)) => (s <| a_db := d |>, Return a)
  | (d, Raise e) => (best_effort_delete_opt (s <| a_db := d |>) (ArtifactRevision.content_ref r), Raise e)
  end.

(** The two objects are built before the [try] that removes the new file again. *)
Definition build_and_register (s : astate) (a : Artifact.t) (r : ArtifactRevision.t) (now : Z) : astate * result Artifact.t :=
  match (let? a := Artifact.make a in let? r := ArtifactRevision.make r in Return (a, r)) with
  | Return (a, r) => register_initial s a r now
  | Raise e => (s, Raise e)
  end.

(** The initial revision shares the content fields of its artifact. *)
Definition initial_revision (revision_id : string) (a : Artifact.t) (run_id : option string) (now : Z) : ArtifactRevision.t :=
  ArtifactRevision.mk revision_id (Artifact.id a) 1 None None (Artifact.content_ref a) (Artifact.inline_content a)
    (Artifact.size a) (Artifact.checksum a) (Artifact.mime a) (Artifact.kind a) now "" (Artifact.created_by a)
    (Artifact.source_session_id a) run_id.

Record CreateInput := mkCreateInput {
  c_name : string;
  c_kind : ArtifactKind.t;
  c_mime : string;
  c_inline_content : option string;
  c_file_data : option string;
  c_filename : option string;
  c_workspace_ref : option string;
  c_source_kind : ArtifactSource.t;
  c_source_ref : option string;
  c_source_context_ref : option string;
  c_source_session_id : option string;
  c_source_run_id : option string;
  c_summary : string;
  c_classification : option string;
  c_labels : option (list string);
  c_created_by : string
}.

Definition count_given {A} (l : list (option A)) : nat := length (omap id l).

(** The bytes of a file that is given or lies in the workspace. *)
Definition file_bytes (s : astate) (refused : py_exc) (file_data workspace_ref : option string) : result string :=
  let? raw := match file_data, workspace_ref with
              | Some data, _ => Return data
              | None, Some ref => if starts_with "workspace:" ref then read cs (a_disk s) ref (artifact_max_bytes cfg)
                                  else Raise refused
              | None, None => Raise refused
              end in
  if artifact_max_bytes cfg <? len raw then Raise ArtifactTooLargeError else Return raw.

(** Without a [source_ref] a task's source has none, and the table wants one. *)
Definition source_ref_of (r : CreateInput) (i : string) : option string :=
  match c_source_ref r with
  | Some x => Some x
  | None => if bool_decide (c_source_kind r ∈ [ArtifactSource.MANUAL; ArtifactSource.SESSION]) then Some i else None
  end.

Definition new_artifact (r : CreateInput) (i source_ref : string) (ref inline : option string) (size : Z) (checksum : string)
    : Artifact.t :=
  Artifact.mk i (c_name r) (c_kind r) (c_mime r) ref inline size checksum (c_source_kind r) source_ref (c_source_context_ref r)
    (c_source_session_id r) (c_summary r) (c_classification r) (c_labels r) ArtifactStatus.DRAFT None None (c_created_by r) None.

(** The content is written first.  A missing source of a task's artifact is a [NULL] the
    registry refuses. *)
Definition create_artifact (s : astate) (r : CreateInput) (ids : drawn) (now : Z) : astate * result Artifact.t :=
  let i := dr_id ids in
  if negb (count_given [c_inline_content r; c_file_data r; c_workspace_ref r] =? 1)%nat then (s, Raise ArtifactValidationError)
  else
    let store s ref inline data :=
      let finish a := build_and_register s a (initial_revision (dr_revision_id ids) a (c_source_run_id r) now) now in
      match source_ref_of r i with
      | Some source_ref => finish (new_artifact r i source_ref ref inline (len data) (sha256_checksum data))
      | None =>
          let a := new_artifact r i "" ref inline (len data) (sha256_checksum data) in
          if Artifact.valid a && ArtifactRevision.valid (initial_revision (dr_revision_id ids) a (c_source_run_id r) now)
          then (best_effort_delete_opt s ref, Raise ArtifactConflictError)
          else (s, Raise ArtifactValidationError)
      end in
    match c_inline_content r with
    | Some text => if artifact_inline_max_bytes cfg <? len text then (s, Raise ArtifactTooLargeError) else store s None (Some text) text
    | None =>
        match file_bytes s ArtifactValidationError (c_file_data r) (c_workspace_ref r) with
        | Raise e => (s, Raise e)
        | Return raw =>
            match write_content s i (str_or (c_filename r) (c_name r)) raw (dr_hex ids) with
            | (s, Raise e) => (s, Raise e)
            | (s, Return ref) => store s (Some ref) None raw
            end
        end
    end.

(** * Editing an artifact *)

Record UpdateInput := mkUpdateInput {
  u_name : option string;
  u_summary : option string;
  u_classification : option string;
  u_labels : option (list string);
  u_inline_content : option string;
  u_file_data : option string;
  u_filename : option string
}.

Definition with_metadata (u : UpdateInput) (a : Artifact.t) : Artifact.t :=
  a <| Artifact.name := default (Artifact.name a) (u_name u) |>
    <| Artifact.summary := default (Artifact.summary a) (u_summary u) |>
    <| Artifact.classification := match u_classification u with Some c => Some c | None => Artifact.classification a end |>
    <| Artifact.labels := match u_labels u with Some l => Some l | None => Artifact.labels a end |>.

Definition save_artifact (s : astate) (a : Artifact.t) (now : Z) : astate * result Artifact.t :=
  match Artifact.make a with
  | Raise e => (s, Raise e)
  | Return a => let '(d, r) := ArtifactStore.update_artifact (a_db s) a now in (s <| a_db := d |>, r)
  end.

(** The new content, and the file it was written to. *)
Definition replaced_content (s : astate) (a : Artifact.t) (u : UpdateInput) (hex : string)
    : astate * result (Artifact.t * option string) :=
  let a' ref inline data := a <| Artifact.content_ref := ref |> <| Artifact.inline_content := inline |>
                              <| Artifact.size := len data |> <| Artifact.checksum := sha256_checksum data |> in
  match u_inline_content u, u_file_data u with
  | Some text, _ => (s, if artifact_inline_max_bytes cfg <? len text then Raise ArtifactTooLargeError
                        else Return (a' None (Some text) text, None))
  | None, Some data =>
      if artifact_max_bytes cfg <? len data then (s, Raise ArtifactTooLargeError)
      else match write_content s (Artifact.id a) (str_or (u_filename u) (Artifact.name a)) data hex with
           | (s, Raise e) => (s, Raise e)
           | (s, Return ref) => (s, Return (a' (Some ref) None data, Some ref))
           end
  | None, None => (s, Return (a, None))
  end.

(** The first edit of an artifact backed by a task's file copies that file. *)
Definition materialize_first (s : astate) (a : Artifact.t) (u : UpdateInput) (hex : string) : astate * result (option string) :=
  match Artifact.content_ref a, u_file_data u with
  | Some ref, Some _ =>
      if is_source_ref (Some ref)
      then let '(d, r) := materialize_source cs (a_disk s) (Artifact.source_kind a) ref (Artifact.id a) hex in
           (s <| a_disk := d |>, match r with Return m => Return (Some m) | Raise e => Raise e end)
      else (s, Return None)
  | _, _ => (s, Return None)
  end.

(** When it fails, the new files are removed; when it succeeds, the file the row named
    before is, and the public snapshot is revoked. *)
Definition update_artifact (s : astate) (during : astate -> astate) (i : string) (u : UpdateInput) (ids : drawn) (now : Z)
    : astate * result Artifact.t :=
  match (let? a := get_artifact s i in let? _ := evaluate_policy a ArtifactPolicyAction.EDIT true None in Return a) with
  | Raise e => (s, Raise e)
  | Return a =>
      let s := during s in
      let a' := with_metadata u a in
      if bool_decide (u_inline_content u = None) && bool_decide (u_file_data u = None) then save_artifact s a' now
      else
        match materialize_first s a u (dr_token ids) with
        | (s, Raise e) => (s, Raise e)
        | (s, Return materialized) =>
            match replaced_content s a' u (dr_hex ids) with
            | (s, Raise e) => (best_effort_delete_opt s materialized, Raise e)
            | (s, Return (a', temp)) =>
                match save_artifact s a' now with
                | (s, Raise e) => (best_effort_delete_opt (best_effort_delete_opt s temp) materialized, Raise e)
                | (s, Return saved) =>
                    let s := best_effort_delete_opt s materialized in
                    let s := if is_owned_ref (Artifact.content_ref a) && negb (bool_decide (Artifact.content_ref a = materialized))
                             then best_effort_delete_opt s (Artifact.content_ref a) else s in
                    (match get_active_publish (a_db s) i with
                     | Some _ => s <| a_db := (revoke_published (a_db s) i now).1 |>
                     | None => s
                     end, Return saved)
                end
            end
        end
  end.

(** * Revisions *)

Definition derive_publish_sync_state (s : astate) (i current : string) : string :=
  match get_active_publish (a_db s) i with
  | None => "unpublished"
  | Some p => if bool_decide (PublishedArtifact.published_revision_id p = Some current) then "current" else "outdated"
  end.

(** [_read_revision_text] *)
Definition read_revision_text (s : astate) (r : ArtifactRevision.t) (max_bytes : Z) : result string :=
  match ArtifactRevision.inline_content r with
  | Some text => Return text
  | None =>
      let? data := read_content s None (ArtifactRevision.content_ref r) max_bytes in
      match utf8_decode data with Some _ => Return data | None => Raise ArtifactRevisionValidationError end
  end.

(** The artifact and the revision an edit starts from. *)
Definition current_for_edit (s : astate) (i expected : string) : result (Artifact.t * ArtifactRevision.t) :=
  let? a := get_artifact s i in
  let? current := found ArtifactMigrationIncompleteError (Artifact.current_revision_id a) in
  let? r := found ArtifactRevisionNotFoundError (ArtifactStore.get_revision (a_db s) i current) in
  if negb (bool_decide (expected = ArtifactRevision.id r)) then Raise ArtifactRevisionConflictError
  else let? _ := evaluate_policy a ArtifactPolicyAction.EDIT true None in Return (a, r).

Record RevisionInput := mkRevisionInput {
  r_inline_content : option string;
  r_file_data : option string;
  r_workspace_ref : option string;
  r_text_patch : option json;
  r_change_summary : string;
  r_kind : option ArtifactKind.t;
  r_mime : option string
}.

(** The new content: kind, MIME type, and a text to keep inline or bytes for a file. *)
Definition new_content (s : astate) (current : ArtifactRevision.t) (r : RevisionInput)
    : result (ArtifactKind.t * string * (string + string)) :=
  let kind := default (ArtifactRevision.kind current) (r_kind r) in
  let mime := default (ArtifactRevision.mime current) (r_mime r) in
  if negb (count_given [r_inline_content r; r_file_data r; r_workspace_ref r; (fun _ => "") <$> r_text_patch r] =? 1)%nat
  then Raise ArtifactRevisionValidationError
  else
    match r_text_patch r, r_inline_content r with
    | Some patch, _ =>
        if negb (is_text_kind (ArtifactRevision.kind current)) then Raise ArtifactRevisionValidationError
        else
          let? items := validate_text_patch patch in
          let? parent := read_revision_text s current (diff_max_bytes cfg) in
          let? text := apply_text_patch parent items in
          if artifact_inline_max_bytes cfg <? len text then Raise ArtifactRevisionValidationError
          else if artifact_max_bytes cfg <? len text then Raise ArtifactRevisionValidationError
          else Return (ArtifactRevision.kind current, ArtifactRevision.mime current, inl text)
    | None, Some text =>
        if is_text_kind kind && (artifact_inline_max_bytes cfg <? len text) then Raise ArtifactTooLargeError
        else if negb (is_text_kind kind) then Raise ArtifactRevisionValidationError
        else Return (kind, mime, inl text)
    | None, None =>
        let? raw := file_bytes s ArtifactRevisionValidationError (r_file_data r) (r_workspace_ref r) in
        Return (kind, mime, inr raw)
    end.

(** [inline] is kept in the row, bytes are written to a file of the artifact. *)
Definition store_content (s : astate) (i filename : string) (content : string + string) (hex : string)
    : astate * result (option string * option string) :=
  match content with
  | inl text => (s, Return (None, Some text))
  | inr raw => match write_content s i filename raw hex with
               | (s, Return ref) => (s, Return (Some ref, None))
               | (s, Raise e) => (s, Raise e)
               end
  end.

(** The object is built before the [try] that removes the new file again. *)
Definition commit_revision (s : astate) (i expected : string) (current r : ArtifactRevision.t) (now : Z)
    : astate * result (ArtifactRevision.t * UpdateRevisionResult) :=
  match ArtifactRevision.make r with
  | Raise e => (s, Raise e)
  | Return r =>
      match append_revision (a_db s) i r expected now with
      | (d, Raise e) => (best_effort_delete_opt (s <| a_db := d |>) (ArtifactRevision.content_ref r), Raise e)
      | (d, Return committed) =>
          let s := s <| a_db := d |> in
          (s, Return (committed, mkUpdateRevisionResult
                 (bool_decide (ArtifactRevision.checksum committed = ArtifactRevision.checksum current))
                 (derive_publish_sync_state s i (ArtifactRevision.id committed))))
      end
  end.

Definition ACTOR : string := "dashboard".

(** The revision after [current] with this content. *)
Definition next_revision (i : string) (current : ArtifactRevision.t) (revision_id : string) (back ref inline : option string) (size : Z)
    (checksum mime : string) (kind : ArtifactKind.t) (now : Z) (change_summary : string) : ArtifactRevision.t :=
  ArtifactRevision.mk revision_id i (ArtifactRevision.revision_number current + 1)
    (Some (ArtifactRevision.id current)) back ref inline size checksum mime kind now change_summary ACTOR
    (ArtifactRevision.source_session_id current) (ArtifactRevision.source_run_id current).

Definition content_bytes (c : string + string) : string := match c with inl x | inr x => x end.

Definition update_revision (s : astate) (during : astate -> astate) (i expected : string) (r : RevisionInput) (ids : drawn)
    (now : Z) : astate * result (ArtifactRevision.t * UpdateRevisionResult) :=
  match (let? (a, current) := current_for_edit s i expected in
         let? new := new_content s current r in Return (current, new)) with
  | Raise e => (s, Raise e)
  | Return (current, (kind, mime, content)) =>
      match store_content (during s) i ("rev-" +:+ dr_token ids) content (dr_hex ids) with
      | (s, Raise e) => (s, Raise e)
      | (s, Return (ref, inline)) =>
          let data := content_bytes content in
          commit_revision s i expected current
            (next_revision i current (dr_revision_id ids) None ref inline (len data) (sha256_checksum data) mime kind now
               (r_change_summary r)) now
      end
  end.

Definition list_revisions (s : astate) (i : string) (c : option RevisionListCursor) (limit : Z) : result RevisionListPage :=
  let? a := get_artifact s i in
  if bool_decide (Artifact.current_revision_id a = None) then Return (mkRevisionListPage [] None)
  else ArtifactStore.list_revisions (a_db s) i c (clamp 1 100 limit).

(** The content of the target is copied; its size and checksum are taken as stored. *)
Definition rollback (s : astate) (during : astate -> astate) (i target_id expected change_summary : string) (ids : drawn)
    (now : Z) : astate * result (ArtifactRevision.t * UpdateRevisionResult) :=
  match (let? (a, current) := current_for_edit s i expected in
         let? target := found ArtifactRevisionNotFoundError (ArtifactStore.get_revision (a_db s) i target_id) in
         let? content := (match ArtifactRevision.inline_content target with
                          | Some text => Return (inl text)
                          | None => let? data := read_revision_bytes s target in Return (inr data)
                          end) in
         Return (current, target, content)) with
  | Raise e => (s, Raise e)
  | Return (current, target, content) =>
      match store_content (during s) i ("rb-" +:+ dr_token ids) content (dr_hex ids) with
      | (s, Raise e) => (s, Raise e)
      | (s, Return (ref, inline)) =>
          commit_revision s i expected current
            (next_revision i current (dr_revision_id ids) (Some (ArtifactRevision.id target)) ref inline
               (ArtifactRevision.size target) (ArtifactRevision.checksum target) (ArtifactRevision.mime target)
               (ArtifactRevision.kind target) now change_summary) now
      end
  end.
End service.
