(* ===== verification/ArtifactFlows.v ===== *)
(** The artifact service, continued (app/application/artifact_service.py): publishing and
    its revocation, deletion, the registration of what tasks produce, the backfills at
    start, and the migration to revisions.

    The callbacks into the task service (the session of a task, whether a task exists, the
    deletion of an attachment) are arguments; one that raises answers [Raise]. *)
From S2P Require Import Prelude Text Unicode TaskStore InformationFlow ArtifactDomain ArtifactStore ArtifactContent ArtifactService.
From S2P Require RunService.
From stdpp Require Import gmap.
Open Scope Z_scope.

Section service.
Context (sha256 : string -> string) (cs : ContentStore) (cfg : ArtifactServiceConfig) (flow : InformationFlowService).

(** * Publishing *)

Definition compute_share_url (publish_id : string) : string := published_base_url cfg +:+ "/p/" +:+ publish_id.

Definition resolve_classification (a : Artifact.t) : Classification.t :=
  match Artifact.classification a with
  | None => Classification.PUBLIC
  | Some c => default Classification.INTERNAL (Classification.of_value c)
  end.

(** What the public will read: the text the information flow service releases, or the
    bytes of a binary. *)
Definition snapshot_bytes (s : astate) (a : Artifact.t) (r : ArtifactRevision.t) : result string :=
  if is_text_kind (ArtifactRevision.kind r) then
    let? text := read_revision_text cs s r (artifact_max_bytes cfg) in
    let released := release flow text ReleaseTarget.PUBLIC_ARTIFACT (resolve_classification a) "artifact"
                      (default [] (Artifact.labels a)) in
    if negb (rr_allowed released) then Raise PublishBlockedError
    else found PublishBlockedError (rr_content released)
  else read_content cs s None (ArtifactRevision.content_ref r) (artifact_max_bytes cfg).

(** Everything [publish_revision] reads and checks. *)
Definition prepare_publish (s : astate) (i revision_id expected : string)
    : result (Artifact.t * ArtifactRevision.t * option PublishedArtifact.t * string) :=
  let? a := get_artifact s i in
  let? current := found ArtifactMigrationIncompleteError (Artifact.current_revision_id a) in
  if negb (bool_decide (revision_id = current)) || negb (bool_decide (expected = current)) then Raise ArtifactRevisionConflictError
  else
    let? r := found ArtifactRevisionNotFoundError (ArtifactStore.get_revision (a_db s) i revision_id) in
    let active := get_active_publish (a_db s) i in
    let? _ := evaluate_policy cfg a ArtifactPolicyAction.PUBLISH
                (bool_decide (is_Some (ArtifactRevision.inline_content r)) || truthy_opt_str (ArtifactRevision.content_ref r))
                (PublishedArtifact.snapshot_checksum <$> active) in
    let? data := snapshot_bytes s a r in
    Return (a, r, active, data).

Definition kept_inline (r : ArtifactRevision.t) (data : string) : bool :=
  is_text_kind (ArtifactRevision.kind r) && (len data <=? artifact_inline_max_bytes cfg).

(** A snapshot that is not kept in its row is copied to the disk. *)
Definition snapshot_file (s : astate) (r : ArtifactRevision.t) (data publish_id hex : string) : astate * result (option string) :=
  if kept_inline r data then (s, Return None)
  else
    let '(d, res) := (if is_text_kind (ArtifactRevision.kind r)
                      then copy_to_publish_snapshot cs (a_disk s) "" publish_id (Some data) hex
                      else copy_to_publish_snapshot cs (a_disk s) (default "" (ArtifactRevision.content_ref r)) publish_id None hex) in
    (s <| a_disk := d |>, match res with Return ref => Return (Some ref) | Raise e => Raise e end).

Definition new_snapshot (a : Artifact.t) (r : ArtifactRevision.t) (publish_id : string) (ref : option string) (data : string)
    (now : Z) : PublishedArtifact.t :=
  PublishedArtifact.mk publish_id (Some (Artifact.id a)) (Artifact.name a) (ArtifactRevision.kind r) (ArtifactRevision.mime r) ref
    (if kept_inline r data then Some data else None) (len data) (sha256_checksum sha256 data) (Artifact.summary a) (Some now)
    ACTOR PublishedArtifactStatus.ACTIVE None None.

Definition register_snapshot (s : astate) (i revision_id expected : string) (p : PublishedArtifact.t) (now : Z)
    : astate * result PublishResult :=
  let ref := PublishedArtifact.snapshot_content_ref p in
  match PublishedArtifact.make p with
  | Raise e => (s, Raise e)
  | Return p =>
      match register_revision_publish (a_db s) p i revision_id expected now with
      | (d, Raise e) => (best_effort_delete_opt cs (s <| a_db := d |>) ref, Raise e)
      | (d, Return registered) =>
          let s := s <| a_db := d |> in
          let reused := negb (bool_decide (PublishedArtifact.publish_id registered = PublishedArtifact.publish_id p)) in
          (if reused then best_effort_delete_opt cs s ref else s,
           Return (mkPublishResult registered (compute_share_url (PublishedArtifact.publish_id registered)) reused))
      end
  end.

Definition publish_revision (s : astate) (during : astate -> astate) (i revision_id expected : string) (ids : drawn) (now : Z)
    : astate * result PublishResult :=
  match prepare_publish s i revision_id expected with
  | Raise e => (s, Raise e)
  | Return (a, r, active, data) =>
      let reuse := match active with
                   | Some p => if bool_decide (PublishedArtifact.snapshot_checksum p = sha256_checksum sha256 data) then Some p else None
                   | None => None
                   end in
      match reuse with
      | Some p => (s, Return (mkPublishResult p (compute_share_url (PublishedArtifact.publish_id p)) true))
      | None =>
          match snapshot_file (during s) r data (dr_id ids) (dr_hex ids) with
          | (s, Raise e) => (s, Raise e)
          | (s, Return ref) => register_snapshot s i revision_id expected (new_snapshot a r (dr_id ids) ref data now) now
          end
      end
  end.

Definition publish (s : astate) (during : astate -> astate) (i : string) (ids : drawn) (now : Z) : astate * result PublishResult :=
  match (let? a := get_artifact s i in found ArtifactMigrationIncompleteError (Artifact.current_revision_id a)) with
  | Raise e => (s, Raise e)
  | Return current => publish_revision s during i current current ids now
  end.

Definition get_publish_sync_state (s : astate) (i : string) : result string :=
  let? a := get_artifact s i in
  let? current := found ArtifactMigrationIncompleteError (Artifact.current_revision_id a) in
  Return (derive_publish_sync_state s i current).

Definition revoke_publish (s : astate) (i : string) (now : Z) : astate * result PublishedArtifact.t :=
  let '(d, r) := revoke_published (a_db s) i now in
  (s <| a_db := d |>, found PublishedArtifactNotFoundError r).

Definition get_published (s : astate) (publish_id : string) : result PublishedArtifact.t :=
  found PublishedArtifactNotFoundError (ArtifactStore.get_published (a_db s) publish_id).

Definition get_published_content (s : astate) (publish_id : string) : result (string * PublishedArtifact.t) :=
  let? p := get_published s publish_id in
  let? data := read_content cs s (PublishedArtifact.snapshot_inline_content p) (PublishedArtifact.snapshot_content_ref p)
                 (artifact_publish_max_bytes cfg) in
  Return (data, p).

Definition active_publish_of (s : astate) (i : string) : result (option PublishedArtifact.t) :=
  let? _ := get_artifact s i in Return (get_active_publish (a_db s) i).

(** * Deleting *)

Context (attachment_delete : option (string -> result bool)).

Definition best_effort_delete_snapshot (s : astate) (publish_id : string) : astate :=
  s <| a_disk := (delete_publish_snapshot cs (a_disk s) publish_id).1 |>.

Definition cascade_delete_task_attachment (a : Artifact.t) : result unit :=
  match attachment_delete with
  | None => Return tt
  | Some callback =>
      if bool_decide (Artifact.source_kind a = ArtifactSource.TASK_ATTACHMENT) && truthy_str (Artifact.source_ref a)
      then let? _ := callback (Artifact.source_ref a) in Return tt
      else Return tt
  end.

Definition delete_artifact (s : astate) (i : string) : astate * result bool :=
  match (let? a := get_artifact s i in
         let? _ := evaluate_policy cfg a ArtifactPolicyAction.DELETE true None in
         let? _ := cascade_delete_task_attachment a in Return a) with
  | Raise e => (s, Raise e)
  | Return a =>
      let publishes := list_published (a_db s) (Some i) in
      let s := match publishes with
               | [] => s
               | _ => foldl best_effort_delete_snapshot (s <| a_db := (delete_published_by_artifact (a_db s) i).1 |>)
                        (map PublishedArtifact.publish_id publishes)
               end in
      let s := s <| a_db := (ArtifactStore.delete_artifact (a_db s) i).1 |> in
      (if is_owned_ref (Artifact.content_ref a) then best_effort_delete_opt cs s (Artifact.content_ref a) else s, Return true)
  end.

(** The pages of a listing, from a state that does not change while it is read; one page
    is taken for each unit of fuel. *)
Fixpoint all_pages (fuel : nat) (list_page : option ArtifactListCursor -> ArtifactListPage) (c : option ArtifactListCursor)
    : list Artifact.t :=
  match fuel with
  | O => []
  | S fuel => let page := list_page c in
              ap_items page ++ match ap_next_cursor page with
                               | Some c => all_pages fuel list_page (Some c)
                               | None => []
                               end
  end.

Fixpoint delete_all (s : astate) (ids : list string) : astate * nat :=
  match ids with
  | [] => (s, O)
  | i :: ids => match delete_artifact s i with
                | (s, Return _) => let '(s, n) := delete_all s ids in (s, S n)
                | (s, Raise _) => delete_all s ids
                end
  end.

Definition delete_artifacts_by_source_task (s : astate) (task_id : string) : astate * nat :=
  let f := no_filter <| af_source_context_ref := Some task_id |> in
  delete_all s (map Artifact.id (all_pages (S (length (artifacts (a_db s)))) (fun c => list_artifacts s f c 100) None)).

(** * Registering what tasks produce *)

Context (session_resolver : option (string -> result (option string))) (task_exists : option (string -> result bool)).

(** [_resolve_task_session]: a failure is logged. *)
Definition resolve_task_session (task_id : string) : option string :=
  match session_resolver with
  | None => None
  | Some resolve => match resolve task_id with Return o => o | Raise _ => None end
  end.

(** [build_and_register] where the registry's refusal is logged; the two objects are built
    outside its [try]. *)
Definition register_quietly (s : astate) (a : Artifact.t) (r : ArtifactRevision.t) (now : Z) : astate * result (option Artifact.t) :=
  match (let? a := Artifact.make a in let? r := ArtifactRevision.make r in Return (a, r)) with
  | Raise e => (s, Raise e)
  | Return (a, r) => match register_initial cs s a r now with
                     | (s, Return a) => (s, Return (Some a))
                     | (s, Raise _) => (s, Return None)
                     end
  end.

Definition register_from_attachment (s : astate) (src : ArtifactAttachmentSource.t) (ids : drawn) (now : Z)
    : astate * result (option Artifact.t) :=
  let attachment_id := ArtifactAttachmentSource.attachment_id src in
  let task_id := ArtifactAttachmentSource.task_id src in
  let filename := ArtifactAttachmentSource.filename src in
  match get_by_source (a_db s) ArtifactSource.TASK_ATTACHMENT attachment_id with
  | Some existing => (s, Return (Some existing))
  | None =>
      match read cs (a_disk s) ("attachment:" +:+ task_id +:+ "/" +:+ ArtifactAttachmentSource.stored_name src)
              (artifact_max_bytes cfg) with
      | Raise _ => (s, Return None)
      | Return data =>
          let mime := resolve_mime filename (ArtifactAttachmentSource.content_type src) in
          let kind := kind_from_mime mime in
          match write_content cs s (dr_id ids) filename data (dr_hex ids) with
          | (s, Raise _) => (s, Return None)
          | (s, Return ref) =>
              let a := Artifact.mk (dr_id ids) filename kind (ensure_nonempty_mime mime kind) (Some ref) None (len data)
                         (sha256_checksum sha256 data) ArtifactSource.TASK_ATTACHMENT attachment_id (Some task_id)
                         (resolve_task_session task_id) "" None None ArtifactStatus.DRAFT None None
                         (if truthy_str (ArtifactAttachmentSource.uploaded_by src) then ArtifactAttachmentSource.uploaded_by src
                          else ACTOR) None in
              register_quietly s a (initial_revision (dr_revision_id ids) a None now) now
          end
      end
  end.

(** Bytes of a file in the workspace, or a text to keep inline; [None] where it is skipped. *)
Definition task_artifact_content (s : astate) (t : RunService.TaskArtifact) (kind : ArtifactKind.t) : option (string + string) :=
  if starts_with "workspace:" (RunService.art_storage_ref t) then
    match read cs (a_disk s) (RunService.art_storage_ref t) (artifact_max_bytes cfg) with Return data => Some (inr data) | Raise _ => None end
  else
    let text := if truthy_opt_str (RunService.art_content t) then default "" (RunService.art_content t) else RunService.art_summary t in
    if negb (truthy_str text) || negb (is_text_kind kind) then None
    else if artifact_inline_max_bytes cfg <? len text then None else Some (inl text).

Definition register_from_task_artifact (s : astate) (t : RunService.TaskArtifact) (task_id run_id ordinal : string) (ids : drawn) (now : Z)
    : astate * result (option Artifact.t) :=
  let source_ref := Artifact.task_artifact_source_ref task_id run_id ordinal in
  match get_by_source (a_db s) ArtifactSource.TASK_ARTIFACT source_ref with
  | Some existing => (s, Return (Some existing))
  | None =>
      let mime := resolve_mime (RunService.art_name t) (RunService.art_mime t) in
      let kind := kind_from_mime mime in
      match task_artifact_content s t kind with
      | None => (s, Return None)
      | Some content =>
          match store_content cs s (dr_id ids) (RunService.art_name t) content (dr_hex ids) with
          | (s, Raise _) => (s, Return None)
          | (s, Return (ref, inline)) =>
              let data := content_bytes content in
              let a := Artifact.mk (dr_id ids) (RunService.art_name t) kind (ensure_nonempty_mime mime kind) ref inline (len data)
                         (sha256_checksum sha256 data) ArtifactSource.TASK_ARTIFACT source_ref (Some task_id)
                         (resolve_task_session task_id) (RunService.art_summary t) None None ArtifactStatus.DRAFT None None ACTOR None in
              register_quietly s a (initial_revision (dr_revision_id ids) a None now) now
          end
      end
  end.

(** * Backfills

    [ids] are drawn one per item.  A loop that pages through a table takes one unit of fuel
    for each page; [None] is the loop still running when the fuel is spent. *)

Record counts := mkCounts { n_processed : nat; n_done : nat; n_skipped : nat; n_failed : nat }.
Definition no_counts : counts := mkCounts 0 0 0 0.
Inductive outcome : Type := Done | Skipped | Failed.
Definition count (o : outcome) (c : counts) : counts :=
  mkCounts (S (n_processed c)) (if o is Done then S (n_done c) else n_done c)
    (if o is Skipped then S (n_skipped c) else n_skipped c) (if o is Failed then S (n_failed c) else n_failed c).

(** One item after another. *)
Fixpoint each {A} (step : astate -> A -> astate * outcome) (s : astate) (l : list A) (c : counts) : astate * counts :=
  match l with
  | [] => (s, c)
  | x :: l => let '(s, o) := step s x in each step s l (count o c)
  end.

Definition backfill_attachment (now : Z) (draw : string -> drawn) (s : astate) (src : ArtifactAttachmentSource.t) : astate * outcome :=
  match get_by_source (a_db s) ArtifactSource.TASK_ATTACHMENT (ArtifactAttachmentSource.attachment_id src) with
  | Some _ => (s, Skipped)
  | None => match register_from_attachment s src (draw (ArtifactAttachmentSource.attachment_id src)) now with
            | (s, Return (Some _)) => (s, Done)
            | (s, _) => (s, Failed)
            end
  end.

Fixpoint backfill_attachments (fuel : nat) (tasks : db) (s : astate) (batch_size now : Z) (draw : string -> drawn)
    (after : option string) (c : counts) : option (astate * counts) :=
  match fuel with
  | O => None
  | S fuel =>
      match list_attachment_sources tasks after batch_size with
      | [] => Some (s, c)
      | batch =>
          let '(s, c) := each (backfill_attachment now draw) s batch c in
          if Z.of_nat (length batch) <? batch_size then Some (s, c)
          else backfill_attachments fuel tasks s batch_size now draw
                 (ArtifactAttachmentSource.attachment_id <$> last batch) c
      end
  end.

Definition save_quietly (s : astate) (a : Artifact.t) (now : Z) : astate * outcome :=
  match save_artifact s a now with (s, Return _) => (s, Done) | (s, Raise _) => (s, Failed) end.

Definition backfill_session_id (now : Z) (s : astate) (a : Artifact.t) : astate * outcome :=
  let task_id := default "" (Artifact.source_context_ref a) in
  if negb (truthy_str task_id) then (s, Skipped)
  else match resolve_task_session task_id with
       | Some session_id => if truthy_str session_id then save_quietly s (a <| Artifact.source_session_id := Some session_id |>) now
                            else (s, Skipped)
       | None => (s, Skipped)
       end.

(** The two loops that start over from the first row each time. *)
Fixpoint backfill_from_start (fuel : nat) (rows : adb -> list Artifact.t) (step : astate -> Artifact.t -> astate * outcome)
    (s : astate) (batch_size : Z) (c : counts) : option (astate * counts) :=
  match fuel with
  | O => None
  | S fuel =>
      match rows (a_db s) with
      | [] => Some (s, c)
      | batch =>
          let '(s, c) := each step s batch c in
          if Z.of_nat (length batch) <? batch_size then Some (s, c) else backfill_from_start fuel rows step s batch_size c
      end
  end.

Definition backfill_session_ids (fuel : nat) (s : astate) (batch_size now : Z) : option (astate * counts) :=
  match session_resolver with
  | None => Some (s, no_counts)
  | Some _ => backfill_from_start fuel (fun d => list_task_artifacts_missing_session d batch_size) (backfill_session_id now)
                s batch_size no_counts
  end.

Definition backfill_kind (now : Z) (s : astate) (a : Artifact.t) : astate * outcome :=
  let mime := resolve_mime (Artifact.name a) (Artifact.mime a) in
  if negb (truthy_str mime) then (s, Skipped)
  else save_quietly s (a <| Artifact.mime := mime |> <| Artifact.kind := kind_from_mime mime |>) now.

Definition backfill_kinds (fuel : nat) (s : astate) (batch_size now : Z) : option (astate * counts) :=
  backfill_from_start fuel (fun d => list_artifacts_with_empty_mime d batch_size) (backfill_kind now) s batch_size no_counts.

(** [backfill_orphaned_task_artifacts]: when it cannot be told whether the task lives, the
    artifact stays. *)
Definition reclaim_orphan (exists_ : string -> result bool) (s : astate) (a : Artifact.t) : astate * outcome :=
  let task_id := default "" (Artifact.source_context_ref a) in
  if negb (truthy_str task_id) then (s, Skipped)
  else match exists_ task_id with
       | Raise _ => (s, Failed)
       | Return true => (s, Skipped)
       | Return false => match delete_artifact s (Artifact.id a) with
                         | (s, Return _) => (s, Done)
                         | (s, Raise _) => (s, Failed)
                         end
       end.

(** The pages of a listing of the registry, each read from the state the items before it
    have left. *)
Fixpoint each_page (fuel : nat) (list_page : adb -> option ArtifactListCursor -> ArtifactListPage)
    (step : astate -> Artifact.t -> astate * outcome) (s : astate) (cur : option ArtifactListCursor) (c : counts)
    : option (astate * counts) :=
  match fuel with
  | O => None
  | S fuel =>
      let page := list_page (a_db s) cur in
      let '(s, c) := each step s (ap_items page) c in
      match ap_next_cursor page with
      | None => Some (s, c)
      | Some cur => each_page fuel list_page step s (Some cur) c
      end
  end.

Definition of_source (k : ArtifactSource.t) : artifact_filter := no_filter <| af_source_kind := Some k |>.

Definition backfill_orphaned_task_artifacts (fuel : nat) (s : astate) (batch_size : Z) : option (astate * counts) :=
  match task_exists with
  | None => Some (s, no_counts)
  | Some exists_ =>
      let pages k s c := each_page fuel (fun d cur => ArtifactStore.list_artifacts d (of_source k) cur batch_size)
                           (reclaim_orphan exists_) s None c in
      '(s, c) ← pages ArtifactSource.TASK_ATTACHMENT s no_counts; pages ArtifactSource.TASK_ARTIFACT s c
  end.

(** * Migration to revisions *)

(** [_migrate_one_artifact]; the kinds of failure are not told apart. *)
Definition migrate_one (now : Z) (draw : string -> drawn) (s : astate) (a : Artifact.t) : astate * outcome :=
  let ids := draw (Artifact.id a) in
  match read_legacy_bytes cs cfg s a with
  | Raise _ => (s, Failed)
  | Return data =>
      if artifact_max_bytes cfg <? len data then (s, Failed)
      else if negb (bool_decide (sha256_checksum sha256 data = Artifact.checksum a)) then (s, Failed)
      else
        let content := match Artifact.inline_content a with Some text => inl text | None => inr data end in
        match store_content cs s (Artifact.id a) ("rev-" +:+ dr_token ids) content (dr_hex ids) with
        | (s, Raise _) => (s, Failed)
        | (s, Return (ref, inline)) =>
            let r := ArtifactRevision.mk (dr_revision_id ids) (Artifact.id a) 1 None None ref inline (len data)
                       (sha256_checksum sha256 data) (ensure_nonempty_mime (Artifact.mime a) (Artifact.kind a)) (Artifact.kind a)
                       now "migration backfill" "system" (Artifact.source_session_id a) None in
            if negb (ArtifactRevision.valid r) then (best_effort_delete_opt cs s ref, Failed)
            else
              match commit_initial_revision_backfill (a_db s) (Artifact.id a) r now with
              | (d, Raise _) => (best_effort_delete_opt cs (s <| a_db := d |>) ref, Failed)
              | (d, Return committed) =>
                  let s := s <| a_db := d |> in
                  if bool_decide (ArtifactRevision.id committed = ArtifactRevision.id r) then (s, Done)
                  else (best_effort_delete_opt cs s ref, Skipped)
              end
        end
  end.

Definition migrate_revisions (fuel : nat) (s : astate) (batch_size now : Z) (draw : string -> drawn) : option (astate * counts) :=
  each_page fuel (fun d cur => list_revision_migration_candidates d cur batch_size) (migrate_one now draw) s None no_counts.

(** [migration_status]: the state and the number of failures of the last run. *)
Definition migration_status (c : counts) : string * nat := (if (n_failed c =? 0)%nat then "ok" else "degraded", n_failed c).
End service.
