(* ===== verification/ArtifactProps.v ===== *)
(** The state of the artifact service in which every stored content can be read, but for
    the revisions whose file was removed: the predicate [intact], how it survives changes
    of the disk and of the tables, and the storing and committing of a revision.
    ArtifactCalls.v shows each call keeps it, ArtifactIntact.v puts the calls together. *)
From S2P Require Import Prelude Text Unicode TaskStore InformationFlow FlowProps ArtifactDomain ArtifactStore ArtifactHistory ArtifactContent ArtifactFiles ArtifactService ArtifactFlows.
From stdpp Require Import gmap.
Open Scope Z_scope.

Section props.
Context (sha256 : string -> string) (cs : ContentStore) (cfg : ArtifactServiceConfig) (flow : InformationFlowService).
Context (attachment_delete : option (string -> result bool)) (session_resolver : option (string -> result (option string))).

(** * Contents on disk *)

(** A text kept in the row, or a file of the owner under the root of the scheme. *)
Definition content_at (d : disk) (sch : scheme) (owner : string) (inline ref : option string) (data : string) : Prop :=
  (inline = Some data /\ ref = None)
  \/ (inline = None /\ exists r name, ref = Some r /\ parse_ref r = Return (sch, [owner; name]) /\ leads_to cs d sch [owner; name] data).

(** ... of this size and with this checksum. *)
Definition content_kept (d : disk) (sch : scheme) (owner : string) (inline ref : option string) (size : Z) (checksum : string) : Prop :=
  exists data, content_at d sch owner inline ref data /\ size = len data /\ checksum = sha256_checksum sha256 data.

Definition revision_kept (d : disk) (r : ArtifactRevision.t) : Prop :=
  content_kept d Item (ArtifactRevision.artifact_id r) (ArtifactRevision.inline_content r) (ArtifactRevision.content_ref r)
    (ArtifactRevision.size r) (ArtifactRevision.checksum r).
Definition snapshot_kept (d : disk) (p : PublishedArtifact.t) : Prop :=
  content_kept d Published (PublishedArtifact.publish_id p) (PublishedArtifact.snapshot_inline_content p)
    (PublishedArtifact.snapshot_content_ref p) (PublishedArtifact.snapshot_size p) (PublishedArtifact.snapshot_checksum p).
(** The file a row names as its own is one of the artifact. *)
Definition own_file (a : Artifact.t) : Prop :=
  forall ref parts, Artifact.content_ref a = Some ref -> parse_ref ref = Return (Item, parts) ->
    exists name, parts = [Artifact.id a; name].

(** [lost] are the revisions whose file an edit of their artifact has removed. *)
Context (lost : list string).
Definition at_risk (r : ArtifactRevision.t) : Prop :=
  ArtifactRevision.inline_content r = None /\ ArtifactRevision.id r ∈ lost.

Record intact (s : astate) : Prop := {
  in_db : adb_ok (a_db s);
  in_revisions : forall r, r ∈ revisions (a_db s) -> ~ at_risk r -> revision_kept (a_disk s) r;
  in_snapshots : forall p, p ∈ published (a_db s) -> snapshot_kept (a_disk s) p;
  in_artifacts : forall a, a ∈ artifacts (a_db s) -> own_file a
}.

Lemma leads_to_weaken d d' sch parts data : d ⊆ d' -> leads_to cs d sch parts data -> leads_to cs d' sch parts data.
Proof. intros Hd [Hf Hk]. split; [by eapply lookup_weaken|]. intros k Hlt. by eapply lookup_weaken; [apply Hk|]. Qed.

Lemma content_at_weaken d d' sch owner inline ref data :
  d ⊆ d' -> content_at d sch owner inline ref data -> content_at d' sch owner inline ref data.
Proof.
  intros Hd [H|(Hi & r & name & Hr & Hp & Hl)]; [by left|]. right. split; [done|]. exists r, name. split; [done|]. split; [done|].
  by apply (leads_to_weaken d).
Qed.
Lemma kept_weaken d d' sch owner inline ref size checksum :
  d ⊆ d' -> content_kept d sch owner inline ref size checksum -> content_kept d' sch owner inline ref size checksum.
Proof. intros Hd (data & H & ?). exists data. split; [by apply (content_at_weaken d)|done]. Qed.

(** Removing a file of somebody else. *)
Lemma kept_delete d q b sch owner inline ref size checksum :
  d !! q = Some (File b) -> (forall name, q <> root_for_scheme cs sch ++ [owner; name]) ->
  content_kept d sch owner inline ref size checksum -> content_kept (base.delete q d) sch owner inline ref size checksum.
Proof.
  intros Hq Hne (data & [H|(Hi & r & name & Hr & Hp & Hf & Hk)] & Hsc); exists data; (split; [|done]); [by left|right].
  split; [done|]. exists r, name. split; [done|]. split; [done|]. split; [by rewrite lookup_delete_ne|].
  intros k Hlt. rewrite lookup_delete_ne; [by apply Hk|]. intros ->. specialize (Hk k Hlt). congruence.
Qed.

(** What a content is read as. *)
Lemma read_content_at s sch owner inline ref data n :
  content_at (a_disk s) sch owner inline ref data -> len data <= n -> read_content cs s inline ref n = Return data.
Proof.
  intros [[-> ->]|(-> & r & name & -> & Hp & Hl)] Hn; [done|]. cbn. apply read_returns. exists sch, [owner; name].
  repeat split; try done; try apply Hl. unfold len in *. lia.
Qed.
Lemma content_at_read s sch owner inline ref data data' n :
  content_at (a_disk s) sch owner inline ref data -> read_content cs s inline ref n = Return data' -> data' = data.
Proof.
  intros [[-> ->]|(-> & r & name & -> & Hp & [Hf _])]; [by intros [= ->]|]. cbn. intros (sch' & parts & Hp' & [Hf' _] & _)%read_returns.
  rewrite Hp in Hp'. injection Hp' as <- <-. congruence.
Qed.

(** * What a call writes to the disk *)

(** A name for a file that no directory has yet. *)
Definition fresh_hex (d : disk) (hex : string) : Prop :=
  hex_name hex /\ forall dir filename, d !! (dir ++ [generate_server_filename hex filename]) = None.

(** ... that one directory does not have yet. *)
Definition fresh_in (d : disk) (dir : path) (hex : string) : Prop :=
  hex_name hex /\ forall filename, d !! (dir ++ [generate_server_filename hex filename]) = None.
Lemma fresh_hex_in d dir hex : fresh_hex d hex -> fresh_in d dir hex.
Proof. by intros [Hh Hf]. Qed.

(** A reference to a file [d] does not have. *)
Definition new_ref (d : disk) (ref : option string) : Prop :=
  forall r sch parts, ref = Some r -> parse_ref r = Return (sch, parts) -> d !! (root_for_scheme cs sch ++ parts) = None.

Lemma new_ref_none d : new_ref d None.
Proof. done. Qed.

Lemma dirs_included d parent name d' r : ensure_dirs d parent (parent ++ [name]) = (d', r) -> d ⊆ d'.
Proof.
  intros He. destruct r as [[]|e].
  - apply ensure_dirs_spec in He as [_ _ _ Hn]. by apply map_subseteq_spec.
  - apply map_subseteq_spec. intros q x Hx. unfold ensure_dirs in He.
    destruct (ensure_safe_dir d parent) as [d1 [[]|e1]] eqn:H1; [|injection He as <- _; by apply ensure_safe_dir_fails in H1 as ->].
    apply ensure_safe_dir_fails in He as ->. apply ensure_safe_dir_spec in H1 as (Hp & Ho & Hn).
    destruct (decide (q = parent)) as [->|Hq]; [|by rewrite Ho]. rewrite Hp. destruct Hn; congruence.
Qed.

Lemma file_included d d1 dir name data max d' r :
  d ⊆ d1 -> d !! (dir ++ [name]) = None -> write_file_bounded d1 dir name data max = (d', r) -> d ⊆ d'.
Proof.
  intros Hd Hn Hw%write_file_spec. destruct r; [|by subst]. destruct Hw as (_ & -> & _). by apply insert_subseteq_r.
Qed.

Lemma write_included d i filename data hex d' r :
  fresh_in d (items_root cs ++ [i]) hex -> write_atomic cs d i filename data hex = (d', r) -> d ⊆ d'.
Proof.
  intros [_ Hf] Hw. unfold write_atomic in Hw. destruct (negb _); [by injection Hw as <- _|].
  destruct (ensure_dirs _ _ _) as [d1 [[]|e]] eqn:He; apply dirs_included in He; [|by injection Hw as <- _].
  destruct (write_file_bounded _ _ _ _ _) as [d2 r2] eqn:Hb. apply (file_included d) in Hb; [|done..].
  by destruct r2; injection Hw as <- _.
Qed.

Lemma store_content_in s i filename content hex s' r :
  fresh_in (a_disk s) (items_root cs ++ [i]) hex -> store_content cs s i filename content hex = (s', r) ->
  a_db s' = a_db s /\ a_disk s ⊆ a_disk s'
  /\ match r with
     | Return (ref, inline) => content_at (a_disk s') Item i inline ref (content_bytes content) /\ new_ref (a_disk s) ref
     | Raise _ => True
     end.
Proof.
  intros Hf. unfold store_content, write_content. destruct content as [text|raw]; [intros [= <- <-]|].
  { split; [done|]. split; [done|]. split; [by left|done]. }
  destruct (write_atomic _ _ _ _ _ _) as [d [ref|e]] eqn:Hw; intros [= <- <-]; apply write_included in Hw as Hsub; try done.
  cbn. split; [done|]. split; [done|]. apply write_atomic_returns in Hw as (Hp & Hl & _); [|apply Hf]. split.
  - right. split; [done|]. by exists ref, (generate_server_filename hex filename).
  - intros r' sch parts [= <-]. rewrite Hp. intros [= <- <-].
    change [i; ?x] with ([i] ++ [x]). rewrite app_assoc. apply Hf.
Qed.

Lemma store_content_spec s i filename content hex s' r :
  fresh_hex (a_disk s) hex -> store_content cs s i filename content hex = (s', r) ->
  a_db s' = a_db s /\ a_disk s ⊆ a_disk s'
  /\ match r with
     | Return (ref, inline) => content_at (a_disk s') Item i inline ref (content_bytes content) /\ new_ref (a_disk s) ref
     | Raise _ => True
     end.
Proof. intros Hf. by apply store_content_in, fresh_hex_in. Qed.

Lemma best_effort_spec s ref d0 :
  d0 ⊆ a_disk s -> new_ref d0 ref ->
  a_db (best_effort_delete_opt cs s ref) = a_db s /\ d0 ⊆ a_disk (best_effort_delete_opt cs s ref).
Proof.
  intros Hd Hn. destruct ref as [r|]; [|done]. cbn. split; [done|]. destruct (delete_owned cs (a_disk s) r) as [d' res] eqn:Hdel.
  apply delete_owned_spec in Hdel as [->|(sch & parts & b & Hp & _ & _ & -> & _)]; [done|]. cbn.
  apply map_subseteq_spec. intros q x Hx. rewrite lookup_delete_ne; [by eapply lookup_weaken|]. intros <-.
  by rewrite (Hn r sch parts) in Hx.
Qed.

Lemma intact_weaken s s' : intact s -> a_db s' = a_db s -> a_disk s ⊆ a_disk s' -> intact s'.
Proof.
  intros [] Hdb Hd. split; rewrite ?Hdb; [done| | |done].
  - intros r Hr Hrisk. by apply (kept_weaken (a_disk s)), in_revisions0.
  - intros p Hp. by apply (kept_weaken (a_disk s)), in_snapshots0.
Qed.

(** A change of the tables that adds no row but [r] and renames no file. *)
Lemma intact_tables s s' (new : list ArtifactRevision.t) :
  intact s -> a_disk s ⊆ a_disk s' -> adb_ok (a_db s') ->
  (forall r, r ∈ revisions (a_db s') -> r ∈ revisions (a_db s) \/ r ∈ new) ->
  (forall r, r ∈ new -> ~ at_risk r -> revision_kept (a_disk s') r) ->
  (forall p, p ∈ published (a_db s') -> snapshot_kept (a_disk s') p) ->
  (forall a, a ∈ artifacts (a_db s') -> own_file a) -> intact s'.
Proof.
  intros Hs Hd Hok Hr Hnew Hp Ha. split; [done| |done|done]. intros r [Hin|Hin]%Hr Hrisk; [|by apply Hnew].
  by apply (kept_weaken (a_disk s)), Hs.
Qed.

Lemma snapshots_weaken s d' : intact s -> a_disk s ⊆ d' -> forall p, p ∈ published (a_db s) -> snapshot_kept d' p.
Proof. intros Hs Hd p Hp. by apply (kept_weaken (a_disk s)), Hs. Qed.

Lemma point_to_artifacts i r now d : (forall a, a ∈ artifacts d -> own_file a) ->
  forall a, a ∈ artifacts (point_to i r now d) -> own_file a.
Proof. intros H a' (a & -> & Ha)%list_elem_of_fmap. specialize (H a Ha). by destruct (is_artifact i a). Qed.

(** The end of an edit: the new revision is stored, or its file is removed again. *)
Lemma commit_spec s0 s i expected current r now s' res :
  intact s0 -> a_db s = a_db s0 -> a_disk s0 ⊆ a_disk s -> new_ref (a_disk s0) (ArtifactRevision.content_ref r) ->
  (~ at_risk r -> revision_kept (a_disk s) r) ->
  commit_revision cs s i expected current r now = (s', res) ->
  intact s' /\ a_disk s0 ⊆ a_disk s'
  /\ match res with
     | Raise _ => a_db s' = a_db s0
     | Return (committed, out) => committed = r /\ append_revision (a_db s0) i r expected now = (a_db s', Return r)
                                  /\ a_disk s' = a_disk s
                                  /\ content_unchanged out = bool_decide (ArtifactRevision.checksum r = ArtifactRevision.checksum current)
     end.
Proof.
  intros Hs0 Hdb Hsub Hnew Hkept. unfold commit_revision, ArtifactRevision.make. rewrite Hdb.
  destruct (ArtifactRevision.valid r); [|intros [= <- <-]; split; [by apply (intact_weaken s0)|done]].
  destruct (append_revision (a_db s0) i r expected now) as [d [r'|e]] eqn:Ha; intros [= <- <-].
  - pose proof (ok_append_revision (a_db s0) i r expected now (in_db s0 Hs0)) as Hok. rewrite Ha in Hok.
    apply append_returns in Ha as Ha'. destruct Ha' as (-> & _ & _ & _ & ->). cbn [fst a_disk a_db] in *. split; [|done].
    apply (intact_tables s0 _ [r]); [done..| | | |].
    + cbn. by intros x [Hx|Hx]%elem_of_app; [left|right].
    + by intros x ->%list_elem_of_singleton.
    + by apply (snapshots_weaken s0 (a_disk s)).
    + apply point_to_artifacts, Hs0.
  - apply append_raises in Ha as ->. set (s1 := s <| a_db := a_db s0 |>).
    destruct (best_effort_spec s1 (ArtifactRevision.content_ref r) (a_disk s0) Hsub Hnew) as [H1 H2].
    split; [|done]. by apply (intact_weaken s0).
Qed.
End props.
