(* ===== verification/ArtifactCalls.v ===== *)
(** The calls of the artifact service as steps of a history, and what they keep. *)
From S2P Require Import Prelude Text Unicode TaskStore InformationFlow FlowProps ArtifactDomain ArtifactStore ArtifactHistory ArtifactContent ArtifactFiles ArtifactService ArtifactFlows ArtifactProps.
From stdpp Require Import gmap.
Open Scope Z_scope.

Section calls.
Context (sha256 : string -> string) (cs : ContentStore) (cfg : ArtifactServiceConfig) (flow : InformationFlowService).
Context (attachment_delete : option (string -> result bool)) (session_resolver : option (string -> result (option string))).
Context (lost : list string).
Notation revision_kept := (revision_kept sha256 cs).
Notation snapshot_kept := (snapshot_kept sha256 cs).
Notation content_at := (content_at cs).
Notation intact := (intact sha256 cs lost).
Notation at_risk := (at_risk lost).
Notation new_ref := (new_ref cs).

(** * A new artifact *)

Lemma create_initial_spec d a r now d' res :
  create_artifact_with_initial_revision d a r now = (d', res) ->
  match res with
  | Return _ => artifacts d' = artifacts d ++ [(resolved_times a now) <| Artifact.current_revision_id := Some (ArtifactRevision.id r) |>]
                /\ revisions d' = revisions d ++ [r] /\ published d' = published d
  | Raise _ => d' = d
  end.
Proof.
  unfold create_artifact_with_initial_revision. destruct (negb _); [by intros [= <- <-]|]. destruct (_ || _); [by intros [= <- <-]|].
  destruct (insert_artifact _ _) as [d1|] eqn:Hi; cbn [mbind option_bind]; [|by intros [= <- <-]].
  destruct (insert_revision d1 r) as [d2|] eqn:Hr; intros [= <- <-]; [|done].
  apply insert_artifact_spec in Hi as (-> & _). by apply insert_revision_spec in Hr as (-> & _).
Qed.

Lemma register_intact s0 s a r now :
  intact s0 -> a_db s = a_db s0 -> a_disk s0 ⊆ a_disk s -> new_ref (a_disk s0) (ArtifactRevision.content_ref r) ->
  own_file a -> revision_kept (a_disk s) r -> intact (register_initial cs s a r now).1.
Proof.
  intros Hs0 Hdb Hsub Hnew Hown Hkept. unfold register_initial. rewrite Hdb.
  pose proof (ok_create_initial (a_db s0) a r now (in_db _ _ _ _ Hs0)) as Hok.
  destruct (create_artifact_with_initial_revision _ _ _ _) as [d [[a' r']|e]] eqn:Hc; apply create_initial_spec in Hc; cbn [fst] in *.
  - destruct Hc as (Ha & Hr & Hp). apply (intact_tables sha256 cs lost s0 _ [r]); [done..| | | |]; cbn.
    + rewrite Hr. by intros x [Hx|Hx]%elem_of_app; [left|right].
    + by intros x ->%list_elem_of_singleton.
    + rewrite Hp. by apply (snapshots_weaken sha256 cs lost s0).
    + rewrite Ha. intros x [Hx| ->%list_elem_of_singleton]%elem_of_app; [by apply Hs0|done].
  - subst d. set (s1 := s <| a_db := a_db s0 |>).
    destruct (best_effort_spec cs s1 (ArtifactRevision.content_ref r) (a_disk s0) Hsub Hnew) as [H1 H2].
    by apply (intact_weaken sha256 cs lost s0).
Qed.

Lemma build_intact s0 s a r now :
  intact s0 -> a_db s = a_db s0 -> a_disk s0 ⊆ a_disk s -> new_ref (a_disk s0) (ArtifactRevision.content_ref r) ->
  own_file a -> revision_kept (a_disk s) r ->
  intact (build_and_register cs s a r now).1 /\ intact (register_quietly cs s a r now).1.
Proof.
  intros Hs0 Hdb Hsub Hnew Hown Hkept. assert (Hs : intact s) by by apply (intact_weaken sha256 cs lost s0).
  pose proof (register_intact s0 s a r now Hs0 Hdb Hsub Hnew Hown Hkept) as Hreg.
  unfold build_and_register, register_quietly, Artifact.make, ArtifactRevision.make.
  destruct (Artifact.valid a); [|done]. cbn [bind_result]. destruct (ArtifactRevision.valid r); [|done]. cbn [bind_result].
  split; [done|]. by destruct (register_initial _ _ _ _ _) as [s' [x|e]].
Qed.

Lemma content_at_own d a inline ref data : content_at d Item (Artifact.id a) inline ref data -> Artifact.content_ref a = ref -> own_file a.
Proof.
  intros [[_ ->]|(_ & r & name & -> & Hp & _)] Ha ref' parts; rewrite Ha; [done|]. intros [= <-]. rewrite Hp. intros [= <-]. by exists name.
Qed.

Lemma initial_kept d a run rid now data :
  content_at d Item (Artifact.id a) (Artifact.inline_content a) (Artifact.content_ref a) data ->
  Artifact.size a = len data -> Artifact.checksum a = sha256_checksum sha256 data ->
  own_file a /\ revision_kept d (initial_revision rid a run now).
Proof. intros H Hs Hc. split; [by apply (content_at_own d a _ _ data H)|]. by exists data. Qed.
(** Content is stored, the two objects are built on it and registered. *)
Lemma stored_intact s i filename content hex s1 ref inline a rid run now :
  intact s -> fresh_hex (a_disk s) hex -> store_content cs s i filename content hex = (s1, Return (ref, inline)) ->
  Artifact.id a = i -> Artifact.content_ref a = ref -> Artifact.inline_content a = inline ->
  Artifact.size a = len (content_bytes content) -> Artifact.checksum a = sha256_checksum sha256 (content_bytes content) ->
  intact (build_and_register cs s1 a (initial_revision rid a run now) now).1
  /\ intact (register_quietly cs s1 a (initial_revision rid a run now) now).1.
Proof.
  intros Hs Hhex Hst <- <- <- Hsz Hck. apply store_content_spec in Hst as (Hdb & Hsub & Hat & Hnew); [|done].
  destruct (initial_kept _ a run rid now _ Hat Hsz Hck) as [Hown Hkept]. by apply (build_intact s).
Qed.

Lemma store_fails_intact s i filename content hex s1 e :
  intact s -> fresh_hex (a_disk s) hex -> store_content cs s i filename content hex = (s1, Raise e) -> intact s1.
Proof. intros Hs Hhex Hst. apply store_content_spec in Hst as (Hdb & Hsub & _); [|done]. by apply (intact_weaken sha256 cs lost s). Qed.

Lemma write_as_store s i filename raw hex s1 r :
  write_content cs s i filename raw hex = (s1, r) ->
  store_content cs s i filename (inr raw) hex = (s1, match r with Return ref => Return (Some ref, None) | Raise e => Raise e end).
Proof. intros H. cbn [store_content]. rewrite H. by destruct r. Qed.

Lemma create_intact s r ids now :
  intact s -> fresh_hex (a_disk s) (dr_hex ids) -> intact (create_artifact sha256 cs cfg s r ids now).1.
Proof.
  intros Hs Hhex. unfold create_artifact. destruct (negb _); [done|].
  assert (Hrest : forall s1 content filename ref inline,
            store_content cs s (dr_id ids) filename content (dr_hex ids) = (s1, Return (ref, inline)) ->
            let data := content_bytes content in
            intact (match source_ref_of r (dr_id ids) with
                    | Some x => let a := new_artifact r (dr_id ids) x ref inline (len data) (sha256_checksum sha256 data) in
                                build_and_register cs s1 a (initial_revision (dr_revision_id ids) a (c_source_run_id r) now) now
                    | None => let a := new_artifact r (dr_id ids) "" ref inline (len data) (sha256_checksum sha256 data) in
                              if Artifact.valid a && ArtifactRevision.valid (initial_revision (dr_revision_id ids) a (c_source_run_id r) now)
                              then (best_effort_delete_opt cs s1 ref, Raise ArtifactConflictError)
                              else (s1, Raise ArtifactValidationError)
                    end).1).
  { intros s1 content filename ref inline Hst. cbn zeta. destruct (source_ref_of _ _) as [x|].
    - by eapply stored_intact.
    - apply store_content_spec in Hst as (Hdb & Hsub & Hat & Hnew); [|done].
      case_match; [|by apply (intact_weaken sha256 cs lost s)].
      destruct (best_effort_spec cs s1 ref (a_disk s) Hsub Hnew) as [H1 H2]. apply (intact_weaken sha256 cs lost s); [done| |done].
      cbn [fst]. congruence. }
  destruct (c_inline_content r) as [text|].
  - destruct (_ <? _); [done|]. by apply (Hrest s (inl text) "" None (Some text)).
  - destruct (file_bytes _ _ _ _ _) as [raw|e]; [|done].
    destruct (write_content _ _ _ _ _) as [s1 [ref|e]] eqn:Hw; apply write_as_store in Hw.
    + by apply (Hrest s1 (inr raw) _ (Some ref) None Hw).
    + by apply store_fails_intact in Hw.
Qed.

Lemma attachment_intact s src ids now :
  intact s -> fresh_hex (a_disk s) (dr_hex ids) -> intact (register_from_attachment sha256 cs cfg session_resolver s src ids now).1.
Proof.
  intros Hs Hhex. unfold register_from_attachment. destruct (get_by_source _ _ _); [done|]. destruct (read _ _ _ _) as [data|]; [|done].
  destruct (write_content _ _ _ _ _) as [s1 [ref|e]] eqn:Hw; apply write_as_store in Hw; [|by apply store_fails_intact in Hw].
  by eapply stored_intact.
Qed.

Lemma task_artifact_intact s t task_id run_id ordinal ids now :
  intact s -> fresh_hex (a_disk s) (dr_hex ids) ->
  intact (register_from_task_artifact sha256 cs cfg session_resolver s t task_id run_id ordinal ids now).1.
Proof.
  intros Hs Hhex. unfold register_from_task_artifact. destruct (get_by_source _ _ _); [done|].
  destruct (task_artifact_content _ _ _ _ _) as [content|]; [|done].
  destruct (store_content _ _ _ _ _ _) as [s1 [[ref inline]|e]] eqn:Hw; [|by apply store_fails_intact in Hw].
  by eapply stored_intact.
Qed.

(** * Edits *)

Lemma save_intact s a now : intact s -> own_file a -> intact (save_artifact s a now).1.
Proof.
  intros Hs Ha. unfold save_artifact, Artifact.make. destruct (Artifact.valid a); [|done].
  pose proof (ok_update (a_db s) a now (in_db _ _ _ _ Hs)) as Hok. unfold ArtifactStore.update_artifact in *.
  destruct (ArtifactStore.get_artifact (a_db s) (Artifact.id a)) as [old|]; [|by destruct s]. destruct (existsb _ _); [by destruct s|].
  apply (intact_tables sha256 cs lost s _ []); [done..| | | |]; cbn.
  - by left.
  - by intros r ?%elem_of_nil.
  - apply Hs.
  - intros x (b & -> & Hb)%list_elem_of_fmap. destruct (is_artifact _ b) eqn:Hi; [|by apply Hs]. done.
Qed.

Lemma edit_metadata_intact s during i u ids now :
  intact s -> intact (during s) -> u_inline_content u = None -> u_file_data u = None ->
  intact (update_artifact sha256 cs cfg s during i u ids now).1.
Proof.
  intros Hs Hd Hi Hf. unfold update_artifact. destruct (get_artifact s i) as [a|] eqn:Hg; [|done]. cbn [bind_result].
  destruct (evaluate_policy _ _ _ _ _); [|done]. cbn [bind_result]. rewrite Hi, Hf, !bool_decide_true by done. cbn [andb].
  apply save_intact; [done|]. unfold get_artifact in Hg. destruct (ArtifactStore.get_artifact (a_db s) i) as [b|] eqn:Hb; [|done].
  injection Hg as ->. apply get_artifact_spec in Hb as [Hb _]. by apply (in_artifacts _ _ _ _ Hs) in Hb.
Qed.
(** * Revisions *)

Lemma get_revision_spec d i rid r : ArtifactStore.get_revision d i rid = Some r ->
  r ∈ revisions d /\ ArtifactRevision.id r = rid /\ ArtifactRevision.artifact_id r = i.
Proof.
  intros [Hin [H1%bool_decide_eq_true H2%bool_decide_eq_true]%andb_true_iff]%find_some. by apply list_elem_of_In in Hin.
Qed.

Lemma edit_starts s i expected a current :
  current_for_edit cfg s i expected = Return (a, current) ->
  current ∈ revisions (a_db s) /\ ArtifactRevision.id current = expected /\ ArtifactRevision.artifact_id current = i.
Proof.
  unfold current_for_edit. destruct (get_artifact s i) as [b|]; [|done]. cbn [bind_result].
  destruct (found _ (Artifact.current_revision_id b)) as [c|]; [|done]. cbn [bind_result].
  destruct (ArtifactStore.get_revision _ _ _) as [r|] eqn:Hr; [|done]. cbn [found bind_result].
  case_bool_decide as He; [|done]. cbn [negb]. destruct (evaluate_policy _ _ _ _ _); [|done]. cbn. intros [= _ <-].
  apply get_revision_spec in Hr as (H1 & _ & H2). done.
Qed.

(** Content is stored and a revision on it committed. *)
Lemma stored_commit s i filename content hex s1 ref inline expected current r now s' res :
  intact s -> fresh_hex (a_disk s) hex -> store_content cs s i filename content hex = (s1, Return (ref, inline)) ->
  ArtifactRevision.artifact_id r = i -> ArtifactRevision.content_ref r = ref -> ArtifactRevision.inline_content r = inline ->
  (~ at_risk r -> ArtifactRevision.size r = len (content_bytes content)
                  /\ ArtifactRevision.checksum r = sha256_checksum sha256 (content_bytes content)) ->
  commit_revision cs s1 i expected current r now = (s', res) ->
  intact s' /\ a_disk s ⊆ a_disk s'
  /\ match res with
     | Raise _ => a_db s' = a_db s
     | Return (committed, out) =>
         committed = r /\ append_revision (a_db s) i r expected now = (a_db s', Return r)
         /\ content_at (a_disk s') Item i inline ref (content_bytes content)
     end.
Proof.
  intros Hs Hhex Hst <- <- <- Hsz Hc. apply store_content_spec in Hst as (Hdb & Hsub & Hat & Hnew); [|done].
  apply (commit_spec sha256 cs lost s) in Hc as (Hi & Hsub' & Hres); [|done..|by intros [? ?]%Hsz; eexists].
  split; [done|]. split; [done|]. destruct res as [[c out]|e]; [|done]. destruct Hres as (-> & Ha & Hd & _). by rewrite Hd.
Qed.

Lemma update_revision_spec s during i expected r ids now s' res :
  intact (during s) -> fresh_hex (a_disk (during s)) (dr_hex ids) ->
  update_revision sha256 cs cfg s during i expected r ids now = (s', res) ->
  s' = s /\ (exists e, res = Raise e)
  \/ intact s' /\ a_disk (during s) ⊆ a_disk s'
     /\ match res with
        | Raise _ => a_db s' = a_db (during s)
        | Return (committed, _) =>
            exists a current kind mime content,
              current_for_edit cfg s i expected = Return (a, current) /\ new_content cs cfg s current r = Return (kind, mime, content)
              /\ append_revision (a_db (during s)) i committed expected now = (a_db s', Return committed)
              /\ content_at (a_disk s') Item i (ArtifactRevision.inline_content committed) (ArtifactRevision.content_ref committed)
                   (content_bytes content)
        end.
Proof.
  intros Hd Hhex. unfold update_revision.
  destruct (current_for_edit cfg s i expected) as [[a current]|e] eqn:Hc; cbn [bind_result]; [|intros [= <- <-]; left; eauto].
  destruct (new_content cs cfg s current r) as [[[kind mime] content]|e] eqn:Hn; cbn [bind_result]; [|intros [= <- <-]; left; eauto].
  destruct (store_content cs (during s) _ _ _ _) as [s1 [[ref inline]|e]] eqn:Hst.
  - intros Hcm. right. eapply stored_commit in Hcm as (H1 & H2 & H3); [|done..]. split; [done|]. split; [done|].
    destruct res as [[c out]|e]; [|done]. destruct H3 as (-> & Ha & Hat). by exists a, current, kind, mime, content.
  - intros [= <- <-]. right. apply store_content_spec in Hst as (Hdb & Hsub & _); [|done].
    split; [by apply (intact_weaken sha256 cs lost (during s))|done].
Qed.

Lemma kept_bytes s r n data :
  intact s -> r ∈ revisions (a_db s) -> ~ at_risk r ->
  read_content cs s (ArtifactRevision.inline_content r) (ArtifactRevision.content_ref r) n = Return data ->
  ArtifactRevision.size r = len data /\ ArtifactRevision.checksum r = sha256_checksum sha256 data.
Proof.
  intros Hs Hr Hrisk Hrd. destruct (in_revisions _ _ _ _ Hs r Hr Hrisk) as (data' & Hat & Hsz & Hck).
  by rewrite (content_at_read cs s _ _ _ _ _ _ _ Hat Hrd).
Qed.

Lemma rollback_spec s during i target_id expected summary ids now s' res :
  intact s -> intact (during s) -> fresh_hex (a_disk (during s)) (dr_hex ids) ->
  (target_id ∈ lost -> dr_revision_id ids ∈ lost) ->
  rollback cs cfg s during i target_id expected summary ids now = (s', res) ->
  s' = s /\ (exists e, res = Raise e)
  \/ intact s' /\ a_disk (during s) ⊆ a_disk s'
     /\ match res with
        | Raise _ => a_db s' = a_db (during s)
        | Return (committed, _) =>
            exists target data,
              ArtifactStore.get_revision (a_db s) i target_id = Some target /\ read_revision_bytes cs cfg s target = Return data
              /\ ArtifactRevision.inline_content committed = ArtifactRevision.inline_content target
              /\ ArtifactRevision.mime committed = ArtifactRevision.mime target
              /\ ArtifactRevision.kind committed = ArtifactRevision.kind target
              /\ ArtifactRevision.checksum committed = ArtifactRevision.checksum target
              /\ ArtifactRevision.rollback_from_revision_id committed = Some target_id
              /\ append_revision (a_db (during s)) i committed expected now = (a_db s', Return committed)
              /\ content_at (a_disk s') Item i (ArtifactRevision.inline_content committed) (ArtifactRevision.content_ref committed) data
        end.
Proof.
  intros Hs Hd Hhex Hrisk. unfold rollback.
  destruct (current_for_edit cfg s i expected) as [[a current]|e] eqn:Hc; cbn [bind_result]; [|intros [= <- <-]; left; eauto].
  destruct (ArtifactStore.get_revision (a_db s) i target_id) as [target|] eqn:Ht; cbn [found bind_result]; [|intros [= <- <-]; left; eauto].
  apply get_revision_spec in Ht as Ht'. destruct Ht' as (Hin & Hid & _).
  destruct (match ArtifactRevision.inline_content target with Some _ => _ | None => _ end) as [content|e] eqn:Hn; cbn [bind_result];
    [|intros [= <- <-]; left; eauto].
  assert (Hb : read_revision_bytes cs cfg s target = Return (content_bytes content)).
  { unfold read_revision_bytes in *. destruct (ArtifactRevision.inline_content target); [by injection Hn as <-|].
    destruct (read_content _ _ _ _ _); [by injection Hn as <-|done]. }
  destruct (store_content cs (during s) _ _ _ _) as [s1 [[ref inline]|e]] eqn:Hst.
  - assert (Hinl : inline = ArtifactRevision.inline_content target).
    { destruct (ArtifactRevision.inline_content target); [injection Hn as <-; by injection Hst as _ _ <-|].
      destruct (read_revision_bytes cs cfg s target); [|done]. injection Hn as <-. cbn in Hst.
      by destruct (write_content _ _ _ _ _) as [? []]; injection Hst. }
    intros Hcm. right. eapply stored_commit in Hcm as (H1 & H2 & H3); [|done..|].
    + split; [done|]. split; [done|]. destruct res as [[c out]|e]; [|done]. destruct H3 as (-> & Ha & Hat).
      exists target, (content_bytes content). cbn. split_and!; try done. by rewrite Hid.
    + intros Hsafe. apply (fun H => kept_bytes s target _ _ Hs Hin H Hb). intros [Hnone Hlost]. apply Hsafe.
      split; [by cbn; rewrite Hinl|]. cbn. apply Hrisk. by rewrite <- Hid.
  - intros [= <- <-]. right. apply store_content_spec in Hst as (Hdb & Hsub & _); [|done].
    split; [by apply (intact_weaken sha256 cs lost (during s))|done].
Qed.
(** * Publishing *)

Lemma same_snapshot_kept d p q : same_snapshot p q -> snapshot_kept d p -> snapshot_kept d q.
Proof.
  intros (H1 & _ & _ & _ & H2 & H3 & H4 & H5 & _). unfold ArtifactProps.snapshot_kept. by rewrite H1, H2, H3, H4, H5.
Qed.

(** The tables have the revisions they had, and artifacts and snapshots that tell nothing
    new, or are kept. *)
Lemma intact_rows s s' :
  intact s -> a_disk s ⊆ a_disk s' -> adb_ok (a_db s') -> revisions (a_db s') = revisions (a_db s) ->
  (forall a', a' ∈ artifacts (a_db s') -> exists a, a ∈ artifacts (a_db s) /\ Artifact.id a' = Artifact.id a
                                                  /\ Artifact.content_ref a' = Artifact.content_ref a) ->
  (forall p', p' ∈ published (a_db s') -> snapshot_kept (a_disk s') p'
                                          \/ exists p, p ∈ published (a_db s) /\ same_snapshot p p') ->
  intact s'.
Proof.
  intros Hs Hsub Hok Hr Ha Hp. apply (intact_tables sha256 cs lost s s' []); [done..| | | |].
  - intros r. rewrite Hr. by left.
  - by intros r ?%elem_of_nil.
  - intros p' [Hk|(p & Hin & Hsame)]%Hp; [done|]. eapply same_snapshot_kept; [done|]. by apply (snapshots_weaken sha256 cs lost s).
  - intros a' (a & Hin & Hi & Hc)%Ha. apply (in_artifacts _ _ _ _ Hs) in Hin. intros ref parts. rewrite Hi, Hc. apply Hin.
Qed.

Lemma revoked_rows c now d p' : p' ∈ published (update_published c (revoked now) d) -> exists p, p ∈ published d /\ same_snapshot p p'.
Proof. intros (p & -> & Hin)%list_elem_of_fmap. exists p. split; [done|]. by destruct (c p). Qed.

Lemma revoke_intact s i now : intact s -> intact (revoke_publish s i now).1.
Proof.
  intros Hs. unfold revoke_publish. destruct (revoke_published (a_db s) i now) as [d r] eqn:Hr. cbn [fst].
  pose proof (exec_aop_ok (a_db s) (ARevoke i now) (in_db _ _ _ _ Hs) I) as Hok. cbn [exec_aop] in Hok. rewrite Hr in Hok.
  unfold revoke_published in Hr. destruct (get_active_publish (a_db s) i) as [p|]; injection Hr as <- <-; [|by destruct s].
  apply (intact_rows s); try done.
  - intros a Ha. by exists a.
  - intros p' Hp'. right. exact (revoked_rows _ _ _ _ Hp').
Qed.

Lemma register_publish_rows d p i rid expected now d' res :
  register_revision_publish d p i rid expected now = (d', res) ->
  match res with
  | Return x => d' = d \/ (x = (resolved_published p now) <| PublishedArtifact.published_revision_id := Some rid |>
                   /\ revisions d' = revisions d
                   /\ (forall a', a' ∈ artifacts d' -> exists a, a ∈ artifacts d /\ Artifact.id a' = Artifact.id a
                                                  /\ Artifact.content_ref a' = Artifact.content_ref a)
                   /\ (forall p', p' ∈ published d' -> p' = x \/ exists p, p ∈ published d /\ same_snapshot p p'))
  | Raise _ => d' = d
  end.
Proof.
  unfold register_revision_publish. destruct (ArtifactStore.get_artifact d i) as [a|]; [|by intros [= <- <-]].
  destruct (negb _); [by intros [= <- <-]|]. destruct (List.find _ _); [intros [= <- <-]; by left|].
  destruct (insert_published _ _) as [d1|] eqn:Hi; [|by intros [= <- <-]]. intros [= <- <-]. right.
  apply insert_published_spec in Hi as (-> & _). split; [done|]. split; [done|]. split.
  - cbn. intros a' (b & -> & Hb)%list_elem_of_fmap. exists b. split; [done|]. by destruct (is_artifact i b).
  - cbn. intros p' [Hp'| ->%list_elem_of_singleton]%elem_of_app; [right|by left]. exact (revoked_rows _ _ _ _ Hp').
Qed.

Lemma register_snapshot_intact s0 s i rid expected p now :
  intact s0 -> a_db s = a_db s0 -> a_disk s0 ⊆ a_disk s -> new_ref (a_disk s0) (PublishedArtifact.snapshot_content_ref p) ->
  PublishedArtifact.artifact_id p = Some i -> snapshot_kept (a_disk s) p ->
  intact (register_snapshot cs cfg s i rid expected p now).1.
Proof.
  intros Hs0 Hdb Hsub Hnew Hi Hkept. assert (Hs : intact s) by by apply (intact_weaken sha256 cs lost s0).
  unfold register_snapshot, PublishedArtifact.make. destruct (PublishedArtifact.valid p); [|done]. rewrite Hdb.
  destruct (register_revision_publish (a_db s0) p i rid expected now) as [d res] eqn:Hr.
  pose proof (exec_aop_ok (a_db s0) (APublish p i rid expected now) (in_db _ _ _ _ Hs0) Hi) as Hok. cbn [exec_aop] in Hok.
  rewrite Hr in Hok. apply register_publish_rows in Hr. cbn [fst] in Hok.
  destruct res as [x|e].
  - destruct Hr as [->|(-> & Hrev & Ha & Hp)].
    + set (s1 := s <| a_db := a_db s0 |>). cbn [fst].
      destruct (best_effort_spec cs s1 (PublishedArtifact.snapshot_content_ref p) (a_disk s0) Hsub Hnew) as [H1 H2].
      destruct (negb _); by apply (intact_weaken sha256 cs lost s0).
    + cbn [fst]. rewrite bool_decide_true by done. cbn [negb]. apply (intact_rows s0); try done. cbn.
      intros p' [->|H]%Hp; [left|by right]. by apply (same_snapshot_kept _ p).
  - subst d. set (s1 := s <| a_db := a_db s0 |>). cbn [fst].
    destruct (best_effort_spec cs s1 (PublishedArtifact.snapshot_content_ref p) (a_disk s0) Hsub Hnew) as [H1 H2].
    by apply (intact_weaken sha256 cs lost s0).
Qed.

(** A file that is in both has the same content. *)
Definition same_files (d d' : disk) : Prop := forall q b b', d !! q = Some (File b) -> d' !! q = Some (File b') -> b' = b.

Lemma copy_included d src i inline hex d' r :
  fresh_hex d hex -> copy_to_publish_snapshot cs d src i inline hex = (d', r) -> d ⊆ d'.
Proof.
  intros [_ Hf] Hw. unfold copy_to_publish_snapshot in Hw. destruct (negb _); [by injection Hw as <- _|].
  destruct (ensure_dirs _ _ _) as [d1 [[]|e]] eqn:He; apply dirs_included in He; [|by injection Hw as <- _].
  destruct (match inline with Some _ => _ | None => _ end) as [[[filename data] max]|e]; [|by injection Hw as <- _].
  destruct (write_file_bounded _ _ _ _ _) as [d2 r2] eqn:Hb. apply (file_included d) in Hb; [|done..].
  by destruct r2; injection Hw as <- _.
Qed.

Lemma snapshot_file_spec s0 s a r data pid hex s1 ref :
  same_files (a_disk s0) (a_disk s) -> fresh_hex (a_disk s) hex ->
  snapshot_bytes cs cfg flow s0 a r = Return data -> snapshot_file cs cfg s r data pid hex = (s1, ref) ->
  a_db s1 = a_db s /\ a_disk s ⊆ a_disk s1
  /\ match ref with
     | Return ref => content_at (a_disk s1) Published pid (if kept_inline cfg r data then Some data else None) ref data
                     /\ new_ref (a_disk s) ref
     | Raise _ => True
     end.
Proof.
  intros Hsame Hhex Hb. unfold snapshot_file. destruct (kept_inline cfg r data) eqn:Hk.
  { intros [= <- <-]. split; [done|]. split; [done|]. split; [by left|done]. }
  destruct (if is_text_kind (ArtifactRevision.kind r) then _ else _) as [d res] eqn:Hc. intros [= <- <-].
  assert (Hcopy : exists src inline, copy_to_publish_snapshot cs (a_disk s) src pid inline hex = (d, res)
            /\ (inline = Some data \/ inline = None /\ exists b, ArtifactRevision.content_ref r = Some src
                                       /\ read_content cs s0 None (Some src) (artifact_max_bytes cfg) = Return b /\ b = data)).
  { unfold snapshot_bytes in Hb. destruct (is_text_kind _); [do 2 eexists; split; [done|by left]|].
    destruct (ArtifactRevision.content_ref r) as [src|]; [|done]. do 2 eexists; split; [done|]. right. eauto. }
  destruct Hcopy as (src & inline & Hcp & Hsrc). split; [done|]. split; [by apply copy_included in Hcp|]. cbn.
  destruct res as [ref|e]; [|done]. apply copy_returns in Hcp as (filename & data2 & Hp & Hl & Hd); [|apply Hhex].
  assert (data2 = data) as ->.
  { destruct Hsrc as [-> | (-> & b & Hcr & Hrd & ->)]; [done|]. destruct Hd as (parts & Hps & Hd).
    cbn in Hrd. apply read_returns in Hrd as (sch & parts' & Hpr & [Hf _] & _). rewrite Hps in Hpr. injection Hpr as <- <-.
    by apply (Hsame _ _ _ Hf Hd). }
  split.
  - right. split; [done|]. by exists ref, (generate_server_filename hex filename).
  - intros r' sch parts [= <-]. rewrite Hp. intros [= <- <-]. cbn [root_for_scheme].
    change [pid; ?x] with ([pid] ++ [x]). rewrite app_assoc. apply Hhex.
Qed.

Lemma prepare_publish_spec s i rid expected a r active data :
  prepare_publish cs cfg flow s i rid expected = Return (a, r, active, data) ->
  get_artifact s i = Return a /\ Artifact.id a = i /\ ArtifactStore.get_revision (a_db s) i rid = Some r
  /\ snapshot_bytes cs cfg flow s a r = Return data.
Proof.
  unfold prepare_publish. intros Hp. destruct (get_artifact s i) as [b|] eqn:Hg; [|done]. cbn [bind_result] in Hp.
  destruct (found _ _) as [c|]; [|done]. cbn [bind_result] in Hp. destruct (_ || _); [done|].
  destruct (ArtifactStore.get_revision _ _ _) as [x|] eqn:Hx; [|done]. cbn [found bind_result] in Hp.
  destruct (evaluate_policy _ _ _ _ _); [|done]. cbn [bind_result] in Hp.
  destruct (snapshot_bytes _ _ _ _ _ _) as [y|] eqn:Hy; [|done]. cbn in Hp. injection Hp as <- <- _ <-.
  split; [done|]. split; [|done]. unfold get_artifact in Hg.
  destruct (ArtifactStore.get_artifact (a_db s) i) as [z|] eqn:Hz; [|done]. injection Hg as ->. by apply get_artifact_spec in Hz as [_ Hz].
Qed.

Lemma publish_intact s during i rid expected ids now :
  intact s -> intact (during s) -> same_files (a_disk s) (a_disk (during s)) -> fresh_hex (a_disk (during s)) (dr_hex ids) ->
  intact (publish_revision sha256 cs cfg flow s during i rid expected ids now).1.
Proof.
  intros Hs Hd Hsame Hhex. unfold publish_revision. destruct (prepare_publish _ _ _ _ _ _ _) as [[[[a r] active] data]|] eqn:Hp; [|done].
  apply prepare_publish_spec in Hp as (_ & Hi & [Hr _]%get_revision_spec & Hb).
  destruct (match active with Some _ => _ | None => _ end); [done|].
  destruct (snapshot_file _ _ _ _ _ _ _) as [s1 ref] eqn:Hf.
  apply (snapshot_file_spec s (during s) a) in Hf as (Hdb & Hsub & Hat); [|done..].
  destruct ref as [ref|e]; [|by apply (intact_weaken sha256 cs lost (during s))]. destruct Hat as [Hat Hnew].
  apply (register_snapshot_intact (during s)); [done..|by rewrite <- Hi|]. by exists data.
Qed.
End calls.
