(* ===== verification/ArtifactIntact.v ===== *)
(** Histories of calls of the artifact service: whatever is stored can be read, and is what
    its checksum says, except what an edit of the artifact's own content takes away. *)
From S2P Require Import Prelude Text Unicode TaskStore InformationFlow FlowProps ArtifactDomain ArtifactStore ArtifactHistory ArtifactContent ArtifactFiles ArtifactService ArtifactFlows ArtifactProps ArtifactCalls.
From S2P Require RunService.
From stdpp Require Import gmap.
Open Scope Z_scope.

Section histories.
Context (sha256 : string -> string) (cs : ContentStore) (cfg : ArtifactServiceConfig) (flow : InformationFlowService).
Context (attachment_delete : option (string -> result bool)) (session_resolver : option (string -> result (option string))).
Notation revision_kept := (revision_kept sha256 cs).
Notation snapshot_kept := (snapshot_kept sha256 cs).
Notation content_kept := (content_kept sha256 cs).
Notation content_at := (content_at cs).
Notation intact := (intact sha256 cs).
Notation new_ref := (new_ref cs).

Lemma owned_item ref sch parts : is_owned_ref (Some ref) = true -> parse_ref ref = Return (sch, parts) -> sch = Item.
Proof.
  intros Ho Hp. unfold parse_ref in Hp. cbn [is_owned_ref] in Ho. cbn [List.find prefixes fst] in Hp. rewrite Ho in Hp.
  cbn [bind_result] in Hp. destruct (parse_scheme_parts _ _); [by injection Hp|done].
Qed.

Section kept.
Context (lost : list string).
Notation intact := (intact lost).

(** * Deletion *)

(** What [gone] does not name is still there. *)
Definition spares (d d' : disk) (gone : path -> Prop) : Prop := forall q x, d !! q = Some x -> d' !! q = Some x \/ gone q.

Lemma kept_spares d d' gone sch owner inline ref size checksum :
  spares d d' gone -> (forall rest, rest = [] \/ rest = [owner] \/ (exists name, rest = [owner; name]) -> ~ gone (root_for_scheme cs sch ++ rest)) ->
  content_kept d sch owner inline ref size checksum -> content_kept d' sch owner inline ref size checksum.
Proof.
  intros Hsp Hg (data & [H|(Hi & r & name & Hr & Hp & Hf & Hk)] & Hsc); exists data; (split; [|done]); [by left|right].
  split; [done|]. exists r, name. split; [done|]. split; [done|]. split.
  - destruct (Hsp _ _ Hf) as [H|H]; [done|]. exfalso. eapply Hg; [|done]. eauto.
  - intros k Hlt. destruct (Hsp _ _ (Hk k Hlt)) as [H|H]; [done|]. exfalso. eapply Hg; [|done].
    destruct k as [|[|k]]; cbn in *; [by left|right; by left|lia].
Qed.

(** What lies below the directory of a snapshot. *)
Definition of_snapshots (ids : list string) (q : path) : Prop :=
  exists i rest, i ∈ ids /\ q = published_root cs ++ i :: rest.

Lemma unlink_all_spares gone l : forall d,
  (forall p, p ∈ l -> gone p) -> spares d (unlink_all d l).1 gone.
Proof.
  induction l as [|p l IH]; intros d Hl; [by left|]. cbn [unlink_all]. destruct (d !! p) as [[b| |]|]; try by left.
  intros q x Hq. destruct (decide (q = p)) as [->|Hne]; [right; apply Hl; by left|].
  apply IH; [intros p' Hp'; apply Hl; by right|by rewrite lookup_delete_ne].
Qed.

Lemma delete_snapshot_spares d i ids : i ∈ ids -> spares d (delete_publish_snapshot cs d i).1 (of_snapshots ids).
Proof.
  intros Hi. unfold delete_publish_snapshot. destruct (negb _); [by left|]. destruct (d !! _) as [[b| |]|]; try by left.
  pose proof (unlink_all_spares (of_snapshots ids) (entries d (published_root cs ++ [i])) d) as Hu.
  destruct (unlink_all _ _) as [d' [[]|e]]; cbn [fst] in *.
  - intros q x Hq. destruct (Hu) with (q := q) (x := x) as [H|H]; [|done| |by right].
    + intros p Hp. pose proof (entries_below d (published_root cs ++ [i])) as Hb. rewrite Forall_forall in Hb.
      destruct (Hb p Hp) as [y ->]. exists i, [y]. split; [done|]. by rewrite <- app_assoc.
    + destruct (decide (q = published_root cs ++ [i])) as [->|Hne]; [right; by exists i, []|left; by rewrite lookup_delete_ne].
  - apply Hu. intros p Hp. pose proof (entries_below d (published_root cs ++ [i])) as Hb. rewrite Forall_forall in Hb.
    destruct (Hb p Hp) as [y ->]. exists i, [y]. split; [done|]. by rewrite <- app_assoc.
Qed.

Lemma delete_snapshots_spares ids l : forall s, (forall i, i ∈ l -> i ∈ ids) ->
  let s' := foldl (best_effort_delete_snapshot cs) s l in a_db s' = a_db s /\ spares (a_disk s) (a_disk s') (of_snapshots ids).
Proof.
  induction l as [|i l IH]; intros s Hl; cbn [foldl]; [split; [done|by left]|].
  destruct (IH (best_effort_delete_snapshot cs s i)) as [H1 H2]; [intros j Hj; apply Hl; by right|]. split; [by rewrite H1|].
  intros q x Hq. destruct (delete_snapshot_spares (a_disk s) i ids) with (q := q) (x := x) as [H|H]; [apply Hl; by left|done|by apply H2|by right].
Qed.

Lemma snapshots_apart ids sch owner rest :
  (sch = Item \/ sch = Published /\ owner ∉ ids) -> rest = [] \/ rest = [owner] \/ (exists name, rest = [owner; name]) ->
  ~ of_snapshots ids (root_for_scheme cs sch ++ rest).
Proof.
  intros Hsch Hrest (i & l & Hi & E). destruct Hsch as [->|[-> Ho]]; cbn [root_for_scheme] in E.
  - unfold items_root, published_root in E. rewrite <- !app_assoc in E. by apply app_inv_head in E.
  - apply app_inv_head in E. destruct Hrest as [->|[->|[name ->]]]; by simplify_eq.
Qed.

Lemma delete_own_file s ref i :
  (forall parts, parse_ref ref = Return (Item, parts) -> exists name, parts = [i; name]) -> is_owned_ref (Some ref) = true ->
  a_db (best_effort_delete cs s ref) = a_db s
  /\ spares (a_disk s) (a_disk (best_effort_delete cs s ref)) (fun q => exists name, q = items_root cs ++ [i; name]).
Proof.
  intros Hown Ho. split; [done|]. cbn. destruct (delete_owned cs (a_disk s) ref) as [d' res] eqn:Hdel. cbn.
  apply delete_owned_spec in Hdel as [->|(sch & parts & b & Hp & _ & _ & -> & _)]; [by left|].
  pose proof (owned_item _ _ _ Ho Hp) as ->.
  destruct (Hown parts Hp) as [name ->]. intros q x Hq. cbn [root_for_scheme].
  destruct (decide (q = items_root cs ++ [i; name])) as [->|Hne]; [right; by exists name|left; by rewrite lookup_delete_ne].
Qed.
(** First the snapshots go, with their files. *)
Lemma purge_intact s i :
  intact s ->
  let ids := map PublishedArtifact.publish_id (list_published (a_db s) (Some i)) in
  let s' := foldl (best_effort_delete_snapshot cs) (s <| a_db := (delete_published_by_artifact (a_db s) i).1 |>) ids in
  intact s' /\ artifacts (a_db s') = artifacts (a_db s).
Proof.
  intros Hs ids. set (s0 := s <| a_db := (delete_published_by_artifact (a_db s) i).1 |>).
  destruct (delete_snapshots_spares ids ids s0) as [Hdb Hsp]; [done|]. split; [|by rewrite Hdb].
  pose proof (exec_aop_ok (a_db s) (ADeletePublished i) (in_db _ _ _ _ Hs) I) as Hok. cbn [exec_aop] in Hok.
  split; rewrite ?Hdb; [done| | |apply Hs].
  - intros r Hr Hrisk. eapply kept_spares; [exact Hsp| |by apply (in_revisions _ _ _ _ Hs)].
    intros rest Hrest. by eapply snapshots_apart; [left|].
  - intros p [Hp Hpi%negb_true_iff]%List_filter_elem. eapply kept_spares; [exact Hsp| |by apply (in_snapshots _ _ _ _ Hs)].
    intros rest Hrest. eapply snapshots_apart; [right; split; [done|]|done]. subst ids.
    intros (q & Hq & Hin)%list_elem_of_fmap. unfold list_published in Hin. rewrite order_by_perm in Hin.
    apply List_filter_elem in Hin as [Hin Hqi].
    apply (NoDup_map_inj PublishedArtifact.publish_id (published (a_db s))) in Hq; [|apply (ao_publish_ids _ (in_db _ _ _ _ Hs))|done..].
    subst q. cbn in Hqi. congruence.
Qed.

(** Then the row, with its revisions and perhaps a file of the artifact. *)
Lemma delete_row_intact s i s' :
  intact s -> a_db s' = delete_row (a_db s) i ->
  spares (a_disk s) (a_disk s') (fun q => exists name, q = items_root cs ++ [i; name]) -> intact s'.
Proof.
  intros Hs Hdb Hsp. split; rewrite ?Hdb; [by apply ok_delete_row, Hs| | |].
  - rewrite delete_row_revisions by apply Hs. intros r [Hr Hri%negb_true_iff%bool_decide_eq_false]%List_filter_elem Hrisk.
    eapply kept_spares; [exact Hsp| |by apply (in_revisions _ _ _ _ Hs)].
    intros rest Hr' (name & E). apply app_inv_head in E. destruct Hr' as [->|[->|[n' ->]]]; by simplify_eq.
  - intros p Hp. assert (exists p0, p0 ∈ published (a_db s) /\ same_snapshot p0 p) as (p0 & Hp0 & Hsame).
    { revert Hp. unfold delete_row. destruct (existsb _ _); [|by exists p]. intros (p0 & -> & Hp)%list_elem_of_fmap. by exists p0. }
    eapply same_snapshot_kept; [done|]. eapply kept_spares; [exact Hsp| |by apply (in_snapshots _ _ _ _ Hs)].
    intros rest _ (name & E). cbn [root_for_scheme] in E. unfold items_root, published_root in E. rewrite <- !app_assoc in E.
    by apply app_inv_head in E.
  - intros x Hx. apply (in_artifacts _ _ _ _ Hs). by apply (delete_row_artifact (a_db s) i).
Qed.

Lemma delete_intact s i : intact s -> intact (delete_artifact cs cfg attachment_delete s i).1.
Proof.
  intros Hs. unfold delete_artifact. destruct (get_artifact s i) as [a|] eqn:Hg; [|done]. cbn [bind_result].
  destruct (evaluate_policy _ _ _ _ _); [|done]. cbn [bind_result]. destruct (cascade_delete_task_attachment _ _); [|done]. cbn [bind_result].
  unfold get_artifact in Hg. destruct (ArtifactStore.get_artifact (a_db s) i) as [b|] eqn:Hb; [|done]. injection Hg as ->.
  apply get_artifact_spec in Hb as [Ha Hai].
  set (s1 := match list_published (a_db s) (Some i) with [] => s | _ => _ end).
  assert (H1 : intact s1 /\ artifacts (a_db s1) = artifacts (a_db s)).
  { subst s1. pose proof (purge_intact s i Hs) as Hp. by destruct (list_published (a_db s) (Some i)). }
  destruct H1 as [Hs1 Hart]. set (s2 := s1 <| a_db := (ArtifactStore.delete_artifact (a_db s1) i).1 |>).
  cbn [fst]. destruct (is_owned_ref (Artifact.content_ref a)) eqn:Ho; [|by apply (delete_row_intact s1 i); [..|by left]].
  destruct (Artifact.content_ref a) as [ref|] eqn:Hc; [|done].
  destruct (delete_own_file s2 ref i) as [Hdb Hsp]; [|done|by apply (delete_row_intact s1 i)].
  intros parts Hp. rewrite <- Hai. by apply (in_artifacts _ _ _ _ Hs a Ha ref).
Qed.

(** * The migration *)

Lemma backfill_rows d i r now d' res :
  commit_initial_revision_backfill d i r now = (d', res) ->
  published d' = published d
  /\ (forall a', a' ∈ artifacts d' -> exists a, a ∈ artifacts d /\ Artifact.id a' = Artifact.id a
                                                 /\ Artifact.content_ref a' = Artifact.content_ref a)
  /\ (revisions d' = revisions d \/ revisions d' = revisions d ++ [r] /\ res = Return r)
  /\ (forall e, res = Raise e -> d' = d).
Proof.
  assert (Hpoint : forall rid l a', a' ∈ artifacts (point_to i rid now l) ->
            exists a, a ∈ artifacts l /\ Artifact.id a' = Artifact.id a /\ Artifact.content_ref a' = Artifact.content_ref a).
  { intros rid l a' (a & -> & Ha)%list_elem_of_fmap. exists a. split; [done|]. by destruct (is_artifact i a). }
  assert (Hkeep : forall res, published d = published d
      /\ (forall a', a' ∈ artifacts d -> exists a, a ∈ artifacts d /\ Artifact.id a' = Artifact.id a
                                                    /\ Artifact.content_ref a' = Artifact.content_ref a)
      /\ (revisions d = revisions d \/ revisions d = revisions d ++ [r] /\ res = Return r)
      /\ (forall e, res = Raise e -> d = d)) by (intros; split_and!; [done|intros a' ?; by exists a'|by left|done]).
  unfold commit_initial_revision_backfill. destruct (ArtifactStore.get_artifact d i) as [a|]; [|by intros [= <- <-]].
  destruct (Artifact.current_revision_id a); [by intros [= <- <-]|].
  destruct (List.find _ _); [intros [= <- <-]; split_and!; [done|apply Hpoint|by left|done]|].
  destruct (negb _); [by intros [= <- <-]|]. destruct (_ || _); [by intros [= <- <-]|].
  destruct (insert_revision d r) as [d1|] eqn:Hi; intros [= <- <-]; [|done].
  apply insert_revision_spec in Hi as (-> & _). split_and!; [done| |by right|done]. intros a' Ha'. by apply Hpoint in Ha'.
Qed.

Lemma migrate_intact s a now draw :
  intact s -> fresh_hex (a_disk s) (dr_hex (draw (Artifact.id a))) -> intact (migrate_one sha256 cs cfg now draw s a).1.
Proof.
  intros Hs Hhex. unfold migrate_one. destruct (read_legacy_bytes cs cfg s a) as [data|] eqn:Hb; [|done].
  destruct (_ <? _); [done|]. destruct (negb _); [done|].
  set (content := match Artifact.inline_content a with Some text => inl text | None => inr data end).
  assert (content_bytes content = data) as Hcb.
  { subst content. unfold read_legacy_bytes in Hb. destruct (Artifact.inline_content a); [by injection Hb as <-|done]. }
  destruct (store_content _ _ _ _ _ _) as [s1 [[ref inline]|e]] eqn:Hst; [|by eapply store_fails_intact].
  apply store_content_spec in Hst as (Hdb & Hsub & Hat & Hnew); [|done]. rewrite Hcb in Hat.
  set (r := ArtifactRevision.mk _ _ _ _ _ _ _ _ _ _ _ _ _ _ _ _).
  assert (Hdrop : forall s2, a_db s2 = a_db s -> a_disk s ⊆ a_disk s2 -> intact (best_effort_delete_opt cs s2 ref)).
  { intros s2 H1 H2. destruct (best_effort_spec cs s2 ref (a_disk s) H2 Hnew) as [H3 H4].
    apply (intact_weaken sha256 cs lost s); [done| |done]. congruence. }
  destruct (negb _); [by apply Hdrop|]. rewrite Hdb.
  pose proof (ok_backfill (a_db s) (Artifact.id a) r now (in_db _ _ _ _ Hs)) as Hok.
  destruct (commit_initial_revision_backfill _ _ _ _) as [d [c|e]] eqn:Hc; apply backfill_rows in Hc as (Hp & Ha & Hr & He); cbn [fst] in *.
  - assert (Hrow : forall s2, a_db s2 = d -> a_disk s ⊆ a_disk s2 -> (revisions d <> revisions (a_db s) -> a_disk s2 = a_disk s1) -> intact s2).
    { intros s2 H1 H2 H3. split; rewrite ?H1.
      - done.
      - intros x Hx Hrisk. destruct Hr as [Hr|[Hr _]]; rewrite Hr in Hx; [by apply (kept_weaken sha256 cs (a_disk s)), Hs|].
        apply elem_of_app in Hx as [Hx| ->%list_elem_of_singleton]; [by apply (kept_weaken sha256 cs (a_disk s)), Hs|].
        rewrite H3; [by exists data|]. rewrite Hr. intros E. by apply (f_equal length) in E; rewrite length_app in E; cbn in E; lia.
      - rewrite Hp. by apply (snapshots_weaken sha256 cs lost s).
      - intros a' (b & Hb' & Hi & Hcr)%Ha. apply (in_artifacts _ _ _ _ Hs) in Hb'. intros x parts. rewrite Hi, Hcr. apply Hb'. }
    case_bool_decide as Hid; [by apply Hrow|]. destruct Hr as [Hr|[_ Hres]]; [|by injection Hres as ->].
    set (s2 := s1 <| a_db := d |>). destruct (best_effort_spec cs s2 ref (a_disk s) Hsub Hnew) as [H3 H4].
    by apply Hrow.
  - rewrite (He e eq_refl). by apply Hdrop.
Qed.
End kept.
(** * Edits of the content *)

Lemma starts_with_split p s : starts_with p s = true -> s = p +:+ drop_str (String.length p) s.
Proof.
  revert s. induction p as [|c p IH]; intros s; [by rewrite app_str_nil|]. destruct s as [|c' s]; [done|]. cbn [starts_with].
  intros [<-%bool_decide_eq_true H%IH]%andb_true_iff. cbn [String.length drop_str]. rewrite app_str_cons. by f_equal.
Qed.

(** The reference of a file of an artifact tells no more than where the file is. *)
Lemma item_ref ref parts : parse_ref ref = Return (Item, parts) ->
  exists i name, parts = [i; name] /\ ref = "item:" +:+ i +:+ "/" +:+ name.
Proof.
  unfold parse_ref. destruct (List.find _ prefixes) as [[prefix sch]|] eqn:Hf; [|done]. cbn [bind_result].
  destruct (parse_scheme_parts _ _) as [l|] eqn:Hp; [|done]. cbn. intros [= -> ->].
  apply find_some in Hf as [Hin Hpre]. cbn [fst] in Hpre. assert (prefix = "item:") as ->.
  { by destruct Hin as [[= <-]|[[= <-]|[[= <-]|[[= <-]|[]]]]]. }
  cbn [parse_scheme_parts] in Hp. destruct (cut_slash _) as [[i name]|] eqn:Hc; [|done].
  destruct (_ && _); [|done]. injection Hp as <-. exists i, name. split; [done|].
  apply starts_with_split in Hpre. apply cut_slash_spec in Hc. by rewrite Hc in Hpre.
Qed.

Lemma item_ref_inj r1 r2 parts : parse_ref r1 = Return (Item, parts) -> parse_ref r2 = Return (Item, parts) -> r1 = r2.
Proof. intros (i & n & -> & ->)%item_ref (i' & n' & E & ->)%item_ref. by injection E as <- <-. Qed.

Lemma intact_mono lost lost' s : lost ⊆ lost' -> intact lost s -> intact lost' s.
Proof. intros Hl []. split; [done| |done|done]. intros r Hr Hrisk. apply in_revisions; [done|]. intros [? ?]. apply Hrisk. split; [done|]. by apply Hl. Qed.

(** The revisions that name the file of [ref] lose it; nothing else is touched. *)
Lemma removed_intact lost lost' s ref :
  intact lost s -> lost ⊆ lost' -> is_owned_ref (Some ref) = true ->
  (forall r, r ∈ revisions (a_db s) -> ArtifactRevision.content_ref r = Some ref -> ArtifactRevision.id r ∈ lost') ->
  intact lost' (best_effort_delete cs s ref).
Proof.
  intros Hs Hl Ho Hlost. destruct (delete_owned cs (a_disk s) ref) as [d res] eqn:Hd. unfold best_effort_delete. rewrite Hd. cbn [fst].
  apply delete_owned_spec in Hd as [->|(sch & parts & b & Hp & _ & Hb & -> & _)]; [destruct s; by apply (intact_mono lost)|].
  pose proof (owned_item _ _ _ Ho Hp) as ->. cbn [root_for_scheme] in *. destruct (intact_mono _ _ _ Hl Hs). split; cbn; [done| |..].
  - intros r Hr Hrisk. destruct (in_revisions r Hr Hrisk) as (data & Hat & Hsc). exists data. split; [|done].
    destruct Hat as [H|(Hi & r' & name & Hcr & Hpr & Hf & Hk)]; [by left|right]. split; [done|]. exists r', name. split; [done|]. split; [done|].
    cbn [root_for_scheme] in *. split.
    + rewrite lookup_delete_ne; [done|]. intros ->%app_inv_head. apply Hrisk. split; [done|]. apply Hlost; [done|].
      by rewrite (item_ref_inj ref r' _ Hp Hpr).
    + intros k Hlt. rewrite lookup_delete_ne; [by apply Hk|]. intros E. specialize (Hk k Hlt). cbn [root_for_scheme] in E, Hk. rewrite <- E in Hk. congruence.
  - intros p Hin. eapply kept_delete; [done| |by apply in_snapshots]. intros name E. cbn [root_for_scheme] in E.
    unfold items_root, published_root in E. rewrite <- !app_assoc in E. by apply app_inv_head in E.
  - done.
Qed.

(** The copy of a source is a new file of the artifact. *)
Lemma materialized s a u token hex s' r :
  fresh_in (a_disk s) (items_root cs ++ [Artifact.id a]) token -> fresh_in (a_disk s) (items_root cs ++ [Artifact.id a]) hex ->
  (forall f g, generate_server_filename token f <> generate_server_filename hex g) ->
  materialize_first cs s a u token = (s', r) ->
  a_db s' = a_db s /\ a_disk s ⊆ a_disk s' /\ fresh_in (a_disk s') (items_root cs ++ [Artifact.id a]) hex
  /\ match r with Return m => new_ref (a_disk s) m | Raise _ => True end.
Proof.
  intros [Ht Hft] [Hh Hfh] Hap. unfold materialize_first. destruct (Artifact.content_ref a) as [ref|]; [|by intros [= <- <-]].
  destruct (u_file_data u); [|by intros [= <- <-]]. destruct (is_source_ref _); [|by intros [= <- <-]].
  destruct (materialize_source _ _ _ _ _ _) as [d res] eqn:Hm. intros [= <- <-]. split; [done|]. cbn [a_disk]. unfold materialize_source in Hm.
  destruct (validate_id (Artifact.id a)) eqn:Hi; [|by injection Hm as <- <-]. cbn [negb] in Hm.
  destruct (match Artifact.source_kind a with ArtifactSource.TASK_ATTACHMENT => _ | _ => _ end) as [[parts data]|e]; [|by injection Hm as <- <-].
  set (name := generate_server_filename token _) in Hm.
  assert (Hdirs : forall d1 r1, ensure_dirs (a_disk s) (items_root cs) (items_root cs ++ [Artifact.id a]) = (d1, r1) ->
            a_disk s ⊆ d1 /\ forall x, a_disk s !! ((items_root cs ++ [Artifact.id a]) ++ [x]) = None -> d1 !! ((items_root cs ++ [Artifact.id a]) ++ [x]) = None).
  { intros d1 r1 He. apply dirs_included in He as Hsub. split; [done|]. intros x Hx. destruct r1 as [[]|e].
    - apply ensure_dirs_spec in He as [_ _ Ho _]. rewrite Ho; [done| |apply snoc_ne]. intros E. apply (f_equal length) in E.
      rewrite !length_app in E. cbn in E. lia.
    - unfold ensure_dirs in He. destruct (ensure_safe_dir (a_disk s) _) as [d2 [[]|e1]] eqn:H1.
      + apply ensure_safe_dir_fails in He as ->. apply ensure_safe_dir_spec in H1 as (_ & Ho & _). rewrite Ho; [done|].
        intros E. apply (f_equal length) in E. rewrite !length_app in E. cbn in E. lia.
      + injection He as <- _. by apply ensure_safe_dir_fails in H1 as ->. }
  destruct (ensure_dirs _ _ _) as [d1 [[]|e]] eqn:He; destruct (Hdirs _ _ eq_refl) as [Hsub Hnone];
    [|injection Hm as <- <-; split; [done|]; split; [|done]; split; [done|]; intros f; apply Hnone, Hfh].
  destruct (write_file_bounded _ _ _ _ _) as [d2 [[]|e]] eqn:Hw; apply write_file_spec in Hw; injection Hm as <- <-.
  - destruct Hw as (_ & -> & _). split; [|split].
    + apply insert_subseteq_r; [by apply Hft|done].
    + split; [done|]. intros f. change (a_disk (s <| a_disk := ?x |>)) with x. rewrite lookup_insert_ne; [apply Hnone, Hfh|]. intros E%app_inv_head. injection E as E. by apply (Hap _ _ E).
    + intros r sch parts' [= <-]. rewrite (parse_two Item "item:"); [|done|by left|done|by apply server_filename_valid].
      intros [= <- <-]. cbn [root_for_scheme]. change [Artifact.id a; ?x] with ([Artifact.id a] ++ [x]). rewrite app_assoc. apply Hft.
  - subst d2. split; [done|]. split; [|done]. split; [done|]. intros f. apply Hnone, Hfh.
Qed.

Lemma update_raises d a now d' e : ArtifactStore.update_artifact d a now = (d', Raise e) -> d' = d.
Proof.
  unfold ArtifactStore.update_artifact. destruct (ArtifactStore.get_artifact d (Artifact.id a)) as [old|] eqn:Hg; [|by intros [= <-]].
  destruct (existsb _ _); [by intros [= <-]|]. set (d1 := update_artifacts _ _ _).
  assert (Hfound : is_Some (ArtifactStore.get_artifact d1 (Artifact.id a))).
  { apply get_artifact_spec in Hg as [Hin Hid]. subst d1. unfold ArtifactStore.get_artifact, update_artifacts.
    change (artifacts (d <| artifacts := ?x |>)) with x. induction (artifacts d) as [|b l IH]; [by apply not_elem_of_nil in Hin|]. cbn [map List.find].
    destruct (is_artifact (Artifact.id a) b) eqn:Hb.
    - case_match eqn:He; [by eexists|]. exfalso. unfold is_artifact in He. cbn in He. by rewrite bool_decide_true in He.
    - rewrite Hb. apply IH. apply elem_of_cons in Hin as [<-|Hin]; [|done]. unfold is_artifact in Hb. by rewrite Hid, bool_decide_true in Hb. }
  destruct Hfound as [x ->]. done.
Qed.

Lemma save_only_db s t a now : a_db s = a_db t ->
  a_db (save_artifact s a now).1 = a_db (save_artifact t a now).1 /\ a_disk (save_artifact s a now).1 = a_disk s
  /\ (forall e, (save_artifact s a now).2 = Raise e -> a_db (save_artifact s a now).1 = a_db s).
Proof.
  intros Hdb. unfold save_artifact. destruct (Artifact.make a) as [b|]; [|done]. rewrite Hdb.
  destruct (ArtifactStore.update_artifact _ _ _) as [d r] eqn:Hu. split; [done|]. split; [done|]. cbn. intros e ->.
  by apply update_raises in Hu.
Qed.

Lemma replaced_spec s a u hex s' r :
  fresh_in (a_disk s) (items_root cs ++ [Artifact.id a]) hex -> own_file a -> replaced_content sha256 cs cfg s a u hex = (s', r) ->
  a_db s' = a_db s /\ a_disk s ⊆ a_disk s'
  /\ match r with Return (a', temp) => own_file a' /\ new_ref (a_disk s) temp | Raise _ => True end.
Proof.
  intros Hf Hown. unfold replaced_content. destruct (u_inline_content u) as [text|].
  { intros [= <- <-]. split; [done|]. split; [done|]. by destruct (_ <? _). }
  destruct (u_file_data u) as [data|]; [|by intros [= <- <-]]. destruct (_ <? _); [by intros [= <- <-]|].
  destruct (write_content _ _ _ _ _ _) as [s1 [ref|e]] eqn:Hw; apply write_as_store in Hw; intros [= <- <-];
    apply store_content_in in Hw as (Hdb & Hsub & Hrest); try done.
  split; [done|]. split; [done|]. destruct Hrest as [Hat Hnew]. split; [|done]. by eapply content_at_own.
Qed.

Definition changes_content (u : UpdateInput) : bool :=
  negb (bool_decide (u_inline_content u = None) && bool_decide (u_file_data u = None)).

(** Whether the revision names the file the artifact's row names, and the artifact owns. *)
Definition shares_file (a : Artifact.t) (r : ArtifactRevision.t) : bool :=
  is_owned_ref (Artifact.content_ref a) && bool_decide (ArtifactRevision.content_ref r = Artifact.content_ref a).

Lemma edit_content_intact lost lost' s s1 i u ids now :
  intact lost s -> intact lost s1 -> lost ⊆ lost' -> fresh_hex (a_disk s1) (dr_hex ids) -> fresh_hex (a_disk s1) (dr_token ids) ->
  (forall f g, generate_server_filename (dr_token ids) f <> generate_server_filename (dr_hex ids) g) ->
  changes_content u = true ->
  (forall a r, get_artifact s i = Return a -> r ∈ revisions (a_db s1) -> shares_file a r = true -> ArtifactRevision.id r ∈ lost') ->
  intact lost' (update_artifact sha256 cs cfg s (fun _ => s1) i u ids now).1.
Proof.
  intros Hs Hs1 Hl Hhex Htok Hap Hu Hlost. unfold update_artifact. destruct (get_artifact s i) as [a|] eqn:Hg; [|by apply (intact_mono lost)].
  cbn [bind_result]. destruct (evaluate_policy _ _ _ _ _); [|by apply (intact_mono lost)]. cbn [bind_result].
  unfold changes_content in Hu. apply negb_true_iff in Hu. rewrite Hu.
  assert (Hown : own_file (with_metadata u a)).
  { unfold get_artifact in Hg. destruct (ArtifactStore.get_artifact (a_db s) i) as [b|] eqn:Hb; [|done].
    injection Hg as ->. apply get_artifact_spec in Hb as [Hb _]. by apply (in_artifacts _ _ _ _ Hs) in Hb. }
  assert (Hstep : forall s2, a_db s2 = a_db s1 -> a_disk s1 ⊆ a_disk s2 -> intact lost' s2).
  { intros s2 H1 H2. apply (intact_mono lost); [done|]. by apply (intact_weaken sha256 cs lost s1). }
  destruct (materialize_first _ _ _ _ _) as [sm rm] eqn:Hm.
  apply (materialized s1 a u _ (dr_hex ids)) in Hm as (Hdbm & Hsubm & Hfm & Hnm); [|by apply fresh_hex_in..|done].
  destruct rm as [m|e]; [|by apply Hstep].
  destruct (replaced_content _ _ _ _ _ _ _) as [sc [[a2 temp]|e]] eqn:Hr;
    apply replaced_spec in Hr as (Hdbc & Hsubc & Hrest); try done; rewrite Hdbm in Hdbc;
    (assert (Hsub : a_disk s1 ⊆ a_disk sc) by by etrans).
  2:{ destruct (best_effort_spec cs sc m (a_disk s1) Hsub Hnm) as [H1 H2]. apply Hstep; [|done]. cbn [fst]. congruence. }
  destruct Hrest as [Hown2 Hnt].
  assert (Hnt1 : new_ref (a_disk s1) temp).
  { intros r sch parts H1 H2. specialize (Hnt r sch parts H1 H2). by eapply lookup_weaken_None. }
  destruct (save_only_db sc s1 a2 now Hdbc) as (Hsdb & Hsd & Hse).
  destruct (save_artifact sc a2 now) as [ss [saved|e]] eqn:Hsave; cbn [fst snd] in *.
  2:{ rewrite <- Hsd in Hsub. destruct (best_effort_spec cs ss temp (a_disk s1) Hsub Hnt1) as [H1 H2].
      destruct (best_effort_spec cs (best_effort_delete_opt cs ss temp) m (a_disk s1) H2 Hnm) as [H3 H4].
      apply Hstep; [|done]. rewrite H3, H1, (Hse e) by done. exact Hdbc. }
  rewrite <- Hsd in Hsub. destruct (best_effort_spec cs ss m (a_disk s1) Hsub Hnm) as [H1 H2].
  set (s2 := best_effort_delete_opt cs ss m) in *.
  assert (Hs2 : intact lost s2).
  { apply (intact_weaken sha256 cs lost (save_artifact s1 a2 now).1); [by apply save_intact|congruence|].
    destruct (save_only_db s1 s1 a2 now eq_refl) as (_ & -> & _). exact H2. }
  assert (Hrev : revisions (a_db s2) = revisions (a_db s1)).
  { rewrite H1, Hsdb. unfold save_artifact. destruct (Artifact.make a2); [|done]. unfold ArtifactStore.update_artifact.
    destruct (ArtifactStore.get_artifact _ _); [|done]. by destruct (existsb _ _). }
  assert (H3 : intact lost' (if is_owned_ref (Artifact.content_ref a) && negb (bool_decide (Artifact.content_ref a = m))
                             then best_effort_delete_opt cs s2 (Artifact.content_ref a) else s2)).
  { destruct (is_owned_ref (Artifact.content_ref a)) eqn:Ho; [|by apply (intact_mono lost)].
    destruct (negb _); [|by apply (intact_mono lost)]. cbn [andb]. destruct (Artifact.content_ref a) as [ref|] eqn:Hc; [|done].
    apply (removed_intact lost); [done..|]. intros r. rewrite Hrev. intros Hin Hcr. apply (Hlost a); [done..|].
    unfold shares_file. by rewrite Hc, Ho, Hcr, bool_decide_true. }
  pose proof (revoke_intact sha256 cs lost' _ i now H3) as H4. cbn [fst]. destruct (get_active_publish _ i); [|done].
  unfold revoke_publish in H4. destruct (revoke_published _ _ _) as [d r]. exact H4.
Qed.
(** * Histories *)

Inductive call : Type :=
  | CallCreate (r : CreateInput) (ids : drawn) (now : Z)
  | CallEdit (i : string) (u : UpdateInput) (ids : drawn) (now : Z)
  | CallRevise (i expected : string) (r : RevisionInput) (ids : drawn) (now : Z)
  | CallRollback (i target_id expected change_summary : string) (ids : drawn) (now : Z)
  | CallPublish (i revision_id expected : string) (ids : drawn) (now : Z)
  | CallRevoke (i : string) (now : Z)
  | CallDelete (i : string)
  | CallAttachment (src : ArtifactAttachmentSource.t) (ids : drawn) (now : Z)
  | CallTaskArtifact (t : RunService.TaskArtifact) (task_id run_id ordinal : string) (ids : drawn) (now : Z)
  | CallMigrate (a : Artifact.t) (ids : drawn) (now : Z).

(** [s1] is the state once the others have had their turn while the call waited. *)
Definition exec_call (s s1 : astate) (c : call) : astate :=
  match c with
  | CallCreate r ids now => (create_artifact sha256 cs cfg s r ids now).1
  | CallEdit i u ids now => (update_artifact sha256 cs cfg s (fun _ => s1) i u ids now).1
  | CallRevise i expected r ids now => (update_revision sha256 cs cfg s (fun _ => s1) i expected r ids now).1
  | CallRollback i target_id expected summary ids now => (rollback cs cfg s (fun _ => s1) i target_id expected summary ids now).1
  | CallPublish i revision_id expected ids now => (publish_revision sha256 cs cfg flow s (fun _ => s1) i revision_id expected ids now).1
  | CallRevoke i now => (revoke_publish s i now).1
  | CallDelete i => (delete_artifact cs cfg attachment_delete s i).1
  | CallAttachment src ids now => (register_from_attachment sha256 cs cfg session_resolver s src ids now).1
  | CallTaskArtifact t task_id run_id ordinal ids now =>
      (register_from_task_artifact sha256 cs cfg session_resolver s t task_id run_id ordinal ids now).1
  | CallMigrate a ids now => (migrate_one sha256 cs cfg now (fun _ => ids) s a).1
  end.

Definition draws (c : call) : option drawn :=
  match c with
  | CallCreate _ ids _ | CallEdit _ _ ids _ | CallRevise _ _ _ ids _ | CallRollback _ _ _ _ ids _ | CallPublish _ _ _ ids _
  | CallAttachment _ ids _ | CallTaskArtifact _ _ _ _ ids _ | CallMigrate _ ids _ => Some ids
  | CallRevoke _ _ | CallDelete _ => None
  end.

(** The file names a call draws are new. *)
Definition call_fits (s s1 : astate) (c : call) : Prop :=
  (forall ids, draws c = Some ids -> fresh_hex (a_disk s) (dr_hex ids) /\ fresh_hex (a_disk s1) (dr_hex ids))
  /\ match c with
     | CallEdit _ u ids _ =>
         changes_content u = true ->
         fresh_hex (a_disk s1) (dr_token ids)
         /\ forall f g, generate_server_filename (dr_token ids) f <> generate_server_filename (dr_hex ids) g
     | _ => True
     end.

(** The revisions whose content a call may take away: an edit of the content removes the
    file the artifact's row names, and with it the content of the revisions that name the
    same file; a copy rolled back from one of these is no better. *)
Definition lost_by (lost : list string) (s s1 : astate) (c : call) : list string :=
  match c with
  | CallEdit i u _ _ =>
      match get_artifact s i with
      | Return a => if changes_content u then map ArtifactRevision.id (List.filter (shares_file a) (revisions (a_db s1))) else []
      | Raise _ => []
      end
  | CallRollback _ target_id _ _ ids _ => if bool_decide (target_id ∈ lost) then [dr_revision_id ids] else []
  | _ => []
  end.

Lemma call_intact lost s s1 c :
  intact lost s -> intact lost s1 -> same_files (a_disk s) (a_disk s1) -> call_fits s s1 c ->
  intact (lost_by lost s s1 c ++ lost) (exec_call s s1 c).
Proof.
  intros Hs Hs1 Hsame [Hhex Hfit]. destruct c; cbn [exec_call lost_by draws app] in *; try (destruct (Hhex _ eq_refl) as [H0 H1]; clear Hhex).
  - by apply create_intact.
  - destruct (changes_content u) eqn:Hu.
    + destruct Hfit as [Htok Hap]; [done|]. apply (edit_content_intact lost); try done; [set_solver|].
      intros a r -> Hin Hsh. apply elem_of_app. left. apply list_elem_of_fmap_2. by apply List_filter_elem.
    + unfold changes_content in Hu. apply negb_false_iff, andb_true_iff in Hu as [Hi%bool_decide_eq_true Hf%bool_decide_eq_true].
      destruct (get_artifact s i); by apply edit_metadata_intact.
  - destruct (update_revision _ _ _ _ _ _ _ _ _ _) as [s' res] eqn:Hu. by apply (update_revision_spec _ _ _ lost) in Hu as [[-> _]|[H _]].
  - set (lost' := _ ++ lost). assert (Hl : lost ⊆ lost') by set_solver.
    destruct (rollback _ _ _ _ _ _ _ _ _ _) as [s' res] eqn:Hu.
    apply (rollback_spec sha256 cs cfg lost') in Hu; [|by apply (intact_mono lost)..|done|].
    + destruct Hu as [[-> _]|[H _]]; [by apply (intact_mono lost)|done].
    + subst lost'. case_bool_decide as Ht; [set_solver|]. cbn [app]. done.
  - by apply publish_intact.
  - by apply revoke_intact.
  - by apply delete_intact.
  - by apply attachment_intact.
  - by apply task_artifact_intact.
  - by apply migrate_intact.
Qed.

(** The states a service reaches: any that is intact to begin with, then call after call,
    with the revisions whose content may be gone.  The others are calls too, and no file is
    written over. *)
Inductive served : list string -> astate -> Prop :=
  | served_start s : intact [] s -> served [] s
  | served_call lost lost1 s s1 c :
      served lost s -> served lost1 s1 -> same_files (a_disk s) (a_disk s1) -> call_fits s s1 c ->
      served (lost_by (lost ++ lost1) s s1 c ++ lost ++ lost1) (exec_call s s1 c).

Lemma served_intact lost s : served lost s -> intact lost s.
Proof.
  induction 1; [done|]. apply call_intact; [..|done|done]; (eapply intact_mono; [|done]); set_solver.
Qed.

Definition readable (s : astate) (inline ref : option string) (size : Z) (checksum : string) : Prop :=
  forall n, size <= n -> exists data,
    read_content cs s inline ref n = Return data /\ size = len data /\ checksum = sha256_checksum sha256 data.

Lemma kept_readable s sch owner inline ref size checksum :
  content_kept (a_disk s) sch owner inline ref size checksum -> readable s inline ref size checksum.
Proof. intros (data & Hat & -> & ->) n Hn. exists data. split; [|done]. by eapply read_content_at. Qed.

(** C25. Nothing that is stored gets lost or altered, with one exception.  After any history of
    creations, edits, rollbacks, publications, revocations, deletions, registrations and
    migrations, also when they fail half way and when others run while a call waits, every
    snapshot and every revision kept in its row can be read, and so can every revision kept
    in a file, and what is read has the size and the checksum its row tells; and the tables
    fit together.  The exception: when an edit of the artifact itself replaces the content,
    it removes the file the artifact's row names, and the revisions that name the same file
    (the first one shares it) are lost, with what is rolled back from them. *)
Theorem stored_contents_intact lost s :
  served lost s ->
  adb_ok (a_db s)
  /\ (forall r, r ∈ revisions (a_db s) -> is_Some (ArtifactRevision.inline_content r) \/ ArtifactRevision.id r ∉ lost ->
        readable s (ArtifactRevision.inline_content r) (ArtifactRevision.content_ref r) (ArtifactRevision.size r) (ArtifactRevision.checksum r))
  /\ (forall p, p ∈ published (a_db s) ->
        readable s (PublishedArtifact.snapshot_inline_content p) (PublishedArtifact.snapshot_content_ref p)
          (PublishedArtifact.snapshot_size p) (PublishedArtifact.snapshot_checksum p)).
Proof.
  intros Hs%served_intact. split; [apply Hs|]. split; intros x Hx; [intros Hsafe|]; eapply kept_readable; apply Hs; [done| |done].
  intros [Hi Hl]. destruct Hsafe as [[y Hy]|Hsafe]; [congruence|done].
Qed.
End histories.

Lemma fresh_by_names d hex :
  hex_name hex -> forallb (fun q => negb (starts_with hex (List.last q ""))) (map fst (map_to_list d)) = true -> fresh_hex d hex.
Proof.
  intros Hh Hall. split; [done|]. intros dir filename. destruct (d !! _) as [x|] eqn:Hx; [|done]. exfalso.
  apply elem_of_map_to_list in Hx. rewrite forallb_forall in Hall.
  specialize (Hall (dir ++ [generate_server_filename hex filename])). rewrite List.last_last in Hall.
  unfold generate_server_filename in Hall. rewrite starts_with_prefix in Hall. cbn [negb] in Hall. discriminate Hall.
  apply in_map_iff. eexists. split; [|by apply list_elem_of_In]. done.
Qed.

Definition toy_sha (x : string) : string := String.concat "" (repeat "0" 62) +:+ (if len x <? 10 then "0" else "") +:+ pretty (len x).
Definition a_config : ArtifactServiceConfig := mkArtifactServiceConfig 100 50 10 "https://n" 100.
Definition a_flow : InformationFlowService := from_settings (mkInformationFlowConfig false true true) "sk-live-42".
Definition a_start : astate := mkAstate empty_adb ArtifactFiles.a_disk.
Definition note_input : CreateInput :=
  mkCreateInput "note.md" ArtifactKind.MARKDOWN "text/markdown" None (Some "the first") None None ArtifactSource.MANUAL None None None None
    "" None None "me".
Definition note_calls : list call :=
  [CallCreate note_input (mkDrawn "a1" "r1" "t1" "0a") 1;
   CallRevise "a1" "r1" (mkRevisionInput (Some "second") None None None "" None None) (mkDrawn "" "r2" "t2" "0b") 2;
   CallRollback "a1" "r1" "r2" "" (mkDrawn "" "r3" "t3" "0c") 3;
   CallPublish "a1" "r3" "r3" (mkDrawn "p1" "" "" "0d") 4;
   CallRevise "a1" "r3" (mkRevisionInput (Some "fourth") None None None "" None None) (mkDrawn "" "r4" "t4" "0e") 5;
   CallPublish "a1" "r4" "r4" (mkDrawn "p2" "" "" "1a") 6].
Definition run_note (l : list call) : astate :=
  foldl (fun s c => exec_call toy_sha a_store a_config a_flow None None s s c) a_start l.

Example note_runs :
  let s := run_note note_calls in
  (map ArtifactRevision.id (revisions (a_db s)), map PublishedArtifact.publish_id (published (a_db s)), size (a_disk s))
  = (["r1"; "r2"; "r3"; "r4"], ["p1"; "p2"], 7%nat).
Proof. vm_compute. reflexivity. Qed.

(** Calls that take nothing away, one after the other. *)
Notation toy_served := (served toy_sha a_store a_config a_flow None None).
Lemma served_step lost s c :
  toy_served lost s -> (forall ids, draws c = Some ids -> fresh_hex (a_disk s) (dr_hex ids)) ->
  match c with
  | CallEdit _ u ids _ => changes_content u = true ->
      fresh_hex (a_disk s) (dr_token ids)
      /\ forall f g, generate_server_filename (dr_token ids) f <> generate_server_filename (dr_hex ids) g
  | _ => True
  end ->
  toy_served (lost_by (lost ++ lost) s s c ++ lost ++ lost) (exec_call toy_sha a_store a_config a_flow None None s s c).
Proof. intros Hs Hf Hu. apply served_call; [done..| |]; [by intros q b b' -> [= ->]|]. split; [|done]. intros ids Hd. by split; apply Hf. Qed.

Lemma served_on s c :
  toy_served [] s -> (forall ids, draws c = Some ids -> fresh_hex (a_disk s) (dr_hex ids)) ->
  match c with CallEdit _ _ _ _ => False | _ => True end -> toy_served [] (exec_call toy_sha a_store a_config a_flow None None s s c).
Proof.
  intros Hs Hf Hc. pose proof (served_step [] s c Hs Hf) as H. assert (E : lost_by [] s s c = []) by by destruct c.
  cbn [app] in H. rewrite E in H. apply H. by destruct c.
Qed.

Lemma start_served : toy_served [] a_start.
Proof. apply served_start. split; [apply empty_adb_ok|..]; by intros x ?%elem_of_nil. Qed.

(** A name for a file is new where no file's name begins with it. *)
Ltac new_name := apply fresh_by_names; [split; [done|repeat constructor]|vm_compute; reflexivity].
Ltac serve := cbn [run_note foldl]; repeat (apply served_on; [|intros ids [= <-]; new_name|exact I]); apply start_served.

Lemma note_served : toy_served [] (run_note note_calls).
Proof. unfold run_note, note_calls. serve. Qed.

(** A file, a second revision of it in a file, and then an edit that replaces the content. *)
Definition raw_input : CreateInput :=
  mkCreateInput "note.bin" ArtifactKind.OTHER "application/octet-stream" None (Some "one") None None ArtifactSource.MANUAL None None
    None None "" None None "me".
Definition raw_calls : list call :=
  [CallCreate raw_input (mkDrawn "a1" "r1" "t1" "0a") 1;
   CallRevise "a1" "r1" (mkRevisionInput None (Some "two") None None "" None None) (mkDrawn "" "r2" "t2" "0b") 2].
Definition raw_edit : call :=
  CallEdit "a1" (mkUpdateInput None None None None None (Some "three") None) (mkDrawn "" "" "t3" "0c") 3.
Definition edited : astate := exec_call toy_sha a_store a_config a_flow None None (run_note raw_calls) (run_note raw_calls) raw_edit.

(** The first revision can be read until then, and not any more. *)
Example edit_removes_first_revision :
  (exists r, get_revision_content toy_sha a_store a_config (run_note raw_calls) "a1" (Some "r1") 4 = Return ("one", r))
  /\ get_revision_content toy_sha a_store a_config edited "a1" (Some "r1") 4 = Raise ArtifactContentUnavailableError
  /\ exists r, get_revision_content toy_sha a_store a_config edited "a1" (Some "r2") 4 = Return ("two", r).
Proof. split; [eexists; vm_compute; reflexivity|]. split; [vm_compute; reflexivity|]. eexists; vm_compute; reflexivity. Qed.

Lemma edited_served : toy_served ["r1"] edited.
Proof.
  change ["r1"] with (lost_by [] (run_note raw_calls) (run_note raw_calls) raw_edit ++ [] ++ []) at 1.
  apply (served_step []).
  - unfold run_note, raw_calls. serve.
  - intros ids [= <-]. new_name.
  - intros _. split; [new_name|]. intros f g. unfold generate_server_filename. cbn [dr_token dr_hex]. rewrite !app_str_cons. by intros [=].
Qed.

Lemma stored_contents_intact_witness :
  map ArtifactRevision.id (revisions (a_db edited)) = ["r1"; "r2"]
  /\ adb_ok (a_db edited)
  /\ (forall r, r ∈ revisions (a_db edited) -> ArtifactRevision.id r = "r2" ->
        readable toy_sha a_store edited (ArtifactRevision.inline_content r) (ArtifactRevision.content_ref r) (ArtifactRevision.size r)
          (ArtifactRevision.checksum r))
  /\ forall p, p ∈ published (a_db (run_note note_calls)) ->
        readable toy_sha a_store (run_note note_calls) (PublishedArtifact.snapshot_inline_content p)
          (PublishedArtifact.snapshot_content_ref p) (PublishedArtifact.snapshot_size p) (PublishedArtifact.snapshot_checksum p).
Proof.
  destruct (stored_contents_intact toy_sha a_store a_config a_flow None None [] (run_note note_calls) note_served) as (_ & _ & H0).
  destruct (stored_contents_intact toy_sha a_store a_config a_flow None None ["r1"] edited edited_served) as (H1 & H2 & _).
  split; [vm_compute; reflexivity|]. split; [exact H1|]. split; [|exact H0].
  intros r Hr Hid. apply H2; [exact Hr|]. right. rewrite Hid. intros [=]%list_elem_of_singleton.
Defined.
