(* ===== verification/ArtifactEdits.v ===== *)
(** What single calls of the artifact service achieve: a rollback restores what its target
    held; an edit that lost a race leaves no trace; what becomes public is what the
    information flow service released. *)
From S2P Require Import Prelude Text Unicode TaskStore InformationFlow FlowProps ArtifactDomain ArtifactStore ArtifactHistory ArtifactContent ArtifactFiles ArtifactService ArtifactFlows ArtifactProps ArtifactCalls ArtifactIntact.
From stdpp Require Import gmap.
Open Scope Z_scope.

Section edits.
Context (sha256 : string -> string) (cs : ContentStore) (cfg : ArtifactServiceConfig) (flow : InformationFlowService).
Notation content_at := (content_at cs).
Notation intact := (intact sha256 cs).

(** * Rolling back *)

Lemma find_snoc_fresh {A} (f : A -> bool) l x : (forall y, y ∈ l -> f y = false) -> f x = true -> List.find f (l ++ [x]) = Some x.
Proof.
  intros Hl Hx. induction l as [|y l IH]; cbn; [by rewrite Hx|]. rewrite (Hl y) by by left. apply IH. intros z Hz. apply Hl. by right.
Qed.

(** An appended revision is the current one. *)
Lemma appended_current d i r expected now d' :
  append_revision d i r expected now = (d', Return r) ->
  ArtifactStore.get_revision d' i (ArtifactRevision.id r) = Some r /\ history d' i = history d i ++ [r]
  /\ exists a, ArtifactStore.get_artifact d' i = Some a /\ Artifact.current_revision_id a = Some (ArtifactRevision.id r).
Proof.
  intros (_ & Hi & (a & Ha & _) & Hnew & ->)%append_returns. split; [|split].
  - unfold ArtifactStore.get_revision. cbn. apply find_snoc_fresh; [|unfold revision_of; by rewrite !bool_decide_true].
    intros y Hy. apply andb_false_iff. left. apply bool_decide_eq_false. intros E. apply Hnew. rewrite <- E. by apply list_elem_of_fmap_2.
  - change (history (point_to i (ArtifactRevision.id r) now ?x) i) with (history x i). rewrite history_snoc.
    unfold revision_of. by rewrite bool_decide_true.
  - unfold ArtifactStore.get_artifact in *. cbn. revert Ha. generalize (artifacts d). intros l.
    induction l as [|b l IH]; [done|]. cbn [List.find map]. destruct (is_artifact i b) eqn:Hb.
    + intros [= ->]. replace (is_artifact i _) with true by (symmetry; exact Hb). by eexists.
    + rewrite Hb. exact IH.
Qed.

Lemma read_current s i a r data now :
  ArtifactStore.get_artifact (a_db s) i = Some a -> Artifact.current_revision_id a = Some (ArtifactRevision.id r) ->
  ArtifactStore.get_revision (a_db s) i (ArtifactRevision.id r) = Some r ->
  read_revision_bytes cs cfg s r = Return data -> ArtifactRevision.checksum r = sha256_checksum sha256 data ->
  get_revision_content sha256 cs cfg s i None now = Return (data, r).
Proof.
  intros Ha Hc Hr Hb Hk. unfold get_revision_content, get_artifact. rewrite Ha. cbn [found bind_result]. rewrite Hc. cbn [default].
  rewrite Hr. cbn [found bind_result]. rewrite Hb. cbn [bind_result]. unfold verify_revision_checksum. by rewrite bool_decide_true.
Qed.

(** C26. A rollback restores what its target held.  Reading the artifact afterwards gives the
    bytes, the kind and the MIME type that reading the target gave before, in a new revision that
    names the target and comes after all others; no revision is lost and no file changes.  (The
    target is one whose content has not been lost, as stored_contents_intact tells it.) *)
Theorem rollback_restores lost s during i target_id expected summary ids now s' committed out :
  intact lost s -> intact lost (during s) -> target_id ∉ lost -> fresh_hex (a_disk (during s)) (dr_hex ids) ->
  rollback cs cfg s during i target_id expected summary ids now = (s', Return (committed, out)) ->
  exists data target,
    get_revision_content sha256 cs cfg s i (Some target_id) now = Return (data, target)
    /\ get_revision_content sha256 cs cfg s' i None now = Return (data, committed)
    /\ ArtifactRevision.kind committed = ArtifactRevision.kind target /\ ArtifactRevision.mime committed = ArtifactRevision.mime target
    /\ ArtifactRevision.rollback_from_revision_id committed = Some target_id
    /\ history (a_db s') i = history (a_db (during s)) i ++ [committed]
    /\ a_disk (during s) ⊆ a_disk s'.
Proof.
  intros Hs Hd Hlost Hhex Hrb. apply (rollback_spec sha256 cs cfg lost) in Hrb as Hspec; [|done..].
  destruct Hspec as [[_ [e He]]|(Hs' & Hsub & target & data & Ht & Hb & Hinl & Hm & Hk & Hsum & Hf & Happ & Hat)]; [done|].
  apply get_revision_spec in Ht as Hin. destruct Hin as (Hin & Hid & Hown).
  assert (Hsafe : ~ at_risk lost target) by (intros [_ Hl]; by rewrite Hid in Hl).
  pose proof (kept_bytes sha256 cs lost s target _ _ Hs Hin Hsafe Hb) as [Hsz Hck].
  apply appended_current in Happ as (Hget & Hh & a & Ha & Hc).
  exists data, target. split; [|split; [|done]].
  - unfold rollback in Hrb. destruct (current_for_edit cfg s i expected) as [[a0 current]|] eqn:He; [|done].
    unfold current_for_edit in He. unfold get_revision_content. destruct (get_artifact s i) as [b|]; [|done]. cbn [bind_result] in *.
    destruct (Artifact.current_revision_id b) as [c|]; [|done]. change (default c (Some target_id)) with target_id. rewrite Ht. cbn [found bind_result]. rewrite Hb.
    cbn [bind_result]. unfold verify_revision_checksum. by rewrite bool_decide_true.
  - assert (Hread : read_revision_bytes cs cfg s' committed = Return data).
    { unfold read_revision_bytes in *. destruct Hat as [[-> _]|(Hi & Hrest)]; [done|]. eapply read_content_at; [by right|].
      rewrite <- Hinl, Hi in Hb. cbn in Hb. destruct (ArtifactRevision.content_ref target); [|done].
      by apply read_returns in Hb as (? & ? & ? & ? & ? & ?). }
    apply (read_current s' i a); try done. by rewrite Hsum.
Qed.
(** * Edits that lose a race *)

Definition same_file_set (d d' : disk) : Prop := forall q b, d !! q = Some (File b) <-> d' !! q = Some (File b).

Lemma same_file_set_refl d : same_file_set d d.
Proof. done. Qed.

(** Storing content and removing it again. *)
Lemma store_undone s i filename content hex s1 r :
  fresh_hex (a_disk s) hex -> store_content cs s i filename content hex = (s1, r) ->
  a_db s1 = a_db s /\
  match r with
  | Return (ref, _) => forall d, same_file_set (a_disk s) (a_disk (best_effort_delete_opt cs (s1 <| a_db := d |>) ref))
  | Raise _ => same_file_set (a_disk s) (a_disk s1)
  end.
Proof.
  intros [Hh Hf]. unfold store_content, write_content. destruct content as [text|raw]; [by intros [= <- <-]|].
  assert (Hnew : a_disk s !! (items_root cs ++ [i; generate_server_filename hex filename]) = None).
  { change [i; ?x] with ([i] ++ [x]). rewrite app_assoc. apply Hf. }
  destruct (write_atomic _ _ _ _ _ _) as [d [ref|e]] eqn:Hw; intros [= <- <-]; (split; [done|]).
  - apply write_atomic_returns in Hw as Hret; [|done]. destruct Hret as (Hp & Hl & Hk). intros d0 q b. cbn.
    rewrite (delete_placed cs d ref i _ raw Hp Hl). cbn [fst]. split.
    + intros Hq. assert (Hne : q <> items_root cs ++ [i; generate_server_filename hex filename]) by (intros ->; congruence).
      rewrite lookup_delete_ne by done. by apply Hk.
    + intros [Hne Hq]%lookup_delete_Some. apply (write_files cs _ _ _ _ _ _ _ _ _ Hw) in Hq as [Hq|[-> _]]; done.
  - intros q b. cbn. split; intros Hq.
    + apply write_included in Hw; [|by apply fresh_hex_in]. by eapply lookup_weaken.
    + by apply (write_files cs _ _ _ _ _ _ _ _ _ Hw) in Hq as [Hq|[_ [ref ?]]].
Qed.

(** An append that is refused because another revision is current. *)
Lemma commit_conflict s i expected current r now s' :
  commit_revision cs s i expected current r now = (s', Raise ArtifactRevisionConflictError) ->
  s' = best_effort_delete_opt cs (s <| a_db := a_db s |>) (ArtifactRevision.content_ref r).
Proof.
  unfold commit_revision, ArtifactRevision.make. destruct (ArtifactRevision.valid r); [|done].
  destruct (append_revision (a_db s) i r expected now) as [d [c|e]] eqn:Ha; intros [= <- _]. by apply append_raises in Ha as ->.
Qed.

Lemma stored_conflict s i filename content hex s1 ref inline expected current r now s' :
  fresh_hex (a_disk s) hex -> store_content cs s i filename content hex = (s1, Return (ref, inline)) ->
  ArtifactRevision.content_ref r = ref ->
  commit_revision cs s1 i expected current r now = (s', Raise ArtifactRevisionConflictError) ->
  a_db s' = a_db s /\ same_file_set (a_disk s) (a_disk s').
Proof.
  intros Hf Hst <- ->%commit_conflict. apply store_undone in Hst as [Hdb Hfiles]; [|done]. split; [|apply Hfiles].
  rewrite <- Hdb. by destruct (ArtifactRevision.content_ref r).
Qed.

(** Refused when another revision is current. *)
Lemma commit_superseded s i expected current r now s' res :
  (forall a, ArtifactStore.get_artifact (a_db s) i = Some a -> Artifact.current_revision_id a <> Some expected) ->
  commit_revision cs s i expected current r now = (s', res) -> exists e, res = Raise e.
Proof.
  intros Hsup. unfold commit_revision, ArtifactRevision.make. destruct (ArtifactRevision.valid r); [|intros [= _ <-]; eauto].
  destruct (append_revision (a_db s) i r expected now) as [d [c|e]] eqn:Ha; [|intros [= _ <-]; eauto].
  apply append_returns in Ha as (_ & _ & (a & Ha & Hc) & _). by apply Hsup in Ha.
Qed.

(** C27. Two people edit the same revision.  When another edit of the artifact got in while a call
    was reading and preparing, whether it changes the content or rolls it back, the call
    raises, so the other edit is never overwritten; and a call that ends in a conflict leaves
    the tables and the files exactly as the others left them, the file it had written removed. *)
Theorem lost_race_leaves_no_trace s during i target_id expected summary input ids now :
  fresh_hex (a_disk (during s)) (dr_hex ids) ->
  let '(s1, r1) := update_revision sha256 cs cfg s during i expected input ids now in
  let '(s2, r2) := rollback cs cfg s during i target_id expected summary ids now in
  ((forall a, ArtifactStore.get_artifact (a_db (during s)) i = Some a -> Artifact.current_revision_id a <> Some expected) ->
     (exists e, r1 = Raise e) /\ exists e, r2 = Raise e)
  /\ (r1 = Raise ArtifactRevisionConflictError ->
       s1 = s \/ a_db s1 = a_db (during s) /\ same_file_set (a_disk (during s)) (a_disk s1))
  /\ (r2 = Raise ArtifactRevisionConflictError ->
       s2 = s \/ a_db s2 = a_db (during s) /\ same_file_set (a_disk (during s)) (a_disk s2)).
Proof.
  intros Hhex. destruct (update_revision _ _ _ _ _ _ _ _ _ _) as [s1 r1] eqn:H1, (rollback _ _ _ _ _ _ _ _ _ _) as [s2 r2] eqn:H2.
  unfold update_revision in H1. unfold rollback in H2.
  assert (A : ((forall a, ArtifactStore.get_artifact (a_db (during s)) i = Some a -> Artifact.current_revision_id a <> Some expected) ->
                exists e, r1 = Raise e)
              /\ (r1 = Raise ArtifactRevisionConflictError ->
                  s1 = s \/ a_db s1 = a_db (during s) /\ same_file_set (a_disk (during s)) (a_disk s1))).
  { clear H2. destruct (let? _ := _ in _) as [[current [[kind mime] content]]|e]; [|injection H1 as <- <-; split; eauto].
    destruct (store_content _ _ _ _ _ _) as [s3 [[ref inline]|e]] eqn:Hst.
    - split; [|intros ->; right; by eapply stored_conflict; [exact Hhex|exact Hst| |exact H1]]. intros Hsup. eapply commit_superseded; [|exact H1].
      apply store_undone in Hst as [-> _]; done.
    - injection H1 as <- <-. split; [eauto|]. intros _. right. by apply store_undone in Hst. }
  assert (B : ((forall a, ArtifactStore.get_artifact (a_db (during s)) i = Some a -> Artifact.current_revision_id a <> Some expected) ->
                exists e, r2 = Raise e)
              /\ (r2 = Raise ArtifactRevisionConflictError ->
                  s2 = s \/ a_db s2 = a_db (during s) /\ same_file_set (a_disk (during s)) (a_disk s2))).
  { clear H1. destruct (let? _ := _ in _) as [[[current target] content]|e]; [|injection H2 as <- <-; split; eauto].
    destruct (store_content _ _ _ _ _ _) as [s3 [[ref inline]|e]] eqn:Hst.
    - split; [|intros ->; right; by eapply stored_conflict; [exact Hhex|exact Hst| |exact H2]]. intros Hsup. eapply commit_superseded; [|exact H2].
      apply store_undone in Hst as [-> _]; done.
    - injection H2 as <- <-. split; [eauto|]. intros _. right. by apply store_undone in Hst. }
  naive_solver.
Qed.
(** * Publishing *)

(** A file that is there, and larger than what is asked for. *)
Lemma read_too_long d ref n sch parts data :
  parse_ref ref = Return (sch, parts) -> leads_to cs d sch parts data -> n < len data ->
  read cs d ref n = Raise ArtifactValidationError.
Proof.
  intros Hp [Hf Hk] Hn. unfold read. rewrite Hp. cbn [bind_result]. destruct (n <? 0); [done|].
  apply parse_ref_plain in Hp as (Hne & _). rewrite (resolve_existing_complete d _ parts data) by done. cbn [bind_result].
  by rewrite Hf, (proj2 (Z.ltb_lt _ _) Hn).
Qed.

Lemma register_new d p i rid expected now d' x :
  adb_ok d -> PublishedArtifact.artifact_id p = Some i -> PublishedArtifact.is_active p = true ->
  PublishedArtifact.publish_id p ∉ map PublishedArtifact.publish_id (published d) ->
  register_revision_publish d p i rid expected now = (d', Return x) -> PublishedArtifact.publish_id x = PublishedArtifact.publish_id p ->
  same_snapshot p x /\ ArtifactStore.get_published d' (PublishedArtifact.publish_id p) = Some x /\ get_active_publish d' i = Some x.
Proof.
  intros Hd Hi Hact Hnew Hr Hid. pose proof (exec_aop_ok d (APublish p i rid expected now) Hd Hi) as Hok. cbn [exec_aop] in Hok.
  rewrite Hr in Hok. cbn [fst] in Hok. unfold register_revision_publish in Hr.
  destruct (ArtifactStore.get_artifact d i) as [a|]; [|done]. destruct (negb _); [done|].
  destruct (List.find _ _) as [q|] eqn:Hf.
  { injection Hr as -> ->. apply find_some in Hf as [Hq _]. destruct Hnew. rewrite <- Hid. by apply list_elem_of_fmap_2, list_elem_of_In. }
  set (p' := _ <| PublishedArtifact.published_revision_id := Some rid |>) in *.
  destruct (insert_published _ p') as [d1|] eqn:Hins; [|done]. apply insert_published_spec in Hins as (-> & Hnew' & _).
  injection Hr as <- <-. split; [done|]. split.
  - unfold ArtifactStore.get_published. apply (find_snoc_fresh (fun q => bool_decide (PublishedArtifact.publish_id q = PublishedArtifact.publish_id p))).
    + intros q Hq. apply bool_decide_eq_false. intros E. apply Hnew'. change (PublishedArtifact.publish_id p') with (PublishedArtifact.publish_id p).
      rewrite <- E. by apply list_elem_of_fmap_2.
    + by apply bool_decide_eq_true.
  - apply find_active; [done| |].
    + cbn. apply elem_of_app. right. by apply list_elem_of_singleton.
    + unfold active_of, publish_of, p'. cbn. rewrite Hi, bool_decide_true by done. exact Hact.
Qed.

Lemma snapshot_text_released s a r data :
  all_apart (if_secrets flow) -> snapshot_bytes cs cfg flow s a r = Return data -> is_text_kind (ArtifactRevision.kind r) = true ->
  free_of (if_secrets flow) data
  /\ exists text, read_revision_text cs s r (artifact_max_bytes cfg) = Return text
       /\ rr_content (release flow text ReleaseTarget.PUBLIC_ARTIFACT (resolve_classification a) "artifact"
                        (default [] (Artifact.labels a))) = Some data.
Proof.
  intros Hapart. unfold snapshot_bytes. intros Hb Ht. rewrite Ht in Hb.
  destruct (read_revision_text _ _ _ _) as [text|]; [|done]. cbn [bind_result] in Hb. cbn zeta in Hb.
  destruct (negb _); [done|]. destruct (rr_content _) as [y|] eqn:Hy; [|done]. injection Hb as ->.
  split; [by apply released_free_of in Hy as [_ ?]|]. by exists text.
Qed.

(** C28. What becomes public was released.  A publication that made a new snapshot made it the one
    public snapshot of the artifact; it holds exactly what the information flow service released
    of the text of the revision, or the bytes of a binary one, and in a released text no known
    secret occurs.  Whoever opens its address gets exactly that when the snapshot is kept in its
    row, as short texts are, or is no larger than the limit for what is public
    (artifact_publish_max_bytes); a larger one was published all the same, and whoever opens
    it gets an error and no content. *)
Theorem public_content_released s during i rid expected ids now s' out :
  adb_ok (a_db (during s)) -> same_files (a_disk s) (a_disk (during s)) -> fresh_hex (a_disk (during s)) (dr_hex ids) ->
  dr_id ids ∉ map PublishedArtifact.publish_id (published (a_db (during s))) -> all_apart (if_secrets flow) ->
  publish_revision sha256 cs cfg flow s during i rid expected ids now = (s', Return out) -> pub_reused out = false ->
  exists a r data,
    get_artifact s i = Return a /\ ArtifactStore.get_revision (a_db s) i rid = Some r /\ snapshot_bytes cs cfg flow s a r = Return data
    /\ get_active_publish (a_db s') i = Some (pub_published out)
    /\ get_published_content cs cfg s' (PublishedArtifact.publish_id (pub_published out))
       = (if kept_inline cfg r data || (len data <=? artifact_publish_max_bytes cfg) then Return (data, pub_published out)
          else Raise ArtifactValidationError)
    /\ (is_text_kind (ArtifactRevision.kind r) = true ->
         free_of (if_secrets flow) data
         /\ exists text, read_revision_text cs s r (artifact_max_bytes cfg) = Return text
              /\ rr_content (release flow text ReleaseTarget.PUBLIC_ARTIFACT (resolve_classification a) "artifact"
                               (default [] (Artifact.labels a))) = Some data).
Proof.
  intros Hd Hsame Hhex Hnew Hapart. unfold publish_revision.
  destruct (prepare_publish _ _ _ _ _ _ _) as [[[[a r] active] data]|] eqn:Hp; [|done].
  apply prepare_publish_spec in Hp as (Ha & Hi & Hr & Hb). intros Hout Hre. exists a, r, data. do 3 (split; [done|]).
  destruct (match active with Some _ => _ | None => _ end); [injection Hout as _ <-; done|].
  destruct (snapshot_file _ _ _ _ _ _ _) as [s1 [ref|e]] eqn:Hf; [|done].
  apply (snapshot_file_spec cs cfg flow s (during s) a) in Hf as (Hdb & Hsub & Hat & _); [|done..].
  unfold register_snapshot, PublishedArtifact.make in Hout. set (p := new_snapshot _ _ _ _ _ _ _ _) in Hout.
  destruct (PublishedArtifact.valid p); [|done]. rewrite Hdb in Hout.
  destruct (register_revision_publish _ _ _ _ _ _) as [d [x|e]] eqn:Hrr; [|done]. cbn zeta in Hout.
  assert (Hid : PublishedArtifact.publish_id x = PublishedArtifact.publish_id p).
  { injection Hout as _ <-. cbn in Hre. apply negb_false_iff in Hre. by apply bool_decide_eq_true in Hre. }
  rewrite bool_decide_true in Hout by done. cbn [negb] in Hout. injection Hout as <- <-. cbn [pub_published].
  apply register_new in Hrr as (Hsnap & Hget & Hact); [|done|by rewrite <- Hi|done|done|done].
  split; [done|]. split; [|by apply snapshot_text_released].
  unfold get_published_content, get_published. cbn [a_db]. rewrite Hid. change (a_db (s1 <| a_db := d |>)) with d.
  rewrite Hget. cbn [found bind_result]. destruct Hsnap as (_ & _ & _ & _ & -> & -> & _).
  subst p. cbn [new_snapshot PublishedArtifact.snapshot_inline_content PublishedArtifact.snapshot_content_ref].
  destruct (kept_inline cfg r data); [done|]. cbn [orb]. destruct Hat as [[? _]|(_ & ref' & name & -> & Hpr & Hl)]; [done|]. cbn [read_content].
  change (a_disk (s1 <| a_db := d |>)) with (a_disk s1).
  destruct (Z.leb_spec (len data) (artifact_publish_max_bytes cfg)) as [Hlen|Hlen].
  - erewrite (proj2 (read_returns cs _ _ _ data)); [done|]. exists Published, [dr_id ids; name]. repeat split; try done; try apply Hl. unfold len in *. lia.
  - by rewrite (read_too_long (a_disk s1) ref' _ Published [dr_id ids; name] data).
Qed.
(** The content store takes a text of the same length at most as the one that stays in its
    row, and a text that stays in its row is not copied: a longer text is never published. *)
Theorem long_text_never_published s during i rid expected ids now s' out :
  cs_inline_max_bytes cs = artifact_inline_max_bytes cfg ->
  publish_revision sha256 cs cfg flow s during i rid expected ids now = (s', Return out) -> pub_reused out = false ->
  exists a r data,
    ArtifactStore.get_revision (a_db s) i rid = Some r /\ snapshot_bytes cs cfg flow s a r = Return data
    /\ (is_text_kind (ArtifactRevision.kind r) = true -> len data <= artifact_inline_max_bytes cfg).
Proof.
  intros Hmax. unfold publish_revision.
  destruct (prepare_publish _ _ _ _ _ _ _) as [[[[a r] active] data]|] eqn:Hp; [|done].
  apply prepare_publish_spec in Hp as (_ & _ & Hr & Hb). intros Hout Hre. exists a, r, data. do 2 (split; [done|]). intros Ht.
  destruct (match active with Some _ => _ | None => _ end); [by injection Hout as _ <-|].
  destruct (snapshot_file _ _ _ _ _ _ _) as [s1 [ref|e]] eqn:Hf; [|done]. unfold snapshot_file, kept_inline in Hf. rewrite Ht in Hf.
  destruct (Z.leb_spec (len data) (artifact_inline_max_bytes cfg)); [done|]. exfalso. cbn [andb] in Hf.
  unfold copy_to_publish_snapshot in Hf. destruct (negb _); [done|]. destruct (ensure_dirs _ _ _) as [d1 [[]|e]]; [|done].
  rewrite Hmax in Hf. destruct (Z.ltb_spec (artifact_inline_max_bytes cfg) (len data)); [done|lia].
Qed.
End edits.

(** * Witnesses *)

Definition two_edits : list call :=
  [CallCreate note_input (mkDrawn "a1" "r1" "t1" "0a") 1;
   CallRevise "a1" "r1" (mkRevisionInput (Some "second") None None None "" None None) (mkDrawn "" "r2" "t2" "0b") 2].
Definition other_edit (s : astate) : astate :=
  exec_call toy_sha a_store a_config a_flow None None s s
    (CallRevise "a1" "r2" (mkRevisionInput (Some "theirs") None None None "" None None) (mkDrawn "" "r3" "t3" "0c") 3).
Definition secret_note : list call :=
  [CallCreate (mkCreateInput "note.md" ArtifactKind.MARKDOWN "text/markdown" None (Some "sk-live-42") None None ArtifactSource.MANUAL
                 None None None None "" None None "me") (mkDrawn "a1" "r1" "t1" "0a") 1].

Lemma two_edits_intact : intact toy_sha a_store [] (run_note two_edits).
Proof. eapply served_intact. unfold run_note, two_edits. serve. Qed.
Lemma secret_note_intact : intact toy_sha a_store [] (run_note secret_note).
Proof. eapply served_intact. unfold run_note, secret_note. serve. Qed.

Lemma secret_note_published :
  exists out, (publish_revision toy_sha a_store a_config a_flow (run_note secret_note) id "a1" "r1" "r1" (mkDrawn "p1" "" "" "0b") 2).2
              = Return out /\ pub_reused out = false /\ PublishedArtifact.publish_id (pub_published out) = "p1".
Proof. eexists. split; [vm_compute; reflexivity|by split]. Qed.

Lemma rollback_restores_witness :
  let s := run_note two_edits in
  let s' := (rollback a_store a_config s id "a1" "r1" "r2" "undo" (mkDrawn "" "r3" "t3" "0c") 3).1 in
  exists r, get_revision_content toy_sha a_store a_config s' "a1" None 3 = Return ("the first", r).
Proof.
  intros s s'. destruct (rollback a_store a_config s id "a1" "r1" "r2" "undo" (mkDrawn "" "r3" "t3" "0c") 3).2 as [[committed out]|e] eqn:H;
    [|vm_compute in H; discriminate H].
  destruct (rollback_restores toy_sha a_store a_config [] s id "a1" "r1" "r2" "undo" (mkDrawn "" "r3" "t3" "0c") 3 s' committed out)
    as (data & target & Hd & Hc & _); [apply two_edits_intact|apply two_edits_intact|apply not_elem_of_nil|new_name| |].
  - unfold s'. rewrite <- H. apply surjective_pairing.
  - exists committed. rewrite Hc. f_equal. f_equal. vm_compute in Hd. by injection Hd.
Defined.

Lemma lost_race_leaves_no_trace_witness :
  let s := run_note two_edits in
  (exists e, (update_revision toy_sha a_store a_config s other_edit "a1" "r2" (mkRevisionInput None (Some "mine") None None "" None None)
                (mkDrawn "" "r4" "t4" "0d") 4).2 = Raise e)
  /\ exists e, (rollback a_store a_config s other_edit "a1" "r1" "r2" "" (mkDrawn "" "r4" "t4" "0d") 4).2 = Raise e.
Proof.
  intros s. pose proof (lost_race_leaves_no_trace toy_sha a_store a_config s other_edit "a1" "r1" "r2" ""
    (mkRevisionInput None (Some "mine") None None "" None None) (mkDrawn "" "r4" "t4" "0d") 4 ltac:(new_name)) as H.
  destruct (update_revision _ _ _ _ _ _ _ _ _ _) as [s1 r1]. destruct (rollback _ _ _ _ _ _ _ _ _ _) as [s2 r2].
  destruct H as [H _]. apply H. intros a Ha. vm_compute in Ha. by injection Ha as <-.
Defined.

Lemma public_content_released_witness :
  let s := run_note secret_note in
  let s' := (publish_revision toy_sha a_store a_config a_flow s id "a1" "r1" "r1" (mkDrawn "p1" "" "" "0b") 2).1 in
  exists p, get_published_content a_store a_config s' "p1" = Return ("[REDACTED]", p).
Proof.
  intros s s'. destruct secret_note_published as (out & Hout & Hre & Hid).
  destruct (public_content_released toy_sha a_store a_config a_flow s id "a1" "r1" "r1" (mkDrawn "p1" "" "" "0b") 2 s' out)
    as (a & r & data & Ha & Hg & Hb & _ & Hc & _);
    [apply (in_db _ _ _ _ secret_note_intact)|intros q b b' H1 H2; cbn [id] in H2; congruence|new_name|by intros ?%elem_of_nil|apply key_apart| |done|].
  - unfold s'. rewrite <- Hout. apply surjective_pairing.
  - rewrite Hid in Hc. vm_compute in Ha. injection Ha as <-. vm_compute in Hg. injection Hg as <-. vm_compute in Hb. injection Hb as <-.
    exists (pub_published out). exact Hc.
Defined.

Lemma long_text_never_published_witness :
  exists a r data, ArtifactStore.get_revision (a_db (run_note secret_note)) "a1" "r1" = Some r
    /\ snapshot_bytes a_store a_config a_flow (run_note secret_note) a r = Return data /\ len data <= 10.
Proof.
  destruct secret_note_published as (out & Hout & Hre & _).
  destruct (long_text_never_published toy_sha a_store a_config a_flow (run_note secret_note) id "a1" "r1" "r1" (mkDrawn "p1" "" "" "0b") 2
              (publish_revision toy_sha a_store a_config a_flow (run_note secret_note) id "a1" "r1" "r1" (mkDrawn "p1" "" "" "0b") 2).1 out)
    as (a & r & data & Hg & Hb & Hlen); [reflexivity|rewrite <- Hout; apply surjective_pairing|done|].
  exists a, r, data. split; [done|]. split; [done|]. apply Hlen. vm_compute in Hg. by injection Hg as <-.
Defined.
