(* ===== verification/Effects.v ===== *)
(** Calls that read and change a shared state and that return or raise: a state and
    exception monad for the code whose awaits may change anything, and the two ways
    the proofs reason about it, a weakest precondition and relations every step keeps. *)
From S2P Require Import Prelude.

Definition act (S A : Type) : Type := S -> S * result A.

Section act.
Context {S : Type}.

Definition ret {A} (a : A) : act S A := fun s => (s, Return a).
Definition raise {A} (e : py_exc) : act S A := fun s => (s, Raise e).
Definition bind {A B} (c : act S A) (k : A -> act S B) : act S B := fun s =>
  match c s with (s, Return a) => k a s | (s, Raise e) => (s, Raise e) end.
(** [try: c except ...: h e], where [h e = None] lets the exception pass. *)
Definition try_except {A} (c : act S A) (h : py_exc -> option (act S A)) : act S A := fun s =>
  match c s with
  | (s, Return a) => (s, Return a)
  | (s, Raise e) => match h e with Some k => k s | None => (s, Raise e) end
  end.
Definition get : act S S := fun s => (s, Return s).
Definition modify (f : S -> S) : act S unit := fun s => (f s, Return tt).
Definition of_result {A} (r : result A) : act S A := fun s => (s, r).
(** A step of a part of the state that always returns. *)
Definition step {A} (f : S -> S * A) : act S A := fun s => let '(s, a) := f s in (s, Return a).
Definition when (b : bool) (c : act S unit) : act S unit := if b then c else ret tt.
(** [for x in l: ...] *)
Fixpoint for_each {A} (l : list A) (body : A -> act S unit) : act S unit :=
  match l with [] => ret tt | x :: l => bind (body x) (fun _ => for_each l body) end.

Lemma bind_step {A B} (f : S -> S * A) (k : A -> act S B) s : bind (step f) k s = k (f s).2 (f s).1.
Proof. unfold bind, step. by destruct (f s). Qed.

(** * Weakest preconditions *)

Definition wp {A} (c : act S A) (Q : S -> result A -> Prop) (s : S) : Prop := Q (c s).1 (c s).2.

Lemma wp_ret {A} (a : A) Q s : Q s (Return a) -> wp (ret a) Q s.
Proof. done. Qed.
Lemma wp_raise {A} e (Q : S -> result A -> Prop) s : Q s (Raise e) -> wp (raise e) Q s.
Proof. done. Qed.
Lemma wp_bind {A B} (c : act S A) (k : A -> act S B) Q s :
  wp c (fun s r => match r with Return a => wp (k a) Q s | Raise e => Q s (Raise e) end) s -> wp (bind c k) Q s.
Proof. unfold wp, bind. by destruct (c s) as [s' [a|e]]. Qed.
Lemma wp_try {A} (c : act S A) h Q s :
  wp c (fun s r => match r with
                   | Return a => Q s (Return a)
                   | Raise e => match h e with Some k => wp k Q s | None => Q s (Raise e) end
                   end) s -> wp (try_except c h) Q s.
Proof. unfold wp, try_except. destruct (c s) as [s' [a|e]]; cbn; [done|]. by destruct (h e). Qed.
Lemma wp_mono {A} (c : act S A) (P Q : S -> result A -> Prop) s :
  wp c P s -> (forall s r, P s r -> Q s r) -> wp c Q s.
Proof. intros H HPQ. by apply HPQ. Qed.
Lemma wp_of_result {A} (r : result A) Q s : Q s r -> wp (of_result r) Q s.
Proof. done. Qed.
Lemma wp_when b c (Q : S -> result unit -> Prop) s :
  (b = true -> wp c Q s) -> (b = false -> Q s (Return tt)) -> wp (when b c) Q s.
Proof. destruct b; cbn; [auto|intros _ H; by apply wp_ret, H]. Qed.

(** * What holds when a call returns *)

Definition ends {A} (c : act S A) (Q : A -> S -> Prop) (s : S) : Prop :=
  forall s' a, c s = (s', Return a) -> Q a s'.

Lemma ends_ret {A} (a : A) (Q : A -> S -> Prop) s : Q a s -> ends (ret a) Q s.
Proof. by intros H s' b [= <- <-]. Qed.
Lemma ends_raise {A} e (Q : A -> S -> Prop) s : ends (raise e) Q s.
Proof. by intros s' a H. Qed.
Lemma ends_of_result {A} (r : result A) (Q : A -> S -> Prop) s : (forall a, r = Return a -> Q a s) -> ends (of_result r) Q s.
Proof. intros H s' a [= <- Hr]. auto. Qed.
Lemma ends_modify f (Q : unit -> S -> Prop) s : Q tt (f s) -> ends (modify f) Q s.
Proof. by intros H s' [] [= <-]. Qed.
Lemma ends_bind {A B} (c : act S A) (k : A -> act S B) Q s : ends c (fun a => ends (k a) Q) s -> ends (bind c k) Q s.
Proof.
  unfold ends, bind. intros H s' b. destruct (c s) as [s1 [a|e]]; [|done]. apply (H s1 a eq_refl).
Qed.
Lemma ends_try {A} (c : act S A) h (Q : A -> S -> Prop) s :
  ends c Q s -> (forall s' e k, c s = (s', Raise e) -> h e = Some k -> ends k Q s') -> ends (try_except c h) Q s.
Proof.
  unfold ends, try_except. intros Hc Hh s' a. destruct (c s) as [s1 [b|e]]; [intros [= <- <-]; by apply Hc|].
  destruct (h e) as [k|] eqn:He; [|done]. by apply (Hh s1 e k).
Qed.
Lemma ends_mono {A} (c : act S A) (P Q : A -> S -> Prop) s : ends c P s -> (forall a s', P a s' -> Q a s') -> ends c Q s.
Proof. intros H HPQ s' a Hc. by apply HPQ, H. Qed.

(** * Relations every step keeps *)

Definition within {A} (R : S -> S -> Prop) (c : act S A) : Prop := forall s, R s (c s).1.

Section within.
Context (R : S -> S -> Prop) `{!PreOrder R}.

Lemma within_ret {A} (a : A) : within R (ret a).
Proof. intros s. reflexivity. Qed.
Lemma within_raise {A} e : within R (raise (A := A) e).
Proof. intros s. reflexivity. Qed.
Lemma within_of_result {A} (r : result A) : within R (of_result r).
Proof. intros s. reflexivity. Qed.
Lemma within_get : within R get.
Proof. intros s. reflexivity. Qed.
Lemma within_bind {A B} (c : act S A) (k : A -> act S B) : within R c -> (forall a, within R (k a)) -> within R (bind c k).
Proof.
  intros Hc Hk s. unfold bind. specialize (Hc s). destruct (c s) as [s' [a|e]]; cbn in *; [|done].
  etransitivity; [done|apply Hk].
Qed.
Lemma within_try {A} (c : act S A) h : within R c -> (forall e k, h e = Some k -> within R k) -> within R (try_except c h).
Proof.
  intros Hc Hh s. unfold try_except. specialize (Hc s). destruct (c s) as [s' [a|e]]; cbn in *; [done|].
  destruct (h e) as [k|] eqn:He; [|done]. etransitivity; [done|by apply (Hh e)].
Qed.
Lemma within_ends {A} (c : act S A) (Q : A -> S -> Prop) s : within R c -> (forall a s', R s s' -> Q a s') -> ends c Q s.
Proof. intros Hc HQ s' a Hs. apply HQ. specialize (Hc s). by rewrite Hs in Hc. Qed.
Lemma within_when b c : within R c -> within R (when b c).
Proof. destruct b; [done|intros _; apply within_ret]. Qed.
Lemma within_for_each {A} (l : list A) body : (forall x, within R (body x)) -> within R (for_each l body).
Proof. intros H. induction l; cbn; [apply within_ret|by apply within_bind]. Qed.
End within.
End act.

#[export] Hint Resolve within_ret within_raise within_of_result within_get within_bind within_try within_when within_for_each
  : effects.

Notation "'do?' x <- c 'in' k" := (bind c (fun x => k))
  (at level 10, x pattern, c at level 200, k at level 200) : agent_scope.
Notation "c ';>' k" := (bind c (fun _ => k)) (at level 100, k at level 200, right associativity) : agent_scope.
