(* ===== verification/ToolService.v ===== *)
(** Tools, the policy of their calls (app/domain/tool.py, app/domain/tool_policy.py),
    the tool service (app/application/tool_service.py) and the routing executor
    (app/infrastructure/tools/composite.py).

    A tool context names the state [S] its approval decider reads and changes: the
    decider is any function of the request and that state.  Definitions and requests are
    objects: the code compares them by identity, so they carry a reference.  An executor,
    an approval decider and the ownership check of a run are await points: any function of
    the whole [world], which they may change.  [json.loads] and [urlsplit] are arguments;
    audit and telemetry, whose failures are swallowed, are left out. *)
From S2P Require Import Prelude Json InformationFlow Budget Repr Effects.
From stdpp Require Import gmap sets strings.
From Stdlib Require Import QArith_base.
Open Scope Z_scope.

Module RiskLevel.
Inductive t : Type := SAFE | CONFIRM | DANGEROUS.
#[global] Instance eq_dec : EqDecision t.
Proof. solve_decision. Defined.
End RiskLevel.

Module ToolSourceType.
Inductive t : Type := BUILTIN | KNOWLEDGE | SKILL | MCP | PLUGIN | AGENT.
#[global] Instance eq_dec : EqDecision t.
Proof. solve_decision. Defined.
End ToolSourceType.

Module ToolResultStatus.
Inductive t : Type := SUCCESS | ERROR | PERMISSION_DENIED | TIMEOUT | SKIPPED.
#[global] Instance eq_dec : EqDecision t.
Proof. solve_decision. Defined.
Definition value (s : t) : string :=
  match s with
  | SUCCESS => "success"
  | ERROR => "error"
  | PERMISSION_DENIED => "permission_denied"
  | TIMEOUT => "timeout"
  | SKIPPED => "skipped"
  end.
End ToolResultStatus.

Record ToolDefinition := mkToolDefinition {
  td_name : string;
  td_description : string;
  input_schema : json;
  td_risk_level : RiskLevel.t;
  permissions : list string;
  timeout_seconds : Z;
  td_enabled : bool;
  source_type : ToolSourceType.t;
  toolset : string;
  managed : bool;
  realtime_only : bool
}.

Record ToolCallRequest := mkToolCallRequest {
  call_id : string;
  call_name : string;
  call_arguments : dict
}.

Record ApprovalRequest := mkApprovalRequest {
  ap_session_id : string;
  ap_tool_call_id : string;
  ap_tool_name : string;
  ap_arguments : json;
  ap_description : string;
  ap_risk_level : RiskLevel.t;
  ap_metadata : option dict
}.

Record ApprovalDecision := mkApprovalDecision {
  allowed : bool;
  ad_scope : string;
  ad_reason : string
}.

(** What a decider may return: a decision, or some other object. *)
Definition ApprovalDecider (S : Type) : Type :=
  ApprovalRequest -> S -> S * result (option ApprovalDecision).

Record ToolExecutionContext (S : Type) := mkToolExecutionContext {
  allowed_confirm_tools : dict;
  tc_session_id : option string;
  tc_run_id : option string;
  tc_metadata : dict;
  trusted_metadata : dict;
  execution_context_mode : string;
  permitted_managed_tools : gset string;
  enabled_override : option (list string);
  approval_decider : option (ApprovalDecider S);
  granted_tools : gset string
}.
Arguments mkToolExecutionContext {S}.
Arguments allowed_confirm_tools {S} _.
Arguments tc_session_id {S} _.
Arguments tc_run_id {S} _.
Arguments tc_metadata {S} _.
Arguments trusted_metadata {S} _.
Arguments execution_context_mode {S} _.
Arguments permitted_managed_tools {S} _.
Arguments enabled_override {S} _.
Arguments approval_decider {S} _.
Arguments granted_tools {S} _.
#[export] Instance rebuild_context S : Rebuild (ToolExecutionContext S) := fun c =>
  mkToolExecutionContext (allowed_confirm_tools c) (tc_session_id c) (tc_run_id c) (tc_metadata c)
    (trusted_metadata c) (execution_context_mode c) (permitted_managed_tools c) (enabled_override c)
    (approval_decider c) (granted_tools c).

(** [ToolExecutionContext()] *)
Definition empty_context {S} : ToolExecutionContext S :=
  mkToolExecutionContext [] None None [] [] "realtime" ∅ None None ∅.

Record ToolResult := mkToolResult {
  tr_tool_call_id : string;
  tr_tool_name : string;
  tr_status : ToolResultStatus.t;
  tr_content : json;
  duration_ms : Z;
  terminal : bool
}.

(** * The policy *)

Module ToolExposurePolicy.
Inductive t : Type := DEFAULT | SAFE_ONLY.
#[global] Instance eq_dec : EqDecision t.
Proof. solve_decision. Defined.
End ToolExposurePolicy.

Record PolicyDecision := mkPolicyDecision { pd_outcome : PolicyOutcome.t; pd_reason : string }.

Definition can_expose (d : ToolDefinition) (exposure : ToolExposurePolicy.t) (granted permitted : gset string) : bool :=
  if negb (td_enabled d) then false
  else match exposure with
  | ToolExposurePolicy.DEFAULT => true
  | ToolExposurePolicy.SAFE_ONLY =>
      if realtime_only d then false
      else if bool_decide (td_risk_level d = RiskLevel.DANGEROUS) then false
      else if managed d && bool_decide (td_name d ∈ permitted) then true
      else if bool_decide (td_risk_level d = RiskLevel.SAFE) && negb (bool_decide (source_type d = ToolSourceType.AGENT))
      then true
      else bool_decide (td_risk_level d = RiskLevel.SAFE) && bool_decide (td_name d ∈ granted)
  end.

Definition validate_definition (d : ToolDefinition) : result unit :=
  if managed d && negb (bool_decide (td_risk_level d = RiskLevel.CONFIRM)) then Raise ValueError else Return tt.

(** Python's [==] on JSON values: [True == 1], and dicts compare without order. *)
Definition number_of (v : json) : option Z :=
  match v with JBool b => Some (if b then 1 else 0) | JInt n => Some n | _ => None end.

Fixpoint py_eq (a b : json) : bool :=
  match a, b with
  | JNull, JNull => true
  | JStr s, JStr t => bool_decide (s = t)
  | JArr l, JArr m =>
      (fix all l m := match l, m with
                      | [], [] => true
                      | x :: l, y :: m => py_eq x y && all l m
                      | _, _ => false
                      end) l m
  | JObj l, JObj m =>
      Nat.eqb (length l) (length m)
      && (fix all l := match l with
                       | [] => true
                       | (k, v) :: l => match obj_get k m with Some w => py_eq v w | None => false end && all l
                       end) l
  | a, b => match number_of a, number_of b with Some n, Some m => n =? m | _, _ => false end
  end.

(** [_argument_grant_matches]: keys are strings in a dict of JSON values. *)
Definition argument_grant_matches (grant : option json) (arguments : dict) : bool :=
  match grant with
  | Some (JObj []) => bool_decide (arguments = [])
  | Some (JObj g) =>
      forallb (fun kv => match obj_get kv.1 arguments with Some v => py_eq v kv.2 | None => false end) g
  | _ => false
  end.

(** [_copy_valid_confirm_grants] *)
Definition valid_grant (grant : json) : bool :=
  match grant with JStr s => bool_decide (s = "session") | JObj _ => true | _ => false end.
Definition copy_valid_confirm_grants (grants : dict) : dict :=
  List.filter (fun kv => truthy_str kv.1 && valid_grant kv.2) grants.

Section policy.
Context {S : Type}.
Implicit Types context : option (ToolExecutionContext S).

Definition evaluate_execution (d : ToolDefinition) (r : ToolCallRequest) context : PolicyDecision :=
  if negb (td_enabled d) then mkPolicyDecision PolicyOutcome.DENY "tool_disabled"
  else if bool_decide (td_risk_level d = RiskLevel.SAFE) then mkPolicyDecision PolicyOutcome.ALLOW "safe_tool"
  else if managed d then
    match context with
    | Some c => if bool_decide (call_name r ∈ permitted_managed_tools c)
                then mkPolicyDecision PolicyOutcome.ALLOW "managed_grant"
                else mkPolicyDecision PolicyOutcome.REQUIRE_APPROVAL "managed_approval_required"
    | None => mkPolicyDecision PolicyOutcome.REQUIRE_APPROVAL "managed_approval_required"
    end
  else
    let grant := context ≫= fun c => obj_get (call_name r) (allowed_confirm_tools c) in
    if bool_decide (grant = Some (JStr "session")) then mkPolicyDecision PolicyOutcome.ALLOW "session_grant"
    else if argument_grant_matches grant (call_arguments r)
    then mkPolicyDecision PolicyOutcome.ALLOW "argument_grant"
    else mkPolicyDecision PolicyOutcome.REQUIRE_APPROVAL
           (if bool_decide (td_risk_level d = RiskLevel.DANGEROUS) then "dangerous_approval_required"
            else "confirm_approval_required").

Definition authorize_once (d : ToolDefinition) (r : ToolCallRequest) context : result (ToolExecutionContext S) :=
  if negb (bool_decide (td_name d = call_name r)) then Raise ValueError
  else if bool_decide (td_risk_level d = RiskLevel.SAFE) then Raise ValueError
  else
    let c := default empty_context context in
    if negb (bool_decide (pd_outcome (evaluate_execution d r (Some c)) = PolicyOutcome.REQUIRE_APPROVAL))
    then Raise ValueError
    else
      let copied := copy_valid_confirm_grants (allowed_confirm_tools c) in
      if managed d
      then Return (c <| allowed_confirm_tools := copied |>
                     <| permitted_managed_tools := {[call_name r]} ∪ permitted_managed_tools c |>)
      else Return (c <| allowed_confirm_tools := dict_set (call_name r) (JObj (call_arguments r)) copied |>).
End policy.

(** An object and its identity. *)
Record obj (A : Type) := mkObj { ref : positive; it : A }.
Arguments mkObj {A}.
Arguments ref {A} _.
Arguments it {A} _.
(** [x is y] *)
Definition is_same {A} (x y : obj A) : bool := bool_decide (ref x = ref y).

(** Dicts in insertion order. *)
Definition assoc_get {V} (k : string) (l : list (string * V)) : option V :=
  snd <$> List.find (fun p => bool_decide (p.1 = k)) l.
Fixpoint assoc_set {V} (k : string) (v : V) (l : list (string * V)) : list (string * V) :=
  match l with
  | [] => [(k, v)]
  | (k', v') :: l => if bool_decide (k' = k) then (k, v) :: l else (k', v') :: assoc_set k v l
  end.

Record EvaluatedExecution := mkEvaluated {
  ev_definition : obj ToolDefinition;
  ev_request : obj ToolCallRequest
}.

Record ToolApprovalSnapshot := mkApprovalSnapshot {
  as_name : string;
  as_description : string;
  as_risk_level : RiskLevel.t
}.

Record ToolExecutionEvaluation := mkEvaluation {
  te_decision : PolicyDecision;
  te_approval : ToolApprovalSnapshot;
  te_token : nat
}.

Notation definition_table := (list (string * obj ToolDefinition)).

(** [evaluated] is the weak dict of the tokens: a token nobody holds any more cannot
    be looked up either. *)
Record ToolService := mkToolService {
  definitions : definition_table;
  dynamic_definitions : list (string * definition_table);
  suppressed_static_names : list (string * gset string);
  evaluated_executions : gmap nat EvaluatedExecution;
  next_token : nat
}.
#[export] Instance rebuild_tool_service : Rebuild ToolService := fun s =>
  mkToolService (definitions s) (dynamic_definitions s) (suppressed_static_names s) (evaluated_executions s)
    (next_token s).

(** * The registry *)

(** Keep the first of each name. *)
Definition add_first (l : definition_table) (d : obj ToolDefinition) : definition_table :=
  match assoc_get (td_name (it d)) l with Some _ => l | None => l ++ [(td_name (it d), d)] end.

Fixpoint validate_all (l : list (obj ToolDefinition)) : result unit :=
  match l with [] => Return tt | d :: l => let? _ := validate_definition (it d) in validate_all l end.

(** [ToolService(executor, definitions)] *)
Definition new_tool_service (l : list (obj ToolDefinition)) : result ToolService :=
  let? _ := validate_all l in
  Return (mkToolService (foldl (fun t d => assoc_set (td_name (it d)) d t) [] l) [] [] ∅ 0).

(** [isinstance(schema, dict) and schema.get("type") == "object"] *)
Definition object_schema (schema : json) : bool :=
  match schema with JObj kvs => bool_decide (obj_get "type" kvs = Some (JStr "object")) | _ => false end.

Definition replace_dynamic_definitions (s : ToolService) (source_key : string) (new : list (obj ToolDefinition))
    (override_names : gset string) : result ToolService :=
  let deduplicated := foldl add_first [] (List.filter (fun d => object_schema (input_schema (it d))) new) in
  let? _ := validate_all deduplicated.*2 in
  if negb (bool_decide (override_names ⊆ list_to_set deduplicated.*1)) then Raise ValueError
  else
    let static n := bool_decide (is_Some (assoc_get n (definitions s))) in
    let kept := List.filter (fun p => negb (static p.1) || bool_decide (p.1 ∈ override_names)) deduplicated in
    let suppressed := List.filter (fun n => static n && bool_decide (n ∈ override_names)) deduplicated.*1 in
    Return (s <| dynamic_definitions := assoc_set source_key kept (dynamic_definitions s) |>
              <| suppressed_static_names := assoc_set source_key (list_to_set suppressed) (suppressed_static_names s) |>).

(** [set_dynamic_definitions] *)
Definition set_dynamic_definitions (s : ToolService) (source_key : string) (new : list (obj ToolDefinition)) :=
  replace_dynamic_definitions s source_key new ∅.

Definition is_suppressed_static (s : ToolService) (name : string) : bool :=
  existsb (fun p => bool_decide (name ∈ p.2)) (suppressed_static_names s).

Definition list_definitions (s : ToolService) : list (obj ToolDefinition) :=
  let suppressed := ⋃ (suppressed_static_names s).*2 in
  (List.filter (fun p => negb (bool_decide (p.1 ∈ suppressed))) (definitions s)).*2
  ++ List.concat (map (fun p => p.2.*2) (dynamic_definitions s)).

Definition build_filtered_definitions (s : ToolService) (allow_toolsets allow_tool_names : option (gset string))
    : list (obj ToolDefinition) :=
  List.filter (fun d =>
    match allow_toolsets with Some l => bool_decide (toolset (it d) ∈ l) | None => true end
    && match allow_tool_names with Some l => bool_decide (td_name (it d) ∈ l) | None => true end) (list_definitions s).

Fixpoint first_dynamic (name : string) (l : list (string * definition_table)) : option (obj ToolDefinition) :=
  match l with
  | [] => None
  | (_, t) :: l => match assoc_get name t with Some d => Some d | None => first_dynamic name l end
  end.

Definition get_definition (s : ToolService) (name : string) : option (obj ToolDefinition) :=
  match (if is_suppressed_static s name then None else assoc_get name (definitions s)) with
  | Some d => Some d
  | None => first_dynamic name (dynamic_definitions s)
  end.

(** The second argument of [list_openai_tools]: [None], a risk level or a policy. *)
Inductive exposure : Type :=
  | ExposeDefault
  | ExposeRisk (r : RiskLevel.t)
  | ExposePolicy (p : ToolExposurePolicy.t).

Definition exposure_policy (e : exposure) : option ToolExposurePolicy.t :=
  match e with
  | ExposeDefault => Some ToolExposurePolicy.DEFAULT
  | ExposeRisk RiskLevel.SAFE => Some ToolExposurePolicy.SAFE_ONLY
  | ExposeRisk _ => None
  | ExposePolicy p => Some p
  end.

Definition exposed {S} (e : exposure) (context : option (ToolExecutionContext S)) (d : ToolDefinition) : bool :=
  match exposure_policy e with
  | Some p => can_expose d p (from_option granted_tools ∅ context) (from_option permitted_managed_tools ∅ context)
  | None => td_enabled d && match e with ExposeRisk r => bool_decide (td_risk_level d = r) | _ => false end
  end && object_schema (input_schema d).

Definition openai_tool (d : ToolDefinition) : json :=
  JObj [("type", JStr "function");
        ("function", JObj [("name", JStr (td_name d)); ("description", JStr (td_description d));
                           ("parameters", input_schema d)])].

Definition list_openai_tools {S} (s : ToolService) (e : exposure) (context : option (ToolExecutionContext S)) : list json :=
  map (fun d => openai_tool (it d)) (List.filter (fun d => exposed e context (it d)) (list_definitions s)).

(** * Evaluating, authorizing, executing *)

Record SplitResult := mkSplitResult {
  url_scheme : string;
  url_hostname : option string;
  url_username : option string;
  url_password : option string;
  url_fragment : string
}.

(** The state the awaits share: the service, the budget accounts of the process, and
    everything outside ([W]). *)
Record world (W : Type) := mkWorld {
  tools : ToolService;
  budgets : BudgetService;
  outside : W
}.
Arguments mkWorld {W}.
Arguments tools {W} _.
Arguments budgets {W} _.
Arguments outside {W} _.
#[export] Instance rebuild_world W : Rebuild (world W) := fun w => mkWorld (tools w) (budgets w) (outside w).

(** What the service awaits: its executor, the ownership check of the current run and
    the monotonic clock. *)
Class Environment (W : Type) := mkEnvironment {
  executor_execute : ToolCallRequest -> option (ToolExecutionContext (world W)) -> act (world W) ToolResult;
  check_current_run : act (world W) unit;
  monotonic : W -> pyfloat
}.

Section service.
Context {W : Type} {env : Environment W}.
Context (json_loads : string -> option json) (urlsplit : string -> option SplitResult).
Context (info_flow : option InformationFlowService) (budget_wired : bool).
Notation context := (ToolExecutionContext (world W)).
Notation action := (act (world W)).

Definition tool_service_evaluate (request : obj ToolCallRequest) (ctx : option context) : action ToolExecutionEvaluation :=
  fun w =>
  let s := tools w in
  match get_definition s (call_name (it request)) with
  | None => (w, Raise ToolNotFoundError)
  | Some d =>
      let token := next_token s in
      let evaluation := mkEvaluation (evaluate_execution (it d) (it request) ctx)
                          (mkApprovalSnapshot (td_name (it d)) (td_description (it d)) (td_risk_level (it d))) token in
      (w <| tools := s <| evaluated_executions := <[token := mkEvaluated d request]> (evaluated_executions s) |>
                       <| next_token := S token |> |>, Return evaluation)
  end.

Definition definition_for_evaluation (s : ToolService) (request : obj ToolCallRequest)
    (evaluation : ToolExecutionEvaluation) : result (obj ToolDefinition) :=
  match evaluated_executions s !! te_token evaluation with
  | Some e =>
      let current := match get_definition s (call_name (it request)) with
                     | Some d => is_same d (ev_definition e)
                     | None => false
                     end in
      if negb (is_same (ev_request e) request)
         || negb (bool_decide (as_name (te_approval evaluation) = call_name (it request))) || negb current
      then Raise ToolDefinitionChangedError else Return (ev_definition e)
  | None => Raise ToolDefinitionChangedError
  end.

Definition required_definition (s : ToolService) (name : string) : result (obj ToolDefinition) :=
  match get_definition s name with Some d => Return d | None => Raise ToolNotFoundError end.

Definition tool_service_authorize_once (s : ToolService) (request : obj ToolCallRequest) (ctx : option context)
    (evaluation : option ToolExecutionEvaluation) : result context :=
  let? d := match evaluation with
            | Some e => definition_for_evaluation s request e
            | None => required_definition s (call_name (it request))
            end in
  authorize_once (it d) (it request) ctx.

(** [ToolResult(request.id, request.name, PERMISSION_DENIED, ...)] *)
Definition denial (request : ToolCallRequest) (reason : string) : ToolResult :=
  mkToolResult (call_id request) (call_name request) ToolResultStatus.PERMISSION_DENIED
    (JObj [("error", JStr "permission_denied"); ("reason", JStr reason)]) 0 false.
Definition tool_not_found (request : ToolCallRequest) : ToolResult :=
  mkToolResult (call_id request) (call_name request) ToolResultStatus.ERROR
    (JObj [("error", JStr "tool not found")]) 0 false.

(** [(context.run_id or context.session_id) or ""] *)
Definition budget_run_id (ctx : option context) : string :=
  match ctx with
  | Some c => if truthy_opt_str (tc_run_id c) then default "" (tc_run_id c) else default "" (tc_session_id c)
  | None => ""
  end.

Definition tool_call_reserve : BudgetReserveRequest := mkBudgetReserveRequest BudgetReserveKind.TOOL_CALL 0 0%Q fzero None.

(** Reserve a tool call; [None] without a budget service or without a run. *)
Definition reserve_tool_call (run_id : string) : world W -> world W * option BudgetReservationDecision := fun w =>
  if budget_wired && truthy_str run_id then
    let '(b, d) := reserve (budgets w) run_id tool_call_reserve (monotonic (outside w)) in
    (w <| budgets := b |>, Some d)
  else (w, None).

Definition on_budget (f : BudgetService -> BudgetService) : action unit :=
  modify (fun w => w <| budgets := f (budgets w) |>).
Definition release_reservation (run_id : string) (d : option BudgetReservationDecision) : action unit :=
  match d with Some d => on_budget (fun b => Budget.release b run_id d) | None => ret tt end.
Definition settle_reservation (run_id : string) (d : option BudgetReservationDecision) : action unit :=
  match d with Some d => on_budget (fun b => settle b run_id d (mkBudgetActualUsage None None None None)) | None => ret tt end.

(** The arguments the executor gets: those of the released payload when it parses. *)
Definition input_payload (request : ToolCallRequest) : string :=
  dumps ", " ": " (JObj [("name", JStr (call_name request)); ("arguments", JObj (call_arguments request))]).

Definition sanitized_request (request : ToolCallRequest) (released payload : string) : ToolCallRequest :=
  if bool_decide (released = payload) then request
  else match json_loads released with
       | Some (JObj kvs) =>
           match obj_get "arguments" kvs with
           | Some (JObj args) => mkToolCallRequest (call_id request) (call_name request) args
           | _ => request
           end
       | _ => request
       end.

(** [None]: the release was denied. *)
Definition released_request (request : ToolCallRequest) : option ToolCallRequest :=
  match info_flow with
  | None => Some request
  | Some f =>
      let payload := input_payload request in
      let r := InformationFlow.release f payload ReleaseTarget.TOOL_MCP_PLUGIN Classification.INTERNAL "tool_service" [] in
      if rr_allowed r then Some (sanitized_request request (default payload (rr_content r)) payload) else None
  end.

Definition run_executor (request : ToolCallRequest) (ctx : option context) : action ToolResult :=
  try_except (executor_execute request ctx)
    (fun e => if bool_decide (e = TypeError) then Some (executor_execute request None) else None).

(** [is_photo_capability_request], [is_photo_capability_result]
    (app/application/host_terminal_capability.py) *)
Definition is_photo_capability_request (arguments : dict) : bool :=
  forallb (fun k => bool_decide (k ∈ ["target_type"; "skill"; "script"; "args"; "timeout"])) arguments.*1
  && bool_decide (obj_get "target_type" arguments = Some (JStr "skill_script"))
  && bool_decide (obj_get "skill" arguments = Some (JStr "photo-and-upload"))
  && bool_decide (obj_get "script" arguments = Some (JStr "scripts/photo-upload.py"))
  && bool_decide (obj_get "args" arguments = Some (JArr []))
  && match obj_get "timeout" arguments with None => true | Some (JInt n) => 1 <=? n | Some _ => false end.

Definition is_photo_capability_result (content : json) : result bool :=
  match content with
  | JObj kvs =>
      if bool_decide ((list_to_set kvs.*1 : gset string) = {["capture_size"; "upload_http"; "signed_url"]}) then
        match obj_get "capture_size" kvs, obj_get "upload_http" kvs, obj_get "signed_url" kvs with
        | Some (JInt size), Some (JInt http), Some (JStr url) =>
            if (0 <? size) && (200 <=? http) && (http <=? 299) then
              match urlsplit url with
              | Some u => Return (bool_decide (url_scheme u = "https") && truthy_opt_str (url_hostname u)
                                  && bool_decide (url_username u = None) && bool_decide (url_password u = None)
                                  && negb (truthy_str (url_fragment u)))
              | None => Raise ValueError
              end
            else Return false
        | _, _, _ => Return false
        end
      else Return false
  | _ => Return false
  end.

(** The redacted result: only the signed URL of a photo result is kept as it came. *)
Definition sanitized_result (request : ToolCallRequest) (r : ToolResult) : result ToolResult :=
  match info_flow, tr_content r with
  | None, _ | _, JNull => Return r
  | Some f, content =>
      let clean := service_redact_structured f content in
      let? photo :=
        if bool_decide (tr_tool_name r = "host_terminal") && bool_decide (tr_status r = ToolResultStatus.SUCCESS)
           && bool_decide (call_name request = "host_terminal") && is_photo_capability_request (call_arguments request)
        then is_photo_capability_result content else Return false in
      let clean := match photo, clean, content with
                   | true, JObj kvs, JObj original => JObj (dict_set "signed_url" (dict_get original "signed_url") kvs)
                   | _, clean, _ => clean
                   end in
      Return (mkToolResult (tr_tool_call_id r) (tr_tool_name r) (tr_status r) clean (duration_ms r) (terminal r))
  end.

(** After the policy allowed the call. *)
Definition run_allowed (request : ToolCallRequest) (ctx : option context) : action ToolResult :=
  let run_id := budget_run_id ctx in
  do? reservation <- step (reserve_tool_call run_id) in
  if bool_decide (dec_outcome <$> reservation = Some PolicyOutcome.DENY)
  then ret (denial request "budget_exhausted")
  else match released_request request with
  | None => release_reservation run_id reservation;> ret (denial request "information_flow_denied")
  | Some working =>
      check_current_run;>
      (do? r <- try_except (run_executor working ctx)
                  (fun e => Some (release_reservation run_id reservation;> raise e)) in
       settle_reservation run_id reservation;> of_result (sanitized_result working r))
  end.

(** [_execute], with the definition the request resolves to. *)
Definition resolve_call (s : ToolService) (request : obj ToolCallRequest)
    (evaluation : option ToolExecutionEvaluation) : ToolResult + obj ToolDefinition :=
  match evaluation with
  | Some e => match definition_for_evaluation s request e with
              | Return d => inr d
              | Raise _ => inl (denial (it request) "tool_definition_changed")
              end
  | None => match get_definition s (call_name (it request)) with
            | Some d => inr d
            | None => inl (tool_not_found (it request))
            end
  end.

Definition execute_call (request : obj ToolCallRequest) (ctx : option context)
    (evaluation : option ToolExecutionEvaluation) : action ToolResult := fun w =>
  match resolve_call (tools w) request evaluation with
  | inl refusal => (w, Return refusal)
  | inr d =>
      let decision := evaluate_execution (it d) (it request) ctx in
      if bool_decide (pd_outcome decision = PolicyOutcome.ALLOW) then run_allowed (it request) ctx w
      else (w, Return (denial (it request) (pd_reason decision)))
  end.

Definition tool_service_execute (request : obj ToolCallRequest) (ctx : option context)
    (evaluation : option ToolExecutionEvaluation) : action ToolResult :=
  check_current_run;> execute_call request ctx evaluation.
End service.

(** * The routing executor *)

Section composite.
Context {S : Type}.
Notation executor := (ToolCallRequest -> option (ToolExecutionContext S) -> act S ToolResult).

Record CompositeToolExecutor := mkComposite {
  routes : list (string * executor);
  fallback : option executor
}.

Definition composite_execute (c : CompositeToolExecutor) : executor := fun request ctx =>
  match match assoc_get (call_name request) (routes c) with Some e => Some e | None => fallback c end with
  | None => ret (tool_not_found request)
  | Some execute =>
      try_except (execute request ctx) (fun e => if bool_decide (e = TypeError) then Some (execute request None) else None)
  end.
End composite.
