(* ===== verification/ToolProps.v ===== *)
(** What the tool policy and the tool service guarantee: which calls reach an executor,
    what one authorization covers, what a registration of dynamic tools changes, and what
    a call costs its run. *)
From S2P Require Import Prelude Json Repr Effects Budget BudgetProps InformationFlow ToolService.
From stdpp Require Import gmap sets strings.
From Stdlib Require Import QArith_base.
Open Scope Z_scope.

(** * Python equality *)

(** The keys of every dict in a value are distinct. *)
Fixpoint distinct_keys (v : json) : Prop :=
  match v with
  | JArr l => (fix all l := match l with [] => True | v :: l => distinct_keys v /\ all l end) l
  | JObj kvs => NoDup kvs.*1
      /\ (fix all l := match l with [] => True | (_, v) :: l => distinct_keys v /\ all l end) kvs
  | _ => True
  end.

Lemma obj_get_in k v (kvs : dict) : NoDup kvs.*1 -> (k, v) ∈ kvs -> obj_get k kvs = Some v.
Proof.
  induction kvs as [|[k' v'] kvs IH]; [by intros _ ?%elem_of_nil|].
  cbn. intros [Hk Hn]%NoDup_cons [Heq|Hin]%elem_of_cons.
  - injection Heq as -> ->. by rewrite bool_decide_eq_true_2.
  - rewrite bool_decide_eq_false_2; [by apply IH|]. intros ->. apply Hk. apply list_elem_of_fmap.
    by exists (k', v).
Qed.

Lemma obj_get_mem k v (kvs : dict) : obj_get k kvs = Some v -> (k, v) ∈ kvs.
Proof.
  induction kvs as [|[k' v'] kvs IH]; [done|]. cbn. case_bool_decide as Hk.
  - intros [= ->]. subst. apply elem_of_cons. by left.
  - intros H. apply elem_of_cons. auto.
Qed.

Lemma py_eq_refl v : distinct_keys v -> py_eq v v = true.
Proof.
  induction v as [| | | |l IH|kvs IH] using json_nested_ind; cbn; try done.
  - intros _. apply Z.eqb_refl.
  - intros _. apply Z.eqb_refl.
  - intros _. by apply bool_decide_eq_true_2.
  - induction IH as [|v l Hv _ IHl]; [done|]. intros [H1 H2]. by rewrite Hv, IHl.
  - intros [Hn Hd]. rewrite Nat.eqb_refl. cbn.
    assert (Hsub : forall p, p ∈ kvs -> obj_get p.1 kvs = Some p.2).
    { intros [k v] Hin. by apply obj_get_in. }
    clear Hn. revert Hsub. generalize kvs at 2 3. intros all Hsub.
    induction IH as [|[k v] l Hv _ IHl]; [done|]. destruct Hd as [H1 H2]. cbn in *.
    assert (Hk : obj_get k all = Some v) by (apply (Hsub (k, v)), elem_of_cons; by left).
    rewrite Hk, Hv by done. apply IHl; [done|].
    intros p Hp. apply Hsub, elem_of_cons. by right.
Qed.

(** A call is covered by a grant when every granted argument is there, equal. *)
Definition covers (grant arguments : dict) : Prop :=
  (grant = [] -> arguments = [])
  /\ forall k v, obj_get k grant = Some v -> exists v', obj_get k arguments = Some v' /\ py_eq v' v = true.

Lemma argument_grant_covers g args : argument_grant_matches (Some (JObj g)) args = true -> covers g args.
Proof.
  unfold covers. destruct g as [|p g].
  - intros H%bool_decide_eq_true_1. split; [done|]. by intros.
  - cbn [argument_grant_matches]. intros H. split; [done|]. intros k v Hk%obj_get_mem.
    rewrite forallb_true in H. specialize (H _ Hk). cbn in H. destruct (obj_get k args) as [v'|]; [|done]. eauto.
Qed.

Lemma distinct_keys_value kvs k v : distinct_keys (JObj kvs) -> (k, v) ∈ kvs -> distinct_keys v.
Proof.
  intros [_ Hd]. induction kvs as [|[k' v'] l IH]; [by intros ?%elem_of_nil|]. destruct Hd as [H1 H2].
  intros [[= -> ->]|Hin]%elem_of_cons; [done|auto].
Qed.

Lemma grant_covers_itself args : distinct_keys (JObj args) -> argument_grant_matches (Some (JObj args)) args = true.
Proof.
  intros Hd. destruct args as [|p args]; [done|]. cbn [argument_grant_matches]. apply forallb_true.
  intros [k v] Hin. cbn [fst snd]. rewrite (obj_get_in k v _ (proj1 Hd) Hin).
  by apply py_eq_refl, (distinct_keys_value _ _ _ Hd Hin).
Qed.

(** * Decisions *)

Section policy.
Context {S : Type}.
Implicit Types (ctx : option (ToolExecutionContext S)) (c : ToolExecutionContext S).

(** What makes a call of [d] allowed without asking. *)
Inductive authorized (d : ToolDefinition) (r : ToolCallRequest) ctx : Prop :=
  | safe_tool : td_risk_level d = RiskLevel.SAFE -> authorized d r ctx
  | managed_grant c : ctx = Some c -> managed d = true -> call_name r ∈ permitted_managed_tools c -> authorized d r ctx
  | session_grant c : ctx = Some c -> managed d = false ->
      obj_get (call_name r) (allowed_confirm_tools c) = Some (JStr "session") -> authorized d r ctx
  | argument_grant c g : ctx = Some c -> managed d = false ->
      obj_get (call_name r) (allowed_confirm_tools c) = Some (JObj g) -> covers g (call_arguments r) ->
      authorized d r ctx.

Lemma allowed_authorized d r ctx :
  pd_outcome (evaluate_execution d r ctx) = PolicyOutcome.ALLOW -> td_enabled d = true /\ authorized d r ctx.
Proof.
  unfold evaluate_execution. destruct (td_enabled d); [|done]. cbn.
  case_bool_decide as Hs; [intros _; split; [done|by apply safe_tool]|].
  destruct (managed d) eqn:Hm.
  - destruct ctx as [c|]; [|done]. case_bool_decide; [|done]. intros _. split; [done|]. by eapply managed_grant.
  - destruct ctx as [c|]; [|done]. cbn. case_bool_decide as Hg.
    + intros _. split; [done|]. by eapply session_grant.
    + destruct (obj_get _ _) as [g|] eqn:Ho; [|done]. destruct g as [| | | | |g]; try done.
      destruct (argument_grant_matches _ _) eqn:Ha; [|done]. intros _. split; [done|].
      eapply argument_grant; [done..|]. by apply argument_grant_covers.
Qed.

(** Only grants that can match survive the copy; the others never matched. *)
Lemma copied_grant k g :
  k <> "" -> NoDup g.*1 ->
  obj_get k (copy_valid_confirm_grants g)
  = match obj_get k g with Some v => if valid_grant v then Some v else None | None => None end.
Proof.
  intros Hk. induction g as [|[k' v] g IH]; [done|]. intros [Hnot Hn]%NoDup_cons.
  assert (Hnone : k = k' -> obj_get k (copy_valid_confirm_grants g) = None).
  { intros ->. destruct (obj_get k' (copy_valid_confirm_grants g)) as [w|] eqn:Hw; [|done]. exfalso. apply Hnot.
    apply obj_get_mem, list_elem_of_In, List.filter_In, proj1, list_elem_of_In in Hw.
    apply list_elem_of_fmap. by exists (k', w). }
  specialize (IH Hn). unfold copy_valid_confirm_grants in *. cbn -[valid_grant truthy_str].
  destruct (decide (k = k')) as [->|Hkk].
  - specialize (Hnone eq_refl). rewrite (bool_decide_eq_true_2 (k' = k')) by done.
    unfold truthy_str at 1. rewrite (bool_decide_eq_false_2 (k' = "")) by done.
    destruct (valid_grant v); cbn; [by rewrite bool_decide_eq_true_2|exact Hnone].
  - rewrite (bool_decide_eq_false_2 (k = k')) by done.
    destruct (truthy_str k' && valid_grant v); cbn; [by rewrite bool_decide_eq_false_2|]; exact IH.
Qed.

(** Grants of one context decide as those of the other. *)
Lemma same_grant_same_decision d r c c' :
  permitted_managed_tools c' = permitted_managed_tools c ->
  (forall a, argument_grant_matches (obj_get (call_name r) (allowed_confirm_tools c')) a
     = argument_grant_matches (obj_get (call_name r) (allowed_confirm_tools c)) a) ->
  (obj_get (call_name r) (allowed_confirm_tools c') = Some (JStr "session")
     <-> obj_get (call_name r) (allowed_confirm_tools c) = Some (JStr "session")) ->
  evaluate_execution d r (Some c') = evaluate_execution d r (Some c).
Proof.
  intros Hp Ha Hs. unfold evaluate_execution. cbn. by rewrite Hp, Ha, (bool_decide_ext _ _ Hs).
Qed.

(** C35. An authorization for one call ([authorize_once]) covers that call and
    nothing it does not name: it is given only where the policy asks for approval; under
    the context it returns that very call is allowed; calls of every other tool are decided
    exactly as before; and a call of the same tool, if the tool is neither safe nor managed,
    is allowed only when it carries every approved argument with an equal value, so that an
    approval of one set of arguments never lets another value through. *)
Theorem one_time_authorization d r ctx c' d' r' :
  NoDup (allowed_confirm_tools (default empty_context ctx)).*1 -> distinct_keys (JObj (call_arguments r)) ->
  authorize_once d r ctx = Return c' ->
  pd_outcome (evaluate_execution d r (Some (default empty_context ctx))) = PolicyOutcome.REQUIRE_APPROVAL
  /\ pd_outcome (evaluate_execution d r (Some c')) = PolicyOutcome.ALLOW
  /\ (call_name r' <> "" -> call_name r' <> call_name r ->
      evaluate_execution d' r' (Some c') = evaluate_execution d' r' (Some (default empty_context ctx)))
  /\ (managed d = false -> managed d' = false -> call_name r' = call_name r -> td_risk_level d' <> RiskLevel.SAFE ->
      pd_outcome (evaluate_execution d' r' (Some c')) = PolicyOutcome.ALLOW ->
      covers (call_arguments r) (call_arguments r')).
Proof.
  intros Hn Hd. unfold authorize_once. case_bool_decide as Hname; [cbn|done]. case_bool_decide as Hrisk; [done|].
  set (c := default empty_context ctx) in *. case_bool_decide as Hreq; [cbn|done].
  assert (Hen : td_enabled d = true). { revert Hreq. unfold evaluate_execution. by destruct (td_enabled d). }
  assert (Hother : forall k, k <> "" -> (forall a,
    argument_grant_matches (obj_get k (copy_valid_confirm_grants (allowed_confirm_tools c))) a
    = argument_grant_matches (obj_get k (allowed_confirm_tools c)) a)
    /\ (obj_get k (copy_valid_confirm_grants (allowed_confirm_tools c)) = Some (JStr "session")
        <-> obj_get k (allowed_confirm_tools c) = Some (JStr "session"))).
  { intros k Hk. rewrite copied_grant by done. destruct (obj_get k _) as [v|]; [|done].
    destruct v as [| | |t| |]; cbn [valid_grant]; try case_bool_decide; naive_solver. }
  destruct (managed d) eqn:Hm; intros [= <-].
  - repeat apply conj; [done| | |done].
    + unfold evaluate_execution. rewrite Hen, Hm, bool_decide_eq_false_2 by done. cbn.
      rewrite bool_decide_eq_true_2; [done|]. apply elem_of_union_l. by apply elem_of_singleton.
    + intros Hk Hk'. destruct (Hother _ Hk) as [Ha Hs]. unfold evaluate_execution. cbn.
      rewrite Ha, (bool_decide_ext _ _ Hs).
      rewrite (bool_decide_ext (call_name r' ∈ {[call_name r]} ∪ permitted_managed_tools c)
                 (call_name r' ∈ permitted_managed_tools c)); [done|]. rewrite elem_of_union, elem_of_singleton. naive_solver.
  - repeat apply conj; [done| | |].
    + unfold evaluate_execution. rewrite Hen, Hm, bool_decide_eq_false_2 by done. cbn.
      rewrite obj_get_dict_set, (bool_decide_eq_true_2 (call_name r = call_name r)) by done.
      rewrite bool_decide_eq_false_2 by done. by rewrite grant_covers_itself.
    + intros Hk Hk'. destruct (Hother _ Hk) as [Ha Hs]. apply same_grant_same_decision; cbn; [done|intros a|];
        rewrite obj_get_dict_set, bool_decide_eq_false_2 by done; auto.
    + intros _ Hm' Hnm Hr Hall. apply allowed_authorized in Hall as [_ Hauth].
      destruct Hauth as [|x Hx|x Hx _ Hg|x g Hx _ Hg Hc]; [done|congruence| |];
        injection Hx as <-; cbn in Hg; rewrite obj_get_dict_set, bool_decide_eq_true_2 in Hg by congruence;
        [done|]. by injection Hg as <-.
Qed.
End policy.

(** * The registry *)

Lemma assoc_get_in {V} k (v : V) l : assoc_get k l = Some v -> (k, v) ∈ l.
Proof.
  unfold assoc_get. induction l as [|[k' v'] l IH]; [done|]. cbn. case_bool_decide as Hk; cbn.
  - intros [= ->]. subst. apply elem_of_cons. by left.
  - intros H. apply elem_of_cons. auto.
Qed.

Lemma assoc_get_none {V} k (l : list (string * V)) : assoc_get k l = None <-> k ∉ l.*1.
Proof.
  unfold assoc_get. induction l as [|[k' v'] l IH]; cbn; [split; [by intros _ ?%elem_of_nil|done]|].
  rewrite elem_of_cons. case_bool_decide as Hk; cbn; [naive_solver|]. rewrite IH. naive_solver.
Qed.

Lemma assoc_get_some {V} k (l : list (string * V)) : k ∈ l.*1 -> exists v, assoc_get k l = Some v.
Proof. intros Hk. destruct (assoc_get k l) eqn:Hl; [eauto|]. by apply assoc_get_none in Hl. Qed.

Lemma in_assoc_get {V} k (v : V) l : NoDup l.*1 -> (k, v) ∈ l -> assoc_get k l = Some v.
Proof.
  intros Hn Hin. destruct (assoc_get_some k l) as [v' Hv]; [apply list_elem_of_fmap; by exists (k, v)|].
  rewrite Hv. apply assoc_get_in in Hv. f_equal.
  induction l as [|[k0 v0] l IH]; [by apply elem_of_nil in Hin|]. apply NoDup_cons in Hn as [Hk Hn].
  apply elem_of_cons in Hin, Hv.
  assert (Hno : forall u, (k0, u) ∉ l).
  { intros u Hu. apply Hk, list_elem_of_fmap. by exists (k0, u). }
  destruct Hin as [[= -> ->]|Hin], Hv as [[= ->]|Hv]; naive_solver.
Qed.

(** What a table of definitions promises: keys are the names, once each, and managed
    tools ask for confirmation. *)
Definition table_ok (t : definition_table) : Prop :=
  NoDup t.*1 /\ forall n d, (n, d) ∈ t -> td_name (it d) = n /\ validate_definition (it d) = Return tt.

(** A source and its suppression: it overrides static tools it defines, and defines no
    other static tool. *)
Definition source_ok (static : definition_table) (p : string * definition_table) (q : string * gset string) : Prop :=
  p.1 = q.1 /\ table_ok p.2
  /\ (forall n, n ∈ q.2 -> n ∈ static.*1 /\ n ∈ p.2.*1)
  /\ (forall n, n ∈ p.2.*1 -> n ∈ static.*1 -> n ∈ q.2).

Record registry_ok (s : ToolService) : Prop := {
  ro_static : table_ok (definitions s);
  ro_sources : Forall2 (source_ok (definitions s)) (dynamic_definitions s) (suppressed_static_names s);
  ro_names : NoDup (suppressed_static_names s).*1
}.

Lemma validate_all_each l : validate_all l = Return tt -> forall d, d ∈ l -> validate_definition (it d) = Return tt.
Proof.
  induction l as [|d l IH]; [by intros _ ? ?%elem_of_nil|]. cbn.
  destruct (validate_definition (it d)) as [[]|] eqn:Hd; [|done]. cbn.
  intros H d' [->|Hin]%elem_of_cons; auto.
Qed.

Lemma add_first_names l : forall t : definition_table,
  (NoDup t.*1 /\ forall n d, (n, d) ∈ t -> td_name (it d) = n) ->
  NoDup (foldl add_first t l).*1 /\ forall n d, (n, d) ∈ foldl add_first t l -> td_name (it d) = n.
Proof.
  induction l as [|d l IH]; [done|]. intros t [Hn Ht]. cbn. apply IH. unfold add_first.
  destruct (assoc_get _ t) eqn:Hg; [done|]. apply assoc_get_none in Hg. split.
  - rewrite fmap_app, NoDup_app. split_and!; [done| |apply NoDup_singleton].
    intros n Hin ->%list_elem_of_singleton. done.
  - intros n d' [Hin|Hin%list_elem_of_singleton]%elem_of_app; [by apply Ht|]. by injection Hin as -> ->.
Qed.

Lemma assoc_set_fst {V} k (v : V) l : (assoc_set k v l).*1 = if bool_decide (k ∈ l.*1) then l.*1 else l.*1 ++ [k].
Proof.
  induction l as [|[k' v'] l IH]; [done|]. cbn. destruct (decide (k' = k)) as [->|Hk].
  - rewrite (bool_decide_eq_true_2 (k = k)), bool_decide_eq_true_2 by (try apply elem_of_cons; auto). done.
  - rewrite (bool_decide_eq_false_2 (k' = k)) by done. cbn. rewrite IH.
    rewrite (bool_decide_ext (k ∈ k' :: l.*1) (k ∈ l.*1)) by (rewrite elem_of_cons; naive_solver).
    by case_bool_decide.
Qed.

Lemma assoc_set_in {V} k (v : V) l p : p ∈ assoc_set k v l -> p = (k, v) \/ p ∈ l.
Proof.
  induction l as [|[k' v'] l IH]; cbn; [rewrite list_elem_of_singleton; auto|].
  case_bool_decide; rewrite !elem_of_cons; naive_solver.
Qed.

Lemma assoc_set_nodup {V} k (v : V) l : NoDup l.*1 -> NoDup (assoc_set k v l).*1.
Proof.
  intros Hn. rewrite assoc_set_fst. case_bool_decide as Hin; [done|]. apply NoDup_app.
  split_and!; [done| |apply NoDup_singleton]. by intros n Hin' ->%list_elem_of_singleton.
Qed.

Lemma assoc_set_other {V} k (v : V) l p : NoDup l.*1 -> p ∈ assoc_set k v l -> p = (k, v) \/ p ∈ l /\ p.1 <> k.
Proof.
  induction l as [|[k' v'] l IH]; cbn; [rewrite list_elem_of_singleton; auto|]. intros [Hk Hn]%NoDup_cons.
  case_bool_decide as Hkk; rewrite !elem_of_cons.
  - subst k'. intros [->|Hin]; [by left|]. right. split; [auto|]. intros Hp. apply Hk, list_elem_of_fmap. eauto.
  - intros [->|Hin]; [by right; split; [left|]|]. naive_solver.
Qed.

Lemma assoc_set_ok t d : table_ok t -> validate_definition (it d) = Return tt -> table_ok (assoc_set (td_name (it d)) d t).
Proof.
  intros [Hn Ht] Hd. split.
  - by apply assoc_set_nodup.
  - intros n d' [[= -> ->]|Hin]%assoc_set_in; [done|by apply Ht].
Qed.

Lemma filter_fst_sublist {V} (f : string * V -> bool) l : (List.filter f l).*1 `sublist_of` l.*1.
Proof. induction l as [|p l IH]; cbn; [constructor|]. destruct (f p); by constructor. Qed.

Lemma filter_ok f t : table_ok t -> table_ok (List.filter f t).
Proof.
  intros [Hn Ht]. split; [eapply sublist_NoDup; [exact Hn|apply filter_fst_sublist]|].
  intros n d [Hin _]%list_elem_of_In%List.filter_In. apply Ht. by apply list_elem_of_In.
Qed.

Lemma new_tool_service_ok l s : new_tool_service l = Return s -> registry_ok s.
Proof.
  unfold new_tool_service. destruct (validate_all l) as [[]|] eqn:Hv; [|done]. intros [= <-].
  assert (H : forall t, table_ok t -> table_ok (foldl (fun t d => assoc_set (td_name (it d)) d t) t l)).
  { pose proof (validate_all_each _ Hv) as Hl. clear Hv. induction l as [|d l IH]; [done|].
    intros t Ht. cbn. apply IH; [set_solver|]. apply assoc_set_ok; [done|]. apply Hl. set_solver. }
  split; cbn; [|constructor|constructor]. apply H. split; [constructor|]. by intros n d ?%elem_of_nil.
Qed.

Lemma assoc_set_Forall2 {V U} (R : string * V -> string * U -> Prop) k v u l m :
  (forall p q, R p q -> p.1 = q.1) -> Forall2 R l m -> R (k, v) (k, u) -> Forall2 R (assoc_set k v l) (assoc_set k u m).
Proof.
  intros HR Hlm Hk. induction Hlm as [|[k1 v1] [k2 u2] l m H12 Hlm IH]; cbn; [by constructor|].
  pose proof (HR _ _ H12) as Heq. cbn in Heq. subst k2. case_bool_decide; by constructor.
Qed.

(** What a registration keeps and what it leaves out. *)
Lemma replace_cases s src new over s' :
  replace_dynamic_definitions s src new over = Return s' ->
  exists kept suppressed, s' = s <| dynamic_definitions := assoc_set src kept (dynamic_definitions s) |>
      <| suppressed_static_names := assoc_set src suppressed (suppressed_static_names s) |>
    /\ source_ok (definitions s) (src, kept) (src, suppressed) /\ suppressed ⊆ over.
Proof.
  unfold replace_dynamic_definitions.
  set (schema_valid := List.filter _ new). set (table := foldl add_first [] schema_valid).
  destruct (validate_all table.*2) as [[]|] eqn:Hv; [|done]. cbn [bind_result].
  destruct (bool_decide (over ⊆ _)) eqn:Hsub; [|done]. cbn [negb]. intros [= <-].
  eexists _, _. split; [reflexivity|].
  assert (Hnames : NoDup table.*1 /\ forall n d, (n, d) ∈ table -> td_name (it d) = n).
  { apply add_first_names. split; [constructor|]. by intros n d ?%elem_of_nil. }
  assert (Htable : table_ok table).
  { split; [apply Hnames|]. intros n d Hin. split; [by apply Hnames|]. apply (validate_all_each _ Hv).
    apply list_elem_of_fmap. by exists (n, d). }
  split; [split; [done|split; [by apply filter_ok|]]|].
  - cbn. split.
    + intros n. rewrite elem_of_list_to_set. intros [Hin Hf]%list_elem_of_In%List.filter_In.
      apply andb_true_iff in Hf as [Hst Hov]. apply bool_decide_eq_true_1 in Hst, Hov. split.
      * destruct Hst as [d Hd]. apply assoc_get_in in Hd. apply list_elem_of_fmap. by exists (n, d).
      * apply list_elem_of_In in Hin. apply list_elem_of_fmap in Hin as ([n' d] & -> & Hin).
        apply list_elem_of_fmap. exists (n', d). split; [done|]. apply list_elem_of_In, List.filter_In.
        split; [by apply list_elem_of_In|]. cbn. rewrite (bool_decide_eq_true_2 (n' ∈ over)) by done. by rewrite orb_true_r.
    + intros n ([n' d] & -> & Hin)%list_elem_of_fmap Hst. apply list_elem_of_In, List.filter_In in Hin as [Hin Hf].
      rewrite elem_of_list_to_set. apply list_elem_of_In, List.filter_In. cbn in *. split.
      * apply list_elem_of_In, list_elem_of_fmap. exists (n', d). split; [done|]. by apply list_elem_of_In.
      * assert (Hs : is_Some (assoc_get n' (definitions s))).
        { destruct (assoc_get_some _ _ Hst) as [x ->]. eauto. }
        rewrite bool_decide_eq_true_2 in Hf |- * by done. done.
  - intros n. rewrite elem_of_list_to_set. intros [_ Hf]%list_elem_of_In%List.filter_In.
    apply andb_true_iff in Hf as [_ Hov]. by apply bool_decide_eq_true_1 in Hov.
Qed.

Record registration := mkRegistration {
  rg_source : string;
  rg_new : list (obj ToolDefinition);
  rg_overrides : gset string
}.

(** A registration that raises leaves the service as it was. *)
Definition register (s : ToolService) (op : registration) : ToolService :=
  match replace_dynamic_definitions s (rg_source op) (rg_new op) (rg_overrides op) with
  | Return s' => s'
  | Raise _ => s
  end.

Lemma register_ok s op : registry_ok s -> registry_ok (register s op) /\ definitions (register s op) = definitions s.
Proof.
  intros Hok. unfold register. destruct (replace_dynamic_definitions _ _ _ _) as [s'|] eqn:Hr; [|done].
  apply replace_cases in Hr as (kept & sup & -> & Hsrc & _). destruct Hok as [Hst Hdyn Hn]. split; [|done].
  split; cbn; [done| |by apply assoc_set_nodup]. apply assoc_set_Forall2; [|done|done]. by intros p q [? _].
Qed.

Lemma registrations_ok ops : forall s, registry_ok s ->
  registry_ok (foldl register s ops) /\ definitions (foldl register s ops) = definitions s.
Proof.
  induction ops as [|op ops IH]; [done|]. intros s Hok. cbn.
  destruct (register_ok s op Hok) as [Hok' Hd]. destruct (IH _ Hok') as [H1 H2]. split; [done|]. by rewrite H2.
Qed.

Lemma suppressed_spec s n : is_suppressed_static s n = true <-> exists src names, (src, names) ∈ suppressed_static_names s /\ n ∈ names.
Proof.
  unfold is_suppressed_static. rewrite existsb_exists. split.
  - intros ([src names] & Hin & Hn). apply list_elem_of_In in Hin. apply bool_decide_eq_true_1 in Hn. eauto.
  - intros (src & names & Hin & Hn). exists (src, names). split; [by apply list_elem_of_In|]. by apply bool_decide_eq_true_2.
Qed.

Lemma suppressed_union s n : n ∈ ⋃ (suppressed_static_names s).*2 <-> is_suppressed_static s n = true.
Proof.
  rewrite suppressed_spec, elem_of_union_list. split.
  - intros (names & ([src x] & -> & Hin)%list_elem_of_fmap & Hn). eauto.
  - intros (src & names & Hin & Hn). exists names. split; [|done]. apply list_elem_of_fmap. by exists (src, names).
Qed.

Lemma first_dynamic_some n l d : first_dynamic n l = Some d -> exists src t, (src, t) ∈ l /\ assoc_get n t = Some d.
Proof.
  induction l as [|[src t] l IH]; [done|]. cbn. destruct (assoc_get n t) eqn:Hg.
  - intros [= ->]. exists src, t. split; [apply elem_of_cons; by left|done].
  - intros H. destruct (IH H) as (src' & t' & Hin & Hg'). exists src', t'. split; [apply elem_of_cons; auto|done].
Qed.

Lemma first_dynamic_none n l src t : first_dynamic n l = None -> (src, t) ∈ l -> n ∉ t.*1.
Proof.
  induction l as [|[src' t'] l IH]; [by intros _ ?%elem_of_nil|]. cbn. destruct (assoc_get n t') eqn:Hg; [done|].
  intros H [[= -> ->]|Hin]%elem_of_cons; [by apply assoc_get_none|auto].
Qed.

Lemma suppressed_overridden s src names n :
  registry_ok s -> (src, names) ∈ suppressed_static_names s -> n ∈ names ->
  exists t, (src, t) ∈ dynamic_definitions s /\ n ∈ t.*1.
Proof.
  intros [_ Hdyn _] Hin Hn. apply list_elem_of_lookup in Hin as [i Hi].
  destruct (Forall2_lookup_r _ _ _ _ _ Hdyn Hi) as ([src' t] & Hl & Heq & _ & Hover & _). cbn in Heq. subst src'.
  exists t. split; [by apply list_elem_of_lookup_2 in Hl|]. by apply Hover.
Qed.

Lemma listed_static s d n :
  assoc_get n (definitions s) = Some d -> is_suppressed_static s n = false -> d ∈ list_definitions s.
Proof.
  intros Hd Hs. apply elem_of_app. left. apply list_elem_of_fmap. exists (n, d). split; [done|].
  apply list_elem_of_In, List.filter_In. split; [apply list_elem_of_In; by apply assoc_get_in|]. cbn.
  rewrite bool_decide_eq_false_2; [done|]. rewrite suppressed_union. by rewrite Hs.
Qed.

Lemma listed_dynamic s src t n d : (src, t) ∈ dynamic_definitions s -> (n, d) ∈ t -> d ∈ list_definitions s.
Proof.
  intros Hs Hd. apply elem_of_app. right. apply list_elem_of_In, in_concat.
  exists t.*2. split; [|apply list_elem_of_In, list_elem_of_fmap; by exists (n, d)].
  apply in_map_iff. exists (src, t). split; [done|by apply list_elem_of_In].
Qed.

Lemma dynamic_table_ok s src t : registry_ok s -> (src, t) ∈ dynamic_definitions s -> table_ok t.
Proof.
  intros [_ Hdyn _] [i Hi]%list_elem_of_lookup. by destruct (Forall2_lookup_l _ _ _ _ _ Hdyn Hi) as ([src' names] & _ & _ & ? & _).
Qed.

(** Every definition that resolves is listed, under its own name. *)
Lemma resolved_listed s n d :
  registry_ok s -> get_definition s n = Some d ->
  td_name (it d) = n /\ d ∈ list_definitions s /\ validate_definition (it d) = Return tt.
Proof.
  intros Hok. unfold get_definition.
  destruct (if is_suppressed_static s n then None else assoc_get n (definitions s)) as [x|] eqn:Hst.
  - intros [= ->]. destruct (is_suppressed_static s n) eqn:Hs; [done|].
    destruct (ro_static _ Hok) as [_ Ht]. destruct (Ht n d (assoc_get_in _ _ _ Hst)) as [Hn Hv].
    split_and!; [done|by eapply listed_static|done].
  - intros (src & t & Hin & Hg)%first_dynamic_some. apply assoc_get_in in Hg.
    destruct (dynamic_table_ok _ _ _ Hok Hin) as [_ Ht]. destruct (Ht n d Hg) as [Hn Hv].
    split_and!; [done|by eapply listed_dynamic|done].
Qed.

(** Every listed name resolves. *)
Lemma listed_resolves s d : registry_ok s -> d ∈ list_definitions s -> is_Some (get_definition s (td_name (it d))).
Proof.
  intros Hok. destruct (ro_static _ Hok) as [Hn Ht]. unfold list_definitions, get_definition.
  intros [Hin|Hin]%elem_of_app.
  - apply list_elem_of_fmap in Hin as ([n x] & -> & Hin). apply list_elem_of_In, List.filter_In in Hin as [Hin Hf].
    apply list_elem_of_In in Hin. destruct (Ht _ _ Hin) as [<- _]. cbn in *.
    apply negb_true_iff, bool_decide_eq_false_1 in Hf. rewrite suppressed_union in Hf.
    destruct (is_suppressed_static s _); [done|]. rewrite (in_assoc_get _ _ _ Hn Hin). eauto.
  - destruct (if is_suppressed_static s _ then None else _); [eauto|].
    apply list_elem_of_In, in_concat in Hin as (l & Hl & Hd). apply in_map_iff in Hl as ([src t] & <- & Hs).
    apply list_elem_of_In in Hs, Hd. apply list_elem_of_fmap in Hd as ([n x] & -> & Hd). cbn in *.
    destruct (dynamic_table_ok _ _ _ Hok Hs) as [_ Htt]. destruct (Htt _ _ Hd) as [<- _].
    destruct (first_dynamic _ _) eqn:Hf; [eauto|]. exfalso. apply (first_dynamic_none _ _ _ _ Hf Hs).
    apply list_elem_of_fmap. by exists (td_name (it x), x).
Qed.

Lemma empty_registration s src e : replace_dynamic_definitions s src [] ∅ <> Raise e.
Proof. unfold replace_dynamic_definitions. cbn. by rewrite bool_decide_eq_true_2. Qed.

Lemma not_suppressed s n :
  (forall src names, (src, names) ∈ suppressed_static_names s -> n ∉ names) -> is_suppressed_static s n = false.
Proof.
  intros H. destruct (is_suppressed_static s n) eqn:Hs; [|done]. apply suppressed_spec in Hs as (src & names & Hin & Hn).
  by destruct (H src names).
Qed.

(** C36. Whatever dynamic tools the plugins and servers register, replace and
    withdraw, in whatever order: the name of every listed tool resolves, and every name
    that resolves gives a listed definition of that name, with managed tools always asking
    for confirmation; a static tool resolves
    to itself unless a source that explicitly overrides it also defines it; and once the
    overriding source withdraws, the static tool is back. *)
Theorem tool_registry_sound l s0 ops :
  new_tool_service l = Return s0 ->
  let s := foldl register s0 ops in
  (forall d, d ∈ list_definitions s -> exists d', get_definition s (td_name (it d)) = Some d')
  /\ (forall n d, get_definition s n = Some d ->
        td_name (it d) = n /\ d ∈ list_definitions s
        /\ (managed (it d) = true -> td_risk_level (it d) = RiskLevel.CONFIRM))
  /\ (forall n d, assoc_get n (definitions s0) = Some d ->
        get_definition s n = Some d
        \/ exists src names t d', (src, names) ∈ suppressed_static_names s /\ n ∈ names
             /\ (src, t) ∈ dynamic_definitions s /\ assoc_get n t = Some d')
  /\ (forall src n d, assoc_get n (definitions s0) = Some d ->
        (forall src' names, src' <> src -> (src', names) ∈ suppressed_static_names s -> n ∉ names) ->
        get_definition (register s (mkRegistration src [] ∅)) n = Some d).
Proof.
  intros Hnew. cbn zeta. destruct (registrations_ok ops s0 (new_tool_service_ok _ _ Hnew)) as [Hok Hdefs].
  set (s := foldl register s0 ops) in *. split_and!.
  - intros d Hd. by apply listed_resolves.
  - intros n d Hd. destruct (resolved_listed _ _ _ Hok Hd) as (Hn & Hin & Hv). split_and!; [done|done|].
    intros Hm. revert Hv. unfold validate_definition. rewrite Hm. by case_bool_decide.
  - intros n d Hd. rewrite <- Hdefs in Hd. destruct (is_suppressed_static s n) eqn:Hs.
    + right. apply suppressed_spec in Hs as (src & names & Hin & Hn).
      destruct (suppressed_overridden _ _ _ _ Hok Hin Hn) as (t & Ht & Hnt).
      destruct (assoc_get_some _ _ Hnt) as [d' Hd']. by exists src, names, t, d'.
    + left. unfold get_definition. by rewrite Hs, Hd.
  - intros src n d Hd Hother. rewrite <- Hdefs in Hd.
    unfold register. cbn [rg_source rg_new rg_overrides].
    destruct (replace_dynamic_definitions s src [] ∅) as [s'|] eqn:Hr; [|exfalso; revert Hr; apply empty_registration].
    apply replace_cases in Hr as (kept & sup & -> & _ & Hsub).
    unfold get_definition. rewrite (not_suppressed _ n); [by cbn -[assoc_get first_dynamic]; rewrite Hd|]. cbn.
    intros src' names Hin Hn. apply (assoc_set_other _ _ _ _ (ro_names _ Hok)) in Hin as [[= -> ->]|[Hin Hne]]; [set_solver|].
    by apply (Hother src' names).
Qed.

(** * Which calls run *)

Section calls.
Context {W : Type}.
Context (json_loads : string -> option json) (urlsplit : string -> option SplitResult).
Context (info_flow : option InformationFlowService) (budget_wired : bool).
Notation context := (ToolExecutionContext (world W)).
Notation executor := (ToolCallRequest -> option context -> act (world W) ToolResult).

(** The same environment around another executor. *)
Definition with_executor (env : Environment W) (f : executor) : Environment W :=
  mkEnvironment W f (check_current_run (Environment := env)) (monotonic (Environment := env)).

Definition execute_in (env : Environment W) :=
  tool_service_execute (env := env) json_loads urlsplit info_flow budget_wired.

(** The evaluated definition is still what the name resolves to, for this very request. *)
Definition still_current (s : ToolService) (request : obj ToolCallRequest) (d : obj ToolDefinition)
    (e : ToolExecutionEvaluation) : Prop :=
  exists x current, evaluated_executions s !! te_token e = Some x /\ ev_definition x = d
    /\ ref (ev_request x) = ref request
    /\ get_definition s (call_name (it request)) = Some current /\ ref current = ref d.

Lemma evaluation_current s request e d : definition_for_evaluation s request e = Return d -> still_current s request d e.
Proof.
  unfold definition_for_evaluation, still_current. destruct (evaluated_executions s !! te_token e) as [x|]; [|done].
  destruct (get_definition s _) as [current|]; [|by rewrite orb_true_r].
  unfold is_same. case_bool_decide as Hr; [|done]. case_bool_decide as Hn; [|done]. case_bool_decide as Hc; [|done].
  intros [= <-]. by exists x, current.
Qed.

(** C34. The executor of tools can only influence a call that passed every gate:
    if exchanging the executor changes what the service does or answers, then the current
    run still owned the session, the request resolved to an enabled definition that the
    policy allows for it under its context (safe, granted to this tool, to this session, or
    for these arguments), a definition evaluated earlier is still the one registered for
    this very request, the budget did not deny the call, and its arguments were released. *)
Theorem tool_runs_only_authorized (env : Environment W) (f : executor) request ctx evaluation w :
  execute_in env request ctx evaluation w <> execute_in (with_executor env f) request ctx evaluation w ->
  exists w1 d working,
    check_current_run (Environment := env) w = (w1, Return tt)
    /\ resolve_call (tools w1) request evaluation = inr d
    /\ td_enabled (it d) = true /\ authorized (it d) (it request) ctx
    /\ (forall e, evaluation = Some e -> still_current (tools w1) request d e)
    /\ dec_outcome <$> (reserve_tool_call (env := env) budget_wired (budget_run_id ctx) w1).2 <> Some PolicyOutcome.DENY
    /\ released_request json_loads info_flow (it request) = Some working.
Proof.
  unfold execute_in, tool_service_execute, bind at 1.
  change (check_current_run (Environment := with_executor env f)) with (check_current_run (Environment := env)).
  unfold bind at 1. destruct (check_current_run w) as [w1 [[]|e]]; [|done]. unfold execute_call.
  destruct (resolve_call (tools w1) request evaluation) as [|d] eqn:Hd; [done|].
  case_bool_decide as Hall; [|done]. apply allowed_authorized in Hall as [Hen Hauth].
  unfold run_allowed. rewrite !bind_step.
  change (reserve_tool_call (env := with_executor env f) budget_wired (budget_run_id ctx) w1)
    with (reserve_tool_call (env := env) budget_wired (budget_run_id ctx) w1).
  case_bool_decide as Hdeny; [done|].
  destruct (released_request json_loads info_flow (it request)) as [working|] eqn:Hrel; [|done].
  intros _. exists w1, d, working. split_and!; try done.
  intros e ->. unfold resolve_call in Hd. destruct (definition_for_evaluation (tools w1) request e) eqn:He; [|done].
  injection Hd as ->. by apply evaluation_current.
Qed.

(** * What a call costs *)

Definition pending_of (run_id : string) (b : BudgetService) : list (string * BudgetReservationDecision) :=
  acc_pending (get_or_create_account b run_id).
Definition tool_calls_of (run_id : string) (b : BudgetService) : Z :=
  tool_calls_reserved (acc_state (get_or_create_account b run_id)).

(** Ids in use are below the next one. *)
Definition ids_fresh (run_id : string) (b : BudgetService) : Prop :=
  let a := get_or_create_account b run_id in Forall (fun p => id_below (acc_next_id a) p.1) (acc_pending a).

Lemma allowed_tool_reserve b run_id mono b' d :
  ids_fresh run_id b -> reserve b run_id tool_call_reserve mono = (b', d) -> dec_outcome d = PolicyOutcome.ALLOW ->
  exists a, svc_accounts b' !! run_id = Some a
  /\ dec_kind d = BudgetReserveKind.TOOL_CALL
  /\ acc_pending a = pending_of run_id b ++ [(dec_id d, d)]
  /\ tool_calls_reserved (acc_state a) = tool_calls_of run_id b + 1
  /\ dec_id d ∉ (pending_of run_id b).*1.
Proof.
  unfold ids_fresh, reserve, pending_of, tool_calls_of. set (a := get_or_create_account b run_id). cbn zeta. intros Hids.
  destruct (account_reserve a tool_call_reserve mono) as [a' d'] eqn:Ha. intros [= <- <-] Hall.
  exists a'. cbn. rewrite lookup_insert. rewrite decide_True by done. split; [done|].
  apply reserve_cases in Ha as (_ & Hr). cbn zeta in Hr. case_bool_decide as Ho.
  - destruct Hr as (Hd & Hs & Hp & _). rewrite Hs, Hp.
    assert (Hk : dec_kind d' = BudgetReserveKind.TOOL_CALL).
    { rewrite Hd. cbn. unfold evaluate_tool_call. by case_match. }
    split_and!; [done|done| |].
    + unfold apply_reserve. by rewrite Hk.
    + rewrite Hd. cbn. intros ([k x] & Heq & Hin)%list_elem_of_fmap. cbn in Heq. subst k.
      rewrite Forall_forall in Hids. apply (id_next_fresh _ _ (Hids _ Hin)). done.
  - destruct Hr as (Hd & _). by rewrite Hd in Hall.
Qed.

Lemma pending_last id d l : id ∉ l.*1 -> pending_get id (l ++ [(id, d)]) = Some d /\ pending_del id (l ++ [(id, d)]) = l.
Proof.
  unfold pending_get, pending_del. induction l as [|[k x] l IH]; cbn.
  - intros _. by rewrite bool_decide_eq_true_2.
  - intros [Hk Hl]%not_elem_of_cons. rewrite bool_decide_eq_false_2 by done. cbn.
    destruct (IH Hl) as [-> ->]. done.
Qed.

Definition account_figures (run_id : string) (w : world W) : list (string * BudgetReservationDecision) * Z :=
  (pending_of run_id (budgets w), tool_calls_of run_id (budgets w)).

(** C37. A call that was reserved is charged exactly once when the executor returns,
    whatever status it returns, and not at all when it raises: afterwards the account of
    the run holds the same pending reservations as before the call, and its count of tool
    calls has grown by one or by nothing, provided the executor does not use the budget of
    the run itself. *)
Theorem tool_call_charge (env : Environment W) request ctx w b1 d working w2 w3 res :
  let run_id := budget_run_id ctx in
  budget_wired = true -> run_id <> "" -> ids_fresh run_id (budgets w) ->
  reserve (budgets w) run_id tool_call_reserve (monotonic (outside w)) = (b1, d) -> dec_outcome d = PolicyOutcome.ALLOW ->
  released_request json_loads info_flow request = Some working ->
  check_current_run (w <| budgets := b1 |>) = (w2, Return tt) -> budgets w2 = b1 ->
  run_executor working ctx w2 = (w3, res) -> budgets w3 = b1 ->
  account_figures run_id (run_allowed (env := env) json_loads urlsplit info_flow budget_wired request ctx w).1
  = (pending_of run_id (budgets w), tool_calls_of run_id (budgets w) + if returns res then 1 else 0).
Proof.
  cbn zeta. intros Hwired Hrun Hids Hres Hall Hrel Hcheck Hb2 Hexec Hb3.
  destruct (allowed_tool_reserve _ _ _ _ _ Hids Hres Hall) as (a & Ha & Hk & Hp & Hc & Hfresh).
  destruct (pending_last _ d _ Hfresh) as [Hget Hdel]. rewrite <- Hp in Hget, Hdel.
  generalize dependent (pending_of (budget_run_id ctx) (budgets w)).
  generalize dependent (tool_calls_of (budget_run_id ctx) (budgets w)).
  intros calls Hc pending Hp Hfresh Hdel.
  assert (Hstep : reserve_tool_call budget_wired (budget_run_id ctx) w = (w <| budgets := b1 |>, Some d)).
  { unfold reserve_tool_call, truthy_str. by rewrite Hwired, bool_decide_eq_false_2, Hres. }
  unfold run_allowed. rewrite bind_step, Hstep, Hrel. cbn [fst snd fmap option_fmap option_map].
  rewrite Hall, bool_decide_eq_false_2 by done.
  unfold bind at 1. rewrite Hcheck. unfold bind at 1, try_except. rewrite Hexec.
  destruct res as [r|e]; cbn; rewrite Hb3; cbn.
  - unfold settle. rewrite Ha. unfold account_settle. rewrite Hget.
    unfold account_figures, pending_of, tool_calls_of, get_or_create_account. cbn.
    rewrite lookup_insert, decide_True by done. cbn. unfold apply_settle. rewrite Hk, Hdel. cbn. by rewrite Hc.
  - unfold Budget.release. rewrite Ha. unfold account_release. rewrite Hget.
    unfold account_figures, pending_of, tool_calls_of, get_or_create_account. cbn.
    rewrite lookup_insert, decide_True by done. cbn. unfold apply_release. rewrite Hk, Hdel. cbn. rewrite Hc.
    f_equal. lia.
Qed.
End calls.

(** * Examples *)

Definition tool_schema : json := JObj [("type", JStr "object")].
Definition shell_tool : ToolDefinition :=
  mkToolDefinition "shell" "Run a command." tool_schema RiskLevel.CONFIRM [] 10 true ToolSourceType.AGENT "host" false false.
Definition shell_call : ToolCallRequest := mkToolCallRequest "c1" "shell" [("cmd", JStr "ls")].
Definition other_call : ToolCallRequest := mkToolCallRequest "c2" "browse" [].

Lemma one_time_authorization_witness :
  exists c' : ToolExecutionContext unit,
    authorize_once shell_tool shell_call None = Return c'
    /\ pd_outcome (evaluate_execution shell_tool shell_call (Some c')) = PolicyOutcome.ALLOW
    /\ evaluate_execution shell_tool other_call (Some c') = evaluate_execution shell_tool other_call (Some (@empty_context unit)).
Proof.
  eexists. split; [vm_compute; reflexivity|].
  refine ((fun H => conj (proj1 (proj2 H)) (proj1 (proj2 (proj2 H)) _ _))
            (one_time_authorization (S := unit) shell_tool shell_call None _ shell_tool other_call _ _ _));
    [done|done|constructor| |vm_compute; reflexivity].
  cbn. repeat split; repeat constructor. by intros ?%elem_of_nil.
Defined.

(** The plugin's browser replaces the built-in one, and leaves. *)
Definition browse_tool : ToolDefinition :=
  mkToolDefinition "browse" "Built in." tool_schema RiskLevel.SAFE [] 10 true ToolSourceType.BUILTIN "web" false false.
Definition plugin_browse : ToolDefinition :=
  mkToolDefinition "browse" "Plugin." tool_schema RiskLevel.CONFIRM [] 10 true ToolSourceType.PLUGIN "web" false false.
Definition static_tools : list (obj ToolDefinition) := [mkObj 1 shell_tool; mkObj 2 browse_tool].
Definition plugin_install : registration := mkRegistration "plugin" [mkObj 3 plugin_browse] {["browse"]}.

Lemma tool_registry_sound_witness :
  exists s0, new_tool_service static_tools = Return s0
    /\ get_definition (register s0 plugin_install) "browse" = Some (mkObj 3 plugin_browse)
    /\ get_definition (register (register s0 plugin_install) (mkRegistration "plugin" [] ∅)) "browse"
       = Some (mkObj 2 browse_tool).
Proof.
  eexists. split; [vm_compute; reflexivity|]. split; [vm_compute; reflexivity|].
  apply (proj2 (proj2 (proj2 (tool_registry_sound static_tools _ [plugin_install] eq_refl)))); [vm_compute; reflexivity|].
  intros src' names Hne Hin. vm_compute in Hin.
  apply list_elem_of_singleton in Hin. injection Hin as -> _. done.
Defined.

(** A counting executor. *)
Definition counting (status : result ToolResultStatus.t) : Environment nat :=
  mkEnvironment nat
    (fun r _ w => (w <| outside := S (outside w) |>,
       let? s := status in Return (mkToolResult (call_id r) (call_name r) s (JStr "done") 1 false)))
    (ret tt) (fun _ => float_of_int 1).
Definition shell_context : ToolExecutionContext (world nat) :=
  empty_context <| allowed_confirm_tools := [("shell", JStr "session")] |> <| tc_run_id := Some "run" |>.
Definition shell_service : ToolService := mkToolService [("shell", mkObj 1 shell_tool)] [] [] ∅ 0.
Definition call_budget : BudgetService :=
  mkBudgetService (mkBudgetConfig 900 10 5 None None None None None None) ∅.
Definition shell_world : world nat := mkWorld shell_service call_budget 0%nat.
Definition no_executor : ToolCallRequest -> option (ToolExecutionContext (world nat)) -> act (world nat) ToolResult :=
  fun _ _ => raise RuntimeError.

Lemma tool_runs_only_authorized_witness :
  exists w1 d working,
    check_current_run (Environment := counting (Return ToolResultStatus.SUCCESS)) shell_world = (w1, Return tt)
    /\ resolve_call (tools w1) (mkObj 5 shell_call) None = inr d
    /\ td_enabled (it d) = true /\ authorized (it d) shell_call (Some shell_context)
    /\ (forall e, None = Some e -> still_current (tools w1) (mkObj 5 shell_call) d e)
    /\ dec_outcome <$> (reserve_tool_call (env := counting (Return ToolResultStatus.SUCCESS)) true
                          (budget_run_id (Some shell_context)) w1).2 <> Some PolicyOutcome.DENY
    /\ released_request (fun _ => None) None shell_call = Some working.
Proof.
  apply (tool_runs_only_authorized (fun _ => None) (fun _ => None) None true (counting (Return ToolResultStatus.SUCCESS))
           no_executor (mkObj 5 shell_call) (Some shell_context) None shell_world).
  intros H. apply (f_equal snd) in H. vm_compute in H. discriminate.
Defined.

Lemma tool_call_charge_witness :
  account_figures "run" (run_allowed (env := counting (Raise RuntimeError)) (fun _ => None) (fun _ => None) None true
    shell_call (Some shell_context) shell_world).1 = ([], 0).
Proof.
  refine (tool_call_charge (fun _ => None) (fun _ => None) None true (counting (Raise RuntimeError)) shell_call
    (Some shell_context) shell_world _ _ shell_call _ _ (Raise RuntimeError) eq_refl _ _ (surjective_pairing _)
    _ eq_refl eq_refl _ _ _).
  all: try (vm_compute; done).
Defined.

(** A tool that raises [TypeError] itself is run a second time, without its context. *)
Example type_error_runs_twice :
  outside (execute_in (fun _ => None) (fun _ => None) None true (counting (Raise TypeError)) (mkObj 5 shell_call)
    (Some shell_context) None shell_world).1 = 2%nat.
Proof. vm_compute. reflexivity. Qed.
