(* ===== verification/TurnPolicy.v ===== *)
(** The decisions of a turn: when the loop calls the model, runs tools or stops
    (app/domain/turn_policy.py), which model answers (app/domain/llm_policy.py,
    app/domain/provider.py), and the message contents they read
    (app/utils/content_utils.py). *)
From S2P Require Import Prelude Json Repr Budget.
From stdpp Require Import gmap sets strings.
From Stdlib Require Import SpecFloat.
Open Scope Z_scope.

(** * Contents *)

Definition part_is (ty : string) (part : json) : bool :=
  match part with JObj kvs => bool_decide (dict_get kvs "type" = JStr ty) | _ => false end.

Definition extract_text (content : json) : string :=
  match content with
  | JStr s => s
  | JArr parts =>
      foldr (fun p acc => match p with
                          | JObj kvs => if part_is "text" p then match dict_get kvs "text" with JStr t => t +:+ acc | _ => acc end
                                        else acc
                          | _ => acc
                          end) "" parts
  | _ => ""
  end.

Definition has_image_part (content : json) : bool :=
  match content with JArr parts => existsb (fun p => part_is "image_url" p || part_is "input_image" p) parts | _ => false end.

Definition text_part (t : string) : json := JObj [("type", JStr "text"); ("text", JStr t)].

Definition prepend_text_part (content : json) (prefix : string) : json :=
  match content with
  | JStr s => JStr (if truthy_str s then prefix +:+ s else prefix)
  | JArr parts => JArr (text_part prefix :: parts)
  | other => other
  end.

(** * The turn *)

Module EndReason.
Inductive t : Type :=
  | STOP | TOOL_CALLS | LENGTH | ERROR | ITERATION_LIMIT | CANCELLED | DEADLINE | BUDGET_EXHAUSTED.
#[global] Instance eq_dec : EqDecision t.
Proof. solve_decision. Defined.
End EndReason.

Module TurnNextStep.
Inductive t : Type := CALL_LLM | EXECUTE_TOOLS | FINALIZE | END.
#[global] Instance eq_dec : EqDecision t.
Proof. solve_decision. Defined.
End TurnNextStep.

Record TurnDecision := mkTurnDecision {
  next_step : TurnNextStep.t;
  end_reason : option EndReason.t;
  td_terminal : bool;
  td_reason : string
}.

Record TurnEvaluationInput := mkTurnInput {
  ti_final_message : option dict;
  ti_error : option string;
  ti_pending_tool_calls : list json;
  ti_iteration_count : Z;
  ti_cancelled : bool;
  ti_elapsed_seconds : pyfloat;
  ti_turn_timeout_seconds : option pyfloat;
  ti_iteration_limit : Z;
  ti_budget_exhausted : bool
}.

(** [a >= b] *)
Definition fge (a b : pyfloat) : bool := SFleb b a.

Definition no_calls {A} (l : list A) : bool := match l with [] => true | _ => false end.

Definition evaluate_turn (i : TurnEvaluationInput) : TurnDecision :=
  let stop step reason why := mkTurnDecision step (Some reason) true why in
  if ti_cancelled i then stop TurnNextStep.END EndReason.CANCELLED "cancelled"
  else if truthy_opt_str (ti_error i) then stop TurnNextStep.END EndReason.ERROR "error"
  else if bool_decide (is_Some (ti_final_message i)) && no_calls (ti_pending_tool_calls i)
  then stop TurnNextStep.END EndReason.STOP "final_message"
  else if ti_iteration_limit i <=? ti_iteration_count i
  then stop TurnNextStep.FINALIZE EndReason.ITERATION_LIMIT "iteration_limit"
  else if match ti_turn_timeout_seconds i with Some t => fge (ti_elapsed_seconds i) t | None => false end
  then stop TurnNextStep.END EndReason.DEADLINE "deadline"
  else if ti_budget_exhausted i then stop TurnNextStep.END EndReason.BUDGET_EXHAUSTED "budget_exhausted"
  else if negb (no_calls (ti_pending_tool_calls i))
  then mkTurnDecision TurnNextStep.EXECUTE_TOOLS None false "pending_tool_calls"
  else mkTurnDecision TurnNextStep.CALL_LLM None false "continue".

(** * The model *)

Record ModelRequirements := mkRequirements { mr_capabilities : gset string; token_need : Z }.

Record ProviderCapability := mkCapability {
  provider_id : string;
  model_id : string;
  supports_tools : bool;
  supports_vision : bool;
  context_window : Z
}.

Record ModelSelection := mkSelection {
  ms_provider_id : string;
  ms_model_id : string;
  ms_capabilities : gset string;
  fallback_chain : list string;
  ms_verdict : PolicyOutcome.t;
  ms_reason : string
}.

Definition PLACEHOLDER_MODEL_IDS : list string := ["n-agent"; "model"; ""].

Definition resolve_model (model : option string) (default_model : string) : string :=
  match model with
  | Some m => if negb (truthy_str m) || bool_decide (lower m ∈ PLACEHOLDER_MODEL_IDS) then default_model else m
  | None => default_model
  end.

Definition check_capabilities (cap : ProviderCapability) (r : ModelRequirements) : option string :=
  if bool_decide ("tools" ∈ mr_capabilities r) && negb (supports_tools cap) then Some "tool_capability_not_supported"
  else if bool_decide ("vision" ∈ mr_capabilities r) && negb (supports_vision cap)
  then Some "vision_capability_not_supported"
  else if bool_decide ("context_window" ∈ mr_capabilities r) && (0 <? context_window cap)
          && (context_window cap <? token_need r)
  then Some ("context_window_exceeded:need=" +:+ pretty (token_need r) +:+ ",window=" +:+ pretty (context_window cap))
  else None.

Definition evaluate_model (requested : string) (caps : list ProviderCapability) (r : ModelRequirements)
    (allowed_provider_ids : gset string) (fallback_enabled : bool) : ModelSelection :=
  match List.filter (fun c => bool_decide (provider_id c ∈ allowed_provider_ids)) caps with
  | [] => mkSelection "" "" ∅ [] PolicyOutcome.DENY "no_provider_allowed_by_constraints"
  | cap :: rest =>
      let resolved := resolve_model (Some requested) (model_id cap) in
      match check_capabilities cap r with
      | Some reason => mkSelection (provider_id cap) resolved (mr_capabilities r) [] PolicyOutcome.DENY reason
      | None => mkSelection (provider_id cap) resolved (mr_capabilities r)
                  (if fallback_enabled then map provider_id rest else []) PolicyOutcome.ALLOW "model_selected"
      end
  end.
