(* ===== verification/ContextHistory.v ===== *)
(** Which messages a context holds, when it is compressed
    (app/domain/context_policy.py, app/application/policy_projections.py), and the history
    a model is shown (app/application/context_service.py): the latest summary between the
    protected head and the tail, tool calls with their answers only, and the provider form
    of a message.

    [len] of a text is the length of its model; the threshold is the binary64 product
    the code truncates.  Reasons, which only explain a plan, keep their fixed part.  The
    service and the compressor each drop unanswered calls and orphan answers, one on
    stored messages and one on provider messages; both are instances of [sanitize]. *)
From S2P Require Import Prelude Json Budget Repr SessionStore.
From stdpp Require Import gmap sets strings.
From Stdlib Require Import SpecFloat.
Open Scope Z_scope.

Record ContextMessageCandidate := mkCandidate {
  cm_id : string;
  cm_role : string;
  cm_content : json;
  cm_is_summary : bool;
  cm_is_summarized : bool;
  has_tool_calls : bool;
  cm_tool_call_id : option string;
  cm_name : option string
}.

Record CompressionPlan := mkCompressionPlan { head_n : Z; tail_n : Z; target_ratio : pyfloat; cp_force : bool }.

Record TokenAllocation := mkTokenAllocation { ta_system : Z; ta_session : Z; ta_turn : Z; ta_tool : Z; ta_total : Z }.

(** The injection plan is the id of the message memory is prepended to. *)
Record ContextPlan := mkContextPlan {
  selected_message_ids : list string;
  compression : option CompressionPlan;
  injection_target : option string;
  token_allocation : TokenAllocation;
  plan_reasons : list string
}.

Record ContextPolicyRequest := mkContextRequest {
  cr_messages : list ContextMessageCandidate;
  cr_memory_blocks : list string;
  cr_tool_schemas : list json;
  model_context_window : Z;
  context_length : Z;
  compression_threshold : pyfloat;
  compression_target_ratio : pyfloat;
  protect_first_n : Z;
  protect_last_n : Z;
  cr_force : bool;
  in_cooldown : bool
}.

(** * Tokens *)

(** [len(v)] *)
Definition py_len (v : json) : result Z :=
  match v with
  | JStr s => Return (len s)
  | JArr l => Return (Z.of_nat (length l))
  | JObj l => Return (Z.of_nat (length l))
  | _ => Raise TypeError
  end.

(** [json.dumps(v, ensure_ascii=False, default=str)] *)
Definition dump (v : json) : string := dumps ", " ": " v.

(** A part of a content, by its type. *)
Definition estimate_part (part : json) : result Z :=
  match part with
  | JObj kvs =>
      if bool_decide (dict_get kvs "type" = JStr "text")
      then let? n := py_len (default (JStr "") (obj_get "text" kvs)) in Return (n / 4)
      else if bool_decide (dict_get kvs "type" = JStr "image_url") then Return 1500
      else Return (len (dump part) / 4)
  | _ => Return (len (py_str part) / 4)
  end.

Fixpoint sum_results (l : list (result Z)) : result Z :=
  match l with [] => Return 0 | r :: l => let? n := r in let? m := sum_results l in Return (n + m) end.

Definition estimate_token_count (content : json) : result Z :=
  match content with
  | JStr s => Return (len s / 4 + 10)
  | JArr parts => let? n := sum_results (map estimate_part parts) in Return (n + 10)
  | JObj _ => Return (len (dump content) / 4 + 10)
  | _ => Return (len (if truthy_json content then py_str content else "") / 4 + 10)
  end.

Definition quarter (o : option string) : Z := if truthy_opt_str o then len (default "" o) / 4 else 0.

Definition estimate_message (m : ContextMessageCandidate) : result Z :=
  let? content :=
    match (if has_tool_calls m then cm_content m else JNull) with
    | JObj kvs =>
        let? inner := estimate_token_count (default (JStr "") (obj_get "content" kvs)) in
        let calls := dict_get kvs "tool_calls" in
        Return (inner + if truthy_json calls then len (dump calls) / 4 else 0)
    | _ => estimate_token_count (cm_content m)
    end in
  Return (content + quarter (cm_tool_call_id m) + quarter (cm_name m)).

Definition estimate_messages_tokens (l : list ContextMessageCandidate) : result Z := sum_results (map estimate_message l).

(** [int(x)] of a finite float. *)
Definition int_of_float (x : pyfloat) : result Z :=
  match x with
  | S754_zero _ => Return 0
  | S754_finite s m e =>
      let magnitude := if 0 <=? e then Z.pos m * 2 ^ e else Z.pos m / 2 ^ (- e) in
      Return (if s then - magnitude else magnitude)
  | S754_infinity _ => Raise OverflowError
  | S754_nan => Raise ValueError
  end.

(** [max(1, int(context_length * threshold))] *)
Definition threshold_tokens (context_length : Z) (threshold : pyfloat) : result Z :=
  let? n := int_of_float (SFmul 53 1024 (float_of_int context_length) threshold) in Return (Z.max 1 n).

(** * The plan *)

(** The index of the last element that satisfies [p]. *)
Fixpoint last_index {A} (p : A -> bool) (l : list A) : option nat :=
  match l with
  | [] => None
  | x :: l => match last_index p l with Some i => Some (S i) | None => if p x then Some O else None end
  end.

Definition select_messages (l : list ContextMessageCandidate) : list string :=
  match last_index cm_is_summary l with
  | None => map cm_id (List.filter (fun m => negb (cm_is_summarized m)) l)
  | Some latest =>
      map (fun p => cm_id p.2)
        (List.filter (fun p => negb (cm_is_summary p.2 && negb (Nat.eqb p.1 latest))
                               && negb (cm_is_summarized p.2 && negb (cm_is_summary p.2)))
           (imap pair l))
  end.

Definition decide_compression (r : ContextPolicyRequest) : result (list string * option CompressionPlan) :=
  if in_cooldown r && negb (cr_force r) then Return (["compression skipped: cooldown"], None)
  else
    let? tokens := estimate_messages_tokens (cr_messages r) in
    let? threshold := threshold_tokens (context_length r) (compression_threshold r) in
    if negb (cr_force r) && (tokens <=? threshold) then Return (["compression skipped"], None)
    else Return ([if cr_force r then "compression forced" else "compression triggered"],
           Some (mkCompressionPlan (protect_first_n r) (protect_last_n r) (compression_target_ratio r) (cr_force r))).

Definition build_injection_plan (messages : list ContextMessageCandidate) (blocks : list string) : option string :=
  match blocks with
  | [] => None
  | _ => cm_id <$> List.find (fun m => bool_decide (cm_role m = "user") && negb (cm_is_summary m)) (rev messages)
  end.

Definition allocate_tokens (r : ContextPolicyRequest) : TokenAllocation :=
  let total := model_context_window r in
  let system := Z.min (total / 10) 2000 in
  let tool := Z.min (total / 10) (Z.max 100 (Z.of_nat (length (cr_tool_schemas r)) * 100)) in
  let remaining := Z.max 0 (total - system - tool) in
  let session := remaining / 2 in
  mkTokenAllocation system session (remaining - session) tool total.

Definition evaluate_context (r : ContextPolicyRequest) : result ContextPlan :=
  let selected := select_messages (cr_messages r) in
  let? d := decide_compression r in
  let target := build_injection_plan (cr_messages r) (cr_memory_blocks r) in
  Return (mkContextPlan selected d.2 target (allocate_tokens r)
            (("selected " +:+ pretty (Z.of_nat (length selected)) +:+ " messages") :: d.1
             ++ [match target with
                 | Some i => if truthy_str i then "inject memory to message " +:+ i else "no memory injection"
                 | None => "no memory injection"
                 end; "token allocation"])).

(** * Projections *)

Definition project_message (m : Message.t) : ContextMessageCandidate :=
  mkCandidate (Message.id m) (Message.role m) (Message.content m) (Message.is_summary m) (Message.is_summarized m)
    (bool_decide (Message.role m = "assistant")
     && match Message.content m with JObj kvs => truthy_json (dict_get kvs "tool_calls") | _ => false end)
    (Message.tool_call_id m) (Message.name m).
Definition project_messages (l : list Message.t) : list ContextMessageCandidate := map project_message l.

Definition is_summary_text (content : json) : bool :=
  match content with JStr s => starts_with CONTEXT_SUMMARY_PREFIX s | _ => false end.

Definition project_working_message (i : nat) (m : dict) : ContextMessageCandidate :=
  let role := match obj_get "role" m with Some v => py_str v | None => "user" end in
  let content := default (JStr "") (obj_get "content" m) in
  let calls := truthy_json (dict_get m "tool_calls") in
  let content' := match content with
                  | JObj _ => if calls then JObj [("content", content); ("tool_calls", dict_get m "tool_calls")] else content
                  | _ => content
                  end in
  mkCandidate (match obj_get "id" m with Some v => py_str v | None => "wm-" +:+ pretty (Z.of_nat i) end)
    role content' (bool_decide (role = "user") && is_summary_text content') false calls
    (as_str (dict_get m "tool_call_id")) (as_str (dict_get m "name")).
Definition project_working_messages (l : list dict) : list ContextMessageCandidate := imap project_working_message l.

(** * Calls and answers *)

Definition call_ref (tc : json) : json := match tc with JObj kvs => dict_get kvs "id" | _ => JNull end.

Fixpoint take_while {A} (p : A -> bool) (l : list A) : list A :=
  match l with [] => [] | x :: l => if p x then x :: take_while p l else [] end.

(** What a kind of message offers: whether it is an answer and to which call, the calls
    it makes, itself with fewer calls, and what is left of it without any. *)
Class MessageKind (M : Type) := mkMessageKind {
  is_tool : M -> bool;
  answer_ref : M -> json;
  made_calls : M -> list json;
  with_calls : M -> list json -> M;
  without_calls : M -> option M
}.

Section sanitize.
Context {M : Type} `{MessageKind M}.

Definition answered_group (m : M) (following : list M) : list M :=
  let ids := List.filter truthy_json (map call_ref (made_calls m)) in
  let answers := List.filter (fun t => bool_decide (answer_ref t ∈ ids)) following in
  let kept := List.filter (fun tc => bool_decide (call_ref tc ∈ map answer_ref answers)) (made_calls m) in
  match kept with
  | [] => option_list (without_calls m)
  | _ => with_calls m kept :: answers
  end.

(** [skip]: answers the group before has taken. *)
Fixpoint sanitize_from (skip : nat) (l : list M) : list M :=
  match l with
  | [] => []
  | m :: rest =>
      match skip with
      | S k => sanitize_from k rest
      | O =>
          match made_calls m with
          | [] => if is_tool m then sanitize_from 0 rest else m :: sanitize_from 0 rest
          | _ => let following := take_while is_tool rest in
                 answered_group m following ++ sanitize_from (length following) rest
          end
      end
  end.
Definition sanitize (l : list M) : list M := sanitize_from 0 l.
End sanitize.

(** * Stored messages *)

(** [_assistant_tool_calls] *)
Definition assistant_tool_calls (m : Message.t) : list json :=
  if bool_decide (Message.role m = "assistant") then
    match Message.content m with
    | JObj kvs => match dict_get kvs "tool_calls" with JArr l => l | _ => [] end
    | _ => []
    end
  else [].

(** [_assistant_content_without_tool_calls] *)
Definition assistant_content_without_tool_calls (m : Message.t) : json :=
  match Message.content m with JObj kvs => default (JStr "") (obj_get "content" kvs) | v => v end.

#[export] Instance stored_message : MessageKind Message.t := {
  is_tool m := bool_decide (Message.role m = "tool");
  answer_ref m := json_opt_str (Message.tool_call_id m);
  made_calls := assistant_tool_calls;
  with_calls m kept :=
    m <| Message.content := JObj [("content", assistant_content_without_tool_calls m); ("tool_calls", JArr kept)] |>;
  without_calls m :=
    let content := assistant_content_without_tool_calls m in
    if truthy_json content then Some (m <| Message.content := content |>) else None
}.

(** [_sanitize_conversation_tool_pairs] *)
Definition sanitize_conversation_tool_pairs (l : list Message.t) : list Message.t := sanitize l.

(** [_build_latest_compressed_context] *)
Definition plain (m : Message.t) : bool := negb (Message.is_summary m) && negb (Message.is_summarized m).

(** The index of the first element that satisfies [p]. *)
Fixpoint first_index {A} (p : A -> bool) (l : list A) : option nat :=
  match l with
  | [] => None
  | x :: l => if p x then Some O else S <$> first_index p l
  end.

Definition build_latest_compressed_context (messages : list Message.t) : list Message.t :=
  match last_index Message.is_summary messages with
  | None => List.filter (fun m => negb (Message.is_summarized m)) messages
  | Some latest =>
      let covered m := Message.is_summarized m && negb (Message.is_summary m) in
      match first_index covered (take latest messages) with
      | None => (List.filter (fun p => negb (Message.is_summary p.2) || Nat.eqb p.1 latest) (imap pair messages)).*2
      | Some first =>
          let head := List.filter plain (take first messages) in
          let tail := List.filter (fun m => plain m && negb (bool_decide (Message.id m ∈ map Message.id head))) messages in
          head ++ option_list (messages !! latest) ++ tail
      end
  end.

(** * Provider messages *)

(** [_message_to_provider] *)
Definition text_field (key : string) (o : option string) : dict :=
  if truthy_opt_str o then [(key, json_opt_str o)] else [].

Definition message_to_provider (m : Message.t) : dict :=
  let '(content, tool_calls) :=
    match Message.content m with
    | JObj kvs =>
        if bool_decide (Message.role m = "assistant") && bool_decide (is_Some (obj_get "tool_calls" kvs))
        then (default (JStr "") (obj_get "content" kvs), json_or (dict_get kvs "tool_calls") (JArr []))
        else (Message.content m, JNull)
    | v => (v, JNull)
    end in
  if bool_decide (Message.role m = "tool") then
    [("role", JStr "tool")] ++ text_field "tool_call_id" (Message.tool_call_id m) ++ text_field "name" (Message.name m)
    ++ [("content", match content with JStr _ => content | _ => JStr (dump content) end)]
  else
    [("role", JStr (Message.role m)); ("content", content)]
    ++ (if truthy_json tool_calls then [("tool_calls", tool_calls)] else [])
    ++ text_field "tool_call_id" (Message.tool_call_id m) ++ text_field "name" (Message.name m).

Definition has_role (role : string) (m : dict) : bool := bool_decide (dict_get m "role" = JStr role).

Definition provider_calls (m : dict) : list json := match dict_get m "tool_calls" with JArr l => l | _ => [] end.

(** The compressor's [_sanitize_tool_pairs] ([m.pop("tool_calls")], and an assistant
    message without content goes). *)
#[export] Instance provider_message : MessageKind dict := {
  is_tool := has_role "tool";
  answer_ref m := dict_get m "tool_call_id";
  made_calls m := if has_role "assistant" m then provider_calls m else [];
  with_calls m kept := dict_set "tool_calls" (JArr kept) m;
  without_calls m :=
    let m := dict_pop "tool_calls" m in
    if truthy_json (dict_get m "content") || negb (has_role "assistant" m) then Some m else None
}.

Definition sanitize_tool_pairs (l : list dict) : list dict := sanitize l.
