(* ===== verification/ContextCompressor.v ===== *)
(** The three-segment compressor (app/infrastructure/context/context_compressor.py): the
    head and the tail stay, the middle becomes one summary message.

    The model provider and the fallback summarizer are awaits: functions of a state.
    Indices are natural numbers; the code never makes them negative.  Lengths of texts
    are the lengths of their models. *)
From S2P Require Import Prelude Json Repr Text Effects Budget SessionStore ContextHistory.
From stdpp Require Import gmap sets strings.
From Stdlib Require Import SpecFloat.
Open Scope Z_scope.

Record LLMResult := mkLLMResult { lr_message : dict; lr_finish_reason : string; lr_usage : dict }.

(** [chat(messages, tools, stream=False, model, options)], with the options of generation;
    [None] is a result that is not an [LLMResult]. *)
Class LLMProvider (S : Type) := {
  provider_chat : list dict -> list json -> string -> dict -> act S (option LLMResult)
}.

Record ContextCompressionResult := mkCompressionResult {
  cc_messages : list dict;
  cc_summary : string;
  compressed : bool;
  skipped_reason : option string;
  original_tokens : Z;
  compressed_tokens : option Z;
  summarized_message_indices : list nat
}.

Record CompressorConfig := mkCompressorConfig {
  cf_model : string;
  cf_context_length : Z;
  cf_threshold_percent : pyfloat;
  cf_protect_first_n : nat;
  cf_protect_last_n : nat;
  cf_summary_target_ratio : pyfloat;
  cf_cooldown_seconds : pyfloat;
  cf_tail_budget_enabled : bool
}.

(** * Tokens *)

Definition dump_sorted (v : json) : Z := len (dumps_sorted v) / 4.

(** The parts of a content until one raises. *)
Fixpoint estimate_parts (parts : list json) : Z * bool :=
  match parts with
  | [] => (10, true)
  | p :: parts =>
      match match p with
            | JObj kvs =>
                if bool_decide (dict_get kvs "type" = JStr "text")
                then let? n := py_len (default (JStr "") (obj_get "text" kvs)) in Return (n / 4)
                else if bool_decide (dict_get kvs "type" = JStr "image_url") then Return 1500
                else Return (dump_sorted p)
            | _ => Return 0
            end with
      | Return n => let '(m, ok) := estimate_parts parts in (n + m, ok)
      | Raise _ => (0, false)
      end
  end.

Definition estimate_dict (m : dict) : Z :=
  let '(content, ok) :=
    match default (JStr "") (obj_get "content" m) with
    | JStr s => (len s / 4 + 10, true)
    | JArr parts => estimate_parts parts
    | v => (dump_sorted v + 10, true)
    end in
  let field k := if truthy_json (dict_get m k) then dump_sorted (dict_get m k) else 0 in
  if ok then content + field "tool_calls" + field "name" + field "tool_call_id" else content.

Definition estimate_tokens (l : list dict) : Z := foldr (fun m n => estimate_dict m + n) 0 l.

(** * Tool groups *)

Definition refs_of (m : dict) : list json := List.filter truthy_json (map call_ref (provider_calls m)).

Definition answers_one_of (ids : list json) (m : dict) : bool :=
  has_role "tool" m && bool_decide (dict_get m "tool_call_id" ∈ ids).

Fixpoint first_some {A B} (f : A -> option B) (l : list A) : option B :=
  match l with [] => None | x :: l => match f x with Some y => Some y | None => first_some f l end end.

(** [_tool_group_span], end exclusive; the depth of the search never exceeds [idx]. *)
Fixpoint tool_group_span_fuel (fuel : nat) (l : list dict) (idx : nat) : nat * nat :=
  match l !! idx with
  | None => (idx, idx)
  | Some m =>
      if has_role "tool" m then
        match fuel with
        | O => (idx, S idx)
        | S fuel =>
            default (idx, S idx)
              (first_some (fun start =>
                 if bool_decide (dict_get m "tool_call_id" ∈ from_option refs_of [] (l !! start)) then
                   let '(s, e) := tool_group_span_fuel fuel l start in
                   if (s <=? idx)%nat && (idx <? e)%nat then Some (s, e) else None
                 else None) (rev (seq 0 idx)))
        end
      else if truthy_json (dict_get m "tool_calls")
      then (idx, (S idx + length (take_while (answers_one_of (refs_of m)) (drop (S idx) l)))%nat)
      else (idx, S idx)
  end.
Definition tool_group_span (l : list dict) (idx : nat) : nat * nat := tool_group_span_fuel (S idx) l idx.

Definition align_boundary_backward (l : list dict) (idx : nat) : nat :=
  if (idx =? 0)%nat || (length l <=? idx)%nat then idx
  else
    let '(s, e) := tool_group_span l (pred idx) in
    if (s <? idx)%nat && (idx <? e)%nat then s
    else let '(s, e) := tool_group_span l idx in if (s <? idx)%nat && (idx <? e)%nat then s else idx.

Definition align_boundary_forward (l : list dict) (idx : nat) : nat :=
  if (length l <=? idx)%nat then idx
  else let '(s, e) := tool_group_span l idx in
       if (s <=? idx)%nat && (idx <? e)%nat && (1 <? e - s)%nat then e else idx.

(** * Where the tail starts *)

Definition slice {A} (l : list A) (i j : nat) : list A := take (j - i) (drop i l).

(** [for idx in range(len - 1, head_end, -1)] *)
Fixpoint walk_tail (l : list dict) (head_end protected_start : nat) (budget : Z) (idxs : list nat)
    (tail_start : nat) (used : Z) : nat :=
  match idxs with
  | [] => tail_start
  | idx :: idxs =>
      let candidate := align_boundary_backward l idx in
      if (idx <? protected_start)%nat && (budget <? used + estimate_tokens (slice l candidate tail_start)) then tail_start
      else
        if (candidate <=? head_end)%nat then candidate
        else walk_tail l head_end protected_start budget idxs candidate (estimate_tokens (drop candidate l))
  end.

Definition force_middle (l : list dict) (head_end tail_start : nat) : nat :=
  Nat.max (S head_end)
    (if (tail_start <=? head_end)%nat then align_boundary_forward l (S head_end) else tail_start).

Definition find_tail_cut_by_tokens (cf : CompressorConfig) (l : list dict) (head_end : nat) (budget : Z) : nat :=
  let protected_start := Nat.max head_end (length l - cf_protect_last_n cf) in
  force_middle l head_end
    (walk_tail l head_end protected_start budget (rev (seq (S head_end) (length l - S head_end))) (length l) 0).

Definition find_tail_cut_by_count (cf : CompressorConfig) (l : list dict) (head_end : nat) : nat :=
  force_middle l head_end
    (align_boundary_backward l (Nat.max (S head_end) (length l - cf_protect_last_n cf))).

(** * Summaries *)

Definition is_summary_message (m : dict) : bool := has_role "user" m && is_summary_text (dict_get m "content").

(** The last summary message and its body. *)
Definition find_latest_context_summary (l : list dict) : option (nat * string) :=
  i ← last_index is_summary_message l;
  m ← l !! i;
  match dict_get m "content" with
  | JStr s => Some (i, strip (drop_str (String.length CONTEXT_SUMMARY_PREFIX) s))
  | _ => None
  end.

Definition truncated (s : string) : string := if 500 <? len s then take_str 500 s else s.

Definition prune_call (tc : json) : json :=
  match tc with
  | JObj kvs =>
      let fn := match dict_get kvs "function" with JObj f => f | _ => [] end in
      JObj (dict_set "function"
              (JObj (match default (JStr "") (obj_get "arguments" fn) with
                     | JStr args => if 500 <? len args then dict_set "arguments" (JStr (truncated args)) fn else fn
                     | _ => fn
                     end)) kvs)
  | other => other
  end.

(** [_prune_old_tool_results(..., protect_tail_count=0)] *)
Definition prune_message (m : dict) : dict :=
  if has_role "assistant" m && truthy_json (dict_get m "tool_calls")
  then dict_set "tool_calls" (JArr (map prune_call (provider_calls m))) m
  else if has_role "tool" m then
    match dict_get m "content" with
    | JStr s => if 500 <? len s then dict_set "content" (JStr (truncated s)) m else m
    | _ => m
    end
  else m.

(** [_extract_text]: joining parts raises when a text is not a string. *)
Fixpoint join_parts (parts : list json) : result string :=
  match parts with
  | [] => Return ""
  | JObj kvs :: parts =>
      if bool_decide (dict_get kvs "type" = JStr "text") then
        match default (JStr "") (obj_get "text" kvs) with
        | JStr t => let? rest := join_parts parts in Return (t +:+ rest)
        | _ => Raise TypeError
        end
      else join_parts parts
  | _ :: parts => join_parts parts
  end.
Definition message_text (m : dict) : result string :=
  match default (JStr "") (obj_get "content" m) with
  | JStr s => Return s
  | JArr parts => join_parts parts
  | v => Return (py_str v)
  end.

Fixpoint collect {A} (l : list (result A)) : result (list A) :=
  match l with [] => Return [] | r :: l => let? x := r in let? xs := collect l in Return (x :: xs) end.

Fixpoint join_with (sep : string) (l : list string) : string :=
  match l with [] => "" | [s] => s | s :: l => s +:+ sep +:+ join_with sep l end.

Definition turns_text (turns : list dict) : result string :=
  let? lines := collect (map (fun m => let? t := message_text m in
      Return (match obj_get "role" m with Some v => py_str v | None => "unknown" end +:+ ": " +:+ t)) turns) in
  Return (join_with (String (Ascii.ascii_of_nat 10) "") lines).

(** [_build_static_fallback_summary] *)
Definition texts_of (role : string) (turns : list dict) : result (list string) :=
  let? texts := collect (map message_text (List.filter (has_role role) turns)) in
  Return (List.filter truthy_str texts).

Definition static_fallback_summary (turns : list dict) (existing : string) : result string :=
  let? users := texts_of "user" turns in
  let? assistants := texts_of "assistant" turns in
  match users, assistants with
  | [], [] => Return existing
  | _, _ =>
      Return (join_with " | "
        (match users with u :: _ => ["用户: " +:+ take_str 200 u] | [] => [] end
         ++ match last assistants with Some a => ["助手: " +:+ take_str 200 a] | None => [] end))
  end.

Definition summary_message (summary : string) : dict :=
  [("role", JStr "user"); ("content", JStr (CONTEXT_SUMMARY_PREFIX +:+ summary))].

(** [_insert_summary_message] *)
Definition insert_summary_message (head : list dict) (summary : string) (tail : list dict) : list dict :=
  let cleaned := List.filter (fun m => negb (is_summary_message m)) in
  sanitize_tool_pairs (cleaned head ++ summary_message summary :: cleaned tail).

Definition no_elements {A} (l : list A) : bool := match l with [] => true | _ => false end.

(** [_has_orphan_tool_messages] *)
Fixpoint orphans_from (l : list dict) (idxs : list nat) (valid : list json) : bool :=
  match idxs with
  | [] => false
  | i :: idxs =>
      match l !! i with
      | None => false
      | Some m =>
          let calls := has_role "assistant" m && truthy_json (dict_get m "tool_calls") in
          let ids := refs_of m in
          let results := map (fun t => dict_get t "tool_call_id")
                           (List.filter (has_role "tool") (slice l (S i) (tool_group_span l i).2)) in
          if calls && (no_elements ids || negb (forallb (fun x => bool_decide (x ∈ results)) ids)) then true
          else
            let valid := if calls then valid ++ ids else valid in
            if has_role "tool" m && negb (bool_decide (dict_get m "tool_call_id" ∈ valid)) then true
            else orphans_from l idxs valid
      end
  end.
Definition has_orphan_tool_messages (l : list dict) : bool := orphans_from l (seq 0 (length l)) [].

(** * Asking for a summary *)

Definition FIRST_PROMPT_HEAD : string := "你是一个对话摘要助手。请将以下对话历史压缩为结构化摘要，用于后续对话的上下文恢复。

待压缩对话：
".
Definition FIRST_PROMPT_TAIL : string := "

请输出以下结构（中文），每节不超过 3 行：
## 目标
用户想完成什么

## 进展
已完成的关键步骤

## 决策
已确定的关键决策

## 文件
涉及的文件或资源

## 待办
未完成的工作
".
Definition ITERATIVE_PROMPT_HEAD : string := "你是一个对话摘要助手。请基于已有摘要，把新增对话整合进摘要，用于后续对话的上下文恢复。

PREVIOUS SUMMARY:
".
Definition ITERATIVE_PROMPT_MIDDLE : string := "

NEW TURNS TO INCORPORATE:
".
Definition ITERATIVE_PROMPT_TAIL : string := "

请输出整合后的完整摘要（中文），每节不超过 3 行：
## 目标
用户想完成什么

## 进展
已完成的关键步骤

## 决策
已确定的关键决策

## 文件
涉及的文件或资源

## 待办
未完成的工作
".

Definition summary_prompt (turns existing : string) : string :=
  if truthy_str existing
  then ITERATIVE_PROMPT_HEAD +:+ existing +:+ ITERATIVE_PROMPT_MIDDLE +:+ turns +:+ ITERATIVE_PROMPT_TAIL
  else FIRST_PROMPT_HEAD +:+ turns +:+ FIRST_PROMPT_TAIL.

(** [except Exception]: a cancellation passes. *)
Definition on_exception {S A} (h : act S A) (e : py_exc) : option (act S A) :=
  if bool_decide (e = CancelledError) then None else Some h.

(** How the messages split, or why they are not compressed. *)
Record segments := mkSegments {
  sg_head_end : nat;
  sg_tail_start : nat;
  sg_middle : list dict;
  sg_previous : string
}.

Section compressor.
Context {S : Type} `{LLMProvider S}.
Context (cf : CompressorConfig) (fallback_summarizer : option (list dict -> string -> act S string)).

(** [_generate_summary] *)
Definition generate_summary (turns : list dict) (existing : string) : act S (option string) :=
  try_except
    (do? text <- of_result (turns_text turns) in
     do? r <- provider_chat [[("role", JStr "user"); ("content", JStr (summary_prompt text existing))]] [] (cf_model cf) [] in
     ret (match r with
          | Some r => Some (match default (JStr "") (obj_get "content" (lr_message r)) with JStr s => s | v => py_str v end)
          | None => None
          end))
    (on_exception (ret None)).

(** [_build_fallback_summary] *)
Definition build_fallback_summary (turns : list dict) (existing : string) : act S string :=
  do? first <- match fallback_summarizer with
               | Some summarize => try_except (summarize turns existing) (on_exception (ret ""))
               | None => ret ""
               end in
  if truthy_str first then ret first else of_result (static_fallback_summary turns existing).

(** ** Compressing *)

Definition tail_start_of (l : list dict) (head_end : nat) : result nat :=
  let? cut :=
    if cf_tail_budget_enabled cf then
      let? b := threshold_tokens (cf_context_length cf) (cf_summary_target_ratio cf) in
      Return (find_tail_cut_by_tokens cf l head_end b)
    else Return (find_tail_cut_by_count cf l head_end) in
  Return (align_boundary_backward l cut).

Definition segment (l : list dict) : result (segments + string) :=
  let head_end := align_boundary_forward l (cf_protect_first_n cf) in
  let? tail_start := tail_start_of l head_end in
  if (tail_start <=? head_end)%nat then Return (inr "too_few_messages")
  else
    let prune := map prune_message in
    let first_time := (prune (slice l head_end tail_start), "") in
    let split :=
      match find_latest_context_summary l with
      | None => inl first_time
      | Some (i, body) =>
          if (i <? head_end)%nat then inl first_time
          else if (pred tail_start <=? i)%nat then inr "summary_in_tail"
          else inl (prune (slice l (Datatypes.S i) tail_start), body)
      end in
    Return match split with
           | inr reason => inr reason
           | inl (middle, previous) =>
               match middle with
               | [] => inr "too_few_messages"
               | _ => inl (mkSegments head_end tail_start middle previous)
               end
           end.

(** The clock when the last compression ended, and the clock now. *)
Definition cooling (last : option pyfloat) (now : pyfloat) : bool :=
  match last with Some t => SFltb (fsub now t) (cf_cooldown_seconds cf) | None => false end.

(** Only the estimate of the tokens is guarded; that of the threshold may raise. *)
Definition should_compress (last : option pyfloat) (now : pyfloat) (l : list dict) (prompt_tokens : option Z) (force : bool)
    : result bool :=
  if force then Return true
  else if cooling last now then Return false
  else
    let tokens := default (estimate_tokens l) prompt_tokens in
    let? threshold := threshold_tokens (cf_context_length cf) (cf_threshold_percent cf) in
    Return (threshold <? tokens).

Definition skip (l : list dict) (existing : string) (tokens : Z) (reason : string) : ContextCompressionResult :=
  mkCompressionResult l existing false (Some reason) tokens None [].

Definition compress_segments (l : list dict) (existing : string) (tokens : Z) : act S ContextCompressionResult :=
  do? split <- of_result (segment l) in
  match split with
  | inr reason => ret (skip l existing tokens reason)
  | inl sg =>
      do? generated <- generate_summary (sg_middle sg) (sg_previous sg) in
      do? summary <- match generated with
                     | Some s => ret s
                     | None => build_fallback_summary (sg_middle sg) (sg_previous sg)
                     end in
      do? summary <- (if truthy_str summary then ret summary
                      else if truthy_str (sg_previous sg) then ret (sg_previous sg)
                      else of_result (static_fallback_summary (sg_middle sg) "")) in
      let combined := insert_summary_message (take (sg_head_end sg) l) summary (drop (sg_tail_start sg) l) in
      if has_orphan_tool_messages combined then ret (skip l existing tokens "tool_boundary")
      else if no_elements combined || (length (List.filter (fun m => negb (has_role "system" m)) combined) <=? 1)%nat
      then ret (skip l existing tokens "too_few_messages")
      else ret (mkCompressionResult combined summary true None tokens (Some (estimate_tokens combined))
                  (seq (sg_head_end sg) (sg_tail_start sg - sg_head_end sg)))
  end.

(** [compress]; [last] and [now] are the clock of the last success and the clock read at
    the start, the result says whether this one is to be recorded. *)
Definition compress (last : option pyfloat) (now : pyfloat) (l : list dict) (current_tokens : option Z) (force : bool)
    (existing : string) : act S ContextCompressionResult :=
  let tokens := default (estimate_tokens l) current_tokens in
  if negb force && cooling last now then ret (skip l existing tokens "cooldown")
  else
    do? wanted <- (if force then ret true else of_result (should_compress last now l (Some tokens) false)) in
    if negb wanted then ret (skip l existing tokens "below_threshold")
    else if (length l <=? cf_protect_first_n cf + cf_protect_last_n cf)%nat
    then ret (skip l existing tokens "too_few_messages")
    else try_except (compress_segments l existing tokens) (on_exception (ret (skip l existing tokens "error"))).
End compressor.
