(* ===== verification/AgentState.v ===== *)
(** The state of a turn (app/domain/agent.py) and what the turn awaits.

    [Runtime] gathers the services around the agent loop: the memory facade, the plugin
    hooks, the model provider, usage records, the clock.  Each is a function of the
    [world], which it may change; the loop and the context service are written against
    this interface. *)
From S2P Require Import Prelude Json Repr Effects Budget InformationFlow ToolService TurnPolicy SessionStore ContextHistory ContextCompressor.
From stdpp Require Import gmap sets strings.
Open Scope Z_scope.

Module RunStatus.
Inductive t : Type := PENDING | RUNNING | COMPLETED | FAILED.
#[global] Instance eq_dec : EqDecision t.
Proof. solve_decision. Defined.
Definition value (s : t) : string :=
  match s with PENDING => "pending" | RUNNING => "running" | COMPLETED => "completed" | FAILED => "failed" end.
End RunStatus.

Module ExecutionMode.
Inductive t : Type := REALTIME | UNATTENDED | DELEGATED.
#[global] Instance eq_dec : EqDecision t.
Proof. solve_decision. Defined.
Definition of_value (s : string) : option t :=
  if bool_decide (s = "realtime") then Some REALTIME
  else if bool_decide (s = "unattended") then Some UNATTENDED
  else if bool_decide (s = "delegated") then Some DELEGATED else None.
End ExecutionMode.

(** What a run policy snapshot fixes for the turn (app/application/policy_snapshot.py). *)
Record RunPolicySnapshot := mkSnapshot {
  sn_budget : BudgetConfig;
  sn_turn_timeout : option pyfloat;
  sn_iteration_limit : Z;
  sn_fallback_enabled : bool;
  sn_context : CompressorConfig
}.

(** An event of the tool stream: [ChatEvent(TOOL_CALL_DELTA, tool_call=...)]. *)
Notation tool_event := dict.

(** The options of a run the loop reads; [op_generation] are the others. *)
Record RunOptions (S : Type) := mkRunOptions {
  op_tool_context : option (ToolExecutionContext S);
  op_safe_only : bool;
  op_max_iterations : option Z;
  op_persist_messages : option bool;
  op_snapshot : option RunPolicySnapshot;
  op_execution_mode : option string;
  op_external_memory_enabled : option (list string);
  op_force_compress : bool;
  op_activated_skills : option json;
  op_event_sink : option (tool_event -> act S unit);
  op_generation : dict
}.
Arguments mkRunOptions {S}.
Arguments op_tool_context {S} _.
Arguments op_safe_only {S} _.
Arguments op_max_iterations {S} _.
Arguments op_persist_messages {S} _.
Arguments op_snapshot {S} _.
Arguments op_execution_mode {S} _.
Arguments op_external_memory_enabled {S} _.
Arguments op_force_compress {S} _.
Arguments op_activated_skills {S} _.
Arguments op_event_sink {S} _.
Arguments op_generation {S} _.

(** [final_is_last]: the final message is the object last appended to the working
    messages, so that changing one changes the other. *)
Record AgentState (S : Type) := mkAgentState {
  as_session_id : string;
  as_run_id : string;
  input_messages : list dict;
  working_messages : list dict;
  pending_tool_calls : list json;
  assistant_tool_messages : list dict;
  tool_results : list dict;
  as_summary : string;
  run_status : RunStatus.t;
  iteration_count : Z;
  error : option string;
  final_message : option dict;
  final_is_last : bool;
  finish_reason : option string;
  run_options : RunOptions S;
  stream_tool_events : list tool_event;
  context_message_ids : list string;
  context_plan : option ContextPlan;
  budget_exhausted : bool;
  persist_messages : bool;
  message_source : option string;
  external_memory_context : option string;
  persisted_input_message_ids : list string
}.
Arguments mkAgentState {S}.
Arguments as_session_id {S} _.
Arguments as_run_id {S} _.
Arguments input_messages {S} _.
Arguments working_messages {S} _.
Arguments pending_tool_calls {S} _.
Arguments assistant_tool_messages {S} _.
Arguments tool_results {S} _.
Arguments as_summary {S} _.
Arguments run_status {S} _.
Arguments iteration_count {S} _.
Arguments error {S} _.
Arguments final_message {S} _.
Arguments final_is_last {S} _.
Arguments finish_reason {S} _.
Arguments run_options {S} _.
Arguments stream_tool_events {S} _.
Arguments context_message_ids {S} _.
Arguments context_plan {S} _.
Arguments budget_exhausted {S} _.
Arguments persist_messages {S} _.
Arguments message_source {S} _.
Arguments external_memory_context {S} _.
Arguments persisted_input_message_ids {S} _.
#[export] Instance rebuild_agent_state S : Rebuild (AgentState S) := fun s =>
  mkAgentState (as_session_id s) (as_run_id s) (input_messages s) (working_messages s) (pending_tool_calls s)
    (assistant_tool_messages s) (tool_results s) (as_summary s) (run_status s) (iteration_count s) (error s)
    (final_message s) (final_is_last s) (finish_reason s) (run_options s) (stream_tool_events s)
    (context_message_ids s) (context_plan s) (budget_exhausted s) (persist_messages s) (message_source s)
    (external_memory_context s) (persisted_input_message_ids s).

(** [AgentState(session_id=..., run_id=..., input_messages=...)] with its options. *)
Definition new_agent_state {S} (session_id run_id : string) (input : list dict) (options : RunOptions S) : AgentState S :=
  mkAgentState session_id run_id input [] [] [] [] "" RunStatus.PENDING 0 None None false None options [] [] None
    false true None None [].

(** * The services around the loop *)

(** The memory facade (app/application/runtime_memory_service.py), by the operations the
    runtime uses. *)
Class RuntimeMemory (S : Type) := {
  read_session_messages : string -> act S (list Message.t);
  get_summary_if_allowed : string -> act S (option Summary.t);
  append_assistant_message : string -> json -> option string -> act S unit;
  append_tool_message : string -> json -> option string -> option string -> act S unit;
  append_system_named_message : string -> string -> json -> dict -> act S unit;
  append_summary_message_if_allowed : string -> string -> act S string;
  mark_messages_summarized_if_allowed : string -> list string -> act S unit;
  save_summary_if_allowed : string -> string -> string -> act S unit;
  save_tool_call_if_allowed : string -> string -> string -> dict -> dict -> string -> Z -> act S unit;
  save_task_state_if_allowed : string -> string -> Z -> option string -> act S unit;
  sync_external_if_allowed : string -> string -> string -> string -> ExecutionMode.t -> option (list string) -> act S unit;
  read_external_if_allowed : string -> string -> option (list string) -> act S string
}.

(** A usage record: session, model, provider, kind, requested model, trigger, and the
    texts whose retention was allowed. *)
Record usage_record := mkUsageRecord {
  ur_session_id : string;
  ur_model : option string;
  ur_trigger : string;
  ur_requested_model : option string;
  ur_raw_usage : dict;
  ur_request : option string;
  ur_response : option string;
  ur_tools : option string;
  ur_generation : option string
}.

(** [provider_view]: [current_config] as its id, model and vision flag, or the default
    model of a raw provider. *)
Class Runtime (W : Type) := {
  runtime_env :: Environment W;
  runtime_memory :: RuntimeMemory (world W);
  runtime_provider :: LLMProvider (world W);
  is_cancelled : string -> world W -> bool;
  invoke_hook : option (string -> dict -> act (world W) (list json));
  provider_view : W -> option (string * string * bool) * string;
  vision_capability : option (W -> bool);
  record_usage : option (usage_record -> act (world W) unit);
  log_payload : string -> act (world W) unit;
  exception_text : py_exc -> string
}.

(** * A turn in progress

    The runner keeps, by run, when it started and why it ended; the compressor keeps the
    clock of its last success. *)
Record runner := mkRunner {
  run_start_times : gmap string pyfloat;
  run_end_reasons : gmap string string;
  last_compressed_at : option pyfloat
}.
#[export] Instance rebuild_runner : Rebuild runner := fun r =>
  mkRunner (run_start_times r) (run_end_reasons r) (last_compressed_at r).

Record turn (W : Type) := mkTurn { st : AgentState (world W); wd : world W; rn : runner }.
Arguments mkTurn {W}.
Arguments st {W} _.
Arguments wd {W} _.
Arguments rn {W} _.
#[export] Instance rebuild_turn W : Rebuild (turn W) := fun t => mkTurn (st t) (wd t) (rn t).

Section turn.
Context {W : Type}.

(** An await: a step of the world. *)
Definition await {A} (c : act (world W) A) : act (turn W) A := fun t =>
  let '(w, r) := c (wd t) in (t <| wd := w |>, r).
(** An assignment to fields of the state. *)
Definition assign (f : AgentState (world W) -> AgentState (world W)) : act (turn W) unit := modify (fun t => t <| st := f (st t) |>).
Definition with_state {A} (k : AgentState (world W) -> act (turn W) A) : act (turn W) A := fun t => k (st t) t.
Definition with_turn {A} (k : turn W -> act (turn W) A) : act (turn W) A := fun t => k t t.
End turn.
