(* ===== verification/ContextService.v ===== *)
(** The context of a model call (app/application/context_service.py): the history with
    this run's input, its compression and the persistence of a summary, recalled memory
    on the last question, and the tools that are exposed.

    The system prompt (app/application/prompt_builder.py) and the skill listings are
    arguments, as is the hook of external memory before a compression. *)
From S2P Require Import Prelude Json Repr Text Effects Budget InformationFlow ToolService TurnPolicy SessionStore ContextHistory ContextCompressor AgentState.
From stdpp Require Import gmap sets strings.
From Stdlib Require Import SpecFloat.
Open Scope Z_scope.

(** What the service is wired with. *)
Record ContextWiring (W : Type) := mkContextWiring {
  cw_system_prompt : option (list string) -> option string -> list string -> string;
  cw_skills_index : option (act (world W) string);
  cw_list_chat_selectable : option (act (world W) (option (list json)));
  cw_engine : option CompressorConfig;
  cw_fallback_summarizer : option (list dict -> string -> act (world W) string);
  cw_external_memory : bool;
  cw_pre_compress_all : list dict -> string -> option (list string) -> act (world W) string;
  cw_memory_tool : string -> option (list string) -> option bool;
  cw_record_compression : option (string -> Z -> option Z -> option string -> option string -> act (world W) unit);
  cw_clock : act (world W) pyfloat
}.
Arguments mkContextWiring {W}.
Arguments cw_system_prompt {W} _.
Arguments cw_skills_index {W} _.
Arguments cw_list_chat_selectable {W} _.
Arguments cw_engine {W} _.
Arguments cw_fallback_summarizer {W} _.
Arguments cw_external_memory {W} _.
Arguments cw_pre_compress_all {W} _.
Arguments cw_memory_tool {W} _.
Arguments cw_record_compression {W} _.
Arguments cw_clock {W} _.

(** [DefaultContextPolicy]'s values, without an engine. *)
Definition default_config : CompressorConfig :=
  mkCompressorConfig "" 32000 (SFdiv 53 1024 (float_of_int 1) (float_of_int 2)) 3 10
    (SFdiv 53 1024 (float_of_int 1) (float_of_int 5)) (float_of_int 300) false.

(** [build_context_policy_request] *)
Definition context_policy_request (cf : CompressorConfig) (messages : list ContextMessageCandidate) (force cooldown : bool)
    : ContextPolicyRequest :=
  mkContextRequest messages [] [] (cf_context_length cf) (cf_context_length cf) (cf_threshold_percent cf)
    (cf_summary_target_ratio cf) (Z.of_nat (cf_protect_first_n cf)) (Z.of_nat (cf_protect_last_n cf)) force cooldown.

Definition usable_name (v : json) : bool := match v with JStr s => truthy_str (strip s) | _ => false end.

(** The activated skills among the live ones, in the order of the user. *)
Definition filter_activated (raw live : list json) : list string :=
  omap (fun v => match v with JStr s => if bool_decide (JStr s ∈ List.filter usable_name live) then Some s else None | _ => None end)
    raw.

(** The last question: a user message that is no summary. *)
Definition is_question (m : dict) : bool :=
  has_role "user" m && negb (starts_with CONTEXT_SUMMARY_PREFIX (extract_text (default (JStr "") (obj_get "content" m)))).

Definition tool_name_of (tool : json) : string :=
  match tool with
  | JObj kvs => match dict_get kvs "function" with JObj f => match dict_get f "name" with JStr n => n | _ => "" end | _ => "" end
  | _ => ""
  end.

Section service.
Context {W : Type} `{Runtime W} (wiring : ContextWiring W).
Notation action := (act (turn W)).

(** [_get_engine_config], [_check_cooldown] *)
Definition engine_config (s : AgentState (world W)) : CompressorConfig :=
  match op_snapshot (run_options s) with
  | Some sn => sn_context sn
  | None => default default_config (cw_engine wiring)
  end.
Definition check_cooldown : action bool :=
  match cw_engine wiring with
  | None => ret false
  | Some cf => do? now <- await (cw_clock wiring) in with_turn (fun t => ret (cooling cf (last_compressed_at (rn t)) now))
  end.

Definition plan_context (candidates : list ContextMessageCandidate) : action ContextPlan :=
  do? cooldown <- check_cooldown in
  with_state (fun s => of_result (evaluate_context
    (context_policy_request (engine_config s) candidates (op_force_compress (run_options s)) cooldown))).

Definition stop_if_cancelled : action unit :=
  with_turn (fun t => if is_cancelled (as_session_id (st t)) (wd t) then raise CancelledError else ret tt).

Definition skills_index : action (option string) :=
  match cw_skills_index wiring with
  | None => ret None
  | Some build => try_except (do? i <- await build in ret (if truthy_str i then Some i else None)) (on_exception (ret None))
  end.

Definition activated_skills (raw : option json) : action (list string) :=
  match raw with
  | Some (JArr (v :: l)) =>
      match cw_list_chat_selectable wiring with
      | None => ret []
      | Some listing =>
          try_except (do? live <- await listing in ret (filter_activated (v :: l) (default [] live))) (on_exception (ret []))
      end
  | _ => ret []
  end.

Definition eligible (s : AgentState (world W)) (m : Message.t) : bool :=
  negb (bool_decide (Message.role m = "system")) && negb (bool_decide (Message.id m ∈ persisted_input_message_ids s)).

Definition build_context_state : action unit :=
  stop_if_cancelled;>
  with_state (fun s =>
  do? messages <- await (read_session_messages (as_session_id s)) in
  let eligible_messages := List.filter (eligible s) messages in
  do? summary <- await (get_summary_if_allowed (as_session_id s)) in
  do? plan <- plan_context (project_messages eligible_messages) in
  let context_messages := sanitize_conversation_tool_pairs (build_latest_compressed_context eligible_messages) in
  assign (fun s => s <| context_plan := Some plan |> <| context_message_ids := map Message.id context_messages |>);>
  do? index <- skills_index in
  do? activated <- activated_skills (op_activated_skills (run_options s)) in
  let prompt := cw_system_prompt wiring (op_external_memory_enabled (run_options s)) index activated in
  assign (fun s => s
    <| working_messages := [("role", JStr "system"); ("content", JStr prompt)]
                             :: map message_to_provider context_messages ++ input_messages s |>
    <| as_summary := from_option Summary.summary "" summary |> <| run_status := RunStatus.RUNNING |>)).

(** [except Exception: log], with a default. *)
Definition logged {A} (c : action A) : action (option A) :=
  try_except (do? a <- c in ret (Some a)) (on_exception (ret None)).

Definition persist_summary (summary_content next_summary : string) (indices : list nat) : action bool :=
  with_state (fun s =>
  do? appended <- logged (await (append_summary_message_if_allowed (as_session_id s) summary_content)) in
  match appended with
  | None => ret false
  | Some message_id =>
      let middle_ids := omap (fun i => context_message_ids s !! i) indices in
      (match middle_ids with
       | [] => ret tt
       | _ => logged (await (mark_messages_summarized_if_allowed (as_session_id s) middle_ids));> ret tt
       end);>
      (if truthy_str next_summary
       then logged (await (save_summary_if_allowed (as_session_id s) next_summary message_id));> ret tt else ret tt);>
      ret true
  end).

Definition record_compression (non_system : list dict) (summaries : list dict) (r : ContextCompressionResult) : action unit :=
  match cw_record_compression wiring with
  | None => ret tt
  | Some record =>
      let before := omap (fun i => non_system !! i) (summarized_message_indices r) in
      let text l := match l with [] => None | _ => Some (dump (JArr (map JObj l))) end in
      with_state (fun s =>
        logged (await (record (as_session_id s) (original_tokens r) (compressed_tokens r) (text before) (text summaries)));> ret tt)
  end.

Definition compress_prepared_context : action unit :=
  stop_if_cancelled;>
  match cw_engine wiring with
  | None => ret tt
  | Some cf =>
      with_state (fun s =>
      let leading_system := take_while (has_role "system") (working_messages s) in
      let non_system := drop (length leading_system) (working_messages s) in
      do? plan <- plan_context (project_working_messages non_system) in
      assign (fun s => s <| context_plan := Some plan |>);>
      match compression plan with
      | None => ret tt
      | Some cp =>
          do? rescued <- (if persist_messages s && cw_external_memory wiring
                          then await (cw_pre_compress_all wiring non_system (as_session_id s)
                                        (op_external_memory_enabled (run_options s)))
                          else ret "") in
          do? now <- await (cw_clock wiring) in
          with_turn (fun t =>
          do? r <- await (compress cf (cw_fallback_summarizer wiring) (last_compressed_at (rn t)) now non_system None
                            (cp_force cp) (as_summary s)) in
          if negb (compressed r) then ret tt
          else
            do? ended <- await (cw_clock wiring) in
            modify (fun t => t <| rn := (rn t) <| last_compressed_at := Some ended |> |>);>
            match List.filter is_summary_message (cc_messages r) with
            | [summary_dict] =>
                let next_summary := if truthy_str rescued
                                    then strip (rescued +:+ String (Ascii.ascii_of_nat 10) (String (Ascii.ascii_of_nat 10) (cc_summary r)))
                                    else cc_summary r in
                let finish := assign (fun s => s <| as_summary := next_summary |>
                                                 <| working_messages := leading_system ++ cc_messages r |>) in
                if negb (persist_messages s) then finish
                else
                  do? stored <- persist_summary (extract_text (dict_get summary_dict "content")) next_summary
                                  (summarized_message_indices r) in
                  if stored then finish;> record_compression non_system [summary_dict] r else ret tt
            | _ => ret tt
            end)
      end)
  end.

Definition prepare_context : action unit := build_context_state;> compress_prepared_context.

(** ** One model call *)

Definition build_provider_messages : action (list dict) :=
  with_state (fun s =>
  if negb (cw_external_memory wiring) then ret (working_messages s)
  else match last_index is_question (working_messages s) with
  | None => ret (working_messages s)
  | Some i =>
      let last_msg := default [] (working_messages s !! i) in
      do? recalled <-
        match external_memory_context s with
        | Some c => ret c
        | None =>
            match obj_get "content" last_msg with
            | None => raise KeyError
            | Some content =>
                do? c <- await (read_external_if_allowed (extract_text content) (as_session_id s)
                                  (op_external_memory_enabled (run_options s))) in
                assign (fun s => s <| external_memory_context := Some c |>);> ret c
            end
        end in
      if truthy_str recalled then
        match obj_get "content" last_msg with
        | None => raise KeyError
        | Some content =>
            let blank := String (Ascii.ascii_of_nat 10) (String (Ascii.ascii_of_nat 10) "") in
            ret (<[i := dict_set "content" (prepend_text_part content (recalled +:+ blank)) last_msg]> (working_messages s))
        end
      else ret (working_messages s)
  end).

(** [tools] is absent when the service has no tool service. *)
Definition build_provider_context : action (list dict * list json) :=
  do? messages <- build_provider_messages in
  with_turn (fun t =>
  let o := run_options (st t) in
  let listed := list_openai_tools (tools (wd t))
                  (ExposePolicy (if op_safe_only o then ToolExposurePolicy.SAFE_ONLY else ToolExposurePolicy.DEFAULT))
                  (op_tool_context o) in
  ret (messages,
    if cw_external_memory wiring
    then List.filter (fun tool => default true (cw_memory_tool wiring (tool_name_of tool) (op_external_memory_enabled o))) listed
    else listed)).
End service.
