(* ===== verification/AgentGraph.v ===== *)
(** The agent loop (app/application/agent_graph.py, AgentGraphRunner).

    The graph alternates calls of the model and of tools until the turn policy stops it;
    [graph_run] executes its nodes, at most as many as the recursion limit of the graph
    library.  An exception a node raises ends the run.  Requests of tools are objects
    with fresh identities.  The projection of browser arguments, the granting of a host
    browser, [json.loads] and the wiring are arguments; telemetry is left out, and so are
    the nudges to other services after a turn. *)
From S2P Require Import Prelude Json Repr Text Effects Budget InformationFlow ToolService TurnPolicy SessionStore Scrubber ContextHistory ContextCompressor AgentState ContextService.
From stdpp Require Import gmap sets strings.
From Stdlib Require Import SpecFloat.
Open Scope Z_scope.

Definition finish_reason_of (r : EndReason.t) : string :=
  match r with
  | EndReason.STOP => "stop"
  | EndReason.ERROR => "error"
  | EndReason.ITERATION_LIMIT => "length"
  | EndReason.LENGTH => "length"
  | EndReason.CANCELLED => "error"
  | EndReason.DEADLINE => "length"
  | EndReason.BUDGET_EXHAUSTED => "length"
  | EndReason.TOOL_CALLS => "tool_calls"
  end.
Definition telemetry_reason_of (r : EndReason.t) : string :=
  match r with
  | EndReason.STOP => "completed"
  | EndReason.ERROR => "error"
  | EndReason.ITERATION_LIMIT => "max_iterations"
  | EndReason.LENGTH => "length"
  | EndReason.CANCELLED => "cancelled"
  | EndReason.DEADLINE => "deadline"
  | EndReason.BUDGET_EXHAUSTED => "budget_denied"
  | EndReason.TOOL_CALLS => "tool_calls"
  end.

Definition _ARTIFACT_WRITE_TOOLS : list string := ["artifact_create"; "artifact_update"; "artifact_rollback"; "artifact_publish"].

Record GraphWiring (W : Type) := mkGraphWiring {
  gw_context : ContextWiring W;
  gw_iteration_limit : Z;
  gw_turn_timeout : option pyfloat;
  gw_information_flow : InformationFlowService;
  gw_tool_information_flow : option InformationFlowService;
  gw_tool_budget : bool;
  gw_fallback_enabled : bool;
  gw_grant_host : option (string -> string -> json -> act (world W) (option bool));
  gw_project_browser : string -> dict -> result dict;
  gw_json_loads : string -> option json;
  gw_urlsplit : string -> option SplitResult;
  gw_fresh_ref : W -> positive
}.
Arguments mkGraphWiring {W}.
Arguments gw_context {W} _.
Arguments gw_iteration_limit {W} _.
Arguments gw_turn_timeout {W} _.
Arguments gw_information_flow {W} _.
Arguments gw_tool_information_flow {W} _.
Arguments gw_tool_budget {W} _.
Arguments gw_fallback_enabled {W} _.
Arguments gw_grant_host {W} _.
Arguments gw_project_browser {W} _.
Arguments gw_json_loads {W} _.
Arguments gw_urlsplit {W} _.
Arguments gw_fresh_ref {W} _.

(** * Messages of a call *)

(** The object a JSON value is, as a message. *)
Definition as_dict (v : json) : dict := match v with JObj kvs => kvs | _ => [] end.
Definition as_messages (v : json) : list dict := match v with JArr l => map as_dict l | _ => [] end.
Definition messages_json (l : list dict) : json := JArr (map JObj l).

(** [_extract_last_user_message] *)
Definition last_user_text (l : list dict) : string :=
  match last_index (has_role "user") l with
  | Some i => extract_text (default (JStr "") (obj_get "content" (default [] (l !! i))))
  | None => ""
  end.

(** [_inject_context_into_last_user_message]; a context that is no text cannot be joined
    to one. *)
Definition injectable (m : dict) : bool :=
  has_role "user" m && match dict_get m "content" with JStr _ | JArr _ => true | _ => false end.
Definition blank_line : string := String (Ascii.ascii_of_nat 10) (String (Ascii.ascii_of_nat 10) "").
Definition inject_context (l : list dict) (context : json) : result (list dict) :=
  match last_index injectable l with
  | None => Return l
  | Some i =>
      let m := default [] (l !! i) in
      let set v := Return (<[i := dict_set "content" v m]> l) in
      match dict_get m "content", context with
      | JStr s, JStr c => set (JStr (s +:+ blank_line +:+ c))
      | JStr _, _ => Raise TypeError
      | JArr parts, c => set (JArr (parts ++ [JObj [("type", JStr "text"); ("text", c)]]))
      | _, _ => Return l
      end
  end.

(** [_build_model_requirements] *)
Definition model_requirements (messages : list dict) (tools : list json) (plan : option ContextPlan) : ModelRequirements :=
  let need := from_option (fun p => ta_total (token_allocation p)) 0 plan in
  let image := existsb (fun m => has_role "user" m && has_image_part (dict_get m "content")) messages in
  mkRequirements
    ((if no_calls tools then ∅ else {["tools"]}) ∪ (if image then {["vision"]} else ∅)
     ∪ (if 0 <? need then {["context_window"]} else ∅)) need.

(** [_resolve_trigger_type] *)
Definition trigger_type (l : list dict) : string :=
  match List.find (fun m => has_role "tool" m || has_role "user" m) (rev l) with
  | Some m => if has_role "tool" m then "tool" else "user"
  | None => "user"
  end.

(** * The message of an error *)

(** [json.dumps(v, ensure_ascii=False, indent=2)] at a level. *)
Definition newline_at (level : nat) : string :=
  String (Ascii.ascii_of_nat 10) (join_str (map (fun _ => "  ") (seq 0 level))).

Fixpoint dumps_indent (level : nat) (v : json) : string :=
  match v with
  | JArr (v :: l) =>
      "[" +:+ newline_at (S level) +:+ dumps_indent (S level) v
      +:+ (fix rest l := match l with
                         | [] => newline_at level +:+ "]"
                         | v :: l => "," +:+ newline_at (S level) +:+ dumps_indent (S level) v +:+ rest l
                         end) l
  | JObj ((k, v) :: kvs) =>
      "{" +:+ newline_at (S level) +:+ quote k +:+ ": " +:+ dumps_indent (S level) v
      +:+ (fix rest l := match l with
                         | [] => newline_at level +:+ "}"
                         | (k, v) :: l =>
                             "," +:+ newline_at (S level) +:+ quote k +:+ ": " +:+ dumps_indent (S level) v +:+ rest l
                         end) kvs
  | v => dump v
  end.

(** The first of [item.get(k)] that is true. *)
Definition first_true (kvs : dict) (keys : list string) (fallback : json) : json :=
  foldr (fun k acc => json_or (dict_get kvs k) acc) fallback keys.

Definition snippet (index : nat) (item : json) : result string :=
  match item with
  | JObj kvs =>
      let number := pretty (Z.of_nat index) in
      let title := py_str (first_true kvs ["title"; "source"; "id"] (JStr ("结果 " +:+ number))) in
      let text := strip (py_str (first_true kvs ["content"; "snippet"] (JStr ""))) in
      let text := if 600 <? len text then rstrip (take_str 600 text) +:+ "..." else text in
      Return (number +:+ ". " +:+ title +:+ String (Ascii.ascii_of_nat 10) text)
  | _ => Raise AttributeError
  end.

(** [_latest_tool_result_summary]: an item that is no dict has no [get]. *)
Definition latest_tool_result_summary (json_loads : string -> option json) (messages : list dict) : result string :=
  match List.find (has_role "tool") (rev messages) with
  | None => Return ""
  | Some m =>
      let raw := default (JStr "") (obj_get "content" m) in
      match match raw with JStr s => json_loads s | v => Some v end with
      | None => Return (take_str 1200 (py_str raw))
      | Some payload =>
          let content := match payload with JObj kvs => dict_get kvs "content" | _ => JNull end in
          match match content with JObj kvs => dict_get kvs "results" | _ => JNull end with
          | JArr items =>
              let? snippets := collect (imap (fun i item => snippet (S i) item) (take 3 items)) in
              Return (join_with blank_line snippets)
          | _ => Return (take_str 1200 (dumps_indent 0 (match content with JNull => payload | v => v end)))
          end
      end
  end.

Definition LIMIT_WITH_RESULT : string := "已达到工具调用上限，模型没有生成最终回答。最近一次工具调用已返回以下结果：".
Definition LIMIT_WITHOUT_RESULT : string := "已达到工具调用上限，模型没有生成最终回答。请查看工具调用，或缩小问题后重试。".

(** [_error_message_for_user] *)
Definition error_message_for_user (json_loads : string -> option json) (error : string) (messages : list dict) : result string :=
  if bool_decide (error = "iteration limit reached") then
    let? content := latest_tool_result_summary json_loads messages in
    Return (if truthy_str content then LIMIT_WITH_RESULT +:+ blank_line +:+ content else LIMIT_WITHOUT_RESULT)
  else Return (if truthy_str error then error else "error").

Section graph.
Context {W : Type} `{Runtime W} (g : GraphWiring W).
Notation action := (act (turn W)).
Notation state := (AgentState (world W)).

(** [_dispatch_hook]: no dispatcher or a failing one gives no results. *)
Definition dispatch_hook (name : string) (kwargs : dict) : action (list json) :=
  match invoke_hook with
  | None => ret []
  | Some invoke => try_except (await (invoke name kwargs)) (on_exception (ret []))
  end.

Definition check_run : action unit := await check_current_run.

(** * The turn policy on the state *)

Definition turn_input (t : turn W) : TurnEvaluationInput :=
  let s := st t in
  let elapsed := match run_start_times (rn t) !! as_run_id s with
                 | Some start => if feq start fzero then fzero else fsub (monotonic (outside (wd t))) start
                 | None => fzero
                 end in
  let sn := op_snapshot (run_options s) in
  let limit := match op_max_iterations (run_options s) with
               | Some n => if n =? 0 then gw_iteration_limit g else n
               | None => gw_iteration_limit g
               end in
  mkTurnInput (final_message s) (error s) (pending_tool_calls s) (iteration_count s)
    (is_cancelled (as_session_id s) (wd t)) elapsed
    (match sn with Some sn => sn_turn_timeout sn | None => gw_turn_timeout g end)
    (match sn with Some sn => sn_iteration_limit sn | None => limit end) (budget_exhausted s).

Definition turn_decision (t : turn W) : TurnDecision := evaluate_turn (turn_input t).

Inductive node : Type := PREPARE | CALL_LLM | EXECUTE_TOOLS | UPDATE_MEMORY | FINALIZE.

(** [_after_llm] *)
Definition after_llm (t : turn W) : node :=
  let d := turn_decision t in
  if bool_decide (next_step d = TurnNextStep.EXECUTE_TOOLS) then EXECUTE_TOOLS
  else if td_terminal d then
    if bool_decide (end_reason d = Some EndReason.STOP) || bool_decide (end_reason d = Some EndReason.ITERATION_LIMIT)
    then UPDATE_MEMORY else FINALIZE
  else UPDATE_MEMORY.

(** [_after_memory] *)
Definition after_memory (t : turn W) : node := if td_terminal (turn_decision t) then FINALIZE else CALL_LLM.

(** * Calling the model *)

(** [_build_provider_capabilities] *)
Definition provider_capabilities (w : world W) : list ProviderCapability :=
  let '(config, default_model) := provider_view (outside w) in
  let vision := match vision_capability with
                | Some f => f (outside w)
                | None => match config with Some (_, _, v) => v | None => false end
                end in
  [mkCapability (match config with Some (i, _, _) => i | None => "default" end)
     (match config with Some (_, m, _) => m | None => default_model end) true vision 0].

(** [_resolve_usage_meta]: the real model and the requested one. *)
Definition usage_models (w : world W) (model : string) : option string * option string :=
  let '(config, default_model) := provider_view (outside w) in
  let real := resolve_model (Some model) (match config with Some (_, m, _) => m | None => default_model end) in
  (if truthy_str real then Some real else None, if truthy_str model then Some model else None).

Definition releases (payload : string) (target : ReleaseTarget.t) (origin : string) : ReleaseResult :=
  InformationFlow.release (gw_information_flow g) payload target Classification.INTERNAL origin [].
Definition retained (payload : string) (origin : string) : option string :=
  let r := releases payload ReleaseTarget.USAGE_RETENTION origin in if rr_allowed r then rr_content r else None.

Definition llm_reserve (tokens : Z) : BudgetReserveRequest :=
  mkBudgetReserveRequest BudgetReserveKind.LLM_CALL tokens (QArith_base.inject_Z 0) fzero None.

(** Reserve a model call. *)
Definition reserve_llm_call (tokens : Z) : action BudgetReservationDecision := fun t =>
  let '(b, d) := reserve (budgets (wd t)) (as_run_id (st t)) (llm_reserve tokens) (monotonic (outside (wd t))) in
  (t <| wd := (wd t) <| budgets := b |> |>, Return d).
Definition on_accounts (f : BudgetService -> string -> BudgetService) : action unit :=
  modify (fun t => t <| wd := (wd t) <| budgets := f (budgets (wd t)) (as_run_id (st t)) |> |>).
Definition release_llm_call (d : BudgetReservationDecision) : action unit := on_accounts (fun b run => Budget.release b run d).
Definition settle_llm_call (d : BudgetReservationDecision) (tokens : option Z) : action unit :=
  on_accounts (fun b run => settle b run d (mkBudgetActualUsage tokens None None None)).

(** [state.error = ...; state.finish_reason = "error"] *)
Definition fail_with (reason : string) : action unit :=
  assign (fun s => s <| error := Some reason |> <| finish_reason := Some "error" |>).

Definition VISION_REPLY : string := "当前模型不支持图片输入，请切换到支持 vision 的模型后再试。".
Definition vision_reply : action unit :=
  assign (fun s => s <| iteration_count := iteration_count s + 1 |>
    <| final_message := Some [("role", JStr "assistant"); ("content", JStr VISION_REPLY)] |> <| final_is_last := false |>
    <| finish_reason := Some "stop" |> <| pending_tool_calls := [] |>).

(** The messages a [pre_llm_call] hook completes. *)
Definition with_hook_context (results : list json) (messages : list dict) : result (list dict) :=
  match results with
  | context :: _ => if truthy_json context then inject_context messages context else Return messages
  | [] => Return messages
  end.

Definition scrubbed (m : dict) : dict :=
  match default (JStr "") (obj_get "content" m) with
  | JStr s => dict_set "content" (JStr (scrub_memory_context s)) m
  | _ => m
  end.

(** Step 7: the answer becomes the state. *)
Definition take_answer (r : LLMResult) : action unit :=
  assign (fun s =>
    let message := if cw_external_memory (gw_context g) && negb (no_elements (lr_message r)) then scrubbed (lr_message r)
                   else lr_message r in
    let calls := provider_calls message in
    s <| iteration_count := iteration_count s + 1 |> <| final_message := Some message |> <| final_is_last := true |>
      <| finish_reason := Some (lr_finish_reason r) |> <| pending_tool_calls := calls |>
      <| assistant_tool_messages := assistant_tool_messages s ++ (if no_calls calls then [] else [message]) |>
      <| working_messages := working_messages s ++ [message] |>).

(** Usage and payload records, each under its own release. *)
Definition keep_records (model : string) (tools : list json) (request : string) (r : LLMResult) : action unit :=
  with_state (fun s =>
  let response := dump (JObj (from_option (fun m => m) [] (final_message s))) in
  if negb (persist_messages s) then ret tt
  else
    let logged_text payload origin :=
      let rel := releases payload ReleaseTarget.LLM_PAYLOAD_LOG origin in
      match rr_content rel with
      | Some c => if rr_allowed rel then await (log_payload c) else ret tt
      | None => ret tt
      end in
    logged_text request "llm_request";> logged_text response "llm_response";>
    match record_usage with
    | Some record =>
        if no_elements (lr_usage r) then ret tt
        else with_turn (fun t =>
          let '(real, requested) := usage_models (wd t) model in
          try_except (await (record (mkUsageRecord (as_session_id s) real (trigger_type (working_messages s)) requested
              (lr_usage r) (retained request "llm_request") (retained response "llm_response")
              (if no_calls tools then None else retained (dump (JArr tools)) "llm_tools")
              (match op_generation (run_options s) with [] => None | o => Some (dump (JObj o)) end))))
            (on_exception (ret tt)))
    | None => ret tt
    end).

(** [result.usage.get("total_tokens")] when it is an int. *)
Definition total_tokens (usage : dict) : option Z := number_of (dict_get usage "total_tokens").

Definition hook_fields (s : state) (more : dict) : dict := ("session_id", JStr (as_session_id s)) :: more.

(** The model answers, once the budget allowed the call. *)
Definition ask_model (selected : string) (messages : list dict) (tools : list json) (d : BudgetReservationDecision)
    : action (option LLMResult) :=
  with_state (fun s =>
  do? hooked <- dispatch_hook "pre_llm_call"
    (hook_fields s [("model", JStr selected); ("user_message", JStr (last_user_text messages));
       ("conversation_history", messages_json messages); ("iteration_count", JInt (iteration_count s));
       ("metadata", JObj [])]) in
  do? messages <- of_result (with_hook_context hooked messages) in
  try_except (await (provider_chat messages tools selected (op_generation (run_options s))))
    (fun e => if bool_decide (e = CancelledError) then None else Some (release_llm_call d;> raise e))).

Definition call_allowed_model (model selected : string) (messages : list dict) (tools : list json) (payload : string)
    : action unit :=
  do? d <- reserve_llm_call (len payload / 4) in
  if bool_decide (dec_outcome d = PolicyOutcome.DENY)
  then assign (fun s => s <| budget_exhausted := true |> <| pending_tool_calls := [] |>)
  else
    do? answer <- ask_model selected messages tools d in
    match answer with
    | None => release_llm_call d;> fail_with "streaming provider result is not supported inside graph"
    | Some r =>
        settle_llm_call d (total_tokens (lr_usage r));> take_answer r;>
        with_state (fun s =>
        let message := from_option (fun m => m) [] (final_message s) in
        dispatch_hook "post_llm_call"
          (hook_fields s [("model", JStr selected);
             ("assistant_content", JStr (extract_text (default (JStr "") (obj_get "content" message))));
             ("tool_calls", JArr (provider_calls message)); ("usage", JObj (lr_usage r));
             ("iteration_count", JInt (iteration_count s))]);>
        keep_records model tools payload r)
    end.

(** The model the policy selects for these messages. *)
Definition select_model (t : turn W) (model : string) (messages : list dict) (tools : list json) : ModelSelection :=
  let caps := provider_capabilities (wd t) in
  evaluate_model model caps (model_requirements messages tools (context_plan (st t)))
    {[ match caps with c :: _ => provider_id c | [] => "" end ]}
    (match op_snapshot (run_options (st t)) with Some sn => sn_fallback_enabled sn | None => gw_fallback_enabled g end).

Definition call_llm_body (model : string) : action unit :=
  do? (messages, tools) <- build_provider_context (gw_context g) in
  let release := releases (dump (messages_json messages)) ReleaseTarget.LLM_PROVIDER "llm_request" in
  if negb (rr_allowed release) then fail_with "information_release_denied"
  else
    let messages := if bool_decide (rd_transform (rr_decision release) = Some "redaction")
                    then as_messages (service_redact_structured (gw_information_flow g) (messages_json messages))
                    else messages in
    with_turn (fun t =>
    let selection := select_model t model messages tools in
    if bool_decide (ms_verdict selection = PolicyOutcome.DENY) then
      if bool_decide (ms_reason selection = "vision_capability_not_supported") then vision_reply
      else fail_with (ms_reason selection)
    else call_allowed_model model (if truthy_str (ms_model_id selection) then ms_model_id selection else model)
           messages tools (dump (messages_json messages))).

Definition call_llm (model : string) : action unit :=
  check_run;> stop_if_cancelled;>
  try_except (call_llm_body model)
    (fun e => if bool_decide (e = CancelledError) then None else Some (fail_with (exception_text e))).

(** * Running tools *)

Definition string_field (kvs : dict) (k : string) : string := match dict_get kvs k with JStr s => s | _ => "" end.
Definition call_function (tool_call : json) : dict := as_dict (dict_get (as_dict tool_call) "function").

(** The arguments of a call; [None] when they are no object. *)
Definition parse_arguments (function : dict) : option dict :=
  match default (JObj []) (obj_get "arguments" function) with
  | JStr s => match gw_json_loads g s with Some (JObj d) => Some d | _ => None end
  | JObj d => Some d
  | _ => None
  end.

Definition is_browser (name : string) : bool := starts_with "browser_" name.

(** [_project_approval_arguments] *)
Definition project_approval_arguments (name : string) (arguments : dict) : dict :=
  if is_browser name then match gw_project_browser g name arguments with Return d => d | Raise _ => [] end else arguments.

Definition tool_event_of (id name : string) (arguments : dict) (status : string) (duration : option Z) : tool_event :=
  [("id", JStr id); ("name", JStr name); ("arguments", JObj arguments); ("status", JStr status)]
  ++ match duration with Some d => [("duration_ms", JInt d)] | None => [] end.

(** [_emit_stream_tool_event], with redacted arguments. *)
Definition redact_tool_event (e : tool_event) : tool_event :=
  match obj_get "arguments" e with
  | Some a => dict_set "arguments" (service_redact_structured (gw_information_flow g) a) e
  | None => e
  end.
Definition show_tool_event (e : tool_event) : action unit :=
  assign (fun s => s <| stream_tool_events := stream_tool_events s ++ [e] |>);>
  with_state (fun s => match op_event_sink (run_options s) with
                       | Some sink => await (sink (redact_tool_event e))
                       | None => ret tt
                       end).

Notation context := (ToolExecutionContext (world W)).
Definition evaluate_tool := tool_service_evaluate (W := W).
Definition execute_tool := tool_service_execute (gw_json_loads g) (gw_urlsplit g) (gw_tool_information_flow g) (gw_tool_budget g).

(** [context.session_id or state_session_id] *)
Definition approval_session (c : context) (session_id : string) : string := str_or (tc_session_id c) session_id.

(** What a decider answered: an allowed scope, or the reason of the refusal. *)
Definition decided (r : result (option ApprovalDecision)) (scopes : option (list string)) : result unit + string :=
  match r with
  | Raise e => if bool_decide (e = CancelledError) then inl (Raise e) else inr "approval_failed"
  | Return None => inr "invalid_approval_decision"
  | Return (Some d) =>
      if negb (allowed d) then inr (if truthy_str (ad_reason d) then ad_reason d else "approval_denied")
      else match scopes with
           | Some l => if bool_decide (ad_scope d ∈ l) then inl (Return tt) else inr "invalid_approval_scope"
           | None => inl (Return tt)
           end
  end.

(** [_request_tool_approval] *)
Definition request_tool_approval (request : obj ToolCallRequest) (session_id : string) (ctx : option context)
    (evaluation : ToolExecutionEvaluation) : act (world W) ToolResult :=
  match ctx ≫= approval_decider with
  | None => ret (denial (it request) "approval_required")
  | Some decider => fun w =>
      let a := te_approval evaluation in
      let c := default empty_context ctx in
      let card := mkApprovalRequest (approval_session c session_id) (call_id (it request)) (as_name a)
                    (JObj (project_approval_arguments (as_name a) (call_arguments (it request))))
                    (as_description a) (as_risk_level a) None in
      let '(w, answer) := decider card w in
      match decided answer (Some ["once"; "session"]) with
      | inr reason => (w, Return (denial (it request) reason))
      | inl (Raise e) => (w, Raise e)
      | inl (Return _) =>
          match tool_service_authorize_once (tools w) request ctx (Some evaluation) with
          | Raise e => (w, Return (denial (it request) "authorization_failed"))
          | Return authorized => execute_tool request (Some authorized) (Some evaluation) w
          end
      end
  end.

Definition HOST_GRANT_DESCRIPTION : string := "授予主机浏览器访问权限。批准后 Agent 可操作专用 Chrome 窗口。".

(** [_request_browser_host_grant_approval] *)
Definition request_host_grant (request : obj ToolCallRequest) (session_id : string) (ctx : option context) (signal : dict)
    : act (world W) ToolResult :=
  let deny reason := ret (denial (it request) reason) in
  match gw_grant_host g with
  | None => deny "host_grant_required"
  | Some grant_host =>
      match ctx ≫= approval_decider with
      | None => deny "approval_required"
      | Some decider =>
          let browser := dict_get signal "browser_session_id" in
          if negb (truthy_json browser) then deny "host_grant_required"
          else fun w =>
            let c := default empty_context ctx in
            let session := approval_session c session_id in
            let card := mkApprovalRequest session (call_id (it request)) (call_name (it request))
                          (JObj (project_approval_arguments (call_name (it request)) (call_arguments (it request))))
                          HOST_GRANT_DESCRIPTION RiskLevel.CONFIRM
                          (Some [("approval_kind", JStr "host_grant"); ("browser_session_id", browser)]) in
            let '(w, answer) := decider card w in
            match decided answer None with
            | inr reason => deny reason w
            | inl (Raise e) => (w, Raise e)
            | inl (Return _) =>
                let '(w, granted) := grant_host (py_str browser) session (dict_get (trusted_metadata c) "actor_id") w in
                match granted with
                | Raise e => if bool_decide (e = CancelledError) then (w, Raise e) else deny "host_grant_failed" w
                | Return (Some true) =>
                    let authorized := match tool_service_authorize_once (tools w) request ctx None with
                                      | Return c => Some c
                                      | Raise _ => ctx
                                      end in
                    execute_tool request authorized None w
                | Return _ => deny "host_grant_failed" w
                end
            end
      end
  end.

(** Evaluate, then execute, ask or refuse. *)
Definition dispatch_call (request : obj ToolCallRequest) (session_id : string) (ctx : option context)
    : act (world W) ToolResult := fun w =>
  match evaluate_tool request ctx w with
  | (w, Raise _) => (w, Return (tool_not_found (it request)))
  | (w, Return evaluation) =>
      match pd_outcome (te_decision evaluation) with
      | PolicyOutcome.ALLOW =>
          (do? r <- execute_tool request ctx (Some evaluation) in
           match tr_status r, tr_content r with
           | ToolResultStatus.PERMISSION_DENIED, JObj content =>
               if bool_decide (dict_get content "approval_kind" = JStr "host_grant")
               then request_host_grant request session_id ctx content else ret r
           | _, _ => ret r
           end) w
      | PolicyOutcome.DENY => (w, Return (denial (it request) (pd_reason (te_decision evaluation))))
      | PolicyOutcome.REQUIRE_APPROVAL => request_tool_approval request session_id ctx evaluation w
      end
  end.

Definition error_result (id name message : string) : ToolResult :=
  mkToolResult id name ToolResultStatus.ERROR (JObj [("error", JStr message)]) 0 false.

Definition result_payload (r : ToolResult) : dict :=
  [("tool_call_id", JStr (tr_tool_call_id r)); ("name", JStr (tr_tool_name r));
   ("status", JStr (ToolResultStatus.value (tr_status r))); ("content", tr_content r); ("duration_ms", JInt (duration_ms r))].

(** [_persist_artifact_card]: only a successful payload with both ids makes a card. *)
Definition artifact_card (content : json) : option (string * dict) :=
  match match content with JStr s => gw_json_loads g s | v => Some v end with
  | Some (JObj p) =>
      let field k := dict_get p k in
      if truthy_json (field "success") && truthy_json (field "artifact_id") && truthy_json (field "revision_id") then
        Some ("制品已更新: " +:+ py_str (json_or (field "name") (field "artifact_id")),
              map (fun k => (k, field k)) ["artifact_id"; "revision_id"; "name"; "kind"; "revision_number"; "publish_sync_state"])
      else None
  | _ => None
  end.
Definition persist_artifact_card (r : ToolResult) : action unit :=
  match artifact_card (tr_content r) with
  | None => ret tt
  | Some (text, card) =>
      with_state (fun s =>
        try_except (await (append_system_named_message (as_session_id s) "ui.artifact" (JStr text) card))
          (on_exception (ret tt)))
  end.

(** One pending call; the answer says whether the tool ended the turn. *)
Definition call_result (tool_call : json) : action (ToolResult * dict) :=
  let function := call_function tool_call in
  let id := string_field (as_dict tool_call) "id" in
  let name := string_field function "name" in
  let parsed := parse_arguments function in
  let arguments := default [] parsed in
  let projected := if is_browser name then gw_project_browser g name arguments else Return arguments in
  let shown := match projected with Return d => d | Raise _ => [] end in
  with_state (fun s =>
  dispatch_hook "pre_tool_call"
    (hook_fields s [("tool_call_id", JStr id); ("tool_name", JStr name); ("args", JObj shown); ("metadata", JObj [])]);>
  show_tool_event (tool_event_of id name shown "pending" None);>
  do? r <- match projected, parsed with
           | Raise _, _ => ret (error_result id name "browser_argument_projection_failed")
           | Return _, None => ret (error_result id name "invalid arguments")
           | Return _, Some arguments =>
               with_turn (fun t =>
                 let request := mkObj (gw_fresh_ref g (outside (wd t))) (mkToolCallRequest id name arguments) in
                 await (dispatch_call request (as_session_id s) (op_tool_context (run_options s))))
           end in
  let status := if bool_decide (tr_status r = ToolResultStatus.SUCCESS) then "success" else "error" in
  show_tool_event (tool_event_of id (tr_tool_name r) shown status (Some (duration_ms r)));>
  ret (r, shown)).

(** The hooks after a call, and the payload they leave. *)
Definition finished_payload (id : string) (r : ToolResult) (shown : dict) : action dict :=
  with_state (fun s =>
  let payload := result_payload r in
  let fields := hook_fields s [("tool_call_id", JStr id); ("tool_name", JStr (tr_tool_name r)); ("args", JObj shown);
                               ("result", JObj payload); ("duration_ms", JInt (duration_ms r)); ("metadata", JObj [])] in
  dispatch_hook "post_tool_call" fields;>
  do? transformed <- dispatch_hook "transform_tool_result" fields in
  ret (match transformed with
       | JNull :: _ | [] => payload
       | v :: _ => dict_set "content" v payload
       end)).

Definition tool_message (r : ToolResult) (payload : dict) : dict :=
  [("role", JStr "tool"); ("tool_call_id", JStr (tr_tool_call_id r)); ("name", JStr (tr_tool_name r));
   ("content", JStr (dump (JObj payload)))].

Definition keep_result (r : ToolResult) (shown payload : dict) : action unit :=
  assign (fun s => s <| tool_results := tool_results s ++ [payload] |>
                     <| working_messages := working_messages s ++ [tool_message r payload] |>);>
  with_state (fun s =>
  (if persist_messages s
   then await (save_tool_call_if_allowed (as_session_id s) (tr_tool_call_id r) (tr_tool_name r) shown payload
                 (ToolResultStatus.value (tr_status r)) (duration_ms r))
   else ret tt);>
  if persist_messages s && bool_decide (tr_status r = ToolResultStatus.SUCCESS)
     && bool_decide (tr_tool_name r ∈ _ARTIFACT_WRITE_TOOLS)
  then persist_artifact_card r else ret tt).

Definition run_tool_call (tool_call : json) : action bool :=
  do? (r, shown) <- call_result tool_call in
  do? payload <- finished_payload (string_field (as_dict tool_call) "id") r shown in
  keep_result r shown payload;> ret (terminal r).

(** The loop over the pending calls, left at the first terminal result. *)
Fixpoint run_tool_calls (calls : list json) : action bool :=
  match calls with
  | [] => ret false
  | tool_call :: calls => do? ended <- run_tool_call tool_call in if (ended : bool) then ret true else run_tool_calls calls
  end.

Definition execute_tools : action unit :=
  check_run;> stop_if_cancelled;>
  assign (fun s => s <| tool_results := [] |>);>
  with_state (fun s =>
  do? ended <- run_tool_calls (pending_tool_calls s) in
  assign (fun s =>
    let s := s <| pending_tool_calls := [] |> <| final_is_last := false |> in
    if (ended : bool)
    then s <| final_message := Some [("role", JStr "assistant"); ("content", JStr "")] |> <| finish_reason := Some "stop" |>
    else s <| final_message := None |>)).

(** * Keeping the messages *)

(** [_project_tool_calls_for_persistence] *)
Definition project_call (tool_call : json) : json :=
  let function := call_function tool_call in
  let name := string_field function "name" in
  let raw := default (JObj []) (obj_get "arguments" function) in
  let arguments :=
    if is_browser name then
      let parsed := match raw with
                    | JStr s => match gw_json_loads g s with Some (JObj d) => d | _ => [] end
                    | JObj d => d
                    | _ => []
                    end in
      JStr (dump (JObj (match gw_project_browser g name parsed with Return d => d | Raise _ => [] end)))
    else raw in
  JObj (dict_set "function" (JObj (dict_set "arguments" arguments function)) (as_dict tool_call)).

(** The content of a message as it is stored. *)
Definition stored_content (project : list json -> list json) (m : dict) : json :=
  let content := default (JStr "") (obj_get "content" m) in
  match provider_calls m with
  | [] => content
  | calls => JObj [("content", content); ("tool_calls", JArr (project calls))]
  end.

Definition update_memory : action unit :=
  check_run;> stop_if_cancelled;>
  with_state (fun s =>
  for_each (assistant_tool_messages s) (fun m =>
    if persist_messages s
    then await (append_assistant_message (as_session_id s) (stored_content (map project_call) m) (message_source s))
    else ret tt);>
  assign (fun s => s <| assistant_tool_messages := [] |>);>
  for_each (tool_results s) (fun r =>
    if persist_messages s
    then await (append_tool_message (as_session_id s) (JStr (dump (JObj r))) (as_str (dict_get r "tool_call_id"))
                  (as_str (dict_get r "name")))
    else ret tt);>
  assign (fun s => s <| tool_results := [] |>);>
  if persist_messages s
  then await (save_task_state_if_allowed (as_session_id s) (if truthy_opt_str (error s) then "failed" else "running")
                (iteration_count s) (error s))
  else ret tt).

(** * The end of a turn *)

Definition BUDGET_MESSAGE : string := "已达到用量上限，请稍后重试或联系管理员。".
Definition assistant_text (text : string) : dict := [("role", JStr "assistant"); ("content", JStr text)].

(** What the end reason makes of the state. *)
Definition closed_with (d : TurnDecision) (s : state) : state :=
  let or_reason r := match finish_reason s with Some f => if truthy_str f then Some f else Some r | None => Some r end in
  let failed := truthy_opt_str (error s) in
  match (if td_terminal d then end_reason d else None) with
  | None => s <| finish_reason := or_reason "stop" |>
  | Some EndReason.ITERATION_LIMIT =>
      if failed then s
      else s <| error := Some "iteration limit reached" |> <| finish_reason := Some (finish_reason_of EndReason.ITERATION_LIMIT) |>
             <| final_message := None |> <| final_is_last := false |>
  | Some EndReason.BUDGET_EXHAUSTED =>
      if failed then s
      else let s' := s <| finish_reason := Some (finish_reason_of EndReason.BUDGET_EXHAUSTED) |> in
           match final_message s' with
           | Some (_ :: _) => s'
           | _ => s' <| final_message := Some (assistant_text BUDGET_MESSAGE) |> <| final_is_last := false |>
           end
  | Some EndReason.DEADLINE =>
      if failed then s
      else s <| error := Some "turn timeout exceeded" |> <| finish_reason := Some (finish_reason_of EndReason.DEADLINE) |>
             <| final_message := None |> <| final_is_last := false |>
  | Some EndReason.CANCELLED =>
      s <| error := Some (str_or (error s) "cancelled") |> <| finish_reason := Some (finish_reason_of EndReason.CANCELLED) |>
  | Some EndReason.ERROR => s <| finish_reason := or_reason "error" |>
  | Some EndReason.STOP => s <| finish_reason := or_reason "stop" |>
  | Some _ => s
  end.

(** [state.error and not state.final_message] *)
Definition no_final (s : state) : bool := match final_message s with Some (_ :: _) => false | _ => true end.

Definition explain_error : action unit :=
  with_state (fun s =>
  if truthy_opt_str (error s) && no_final s then
    do? text <- of_result (error_message_for_user (gw_json_loads g) (default "" (error s)) (working_messages s)) in
    assign (fun s => s <| final_message := Some (assistant_text (scrub_memory_context text)) |> <| final_is_last := false |>)
  else ret tt).

(** Replace the content of the final message, wherever the object is. *)
Definition replace_final (content : json) (s : state) : state :=
  match final_message s with
  | None => s
  | Some m =>
      let m := dict_set "content" content m in
      let s := s <| final_message := Some m |> in
      if final_is_last s
      then s <| working_messages := removelast (working_messages s) ++ [m] |> else s
  end.

Definition transform_output : action unit :=
  with_state (fun s =>
  match final_message s with
  | None => ret tt
  | Some m =>
      match dict_get m "content" with
      | JStr text =>
          if negb (truthy_str text) then ret tt
          else
            do? results <- dispatch_hook "transform_llm_output"
              (hook_fields s [("content", JStr text); ("finish_reason", JStr (default "" (finish_reason s))); ("metadata", JObj [])]) in
            match results with
            | v :: _ => if truthy_json v then assign (replace_final v) else ret tt
            | [] => ret tt
            end
      | _ => ret tt
      end
  end).

Definition keep_final : action unit :=
  with_state (fun s =>
  match final_message s with
  | Some ((_ :: _) as m) =>
      if persist_messages s
      then await (append_assistant_message (as_session_id s) (stored_content (fun l => l) m) (message_source s))
      else ret tt
  | _ => ret tt
  end).

(** [_extract_user_content] *)
Definition user_content (l : list dict) : string :=
  join_with (String (Ascii.ascii_of_nat 10) "")
    (omap (fun m => if has_role "user" m then
                      let content := default (JStr "") (obj_get "content" m) in
                      let text := extract_text content in
                      if truthy_str text then Some text
                      else if has_image_part (dict_get m "content") then Some "[用户发送了图片]" else None
                    else None) l).

Definition sync_memory : action unit :=
  with_state (fun s =>
  if persist_messages s && cw_external_memory (gw_context g) && negb (no_final s) then
    let ctx := op_tool_context (run_options s) in
    let agent_context := match ctx with
                         | Some c => match obj_get "agent_context" (trusted_metadata c) with Some v => py_str v | None => "unattended" end
                         | None => "unattended"
                         end in
    let mode := default ExecutionMode.REALTIME (ExecutionMode.of_value (str_or (op_execution_mode (run_options s)) "realtime")) in
    let message := from_option (fun m => m) [] (final_message s) in
    await (sync_external_if_allowed (user_content (input_messages s))
             (extract_text (default (JStr "") (obj_get "content" message))) (as_session_id s) agent_context mode
             (ctx ≫= enabled_override))
  else ret tt).

(** [await self._budget_service.close(run_id)] *)
Definition close_budget : action unit := on_accounts (fun b run => (close b run).1).

Definition finalize : action unit :=
  check_run;>
  with_state (fun s =>
  dispatch_hook "pre_finalize"
    (hook_fields s [("content", JStr (if no_final s then "" else
                       extract_text (default (JStr "") (obj_get "content" (from_option (fun m => m) [] (final_message s))))));
                    ("finish_reason", JStr (default "" (finish_reason s))); ("error", json_opt_str (error s));
                    ("metadata", JObj [])]));>
  with_turn (fun t =>
  let d := turn_decision t in
  modify (fun t =>
    let t := match (if td_terminal d then end_reason d else None) with
             | Some r => t <| rn := (rn t) <| run_end_reasons := <[as_run_id (st t) := telemetry_reason_of r]> (run_end_reasons (rn t)) |> |>
             | None => t
             end in
    let s := closed_with d (st t) in
    t <| st := s <| run_status := if truthy_opt_str (error s) then RunStatus.FAILED else RunStatus.COMPLETED |> |>));>
  explain_error;> transform_output;> keep_final;> sync_memory;>
  with_state (fun s =>
    if persist_messages s
    then await (save_task_state_if_allowed (as_session_id s) (RunStatus.value (run_status s)) (iteration_count s) (error s))
    else ret tt);>
  close_budget.

(** * The graph *)

Definition run_node (model : string) (n : node) : action unit :=
  match n with
  | PREPARE => prepare_context (gw_context g)
  | CALL_LLM => call_llm model
  | EXECUTE_TOOLS => execute_tools
  | UPDATE_MEMORY => update_memory
  | FINALIZE => finalize
  end.

(** The edges; [None] ends the run. *)
Definition next_node (n : node) (t : turn W) : option node :=
  match n with
  | PREPARE => Some CALL_LLM
  | CALL_LLM => Some (after_llm t)
  | EXECUTE_TOOLS => Some UPDATE_MEMORY
  | UPDATE_MEMORY => Some (after_memory t)
  | FINALIZE => None
  end.

(** At most [limit] nodes. *)
Fixpoint graph_run (model : string) (limit : nat) (n : node) : action unit :=
  match limit with
  | O => raise GraphRecursionError
  | S limit =>
      run_node model n;>
      with_turn (fun t => match next_node n t with Some n => graph_run model limit n | None => ret tt end)
  end.

(** [max(iter_limit * 3, 25)] *)
Definition recursion_limit (o : RunOptions (world W)) : nat :=
  let n := match op_max_iterations o with
           | Some n => if n =? 0 then gw_iteration_limit g else n
           | None => gw_iteration_limit g
           end in
  Z.to_nat (Z.max (n * 3) 25).

(** [_run] *)
Definition end_turn (finish : string) (error : option string) : action unit :=
  with_state (fun s =>
  dispatch_hook "on_turn_end" (hook_fields s [("finish_reason", JStr finish); ("error", json_opt_str error)]);>
  modify (fun t => t <| rn := (rn t) <| run_start_times := delete (as_run_id s) (run_start_times (rn t)) |>
                                     <| run_end_reasons := delete (as_run_id s) (run_end_reasons (rn t)) |> |>)).

Definition run_turn (model : string) : action unit :=
  assign (fun s => match op_persist_messages (run_options s) with
                   | Some b => s <| persist_messages := b |>
                   | None => s
                   end);>
  with_state (fun s =>
  on_accounts (fun b run => open_account b run (sn_budget <$> op_snapshot (run_options s)));>
  modify (fun t => t <| rn := (rn t) <| run_start_times := <[as_run_id s := monotonic (outside (wd t))]> (run_start_times (rn t)) |> |>);>
  dispatch_hook "on_turn_start" (hook_fields s [("metadata", JObj [])]);>
  fun t =>
    match graph_run model (recursion_limit (run_options s)) PREPARE t with
    | (t, Return _) => end_turn (str_or (finish_reason (st t)) "stop") (error (st t)) t
    | (t, Raise e) =>
        let cancelled := bool_decide (e = CancelledError) in
        ((if cancelled then close_budget else ret tt);>
         end_turn "error" (Some (if cancelled then "cancelled" else exception_text e));> raise e) t
    end).
End graph.
