(* ===== verification/AgentGraphProps.v ===== *)
(** What a turn guarantees: it ends, within a number of nodes its iteration limit gives;
    the model and the tools are asked only after their gates; it leaves a final message
    and no open reservation. *)
From S2P Require Import Prelude Json Repr Text Effects Budget InformationFlow ToolService ToolProps TurnPolicy SessionStore ContextHistory ContextCompressor AgentState ContextService AgentGraph.
From stdpp Require Import gmap sets strings.
Open Scope Z_scope.

(** * What awaits leave alone *)

Section frames.
Context {W : Type}.

(** The state of the agent is only changed by its own assignments. *)
Definition same_state (t t' : turn W) : Prop := st t' = st t.
#[global] Instance same_state_preorder : PreOrder same_state.
Proof. split; [done|]. intros t1 t2 t3 H12 H23. unfold same_state in *. congruence. Qed.

Lemma await_same_state {A} (c : act (world W) A) : within same_state (await c).
Proof. intros t. unfold await. by destruct (c (wd t)). Qed.

(** The options, the identity and the iterations of the turn. *)
Definition same_run (t t' : turn W) : Prop :=
  run_options (st t') = run_options (st t) /\ as_run_id (st t') = as_run_id (st t)
  /\ as_session_id (st t') = as_session_id (st t).
#[global] Instance same_run_preorder : PreOrder same_run.
Proof. split; [done|]. intros t1 t2 t3 (?&?&?) (?&?&?). unfold same_run. split_and!; congruence. Qed.

Definition same_count (t t' : turn W) : Prop := same_run t t' /\ iteration_count (st t') = iteration_count (st t).
#[global] Instance same_count_preorder : PreOrder same_count.
Proof. split; [done|]. intros t1 t2 t3 [? ?] [? ?]. split; [by etransitivity|congruence]. Qed.

Lemma state_count t t' : same_state t t' -> same_count t t'.
Proof. unfold same_state. intros H. unfold same_count, same_run. by rewrite H. Qed.
Lemma count_run t t' : same_count t t' -> same_run t t'.
Proof. by intros [? _]. Qed.

(** What the turn policy reads of the state. *)
Definition same_control (t t' : turn W) : Prop :=
  same_count t t' /\ error (st t') = error (st t) /\ budget_exhausted (st t') = budget_exhausted (st t)
  /\ final_message (st t') = final_message (st t) /\ pending_tool_calls (st t') = pending_tool_calls (st t)
  /\ finish_reason (st t') = finish_reason (st t).
#[global] Instance same_control_preorder : PreOrder same_control.
Proof. split; [done|]. intros t1 t2 t3 (?&?&?&?&?&?) (?&?&?&?&?&?). split; [by etransitivity|split_and!; congruence]. Qed.
Lemma state_control t t' : same_state t t' -> same_control t t'.
Proof. intros Hs. split; [by apply state_count|]. unfold same_state in Hs. by rewrite Hs. Qed.

Lemma within_weaken {A} (R R' : turn W -> turn W -> Prop) (c : act (turn W) A) :
  (forall t t', R t t' -> R' t t') -> within R c -> within R' c.
Proof. intros H Hc t. apply H, Hc. Qed.

Lemma within_with_state {A} R (k : AgentState (world W) -> act (turn W) A) :
  (forall s, within R (k s)) -> within R (with_state k).
Proof. intros Hk t. apply Hk. Qed.
Lemma within_with_turn {A} R (k : turn W -> act (turn W) A) : (forall t, within R (k t)) -> within R (with_turn k).
Proof. intros Hk t. apply Hk. Qed.
Lemma await_count {A} (c : act (world W) A) : within same_count (await c).
Proof. eapply within_weaken; [apply state_count|apply await_same_state]. Qed.
Lemma assign_count f :
  (forall s : AgentState (world W), run_options (f s) = run_options s /\ as_run_id (f s) = as_run_id s
     /\ as_session_id (f s) = as_session_id s /\ iteration_count (f s) = iteration_count s) -> within same_count (assign f).
Proof. intros Hf t. destruct (Hf (st t)) as (?&?&?&?). done. Qed.
Lemma assign_run f :
  (forall s : AgentState (world W), run_options (f s) = run_options s /\ as_run_id (f s) = as_run_id s
     /\ as_session_id (f s) = as_session_id s) -> within same_run (assign f).
Proof. intros Hf t. destruct (Hf (st t)) as (?&?&?). done. Qed.
Lemma within_count_run {A} (c : act (turn W) A) : within same_count c -> within same_run c.
Proof. apply within_weaken, count_run. Qed.
Lemma await_control {A} (c : act (world W) A) : within same_control (await c).
Proof. eapply within_weaken; [apply state_control|apply await_same_state]. Qed.
Lemma assign_control f : (forall t : turn W, same_control t (t <| st := f (st t) |>)) -> within same_control (assign f).
Proof. intros Hf t. apply Hf. Qed.
Lemma modify_state f : (forall t : turn W, st (f t) = st t) -> within same_count (modify f).
Proof. intros Hf t. apply state_count. apply Hf. Qed.
End frames.

#[export] Hint Resolve within_with_state within_with_turn await_count : effects.
Ltac step_within := repeat match goal with
  | |- within _ (ret _) => apply within_ret; exact _
  | |- within _ (raise _) => apply within_raise; exact _
  | |- within _ (of_result _) => apply within_of_result; exact _
  | |- within same_count (await _) => apply await_count
  | |- within same_control (await _) => apply await_control
  | |- within same_control (assign _) => apply assign_control; intros ?; repeat case_match; done
  | |- within same_run (await _) => apply within_count_run, await_count
  | |- within _ (bind _ _) => apply within_bind; [exact _| |intros ?]
  | |- within _ (with_state _) => apply within_with_state; intros ?
  | |- within _ (with_turn _) => apply within_with_turn; intros ?
  | |- within _ (for_each _ _) => apply within_for_each; [exact _|intros ?]
  | |- within same_count (assign _) => apply assign_count; intros ?; repeat case_match; done
  | |- within same_run (assign _) => apply assign_run; intros ?; repeat case_match; done
  | |- within same_count (modify _) => apply modify_state; intros ?; repeat case_match; done
  | |- within same_run (modify _) => apply within_count_run, modify_state; intros ?; repeat case_match; done
  | |- within _ (try_except _ _) => apply within_try; [exact _| |unfold on_exception; intros ? ? ?]
  | H : (if ?b then None else Some _) = Some ?k |- within _ ?k => destruct b; [done|injection H as <-]
  | H : Some _ = Some ?k |- within _ ?k => injection H as <-
  | |- within _ (match ?x with _ => _ end) => destruct x
  | |- within _ (let '_ := ?x in _) => destruct x
  | |- within _ ((if ?b then _ else _)) => destruct b
  end.

Section nodes.
Context {W : Type} `{Runtime W} (g : GraphWiring W) (model : string).
Notation action := (act (turn W)).

Lemma dispatch_hook_count name kwargs : within same_count (dispatch_hook name kwargs).
Proof. unfold dispatch_hook. step_within. Qed.

Lemma provider_messages_count : within same_count (build_provider_context (gw_context g)).
Proof. unfold build_provider_context, build_provider_messages. step_within. Qed.

Lemma show_tool_event_count e : within same_count (show_tool_event g e).
Proof. unfold show_tool_event. step_within. Qed.

Lemma call_result_count c : within same_count (call_result g c).
Proof.
  unfold call_result. apply within_with_state. intros s. step_within;
    first [apply dispatch_hook_count|apply show_tool_event_count|idtac].
Qed.

Lemma finished_payload_count i r shown : within same_count (finished_payload i r shown).
Proof. unfold finished_payload. step_within; apply dispatch_hook_count. Qed.

Lemma keep_result_count r shown payload : within same_count (keep_result g r shown payload).
Proof. unfold keep_result, persist_artifact_card. step_within. Qed.

Lemma run_tool_calls_count calls : within same_count (run_tool_calls g calls).
Proof.
  induction calls as [|c calls IH]; cbn; [apply within_ret; exact _|]. apply within_bind; [exact _| |intros []; [apply within_ret; exact _|done]].
  unfold run_tool_call. step_within;
    first [apply call_result_count|apply finished_payload_count|apply keep_result_count].
Qed.

Lemma execute_tools_count : within same_count (execute_tools g).
Proof. unfold execute_tools, check_run, stop_if_cancelled. step_within. apply run_tool_calls_count. Qed.

Lemma update_memory_control : within same_control (update_memory g).
Proof. unfold update_memory, check_run, stop_if_cancelled. step_within. Qed.

Lemma plan_context_count cands : within same_count (plan_context (gw_context g) cands).
Proof. unfold plan_context, check_cooldown. step_within. Qed.

Lemma prepare_context_count : within same_count (prepare_context (gw_context g)).
Proof.
  unfold prepare_context, build_context_state, compress_prepared_context, stop_if_cancelled, skills_index, activated_skills,
    persist_summary, record_compression, logged.
  step_within; apply plan_context_count.
Qed.

Lemma call_allowed_model_run selected messages tools payload :
  within same_run (call_allowed_model g model selected messages tools payload).
Proof.
  unfold call_allowed_model, ask_model, keep_records, fail_with, release_llm_call, settle_llm_call, on_accounts, take_answer.
  step_within; try (apply within_count_run, dispatch_hook_count).
  intros t. unfold reserve_llm_call. by destruct (reserve _ _ _ _).
Qed.

Lemma call_llm_body_run : within same_run (call_llm_body g model).
Proof.
  unfold call_llm_body, fail_with, vision_reply.
  step_within; first [apply within_count_run, provider_messages_count|apply call_allowed_model_run].
Qed.

(** A call of the model ends the turn or is one more iteration. *)
Definition stuck (t : turn W) : Prop :=
  truthy_opt_str (error (st t)) = true \/ budget_exhausted (st t) = true.
Definition counted (i : Z) (t : turn W) : Prop := stuck t \/ iteration_count (st t) = i + 1.

Lemma ends_with_state {A} (k : AgentState (world W) -> action A) Q t : ends (k (st t)) Q t -> ends (with_state k) Q t.
Proof. done. Qed.
Lemma ends_with_turn {A} (k : turn W -> action A) Q t : ends (k t) Q t -> ends (with_turn k) Q t.
Proof. done. Qed.

Lemma fail_with_stuck reason t : reason <> "" -> ends (fail_with reason) (fun _ t' => stuck t') t.
Proof.
  intros Hr. apply ends_modify. left. cbn. unfold truthy_str. by rewrite bool_decide_eq_false_2.
Qed.

Lemma count_stays {A} (c : action A) (Q : A -> turn W -> Prop) t :
  within same_count c -> (forall a t', iteration_count (st t') = iteration_count (st t) -> Q a t') -> ends c Q t.
Proof. intros Hc HQ. eapply within_ends; [exact Hc|]. intros a t' [_ Hi]. by apply HQ. Qed.

Lemma call_allowed_model_counted selected messages tools payload t :
  ends (call_allowed_model g model selected messages tools payload) (fun _ t' => counted (iteration_count (st t)) t') t.
Proof.
  unfold call_allowed_model. apply ends_bind. eapply (count_stays (reserve_llm_call _)).
  { intros t0. unfold reserve_llm_call. destruct (reserve _ _ _ _). by apply state_count. }
  intros d t1 H1. case_bool_decide; [by apply ends_modify; left; right|]. apply ends_bind.
  eapply (count_stays (ask_model _ _ _ _)).
  { unfold ask_model, release_llm_call, on_accounts. step_within. apply dispatch_hook_count. }
  intros [r|] t2 H2; apply ends_bind.
  - eapply (count_stays (settle_llm_call _ _)); [unfold settle_llm_call, on_accounts; step_within|]. intros _ t3 H3.
    apply ends_bind, ends_modify, ends_with_state. set (t4 := t3 <| st := _ |>).
    assert (H4 : iteration_count (st t4) = iteration_count (st t) + 1) by (cbn; congruence).
    clearbody t4. apply ends_bind. apply count_stays; [apply dispatch_hook_count|]. intros _ t5 H5.
    apply count_stays; [unfold keep_records; step_within|]. intros _ t6 H6. right. congruence.
  - eapply (count_stays (release_llm_call _)); [unfold release_llm_call, on_accounts; step_within|]. intros _ t3 _.
    eapply ends_mono; [by apply fail_with_stuck|]. intros ? t4 Hs. by left.
Qed.

Lemma selection_reason t m messages tools :
  ms_verdict (select_model g t m messages tools) = PolicyOutcome.DENY -> ms_reason (select_model g t m messages tools) <> "".
Proof.
  unfold select_model, evaluate_model, check_capabilities. repeat case_match; simplify_eq/=; done.
Qed.

Lemma call_llm_body_counted t : ends (call_llm_body g model) (fun _ t' => counted (iteration_count (st t)) t') t.
Proof.
  unfold call_llm_body. apply ends_bind, count_stays; [apply provider_messages_count|]. intros [messages tools] t1 H1.
  case_match; [eapply ends_mono; [by apply fail_with_stuck|]; intros ? ? ?; by left|].
  apply ends_with_turn. cbn zeta.
  generalize (if bool_decide (rd_transform (rr_decision (releases g (dump (messages_json messages)) ReleaseTarget.LLM_PROVIDER
                "llm_request")) = Some "redaction")
              then as_messages (service_redact_structured (gw_information_flow g) (messages_json messages)) else messages).
  intros ms. case_bool_decide as Hv.
  - case_bool_decide as Hr.
    + apply ends_modify. right. cbn. congruence.
    + eapply ends_mono; [apply fail_with_stuck; by apply selection_reason in Hv|]. intros ? ? ?. by left.
  - rewrite <- H1. apply call_allowed_model_counted.
Qed.

(** Every exception says something. *)
Context (Htext : forall e, exception_text e <> "").

Lemma call_llm_counted t :
  ends (call_llm g model) (fun _ t' => same_run t t' /\ counted (iteration_count (st t)) t') t.
Proof.
  unfold call_llm. apply ends_bind. eapply within_ends; [unfold check_run; apply await_same_state|]. intros _ t1 H1.
  unfold stop_if_cancelled. apply ends_bind, ends_with_turn. case_match; [apply ends_raise|]. apply ends_ret.
  assert (Hrun : same_run t t1) by (by apply count_run, state_count).
  assert (Hi : iteration_count (st t1) = iteration_count (st t)) by (by rewrite H1).
  rewrite <- Hi. apply ends_try.
  - intros t2 [] Hc. split.
    + etransitivity; [exact Hrun|]. pose proof (call_llm_body_run t1) as Hb. by rewrite Hc in Hb.
    + exact (call_llm_body_counted t1 t2 tt Hc).
  - intros t2 e k Hc Hk. case_bool_decide; [done|]. injection Hk as <-. apply ends_modify. split.
    + etransitivity; [exact Hrun|]. pose proof (call_llm_body_run t1) as Hb. rewrite Hc in Hb. exact Hb.
    + left. left. cbn. unfold truthy_str. by rewrite bool_decide_eq_false_2.
Qed.

(** * A turn ends *)

(** [limit] nodes from [n] decide: more change nothing. *)
Definition settles (limit : nat) (n : node) (t : turn W) : Prop :=
  forall more, graph_run g model (limit + more) n t = graph_run g model limit n t.

Lemma settles_step limit n t :
  (forall t', run_node g model n t = (t', Return tt) -> forall n', next_node g n t' = Some n' -> settles limit n' t') ->
  settles (S limit) n t.
Proof.
  intros Hn more. cbn [graph_run Nat.add]. unfold bind, with_turn.
  destruct (run_node g model n t) as [t' [[]|e]] eqn:Hr; [|done].
  destruct (next_node g n t') as [n'|] eqn:Hn'; [|done]. by apply (Hn t' eq_refl n').
Qed.

Lemma settles_more limit limit' n t : settles limit n t -> (limit <= limit')%nat -> settles limit' n t.
Proof.
  intros Hs Hle more. pose proof (Hs (limit' - limit + more)%nat) as H1. pose proof (Hs (limit' - limit)%nat) as H2.
  replace (limit + (limit' - limit + more))%nat with (limit' + more)%nat in H1 by lia.
  replace (limit + (limit' - limit))%nat with limit' in H2 by lia. congruence.
Qed.

Lemma settles_finalize t : settles 1 FINALIZE t.
Proof. by apply settles_step. Qed.

(** The iterations a turn may still use. *)
Definition limit_of (t : turn W) : Z := ti_iteration_limit (turn_input g t).
Lemma limit_same t t' : same_run t t' -> limit_of t' = limit_of t.
Proof. intros (Ho & _). unfold limit_of, turn_input. cbn. by rewrite Ho. Qed.

Definition over (t : turn W) : Prop := stuck t \/ limit_of t <= iteration_count (st t).

Lemma over_terminal t : over t -> td_terminal (turn_decision g t) = true /\ next_step (turn_decision g t) <> TurnNextStep.EXECUTE_TOOLS.
Proof.
  unfold over, stuck, limit_of, turn_decision, evaluate_turn.
  set (i := turn_input g t). intros Hover.
  assert (Hi : truthy_opt_str (ti_error i) = true \/ ti_budget_exhausted i = true
               \/ (ti_iteration_limit i <=? ti_iteration_count i) = true).
  { unfold i, turn_input in *. cbn in *. destruct Hover as [[?|?]|?]; [auto|auto|]. right. right. by apply Z.leb_le. }
  repeat case_match; try done; destruct Hi as [?|[?|?]]; congruence.
Qed.

Lemma settles_over_memory t : over t -> settles 2 UPDATE_MEMORY t.
Proof.
  intros Ho. apply settles_step. intros t' Hr n' Hn.
  assert (Ho' : over t').
  { pose proof (update_memory_control t) as ((Hrun & Hi) & He & Hb & _). cbn [run_node] in Hr. rewrite Hr in *. cbn [fst] in *.
    unfold over, stuck. by rewrite He, Hb, Hi, (limit_same t t'). }
  cbn in Hn. unfold after_memory in Hn. destruct (over_terminal t' Ho') as [Ht _]. rewrite Ht in Hn.
  injection Hn as <-. apply settles_finalize.
Qed.

(** The nodes a turn may still use at a call of the model. *)
Definition nodes_left (t : turn W) : nat := (3 * Z.to_nat (Z.max 1 (limit_of t - iteration_count (st t))))%nat.

Lemma after_llm_target t : after_llm g t = EXECUTE_TOOLS \/ after_llm g t = UPDATE_MEMORY \/ after_llm g t = FINALIZE.
Proof. unfold after_llm. repeat case_match; auto. Qed.

Lemma settles_memory b t :
  (forall t', same_control t t' -> settles b CALL_LLM t') -> (1 <= b)%nat -> settles (S b) UPDATE_MEMORY t.
Proof.
  intros Hb Hle. apply settles_step. intros t' Hr n' Hn. cbn in Hn. injection Hn as <-. unfold after_memory.
  case_match; [eapply settles_more; [apply settles_finalize|done]|]. apply Hb.
  pose proof (update_memory_control t) as Hc. cbn in Hr. by rewrite Hr in Hc.
Qed.

Lemma settles_tools b t :
  (forall t', same_count t t' -> settles b CALL_LLM t') -> (1 <= b)%nat -> settles (S (S b)) EXECUTE_TOOLS t.
Proof.
  intros Hb Hle. apply settles_step. intros t' Hr n' Hn. injection Hn as <-.
  pose proof (execute_tools_count t) as Hc. cbn in Hr. rewrite Hr in Hc. cbn in Hc.
  apply settles_memory; [|done]. intros t2 [H2 _]. apply Hb. by etransitivity.
Qed.

Lemma settles_call : forall fuel t, (Z.to_nat (Z.max 1 (limit_of t - iteration_count (st t))) <= fuel)%nat ->
  settles (nodes_left t) CALL_LLM t.
Proof.
  induction fuel as [|fuel IH]; intros t Hf; [lia|].
  unfold nodes_left. destruct (Z.to_nat (Z.max 1 _)) as [|k] eqn:Hk; [lia|].
  replace (3 * S k)%nat with (S (S (S (3 * k))))%nat by lia.
  apply settles_step. intros t' Hr n' Hn. cbn in Hn. injection Hn as <-.
  destruct (call_llm_counted t t' tt Hr) as [Hrun Hc].
  assert (Hlim : limit_of t' = limit_of t) by by apply limit_same.
  destruct (decide (over t')) as [Ho|Ho].
  - destruct (over_terminal t' Ho) as [_ Hne].
    destruct (after_llm_target t') as [Ha|[Ha|Ha]].
    + exfalso. unfold after_llm in Ha. rewrite bool_decide_eq_false_2 in Ha by done. by repeat case_match.
    + rewrite Ha. eapply settles_more; [by apply settles_over_memory|lia].
    + rewrite Ha. eapply settles_more; [apply settles_finalize|lia].
  - assert (Hi : iteration_count (st t') = iteration_count (st t) + 1 /\ iteration_count (st t') < limit_of t').
    { unfold over in Ho. destruct Hc as [Hs|Hi]; [tauto|]. split; [done|]. lia. }
    assert (Hnext : forall t2, same_count t' t2 -> settles (3 * k) CALL_LLM t2).
    { intros t2 [Hr2 Hi2]. pose proof (limit_same _ _ Hr2) as Hl2.
      eapply settles_more; [apply IH; lia|]. unfold nodes_left. lia. }
    destruct (after_llm_target t') as [Ha|[Ha|Ha]]; rewrite Ha.
    + apply settles_tools; [done|lia].
    + eapply settles_more; [apply settles_memory; [intros t2 [H2 _]; by apply Hnext|lia]|lia].
    + eapply settles_more; [apply settles_finalize|lia].
Qed.

Lemma settles_run t : iteration_count (st t) = 0 -> 1 <= limit_of t -> settles (3 * Z.to_nat (limit_of t) + 1) PREPARE t.
Proof.
  intros H0 HL. replace (3 * Z.to_nat (limit_of t) + 1)%nat with (S (3 * Z.to_nat (limit_of t))) by lia.
  apply settles_step. intros t' Hr n' Hn. injection Hn as <-.
  pose proof (prepare_context_count t) as Hc. cbn [run_node] in Hr. rewrite Hr in Hc. destruct Hc as [Hrun Hi].
  cbn [fst] in *. pose proof (limit_same _ _ Hrun) as Hl.
  eapply settles_more; [eapply settles_call; reflexivity|]. unfold nodes_left. lia.
Qed.
End nodes.

(** C30. A turn always ends: from a fresh state, three nodes for each allowed
    iteration and one more decide it, and any larger allowance of nodes gives the same
    result, whatever the model, the tools, the hooks and the memory do, provided an
    exception always has a text.  (An exception with an empty text sets an error that the
    policy does not see, and the model is asked again without an iteration being counted.) *)
Theorem turn_terminates (W : Type) (runtime : Runtime W) (g : GraphWiring W) model t more :
  (forall e, exception_text e <> "") -> iteration_count (st t) = 0 -> 1 <= limit_of g t ->
  let enough := (3 * Z.to_nat (limit_of g t) + 1)%nat in
  graph_run g model (enough + more) PREPARE t = graph_run g model enough PREPARE t.
Proof. intros Htext H0 HL. by apply settles_run. Qed.

(** * How a turn ends *)

Section outcome.
Context {W : Type} `{Runtime W} (g : GraphWiring W) (model : string).
Notation action := (act (turn W)).

(** The status tells whether there was an error, and there is a reason. *)
Definition closed_ok (s : AgentState (world W)) : Prop :=
  (run_status s = RunStatus.FAILED <-> truthy_opt_str (error s) = true)
  /\ exists reason, finish_reason s = Some reason /\ reason <> "".
Definition explained (s : AgentState (world W)) : Prop := truthy_opt_str (error s) = true -> no_final s = false.

Lemma or_reason_ok (s : AgentState (world W)) r : r <> "" ->
  exists reason, match finish_reason s with Some f => if truthy_str f then Some f else Some r | None => Some r end
                 = Some reason /\ reason <> "".
Proof.
  intros Hr. destruct (finish_reason s) as [f|]; [|by exists r]. destruct (truthy_str f) eqn:Hf; [|by exists r].
  exists f. split; [done|]. unfold truthy_str in Hf. apply negb_true_iff, bool_decide_eq_false_1 in Hf. done.
Qed.

(** Only the error and cancellation branches see an error. *)
Lemma decision_error (t : turn W) r :
  end_reason (turn_decision g t) = Some r -> truthy_opt_str (error (st t)) = true ->
  r = EndReason.ERROR \/ r = EndReason.CANCELLED.
Proof.
  unfold turn_decision, evaluate_turn, turn_input. cbn. intros Hr He. rewrite He in Hr.
  destruct (is_cancelled _ _); cbn in Hr; injection Hr as <-; auto.
Qed.

Lemma closed_with_reason t :
  exists reason, finish_reason (closed_with (turn_decision g t) (st t)) = Some reason /\ reason <> "".
Proof.
  unfold closed_with. destruct (td_terminal (turn_decision g t)); [|by apply or_reason_ok].
  destruct (end_reason (turn_decision g t)) as [r|] eqn:Hr; [|by apply or_reason_ok].
  destruct (truthy_opt_str (error (st t))) eqn:He.
  - destruct (decision_error t r Hr He) as [-> | ->]; [by apply or_reason_ok|by eexists].
  - destruct r; try (by apply or_reason_ok); try (by eexists).
    + exfalso. revert Hr. unfold turn_decision, evaluate_turn. by repeat case_match.
    + exfalso. revert Hr. unfold turn_decision, evaluate_turn. by repeat case_match.
    + cbn. repeat case_match; by eexists.
Qed.

(** The end reason fixes the error and the reason of the finish at once. *)
Lemma closed_with_run t :
  as_run_id (closed_with (turn_decision g t) (st t)) = as_run_id (st t).
Proof. unfold closed_with. by repeat case_match. Qed.

(** From the closing on, the outcome stays. *)
Definition same_outcome (t t' : turn W) : Prop :=
  as_run_id (st t') = as_run_id (st t) /\ run_status (st t') = run_status (st t) /\ error (st t') = error (st t)
  /\ finish_reason (st t') = finish_reason (st t) /\ (no_final (st t) = false -> no_final (st t') = false).
#[local] Instance same_outcome_preorder : PreOrder same_outcome.
Proof. split; [done|]. intros t1 t2 t3 (?&?&?&?&?) (?&?&?&?&?). split_and!; try congruence. auto. Qed.
Lemma state_outcome t t' : same_state t t' -> same_outcome t t'.
Proof. unfold same_state, same_outcome. by intros ->. Qed.
Lemma await_outcome {A} (c : act (world W) A) : within same_outcome (await c).
Proof. eapply within_weaken; [apply state_outcome|apply await_same_state]. Qed.
Lemma assign_outcome f : (forall t : turn W, same_outcome t (t <| st := f (st t) |>)) -> within same_outcome (assign f).
Proof. intros Hf t. apply Hf. Qed.

Ltac step_outcome := repeat first
  [ apply await_outcome
  | match goal with |- within same_outcome (on_exception _ _) => unfold on_exception end
  | progress step_within ].

Lemma dict_set_nonempty k v m : dict_set k v m <> [].
Proof. destruct m as [|[k' v'] m]; cbn; [done|]. by case_bool_decide. Qed.

Lemma hook_outcome name kwargs : within same_outcome (dispatch_hook name kwargs).
Proof.
  unfold dispatch_hook. destruct invoke_hook; [|by apply within_ret; exact _].
  apply within_try; [exact _|apply await_outcome|]. unfold on_exception. intros e k.
  destruct (bool_decide _); [done|]. intros [= <-]. apply within_ret. exact _.
Qed.

Lemma replace_final_outcome v : within same_outcome (assign (replace_final v)).
Proof.
  apply assign_outcome. intros t. unfold replace_final, same_outcome, no_final.
  destruct (final_message (st t)) as [m|]; [|by repeat split]. cbn.
  destruct (final_is_last (st t)); cbn; split_and!; try done;
    intros _; destruct (dict_set "content" v m) eqn:Hm; try done; by apply dict_set_nonempty in Hm.
Qed.

Lemma transform_output_outcome : within same_outcome transform_output.
Proof.
  unfold transform_output. step_within; first [apply hook_outcome|apply replace_final_outcome|idtac].
Qed.

Lemma keep_final_outcome : within same_outcome (keep_final (W := W)).
Proof. unfold keep_final. step_outcome. Qed.
Lemma sync_memory_outcome : within same_outcome (sync_memory g).
Proof. unfold sync_memory. step_outcome. Qed.

Lemma explain_error_outcome t :
  ends (explain_error g) (fun _ t' => same_outcome t t' /\ explained (st t')) t.
Proof.
  unfold explain_error. apply ends_with_state. destruct (truthy_opt_str _ && no_final _) eqn:He.
  - apply ends_bind, ends_of_result. intros text _. apply ends_modify. by repeat split.
  - apply ends_ret. split; [done|]. unfold explained. intros Hf. rewrite Hf in He. by destruct (no_final _).
Qed.

(** What a finished turn leaves. *)
Definition finished (run_id : string) (t : turn W) : Prop :=
  as_run_id (st t) = run_id /\ closed_ok (st t) /\ explained (st t)
  /\ svc_accounts (budgets (wd t)) !! run_id = None.

Lemma close_budget_ends t : ends (close_budget (W := W))
  (fun _ t' => st t' = st t /\ svc_accounts (budgets (wd t')) !! as_run_id (st t) = None) t.
Proof.
  apply ends_modify. split; [done|]. cbn. unfold close.
  destruct (svc_accounts (budgets (wd t)) !! as_run_id (st t)) eqn:Ha; cbn; [by apply lookup_delete_eq|done].
Qed.

(** An outcome once reached stays to the closing of the account. *)
Lemma outcome_finished t :
  closed_ok (st t) ->
  ends (explain_error g;> transform_output;> keep_final;> sync_memory g;>
        with_state (fun s =>
          if persist_messages s
          then await (save_task_state_if_allowed (as_session_id s) (RunStatus.value (run_status s)) (iteration_count s) (error s))
          else ret tt);>
        close_budget) (fun _ t' => finished (as_run_id (st t)) t') t.
Proof.
  intros Hok. apply ends_bind. eapply ends_mono; [apply explain_error_outcome|]. intros _ t1 [H1 Hex].
  apply ends_bind. eapply within_ends; [apply transform_output_outcome|]. intros _ t2 H2.
  apply ends_bind. eapply within_ends; [apply keep_final_outcome|]. intros _ t3 H3.
  apply ends_bind. eapply within_ends; [apply sync_memory_outcome|]. intros _ t4 H4.
  apply ends_bind. eapply within_ends; [step_outcome|]. intros _ t5 H5.
  eapply ends_mono; [apply close_budget_ends|]. intros _ t6 [H6 Hacc].
  assert (H15 : same_outcome t1 t5) by (etransitivity; [exact H2|]; etransitivity; [exact H3|]; by etransitivity).
  assert (H05 : same_outcome t t5) by (by etransitivity).
  destruct H15 as (_ & _ & E15 & _ & N15). destruct H05 as (R & S & E & F & _).
  unfold finished, closed_ok, explained in *. rewrite H6, R, S, E, F. split_and!; [done|apply Hok|apply Hok| |].
  - intros He. apply N15, Hex. rewrite <- E15. by rewrite E.
  - by rewrite <- R.
Qed.

Lemma finalize_ends t : ends (finalize g) (fun _ t' => finished (as_run_id (st t)) t') t.
Proof.
  unfold finalize. apply ends_bind. eapply within_ends; [apply await_same_state|]. intros _ t1 H1.
  apply ends_bind. eapply within_ends; [apply within_with_state; intros s; apply hook_outcome|]. intros _ t2 H2.
  apply ends_bind, ends_with_turn, ends_modify. set (t3 := _ <| st := _ |>).
  assert (Hst : st t3 = (closed_with (turn_decision g t2) (st t2))
                 <| run_status := if truthy_opt_str (error (closed_with (turn_decision g t2) (st t2)))
                                  then RunStatus.FAILED else RunStatus.COMPLETED |>).
  { unfold t3. by destruct (if td_terminal (turn_decision g t2) then _ else _). }
  assert (Hrun : as_run_id (st t3) = as_run_id (st t)).
  { rewrite Hst. cbn. rewrite closed_with_run. destruct H2 as [-> _]. by rewrite H1. }
  rewrite <- Hrun. apply outcome_finished. unfold closed_ok. rewrite Hst.
  split; [cbn; set (b := truthy_opt_str _); by destruct b|apply closed_with_reason].
Qed.

Lemma call_llm_run : within same_run (call_llm g model).
Proof.
  unfold call_llm, check_run, stop_if_cancelled, fail_with. step_within. apply call_llm_body_run.
Qed.

Lemma run_node_run n : n <> FINALIZE -> within same_run (run_node g model n).
Proof.
  destruct n; intros Hn; [| | | |done].
  - apply within_count_run, prepare_context_count.
  - apply call_llm_run.
  - apply within_count_run, execute_tools_count.
  - eapply within_weaken; [|apply update_memory_control]. by intros t t' [[? _] _].
Qed.

Lemma graph_run_ends limit : forall n t, ends (graph_run g model limit n) (fun _ t' => finished (as_run_id (st t)) t') t.
Proof.
  induction limit as [|limit IH]; intros n t; [apply ends_raise|]. cbn [graph_run]. apply ends_bind.
  assert (n = FINALIZE \/ n <> FINALIZE) as [->|Hn] by (destruct n; auto).
  - eapply ends_mono; [apply finalize_ends|]. intros [] t' Hf. by apply ends_with_turn, ends_ret.
  - eapply within_ends; [by apply run_node_run|]. intros _ t' (_ & Hrun & _). apply ends_with_turn.
    destruct (next_node g n t') as [n'|] eqn:Hnext; [|by destruct n].
    rewrite <- Hrun. apply IH.
Qed.
End outcome.

(** C31. When a turn returns, its state says how it ended: it is failed exactly when
    there is an error, it has a finish reason, an error always comes with a final message
    that has fields (the text in it may be empty when the turn was cancelled), the run is the one that started, and its budget account is closed, so that no
    reservation of the turn stays open. *)
Theorem turn_outcome (W : Type) (runtime : Runtime W) (g : GraphWiring W) model limit t t' :
  graph_run g model limit PREPARE t = (t', Return tt) ->
  (run_status (st t') = RunStatus.FAILED <-> truthy_opt_str (error (st t')) = true)
  /\ (exists reason, finish_reason (st t') = Some reason /\ reason <> "")
  /\ (truthy_opt_str (error (st t')) = true -> exists key value fields, final_message (st t') = Some ((key, value) :: fields))
  /\ as_run_id (st t') = as_run_id (st t)
  /\ svc_accounts (budgets (wd t')) !! as_run_id (st t) = None.
Proof.
  intros Hrun. destruct (graph_run_ends g model limit PREPARE t t' tt Hrun) as (Hid & [Hst Hf] & Hex & Hacc).
  split_and!; try done; try apply Hst. intros He. specialize (Hex He). unfold no_final in Hex.
  destruct (final_message (st t')) as [[|[k v] m]|]; [done|eauto|done].
Qed.

(** * The gates *)

(** The same services around another executor, or another model. *)
Definition with_tools {W} (rt : Runtime W) (f : ToolCallRequest -> option (ToolExecutionContext (world W)) -> act (world W) ToolResult)
    : Runtime W :=
  Build_Runtime W (with_executor runtime_env f) runtime_memory runtime_provider is_cancelled invoke_hook provider_view
    vision_capability record_usage log_payload exception_text.
Definition with_model {W} (rt : Runtime W) (chat : list dict -> list json -> string -> dict -> act (world W) (option LLMResult))
    : Runtime W :=
  Build_Runtime W runtime_env runtime_memory (Build_LLMProvider _ chat) is_cancelled invoke_hook provider_view
    vision_capability record_usage log_payload exception_text.

Section approval.
Context {W : Type} (rt : Runtime W) (g : GraphWiring W).
Notation context := (ToolExecutionContext (world W)).
Implicit Types (ctx : option context) (request : obj ToolCallRequest).

(** Somebody was shown the tool and the arguments, and answered that this call may run. *)
Definition approved request (session_id : string) ctx (d : obj ToolDefinition) (e : ToolExecutionEvaluation)
    (w : world W) : Prop :=
  exists decider card answer w',
    ctx ≫= approval_decider = Some decider
    /\ ap_tool_call_id card = call_id (it request) /\ ap_tool_name card = td_name (it d)
    /\ ap_risk_level card = td_risk_level (it d)
    /\ ap_arguments card = JObj (project_approval_arguments g (td_name (it d)) (call_arguments (it request)))
    /\ decider card w = (w', Return (Some answer)) /\ allowed answer = true /\ ad_scope answer ∈ ["once"; "session"]
    /\ exists d', still_current (tools w') request d' e.

Lemma decided_allowed (r : result (option ApprovalDecision)) scopes :
  decided r (Some scopes) = inl (Return tt) ->
  exists d, r = Return (Some d) /\ allowed d = true /\ ad_scope d ∈ scopes.
Proof.
  unfold decided. destruct r as [[d|]|e]; [|done|by case_bool_decide]. destruct (allowed d) eqn:Ha; [|done]. cbn.
  case_bool_decide; [|done]. eauto.
Qed.
End approval.

(** C32. A tool that needs confirmation is not run before somebody answers: if
    exchanging the executor of tools changes what the dispatch of a call does, then the
    call was evaluated against the definition its name has, which is enabled, and either
    the context already authorizes the call or the decider was shown this call, the name,
    risk and projected arguments of that definition, and answered that it is allowed, once
    or for the session, while the evaluated definition was still current. *)
Theorem confirmed_tools_wait (W : Type) (rt : Runtime W) (g : GraphWiring W) f request session_id ctx w :
  dispatch_call (H := rt) g request session_id ctx w
  <> dispatch_call (H := with_tools rt f) g request session_id ctx w ->
  exists d evaluation w1,
    get_definition (tools w) (call_name (it request)) = Some d
    /\ evaluate_tool request ctx w = (w1, Return evaluation)
    /\ td_enabled (it d) = true
    /\ (authorized (it d) (it request) ctx \/ approved g request session_id ctx d evaluation w1).
Proof.
  unfold dispatch_call, evaluate_tool, tool_service_evaluate.
  destruct (get_definition (tools w) (call_name (it request))) as [d|] eqn:Hd; [|done].
  set (e := mkEvaluation _ _ _). set (w1 := w <| tools := _ |>). cbn [te_decision e].
  intros Hne. exists d, e, w1. split; [done|]. split; [done|].
  destruct (pd_outcome (evaluate_execution (it d) (it request) ctx)) eqn:Ho; [|done|].
  - apply allowed_authorized in Ho as [? ?]. auto.
  - assert (Hen : td_enabled (it d) = true) by (revert Ho; unfold evaluate_execution; by destruct (td_enabled (it d))).
    split; [done|]. right. revert Hne. unfold request_tool_approval.
    destruct (ctx ≫= approval_decider) as [decider|] eqn:Hdec; [|done]. set (card := mkApprovalRequest _ _ _ _ _ _ _).
    destruct (decider card w1) as [w2 answer] eqn:Ha.
    destruct (decided answer _) as [[[]|]|] eqn:Hdd; [|done..]. apply decided_allowed in Hdd as (a & -> & Hall & Hscope).
    destruct (tool_service_authorize_once (tools w2) request ctx (Some e)) as [c|] eqn:Hauth; [|done]. intros _.
    exists decider, card, a, w2. split_and!; try done. unfold tool_service_authorize_once in Hauth.
    destruct (definition_for_evaluation (tools w2) request e) as [d'|] eqn:Hdef; [|done].
    exists d'. by apply evaluation_current.
Qed.

(** What may go to the model: the released messages, redacted when the release says so. *)
Definition released_messages {W} (g : GraphWiring W) (messages : list dict) : list dict :=
  if bool_decide (rd_transform (rr_decision (releases g (dump (messages_json messages)) ReleaseTarget.LLM_PROVIDER
                    "llm_request")) = Some "redaction")
  then as_messages (service_redact_structured (gw_information_flow g) (messages_json messages)) else messages.

(** C33. The model is asked only through its gates: if exchanging the model
    changes what the node does, then the run still owned its session and was not cancelled,
    the messages built for the model were released to it, the model policy accepted them
    after the redaction the release asked for, and the budget of the run reserved the call
    for the estimated tokens of the messages as redacted. *)
Theorem model_called_through_gates (W : Type) (rt : Runtime W) (g : GraphWiring W) chat model t :
  call_llm (H := rt) g model t <> call_llm (H := with_model rt chat) g model t ->
  exists t0 t1 messages tools,
    check_run (H := rt) t = (t0, Return tt) /\ is_cancelled (as_session_id (st t0)) (wd t0) = false
    /\ build_provider_context (H := rt) (gw_context g) t0 = (t1, Return (messages, tools))
    /\ rr_allowed (releases g (dump (messages_json messages)) ReleaseTarget.LLM_PROVIDER "llm_request") = true
    /\ ms_verdict (select_model (H := rt) g t1 model (released_messages g messages) tools) <> PolicyOutcome.DENY
    /\ exists t2 d, reserve_llm_call (H := rt) (len (dump (messages_json (released_messages g messages))) / 4) t1
                    = (t2, Return d)
       /\ dec_outcome d <> PolicyOutcome.DENY.
Proof.
  unfold call_llm, stop_if_cancelled, with_turn, bind.
  change (check_run (H := with_model rt chat)) with (check_run (H := rt)).
  change (is_cancelled (Runtime := with_model rt chat)) with (is_cancelled (Runtime := rt)).
  destruct (check_run t) as [t0 [[]|]] eqn:Hcheck; [|done]. destruct (is_cancelled _ _) eqn:Hcan; [done|]. cbn [ret].
  intros Hne. assert (Hbody : call_llm_body (H := rt) g model t0 <> call_llm_body (H := with_model rt chat) g model t0).
  { intros Heq. apply Hne. unfold ret, try_except. by rewrite Heq. }
  clear Hne. revert Hbody. unfold call_llm_body, bind.
  change (build_provider_context (H := with_model rt chat)) with (build_provider_context (H := rt)).
  destruct (build_provider_context _ t0) as [t1 [[messages tools]|]] eqn:Hbuild; [|done].
  destruct (rr_allowed _) eqn:Hrel; [|done]. cbn [negb]. 
  fold (released_messages g messages).
  set (ms := released_messages g messages) in *. unfold with_turn.
  change (select_model (H := with_model rt chat)) with (select_model (H := rt)).
  case_bool_decide as Hsel; [by case_bool_decide|]. unfold call_allowed_model, bind.
  change (reserve_llm_call (H := with_model rt chat)) with (reserve_llm_call (H := rt)).
  destruct (reserve_llm_call (len (dump (messages_json ms)) / 4) t1) as [t2 [d|e]] eqn:Hres; [|done].
  case_bool_decide as Hd; [done|]. intros _. exists t0, t1, messages, tools. split_and!; [done..|]. by exists t2, d.
Qed.

(** * Examples *)

(** A memory that keeps nothing, and a model that always gives one answer. *)
Definition no_memory : RuntimeMemory (world nat) :=
  Build_RuntimeMemory _ (fun _ => ret []) (fun _ => ret None) (fun _ _ _ => ret tt) (fun _ _ _ _ => ret tt)
    (fun _ _ _ _ => ret tt) (fun _ _ => ret "m") (fun _ _ => ret tt) (fun _ _ _ => ret tt)
    (fun _ _ _ _ _ _ _ => ret tt) (fun _ _ _ _ => ret tt) (fun _ _ _ _ _ _ => ret tt) (fun _ _ _ => ret "").
Definition answering (message : dict) (finish : string) : LLMProvider (world nat) :=
  Build_LLMProvider _ (fun _ _ _ _ => ret (Some (mkLLMResult message finish []))).
Definition example_runtime (provider : LLMProvider (world nat)) : Runtime nat :=
  Build_Runtime nat (counting (Return ToolResultStatus.SUCCESS)) no_memory provider (fun _ _ => false) None
    (fun _ => (None, "m1")) None None (fun _ => ret tt) (fun _ => "it failed").

Definition asks_shell : dict :=
  [("role", JStr "assistant"); ("content", JStr "");
   ("tool_calls", JArr [JObj [("id", JStr "c1"); ("function", JObj [("name", JStr "shell"); ("arguments", JObj [])])]])].
Definition says_done : dict := [("role", JStr "assistant"); ("content", JStr "done")].

Definition example_context : ContextWiring nat :=
  mkContextWiring (fun _ _ _ => "be brief") None None None None false (fun _ _ _ => ret "") (fun _ _ => None) None
    (ret (float_of_int 1)).
Definition example_wiring : GraphWiring nat :=
  mkGraphWiring example_context 10 None (from_settings (mkInformationFlowConfig false true true) "") None true false
    None (fun _ d => Return d) (fun _ => None) (fun _ => None) (fun n => Pos.of_nat (S n)).
Definition example_options : RunOptions (world nat) :=
  mkRunOptions (Some shell_context) false None None None None None false None None [].
Definition example_turn : turn nat :=
  mkTurn (new_agent_state "s" "run" [[("role", JStr "user"); ("content", JStr "list the files")]] example_options)
    (shell_world <| budgets := mkBudgetService (mkBudgetConfig 900 50 50 None None None None None None) ∅ |>)
    (mkRunner ∅ ∅ None).

(** A model that never stops calling tools uses the ten iterations, and 31 nodes. *)
Definition looping : Runtime nat := example_runtime (answering asks_shell "tool_calls").

Lemma turn_terminates_witness :
  graph_run (H := looping) example_wiring "m1" (31 + 100) PREPARE example_turn
  = graph_run (H := looping) example_wiring "m1" 31 PREPARE example_turn.
Proof.
  exact (turn_terminates nat looping example_wiring "m1" example_turn 100 (fun _ H => ltac:(discriminate H)) eq_refl
           (ltac:(vm_compute; discriminate) : 1 <= limit_of (H := looping) example_wiring example_turn)).
Defined.

(** The graph of the default limit stops one node short of them. *)
Example default_limit_is_short :
  recursion_limit example_wiring example_options = 30%nat
  /\ (graph_run (H := looping) example_wiring "m1" 30 PREPARE example_turn).2 = Raise GraphRecursionError
  /\ (graph_run (H := looping) example_wiring "m1" 31 PREPARE example_turn).2 = Return tt.
Proof. vm_compute. repeat split; reflexivity. Qed.

(** Where that turn ends. *)
Definition looping_end : turn nat := (graph_run (H := looping) example_wiring "m1" 31 PREPARE example_turn).1.
Lemma looping_ends : graph_run (H := looping) example_wiring "m1" 31 PREPARE example_turn = (looping_end, Return tt).
Proof.
  assert (Hr : (graph_run (H := looping) example_wiring "m1" 31 PREPARE example_turn).2 = Return tt)
    by (vm_compute; reflexivity).
  rewrite <- Hr. apply surjective_pairing.
Qed.

Lemma turn_outcome_witness :
  run_status (st looping_end) = RunStatus.FAILED /\ svc_accounts (budgets (wd looping_end)) !! "run" = None.
Proof.
  destruct (turn_outcome nat looping example_wiring "m1" 31 example_turn looping_end looping_ends)
    as (Hs & _ & _ & _ & Hacc).
  split; [apply Hs; vm_compute; reflexivity|exact Hacc].
Defined.

(** The command waits for its answer: somebody allows it once. *)
Definition allow_once : ApprovalDecider (world nat) := fun _ w => (w, Return (Some (mkApprovalDecision true "once" ""))).
Definition asked_context : ToolExecutionContext (world nat) :=
  shell_context <| allowed_confirm_tools := [] |> <| approval_decider := Some allow_once |>.

Lemma confirmed_tools_wait_witness :
  exists d evaluation w1,
    get_definition shell_service "shell" = Some d
    /\ evaluate_tool (mkObj 5 shell_call) (Some asked_context) shell_world = (w1, Return evaluation)
    /\ td_enabled (it d) = true
    /\ (authorized (it d) shell_call (Some asked_context)
        \/ approved example_wiring (mkObj 5 shell_call) "s" (Some asked_context) d evaluation w1).
Proof.
  apply (confirmed_tools_wait nat looping example_wiring no_executor (mkObj 5 shell_call) "s" (Some asked_context) shell_world).
  intros H. apply (f_equal (fun p => outside p.1)) in H. vm_compute in H. discriminate.
Defined.

Definition silent : list dict -> list json -> string -> dict -> act (world nat) (option LLMResult) := fun _ _ _ _ => ret None.

Lemma model_called_through_gates_witness :
  exists t0 t1 messages tools,
    check_run (H := looping) example_turn = (t0, Return tt)
    /\ is_cancelled (Runtime := looping) (as_session_id (st t0)) (wd t0) = false
    /\ build_provider_context (H := looping) example_context t0 = (t1, Return (messages, tools))
    /\ rr_allowed (releases example_wiring (dump (messages_json messages)) ReleaseTarget.LLM_PROVIDER "llm_request") = true
    /\ ms_verdict (select_model (H := looping) example_wiring t1 "m1" (released_messages example_wiring messages) tools)
       <> PolicyOutcome.DENY
    /\ exists t2 d, reserve_llm_call (H := looping)
                      (len (dump (messages_json (released_messages example_wiring messages))) / 4) t1 = (t2, Return d)
       /\ dec_outcome d <> PolicyOutcome.DENY.
Proof.
  apply (model_called_through_gates nat looping example_wiring silent "m1" example_turn).
  intros H. apply (f_equal (fun p => iteration_count (st p.1))) in H. vm_compute in H. discriminate.
Defined.
