(* ===== verification/ContextProps.v ===== *)
(** What the history shown to a model guarantees: every call has its answers, a compressed
    history has one summary, and a compression that was stored is read back: the summary
    the memory appended and the messages it marked give, at the next turn, the history the
    compressor left. *)
From S2P Require Import Prelude Text Json Budget AgentRuns Repr SessionStore SessionProps Effects ToolService ContextHistory ContextCompressor AgentState ContextService AgentGraphProps.
From stdpp Require Import gmap sets strings sorting.
Open Scope Z_scope.

(** * Calls with their answers *)

(** What the two kinds of message promise to [sanitize]; [simple] messages have no calls
    inside their content. *)
Class MessageLaws (M : Type) `{MessageKind M} (simple : M -> Prop) : Prop := {
  tools_make_no_calls : forall m : M, is_tool m = true -> made_calls m = [];
  kept_calls : forall (m : M) kept, made_calls m <> [] -> made_calls (with_calls m kept) = kept;
  bare_message : forall m m' : M, simple m -> made_calls m <> [] -> without_calls m = Some m' ->
    made_calls m' = [] /\ is_tool m' = false
}.

Section pairing.
Context {M : Type} {simple : M -> Prop} `{MessageLaws M simple}.

(** The answers that follow a message that makes calls. *)
Definition answers_of (m : M) (answers : list M) : Prop :=
  Forall (fun a => is_tool a = true /\ answer_ref a ∈ List.filter truthy_json (map call_ref (made_calls m))) answers
  /\ Forall (fun tc => call_ref tc ∈ map answer_ref answers) (made_calls m).

(** Calls are followed by their answers, and there are no other answers. *)
Inductive paired : list M -> Prop :=
  | paired_nil : paired []
  | paired_plain m l : is_tool m = false -> made_calls m = [] -> paired l -> paired (m :: l)
  | paired_group m answers l : made_calls m <> [] -> answers_of m answers -> paired l -> paired (m :: answers ++ l).

Lemma take_while_true (p : M -> bool) l : Forall (fun x => p x = true) (take_while p l).
Proof. induction l as [|x l IH]; cbn; [constructor|]. destruct (p x) eqn:Hx; [by constructor|constructor]. Qed.

Lemma kept_group m following kept answers :
  made_calls m <> [] -> Forall (fun x : M => is_tool x = true) following ->
  answers = List.filter (fun t => bool_decide (answer_ref t ∈ List.filter truthy_json (map call_ref (made_calls m)))) following ->
  kept = List.filter (fun tc => bool_decide (call_ref tc ∈ map answer_ref answers)) (made_calls m) ->
  answers_of (with_calls m kept) answers.
Proof.
  intros Hm Hf Ha Hk. unfold answers_of. rewrite (kept_calls m kept Hm). split; apply Forall_forall.
  - intros a Hin. pose proof Hin as Hin'. rewrite Ha in Hin. apply List_filter_elem in Hin as [Hfol Href%bool_decide_eq_true_1].
    split; [by apply (proj1 (Forall_forall _ _) Hf)|].
    apply List_filter_elem in Href as [Href Ht]. apply List_filter_elem. split; [|done].
    apply list_elem_of_fmap in Href as (tc & Heq & Htc). apply list_elem_of_fmap. exists tc. split; [done|].
    rewrite Hk. apply List_filter_elem. split; [done|]. apply bool_decide_eq_true_2. rewrite <- Heq.
    apply list_elem_of_fmap. by exists a.
  - intros tc Hin. rewrite Hk in Hin. apply List_filter_elem in Hin as [_ Hin%bool_decide_eq_true_1]. done.
Qed.

Lemma sanitize_from_paired l : Forall simple l -> forall skip, paired (sanitize_from skip l).
Proof.
  induction 1 as [|m l Hs _ IH]; intros skip; [constructor|]. cbn [sanitize_from].
  destruct skip as [|skip]; [|apply IH]. destruct (made_calls m) as [|tc calls] eqn:Hm.
  - destruct (is_tool m) eqn:Ht; [apply IH|by apply paired_plain].
  - assert (Hne : made_calls m <> []) by (by rewrite Hm). unfold answered_group.
    set (answers := List.filter (A := M) _ _). set (kept := List.filter _ (made_calls m)).
    pose proof (kept_group m _ kept answers Hne (take_while_true is_tool l) eq_refl eq_refl) as Hg.
    destruct kept as [|k l0]; cbn [app].
    + destruct (without_calls m) as [m'|] eqn:Hw; [|apply IH]. destruct (bare_message m m' Hs Hne Hw) as [? ?].
      by apply paired_plain.
    + apply paired_group; [by rewrite kept_calls|done|apply IH].
Qed.

Lemma sanitize_paired l : Forall simple l -> paired (sanitize l).
Proof. intros Hs. by apply sanitize_from_paired. Qed.

(** A history already paired stays as it is. *)
Lemma take_while_app (p : M -> bool) l l' :
  Forall (fun x => p x = true) l -> take_while p l' = [] -> take_while p (l ++ l') = l.
Proof. intros Hl Hl'. induction Hl as [|x l Hx _ IH]; [done|]. cbn. by rewrite Hx, IH. Qed.

Lemma paired_starts l : paired l -> take_while is_tool l = [].
Proof.
  intros [|m l' Ht Hc Hp|m answers l' Hm Ha Hp]; cbn; [done|by rewrite Ht|].
  destruct (is_tool m) eqn:Ht; [|done]. by apply tools_make_no_calls in Ht.
Qed.

Lemma filter_all {A} (p : A -> bool) l : Forall (fun x => p x = true) l -> List.filter p l = l.
Proof. induction 1 as [|x l Hx _ IH]; [done|]. cbn. by rewrite Hx, IH. Qed.

Lemma skip_answers answers l : sanitize_from (length answers) (answers ++ l) = sanitize_from (M := M) 0 l.
Proof. induction answers; [done|exact IHanswers]. Qed.

Lemma paired_stays l : paired l -> Forall (fun m => with_calls m (made_calls m) = m) l -> sanitize l = l.
Proof.
  unfold sanitize. induction 1 as [|m l Ht Hc Hp IH|m answers l Hm [Ha Hk] Hp IH]; [done| |].
  - intros [_ Hn]%Forall_cons. cbn [sanitize_from]. by rewrite Hc, Ht, IH.
  - intros [Hsame [_ Hn]%Forall_app]%Forall_cons. cbn [sanitize_from].
    rewrite (take_while_app _ answers l); [|by eapply Forall_impl; [exact Ha|intros ? []]|by apply paired_starts].
    rewrite skip_answers, (IH Hn). destruct (made_calls m) as [|tc calls] eqn:Hc; [done|].
    unfold answered_group. rewrite (filter_all _ answers), (filter_all _ (made_calls m)).
    + rewrite Hc in *. by rewrite Hsame.
    + rewrite Hc. eapply Forall_impl; [exact Hk|]. intros x ?. by apply bool_decide_eq_true_2.
    + rewrite Hc. eapply Forall_impl; [exact Ha|]. intros x [_ ?]. by apply bool_decide_eq_true_2.
Qed.
End pairing.

(** * The two kinds of message *)

Definition simple_content (m : Message.t) : Prop :=
  match assistant_content_without_tool_calls m with JObj _ => False | _ => True end.

#[export] Instance stored_laws : MessageLaws Message.t simple_content.
Proof.
  split; cbn; unfold assistant_tool_calls.
  - intros m ->%bool_decide_eq_true_1. done.
  - intros m kept. destruct (bool_decide (Message.role m = "assistant")) eqn:Hr; [|done]. intros _. cbn. by rewrite Hr.
  - intros m m' Hs. destruct (bool_decide (Message.role m = "assistant")) eqn:Hr; [|done].
    apply bool_decide_eq_true_1 in Hr. intros _. unfold simple_content in Hs.
    destruct (truthy_json _); [|done]. intros [= <-]. cbn. rewrite Hr. cbn. split; [|done].
    by destruct (assistant_content_without_tool_calls m).
Qed.

Lemma dict_get_pop k k' (d : dict) : dict_get (dict_pop k d) k' = if bool_decide (k = k') then JNull else dict_get d k'.
Proof.
  unfold dict_get, dict_pop. induction d as [|[k0 v] d IH]; cbn; [by case_bool_decide|].
  destruct (decide (k0 = k)) as [->|Hk].
  - rewrite (bool_decide_eq_true_2 (k = k)) by done. cbn. rewrite IH.
    destruct (decide (k = k')) as [->|Hkk]; [by rewrite bool_decide_eq_true_2|].
    rewrite (bool_decide_eq_false_2 (k = k')) by done. by rewrite (bool_decide_eq_false_2 (k' = k)) by congruence.
  - rewrite (bool_decide_eq_false_2 (k0 = k)) by done. cbn. destruct (decide (k' = k0)) as [->|Hk0].
    + rewrite (bool_decide_eq_true_2 (k0 = k0)), (bool_decide_eq_false_2 (k = k0)) by congruence. done.
    + by rewrite (bool_decide_eq_false_2 (k' = k0)).
Qed.

Lemma dict_set_same k v (d : dict) : obj_get k d = Some v -> dict_set k v d = d.
Proof.
  induction d as [|[k' v'] d IH]; [done|]. cbn. case_bool_decide as Hk.
  - intros [= ->]. by subst.
  - intros Ho. by rewrite IH.
Qed.

#[export] Instance provider_laws : MessageLaws dict (fun _ => True).
Proof.
  split; cbn.
  - intros m Ht. unfold has_role in *. apply bool_decide_eq_true_1 in Ht. by rewrite Ht.
  - intros m kept. unfold has_role, provider_calls. rewrite !dict_get_set.
    rewrite (bool_decide_eq_false_2 ("tool_calls" = "role")), (bool_decide_eq_true_2 ("tool_calls" = "tool_calls")) by done.
    by destruct (bool_decide (dict_get m "role" = JStr "assistant")).
  - intros m m' _. destruct (has_role "assistant" m) eqn:Hr; [|done]. intros _.
    unfold has_role, provider_calls in *. destruct (_ || _); [|done]. intros [= <-]. rewrite !dict_get_pop.
    rewrite (bool_decide_eq_false_2 ("tool_calls" = "role")), (bool_decide_eq_true_2 ("tool_calls" = "tool_calls")) by done.
    apply bool_decide_eq_true_1 in Hr. by rewrite Hr.
Qed.

Lemma provider_kept (m : dict) : made_calls m <> [] -> with_calls m (made_calls m) = m.
Proof.
  cbn. destruct (has_role "assistant" m); [|done]. unfold provider_calls, dict_get.
  destruct (obj_get "tool_calls" m) as [v|] eqn:Ho; [|done]. cbn. destruct v; try done. intros _. by apply dict_set_same.
Qed.

(** ** From stored to provider messages *)

Lemma pairing_app {M} `{MessageKind M} (l l' : list M) : paired l -> paired l' -> paired (l ++ l').
Proof.
  induction 1 as [|m l Ht Hc _ IH|m answers l Hm Ha _ IH]; intros Hl'; [done| |].
  - cbn. apply paired_plain; auto.
  - cbn. rewrite <- app_assoc. apply paired_group; auto.
Qed.

Lemma provider_role m : dict_get (message_to_provider m) "role" = JStr (Message.role m).
Proof.
  unfold message_to_provider. destruct (match Message.content m with JObj _ => _ | _ => _ end) as [content calls].
  case_bool_decide as Hr; [by rewrite Hr|done].
Qed.

Lemma provider_is_tool m : is_tool (message_to_provider m) = is_tool m.
Proof. cbn. unfold has_role. rewrite provider_role. apply bool_decide_ext. split; congruence. Qed.

Lemma text_field_other k k' o rest : k <> k' -> obj_get k (text_field k' o ++ rest) = obj_get k rest.
Proof. intros Hk. unfold text_field. destruct (truthy_opt_str o); [|done]. cbn. by rewrite bool_decide_eq_false_2. Qed.

Lemma provider_made_calls m : made_calls (message_to_provider m) = made_calls m.
Proof.
  cbn. unfold has_role. rewrite provider_role. unfold assistant_tool_calls.
  rewrite (bool_decide_ext (JStr (Message.role m) = JStr "assistant") (Message.role m = "assistant")) by (split; congruence).
  case_bool_decide as Hr; [|done]. unfold message_to_provider, provider_calls, dict_get. rewrite Hr. cbn [bool_decide].
  rewrite (bool_decide_eq_false_2 ("assistant" = "tool")) by done.
  rewrite (bool_decide_eq_true_2 ("assistant" = "assistant")) by done.
  assert (Hnone : forall v : json, obj_get "tool_calls" ([("role", JStr "assistant"); ("content", v)]
      ++ [] ++ text_field "tool_call_id" (Message.tool_call_id m) ++ text_field "name" (Message.name m)) = None).
  { intros v. cbn [app obj_get]. rewrite !bool_decide_eq_false_2 by done.
    rewrite text_field_other by done. unfold text_field. by destruct (truthy_opt_str _). }
  destruct (Message.content m) as [| | | | |kvs]; try (rewrite Hnone; done). cbn [andb].
  case_bool_decide as Hk.
  - destruct Hk as [v Hv]. rewrite Hv. cbn [default].
    unfold json_or. destruct (truthy_json v) eqn:Hv1.
    + cbn -[bool_decide].
      rewrite (bool_decide_eq_false_2 ("tool_calls" = "role")), (bool_decide_eq_false_2 ("tool_calls" = "content")) by done.
      rewrite !Hv1. cbn [app obj_get]. by rewrite (bool_decide_eq_true_2 ("tool_calls" = "tool_calls")).
    + change (id v) with v. rewrite !Hv1. cbn [truthy_json]. rewrite Hnone. cbn. destruct v as [| | | |[]|]; done.
  - cbn [truthy_json]. rewrite Hnone. destruct (obj_get "tool_calls" kvs); [|done]. exfalso. apply Hk. eauto.
Qed.

Lemma provider_answer_ref m : is_tool m = true -> truthy_json (answer_ref m) = true ->
  answer_ref (message_to_provider m) = answer_ref m.
Proof.
  cbn. intros Hr%bool_decide_eq_true_1 Ht. unfold message_to_provider, dict_get. rewrite Hr.
  assert (Htr : truthy_opt_str (Message.tool_call_id m) = true) by (by destruct (Message.tool_call_id m)).
  rewrite (bool_decide_eq_true_2 ("tool" = "tool")), (bool_decide_eq_false_2 ("tool" = "assistant")) by done.
  destruct (match Message.content m with JObj _ => _ | _ => _ end) as [content calls].
  unfold text_field. by rewrite Htr.
Qed.

Lemma provider_paired l : paired l -> paired (map message_to_provider l).
Proof.
  induction 1 as [|m l Ht Hc _ IH|m answers l Hm [Ha Hk] _ IH]; [constructor| |].
  - apply paired_plain; [by rewrite provider_is_tool|by rewrite provider_made_calls|done].
  - cbn [map]. rewrite map_app. apply paired_group; [by rewrite provider_made_calls| |done].
    assert (Href : map answer_ref (map message_to_provider answers) = map answer_ref answers).
    { clear Hk. induction Ha as [|a answers [Hat Har] _ IHa]; [done|]. cbn [map].
      apply List_filter_elem in Har as [_ Har]. by rewrite provider_answer_ref, IHa. }
    split; rewrite provider_made_calls; [|by rewrite Href]. apply Forall_map. eapply Forall_impl; [exact Ha|].
    intros a [Hat Har]. unfold compose. cbv beta. pose proof Har as [_ Htr]%List_filter_elem. by rewrite provider_is_tool, provider_answer_ref.
Qed.

(** * What the compressor's own check sees *)

(** Calls come as a list, or not at all. *)
Definition calls_listed (m : dict) : Prop := truthy_json (dict_get m "tool_calls") = true -> exists l, dict_get m "tool_calls" = JArr l.

Lemma made_calls_of (m : dict) : has_role "assistant" m = true -> made_calls m = provider_calls m.
Proof. cbn. by intros ->. Qed.

Lemma lookup_split {A} (pre : list A) x suf : (pre ++ x :: suf) !! length pre = Some x.
Proof. by rewrite lookup_app_r, Nat.sub_diag by lia. Qed.

Lemma group_answers (m : dict) answers l :
  answers_of m answers -> paired l -> has_role "assistant" m = true -> Forall (fun tc => truthy_json (call_ref tc) = true) (made_calls m) ->
  take_while (answers_one_of (refs_of m)) (answers ++ l) = answers.
Proof.
  intros [Ha _] Hp Hr Ht. apply take_while_app.
  - eapply Forall_impl; [exact Ha|]. intros a [Hta Hra]. unfold answers_one_of. cbn in Hta. rewrite Hta. cbn.
    apply bool_decide_eq_true_2. unfold refs_of. rewrite <- (made_calls_of m Hr). exact Hra.
  - apply paired_starts in Hp. destruct l as [|x l]; [done|]. cbn in *. unfold answers_one_of.
    by destruct (has_role "tool" x).
Qed.

Lemma refs_all_answered (m : dict) answers :
  answers_of m answers -> forall x, x ∈ refs_of m -> has_role "assistant" m = true -> x ∈ map answer_ref answers.
Proof.
  intros [_ Hk] x Hx Hr. unfold refs_of in Hx. rewrite <- (made_calls_of m Hr) in Hx.
  apply List_filter_elem in Hx as [Hx _]. apply list_elem_of_fmap in Hx as (tc & -> & Htc).
  by apply (proj1 (Forall_forall _ _) Hk).
Qed.

Lemma answered_truthy (m : dict) answers :
  answers_of m answers -> Forall (fun tc => truthy_json (call_ref tc) = true) (made_calls m).
Proof.
  intros [Ha Hk]. eapply Forall_impl; [exact Hk|]. intros tc (a & -> & Hin)%list_elem_of_fmap.
  apply (proj1 (Forall_forall _ _) Ha) in Hin as [_ Hin]. by apply List_filter_elem in Hin as [_ ?].
Qed.

(** One position of the check. *)
Definition calling (m : dict) : bool := has_role "assistant" m && truthy_json (dict_get m "tool_calls").

Lemma orphans_answers pre answers : forall suf valid idxs,
  Forall (fun a => has_role "tool" a = true /\ dict_get a "tool_call_id" ∈ valid) answers ->
  orphans_from (pre ++ answers ++ suf) (seq (length pre) (length answers) ++ idxs) valid
  = orphans_from (pre ++ answers ++ suf) idxs valid.
Proof.
  revert pre. induction answers as [|a answers IH]; intros pre suf valid idxs Ha; [done|].
  apply Forall_cons in Ha as [[Ht Hv] Ha]. cbn [length seq app orphans_from]. rewrite lookup_split.
  assert (Hna : has_role "assistant" a = false).
  { unfold has_role in *. apply bool_decide_eq_true_1 in Ht. by rewrite Ht. }
  rewrite Hna, Ht, bool_decide_eq_true_2 by done. cbn [andb negb].
  specialize (IH (pre ++ [a]) suf valid idxs Ha). rewrite length_app, <- app_assoc in IH. cbn in IH.
  by rewrite Nat.add_1_r in IH.
Qed.

Lemma orphans_none suf : paired suf -> Forall calls_listed suf -> forall pre valid,
  orphans_from (pre ++ suf) (seq (length pre) (length suf)) valid = false.
Proof.
  induction 1 as [|m l Ht Hc Hp IH|m answers l Hm Ha Hp IH]; intros Hl pre valid; [done| |].
  - apply Forall_cons in Hl as [Hlm Hl]. cbn [length seq orphans_from]. rewrite lookup_split.
    assert (Hcall : has_role "assistant" m && truthy_json (dict_get m "tool_calls") = false).
    { destruct (has_role "assistant" m) eqn:Hr; [|done]. rewrite (made_calls_of m Hr) in Hc. unfold provider_calls in Hc.
      destruct (truthy_json (dict_get m "tool_calls")) eqn:Hv; [|done]. destruct (Hlm Hv) as [cs Hcs].
      rewrite Hcs in *. by subst cs. }
    cbn in Ht. rewrite Hcall, Ht. cbn [andb].
    specialize (IH Hl (pre ++ [m]) valid). rewrite <- app_assoc, length_app in IH. cbn in IH. by rewrite Nat.add_1_r in IH.
  - apply Forall_cons in Hl as [_ [_ Hl]%Forall_app]. pose proof (answered_truthy m answers Ha) as Htr.
    assert (Hr : has_role "assistant" m = true) by (cbn in Hm; by destruct (has_role "assistant" m)).
    assert (Hcalls : truthy_json (dict_get m "tool_calls") = true).
    { rewrite (made_calls_of m Hr) in Hm. unfold provider_calls in Hm. destruct (dict_get m "tool_calls") as [| | | |[]|]; done. }
    cbn [length seq app]. rewrite length_app, seq_app. cbn [orphans_from]. rewrite lookup_split, Hr, Hcalls. cbn [andb].
    assert (Hnt : has_role "tool" m = false).
    { unfold has_role in *. apply bool_decide_eq_true_1 in Hr. by rewrite Hr. }
    assert (Hafter : drop (S (length pre)) (pre ++ m :: answers ++ l) = answers ++ l).
    { replace (pre ++ m :: answers ++ l) with ((pre ++ [m]) ++ answers ++ l) by (by rewrite <- app_assoc).
      replace (S (length pre)) with (length (pre ++ [m])) by (rewrite length_app; cbn; lia). apply drop_app_length. }
    assert (Hspan : (tool_group_span (pre ++ m :: answers ++ l) (length pre)).2 = (S (length pre) + length answers)%nat).
    { unfold tool_group_span. cbn [tool_group_span_fuel]. rewrite lookup_split, Hnt, Hcalls. cbn [snd].
      rewrite <- (group_answers m answers l Ha Hp Hr Htr) at 2. do 2 f_equal.
      symmetry. rewrite Hafter. done. }
    assert (Hslice : slice (pre ++ m :: answers ++ l) (S (length pre)) (S (length pre) + length answers) = answers).
    { unfold slice. rewrite Hafter. replace (S (length pre) + length answers - S (length pre))%nat with (length answers) by lia.
      apply take_app_length. }
    rewrite Hspan, Hslice, (filter_all _ answers) by (by eapply Forall_impl; [apply Ha|intros ? []]).
    assert (Hids : no_elements (refs_of m) || negb (forallb (fun x => bool_decide
                     (x ∈ map (fun t => dict_get t "tool_call_id") answers)) (refs_of m)) = false).
    { apply orb_false_iff. split.
      - unfold refs_of. rewrite <- (made_calls_of m Hr), filter_all by (by apply Forall_map).
        by destruct (made_calls m).
      - apply negb_false_iff, forallb_true. intros x Hx. apply bool_decide_eq_true_2. by apply (refs_all_answered m). }
    rewrite Hids, Hnt. cbn [andb]. replace (pre ++ m :: answers ++ l) with ((pre ++ [m]) ++ answers ++ l) by (by rewrite <- app_assoc).
    replace (S (length pre)) with (length (pre ++ [m])) by (rewrite length_app; cbn; lia).
    rewrite orphans_answers.
    + specialize (IH Hl ((pre ++ [m]) ++ answers) (valid ++ refs_of m)). rewrite <- app_assoc, length_app in IH. exact IH.
    + eapply Forall_impl; [apply Ha|]. intros a [Hat Har]. split; [exact Hat|]. apply elem_of_app. right.
      unfold refs_of. rewrite <- (made_calls_of m Hr). exact Har.
Qed.

(** * One summary *)

Section kept.
Context {M : Type} `{MessageKind M}.

Lemma sanitize_forall (P : M -> Prop) l :
  (forall m kept, P m -> P (with_calls m kept)) -> (forall m m', P m -> without_calls m = Some m' -> P m') ->
  Forall P l -> forall skip, Forall P (sanitize_from skip l).
Proof.
  intros Hw Hb. induction 1 as [|m l Hm Hl IH]; intros skip; [constructor|]. cbn [sanitize_from].
  destruct skip as [|skip]; [|apply IH]. destruct (made_calls m) as [|tc calls] eqn:Hc.
  - destruct (is_tool m); [apply IH|by constructor].
  - apply Forall_app. split; [|apply IH]. unfold answered_group. destruct (List.filter _ (made_calls m)).
    + destruct (without_calls m) as [m'|] eqn:Hm'; constructor; [by eapply Hb|constructor].
    + constructor; [by apply Hw|]. apply Forall_forall. intros a [Ha _]%List_filter_elem.
      assert (Hin : a ∈ l).
      { clear -Ha. induction l as [|x l IHl]; [done|]. cbn in Ha. destruct (is_tool x); [|by apply elem_of_nil in Ha].
        apply elem_of_cons in Ha as [->|Ha]; apply elem_of_cons; auto. }
      by apply (proj1 (Forall_forall _ _) Hl).
Qed.

(** What makes no calls and is no answer stays. *)
Lemma sanitize_keeps (q : M -> bool) :
  (forall m, q m = true -> is_tool m = false /\ made_calls m = []) ->
  (forall m kept, made_calls m <> [] -> q (with_calls m kept) = false) ->
  (forall m m', made_calls m <> [] -> without_calls m = Some m' -> q m' = false) ->
  forall l, List.filter q (sanitize l) = List.filter q l.
Proof.
  intros Hq Hw Hb l. unfold sanitize.
  assert (Hgen : forall l skip, Forall (fun m => is_tool m = true) (take skip l) ->
    List.filter q (sanitize_from skip l) = List.filter q l); [|by apply Hgen].
  clear l. intros l. assert (Hnt : forall m, is_tool m = true -> q m = false).
  { intros m Ht. destruct (q m) eqn:Hm; [|done]. apply Hq in Hm as [? _]. congruence. }
  induction l as [|m l IH]; intros skip Hs; [by destruct skip|]. cbn [sanitize_from].
  destruct skip as [|skip].
  - destruct (made_calls m) as [|tc calls] eqn:Hc.
    + destruct (is_tool m) eqn:Ht; cbn [List.filter].
      * rewrite (Hnt m Ht). apply IH. constructor.
      * rewrite (IH 0%nat); [done|constructor].
    + assert (Hqm : q m = false).
      { destruct (q m) eqn:Hm; [|done]. apply Hq in Hm as [_ ?]. congruence. }
      assert (Hfol : Forall (fun x => is_tool x = true) (take_while is_tool l)) by apply take_while_true.
      assert (Hpre : take (length (take_while is_tool l)) l = take_while is_tool l).
      { clear. induction l as [|x l IHl]; [done|]. cbn. destruct (is_tool x); [|done]. cbn. by rewrite IHl. }
      rewrite List.filter_app, IH by (by rewrite Hpre). cbn [List.filter]. rewrite Hqm.
      enough (List.filter q (answered_group m (take_while is_tool l)) = []) as -> by done.
      assert (Hnone : forall x : list M, Forall (fun y => q y = false) x -> List.filter q x = []).
      { induction 1 as [|y x Hy _ IHx]; [done|]. cbn. by rewrite Hy. }
      apply Hnone. unfold answered_group. destruct (List.filter _ (made_calls m)).
      * destruct (without_calls m) as [m'|] eqn:Hm'; constructor; [|constructor]. eapply Hb; [|done]. by rewrite Hc.
      * constructor; [apply Hw; by rewrite Hc|]. apply Forall_forall. intros a [Ha _]%List_filter_elem.
        apply Hnt. by apply (proj1 (Forall_forall _ _) Hfol).
  - cbn [take] in Hs. apply Forall_cons in Hs as [Ht Hs]. cbn [List.filter]. rewrite (Hnt m Ht). by apply IH.
Qed.
End kept.

Lemma set_role k v (m : dict) role : k <> "role" -> has_role role (dict_set k v m) = has_role role m.
Proof. intros Hk. unfold has_role. by rewrite dict_get_set, (bool_decide_eq_false_2 (k = "role")). Qed.
Lemma pop_role k (m : dict) role : k <> "role" -> has_role role (dict_pop k m) = has_role role m.
Proof. intros Hk. unfold has_role. by rewrite dict_get_pop, (bool_decide_eq_false_2 (k = "role")). Qed.
Lemma one_role (m : dict) r r' : has_role r m = true -> r <> r' -> has_role r' m = false.
Proof. unfold has_role. intros ->%bool_decide_eq_true_1 Hr. apply bool_decide_eq_false_2. congruence. Qed.

Lemma caller_is_assistant (m : dict) : made_calls m <> [] -> has_role "assistant" m = true.
Proof. cbn. by destruct (has_role "assistant" m). Qed.

Lemma sanitize_summaries l : List.filter is_summary_message (sanitize_tool_pairs l) = List.filter is_summary_message l.
Proof.
  assert (Hno : forall m, has_role "assistant" m = true -> is_summary_message m = false).
  { intros m Hr. unfold is_summary_message. by rewrite (one_role m "assistant" "user"). }
  apply sanitize_keeps.
  - intros m [Hu _]%andb_prop. cbn. by rewrite (one_role m "user" "tool"), (one_role m "user" "assistant").
  - intros m kept Hm%caller_is_assistant. apply Hno. cbn. by rewrite set_role.
  - intros m m' Hm%caller_is_assistant. cbn. destruct (_ || _); [|done]. intros [= <-]. apply Hno. by rewrite pop_role.
Qed.

Lemma summary_is_summary s : is_summary_message (summary_message s) = true.
Proof.
  unfold is_summary_message, summary_message, is_summary_text, has_role, dict_get. cbn [obj_get].
  rewrite (bool_decide_eq_true_2 ("role" = "role")), (bool_decide_eq_false_2 ("content" = "role")) by done.
  rewrite (bool_decide_eq_true_2 ("content" = "content")) by done. cbn [default].
  rewrite (bool_decide_eq_true_2 (JStr "user" = JStr "user")) by done. cbn [andb].
  apply starts_with_prefix.
Qed.

(** * Compressing *)

Lemma inserted_paired head summary tail : paired (insert_summary_message head summary tail).
Proof. apply (sanitize_paired (simple := fun _ => True)). by apply Forall_true. Qed.

Lemma inserted_summary head summary tail :
  List.filter is_summary_message (insert_summary_message head summary tail) = [summary_message summary].
Proof.
  unfold insert_summary_message. rewrite sanitize_summaries, List.filter_app. cbn [List.filter].
  rewrite summary_is_summary.
  assert (Hno : forall l, List.filter is_summary_message (List.filter (fun m => negb (is_summary_message m)) l) = []).
  { induction l as [|m l IH]; [done|]. cbn. destruct (is_summary_message m) eqn:Hm; cbn; [done|]. by rewrite Hm. }
  by rewrite !Hno.
Qed.

Lemma summary_listed s : calls_listed (summary_message s).
Proof. done. Qed.

Lemma inserted_no_orphans head summary tail :
  Forall calls_listed head -> Forall calls_listed tail ->
  has_orphan_tool_messages (insert_summary_message head summary tail) = false.
Proof.
  intros Hh Ht. unfold has_orphan_tool_messages. apply (orphans_none _ (inserted_paired head summary tail)) with (pre := []).
  unfold insert_summary_message, sanitize_tool_pairs. apply sanitize_forall.
  - intros m kept _. cbn. intros _. exists kept. by rewrite dict_get_set, bool_decide_eq_true_2.
  - intros m m' _. cbn. destruct (_ || _); [|done]. intros [= <-]. intros Hc.
    by rewrite dict_get_pop, bool_decide_eq_true_2 in Hc.
  - assert (Hsub : forall l, Forall calls_listed l -> Forall calls_listed (List.filter (fun m => negb (is_summary_message m)) l)).
    { intros l Hl. apply Forall_forall. intros m [Hm _]%List_filter_elem. by apply (proj1 (Forall_forall _ _) Hl). }
    apply Forall_app. split; [by apply Hsub|]. constructor; [apply summary_listed|by apply Hsub].
Qed.

Section compression.
Context {S : Type} `{LLMProvider S} (cf : CompressorConfig)
        (fallback_summarizer : option (list dict -> string -> act S string)).

(** What a compression of [l] may answer. *)
Definition answer_ok (l : list dict) (r : ContextCompressionResult) : Prop :=
  (compressed r = false -> cc_messages r = l /\ summarized_message_indices r = []
     /\ skipped_reason r <> Some "tool_boundary")
  /\ (compressed r = true ->
       paired (cc_messages r)
       /\ List.filter is_summary_message (cc_messages r) = [summary_message (cc_summary r)]
       /\ exists head_end tail_start, (head_end < tail_start)%nat
          /\ summarized_message_indices r = seq head_end (tail_start - head_end)
          /\ cc_messages r = insert_summary_message (take head_end l) (cc_summary r) (drop tail_start l)).

Definition ends_ok (l : list dict) (_ : S) (r : result ContextCompressionResult) : Prop :=
  match r with Return r => answer_ok l r | Raise _ => True end.

Lemma skip_ok l existing tokens reason : reason <> "tool_boundary" -> answer_ok l (skip l existing tokens reason).
Proof. intros Hr. split; [|done]. intros _. cbn. split_and!; [done|done|congruence]. Qed.

(** After any call. *)
Lemma wp_then {A B} (c : act S A) (k : A -> act S B) (Q : S -> result B -> Prop) s :
  (forall s e, Q s (Raise e)) -> (forall a s, wp (k a) Q s) -> wp (bind c k) Q s.
Proof. intros He Hk. apply wp_bind. unfold wp at 1. destruct (c s).2; [apply Hk|apply He]. Qed.

Lemma segment_order l sg : segment cf l = Return (inl sg) -> (sg_head_end sg < sg_tail_start sg)%nat.
Proof.
  unfold segment. destruct (tail_start_of _ _ _) as [tail|]; [cbn|done].
  destruct (tail <=? _)%nat eqn:Hle; [done|]. apply Nat.leb_gt in Hle.
  intros Heq. repeat case_match; simplify_eq/=; done.
Qed.

Lemma segment_reason l reason : segment cf l = Return (inr reason) -> reason <> "tool_boundary".
Proof.
  unfold segment. destruct (tail_start_of _ _ _) as [tail|]; [cbn|done].
  destruct (tail <=? _)%nat; [by intros [= <-]|].
  intros Heq. repeat case_match; simplify_eq/=; done.
Qed.

Lemma compress_segments_ok l existing tokens s : Forall calls_listed l ->
  wp (compress_segments cf fallback_summarizer l existing tokens) (ends_ok l) s.
Proof.
  intros Hl. unfold compress_segments. apply wp_bind, wp_of_result.
  destruct (segment cf l) as [[sg|reason]|e] eqn:Hsg; [| |done].
  - apply segment_order in Hsg. do 3 (apply wp_then; [done|intros ? ?]).
    rewrite inserted_no_orphans.
    2: by apply Forall_take. 2: by apply Forall_drop.
    destruct (_ || _); apply wp_ret; [by apply skip_ok|]. split; [done|]. intros _. cbn.
    split_and!; [apply inserted_paired|apply inserted_summary|by eauto 6].
  - apply wp_ret, skip_ok. by apply segment_reason in Hsg.
Qed.
End compression.

(** C38. Compressing never leaves a history the model cannot read and hardly ever fails
    a turn: besides a cancellation only the threshold raises, of a compression that is not
    forced, where the context length times the percentage is no finite number.  A
    compression that is skipped gives back the
    messages as they are, and its own check for orphan tool messages never refuses the
    result; one that is done leaves every call followed by its answers with no other
    answers, holds exactly one summary message, the new one, and reports as summarized
    the non-empty range of messages that is gone. *)
Theorem compression_sound (S : Type) (provider : LLMProvider S) cf fallback last now l tokens force existing s :
  Forall calls_listed l ->
  let run := compress cf fallback last now l tokens force existing s in
  (forall e, run.2 = Raise e -> e = CancelledError
     \/ force = false /\ cooling cf last now = false
        /\ threshold_tokens (cf_context_length cf) (cf_threshold_percent cf) = Raise e)
  /\ forall r, run.2 = Return r ->
      (compressed r = false -> cc_messages r = l /\ summarized_message_indices r = []
         /\ skipped_reason r <> Some "tool_boundary")
      /\ (compressed r = true ->
           paired (cc_messages r)
           /\ List.filter is_summary_message (cc_messages r) = [summary_message (cc_summary r)]
           /\ exists head_end tail_start, (head_end < tail_start)%nat
              /\ summarized_message_indices r = seq head_end (tail_start - head_end)
              /\ cc_messages r = insert_summary_message (take head_end l) (cc_summary r) (drop tail_start l)).
Proof.
  intros Hl. cbn zeta. unfold compress. set (tk := default (estimate_tokens l) tokens).
  destruct (negb force && cooling cf last now) eqn:Hcool; [split; [done|intros r [= <-]; by apply skip_ok]|].
  assert (Hrest : forall wanted, let run := (if negb wanted then ret (skip l existing tk "below_threshold")
      else if (length l <=? cf_protect_first_n cf + cf_protect_last_n cf)%nat then ret (skip l existing tk "too_few_messages")
      else try_except (compress_segments cf fallback l existing tk)
             (on_exception (ret (skip l existing tk "error")))) s in
      (forall e, run.2 = Raise e -> e = CancelledError) /\ forall r, run.2 = Return r -> answer_ok l r).
  { intros [|]; cbn [negb]; [|split; [done|intros r [= <-]; by apply skip_ok]].
    destruct (length l <=? _)%nat; [split; [done|intros r [= <-]; by apply skip_ok]|].
    pose proof (compress_segments_ok cf fallback l existing tk s Hl) as Hok. unfold wp in Hok.
    unfold try_except, on_exception. destruct (compress_segments cf fallback l existing tk s) as [s' [r|e]]; cbn in *.
    - split; [done|]. intros r' [= <-]. exact Hok.
    - case_bool_decide as He; cbn; [split; [by intros ? [= <-]|done]|]. split; [done|]. intros r [= <-]. by apply skip_ok. }
  destruct force; cbn [negb andb] in Hcool.
  - destruct (Hrest true) as [H1 H2]. split; [intros e He; left; by apply H1|exact H2].
  - unfold should_compress. rewrite Hcool.
    destruct (threshold_tokens _ _) as [n|e'] eqn:Ht.
    + destruct (Hrest (n <? tk)) as [H1 H2]. split; [intros e He; left; by apply H1|exact H2].
    + split; [|done]. intros e [= <-]. by right.
Qed.

(** * The history of a turn *)

(** Histories are read from the memory with their calls beside the content. *)
Definition reads_simple {W} `{Runtime W} : Prop :=
  forall session_id w w' l, read_session_messages session_id w = (w', Return l) -> Forall simple_content l.

Lemma filter_forall {A} (P : A -> Prop) p l : Forall P l -> Forall P (List.filter p l).
Proof. intros Hl. apply Forall_forall. intros x [Hx _]%List_filter_elem. by apply (proj1 (Forall_forall _ _) Hl). Qed.

Lemma latest_simple l : Forall simple_content l -> Forall simple_content (build_latest_compressed_context l).
Proof.
  intros Hl. unfold build_latest_compressed_context. destruct (last_index _ l) as [latest|]; [|by apply filter_forall].
  destruct (first_index _ _).
  - rewrite !Forall_app. split_and!; [by apply filter_forall, Forall_take| |by apply filter_forall].
    destruct (l !! latest) as [m|] eqn:Hm; constructor; [by eapply Forall_lookup_1|constructor].
  - apply Forall_forall. intros m ([i x] & Heq & Hin)%list_elem_of_fmap. cbn in Heq. subst m.
    apply List_filter_elem in Hin as [Hin _]. apply elem_of_lookup_imap in Hin as (j & y & [= -> ->] & Hy).
    by eapply Forall_lookup_1.
Qed.

Section prepared.
Context {W : Type} `{Runtime W} (wiring : ContextWiring W).

Ltac step_state := repeat first
  [ apply await_same_state
  | match goal with |- within same_state (on_exception _ _) => unfold on_exception end
  | progress step_within ].

Lemma plan_same_state l : within same_state (plan_context wiring l).
Proof. unfold plan_context, check_cooldown. step_state. Qed.
Lemma skills_same_state : within same_state (skills_index wiring).
Proof. unfold skills_index. step_state. Qed.
Lemma activated_same_state raw : within same_state (activated_skills wiring raw).
Proof. unfold activated_skills. step_state. Qed.
End prepared.

(** C39. The messages prepared for a turn are well formed for every provider:
    after the system prompt, the stored history and the input follow each call with answers
    to all its calls, and no answer stands without its call, whatever was stored, whatever
    compression marked, and whatever part of it a crash left unfinished, if the input is
    well formed and no stored content hides further calls inside. *)
Theorem prepared_history_paired (W : Type) (rt : Runtime W) (wiring : ContextWiring W) t t' :
  reads_simple -> paired (input_messages (st t)) ->
  build_context_state wiring t = (t', Return tt) -> paired (working_messages (st t')).
Proof.
  intros Hread Hin Hrun. revert t' Hrun.
  enough (ends (build_context_state wiring) (fun _ t' => paired (working_messages (st t'))) t) as He by (intros t'; apply He).
  unfold build_context_state, stop_if_cancelled. apply ends_bind, ends_with_turn.
  destruct (is_cancelled _ _); [apply ends_raise|apply ends_ret]. apply ends_with_state. apply ends_bind.
  intros t1 messages Hmsgs. unfold await in Hmsgs.
  destruct (read_session_messages _ (wd t)) as [w [l|e]] eqn:Hl; [|done]. injection Hmsgs as <- <-.
  apply Hread in Hl. apply ends_bind. eapply within_ends; [apply await_same_state|]. intros summary t2 H2.
  apply ends_bind. eapply within_ends; [apply plan_same_state|]. intros plan t3 H3.
  apply ends_bind, ends_modify. set (t4 := t3 <| st := _ |>).
  assert (H4 : input_messages (st t4) = input_messages (st t)) by (cbn; by rewrite H3, H2).
  clearbody t4. apply ends_bind. eapply within_ends; [apply skills_same_state|]. intros index t5 H5.
  apply ends_bind. eapply within_ends; [apply activated_same_state|]. intros activated t6 H6.
  apply ends_modify. cbn -[build_latest_compressed_context]. rewrite H6, H5, H4.
  apply paired_plain; [done|done|]. apply pairing_app; [|done]. apply provider_paired.
  eapply sanitize_paired, latest_simple, filter_forall, Hl.
Qed.

(** * Examples *)

Definition said_by (role text : string) : dict := [("role", JStr role); ("content", JStr text)].
Definition shell_json (id : string) : json :=
  JObj [("id", JStr id); ("function", JObj [("name", JStr "shell"); ("arguments", JStr "{}")])].
Definition called : dict := [("role", JStr "assistant"); ("content", JStr ""); ("tool_calls", JArr [shell_json "c1"; shell_json "c2"])].
Definition answered (id : string) : dict := [("role", JStr "tool"); ("tool_call_id", JStr id); ("content", JStr "ok")].
Definition long_history : list dict :=
  [said_by "user" "start"; called; answered "c1"; said_by "user" "go on"; said_by "assistant" "done"; said_by "user" "thanks"].

(** A message stays at each end; the calls and their answers go into the summary. *)
Definition small_config : CompressorConfig :=
  mkCompressorConfig "m1" 32000 (float_of_int 1) 1 1 (float_of_int 1) (float_of_int 300) false.
Definition summarizing : LLMProvider unit :=
  Build_LLMProvider unit (fun _ _ _ _ => ret (Some (mkLLMResult (said_by "assistant" "files listed") "stop" []))).

Lemma compression_sound_witness : exists r,
  (compress (H := summarizing) small_config None None (float_of_int 1) long_history None true "" tt).2 = Return r
  /\ compressed r = true /\ paired (cc_messages r)
  /\ List.filter is_summary_message (cc_messages r) = [summary_message "files listed"].
Proof.
  eexists. split; [vm_compute; reflexivity|]. split; [reflexivity|].
  destruct (compression_sound unit summarizing small_config None None (float_of_int 1) long_history None true "" tt) as [_ Hr].
  { repeat constructor; try done. intros _. by eexists. }
  destruct (Hr _ ltac:(vm_compute; reflexivity)) as [_ Hc]. destruct (Hc eq_refl) as (Hp & Hs & _). split; [exact Hp|exact Hs].
Defined.

(** A history with an answer nobody asked for. *)
Definition stray_answer : Message.t :=
  Message.mk "m2" "s" "tool" (JStr "ok") (Some "c9") None 2 false false None None None "user".
Definition first_question : Message.t :=
  Message.mk "m1" "s" "user" (JStr "start") None None 1 false false None None None "user".
Definition reading_memory : RuntimeMemory (ToolService.world nat) :=
  Build_RuntimeMemory _ (fun _ => ret [first_question; stray_answer]) (fun _ => ret None) (fun _ _ _ => ret tt)
    (fun _ _ _ _ => ret tt) (fun _ _ _ _ => ret tt) (fun _ _ => ret "m") (fun _ _ => ret tt) (fun _ _ _ => ret tt)
    (fun _ _ _ _ _ _ _ => ret tt) (fun _ _ _ _ => ret tt) (fun _ _ _ _ _ _ => ret tt) (fun _ _ _ => ret "").
Definition reading_runtime : Runtime nat :=
  Build_Runtime nat (runtime_env (Runtime := looping)) reading_memory (runtime_provider (Runtime := looping)) (fun _ _ => false) None
    (fun _ => (None, "m1")) None None (fun _ => ret tt) (fun _ => "it failed").

Lemma prepared_history_paired_witness :
  map (fun m => dict_get m "role") (working_messages (st (build_context_state (H := reading_runtime) example_context example_turn).1))
    = [JStr "system"; JStr "user"; JStr "user"]
  /\ paired (working_messages (st (build_context_state (H := reading_runtime) example_context example_turn).1)).
Proof.
  split; [vm_compute; reflexivity|].
  apply (prepared_history_paired nat reading_runtime example_context example_turn).
  - intros i w w' l [= _ <-]. by repeat constructor.
  - apply paired_plain; [reflexivity|reflexivity|constructor].
  - apply injective_projections; vm_compute; reflexivity.
Defined.

Notation ids := (map Message.id).

(** * Filtering by identity *)

Definition outside_of (l : list Message.t) (m : Message.t) : bool := negb (bool_decide (Message.id m ∈ ids l)).
Definition said (m : Message.t) : bool := negb (Message.is_summary m).
Definition covered (m : Message.t) : bool := Message.is_summarized m && said m.

Lemma filter_outside x y : NoDup (ids (x ++ y)) -> List.filter (outside_of x) (x ++ y) = y.
Proof.
  rewrite map_app, NoDup_app. intros (_ & Hd & _). rewrite List.filter_app.
  replace (List.filter (outside_of x) x) with (@nil Message.t).
  - apply filter_all, Forall_forall. intros m Hm. unfold outside_of. apply negb_true_iff, bool_decide_eq_false_2.
    intros Hx. apply (Hd _ Hx), list_elem_of_fmap. by exists m.
  - symmetry. clear Hd. assert (Hall : forall l, (forall m, m ∈ l -> outside_of x m = false) -> List.filter (outside_of x) l = []).
    { induction l as [|m l IH]; [done|]. intros Hl. cbn. rewrite Hl by (apply elem_of_cons; by left).
      apply IH. intros m' Hm'. apply Hl, elem_of_cons. by right. }
    apply Hall. intros m Hm. apply negb_false_iff, bool_decide_eq_true_2, list_elem_of_fmap. by exists m.
Qed.

Lemma filter_filter {A} (p q : A -> bool) l : List.filter p (List.filter q l) = List.filter (fun x => q x && p x) l.
Proof. induction l as [|x l IH]; [done|]. cbn. destruct (q x); cbn; [|done]. by destruct (p x); rewrite IH. Qed.

Lemma filter_ext_mem {A} (p q : A -> bool) l : (forall x, x ∈ l -> p x = q x) -> List.filter p l = List.filter q l.
Proof.
  induction l as [|x l IH]; [done|]. intros Hl. cbn. rewrite (Hl x) by (apply elem_of_cons; by left).
  rewrite IH; [done|]. intros y Hy. apply Hl, elem_of_cons. by right.
Qed.

Lemma filter_none {A} (p : A -> bool) l : (forall x, x ∈ l -> p x = false) -> List.filter p l = [].
Proof. intros Hl. rewrite (filter_ext_mem p (fun _ => false) l Hl). clear Hl. by induction l. Qed.

Lemma same_id l m m' : NoDup (ids l) -> m ∈ l -> m' ∈ l -> Message.id m = Message.id m' -> m = m'.
Proof.
  induction l as [|x l IH]; [by intros _ ?%elem_of_nil|]. cbn. intros [Hx Hn]%NoDup_cons Hm Hm' Heq.
  apply elem_of_cons in Hm, Hm'. destruct Hm as [->|Hm], Hm' as [->|Hm']; [done| | |by apply IH].
  - exfalso. apply Hx. rewrite Heq. apply list_elem_of_fmap. eauto.
  - exfalso. apply Hx. rewrite <- Heq. apply list_elem_of_fmap. eauto.
Qed.

(** * Indices *)

Lemma first_index_split {A} (p : A -> bool) l i :
  first_index p l = Some i -> exists x, l = take i l ++ x :: drop (S i) l /\ p x = true /\ forall y, y ∈ take i l -> p y = false.
Proof.
  revert i. induction l as [|x l IH]; intros i; [done|]. cbn. destruct (p x) eqn:Hx.
  - intros [= <-]. exists x. cbn. split_and!; [done..|]. by intros y ?%elem_of_nil.
  - destruct (first_index p l) as [j|] eqn:Hj; [|done]. intros [= <-]. destruct (IH j eq_refl) as (y & Heq & Hy & Hall).
    exists y. cbn. split_and!; [by f_equal|done|]. intros z [->|Hz]%elem_of_cons; auto.
Qed.

Lemma first_index_none {A} (p : A -> bool) l : first_index p l = None -> forall x, x ∈ l -> p x = false.
Proof.
  induction l as [|y l IH]; [by intros _ x ?%elem_of_nil|]. cbn. destruct (p y) eqn:Hy; [done|].
  destruct (first_index p l); [done|]. intros _ x [->|Hx]%elem_of_cons; auto.
Qed.

Lemma first_index_at {A} (p : A -> bool) l x l' :
  (forall y, y ∈ l -> p y = false) -> p x = true -> first_index p (l ++ x :: l') = Some (length l).
Proof.
  induction l as [|y l IH]; intros Hl Hx; cbn; [by rewrite Hx|]. rewrite Hl by (apply elem_of_cons; by left).
  rewrite IH; [done| |done]. intros z Hz. apply Hl, elem_of_cons. by right.
Qed.

Lemma last_index_split {A} (p : A -> bool) l i :
  last_index p l = Some i -> exists x, l !! i = Some x /\ p x = true /\ forall y, y ∈ drop (S i) l -> p y = false.
Proof.
  revert i. induction l as [|x l IH]; intros i; [done|]. cbn. destruct (last_index p l) as [j|] eqn:Hj.
  - intros [= <-]. destruct (IH j eq_refl) as (y & Heq & Hy & Hall). by exists y.
  - destruct (p x) eqn:Hx; [|done]. intros [= <-]. exists x. cbn. rewrite drop_0. split_and!; [done..|].
    clear -Hj. induction l as [|z l IH]; [by intros y ?%elem_of_nil|]. cbn in Hj.
    destruct (last_index p l); [done|]. destruct (p z) eqn:Hz; [done|]. intros y [->|Hy]%elem_of_cons; auto.
Qed.

Lemma last_index_snoc {A} (p : A -> bool) l x : p x = true -> last_index p (l ++ [x]) = Some (length l).
Proof. intros Hx. induction l as [|y l IH]; cbn; [by rewrite Hx|by rewrite IH]. Qed.

Lemma last_index_none {A} (p : A -> bool) l : last_index p l = None -> forall x, x ∈ l -> p x = false.
Proof.
  induction l as [|y l IH]; [by intros _ x ?%elem_of_nil|]. cbn. destruct (last_index p l); [done|].
  destruct (p y) eqn:Hy; [done|]. intros _ x [->|Hx]%elem_of_cons; auto.
Qed.

(** * The history *)

(** Only messages before some summary are summarized. *)
Definition settled_history (l : list Message.t) : Prop :=
  forall a x b, l = a ++ x :: b -> covered x = true -> exists y, y ∈ b /\ Message.is_summary y = true.

Lemma plain_said m : plain m = said m && negb (Message.is_summarized m).
Proof. done. Qed.

(** With a covered message, the history is the head, the summary and the tail. *)
Lemma covered_history l a x b :
  NoDup (ids l) -> settled_history l -> l = a ++ x :: b -> (forall y, y ∈ a -> covered y = false) -> covered x = true ->
  exists s tail, build_latest_compressed_context l = List.filter plain a ++ s :: tail /\ Message.is_summary s = true
                 /\ tail = List.filter plain (x :: b) /\ s ∈ l.
Proof.
  intros Hn Hset Heq Ha Hx. destruct (Hset a x b Heq Hx) as (y & Hy & Hsum).
  unfold build_latest_compressed_context. destruct (last_index Message.is_summary l) as [latest|] eqn:Hlast.
  2: { exfalso. pose proof (last_index_none _ _ Hlast y) as Hno. rewrite Hno in Hsum; [done|].
       subst l. apply elem_of_app. right. apply elem_of_cons. by right. }
  destruct (last_index_split _ _ _ Hlast) as (s & Hs & Hsumm & Hafter).
  assert (Hlt : (length a < latest)%nat).
  { destruct (decide (length a < latest)%nat) as [|Hge]; [done|]. exfalso.
    assert (Hin : y ∈ drop (S latest) l).
    { subst l. rewrite drop_app. apply elem_of_app. right. destruct (decide (length a = latest)) as [He|He].
      - replace (S latest - length a)%nat with 1%nat by lia. cbn. by rewrite drop_0.
      - replace (S latest - length a)%nat with 0%nat by lia. apply elem_of_cons. by right. }
    by rewrite (Hafter y Hin) in Hsum. }
  assert (Htake : take latest l = a ++ x :: take (latest - length a - 1) b).
  { subst l. rewrite take_app, take_ge by lia. f_equal. destruct (latest - length a)%nat eqn:Hd; [lia|]. cbn.
    by rewrite Nat.sub_0_r. }
  assert (Hfirst : first_index (fun m => Message.is_summarized m && negb (Message.is_summary m)) (take latest l) = Some (length a)).
  { rewrite Htake. by apply first_index_at. }
  cbn zeta. rewrite Hfirst. assert (Hpre : take (length a) l = a) by (subst l; apply take_app_length). rewrite Hpre.
  rewrite Hs. cbn [option_list].
  assert (Hsplit : List.filter plain l = List.filter plain a ++ List.filter plain (x :: b)) by (subst l; apply List.filter_app).
  exists s, (List.filter plain (x :: b)). split; [|split_and!; [done|done|by eapply list_elem_of_lookup_2]].
  f_equal. change ([s] ++ ?t) with (s :: t). f_equal.
  rewrite <- (filter_filter _ plain), Hsplit. apply filter_outside. rewrite <- Hsplit. by apply NoDup_map_filter.
Qed.

Lemma first_covered l : (exists a x b, l = a ++ x :: b /\ covered x = true /\ forall y, y ∈ a -> covered y = false)
  \/ forall x, x ∈ l -> covered x = false.
Proof.
  destruct (first_index covered l) as [i|] eqn:Hi; [|right; by apply first_index_none].
  destruct (first_index_split _ _ _ Hi) as (x & Heq & Hx & Ha). left. by exists (take i l), x, (drop (S i) l).
Qed.

(** Dropping summaries but one does not change what is said. *)
Lemma latest_only latest (ps : list (nat * Message.t)) :
  List.filter said (List.filter (fun p => negb (Message.is_summary p.2) || Nat.eqb p.1 latest) ps).*2 = List.filter said ps.*2.
Proof.
  induction ps as [|[i m] ps IH]; [done|]. cbn. unfold said at 2. destruct (Message.is_summary m) eqn:Hm; cbn.
  - destruct (Nat.eqb i latest); cbn; [|done]. unfold said at 1. by rewrite Hm.
  - unfold said at 1. rewrite Hm. cbn. by rewrite IH.
Qed.

(** What the history says, without its summaries, is what is not covered. *)
Lemma history_said l : NoDup (ids l) -> settled_history l ->
  List.filter said (build_latest_compressed_context l) = List.filter plain l.
Proof.
  intros Hn Hset. destruct (first_covered l) as [(a & x & b & Heq & Hx & Ha)|Hnone].
  - destruct (covered_history l a x b Hn Hset Heq Ha Hx) as (s & tail & -> & Hs & -> & _).
    rewrite List.filter_app. cbn [List.filter]. unfold said at 2. rewrite Hs. cbn.
    change (if plain x then x :: List.filter plain b else List.filter plain b) with (List.filter plain (x :: b)).
    subst l. rewrite List.filter_app. rewrite !filter_filter.
    assert (Hps : forall m, plain m && said m = plain m) by (intros m; unfold plain, said; by destruct (Message.is_summary m), (Message.is_summarized m)).
    f_equal; apply filter_ext_mem; intros; apply Hps.
  - assert (Hps : forall m, m ∈ l -> said m = plain m).
    { intros m Hm. specialize (Hnone m Hm). unfold covered, said, plain in *.
      destruct (Message.is_summary m), (Message.is_summarized m); done. }
    unfold build_latest_compressed_context. destruct (last_index Message.is_summary l) as [latest|] eqn:Hlast.
    + assert (Hfirst : first_index (fun m => Message.is_summarized m && negb (Message.is_summary m)) (take latest l) = None).
      { destruct (first_index _ (take latest l)) as [i|] eqn:Hi; [|done].
        destruct (first_index_split _ _ _ Hi) as (x & Heq & Hx & _). exfalso.
        assert (Hin : x ∈ take latest l) by (rewrite Heq; apply elem_of_app; right; apply elem_of_cons; by left).
        apply elem_of_take in Hin as (j & Hj & _). specialize (Hnone x (list_elem_of_lookup_2 _ _ _ Hj)).
        unfold covered, said in Hnone. by rewrite Hx in Hnone. }
      rewrite Hfirst. destruct (last_index_split _ _ _ Hlast) as (s & Hs & Hsumm & _).
      rewrite <- (filter_ext_mem _ _ l Hps). clear Hfirst Hps Hnone Hlast Hset Hn.
      rewrite latest_only. f_equal. change (fmap snd (imap pair l) = l). rewrite fmap_imap.
      change (snd ∘ pair _) with (fun x : Message.t => x). apply list_eq. intros j. rewrite list_lookup_imap. by destruct (l !! j).
    + rewrite filter_filter. apply filter_ext_mem. intros m Hm. unfold plain, said. apply andb_comm.
Qed.

(** * Reading a compression back *)

Definition mark (l : list Message.t) (m : Message.t) : Message.t :=
  if bool_decide (Message.id m ∈ ids l) then m <| Message.is_summarized := true |> else m.

Lemma mark_id l m : Message.id (mark l m) = Message.id m.
Proof. unfold mark. by case_bool_decide. Qed.
Lemma mark_said l m : said (mark l m) = said m.
Proof. unfold mark. by case_bool_decide. Qed.
Lemma mark_plain l m : plain (mark l m) = plain m && outside_of l m.
Proof. unfold mark, plain, outside_of. case_bool_decide; cbn; [by rewrite !andb_false_r|by rewrite andb_true_r]. Qed.
Lemma mark_covered l m : covered (mark l m) = said m && negb (plain m && outside_of l m).
Proof.
  unfold covered. rewrite mark_said. unfold mark, plain, said, outside_of.
  case_bool_decide; cbn; destruct (Message.is_summary m), (Message.is_summarized m); done.
Qed.
Lemma mark_kept l m : outside_of l m = true -> mark l m = m.
Proof. unfold outside_of, mark. by case_bool_decide. Qed.

Lemma filter_marked l msgs : List.filter plain (map (mark l) msgs) = List.filter (fun m => plain m && outside_of l m) msgs.
Proof.
  induction msgs as [|m msgs IH]; [done|]. cbn. rewrite mark_plain. destruct (plain m && outside_of l m) eqn:Hm; [|done].
  rewrite mark_kept by (by apply andb_prop in Hm as [_ ?]). by rewrite IH.
Qed.

(** The parts of the history that are no summaries, in the order of the messages. *)
Section reload.
Context (msgs head middle tail : list Message.t) (new : Message.t).
Context (Hn : NoDup (ids msgs)) (Hset : settled_history msgs).
Context (Hview : build_latest_compressed_context msgs = head ++ middle ++ tail).
Context (Hhead : Forall (fun m => said m = true) head) (Htail : Forall (fun m => said m = true) tail).
Context (Hmid : List.filter said middle <> []) (Hnew : Message.is_summary new = true).

Let spoken := List.filter said middle.

Lemma plain_parts : List.filter plain msgs = head ++ spoken ++ tail.
Proof.
  rewrite <- (history_said msgs Hn Hset), Hview, !List.filter_app. by rewrite (filter_all said head), (filter_all said tail).
Qed.

Lemma parts_nodup : NoDup (ids (head ++ spoken ++ tail)).
Proof. rewrite <- plain_parts. by apply NoDup_map_filter. Qed.

Lemma view_in m : m ∈ head ++ middle ++ tail -> m ∈ msgs.
Proof.
  rewrite <- Hview. unfold build_latest_compressed_context. destruct (last_index _ msgs) as [latest|]; [|by intros [? _]%List_filter_elem].
  destruct (first_index _ _).
  - rewrite !elem_of_app. intros [[Hm _]%List_filter_elem|[Hm|[Hm _]%List_filter_elem]]; [| |done].
    + by apply elem_of_take in Hm as (? & ? & _); eapply list_elem_of_lookup_2.
    + destruct (msgs !! latest) as [x|] eqn:Hx; cbn in Hm; [|by apply elem_of_nil in Hm].
      apply list_elem_of_singleton in Hm as ->. by eapply list_elem_of_lookup_2.
  - intros ([i x] & Heq & [Hin _]%List_filter_elem)%list_elem_of_fmap. cbn in Heq. subst m.
    apply elem_of_lookup_imap in Hin as (j & y & [= -> ->] & Hy). by eapply list_elem_of_lookup_2.
Qed.

(** What stays is neither in the middle nor a summary. *)
Lemma outside_parts m : m ∈ head ++ spoken ++ tail -> outside_of middle m = outside_of spoken m.
Proof.
  intros Hm. unfold outside_of. f_equal. apply bool_decide_ext. split.
  - intros (m' & Heq & Hm')%list_elem_of_fmap. assert (m = m') as <-.
    { apply (same_id msgs); [done| | |done].
      - apply view_in. rewrite !elem_of_app in *. destruct Hm as [|[[? _]%List_filter_elem|]]; auto.
      - apply view_in. rewrite !elem_of_app. auto. }
    apply list_elem_of_fmap. exists m. split; [done|].
    apply List_filter_elem. split; [done|]. rewrite !elem_of_app in Hm. destruct Hm as [Hm|[[_ Hm]%List_filter_elem|Hm]]; [|done|].
    + by apply (proj1 (Forall_forall _ _) Hhead).
    + by apply (proj1 (Forall_forall _ _) Htail).
  - intros (m' & Heq & [Hin _]%List_filter_elem)%list_elem_of_fmap. apply list_elem_of_fmap. by exists m'.
Qed.

Lemma outside_disjoint l l' : (forall i, i ∈ ids l -> i ∉ ids l') -> List.filter (outside_of l') l = l.
Proof.
  intros Hd. apply filter_all, Forall_forall. intros m Hm. apply negb_true_iff, bool_decide_eq_false_2, Hd.
  apply list_elem_of_fmap. by exists m.
Qed.

Lemma stays : List.filter (fun m => plain m && outside_of middle m) msgs = head ++ tail.
Proof.
  rewrite <- (filter_filter (outside_of middle) plain), plain_parts.
  rewrite (filter_ext_mem _ (outside_of spoken)) by apply outside_parts.
  pose proof parts_nodup as Hp. rewrite !map_app, !NoDup_app in Hp. destruct Hp as (_ & H1 & _ & H2 & _).
  rewrite !List.filter_app, (outside_disjoint head), (filter_none _ spoken), (outside_disjoint tail); [done| | |].
  - intros i Ht Hs. by apply (H2 i).
  - intros m Hm. apply negb_false_iff, bool_decide_eq_true_2, list_elem_of_fmap. by exists m.
  - intros i Hh Hs. apply (H1 i Hh), elem_of_app. by left.
Qed.

(** The messages before the first covered one are the head. *)
Lemma head_first a x b :
  msgs = a ++ x :: b -> (forall y, y ∈ a -> covered (mark middle y) = false) -> covered (mark middle x) = true ->
  List.filter plain a = head.
Proof.
  intros Heq Ha Hx.
  assert (Hold : forall y, covered (mark middle y) = false -> covered y = false).
  { intros y. rewrite mark_covered. unfold covered, plain, said. destruct (Message.is_summary y), (Message.is_summarized y); done. }
  assert (Hparts : List.filter plain a ++ List.filter plain (x :: b) = head ++ spoken ++ tail).
  { rewrite <- plain_parts, Heq. by rewrite List.filter_app. }
  assert (Haway : forall y, y ∈ List.filter plain a -> y ∉ spoken).
  { intros y [Hy Hpl]%List_filter_elem [Hm Hsaid]%List_filter_elem. specialize (Ha y Hy). rewrite mark_covered, Hsaid, Hpl in Ha. cbn in Ha.
    unfold outside_of in Ha. rewrite bool_decide_eq_true_2 in Ha; [done|]. apply list_elem_of_fmap. by exists y. }
  destruct (app_eq_inv _ _ _ _ Hparts) as [(k & Hh & Hk)|(k & Hh & Hk)].
  - rewrite Hh. assert (k = []) as ->; [|by rewrite app_nil_r].
    destruct k as [|y k]; [done|]. exfalso.
    unfold spoken in Hk. destruct (List.filter said middle) as [|z sp] eqn:Hsp; [done|]. injection Hk as -> _.
    apply (Haway y); [rewrite Hh; apply elem_of_app; right|]; unfold spoken; rewrite ?Hsp; apply elem_of_cons; by left.
  - rewrite Hh. destruct k as [|y k]; [by rewrite app_nil_r|]. exfalso.
    assert (Hy : y ∈ head) by (rewrite Hh; apply elem_of_app; right; apply elem_of_cons; by left).
    cbn [List.filter] in Hk. destruct (plain x) eqn:Hpl.
    + injection Hk as <- _. rewrite mark_covered, Hpl in Hx. cbn [andb] in Hx.
      assert (Hin : x ∈ head ++ spoken ++ tail) by (apply elem_of_app; by left).
      rewrite (outside_parts x Hin) in Hx. pose proof parts_nodup as Hp. rewrite map_app, NoDup_app in Hp.
      destruct Hp as (_ & Hd & _). apply (Hd (Message.id x)); [apply list_elem_of_fmap; by exists x|].
      rewrite map_app. apply elem_of_app. left. apply andb_prop in Hx as [_ Hx%negb_true_iff].
      unfold outside_of in Hx. by apply negb_false_iff, bool_decide_eq_true_1 in Hx.
    + assert (Hc : covered x = true).
      { rewrite mark_covered, Hpl in Hx. unfold covered. unfold plain, said in *.
        destruct (Message.is_summary x), (Message.is_summarized x); done. }
      destruct (covered_history msgs a x b Hn Hset Heq (fun y H => Hold y (Ha y H)) Hc) as (s & tl & Hv & Hs & _).
      rewrite Hview, Hh, <- !app_assoc in Hv. apply app_inv_head in Hv. injection Hv as -> _.
      pose proof (proj1 (Forall_forall _ _) Hhead s Hy) as Hsaid. unfold said in Hsaid. by rewrite Hs in Hsaid.
Qed.

(** The stored compression, as it is read. *)
Lemma reloaded : build_latest_compressed_context (map (mark middle) msgs ++ [new]) = head ++ [new] ++ tail.
Proof.
  unfold build_latest_compressed_context. rewrite last_index_snoc by done. rewrite length_map.
  replace (take (length msgs) (map (mark middle) msgs ++ [new])) with (map (mark middle) msgs)
    by (rewrite <- (length_map (mark middle) msgs) at 1; by rewrite take_app_length).
  destruct (first_covered (map (mark middle) msgs)) as [(a' & x' & b' & Heq & Hx & Ha)|Hnone].
  2: { exfalso. apply Hmid. destruct (List.filter said middle) as [|m sp] eqn:Hsp; [done|]. exfalso.
       assert (Hm : m ∈ List.filter said middle) by (rewrite Hsp; apply elem_of_cons; by left).
       apply List_filter_elem in Hm as [Hm Hsaid].
       assert (Hin : mark middle m ∈ map (mark middle) msgs).
       { apply list_elem_of_fmap. exists m. split; [done|]. apply view_in. rewrite !elem_of_app. auto. }
       specialize (Hnone _ Hin). rewrite mark_covered, Hsaid in Hnone. unfold outside_of in Hnone.
       rewrite bool_decide_eq_true_2 in Hnone by (apply list_elem_of_fmap; by exists m). by rewrite andb_false_r in Hnone. }
  apply map_eq_app in Heq as (a & l & Hmsgs & <- & Heq). apply map_eq_cons in Heq as (x & b & -> & <- & <-).
  assert (Hfirst : first_index (fun m => Message.is_summarized m && negb (Message.is_summary m)) (map (mark middle) msgs)
                   = Some (length a)).
  { rewrite Hmsgs, map_app. cbn [map]. rewrite <- (length_map (mark middle) a). by apply first_index_at. }
  assert (Hlast : (map (mark middle) msgs ++ [new]) !! length msgs = Some new).
  { rewrite lookup_app_r by (rewrite length_map; lia). by rewrite length_map, Nat.sub_diag. }
  cbn zeta. rewrite Hfirst, Hlast.
  assert (Hpre : take (length a) (map (mark middle) msgs ++ [new]) = map (mark middle) a).
  { rewrite Hmsgs, map_app, <- app_assoc, <- (length_map (mark middle) a). apply take_app_length. }
  assert (Hhd : List.filter plain (map (mark middle) a) = head).
  { rewrite filter_marked, <- (head_first a x b Hmsgs); [|intros y Hy; apply Ha, list_elem_of_fmap; by exists y|done].
    apply filter_ext_mem. intros y Hy.
    assert (Hc : covered (mark middle y) = false) by (apply Ha, list_elem_of_fmap; by exists y).
    rewrite mark_covered in Hc. unfold plain, said in *.
    by destruct (Message.is_summary y), (Message.is_summarized y), (outside_of middle y). }
  rewrite Hpre, Hhd. cbn [option_list]. do 2 f_equal.
  rewrite <- (filter_filter (outside_of head) plain), List.filter_app, filter_marked, stays.
  replace (List.filter plain [new]) with (@nil Message.t) by (cbn; unfold plain; by rewrite Hnew).
  rewrite app_nil_r. apply filter_outside.
  pose proof parts_nodup as Hp. rewrite !map_app, !NoDup_app in *. destruct Hp as (H1 & H2 & _ & _ & H3).
  split_and!; [done| |done]. intros i Hi Ht. apply (H2 i Hi), elem_of_app. by right.
Qed.
End reload.

(** * In the store *)

Lemma order_by_snoc {A} (leb : A -> A -> bool) l z :
  (forall x, x ∈ l -> leb x z = true) -> order_by leb (l ++ [z]) = order_by leb l ++ [z].
Proof.
  intros Hz. unfold order_by. rewrite foldr_app. cbn [foldr insert_by].
  induction l as [|x l IH]; [done|]. cbn [foldr]. rewrite IH by (intros y Hy; apply Hz, elem_of_cons; by right).
  assert (Hx : leb x z = true) by (apply Hz, elem_of_cons; by left). clear -Hx.
  induction (foldr (insert_by leb) [] l) as [|y l' IHl]; cbn; [by rewrite Hx|]. destruct (leb x y); [done|]. by rewrite IHl.
Qed.

Lemma order_by_map {A} (leb : A -> A -> bool) f l :
  (forall x y, leb (f x) (f y) = leb x y) -> order_by leb (map f l) = map f (order_by leb l).
Proof.
  intros Hf. unfold order_by. induction l as [|x l IH]; [done|]. cbn. rewrite IH. clear IH.
  induction (foldr (insert_by leb) [] l) as [|y l' IHl]; [done|]. cbn. rewrite Hf. destruct (leb x y); [done|].
  cbn. by rewrite IHl.
Qed.

Lemma filter_map_same {A} (p : A -> bool) f l : (forall x, p (f x) = p x) -> List.filter p (map f l) = map f (List.filter p l).
Proof. intros Hf. induction l as [|x l IH]; [done|]. cbn. rewrite Hf, IH. by destruct (p x). Qed.

Lemma append_row_messages cur now d i m d1 m1 :
  append_row cur now d i m = (d1, Return m1) ->
  m1 = m /\ db_messages d1 = db_messages d ++ [m] /\ Message.id m ∉ ids (db_messages d).
Proof.
  unfold append_row. set (d0 := if bool_decide _ then _ else d).
  assert (Hd0 : db_messages d0 = db_messages d).
  { unfold d0. destruct (bool_decide _); [|done]. unfold create_session. by case_match. }
  clearbody d0. destruct (validate_run_session _ _ _ _ _); [done|]. unfold insert_message.
  destruct (existsb _ _) eqn:He; [done|]. intros [= <- <-]. cbn. rewrite Hd0. split_and!; [done|done|].
  intros (m' & Hid & Hin)%list_elem_of_fmap. rewrite <- Hd0 in Hin.
  assert (Ht : existsb (fun x => bool_decide (Message.id x = Message.id m)) (db_messages d0) = true); [|congruence].
  apply existsb_exists. exists m'. split; [by apply list_elem_of_In|]. by apply bool_decide_eq_true_2.
Qed.

Lemma messages_nodup d i : store_ok d -> NoDup (ids (list_messages d i)).
Proof.
  intros Hd. unfold list_messages. change ids with (fmap Message.id : list _ -> list _). rewrite order_by_perm.
  apply (NoDup_map_filter Message.id), Hd.
Qed.

Lemma settled_marked l msgs new :
  Message.is_summary new = true -> settled_history (map (mark l) msgs ++ [new]).
Proof.
  intros Hnew a x b Heq Hx. exists new. split; [|done].
  destruct (exists_last (l := x :: b)) as (b' & y & Hb); [done|]. rewrite Hb, app_assoc in Heq.
  apply app_inj_tail in Heq as [_ <-]. destruct b' as [|x' b']; cbn in Hb; injection Hb as Hx' Hb.
  - subst x. unfold covered, said in Hx. by rewrite Hnew, andb_false_r in Hx.
  - rewrite Hb. apply elem_of_app. right. by apply list_elem_of_singleton.
Qed.

(** The rows of a session after its middle was marked. *)
Lemma marked_messages d d1 i m middle :
  store_ok d -> (forall x, x ∈ middle -> x ∈ list_messages d i) ->
  (forall x, x ∈ list_messages d i -> Message.created_at x <= Message.created_at m) ->
  Message.session_id m = i -> Message.id m ∉ ids (db_messages d) -> db_messages d1 = db_messages d ++ [m] ->
  list_messages (d1 <| db_messages := map (fun x => if of_session i x && bool_decide (Message.id x ∈ ids middle)
                                               then x <| Message.is_summarized := true |> else x) (db_messages d1) |>) i
  = map (mark middle) (list_messages d i) ++ [m].
Proof.
  intros Hd Hmid Hlate Hi Hfresh Hd1. unfold list_messages in *. cbn [db_messages]. cbn.
  match goal with |- foldr (insert_by ?leb) [] ?l = _ => change (foldr (insert_by leb) [] l) with (order_by leb l) end.
  set (set_mark := fun x => if of_session i x && _ then _ else x).
  assert (Hof : forall x, of_session i (set_mark x) = of_session i x) by (intros x; unfold set_mark; by destruct (_ && _)).
  rewrite (filter_map_same _ _ _ Hof), Hd1, List.filter_app. cbn [List.filter].
  assert (Hm : of_session i m = true) by (by apply bool_decide_eq_true_2). rewrite Hm, map_app. cbn [map].
  assert (Hkeep : set_mark m = m).
  { unfold set_mark. rewrite Hm. cbn [andb]. rewrite bool_decide_eq_false_2; [done|].
    intros (x & Hid & Hx)%list_elem_of_fmap. apply Hfresh. rewrite Hid. apply list_elem_of_fmap. exists x. split; [done|].
    specialize (Hmid x Hx). rewrite order_by_perm in Hmid. by apply List_filter_elem in Hmid as [? _]. }
  rewrite Hkeep.
  assert (Hsame : map set_mark (List.filter (of_session i) (db_messages d)) = map (mark middle) (List.filter (of_session i) (db_messages d))).
  { apply map_ext_in. intros x Hx. apply List.filter_In in Hx as [_ Hx]. unfold set_mark, mark. by rewrite Hx. }
  rewrite Hsame, order_by_snoc.
  - rewrite order_by_map; [done|]. intros x y. unfold mark. by do 2 case_bool_decide.
  - intros x (y & -> & Hy)%list_elem_of_fmap. apply Z.leb_le. transitivity (Message.created_at y).
    + unfold mark. by case_bool_decide.
    + apply Hlate. by rewrite order_by_perm.
Qed.

(** C40. A compression that was stored is read back exactly: after a summary message no
    older than the messages of the session is appended to it and the messages of the middle
    are marked, the next turn builds its history as the head, the new summary and the tail, also when an
    earlier summary was in the middle; and in the stored session it again holds that only
    messages before some summary are marked. *)
Theorem compressed_history_reloads cur now d i m d1 m1 d2 n head middle tail :
  store_ok d -> settled_history (list_messages d i) ->
  build_latest_compressed_context (list_messages d i) = head ++ middle ++ tail ->
  Forall (fun x => said x = true) head -> Forall (fun x => said x = true) tail -> List.filter said middle <> [] ->
  (forall x, x ∈ list_messages d i -> Message.created_at x <= Message.created_at m) ->
  append_summary_message cur now d i m = (d1, Return m1) ->
  mark_messages_summarized cur now d1 i (ids middle) = (d2, Return n) ->
  build_latest_compressed_context (list_messages d2 i) = head ++ [m1] ++ tail /\ settled_history (list_messages d2 i).
Proof.
  intros Hd Hset Hview Hhead Htail Hmid Hlate Happ Hmark.
  assert (Hsum : Message.is_summary m1 = true /\ Message.session_id m1 = i /\ db_messages d1 = db_messages d ++ [m1]
                 /\ Message.id m1 ∉ ids (db_messages d) /\ Message.created_at m1 = Message.created_at m).
  { revert Happ. unfold append_summary_message. destruct (Message.content m); try done.
    destruct (Message.is_summary m) eqn:Hs; [|done]. destruct (_ || _); [done|].
    intros Happ. apply append_row_messages in Happ as (-> & Hdb & Hfresh). by split_and!. }
  destruct Hsum as (Hsum & Hi & Hdb & Hfresh & Hat).
  assert (Hd2 : list_messages d2 i = map (mark middle) (list_messages d i) ++ [m1]).
  { assert (Hin : forall x, x ∈ middle -> x ∈ list_messages d i).
    { intros x Hx. apply (view_in (list_messages d i) head middle tail Hview). rewrite !elem_of_app. auto. }
    revert Hmark. unfold mark_messages_summarized.
    destruct (ids middle) as [|j js] eqn:Hids; [by destruct middle|].
    destruct (validate_projection_write _ _ _ _); [done|]. intros [= <- _]. rewrite <- Hids.
    apply (marked_messages d d1 i m1 middle); try done. intros x Hx. rewrite Hat. by apply Hlate. }
  rewrite Hd2. split; [|by apply settled_marked].
  apply reloaded; try done. by apply messages_nodup.
Qed.

(** * Example: the second and third of four messages become a summary. *)

Definition note (id role text : string) (at_ : Z) : Message.t :=
  Message.mk id "s" role (JStr text) None None at_ false false None None None "user".
Definition summary_note : Message.t :=
  Message.mk "m5" "s" "user" (JStr (CONTEXT_SUMMARY_PREFIX +:+ "files listed")) None None 5 true false None None None "user".
Definition four_notes : list Message.t :=
  [note "m1" "user" "list the files" 1; note "m2" "assistant" "which ones" 2; note "m3" "user" "all" 3;
   note "m4" "assistant" "here they are" 4].
Definition append_all (d : database) (l : list Message.t) : database := foldl (fun d m => (append_message None 0 d "s" m).1) d l.
Definition notes_database : database := append_all empty_database four_notes.
Definition summed : database := (append_summary_message None 0 notes_database "s" summary_note).1.
Definition reloaded_database : database := (mark_messages_summarized None 0 summed "s" ["m2"; "m3"]).1.

Lemma append_all_ok d l : store_ok d -> store_ok (append_all d l).
Proof. revert d. induction l as [|m l IH]; [done|]. intros d Hd. cbn. apply IH. by apply append_row_ok. Qed.

Lemma compressed_history_reloads_witness :
  map Message.id (build_latest_compressed_context (list_messages reloaded_database "s")) = ["m1"; "m5"; "m4"].
Proof.
  assert (Hlist : list_messages notes_database "s" = four_notes) by (vm_compute; reflexivity).
  destruct (compressed_history_reloads None 0 notes_database "s" summary_note summed summary_note reloaded_database 2%nat
    [note "m1" "user" "list the files" 1] [note "m2" "assistant" "which ones" 2; note "m3" "user" "all" 3]
    [note "m4" "assistant" "here they are" 4]) as [-> _].
  - apply append_all_ok, empty_store_ok.
  - rewrite Hlist. intros a x b Heq Hx. exfalso.
    assert (Hin : x ∈ four_notes) by (rewrite Heq; apply elem_of_app; right; apply elem_of_cons; by left).
    assert (Hall : Forall (fun y => covered y = false) four_notes) by (repeat constructor).
    by rewrite (proj1 (Forall_forall _ _) Hall x Hin) in Hx.
  - vm_compute. reflexivity.
  - by repeat constructor.
  - by repeat constructor.
  - vm_compute. discriminate.
  - rewrite Hlist. intros x Hx. apply (proj1 (Forall_forall (fun y => Message.created_at y <= 5) four_notes)); [|done].
    repeat constructor; vm_compute; discriminate.
  - vm_compute. reflexivity.
  - vm_compute. reflexivity.
  - reflexivity.
Defined.
